(* ===== verification/_CoqProject ===== *)
-Q . S2P
Prelude.v
LibString.v
Klog.v
Memory.v
BlockDevice.v
Ramdisk.v
BlockIO.v
ListDisk.v
TinyFS.v
Vfs.v
FileTable.v
LogFS.v
LogTables.v
LogDisk.v
LogWrite.v
LogMount.v
LogRemount.v
LogSample.v
Input.v
Task.v
Graphics.v
Cursor.v
Theme.v
DesktopWindow.v
DesktopInput.v
Editor.v
EditorView.v
MMU.v
UserProgram.v
UserPages.v
UserLoad.v
UserElf.v
UserRun.v
Virtqueue.v
Console.v
ConsoleTerm.v
ConsoleDisplay.v
ConsoleLine.v
Bus.v
VirtioMmio.v
Syscall.v
Exceptions.v
ContextSwitch.v
Traps.v
AppRegistry.v
Taskbar.v
Desktop.v
DesktopRender.v
DesktopTable.v
DesktopView.v
DesktopShell.v
DesktopWindows.v
DesktopOps.v
DesktopModal.v
DesktopSample.v
DesktopLaws.v
DesktopAlerts.v
Spinlock.v
Initramfs.v
Pci.v
VirtioDriver.v
VirtioRng.v
VirtioBlk.v
VirtioBlkLaws.v
ShellText.v
ShellFiles.v
ShellFileLaws.v
ShellLogLaws.v
Gui.v
VirtioGpu.v
VirtioInput.v
Terminal.v
TerminalLaws.v
Files.v
FilesLaws.v
FilesDesktop.v
Shell.v
ShellLaws.v
Boot.v
BootLaws.v
