(* ===== verification/Prelude.v ===== *)
(** * A verification of the duck-os kernel

    duck-os is a kernel for AArch64 on the QEMU "virt" machine, written in C
    (src/src, headers in src/include). This library models its parts as
    functions and proves what makes them correct. This comment says how the
    parts interact, which file models which of them, what the theorems show, and
    what is left out.

    ** The program

    Memory: mm/pmm.c hands out 4 KiB pages by a bitmap behind the kernel image,
    kernel/kmalloc.c hands out blocks that are never freed, and
    arch/aarch64/mmu.c builds the translation tables. Storage: drivers register
    block devices (block/block_device.c); fs/tinyfs.c reads a read-only file
    system from one of them, fs/logfs.c keeps an append-only one on another;
    fs/vfs.c gives tinyfs paths and directories, fs/file.c open files.
    Execution: arch/aarch64/exceptions.c takes every exception: it gives timer
    ticks and yields to the scheduler (kernel/task.c), interrupts of devices to
    drivers/virtio_mmio.c, and system calls to kernel/syscall.c; kernel/user.c
    loads a program from a file into pages, maps and enters it. Devices:
    arch/aarch64/gic.c and kernel/timer.c; drivers/virtio_mmio.c finds virtio
    devices and negotiates with them, drivers/virtqueue.c keeps the queues shared
    with them. Interaction: input/input.c queues events and turns keys into
    characters; kernel/console.c sends text to the serial port and to a grid of
    cells on the framebuffer, and reads lines; gfx/ draws on a framebuffer;
    desktop/ has windows, their theme and input routing, a taskbar with a
    launcher, a registry of applications, a text editor and a file manager, and the
    shell that ties them together (desktop.c). kernel/shell_core.c executes
    command lines, for the serial console (kernel/shell.c) and for a terminal
    on the desktop (desktop/terminal_app.c); its commands drive nearly all of
    the above. drivers/pci.c enumerates devices; drivers/virtio_blk.c,
    virtio_gpu.c, virtio_input.c and virtio_rng.c drive the virtio devices;
    kernel/initramfs.c reads an image of files linked with the kernel.

    ** How the model is made

    An operation that changes state is a function in the monad [M] of
    Prelude.v: from a state to [Ret] (value, state, characters printed),
    [Panic] (the kernel's panic, with its message) or [Undef]. [Undef] is what
    the C standard leaves undefined where the code could meet it: an access out
    of the bounds of a buffer, a null pointer, signed overflow, and, where a
    loop carries fuel, a loop that has not ended. A theorem that an operation
    returns therefore says that it is memory-safe and terminates. Pure helpers
    return an [option] for the same purpose.

    Unsigned integers are [Z] with the wrap-around of each operation written out
    by [u8], [u16], [u32] and [u64]; [i32] is the conversion to [int]. A
    buffer is the list of its bytes; [rd] and [wr] are checked accesses.
    Pointers into an array of structures are indices; null is [None]. Arrays
    that the code leaves uninitialised are arguments, so theorems hold whatever
    they contain. Static variables of a file are the fields of one record.
    [zoom] runs an operation of one component inside the state of another.

    The fuel of a loop is chosen in the definition from what bounds the loop
    (the length of a string, the entries of a table, the bytes of a file, the
    pages of a program). The termination theorems show that it suffices; the one
    loop that does not always end is [draw_line], and its theorem says so.

    ** The files

    Prelude: machine words, buffers, C strings, the monad, and the lemmas and
    the rewrite base [kernel] that run a computation ([krun]).
    LibString: lib/string.c. Klog: kernel/klog.c, [kprintf] with its format
    interpreted and the numbers it prints.

    Memory (mm/pmm.c, kernel/kmalloc.c, kernel/memory_layout.c): the page
    allocator as a step relation of clients. An allocation never returns a page
    somebody owns ([pmm_ownership]); initialisation reserves exactly the kernel
    image and the bitmap; the heap and the page allocator overlap
    ([heap_page_overlap], a bug).
    MMU (arch/aarch64/mmu.c): the tables, and [walk], the processor's
    translation, as their specification. After [mmu_init] the kernel's
    addresses map to themselves; mapping a page changes that page alone; in all
    reachable states no page is writable and executable for a program and
    kernel addresses are closed to it ([user_isolation]).

    BlockDevice (block/block_device.c): the registry, and the class
    [DiskDriver] of what a driver promises. Ramdisk (drivers/ramdisk.c) and
    ListDisk (a list) are instances; the file systems are proved against the
    class. BlockIO: byte ranges over blocks, shared by both file systems.
    TinyFS (fs/tinyfs.c), Vfs (fs/vfs.c), FileTable (fs/file.c): mounting
    accepts exactly the images that parse; paths have a normal form, which
    [vfs_normalize_path] computes; listing a directory prints each child once;
    a read delivers exactly its window of the file.
    LogFS (fs/logfs.c, the operations), LogTables (invariant of its tables),
    LogDisk and LogWrite (records on the disk, creation and appending), LogMount
    and LogRemount (replay), LogSample (instances): mounting is total on
    damaged disks, and mounting the disk that a run of operations leaves brings
    back every file ([logfs_durable]).

    Task (kernel/task.c): scheduling as a relation of ticks, yields, exits and
    creations; exactly one task runs, and every ready task of the table gets its
    turn ([scheduler_fair]; the kernel's own task is not in the table).
    UserProgram (kernel/user.c, the operations), UserPages (pages and images),
    UserLoad (copying into pages), UserElf (what an executable's headers mean,
    and the two passes over them), UserRun: [program_of] is the contract, from
    the bytes of a file to an image; [user_run_file_spec] says that the loader
    keeps it for every file that the free pages suffice for, and what a failure
    costs.

    Bus (arch/aarch64/gic.c, kernel/timer.c): registers as a class [Hardware] of
    machines that answer reads and take writes; a busy wait ends. VirtioMmio
    (drivers/virtio_mmio.c): the transport, and 32 devices with the registers of
    the specification, what probing finds of them and each step of the
    handshake. Virtqueue (drivers/virtqueue.c): the page of a queue byte by
    byte, shared with a device that takes steps of its own; descriptors are
    owned once ([virtqueue_ownership]) and the rings are channels
    ([virtqueue_rings]).
    VirtioDriver (what drivers share), VirtioRng, VirtioBlk, VirtioGpu and
    VirtioInput (the files of these names in drivers/): a request is a chain of
    descriptors in memory, and the device a function that changes memory while
    the driver waits. VirtioRng also proves a whole driver start, from the
    search for the device to its queue, with what the device is told on each way
    to fail ([virtio_rng_init_spec]). VirtioBlkLaws: against a disk that walks
    the chain of a request by the flags of its descriptors, a transfer moves the
    sectors asked for and nothing else, and gives back its descriptors
    ([virtio_blk_transfer_spec]). Pci (drivers/pci.c): the table is the list of
    the functions present ([pci_init_spec]). Initramfs (kernel/initramfs.c): a
    packed image gives back the files it was packed from
    ([initramfs_round_trip]). Spinlock (kernel/spinlock.c): processors that take
    instructions in turn exclude each other ([spin_lock_excludes]).
    Syscall (kernel/syscall.c): the components side by side in one record, and
    the system calls. Exceptions (arch/aarch64/exceptions.c): the handler on
    every vector. Traps: what each way through it does, among them two bugs of
    system calls. ContextSwitch: a task resumes with the registers it was
    interrupted with, whatever happens meanwhile ([context_preserved]).
    Console (kernel/console.c, the operations), ConsoleTerm (one character on the
    grid), ConsoleDisplay (it refines a terminal on a display, whose driver is
    the class [DisplayDriver]), ConsoleLine (the line editor).

    Input (input/input.c): the ring refines a bounded queue; keys become
    characters. Graphics (gfx/framebuffer.c, draw.c, text.c, font8x8.c), Cursor
    (gfx/cursor.c): a drawing operation paints a picture, a partial function
    from positions to colours; the mouse pointer leaves no trace.
    Theme (desktop_theme.c), DesktopWindow (desktop_window.c), DesktopInput
    (desktop_input.c, desktop_event.c), Editor and EditorView
    (text_editor_app.c): parsing a theme is total; hit tests, clamping and
    drawing of windows; where an event goes; the editor as a zipper.
    AppRegistry (app_registry.c), Taskbar (taskbar.c) and the shell (desktop.c,
    with the life of an instance and the pointer of drivers/virtio_input.c):
    Desktop (state, the table of windows, focus, geometry), DesktopRender (drawing),
    DesktopShell (opening, closing, alerts, the launcher, events, the main loop).
    A pointer into the table of windows is an index, so that what the code does
    with a pointer after entries have moved is in the model. An application is
    a set of functions behind the classes [AppStart], [AppEvent], [AppRender] and
    [AppClose]. DesktopTable sees the table as the list of windows from the bottom
    to the top, DesktopView the drawing, DesktopWindows opening and closing,
    DesktopOps runs of operations, DesktopModal alerts. DesktopLaws and
    DesktopAlerts state what follows, at any application that keeps the laws
    [RenderLaws], [EventLaws] and [CloseLaws]: no run of operations goes wrong
    ([desktop_well_typed]), an instance runs exactly as long as it has windows
    ([desktop_instances_accounted]), an alert blocks every application
    ([desktop_modal_blocks]). DesktopSample is an instance.

    ShellText (words, numbers and dumps of a command line), ShellFiles (the
    commands on files, on the log and on blocks), Shell (the state of all the
    components a command drives, the other commands, the loop): kernel/shell.c and
    shell_core.c. ShellFileLaws: what [cat], [ls] and [hexdump] print, the last of
    which determines the bytes ([shell_hexdump_round_trip]); ShellLogLaws: the
    commands of the log. Terminal (desktop/terminal_app.c) asks the shell through
    the class [CommandShell]; TerminalLaws: its ring of lines shows the end of
    all that was printed ([terminal_event_spec]). ShellLaws composes them, down
    to the disk: a [cat] typed into a terminal shows the bytes of the file
    ([terminal_cat_spec]).
    Gui: the window demo (gui/) and the display's test picture.
    Files (desktop/files_app.c) asks the file system and the desktop through the
    class [FilesHost], of which FilesDesktop makes an instance of the desktop.
    FilesLaws: it is a cursor in the tree of files ([files_browse_spec]), except
    that a click goes to the row below ([files_click_next_row], a bug).
    Boot (kernel/kernel.c): which disk becomes the root, what is read from it, and
    the log. BootLaws: start-up mounts a root with the files of its image or
    panics, and keeps the log off the disk of the root ([start_up_spec]).

    ** Modelling decisions

    The assembly is outside: an exception enters the handler with a frame stored
    on the stack of the current task, at any point of a run and in any order.
    Locks and interrupt masks do not occur in the model, because the kernel runs
    on one processor and the operations modelled run with interrupts masked or in
    one task; where an interrupt does come between two halves of an operation
    (a pop of a virtqueue), the halves are operations of their own. The processor's
    and the devices' registers are a parameter, the class [Hardware]. A load of
    the kernel that faults is outside. The translation tables are a store of their own, apart from the
    bytes of the RAM: they lie in the kernel image, whose pages the allocator
    never hands out. A program of the user is an arbitrary computation on the
    machine, from [arch_enter_user] to its return.

    The shell's components share files, devices, memory, framebuffer and
    hardware. Its state holds each shared part once, and a component is run
    through a lens that puts the parts together and takes them apart. A character
    printed by a command goes to the sink that the client chose: its own buffer,
    or the console.

    ** Not modelled

    The order in which kernel_main (kernel/kernel.c) initialises the components
    before it mounts the file systems, the preemption demo of kernel/task.c and
    the self tests (kernel/test.c), which call the other components once, in a
    fixed order; the assembly and the serial port's transmitter; the Python tools
    that build images, whose formats are specifications here (an image of initial
    files, of tinyfs).
*)
From stdpp Require Export base list strings gmap.
From Stdlib Require Export ZArith Lia.
From stdpp Require Export options.

#[global] Open Scope Z_scope.

(** ** Machine words

    Unsigned C integers are [Z] values below a power of two; the wrap-around of
    an operation is written out with one of these. *)

Definition u8 (x : Z) : Z := x mod 2 ^ 8.
Definition u16 (x : Z) : Z := x mod 2 ^ 16.
Definition u32 (x : Z) : Z := x mod 2 ^ 32.
Definition u64 (x : Z) : Z := x mod 2 ^ 64.

(** Conversion of an unsigned value to [int] (two's complement). *)
Definition i32 (x : Z) : Z := let y := u32 x in if y <? 2 ^ 31 then y else y - 2 ^ 32.

(** The C [~x] on an unsigned long and on an unsigned int. *)
Definition not64 (x : Z) : Z := u64 (Z.lnot x).
Definition not32 (x : Z) : Z := u32 (Z.lnot x).

(** Memory seen through a [char *] or [unsigned char *]: the bytes from the
    pointer to the end of the object it points into. *)
Abbreviation mem := (list Z).

(** [lenZ l] is the length of a buffer as a C [unsigned long]. *)
Definition lenZ {A} (l : list A) : Z := Z.of_nat (length l).

(** A buffer read at a C offset; [None] is an access out of bounds. *)
Definition rd {A} (l : list A) (i : Z) : option A :=
  if 0 <=? i then l !! Z.to_nat i else None.

(** A buffer store at a C offset; [None] is an access out of bounds. *)
Definition wr {A} (l : list A) (i : Z) (x : A) : option (list A) :=
  if (0 <=? i) && (i <? lenZ l) then Some (<[Z.to_nat i := x]> l) else None.

(** [splice l n l'] replaces the elements of [l] from position [n] by [l']. *)
Definition splice {A} (l : list A) (n : nat) (l' : list A) : list A :=
  take n l ++ l' ++ drop (n + length l') l.

(** [slice l n k] is the [k] elements of [l] from position [n]. *)
Definition slice {A} (l : list A) (n k : nat) : list A := take k (drop n l).

(** C string literals, with their terminator. *)
Fixpoint lit (s : string) : mem :=
  match s with
  | EmptyString => []
  | String a s' => Z.of_nat (Ascii.nat_of_ascii a) :: lit s'
  end.
Definition cstr (s : string) : mem := lit s ++ [0].
(** Character literals, [ch "a"]. *)
Definition ch (s : string) : Z :=
  match s with String a _ => Z.of_nat (Ascii.nat_of_ascii a) | EmptyString => 0 end.
(** A string literal that ends in a newline. *)
Definition nl (s : string) : string := (s ++ String (Ascii.ascii_of_nat 10) EmptyString)%string.

(** Little-endian 32-bit fields of a structure. *)
Definition le32 (m : mem) (off : nat) : Z :=
  u32 (foldr (fun b acc => b + 256 * acc) 0 (slice m off 4)).
Definition bytes32 (v : Z) : mem :=
  [u8 v; u8 (Z.shiftr v 8); u8 (Z.shiftr v 16); u8 (Z.shiftr v 24)].
Definition bytes64 (v : Z) : mem := bytes32 (u32 v) ++ bytes32 (u32 (Z.shiftr v 32)).

(** ** Kernel computations

    A kernel operation runs on the static variables [S] of its component. It
    returns with a value, a new state and the bytes it handed to the console;
    or it panics; or it has undefined behaviour (an access out of bounds, a
    null dereference, a loop that did not end). *)

Inductive res (S A : Type) : Type :=
| Ret (a : A) (s : S) (out : list Z)
| Panic (msg : string) (s : S) (out : list Z)
| Undef.
Arguments Ret {S A}.
Arguments Panic {S A}.
Arguments Undef {S A}.

Definition M (S A : Type) : Type := S -> res S A.

Definition ret {S A} (a : A) : M S A := fun s => Ret a s [].

Definition bind {S A B} (m : M S A) (k : A -> M S B) : M S B := fun s =>
  match m s with
  | Ret a s1 o1 =>
      match k a s1 with
      | Ret b s2 o2 => Ret b s2 (o1 ++ o2)
      | Panic msg s2 o2 => Panic msg s2 (o1 ++ o2)
      | Undef => Undef
      end
  | Panic msg s1 o1 => Panic msg s1 o1
  | Undef => Undef
  end.

Definition gets {S A} (f : S -> A) : M S A := fun s => Ret (f s) s [].
Definition modify {S} (f : S -> S) : M S unit := fun s => Ret tt (f s) [].
Definition emit {S} (o : list Z) : M S unit := fun s => Ret tt s o.
Definition panic {S A} (msg : string) : M S A := fun s => Panic msg s [].
Definition undef {S A} : M S A := fun _ => Undef.

(** A value whose absence is undefined behaviour. *)
Definition deref {S A} (o : option A) : M S A :=
  match o with Some a => ret a | None => undef end.

(** [zoom get put m] runs an operation of a component inside a larger state. *)
Definition zoom {S T A} (get : S -> T) (put : T -> S -> S) (m : M T A) : M S A := fun s =>
  match m (get s) with
  | Ret a t o => Ret a (put t s) o
  | Panic msg t o => Panic msg (put t s) o
  | Undef => Undef
  end.

(** A C loop [for (i = a; i < b; i++)] of [n] rounds; the counter is an
    argument of the body. *)
Fixpoint for_range {S} (n : nat) (i : Z) (body : Z -> M S unit) : M S unit :=
  match n with
  | O => ret tt
  | S n' => bind (body i) (fun _ => for_range n' (i + 1) body)
  end.

(** Signed arithmetic: a result outside of [int] is undefined behaviour. *)
Definition int_ok (z : Z) : bool := (- 2 ^ 31 <=? z) && (z <? 2 ^ 31).
Definition signed {S} (z : Z) : M S Z := if int_ok z then ret z else undef.

Declare Scope kernel_scope.
Delimit Scope kernel_scope with kernel.
Notation "x <- m ;; k" := (bind m (fun x => k))
  (at level 100, m at next level, right associativity) : kernel_scope.
Notation "'let!' p := m 'in' k" := (bind m (fun x => match x with p => k end))
  (at level 100, p pattern, m at next level, right associativity) : kernel_scope.
Notation "m ;; k" := (bind m (fun _ => k))
  (at level 100, right associativity) : kernel_scope.
#[global] Open Scope kernel_scope.

(** Status codes of the kernel's C functions. *)
Definition OK : Z := 0.
Definition ERR : Z := -1.

(** ** Generic lemmas *)

Create HintDb kernel.
Create Rewrite HintDb kernel.
Create Rewrite HintDb len.

Section lists.
Context {A : Type}.
Implicit Types (l k : list A) (x : A) (n i : nat).

Lemma length_splice l n k :
  (n + length k <= length l)%nat -> length (splice l n k) = length l.
Proof. intros H. unfold splice. rewrite !length_app, length_take, length_drop. lia. Qed.

Lemma length_slice l n i : (n + i <= length l)%nat -> length (slice l n i) = i.
Proof. intros H. unfold slice. rewrite length_take, length_drop. lia. Qed.

Lemma splice_nil l n : splice l n [] = l.
Proof. unfold splice. simpl. rewrite Nat.add_0_r. apply take_drop. Qed.

Lemma splice_all l k : length k = length l -> splice l 0 k = k.
Proof.
  intros H. unfold splice. rewrite take_0. simpl. rewrite H, drop_all. by rewrite app_nil_r.
Qed.

Lemma lookup_splice_new l n k i :
  (n <= length l)%nat -> (n <= i < n + length k)%nat -> splice l n k !! i = k !! (i - n)%nat.
Proof.
  intros Hn Hi. unfold splice.
  rewrite lookup_app_r by (rewrite length_take; lia). rewrite length_take.
  replace (n `min` length l)%nat with n by lia.
  rewrite lookup_app_l by lia. done.
Qed.

Lemma lookup_splice_lt l n k i : (i < n)%nat -> (n <= length l)%nat -> splice l n k !! i = l !! i.
Proof.
  intros Hi Hn. unfold splice. rewrite lookup_app_l by (rewrite length_take; lia).
  by rewrite lookup_take_lt.
Qed.

Lemma lookup_splice_ge l n k i :
  (n + length k <= i)%nat -> (n + length k <= length l)%nat -> splice l n k !! i = l !! i.
Proof.
  intros Hi Hn. unfold splice.
  rewrite lookup_app_r by (rewrite length_take; lia). rewrite length_take.
  rewrite lookup_app_r by lia. rewrite lookup_drop. f_equal. lia.
Qed.

Lemma lookup_slice l n i j : (j < i)%nat -> slice l n i !! j = l !! (n + j)%nat.
Proof. intros H. unfold slice. rewrite lookup_take_lt by done. by rewrite lookup_drop. Qed.

Lemma lookup_slice_ge l n i j : (i <= j)%nat -> slice l n i !! j = None.
Proof. intros H. apply lookup_ge_None. unfold slice. rewrite length_take. lia. Qed.

Lemma slice_app l n i j : slice l n (i + j) = slice l n i ++ slice l (n + i) j.
Proof. unfold slice. rewrite <- take_take_drop, drop_drop. done. Qed.

Lemma slice_nil l n : slice l n 0 = [].
Proof. done. Qed.

Lemma slice_S l n i x : l !! n = Some x -> slice l n (S i) = x :: slice l (S n) i.
Proof.
  intros H. replace (S i) with (1 + i)%nat by lia. rewrite slice_app. unfold slice at 1.
  rewrite (drop_S _ _ _ H). replace (n + 1)%nat with (S n) by lia. done.
Qed.

Lemma slice_all l : slice l 0 (length l) = l.
Proof. unfold slice. by rewrite drop_0, firstn_all. Qed.

Lemma slice_slice l n i a b : (a + b <= i)%nat -> slice (slice l n i) a b = slice l (n + a) b.
Proof.
  intros H. unfold slice. rewrite <- drop_drop. rewrite skipn_firstn_comm, take_take.
  f_equal. lia.
Qed.

Lemma take_slice l n i j : (j <= i)%nat -> take j (slice l n i) = slice l n j.
Proof. intros H. unfold slice. rewrite take_take. f_equal. lia. Qed.

Lemma slice_splice_same l n k :
  (n + length k <= length l)%nat -> slice (splice l n k) n (length k) = k.
Proof.
  intros H. unfold slice, splice.
  rewrite drop_app_le by (rewrite length_take; lia).
  rewrite (drop_ge (take _ _)) by (rewrite length_take; lia). simpl.
  by rewrite take_app_length.
Qed.

Lemma slice_splice_in l n k a b :
  (n + length k <= length l)%nat -> (a + b <= length k)%nat ->
  slice (splice l n k) (n + a) b = slice k a b.
Proof.
  intros Hl Hk. apply list_eq. intros i. destruct (decide (i < b)%nat).
  - rewrite !lookup_slice by done. rewrite lookup_splice_new by lia. f_equal. lia.
  - rewrite !lookup_slice_ge by lia. done.
Qed.

Lemma slice_splice_lt l n k a b :
  (a + b <= n)%nat -> (n + length k <= length l)%nat -> slice (splice l n k) a b = slice l a b.
Proof.
  intros H Hn. apply list_eq. intros i. destruct (decide (i < b)%nat).
  - rewrite !lookup_slice by done. apply lookup_splice_lt; lia.
  - rewrite !lookup_slice_ge by lia. done.
Qed.

Lemma slice_splice_ge l n k a b :
  (n + length k <= a)%nat -> (n + length k <= length l)%nat ->
  slice (splice l n k) a b = slice l a b.
Proof.
  intros H Hn. apply list_eq. intros i. destruct (decide (i < b)%nat).
  - rewrite !lookup_slice by done. apply lookup_splice_ge; lia.
  - rewrite !lookup_slice_ge by lia. done.
Qed.

Lemma lookup_splice l n k i :
  (n + length k <= length l)%nat ->
  splice l n k !! i = if decide (n <= i < n + length k)%nat then k !! (i - n)%nat else l !! i.
Proof.
  intros H. case_decide.
  - apply lookup_splice_new; lia.
  - destruct (decide (i < n)%nat); [apply lookup_splice_lt | apply lookup_splice_ge]; lia.
Qed.

Lemma splice_app l n k1 k2 :
  (n + length k1 + length k2 <= length l)%nat ->
  splice (splice l n k1) (n + length k1) k2 = splice l n (k1 ++ k2).
Proof.
  intros H. apply list_eq. intros i.
  rewrite !lookup_splice by (rewrite ?length_splice, ?length_app; lia).
  rewrite length_app. repeat case_decide; try lia; try done.
  - rewrite lookup_app_r by lia. f_equal. lia.
  - rewrite lookup_app_l by lia. done.
Qed.

Lemma splice_slice_id l n i : (n + i <= length l)%nat -> splice l n (slice l n i) = l.
Proof.
  intros H. apply list_eq. intros j.
  rewrite lookup_splice by (rewrite length_slice; lia). rewrite length_slice by lia.
  case_decide; [|done]. rewrite lookup_slice by lia. f_equal. lia.
Qed.

Lemma drop_splice_le l n k a :
  (a <= n)%nat -> (n + length k <= length l)%nat ->
  drop a (splice l n k) = splice (drop a l) (n - a) k.
Proof.
  intros Ha H. apply list_eq. intros i. rewrite lookup_drop.
  rewrite !lookup_splice by (rewrite ?length_drop; lia). rewrite lookup_drop.
  repeat case_decide; try lia; f_equal; lia.
Qed.

Lemma splice_insert l n x : (n < length l)%nat -> splice l n [x] = <[n := x]> l.
Proof.
  intros H. apply list_eq. intros i. destruct (decide (i = n)) as [->|Hi].
  - rewrite list_lookup_insert_eq by done. rewrite lookup_splice_new by (simpl; lia).
    by rewrite Nat.sub_diag.
  - rewrite list_lookup_insert_ne by done. destruct (decide (i < n)%nat).
    + apply lookup_splice_lt; lia.
    + apply lookup_splice_ge; simpl; lia.
Qed.
End lists.

#[export] Hint Rewrite @length_app @length_take @length_drop @length_replicate @length_insert
  @length_fmap : len.

(** Solves goals on lengths of lists. *)
Ltac len := autorewrite with len in *; simpl in *; try lia.

Lemma rd_nat {A} (l : list A) (n : nat) : rd l (Z.of_nat n) = l !! n.
Proof. unfold rd. rewrite (proj2 (Z.leb_le 0 _)) by lia. by rewrite Nat2Z.id. Qed.

Lemma rd_Some {A} (l : list A) i : 0 <= i < lenZ l -> exists x, rd l i = Some x.
Proof.
  intros H. unfold rd. rewrite (proj2 (Z.leb_le 0 _)) by lia.
  apply lookup_lt_is_Some_2. unfold lenZ in H. lia.
Qed.

Lemma rd_inv {A} (l : list A) i x : rd l i = Some x -> 0 <= i < lenZ l.
Proof.
  unfold rd, lenZ. destruct (Z.leb_spec 0 i) as [Hi|]; [|done].
  intros H%lookup_lt_Some. lia.
Qed.

Lemma rd_at {A} (pre : list A) c r : rd (pre ++ c :: r) (lenZ pre) = Some c.
Proof. unfold lenZ. by rewrite rd_nat, lookup_app_r, Nat.sub_diag by lia. Qed.

Lemma rd_out {A} (l : list A) i : ~ 0 <= i < lenZ l -> rd l i = None.
Proof. intros H. destruct (rd l i) eqn:E; [|done]. apply rd_inv in E. lia. Qed.

Lemma wr_Some {A} (l : list A) i x : 0 <= i < lenZ l -> wr l i x = Some (<[Z.to_nat i := x]> l).
Proof.
  intros H. unfold wr. rewrite (proj2 (Z.leb_le 0 i)), (proj2 (Z.ltb_lt i _)) by lia. done.
Qed.

Lemma wr_app {A} (a b : list A) x y : wr (a ++ x :: b) (lenZ a) y = Some (a ++ y :: b).
Proof.
  rewrite wr_Some by (unfold lenZ; rewrite length_app; simpl; lia).
  unfold lenZ. rewrite Nat2Z.id, <- (Nat.add_0_r (length a)). by rewrite insert_app_r.
Qed.

Lemma splice_at {A} (a b k : list A) : splice (a ++ b) (length a) k = a ++ k ++ drop (length k) b.
Proof.
  unfold splice. rewrite take_app_length, drop_app_ge by lia. do 3 f_equal. lia.
Qed.

Lemma drop_lenZ_app {A} (a b : list A) : drop (Z.to_nat (lenZ a)) (a ++ b) = b.
Proof. unfold lenZ. by rewrite Nat2Z.id, drop_app_length. Qed.

Lemma take_lenZ_app {A} (a b : list A) : take (Z.to_nat (lenZ a)) (a ++ b) = a.
Proof. unfold lenZ. by rewrite Nat2Z.id, take_app_length. Qed.

Lemma lenZ_app {A} (a b : list A) : lenZ (a ++ b) = lenZ a + lenZ b.
Proof. unfold lenZ. rewrite length_app. lia. Qed.

Lemma lenZ_cons {A} (x : A) l : lenZ (x :: l) = lenZ l + 1.
Proof. unfold lenZ. simpl. lia. Qed.

Lemma lenZ_nonneg {A} (l : list A) : 0 <= lenZ l.
Proof. unfold lenZ. lia. Qed.

(** ** Machine words *)

Lemma u32_small x : 0 <= x < 2 ^ 32 -> u32 x = x.
Proof. apply Z.mod_small. Qed.
Lemma u64_small x : 0 <= x < 2 ^ 64 -> u64 x = x.
Proof. apply Z.mod_small. Qed.
Lemma u16_small x : 0 <= x < 2 ^ 16 -> u16 x = x.
Proof. apply Z.mod_small. Qed.
Lemma u8_small x : 0 <= x < 2 ^ 8 -> u8 x = x.
Proof. apply Z.mod_small. Qed.
Lemma i32_small x : 0 <= x < 2 ^ 31 -> i32 x = x.
Proof. intros H. unfold i32. rewrite u32_small by lia. cbn zeta. by rewrite (proj2 (Z.ltb_lt x _)) by lia. Qed.
(** A value that [int] represents survives the way through [unsigned]. *)
Lemma i32_u32 x : - 2 ^ 31 <= x < 2 ^ 31 -> i32 (u32 x) = x.
Proof. intros H. unfold i32, u32. rewrite Z.mod_mod by lia. cbn zeta. case_match; Z.div_mod_to_equations; lia. Qed.
Lemma u32_add_l x y : u32 (u32 x + y) = u32 (x + y).
Proof. apply Z.add_mod_idemp_l. lia. Qed.
Lemma u32_add_r x y : u32 (x + u32 y) = u32 (x + y).
Proof. apply Z.add_mod_idemp_r. lia. Qed.
Lemma u32_bound x : 0 <= u32 x < 2 ^ 32.
Proof. apply Z.mod_pos_bound. lia. Qed.
Lemma u64_bound x : 0 <= u64 x < 2 ^ 64.
Proof. apply Z.mod_pos_bound. lia. Qed.
Lemma u16_bound x : 0 <= u16 x < 2 ^ 16.
Proof. apply Z.mod_pos_bound. lia. Qed.

#[export] Hint Resolve u32_bound u64_bound u16_bound : kernel.

Lemma land_mod_lnot w x y : 0 <= w -> 0 <= x < 2 ^ w -> Z.land x (Z.lnot y mod 2 ^ w) = Z.ldiff x y.
Proof.
  intros Hw Hx. rewrite <- Z.land_ones, (Z.land_comm (Z.lnot y)), Z.land_assoc by done.
  rewrite (Z.land_ones x), Z.mod_small by done. apply eq_sym, Z.ldiff_land.
Qed.

Lemma ldiff_pow2 x k : 0 <= k -> Z.ldiff x (2 ^ k - 1) = x - x mod 2 ^ k.
Proof.
  intros Hk. replace (2 ^ k - 1) with (Z.ones k) by (rewrite Z.ones_equiv; lia).
  rewrite Z.ldiff_ones_r, Z.shiftl_mul_pow2, Z.shiftr_div_pow2 by done.
  pose proof (Z.div_mod x (2 ^ k)). lia.
Qed.

(** Masking with [~(2^k - 1)] rounds down to a multiple of [2^k]. *)
Lemma land_not64 x k : 0 <= k -> 0 <= x < 2 ^ 64 -> Z.land x (not64 (2 ^ k - 1)) = x - x mod 2 ^ k.
Proof. intros Hk Hx. unfold not64, u64. rewrite land_mod_lnot by lia. by apply ldiff_pow2. Qed.

Lemma land_not32 x k : 0 <= k -> 0 <= x < 2 ^ 32 -> Z.land x (not32 (2 ^ k - 1)) = x - x mod 2 ^ k.
Proof. intros Hk Hx. unfold not32, u32. rewrite land_mod_lnot by lia. by apply ldiff_pow2. Qed.

(** A 32-bit field reads back as it was stored. *)
Lemma le32_bytes32 v : u32 (foldr (fun b acc => b + 256 * acc) 0 (bytes32 v)) = u32 v.
Proof.
  unfold bytes32, u8, u32. rewrite !Z.shiftr_div_pow2 by lia. cbn [foldr].
  change (2 ^ 8) with 256. change (2 ^ 16) with (256 * 256). change (2 ^ 24) with (256 * 256 * 256).
  change (2 ^ 32) with (256 * 256 * 256 * 256).
  rewrite <- !Z.div_div by lia. Z.div_mod_to_equations. lia.
Qed.

Lemma le32_bound m off : 0 <= le32 m off < 2 ^ 32.
Proof. apply u32_bound. Qed.
#[export] Hint Resolve le32_bound : kernel.

(** ** Computations *)

Lemma bind_ret {S A B} (a : A) (k : A -> M S B) s : bind (ret a) k s = k a s.
Proof. unfold bind, ret. by destruct (k a s). Qed.

Lemma bind_Ret {S A B} (m : M S A) (k : A -> M S B) s a s1 o1 :
  m s = Ret a s1 o1 ->
  bind m k s = match k a s1 with
               | Ret b s2 o2 => Ret b s2 (o1 ++ o2)
               | Panic msg s2 o2 => Panic msg s2 (o1 ++ o2)
               | Undef => Undef
               end.
Proof. unfold bind. by intros ->. Qed.

Lemma bind_Ret_nil {S A B} (m : M S A) (k : A -> M S B) s a s1 :
  m s = Ret a s1 [] -> bind m k s = k a s1.
Proof. unfold bind. intros ->. by destruct (k a s1). Qed.

Lemma bind_gets {S A B} (f : S -> A) (k : A -> M S B) s : bind (gets f) k s = k (f s) s.
Proof. by apply bind_Ret_nil. Qed.

Lemma bind_modify {S B} (f : S -> S) (k : unit -> M S B) s : bind (modify f) k s = k tt (f s).
Proof. by apply bind_Ret_nil. Qed.

Lemma bind_deref_Some {S A B} (o : option A) a (k : A -> M S B) s :
  o = Some a -> bind (deref o) k s = k a s.
Proof. intros ->. apply bind_ret. Qed.

Lemma bind_inv_Ret {S A B} (m : M S A) (k : A -> M S B) s b s2 o :
  bind m k s = Ret b s2 o ->
  exists a s1 o1 o2, m s = Ret a s1 o1 /\ k a s1 = Ret b s2 o2 /\ o = o1 ++ o2.
Proof.
  unfold bind. destruct (m s) as [a s1 o1| |] eqn:Hm; [|done|done].
  destruct (k a s1) as [b' s2' o2| |] eqn:Hk; [|done|done].
  intros [= <- <- <-]. by exists a, s1, o1, o2.
Qed.

Lemma bind_assoc {S A B C} (m : M S A) (k : A -> M S B) (j : B -> M S C) s : bind (bind m k) j s = bind m (fun a => bind (k a) j) s.
Proof.
  unfold bind. destruct (m s) as [a s1 o1| |]; [|done|done]. destruct (k a s1) as [b s2 o2| |]; [|done|done].
  destruct (j b s2); [by rewrite app_assoc|by rewrite app_assoc|done].
Qed.

Lemma bind_emit {S A B} (m r : M S A) (k : A -> M S B) s o s1 : m s = (emit o;; r) s1 -> bind m k s = (emit o;; bind r k) s1.
Proof.
  intros E. unfold bind in *. rewrite E. unfold emit. destruct (r s1) as [a s2 o2|msg s2 o2|]; [|done|done].
  destruct (k a s2); [by rewrite app_assoc|by rewrite app_assoc|done].
Qed.

Lemma signed_run {S} z (s : S) : - 2 ^ 31 <= z < 2 ^ 31 -> signed z s = Ret z s [].
Proof.
  intros H. unfold signed, int_ok. by rewrite (proj2 (Z.leb_le _ _)), (proj2 (Z.ltb_lt z _)) by lia.
Qed.

Lemma bind_signed {S B} z (k : Z -> M S B) s :
  - 2 ^ 31 <= z < 2 ^ 31 -> bind (signed z) k s = k z s.
Proof.
  intros H. unfold signed, int_ok.
  rewrite (proj2 (Z.leb_le _ _)), (proj2 (Z.ltb_lt z _)) by lia. apply bind_ret.
Qed.

Lemma zoom_Ret {S T A} (get : S -> T) (put : T -> S -> S) (m : M T A) s a t o :
  m (get s) = Ret a t o -> zoom get put m s = Ret a (put t s) o.
Proof. unfold zoom. by intros ->. Qed.

#[export] Hint Rewrite @bind_ret @bind_gets @bind_modify : kernel.

(** Runs the leading pure steps of a computation. *)
Ltac krun := autorewrite with kernel; cbn beta iota.

(** Reduces the conditions that have become constants. *)
Ltac kif := cbn [orb andb negb]; cbn beta iota zeta.
