(* ===== verification/LibString.v ===== *)
(** The kernel's C string and memory routines (src/src/lib/string.c), on
    buffers whose bounds are checked: [None] is an access out of bounds. The
    lemmas give each loop its reference meaning: [memcpy] is a splice,
    [strlen] finds the first zero byte, [strcmp] decides equality of strings,
    [strlcpy] truncates and terminates. *)
From S2P Require Import Prelude.

(** ** Definitions *)

(** [memset(dest + off, value, count)]. *)
Fixpoint memset_loop (n : nat) (dest : mem) (d : nat) (fill : Z) : option mem :=
  match n with
  | O => Some dest
  | S n' =>
      if decide (d < length dest)%nat
      then memset_loop n' (<[d := fill]> dest) (S d) fill
      else None
  end.
Definition memset (dest : mem) (off value count : Z) : option mem :=
  memset_loop (Z.to_nat count) dest (Z.to_nat off) (u8 value).

(** [memcpy(dest + doff, src + soff, count)] between two objects. *)
Fixpoint memcpy_loop (n : nat) (dest : mem) (d : nat) (src : mem) (s : nat) : option mem :=
  match n with
  | O => Some dest
  | S n' =>
      match src !! s with
      | Some b =>
          if decide (d < length dest)%nat
          then memcpy_loop n' (<[d := b]> dest) (S d) src (S s)
          else None
      | None => None
      end
  end.
Definition memcpy (dest : mem) (doff : Z) (src : mem) (soff count : Z) : option mem :=
  memcpy_loop (Z.to_nat count) dest (Z.to_nat doff) src (Z.to_nat soff).

(** [memcmp(lhs, rhs, count)]: reads stop at the first difference. *)
Fixpoint memcmp_loop (n : nat) (lhs rhs : mem) : option Z :=
  match n with
  | O => Some 0
  | S n' =>
      match lhs, rhs with
      | a :: lhs', b :: rhs' => if a =? b then memcmp_loop n' lhs' rhs' else Some (a - b)
      | _, _ => None
      end
  end.
Definition memcmp (lhs rhs : mem) (count : Z) : option Z :=
  memcmp_loop (Z.to_nat count) lhs rhs.

Fixpoint strlen (str : mem) : option Z :=
  match str with
  | [] => None
  | c :: str' => if c =? 0 then Some 0 else n ← strlen str'; Some (n + 1)
  end.

Fixpoint strcmp (lhs rhs : mem) : option Z :=
  match lhs, rhs with
  | a :: lhs', b :: rhs' =>
      if negb (a =? 0) && (a =? b) then strcmp lhs' rhs' else Some (a - b)
  | _, _ => None
  end.

(** [strlcpy(dest + off, src, size)]; the loop copies while there is room for
    the terminator and the source goes on. *)
Fixpoint strlcpy_loop (n : nat) (dest : mem) (i : nat) (src : mem) : option (mem * nat) :=
  match n with
  | O => Some (dest, i)
  | S n' =>
      match src with
      | [] => None
      | c :: src' =>
          if c =? 0 then Some (dest, i)
          else if decide (i < length dest)%nat
               then strlcpy_loop n' (<[i := c]> dest) (S i) src'
               else None
      end
  end.
Definition strlcpy (dest : mem) (off : Z) (src : mem) (size : Z) : option (mem * Z) :=
  src_length ← strlen src;
  if size =? 0 then Some (dest, src_length)
  else
    '(dest1, i) ← strlcpy_loop (Z.to_nat (size - 1)) dest (Z.to_nat off) src;
    if decide (i < length dest1)%nat
    then Some (<[i := 0]> dest1, src_length)
    else None.

(** ** The string a pointer designates *)

(** The characters before the first zero byte; [None] if there is none. *)
Fixpoint cval (m : mem) : option (list Z) :=
  match m with
  | [] => None
  | c :: m' => if c =? 0 then Some [] else s ← cval m'; Some (c :: s)
  end.

(** [no_nul s]: [s] holds no zero byte, so [s ++ [0]] is a C string for [s]. *)
Definition no_nul (s : list Z) : Prop := Forall (fun c => c <> 0) s.

#[export] Instance no_nul_dec s : Decision (no_nul s).
Proof. unfold no_nul. apply _. Defined.

(** ** Lemmas *)

Lemma memset_loop_spec n dest d fill :
  (d + n <= length dest)%nat ->
  memset_loop n dest d fill = Some (splice dest d (replicate n fill)).
Proof.
  revert dest d. induction n as [|n IH]; intros dest d H; simpl.
  - by rewrite splice_nil.
  - rewrite decide_True by lia. rewrite IH by len.
    rewrite <- splice_insert by lia. f_equal.
    replace (S d) with (d + length [fill])%nat by (simpl; lia).
    rewrite splice_app by (simpl; len). done.
Qed.

Lemma memset_spec dest off value count :
  0 <= off -> 0 <= count -> off + count <= lenZ dest ->
  memset dest off value count =
    Some (splice dest (Z.to_nat off) (replicate (Z.to_nat count) (u8 value))).
Proof. intros ???. unfold memset, lenZ in *. apply memset_loop_spec. lia. Qed.

Lemma memset_all dest n value :
  n = lenZ dest -> memset dest 0 value n = Some (replicate (length dest) (u8 value)).
Proof.
  intros ->. rewrite memset_spec; unfold lenZ; try lia. rewrite Nat2Z.id.
  rewrite splice_all; [done|]. apply length_replicate.
Qed.

Lemma memcpy_loop_spec n dest d src s :
  (d + n <= length dest)%nat -> (s + n <= length src)%nat ->
  memcpy_loop n dest d src s = Some (splice dest d (slice src s n)).
Proof.
  revert dest d s. induction n as [|n IH]; intros dest d s H Hs; simpl.
  - by rewrite slice_nil, splice_nil.
  - destruct (lookup_lt_is_Some_2 src s) as [b Hb]; [lia|]. rewrite Hb.
    rewrite decide_True by lia. rewrite IH by len.
    rewrite (slice_S _ _ _ _ Hb), <- splice_insert by lia. f_equal.
    replace (S d) with (d + length [b])%nat by (simpl; lia).
    rewrite splice_app; [done|]. rewrite length_slice by lia. simpl. lia.
Qed.

Lemma memcpy_spec dest doff src soff count :
  0 <= doff -> 0 <= soff -> 0 <= count ->
  doff + count <= lenZ dest -> soff + count <= lenZ src ->
  memcpy dest doff src soff count =
    Some (splice dest (Z.to_nat doff) (slice src (Z.to_nat soff) (Z.to_nat count))).
Proof. intros. unfold memcpy, lenZ in *. apply memcpy_loop_spec; lia. Qed.

Lemma memcmp_app_eq a b r1 r2 :
  length a = length b ->
  exists z, memcmp (a ++ r1) (b ++ r2) (lenZ a) = Some z /\ (z = 0 <-> a = b).
Proof.
  unfold memcmp, lenZ. rewrite Nat2Z.id. revert b. induction a as [|x a IH]; intros [|y b] H; try done.
  - by exists 0.
  - simpl. destruct (Z.eqb_spec x y) as [->|Hne].
    + destruct (IH b) as (z & Hz & Heq); [simpl in H; lia|]. exists z. split; [done|].
      rewrite Heq. split; congruence.
    + exists (x - y). split; [done|]. split; [lia|congruence].
Qed.

(** Only the bytes copied matter. *)
Lemma memcpy_app_src dest doff src r n :
  0 <= n <= lenZ src -> memcpy dest doff (src ++ r) 0 n = memcpy dest doff src 0 n.
Proof.
  unfold memcpy, lenZ. intros Hn.
  assert (Hgo : forall k dest d s, (s + k <= length src)%nat ->
    memcpy_loop k dest d (src ++ r) s = memcpy_loop k dest d src s).
  { clear. induction k as [|k IH]; intros dest d s Hs; cbn [memcpy_loop]; [done|].
    rewrite lookup_app_l by lia. destruct (src !! s); [|done]. case_decide; [|done]. apply IH. lia. }
  apply Hgo. lia.
Qed.

(** [memcmp] within both objects compares the prefixes. *)
Lemma memcmp_take a b n :
  0 <= n -> n <= lenZ a -> n <= lenZ b ->
  exists z, memcmp a b n = Some z /\ (z = 0 <-> take (Z.to_nat n) a = take (Z.to_nat n) b).
Proof.
  intros Hn Ha Hb. unfold lenZ in *.
  rewrite <- (take_drop (Z.to_nat n) a), <- (take_drop (Z.to_nat n) b).
  destruct (memcmp_app_eq (take (Z.to_nat n) a) (take (Z.to_nat n) b) (drop (Z.to_nat n) a)
    (drop (Z.to_nat n) b)) as (z & Hz & Heq); [rewrite !length_take; lia|].
  exists z. replace n with (lenZ (take (Z.to_nat n) a)) at 5.
  - split; [done|]. by rewrite !take_app_length' by (rewrite length_take; lia).
  - unfold lenZ. rewrite length_take. lia.
Qed.

(** Comparing a C string with a shorter array tests for a prefix and never
    reads past the end of the string. *)
Lemma memcmp_prefix f dir r1 r2 :
  no_nul dir ->
  exists z, memcmp (f ++ 0 :: r1) (dir ++ r2) (lenZ dir) = Some z /\
    (z = 0 <-> take (length dir) f = dir).
Proof.
  unfold memcmp, lenZ. rewrite Nat2Z.id. intros Hd. revert f.
  induction Hd as [|x dir Hx Hd IH]; intros f; [by exists 0|]. destruct f as [|y f]; cbn [app length memcmp_loop take].
  - rewrite (proj2 (Z.eqb_neq 0 x)) by done. exists (0 - x). split; [done|]. split; [lia|done].
  - destruct (Z.eqb_spec y x) as [->|Hne].
    + destruct (IH f) as (z & Hz & Heq). exists z. split; [done|]. rewrite Heq. split; congruence.
    + exists (y - x). split; [done|]. split; [lia|congruence].
Qed.

Lemma cval_app s r : no_nul s -> cval (s ++ 0 :: r) = Some s.
Proof.
  induction 1 as [|c s Hc Hs IH]; simpl; [done|].
  rewrite (proj2 (Z.eqb_neq c 0)) by done. by rewrite IH.
Qed.

Lemma cval_inv m s : cval m = Some s -> no_nul s /\ exists r, m = s ++ 0 :: r.
Proof.
  revert s. induction m as [|c m IH]; intros s; simpl; [done|].
  destruct (Z.eqb_spec c 0) as [->|Hc].
  - intros [= <-]. split; [constructor | by exists m].
  - destruct (cval m) as [t|]; simpl; [|done]. intros [= <-].
    destruct (IH t eq_refl) as [Ht [r ->]]. split; [by constructor | by exists r].
Qed.

(** A zero byte anywhere ends the string. *)
Lemma cval_terminated m i : m !! i = Some 0 -> is_Some (cval m).
Proof.
  revert i. induction m as [|c m IH]; intros [|i]; simpl; try done.
  - intros [= ->]. by eexists.
  - intros Hi. destruct (c =? 0); [by eexists|]. destruct (IH i Hi) as [t ->]. by eexists.
Qed.

Lemma strlen_cval m : strlen m = lenZ <$> cval m.
Proof.
  induction m as [|c m IH]; simpl; [done|]. destruct (c =? 0); [done|].
  rewrite IH. destruct (cval m); simpl; [|done]. f_equal. unfold lenZ. simpl. lia.
Qed.

Lemma strlen_app s r : no_nul s -> strlen (s ++ 0 :: r) = Some (lenZ s).
Proof. intros H. by rewrite strlen_cval, cval_app. Qed.

(** [strcmp] returns 0 exactly on equal strings. *)
Lemma strcmp_spec a b s t :
  cval a = Some s -> cval b = Some t -> exists z, strcmp a b = Some z /\ (z = 0 <-> s = t).
Proof.
  revert b s t. induction a as [|x a IH]; intros [|y b] s t; simpl; try done.
  destruct (Z.eqb_spec x 0) as [->|Hx]; simpl.
  - intros [= <-]. exists (0 - y). split; [done|].
    destruct (Z.eqb_spec y 0) as [->|Hy].
    + by simplify_eq.
    + destruct (cval b); simplify_eq/=. split; [lia | done].
  - destruct (cval a) as [s'|] eqn:Ha; simpl; [|done]. intros [= <-].
    destruct (Z.eqb_spec y 0) as [->|Hy].
    + intros [= <-]. rewrite (proj2 (Z.eqb_neq x 0)) by done.
      exists (x - 0). split; [done|]. split; [lia | done].
    + destruct (cval b) as [t'|] eqn:Hb; simpl; [|done]. intros [= <-].
      destruct (Z.eqb_spec x y) as [->|Hxy].
      * destruct (IH b s' t' eq_refl Hb) as (z & Hz & Heq). exists z. split; [done|].
        rewrite Heq. split; congruence.
      * exists (x - y). split; [done|]. split; [lia | congruence].
Qed.

Lemma strcmp_eqb a b s t :
  cval a = Some s -> cval b = Some t ->
  exists z, strcmp a b = Some z /\ (z =? 0) = bool_decide (s = t).
Proof.
  intros Ha Hb. destruct (strcmp_spec a b s t Ha Hb) as (z & Hz & Heq). exists z. split; [done|].
  case_bool_decide as H.
  - apply Z.eqb_eq. by apply Heq.
  - apply Z.eqb_neq. intros ?. by apply H, Heq.
Qed.

Lemma strlcpy_loop_spec n dest i s r :
  no_nul s -> (i + n <= length dest)%nat ->
  strlcpy_loop n dest i (s ++ 0 :: r) =
    Some (splice dest i (take n s), (i + length (take n s))%nat).
Proof.
  revert dest i s. induction n as [|n IH]; intros dest i s Hs Hi; simpl.
  - by rewrite take_0, splice_nil, Nat.add_0_r.
  - destruct s as [|c s]; simpl.
    + by rewrite splice_nil, Nat.add_0_r.
    + inversion Hs; subst. rewrite (proj2 (Z.eqb_neq c 0)) by done.
      rewrite decide_True by lia. rewrite IH by (try done; len).
      rewrite <- splice_insert by lia.
      replace (S i) with (i + length [c])%nat by (simpl; lia).
      rewrite splice_app by (simpl; len). simpl. f_equal. f_equal. lia.
Qed.

(** [strlcpy] copies as much of the string as fits and terminates it. *)
Lemma strlcpy_spec dest off s r size :
  no_nul s -> 0 <= off -> 0 < size -> off + size <= lenZ dest ->
  strlcpy dest off (s ++ 0 :: r) size =
    Some (splice dest (Z.to_nat off) (take (Z.to_nat (size - 1)) s ++ [0]), lenZ s).
Proof.
  intros Hs Hoff Hsize Hlen. unfold strlcpy, lenZ in *. rewrite strlen_app by done. simpl.
  rewrite (proj2 (Z.eqb_neq size 0)) by lia.
  rewrite strlcpy_loop_spec by (try done; lia). simpl.
  assert (length (take (Z.to_nat (size - 1)) s) <= Z.to_nat (size - 1))%nat
    by (rewrite length_take; lia).
  rewrite length_splice by lia. rewrite decide_True by lia.
  rewrite <- splice_insert by (rewrite length_splice; lia).
  rewrite splice_app by (simpl; lia). done.
Qed.

Lemma no_nul_app s t : no_nul (s ++ t) <-> no_nul s /\ no_nul t.
Proof. apply Forall_app. Qed.
Lemma no_nul_take n s : no_nul s -> no_nul (take n s).
Proof. apply Forall_take. Qed.
Lemma no_nul_drop n s : no_nul s -> no_nul (drop n s).
Proof. apply Forall_drop. Qed.

#[export] Hint Resolve no_nul_take no_nul_drop : kernel.
