(* ===== verification/Klog.v ===== *)
(** Kernel logging (src/src/kernel/klog.c) and the console's number printer of
    the block layer. [kprintf] interprets a format string against its variadic
    arguments; its value is the sequence of characters it hands to
    [console_putc_unlocked], in order. The spin lock around the loop and the
    flush after it do not change that sequence. *)
From S2P Require Import Prelude LibString.

(** ** Numbers *)

Definition digit_char (digit : Z) : Z :=
  if digit <? 10 then u8 (ch "0" + digit) else u8 (ch "a" + (digit - 10)).

(** The digit loop: least significant digit first, into [buffer[16]]; a store
    past its end is out of bounds. *)
Fixpoint kput_digits (fuel : nat) (value base : Z) (buffer : mem) (i : Z) : option (mem * Z) :=
  match fuel with
  | O => None
  | S fuel' =>
      if value =? 0 then Some (buffer, i)
      else
        buffer1 ← wr buffer i (digit_char (value mod base));
        kput_digits fuel' (value / base) base buffer1 (i + 1)
  end.

(** The output loop: [buffer[i-1]] down to [buffer[0]]. *)
Fixpoint kput_reversed (i : nat) (buffer : mem) : option mem :=
  match i with
  | O => Some []
  | S i' => c ← buffer !! i'; rest ← kput_reversed i' buffer; Some (c :: rest)
  end.

(** [char buffer[2 * sizeof(unsigned long)]]. *)
Definition kput_buffer : mem := replicate 16 0.

Definition kput_unsigned (value base : Z) : option mem :=
  if value =? 0 then Some [ch "0"]
  else
    '(buffer, i) ← kput_digits 65 value base kput_buffer 0;
    kput_reversed (Z.to_nat i) buffer.

Definition kput_signed (value : Z) : option mem :=
  if value <? 0 then
    s ← kput_unsigned (u64 (- (value + 1)) + 1) 10; Some (ch "-" :: s)
  else kput_unsigned value 10.

(** [block_print_unsigned] of the block layer: the same loop in base 10. *)
Definition block_print_unsigned (value : Z) : option mem :=
  if value =? 0 then Some [ch "0"]
  else
    '(buffer, length) ← kput_digits 65 value 10 kput_buffer 0;
    kput_reversed (Z.to_nat length) buffer.

(** ** Format strings *)

(** A variadic argument, as the caller passed it. *)
Inductive karg : Type :=
| AStr (str : option mem)   (* const char *; [None] is the null pointer *)
| AInt (value : Z)          (* int *)
| AUint (value : Z)         (* unsigned int *)
| APtr (value : Z).         (* void * *)

(** One conversion [%c]: the characters it prints and the arguments left. An
    argument of another type than the conversion reads is undefined. *)
Definition kprintf_conv (c : Z) (args : list karg) : option (mem * list karg) :=
  if c =? ch "s" then
    match args with
    | AStr str :: args' => s ← cval (default (cstr "(null)") str); Some (s, args')
    | _ => None
    end
  else if c =? ch "c" then
    match args with AInt v :: args' => Some ([u8 v], args') | _ => None end
  else if c =? ch "d" then
    match args with AInt v :: args' => s ← kput_signed v; Some (s, args') | _ => None end
  else if c =? ch "u" then
    match args with AUint v :: args' => s ← kput_unsigned v 10; Some (s, args') | _ => None end
  else if c =? ch "x" then
    match args with AUint v :: args' => s ← kput_unsigned v 16; Some (s, args') | _ => None end
  else if c =? ch "p" then
    match args with
    | APtr v :: args' => s ← kput_unsigned v 16; Some (ch "0" :: ch "x" :: s, args')
    | _ => None
    end
  else if c =? ch "%" then Some ([ch "%"], args)
  else Some ([ch "%"; c], args).

Fixpoint kprintf_loop (format : mem) (args : list karg) : option mem :=
  match format with
  | [] => None
  | c :: format1 =>
      if c =? 0 then Some []
      else if negb (c =? ch "%") then
        rest ← kprintf_loop format1 args; Some (c :: rest)
      else
        match format1 with
        | [] => None
        | d :: format2 =>
            if d =? 0 then Some [ch "%"]
            else
              '(out, args1) ← kprintf_conv d args;
              rest ← kprintf_loop format2 args1;
              Some (out ++ rest)
        end
  end.

Definition kprintf {S} (format : string) (args : list karg) : M S unit :=
  out <- deref (kprintf_loop (cstr format) args);;
  emit out.

Definition klog_info {S} (message : string) : M S unit :=
  kprintf (nl "[INFO] %s") [AStr (Some (cstr message))].

Definition klog_error {S} (message : string) : M S unit :=
  kprintf (nl "[ERROR] %s") [AStr (Some (cstr message))].

Example kprintf_ex :
  kprintf_loop (cstr "%u:%s %d%% %x %p") [AUint 7; AStr None; AInt (-12); AUint 255; APtr 4096]
  = Some (lit "7:(null) -12% ff 0x1000").
Proof. reflexivity. Qed.

(** ** Reference meaning of the number printer *)

(** Digit characters of [v] in base [b], least significant first. *)
Fixpoint digits_le (fuel : nat) (v b : Z) : list Z :=
  match fuel with
  | O => []
  | S f => if v =? 0 then [] else digit_char (v mod b) :: digits_le f (v / b) b
  end.

Definition digit_value (c : Z) : Z := if c <? ch "a" then c - ch "0" else c - ch "a" + 10.

(** The number a digit string denotes. *)
Definition digits_value (b : Z) (s : list Z) : Z :=
  fold_left (fun acc c => acc * b + digit_value c) s 0.

Lemma digit_char_value d : 0 <= d < 16 -> digit_value (digit_char d) = d.
Proof.
  intros H. unfold digit_char, digit_value, u8. change (ch "0") with 48. change (ch "a") with 97.
  destruct (Z.ltb_spec d 10); rewrite Z.mod_small by lia; case Z.ltb_spec; lia.
Qed.

Lemma kput_reversed_spec n (buffer : mem) :
  (n <= length buffer)%nat -> kput_reversed n buffer = Some (reverse (take n buffer)).
Proof.
  induction n as [|n IH]; intros H; simpl; [done|].
  destruct (lookup_lt_is_Some_2 buffer n) as [c Hc]; [lia|]. rewrite Hc. simpl.
  rewrite IH by lia. simpl. rewrite (take_S_r _ _ _ Hc), reverse_snoc. done.
Qed.

Lemma div_digit v b n :
  2 <= b -> 0 <= v < b ^ Z.of_nat (S n) -> 0 <= v / b < b ^ Z.of_nat n.
Proof.
  intros Hb Hv. split; [apply Z.div_pos; lia|]. apply Z.div_lt_upper_bound; [lia|].
  replace (Z.of_nat (S n)) with (Z.of_nat n + 1) in Hv by lia.
  rewrite Z.pow_add_r, Z.pow_1_r in Hv by lia. lia.
Qed.

Lemma pow_0_digits v b : 0 <= v < b ^ Z.of_nat 0 -> v = 0.
Proof. change (Z.of_nat 0) with 0. rewrite Z.pow_0_r. lia. Qed.

Lemma digits_le_length fuel n v b :
  2 <= b -> 0 <= v < b ^ Z.of_nat n -> (length (digits_le fuel v b) <= n)%nat.
Proof.
  intros Hb. revert n v. induction fuel as [|fuel IH]; intros n v Hv; simpl; [lia|].
  destruct (Z.eqb_spec v 0); simpl; [lia|].
  destruct n as [|n]; [by apply pow_0_digits in Hv|].
  pose proof (IH n (v / b) (div_digit _ _ _ Hb Hv)). lia.
Qed.

(** A value below [b^n] has at most [n] digits, so the loop stops. *)
Lemma kput_digits_spec fuel n v b buffer i :
  2 <= b -> 0 <= v < b ^ Z.of_nat n -> (n < fuel)%nat -> (i + n <= length buffer)%nat ->
  kput_digits fuel v b buffer (Z.of_nat i) =
    Some (splice buffer i (digits_le fuel v b), Z.of_nat (i + length (digits_le fuel v b))).
Proof.
  intros Hb. revert n v buffer i. induction fuel as [|fuel IH]; intros n v buffer i Hv Hf Hi; [lia|].
  simpl. destruct (Z.eqb_spec v 0) as [->|Hv0].
  - rewrite splice_nil, Nat.add_0_r. done.
  - destruct n as [|n]; [by apply pow_0_digits in Hv|].
    rewrite wr_Some by (unfold lenZ; lia). simpl. rewrite Nat2Z.id.
    replace (Z.of_nat i + 1) with (Z.of_nat (S i)) by lia.
    pose proof (div_digit _ _ _ Hb Hv) as Hdiv.
    pose proof (digits_le_length fuel n _ _ Hb Hdiv) as Hl.
    rewrite (IH n) by (try done; len; lia). simpl. f_equal. f_equal; [|lia].
    rewrite <- splice_insert by lia.
    replace (S i) with (i + length [digit_char (v mod b)])%nat by (simpl; lia).
    rewrite splice_app by (simpl; lia). done.
Qed.

(** A value with more digits than the buffer has room for overruns it. *)
Lemma kput_digits_overflow fuel n v b buffer i :
  2 <= b -> b ^ Z.of_nat n <= v -> (i + n = length buffer)%nat ->
  kput_digits fuel v b buffer (Z.of_nat i) = None.
Proof.
  intros Hb. revert n v buffer i. induction fuel as [|fuel IH]; intros n v buffer i Hv Hi; simpl; [done|].
  assert (Hp : 0 < b ^ Z.of_nat n) by (apply Z.pow_pos_nonneg; lia).
  rewrite (proj2 (Z.eqb_neq v 0)) by lia. unfold wr.
  destruct n as [|n].
  - rewrite (proj2 (Z.ltb_ge (Z.of_nat i) _)) by (unfold lenZ; lia).
    by rewrite andb_false_r.
  - rewrite (proj2 (Z.leb_le 0 (Z.of_nat i))), (proj2 (Z.ltb_lt (Z.of_nat i) _)) by (unfold lenZ; lia).
    simpl. replace (Z.of_nat i + 1) with (Z.of_nat (S i)) by lia. apply (IH n); [|len].
    replace (Z.of_nat (S n)) with (Z.of_nat n + 1) in Hv by lia.
    rewrite Z.pow_add_r, Z.pow_1_r in Hv by lia. apply Z.div_le_lower_bound; lia.
Qed.

Lemma digits_value_snoc b s c : digits_value b (s ++ [c]) = digits_value b s * b + digit_value c.
Proof. unfold digits_value. by rewrite fold_left_app. Qed.

Lemma digits_value_le fuel n v b :
  2 <= b <= 16 -> 0 <= v < b ^ Z.of_nat n -> (n < fuel)%nat ->
  digits_value b (reverse (digits_le fuel v b)) = v.
Proof.
  intros Hb. revert n v. induction fuel as [|fuel IH]; intros n v Hv Hf; [lia|].
  simpl. destruct (Z.eqb_spec v 0) as [->|Hv0]; [done|].
  destruct n as [|n]; [by apply pow_0_digits in Hv|].
  rewrite reverse_cons, digits_value_snoc.
  rewrite (IH n) by (try lia; apply div_digit; lia).
  pose proof (Z.mod_pos_bound v b). rewrite digit_char_value by lia.
  pose proof (Z.div_mod v b). lia.
Qed.

(** What the digit loop and the output loop print together. *)
Lemma kput_print v b :
  2 <= b -> 0 < v < b ^ 16 ->
  ('(buffer, i) ← kput_digits 65 v b kput_buffer 0; kput_reversed (Z.to_nat i) buffer)
    = Some (reverse (digits_le 65 v b)).
Proof.
  intros Hb Hv. assert (Hv' : 0 <= v < b ^ Z.of_nat 16) by (change (Z.of_nat 16) with 16; lia).
  pose proof (digits_le_length 65 16 v b Hb Hv') as Hl.
  assert (Hroom : (0 + 16 <= length kput_buffer)%nat)
    by (unfold kput_buffer; rewrite length_replicate; lia).
  pose proof (kput_digits_spec 65 16 v b kput_buffer 0 Hb Hv' ltac:(lia) Hroom) as E.
  change (Z.of_nat 0) with 0 in E. rewrite E.
  cbn [mbind option_bind]. rewrite Nat2Z.id, Nat.add_0_l.
  assert (Hlen : (0 + length (digits_le 65 v b) <= length kput_buffer)%nat) by lia.
  rewrite kput_reversed_spec by (rewrite length_splice; lia).
  rewrite <- (slice_splice_same kput_buffer 0 (digits_le 65 v b)) at 3 by lia.
  unfold slice. by rewrite drop_0.
Qed.

Lemma kput_unsigned_total v base :
  2 <= base -> 0 <= v < base ^ 16 -> is_Some (kput_unsigned v base).
Proof.
  intros Hb Hv. unfold kput_unsigned. destruct (Z.eqb_spec v 0); [by eexists|].
  rewrite kput_print by lia. by eexists.
Qed.

Lemma kput_signed_total v : - 2 ^ 31 <= v < 2 ^ 31 -> is_Some (kput_signed v).
Proof.
  intros Hv. unfold kput_signed. destruct (Z.ltb_spec v 0).
  - rewrite u64_small by lia.
    destruct (kput_unsigned_total (- (v + 1) + 1) 10) as [s ->]; [lia|lia|by eexists].
  - apply kput_unsigned_total; lia.
Qed.

(** ** When [kprintf] is defined *)

(** The conversions of a format that read an argument. *)
Fixpoint fmt_convs (format : mem) : option (list Z) :=
  match format with
  | [] => None
  | c :: format1 =>
      if c =? 0 then Some []
      else if negb (c =? ch "%") then fmt_convs format1
      else
        match format1 with
        | [] => None
        | d :: format2 =>
            if d =? 0 then Some []
            else
              cs ← fmt_convs format2;
              Some (if bool_decide (d ∈ lit "scduxp") then d :: cs else cs)
        end
  end.

(** The argument fits the conversion and its C type. *)
Definition arg_ok (c : Z) (a : karg) : Prop :=
  match a with
  | AStr None => c = ch "s"
  | AStr (Some m) => c = ch "s" /\ is_Some (cval m)
  | AInt v => (c = ch "c" \/ c = ch "d") /\ - 2 ^ 31 <= v < 2 ^ 31
  | AUint v => (c = ch "u" \/ c = ch "x") /\ 0 <= v < 2 ^ 32
  | APtr v => c = ch "p" /\ 0 <= v < 2 ^ 64
  end.

Lemma kprintf_conv_arg d a args :
  arg_ok d a -> exists s, kprintf_conv d (a :: args) = Some (s, args).
Proof.
  unfold kprintf_conv. destruct a as [[m|]|v|v|v]; simpl arg_ok.
  - intros [-> [s Hs]]. simpl. rewrite Hs. by eexists.
  - intros ->. by eexists.
  - intros [[->| ->] Hv]; [by eexists|].
    destruct (kput_signed_total v Hv) as [s Hs]. simpl. rewrite Hs. by eexists.
  - intros [[->| ->] Hv].
    + destruct (kput_unsigned_total v 10) as [s Hs]; [lia|lia|]. simpl. rewrite Hs. by eexists.
    + destruct (kput_unsigned_total v 16) as [s Hs]; [lia|lia|]. simpl. rewrite Hs. by eexists.
  - intros [-> Hv]. destruct (kput_unsigned_total v 16) as [s Hs]; [lia|lia|].
    simpl. rewrite Hs. by eexists.
Qed.

Lemma conv_neq d c : d ∉ lit "scduxp" -> bool_decide (c ∈ lit "scduxp") = true -> (d =? c) = false.
Proof. intros Hd Hc%bool_decide_eq_true. apply Z.eqb_neq. by intros ->. Qed.

Lemma kprintf_conv_noarg d args :
  d ∉ lit "scduxp" -> exists s, kprintf_conv d args = Some (s, args).
Proof.
  intros Hd. unfold kprintf_conv. rewrite (conv_neq d (ch "s")), (conv_neq d (ch "c")),
    (conv_neq d (ch "d")), (conv_neq d (ch "u")), (conv_neq d (ch "x")),
    (conv_neq d (ch "p")) by (done || by vm_compute).
  case_match; by eexists.
Qed.

Lemma kprintf_loop_total n format cs args :
  (length format <= n)%nat -> fmt_convs format = Some cs -> Forall2 arg_ok cs args ->
  is_Some (kprintf_loop format args).
Proof.
  revert format cs args. induction n as [|n IH]; intros [|c format1] cs args Hn;
    cbn [fmt_convs kprintf_loop]; try done; [simpl in Hn; lia|].
  destruct (c =? 0); [by eexists|]. destruct (negb (c =? ch "%")).
  { intros Hc Ha. destruct (IH format1 cs args) as [o ->]; [simpl in Hn; lia|done..|]. by eexists. }
  destruct format1 as [|d format2]; [done|]. destruct (d =? 0); [by eexists|].
  destruct (fmt_convs format2) as [cs2|] eqn:Hcs; cbn [mbind option_bind]; [|done]. intros [= <-] Ha.
  case_bool_decide as Hd.
  - inversion Ha as [|? a ? args2 Hok Hrest]; subst.
    destruct (kprintf_conv_arg d a args2 Hok) as [s ->]. cbn [mbind option_bind].
    destruct (IH format2 cs2 args2) as [o ->]; [simpl in Hn; lia|done..|]. by eexists.
  - destruct (kprintf_conv_noarg d args Hd) as [s ->]. cbn [mbind option_bind].
    destruct (IH format2 cs2 args) as [o ->]; [simpl in Hn; lia|done..|]. by eexists.
Qed.

(** A well-typed [kprintf] returns: it leaves the state alone and prints. *)
Lemma kprintf_total {S} format cs args (s : S) :
  fmt_convs (cstr format) = Some cs -> Forall2 arg_ok cs args ->
  exists o, kprintf format args s = Ret tt s o.
Proof.
  intros Hc Ha. destruct (kprintf_loop_total _ _ _ _ (le_n _) Hc Ha) as [o Ho].
  exists o. unfold kprintf. by rewrite (bind_deref_Some _ o).
Qed.

Lemma klog_info_run {S} (message : string) (s : S) : exists o, klog_info message s = Ret tt s o.
Proof.
  eapply kprintf_total; [reflexivity|]. constructor; [|constructor]. split; [done|]. apply (cval_terminated _ (length (lit message))).
  unfold cstr. by rewrite lookup_app_r, Nat.sub_diag by lia.
Qed.

(** Closes the obligations on the arguments of a [kprintf] call. *)
Ltac kargs :=
  repeat (apply List.Forall2_cons); try apply List.Forall2_nil; cbn [arg_ok];
  repeat split; auto with kernel; try lia.

(** ** Properties *)

(** Printing a number and reading its digits back gives the number, in every
    base [kprintf] uses, as long as it has at most 16 digits: all of [%u],
    [%d], [%x] and [%p]. *)
Theorem kput_unsigned_roundtrip v base :
  2 <= base <= 16 -> 0 <= v < base ^ 16 ->
  exists s, kput_unsigned v base = Some s /\ digits_value base s = v.
Proof.
  intros Hb Hv. unfold kput_unsigned. destruct (Z.eqb_spec v 0) as [->|Hv0].
  - by exists [ch "0"].
  - rewrite kput_print by lia. eexists. split; [done|].
    apply (digits_value_le 65 16); [done| |lia]. change (Z.of_nat 16) with 16. lia.
Qed.

Lemma kput_unsigned_roundtrip_witness :
  (2 <= 16 <= 16 /\ 0 <= 2 ^ 64 - 1 < 16 ^ 16) /\
  exists s, kput_unsigned (2 ^ 64 - 1) 16 = Some s /\ digits_value 16 s = 2 ^ 64 - 1.
Proof. split; [lia|]. apply (kput_unsigned_roundtrip (2 ^ 64 - 1) 16); lia. Defined.

(** The block layer prints an [unsigned long] in decimal through the same
    16-byte buffer: a value of 17 or more decimal digits overruns it, and
    every smaller value prints correctly. *)
Theorem block_print_unsigned_bound v :
  0 <= v < 2 ^ 64 ->
  (v < 10 ^ 16 -> exists s, block_print_unsigned v = Some s /\ digits_value 10 s = v) /\
  (10 ^ 16 <= v -> block_print_unsigned v = None).
Proof.
  intros Hv. unfold block_print_unsigned. split; intros H.
  - destruct (Z.eqb_spec v 0) as [->|Hv0]; [by exists [ch "0"]|].
    rewrite kput_print by lia. eexists. split; [done|].
    apply (digits_value_le 65 16); [done| |lia]. change (Z.of_nat 16) with 16. lia.
  - rewrite (proj2 (Z.eqb_neq v 0)) by lia. change 0 with (Z.of_nat 0).
    rewrite (kput_digits_overflow 65 16); [done | lia | | done].
    change (Z.of_nat 16) with 16. lia.
Qed.

Lemma block_print_unsigned_bound_witness :
  0 <= 10 ^ 16 < 2 ^ 64 /\ block_print_unsigned (10 ^ 16) = None.
Proof. split; [lia|]. apply (block_print_unsigned_bound (10 ^ 16)); lia. Defined.
