(* ===== verification/Memory.v ===== *)
(** Physical memory: the layout record (src/src/kernel/memory_layout.c), the
    page allocator (src/src/mm/pmm.c) and the kernel heap
    (src/src/kernel/kmalloc.c). The three share [first_free_phys], so they run
    on one state [mm]. The page bitmap lives in RAM behind the kernel image; it
    is modelled as the list of its 64-bit words. *)
From S2P Require Import Prelude LibString Klog.

(** ** State *)

(** The platform and the linker symbols of the kernel image. *)
Record platform : Type := Platform {
  platform_get_ram_base : Z;
  platform_get_ram_size : Z;
  __kernel_start : Z;
  __kernel_end : Z
}.

(** The static variables of the three files. [ram] is the byte at each
    physical address outside the page bitmap. *)
Record mm : Type := Mm {
  first_free_phys : Z;
  pmm_bitmap : list Z;
  pmm_bitmap_bytes : Z;
  pmm_page_count : Z;
  pmm_used_count : Z;
  pmm_initialized : bool;
  heap_start : Z;
  heap_current : Z;
  heap_limit : Z;
  ram : Z -> Z
}.
Definition set_first_free_phys (v : Z) (s : mm) : mm :=
  Mm v (pmm_bitmap s) (pmm_bitmap_bytes s) (pmm_page_count s) (pmm_used_count s) (pmm_initialized s) (heap_start s) (heap_current s) (heap_limit s) (ram s).
Definition set_pmm_bitmap (v : list Z) (s : mm) : mm :=
  Mm (first_free_phys s) v (pmm_bitmap_bytes s) (pmm_page_count s) (pmm_used_count s) (pmm_initialized s) (heap_start s) (heap_current s) (heap_limit s) (ram s).
Definition set_pmm_bitmap_bytes (v : Z) (s : mm) : mm :=
  Mm (first_free_phys s) (pmm_bitmap s) v (pmm_page_count s) (pmm_used_count s) (pmm_initialized s) (heap_start s) (heap_current s) (heap_limit s) (ram s).
Definition set_pmm_page_count (v : Z) (s : mm) : mm :=
  Mm (first_free_phys s) (pmm_bitmap s) (pmm_bitmap_bytes s) v (pmm_used_count s) (pmm_initialized s) (heap_start s) (heap_current s) (heap_limit s) (ram s).
Definition set_pmm_used_count (v : Z) (s : mm) : mm :=
  Mm (first_free_phys s) (pmm_bitmap s) (pmm_bitmap_bytes s) (pmm_page_count s) v (pmm_initialized s) (heap_start s) (heap_current s) (heap_limit s) (ram s).
Definition set_pmm_initialized (v : bool) (s : mm) : mm :=
  Mm (first_free_phys s) (pmm_bitmap s) (pmm_bitmap_bytes s) (pmm_page_count s) (pmm_used_count s) v (heap_start s) (heap_current s) (heap_limit s) (ram s).
Definition set_heap_start (v : Z) (s : mm) : mm :=
  Mm (first_free_phys s) (pmm_bitmap s) (pmm_bitmap_bytes s) (pmm_page_count s) (pmm_used_count s) (pmm_initialized s) v (heap_current s) (heap_limit s) (ram s).
Definition set_heap_current (v : Z) (s : mm) : mm :=
  Mm (first_free_phys s) (pmm_bitmap s) (pmm_bitmap_bytes s) (pmm_page_count s) (pmm_used_count s) (pmm_initialized s) (heap_start s) v (heap_limit s) (ram s).
Definition set_heap_limit (v : Z) (s : mm) : mm :=
  Mm (first_free_phys s) (pmm_bitmap s) (pmm_bitmap_bytes s) (pmm_page_count s) (pmm_used_count s) (pmm_initialized s) (heap_start s) (heap_current s) v (ram s).
Definition set_ram (v : Z -> Z) (s : mm) : mm :=
  Mm (first_free_phys s) (pmm_bitmap s) (pmm_bitmap_bytes s) (pmm_page_count s) (pmm_used_count s) (pmm_initialized s) (heap_start s) (heap_current s) (heap_limit s) v.

(** The zero-initialised image of the static variables. *)
Definition mm_reset (ram0 : Z -> Z) : mm := Mm 0 [] 0 0 0 false 0 0 0 ram0.

(** ** Operations *)

Section operations.
Context (plat : platform).

(** *** memory_layout.c *)

Definition memory_layout_init : M mm unit :=
  ff <- gets first_free_phys;;
  if ff =? 0 then modify (set_first_free_phys (__kernel_end plat)) else ret tt.

Definition memory_layout_ram_start : Z := platform_get_ram_base plat.
Definition memory_layout_ram_end : Z := u64 (platform_get_ram_base plat + platform_get_ram_size plat).
Definition memory_layout_kernel_start : Z := __kernel_start plat.
Definition memory_layout_kernel_end : Z := __kernel_end plat.

Definition memory_layout_first_free_phys : M mm Z :=
  memory_layout_init;; gets first_free_phys.

Definition memory_layout_set_first_free_phys (address : Z) : M mm unit :=
  memory_layout_init;; modify (set_first_free_phys address).

Definition memory_layout_print : M mm unit :=
  klog_info "physical memory layout:";;
  kprintf (nl "  RAM start: %p") [APtr memory_layout_ram_start];;
  kprintf (nl "  RAM end: %p") [APtr memory_layout_ram_end];;
  kprintf (nl "  kernel start: %p") [APtr memory_layout_kernel_start];;
  kprintf (nl "  kernel end: %p") [APtr memory_layout_kernel_end];;
  free <- memory_layout_first_free_phys;;
  kprintf (nl "  first free physical address: %p") [APtr free].

(** *** pmm.c *)

Definition PMM_PAGE_SIZE : Z := 4096.

Definition align_up_page (value : Z) : Z :=
  Z.land (u64 (value + (PMM_PAGE_SIZE - 1))) (not64 (PMM_PAGE_SIZE - 1)).
Definition align_down_page (value : Z) : Z := Z.land value (not64 (PMM_PAGE_SIZE - 1)).

(** [sizeof(unsigned long) * 8]. *)
Definition pmm_word_bits : Z := 8 * 8.

Definition pmm_test_bit (page_index : Z) : M mm bool :=
  bitmap <- gets pmm_bitmap;;
  word <- deref (rd bitmap (page_index / pmm_word_bits));;
  ret (negb (Z.land word (u64 (Z.shiftl 1 (page_index mod pmm_word_bits))) =? 0)).

Definition pmm_set_bit (page_index : Z) : M mm unit :=
  bitmap <- gets pmm_bitmap;;
  word <- deref (rd bitmap (page_index / pmm_word_bits));;
  bitmap1 <- deref (wr bitmap (page_index / pmm_word_bits)
                      (Z.lor word (u64 (Z.shiftl 1 (page_index mod pmm_word_bits)))));;
  modify (set_pmm_bitmap bitmap1).

Definition pmm_clear_bit (page_index : Z) : M mm unit :=
  bitmap <- gets pmm_bitmap;;
  word <- deref (rd bitmap (page_index / pmm_word_bits));;
  bitmap1 <- deref (wr bitmap (page_index / pmm_word_bits)
                      (Z.land word (not64 (u64 (Z.shiftl 1 (page_index mod pmm_word_bits))))));;
  modify (set_pmm_bitmap bitmap1).

(** [pmm_used_count++] and [pmm_used_count--]. *)
Definition pmm_used_inc : M mm unit := modify (fun s => set_pmm_used_count (u64 (pmm_used_count s + 1)) s).
Definition pmm_used_dec : M mm unit := modify (fun s => set_pmm_used_count (u64 (pmm_used_count s - 1)) s).

Definition pmm_reserve_page (page_index : Z) : M mm unit :=
  used <- pmm_test_bit page_index;;
  if negb used then pmm_set_bit page_index;; pmm_used_inc else ret tt.

(** The loop of [pmm_reserve_range]; each turn advances by a page, so
    [(end - current) / PMM_PAGE_SIZE + 1] turns are enough. *)
Fixpoint pmm_reserve_loop (fuel : nat) (current end_ : Z) : M mm unit :=
  match fuel with
  | O => undef
  | S fuel' =>
      if current <? end_ then
        pmm_reserve_page (u64 (current - memory_layout_ram_start) / PMM_PAGE_SIZE);;
        pmm_reserve_loop fuel' (u64 (current + PMM_PAGE_SIZE)) end_
      else ret tt
  end.

Definition pmm_reserve_range (start end_ : Z) : M mm unit :=
  if end_ <=? start then ret tt
  else
    let current := align_down_page start in
    let end1 := align_up_page end_ in
    pmm_reserve_loop (Z.to_nat ((end1 - current) / PMM_PAGE_SIZE + 1)) current end1.

Definition pmm_init : M mm unit :=
  initialized <- gets pmm_initialized;;
  if (initialized : bool) then ret tt
  else
    modify (set_pmm_page_count (platform_get_ram_size plat / PMM_PAGE_SIZE));;
    page_count <- gets pmm_page_count;;
    first_free <- memory_layout_first_free_phys;;
    let bitmap_start := align_up_page first_free in
    modify (set_pmm_bitmap_bytes (align_up_page ((page_count + 7) / 8)));;
    bitmap_bytes <- gets pmm_bitmap_bytes;;
    let bitmap_end := u64 (bitmap_start + bitmap_bytes) in
    modify (set_pmm_bitmap (replicate (Z.to_nat (bitmap_bytes / 8)) 0));;
    pmm_reserve_range memory_layout_kernel_start memory_layout_kernel_end;;
    pmm_reserve_range bitmap_start bitmap_end;;
    memory_layout_set_first_free_phys bitmap_end;;
    modify (set_pmm_initialized true);;
    used_count <- gets pmm_used_count;;
    kprintf (nl "[INFO] pmm: total pages: %u") [AUint (u32 page_count)];;
    kprintf (nl "[INFO] pmm: used pages: %u") [AUint (u32 used_count)];;
    kprintf (nl "[INFO] pmm: free pages: %u") [AUint (u32 (page_count - used_count))].

(** The scan of [pmm_alloc_page] from [page_index]; it ends at
    [pmm_page_count], so [pmm_page_count + 1] turns are enough. *)
Fixpoint pmm_alloc_scan (fuel : nat) (page_index : Z) : M mm Z :=
  match fuel with
  | O => undef
  | S fuel' =>
      page_count <- gets pmm_page_count;;
      if page_index <? page_count then
        used <- pmm_test_bit page_index;;
        if negb used then
          pmm_set_bit page_index;;
          pmm_used_inc;;
          ret (u64 (memory_layout_ram_start + page_index * PMM_PAGE_SIZE))
        else pmm_alloc_scan fuel' (page_index + 1)
      else ret 0
  end.

Definition pmm_alloc_page : M mm Z :=
  pmm_init;;
  page_count <- gets pmm_page_count;;
  pmm_alloc_scan (S (Z.to_nat page_count)) 0.

Definition pmm_free_page (page : Z) : M mm unit :=
  pmm_init;;
  let address := page in
  if (address <? memory_layout_ram_start) || (memory_layout_ram_end <=? address) then
    panic "pmm_free_page: address out of range"
  else if negb (Z.land address (PMM_PAGE_SIZE - 1) =? 0) then
    panic "pmm_free_page: address not page aligned"
  else
    let page_index := (address - memory_layout_ram_start) / PMM_PAGE_SIZE in
    used <- pmm_test_bit page_index;;
    if negb used then panic "pmm_free_page: page already free"
    else
      pmm_clear_bit page_index;;
      pmm_used_dec.

Definition pmm_total_pages : M mm Z := pmm_init;; gets pmm_page_count.
Definition pmm_free_pages : M mm Z := pmm_init;; gets (fun s => u64 (pmm_page_count s - pmm_used_count s)).
Definition pmm_used_pages : M mm Z := pmm_init;; gets pmm_used_count.

(** *** kmalloc.c *)

Definition align_up_16 (value : Z) : Z := Z.land (u64 (value + 15)) (not64 15).

Definition kmalloc_init : M mm unit :=
  start <- gets heap_start;;
  if negb (start =? 0) then ret tt
  else
    first_free <- memory_layout_first_free_phys;;
    modify (set_heap_start (align_up_16 first_free));;
    start1 <- gets heap_start;;
    modify (set_heap_current start1);;
    modify (set_heap_limit memory_layout_ram_end).

Definition kmalloc (size : Z) : M mm Z :=
  kmalloc_init;;
  block_start <- gets heap_current;;
  limit <- gets heap_limit;;
  let aligned_size := align_up_16 size in
  let block_end := u64 (block_start + aligned_size) in
  if (block_end <? block_start) || (limit <? block_end) then ret 0
  else
    modify (set_heap_current block_end);;
    ret block_start.

Definition kzalloc (size : Z) : M mm Z :=
  ptr <- kmalloc size;;
  if ptr =? 0 then ret 0
  else
    modify (fun s => set_ram (fun a => if (ptr <=? a) && (a <? ptr + size) then 0 else ram s a) s);;
    ret ptr.

Definition kmalloc_used : M mm Z :=
  kmalloc_init;; gets (fun s => u64 (heap_current s - heap_start s)).

End operations.

(** The QEMU [virt] machine (src/src/platform/qemu_virt/platform.c): 128 MiB of
    RAM at 0x40000000; the kernel image starts 512 KiB above its base. *)
Definition QEMU_VIRT_RAM_BASE : Z := 0x40000000.
Definition QEMU_VIRT_RAM_SIZE : Z := 128 * 1024 * 1024.
Definition qemu_virt (kernel_end : Z) : platform :=
  Platform QEMU_VIRT_RAM_BASE QEMU_VIRT_RAM_SIZE 0x40080000 kernel_end.

(** ** The bitmap as a set of pages *)

(** [page_used s p]: bit [p] of the bitmap is set. *)
Definition bitmap_bit (bitmap : list Z) (p : Z) : bool :=
  Z.testbit (default 0 (rd bitmap (p / pmm_word_bits))) (p mod pmm_word_bits).
Definition page_used (s : mm) (p : Z) : bool := bitmap_bit (pmm_bitmap s) p.

(** The pages below [n] whose bit is set. *)
Definition pages_used (s : mm) : list Z :=
  filter (fun p => page_used s p = true) (seqZ 0 (pmm_page_count s)).

Definition word64 (w : Z) : Prop := 0 <= w < 2 ^ 64.

(** The bitmap has a 64-bit word for every page and nothing overflows. *)
Record bitmap_wf (s : mm) : Prop := {
  bw_words : Forall word64 (pmm_bitmap s);
  bw_count : 0 <= pmm_page_count s <= 64 * lenZ (pmm_bitmap s);
  bw_small : pmm_page_count s < 2 ^ 52
}.

(** The page allocator's invariant: initialised, and the used counter is the
    number of set bits. *)
Record pmm_wf (s : mm) : Prop := {
  pw_init : pmm_initialized s = true;
  pw_bitmap : bitmap_wf s;
  pw_used : pmm_used_count s = lenZ (pages_used s)
}.

Lemma shiftl_bit b : 0 <= b < 64 -> u64 (Z.shiftl 1 b) = 2 ^ b.
Proof.
  intros H. rewrite Z.shiftl_1_l. apply u64_small. split; [apply Z.pow_nonneg; lia|].
  apply Z.pow_lt_mono_r; lia.
Qed.

Lemma land_bit w b : 0 <= b -> negb (Z.land w (2 ^ b) =? 0) = Z.testbit w b.
Proof.
  intros Hb. destruct (Z.eqb_spec (Z.land w (2 ^ b)) 0) as [H|H]; simpl.
  - apply (f_equal (fun x => Z.testbit x b)) in H.
    rewrite Z.land_spec, Z.pow2_bits_true, andb_true_r, Z.bits_0 in H by done. done.
  - destruct (Z.testbit w b) eqn:E; [done|]. destruct H. apply Z.bits_inj'. intros i Hi.
    rewrite Z.land_spec, Z.pow2_bits_eqb, Z.bits_0 by done.
    destruct (Z.eqb_spec b i) as [->|]; [by rewrite E | by rewrite andb_false_r].
Qed.

Lemma testbit_lor_bit w b i : 0 <= b -> 0 <= i -> Z.testbit (Z.lor w (2 ^ b)) i = (i =? b) || Z.testbit w i.
Proof.
  intros Hb Hi. rewrite Z.lor_spec, Z.pow2_bits_eqb, orb_comm, (Z.eqb_sym i) by done. done.
Qed.

Lemma testbit_clear_bit w b i :
  0 <= b < 64 -> 0 <= i -> word64 w ->
  Z.testbit (Z.land w (not64 (2 ^ b))) i = negb (i =? b) && Z.testbit w i.
Proof.
  intros Hb Hi Hw. unfold not64, u64. rewrite land_mod_lnot by (done || lia).
  rewrite Z.ldiff_spec, Z.pow2_bits_eqb, (Z.eqb_sym i) by lia. apply andb_comm.
Qed.

Lemma word64_lor w b : 0 <= b < 64 -> word64 w -> word64 (Z.lor w (2 ^ b)).
Proof.
  intros Hb [Hw1 Hw2]. split; [apply Z.lor_nonneg; split; [done|]; apply Z.pow_nonneg; lia|].
  destruct (Z.eq_dec (Z.lor w (2 ^ b)) 0) as [->|Hne]; [lia|].
  apply Z.log2_lt_pow2; [pose proof (Z.lor_nonneg w (2 ^ b)); lia|].
  rewrite Z.log2_lor by lia. rewrite Z.log2_pow2 by lia.
  destruct (Z.eq_dec w 0) as [->|Hw]; [simpl; lia|].
  apply Z.max_lub_lt; [|lia]. apply Z.log2_lt_pow2; lia.
Qed.

Lemma word64_land w c : word64 w -> word64 (Z.land w c).
Proof.
  intros Hw. unfold word64.
  replace (Z.land w c) with (Z.land w c mod 2 ^ 64); [apply Z.mod_pos_bound; lia|].
  rewrite <- Z.land_ones, <- Z.land_assoc, (Z.land_comm c), Z.land_assoc, Z.land_ones by lia.
  by rewrite Z.mod_small.
Qed.

Lemma bitmap_lookup s p :
  bitmap_wf s -> 0 <= p < pmm_page_count s ->
  exists w, rd (pmm_bitmap s) (p / pmm_word_bits) = Some w /\ word64 w.
Proof.
  intros [Hw Hc _] Hp. unfold pmm_word_bits in *. change (8 * 8) with 64 in *.
  destruct (rd_Some (pmm_bitmap s) (p / 64)) as [w Hrd].
  { split; [apply Z.div_pos; lia|]. apply Z.div_lt_upper_bound; lia. }
  exists w. split; [done|]. unfold rd in Hrd. case_match; [|done].
  by apply (Forall_lookup_1 _ _ _ _ Hw Hrd).
Qed.

Lemma pmm_test_bit_spec s p :
  bitmap_wf s -> 0 <= p < pmm_page_count s -> pmm_test_bit p s = Ret (page_used s p) s [].
Proof.
  intros Hwf Hp. destruct (bitmap_lookup s p Hwf Hp) as (w & Hw & Hw64).
  unfold pmm_test_bit. krun. rewrite (bind_deref_Some _ w) by done.
  unfold page_used, bitmap_bit. rewrite Hw. simpl default.
  pose proof (Z.mod_pos_bound p 64). change pmm_word_bits with 64.
  rewrite shiftl_bit, land_bit by lia. done.
Qed.

(** Updating one word changes the bit of one page. *)
Lemma bitmap_bit_update bitmap p q w w' (f : bool -> bool) :
  0 <= p -> 0 <= q -> rd bitmap (p / 64) = Some w ->
  (forall i, 0 <= i -> Z.testbit w' i = if i =? p mod 64 then f (Z.testbit w i) else Z.testbit w i) ->
  bitmap_bit (<[Z.to_nat (p / 64) := w']> bitmap) q =
    if q =? p then f (bitmap_bit bitmap p) else bitmap_bit bitmap q.
Proof.
  intros Hp Hq Hw Hw'. unfold bitmap_bit. change pmm_word_bits with 64.
  pose proof (rd_inv _ _ _ Hw) as Hr. pose proof (Z.mod_pos_bound q 64) as Hm.
  assert (Hq0 : 0 <= q / 64) by (apply Z.div_pos; lia).
  destruct (Z.eq_dec (q / 64) (p / 64)) as [He|He].
  - unfold rd at 1. rewrite He, (proj2 (Z.leb_le 0 (p / 64))) by lia.
    rewrite list_lookup_insert_eq by (unfold lenZ in Hr; lia). rewrite Hw. simpl.
    rewrite Hw' by lia.
    pose proof (Z.div_mod p 64). pose proof (Z.div_mod q 64).
    destruct (Z.eqb_spec (q mod 64) (p mod 64)), (Z.eqb_spec q p); try lia; congruence.
  - destruct (Z.eqb_spec q p) as [->|]; [done|].
    assert (E : rd (<[Z.to_nat (p / 64) := w']> bitmap) (q / 64) = rd bitmap (q / 64)).
    { unfold rd. rewrite (proj2 (Z.leb_le 0 (q / 64))) by lia.
      apply list_lookup_insert_ne. lia. }
    by rewrite E.
Qed.

Lemma pmm_set_bit_spec s p :
  bitmap_wf s -> 0 <= p < pmm_page_count s ->
  exists bitmap1, pmm_set_bit p s = Ret tt (set_pmm_bitmap bitmap1 s) [] /\
    bitmap_wf (set_pmm_bitmap bitmap1 s) /\
    forall q, 0 <= q -> bitmap_bit bitmap1 q = (q =? p) || page_used s q.
Proof.
  intros Hwf Hp. destruct (bitmap_lookup s p Hwf Hp) as (w & Hw & Hw64).
  pose proof (rd_inv _ _ _ Hw) as Hr. pose proof (Z.mod_pos_bound p 64) as Hm.
  eexists. unfold pmm_set_bit. krun. rewrite (bind_deref_Some _ w) by done.
  rewrite (bind_deref_Some _ _ _ _ (wr_Some _ _ _ Hr)). split; [done|].
  change pmm_word_bits with 64 in *. rewrite shiftl_bit by lia. destruct Hwf as [H1 H2 H3].
  split; [split; simpl; [apply Forall_insert; [done|]; apply word64_lor; (done || lia)|len|done]|].
  { unfold lenZ in *. rewrite length_insert. done. }
  intros q Hq. rewrite (bitmap_bit_update _ p q w _ (fun _ => true));
    [by destruct (Z.eqb_spec q p) | lia | lia | done |].
  intros i Hi. rewrite testbit_lor_bit by lia. by destruct (i =? p mod 64).
Qed.

Lemma pmm_clear_bit_spec s p :
  bitmap_wf s -> 0 <= p < pmm_page_count s ->
  exists bitmap1, pmm_clear_bit p s = Ret tt (set_pmm_bitmap bitmap1 s) [] /\
    bitmap_wf (set_pmm_bitmap bitmap1 s) /\
    forall q, 0 <= q -> bitmap_bit bitmap1 q = negb (q =? p) && page_used s q.
Proof.
  intros Hwf Hp. destruct (bitmap_lookup s p Hwf Hp) as (w & Hw & Hw64).
  pose proof (rd_inv _ _ _ Hw) as Hr. pose proof (Z.mod_pos_bound p 64) as Hm.
  eexists. unfold pmm_clear_bit. krun. rewrite (bind_deref_Some _ w) by done.
  rewrite (bind_deref_Some _ _ _ _ (wr_Some _ _ _ Hr)). split; [done|].
  change pmm_word_bits with 64 in *. rewrite shiftl_bit by lia. destruct Hwf as [H1 H2 H3].
  split; [split; simpl; [apply Forall_insert; [done|]; by apply word64_land|len|done]|].
  { unfold lenZ in *. rewrite length_insert. done. }
  intros q Hq. rewrite (bitmap_bit_update _ p q w _ (fun _ => false));
    [by destruct (Z.eqb_spec q p) | lia | lia | done |].
  intros i Hi. rewrite testbit_clear_bit by (done || lia). by destruct (i =? p mod 64).
Qed.

Lemma filter_all (l : list Z) : filter (fun _ => true = true) l = l.
Proof.
  induction l as [|x l IH]; [done|]. by rewrite filter_cons, decide_True, IH.
Qed.

Lemma filter_ext_in (l : list Z) (f g : Z -> bool) :
  (forall q, q ∈ l -> g q = f q) -> filter (fun q => g q = true) l = filter (fun q => f q = true) l.
Proof.
  induction l as [|x l IH]; intros H; [done|]. rewrite !filter_cons.
  rewrite (H x) by (by constructor). rewrite IH; [done|]. intros q Hq. apply H. by constructor.
Qed.

(** Turning one page on adds one to the number of set bits. *)
Lemma filter_flip (l : list Z) (f g : Z -> bool) p :
  NoDup l -> p ∈ l -> f p = false -> g p = true ->
  (forall q, q ∈ l -> q <> p -> g q = f q) ->
  length (filter (fun q => g q = true) l) = S (length (filter (fun q => f q = true) l)).
Proof.
  intros Hnd Hin Hf Hg Hrest. induction Hnd as [|x l Hx Hnd IH]; [by apply elem_of_nil in Hin|].
  rewrite !filter_cons. apply elem_of_cons in Hin as [->|Hin].
  - rewrite decide_True, decide_False by (done || congruence). simpl. f_equal. f_equal.
    apply filter_ext_in. intros q Hq. apply Hrest; [by constructor|]. by intros ->.
  - rewrite (Hrest x) by (by constructor || by intros ->).
    case_decide; simpl; [f_equal|]; (apply IH; [done|]; intros; apply Hrest; [by constructor|done]).
Qed.

Lemma pages_used_flip s s' p :
  pmm_page_count s' = pmm_page_count s -> 0 <= p < pmm_page_count s ->
  page_used s p = false -> page_used s' p = true ->
  (forall q, 0 <= q -> q <> p -> page_used s' q = page_used s q) ->
  lenZ (pages_used s') = lenZ (pages_used s) + 1.
Proof.
  intros Hc Hp Hf Hg Hrest. unfold lenZ, pages_used. rewrite Hc.
  rewrite (filter_flip _ (page_used s) (page_used s') p); [lia | | | done | done |].
  - apply NoDup_seqZ.
  - apply elem_of_seqZ. lia.
  - intros q Hq%elem_of_seqZ. apply Hrest. lia.
Qed.

Lemma pages_used_bound s : 0 <= pmm_page_count s -> 0 <= lenZ (pages_used s) <= pmm_page_count s.
Proof.
  intros H. unfold lenZ, pages_used. pose proof (length_filter (fun p => page_used s p = true)
    (seqZ 0 (pmm_page_count s))) as Hl. rewrite length_seqZ in Hl. lia.
Qed.

Section pmm_proofs.
Context (plat : platform).

Lemma pmm_init_done s : pmm_initialized s = true -> pmm_init plat s = Ret tt s [].
Proof. intros H. unfold pmm_init. krun. by rewrite H. Qed.

(** The allocated page: the state after setting its bit and counting it. *)
Definition page_taken (s s' : mm) (p : Z) : Prop :=
  page_used s p = false /\ pmm_page_count s' = pmm_page_count s /\
  pmm_initialized s' = pmm_initialized s /\ bitmap_wf s' /\
  pmm_used_count s' = u64 (pmm_used_count s + 1) /\
  first_free_phys s' = first_free_phys s /\ ram s' = ram s /\
  forall q, 0 <= q -> page_used s' q = (q =? p) || page_used s q.

Lemma page_taken_wf s s' p :
  pmm_wf s -> 0 <= p < pmm_page_count s -> page_taken s s' p -> pmm_wf s'.
Proof.
  intros [Hi Hb Hu] Hp (Hf & Hc & Hi' & Hb' & Hu' & _ & _ & Hall). split; [congruence|done|].
  pose proof (bw_small _ Hb). pose proof (pages_used_bound s). destruct Hb as [_ Hcount _].
  rewrite Hu', Hu. rewrite (pages_used_flip s s' p); try done.
  - apply u64_small. lia.
  - rewrite Hall by lia. by rewrite Z.eqb_refl.
  - intros q Hq Hne. rewrite Hall by done. by rewrite (proj2 (Z.eqb_neq q p)).
Qed.

Lemma pmm_take_page s p {A} (r : A) :
  bitmap_wf s -> 0 <= p < pmm_page_count s -> page_used s p = false ->
  exists s', (pmm_set_bit p;; pmm_used_inc;; ret r) s = Ret r s' [] /\ page_taken s s' p.
Proof.
  intros Hwf Hp Hf. destruct (pmm_set_bit_spec s p Hwf Hp) as (bm & Hset & Hwf' & Hall).
  eexists. rewrite (bind_Ret_nil _ _ _ _ _ Hset). unfold pmm_used_inc. krun. split; [done|].
  split_and!; try done. by destruct Hwf'.
Qed.

Lemma pmm_alloc_scan_spec fuel idx s :
  bitmap_wf s -> 0 <= idx <= pmm_page_count s -> (Z.to_nat (pmm_page_count s - idx) < fuel)%nat ->
  (exists p s', idx <= p < pmm_page_count s /\ (forall q, idx <= q < p -> page_used s q = true) /\
     pmm_alloc_scan plat fuel idx s =
       Ret (u64 (memory_layout_ram_start plat + p * PMM_PAGE_SIZE)) s' [] /\ page_taken s s' p) \/
  ((forall q, idx <= q < pmm_page_count s -> page_used s q = true) /\
     pmm_alloc_scan plat fuel idx s = Ret 0 s []).
Proof.
  revert idx. induction fuel as [|fuel IH]; intros idx Hwf Hidx Hfuel; [lia|].
  cbn [pmm_alloc_scan]. krun. destruct (Z.ltb_spec idx (pmm_page_count s)) as [Hlt|Hge].
  - rewrite (bind_Ret_nil _ _ _ _ _ (pmm_test_bit_spec s idx Hwf ltac:(lia))).
    destruct (page_used s idx) eqn:Hu; kif.
    + destruct (IH (idx + 1)) as [(p & s' & Hp & Hq & He & Ht)|[Hq He]]; [done|lia|lia| |].
      * left. exists p, s'. split_and!; try done; try lia.
        intros q Hq'. destruct (Z.eq_dec q idx) as [->|]; [done|]. apply Hq. lia.
      * right. split; [|done]. intros q Hq'. destruct (Z.eq_dec q idx) as [->|]; [done|].
        apply Hq. lia.
    + left. destruct (pmm_take_page s idx (u64 (memory_layout_ram_start plat + idx * PMM_PAGE_SIZE)))
        as (s' & He & Ht); [done|lia|done|].
      exists idx, s'. split_and!; try done; lia.
  - right. split; [lia|done].
Qed.

(** RAM is page aligned and fits in the address space. *)
Record plat_wf : Prop := {
  pl_base : 0 < platform_get_ram_base plat;
  pl_align : platform_get_ram_base plat mod PMM_PAGE_SIZE = 0;
  pl_size : 0 <= platform_get_ram_size plat;
  pl_end : platform_get_ram_base plat + platform_get_ram_size plat < 2 ^ 63
}.

(** The allocator manages the pages of this platform's RAM. *)
Definition pmm_on (s : mm) : Prop :=
  pmm_wf s /\ pmm_page_count s = platform_get_ram_size plat / PMM_PAGE_SIZE.

(** The address of page [p]. *)
Definition page_addr (p : Z) : Z := platform_get_ram_base plat + p * PMM_PAGE_SIZE.

Lemma page_addr_range s p :
  plat_wf -> pmm_on s -> 0 <= p < pmm_page_count s ->
  platform_get_ram_base plat <= page_addr p /\
  page_addr p + PMM_PAGE_SIZE <= platform_get_ram_base plat + platform_get_ram_size plat.
Proof.
  intros [] [_ Hc] Hp. unfold page_addr, PMM_PAGE_SIZE in *.
  pose proof (Z.mul_div_le (platform_get_ram_size plat) 4096). lia.
Qed.

Lemma pmm_alloc_page_cases s :
  plat_wf -> pmm_on s ->
  (exists p s', 0 <= p < pmm_page_count s /\ (forall q, 0 <= q < p -> page_used s q = true) /\
     pmm_alloc_page plat s = Ret (page_addr p) s' [] /\ page_taken s s' p /\ pmm_on s') \/
  ((forall q, 0 <= q < pmm_page_count s -> page_used s q = true) /\
     pmm_alloc_page plat s = Ret 0 s []).
Proof.
  intros Hpl Hon. pose proof Hon as [Hwf Hc]. pose proof Hwf as [Hi Hb _].
  unfold pmm_alloc_page. rewrite (bind_Ret_nil _ _ _ _ _ (pmm_init_done s Hi)). krun.
  destruct Hb as [Hw Hcount Hs].
  destruct (pmm_alloc_scan_spec (S (Z.to_nat (pmm_page_count s))) 0 s)
    as [(p & s' & Hp & Hq & He & Ht)|H]; [done|lia|lia| |by right].
  left. exists p, s'. pose proof (page_addr_range s p Hpl Hon Hp) as Hr. destruct Hpl.
  split_and!; try done; try lia.
  - rewrite He. unfold memory_layout_ram_start, page_addr in *. rewrite u64_small; [done|].
    unfold PMM_PAGE_SIZE in *. lia.
  - split; [by apply (page_taken_wf s s' p)|]. by destruct Ht as (_ & -> & _).
Qed.

(** The physical address of a page passes the guards of [pmm_free_page]. *)
Lemma page_addr_index p :
  plat_wf -> 0 <= p ->
  (page_addr p - memory_layout_ram_start plat) / PMM_PAGE_SIZE = p /\
  Z.land (page_addr p) (PMM_PAGE_SIZE - 1) = 0.
Proof.
  intros [_ Ha _ _] Hp. unfold page_addr, memory_layout_ram_start. split.
  - replace (_ + _ - _) with (p * PMM_PAGE_SIZE) by lia. by apply Z.div_mul.
  - change (PMM_PAGE_SIZE - 1) with (Z.ones 12). rewrite Z.land_ones by lia.
    change (2 ^ 12) with PMM_PAGE_SIZE. rewrite Z.mod_add by done. done.
Qed.

Lemma pmm_free_page_used s p :
  plat_wf -> pmm_on s -> 0 <= p < pmm_page_count s -> page_used s p = true ->
  exists s', pmm_free_page plat (page_addr p) s = Ret tt s' [] /\ pmm_on s' /\
    pmm_page_count s' = pmm_page_count s /\ pmm_used_count s' = pmm_used_count s - 1 /\
    forall q, 0 <= q -> page_used s' q = negb (q =? p) && page_used s q.
Proof.
  intros Hpl Hon Hp Hu. pose proof Hon as [[Hi Hb Huc] Hc].
  pose proof (page_addr_range s p Hpl Hon Hp) as Hr.
  destruct (page_addr_index p Hpl) as [Hidx Hal]; [lia|].
  destruct (pmm_clear_bit_spec s p Hb Hp) as (bm & Hclr & Hb' & Hall).
  assert (Hcount : lenZ (pages_used s) = lenZ (pages_used (set_pmm_bitmap bm s)) + 1).
  { apply (pages_used_flip _ _ p); try done.
    - unfold page_used. simpl. rewrite Hall by lia. by rewrite Z.eqb_refl.
    - intros q Hq Hne. unfold page_used at 2. simpl. rewrite Hall by done.
      by rewrite (proj2 (Z.eqb_neq q p)). }
  pose proof (pages_used_bound s) as Hbound. destruct Hb as [_ Hcnt Hsm].
  pose proof (pages_used_bound (set_pmm_bitmap bm s)) as Hbound'. simpl in Hbound'.
  eexists. unfold pmm_free_page. rewrite (bind_Ret_nil _ _ _ _ _ (pmm_init_done s Hi)).
  rewrite (proj2 (Z.ltb_ge _ _)), (proj2 (Z.leb_gt _ _)) by
    (unfold memory_layout_ram_start, memory_layout_ram_end, PMM_PAGE_SIZE in *; destruct Hpl;
     rewrite ?u64_small; lia).
  rewrite Hal, Z.eqb_refl. kif. rewrite Hidx.
  rewrite (bind_Ret_nil _ _ _ _ _ (pmm_test_bit_spec s p (pw_bitmap s (proj1 Hon)) Hp)).
  rewrite Hu. kif. rewrite (bind_Ret_nil _ _ _ _ _ Hclr).
  unfold pmm_used_dec, modify. split; [done|]. simpl.
  rewrite Huc, u64_small by lia. split_and!; try done.
  split; [split; [done | by destruct Hb' |] | done].
  change (lenZ (pages_used s) - 1 = lenZ (pages_used (set_pmm_bitmap bm s))). lia.
Qed.


(** The bitmap and its counter agree; the rest of the state is as in [s0]. *)
Definition reserving (s0 s : mm) : Prop :=
  bitmap_wf s /\ pmm_used_count s = lenZ (pages_used s) /\
  exists bm c, s = set_pmm_used_count c (set_pmm_bitmap bm s0).

Lemma pmm_reserve_page_spec s0 s p :
  reserving s0 s -> 0 <= p < pmm_page_count s ->
  exists s', pmm_reserve_page p s = Ret tt s' [] /\ reserving s0 s' /\
    forall q, 0 <= q -> page_used s' q = (q =? p) || page_used s q.
Proof.
  intros (Hb & Hu & bm & c & Hs) Hp. unfold pmm_reserve_page.
  rewrite (bind_Ret_nil _ _ _ _ _ (pmm_test_bit_spec s p Hb Hp)).
  destruct (page_used s p) eqn:Hf; kif.
  - exists s. split_and!; [done| |].
    + split_and!; [done|done|by exists bm, c].
    + intros q Hq. destruct (Z.eqb_spec q p) as [->|]; [by rewrite Hf|done].
  - destruct (pmm_set_bit_spec s p Hb Hp) as (bm' & Hset & Hb' & Hall).
    rewrite (bind_Ret_nil _ _ _ _ _ Hset). unfold pmm_used_inc, modify.
    eexists. split; [done|]. split; [split_and!|done].
    + by destruct Hb'.
    + simpl. pose proof (pages_used_bound s) as Hbd. destruct Hb as [_ Hc Hsm].
      rewrite u64_small by lia. rewrite Hu. symmetry. apply (pages_used_flip _ _ p); try done.
      * unfold page_used. simpl. rewrite Hall by lia. by rewrite Z.eqb_refl.
      * intros q Hq Hne. unfold page_used at 1. simpl. rewrite Hall by done.
        by rewrite (proj2 (Z.eqb_neq q p)).
    + rewrite Hs. simpl. by eexists _, _.
Qed.

Lemma reserving_count s0 s : reserving s0 s -> pmm_page_count s = pmm_page_count s0.
Proof. by intros (_ & _ & bm & c & ->). Qed.

Lemma page_addr_ltb a b : (page_addr a <? page_addr b) = (a <? b).
Proof.
  unfold page_addr, PMM_PAGE_SIZE.
  destruct (Z.ltb_spec a b), (Z.ltb_spec (platform_get_ram_base plat + a * 4096)
    (platform_get_ram_base plat + b * 4096)); lia.
Qed.

Lemma pmm_reserve_loop_spec s0 fuel a b s :
  plat_wf -> reserving s0 s -> 0 <= a -> b <= pmm_page_count s -> (Z.to_nat (b - a) < fuel)%nat ->
  page_addr (pmm_page_count s) <= platform_get_ram_base plat + platform_get_ram_size plat ->
  a <= pmm_page_count s ->
  exists s', pmm_reserve_loop plat fuel (page_addr a) (page_addr b) s = Ret tt s' [] /\
    reserving s0 s' /\
    forall q, 0 <= q -> page_used s' q = ((a <=? q) && (q <? b)) || page_used s q.
Proof.
  intros Hpl. revert a s. induction fuel as [|fuel IH]; intros a s Hr Ha Hb Hf Hend Hac; [lia|].
  cbn [pmm_reserve_loop]. rewrite page_addr_ltb. destruct (Z.ltb_spec a b).
  - pose proof Hpl as [Hbase _ Hsz Htop].
    assert (Hidx : u64 (page_addr a - memory_layout_ram_start plat) / PMM_PAGE_SIZE = a).
    { unfold page_addr, memory_layout_ram_start, PMM_PAGE_SIZE in *.
      replace (_ + _ - _) with (a * 4096) by lia. rewrite u64_small by lia. apply Z.div_mul. lia. }
    rewrite Hidx. destruct (pmm_reserve_page_spec s0 s a Hr) as (s1 & H1 & Hr1 & Hu1); [lia|].
    rewrite (bind_Ret_nil _ _ _ _ _ H1).
    assert (Hnext : u64 (page_addr a + PMM_PAGE_SIZE) = page_addr (a + 1)).
    { unfold page_addr, PMM_PAGE_SIZE in *. rewrite u64_small; lia. }
    rewrite Hnext. pose proof (reserving_count _ _ Hr1). pose proof (reserving_count _ _ Hr).
    destruct (IH (a + 1) s1) as (s2 & He2 & Hr2 & Hu2); try done; try lia; [congruence|].
    exists s2. split_and!; [done|done|]. intros q Hq. rewrite Hu2, Hu1 by done.
    destruct (Z.leb_spec (a + 1) q), (Z.leb_spec a q), (Z.ltb_spec q b), (Z.eqb_spec q a);
      simpl; try done; lia.
  - exists s. split_and!; [done|done|]. intros q Hq.
    destruct (Z.leb_spec a q), (Z.ltb_spec q b); simpl; try done; lia.
Qed.

(** Page [p] and the byte range [[lo, hi)] share an address. *)
Definition page_overlaps (p lo hi : Z) : bool :=
  (page_addr p <? hi) && (lo <? page_addr p + PMM_PAGE_SIZE).

Lemma align_down_spec v : 0 <= v < 2 ^ 64 -> align_down_page v = v - v mod PMM_PAGE_SIZE.
Proof. intros Hv. unfold align_down_page. apply (land_not64 v 12); lia. Qed.

Lemma align_up_spec v :
  0 <= v < 2 ^ 63 -> align_up_page v = (v + 4095) - (v + 4095) mod PMM_PAGE_SIZE.
Proof.
  intros Hv. unfold align_up_page, PMM_PAGE_SIZE. rewrite u64_small by lia.
  apply (land_not64 (v + (4096 - 1)) 12); lia.
Qed.

Lemma pmm_reserve_range_spec s0 s lo hi :
  plat_wf -> reserving s0 s -> page_addr (pmm_page_count s) =
    platform_get_ram_base plat + platform_get_ram_size plat ->
  platform_get_ram_base plat <= lo < hi ->
  hi <= platform_get_ram_base plat + platform_get_ram_size plat ->
  exists s', pmm_reserve_range plat lo hi s = Ret tt s' [] /\ reserving s0 s' /\
    forall q, 0 <= q -> page_used s' q = page_overlaps q lo hi || page_used s q.
Proof.
  intros Hpl Hr Hend Hlo Hhi. pose proof Hpl as [Hbase Halign Hsz Htop]. unfold pmm_reserve_range.
  rewrite (proj2 (Z.leb_gt hi lo)) by lia. cbn zeta.
  rewrite align_down_spec, align_up_spec by lia. unfold PMM_PAGE_SIZE in *.
  set (base := platform_get_ram_base plat) in *.
  set (a := (lo - base) / 4096). set (b := (hi + 4095 - base) / 4096).
  pose proof (Z.div_mod base 4096) as E0.
  assert (Ea : lo - lo mod 4096 = page_addr a).
  { unfold page_addr, a, PMM_PAGE_SIZE. fold base. pose proof (Z.div_mod lo 4096).
    replace (lo - base) with (lo + (- (base / 4096)) * 4096) by lia.
    rewrite Z.div_add by lia. lia. }
  assert (Eb : hi + 4095 - (hi + 4095) mod 4096 = page_addr b).
  { unfold page_addr, b, PMM_PAGE_SIZE. fold base. pose proof (Z.div_mod (hi + 4095) 4096).
    replace (hi + 4095 - base) with (hi + 4095 + (- (base / 4096)) * 4096) by lia.
    rewrite Z.div_add by lia. lia. }
  rewrite Ea, Eb. pose proof (Z.mod_pos_bound lo 4096). pose proof (Z.mod_pos_bound (hi + 4095) 4096).
  assert (Hab : a <= b) by (apply Z.div_le_mono; lia).
  assert (Hapos : 0 <= a) by (apply Z.div_pos; lia).
  assert (Hbc : b <= pmm_page_count s).
  { unfold page_addr, PMM_PAGE_SIZE in *. fold base in Hend, Eb. lia. }
  destruct (pmm_reserve_loop_spec s0 (Z.to_nat ((page_addr b - page_addr a) / 4096 + 1)) a b s)
    as (s' & He & Hr' & Hu); try done; try lia.
  { replace (page_addr b - page_addr a) with ((b - a) * 4096)
      by (unfold page_addr, PMM_PAGE_SIZE; lia). rewrite Z.div_mul by lia. lia. }
  exists s'. split_and!; [done|done|]. intros q Hq. rewrite Hu by done. f_equal.
  unfold page_overlaps, page_addr, PMM_PAGE_SIZE in *. fold base in Ea, Eb |- *.
  destruct (Z.leb_spec a q), (Z.ltb_spec q b), (Z.ltb_spec (base + q * 4096) hi),
    (Z.ltb_spec lo (base + q * 4096 + 4096)); simpl; try done; lia.
Qed.

Lemma bitmap_zero n q : 0 <= q -> bitmap_bit (replicate n 0) q = false.
Proof.
  intros Hq. unfold bitmap_bit, rd. case_match; [|apply Z.bits_0].
  destruct (replicate n 0 !! _) as [w|] eqn:E; [|apply Z.bits_0].
  apply lookup_replicate in E as [-> _]. apply Z.bits_0.
Qed.

(** Where [pmm_init] puts the bitmap: the page after the image. *)
Definition bitmap_start : Z := align_up_page (__kernel_end plat).
Definition bitmap_end : Z :=
  bitmap_start + align_up_page ((platform_get_ram_size plat / PMM_PAGE_SIZE + 7) / 8).

(** The image and the bitmap lie in RAM, which is a whole number of pages. *)
Record boot_wf : Prop := {
  bt_plat : plat_wf;
  bt_pages : platform_get_ram_size plat mod PMM_PAGE_SIZE = 0;
  bt_kernel : platform_get_ram_base plat <= __kernel_start plat < __kernel_end plat;
  bt_image : __kernel_end plat <= platform_get_ram_base plat + platform_get_ram_size plat;
  bt_bitmap : bitmap_end <= platform_get_ram_base plat + platform_get_ram_size plat
}.

(** The static variables before the first call. *)
Definition pmm_cold (s : mm) : Prop :=
  pmm_initialized s = false /\ pmm_used_count s = 0 /\ first_free_phys s = 0.

(** The state in which [pmm_init] starts to reserve pages. *)
Definition bitmap_cleared (s s1 : mm) : Prop :=
  reserving s1 s1 /\ pmm_page_count s1 = platform_get_ram_size plat / PMM_PAGE_SIZE /\
  first_free_phys s1 = __kernel_end plat /\ forall q, 0 <= q -> page_used s1 q = false.

Lemma align_up_page_ge v : 0 <= v < 2 ^ 63 -> v <= align_up_page v < v + 4096.
Proof.
  intros Hv. rewrite align_up_spec by done. unfold PMM_PAGE_SIZE.
  pose proof (Z.mod_pos_bound (v + 4095) 4096). lia.
Qed.

Lemma reserving_cleared s1 :
  pmm_bitmap s1 = replicate (Z.to_nat (align_up_page ((pmm_page_count s1 + 7) / 8) / 8)) 0 ->
  0 <= pmm_page_count s1 < 2 ^ 52 -> pmm_used_count s1 = 0 ->
  reserving s1 s1 /\ forall q, 0 <= q -> page_used s1 q = false.
Proof.
  intros Hbm Hc Hu.
  assert (Hz : forall q, 0 <= q -> page_used s1 q = false)
    by (intros q Hq; unfold page_used; rewrite Hbm; by apply bitmap_zero).
  split; [|done]. split_and!.
  - split; [rewrite Hbm; apply Forall_replicate; by split| |lia].
    rewrite Hbm. unfold lenZ. rewrite length_replicate.
    pose proof (Z.mul_div_le (pmm_page_count s1 + 7) 8).
    pose proof (Z.mod_pos_bound (pmm_page_count s1 + 7) 8).
    pose proof (Z.div_mod (pmm_page_count s1 + 7) 8).
    set (n := (pmm_page_count s1 + 7) / 8) in *.
    rewrite align_up_spec by lia. unfold PMM_PAGE_SIZE.
    pose proof (Z.mod_pos_bound (n + 4095) 4096). pose proof (Z.div_mod (n + 4095) 4096).
    set (k := (n + 4095) / 4096) in *.
    replace (n + 4095 - (n + 4095) mod 4096) with (k * 512 * 8) by lia.
    rewrite Z.div_mul by lia. lia.
  - rewrite Hu. unfold pages_used.
    rewrite (filter_ext_in _ (fun _ => false)); [|intros q Hq%elem_of_seqZ; apply Hz; lia].
    induction (seqZ 0 (pmm_page_count s1)) as [|q l IH]; [done|].
    rewrite filter_cons. by case_decide.
  - exists (pmm_bitmap s1), (pmm_used_count s1). by destruct s1.
Qed.

Lemma first_free_cold s :
  first_free_phys s = 0 ->
  memory_layout_first_free_phys plat s =
    Ret (__kernel_end plat) (set_first_free_phys (__kernel_end plat) s) [].
Proof.
  intros H. unfold memory_layout_first_free_phys, memory_layout_init. krun.
  unfold bind, gets, modify. by rewrite H.
Qed.

Lemma set_first_free_warm s a :
  first_free_phys s <> 0 ->
  memory_layout_set_first_free_phys plat a s = Ret tt (set_first_free_phys a s) [].
Proof.
  intros H. unfold memory_layout_set_first_free_phys, memory_layout_init, bind, gets, modify.
  by rewrite (proj2 (Z.eqb_neq _ _) H).
Qed.

Lemma kprintf3_total a b c (s : mm) :
  0 <= a < 2 ^ 32 -> 0 <= b < 2 ^ 32 -> 0 <= c < 2 ^ 32 ->
  exists o, (kprintf (nl "[INFO] pmm: total pages: %u") [AUint a];;
             kprintf (nl "[INFO] pmm: used pages: %u") [AUint b];;
             kprintf (nl "[INFO] pmm: free pages: %u") [AUint c]) s = Ret tt s o.
Proof.
  intros Ha Hb Hc.
  assert (Hk : forall f v, fmt_convs (cstr f) = Some [ch "u"] -> 0 <= v < 2 ^ 32 ->
    exists o, kprintf f [AUint v] s = Ret tt s o).
  { intros f v Hf Hv. apply (kprintf_total f [ch "u"]); [done|].
    repeat constructor; (done || lia || by left). }
  destruct (Hk (nl "[INFO] pmm: total pages: %u") a) as [o1 E1]; [done|done|].
  destruct (Hk (nl "[INFO] pmm: used pages: %u") b) as [o2 E2]; [done|done|].
  destruct (Hk (nl "[INFO] pmm: free pages: %u") c) as [o3 E3]; [done|done|].
  rewrite (bind_Ret _ _ _ _ _ _ E1), (bind_Ret _ _ _ _ _ _ E2), E3. by eexists.
Qed.

(** *** Properties of the page allocator *)

Lemma pmm_init_ok s :
  boot_wf -> pmm_cold s ->
  exists s' o, pmm_init plat s = Ret tt s' o /\ pmm_on s' /\ first_free_phys s' = bitmap_end /\
    forall p, 0 <= p < pmm_page_count s' ->
      page_used s' p = page_overlaps p (__kernel_start plat) (__kernel_end plat)
                       || page_overlaps p bitmap_start bitmap_end.
Proof.
  intros [Hpl Hpages Hk Hke Hbm] (Hcold & Hused & Hff). pose proof Hpl as [Hbase Halign Hsz Htop].
  set (n := platform_get_ram_size plat / PMM_PAGE_SIZE).
  assert (Hn : 0 <= n < 2 ^ 52 /\ platform_get_ram_size plat = n * 4096).
  { unfold n, PMM_PAGE_SIZE in *. pose proof (Z.div_mod (platform_get_ram_size plat) 4096).
    split; [|lia]. split; [apply Z.div_pos; lia | apply Z.div_lt_upper_bound; lia]. }
  destruct Hn as [Hn Hsize].
  pose proof (align_up_page_ge (__kernel_end plat)) as Hbs. fold bitmap_start in Hbs.
  pose proof (align_up_page_ge ((n + 7) / 8)) as Hbb.
  assert (Hdiv : 0 <= (n + 7) / 8 < 2 ^ 52)
    by (split; [apply Z.div_pos; lia | apply Z.div_lt_upper_bound; lia]).
  assert (Hdiv1 : 1 <= (n + 7) / 8) by (apply Z.div_le_lower_bound; lia).
  unfold bitmap_end in *. fold n in Hbm |- *. set (bytes := align_up_page ((n + 7) / 8)) in *.
  unfold pmm_init. krun. rewrite Hcold. krun.
  rewrite (bind_Ret_nil _ _ _ _ _ (first_free_cold (set_pmm_page_count n s) Hff)). krun. cbn zeta. krun.
  simpl pmm_bitmap_bytes. fold n. fold bytes. fold bitmap_start. 
  set (s1 := set_pmm_bitmap _ _).
  destruct (reserving_cleared s1) as [Hr Hz]; [done|done|done|].
  destruct (pmm_reserve_range_spec s1 s1 (__kernel_start plat) (__kernel_end plat))
    as (s2 & He2 & Hr2 & Hu2); try done; try lia.
  { unfold page_addr, PMM_PAGE_SIZE. simpl. lia. }
  rewrite (bind_Ret_nil _ _ _ _ _ He2). rewrite u64_small by lia.
  pose proof (reserving_count _ _ Hr2) as Hc2.
  destruct (pmm_reserve_range_spec s1 s2 bitmap_start (bitmap_start + bytes))
    as (s3 & He3 & Hr3 & Hu3); try done; try lia.
  { unfold page_addr, PMM_PAGE_SIZE. rewrite Hc2. simpl. lia. }
  rewrite (bind_Ret_nil _ _ _ _ _ He3).
  assert (Hff3 : first_free_phys s3 <> 0).
  { destruct Hr3 as (_ & _ & bm & c & ->). simpl. lia. }
  rewrite (bind_Ret_nil _ _ _ _ _ (set_first_free_warm s3 _ Hff3)). krun.
  destruct (kprintf3_total (u32 n) (u32 (pmm_used_count s3)) (u32 (n - pmm_used_count s3))
    (set_pmm_initialized true (set_first_free_phys (bitmap_start + bytes) s3))) as [o Ho];
    [apply u32_bound..|].
  eexists _, o. split; [exact Ho|]. destruct Hr3 as (Hb3 & Hc3 & bm & c & Hs3).
  split_and!.
  - split; [split; [done | by destruct Hb3 | done]|]. rewrite Hs3. done.
  - done.
  - intros p Hp. unfold page_used at 1. simpl. fold (page_used s3 p). simpl in Hp.
    rewrite Hu3, Hu2, Hz by lia. rewrite orb_false_r. apply orb_comm.
Qed.

(** [pmm_init] succeeds, establishes the allocator's invariant, and the pages
    in use afterwards are exactly those that overlap the kernel image or the
    bitmap itself. *)
Theorem pmm_init_spec s :
  boot_wf -> pmm_cold s ->
  exists s' o, pmm_init plat s = Ret tt s' o /\ pmm_on s' /\ first_free_phys s' = bitmap_end /\
    forall p, 0 <= p < pmm_page_count s' ->
      page_used s' p = page_overlaps p (__kernel_start plat) (__kernel_end plat)
                       || page_overlaps p bitmap_start bitmap_end.
Proof. apply pmm_init_ok. Qed.

(** [pmm_alloc_page] hands out the lowest free page and marks it, or returns
    null, changing nothing, exactly when no page is free. *)
Theorem pmm_alloc_page_spec s :
  plat_wf -> pmm_on s ->
  exists r s', pmm_alloc_page plat s = Ret r s' [] /\ pmm_on s' /\
    ((exists p, 0 <= p < pmm_page_count s /\ r = page_addr p /\
        page_used s p = false /\ (forall q, 0 <= q < p -> page_used s q = true) /\
        (forall q, 0 <= q -> page_used s' q = (q =? p) || page_used s q) /\
        pmm_used_count s' = pmm_used_count s + 1) \/
     (r = 0 /\ s' = s /\ pmm_used_count s = pmm_page_count s /\
        forall q, 0 <= q < pmm_page_count s -> page_used s q = true)).
Proof.
  intros Hpl Hon. pose proof (proj1 Hon) as [_ Hb Hu].
  destruct (pmm_alloc_page_cases s Hpl Hon) as [(p & s' & Hp & Hq & He & Ht & Hon')|[Hq He]].
  - exists (page_addr p), s'. split_and!; try done. left. exists p.
    destruct Ht as (Hf & Hc & _ & _ & Huc & _ & _ & Hall). split_and!; try done; try lia.
    destruct Hon' as [[_ Hb' Hu'] _]. pose proof (pages_used_bound s'). destruct Hb as [_ Hc1 Hs1].
    pose proof (pages_used_bound s). rewrite Huc. apply u64_small. lia.
  - exists 0, s. split_and!; try done. right. split_and!; try done.
    rewrite Hu. unfold pages_used, lenZ. rewrite (filter_ext_in _ (fun _ => true)).
    + rewrite filter_all, length_seqZ, Z2Nat.id; [done|]. by destruct Hb as [_ [Hc0 _] _].
    + intros q Hin%elem_of_seqZ. apply Hq. lia.
Qed.

(** [pmm_free_page] panics on an address outside RAM, on one that is not a
    page boundary and on a page that is not in use; otherwise it frees exactly
    that page. *)
Theorem pmm_free_page_spec s a :
  plat_wf -> pmm_on s -> 0 <= a < 2 ^ 64 ->
  pmm_page_count s * PMM_PAGE_SIZE = platform_get_ram_size plat ->
  if negb ((platform_get_ram_base plat <=? a) &&
           (a <? platform_get_ram_base plat + platform_get_ram_size plat))
  then pmm_free_page plat a s = Panic "pmm_free_page: address out of range" s []
  else if negb (a mod PMM_PAGE_SIZE =? 0)
  then pmm_free_page plat a s = Panic "pmm_free_page: address not page aligned" s []
  else exists p, a = page_addr p /\ 0 <= p < pmm_page_count s /\
    if page_used s p
    then exists s', pmm_free_page plat a s = Ret tt s' [] /\ pmm_on s' /\
           pmm_used_count s' = pmm_used_count s - 1 /\
           forall q, 0 <= q -> page_used s' q = negb (q =? p) && page_used s q
    else pmm_free_page plat a s = Panic "pmm_free_page: page already free" s [].
Proof.
  intros Hpl Hon Ha Hsz. pose proof Hpl as [Hbase Halign _ Htop].
  pose proof Hon as [[Hi Hb Hu] Hc].
  assert (Hrange : (a <? memory_layout_ram_start plat) || (memory_layout_ram_end plat <=? a) =
    negb ((platform_get_ram_base plat <=? a) &&
          (a <? platform_get_ram_base plat + platform_get_ram_size plat))).
  { unfold memory_layout_ram_start, memory_layout_ram_end. destruct Hpl. rewrite u64_small by lia.
    rewrite negb_andb. f_equal; [apply Z.ltb_antisym | apply Z.leb_antisym]. }
  assert (Hmask : Z.land a (PMM_PAGE_SIZE - 1) = a mod PMM_PAGE_SIZE)
    by (change (PMM_PAGE_SIZE - 1) with (Z.ones 12); apply Z.land_ones; lia).
  destruct ((platform_get_ram_base plat <=? a) &&
    (a <? platform_get_ram_base plat + platform_get_ram_size plat)) eqn:Hin; kif;
    [|unfold pmm_free_page; rewrite (bind_Ret_nil _ _ _ _ _ (pmm_init_done s Hi)), Hrange; done].
  destruct (Z.eqb_spec (a mod PMM_PAGE_SIZE) 0) as [Hmod|Hmod]; kif.
  - set (p := (a - platform_get_ram_base plat) / PMM_PAGE_SIZE).
    apply andb_true_iff in Hin as [H1%Z.leb_le H2%Z.ltb_lt].
    assert (Hap : a = page_addr p).
    { unfold p, page_addr, PMM_PAGE_SIZE in *. 
      pose proof (Z.div_mod a 4096). pose proof (Z.div_mod (platform_get_ram_base plat) 4096).
      replace (a - platform_get_ram_base plat) with
        ((a / 4096 - platform_get_ram_base plat / 4096) * 4096) by lia.
      rewrite Z.div_mul by lia. lia. }
    assert (Hp : 0 <= p < pmm_page_count s)
      by (unfold page_addr, PMM_PAGE_SIZE in *; lia).
    exists p. split_and!; try done; try lia. destruct (page_used s p) eqn:Hf.
    + destruct (pmm_free_page_used s p Hpl Hon Hp Hf) as (s' & He & Hon' & _ & Hu' & Hall).
      exists s'. by rewrite Hap.
    + unfold pmm_free_page. rewrite (bind_Ret_nil _ _ _ _ _ (pmm_init_done s Hi)), Hrange. kif.
      rewrite Hmask, Hmod. kif. rewrite Z.eqb_refl. kif.
      rewrite Hap. rewrite (proj1 (page_addr_index p Hpl ltac:(lia))).
      rewrite (bind_Ret_nil _ _ _ _ _ (pmm_test_bit_spec s p Hb Hp)). rewrite Hf. kif. done.
  - unfold pmm_free_page. rewrite (bind_Ret_nil _ _ _ _ _ (pmm_init_done s Hi)), Hrange. kif.
    rewrite Hmask. rewrite (proj2 (Z.eqb_neq _ _) Hmod). kif. done.
Qed.

End pmm_proofs.

(** *** Ownership of pages

    A client that allocates pages and frees only pages it owns. *)
Inductive client_step (plat : platform) : mm * gset Z -> mm * gset Z -> Prop :=
| client_alloc s own r s' o :
    pmm_alloc_page plat s = Ret r s' o -> r <> 0 ->
    client_step plat (s, own) (s', {[r]} ∪ own)
| client_alloc_fail s own s' o :
    pmm_alloc_page plat s = Ret 0 s' o -> client_step plat (s, own) (s', own)
| client_free s own a s' o :
    a ∈ own -> pmm_free_page plat a s = Ret tt s' o ->
    client_step plat (s, own) (s', own ∖ {[a]}).

(** Every owned address is a page in use. *)
Definition owned_used (plat : platform) (st : mm * gset Z) : Prop :=
  pmm_on plat st.1 /\
  forall a, a ∈ st.2 -> exists p, a = page_addr plat p /\ 0 <= p < pmm_page_count st.1 /\
                           page_used st.1 p = true.

Lemma page_addr_inj plat p q : page_addr plat p = page_addr plat q -> p = q.
Proof. unfold page_addr, PMM_PAGE_SIZE. lia. Qed.

Lemma client_step_owned plat st st' :
  plat_wf plat -> client_step plat st st' -> owned_used plat st -> owned_used plat st'.
Proof.
  intros Hpl Hstep [Hon Hown]. pose proof Hpl as [Hbase _ _ _].
  destruct Hstep as [s own r s' o He Hr|s own s' o He|s own a s' o Ha He]; simpl in *.
  - destruct (pmm_alloc_page_cases plat s Hpl Hon) as [(p & s1 & Hp & _ & He1 & Ht & Hon')|[_ He1]];
      rewrite He1 in He; [|by injection He as <-].
    injection He as <- <- _. destruct Ht as (Hf & Hc & _ & _ & _ & _ & _ & Hall).
    split; [done|]. simpl. intros a [->%elem_of_singleton|Ha]%elem_of_union.
    + exists p. rewrite Hc, Hall, Z.eqb_refl by lia. done.
    + destruct (Hown a Ha) as (q & -> & Hq' & Hu). exists q.
      rewrite Hc, Hall, Hu, orb_true_r by lia. done.
  - destruct (pmm_alloc_page_cases plat s Hpl Hon) as [(p & s1 & Hp & _ & He1 & _)|[_ He1]];
      rewrite He1 in He; [|injection He as <- _; by split].
    injection He as H0 <- _. pose proof (page_addr_range plat s p Hpl Hon Hp). lia.
  - destruct (Hown a Ha) as (q & -> & Hq' & Hu).
    destruct (pmm_free_page_used plat s q Hpl Hon Hq' Hu) as (s2 & He2 & Hon2 & Hc2 & _ & Hall2).
    rewrite He2 in He. injection He as <- _. split; [done|]. simpl.
    intros b [Hb Hne%not_elem_of_singleton]%elem_of_difference.
    destruct (Hown b Hb) as (k & -> & Hk & Huk). exists k.
    rewrite Hc2, Hall2, Huk by lia. split_and!; try done; try lia.
    rewrite (proj2 (Z.eqb_neq k q)); [done|]. by intros ->.
Qed.

(** C17. In every run of a client that starts owning nothing and frees only pages
    it owns: an allocation never returns a page the client still owns, and
    freeing an owned page never panics. *)
Theorem pmm_ownership plat s0 s own :
  plat_wf plat -> pmm_on plat s0 -> rtc (client_step plat) (s0, ∅) (s, own) ->
  (forall r s' o, pmm_alloc_page plat s = Ret r s' o -> r ∉ own) /\
  (forall a, a ∈ own -> exists s', pmm_free_page plat a s = Ret tt s' []).
Proof.
  intros Hpl Hon Hrun. pose proof Hpl as [Hbase _ _ _].
  assert (Hinv : owned_used plat (s, own)).
  { cut (forall x y, rtc (client_step plat) x y -> owned_used plat x -> owned_used plat y).
    - intros H. apply (H _ _ Hrun). split; [done|]. simpl. set_solver.
    - induction 1; eauto using client_step_owned. }
  destruct Hinv as [Hons Hown]. simpl in *. split.
  - intros r s' o He Hin. destruct (Hown r Hin) as (q & -> & Hq & Hu).
    destruct (pmm_alloc_page_cases plat s Hpl Hons) as [(p & s1 & Hp & _ & He1 & Ht & _)|[_ He1]];
      rewrite He1 in He.
    + injection He as Hpq%page_addr_inj _ _. subst p. destruct Ht as [Hf _]. congruence.
    + injection He as H0 _ _. pose proof (page_addr_range plat s q Hpl Hons Hq). lia.
  - intros a Ha. destruct (Hown a Ha) as (q & -> & Hq & Hu).
    destruct (pmm_free_page_used plat s q Hpl Hons Hq Hu) as (s2 & He2 & _). by exists s2.
Qed.

(** *** The heap *)

(** The heap has been initialised and its bounds are 16-byte aligned. *)
Record heap_wf (s : mm) : Prop := {
  hw_start : 0 < heap_start s;
  hw_align : heap_current s mod 16 = 0;
  hw_range : heap_start s <= heap_current s <= heap_limit s;
  hw_limit : heap_limit s < 2 ^ 63
}.

Lemma align_up_16_spec v :
  0 <= v <= 2 ^ 64 - 16 -> v <= align_up_16 v < v + 16 /\ align_up_16 v mod 16 = 0.
Proof.
  intros Hv. unfold align_up_16. rewrite u64_small by lia.
  pose proof (land_not64 (v + 15) 4 ltac:(lia) ltac:(lia)) as E.
  change (2 ^ 4 - 1) with 15 in E. change (2 ^ 4) with 16 in E. rewrite E.
  pose proof (Z.mod_pos_bound (v + 15) 16). split; [lia|].
  rewrite Zminus_mod_idemp_r, Z.sub_diag. done.
Qed.

Lemma kmalloc_warm plat s size :
  heap_wf s ->
  kmalloc plat size s =
    (let block_end := u64 (heap_current s + align_up_16 size) in
     if (block_end <? heap_current s) || (heap_limit s <? block_end) then Ret 0 s []
     else Ret (heap_current s) (set_heap_current block_end s) []).
Proof.
  intros [Hs _ _ _]. unfold kmalloc, kmalloc_init, bind, gets, modify, ret.
  rewrite (proj2 (Z.eqb_neq (heap_start s) 0)) by lia.
  cbn beta iota zeta delta [negb]. by destruct (_ || _).
Qed.

(** The blocks a sequence of requests receives. *)
Fixpoint kmalloc_all (plat : platform) (sizes : list Z) : M mm (list Z) :=
  match sizes with
  | [] => ret []
  | size :: sizes' =>
      p <- kmalloc plat size;;
      ps <- kmalloc_all plat sizes';;
      ret (p :: ps)
  end.

Definition small_size (size : Z) : Prop := 0 <= size <= 2 ^ 63 - 16.

Lemma kmalloc_cases plat s size :
  heap_wf s -> small_size size ->
  exists r s', kmalloc plat size s = Ret r s' [] /\ heap_wf s' /\
    if heap_limit s - heap_current s <? align_up_16 size
    then r = 0 /\ s' = s
    else r = heap_current s /\ r mod 16 = 0 /\
         r + size <= heap_current s' < r + size + 16 /\ heap_current s' <= heap_limit s /\
         0 < r.
Proof.
  intros Hwf Hsize. unfold small_size in Hsize. rewrite kmalloc_warm by done.
  destruct Hwf as [Hs Ha Hr Hl].
  destruct (align_up_16_spec size) as [Hup Hmod]; [lia|]. cbn zeta.
  rewrite u64_small by lia.
  destruct (Z.ltb_spec (heap_limit s - heap_current s) (align_up_16 size)).
  - rewrite (proj2 (Z.ltb_lt (heap_limit s) _)), orb_true_r by lia.
    exists 0, s. by split_and!.
  - rewrite (proj2 (Z.ltb_ge (heap_limit s) _)), (proj2 (Z.ltb_ge _ (heap_current s))) by lia.
    kif. eexists _, _. split; [done|]. split; [split; simpl; try lia|simpl; lia].
    rewrite Z.add_mod, Ha, Hmod by lia. done.
Qed.

(** [kmalloc] of a request that does not overflow returns a 16-byte aligned
    block that lies in the heap and starts where the last one ended, or null,
    changing nothing, exactly when the rest of the heap is too small. *)
Theorem kmalloc_spec plat s size :
  heap_wf s -> small_size size ->
  exists r s', kmalloc plat size s = Ret r s' [] /\ heap_wf s' /\
    if heap_limit s - heap_current s <? align_up_16 size
    then r = 0 /\ s' = s
    else r = heap_current s /\ r mod 16 = 0 /\
         r + size <= heap_current s' < r + size + 16 /\ heap_current s' <= heap_limit s.
Proof.
  intros Hwf Hsize. destruct (kmalloc_cases plat s size Hwf Hsize) as (r & s' & He & Hwf' & Hc).
  exists r, s'. split_and!; try done. case_match; [done|]. by destruct Hc as (? & ? & ? & ? & _).
Qed.

Lemma kmalloc_all_total plat sizes s :
  heap_wf s -> Forall small_size sizes ->
  exists ps s', kmalloc_all plat sizes s = Ret ps s' [] /\ length ps = length sizes /\
    Forall (fun p => p = 0 \/ heap_current s <= p) ps.
Proof.
  revert s. induction sizes as [|size sizes IH]; intros s Hwf Hsz; [by exists [], s|].
  inversion Hsz as [|? ? Hsz1 Hsz2]; subst. cbn [kmalloc_all].
  destruct (kmalloc_cases plat s size Hwf Hsz1) as (r & s1 & H1 & Hwf1 & Hcase).
  destruct (IH s1 Hwf1 Hsz2) as (ps & s2 & H2 & Hlen & Hge).
  rewrite (bind_Ret_nil _ _ _ _ _ H1), (bind_Ret_nil _ _ _ _ _ H2). unfold ret.
  exists (r :: ps), s2. split_and!; [done|simpl; congruence|].
  assert (heap_current s <= heap_current s1 /\ (r = 0 \/ heap_current s <= r)) as [Hle Hr].
  { unfold small_size in Hsz1. destruct (_ <? _); [destruct Hcase as [-> ->]; lia | lia]. }
  constructor; [done|]. eapply Forall_impl; [exact Hge|]. simpl. lia.
Qed.

(** The blocks of a sequence of requests are pairwise disjoint. *)
Theorem kmalloc_disjoint plat sizes s :
  heap_wf s -> Forall small_size sizes ->
  exists ps s', kmalloc_all plat sizes s = Ret ps s' [] /\ length ps = length sizes /\
    forall i j p q size, (i < j)%nat -> ps !! i = Some p -> ps !! j = Some q ->
      sizes !! i = Some size -> p <> 0 -> q <> 0 -> p + size <= q.
Proof.
  revert s. induction sizes as [|size0 sizes IH]; intros s Hwf Hsz.
  { exists [], s. split_and!; [done|done|]. intros i j p q size _ Hi. by rewrite lookup_nil in Hi. }
  inversion Hsz as [|? ? Hsz1 Hsz2]; subst. cbn [kmalloc_all].
  destruct (kmalloc_cases plat s size0 Hwf Hsz1) as (r & s1 & H1 & Hwf1 & Hcase).
  destruct (IH s1 Hwf1 Hsz2) as (ps & s2 & H2 & Hlen & Hdis).
  destruct (kmalloc_all_total plat sizes s1 Hwf1 Hsz2) as (ps' & s2' & H2' & _ & Hge).
  rewrite H2 in H2'. injection H2' as <- <-.
  rewrite (bind_Ret_nil _ _ _ _ _ H1), (bind_Ret_nil _ _ _ _ _ H2). unfold ret.
  exists (r :: ps), s2. split_and!; [done|simpl; congruence|].
  intros [|i] [|j] p q size Hij Hp Hq Hs Hp0 Hq0; try lia; simpl in *.
  - injection Hp as <-. injection Hs as <-. rewrite Forall_lookup in Hge.
    destruct (Hge _ _ Hq) as [->|Hle]; [done|].
    destruct (_ <? _); [by destruct Hcase as [-> _] | lia].
  - apply (Hdis i j p q size); try done. lia.
Qed.

(** A request within 16 bytes of the address-space size wraps to an empty
    block: [kmalloc] returns a valid pointer for a size it cannot serve. *)
Theorem kmalloc_overflow plat s size :
  heap_wf s -> 2 ^ 64 - 16 < size < 2 ^ 64 -> kmalloc plat size s = Ret (heap_current s) s [].
Proof.
  intros Hwf Hsize. rewrite kmalloc_warm by done. destruct Hwf as [Hs Ha Hr Hl].
  assert (E : align_up_16 size = 0).
  { unfold align_up_16. replace (u64 (size + 15)) with (size + 15 - 2 ^ 64).
    - pose proof (land_not64 (size + 15 - 2 ^ 64) 4 ltac:(lia) ltac:(lia)) as E.
      change (2 ^ 4 - 1) with 15 in E. change (2 ^ 4) with 16 in E. rewrite E.
      rewrite Z.mod_small; lia.
    - unfold u64. apply (Z.mod_unique _ _ 1); lia. }
  rewrite E, Z.add_0_r, u64_small by lia. cbn zeta.
  rewrite Z.ltb_irrefl, (proj2 (Z.ltb_ge _ _)) by lia. by destruct s.
Qed.

(** *** Heap and page allocator together *)

Fixpoint alloc_pages (plat : platform) (n : nat) : M mm Z :=
  match n with
  | O => pmm_alloc_page plat
  | S n' => pmm_alloc_page plat;; alloc_pages plat n'
  end.

(** The heap grows from the end of the bitmap to the end of RAM, but the page
    allocator considers that range free: after boot on the QEMU machine, the
    129th page it hands out is the first block of the heap. *)
Theorem heap_page_overlap :
  exists p s o,
    (pmm_init (qemu_virt 0x40200000);;
     block <- kmalloc (qemu_virt 0x40200000) 4096;;
     page <- alloc_pages (qemu_virt 0x40200000) 128;;
     ret (block, page)) (mm_reset (fun _ => 0)) = Ret (p, p) s o /\ p <> 0.
Proof. eexists _, _, _. split; [vm_compute; reflexivity | done]. Qed.

(** ** Witnesses *)

Definition demo_plat : platform := qemu_virt 0x40200000.

Lemma demo_boot_wf : boot_wf demo_plat.
Proof.
  unfold demo_plat. repeat split; try done; try (by vm_compute).
Qed.

Lemma pmm_init_spec_witness :
  boot_wf demo_plat /\ pmm_cold (mm_reset (fun _ => 0)) /\
  exists s' o, pmm_init demo_plat (mm_reset (fun _ => 0)) = Ret tt s' o /\ pmm_on demo_plat s'.
Proof.
  split; [exact demo_boot_wf|]. split; [by split_and!|].
  destruct (pmm_init_spec demo_plat (mm_reset (fun _ => 0)) demo_boot_wf) as (s' & o & He & Hon & _);
    [by split_and!|]. exists s', o. exact (conj He Hon).
Defined.

(** Three pages of RAM, the first and the last in use. *)
Definition tiny_plat : platform := Platform 0x40000000 12288 0x40000000 0x40000800.
Definition tiny_mm : mm := Mm 0x40002000 [5] 4096 3 2 true 0 0 0 (fun _ => 0).

Lemma tiny_plat_wf : plat_wf tiny_plat.
Proof. by repeat split. Qed.

Lemma tiny_pmm_on : pmm_on tiny_plat tiny_mm.
Proof.
  split; [|done]. split; [done| |by vm_compute].
  split; [|unfold lenZ; simpl; lia|simpl; lia]. repeat constructor; done.
Qed.

Lemma pmm_alloc_page_spec_witness :
  plat_wf tiny_plat /\ pmm_on tiny_plat tiny_mm /\
  exists r s', pmm_alloc_page tiny_plat tiny_mm = Ret r s' [] /\ pmm_on tiny_plat s'.
Proof.
  split; [exact tiny_plat_wf|]. split; [exact tiny_pmm_on|].
  destruct (pmm_alloc_page_spec tiny_plat tiny_mm tiny_plat_wf tiny_pmm_on)
    as (r & s' & He & Hon & _). exists r, s'. exact (conj He Hon).
Defined.

Lemma pmm_free_page_spec_witness :
  plat_wf tiny_plat /\ pmm_on tiny_plat tiny_mm /\
  pmm_free_page tiny_plat 0x40000001 tiny_mm =
    Panic "pmm_free_page: address not page aligned" tiny_mm [].
Proof.
  split; [exact tiny_plat_wf|]. split; [exact tiny_pmm_on|].
  exact (pmm_free_page_spec tiny_plat tiny_mm 0x40000001 tiny_plat_wf tiny_pmm_on
           ltac:(lia) eq_refl).
Defined.

Lemma pmm_ownership_witness :
  plat_wf tiny_plat /\ pmm_on tiny_plat tiny_mm /\
  exists s, rtc (client_step tiny_plat) (tiny_mm, ∅) (s, {[0x40001000]} ∪ ∅) /\
    exists s', pmm_free_page tiny_plat 0x40001000 s = Ret tt s' [].
Proof.
  split; [exact tiny_plat_wf|]. split; [exact tiny_pmm_on|].
  eexists. assert (H : rtc (client_step tiny_plat) (tiny_mm, ∅)
    (Mm 0x40002000 [7] 4096 3 3 true 0 0 0 (fun _ => 0), {[0x40001000]} ∪ ∅)).
  { eapply rtc_once, client_alloc; [vm_compute; reflexivity | done]. }
  split; [exact H|].
  apply (proj2 (pmm_ownership tiny_plat _ _ _ tiny_plat_wf tiny_pmm_on H)). set_solver.
Defined.

Definition demo_heap : mm := Mm 0 [] 0 0 0 true 4096 4096 8192 (fun _ => 0).
Lemma demo_heap_wf : heap_wf demo_heap.
Proof. split; simpl; done || lia. Qed.

Lemma kmalloc_spec_witness :
  heap_wf demo_heap /\ small_size 100 /\
  exists r s', kmalloc tiny_plat 100 demo_heap = Ret r s' [] /\ heap_wf s'.
Proof.
  split; [exact demo_heap_wf|]. split; [unfold small_size; lia|].
  destruct (kmalloc_spec tiny_plat demo_heap 100 demo_heap_wf) as (r & s' & He & Hwf & _);
    [unfold small_size; lia|]. exists r, s'. exact (conj He Hwf).
Defined.

Lemma kmalloc_disjoint_witness :
  heap_wf demo_heap /\ Forall small_size [1; 24; 7] /\
  exists ps s', kmalloc_all tiny_plat [1; 24; 7] demo_heap = Ret ps s' [] /\ length ps = 3%nat.
Proof.
  assert (H : Forall small_size [1; 24; 7]) by (repeat constructor; lia).
  split; [exact demo_heap_wf|]. split; [exact H|].
  destruct (kmalloc_disjoint tiny_plat [1; 24; 7] demo_heap demo_heap_wf H)
    as (ps & s' & He & Hl & _). exists ps, s'. exact (conj He Hl).
Defined.

Lemma kmalloc_overflow_witness :
  heap_wf demo_heap /\ kmalloc tiny_plat (2 ^ 64 - 1) demo_heap = Ret 4096 demo_heap [].
Proof.
  split; [exact demo_heap_wf|].
  apply (kmalloc_overflow tiny_plat demo_heap (2 ^ 64 - 1) demo_heap_wf). lia.
Defined.
