(* ===== verification/BlockDevice.v ===== *)
(** Block devices: the device structure and its table of functions
    (src/include/block/block_device.h), the registry
    (src/src/block/block_device.c), and the interface [DiskDriver] that a
    driver promises to the file systems. Device pointers are positions in
    [devs], the device structures that exist; the null pointer is [None]. *)
From S2P Require Import Prelude LibString Klog.

(** ** Devices *)

(** [block_device_t]. [X] is the driver's own state, which the function
    pointers act on; a null function pointer is [None]. A call returns the new
    driver state, the status and, for a read, the caller's buffer; [None] is
    an access out of bounds of that buffer. *)
Record block_device (X : Type) : Type := BlockDevice {
  name : option mem;
  block_size : Z;
  block_count : Z;
  driver_data : X;
  read_blocks : option (X -> Z -> Z -> mem -> option (X * Z * mem));
  write_blocks : option (X -> Z -> Z -> mem -> option (X * Z))
}.
Arguments BlockDevice {X}.
Arguments name {X}.
Arguments block_size {X}.
Arguments block_count {X}.
Arguments driver_data {X}.
Arguments read_blocks {X}.
Arguments write_blocks {X}.

Definition set_driver_data {X} (x : X) (d : block_device X) : block_device X :=
  BlockDevice (name d) (block_size d) (block_count d) x (read_blocks d) (write_blocks d).

(** ** The registry *)

Section registry.
Context {X : Type}.

(** [block_devices] and [block_devices_total]; [devs] holds the structures the
    pointers lead to. *)
Record blk : Type := Blk {
  devs : list (block_device X);
  block_devices : list nat;
  block_devices_total : Z
}.

Definition BLOCK_DEVICE_MAX : Z := 8.

Definition set_devs (v : list (block_device X)) (s : blk) : blk :=
  Blk v (block_devices s) (block_devices_total s).
Definition set_block_devices (v : list nat) (s : blk) : blk :=
  Blk (devs s) v (block_devices_total s).
Definition set_block_devices_total (v : Z) (s : blk) : blk :=
  Blk (devs s) (block_devices s) v.

(** [*device]; a null or dangling pointer is undefined. *)
Definition dev_at (device : option nat) : M (list (block_device X)) (block_device X) :=
  p <- deref device;;
  ds <- gets id;;
  deref (ds !! p).

(** [device->read_blocks(device, start, count, buffer)]. *)
Definition call_read_blocks (device : option nat) (start count : Z) (buffer : mem) :
    M (list (block_device X)) (Z * mem) :=
  d <- dev_at device;;
  read <- deref (read_blocks d);;
  let! (x, status, buffer1) := deref (read (driver_data d) start count buffer) in
  p <- deref device;;
  modify (fun ds => <[p := set_driver_data x d]> ds);;
  ret (status, buffer1).

(** [device->write_blocks(device, start, count, buffer)]. *)
Definition call_write_blocks (device : option nat) (start count : Z) (buffer : mem) :
    M (list (block_device X)) Z :=
  d <- dev_at device;;
  write <- deref (write_blocks d);;
  let! (x, status) := deref (write (driver_data d) start count buffer) in
  p <- deref device;;
  modify (fun ds => <[p := set_driver_data x d]> ds);;
  ret status.

(** The search of [block_register_device] for the pointer itself. *)
Fixpoint block_registered (fuel : nat) (index : Z) (device : nat) (s : blk) : option bool :=
  match fuel with
  | O => Some false
  | S fuel' =>
      p ← rd (block_devices s) index;
      if decide (p = device) then Some true else block_registered fuel' (index + 1) device s
  end.

Definition is_null {A} (o : option A) : bool := match o with None => true | Some _ => false end.

Definition block_register_device (device : option nat) : M blk Z :=
  match device with
  | None => ret (-1)
  | Some p =>
      d <- zoom devs set_devs (dev_at device);;
      if is_null (name d) || (block_size d =? 0) || (block_count d =? 0) || is_null (read_blocks d)
      then ret (-1)
      else
        total <- gets block_devices_total;;
        seen <- (fun s => deref (block_registered (Z.to_nat total) 0 p s) s);;
        if (seen : bool) then ret (-1)
        else if BLOCK_DEVICE_MAX <=? total then ret (-1)
        else
          table <- gets block_devices;;
          table1 <- deref (wr table total p);;
          modify (set_block_devices table1);;
          modify (set_block_devices_total (u32 (total + 1)));;
          kprintf (nl "[INFO] block: registered %s") [AStr (name d)];;
          ret 0
  end.

Definition block_get_device (index : Z) : M blk (option nat) :=
  total <- gets block_devices_total;;
  if total <=? index then ret None
  else
    table <- gets block_devices;;
    p <- deref (rd table index);;
    ret (Some p).

(** The loop of [block_find_device] from [index]. *)
Fixpoint block_find_loop (fuel : nat) (index : Z) (nm : mem) : M blk (option nat) :=
  match fuel with
  | O => ret None
  | S fuel' =>
      table <- gets block_devices;;
      p <- deref (rd table index);;
      d <- zoom devs set_devs (dev_at (Some p));;
      dname <- deref (name d);;
      c <- deref (strcmp dname nm);;
      if c =? 0 then ret (Some p) else block_find_loop fuel' (index + 1) nm
  end.

Definition block_find_device (nm : option mem) : M blk (option nat) :=
  match nm with
  | None => ret None
  | Some n => total <- gets block_devices_total;; block_find_loop (Z.to_nat total) 0 n
  end.

Definition block_device_count : M blk Z := gets block_devices_total.

(** [console_putc] of each character [block_print_unsigned] produces. *)
Fixpoint block_list_loop (fuel : nat) (index : Z) : M blk unit :=
  match fuel with
  | O => ret tt
  | S fuel' =>
      table <- gets block_devices;;
      p <- deref (rd table index);;
      d <- zoom devs set_devs (dev_at (Some p));;
      kprintf "%u: %s block_size=%u blocks=" [AUint index; AStr (name d); AUint (block_size d)];;
      digits <- deref (block_print_unsigned (block_count d));;
      emit digits;;
      kprintf (nl " %s") [AStr (Some (cstr (if is_null (write_blocks d) then "ro" else "rw")))];;
      block_list_loop fuel' (index + 1)
  end.

Definition block_list_devices : M blk unit :=
  total <- gets block_devices_total;;
  if total =? 0 then kprintf (nl "no block devices") []
  else block_list_loop (Z.to_nat total) 0.

End registry.
Arguments blk : clear implicits.

(** ** The driver interface *)

(** What a driver promises to a file system: its state holds the bytes of the
    disk, reading one block in range delivers them, writing one block in range
    changes exactly them, and both report an error and change nothing out of
    range. *)
Class DiskDriver (X : Type) : Type := {
  disk_ok : X -> Prop;
  disk_bs : X -> Z;
  disk_count : X -> Z;
  disk_data : X -> list Z;
  disk_read : X -> Z -> Z -> mem -> option (X * Z * mem);
  disk_write : X -> Z -> Z -> mem -> option (X * Z);
  disk_geometry x : disk_ok x ->
    0 < disk_bs x < 2 ^ 32 /\ 0 < disk_count x < 2 ^ 64 /\ disk_bs x * disk_count x < 2 ^ 63 /\
    lenZ (disk_data x) = disk_bs x * disk_count x;
  disk_read_in x b buf : disk_ok x -> 0 <= b < disk_count x -> disk_bs x <= lenZ buf ->
    disk_read x b 1 buf =
      Some (x, 0, splice buf 0 (slice (disk_data x) (Z.to_nat (b * disk_bs x)) (Z.to_nat (disk_bs x))));
  disk_read_out x b buf : disk_ok x -> disk_count x <= b < 2 ^ 64 ->
    disk_read x b 1 buf = Some (x, -1, buf);
  disk_write_in x b buf : disk_ok x -> 0 <= b < disk_count x -> disk_bs x <= lenZ buf ->
    exists x', disk_write x b 1 buf = Some (x', 0) /\ disk_ok x' /\
      disk_bs x' = disk_bs x /\ disk_count x' = disk_count x /\
      disk_data x' = splice (disk_data x) (Z.to_nat (b * disk_bs x)) (take (Z.to_nat (disk_bs x)) buf);
  disk_write_out x b buf : disk_ok x -> disk_count x <= b < 2 ^ 64 ->
    disk_write x b 1 buf = Some (x, -1)
}.

(** A device structure that a driver filled in. *)
Record disk_device {X} `{DiskDriver X} (d : block_device X) : Prop := {
  dd_ok : disk_ok (driver_data d);
  dd_size : block_size d = disk_bs (driver_data d);
  dd_count : block_count d = disk_count (driver_data d);
  dd_read : read_blocks d = Some disk_read;
  dd_write : write_blocks d = Some disk_write;
  dd_name : exists s, name d = Some s /\ is_Some (cval s)
}.

(** ** Invariant and properties of the registry *)

Section registry_proofs.
Context {X : Type}.
Implicit Types (s : blk X) (p : nat).

(** The registered pointers, in registration order. *)
Definition registered s : list nat := take (Z.to_nat (block_devices_total s)) (block_devices s).

(** A device the registry accepts. *)
Definition device_valid (d : block_device X) : bool :=
  negb (is_null (name d) || (block_size d =? 0) || (block_count d =? 0) || is_null (read_blocks d)).

Record blk_wf s : Prop := {
  bk_table : lenZ (block_devices s) = BLOCK_DEVICE_MAX;
  bk_total : 0 <= block_devices_total s <= BLOCK_DEVICE_MAX;
  bk_nodup : NoDup (registered s);
  bk_devs : forall p, p ∈ registered s -> exists d n, devs s !! p = Some d /\ device_valid d = true /\
              name d = Some n /\ is_Some (cval n)
}.

Lemma registered_lookup s i p :
  0 <= i < block_devices_total s -> rd (block_devices s) i = Some p ->
  registered s !! Z.to_nat i = Some p.
Proof.
  intros Hi. unfold rd. rewrite (proj2 (Z.leb_le 0 i)) by lia. intros Hp. unfold registered.
  rewrite lookup_take_lt by lia. done.
Qed.

Lemma registered_rd s i :
  blk_wf s -> 0 <= i < block_devices_total s ->
  exists p, rd (block_devices s) i = Some p /\ registered s !! Z.to_nat i = Some p.
Proof.
  intros Hwf Hi. destruct (rd_Some (block_devices s) i) as [p Hp].
  { destruct Hwf. lia. }
  exists p. split; [done|]. by apply registered_lookup.
Qed.

Lemma length_registered s : blk_wf s -> length (registered s) = Z.to_nat (block_devices_total s).
Proof. intros [Ht Hn _ _]. unfold registered, lenZ in *. rewrite length_take. lia. Qed.

Lemma block_registered_spec s fuel i p :
  blk_wf s -> 0 <= i -> i + Z.of_nat fuel = block_devices_total s ->
  block_registered fuel i p s = Some (bool_decide (p ∈ drop (Z.to_nat i) (registered s))).
Proof.
  intros Hwf. revert i. induction fuel as [|fuel IH]; intros i Hi Hf; simpl.
  - rewrite drop_ge by (rewrite length_registered; [lia|done]).
    by rewrite bool_decide_eq_false_2 by apply not_elem_of_nil.
  - destruct (registered_rd s i Hwf) as (q & Hq & Hr); [lia|]. rewrite Hq. simpl.
    rewrite (drop_S _ _ _ Hr). destruct (decide (q = p)) as [->|Hne].
    + by rewrite bool_decide_eq_true_2 by constructor.
    + rewrite IH by lia. replace (Z.to_nat (i + 1)) with (S (Z.to_nat i)) by lia.
      f_equal. apply bool_decide_ext. rewrite elem_of_cons. split; [by right|]. by intros [->|].
Qed.

Lemma dev_at_zoom s p d :
  devs s !! p = Some d -> zoom devs set_devs (dev_at (Some p)) s = Ret d s [].
Proof.
  intros H. unfold zoom, dev_at. rewrite bind_deref_Some with (a := p) by done.
  unfold bind, gets, deref. simpl. rewrite H. by destruct s.
Qed.

(** Registering a device that exists appends it to the registry exactly when
    it is complete, new, and the table has room; otherwise it fails and the
    registry is unchanged. The registry stays well formed. *)
Theorem block_register_device_spec s p d :
  blk_wf s -> devs s !! p = Some d -> (forall n, name d = Some n -> is_Some (cval n)) ->
  let accept := device_valid d && negb (bool_decide (p ∈ registered s)) &&
                (block_devices_total s <? BLOCK_DEVICE_MAX) in
  exists s' o, block_register_device (Some p) s = Ret (if accept then 0 else -1) s' o /\
    blk_wf s' /\ devs s' = devs s /\
    registered s' = registered s ++ (if accept then [p] else []).
Proof.
  intros Hwf Hd Hn. cbn zeta. unfold block_register_device.
  rewrite (bind_Ret_nil _ _ _ _ _ (dev_at_zoom s p d Hd)).
  destruct (device_valid d) eqn:Hv; unfold device_valid in Hv;
    [apply negb_true_iff in Hv | apply negb_false_iff in Hv]; rewrite Hv; kif.
  2:{ exists s, []. by rewrite app_nil_r. }
  krun. pose proof Hwf as [Ht Htot Hnd Hdevs].
  assert (Hreg : (fun s0 => deref (block_registered (Z.to_nat (block_devices_total s)) 0 p s0) s0) s
                 = Ret (bool_decide (p ∈ registered s)) s []).
  { cbn beta. rewrite (block_registered_spec s _ 0 p Hwf) by lia. by rewrite drop_0. }
  rewrite (bind_Ret_nil _ _ _ _ _ Hreg). case_bool_decide as Hin; kif.
  { exists s, []. by rewrite app_nil_r. }
  rewrite Z.leb_antisym. destruct (Z.ltb_spec (block_devices_total s) BLOCK_DEVICE_MAX); kif.
  2:{ exists s, []. by rewrite app_nil_r. }
  assert (Hroom : 0 <= block_devices_total s < lenZ (block_devices s)) by lia.
  krun. rewrite (bind_deref_Some _ _ _ _ (wr_Some (block_devices s) _ p Hroom)). krun.
  assert (is_null (name d) = false) as Hname
    by (destruct (is_null (name d)); [discriminate Hv | done]).
  destruct (name d) as [n|] eqn:En; [|done].
  destruct (kprintf_total (nl "[INFO] block: registered %s") [ch "s"] [AStr (Some n)]
    (set_block_devices_total (u32 (block_devices_total s + 1))
       (set_block_devices (<[Z.to_nat (block_devices_total s) := p]> (block_devices s)) s)))
    as [o Ho]; [done|repeat constructor; by apply Hn|].
  rewrite (bind_Ret _ _ _ _ _ _ Ho). unfold ret. eexists _, _. split; [done|].
  assert (Hreg' : registered (set_block_devices_total (u32 (block_devices_total s + 1))
       (set_block_devices (<[Z.to_nat (block_devices_total s) := p]> (block_devices s)) s))
    = registered s ++ [p]).
  { unfold registered. simpl. unfold BLOCK_DEVICE_MAX in *. rewrite u32_small by lia.
    replace (Z.to_nat (block_devices_total s + 1)) with (S (Z.to_nat (block_devices_total s))) by lia.
    unfold lenZ in Ht.
    rewrite (take_S_r _ _ p) by (apply list_lookup_insert_eq; lia).
    by rewrite take_insert_ge by lia. }
  split_and!; [|done|done]. unfold BLOCK_DEVICE_MAX in *. split.
  - simpl. unfold lenZ in *. by rewrite length_insert.
  - simpl. rewrite u32_small; unfold BLOCK_DEVICE_MAX; lia.
  - rewrite Hreg'. apply NoDup_app. split_and!; [done| |by apply NoDup_singleton].
    intros x Hx ->%list_elem_of_singleton. done.
  - rewrite Hreg'. intros q [Hq| ->%list_elem_of_singleton]%elem_of_app; [by apply Hdevs|].
    exists d, n. split_and!; try done; [|by apply Hn].
    unfold device_valid. by rewrite En, Hv.
Qed.

(** Pointer [p] leads to a device called [nm]. *)
Definition named (ds : list (block_device X)) (nm : mem) (p : nat) : bool :=
  match ds !! p with
  | Some d => match name d with Some n => bool_decide (cval n = cval nm) | None => false end
  | None => false
  end.

Lemma block_find_loop_spec s fuel i nm t :
  blk_wf s -> cval nm = Some t -> 0 <= i -> i + Z.of_nat fuel = block_devices_total s ->
  block_find_loop fuel i nm s =
    Ret (List.find (named (devs s) nm) (drop (Z.to_nat i) (registered s))) s [].
Proof.
  intros Hwf Ht. revert i. induction fuel as [|fuel IH]; intros i Hi Hf; cbn [block_find_loop].
  - rewrite drop_ge by (rewrite length_registered; [lia|done]). done.
  - destruct (registered_rd s i Hwf) as (q & Hq & Hr); [lia|]. krun.
    rewrite (bind_deref_Some _ _ _ _ Hq).
    destruct (bk_devs s Hwf q) as (d & n & Hd & _ & Hn & [u Hu]).
    { by eapply list_elem_of_lookup_2. }
    rewrite (bind_Ret_nil _ _ _ _ _ (dev_at_zoom s q d Hd)), (bind_deref_Some _ _ _ _ Hn).
    destruct (strcmp_eqb n nm u t Hu Ht) as (z & Hz & Heq).
    rewrite (bind_deref_Some _ _ _ _ Hz), Heq, (drop_S _ _ _ Hr). simpl List.find.
    unfold named at 1. rewrite Hd, Hn, Hu, Ht.
    rewrite (bool_decide_ext (Some u = Some t) (u = t)) by naive_solver.
    case_bool_decide; kif; [done|]. rewrite IH by lia.
    by replace (Z.to_nat (i + 1)) with (S (Z.to_nat i)) by lia.
Qed.

(** Looking a device up by name returns the first registered device of that
    name, or null if there is none. *)
Theorem block_find_device_spec s nm t :
  blk_wf s -> cval nm = Some t ->
  block_find_device (Some nm) s = Ret (List.find (named (devs s) nm) (registered s)) s [].
Proof.
  intros Hwf Ht. unfold block_find_device. krun.
  rewrite (block_find_loop_spec s _ 0 nm t) by (done || destruct Hwf; lia). by rewrite drop_0.
Qed.

End registry_proofs.

(** ** A registry with one device *)

Definition sample_blk_device (nm : string) : block_device unit :=
  BlockDevice (Some (cstr nm)) 512 16 tt (Some (fun x _ _ buf => Some (x, 0, buf))) None.
Definition sample_blk : blk unit :=
  Blk [sample_blk_device "a"; sample_blk_device "b"] (replicate 8 0%nat) 1.

Lemma sample_blk_wf : blk_wf sample_blk.
Proof.
  split; try done.
  - apply NoDup_singleton.
  - intros p ->%list_elem_of_singleton. by exists (sample_blk_device "a"), (cstr "a").
Qed.

Lemma block_register_device_spec_witness :
  exists s' o, block_register_device (Some 1%nat) sample_blk = Ret 0 s' o /\ registered s' = [0; 1]%nat.
Proof.
  destruct (block_register_device_spec sample_blk 1 (sample_blk_device "b")) as (s' & o & He & _ & _ & Hr);
    [exact sample_blk_wf|reflexivity|by intros n [= <-]|].
  exists s', o. exact (conj He Hr).
Defined.

Lemma block_find_device_spec_witness :
  block_find_device (Some (cstr "a")) sample_blk = Ret (Some 0%nat) sample_blk [] /\
  block_find_device (Some (cstr "b")) sample_blk = Ret None sample_blk [].
Proof.
  split.
  - rewrite (block_find_device_spec sample_blk (cstr "a") (lit "a")); [reflexivity|exact sample_blk_wf|reflexivity].
  - rewrite (block_find_device_spec sample_blk (cstr "b") (lit "b")); [reflexivity|exact sample_blk_wf|reflexivity].
Defined.
