(* ===== verification/Ramdisk.v ===== *)
(** The RAM disk driver (src/src/drivers/ramdisk.c): 128 blocks of 512 bytes in
    a static array. It discharges the [DiskDriver] interface, so every theorem
    of the file systems applies to it. *)
From S2P Require Import Prelude LibString Klog BlockDevice.

(** ** Definitions *)

Definition RAMDISK_BLOCK_SIZE : Z := 512.
Definition RAMDISK_BLOCK_COUNT : Z := 128.

(** [ramdisk_storage]. *)
Definition ramdisk : Type := list Z.

Definition ramdisk_range_valid (start_block block_count : Z) : bool :=
  if block_count =? 0 then false
  else
    let end_block := u64 (start_block + block_count) in
    if end_block <? start_block then false
    else end_block <=? RAMDISK_BLOCK_COUNT.

(** [device] and [buffer] are pointers, null when [None]. *)
Definition ramdisk_read_blocks (storage : ramdisk) (device : option unit)
    (start_block block_count : Z) (buffer : option mem) : option (ramdisk * Z * option mem) :=
  match device, buffer with
  | Some _, Some buf =>
      if negb (ramdisk_range_valid start_block block_count) then Some (storage, -1, buffer)
      else
        let offset := u64 (start_block * RAMDISK_BLOCK_SIZE) in
        let size := u64 (block_count * RAMDISK_BLOCK_SIZE) in
        buf1 ← memcpy buf 0 storage offset size;
        Some (storage, 0, Some buf1)
  | _, _ => Some (storage, -1, buffer)
  end.

Definition ramdisk_write_blocks (storage : ramdisk) (device : option unit)
    (start_block block_count : Z) (buffer : option mem) : option (ramdisk * Z) :=
  match device, buffer with
  | Some _, Some buf =>
      if negb (ramdisk_range_valid start_block block_count) then Some (storage, -1)
      else
        let offset := u64 (start_block * RAMDISK_BLOCK_SIZE) in
        let size := u64 (block_count * RAMDISK_BLOCK_SIZE) in
        storage1 ← memcpy storage offset buf 0 size;
        Some (storage1, 0)
  | _, _ => Some (storage, -1)
  end.

(** The driver's functions as the device structure holds them: callers pass the
    device itself and a buffer of their own. *)
Definition ramdisk_read (x : ramdisk) (start count : Z) (buf : mem) : option (ramdisk * Z * mem) :=
  '(x1, status, buffer1) ← ramdisk_read_blocks x (Some tt) start count (Some buf);
  buf1 ← buffer1;
  Some (x1, status, buf1).
Definition ramdisk_write (x : ramdisk) (start count : Z) (buf : mem) : option (ramdisk * Z) :=
  ramdisk_write_blocks x (Some tt) start count (Some buf).

(** The device registry and [ramdisk0_initialized]. *)
Record ramdisk_state : Type := RamdiskState {
  rk_blk : blk ramdisk;
  ramdisk0_initialized : bool
}.
Definition set_rk_blk (v : blk ramdisk) (s : ramdisk_state) : ramdisk_state :=
  RamdiskState v (ramdisk0_initialized s).
Definition set_ramdisk0_initialized (v : bool) (s : ramdisk_state) : ramdisk_state :=
  RamdiskState (rk_blk s) v.

Section driver.
(** [&ramdisk0_device]. *)
Context (ramdisk0_device : nat).

(** The assignments to the fields of [ramdisk0_device]. *)
Definition ramdisk0_fill (d : block_device ramdisk) : block_device ramdisk :=
  BlockDevice (Some (cstr "ram0")) RAMDISK_BLOCK_SIZE RAMDISK_BLOCK_COUNT (driver_data d)
    (Some ramdisk_read) (Some ramdisk_write).

Definition ramdisk_init : M ramdisk_state unit :=
  initialized <- gets ramdisk0_initialized;;
  if (initialized : bool) then ret tt
  else
    zoom rk_blk set_rk_blk
      (modify (fun b => set_devs (alter ramdisk0_fill ramdisk0_device (devs b)) b));;
    status <- zoom rk_blk set_rk_blk (block_register_device (Some ramdisk0_device));;
    if negb (status =? 0) then klog_error "ramdisk: register failed"
    else
      modify (set_ramdisk0_initialized true);;
      kprintf (nl "[INFO] ramdisk: %s initialized (%u bytes)")
        [AStr (Some (cstr "ram0")); AUint (u32 (RAMDISK_BLOCK_SIZE * RAMDISK_BLOCK_COUNT))].

Definition ramdisk_device : M ramdisk_state (option nat) :=
  initialized <- gets ramdisk0_initialized;;
  ret (if (initialized : bool) then Some ramdisk0_device else None).

End driver.

(** ** The driver interface *)

Definition ramdisk_ok (x : ramdisk) : Prop := lenZ x = RAMDISK_BLOCK_SIZE * RAMDISK_BLOCK_COUNT.

Lemma ramdisk_range_one b :
  0 <= b < 2 ^ 64 -> ramdisk_range_valid b 1 = (b <? RAMDISK_BLOCK_COUNT).
Proof.
  intros Hb. unfold ramdisk_range_valid, RAMDISK_BLOCK_COUNT. simpl.
  destruct (Z.eq_dec b (2 ^ 64 - 1)) as [->|Hne]; [done|].
  rewrite u64_small by lia. rewrite (proj2 (Z.ltb_ge _ b)) by lia.
  destruct (Z.leb_spec (b + 1) 128), (Z.ltb_spec b 128); lia.
Qed.

#[export, refine] Instance ramdisk_driver : DiskDriver ramdisk := {|
  disk_ok := ramdisk_ok;
  disk_bs := fun _ => RAMDISK_BLOCK_SIZE;
  disk_count := fun _ => RAMDISK_BLOCK_COUNT;
  disk_data := fun x => x;
  disk_read := ramdisk_read;
  disk_write := ramdisk_write
|}.
Proof.
  all: unfold ramdisk_ok, RAMDISK_BLOCK_SIZE, RAMDISK_BLOCK_COUNT in *.
  - lia.
  - intros x b buf Hx Hb Hbuf. unfold ramdisk_read, ramdisk_read_blocks.
    rewrite ramdisk_range_one by lia. rewrite (proj2 (Z.ltb_lt b _)) by (unfold RAMDISK_BLOCK_COUNT; lia).
    kif. unfold RAMDISK_BLOCK_SIZE. rewrite !u64_small by lia.
    rewrite memcpy_spec by lia. done.
  - intros x b buf Hx Hb. unfold ramdisk_read, ramdisk_read_blocks.
    rewrite ramdisk_range_one by lia. by rewrite (proj2 (Z.ltb_ge b _)) by (unfold RAMDISK_BLOCK_COUNT; lia).
  - intros x b buf Hx Hb Hbuf. unfold ramdisk_write, ramdisk_write_blocks.
    rewrite ramdisk_range_one by lia. rewrite (proj2 (Z.ltb_lt b _)) by (unfold RAMDISK_BLOCK_COUNT; lia).
    kif. unfold RAMDISK_BLOCK_SIZE. rewrite !u64_small by lia.
    rewrite memcpy_spec by lia. eexists. split; [done|]. split_and!; try done.
    unfold lenZ in *. rewrite length_splice; [done|].
    unfold slice. rewrite length_take, length_drop. lia.
  - intros x b buf Hx Hb. unfold ramdisk_write, ramdisk_write_blocks.
    rewrite ramdisk_range_one by lia. by rewrite (proj2 (Z.ltb_ge b _)) by (unfold RAMDISK_BLOCK_COUNT; lia).
Defined.

(** ** Properties *)

(** A multi-block transfer succeeds exactly when the whole range is on the
    disk, with no wrap-around of [start + count]; what a write stores, the same
    read returns. *)
Theorem ramdisk_write_read x start count src buf :
  ramdisk_ok x -> 0 <= start < 2 ^ 64 -> 0 <= count < 2 ^ 64 ->
  lenZ src = count * RAMDISK_BLOCK_SIZE -> lenZ buf = count * RAMDISK_BLOCK_SIZE ->
  if (0 <? count) && (start + count <=? RAMDISK_BLOCK_COUNT)
  then exists x', ramdisk_write x start count src = Some (x', 0) /\ ramdisk_ok x' /\
         ramdisk_read x' start count buf = Some (x', 0, src)
  else ramdisk_write x start count src = Some (x, -1) /\
       ramdisk_read x start count buf = Some (x, -1, buf).
Proof.
  intros Hx Hs Hc Hsrc Hbuf.
  assert (Hv : ramdisk_range_valid start count =
    (0 <? count) && (start + count <=? RAMDISK_BLOCK_COUNT)).
  { unfold ramdisk_range_valid, RAMDISK_BLOCK_COUNT.
    destruct (Z.eqb_spec count 0) as [->|]; [done|]. rewrite (proj2 (Z.ltb_lt 0 count)) by lia. simpl.
    destruct (Z.ltb_spec (start + count) (2 ^ 64)).
    - rewrite u64_small by lia. by rewrite (proj2 (Z.ltb_ge _ start)) by lia.
    - replace (u64 (start + count)) with (start + count - 2 ^ 64)
        by (unfold u64; apply (Z.mod_unique _ _ 1); lia).
      rewrite (proj2 (Z.ltb_lt _ start)) by lia. symmetry. apply Z.leb_gt. lia. }
  unfold ramdisk_write, ramdisk_read, ramdisk_write_blocks, ramdisk_read_blocks. rewrite Hv.
  destruct ((0 <? count) && (start + count <=? RAMDISK_BLOCK_COUNT)) eqn:E; [|done].
  apply andb_true_iff in E as [H1%Z.ltb_lt H2%Z.leb_le]. kif.
  unfold ramdisk_ok, RAMDISK_BLOCK_SIZE, RAMDISK_BLOCK_COUNT in *.
  rewrite !u64_small by lia. rewrite memcpy_spec by lia.
  assert (Hsl : slice src 0 (Z.to_nat (count * 512)) = src).
  { unfold lenZ in Hsrc.
    replace (Z.to_nat (count * 512)) with (length src) by lia. apply slice_all. }
  rewrite Z2Nat.inj_0, Hsl. 
  assert (Hlen : length (splice x (Z.to_nat (start * 512)) src) = length x).
  { unfold lenZ in *. apply length_splice. lia. }
  eexists. split; [done|]. split; [unfold lenZ; rewrite Hlen; done|].
  rewrite memcpy_spec by (unfold lenZ in *; rewrite ?Hlen; lia). cbn [mbind option_bind].
  replace (Z.to_nat (count * 512)) with (length src) by (unfold lenZ in *; lia).
  rewrite slice_splice_same by (unfold lenZ in *; lia).
  rewrite splice_all by (unfold lenZ in *; lia). done.
Qed.

Lemma lenZ_replicate (n x : Z) : 0 <= n -> lenZ (replicate (Z.to_nat n) x) = n.
Proof. intros Hn. unfold lenZ. rewrite length_replicate. by apply Z2Nat.id. Qed.

Lemma ramdisk_write_read_witness :
  let x := replicate (Z.to_nat 65536) 0 in let src := replicate (Z.to_nat 1024) 7 in
  ramdisk_ok x /\ exists x', ramdisk_write x 126 2 src = Some (x', 0) /\
    ramdisk_read x' 126 2 (replicate (Z.to_nat 1024) 0) = Some (x', 0, src).
Proof.
  cbn zeta.
  assert (H : ramdisk_ok (replicate (Z.to_nat 65536) 0)) by exact (lenZ_replicate 65536 0 ltac:(lia)).
  split; [exact H|].
  destruct (ramdisk_write_read (replicate (Z.to_nat 65536) 0) 126 2
    (replicate (Z.to_nat 1024) 7) (replicate (Z.to_nat 1024) 0) H)
    as (x' & Hw & _ & Hr); [lia|lia|exact (lenZ_replicate 1024 7 ltac:(lia))|exact (lenZ_replicate 1024 0 ltac:(lia))|].
  exact (ex_intro _ x' (conj Hw Hr)).
Defined.
