(* ===== verification/BlockIO.v ===== *)
(** Byte-granular access to a block device. [tinyfs_read_bytes],
    [logfs_read_bytes] and [logfs_write_bytes] split a byte range into block
    transfers through a one-block buffer; the two read loops compute the same
    thing and share [read_chunks]. Against any driver that keeps the
    [DiskDriver] promise, reading delivers exactly the bytes of the range and
    writing changes exactly them. *)
From S2P Require Import Prelude LibString BlockDevice.

(** ** Definitions *)

(** The devices and the file system's static block buffer. *)
Record bio (X : Type) : Type := Bio {
  bio_devs : list (block_device X);
  bio_buffer : mem
}.
Arguments Bio {X}.
Arguments bio_devs {X}.
Arguments bio_buffer {X}.

Section definitions.
Context {X : Type}.

Definition set_bio_devs (v : list (block_device X)) (s : bio X) : bio X := Bio v (bio_buffer s).
Definition set_bio_buffer (v : mem) (s : bio X) : bio X := Bio (bio_devs s) v.

(** Reads block [block_index] into the buffer. *)
Definition read_block (device : option nat) (block_index : Z) : M (bio X) Z :=
  buffer <- gets bio_buffer;;
  let! (status, buffer1) :=
    zoom bio_devs set_bio_devs (call_read_blocks device block_index 1 buffer) in
  modify (set_bio_buffer buffer1);;
  ret status.

(** The loop of [tinyfs_read_bytes] and [logfs_read_bytes], from [copied] on.
    A turn copies at least one byte, so [size + 1] turns are enough. *)
Fixpoint read_chunks (fuel : nat) (device : option nat) (bs offset size copied : Z) (dest : mem) :
    M (bio X) (Z * mem) :=
  match fuel with
  | O => undef
  | S fuel' =>
      if copied <? size then
        if bs =? 0 then undef
        else
          let block_index := u64 (offset + copied) / bs in
          let block_offset := u64 (offset + copied) mod bs in
          let chunk_size0 := bs - block_offset in
          let chunk_size := if size - copied <? chunk_size0 then size - copied else chunk_size0 in
          status <- read_block device block_index;;
          if negb (status =? 0) then ret (-1, dest)
          else
            buffer <- gets bio_buffer;;
            dest1 <- deref (memcpy dest copied buffer block_offset chunk_size);;
            read_chunks fuel' device bs offset size (copied + chunk_size) dest1
      else ret (0, dest)
  end.

(** The loop of [logfs_write_bytes]: whole blocks go straight to the device,
    the others are read, patched and written back. *)
Fixpoint write_chunks (fuel : nat) (device : option nat) (bs offset size copied : Z) (src : mem) :
    M (bio X) Z :=
  match fuel with
  | O => undef
  | S fuel' =>
      if copied <? size then
        if bs =? 0 then undef
        else
          let block_index := u64 (offset + copied) / bs in
          let block_offset := u32 (u64 (offset + copied) mod bs) in
          let chunk_size0 := bs - block_offset in
          let chunk_size := if size - copied <? chunk_size0 then size - copied else chunk_size0 in
          if (block_offset =? 0) && (chunk_size =? bs) then
            status <- zoom bio_devs set_bio_devs
                        (call_write_blocks device block_index 1 (drop (Z.to_nat copied) src));;
            if negb (status =? 0) then ret (-1)
            else write_chunks fuel' device bs offset size (copied + chunk_size) src
          else
            rstatus <- read_block device block_index;;
            if negb (rstatus =? 0) then ret (-1)
            else
              buffer <- gets bio_buffer;;
              buffer1 <- deref (memcpy buffer block_offset src copied chunk_size);;
              modify (set_bio_buffer buffer1);;
              wstatus <- zoom bio_devs set_bio_devs
                           (call_write_blocks device block_index 1 buffer1);;
              if negb (wstatus =? 0) then ret (-1)
              else write_chunks fuel' device bs offset size (copied + chunk_size) src
      else ret 0
  end.

End definitions.

(** ** Block transfers *)

Section transfers.
Context {X : Type} `{DiskDriver X}.
Implicit Types (s : bio X) (d : block_device X).

(** Device [p] is a disk of [d], and a block fits the buffer. *)
Definition disk_at (s : bio X) (p : nat) (d : block_device X) : Prop :=
  bio_devs s !! p = Some d /\ disk_device d /\ block_size d <= lenZ (bio_buffer s).

(** The bytes of the disk, and their number. *)
Definition dev_data (d : block_device X) : list Z := disk_data (driver_data d).
Definition capacity (d : block_device X) : Z := block_size d * block_count d.

Lemma disk_device_geometry d :
  disk_device d ->
  0 < block_size d < 2 ^ 32 /\ 0 < block_count d < 2 ^ 64 /\ capacity d < 2 ^ 63 /\
  lenZ (dev_data d) = capacity d.
Proof.
  intros [Hok Hs Hc _ _ _]. unfold capacity, dev_data. rewrite Hs, Hc. by apply disk_geometry.
Qed.

Lemma capacity_data d : disk_device d -> lenZ (dev_data d) = capacity d.
Proof. intros Hd. by destruct (disk_device_geometry d Hd) as (_ & _ & _ & ?). Qed.

Lemma set_driver_data_id d : set_driver_data (driver_data d) d = d.
Proof. by destruct d. Qed.

Lemma insert_same (ds : list (block_device X)) p d :
  ds !! p = Some d -> <[p := set_driver_data (driver_data d) d]> ds = ds.
Proof. intros Hd. rewrite set_driver_data_id. by apply list_insert_id. Qed.

Lemma read_block_in s p d b :
  disk_at s p d -> 0 <= b < block_count d ->
  read_block (Some p) b s =
    Ret 0 (set_bio_buffer (splice (bio_buffer s) 0
             (slice (dev_data d) (Z.to_nat (b * block_size d)) (Z.to_nat (block_size d)))) s) [].
Proof.
  intros (Hd & Hdev & Hbuf) Hb. pose proof Hdev as [Hok Hs Hc Hr _ _].
  unfold read_block, zoom, call_read_blocks, dev_at, bind, gets, deref, modify, ret.
  simpl. rewrite Hd. simpl. rewrite Hr. simpl.
  rewrite disk_read_in by (rewrite <- ?Hs, <- ?Hc; done). simpl. rewrite insert_same by done.
  unfold dev_data. rewrite Hs. by destruct s.
Qed.

Lemma read_block_out s p d b :
  disk_at s p d -> block_count d <= b < 2 ^ 64 -> read_block (Some p) b s = Ret (-1) s [].
Proof.
  intros (Hd & Hdev & Hbuf) Hb. pose proof Hdev as [Hok Hs Hc Hr _ _].
  unfold read_block, zoom, call_read_blocks, dev_at, bind, gets, deref, modify, ret.
  simpl. rewrite Hd. simpl. rewrite Hr. simpl.
  rewrite disk_read_out by (rewrite <- ?Hc; done). simpl. rewrite insert_same by done.
  by destruct s.
Qed.

(** The device after its data became [data]. *)
Definition same_disk (d d' : block_device X) : Prop :=
  disk_device d' /\ block_size d' = block_size d /\ block_count d' = block_count d /\
  name d' = name d /\ read_blocks d' = read_blocks d /\ write_blocks d' = write_blocks d.

Lemma same_disk_refl d : disk_device d -> same_disk d d.
Proof. done. Qed.

Lemma same_disk_trans d1 d2 d3 : same_disk d1 d2 -> same_disk d2 d3 -> same_disk d1 d3.
Proof. intros (? & ? & ? & ? & ? & ?) (? & ? & ? & ? & ? & ?). split_and!; congruence || done. Qed.

Lemma write_block_in s p d b buf :
  disk_at s p d -> 0 <= b < block_count d -> block_size d <= lenZ buf ->
  exists d', zoom bio_devs set_bio_devs (call_write_blocks (Some p) b 1 buf) s =
      Ret 0 (set_bio_devs (<[p := d']> (bio_devs s)) s) [] /\ same_disk d d' /\
    dev_data d' = splice (dev_data d) (Z.to_nat (b * block_size d))
                    (take (Z.to_nat (block_size d)) buf).
Proof.
  intros (Hd & Hdev & _) Hb Hbuf. pose proof Hdev as [Hok Hs Hc Hr Hw Hn].
  destruct (disk_write_in (driver_data d) b buf) as (x & Hx & Hok' & Hbs' & Hct' & Hdata);
    [done|by rewrite <- Hc|by rewrite <- Hs|].
  exists (set_driver_data x d). split_and!.
  - unfold zoom, call_write_blocks, dev_at, bind, gets, deref, modify, ret.
    simpl. rewrite Hd. simpl. rewrite Hw. simpl. by rewrite Hx.
  - split_and!; try done. split; simpl; try done; congruence.
  - unfold dev_data. simpl. by rewrite Hdata, Hs.
Qed.

Lemma disk_at_write s p d d' :
  disk_at s p d -> same_disk d d' -> disk_at (set_bio_devs (<[p := d']> (bio_devs s)) s) p d'.
Proof.
  intros (Hd & Hdev & Hbuf) (Hdev' & Hbs & _). split_and!; simpl; [|done|by rewrite Hbs].
  apply list_lookup_insert_eq. by eapply lookup_lt_Some.
Qed.

Lemma disk_at_buffer s p d buf :
  disk_at s p d -> lenZ buf = lenZ (bio_buffer s) -> disk_at (set_bio_buffer buf s) p d.
Proof. intros (Hd & Hdev & Hbuf) Hl. split_and!; simpl; [done|done|by rewrite Hl]. Qed.

(** The part of block [b / bs] that a chunk takes. *)
Lemma chunk_bounds bs a rest :
  0 < bs -> 0 <= a -> 0 < rest ->
  let o := a mod bs in
  let c := if rest <? bs - o then rest else bs - o in
  0 <= o < bs /\ 0 < c <= rest /\ o + c <= bs /\ a = a / bs * bs + o /\ 0 <= a / bs.
Proof.
  intros Hbs Ha Hr. cbn zeta. pose proof (Z.mod_pos_bound a bs Hbs).
  pose proof (Z.div_mod a bs). assert (0 <= a / bs) by (apply Z.div_pos; lia).
  destruct (Z.ltb_spec rest (bs - a mod bs)); lia.
Qed.

Lemma block_in_range d a :
  disk_device d -> 0 <= a -> (a / block_size d <? block_count d) = (a <? capacity d).
Proof.
  intros Hd Ha. destruct (disk_device_geometry d Hd) as (Hbs & Hbc & Hcap & _). unfold capacity in *.
  destruct (Z.ltb_spec a (block_size d * block_count d)).
  - apply Z.ltb_lt. apply Z.div_lt_upper_bound; lia.
  - apply Z.ltb_ge. apply Z.div_le_lower_bound; lia.
Qed.

(** A range below [n] that starts in a block below it: the block is whole. *)
Lemma block_whole d a :
  disk_device d -> 0 <= a < capacity d ->
  0 <= a / block_size d < block_count d /\
  a / block_size d * block_size d + block_size d <= capacity d.
Proof.
  intros Hd Ha. destruct (disk_device_geometry d Hd) as (Hbs & Hbc & _).
  pose proof (block_in_range d a Hd) as Hin. rewrite (proj2 (Z.ltb_lt a _)) in Hin by lia.
  assert (Hlt : a / block_size d < block_count d) by (apply Z.ltb_lt, Hin; lia).
  split; [split; [apply Z.div_pos; lia|done]|]. unfold capacity.
  assert (a / block_size d + 1 <= block_count d) by lia.
  pose proof (Z.mul_le_mono_nonneg_l (a / block_size d + 1) (block_count d) (block_size d)). lia.
Qed.

(** What a chunk copies out of the buffer after its block was read into it. *)
Lemma block_piece s d a o c :
  disk_device d ->
  let buf := splice (bio_buffer s) 0
    (slice (dev_data d) (Z.to_nat (a / block_size d * block_size d)) (Z.to_nat (block_size d))) in
  block_size d <= lenZ (bio_buffer s) -> 0 <= a < capacity d -> 0 <= o -> 0 <= c /\ o + c <= block_size d ->
  a = a / block_size d * block_size d + o ->
  slice buf (Z.to_nat o) (Z.to_nat c) = slice (dev_data d) (Z.to_nat a) (Z.to_nat c).
Proof.
  intros Hdev. cbn zeta. intros Hbuf Ha Ho Hc Hdiv.
  destruct (disk_device_geometry d Hdev) as (Hbs & Hbc & Hcap & Hlen).
  destruct (block_whole d a Hdev Ha) as [Hb Hw]. unfold lenZ in *.
  set (b := slice (dev_data d) _ _).
  assert (Hb2 : length b = Z.to_nat (block_size d)) by (apply length_slice; lia).
  transitivity (slice b (Z.to_nat o) (Z.to_nat c)).
  - apply list_eq. intros i. destruct (decide (i < Z.to_nat c)%nat).
    + rewrite !lookup_slice by done. rewrite lookup_splice_new by lia. f_equal. lia.
    + rewrite !lookup_slice_ge by lia. done.
  - unfold b. rewrite slice_slice by lia. f_equal. lia.
Qed.

Lemma read_chunks_spec fuel s p d offset size copied dest :
  disk_at s p d -> 0 <= offset -> 0 <= copied <= size -> offset + size < 2 ^ 64 ->
  size <= lenZ dest -> (Z.to_nat (size - copied) < fuel)%nat ->
  exists buf dest', lenZ buf = lenZ (bio_buffer s) /\ lenZ dest' = lenZ dest /\
    read_chunks fuel (Some p) (block_size d) offset size copied dest s =
      Ret (if (size <=? copied) || (offset + size <=? capacity d) then 0 else -1, dest')
          (set_bio_buffer buf s) [] /\
    ((size <=? copied) || (offset + size <=? capacity d) = true ->
     dest' = splice dest (Z.to_nat copied)
               (slice (dev_data d) (Z.to_nat (offset + copied)) (Z.to_nat (size - copied)))).
Proof.
  revert s copied dest. induction fuel as [|fuel IH]; intros s copied dest Hat Ho Hc Hsz Hd Hf; [lia|].
  cbn [read_chunks]. destruct (Z.ltb_spec copied size) as [Hlt|Hge].
  2:{ exists (bio_buffer s), dest. rewrite (proj2 (Z.leb_le size copied)) by lia.
      split_and!; [done|done|by destruct s|]. intros _.
      replace (Z.to_nat (size - copied)) with 0%nat by lia. by rewrite slice_nil, splice_nil. }
  pose proof Hat as (_ & Hdev & Hbuf).
  destruct (disk_device_geometry d Hdev) as (Hbs & Hbc & Hcap & Hlen).
  rewrite (proj2 (Z.eqb_neq (block_size d) 0)), (proj2 (Z.leb_gt size copied)) by lia.
  cbn zeta. rewrite u64_small by lia. cbn [orb].
  destruct (chunk_bounds (block_size d) (offset + copied) (size - copied)) as (Hoff & Hch & Hfit & Hdiv & Hq);
    [lia..|].
  set (o := (offset + copied) mod block_size d) in *.
  set (c := if size - copied <? block_size d - o then size - copied else block_size d - o) in *.
  pose proof (block_in_range d (offset + copied) Hdev) as Hin.
  destruct (Z.ltb_spec (offset + copied) (capacity d)) as [Hcp|Hcp].
  - destruct (block_whole d (offset + copied) Hdev) as [Hb Hw]; [lia|].
    rewrite (bind_Ret_nil _ _ _ _ _ (read_block_in s p d _ Hat Hb)). rewrite Z.eqb_refl. kif. krun.
    set (buf := splice _ 0 _).
    assert (Hbl : lenZ buf = lenZ (bio_buffer s)).
    { unfold buf, lenZ in *. apply f_equal, length_splice. rewrite length_slice; lia. }
    rewrite (bind_deref_Some _ _ _ _ (memcpy_spec dest copied buf o c ltac:(lia) ltac:(lia) ltac:(lia)
      ltac:(lia) ltac:(simpl; lia))). simpl bio_buffer.
    pose proof (block_piece s d (offset + copied) o c Hdev) as Hsl. cbn zeta in Hsl. fold buf in Hsl.
    specialize (Hsl Hbuf ltac:(lia) ltac:(lia) ltac:(lia) Hdiv).
    rewrite Hsl. set (piece := slice (dev_data d) (Z.to_nat (offset + copied)) (Z.to_nat c)) in *.
    assert (Hpl : length piece = Z.to_nat c) by (apply length_slice; unfold lenZ in *; lia).
    destruct (IH (set_bio_buffer buf s) (copied + c) (splice dest (Z.to_nat copied) piece))
      as (buf2 & dest2 & Hl2 & Hd2 & He2 & Hr2); try lia.
    { by apply disk_at_buffer. }
    { unfold lenZ in *. rewrite length_splice; lia. }
    simpl in Hl2. exists buf2, dest2.
    assert (Hst : (size <=? copied + c) || (offset + size <=? capacity d) = (offset + size <=? capacity d)).
    { destruct (Z.leb_spec size (copied + c)); [|done]. simpl. symmetry. apply Z.leb_le. lia. }
    rewrite Hst in He2, Hr2. split_and!; [lia| | |].
    + unfold lenZ in *. rewrite length_splice in Hd2; lia.
    + rewrite He2. by destruct s.
    + intros Hok. rewrite Hr2 by done.
      replace (Z.to_nat (copied + c)) with (Z.to_nat copied + length piece)%nat by lia.
      apply Z.leb_le in Hok.
      rewrite splice_app by (rewrite length_slice; unfold lenZ in *; lia).
      f_equal. unfold piece.
      replace (Z.to_nat (offset + (copied + c))) with (Z.to_nat (offset + copied) + Z.to_nat c)%nat by lia.
      rewrite <- slice_app. f_equal. lia.
  - rewrite (proj2 (Z.leb_gt (offset + size) _)) by lia.
    assert (Hb : block_count d <= (offset + copied) / block_size d < 2 ^ 64).
    { split; [apply Z.ltb_ge; by rewrite Hin by lia|].
      apply Z.div_lt_upper_bound; [lia|]. nia. }
    rewrite (bind_Ret_nil _ _ _ _ _ (read_block_out s p d _ Hat Hb)). kif.
    exists (bio_buffer s), dest. split_and!; [done|done|by destruct s|done].
Qed.

(** Reading a block, patching part of it and writing it back changes that part
    of the disk. *)
Lemma patch_block (data buf part : list Z) q o bs :
  (q + bs <= length data)%nat -> (bs <= length buf)%nat -> (o + length part <= bs)%nat ->
  splice data q (take bs (splice (splice buf 0 (slice data q bs)) o part)) = splice data (q + o) part.
Proof.
  intros Hq Hb Ho. assert (Hl : length (slice data q bs) = bs) by (by apply length_slice).
  set (buf1 := splice buf 0 (slice data q bs)).
  assert (Hl1 : length buf1 = length buf) by (apply length_splice; lia).
  assert (Hlt : length (take bs (splice buf1 o part)) = bs)
    by (rewrite length_take, length_splice; lia).
  apply list_eq. intros i. rewrite !lookup_splice by lia. rewrite Hlt.
  destruct (decide (q <= i < q + bs)%nat) as [Hi|Hi].
  - rewrite lookup_take_lt, lookup_splice by lia. unfold buf1.
    rewrite lookup_splice, Hl by lia. repeat case_decide; try lia.
    + f_equal. lia.
    + rewrite lookup_slice by lia. f_equal. lia.
  - case_decide; [lia|done].
Qed.

(** What a write of [src] from [copied] on leaves behind. *)
Definition written s p d (offset size copied : Z) (src : mem) s' : Prop :=
  exists d', disk_at s' p d' /\ same_disk d d' /\ bio_devs s' = <[p := d']> (bio_devs s) /\
    lenZ (bio_buffer s') = lenZ (bio_buffer s) /\
    dev_data d' = splice (dev_data d) (Z.to_nat (offset + copied))
                    (slice src (Z.to_nat copied) (Z.to_nat (size - copied))).

Lemma same_disk_capacity d d' : same_disk d d' -> capacity d' = capacity d.
Proof. intros (_ & Hbs & Hbc & _). unfold capacity. by rewrite Hbs, Hbc. Qed.

(** Writing a chunk and then the rest is writing everything. *)
Lemma written_step s p d offset size copied c src s1 d1 s2 :
  disk_at s1 p d1 -> same_disk d d1 -> bio_devs s1 = <[p := d1]> (bio_devs s) ->
  lenZ (bio_buffer s1) = lenZ (bio_buffer s) ->
  dev_data d1 = splice (dev_data d) (Z.to_nat (offset + copied))
                  (slice src (Z.to_nat copied) (Z.to_nat c)) ->
  0 <= offset -> 0 <= copied -> 0 <= c <= size - copied -> size <= lenZ src ->
  offset + size <= lenZ (dev_data d) ->
  written s1 p d1 offset size (copied + c) src s2 -> written s p d offset size copied src s2.
Proof.
  intros Hat1 Hsame Hds Hbl Hdata Ho Hc Hcs Hsrc Hcap (d2 & Hat2 & Hsame2 & Hds2 & Hbl2 & Hdata2).
  exists d2. split_and!; try done; try lia.
  - by eapply same_disk_trans.
  - rewrite Hds2, Hds. apply list_insert_insert_eq.
  - rewrite Hdata2, Hdata. unfold lenZ in *. set (part := slice src (Z.to_nat copied) (Z.to_nat c)).
    assert (Hpl : length part = Z.to_nat c) by (apply length_slice; lia).
    replace (Z.to_nat (offset + (copied + c))) with (Z.to_nat (offset + copied) + length part)%nat by lia.
    rewrite splice_app by (rewrite length_slice; lia). f_equal. unfold part.
    replace (Z.to_nat (copied + c)) with (Z.to_nat copied + Z.to_nat c)%nat by lia.
    rewrite <- slice_app. f_equal. lia.
Qed.

(** A partial block: read it, patch it, write it back. *)
Lemma patch_write s p d q o c src copied :
  disk_at s p d -> 0 <= q < block_count d -> 0 <= o -> 0 <= c -> o + c <= block_size d ->
  0 <= copied -> copied + c <= lenZ src -> q * block_size d + block_size d <= capacity d ->
  let part := slice src (Z.to_nat copied) (Z.to_nat c) in
  exists buf1 buf2 d1,
    read_block (Some p) q s = Ret 0 (set_bio_buffer buf1 s) [] /\
    memcpy buf1 o src copied c = Some buf2 /\
    zoom bio_devs set_bio_devs (call_write_blocks (Some p) q 1 buf2) (set_bio_buffer buf2 s) =
      Ret 0 (set_bio_devs (<[p := d1]> (bio_devs s)) (set_bio_buffer buf2 s)) [] /\
    lenZ buf2 = lenZ (bio_buffer s) /\ same_disk d d1 /\
    dev_data d1 = splice (dev_data d) (Z.to_nat (q * block_size d + o)) part.
Proof.
  intros Hat Hq Ho Hc Hfit Hcp Hsrc Hw part. pose proof Hat as (Hlk & Hdev & Hbuf).
  destruct (disk_device_geometry d Hdev) as (Hbs & Hbc & Hcap & Hlen). unfold lenZ in *.
  set (buf1 := splice (bio_buffer s) 0
                 (slice (dev_data d) (Z.to_nat (q * block_size d)) (Z.to_nat (block_size d)))).
  assert (Hl1 : length buf1 = length (bio_buffer s))
    by (apply length_splice; rewrite length_slice; lia).
  assert (Hpl : length part = Z.to_nat c) by (apply length_slice; lia).
  assert (Hl2 : length (splice buf1 (Z.to_nat o) part) = length (bio_buffer s))
    by (rewrite length_splice; lia).
  destruct (write_block_in (set_bio_buffer (splice buf1 (Z.to_nat o) part) s) p d q
              (splice buf1 (Z.to_nat o) part)) as (d1 & He & Hsame & Hdata);
    [apply disk_at_buffer; unfold lenZ; by rewrite ?Hl2|done|unfold lenZ; lia|].
  exists buf1, (splice buf1 (Z.to_nat o) part), d1.
  split_and!; [by apply read_block_in|apply memcpy_spec; unfold lenZ; lia|done|lia|done|].
  rewrite Hdata. unfold buf1. rewrite patch_block by lia. f_equal. lia.
Qed.

Lemma write_chunks_spec fuel s p d offset size copied src :
  disk_at s p d -> 0 <= offset -> 0 <= copied <= size -> offset + size <= capacity d ->
  size <= lenZ src -> (Z.to_nat (size - copied) < fuel)%nat ->
  exists s', write_chunks fuel (Some p) (block_size d) offset size copied src s = Ret 0 s' [] /\
    written s p d offset size copied src s'.
Proof.
  revert s d copied. induction fuel as [|fuel IH]; intros s d copied Hat Ho Hc Hcapr Hsrc Hf; [lia|].
  cbn [write_chunks]. pose proof Hat as (Hlk & Hdev & Hbuf).
  destruct (Z.ltb_spec copied size) as [Hlt|Hge].
  2:{ exists s. split; [done|]. exists d. split_and!; try done; [by rewrite list_insert_id|].
      replace (Z.to_nat (size - copied)) with 0%nat by lia. by rewrite slice_nil, splice_nil. }
  destruct (disk_device_geometry d Hdev) as (Hbs & Hbc & Hcap & Hlen).
  rewrite (proj2 (Z.eqb_neq (block_size d) 0)) by lia. cbn zeta. rewrite u64_small by lia.
  destruct (chunk_bounds (block_size d) (offset + copied) (size - copied)) as (Hoff & Hch & Hfit & Hdiv & Hq);
    [lia..|].
  set (o := (offset + copied) mod block_size d) in *. rewrite u32_small by lia.
  set (c := if size - copied <? block_size d - o then size - copied else block_size d - o) in *.
  destruct (block_whole d (offset + copied) Hdev) as [Hb Hw]; [lia|].
  set (q := (offset + copied) / block_size d) in *.
  assert (Hnext : forall s1 d1, disk_at s1 p d1 -> same_disk d d1 ->
    bio_devs s1 = <[p := d1]> (bio_devs s) -> lenZ (bio_buffer s1) = lenZ (bio_buffer s) ->
    dev_data d1 = splice (dev_data d) (Z.to_nat (offset + copied))
                    (slice src (Z.to_nat copied) (Z.to_nat c)) ->
    exists s', write_chunks fuel (Some p) (block_size d) offset size (copied + c) src s1 = Ret 0 s' [] /\
      written s p d offset size copied src s').
  { intros s1 d1 Hat1 Hsame Hds Hbl Hdata. pose proof (same_disk_capacity _ _ Hsame) as Hcap1.
    destruct (IH s1 d1 (copied + c)) as (s2 & He & Hw2); try done; try lia.
    destruct Hsame as (? & Hbs1 & ?). rewrite Hbs1 in He. exists s2. split; [done|].
    by apply (written_step s p d offset size copied c src s1 d1 s2); try done; lia. }
  destruct ((o =? 0) && (c =? block_size d)) eqn:Efull.
  - apply andb_true_iff in Efull as [Eo%Z.eqb_eq Ec%Z.eqb_eq].
    destruct (write_block_in s p d q (drop (Z.to_nat copied) src) Hat Hb) as (d1 & He & Hsame & Hdata).
    { unfold lenZ in *. rewrite length_drop. lia. }
    rewrite (bind_Ret_nil _ _ _ _ _ He). kif. apply (Hnext _ d1); try done; [exact (disk_at_write s p d d1 Hat Hsame)|].
    rewrite Hdata, <- Ec. f_equal. lia.
  - destruct (patch_write s p d q o c src copied) as (buf1 & buf2 & d1 & Hr & Hm & He & Hl & Hsame & Hdata);
      try done; try lia.
    rewrite (bind_Ret_nil _ _ _ _ _ Hr), Z.eqb_refl. kif. krun.
    change (bio_buffer (set_bio_buffer buf1 s)) with buf1.
    rewrite (bind_deref_Some _ _ _ _ Hm). krun.
    replace (set_bio_buffer buf2 (set_bio_buffer buf1 s)) with (set_bio_buffer buf2 s) by done.
    rewrite (bind_Ret_nil _ _ _ _ _ He). kif. apply (Hnext _ d1); try done.
    + apply (disk_at_write (set_bio_buffer buf2 s) p d d1); [by apply disk_at_buffer|done].
    + rewrite Hdata. f_equal. lia.
Qed.

End transfers.
