(* ===== verification/ListDisk.v ===== *)
(** A disk kept in a list, of any block size: the smallest driver that keeps
    the [DiskDriver] promise. The theorems about the file systems hold for
    every driver; their instances at concrete inputs use this one, because the
    kernel's RAM disk is too large to write down. *)
From S2P Require Import Prelude LibString BlockDevice BlockIO.

Record list_disk : Type := ListDisk { ld_bs : Z; ld_count : Z; ld_data : list Z }.

Definition list_disk_ok (x : list_disk) : Prop :=
  0 < ld_bs x < 2 ^ 32 /\ 0 < ld_count x < 2 ^ 64 /\ ld_bs x * ld_count x < 2 ^ 63 /\
  lenZ (ld_data x) = ld_bs x * ld_count x.

#[export] Instance list_disk_ok_dec x : Decision (list_disk_ok x).
Proof. unfold list_disk_ok. apply _. Defined.

Definition list_disk_read (x : list_disk) (b n : Z) (buf : mem) : option (list_disk * Z * mem) :=
  if (0 <? n) && (b + n <=? ld_count x)
  then Some (x, 0, splice buf 0 (slice (ld_data x) (Z.to_nat (b * ld_bs x)) (Z.to_nat (n * ld_bs x))))
  else Some (x, -1, buf).

Definition list_disk_write (x : list_disk) (b n : Z) (buf : mem) : option (list_disk * Z) :=
  if (0 <? n) && (b + n <=? ld_count x)
  then Some (ListDisk (ld_bs x) (ld_count x)
               (splice (ld_data x) (Z.to_nat (b * ld_bs x)) (take (Z.to_nat (n * ld_bs x)) buf)), 0)
  else Some (x, -1).

#[export, refine] Instance list_disk_driver : DiskDriver list_disk := {|
  disk_ok := list_disk_ok;
  disk_bs := ld_bs;
  disk_count := ld_count;
  disk_data := ld_data;
  disk_read := list_disk_read;
  disk_write := list_disk_write
|}.
Proof.
  - done.
  - intros x b buf Hx Hb Hbuf. unfold list_disk_read. rewrite (proj2 (Z.leb_le (b + 1) _)) by lia. by rewrite Z.mul_1_l.
  - intros x b buf Hx Hb. unfold list_disk_read. by rewrite (proj2 (Z.leb_gt (b + 1) _)) by lia.
  - intros x b buf (Hbs & Hct & Hcap & Hl) Hb Hbuf. unfold list_disk_write.
    rewrite (proj2 (Z.leb_le (b + 1) _)) by lia. rewrite Z.mul_1_l. eexists. split; [done|]. split_and!; try done; simpl; try lia.
    + unfold list_disk_ok. cbn [ld_bs ld_count ld_data]. split_and!; try lia. unfold lenZ in *.
      rewrite length_splice; [done|]. rewrite length_take. nia.
  - intros x b buf Hx Hb. unfold list_disk_write. by rewrite (proj2 (Z.leb_gt (b + 1) _)) by lia.
Defined.

(** A device over such a disk. *)
Definition list_device (nm : string) (x : list_disk) : block_device list_disk :=
  BlockDevice (Some (cstr nm)) (ld_bs x) (ld_count x) x (Some list_disk_read) (Some list_disk_write).

Lemma list_device_disk nm x :
  list_disk_ok x -> is_Some (cval (cstr nm)) -> disk_device (list_device nm x).
Proof. intros Hx Hn. split; try done. by exists (cstr nm). Qed.

Lemma list_device_at nm x buf ds :
  list_disk_ok x -> is_Some (cval (cstr nm)) -> ld_bs x <= lenZ buf ->
  disk_at (Bio (list_device nm x :: ds) buf) 0 (list_device nm x).
Proof. intros Hx Hn Hb. split_and!; [done|by apply list_device_disk|done]. Qed.
