(* ===== verification/TinyFS.v ===== *)
(** The read-only file system (src/src/fs/tinyfs.c). An image starts with a
    20-byte superblock and holds a table of 76-byte entries; mounting copies
    both into static variables. The state keeps those variables as raw bytes,
    the way the driver fills them, and the fields are decoded where the code
    reads them. *)
From S2P Require Import Prelude LibString Klog BlockDevice BlockIO ListDisk.

(** ** Definitions *)

Definition TINYFS_MAGIC : Z := 0x53465954.
Definition TINYFS_VERSION : Z := 1.
Definition TINYFS_NAME_MAX : Z := 64.
Definition TINYFS_MAX_FILES : Z := 16.
Definition TINYFS_IO_BUFFER_SIZE : Z := 512.

(** [sizeof(tinyfs_superblock_t)] and [sizeof(tinyfs_file_t)]. *)
Definition TINYFS_SUPERBLOCK_SIZE : Z := 20.
Definition TINYFS_FILE_SIZE : Z := 76.

(** The fields of a superblock and of a table entry. *)
Definition magic (h : mem) : Z := le32 h 0.
Definition version (h : mem) : Z := le32 h 4.
Definition file_count (h : mem) : Z := le32 h 8.
Definition file_table_offset (h : mem) : Z := le32 h 12.
Definition data_offset (h : mem) : Z := le32 h 16.
Definition file_offset (e : mem) : Z := le32 e 64.
Definition file_size (e : mem) : Z := le32 e 68.
Definition file_flags (e : mem) : Z := le32 e 72.

Record tinyfs (X : Type) : Type := TinyFS {
  tinyfs_devs : list (block_device X);
  tinyfs_block_device : option nat;
  tinyfs_header : mem;
  tinyfs_files : list mem;
  tinyfs_block_buffer : mem;
  tinyfs_ready : Z
}.
Arguments TinyFS {X}.
Arguments tinyfs_devs {X}.
Arguments tinyfs_block_device {X}.
Arguments tinyfs_header {X}.
Arguments tinyfs_files {X}.
Arguments tinyfs_block_buffer {X}.
Arguments tinyfs_ready {X}.

Section definitions.
Context {X : Type}.
Implicit Types s : tinyfs X.

Definition set_tinyfs_block_device (v : option nat) s : tinyfs X :=
  TinyFS (tinyfs_devs s) v (tinyfs_header s) (tinyfs_files s) (tinyfs_block_buffer s) (tinyfs_ready s).
Definition set_tinyfs_header (v : mem) s : tinyfs X :=
  TinyFS (tinyfs_devs s) (tinyfs_block_device s) v (tinyfs_files s) (tinyfs_block_buffer s) (tinyfs_ready s).
Definition set_tinyfs_files (v : list mem) s : tinyfs X :=
  TinyFS (tinyfs_devs s) (tinyfs_block_device s) (tinyfs_header s) v (tinyfs_block_buffer s) (tinyfs_ready s).
Definition set_tinyfs_ready (v : Z) s : tinyfs X :=
  TinyFS (tinyfs_devs s) (tinyfs_block_device s) (tinyfs_header s) (tinyfs_files s) (tinyfs_block_buffer s) v.

(** The part of the state a block transfer uses. *)
Definition tinyfs_bio s : bio X := Bio (tinyfs_devs s) (tinyfs_block_buffer s).
Definition set_tinyfs_bio (b : bio X) s : tinyfs X :=
  TinyFS (bio_devs b) (tinyfs_block_device s) (tinyfs_header s) (tinyfs_files s) (bio_buffer b) (tinyfs_ready s).
Definition set_tinyfs_devs (v : list (block_device X)) s : tinyfs X :=
  TinyFS v (tinyfs_block_device s) (tinyfs_header s) (tinyfs_files s) (tinyfs_block_buffer s) (tinyfs_ready s).

(** Reads [size] bytes from byte [offset] of the device into [buffer]. *)
Definition tinyfs_read_bytes (offset : Z) (buffer : option mem) (size : Z) : M (tinyfs X) (Z * option mem) :=
  device <- gets tinyfs_block_device;;
  match device, buffer with
  | Some p, Some dest =>
      d <- zoom tinyfs_devs set_tinyfs_devs (dev_at (Some p));;
      let! (status, dest1) := zoom tinyfs_bio set_tinyfs_bio
        (read_chunks (Z.to_nat (size + 1)) (Some p) (block_size d) offset size 0 dest) in
      ret (status, Some dest1)
  | _, _ => ret (-1, buffer)
  end.

(** The table loop of [tinyfs_mount]; [fuel] counts the entries left. *)
Fixpoint tinyfs_mount_loop (fuel : nat) (index entry_offset : Z) : M (tinyfs X) bool :=
  match fuel with
  | O => ret true
  | S fuel' =>
      files <- gets tinyfs_files;;
      entry <- deref (rd files index);;
      let! (status, entry1) := tinyfs_read_bytes entry_offset (Some entry) TINYFS_FILE_SIZE in
      entry2 <- deref entry1;;
      files1 <- deref (wr files index entry2);;
      modify (set_tinyfs_files files1);;
      if negb (status =? 0) then
        modify (set_tinyfs_block_device None);;
        ret false
      else
        entry3 <- deref (wr entry2 (TINYFS_NAME_MAX - 1) 0);;
        files2 <- deref (wr files1 index entry3);;
        modify (set_tinyfs_files files2);;
        tinyfs_mount_loop fuel' (index + 1) (u32 (entry_offset + TINYFS_FILE_SIZE))
  end.

(** [tinyfs_mount] from the check of the superblock on. *)
Definition tinyfs_mount_table (device_name : option mem) : M (tinyfs X) Z :=
  header <- gets tinyfs_header;;
  if negb (magic header =? TINYFS_MAGIC) || negb (version header =? TINYFS_VERSION) ||
     (TINYFS_MAX_FILES <? file_count header) then
    modify (set_tinyfs_block_device None);;
    ret (-1)
  else
    ok <- tinyfs_mount_loop (Z.to_nat (file_count header)) 0 (file_table_offset header);;
    if negb ok then ret (-1)
    else
      modify (set_tinyfs_ready 1);;
      kprintf (nl "[INFO] tinyfs: mounted %s files=%u") [AStr device_name; AUint (file_count header)];;
      ret 0.

Definition tinyfs_mount (device : option nat) : M (tinyfs X) Z :=
  modify (set_tinyfs_block_device None);;
  modify (set_tinyfs_ready 0);;
  match device with
  | None => ret (-1)
  | Some p =>
      d <- zoom tinyfs_devs set_tinyfs_devs (dev_at (Some p));;
      if is_null (read_blocks d) || (TINYFS_IO_BUFFER_SIZE <? block_size d) then ret (-1)
      else
        modify (set_tinyfs_block_device (Some p));;
        header0 <- gets tinyfs_header;;
        let! (status, header1) := tinyfs_read_bytes 0 (Some header0) TINYFS_SUPERBLOCK_SIZE in
        header <- deref header1;;
        modify (set_tinyfs_header header);;
        if negb (status =? 0) then
          modify (set_tinyfs_block_device None);;
          ret (-1)
        else tinyfs_mount_table (name d)
  end.

Fixpoint tinyfs_list_loop (fuel : nat) (index : Z) : M (tinyfs X) unit :=
  match fuel with
  | O => ret tt
  | S fuel' =>
      files <- gets tinyfs_files;;
      entry <- deref (rd files index);;
      kprintf (nl "%s") [AStr (Some entry)];;
      tinyfs_list_loop fuel' (index + 1)
  end.

Definition tinyfs_list : M (tinyfs X) unit :=
  ready <- gets tinyfs_ready;;
  if ready =? 0 then kprintf (nl "tinyfs not mounted") []
  else
    header <- gets tinyfs_header;;
    tinyfs_list_loop (Z.to_nat (file_count header)) 0.

(** A [const tinyfs_file_t *] is null or an index of [tinyfs_files]. *)
Fixpoint tinyfs_find_loop (fuel : nat) (index : Z) (path : mem) : M (tinyfs X) (option Z) :=
  match fuel with
  | O => ret None
  | S fuel' =>
      files <- gets tinyfs_files;;
      entry <- deref (rd files index);;
      c <- deref (strcmp entry path);;
      if c =? 0 then ret (Some index) else tinyfs_find_loop fuel' (index + 1) path
  end.

Definition tinyfs_find (path : option mem) : M (tinyfs X) (option Z) :=
  ready <- gets tinyfs_ready;;
  match path with
  | Some pth =>
      if ready =? 0 then ret None
      else
        header <- gets tinyfs_header;;
        tinyfs_find_loop (Z.to_nat (file_count header)) 0 pth
  | None => ret None
  end.

Definition tinyfs_get_file (index : Z) : M (tinyfs X) (option Z) :=
  ready <- gets tinyfs_ready;;
  header <- gets tinyfs_header;;
  if (ready =? 0) || (file_count header <=? index) then ret None else ret (Some index).

(** [*file]. *)
Definition tinyfs_entry (file : Z) : M (tinyfs X) mem :=
  files <- gets tinyfs_files;;
  deref (rd files file).

Definition tinyfs_read_file (path : option mem) (buffer : option mem) (max_size : Z) :
    M (tinyfs X) (Z * option mem) :=
  found <- tinyfs_find path;;
  match found with
  | None => ret (-1, buffer)
  | Some file =>
      entry <- tinyfs_entry file;;
      if is_null buffer || (max_size <? file_size entry) then ret (-1, buffer)
      else
        let! (status, buffer1) := tinyfs_read_bytes (file_offset entry) buffer (file_size entry) in
        if negb (status =? 0) then ret (-1, buffer1)
        else ret (i32 (file_size entry), buffer1)
  end.

Definition tinyfs_read_file_part (path : option mem) (offset : Z) (buffer : option mem) (size : Z) :
    M (tinyfs X) (Z * option mem) :=
  found <- tinyfs_find path;;
  match found with
  | None => ret (-1, buffer)
  | Some file =>
      entry <- tinyfs_entry file;;
      if is_null buffer || (file_size entry <? offset) then ret (-1, buffer)
      else
        let available := u32 (file_size entry - offset) in
        let size1 := if available <? size then available else size in
        if size1 =? 0 then ret (0, buffer)
        else
          let! (status, buffer1) :=
            tinyfs_read_bytes (u32 (file_offset entry + offset)) buffer size1 in
          if negb (status =? 0) then ret (-1, buffer1)
          else ret (i32 size1, buffer1)
  end.

Definition tinyfs_is_mounted : M (tinyfs X) Z := gets tinyfs_ready.

Definition tinyfs_file_count : M (tinyfs X) Z :=
  ready <- gets tinyfs_ready;;
  header <- gets tinyfs_header;;
  if ready =? 0 then ret 0 else ret (file_count header).

(** The pointer to [tinyfs_header], as the bytes it leads to. *)
Definition tinyfs_superblock : M (tinyfs X) (option mem) :=
  ready <- gets tinyfs_ready;;
  header <- gets tinyfs_header;;
  if ready =? 0 then ret None else ret (Some header).

Definition tinyfs_device : M (tinyfs X) (option nat) :=
  ready <- gets tinyfs_ready;;
  device <- gets tinyfs_block_device;;
  if ready =? 0 then ret None else ret device.

End definitions.

(** ** What an image holds *)

(** Entry [i] of the table of a superblock [h], and the entry as the mount
    leaves it in memory: the last byte of the name is a terminator. *)
Definition table_offset (h : mem) (i : Z) : Z := u32 (file_table_offset h + i * TINYFS_FILE_SIZE).
Definition image_entry (data h : mem) (i : Z) : mem :=
  <[63%nat := 0]> (slice data (Z.to_nat (table_offset h i)) (Z.to_nat TINYFS_FILE_SIZE)).

(** The image parses: magic, version, count, and the table is on the disk. *)
Definition image_ok (data : mem) : bool :=
  let h := slice data 0 20 in
  (20 <=? lenZ data) && (magic h =? TINYFS_MAGIC) && (version h =? TINYFS_VERSION) &&
  (file_count h <=? TINYFS_MAX_FILES) &&
  forallb (fun i => table_offset h (Z.of_nat i) + TINYFS_FILE_SIZE <=? lenZ data)
          (seq 0 (Z.to_nat (file_count h))).

Definition image_files (data : mem) : list mem :=
  let h := slice data 0 20 in
  map (fun i => image_entry data h (Z.of_nat i)) (seq 0 (Z.to_nat (file_count h))).

(** ** Invariant *)

Section proofs.
Context {X : Type} `{DiskDriver X}.
Implicit Types (s : tinyfs X) (d : block_device X).

(** The static buffers have their sizes. *)
Record tinyfs_wf s : Prop := {
  tw_header : lenZ (tinyfs_header s) = TINYFS_SUPERBLOCK_SIZE;
  tw_files : lenZ (tinyfs_files s) = TINYFS_MAX_FILES;
  tw_entries : Forall (fun e => lenZ e = TINYFS_FILE_SIZE) (tinyfs_files s);
  tw_buffer : lenZ (tinyfs_block_buffer s) = TINYFS_IO_BUFFER_SIZE
}.

(** The entries of a mounted file system. *)
Definition mounted_files s : list mem := take (Z.to_nat (file_count (tinyfs_header s))) (tinyfs_files s).

(** A file system is mounted from device [p]. *)
Record mounted s (p : nat) d : Prop := {
  mt_wf : tinyfs_wf s;
  mt_ready : tinyfs_ready s = 1;
  mt_device : tinyfs_block_device s = Some p;
  mt_disk : disk_at (tinyfs_bio s) p d;
  mt_count : 0 <= file_count (tinyfs_header s) <= TINYFS_MAX_FILES;
  mt_names : Forall (fun e => e !! 63%nat = Some 0) (mounted_files s)
}.

Lemma tinyfs_dev_at s p d :
  disk_at (tinyfs_bio s) p d -> zoom tinyfs_devs set_tinyfs_devs (dev_at (Some p)) s = Ret d s [].
Proof.
  intros (Hd & _). unfold zoom, dev_at. rewrite bind_deref_Some with (a := p) by done.
  unfold bind, gets, deref. simpl in *. rewrite Hd. by destruct s.
Qed.

(** [tinyfs_read_bytes] delivers the bytes of the range, or fails when the
    range leaves the disk; only the block buffer changes. *)
Lemma tinyfs_read_bytes_spec s p d offset size dest :
  tinyfs_block_device s = Some p -> disk_at (tinyfs_bio s) p d -> 0 <= offset < 2 ^ 32 ->
  0 <= size < 2 ^ 32 -> size <= lenZ dest ->
  exists buf dest', lenZ buf = lenZ (tinyfs_block_buffer s) /\ lenZ dest' = lenZ dest /\
    tinyfs_read_bytes offset (Some dest) size s =
      Ret (if (size <=? 0) || (offset + size <=? capacity d) then 0 else -1, Some dest')
          (set_tinyfs_bio (Bio (tinyfs_devs s) buf) s) [] /\
    ((size <=? 0) || (offset + size <=? capacity d) = true ->
     dest' = splice dest 0 (slice (dev_data d) (Z.to_nat offset) (Z.to_nat size))).
Proof.
  intros Hp Hat Ho Hs Hd.
  destruct (read_chunks_spec (Z.to_nat (size + 1)) (tinyfs_bio s) p d offset size 0 dest)
    as (buf & dest' & Hb & Hl & He & Hv); try done; try lia.
  exists buf, dest'. split_and!; [done|done| |].
  - unfold tinyfs_read_bytes. krun. rewrite Hp.
    rewrite (bind_Ret_nil _ _ _ _ _ (tinyfs_dev_at s p d Hat)).
    by rewrite (bind_Ret_nil _ _ _ _ _ (zoom_Ret _ _ _ _ _ _ _ He)).
  - intros Hok. rewrite (Hv Hok). by rewrite Z.add_0_r, Z.sub_0_r.
Qed.

(** After a transfer the invariants are as before. *)
Lemma tinyfs_wf_bio s buf :
  tinyfs_wf s -> lenZ buf = lenZ (tinyfs_block_buffer s) ->
  tinyfs_wf (set_tinyfs_bio (Bio (tinyfs_devs s) buf) s).
Proof. intros [???] Hb. split; simpl; congruence || done. Qed.

Lemma mounted_bio s p d buf :
  mounted s p d -> lenZ buf = lenZ (tinyfs_block_buffer s) ->
  mounted (set_tinyfs_bio (Bio (tinyfs_devs s) buf) s) p d.
Proof.
  intros [Hwf ?? (Hd & Hdev & Hbuf) ??] Hb. split; try done; [by apply tinyfs_wf_bio|].
  split_and!; try done. simpl in *. by rewrite Hb.
Qed.

(** The states a mount goes through after the superblock was read. *)
Record mounting s (p : nat) d (h : mem) : Prop := {
  mg_wf : tinyfs_wf s;
  mg_device : tinyfs_block_device s = Some p;
  mg_disk : disk_at (tinyfs_bio s) p d;
  mg_header : tinyfs_header s = h;
  mg_ready : tinyfs_ready s = 0
}.

Lemma mounting_files s p d h fs :
  mounting s p d h -> lenZ fs = TINYFS_MAX_FILES -> Forall (fun e => lenZ e = TINYFS_FILE_SIZE) fs ->
  mounting (set_tinyfs_files fs s) p d h.
Proof. intros [[????]????] ??. by split. Qed.

Lemma mounting_bio s p d h buf :
  mounting s p d h -> lenZ buf = lenZ (tinyfs_block_buffer s) ->
  mounting (set_tinyfs_bio (Bio (tinyfs_devs s) buf) s) p d h.
Proof.
  intros [Hwf ? (Hd & Hdev & Hbuf) ??] Hb. split; try done; [by apply tinyfs_wf_bio|].
  split_and!; try done. simpl in *. by rewrite Hb.
Qed.

Lemma table_offset_S h i : u32 (table_offset h i + TINYFS_FILE_SIZE) = table_offset h (i + 1).
Proof. unfold table_offset, u32. rewrite Zplus_mod_idemp_l. f_equal. lia. Qed.

(** The entry that a turn of the loop stores. *)
Lemma mount_entry data h i entry :
  lenZ entry = TINYFS_FILE_SIZE -> table_offset h i + TINYFS_FILE_SIZE <= lenZ data ->
  wr (splice entry 0 (slice data (Z.to_nat (table_offset h i)) (Z.to_nat TINYFS_FILE_SIZE)))
     (TINYFS_NAME_MAX - 1) 0 = Some (image_entry data h i) /\
  lenZ (image_entry data h i) = TINYFS_FILE_SIZE.
Proof.
  unfold TINYFS_FILE_SIZE, TINYFS_NAME_MAX, image_entry. intros He Ht.
  pose proof (u32_bound (file_table_offset h + i * TINYFS_FILE_SIZE)).
  fold (table_offset h i) in *. unfold TINYFS_FILE_SIZE, lenZ in *.
  assert (Hl : length (slice data (Z.to_nat (table_offset h i)) (Z.to_nat 76)) = Z.to_nat 76)
    by (apply length_slice; lia).
  rewrite splice_all by lia. split.
  - rewrite wr_Some by (unfold lenZ; lia). done.
  - rewrite length_insert. lia.
Qed.

Lemma tinyfs_mount_loop_spec n s p d h i :
  mounting s p d h -> (i + n <= 16)%nat ->
  let ok := forallb (fun j => table_offset h (Z.of_nat j) + TINYFS_FILE_SIZE <=? capacity d) (seq i n) in
  exists s', tinyfs_mount_loop n (Z.of_nat i) (table_offset h (Z.of_nat i)) s = Ret ok s' [] /\
    tinyfs_wf s' /\ tinyfs_ready s' = 0 /\ tinyfs_devs s' = tinyfs_devs s /\
    tinyfs_block_device s' = (if ok then Some p else None) /\
    (ok = true -> mounting s' p d h /\
       tinyfs_files s' = splice (tinyfs_files s) i
                           (map (fun j => image_entry (dev_data d) h (Z.of_nat j)) (seq i n))).
Proof.
  cbn zeta. revert s i. induction n as [|n IH]; intros s i Hm Hi; cbn [tinyfs_mount_loop seq forallb map].
  { exists s. pose proof Hm as [????]. split_and!; try done. intros _. split; [done|]. by rewrite splice_nil. }
  pose proof Hm as [Hwf Hp Hat Hh Hr]. pose proof Hwf as [Hwh Hwfi Hwe Hwb].
  pose proof Hat as (_ & Hdev & _).
  destruct (rd_Some (tinyfs_files s) (Z.of_nat i)) as [entry He]; [unfold TINYFS_MAX_FILES in *; lia|].
  assert (Hel : lenZ entry = TINYFS_FILE_SIZE).
  { rewrite rd_nat in He. exact (Forall_lookup_1 _ _ _ _ Hwe He). }
  krun. rewrite (bind_deref_Some _ _ _ _ He).
  destruct (tinyfs_read_bytes_spec s p d (table_offset h (Z.of_nat i)) TINYFS_FILE_SIZE entry)
    as (buf & e1 & Hb & Hl1 & Hread & Hv); try done; try (unfold TINYFS_FILE_SIZE in *; lia);
    [apply u32_bound|].
  rewrite (bind_Ret_nil _ _ _ _ _ Hread). krun.
  rewrite (bind_deref_Some _ e1) by done. change (tinyfs_files (set_tinyfs_bio _ s)) with (tinyfs_files s).
  assert (Hii : 0 <= Z.of_nat i < lenZ (tinyfs_files s)) by (unfold TINYFS_MAX_FILES in *; lia).
  rewrite (bind_deref_Some _ _ _ _ (wr_Some (tinyfs_files s) _ e1 Hii)), Nat2Z.id. krun.
  set (s1 := set_tinyfs_files _ _).
  assert (Hm1 : mounting s1 p d h).
  { apply mounting_files; [by apply mounting_bio| |].
    - unfold lenZ in *. by rewrite length_insert.
    - apply Forall_insert; [done|]. by rewrite Hl1. }
  change (TINYFS_FILE_SIZE <=? 0) with false in *. cbn [orb] in *.
  destruct (Z.leb_spec (table_offset h (Z.of_nat i) + TINYFS_FILE_SIZE) (capacity d)) as [Hle|Hgt].
  2:{ change (negb (-1 =? 0)) with true. cbn iota. krun. cbn [andb].
      eexists. split; [reflexivity|]. destruct Hm1 as [[????]????]. by split_and!. }
  change (negb (0 =? 0)) with false. cbn iota. cbn [andb]. rewrite Hv by done.
  rewrite <- capacity_data in Hle by done.
  destruct (mount_entry (dev_data d) h (Z.of_nat i) entry Hel Hle) as [Hw Hwl].
  rewrite (bind_deref_Some _ _ _ _ Hw).
  rewrite (bind_deref_Some _ (<[i := image_entry (dev_data d) h (Z.of_nat i)]> (tinyfs_files s))).
  2:{ rewrite <- Hv by done. rewrite wr_Some by (unfold lenZ in *; by rewrite length_insert).
      by rewrite Nat2Z.id, list_insert_insert_eq. }
  krun. rewrite table_offset_S. replace (Z.of_nat i + 1) with (Z.of_nat (S i)) by lia.
  destruct (IH (set_tinyfs_files (<[i := image_entry (dev_data d) h (Z.of_nat i)]> (tinyfs_files s)) s1) (S i))
    as (s2 & Hs2 & Hwf2 & Hr2 & Hd2 & Hb2 & Hok2); [|lia|].
  { apply mounting_files; [done| |].
    - unfold lenZ in *. by rewrite length_insert.
    - by apply Forall_insert. }
  exists s2. split; [exact Hs2|]. split_and!; try done. intros Hok. destruct (Hok2 Hok) as [Hm2 Hf2].
  split; [done|]. rewrite Hf2. simpl tinyfs_files. unfold lenZ in *.
  rewrite <- splice_insert by lia.
  replace (S i) with (i + length [image_entry (dev_data d) h (Z.of_nat i)])%nat at 1 by (simpl; lia).
  rewrite splice_app; [done|]. simpl. rewrite length_map, length_seq. unfold TINYFS_MAX_FILES in *. lia.
Qed.

(** *** Mounting *)

(** The superblock as the first read finds it. *)
Lemma superblock_slice (header data : mem) :
  lenZ header = 20 -> 20 <= lenZ data -> splice header 0 (slice data 0 20) = slice data 0 20.
Proof. unfold lenZ. intros Hh Hd. apply splice_all. rewrite length_slice; lia. Qed.

Lemma length_image_files data : length (image_files data) = Z.to_nat (file_count (slice data 0 20)).
Proof. unfold image_files. by rewrite length_map, length_seq. Qed.

(** What [tinyfs_mount] leaves: a mounted file system with the files of the
    image, or an unmounted one. *)
Definition mount_result s (p : nat) d : Prop :=
  if image_ok (dev_data d) then
    mounted s p d /\ tinyfs_header s = slice (dev_data d) 0 20 /\
    mounted_files s = image_files (dev_data d)
  else tinyfs_wf s /\ tinyfs_ready s = 0 /\ tinyfs_block_device s = None.

Lemma image_entry_name data h i :
  table_offset h i + TINYFS_FILE_SIZE <= lenZ data -> image_entry data h i !! 63%nat = Some 0.
Proof.
  intros Hle. unfold image_entry. apply list_lookup_insert_eq.
  pose proof (u32_bound (file_table_offset h + i * TINYFS_FILE_SIZE)).
  fold (table_offset h i) in *. unfold TINYFS_FILE_SIZE, lenZ in *. rewrite length_slice; lia.
Qed.

(** Once the loop is through, the file system is mounted. *)
Lemma mounting_mounted s p d fs :
  let h := slice (dev_data d) 0 20 in
  mounting s p d h -> image_ok (dev_data d) = true -> lenZ fs = TINYFS_MAX_FILES ->
  tinyfs_files s = splice fs 0 (image_files (dev_data d)) ->
  mount_result (set_tinyfs_ready 1 s) p d.
Proof.
  intros h [Hwf Hp Hat Hh Hr] Hok Hfs Hf. unfold mount_result. rewrite Hok.
  unfold image_ok in Hok. fold h in Hok.
  apply andb_true_iff in Hok as [[[[Hok1%Z.leb_le _]%andb_true_iff _]%andb_true_iff Hc%Z.leb_le]%andb_true_iff Hall].
  assert (Hc0 : 0 <= file_count h) by apply u32_bound.
  assert (Hmf : mounted_files (set_tinyfs_ready 1 s) = image_files (dev_data d)).
  { unfold mounted_files. simpl. rewrite Hh, Hf. unfold splice, h. rewrite take_0. simpl.
    rewrite <- length_image_files. apply take_app_length. }
  split; [|split; [exact Hh|exact Hmf]]. split; try done; simpl; [by destruct Hwf|by rewrite Hh|].
  rewrite Hmf. apply Forall_forall. intros e He. unfold image_files in He. fold h in He.
  apply list_elem_of_fmap in He as (i & -> & Hi). apply image_entry_name.
  rewrite forallb_forall in Hall. apply Z.leb_le, Hall. by apply list_elem_of_In.
Qed.

(** The check of the superblock as the code writes it. *)
Lemma image_ok_eq data :
  let h := slice data 0 20 in 20 <= lenZ data ->
  image_ok data =
    negb (negb (magic h =? TINYFS_MAGIC) || negb (version h =? TINYFS_VERSION) ||
          (TINYFS_MAX_FILES <? file_count h)) &&
    forallb (fun i => table_offset h (Z.of_nat i) + TINYFS_FILE_SIZE <=? lenZ data)
            (seq 0 (Z.to_nat (file_count h))).
Proof.
  intros h Hd. unfold image_ok. rewrite (proj2 (Z.leb_le _ _)) by done. fold h.
  by rewrite !negb_orb, !negb_involutive, (Z.leb_antisym TINYFS_MAX_FILES).
Qed.

(** The table part of a mount, when the superblock was read. *)
Lemma tinyfs_mount_table_spec s p d nm :
  mounting s p d (slice (dev_data d) 0 20) -> 20 <= lenZ (dev_data d) -> is_Some (cval nm) ->
  exists s' o, tinyfs_mount_table (Some nm) s = Ret (if image_ok (dev_data d) then 0 else -1) s' o /\
    mount_result s' p d /\ tinyfs_devs s' = tinyfs_devs s.
Proof.
  intros Hm Hcap Hnm. pose proof Hm as [Hwf Hp Hat Hh Hr]. pose proof Hat as (_ & Hdev & _).
  set (h := slice (dev_data d) 0 20) in *. assert (Hc : 0 <= file_count h) by apply u32_bound.
  unfold tinyfs_mount_table. krun. rewrite Hh.
  pose proof (image_ok_eq _ Hcap) as Hok. fold h in Hok. rewrite capacity_data in Hok by done.
  destruct (negb (magic h =? TINYFS_MAGIC) || negb (version h =? TINYFS_VERSION) ||
            (TINYFS_MAX_FILES <? file_count h)) eqn:Hbad; cbn [negb andb] in Hok; krun.
  { unfold mount_result. rewrite Hok. eexists _, []. split; [reflexivity|]. by destruct Hwf. }
  apply orb_false_iff in Hbad as [_ Hm16%Z.ltb_ge].
  assert (Hn : (0 + Z.to_nat (file_count h) <= 16)%nat) by (unfold TINYFS_MAX_FILES in *; lia).
  destruct (tinyfs_mount_loop_spec _ s p d h 0 Hm Hn) as (s1 & He & Hwf1 & Hr1 & Hd1 & Hb1 & Hm1).
  replace (table_offset h (Z.of_nat 0)) with (file_table_offset h) in He
    by (unfold table_offset; rewrite Z.mul_0_l, Z.add_0_r; symmetry; apply u32_small, u32_bound).
  rewrite <- Hok in He, Hb1, Hm1. rewrite (bind_Ret_nil _ _ _ _ _ He).
  destruct (image_ok (dev_data d)) eqn:Hi; kif; krun.
  - destruct (Hm1 eq_refl) as [Hm2 Hf].
    destruct (kprintf_total (nl "[INFO] tinyfs: mounted %s files=%u") [ch "s"; ch "u"]
      [AStr (Some nm); AUint (file_count h)] (set_tinyfs_ready 1 s1)) as [o Ho];
      [done|kargs|].
    rewrite (bind_Ret _ _ _ _ _ _ Ho). eexists _, _. split; [reflexivity|]. split; [|done].
    apply (mounting_mounted s1 p d (tinyfs_files s)); try done. apply Hwf.
  - exists s1, []. split; [done|]. split; [|done]. unfold mount_result. by rewrite Hi.
Qed.

(** Mounting a disk of at most 512-byte blocks succeeds exactly when its
    image parses (magic, version, at most 16 files, a table inside the disk),
    and then the file system holds the files of the image; otherwise nothing
    is mounted. *)
Theorem tinyfs_mount_spec s p d :
  tinyfs_wf s -> disk_at (tinyfs_bio s) p d ->
  exists s' o, tinyfs_mount (Some p) s = Ret (if image_ok (dev_data d) then 0 else -1) s' o /\
    mount_result s' p d /\ tinyfs_devs s' = tinyfs_devs s.
Proof.
  intros Hwf Hat. pose proof Hat as (Hd & Hdev & Hbuf). pose proof Hwf as [Hwh Hwfi Hwe Hwb].
  pose proof Hdev as [_ _ _ Hrd _ (nm & Hn & Hcv)].
  unfold tinyfs_mount. krun. set (s0 := set_tinyfs_ready 0 _).
  rewrite (bind_Ret_nil _ _ _ _ _ (tinyfs_dev_at s0 p d Hat)), Hrd. cbn [is_null orb].
  rewrite (proj2 (Z.ltb_ge _ _)) by (rewrite <- Hwb; done). krun.
  set (s1 := set_tinyfs_block_device (Some p) s0).
  destruct (tinyfs_read_bytes_spec s1 p d 0 20 (tinyfs_header s)) as (buf & h' & Hb & Hl & Hread & Hv);
    try done; try (unfold TINYFS_SUPERBLOCK_SIZE in *; lia).
  change TINYFS_SUPERBLOCK_SIZE with 20 in *. change (20 <=? 0) with false in *. cbn [orb] in *.
  change (0 + 20) with 20 in *. change (tinyfs_header s1) with (tinyfs_header s).
  rewrite (bind_Ret_nil _ _ _ _ _ Hread). cbn iota. rewrite (bind_deref_Some _ h') by done. krun.
  set (s2 := set_tinyfs_header h' _).
  assert (Hm2 : mounting s2 p d h').
  { split; simpl; try done.
    - split; simpl; try done; by rewrite ?Hl, ?Hb.
    - split_and!; simpl; try done. by rewrite Hb. }
  rewrite <- capacity_data in * by done.
  destruct (Z.leb_spec 20 (lenZ (dev_data d))) as [Hcap|Hcap].
  - rewrite Hv in Hm2 by done. change (Z.to_nat 0) with 0%nat in Hm2.
    rewrite superblock_slice in Hm2 by done. rewrite Hn. cbn iota. change (negb (0 =? 0)) with false.
    cbn iota. exact (tinyfs_mount_table_spec s2 p d nm Hm2 Hcap Hcv).
  - eexists _, []. change (negb (-1 =? 0)) with true. cbn iota. krun.
    unfold mount_result, image_ok. rewrite (proj2 (Z.leb_gt 20 _)) by done. cbn [andb].
    split; [reflexivity|]. by destruct Hm2 as [[????] ????].
Qed.

(** *** Looking files up and reading them *)

(** The entry is called [t]. *)
Definition entry_named (t : list Z) (e : mem) : Prop := cval e = Some t.
#[local] Instance entry_named_dec t e : Decision (entry_named t e).
Proof. unfold entry_named. apply _. Defined.

Definition lookup_file s (t : list Z) : option (nat * mem) := list_find (entry_named t) (mounted_files s).

Lemma mounted_file s p d i e :
  mounted s p d -> mounted_files s !! i = Some e ->
  rd (tinyfs_files s) (Z.of_nat i) = Some e /\ is_Some (cval e) /\ lenZ e = TINYFS_FILE_SIZE.
Proof.
  intros [[_ _ Hwe _] _ _ _ _ Hn] Hi. pose proof (Forall_lookup_1 _ _ _ _ Hn Hi) as Ht.
  unfold mounted_files in Hi. apply lookup_take_Some in Hi as [Hi _].
  rewrite rd_nat. split_and!; [done|exact (cval_terminated _ _ Ht)|exact (Forall_lookup_1 _ _ _ _ Hwe Hi)].
Qed.

Lemma length_mounted_files s p d :
  mounted s p d -> length (mounted_files s) = Z.to_nat (file_count (tinyfs_header s)).
Proof.
  intros [[_ Hf _ _] _ _ _ Hc _]. unfold mounted_files, lenZ in *. rewrite length_take. lia.
Qed.

Lemma tinyfs_find_loop_spec n s p d i path t :
  mounted s p d -> cval path = Some t -> (i + n = length (mounted_files s))%nat ->
  tinyfs_find_loop n (Z.of_nat i) path s =
    Ret ((fun '(j, _) => Z.of_nat (i + j)) <$> list_find (entry_named t) (drop i (mounted_files s))) s [].
Proof.
  intros Hm Ht. revert i. induction n as [|n IH]; intros i Hi; cbn [tinyfs_find_loop].
  { rewrite drop_ge by lia. done. }
  destruct (lookup_lt_is_Some_2 (mounted_files s) i) as [e He]; [lia|].
  destruct (mounted_file s p d i e Hm He) as (Hrd & [u Hu] & _). krun.
  rewrite (bind_deref_Some _ _ _ _ Hrd). destruct (strcmp_eqb e path u t Hu Ht) as (z & Hz & Hzu).
  rewrite (bind_deref_Some _ _ _ _ Hz), Hzu, (drop_S _ _ _ He). cbn [list_find].
  unfold entry_named at 1. repeat case_decide; case_bool_decide; try congruence.
  - simpl. by rewrite Nat.add_0_r.
  - replace (Z.of_nat i + 1) with (Z.of_nat (S i)) by lia. rewrite IH by lia.
    destruct (list_find _ _) as [[j e']|]; simpl; [|done]. by rewrite Nat.add_succ_r.
Qed.

Lemma tinyfs_find_spec s p d path t :
  mounted s p d -> cval path = Some t ->
  tinyfs_find (Some path) s = Ret ((fun '(i, _) => Z.of_nat i) <$> lookup_file s t) s [].
Proof.
  intros Hm Ht. unfold tinyfs_find. krun. rewrite (mt_ready _ _ _ Hm). krun.
  change (1 =? 0) with false. cbn iota. krun.
  rewrite <- (length_mounted_files s p d Hm).
  change 0 with (Z.of_nat 0) at 1. by rewrite (tinyfs_find_loop_spec _ s p d 0 path t Hm Ht).
Qed.

Lemma lookup_file_entry s p d t i e :
  mounted s p d -> lookup_file s t = Some (i, e) -> tinyfs_entry (Z.of_nat i) s = Ret e s [].
Proof.
  intros Hm (Hi & _)%list_find_Some. destruct (mounted_file s p d i e Hm Hi) as (Hrd & _).
  unfold tinyfs_entry. krun. by rewrite Hrd.
Qed.

(** The bytes of the disk from [offset], if the range is on it. *)
Definition disk_range d (offset size : Z) : option (list Z) :=
  if (size <=? 0) || (offset + size <=? capacity d)
  then Some (slice (dev_data d) (Z.to_nat offset) (Z.to_nat size)) else None.

(** What a read with result [r], new buffer [b] has to be when it should
    deliver [want]. *)
Definition delivered (want : option (list Z)) (buf : mem) (r : Z) (b : mem) : Prop :=
  match want with
  | Some l => r = i32 (lenZ l) /\ b = splice buf 0 l
  | None => r = -1 /\ lenZ b = lenZ buf
  end.

Lemma read_delivered s p d offset size buf :
  mounted s p d -> 0 <= offset < 2 ^ 32 -> 0 <= size < 2 ^ 32 -> size <= lenZ buf ->
  exists r s' b, mounted s' p d /\ (mounted_files s' = mounted_files s /\ tinyfs_devs s' = tinyfs_devs s) /\
    (let! (status, buffer1) := tinyfs_read_bytes offset (Some buf) size in
     if negb (status =? 0) then ret (-1, buffer1) else ret (i32 size, buffer1)) s = Ret (r, Some b) s' [] /\
    delivered (disk_range d offset size) buf r b.
Proof.
  intros Hm Ho Hs Hb. pose proof Hm as [_ _ Hp Hat _ _]. pose proof Hat as (_ & Hdev & _).
  destruct (tinyfs_read_bytes_spec s p d offset size buf Hp Hat Ho Hs Hb) as (bb & b & Hbb & Hl & He & Hv).
  rewrite (bind_Ret_nil _ _ _ _ _ He). unfold delivered, disk_range.
  destruct ((size <=? 0) || (offset + size <=? capacity d)) eqn:Hok.
  - exists (i32 size), (set_tinyfs_bio (Bio (tinyfs_devs s) bb) s), b.
    split_and!; [by apply mounted_bio|done|done|done| |by apply Hv]. f_equal. unfold lenZ.
    apply orb_true_iff in Hok as [Hz%Z.leb_le|Hr%Z.leb_le].
    + assert (size = 0) as -> by lia. by rewrite slice_nil.
    + rewrite <- capacity_data in Hr by done. unfold lenZ in *. rewrite length_slice; lia.
  - exists (-1), (set_tinyfs_bio (Bio (tinyfs_devs s) bb) s), b.
    split_and!; [by apply mounted_bio|done|done|done|done|done].
Qed.

(** What reading [size] bytes at [offset] of file [t] should deliver. *)
Definition file_window s d (t : list Z) (offset size : Z) : option (list Z) :=
  match lookup_file s t with
  | Some (_, e) =>
      if offset <=? file_size e
      then disk_range d (u32 (file_offset e + offset)) (Z.min size (file_size e - offset))
      else None
  | None => None
  end.

(** Reading part of a file of a mounted disk delivers exactly the bytes of the
    window, cut at the end of the file; a missing file, an offset past the end
    or a window off the disk is an error. The start of the window is computed
    in 32 bits. *)
Lemma tinyfs_read_file_part_ok s p d path t offset buf size :
  mounted s p d -> cval path = Some t -> 0 <= offset < 2 ^ 32 -> 0 <= size < 2 ^ 32 -> size <= lenZ buf ->
  exists r s' b, tinyfs_read_file_part (Some path) offset (Some buf) size s = Ret (r, Some b) s' [] /\
    mounted s' p d /\ mounted_files s' = mounted_files s /\
    delivered (file_window s d t offset size) buf r b.
Proof.
  intros Hm Ht Ho Hs Hb. unfold tinyfs_read_file_part, file_window.
  rewrite (bind_Ret_nil _ _ _ _ _ (tinyfs_find_spec s p d path t Hm Ht)).
  destruct (lookup_file s t) as [[i e]|] eqn:Hf; cbn [fmap option_fmap option_map].
  2:{ exists (-1), s, buf. done. }
  rewrite (bind_Ret_nil _ _ _ _ _ (lookup_file_entry s p d t i e Hm Hf)). cbn [is_null orb].
  rewrite Z.ltb_antisym. destruct (Z.leb_spec offset (file_size e)) as [Hle|]; cbn [negb].
  2:{ exists (-1), s, buf. done. }
  pose proof (le32_bound e 68). unfold file_size in *. rewrite u32_small by lia. cbn zeta.
  assert (Hmin : (if le32 e 68 - offset <? size then le32 e 68 - offset else size) =
                 Z.min size (le32 e 68 - offset)).
  { destruct (Z.ltb_spec (le32 e 68 - offset) size); lia. }
  rewrite Hmin. destruct (Z.eqb_spec (Z.min size (le32 e 68 - offset)) 0) as [Hz|Hz].
  - exists 0, s, buf. split_and!; try done. rewrite Hz. unfold disk_range, delivered.
    cbn [Z.leb Z.compare orb]. rewrite slice_nil. by rewrite splice_nil.
  - destruct (read_delivered s p d (u32 (file_offset e + offset)) (Z.min size (le32 e 68 - offset)) buf)
      as (r & s' & b & Hm' & [Hmf _] & He & Hdel); try done; try lia; [apply u32_bound|].
    by exists r, s', b.
Qed.

(** Reading a whole file of a mounted disk delivers its bytes, and fails for a
    missing file, a buffer that is too small or a file off the disk. *)
Lemma tinyfs_read_file_ok s p d path t buf size :
  mounted s p d -> cval path = Some t -> size <= lenZ buf ->
  exists r s' b, tinyfs_read_file (Some path) (Some buf) size s = Ret (r, Some b) s' [] /\
    mounted s' p d /\ (mounted_files s' = mounted_files s /\ tinyfs_devs s' = tinyfs_devs s) /\
    delivered (match lookup_file s t with
               | Some (_, e) =>
                   if file_size e <=? size then disk_range d (file_offset e) (file_size e) else None
               | None => None
               end) buf r b.
Proof.
  intros Hm Ht Hb. unfold tinyfs_read_file.
  rewrite (bind_Ret_nil _ _ _ _ _ (tinyfs_find_spec s p d path t Hm Ht)).
  destruct (lookup_file s t) as [[i e]|] eqn:Hf; cbn [fmap option_fmap option_map].
  2:{ exists (-1), s, buf. done. }
  rewrite (bind_Ret_nil _ _ _ _ _ (lookup_file_entry s p d t i e Hm Hf)). cbn [is_null orb].
  rewrite Z.ltb_antisym. destruct (Z.leb_spec (file_size e) size) as [Hle|]; cbn [negb].
  2:{ exists (-1), s, buf. done. }
  destruct (read_delivered s p d (file_offset e) (file_size e) buf)
    as (r & s' & b & Hm' & Hmf & He & Hdel); try done; try apply le32_bound; [lia|].
  by exists r, s', b.
Qed.

End proofs.

(** ** An image with one file *)

Definition sample_image : mem :=
  bytes32 TINYFS_MAGIC ++ bytes32 1 ++ bytes32 1 ++ bytes32 20 ++ bytes32 96 ++
  (lit "a" ++ replicate 63 0 ++ bytes32 96 ++ bytes32 3 ++ bytes32 0) ++ lit "abc" ++ replicate 157 0.
Definition sample_device : block_device list_disk := list_device "d" (ListDisk 32 8 sample_image).

Definition unmounted_sample : tinyfs list_disk :=
  TinyFS [sample_device] None (replicate 20 0) (replicate 16 (replicate 76 0)) (replicate 512 0) 0.
Definition mounted_sample : tinyfs list_disk :=
  TinyFS [sample_device] (Some 0%nat) (slice sample_image 0 20)
    (slice sample_image 20 76 :: replicate 15 (replicate 76 0)) (replicate 512 0) 1.

Lemma sample_disk buf : 32 <= lenZ buf -> disk_at (Bio [sample_device] buf) 0 sample_device.
Proof.
  intros Hb. apply (list_device_at "d" (ListDisk 32 8 sample_image)); [|by eexists|done].
  split_and!; vm_compute; congruence || done.
Qed.

Lemma mounted_sample_ok : mounted mounted_sample 0 sample_device.
Proof.
  split; try done.
  - split; try done. constructor; [done|]. by apply Forall_replicate.
  - apply sample_disk. done.
  - repeat constructor.
Qed.

Lemma tinyfs_mount_spec_witness :
  exists s' o, tinyfs_mount (Some 0%nat) unmounted_sample = Ret 0 s' o /\
    mounted_files s' = [slice sample_image 20 76].
Proof.
  assert (Hwf : tinyfs_wf unmounted_sample).
  { split; try done. by apply Forall_replicate. }
  assert (Hat : disk_at (tinyfs_bio unmounted_sample) 0 sample_device) by (by apply sample_disk).
  destruct (tinyfs_mount_spec unmounted_sample 0 sample_device Hwf Hat) as (s' & o & He & Hr & _).
  assert (Hok : image_ok (dev_data sample_device) = true) by (vm_compute; reflexivity).
  unfold mount_result in Hr. rewrite Hok in He, Hr. destruct Hr as (_ & _ & Hf).
  exists s', o. split; [exact He|]. rewrite Hf. vm_compute. reflexivity.
Defined.
