(* ===== verification/Vfs.v ===== *)
(** The root file system (src/src/fs/vfs.c): path normalisation, directories
    made out of the slashes in tinyfs names, and the operations that reach a
    file through its path. Local arrays start with arbitrary contents
    ([local64], [local_seen]), so what the theorems state does not depend on
    uninitialised stack bytes. *)
From S2P Require Import Prelude LibString Klog BlockDevice BlockIO ListDisk TinyFS.

(** ** Definitions *)

Definition VFS_PATH_MAX : Z := TINYFS_NAME_MAX.
Definition VFS_FILE_FLAG_DIRECTORY : Z := 1.

(** *** Path normalisation *)

(** [while ( *path == '/') path++]. *)
Fixpoint skip_slashes (path : mem) : option mem :=
  match path with
  | [] => None
  | c :: path' => if c =? ch "/" then skip_slashes path' else Some path
  end.

(** The length of the segment at [path]. *)
Fixpoint segment_length (path : mem) : option Z :=
  match path with
  | [] => None
  | c :: path' =>
      if (c =? 0) || (c =? ch "/") then Some 0
      else n ← segment_length path'; Some (u32 (n + 1))
  end.

(** The segment is [.] or [..]. *)
Definition dot_segment (segment : mem) (n : Z) : option bool :=
  if n =? 1 then c ← rd segment 0; Some (c =? ch ".")
  else if n =? 2 then
    c ← rd segment 0; if c =? ch "." then d ← rd segment 1; Some (d =? ch ".") else Some false
  else Some false.

(** The main loop: [length] bytes of [buffer] are done, [path] is the rest. A
    turn consumes a byte of [path]. *)
Fixpoint normalize_loop (fuel : nat) (path : mem) (buffer : mem) (length : Z) : option (Z * mem) :=
  match fuel with
  | O => None
  | S fuel' =>
      c ← rd path 0;
      if c =? 0 then buffer1 ← wr buffer length 0; Some (0, buffer1)
      else
        n ← segment_length path;
        dot ← dot_segment path n;
        if (dot : bool) then Some (-1, buffer)
        else if negb (length =? 0) && (VFS_PATH_MAX <=? u32 (length + 1)) then Some (-1, buffer)
        else
          '(buffer1, length1) ←
            (if negb (length =? 0) then b ← wr buffer length (ch "/"); Some (b, u32 (length + 1))
             else Some (buffer, length));
          if VFS_PATH_MAX <=? u32 (length1 + n) then Some (-1, buffer1)
          else
            buffer2 ← memcpy buffer1 length1 path 0 n;
            path1 ← skip_slashes (drop (Z.to_nat n) path);
            normalize_loop fuel' path1 buffer2 (u32 (length1 + n))
  end.

Definition vfs_normalize_path (path : option mem) (buffer : mem) (allow_root : bool) : option (Z * mem) :=
  match path with
  | None => Some (-1, buffer)
  | Some path0 =>
      path1 ← skip_slashes path0;
      c ← rd path1 0;
      if c =? 0 then
        if negb allow_root then Some (-1, buffer)
        else buffer1 ← wr buffer 0 0; Some (0, buffer1)
      else normalize_loop (Datatypes.length path1) path1 buffer 0
  end.

(** *** Directories *)

Fixpoint name_seen_loop (fuel : nat) (index : Z) (seen : list mem) (name : mem) (length : Z) : option bool :=
  match fuel with
  | O => Some false
  | S fuel' =>
      row ← rd seen index;
      c ← rd row length;
      hit ← (if c =? 0 then d ← memcmp row name length; Some (d =? 0) else Some false);
      if (hit : bool) then Some true else name_seen_loop fuel' (index + 1) seen name length
  end.

Definition vfs_name_seen (seen : list mem) (seen_count : Z) (name : mem) (length : Z) : option bool :=
  name_seen_loop (Z.to_nat seen_count) 0 seen name length.

(** The search for a slash: the length of the child's name and whether it is a
    directory. *)
Fixpoint child_scan (remainder : mem) : option (Z * bool) :=
  match remainder with
  | [] => None
  | c :: remainder' =>
      if c =? 0 then Some (0, false)
      else if c =? ch "/" then Some (0, true)
      else '(n, is_directory) ← child_scan remainder'; Some (u32 (n + 1), is_directory)
  end.

(** The part of the file name below the directory; [Some None] if it is not
    below it. *)
Definition child_remainder (directory file_name : mem) : option (option mem) :=
  len ← strlen directory;
  let directory_length := u32 len in
  if directory_length =? 0 then Some (Some file_name)
  else
    d ← memcmp file_name directory directory_length;
    if negb (d =? 0) then Some None
    else
      c ← rd file_name directory_length;
      if negb (c =? ch "/") then Some None
      else Some (Some (drop (Z.to_nat (directory_length + 1)) file_name)).

(** The three results the code stores through its pointers; [None] for its
    result 0. *)
Definition child_results (remainder : mem) : option (option (mem * Z * bool)) :=
  c ← rd remainder 0;
  if c =? 0 then Some None
  else '(n, is_directory) ← child_scan remainder; Some (Some (remainder, n, is_directory)).

Definition vfs_collect_child_name (directory file_name : mem) : option (option (mem * Z * bool)) :=
  remainder ← child_remainder directory file_name;
  match remainder with
  | None => Some None
  | Some rest => child_results rest
  end.

(** *** State *)

(** What a [name] pointer of [vfs_file_info_t] leads to: the literal ["/"], a
    table entry of tinyfs, or [vfs_stat_name]. *)
Inductive info_name : Type := NameRoot | NameFile (file : Z) | NameStat.

Record vfs_file_info : Type := VfsFileInfo { info_name_of : info_name; info_size : Z; info_flags : Z }.

Record vfs (X : Type) : Type := Vfs {
  vfs_tinyfs : tinyfs X;
  vfs_stat_info : vfs_file_info;
  vfs_stat_name : mem;
  vfs_ready : Z
}.
Arguments Vfs {X}.
Arguments vfs_tinyfs {X}.
Arguments vfs_stat_info {X}.
Arguments vfs_stat_name {X}.
Arguments vfs_ready {X}.

Section definitions.
Context {X : Type}.
Implicit Types s : vfs X.

(** The indeterminate contents of the local arrays. *)
Context (local64 : mem) (local_seen : list mem).

Definition set_vfs_tinyfs (v : tinyfs X) s : vfs X :=
  Vfs v (vfs_stat_info s) (vfs_stat_name s) (vfs_ready s).
Definition set_vfs_stat_info (v : vfs_file_info) s : vfs X :=
  Vfs (vfs_tinyfs s) v (vfs_stat_name s) (vfs_ready s).
Definition set_vfs_stat_name (v : mem) s : vfs X :=
  Vfs (vfs_tinyfs s) (vfs_stat_info s) v (vfs_ready s).
Definition set_vfs_ready (v : Z) s : vfs X :=
  Vfs (vfs_tinyfs s) (vfs_stat_info s) (vfs_stat_name s) v.

Definition tiny {A} (m : M (tinyfs X) A) : M (vfs X) A := zoom vfs_tinyfs set_vfs_tinyfs m.

(** The loop over all files that the directory operations share:
    [for (index = 0; index < tinyfs_file_count(); index++)], skipping null
    files; [body] returns the loop's variables and whether to leave it. There
    are at most [TINYFS_MAX_FILES] turns. *)
Fixpoint for_files {T A} (run : forall B, M (tinyfs X) B -> M T B) (fuel : nat) (index : Z) (acc : A)
    (body : A -> Z -> mem -> M T (A * bool)) : M T A :=
  match fuel with
  | O => undef
  | S fuel' =>
      count <- run _ tinyfs_file_count;;
      if negb (index <? count) then ret acc
      else
        file <- run _ (tinyfs_get_file index);;
        match file with
        | None => for_files run fuel' (index + 1) acc body
        | Some f =>
            entry <- run _ (tinyfs_entry f);;
            let! (acc1, stop) := body acc f entry in
            if (stop : bool) then ret acc1 else for_files run fuel' (index + 1) acc1 body
        end
  end.
Definition files_fuel : nat := S (Z.to_nat TINYFS_MAX_FILES).

Definition vfs_directory_exists (directory : mem) : M (vfs X) bool :=
  c <- deref (rd directory 0);;
  if c =? 0 then ret true
  else
    for_files (@tiny) files_fuel 0 false (fun _ _ entry =>
      child <- deref (vfs_collect_child_name directory entry);;
      match child with
      | Some _ => ret (true, true)
      | None => ret (false, false)
      end).

Definition vfs_root_fs_name : M (vfs X) (option mem) :=
  ready <- gets vfs_ready;;
  if ready =? 0 then ret None else ret (Some (cstr "tinyfs")).

Definition vfs_mount_root : M (vfs X) Z :=
  is_mounted <- tiny tinyfs_is_mounted;;
  if is_mounted =? 0 then ret (-1)
  else
    device <- tiny tinyfs_device;;
    match device with
    | None => ret (-1)
    | Some p =>
        modify (set_vfs_ready 1);;
        fs <- vfs_root_fs_name;;
        d <- tiny (zoom tinyfs_devs set_tinyfs_devs (dev_at (Some p)));;
        kprintf (nl "[INFO] vfs: root mounted fs=%s device=%s") [AStr fs; AStr (name d)];;
        ret 0
    end.

(** Copies a child's name into a row and terminates it. *)
Definition put_name (row child : mem) (n : Z) : option mem :=
  row1 ← memcpy row 0 child 0 n;
  wr row1 n 0.

(** The common part of the two listings: the child of [normalized] that the
    entry shows, if it is new, with [seen] and [seen_count] updated. *)
Definition vfs_next_child (normalized : mem) (seen : list mem) (seen_count : Z) (entry : mem) :
    option (option (list mem * Z * mem * Z * bool)) :=
  child ← vfs_collect_child_name normalized entry;
  match child with
  | None => Some None
  | Some (child_name, child_length, is_directory) =>
      dup ← vfs_name_seen seen seen_count child_name child_length;
      if (dup : bool) then Some None
      else
        row ← rd seen seen_count;
        row1 ← put_name row child_name child_length;
        seen1 ← wr seen seen_count row1;
        Some (Some (seen1, u32 (seen_count + 1), child_name, child_length, is_directory))
  end.

(** The opening checks of the listings; the normalised path if they pass. *)
Definition vfs_open_directory (path : option mem) : M (vfs X) (option mem) :=
  ready <- gets vfs_ready;;
  if ready =? 0 then ret None
  else
    let! (status, normalized) := deref (vfs_normalize_path path local64 true) in
    if negb (status =? 0) then ret None
    else
      exists_ <- vfs_directory_exists normalized;;
      ret (if (exists_ : bool) then Some normalized else None).

Definition vfs_list (path : option mem) : M (vfs X) Z :=
  opened <- vfs_open_directory path;;
  match opened with
  | None => ret (-1)
  | Some normalized =>
      for_files (@tiny) files_fuel 0 (local_seen, 0) (fun '(seen, seen_count) _ entry =>
        next <- deref (vfs_next_child normalized seen seen_count entry);;
        match next with
        | None => ret ((seen, seen_count), false)
        | Some (seen1, seen_count1, _, _, _) =>
            row <- deref (rd seen1 (seen_count1 - 1));;
            kprintf (nl "%s") [AStr (Some row)];;
            ret ((seen1, seen_count1), false)
        end);;
      ret 0
  end.

(** The state of the file system beside that of a callback. *)
Definition in_vfs {C A} (m : M (vfs X) A) : M (vfs X * C) A :=
  zoom fst (fun v (s : vfs X * C) => (v, s.2)) m.
Definition in_context {C A} (m : M C A) : M (vfs X * C) A :=
  zoom snd (fun c (s : vfs X * C) => (s.1, c)) m.

(** [vfs_list_entries(path, callback, context)]: the callback runs on the
    caller's state [C] and gets the entry's name, size and flags. *)
Definition vfs_list_entries {C} (path : option mem) (callback : option (mem -> Z -> Z -> M C Z)) :
    M (vfs X * C) Z :=
  match callback with
  | None => ret (-1)
  | Some call =>
      opened <- in_vfs (vfs_open_directory path);;
      match opened with
      | None => ret (-1)
      | Some normalized =>
          for_files (fun B m => in_vfs (tiny m)) files_fuel 0
            (local_seen, 0, local64) (fun '(seen, seen_count, entry_name) _ entry =>
            next <- deref (vfs_next_child normalized seen seen_count entry);;
            match next with
            | None => ret ((seen, seen_count, entry_name), false)
            | Some (seen1, seen_count1, child_name, child_length, is_directory) =>
                entry_name1 <- deref (put_name entry_name child_name child_length);;
                status <- in_context
                  (call entry_name1 (if (is_directory : bool) then 0 else file_size entry)
                     (if is_directory then VFS_FILE_FLAG_DIRECTORY else file_flags entry));;
                ret ((seen1, seen_count1, entry_name1), negb (status =? 0))
            end);;
          ret 0
      end
  end.

(** [vfs_stat] on a normalised path. *)
Definition vfs_stat_normalized (normalized : mem) : M (vfs X) bool :=
  c <- deref (rd normalized 0);;
  if c =? 0 then
    modify (set_vfs_stat_info (VfsFileInfo NameRoot 0 VFS_FILE_FLAG_DIRECTORY));;
    ret true
  else
    file <- tiny (tinyfs_find (Some normalized));;
    match file with
    | Some f =>
        entry <- tiny (tinyfs_entry f);;
        modify (set_vfs_stat_info (VfsFileInfo (NameFile f) (file_size entry) (file_flags entry)));;
        ret true
    | None =>
        for_files (@tiny) files_fuel 0 false (fun _ _ entry =>
          child <- deref (vfs_collect_child_name normalized entry);;
          match child with
          | None => ret (false, false)
          | Some _ =>
              len <- deref (strlen normalized);;
              row <- gets vfs_stat_name;;
              row1 <- deref (put_name row normalized len);;
              modify (set_vfs_stat_name row1);;
              modify (set_vfs_stat_info (VfsFileInfo NameStat 0 VFS_FILE_FLAG_DIRECTORY));;
              ret (true, true)
          end)
    end.

(** Whether the result is [&vfs_stat_info] or null. *)
Definition vfs_stat (path : option mem) : M (vfs X) bool :=
  ready <- gets vfs_ready;;
  if ready =? 0 then ret false
  else
    let! (status, normalized) := deref (vfs_normalize_path path local64 true) in
    if negb (status =? 0) then ret false else vfs_stat_normalized normalized.

(** The checks the two read functions share: the normalised path of a file. *)
Definition vfs_open_file (path : option mem) : M (vfs X) (option mem) :=
  ready <- gets vfs_ready;;
  if ready =? 0 then ret None
  else
    let! (status, normalized) := deref (vfs_normalize_path path local64 false) in
    if negb (status =? 0) then ret None
    else
      file <- vfs_stat (Some normalized);;
      info <- gets vfs_stat_info;;
      ret (if negb (file : bool) || negb (Z.land (info_flags info) VFS_FILE_FLAG_DIRECTORY =? 0)
           then None else Some normalized).

Definition vfs_read_file (path buffer : option mem) (max_size : Z) : M (vfs X) (Z * option mem) :=
  opened <- vfs_open_file path;;
  match opened with
  | None => ret (-1, buffer)
  | Some normalized => tiny (tinyfs_read_file (Some normalized) buffer max_size)
  end.

Definition vfs_read_file_part (path : option mem) (offset : Z) (buffer : option mem) (size : Z) :
    M (vfs X) (Z * option mem) :=
  opened <- vfs_open_file path;;
  match opened with
  | None => ret (-1, buffer)
  | Some normalized => tiny (tinyfs_read_file_part (Some normalized) offset buffer size)
  end.

Definition vfs_is_mounted : M (vfs X) Z := gets vfs_ready.

Definition vfs_root_device : M (vfs X) (option nat) :=
  ready <- gets vfs_ready;;
  if ready =? 0 then ret None else tiny tinyfs_device.

Definition vfs_root_file_count : M (vfs X) Z :=
  ready <- gets vfs_ready;;
  if ready =? 0 then ret 0 else tiny tinyfs_file_count.

End definitions.

(** ** Paths as lists of segments *)

Definition slash : Z := 47.

(** The pieces between slashes, and the ones that are not empty. *)
Fixpoint split_path (s : list Z) : list (list Z) :=
  match s with
  | [] => [[]]
  | c :: s' =>
      if c =? slash then [] :: split_path s'
      else match split_path s' with
           | x :: r => (c :: x) :: r
           | [] => [[c]]
           end
  end.
Definition path_segments (s : list Z) : list (list Z) := filter (fun x => x <> []) (split_path s).

(** Segments put back together with single slashes. *)
Definition extend_path (path segment : list Z) : list Z :=
  match path with [] => segment | _ => path ++ slash :: segment end.
Definition join_path (segments : list (list Z)) : list Z := foldl extend_path [] segments.

Definition is_dot (segment : list Z) : bool :=
  bool_decide (segment = lit ".") || bool_decide (segment = lit "..").

(** The normal form of a path: no leading, trailing or repeated slash. A path
    with a dot segment, a normal form of 64 bytes or more and, where the root
    is not allowed, the root have none. *)
Definition normal_path (allow_root : bool) (s : list Z) : option (list Z) :=
  let segments := path_segments s in
  if existsb is_dot segments || (VFS_PATH_MAX <=? lenZ (join_path segments)) ||
     (negb allow_root && bool_decide (segments = []))
  then None else Some (join_path segments).

Definition no_slash (s : list Z) : Prop := Forall (fun c => c <> slash) s.

Lemma split_path_nonempty s : split_path s <> [].
Proof. destruct s as [|c s]; simpl; [done|]. destruct (c =? slash); [done|]. by destruct (split_path s). Qed.

Lemma split_path_app a b : split_path (a ++ slash :: b) = split_path a ++ split_path b.
Proof.
  induction a as [|c a IH]; simpl; [done|]. rewrite IH. destruct (c =? slash); [done|].
  destruct (split_path a) eqn:E; [by destruct (split_path_nonempty a)|done].
Qed.

Lemma split_path_segment s : no_slash s -> split_path s = [s].
Proof.
  induction 1 as [|c s Hc Hs IH]; simpl; [done|]. rewrite (proj2 (Z.eqb_neq c slash)) by done. by rewrite IH.
Qed.

Lemma path_segments_app a b : path_segments (a ++ slash :: b) = path_segments a ++ path_segments b.
Proof. unfold path_segments. by rewrite split_path_app, filter_app. Qed.

Lemma path_segments_slash s : path_segments (slash :: s) = path_segments s.
Proof. by apply (path_segments_app []). Qed.

Lemma path_segments_one s : no_slash s -> s <> [] -> path_segments s = [s].
Proof.
  intros Hs Hn. unfold path_segments. rewrite split_path_segment by done.
  by rewrite filter_cons_True.
Qed.

Lemma path_segments_cons seg s :
  no_slash seg -> seg <> [] -> path_segments (seg ++ slash :: s) = seg :: path_segments s.
Proof. intros. by rewrite path_segments_app, path_segments_one. Qed.

Lemma split_path_no_slash s : Forall no_slash (split_path s).
Proof.
  induction s as [|c s IH]; simpl; [by repeat constructor|].
  destruct (Z.eqb_spec c slash); [by repeat constructor|].
  destruct (split_path s) as [|x r]; [by repeat constructor|].
  inversion IH; subst. constructor; [by constructor|done].
Qed.

(** Segments of a path hold no slash and are not empty. *)
Definition segment_ok (x : list Z) : Prop := no_slash x /\ x <> [].

Lemma path_segments_ok s : Forall segment_ok (path_segments s).
Proof.
  unfold path_segments. apply Forall_forall. intros x [Hx Hin]%list_elem_of_filter. split; [|done].
  exact (proj1 (Forall_forall _ _) (split_path_no_slash s) x Hin).
Qed.

Lemma extend_path_nonempty path seg : seg <> [] -> extend_path path seg <> [].
Proof. destruct path; simpl; done. Qed.

Lemma path_segments_extend path seg :
  segment_ok seg -> path_segments (extend_path path seg) = path_segments path ++ [seg].
Proof.
  intros [Hs Hn]. destruct path as [|c path]; [by rewrite path_segments_one|].
  unfold extend_path. by rewrite path_segments_app, (path_segments_one seg).
Qed.

(** Splitting a normal form gives its segments back. *)
Lemma path_segments_join segs : Forall segment_ok segs -> path_segments (join_path segs) = segs.
Proof.
  induction segs as [|seg segs IH] using rev_ind; intros Hok; [done|].
  apply Forall_app in Hok as [Hok [Hseg _]%Forall_cons].
  unfold join_path. rewrite foldl_snoc. fold (join_path segs).
  by rewrite path_segments_extend, IH.
Qed.

(** Normalising a normal form changes nothing. *)
Lemma normal_path_idem allow s t :
  normal_path allow s = Some t -> normal_path allow t = Some t /\ normal_path true t = Some t.
Proof.
  unfold normal_path. destruct (_ || _) eqn:E; [done|]. intros [= <-].
  rewrite path_segments_join by apply path_segments_ok. rewrite E.
  apply orb_false_iff in E as [-> _]. done.
Qed.

Lemma extend_path_length path seg :
  lenZ (extend_path path seg) = lenZ path + (if lenZ path =? 0 then 0 else 1) + lenZ seg.
Proof.
  unfold lenZ. destruct path as [|c path]; [done|].
  rewrite (proj2 (Z.eqb_neq _ 0)) by (simpl; lia). simpl. rewrite length_app. simpl. lia.
Qed.

Lemma join_path_grows segs path : lenZ path <= lenZ (foldl extend_path path segs).
Proof.
  revert path. induction segs as [|seg segs IH]; intros path; simpl; [lia|].
  etransitivity; [|apply IH]. rewrite extend_path_length. unfold lenZ. destruct (_ =? 0); lia.
Qed.

(** The parts of the loop, on a path [seg ++ rest]. *)
Lemma skip_slashes_app n r :
  skip_slashes (replicate n slash ++ r) = skip_slashes r.
Proof. by induction n. Qed.

Lemma skip_slashes_spec s r :
  exists n t, s = replicate n slash ++ t /\ skip_slashes (s ++ 0 :: r) = Some (t ++ 0 :: r) /\
    path_segments s = path_segments t /\ (forall c t', t = c :: t' -> c <> slash).
Proof.
  induction s as [|c s (n & t & -> & Hsk & Hseg & Ht)].
  - by exists 0%nat, [].
  - destruct (Z.eq_dec c slash) as [->|Hc].
    + exists (S n), t. split_and!; try done; by rewrite path_segments_slash.
    + exists 0%nat, (c :: replicate n slash ++ t). split_and!; try done; [|by intros ?? [= <- <-]].
      cbn [skip_slashes app]. change (ch "/") with slash.
      by rewrite (proj2 (Z.eqb_neq c slash)) by done.
Qed.

(** A path that does not start with a slash starts with a segment. *)
Lemma first_segment s :
  exists seg rest, s = seg ++ rest /\ no_slash seg /\ (rest = [] \/ exists rest', rest = slash :: rest').
Proof.
  induction s as [|c s (seg & rest & -> & Hs & Hr)].
  - exists [], []. split_and!; [done|constructor|by left].
  - destruct (Z.eq_dec c slash) as [->|Hc].
    + exists [], (slash :: seg ++ rest). split_and!; [done|constructor|right; by eexists].
    + exists (c :: seg), rest. split_and!; [done|by constructor|done].
Qed.

Lemma segment_length_spec seg rest :
  no_nul seg -> no_slash seg -> (exists c r, rest = c :: r /\ (c = 0 \/ c = slash)) ->
  lenZ seg < 2 ^ 32 -> segment_length (seg ++ rest) = Some (lenZ seg).
Proof.
  intros Hn Hs (c & r & -> & Hc). induction Hn as [|x seg Hx Hn IH]; intros Hl.
  - cbn [segment_length app]. destruct Hc as [->| ->]; done.
  - inversion Hs; subst. cbn [segment_length app]. change (ch "/") with slash.
    rewrite (proj2 (Z.eqb_neq x 0)), (proj2 (Z.eqb_neq x slash)) by done. cbn [orb].
    unfold lenZ in *. cbn [Datatypes.length] in *. rewrite IH by (done || lia). cbn [mbind option_bind]. f_equal.
    rewrite u32_small by lia. lia.
Qed.

Lemma dot_segment_spec seg rest :
  rest <> [] -> dot_segment (seg ++ rest) (lenZ seg) = Some (is_dot seg).
Proof.
  intros Hr. unfold dot_segment, is_dot, lenZ. destruct rest as [|x rest]; [done|]. clear Hr.
  destruct seg as [|a [|b [|c seg]]]; cbn [Datatypes.length Z.of_nat]; try done.
  - change (Some (a =? 46) = Some (bool_decide ([a] = [46]) || bool_decide ([a] = [46; 46]))).
    destruct (Z.eqb_spec a 46); repeat case_bool_decide; congruence || done.
  - change ((if a =? 46 then Some (b =? 46) else Some false) =
      Some (bool_decide ([a; b] = [46]) || bool_decide ([a; b] = [46; 46]))).
    destruct (Z.eqb_spec a 46), (Z.eqb_spec b 46); repeat case_bool_decide; congruence || done.
  - rewrite !bool_decide_eq_false_2 by done.
    rewrite (proj2 (Z.eqb_neq _ 1)), (proj2 (Z.eqb_neq _ 2)) by (cbn [Datatypes.length]; lia). done.
Qed.

(** The rest of a path behind its first segment. *)
Lemma path_segments_rest seg rest :
  segment_ok seg -> (rest = [] \/ exists rest', rest = slash :: rest') ->
  path_segments (seg ++ rest) = seg :: path_segments rest.
Proof.
  intros [Hs Hn] [->|[rest' ->]].
  - rewrite app_nil_r. by apply path_segments_one.
  - by rewrite path_segments_cons, path_segments_slash.
Qed.

(** A segment appended to the buffer, which holds [done_] so far. *)
Lemma append_segment done_ tail seg path :
  lenZ (done_ ++ tail) = VFS_PATH_MAX -> seg <> [] -> lenZ seg < 2 ^ 32 ->
  lenZ (extend_path done_ seg) < VFS_PATH_MAX ->
  negb (lenZ done_ =? 0) && (VFS_PATH_MAX <=? u32 (lenZ done_ + 1)) = false /\
  exists tail1 done1 tail2,
    (if negb (lenZ done_ =? 0)
     then b ← wr (done_ ++ tail) (lenZ done_) (ch "/"); Some (b, u32 (lenZ done_ + 1))
     else Some (done_ ++ tail, lenZ done_)) = Some (done1 ++ tail1, lenZ done1) /\
    (VFS_PATH_MAX <=? u32 (lenZ done1 + lenZ seg)) = false /\
    memcpy (done1 ++ tail1) (lenZ done1) (seg ++ path) 0 (lenZ seg) = Some (extend_path done_ seg ++ tail2) /\
    u32 (lenZ done1 + lenZ seg) = lenZ (extend_path done_ seg) /\
    lenZ (extend_path done_ seg ++ tail2) = VFS_PATH_MAX.
Proof.
  unfold VFS_PATH_MAX, TINYFS_NAME_MAX. intros Hl Hn Hs Hext.
  pose proof (extend_path_length done_ seg) as Hel. pose proof (lenZ_nonneg done_). pose proof (lenZ_nonneg seg).
  rewrite lenZ_app in Hl. pose proof (lenZ_nonneg tail).
  assert (Hcopy : forall done1 tail1, lenZ (done1 ++ tail1) = 64 -> lenZ done1 + lenZ seg < 64 ->
    memcpy (done1 ++ tail1) (lenZ done1) (seg ++ path) 0 (lenZ seg) =
      Some ((done1 ++ seg) ++ drop (length seg) tail1) /\
    lenZ ((done1 ++ seg) ++ drop (length seg) tail1) = 64).
  { intros done1 tail1 Hl1 Hl2. rewrite lenZ_app in Hl1. split.
    - rewrite memcpy_spec by (rewrite ?lenZ_app; pose proof (lenZ_nonneg path); unfold lenZ in *; lia).
      unfold lenZ. rewrite !Nat2Z.id. unfold slice. rewrite drop_0, take_app_length, splice_at.
      by rewrite app_assoc.
    - rewrite !lenZ_app. unfold lenZ in *. rewrite length_drop. lia. }
  destruct done_ as [|c done_].
  - split; [done|]. exists tail, [], (drop (length seg) tail). cbn [app] in *.
    change (lenZ []) with 0 in *. change (negb (0 =? 0)) with false. cbn iota.
    rewrite u32_small, (proj2 (Z.leb_gt 64 _)) by (simpl in Hext; lia).
    destruct (Hcopy [] tail) as [Hc Hc']; [done|simpl in Hext; exact Hext|]. split_and!; done.
  - set (d := c :: done_) in *. assert (0 < lenZ d) by (unfold d; rewrite lenZ_cons; pose proof (lenZ_nonneg done_); lia).
    assert (lenZ seg <> 0) by (destruct seg; [done|rewrite lenZ_cons; pose proof (lenZ_nonneg seg); lia]).
    rewrite (proj2 (Z.eqb_neq (lenZ d) 0)) in * by lia. cbn [negb andb].
    rewrite u32_small, (proj2 (Z.leb_gt 64 _)) by lia. split; [done|].
    destruct tail as [|x tail]; [change (lenZ []) with 0 in *; lia|].
    exists tail, (d ++ [slash]), (drop (length seg) tail). rewrite wr_app. cbn [mbind option_bind].
    assert (Hd1 : lenZ (d ++ [slash]) = lenZ d + 1) by (by rewrite lenZ_app).
    rewrite lenZ_cons in Hl. change (ch "/") with slash.
    rewrite u32_small, (proj2 (Z.leb_gt 64 _)) by lia.
    destruct (Hcopy (d ++ [slash]) tail) as [Hc Hc']; [rewrite lenZ_app; lia|lia|].
    replace (extend_path d seg) with ((d ++ [slash]) ++ seg) in * by (unfold d; simpl; by rewrite <- app_assoc).
    split_and!; try done; [by rewrite <- app_assoc, Hd1|lia].
Qed.

(** A segment that does not fit is rejected by one of the two checks. *)
Lemma append_overflow done_ tail seg :
  lenZ (done_ ++ tail) = VFS_PATH_MAX -> lenZ done_ < VFS_PATH_MAX -> seg <> [] -> lenZ seg < 2 ^ 31 ->
  VFS_PATH_MAX <= lenZ (extend_path done_ seg) ->
  negb (lenZ done_ =? 0) && (VFS_PATH_MAX <=? u32 (lenZ done_ + 1)) = true \/
  negb (lenZ done_ =? 0) && (VFS_PATH_MAX <=? u32 (lenZ done_ + 1)) = false /\
  exists buffer1 length1,
    (if negb (lenZ done_ =? 0)
     then b ← wr (done_ ++ tail) (lenZ done_) (ch "/"); Some (b, u32 (lenZ done_ + 1))
     else Some (done_ ++ tail, lenZ done_)) = Some (buffer1, length1) /\
    lenZ buffer1 = VFS_PATH_MAX /\
    (VFS_PATH_MAX <=? u32 (length1 + lenZ seg)) = true.
Proof.
  unfold VFS_PATH_MAX, TINYFS_NAME_MAX. intros Hl Hd Hn Hs Hext.
  rewrite extend_path_length in Hext. pose proof (lenZ_nonneg done_). pose proof (lenZ_nonneg seg).
  destruct (Z.eqb_spec (lenZ done_) 0) as [Hz|Hz]; cbn [negb andb].
  - right. split; [done|]. eexists _, _. split; [done|]. split; [done|].
    rewrite u32_small by lia. apply Z.leb_le. lia.
  - rewrite u32_small by lia. destruct (Z.leb_spec 64 (lenZ done_ + 1)); [by left|right].
    split; [done|]. destruct tail as [|x tail]; [rewrite app_nil_r in Hl; lia|].
    rewrite wr_app. eexists _, _. split; [done|]. split; [by rewrite !lenZ_app, !lenZ_cons in *|].
    rewrite u32_small by lia. apply Z.leb_le. lia.
Qed.

(** What the loop makes of the segments that are left. *)
Definition normalized_from (done_ : list Z) (segs : list (list Z)) (status : Z) (b : mem) : Prop :=
  lenZ b = VFS_PATH_MAX /\
  if existsb is_dot segs || (VFS_PATH_MAX <=? lenZ (foldl extend_path done_ segs))
  then status = -1 else status = 0 /\ exists tail, b = foldl extend_path done_ segs ++ 0 :: tail.

Lemma normalize_loop_spec fuel t r done_ tail :
  no_nul t -> lenZ t < 2 ^ 31 -> (forall c t', t = c :: t' -> c <> slash) ->
  lenZ (done_ ++ tail) = VFS_PATH_MAX -> lenZ done_ < VFS_PATH_MAX -> (Datatypes.length t < fuel)%nat ->
  exists status b, normalize_loop fuel (t ++ 0 :: r) (done_ ++ tail) (lenZ done_) = Some (status, b) /\
    normalized_from done_ (path_segments t) status b.
Proof.
  revert t done_ tail. induction fuel as [|fuel IH]; intros t done_ tail Ht Ht31 Hhd Hl Hd Hf; [lia|].
  cbn [normalize_loop]. destruct t as [|c t0].
  { cbn [app rd Z.leb Z.compare Z.to_nat lookup list_lookup mbind option_bind]. unfold rd. simpl.
    destruct tail as [|x tail]; [rewrite app_nil_r in Hl; lia|]. rewrite wr_app. simpl.
    eexists _, _. split; [done|]. split; [by rewrite !lenZ_app, !lenZ_cons in *|]. simpl.
    rewrite (proj2 (Z.leb_gt _ _)) by done. split; [done|by eexists]. }
  assert (Hc0 : c <> 0) by (by inversion Ht).
  assert (Hrd : rd ((c :: t0) ++ 0 :: r) 0 = Some c) by done. rewrite Hrd. cbn [mbind option_bind].
  rewrite (proj2 (Z.eqb_neq c 0)) by done.
  destruct (first_segment (c :: t0)) as (seg & rest & Heq & Hs & Hrest).
  assert (Hseg : segment_ok seg).
  { split; [done|]. intros ->. destruct Hrest as [->|[rest' ->]]; [done|].
    cbn [app] in Heq. injection Heq as -> _. by apply (Hhd _ _ eq_refl). }
  rewrite Heq in *. apply no_nul_app in Ht as [Hseg0 Hrest0]. rewrite lenZ_app in Ht31.
  pose proof (lenZ_nonneg rest). pose proof (lenZ_nonneg seg). rewrite <- !app_assoc.
  rewrite segment_length_spec; try done; try lia.
  2:{ destruct Hrest as [->|[rest' ->]]; eexists _, _; split; try done; [by left|by right]. }
  cbn [mbind option_bind]. rewrite dot_segment_spec by (by destruct rest). cbn [mbind option_bind].
  rewrite path_segments_rest by done. unfold normalized_from. cbn [existsb foldl].
  destruct (is_dot seg); [by eexists _, _|]. cbn [orb].
  destruct (Z.ltb_spec (lenZ (extend_path done_ seg)) VFS_PATH_MAX) as [Hfit|Hbig].
  - destruct (append_segment done_ tail seg (rest ++ 0 :: r)) as (-> & tail1 & done1 & tail2 & -> & Hov & He & Hl1 & Hl2);
      try done; try lia; [apply Hseg|].
    cbn [mbind option_bind]. rewrite Hov, He. cbn [mbind option_bind]. rewrite Hl1.
    rewrite (drop_lenZ_app seg).
    destruct (skip_slashes_spec rest r) as (n & t1 & Hr1 & Hsk & Hsegs & Hhd1).
    rewrite Hsk. cbn [mbind option_bind]. rewrite Hsegs. apply IH; try done.
    + rewrite Hr1 in Hrest0. by apply no_nul_app in Hrest0 as [_ ?].
    + rewrite Hr1, lenZ_app in Ht31. pose proof (lenZ_nonneg (replicate n slash)). lia.
    + destruct Hseg as [_ Hne]. destruct seg; [done|]. rewrite Hr1, !length_app in Hf. simpl in Hf. lia.
  - rewrite (proj2 (Z.leb_le VFS_PATH_MAX (lenZ (foldl extend_path (extend_path done_ seg) (path_segments rest))))).
    2:{ pose proof (join_path_grows (path_segments rest) (extend_path done_ seg)). lia. }
    rewrite orb_true_r.
    destruct (append_overflow done_ tail seg) as [->|(-> & b1 & l1 & -> & Hb1 & Hov)];
      try done; try lia; [apply Hseg|by eexists _, _|].
    cbn [mbind option_bind]. rewrite Hov. by eexists _, _.
Qed.

Lemma split_path_no_nul s : no_nul s -> Forall no_nul (split_path s).
Proof.
  induction 1 as [|c s Hc Hs IH]; simpl; [by repeat constructor|].
  destruct (c =? slash); [constructor; [constructor|done]|].
  destruct (split_path s) as [|x r]; [by repeat constructor|].
  inversion IH; subst. constructor; [by constructor|done].
Qed.

Lemma join_path_no_nul segs path : no_nul path -> Forall no_nul segs -> no_nul (foldl extend_path path segs).
Proof.
  intros Hp Hs. revert path Hp. induction Hs as [|x segs Hx Hs IH]; intros path Hp; [done|]. simpl.
  apply IH. destruct path; [done|]. apply no_nul_app. split; [done|]. by constructor.
Qed.

(** A normal form is a string that fits the buffers. *)
Lemma normal_path_bounds allow s t : no_nul s -> normal_path allow s = Some t -> no_nul t /\ lenZ t < VFS_PATH_MAX.
Proof.
  intros Hs. unfold normal_path. destruct (Z.leb_spec VFS_PATH_MAX (lenZ (join_path (path_segments s))));
    [by rewrite orb_true_r|]. destruct (_ || _); [done|]. intros [= <-]. split; [|done].
  apply join_path_no_nul; [constructor|]. unfold path_segments. apply Forall_forall.
  intros x [_ Hx]%list_elem_of_filter. exact (proj1 (Forall_forall _ _) (split_path_no_nul s Hs) x Hx).
Qed.

(** [vfs_normalize_path] computes the normal form, whatever the buffer held,
    and rejects exactly the paths without one; it stays inside the buffer. *)
Lemma vfs_normalize_path_spec path buffer s allow :
  cval path = Some s -> lenZ s < 2 ^ 31 -> lenZ buffer = VFS_PATH_MAX ->
  exists status b, vfs_normalize_path (Some path) buffer allow = Some (status, b) /\
    lenZ b = VFS_PATH_MAX /\
    match normal_path allow s with
    | Some t => status = 0 /\ (exists tail, b = t ++ 0 :: tail) /\ no_nul t /\ lenZ t < VFS_PATH_MAX
    | None => status = -1
    end.
Proof.
  intros Hc Hs Hb. apply cval_inv in Hc as [Hn [r ->]].
  assert (Hbnd : match normal_path allow s with Some t => no_nul t /\ lenZ t < VFS_PATH_MAX | None => True end).
  { destruct (normal_path allow s) eqn:E; [|done]. by apply (normal_path_bounds allow s). }
  revert Hbnd. unfold vfs_normalize_path.
  destruct (skip_slashes_spec s r) as (n & t & Heq & Hsk & Hseg & Hhd). rewrite Hsk.
  cbn [mbind option_bind]. unfold normal_path. rewrite Hseg. destruct t as [|c t]; intros Hbnd.
  - change (rd ([] ++ 0 :: r) 0) with (Some 0). cbn [mbind option_bind].
    change (0 =? 0) with true. cbn iota. change (path_segments []) with (@nil (list Z)).
    rewrite bool_decide_eq_true_2 by done. rewrite andb_true_r. cbn [existsb orb join_path foldl].
    change (VFS_PATH_MAX <=? lenZ []) with false. cbn [orb].
    destruct allow; cbn [negb]; [|by eexists _, _].
    destruct buffer as [|x buffer]; [done|].
    exists 0, (0 :: buffer). split_and!; try done; [by exists buffer|constructor].
  - assert (Hc0 : c <> 0).
    { rewrite Heq in Hn. apply no_nul_app in Hn as [_ Hn]. by inversion Hn. }
    assert (Hrd : rd ((c :: t) ++ 0 :: r) 0 = Some c) by done. rewrite Hrd. cbn [mbind option_bind].
    rewrite (proj2 (Z.eqb_neq c 0)) by done.
    assert (Hne : path_segments (c :: t) <> []).
    { destruct (first_segment (c :: t)) as (seg & rest & He & Hsl & Hrest).
      destruct seg as [|x seg].
      - destruct Hrest as [->|[rest' ->]]; [done|]. cbn [app] in He. injection He as -> _.
        by destruct (Hhd _ _ eq_refl).
      - rewrite He. rewrite path_segments_rest by done. done. }
    rewrite (bool_decide_eq_false_2 (path_segments (c :: t) = [])), andb_false_r, orb_false_r by done.
    destruct (normalize_loop_spec (Datatypes.length ((c :: t) ++ 0 :: r)) (c :: t) r [] buffer)
      as (status & b & He & Hbl & Hres); try done.
    + rewrite Heq in Hn. by apply no_nul_app in Hn as [_ ?].
    + rewrite Heq, lenZ_app in Hs. pose proof (lenZ_nonneg (replicate n slash)). lia.
    + rewrite length_app. simpl. lia.
    + change (lenZ []) with 0 in He. cbn [app] in He. exists status, b.
      split; [exact He|]. split; [done|].
      rewrite (bool_decide_eq_false_2 (path_segments (c :: t) = [])), andb_false_r, orb_false_r in Hbnd by done.
      unfold join_path in *. destruct (_ || _); [done|]. by destruct Hres as [-> Hres].
Qed.

(** ** Children of a directory *)

(** The part of a file name below a directory. *)
Definition below (dir f : list Z) : option (list Z) :=
  match dir with
  | [] => Some f
  | _ => if decide (take (length dir) f = dir /\ f !! length dir = Some slash)
         then Some (drop (S (length dir)) f) else None
  end.

(** The first piece of a name, a directory if there are more. *)
Definition piece_of (g : list Z) : option (list Z * bool) :=
  match g, split_path g with
  | [], _ | _, [] => None
  | _, [x] => Some (x, false)
  | _, x :: _ => Some (x, true)
  end.

(** The child a file makes in a directory. *)
Definition child_of (dir f : list Z) : option (list Z * bool) := g ← below dir f; piece_of g.

Lemma child_scan_spec s r :
  no_nul s -> lenZ s < 2 ^ 32 ->
  exists x more, split_path s = x :: more /\ (exists t, s = x ++ t) /\
    child_scan (s ++ 0 :: r) = Some (lenZ x, match more with [] => false | _ => true end).
Proof.
  intros Hn. induction Hn as [|c s Hc Hn IH]; intros Hl.
  - exists [], []. split_and!; try done. by exists [].
  - rewrite lenZ_cons in Hl. pose proof (lenZ_nonneg s). cbn [app child_scan split_path].
    change (ch "/") with slash. rewrite (proj2 (Z.eqb_neq c 0)) by done.
    destruct (Z.eqb_spec c slash) as [->|Hcs].
    + exists [], (split_path s). split_and!; [done|by eexists|].
      by destruct (split_path s) eqn:E; [destruct (split_path_nonempty s)|].
    + destruct IH as (x & more & -> & [t Ht] & ->); [lia|]. exists (c :: x), more.
      split_and!; [done|exists t; by rewrite Ht|]. cbn [mbind option_bind]. f_equal. f_equal.
      rewrite lenZ_cons. apply u32_small. rewrite Ht, lenZ_app in Hl.
      pose proof (lenZ_nonneg x). pose proof (lenZ_nonneg t). lia.
Qed.

(** A stored child: the pointer leads to the name, which goes on. *)
Definition child_stored (child : option (list Z * bool)) (res : option (mem * Z * bool)) (bound : Z) : Prop :=
  match child with
  | None => res = None
  | Some (x, is_directory) => exists t, res = Some (x ++ t, lenZ x, is_directory) /\
      no_nul x /\ t <> [] /\ lenZ x <= bound
  end.

Lemma child_results_spec g r :
  no_nul g -> lenZ g < 2 ^ 32 ->
  exists res, child_results (g ++ 0 :: r) = Some res /\ child_stored (piece_of g) res (lenZ g).
Proof.
  intros Hg Hgl. unfold child_results, piece_of. destruct g as [|c g]; [by eexists|].
  destruct (child_scan_spec (c :: g) r) as (x & more & Hsp & [t Ht] & Hsc); [done..|]. rewrite Hsp, Hsc.
  change (rd ((c :: g) ++ 0 :: r) 0) with (Some c). cbn [mbind option_bind].
  rewrite (proj2 (Z.eqb_neq c 0)) by (by inversion Hg). eexists. split; [done|]. rewrite Ht in *.
  rewrite lenZ_app in *. pose proof (lenZ_nonneg t). apply no_nul_app in Hg as [Hx _].
  destruct more; exists (t ++ 0 :: r); rewrite <- app_assoc; split_and!; done || lia || by destruct t.
Qed.

Lemma child_remainder_spec dir f r1 r2 :
  no_nul dir -> no_nul f -> lenZ dir < 2 ^ 32 ->
  child_remainder (dir ++ 0 :: r1) (f ++ 0 :: r2) =
    Some (match below dir f with Some g => Some (g ++ 0 :: r2) | None => None end).
Proof.
  intros Hnd Hnf Hld. pose proof (lenZ_nonneg dir). unfold child_remainder.
  rewrite strlen_app by done. cbn [mbind option_bind]. rewrite u32_small by lia. unfold below.
  destruct dir as [|x dir]; [done|].
  rewrite (proj2 (Z.eqb_neq _ 0)) by (rewrite lenZ_cons; pose proof (lenZ_nonneg dir); lia).
  destruct (memcmp_prefix f (x :: dir) r2 (0 :: r1) Hnd) as (z & -> & Hz0). cbn [mbind option_bind].
  destruct (Z.eqb_spec z 0) as [Hz1|Hz1]; cbn [negb].
  2:{ rewrite decide_False by (intros [? _]; by apply Hz1, Hz0). done. }
  pose proof (proj1 Hz0 Hz1) as Hpre. set (d := x :: dir) in *.
  rewrite <- (take_drop (length d) f), Hpre. set (g := drop (length d) f) in *.
  replace (Z.to_nat (lenZ d + 1)) with (length d + 1)%nat by (unfold lenZ; lia).
  unfold rd. rewrite (proj2 (Z.leb_le 0 _)) by done. unfold lenZ. rewrite Nat2Z.id, <- !app_assoc.
  assert (Hlk : forall k : mem, (d ++ k) !! length d = k !! 0%nat)
    by (intros k; by rewrite lookup_app_r, Nat.sub_diag by lia).
  rewrite !Hlk, take_app_length. destruct g as [|c g].
  - cbn [app lookup list_lookup mbind option_bind]. change (negb (0 =? ch "/")) with true.
    rewrite decide_False by (intros [_ [=]]). done.
  - cbn [app lookup list_lookup mbind option_bind]. change (ch "/") with slash.
    destruct (Z.eqb_spec c slash) as [->|Hc]; cbn [negb].
    + rewrite decide_True by done. rewrite !drop_app_ge by lia.
      replace (length d + 1 - length d)%nat with 1%nat by lia.
      replace (S (length d) - length d)%nat with 1%nat by lia. done.
    + rewrite decide_False by (intros [_ [=]]; done). done.
Qed.

(** [vfs_collect_child_name] computes [child_of], without reading outside the
    two strings. *)
Lemma vfs_collect_child_name_spec directory file_name dir f :
  cval directory = Some dir -> cval file_name = Some f -> lenZ dir < 2 ^ 32 -> lenZ f < 2 ^ 32 ->
  exists res, vfs_collect_child_name directory file_name = Some res /\
    child_stored (child_of dir f) res (lenZ f).
Proof.
  intros [Hnd [r1 ->]]%cval_inv [Hnf [r2 ->]]%cval_inv Hld Hlf. unfold vfs_collect_child_name.
  rewrite child_remainder_spec by done. cbn [mbind option_bind]. unfold child_of.
  destruct (below dir f) as [g|] eqn:Hb; cbn [mbind option_bind]; [|by eexists].
  assert (Hg : no_nul g /\ lenZ g <= lenZ f).
  { unfold below in Hb. destruct dir as [|x dir]; [by injection Hb as ->|].
    case_decide; [|done]. injection Hb as <-. split; [by apply no_nul_drop|].
    unfold lenZ. rewrite length_drop. lia. }
  destruct Hg as [Hg Hgl]. destruct (child_results_spec g r2) as (res & -> & Hres); [done|lia|].
  exists res. split; [done|]. unfold child_stored in *. destruct (piece_of g) as [[x b]|]; [|done].
  destruct Hres as (t & -> & ? & ? & ?). exists t. split_and!; try done. lia.
Qed.

(** *** The names already listed *)

(** The first rows of [seen] hold [names]. *)
Record rows (seen : list mem) (names : list (list Z)) : Prop := {
  rows_len : lenZ seen = TINYFS_MAX_FILES;
  rows_size : Forall (fun r => lenZ r = VFS_PATH_MAX) seen;
  rows_names : forall i x, names !! i = Some x ->
    exists t, seen !! i = Some (x ++ 0 :: t) /\ no_nul x
}.

Lemma row_compare x y t p :
  no_nul x -> no_nul y -> p <> [] -> lenZ (x ++ 0 :: t) = VFS_PATH_MAX -> lenZ y < VFS_PATH_MAX ->
  exists c, rd (x ++ 0 :: t) (lenZ y) = Some c /\
    (if c =? 0 then d ← memcmp (x ++ 0 :: t) (y ++ p) (lenZ y); Some (d =? 0) else Some false) =
      Some (bool_decide (x = y)).
Proof.
  intros Hx Hy Hp Hl Hly. pose proof (lenZ_nonneg y).
  destruct (rd_Some (x ++ 0 :: t) (lenZ y)) as [c Hc]; [lia|]. exists c. split; [done|].
  unfold rd in Hc. rewrite (proj2 (Z.leb_le 0 _)) in Hc by lia.
  replace (Z.to_nat (lenZ y)) with (length y) in Hc by (unfold lenZ; lia).
  destruct (Z.eqb_spec c 0) as [->|Hc0].
  - destruct (memcmp_take (x ++ 0 :: t) (y ++ p) (lenZ y)) as (z & -> & Hz);
      [lia|lia|rewrite lenZ_app; pose proof (lenZ_nonneg p); lia|].
    cbn [mbind option_bind]. f_equal. rewrite take_lenZ_app in Hz.
    replace (Z.to_nat (lenZ y)) with (length y) in Hz by (unfold lenZ; lia).
    case_bool_decide as Hxy.
    + subst y. apply Z.eqb_eq, Hz. apply take_app_length.
    + apply Z.eqb_neq. intros Hz0. apply Hxy. pose proof (proj1 Hz Hz0) as Hpre.
      assert (Hcv : cval (x ++ 0 :: t) = Some y).
      { rewrite <- (take_drop_middle _ _ _ Hc), Hpre. by apply cval_app. }
      rewrite cval_app in Hcv by done. by injection Hcv.
  - f_equal. rewrite bool_decide_eq_false_2; [done|]. intros ->. apply Hc0.
    rewrite lookup_app_r, Nat.sub_diag in Hc by lia. by injection Hc.
Qed.

Lemma name_seen_loop_spec n i seen names x p :
  rows seen names -> no_nul x -> p <> [] -> lenZ x < VFS_PATH_MAX -> (i + n = length names)%nat ->
  name_seen_loop n (Z.of_nat i) seen (x ++ p) (lenZ x) = Some (bool_decide (x ∈ drop i names)).
Proof.
  intros Hr Hx Hp Hl. revert i. induction n as [|n IH]; intros i Hi; cbn [name_seen_loop].
  { rewrite drop_ge by lia. by rewrite bool_decide_eq_false_2 by apply not_elem_of_nil. }
  destruct (lookup_lt_is_Some_2 names i) as [y Hy]; [lia|].
  destruct (rows_names _ _ Hr i y Hy) as (t & Hs & Hyn).
  pose proof (Forall_lookup_1 _ _ _ _ (rows_size _ _ Hr) Hs) as Hsz. cbn beta in Hsz.
  rewrite rd_nat, Hs. cbn [mbind option_bind].
  destruct (row_compare y x t p) as (c & Hc & Hcmp); try done. rewrite Hc. cbn [mbind option_bind].
  rewrite Hcmp. cbn [mbind option_bind]. rewrite (drop_S _ _ _ Hy). case_bool_decide as Hyx.
  - rewrite bool_decide_eq_true_2; [done|]. subst y. constructor.
  - replace (Z.of_nat i + 1) with (Z.of_nat (S i)) by lia. rewrite IH by lia. f_equal.
    apply bool_decide_ext. rewrite elem_of_cons. split; [by right|by intros [->|]].
Qed.

(** Storing a name in a row of 64 bytes. *)
Lemma put_name_spec row x p :
  lenZ row = VFS_PATH_MAX -> lenZ x < VFS_PATH_MAX ->
  exists t, put_name row (x ++ p) (lenZ x) = Some (x ++ 0 :: t) /\ lenZ (x ++ 0 :: t) = VFS_PATH_MAX.
Proof.
  intros Hr Hx. pose proof (lenZ_nonneg x). pose proof (lenZ_nonneg p). unfold put_name.
  rewrite memcpy_spec by (rewrite ?lenZ_app; lia). cbn [mbind option_bind].
  unfold slice. change (Z.to_nat 0) with 0%nat. rewrite drop_0, take_lenZ_app.
  change row with ([] ++ row). change 0%nat with (@length Z []). rewrite splice_at. cbn [app].
  destruct (drop (length x) row) as [|y t] eqn:Hd.
  - apply (f_equal length) in Hd. rewrite length_drop in Hd. unfold lenZ in *. simpl in Hd. lia.
  - exists t. rewrite wr_app. split; [done|]. apply (f_equal length) in Hd. rewrite length_drop in Hd.
    unfold lenZ in *. rewrite length_app. simpl in *. lia.
Qed.

(** What [vfs_next_child] decides about an entry. *)
Definition new_child (dir f : list Z) (names : list (list Z)) : option (list Z * bool) :=
  match child_of dir f with
  | Some (x, b) => if decide (x ∈ names) then None else Some (x, b)
  | None => None
  end.

Lemma vfs_next_child_spec normalized entry dir f seen names :
  cval normalized = Some dir -> cval entry = Some f -> lenZ dir < VFS_PATH_MAX -> lenZ f < VFS_PATH_MAX ->
  rows seen names -> lenZ names < TINYFS_MAX_FILES ->
  match new_child dir f names with
  | None => vfs_next_child normalized seen (lenZ names) entry = Some None
  | Some (x, b) => exists seen' p,
      vfs_next_child normalized seen (lenZ names) entry =
        Some (Some (seen', lenZ (names ++ [x]), x ++ p, lenZ x, b)) /\
      rows seen' (names ++ [x]) /\ no_nul x /\ lenZ x < VFS_PATH_MAX
  end.
Proof.
  intros Hd Hf Hdl Hfl Hr Hn. unfold new_child, vfs_next_child.
  unfold VFS_PATH_MAX, TINYFS_NAME_MAX, TINYFS_MAX_FILES in *.
  destruct (vfs_collect_child_name_spec normalized entry dir f) as (res & -> & Hres); try done; try lia.
  cbn [mbind option_bind]. unfold child_stored in Hres. destruct (child_of dir f) as [[x b]|]; [|by rewrite Hres].
  destruct Hres as (p & -> & Hx & Hp & Hxl). unfold vfs_name_seen.
  replace (Z.to_nat (lenZ names)) with (length names) by (unfold lenZ; lia).
  pose proof (name_seen_loop_spec (length names) 0 seen names x p Hr Hx Hp) as Hseen.
  change (Z.of_nat 0) with 0 in Hseen. rewrite drop_0 in Hseen.
  rewrite Hseen; [clear Hseen|unfold VFS_PATH_MAX, TINYFS_NAME_MAX; lia|done].
  cbn [mbind option_bind]. destruct (decide (x ∈ names)) as [Hin|Hin].
  { by rewrite (bool_decide_eq_true_2 (x ∈ names)) by done. }
  rewrite (bool_decide_eq_false_2 (x ∈ names)) by done.
  pose proof Hr as [Hsl Hss Hsn]. unfold TINYFS_MAX_FILES in *. pose proof (lenZ_nonneg names).
  destruct (rd_Some seen (lenZ names)) as [row Hrow]; [lia|]. rewrite Hrow. cbn [mbind option_bind].
  assert (Hrl : lenZ row = VFS_PATH_MAX).
  { unfold rd in Hrow. destruct (0 <=? lenZ names); [|done]. exact (Forall_lookup_1 _ _ _ _ Hss Hrow). }
  destruct (put_name_spec row x p Hrl) as (t & -> & Ht); [unfold VFS_PATH_MAX, TINYFS_NAME_MAX; lia|].
  cbn [mbind option_bind]. rewrite wr_Some by lia. cbn [mbind option_bind].
  replace (Z.to_nat (lenZ names)) with (length names) by (unfold lenZ; lia).
  eexists _, p. split; [|split; [|split; [done|lia]]].
  { rewrite u32_small by lia. by rewrite lenZ_app. }
  split; [unfold lenZ in *; by rewrite length_insert|by apply Forall_insert|].
  intros i y [Hi|[Hge Hi]]%lookup_app_Some.
  - destruct (Hsn i y Hi) as (t' & Hs & Hy). exists t'. split; [|done].
    rewrite list_lookup_insert_ne; [done|]. apply lookup_lt_Some in Hi. lia.
  - apply list_lookup_singleton_Some in Hi as [Hi0 <-]. exists t.
    replace i with (length names) by lia. split; [|done]. apply list_lookup_insert_eq. unfold lenZ in *. lia.
Qed.

(** ** The loop over the files *)

Section loop.
Context {X : Type} `{DiskDriver X} {T A : Type}.
Context (run : forall B, M (tinyfs X) B -> M T B) (get : T -> tinyfs X).
Context (run_pure : forall B (m : M (tinyfs X) B) a t,
  m (get t) = Ret a (get t) [] -> run B m t = Ret a t []).

(** The name of an entry. *)
Definition entry_name (e : mem) : list Z := default [] (cval e).

Lemma mounted_name (s : tinyfs X) p d i e :
  mounted s p d -> mounted_files s !! i = Some e ->
  cval e = Some (entry_name e) /\ lenZ (entry_name e) < VFS_PATH_MAX.
Proof.
  intros Hm Hi. destruct (mounted_file s p d i e Hm Hi) as (_ & [f Hf] & _). unfold entry_name.
  rewrite Hf. split; [done|]. simpl. pose proof (Forall_lookup_1 _ _ _ _ (mt_names _ _ _ Hm) Hi) as H63.
  cbn beta in H63. apply cval_inv in Hf as [Hn [r ->]]. unfold VFS_PATH_MAX, TINYFS_NAME_MAX, lenZ.
  destruct (decide (length f < 64)%nat); [lia|]. rewrite lookup_app_l in H63 by lia.
  by destruct (Forall_lookup_1 _ _ _ _ Hn H63).
Qed.

(** The rule of the loop: [Inv k] holds before the turn for file [k] and what
    was printed so far, [Post] when it is left. *)
Lemma for_files_rule t0 p d (body : A -> Z -> mem -> M T (A * bool))
    (Inv : nat -> A -> T -> list Z -> Prop) (Post : A -> T -> list Z -> Prop) :
  mounted (get t0) p d ->
  (forall k e acc t o, mounted_files (get t0) !! k = Some e -> get t = get t0 -> Inv k acc t o ->
     exists acc' stop t' o', body acc (Z.of_nat k) e t = Ret (acc', stop) t' o' /\ 
       if (stop : bool) then Post acc' t' (o ++ o') else get t' = get t0 /\ Inv (S k) acc' t' (o ++ o')) ->
  (forall acc t o, get t = get t0 -> Inv (length (mounted_files (get t0))) acc t o -> Post acc t o) ->
  forall acc, Inv 0%nat acc t0 [] ->
  exists acc' t' o, for_files run files_fuel 0 acc body t0 = Ret acc' t' o /\ Post acc' t' o.
Proof using run_pure.
  intros Hm Hbody Hend.
  assert (Hcnt : 0 <= file_count (tinyfs_header (get t0)) <= TINYFS_MAX_FILES) by (destruct Hm; done).
  pose proof (length_mounted_files _ _ _ Hm) as Hlen. pose proof (mt_ready _ _ _ Hm) as Hrdy.
  assert (Hgo : forall fuel k acc t o, get t = get t0 -> Inv k acc t o ->
    (k <= length (mounted_files (get t0)) < k + fuel)%nat ->
    exists acc' t' o', for_files run fuel (Z.of_nat k) acc body t = Ret acc' t' o' /\ Post acc' t' (o ++ o')).
  { induction fuel as [|fuel IH]; intros k acc t o Ht Hi Hk; [lia|]. cbn [for_files].
    assert (Hcount : tinyfs_file_count (get t) = Ret (file_count (tinyfs_header (get t0))) (get t) []).
    { unfold tinyfs_file_count. krun. rewrite Ht, Hrdy. done. }
    rewrite (bind_Ret_nil _ _ _ _ _ (run_pure _ _ _ _ Hcount)).
    destruct (Z.ltb_spec (Z.of_nat k) (file_count (tinyfs_header (get t0)))) as [Hlt|Hge]; cbn [negb].
    2:{ exists acc, t, []. split; [done|]. rewrite app_nil_r. apply Hend; [done|].
        by replace (length (mounted_files (get t0))) with k by lia. }
    assert (Hget : tinyfs_get_file (Z.of_nat k) (get t) = Ret (Some (Z.of_nat k)) (get t) []).
    { unfold tinyfs_get_file. krun. rewrite Ht, Hrdy. rewrite (proj2 (Z.leb_gt _ _)) by done. done. }
    rewrite (bind_Ret_nil _ _ _ _ _ (run_pure _ _ _ _ Hget)).
    destruct (lookup_lt_is_Some_2 (mounted_files (get t0)) k) as [e He]; [lia|].
    assert (Hent : tinyfs_entry (Z.of_nat k) (get t) = Ret e (get t) []).
    { unfold tinyfs_entry. krun. destruct (mounted_file _ _ _ _ _ Hm He) as (Hrd & _). by rewrite Ht, Hrd. }
    rewrite (bind_Ret_nil _ _ _ _ _ (run_pure _ _ _ _ Hent)).
    destruct (Hbody k e acc t o He Ht Hi) as (acc1 & stop & t1 & o1 & Hb & Hst).
    rewrite (bind_Ret _ _ _ _ _ _ Hb). destruct stop.
    - unfold ret. exists acc1, t1, o1. by rewrite app_nil_r.
    - destruct Hst as [Ht1 Hi1]. replace (Z.of_nat k + 1) with (Z.of_nat (S k)) by lia.
      destruct (IH (S k) acc1 t1 (o ++ o1) Ht1 Hi1) as (acc2 & t2 & o2 & -> & Hp); [lia|].
      exists acc2, t2, (o1 ++ o2). by rewrite app_assoc. }
  intros acc Hi. unfold files_fuel. change 0 with (Z.of_nat 0).
  destruct (Hgo (S (Z.to_nat TINYFS_MAX_FILES)) 0%nat acc t0 [] eq_refl Hi) as (acc' & t' & o & -> & Hp).
  { unfold TINYFS_MAX_FILES in *. lia. }
  by exists acc', t', o.
Qed.

End loop.

(** ** Operations *)

Section proofs.
Context {X : Type} `{DiskDriver X}.
Implicit Types (s : vfs X) (d : block_device X).
Context (local64 : mem) (local_seen : list mem).
Context (local64_len : lenZ local64 = VFS_PATH_MAX) (local_seen_rows : rows local_seen []).

(** A mounted root over a mounted disk. *)
Record root_mounted s (p : nat) d : Prop := {
  rm_tiny : mounted (vfs_tinyfs s) p d;
  rm_ready : vfs_ready s = 1;
  rm_name : lenZ (vfs_stat_name s) = VFS_PATH_MAX
}.

Lemma tiny_pure B (m : M (tinyfs X) B) a s :
  m (vfs_tinyfs s) = Ret a (vfs_tinyfs s) [] -> tiny m s = Ret a s [].
Proof. intros Hm. unfold tiny, zoom. rewrite Hm. by destruct s. Qed.

Definition names s : list (list Z) := map entry_name (mounted_files (vfs_tinyfs s)).

(** A directory is the root or a prefix of some file's path. *)
Definition is_directory s (dir : list Z) : bool :=
  bool_decide (dir = []) || existsb (fun f => match child_of dir f with Some _ => true | None => false end) (names s).

Lemma dir_empty dir r : no_nul dir -> exists c, rd (dir ++ 0 :: r) 0 = Some c /\ (c =? 0) = bool_decide (dir = []).
Proof.
  intros Hd. destruct dir as [|c dir]; [by exists 0|]. exists c. split; [done|].
  rewrite bool_decide_eq_false_2 by done. apply Z.eqb_neq. by inversion Hd.
Qed.

Lemma vfs_directory_exists_spec s p d directory dir :
  root_mounted s p d -> cval directory = Some dir -> lenZ dir < VFS_PATH_MAX ->
  vfs_directory_exists directory s = Ret (is_directory s dir) s [].
Proof.
  intros [Hm _ _] Hc Hl. pose proof Hc as [Hn [r ->]]%cval_inv. unfold vfs_directory_exists, is_directory.
  destruct (dir_empty dir r Hn) as (c & Hrd & Hc0). rewrite (bind_deref_Some _ _ _ _ Hrd), Hc0.
  case_bool_decide; [done|]. cbn [orb].
  set (has := fun f => match child_of dir f with Some _ => true | None => false end).
  destruct (for_files_rule (@tiny X) vfs_tinyfs tiny_pure s p d
    (fun (_ : bool) _ entry =>
      child <- deref (vfs_collect_child_name (dir ++ 0 :: r) entry);;
      match child with Some _ => ret (true, true) | None => ret (false, false) end)
    (fun k acc t o => t = s /\ o = [] /\ acc = false /\ existsb has (take k (names s)) = false)
    (fun acc t o => t = s /\ o = [] /\ acc = existsb has (names s))) with (acc := false)
    as (acc & t & o & He & -> & -> & ->); try done.
  - intros k e acc t o He _ (-> & -> & -> & Hex).
    destruct (mounted_name _ _ _ _ _ Hm He) as [Hcv Hle]. unfold VFS_PATH_MAX, TINYFS_NAME_MAX in *.
    destruct (vfs_collect_child_name_spec (dir ++ 0 :: r) e dir (entry_name e) Hc Hcv) as (res & Hres & Hst); try lia.
    rewrite (bind_deref_Some _ _ _ _ Hres).
    assert (Hk : names s !! k = Some (entry_name e)) by (unfold names; by rewrite list_lookup_fmap, He).
    assert (Hh : has (entry_name e) = match res with Some _ => true | None => false end).
    { unfold has. destruct (child_of dir (entry_name e)) as [[x b]|]; simpl in Hst; [|by subst].
      by destruct Hst as (t & -> & _). }
    destruct res; eexists _, _, _, _; (split; [done|]); (split_and!; [done..|]).
    + symmetry. apply existsb_exists. exists (entry_name e). split; [|done].
      apply list_elem_of_In. by eapply list_elem_of_lookup_2.
    + rewrite (take_S_r _ _ _ Hk), existsb_app, Hex. simpl. by rewrite Hh.
  - intros acc t o _ (-> & -> & -> & Hex). split_and!; try done.
    rewrite <- Hex. f_equal. apply take_ge. unfold names. by rewrite length_map.
Qed.

(** *** Listing *)

(** The children a listing shows, each once, in the order of the files. *)
Fixpoint children (dir : list Z) (fs seen : list (list Z)) : list (list Z) :=
  match fs with
  | [] => []
  | f :: fs' =>
      match new_child dir f seen with
      | Some (x, _) => x :: children dir fs' (seen ++ [x])
      | None => children dir fs' seen
      end
  end.

Definition lines (xs : list (list Z)) : list Z := concat (map (fun x => x ++ [10]) xs).

Lemma kprintf_line {S} (s : S) row x :
  cval row = Some x -> kprintf (nl "%s") [AStr (Some row)] s = Ret tt s (x ++ [10]).
Proof.
  intros Hc. unfold kprintf. rewrite (bind_deref_Some _ (x ++ [10])); [done|].
  assert (Hconv : kprintf_conv 115 [AStr (Some row)] = Some (x, [])) by (unfold kprintf_conv; simpl; by rewrite Hc).
  change (cstr (nl "%s")) with [37; 115; 10; 0]. cbn [kprintf_loop].
  change (37 =? 0) with false. change (negb (37 =? ch "%")) with false. cbn iota.
  change (115 =? 0) with false. cbn iota. by rewrite Hconv.
Qed.

(** The directory a path names, if it exists. *)
Definition directory_at s (t : list Z) : option (list Z) :=
  dir ← normal_path true t; if is_directory s dir then Some dir else None.

Lemma vfs_open_directory_spec s p d path t :
  root_mounted s p d -> cval path = Some t -> lenZ t < 2 ^ 31 ->
  match directory_at s t with
  | Some dir => exists r, vfs_open_directory local64 (Some path) s = Ret (Some (dir ++ 0 :: r)) s [] /\
                  no_nul dir /\ lenZ dir < VFS_PATH_MAX
  | None => vfs_open_directory local64 (Some path) s = Ret None s []
  end.
Proof using local64_len.
  intros Hrm Ht Hl. pose proof Hrm as [_ Hr _]. unfold vfs_open_directory, directory_at. krun. rewrite Hr.
  change (1 =? 0) with false. cbn iota.
  destruct (vfs_normalize_path_spec path local64 t true Ht Hl local64_len) as (st & b & Hn & Hb & Hres).
  rewrite (bind_deref_Some _ _ _ _ Hn). destruct (normal_path true t) as [dir|]; cbn [mbind option_bind].
  - destruct Hres as (-> & [r ->] & Hnn & Hlen). change (negb (0 =? 0)) with false. cbn iota.
    rewrite (bind_Ret_nil _ _ _ _ _ (vfs_directory_exists_spec s p d _ dir Hrm (cval_app dir r Hnn) Hlen)).
    destruct (is_directory s dir); [by exists r|done].
  - by subst st.
Qed.

(** The turns of [vfs_list]: the names of the first [k] files are listed. *)
Definition listed s (dir : list Z) (k : nat) (xs : list (list Z)) : Prop :=
  xs ++ children dir (drop k (names s)) xs = children dir (names s) [] /\ (length xs <= k)%nat.

Lemma listed_step s dir k f xs :
  listed s dir k xs -> names s !! k = Some f ->
  match new_child dir f xs with
  | Some (x, _) => listed s dir (S k) (xs ++ [x])
  | None => listed s dir (S k) xs
  end.
Proof.
  intros [Hc Hl] Hk. rewrite (drop_S _ _ _ Hk) in Hc. cbn [children] in Hc.
  destruct (new_child dir f xs) as [[x b]|].
  - split; [by rewrite <- app_assoc|]. rewrite length_app. simpl. lia.
  - split; [done|lia].
Qed.

Lemma listed_end s dir xs : listed s dir (length (names s)) xs -> xs = children dir (names s) [].
Proof. intros [Hc _]. by rewrite drop_all, app_nil_r in Hc. Qed.

(** C31. [vfs_list] prints each child of the directory once, one per line, in the
    order of the files; it fails exactly for a path that names no directory. *)
Theorem vfs_list_spec s p d path t :
  root_mounted s p d -> cval path = Some t -> lenZ t < 2 ^ 31 ->
  vfs_list local64 local_seen (Some path) s =
    match directory_at s t with
    | Some dir => Ret 0 s (lines (children dir (names s) []))
    | None => Ret (-1) s []
    end.
Proof using local64_len local_seen_rows.
  intros Hrm Ht Hl. pose proof Hrm as [Hm _ _]. unfold vfs_list.
  pose proof (vfs_open_directory_spec s p d path t Hrm Ht Hl) as Ho.
  destruct (directory_at s t) as [dir|]; [|by rewrite (bind_Ret_nil _ _ _ _ _ Ho)].
  destruct Ho as (r & Ho & Hnn & Hdl). rewrite (bind_Ret_nil _ _ _ _ _ Ho).
  match goal with |- context [for_files _ _ _ _ ?f] => set (body := f) end.
  destruct (for_files_rule (@tiny X) vfs_tinyfs tiny_pure s p d body
    (fun k acc t o => t = s /\ exists xs, rows (fst acc) xs /\ snd acc = lenZ xs /\ o = lines xs /\ listed s dir k xs)
    (fun acc t o => t = s /\ o = lines (children dir (names s) [])) Hm) with (acc := (local_seen, 0))
    as (acc & s' & o & He & -> & ->).
  - intros k e [seen cnt] t0 o He _ (-> & xs & Hrows & Hcnt & -> & Hlist). cbn [fst snd] in *. subst cnt.
    destruct (mounted_name _ _ _ _ _ Hm He) as [Hcv Hle].
    assert (Hk : names s !! k = Some (entry_name e)) by (unfold names; by rewrite list_lookup_fmap, He).
    assert (Hxs : lenZ xs < TINYFS_MAX_FILES).
    { pose proof (lookup_lt_Some _ _ _ He) as Hlt. rewrite (length_mounted_files _ _ _ Hm) in Hlt.
      pose proof (mt_count _ _ _ Hm). destruct Hlist as [_ ?]. unfold lenZ. lia. }
    pose proof (listed_step s dir k _ xs Hlist Hk) as Hstep.
    pose proof (vfs_next_child_spec (dir ++ 0 :: r) e dir (entry_name e) seen xs (cval_app _ _ Hnn) Hcv
      Hdl Hle Hrows Hxs) as Hnext. unfold body.
    destruct (new_child dir (entry_name e) xs) as [[x b]|].
    + destruct Hnext as (seen' & q & -> & Hrows' & Hx & Hxl). rewrite (bind_deref_Some _ _ _ _ eq_refl).
      destruct (rows_names _ _ Hrows' (length xs) x) as (tl & Hrow & _).
      { by rewrite lookup_app_r, Nat.sub_diag by lia. }
      rewrite (bind_deref_Some _ (x ++ 0 :: tl)).
      2:{ rewrite lenZ_app. change (lenZ [x]) with 1. replace (lenZ xs + 1 - 1) with (Z.of_nat (length xs)) by (unfold lenZ; lia).
          by rewrite rd_nat. }
      rewrite (bind_Ret _ _ _ _ _ _ (kprintf_line s _ x (cval_app _ _ Hx))). unfold ret.
      eexists _, false, s, _. split; [reflexivity|]. split; [done|]. split; [done|].
      exists (xs ++ [x]). split_and!; try done. rewrite app_nil_r. unfold lines.
      rewrite map_app, concat_app. simpl. by rewrite app_nil_r.
    + rewrite Hnext, (bind_deref_Some _ _ _ _ eq_refl).
      eexists _, false, s, _. split; [reflexivity|]. split; [done|]. split; [done|].
      exists xs. by rewrite app_nil_r.
  - intros [seen cnt] t0 o _ (-> & xs & _ & _ & -> & Hlist). split; [done|]. f_equal.
    apply listed_end. unfold names in *. by rewrite length_map.
  - split; [done|]. exists []. split_and!; try done. 
  - rewrite (bind_Ret _ _ _ _ _ _ He). unfold ret. by rewrite app_nil_r.
Qed.

(** ** Listing with a callback *)

(** What a directory lists: each child once, with the size and the flags of the
    first file that shows it; a directory in between has a size of 0. *)
Fixpoint listing (dir : list Z) (es : list mem) (seen : list (list Z)) : list (list Z * Z * Z) :=
  match es with
  | [] => []
  | e :: es' =>
      match new_child dir (entry_name e) seen with
      | Some (x, b) =>
          (x, if b then 0 else file_size e, if b then VFS_FILE_FLAG_DIRECTORY else file_flags e) :: listing dir es' (seen ++ [x])
      | None => listing dir es' seen
      end
  end.
Definition listed_name (entry : list Z * Z * Z) : list Z := entry.1.1.

(** The entries that are shown when the turn of entry [k] comes are [xs]. *)
Definition shown_entries s (dir : list Z) (k : nat) (xs : list (list Z * Z * Z)) : Prop :=
  xs ++ listing dir (drop k (mounted_files (vfs_tinyfs s))) (map listed_name xs) = listing dir (mounted_files (vfs_tinyfs s)) [] /\ (length xs <= k)%nat.

Lemma shown_step s dir k e xs :
  shown_entries s dir k xs -> mounted_files (vfs_tinyfs s) !! k = Some e ->
  match new_child dir (entry_name e) (map listed_name xs) with
  | Some (x, b) => shown_entries s dir (S k) (xs ++ [(x, if b then 0 else file_size e, if b then VFS_FILE_FLAG_DIRECTORY else file_flags e)])
  | None => shown_entries s dir (S k) xs
  end.
Proof.
  intros [Hc Hl] Hk. rewrite (drop_S _ _ _ Hk) in Hc. cbn [listing] in Hc. destruct (new_child dir (entry_name e) (map listed_name xs)) as [[x b]|].
  - split; [rewrite <- app_assoc, map_app; exact Hc|]. rewrite length_app. simpl. lia.
  - split; [done|lia].
Qed.

(** The rule of [vfs_list_entries]: the callback is called for each entry of the
    listing in turn, and keeps [Inv] of the entries it was called for, its state
    and what was printed. *)
Lemma vfs_list_entries_rule {C} s p d path t (call : mem -> Z -> Z -> M C Z) (Inv : list (list Z * Z * Z) -> C -> list Z -> Prop) c0 :
  root_mounted s p d -> cval path = Some t -> lenZ t < 2 ^ 31 -> Inv [] c0 [] ->
  (forall xs c o row x size flags, Inv xs c o -> lenZ xs < TINYFS_MAX_FILES -> cval row = Some x -> lenZ x < VFS_PATH_MAX ->
     exists c' o', call row size flags c = Ret 0 c' o' /\ Inv (xs ++ [(x, size, flags)]) c' (o ++ o')) ->
  match directory_at s t with
  | Some dir => exists c' o, vfs_list_entries local64 local_seen (Some path) (Some call) (s, c0) = Ret 0 (s, c') o /\
                  Inv (listing dir (mounted_files (vfs_tinyfs s)) []) c' o
  | None => vfs_list_entries local64 local_seen (Some path) (Some call) (s, c0) = Ret (-1) (s, c0) []
  end.
Proof using local64_len local_seen_rows.
  intros Hrm Ht Hl Hi0 Hcall. pose proof Hrm as [Hm _ _]. unfold vfs_list_entries.
  pose proof (vfs_open_directory_spec s p d path t Hrm Ht Hl) as Ho.
  set (get := fst : vfs X * C -> vfs X). set (put := fun (v' : vfs X) (s : vfs X * C) => (v', s.2)).
  destruct (directory_at s t) as [dir|]; [|by rewrite (bind_Ret_nil _ _ _ _ _ (zoom_Ret get put _ (s, c0) _ _ _ Ho))].
  destruct Ho as (r & Ho & Hnn & Hdl). rewrite (bind_Ret_nil _ _ _ _ _ (zoom_Ret get put _ (s, c0) _ _ _ Ho)).
  match goal with |- context [for_files ?f _ _ _ ?g] => set (run := f); set (body := g) end.
  assert (Hpure : forall B (m : M (tinyfs X) B) a (w : vfs X * C), m (vfs_tinyfs w.1) = Ret a (vfs_tinyfs w.1) [] -> run B m w = Ret a w []).
  { intros B m a [w c] Hr. unfold run, in_vfs, zoom. cbn [fst snd] in *. by rewrite (tiny_pure _ _ _ _ Hr). }
  destruct (for_files_rule run (fun w : vfs X * C => vfs_tinyfs w.1) Hpure (s, c0) p d body
    (fun k acc w o => w.1 = s /\ exists xs, rows acc.1.1 (map listed_name xs) /\ acc.1.2 = lenZ xs /\ lenZ acc.2 = VFS_PATH_MAX /\
       Inv xs w.2 o /\ shown_entries s dir k xs)
    (fun acc w o => w.1 = s /\ Inv (listing dir (mounted_files (vfs_tinyfs s)) []) w.2 o) Hm)
    with (acc := (local_seen, 0, local64)) as (acc & [w c] & o & He & Hw & Hinv).
  - intros k e [[seen cnt] entry] [w c] o He _ (Hw & xs & Hrows & Hcnt & Hent & Hinv & Hsh). cbn [fst snd] in *. subst w cnt.
    destruct (mounted_name _ _ _ _ _ Hm He) as [Hcv Hle].
    assert (Hml : lenZ (map listed_name xs) = lenZ xs) by (unfold lenZ; by rewrite length_map).
    assert (Hxs : lenZ (map listed_name xs) < TINYFS_MAX_FILES).
    { pose proof (lookup_lt_Some _ _ _ He) as Hlt. rewrite (length_mounted_files _ _ _ Hm) in Hlt.
      pose proof (mt_count _ _ _ Hm). destruct Hsh as [_ ?]. unfold lenZ in *. lia. }
    pose proof (shown_step s dir k e xs Hsh He) as Hstep.
    pose proof (vfs_next_child_spec (dir ++ 0 :: r) e dir (entry_name e) seen (map listed_name xs) (cval_app _ _ Hnn) Hcv Hdl Hle Hrows Hxs) as Hnext.
    rewrite Hml in Hnext, Hxs. unfold body. destruct (new_child dir (entry_name e) (map listed_name xs)) as [[x b]|].
    + destruct Hnext as (seen' & q & -> & Hrows' & Hx & Hxl). rewrite (bind_deref_Some _ _ _ _ eq_refl). cbn iota beta.
      destruct (put_name_spec entry x q Hent Hxl) as (tl & -> & Htl). rewrite (bind_deref_Some _ _ _ _ eq_refl).
      destruct (Hcall xs c o (x ++ 0 :: tl) x (if b then 0 else file_size e) (if b then VFS_FILE_FLAG_DIRECTORY else file_flags e)
        Hinv Hxs (cval_app _ _ Hx) Hxl) as (c' & o' & E & Hinv').
      rewrite (bind_Ret _ _ _ _ _ _ (zoom_Ret snd (fun c (s : vfs X * C) => (s.1, c)) _ (s, c) _ _ _ E)).
      cbn [fst snd]. unfold ret. eexists _, false, (s, c'), _. split; [reflexivity|]. split; [done|]. split; [done|].
      exists (xs ++ [(x, if b then 0 else file_size e, if b then VFS_FILE_FLAG_DIRECTORY else file_flags e)]). cbn [fst snd].
      rewrite app_nil_r. split_and!; [by rewrite map_app|rewrite !lenZ_app, Hml; done|done|done|done].
    + rewrite Hnext, (bind_deref_Some _ _ _ _ eq_refl). eexists _, false, (s, c), _. split; [reflexivity|]. split; [done|]. split; [done|].
      exists xs. by rewrite app_nil_r.
  - intros [[seen cnt] entry] [w c] o _ (Hw & xs & _ & _ & _ & Hinv & Hsh). cbn [fst snd] in *. split; [done|].
    destruct Hsh as [Hc _]. rewrite drop_all in Hc. cbn [listing] in Hc. rewrite app_nil_r in Hc. by rewrite <- Hc.
  - split; [done|]. by exists [].
  - cbn [fst snd] in *. subst w. exists c, o. split; [|done]. rewrite (bind_Ret _ _ _ _ _ _ He). unfold ret. by rewrite app_nil_r.
Qed.

(** *** Status of a path *)

(** What a normalised path names: the root, a file, or a directory. *)
Definition stat_of s (t : list Z) : option vfs_file_info :=
  if decide (t = []) then Some (VfsFileInfo NameRoot 0 VFS_FILE_FLAG_DIRECTORY)
  else match lookup_file (vfs_tinyfs s) t with
       | Some (i, e) => Some (VfsFileInfo (NameFile (Z.of_nat i)) (file_size e) (file_flags e))
       | None => if is_directory s t then Some (VfsFileInfo NameStat 0 VFS_FILE_FLAG_DIRECTORY) else None
       end.

(** The state after [vfs_stat]: only its static result and name changed. *)
Definition stat_done s (t : list Z) (found : bool) s' : Prop :=
  vfs_tinyfs s' = vfs_tinyfs s /\ vfs_ready s' = vfs_ready s /\
  lenZ (vfs_stat_name s') = lenZ (vfs_stat_name s) /\
  match stat_of s t with
  | Some info => found = true /\ vfs_stat_info s' = info /\
      (info_name_of info = NameStat -> cval (vfs_stat_name s') = Some t)
  | None => found = false
  end.

Lemma vfs_stat_normalized_spec s p d t r :
  root_mounted s p d -> no_nul t -> lenZ t < VFS_PATH_MAX ->
  exists found s', vfs_stat_normalized (t ++ 0 :: r) s = Ret found s' [] /\ stat_done s t found s'.
Proof.
  intros [Hm Hr Hnm] Hn Hl. unfold vfs_stat_normalized, stat_done, stat_of.
  destruct (dir_empty t r Hn) as (c & Hrd & Hc0). rewrite (bind_deref_Some _ _ _ _ Hrd), Hc0.
  rewrite (bool_decide_decide (t = [])). destruct (decide (t = [])) as [->|Hne].
  { krun. eexists true, _. split; [reflexivity|]. by split_and!. }
  pose proof (tinyfs_find_spec (vfs_tinyfs s) p d _ t Hm (cval_app _ r Hn)) as Hf.
  rewrite (bind_Ret_nil _ _ _ _ _ (tiny_pure _ _ _ _ Hf)).
  destruct (lookup_file (vfs_tinyfs s) t) as [[i e]|] eqn:Hlk; cbn [fmap option_fmap option_map].
  { rewrite (bind_Ret_nil _ _ _ _ _ (tiny_pure _ _ _ _ (lookup_file_entry _ p d t i e Hm Hlk))). krun.
    eexists true, _. split; [reflexivity|]. by split_and!. }
  match goal with |- context [for_files _ _ _ _ ?f] => set (body := f) end.
  set (has := fun f => match child_of t f with Some _ => true | None => false end).
  assert (Hdir : is_directory s t = existsb has (names s)).
  { unfold is_directory. by rewrite bool_decide_eq_false_2 by done. }
  rewrite Hdir.
  destruct (for_files_rule (@tiny X) vfs_tinyfs tiny_pure s p d body
    (fun k acc s1 o => s1 = s /\ o = [] /\ acc = false /\ existsb has (take k (names s)) = false)
    (fun acc s1 o => o = [] /\ vfs_tinyfs s1 = vfs_tinyfs s /\ vfs_ready s1 = vfs_ready s /\
       lenZ (vfs_stat_name s1) = lenZ (vfs_stat_name s) /\ acc = existsb has (names s) /\
       (acc = true -> vfs_stat_info s1 = VfsFileInfo NameStat 0 VFS_FILE_FLAG_DIRECTORY /\
                      cval (vfs_stat_name s1) = Some t)) Hm) with (acc := false)
    as (acc & s1 & o & He & -> & Ht1 & Hr1 & Hl1 & -> & Hst).
  - intros k e acc s1 o He _ (-> & -> & -> & Hex).
    destruct (mounted_name _ _ _ _ _ Hm He) as [Hcv Hle]. unfold VFS_PATH_MAX, TINYFS_NAME_MAX in *.
    destruct (vfs_collect_child_name_spec (t ++ 0 :: r) e t (entry_name e) (cval_app _ _ Hn) Hcv) as (res & Hres & Hst); try lia.
    unfold body. rewrite (bind_deref_Some _ _ _ _ Hres).
    assert (Hk : names s !! k = Some (entry_name e)) by (unfold names; by rewrite list_lookup_fmap, He).
    assert (Hh : has (entry_name e) = match res with Some _ => true | None => false end).
    { unfold has. destruct (child_of t (entry_name e)) as [[x b]|]; simpl in Hst; [|by subst].
      by destruct Hst as (q & -> & _). }
    destruct res.
    + rewrite (bind_deref_Some _ _ _ _ (strlen_app _ _ Hn)). krun.
      destruct (put_name_spec (vfs_stat_name s) t (0 :: r) Hnm Hl) as (tl & Hput & Htl).
      rewrite (bind_deref_Some _ _ _ _ Hput). krun. eexists true, true, _, []. split; [reflexivity|].
      split_and!; try done; simpl.
      * by rewrite Hnm.
      * symmetry. apply existsb_exists. exists (entry_name e). split; [|done].
        apply list_elem_of_In. by eapply list_elem_of_lookup_2.
      * intros _. split; [done|]. by apply cval_app.
    + eexists false, false, s, []. split; [reflexivity|]. split_and!; try done.
      rewrite (take_S_r _ _ _ Hk), existsb_app, Hex. simpl. by rewrite Hh.
  - intros acc s1 o _ (-> & -> & -> & Hex). split_and!; try done.
    rewrite <- Hex. f_equal. apply take_ge. unfold names. by rewrite length_map.
  - done.
  - exists (existsb has (names s)), s1. split; [exact He|]. split_and!; try done.
    destruct (existsb has (names s)); [|done]. destruct Hst as [Hi Hc]; [done|]. by split_and!.
Qed.

(** [vfs_stat] finds what a path names: nothing exactly when the path has no
    normal form or names neither the root, a file nor a directory. *)
Lemma vfs_stat_spec s p d path t :
  root_mounted s p d -> cval path = Some t -> lenZ t < 2 ^ 31 ->
  exists found s', vfs_stat local64 (Some path) s = Ret found s' [] /\
    match normal_path true t with
    | Some n => stat_done s n found s'
    | None => found = false /\ s' = s
    end.
Proof using local64_len.
  intros Hrm Ht Hl. pose proof Hrm as [_ Hr _]. unfold vfs_stat. krun. rewrite Hr.
  change (1 =? 0) with false. cbn iota.
  destruct (vfs_normalize_path_spec path local64 t true Ht Hl local64_len) as (st & b & Hn & Hb & Hres).
  rewrite (bind_deref_Some _ _ _ _ Hn). destruct (normal_path true t) as [n|].
  - destruct Hres as (-> & [r ->] & Hnn & Hlen). change (negb (0 =? 0)) with false. cbn iota.
    by apply (vfs_stat_normalized_spec s p d).
  - subst st. change (negb (-1 =? 0)) with true. cbn iota. by exists false, s.
Qed.

(** *** Reading *)

(** The file a path names: it has a normal form, is in the table and is not
    marked as a directory. *)
Definition file_at s (t : list Z) : option (list Z * mem) :=
  n ← normal_path false t;
  '(_, e) ← lookup_file (vfs_tinyfs s) n;
  if Z.land (file_flags e) VFS_FILE_FLAG_DIRECTORY =? 0 then Some (n, e) else None.

Lemma vfs_open_file_spec s p d path t :
  root_mounted s p d -> cval path = Some t -> lenZ t < 2 ^ 31 ->
  exists s' opened, vfs_open_file local64 (Some path) s = Ret opened s' [] /\ root_mounted s' p d /\
    vfs_tinyfs s' = vfs_tinyfs s /\
    match file_at s t with
    | Some (n, e) => exists r i, opened = Some (n ++ 0 :: r) /\ no_nul n /\ lookup_file (vfs_tinyfs s) n = Some (i, e) /\
        vfs_stat_info s' = VfsFileInfo (NameFile (Z.of_nat i)) (file_size e) (file_flags e)
    | None => opened = None
    end.
Proof using local64_len.
  intros Hrm Ht Hl. pose proof Hrm as [Hm Hr Hnm]. unfold vfs_open_file, file_at. krun. rewrite Hr.
  change (1 =? 0) with false. cbn iota.
  destruct (vfs_normalize_path_spec path local64 t false Ht Hl local64_len) as (st & b & Hn & Hb & Hres).
  rewrite (bind_deref_Some _ _ _ _ Hn). destruct (normal_path false t) as [n|] eqn:Hnp.
  2:{ subst st. change (negb (-1 =? 0)) with true. cbn iota. by exists s, None. }
  destruct Hres as (-> & [r ->] & Hnn & Hlen). change (negb (0 =? 0)) with false. cbn iota.
  unfold VFS_PATH_MAX, TINYFS_NAME_MAX in *. cbn [mbind option_bind].
  destruct (vfs_stat_spec s p d (n ++ 0 :: r) n Hrm (cval_app _ _ Hnn)) as (found & s' & Hst & Hdone); [lia|].
  rewrite (bind_Ret_nil _ _ _ _ _ Hst). krun. destruct (normal_path_idem _ _ _ Hnp) as [_ Hid].
  rewrite Hid in Hdone. destruct Hdone as (Htn & Hrd & Hln & Hinfo).
  assert (Hne : n <> []).
  { intros ->. revert Hnp. unfold normal_path. intros Hnp.
    destruct (path_segments t) as [|seg segs] eqn:Hsegs; [by rewrite bool_decide_eq_true_2, orb_true_r in Hnp|].
    destruct (_ || _); [done|]. injection Hnp as Hj. pose proof (path_segments_ok t) as Hok. rewrite Hsegs in Hok.
    pose proof (path_segments_join _ Hok) as Hjs. by rewrite Hj in Hjs. }
  unfold stat_of in Hinfo. rewrite decide_False in Hinfo by done.
  eexists s', _. split; [reflexivity|]. split; [split; [by rewrite Htn|congruence|rewrite Hln; exact Hnm]|]. split; [done|].
  destruct (lookup_file (vfs_tinyfs s) n) as [[i e]|] eqn:Hlk; cbn [mbind option_bind].
  - destruct Hinfo as (-> & -> & _). cbn [negb orb info_flags].
    destruct (Z.land (file_flags e) VFS_FILE_FLAG_DIRECTORY =? 0); cbn [negb]; [by exists r, i|done].
  - destruct (is_directory s n); [|by subst found]. destruct Hinfo as (-> & -> & _). done.
Qed.

Lemma vfs_read_file_part_ok s p d path t offset buf size :
  root_mounted s p d -> cval path = Some t -> lenZ t < 2 ^ 31 ->
  0 <= offset < 2 ^ 32 -> 0 <= size < 2 ^ 32 -> size <= lenZ buf ->
  exists r s' b, vfs_read_file_part local64 (Some path) offset (Some buf) size s = Ret (r, Some b) s' [] /\
    root_mounted s' p d /\ mounted_files (vfs_tinyfs s') = mounted_files (vfs_tinyfs s) /\
    match file_at s t with
    | Some (n, _) => delivered (file_window (vfs_tinyfs s) d n offset size) buf r b
    | None => r = -1 /\ b = buf
    end.
Proof using local64_len.
  intros Hrm Ht Hl Ho Hs Hb.
  destruct (vfs_open_file_spec s p d path t Hrm Ht Hl) as (s1 & opened & He & Hrm1 & Htn & Hop).
  unfold vfs_read_file_part. rewrite (bind_Ret_nil _ _ _ _ _ He).
  destruct (file_at s t) as [[n e]|].
  - destruct Hop as (r & i & -> & Hn & _). pose proof Hrm1 as [Hm1 Hr1 Hl1].
    destruct (tinyfs_read_file_part_ok (vfs_tinyfs s1) p d (n ++ 0 :: r) n offset buf size Hm1 (cval_app _ _ Hn)
      Ho Hs Hb) as (st & t1 & b & Hread & Hm2 & Hmf & Hdel).
    rewrite Htn in Hdel, Hmf. exists st, (set_vfs_tinyfs t1 s1), b. split; [by apply zoom_Ret|]. by split_and!.
  - subst opened. exists (-1), s1, buf. rewrite Htn. by split_and!.
Qed.

(** Reading through the root file system: the path is normalised, and the
    bytes delivered are those of the window of the file it names, cut at the
    end of the file; a path that names no file is an error and leaves the
    buffer alone. *)
Theorem vfs_read_file_part_spec s p d path t offset buf size :
  root_mounted s p d -> cval path = Some t -> lenZ t < 2 ^ 31 ->
  0 <= offset < 2 ^ 32 -> 0 <= size < 2 ^ 32 -> size <= lenZ buf ->
  exists r s' b, vfs_read_file_part local64 (Some path) offset (Some buf) size s = Ret (r, Some b) s' [] /\
    root_mounted s' p d /\
    match file_at s t with
    | Some (n, _) => delivered (file_window (vfs_tinyfs s) d n offset size) buf r b
    | None => r = -1 /\ b = buf
    end.
Proof using local64_len.
  intros Hrm Ht Hl Ho Hs Hb.
  destruct (vfs_read_file_part_ok s p d path t offset buf size Hrm Ht Hl Ho Hs Hb) as (r & s' & b & ? & ? & _ & ?).
  by exists r, s', b.
Qed.

(** [vfs_read_file] delivers the whole file a path names when it fits the
    size given. *)
Theorem vfs_read_file_spec s p d path t buf size :
  root_mounted s p d -> cval path = Some t -> lenZ t < 2 ^ 31 -> size <= lenZ buf ->
  exists r s' b, vfs_read_file local64 (Some path) (Some buf) size s = Ret (r, Some b) s' [] /\
    root_mounted s' p d /\ (mounted_files (vfs_tinyfs s') = mounted_files (vfs_tinyfs s) /\ tinyfs_devs (vfs_tinyfs s') = tinyfs_devs (vfs_tinyfs s)) /\
    delivered (match file_at s t with
               | Some (_, e) =>
                   if file_size e <=? size then disk_range d (file_offset e) (file_size e) else None
               | None => None
               end) buf r b.
Proof using local64_len.
  intros Hrm Ht Hl Hb.
  destruct (vfs_open_file_spec s p d path t Hrm Ht Hl) as (s1 & opened & He & Hrm1 & Htn & Hop).
  unfold vfs_read_file. rewrite (bind_Ret_nil _ _ _ _ _ He).
  destruct (file_at s t) as [[n e]|] eqn:Hfa.
  - destruct Hop as (r & i & -> & Hn & _). pose proof Hrm1 as [Hm1 Hr1 Hl1].
    destruct (tinyfs_read_file_ok (vfs_tinyfs s1) p d (n ++ 0 :: r) n buf size Hm1 (cval_app _ _ Hn) Hb)
      as (st & t1 & b & Hread & Hm2 & Hmf & Hdel).
    exists st, (set_vfs_tinyfs t1 s1), b. split; [by apply zoom_Ret|]. split; [by split|].
    split; [by rewrite <- Htn|]. rewrite Htn in Hdel. unfold file_at in Hfa. destruct (normal_path false t) as [n'|]; [|done].
    cbn [mbind option_bind] in Hfa. destruct (lookup_file (vfs_tinyfs s) n') as [[i' e']|] eqn:Hlk; [|done].
    cbn [mbind option_bind] in Hfa. destruct (Z.land _ _ =? 0); [|done]. injection Hfa as -> ->.
    by rewrite Hlk in Hdel.
  - subst opened. exists (-1), s1, buf. rewrite Htn. by split_and!.
Qed.

(** Normalising accepts exactly the paths with a normal form, stays inside its
    buffer whatever that held, and normalising the result again changes
    nothing. *)
Theorem vfs_normalize_path_idempotent path (s : list Z) buffer allow :
  cval path = Some s -> lenZ s < 2 ^ 31 -> lenZ buffer = VFS_PATH_MAX ->
  exists status b, vfs_normalize_path (Some path) buffer allow = Some (status, b) /\
    match normal_path allow s with
    | Some t => status = 0 /\ cval b = Some t /\
        exists b', vfs_normalize_path (Some b) buffer allow = Some (0, b') /\ cval b' = Some t
    | None => status = -1
    end.
Proof.
  intros Hc Hl Hb. destruct (vfs_normalize_path_spec path buffer s allow Hc Hl Hb) as (st & b & He & Hbl & Hres).
  exists st, b. split; [done|]. destruct (normal_path allow s) as [t|] eqn:Hnp; [|done].
  destruct Hres as (-> & [r ->] & Hn & Hlt). pose proof (cval_app t r Hn) as Hcv. split_and!; try done.
  unfold VFS_PATH_MAX, TINYFS_NAME_MAX in *.
  destruct (vfs_normalize_path_spec (t ++ 0 :: r) buffer t allow Hcv) as (st2 & b2 & He2 & _ & Hres2); [lia|done|].
  rewrite (proj1 (normal_path_idem allow s t Hnp)) in Hres2. destruct Hres2 as (-> & [r2 ->] & _).
  exists (t ++ 0 :: r2). split; [done|]. by apply cval_app.
Qed.

End proofs.

(** ** A root over the sample image *)

Definition sample_root : vfs list_disk :=
  Vfs mounted_sample (VfsFileInfo NameRoot 0 0) (replicate 64 0) 1.

Lemma sample_root_mounted : root_mounted sample_root 0 sample_device.
Proof. split; [exact mounted_sample_ok|done|done]. Qed.

Lemma empty_rows : rows (replicate 16 (replicate 64 7)) [].
Proof. split; [done|by apply Forall_replicate|]. intros i x. by rewrite lookup_nil. Qed.

Lemma vfs_normalize_path_idempotent_witness :
  exists b, vfs_normalize_path (Some (cstr "//a/../b")) (replicate 64 7) true = Some (-1, b) /\
  exists b', vfs_normalize_path (Some (cstr "//a///b/")) (replicate 64 7) true = Some (0, b') /\ cval b' = Some (lit "a/b").
Proof.
  destruct (vfs_normalize_path_idempotent (cstr "//a/../b") (lit "//a/../b") (replicate 64 7) true)
    as (st & b & He & Hst); [reflexivity|reflexivity|reflexivity|].
  destruct (vfs_normalize_path_idempotent (cstr "//a///b/") (lit "//a///b/") (replicate 64 7) true)
    as (st' & b' & He' & Hst'); [reflexivity|reflexivity|reflexivity|].
  replace (normal_path true (lit "//a/../b")) with (@None (list Z)) in Hst by (vm_compute; reflexivity).
  replace (normal_path true (lit "//a///b/")) with (Some (lit "a/b")) in Hst' by (vm_compute; reflexivity).
  subst st. destruct Hst' as (-> & Hb' & _).
  exists b. split; [exact He|]. exists b'. split; [exact He'|exact Hb'].
Defined.

Lemma vfs_list_spec_witness :
  vfs_list (replicate 64 7) (replicate 16 (replicate 64 7)) (Some (cstr "/")) sample_root =
    Ret 0 sample_root [97; 10].
Proof.
  rewrite (vfs_list_spec (replicate 64 7) (replicate 16 (replicate 64 7)) eq_refl empty_rows
    sample_root 0 sample_device (cstr "/") (lit "/") sample_root_mounted); [|reflexivity|reflexivity].
  vm_compute. reflexivity.
Defined.

Lemma vfs_read_file_part_spec_witness :
  exists s', vfs_read_file_part (replicate 64 7) (Some (cstr "/a")) 1 (Some [0; 0; 0; 0]) 4 sample_root =
    Ret (2, Some [98; 99; 0; 0]) s' [].
Proof.
  destruct (vfs_read_file_part_spec (replicate 64 7) eq_refl sample_root 0 sample_device (cstr "/a") (lit "/a")
    1 [0; 0; 0; 0] 4 sample_root_mounted) as (r & s' & b & He & _ & Hd);
    [reflexivity|reflexivity|lia|lia|done|].
  vm_compute in Hd. destruct Hd as [-> ->]. exists s'. exact He.
Defined.

Lemma vfs_read_file_spec_witness :
  exists s', vfs_read_file (replicate 64 7) (Some (cstr "a/")) (Some [0; 0; 0; 0]) 4 sample_root =
    Ret (3, Some [97; 98; 99; 0]) s' [].
Proof.
  destruct (vfs_read_file_spec (replicate 64 7) eq_refl sample_root 0 sample_device (cstr "a/") (lit "a/")
    [0; 0; 0; 0] 4 sample_root_mounted) as (r & s' & b & He & _ & _ & Hd); [reflexivity|reflexivity|done|].
  vm_compute in Hd. destruct Hd as [-> ->]. exists s'. exact He.
Defined.
