(* ===== verification/FileTable.v ===== *)
(** Open files (src/src/fs/file.c): a table of eight handles over the root
    file system. A handle keeps a pointer to the name in the tinyfs table, so a
    read looks the file up again by that name. *)
From S2P Require Import Prelude LibString BlockDevice BlockIO ListDisk TinyFS Vfs.

(** ** Definitions *)

Definition FILE_TABLE_MAX : Z := 8.

Record file : Type := File {
  path : option info_name;
  size : Z;
  offset : Z;
  flags : Z;
  in_use : Z
}.
Definition set_offset (v : Z) (f : file) : file := File (path f) (size f) v (flags f) (in_use f).

Record files (X : Type) : Type := Files { files_vfs : vfs X; file_table : list file }.
Arguments Files {X}.
Arguments files_vfs {X}.
Arguments file_table {X}.

Section definitions.
Context {X : Type} (local64 : mem).
Implicit Types s : files X.

Definition set_files_vfs (v : vfs X) s : files X := Files v (file_table s).
Definition set_file_table (v : list file) s : files X := Files (files_vfs s) v.

Definition on_vfs {A} (m : M (vfs X) A) : M (files X) A := zoom files_vfs set_files_vfs m.

(** The search for a free slot in [file_open]; a [file_t *] is a slot. *)
Fixpoint file_open_loop (fuel : nat) (index : Z) (info : vfs_file_info) : M (files X) (option Z) :=
  match fuel with
  | O => ret None
  | S fuel' =>
      table <- gets file_table;;
      f <- deref (rd table index);;
      if in_use f =? 0 then
        table1 <- deref (wr table index
          (File (Some (info_name_of info)) (info_size info) 0 (info_flags info) 1));;
        modify (set_file_table table1);;
        ret (Some index)
      else file_open_loop fuel' (index + 1) info
  end.

Definition file_open (pth : option mem) : M (files X) (option Z) :=
  found <- on_vfs (vfs_stat local64 pth);;
  info <- gets (fun s => vfs_stat_info (files_vfs s));;
  if negb (found : bool) || negb (Z.land (info_flags info) VFS_FILE_FLAG_DIRECTORY =? 0) then ret None
  else file_open_loop (Z.to_nat FILE_TABLE_MAX) 0 info.

(** The string a name pointer leads to. *)
Definition name_string (nm : info_name) : M (vfs X) mem :=
  match nm with
  | NameRoot => ret (cstr "/")
  | NameFile f => tiny (tinyfs_entry f)
  | NameStat => gets vfs_stat_name
  end.

Definition file_read (handle : option Z) (buffer : option mem) (size0 : Z) : M (files X) (Z * option mem) :=
  match handle with
  | None => ret (-1, buffer)
  | Some h =>
      table <- gets file_table;;
      f <- deref (rd table h);;
      if (in_use f =? 0) || is_null buffer then ret (-1, buffer)
      else if size f <=? offset f then ret (0, buffer)
      else
        let remaining := u32 (size f - offset f) in
        let size1 := if remaining <? size0 then remaining else size0 in
        pth <- match path f with
               | Some nm => nm <- on_vfs (name_string nm);; ret (Some nm)
               | None => ret None
               end;;
        let! (read_size, buffer1) := on_vfs (vfs_read_file_part local64 pth (offset f) buffer size1) in
        if read_size <? 0 then ret (-1, buffer1)
        else
          table1 <- gets file_table;;
          f1 <- deref (rd table1 h);;
          table2 <- deref (wr table1 h (set_offset (u32 (offset f1 + u32 read_size)) f1));;
          modify (set_file_table table2);;
          ret (read_size, buffer1)
  end.

Definition file_seek (handle : option Z) (offset0 : Z) : M (files X) Z :=
  match handle with
  | None => ret (-1)
  | Some h =>
      table <- gets file_table;;
      f <- deref (rd table h);;
      if (in_use f =? 0) || (size f <? offset0) then ret (-1)
      else
        table1 <- deref (wr table h (set_offset offset0 f));;
        modify (set_file_table table1);;
        ret 0
  end.

Definition file_close (handle : option Z) : M (files X) unit :=
  match handle with
  | None => ret tt
  | Some h =>
      table <- gets file_table;;
      table1 <- deref (wr table h (File None 0 0 0 0));;
      modify (set_file_table table1)
  end.

(** A client that reads pieces of the given sizes into buffers of its own and
    keeps what was delivered. *)
Fixpoint read_pieces (h : Z) (sizes : list Z) : M (files X) (list Z) :=
  match sizes with
  | [] => ret []
  | n :: sizes' =>
      let! (r, b) := file_read (Some h) (Some (replicate (Z.to_nat n) 0)) n in
      got <- deref b;;
      rest <- read_pieces h sizes';;
      ret (take (Z.to_nat r) got ++ rest)
  end.

End definitions.

(** ** Invariant and properties *)

Section proofs.
Context {X : Type} `{DiskDriver X}.
Implicit Types (s : files X) (d : block_device X) (f : file).

(** Every handle's position is inside its file. *)
Definition handle_ok f : Prop := 0 <= offset f <= size f /\ size f < 2 ^ 32.

Record table_wf s : Prop := {
  tb_len : lenZ (file_table s) = FILE_TABLE_MAX;
  tb_ok : Forall handle_ok (file_table s)
}.

Lemma table_rd s h : table_wf s -> 0 <= h < FILE_TABLE_MAX -> exists f, rd (file_table s) h = Some f /\ handle_ok f.
Proof.
  intros [Hl Ho] Hh. destruct (rd_Some (file_table s) h) as [f Hf]; [lia|]. exists f. split; [done|].
  unfold rd in Hf. destruct (0 <=? h); [|done]. exact (Forall_lookup_1 _ _ _ _ Ho Hf).
Qed.

Lemma table_wr s h f :
  table_wf s -> 0 <= h < FILE_TABLE_MAX -> handle_ok f ->
  exists t, wr (file_table s) h f = Some t /\ table_wf (set_file_table t s) /\ rd t h = Some f /\
    forall h', h' <> h -> rd t h' = rd (file_table s) h'.
Proof.
  intros [Hl Ho] Hh Hf. eexists. split; [apply wr_Some; lia|]. split; [|split].
  - split; simpl; [unfold lenZ in *; by rewrite length_insert|by apply Forall_insert].
  - unfold rd. rewrite (proj2 (Z.leb_le 0 h)) by lia. apply list_lookup_insert_eq. unfold lenZ in *. lia.
  - intros h' Hne. unfold rd. destruct (Z.leb_spec 0 h'); [|done]. apply list_lookup_insert_ne. lia.
Qed.

(** [file_seek] moves within the file, the end included, and nowhere else. *)
Theorem file_seek_spec s h o :
  table_wf s -> 0 <= h < FILE_TABLE_MAX -> 0 <= o < 2 ^ 32 ->
  exists f s', rd (file_table s) h = Some f /\ table_wf s' /\ files_vfs s' = files_vfs s /\
    file_seek (Some h) o s =
      Ret (if negb (in_use f =? 0) && (o <=? size f) then 0 else -1) s' [] /\
    rd (file_table s') h =
      Some (if negb (in_use f =? 0) && (o <=? size f) then set_offset o f else f) /\
    forall h', h' <> h -> rd (file_table s') h' = rd (file_table s) h'.
Proof.
  intros Hwf Hh Ho. destruct (table_rd s h Hwf Hh) as (f & Hf & Hok). exists f.
  unfold file_seek. krun. rewrite (bind_deref_Some _ _ _ _ Hf), Z.ltb_antisym.
  destruct (in_use f =? 0); cbn [orb negb andb]; [by exists s|].
  destruct (Z.leb_spec o (size f)); cbn [negb]; [|by exists s].
  destruct (table_wr s h (set_offset o f) Hwf Hh) as (t & Ht & Hwf' & Hrd & Hoth); [destruct Hok; split; simpl; lia|].
  exists (set_file_table t s). rewrite (bind_deref_Some _ _ _ _ Ht). krun. by split_and!.
Qed.

(** Handle [h] is open on entry [i] of the table, called [n]. *)
Record open_at s (d : block_device X) (h : Z) (i : nat) (e : mem) (n : list Z) (pos : Z) : Prop := {
  oa_wf : table_wf s;
  oa_root : exists p, root_mounted (files_vfs s) p d;
  oa_slot : rd (file_table s) h = Some (File (Some (NameFile (Z.of_nat i))) (file_size e) pos (file_flags e) 1);
  oa_entry : lookup_file (vfs_tinyfs (files_vfs s)) n = Some (i, e);
  oa_name : normal_path false n = Some n;
  oa_flags : Z.land (file_flags e) VFS_FILE_FLAG_DIRECTORY = 0
}.

(** The file is on the disk and its size fits an [int]. *)
Definition on_disk (d : block_device X) (e : mem) : Prop :=
  file_offset e + file_size e <= capacity d /\ file_offset e + file_size e < 2 ^ 32 /\ file_size e < 2 ^ 31.

Definition file_bytes (d : block_device X) (e : mem) : list Z :=
  slice (dev_data d) (Z.to_nat (file_offset e)) (Z.to_nat (file_size e)).

Lemma normal_path_short n : normal_path false n = Some n -> lenZ n < VFS_PATH_MAX.
Proof.
  unfold normal_path. destruct (_ || _) eqn:E; [done|]. intros [= <-].
  apply orb_false_iff in E as [[_ E%Z.leb_gt]%orb_false_iff _]. done.
Qed.

Lemma lookup_file_rd v p d i e n :
  root_mounted v p d -> lookup_file (vfs_tinyfs v) n = Some (i, e) ->
  rd (tinyfs_files (vfs_tinyfs v)) (Z.of_nat i) = Some e /\ cval e = Some n.
Proof.
  intros [Hm _ _] (Hi & Hn & _)%list_find_Some. split; [|exact Hn].
  by destruct (mounted_file _ _ _ _ _ Hm Hi) as (? & _).
Qed.

Lemma file_bytes_length d e : disk_device d -> on_disk d e -> lenZ (file_bytes d e) = file_size e.
Proof.
  intros Hd (Hc & _ & _). rewrite <- capacity_data in Hc by done.
  pose proof (le32_bound e 64). pose proof (le32_bound e 68). unfold file_bytes, file_offset, file_size, lenZ in *.
  rewrite length_slice; lia.
Qed.

(** The bytes of the window of a file on the disk. *)
Lemma file_window_bytes v d i e n pos size0 :
  disk_device d -> lookup_file v n = Some (i, e) -> on_disk d e -> 0 <= pos <= file_size e -> 0 <= size0 ->
  file_window v d n pos size0 =
    Some (slice (file_bytes d e) (Z.to_nat pos) (Z.to_nat (Z.min size0 (file_size e - pos)))).
Proof.
  intros Hd Hl (Hc & H32 & H31) Hp Hs. unfold file_window. rewrite Hl.
  rewrite (proj2 (Z.leb_le pos _)) by lia. pose proof (le32_bound e 64). unfold disk_range, file_offset, file_size in *.
  rewrite u32_small by lia. rewrite (proj2 (Z.leb_le (_ + _) (capacity d))) by lia. rewrite orb_true_r. f_equal.
  unfold file_bytes, file_offset, file_size. rewrite slice_slice by lia. f_equal. lia.
Qed.

(** *** Opening *)

(** The lowest free slot. *)
Definition free_slot s : option Z :=
  (fun '(i, _) => Z.of_nat i) <$> list_find (fun f => in_use f = 0) (file_table s).

Lemma file_open_loop_spec fuel k s info :
  lenZ (file_table s) = FILE_TABLE_MAX -> (k + fuel = Z.to_nat FILE_TABLE_MAX)%nat ->
  Forall (fun f => in_use f <> 0) (take k (file_table s)) ->
  file_open_loop fuel (Z.of_nat k) info s =
    match free_slot s with
    | Some h => Ret (Some h) (set_file_table
        (<[Z.to_nat h := File (Some (info_name_of info)) (info_size info) 0 (info_flags info) 1]> (file_table s)) s) []
    | None => Ret None s []
    end.
Proof.
  unfold FILE_TABLE_MAX. intros Hl. revert k. induction fuel as [|fuel IH]; intros k Hk Hbusy; cbn [file_open_loop].
  - unfold free_slot. rewrite (proj2 (list_find_None _ _)); [done|].
    rewrite take_ge in Hbusy by (unfold lenZ in *; lia). exact Hbusy.
  - destruct (rd_Some (file_table s) (Z.of_nat k)) as [f Hf]; [lia|]. krun.
    rewrite (bind_deref_Some _ _ _ _ Hf). pose proof Hf as Hf'. rewrite rd_nat in Hf'.
    destruct (Z.eqb_spec (in_use f) 0) as [Hz|Hnz].
    + rewrite wr_Some by lia. rewrite (bind_deref_Some _ _ _ _ eq_refl). krun. unfold free_slot.
      rewrite (proj2 (list_find_Some (fun f => in_use f = 0) (file_table s) k f)); [done|].
      split_and!; [done|done|]. intros j y Hj Hjk.
      assert (Hy : take k (file_table s) !! j = Some y) by (by rewrite lookup_take_lt).
      exact (Forall_lookup_1 _ _ _ _ Hbusy Hy).
    + replace (Z.of_nat k + 1) with (Z.of_nat (S k)) by lia. apply IH; [lia|].
      rewrite (take_S_r _ _ _ Hf'). apply Forall_app. split; [done|]. by constructor.
Qed.

(** The entry a path names, if it is a file. *)
Definition open_target (v : vfs X) (t : list Z) : option (list Z * nat * mem) :=
  n ← normal_path false t;
  '(i, e) ← lookup_file (vfs_tinyfs v) n;
  if Z.land (file_flags e) VFS_FILE_FLAG_DIRECTORY =? 0 then Some (n, i, e) else None.

Lemma open_target_inv v t n i e :
  open_target v t = Some (n, i, e) ->
  normal_path false t = Some n /\ lookup_file (vfs_tinyfs v) n = Some (i, e) /\ Z.land (file_flags e) VFS_FILE_FLAG_DIRECTORY = 0.
Proof.
  unfold open_target. destruct (normal_path false t) as [n'|]; [|done]. cbn [mbind option_bind].
  destruct (lookup_file (vfs_tinyfs v) n') as [[i' e']|] eqn:E; [|done]. cbn [mbind option_bind].
  destruct (Z.eqb_spec (Z.land (file_flags e') VFS_FILE_FLAG_DIRECTORY) 0); [|done]. by intros [= <- <- <-].
Qed.

Lemma normal_path_false t :
  normal_path false t = match normal_path true t with Some (c :: n) => Some (c :: n) | _ => None end.
Proof.
  unfold normal_path. cbn [negb andb]. rewrite orb_false_r.
  destruct (existsb is_dot (path_segments t) || (VFS_PATH_MAX <=? lenZ (join_path (path_segments t)))); [done|]. cbn [orb]. case_bool_decide as Hs; [by rewrite Hs|].
  destruct (join_path (path_segments t)) as [|c n] eqn:Hj; [|done].
  pose proof (path_segments_join _ (path_segments_ok t)) as Hjs. by rewrite Hj in Hjs.
Qed.


End proofs.

Section reads.
Context {X : Type} `{DiskDriver X} (local64 : mem) (local64_len : lenZ local64 = VFS_PATH_MAX).
Implicit Types (s : files X) (d : block_device X) (f : file).

(** One read of an open file on the disk: the bytes from the position on, as
    many as there are, and the position moves behind them. *)
Lemma file_read_step s d h i e n pos buf k :
  open_at s d h i e n pos -> on_disk d e -> 0 <= h < FILE_TABLE_MAX -> 0 <= k <= lenZ buf -> lenZ buf < 2 ^ 32 ->
  let got := slice (file_bytes d e) (Z.to_nat pos) (Z.to_nat (Z.min k (file_size e - pos))) in
  exists s', file_read local64 (Some h) (Some buf) k s = Ret (lenZ got, Some (splice buf 0 got)) s' [] /\
    open_at s' d h i e n (pos + lenZ got) /\ forall h', h' <> h -> rd (file_table s') h' = rd (file_table s) h'.
Proof using local64_len.
  intros Hop Hdisk Hh Hk Hbuf. pose proof Hop as [Hwf [p Hroot] Hslot Hent Hnm Hfl]. cbn zeta.
  pose proof Hroot as [Hm Hr Hst]. destruct (mt_disk _ _ _ Hm) as (_ & Hdev & _).
  pose proof (file_bytes_length d e Hdev Hdisk) as Hfb.
  destruct (table_rd s h Hwf Hh) as (f & Hf & Hok). rewrite Hslot in Hf. injection Hf as <-.
  destruct Hok as [Hpos Hsz]. cbn [offset size] in *. pose proof Hdisk as (_ & _ & H31).
  unfold file_read. krun. rewrite (bind_deref_Some _ _ _ _ Hslot). cbn [in_use is_null path size offset].
  change (1 =? 0) with false. cbn [orb].
  destruct (Z.leb_spec (file_size e) pos) as [Hend|Hmore].
  { replace (Z.min k (file_size e - pos)) with 0 by (pose proof (lenZ_nonneg buf); lia).
    change (Z.to_nat 0) with 0%nat. rewrite slice_nil, splice_nil. change (lenZ []) with 0.
    exists s. split; [done|]. by rewrite Z.add_0_r. }
  set (got := slice _ _ _). rewrite u32_small by lia. cbn zeta.
  assert (Hmin : (if file_size e - pos <? k then file_size e - pos else k) = Z.min k (file_size e - pos)).
  { destruct (Z.ltb_spec (file_size e - pos) k); lia. }
  rewrite Hmin. pose proof (lenZ_nonneg buf).
  assert (Hgot : lenZ got = Z.min k (file_size e - pos)).
  { unfold got, lenZ in *. rewrite length_slice; lia. }
  destruct (lookup_file_rd _ p d i e n Hroot Hent) as [Hrd Hcv].
  assert (Hname : on_vfs (name_string (NameFile (Z.of_nat i))) s = Ret e s []).
  { unfold on_vfs, name_string, tiny, zoom, tinyfs_entry. krun. rewrite Hrd. by destruct s as [[] ?]. }
  destruct (vfs_read_file_part_ok local64 local64_len (files_vfs s) p d e n pos buf
    (Z.min k (file_size e - pos)) Hroot Hcv) as (r & v' & b & Hread & Hroot' & Hmf & Hres); try lia.
  { pose proof (normal_path_short n Hnm). unfold VFS_PATH_MAX, TINYFS_NAME_MAX in *. lia. }
  unfold file_at in Hres. rewrite Hnm in Hres. cbn [mbind option_bind] in Hres. rewrite Hent in Hres.
  cbn [mbind option_bind] in Hres. rewrite Hfl in Hres. change (0 =? 0) with true in Hres. cbn iota in Hres.
  rewrite (file_window_bytes _ d i e n pos _ Hdev Hent Hdisk) in Hres by lia.
  replace (Z.min (Z.min k (file_size e - pos)) (file_size e - pos)) with (Z.min k (file_size e - pos))
    in Hres by lia. fold got in Hres. destruct Hres as [-> ->].
  rewrite i32_small in Hread by lia.
  assert (Hbind : (nm <- on_vfs (name_string (NameFile (Z.of_nat i)));; ret (Some nm)) s = Ret (Some e) s []).
  { by rewrite (bind_Ret_nil _ _ _ _ _ Hname). }
  rewrite (bind_Ret_nil _ _ _ _ _ Hbind). clear Hbind.
  rewrite (bind_Ret_nil _ _ _ _ _ (zoom_Ret _ set_files_vfs _ s _ _ _ Hread)).
  rewrite (proj2 (Z.ltb_ge _ 0)) by lia. krun.
  change (file_table (set_files_vfs v' s)) with (file_table s).
  rewrite (bind_deref_Some _ _ _ _ Hslot). cbn [offset]. rewrite (u32_small (lenZ got)), u32_small by lia.
  set (f' := set_offset _ _).
  destruct (table_wr s h f' Hwf Hh) as (t & Ht & Hwf' & Hrd' & Hoth); [split; simpl; lia|].
  rewrite (bind_deref_Some _ _ _ _ Ht). krun. eexists. split; [reflexivity|]. split; [|exact Hoth]. split; simpl; try done.
  - by destruct Hwf'.
  - by exists p.
  - unfold lookup_file in *. by rewrite Hmf.
Qed.

(** A seek on an open file. *)
Lemma file_seek_step s d h i e n pos o :
  open_at s d h i e n pos -> 0 <= h < FILE_TABLE_MAX -> 0 <= o < 2 ^ 32 ->
  exists s', file_seek (Some h) o s = Ret (if o <=? file_size e then 0 else -1) s' [] /\
    open_at s' d h i e n (if o <=? file_size e then o else pos) /\ forall h', h' <> h -> rd (file_table s') h' = rd (file_table s) h'.
Proof.
  intros Hop Hh Ho. pose proof Hop as [Hwf Hroot Hslot Hent Hnm Hfl].
  destruct (file_seek_spec s h o Hwf Hh Ho) as (f & s' & Hf & Hwf' & Hv & Hr & Hslot' & Hoth). rewrite Hslot in Hf. injection Hf as <-.
  cbn [in_use size] in *. change (negb (1 =? 0)) with true in *. cbn [andb] in *. exists s'. split; [exact Hr|]. split; [|exact Hoth].
  split; rewrite ?Hv; try done. rewrite Hslot'. by destruct (o <=? file_size e).
Qed.

(** Reading an open file in pieces delivers the same bytes as one read: the
    next bytes of the file, as many as the pieces ask for and the file has. *)
Theorem read_pieces_spec s d h i e n pos sizes :
  open_at s d h i e n pos -> on_disk d e -> 0 <= h < FILE_TABLE_MAX ->
  0 <= pos <= file_size e -> Forall (fun k => 0 <= k < 2 ^ 32) sizes ->
  exists s', read_pieces local64 h sizes s =
      Ret (slice (file_bytes d e) (Z.to_nat pos) (Z.to_nat (Z.min (foldr Z.add 0 sizes) (file_size e - pos)))) s' [] /\
    open_at s' d h i e n (Z.min (pos + foldr Z.add 0 sizes) (file_size e)).
Proof using local64_len.
  intros Hop Hdisk Hh Hpos Hsizes. revert s pos Hop Hpos. induction Hsizes as [|k sizes Hk Hs IH]; intros s pos Hop Hpos.
  { exists s. cbn [read_pieces foldr]. replace (Z.to_nat (Z.min 0 (file_size e - pos))) with 0%nat by lia.
    rewrite slice_nil. split; [done|]. by replace (Z.min (pos + 0) (file_size e)) with pos by lia. }
  assert (Hsum : 0 <= foldr Z.add 0 sizes) by (clear IH; induction Hs; simpl; lia).
  pose proof Hop as [_ [p [Hm _ _]] _ _ _ _]. destruct (mt_disk _ _ _ Hm) as (_ & Hdev & _).
  pose proof (file_bytes_length d e Hdev Hdisk) as Hfb.
  assert (Hlen : lenZ (replicate (Z.to_nat k) 0) = k) by (unfold lenZ; rewrite length_replicate; lia).
  destruct (file_read_step s d h i e n pos (replicate (Z.to_nat k) 0) k Hop Hdisk Hh) as (s1 & He & Hop1 & _);
    [rewrite Hlen; lia..|].
  set (got := slice _ _ _) in *.
  assert (Hgl : lenZ got = Z.min k (file_size e - pos)).
  { unfold got, lenZ in *. rewrite length_slice; lia. }
  destruct (IH s1 (pos + lenZ got) Hop1) as (s2 & He2 & Hop2); [lia|]. exists s2.
  cbn [read_pieces foldr]. rewrite (bind_Ret_nil _ _ _ _ _ He). cbn iota. rewrite (bind_deref_Some _ _ _ _ eq_refl).
  rewrite (bind_Ret_nil _ _ _ _ _ He2). split.
  - unfold ret. f_equal.
    assert (Htk : take (Z.to_nat (lenZ got)) (splice (replicate (Z.to_nat k) 0) 0 got) = got).
    { unfold splice. rewrite take_0, app_nil_l. apply take_lenZ_app. }
    rewrite Htk.
    replace (Z.to_nat (pos + lenZ got)) with (Z.to_nat pos + Z.to_nat (Z.min k (file_size e - pos)))%nat by lia.
    rewrite Hgl. unfold got.
    rewrite <- slice_app. f_equal. lia.
  - by replace (Z.min (pos + (k + foldr Z.add 0 sizes)) (file_size e))
      with (Z.min (pos + lenZ got + foldr Z.add 0 sizes) (file_size e)) by lia.
Qed.

(** The outcome of the status check of [file_open]. *)
Lemma file_open_stat v p d pth t :
  root_mounted v p d -> cval pth = Some t -> lenZ t < 2 ^ 31 ->
  exists found v', vfs_stat local64 (Some pth) v = Ret found v' [] /\ root_mounted v' p d /\
    vfs_tinyfs v' = vfs_tinyfs v /\
    match open_target v t with
    | Some (n, i, e) => found = true /\ Z.land (file_flags e) VFS_FILE_FLAG_DIRECTORY = 0 /\
        vfs_stat_info v' = VfsFileInfo (NameFile (Z.of_nat i)) (file_size e) (file_flags e)
    | None => found = false \/ Z.land (info_flags (vfs_stat_info v')) VFS_FILE_FLAG_DIRECTORY <> 0
    end.
Proof using local64_len.
  intros Hrm Ht Hl. destruct (vfs_stat_spec local64 local64_len v p d pth t Hrm Ht Hl) as (found & v' & He & Hres).
  exists found, v'. split; [done|]. unfold open_target. rewrite normal_path_false.
  destruct (normal_path true t) as [n|]; [|destruct Hres as [-> ->]; split_and!; try done; by left].
  destruct Hres as (Htn & Hrd & Hln & Hinfo). pose proof Hrm as [Hm Hr Hnm].
  split; [split; [by rewrite Htn|congruence|congruence]|]. split; [done|]. unfold stat_of in Hinfo.
  destruct n as [|c n].
  { cbn [mbind option_bind]. rewrite decide_True in Hinfo by done. destruct Hinfo as (_ & -> & _). by right. }
  rewrite decide_False in Hinfo by done. cbn [mbind option_bind].
  destruct (lookup_file (vfs_tinyfs v) (c :: n)) as [[i e]|]; cbn [mbind option_bind].
  - destruct Hinfo as (-> & Hi & _). destruct (Z.eqb_spec (Z.land (file_flags e) VFS_FILE_FLAG_DIRECTORY) 0); [done|].
    right. by rewrite Hi.
  - destruct (is_directory v (c :: n)); [|by left]. destruct Hinfo as (_ & -> & _). by right.
Qed.

Lemma file_open_ok s p d pth t :
  root_mounted (files_vfs s) p d -> table_wf s -> cval pth = Some t -> lenZ t < 2 ^ 31 ->
  exists s', root_mounted (files_vfs s') p d /\ table_wf s' /\ vfs_tinyfs (files_vfs s') = vfs_tinyfs (files_vfs s) /\
    match open_target (files_vfs s) t, free_slot s with
    | Some (n, i, e), Some h =>
        file_open local64 (Some pth) s = Ret (Some h) s' [] /\
        rd (file_table s') h = Some (File (Some (NameFile (Z.of_nat i))) (file_size e) 0 (file_flags e) 1) /\
        forall h', h' <> h -> rd (file_table s') h' = rd (file_table s) h'
    | _, _ => file_open local64 (Some pth) s = Ret None s' [] /\ file_table s' = file_table s
    end.
Proof using local64_len.
  intros Hrm Hwf Ht Hl.
  destruct (file_open_stat _ p d pth t Hrm Ht Hl) as (found & v' & He & Hrm' & Htn & Hres).
  unfold file_open. rewrite (bind_Ret_nil _ _ _ _ _ (zoom_Ret _ set_files_vfs _ s _ _ _ He)). krun.
  cbn [set_files_vfs files_vfs]. set (s1 := set_files_vfs v' s).
  assert (Hwf1 : table_wf s1) by (by destruct Hwf).
  destruct (open_target (files_vfs s) t) as [[[n i] e]|].
  2:{ exists s1. split_and!; try done. destruct Hres as [->|Hf]; [done|].
      rewrite (proj2 (Z.eqb_neq _ 0) Hf), orb_true_r. done. }
  destruct Hres as (-> & Hfl & ->). cbn [negb orb info_flags]. rewrite Hfl. cbn [negb].
  change (0 =? 0) with true. cbn [negb].
  assert (Hloop := fun info => file_open_loop_spec (Z.to_nat FILE_TABLE_MAX) 0 s1 info (tb_len _ Hwf1) eq_refl (Forall_nil_2 _)).
  change (Z.of_nat 0) with 0 in Hloop. rewrite !Hloop. clear Hloop.
  change (free_slot s1) with (free_slot s). destruct (free_slot s) as [h|] eqn:Hfree; [|by exists s1].
  assert (Hh : 0 <= h < FILE_TABLE_MAX).
  { unfold free_slot in Hfree. destruct (list_find _ _) as [[j f]|] eqn:Hj; [|done]. injection Hfree as <-.
    apply list_find_Some in Hj as (Hj%lookup_lt_Some & _). destruct Hwf as [Hlen _]. unfold lenZ in Hlen. lia. }
  pose proof (le32_bound e 68).
  destruct (table_wr s1 h (File (Some (NameFile (Z.of_nat i))) (file_size e) 0 (file_flags e) 1) Hwf1 Hh)
    as (tb & Htb & Hwf' & Hrd & Hoth); [unfold file_size; split; simpl; lia|].
  rewrite wr_Some in Htb by (destruct Hwf1 as [-> _]; done). injection Htb as <-.
  eexists. split; [|split; [exact Hwf'|split; [exact Htn|split_and!; [reflexivity|exact Hrd|exact Hoth]]]]. done.
Qed.

(** Opening a path takes the lowest free slot for the file the path names, at
    its start, and fails without touching the table when the path names no
    file or no slot is free. *)
Theorem file_open_spec s p d pth t :
  root_mounted (files_vfs s) p d -> table_wf s -> cval pth = Some t -> lenZ t < 2 ^ 31 ->
  exists s', root_mounted (files_vfs s') p d /\ table_wf s' /\
    match open_target (files_vfs s) t, free_slot s with
    | Some (n, i, e), Some h =>
        file_open local64 (Some pth) s = Ret (Some h) s' [] /\
        rd (file_table s') h = Some (File (Some (NameFile (Z.of_nat i))) (file_size e) 0 (file_flags e) 1) /\
        forall h', h' <> h -> rd (file_table s') h' = rd (file_table s) h'
    | _, _ => file_open local64 (Some pth) s = Ret None s' [] /\ file_table s' = file_table s
    end.
Proof using local64_len.
  intros Hrm Hwf Ht Hl. destruct (file_open_ok s p d pth t Hrm Hwf Ht Hl) as (s' & Hrm' & Hwf' & _ & Hres). by exists s'.
Qed.

End reads.

(** ** The sample root with every slot free *)

Definition sample_files : files list_disk := Files sample_root (replicate 8 (File None 0 0 0 0)).
Definition sample_open : files list_disk :=
  Files sample_root (File (Some (NameFile 0)) 3 0 0 1 :: replicate 7 (File None 0 0 0 0)).

Lemma sample_files_wf : table_wf sample_files.
Proof. split; [done|]. by apply Forall_replicate. Qed.

Lemma sample_open_wf : table_wf sample_open.
Proof. split; [done|]. constructor; [done|]. by apply Forall_replicate. Qed.

Lemma file_open_spec_witness :
  exists s', file_open (replicate 64 7) (Some (cstr "/a")) sample_files = Ret (Some 0) s' [] /\
    rd (file_table s') 0 = Some (File (Some (NameFile 0)) 3 0 0 1).
Proof.
  destruct (file_open_spec (replicate 64 7) eq_refl sample_files 0 sample_device (cstr "/a") (lit "/a")
    sample_root_mounted sample_files_wf) as (s' & _ & _ & Hres); [reflexivity|reflexivity|].
  replace (open_target (files_vfs sample_files) (lit "/a")) with (Some (lit "a", 0%nat, slice sample_image 20 76))
    in Hres by (vm_compute; reflexivity).
  replace (free_slot sample_files) with (Some 0) in Hres by (vm_compute; reflexivity).
  destruct Hres as (He & Hrd & _). exists s'. exact (conj He Hrd).
Defined.

Lemma file_seek_spec_witness :
  exists s', file_seek (Some 0) 4 sample_open = Ret (-1) s' [] /\ exists s'', file_seek (Some 0) 3 sample_open = Ret 0 s'' [].
Proof.
  destruct (file_seek_spec sample_open 0 4 sample_open_wf) as (f & s' & Hf & _ & _ & He & _); [done|lia|].
  destruct (file_seek_spec sample_open 0 3 sample_open_wf) as (f2 & s2 & Hf2 & _ & _ & He2 & _); [done|lia|].
  injection Hf as <-. injection Hf2 as <-. exists s'. split; [exact He|]. exists s2. exact He2.
Defined.

Lemma read_pieces_spec_witness :
  exists s', read_pieces (replicate 64 7) 0 [1; 1; 5] sample_open = Ret (lit "abc") s' [].
Proof.
  destruct (read_pieces_spec (replicate 64 7) eq_refl sample_open sample_device 0 0 (slice sample_image 20 76)
    (lit "a") 0 [1; 1; 5]) as (s' & He & _).
  - split; [exact sample_open_wf|by exists 0%nat; exact sample_root_mounted| | | |]; vm_compute; reflexivity.
  - split_and!; vm_compute; congruence.
  - done.
  - split; vm_compute; congruence.
  - repeat constructor; lia.
  - exists s'. rewrite He. vm_compute. reflexivity.
Defined.
