(* ===== verification/LogFS.v ===== *)
(** The append-only file system (src/src/fs/logfs.c). A log of records (create
    a file, append to a file) starts behind the superblock; mounting replays it
    into static tables, and every change appends one record. The state keeps
    those tables; the superblock and the record buffer are raw bytes. *)
From S2P Require Import Prelude LibString Klog BlockDevice BlockIO.

(** ** Data *)

Definition LOGFS_MAGIC : Z := 0x5346474c.
Definition LOGFS_VERSION : Z := 1.
Definition LOGFS_NAME_MAX : Z := 32.
Definition LOGFS_MAX_FILES : Z := 16.
Definition LOGFS_MAX_SEGMENTS : Z := 64.
Definition LOGFS_RECORD_MAGIC : Z := 0x4345524c.
Definition LOGFS_RECORD_TYPE_CREATE : Z := 1.
Definition LOGFS_RECORD_TYPE_APPEND : Z := 2.
Definition LOGFS_IO_BUFFER_SIZE : Z := 512.
Definition LOGFS_ALIGN : Z := 8.

(** [sizeof(logfs_superblock_t)] and [sizeof(logfs_record_header_t)]. *)
Definition LOGFS_SUPERBLOCK_SIZE : Z := 20.
Definition LOGFS_HEADER_SIZE : Z := 32.

(** The fields of the superblock. *)
Definition sb_magic (b : mem) : Z := le32 b 0.
Definition sb_version (b : mem) : Z := le32 b 4.
Definition sb_block_size (b : mem) : Z := le32 b 8.
Definition sb_block_count (b : mem) : Z := le32 b 12.
Definition sb_log_offset (b : mem) : Z := le32 b 16.

Record logfs_record_header : Type := Header {
  h_magic : Z;
  h_type : Z;
  h_file_id : Z;
  h_payload_size : Z;
  h_file_size_before : Z;
  h_file_size_after : Z;
  h_checksum : Z;
  h_name_length : Z
}.
Definition set_h_checksum (v : Z) (h : logfs_record_header) : logfs_record_header :=
  Header (h_magic h) (h_type h) (h_file_id h) (h_payload_size h) (h_file_size_before h)
    (h_file_size_after h) v (h_name_length h).

(** The 32 bytes of a header in memory, and the header that bytes hold. *)
Definition header_bytes (h : logfs_record_header) : mem :=
  bytes32 (h_magic h) ++ bytes32 (h_type h) ++ bytes32 (h_file_id h) ++ bytes32 (h_payload_size h) ++
  bytes32 (h_file_size_before h) ++ bytes32 (h_file_size_after h) ++ bytes32 (h_checksum h) ++
  bytes32 (h_name_length h).
Definition header_of (b : mem) : logfs_record_header :=
  Header (le32 b 0) (le32 b 4) (le32 b 8) (le32 b 12) (le32 b 16) (le32 b 20) (le32 b 24) (le32 b 28).

Record logfs_segment : Type := Segment {
  seg_file_id : Z;
  seg_file_offset : Z;
  seg_data_size : Z;
  seg_data_offset : Z
}.

(** [info.name] is null or a row of [logfs_file_names]. *)
Record logfs_file_state : Type := FileState {
  info_name : option Z;
  info_size : Z;
  file_id : Z;
  file_segment_count : Z;
  file_in_use : Z
}.
Definition empty_file : logfs_file_state := FileState None 0 0 0 0.

(** The tables a mount rebuilds. *)
Record tables : Type := Tables {
  logfs_files : list logfs_file_state;
  logfs_file_names : list mem;
  logfs_segments : list logfs_segment;
  logfs_segment_count : Z;
  logfs_next_file_id : Z
}.

Definition set_logfs_files (v : list logfs_file_state) (t : tables) : tables :=
  Tables v (logfs_file_names t) (logfs_segments t) (logfs_segment_count t) (logfs_next_file_id t).
Definition set_logfs_file_names (v : list mem) (t : tables) : tables :=
  Tables (logfs_files t) v (logfs_segments t) (logfs_segment_count t) (logfs_next_file_id t).
Definition set_logfs_segments (v : list logfs_segment) (t : tables) : tables :=
  Tables (logfs_files t) (logfs_file_names t) v (logfs_segment_count t) (logfs_next_file_id t).
Definition set_logfs_segment_count (v : Z) (t : tables) : tables :=
  Tables (logfs_files t) (logfs_file_names t) (logfs_segments t) v (logfs_next_file_id t).
Definition set_logfs_next_file_id (v : Z) (t : tables) : tables :=
  Tables (logfs_files t) (logfs_file_names t) (logfs_segments t) (logfs_segment_count t) v.

Record logfs (X : Type) : Type := Logfs {
  logfs_devs : list (block_device X);
  logfs_block_device : option nat;
  logfs_superblock : mem;
  logfs_tables : tables;
  logfs_log_end : Z;
  logfs_ready : Z;
  logfs_block_buffer : mem;
  logfs_record_buffer : mem
}.
Arguments Logfs {X}.
Arguments logfs_devs {X}.
Arguments logfs_block_device {X}.
Arguments logfs_superblock {X}.
Arguments logfs_tables {X}.
Arguments logfs_log_end {X}.
Arguments logfs_ready {X}.
Arguments logfs_block_buffer {X}.
Arguments logfs_record_buffer {X}.

(** ** The tables *)

Definition logfs_align_up (value : Z) : Z := Z.land (u32 (value + (LOGFS_ALIGN - 1))) (not32 (LOGFS_ALIGN - 1)).

Fixpoint checksum_loop (fuel : nat) (index : Z) (seed : Z) (data : mem) : option Z :=
  match fuel with
  | O => Some seed
  | S fuel' => b ← rd data index; checksum_loop fuel' (index + 1) (u32 (u32 (seed * 33) + b)) data
  end.
Definition logfs_checksum_bytes (seed : Z) (data : mem) (size : Z) : option Z :=
  checksum_loop (Z.to_nat size) 0 seed data.

(** The scan of a name for a slash. *)
Fixpoint name_has_no_slash (name : mem) : option bool :=
  match name with
  | [] => None
  | c :: name' => if c =? 0 then Some true else if c =? ch "/" then Some false else name_has_no_slash name'
  end.

Definition logfs_name_valid (name : option mem) : option bool :=
  match name with
  | None => Some false
  | Some n =>
      c ← rd n 0;
      if c =? 0 then Some false
      else
        len ← strlen n;
        let length := u32 len in
        if (length =? 0) || (LOGFS_NAME_MAX <=? length) then Some false else name_has_no_slash n
  end.

(** The name of a file state, through its pointer. *)
Definition file_name (t : tables) (f : logfs_file_state) : option mem :=
  row ← info_name f; rd (logfs_file_names t) row.

Fixpoint find_state_loop (fuel : nat) (index : Z) (t : tables) (name : mem) : option (option Z) :=
  match fuel with
  | O => Some None
  | S fuel' =>
      f ← rd (logfs_files t) index;
      hit ← (if file_in_use f =? 0 then Some false
             else n ← file_name t f; c ← strcmp n name; Some (c =? 0));
      if (hit : bool) then Some (Some index) else find_state_loop fuel' (index + 1) t name
  end.
Definition logfs_find_file_state (t : tables) (name : mem) : option (option Z) :=
  find_state_loop (Z.to_nat LOGFS_MAX_FILES) 0 t name.

Fixpoint find_id_loop (fuel : nat) (index : Z) (t : tables) (id : Z) : option (option Z) :=
  match fuel with
  | O => Some None
  | S fuel' =>
      f ← rd (logfs_files t) index;
      if negb (file_in_use f =? 0) && (file_id f =? id) then Some (Some index)
      else find_id_loop fuel' (index + 1) t id
  end.
Definition logfs_find_file_id (t : tables) (id : Z) : option (option Z) :=
  find_id_loop (Z.to_nat LOGFS_MAX_FILES) 0 t id.

Fixpoint alloc_loop (fuel : nat) (index : Z) (t : tables) : option (option Z * tables) :=
  match fuel with
  | O => Some (None, t)
  | S fuel' =>
      f ← rd (logfs_files t) index;
      if file_in_use f =? 0 then
        files ← wr (logfs_files t) index (FileState None 0 0 0 1);
        Some (Some index, set_logfs_files files t)
      else alloc_loop fuel' (index + 1) t
  end.
Definition logfs_alloc_file_state (t : tables) : option (option Z * tables) :=
  alloc_loop (Z.to_nat LOGFS_MAX_FILES) 0 t.

Definition logfs_add_segment (id foffset data_size data_offset : Z) (t : tables) : option (Z * tables) :=
  if LOGFS_MAX_SEGMENTS <=? logfs_segment_count t then Some (-1, t)
  else
    segments ← wr (logfs_segments t) (logfs_segment_count t) (Segment id foffset data_size data_offset);
    Some (0, set_logfs_segment_count (u32 (logfs_segment_count t + 1)) (set_logfs_segments segments t)).

(** Names slot [index]: [memcpy(logfs_file_names[index], name, count)], then
    the file's fields. *)
Definition name_file (t : tables) (index : Z) (name : mem) (count id : Z) : option tables :=
  row ← rd (logfs_file_names t) index;
  row1 ← memcpy row 0 name 0 count;
  names ← wr (logfs_file_names t) index row1;
  f ← rd (logfs_files t) index;
  files ← wr (logfs_files t) index (FileState (Some index) 0 id (file_segment_count f) (file_in_use f));
  Some (set_logfs_file_names names (set_logfs_files files t)).

(** ** Replaying a record *)

Definition logfs_replay_create (h : logfs_record_header) (payload : mem) (t : tables) : option (Z * tables) :=
  let name_length := h_name_length h in
  if (name_length =? 0) || (LOGFS_NAME_MAX <=? name_length) then Some (-1, t)
  else
    terminated ← (if h_payload_size h =? u32 (name_length + 1)
                  then c ← rd payload name_length; Some (c =? 0) else Some false);
    if negb (terminated : bool) then Some (-1, t)
    else
      valid ← logfs_name_valid (Some payload);
      if negb (valid : bool) then Some (-1, t)
      else
        by_name ← logfs_find_file_state t payload;
        by_id ← logfs_find_file_id t (h_file_id h);
        if negb (is_null by_name) || negb (is_null by_id) then Some (-1, t)
        else
          '(slot, t1) ← logfs_alloc_file_state t;
          match slot with
          | None => Some (-1, t1)
          | Some index =>
              t2 ← name_file t1 index payload (name_length + 1) (h_file_id h);
              Some (0, if logfs_next_file_id t2 <=? h_file_id h
                       then set_logfs_next_file_id (u32 (h_file_id h + 1)) t2 else t2)
          end.

(** [file->info.size = size; file->segment_count++]. *)
Definition grow_file (t : tables) (index size : Z) : option tables :=
  f ← rd (logfs_files t) index;
  files ← wr (logfs_files t) index
            (FileState (info_name f) size (file_id f) (u32 (file_segment_count f + 1)) (file_in_use f));
  Some (set_logfs_files files t).

Definition logfs_replay_append (h : logfs_record_header) (payload_offset : Z) (t : tables) : option (Z * tables) :=
  slot ← logfs_find_file_id t (h_file_id h);
  match slot with
  | None => Some (-1, t)
  | Some index =>
      if h_payload_size h =? 0 then Some (-1, t)
      else
        f ← rd (logfs_files t) index;
        if negb (info_size f =? h_file_size_before h) ||
           negb (h_file_size_after h =? u32 (h_file_size_before h + h_payload_size h))
        then Some (-1, t)
        else
          '(status, t1) ← logfs_add_segment (h_file_id h) (info_size f) (h_payload_size h) payload_offset t;
          if negb (status =? 0) then Some (-1, t1)
          else t2 ← grow_file t1 index (h_file_size_after h); Some (0, t2)
  end.

(** ** Operations *)

Section definitions.
Context {X : Type}.
Implicit Types s : logfs X.

(** The indeterminate bytes of a local record header. *)
Context (local_header : mem).

Definition set_logfs_devs (v : list (block_device X)) s : logfs X :=
  Logfs v (logfs_block_device s) (logfs_superblock s) (logfs_tables s) (logfs_log_end s) (logfs_ready s)
    (logfs_block_buffer s) (logfs_record_buffer s).
Definition set_logfs_block_device (v : option nat) s : logfs X :=
  Logfs (logfs_devs s) v (logfs_superblock s) (logfs_tables s) (logfs_log_end s) (logfs_ready s)
    (logfs_block_buffer s) (logfs_record_buffer s).
Definition set_logfs_superblock (v : mem) s : logfs X :=
  Logfs (logfs_devs s) (logfs_block_device s) v (logfs_tables s) (logfs_log_end s) (logfs_ready s)
    (logfs_block_buffer s) (logfs_record_buffer s).
Definition set_logfs_tables (v : tables) s : logfs X :=
  Logfs (logfs_devs s) (logfs_block_device s) (logfs_superblock s) v (logfs_log_end s) (logfs_ready s)
    (logfs_block_buffer s) (logfs_record_buffer s).
Definition set_logfs_log_end (v : Z) s : logfs X :=
  Logfs (logfs_devs s) (logfs_block_device s) (logfs_superblock s) (logfs_tables s) v (logfs_ready s)
    (logfs_block_buffer s) (logfs_record_buffer s).
Definition set_logfs_ready (v : Z) s : logfs X :=
  Logfs (logfs_devs s) (logfs_block_device s) (logfs_superblock s) (logfs_tables s) (logfs_log_end s) v
    (logfs_block_buffer s) (logfs_record_buffer s).
Definition set_logfs_record_buffer (v : mem) s : logfs X :=
  Logfs (logfs_devs s) (logfs_block_device s) (logfs_superblock s) (logfs_tables s) (logfs_log_end s)
    (logfs_ready s) (logfs_block_buffer s) v.
Definition logfs_bio s : bio X := Bio (logfs_devs s) (logfs_block_buffer s).
Definition set_logfs_bio (b : bio X) s : logfs X :=
  Logfs (bio_devs b) (logfs_block_device s) (logfs_superblock s) (logfs_tables s) (logfs_log_end s)
    (logfs_ready s) (bio_buffer b) (logfs_record_buffer s).

(** A computation on the tables that may fail. *)
Definition on_tables {A} (f : tables -> option (A * tables)) : M (logfs X) A :=
  t <- gets logfs_tables;;
  let! (a, t1) := deref (f t) in
  modify (set_logfs_tables t1);;
  ret a.

Definition logfs_read_bytes (offset : Z) (buffer : option mem) (size : Z) : M (logfs X) (Z * option mem) :=
  device <- gets logfs_block_device;;
  match device, buffer with
  | Some p, Some dest =>
      d <- zoom logfs_devs set_logfs_devs (dev_at (Some p));;
      if LOGFS_IO_BUFFER_SIZE <? block_size d then ret (-1, buffer)
      else
        let! (status, dest1) := zoom logfs_bio set_logfs_bio
          (read_chunks (Z.to_nat (size + 1)) (Some p) (block_size d) offset size 0 dest) in
        ret (status, Some dest1)
  | _, _ => ret (-1, buffer)
  end.

Definition logfs_write_bytes (offset : Z) (buffer : option mem) (size : Z) : M (logfs X) Z :=
  device <- gets logfs_block_device;;
  match device with
  | None => ret (-1)
  | Some p =>
      d <- zoom logfs_devs set_logfs_devs (dev_at (Some p));;
      match write_blocks d, buffer with
      | Some _, Some src =>
          if LOGFS_IO_BUFFER_SIZE <? block_size d then ret (-1)
          else
            zoom logfs_bio set_logfs_bio
              (write_chunks (Z.to_nat (size + 1)) (Some p) (block_size d) offset size 0 src)
      | _, _ => ret (-1)
      end
  end.

(** [(unsigned long)logfs_superblock.block_count * logfs_superblock.block_size]. *)
Definition log_limit s : Z := u64 (sb_block_count (logfs_superblock s) * sb_block_size (logfs_superblock s)).

(** [logfs_replay_record] from the check of the checksum on; the payload is in
    the record buffer. *)
Definition replay_checked (h : logfs_record_header) (offset record_size : Z) : M (logfs X) Z :=
  buffer <- gets logfs_record_buffer;;
  sum1 <- deref (logfs_checksum_bytes 0 (header_bytes (set_h_checksum 0 h)) LOGFS_HEADER_SIZE);;
  sum2 <- deref (logfs_checksum_bytes sum1 buffer (h_payload_size h));;
  if negb (sum2 =? h_checksum h) then ret (-1)
  else
    let h1 := set_h_checksum 0 h in
    status <- (if h_type h1 =? LOGFS_RECORD_TYPE_CREATE then on_tables (logfs_replay_create h1 buffer)
               else if h_type h1 =? LOGFS_RECORD_TYPE_APPEND
                    then on_tables (logfs_replay_append h1 (u64 (offset + LOGFS_HEADER_SIZE)))
               else ret (-1));;
    if negb (status =? 0) then ret (-1)
    else
      modify (set_logfs_log_end (u64 (offset + record_size)));;
      ret 0.

Definition logfs_replay_record (offset : Z) : M (logfs X) Z :=
  let! (status, header1) := logfs_read_bytes offset (Some local_header) LOGFS_HEADER_SIZE in
  if negb (status =? 0) then ret (-1)
  else
    bytes <- deref header1;;
    let h := header_of bytes in
    if h_magic h =? 0 then ret 1
    else if negb (h_magic h =? LOGFS_RECORD_MAGIC) then ret (-1)
    else
      let record_size := logfs_align_up (u32 (LOGFS_HEADER_SIZE + h_payload_size h)) in
      limit <- gets log_limit;;
      if (record_size <? LOGFS_HEADER_SIZE) || (limit <? u64 (offset + record_size)) ||
         (LOGFS_IO_BUFFER_SIZE - LOGFS_HEADER_SIZE <? h_payload_size h)
      then ret (-1)
      else
        buffer0 <- gets logfs_record_buffer;;
        let! (pstatus, buffer1) :=
          logfs_read_bytes (u64 (offset + LOGFS_HEADER_SIZE)) (Some buffer0) (h_payload_size h) in
        buffer <- deref buffer1;;
        modify (set_logfs_record_buffer buffer);;
        if negb (pstatus =? 0) then ret (-1) else replay_checked h offset record_size.

(** The bytes of a record with its checksum, as [logfs_append_record] builds
    them in the record buffer. *)
Definition build_record (buffer : mem) (h : logfs_record_header) (payload : mem) (payload_size padding_size : Z) :
    option mem :=
  b1 ← memcpy buffer 0 (header_bytes h) 0 LOGFS_HEADER_SIZE;
  b2 ← (if negb (payload_size =? 0) then memcpy b1 LOGFS_HEADER_SIZE payload 0 payload_size else Some b1);
  b3 ← (if negb (padding_size =? 0) then memset b2 (LOGFS_HEADER_SIZE + payload_size) 0 padding_size else Some b2);
  sum1 ← logfs_checksum_bytes 0 (header_bytes h) LOGFS_HEADER_SIZE;
  sum2 ← logfs_checksum_bytes sum1 payload payload_size;
  memcpy b3 0 (header_bytes (set_h_checksum sum2 h)) 0 LOGFS_HEADER_SIZE.

(** The status and, on success, the offset of the record. *)
Definition logfs_append_record (type id size_before size_after name_length : Z) (payload : mem) (payload_size : Z) :
    M (logfs X) (Z * option Z) :=
  if LOGFS_IO_BUFFER_SIZE - LOGFS_HEADER_SIZE <? payload_size then ret (-1, None)
  else
    let h := Header LOGFS_RECORD_MAGIC type id payload_size size_before size_after 0 name_length in
    let record_size := logfs_align_up (u32 (LOGFS_HEADER_SIZE + payload_size)) in
    let padding_size := u32 (record_size - u32 (LOGFS_HEADER_SIZE + payload_size)) in
    buffer0 <- gets logfs_record_buffer;;
    buffer <- deref (build_record buffer0 h payload payload_size padding_size);;
    modify (set_logfs_record_buffer buffer);;
    log_end <- gets logfs_log_end;;
    limit <- gets log_limit;;
    if limit <? u64 (log_end + record_size) then ret (-1, None)
    else
      status <- logfs_write_bytes log_end (Some buffer) record_size;;
      if negb (status =? 0) then ret (-1, Some log_end)
      else
        modify (set_logfs_log_end (u64 (log_end + record_size)));;
        ret (0, Some log_end).

Definition logfs_file_count : M (logfs X) Z :=
  t <- gets logfs_tables;;
  ret (u32 (lenZ (filter (fun f => file_in_use f <> 0) (logfs_files t)))).

(** The replay loop of [logfs_mount]. A record takes at least 32 bytes, so
    [log_limit / 32 + 1] turns are enough. *)
Fixpoint logfs_mount_loop (fuel : nat) (offset : Z) : M (logfs X) unit :=
  match fuel with
  | O => undef
  | S fuel' =>
      limit <- gets log_limit;;
      if limit <? u64 (offset + LOGFS_HEADER_SIZE) then ret tt
      else
        replay_status <- logfs_replay_record offset;;
        if 0 <? replay_status then ret tt
        else if replay_status <? 0 then
          kprintf (nl "[INFO] logfs: stopped replay at offset %u") [AUint (u32 offset)]
        else
          offset1 <- gets logfs_log_end;;
          logfs_mount_loop fuel' offset1
  end.

(** The tables as the opening [memset]s of a mount leave them. *)
Definition empty_tables : tables :=
  Tables (replicate (Z.to_nat LOGFS_MAX_FILES) empty_file)
    (replicate (Z.to_nat LOGFS_MAX_FILES) (replicate (Z.to_nat LOGFS_NAME_MAX) 0))
    (replicate (Z.to_nat LOGFS_MAX_SEGMENTS) (Segment 0 0 0 0)) 0 1.

Definition logfs_reset s : logfs X :=
  Logfs (logfs_devs s) None (replicate (Z.to_nat LOGFS_SUPERBLOCK_SIZE) 0) empty_tables 0 0
    (logfs_block_buffer s) (logfs_record_buffer s).

(** The checks of the superblock. *)
Definition superblock_ok (sb : mem) (d : block_device X) : bool :=
  negb (negb (sb_magic sb =? LOGFS_MAGIC) || negb (sb_version sb =? LOGFS_VERSION) ||
        negb (sb_block_size sb =? block_size d) || (block_count d <? sb_block_count sb) ||
        (sb_log_offset sb <? block_size d)).

(** [logfs_mount] from the replay loop on. *)
Definition mount_replay (device_name : option mem) (log_offset : Z) : M (logfs X) Z :=
  limit <- gets log_limit;;
  logfs_mount_loop (Z.to_nat (limit / LOGFS_HEADER_SIZE + 1)) log_offset;;
  modify (set_logfs_ready 1);;
  count <- logfs_file_count;;
  log_end <- gets logfs_log_end;;
  kprintf (nl "[INFO] logfs: mounted %s files=%u head=%u") [AStr device_name; AUint count; AUint (u32 log_end)];;
  ret 0.

Definition logfs_mount (device : option nat) : M (logfs X) Z :=
  modify logfs_reset;;
  match device with
  | None => ret (-1)
  | Some p =>
      d <- zoom logfs_devs set_logfs_devs (dev_at (Some p));;
      if is_null (read_blocks d) || is_null (write_blocks d) || (LOGFS_IO_BUFFER_SIZE <? block_size d)
      then ret (-1)
      else
        modify (set_logfs_block_device (Some p));;
        sb0 <- gets logfs_superblock;;
        let! (status, sb1) := logfs_read_bytes 0 (Some sb0) LOGFS_SUPERBLOCK_SIZE in
        sb <- deref sb1;;
        modify (set_logfs_superblock sb);;
        if negb (status =? 0) then
          modify (set_logfs_block_device None);;
          ret (-1)
        else if negb (superblock_ok sb d) then
          modify (set_logfs_block_device None);;
          ret (-1)
        else
          modify (set_logfs_log_end (sb_log_offset sb));;
          mount_replay (name d) (sb_log_offset sb)
  end.

Definition logfs_is_mounted : M (logfs X) Z := gets logfs_ready.

Definition logfs_device : M (logfs X) (option nat) :=
  ready <- gets logfs_ready;;
  device <- gets logfs_block_device;;
  if ready =? 0 then ret None else ret device.

(** The [index]-th file in use, as a slot ([&logfs_files[slot].info]). *)
Fixpoint get_file_loop (files : list logfs_file_state) (scan current index : Z) : option Z :=
  match files with
  | [] => None
  | f :: files' =>
      if file_in_use f =? 0 then get_file_loop files' (scan + 1) current index
      else if current =? index then Some scan
      else get_file_loop files' (scan + 1) (u32 (current + 1)) index
  end.
Definition logfs_get_file (index : Z) : M (logfs X) (option Z) :=
  ready <- gets logfs_ready;;
  t <- gets logfs_tables;;
  if ready =? 0 then ret None else ret (get_file_loop (logfs_files t) 0 0 index).

Definition logfs_stat (nm : option mem) : M (logfs X) (option Z) :=
  ready <- gets logfs_ready;;
  match nm with
  | None => ret None
  | Some n => if ready =? 0 then ret None else t <- gets logfs_tables;; deref (logfs_find_file_state t n)
  end.

(** Clears slot [index] and its name. *)
Definition forget_file (index : Z) (t : tables) : option (unit * tables) :=
  files ← wr (logfs_files t) index empty_file;
  row ← rd (logfs_file_names t) index;
  row1 ← memset row 0 0 LOGFS_NAME_MAX;
  names ← wr (logfs_file_names t) index row1;
  Some (tt, set_logfs_file_names names (set_logfs_files files t)).

Definition logfs_create (nm : option mem) : M (logfs X) Z :=
  ready <- gets logfs_ready;;
  if ready =? 0 then ret (-1)
  else
    valid <- deref (logfs_name_valid nm);;
    if negb (valid : bool) then ret (-1)
    else
      n <- deref nm;;
      t <- gets logfs_tables;;
      found <- deref (logfs_find_file_state t n);;
      if negb (is_null found) then ret (-1)
      else
        slot <- on_tables logfs_alloc_file_state;;
        match slot with
        | None => ret (-1)
        | Some index =>
            len <- deref (strlen n);;
            let name_length := u32 len in
            t1 <- gets logfs_tables;;
            let id := logfs_next_file_id t1 in
            t2 <- deref (name_file (set_logfs_next_file_id (u32 (id + 1)) t1) index n (name_length + 1) id);;
            modify (set_logfs_tables t2);;
            let! (status, _) :=
              logfs_append_record LOGFS_RECORD_TYPE_CREATE id 0 0 name_length n (u32 (name_length + 1)) in
            if negb (status =? 0) then on_tables (forget_file index);; ret (-1) else ret 0
        end.

Definition logfs_append (nm : mem) (data : option mem) (size : Z) : M (logfs X) Z :=
  ready <- gets logfs_ready;;
  match data with
  | None => ret (-1)
  | Some bytes =>
      if (ready =? 0) || (size =? 0) then ret (-1)
      else
        t <- gets logfs_tables;;
        found <- deref (logfs_find_file_state t nm);;
        match found with
        | None => ret (-1)
        | Some index =>
            f <- deref (rd (logfs_files t) index);;
            let! (status, record_offset) :=
              logfs_append_record LOGFS_RECORD_TYPE_APPEND (file_id f) (info_size f)
                (u32 (info_size f + size)) 0 bytes size in
            if negb (status =? 0) then ret (-1)
            else
              off <- deref record_offset;;
              added <- on_tables (logfs_add_segment (file_id f) (info_size f) size (u64 (off + LOGFS_HEADER_SIZE)));;
              if negb (added =? 0) then ret (-1)
              else on_tables (fun t1 => t2 ← grow_file t1 index (u32 (info_size f + size)); Some (0, t2))
        end
  end.

(** The loop of [logfs_read_file_part] over the segments of file [id]. *)
Fixpoint read_segments (fuel : nat) (segment_index id offset size : Z) (copied : Z) (dest : mem) :
    M (logfs X) (Z * mem) :=
  match fuel with
  | O => ret (i32 copied, dest)
  | S fuel' =>
      if size <=? copied then ret (i32 copied, dest)
      else
        t <- gets logfs_tables;;
        segment <- deref (rd (logfs_segments t) segment_index);;
        if negb (seg_file_id segment =? id) then
          read_segments fuel' (segment_index + 1) id offset size copied dest
        else
          let read_end := u32 (offset + size) in
          let segment_start := seg_file_offset segment in
          let segment_end := u32 (seg_file_offset segment + seg_data_size segment) in
          if (segment_end <=? offset) || (read_end <=? segment_start) then
            read_segments fuel' (segment_index + 1) id offset size copied dest
          else
            let overlap_start := if segment_start <? offset then offset else segment_start in
            let overlap_end := if read_end <? segment_end then read_end else segment_end in
            let read_start := u32 (overlap_start - segment_start) in
            let read_size := u32 (overlap_end - overlap_start) in
            let! (status, tail) :=
              logfs_read_bytes (u64 (seg_data_offset segment + read_start))
                (Some (drop (Z.to_nat copied) dest)) read_size in
            tail1 <- deref tail;;
            let dest1 := take (Z.to_nat copied) dest ++ tail1 in
            if negb (status =? 0) then ret (-1, dest1)
            else read_segments fuel' (segment_index + 1) id offset size (u32 (copied + read_size)) dest1
  end.

Definition logfs_read_file_part (nm : mem) (offset : Z) (buffer : option mem) (size : Z) :
    M (logfs X) (Z * option mem) :=
  ready <- gets logfs_ready;;
  match buffer with
  | None => ret (-1, buffer)
  | Some dest =>
      if ready =? 0 then ret (-1, buffer)
      else
        t <- gets logfs_tables;;
        found <- deref (logfs_find_file_state t nm);;
        match found with
        | None => ret (-1, buffer)
        | Some index =>
            f <- deref (rd (logfs_files t) index);;
            if info_size f <? offset then ret (-1, buffer)
            else
              let size1 := if info_size f - offset <? size then info_size f - offset else size in
              if size1 =? 0 then ret (0, buffer)
              else
                let! (copied, dest1) :=
                  read_segments (Z.to_nat (logfs_segment_count t)) 0 (file_id f) offset size1 0 dest in
                ret (copied, Some dest1)
        end
  end.

Definition logfs_read_file (nm buffer : option mem) (max_size : Z) : M (logfs X) (Z * option mem) :=
  found <- logfs_stat nm;;
  match found, nm with
  | Some index, Some n =>
      t <- gets logfs_tables;;
      f <- deref (rd (logfs_files t) index);;
      if is_null buffer || (max_size <? info_size f) then ret (-1, buffer)
      else logfs_read_file_part n 0 buffer (info_size f)
  | _, _ => ret (-1, buffer)
  end.

End definitions.
