(* ===== verification/LogTables.v ===== *)
(** The tables of the append-only file system: their invariant, what they say
    about the disk (each file is the concatenation of its segments), and how
    creating a file and growing one change that. *)
From S2P Require Import Prelude LibString Klog BlockDevice BlockIO LogFS.

(** ** What the tables mean *)

(** Slot [i] holds file state [f] in use. *)
Definition live (t : tables) (i : nat) (f : logfs_file_state) : Prop :=
  logfs_files t !! i = Some f /\ file_in_use f <> 0.

Definition name_of (t : tables) (f : logfs_file_state) : option (list Z) := m ← file_name t f; cval m.

Definition segs (t : tables) : list logfs_segment := take (Z.to_nat (logfs_segment_count t)) (logfs_segments t).
Definition segs_of (t : tables) (id : Z) : list logfs_segment := filter (fun g => seg_file_id g = id) (segs t).

(** The segments of a file follow each other from its start to its size. *)
Fixpoint contiguous (start : Z) (gs : list logfs_segment) (stop : Z) : Prop :=
  match gs with
  | [] => start = stop
  | g :: gs' => seg_file_offset g = start /\ 0 < seg_data_size g /\
      start + seg_data_size g < 2 ^ 32 /\ contiguous (start + seg_data_size g) gs' stop
  end.

Definition seg_bytes (data : list Z) (g : logfs_segment) : list Z :=
  slice data (Z.to_nat (seg_data_offset g)) (Z.to_nat (seg_data_size g)).
Definition contents (data : list Z) (t : tables) (id : Z) : list Z :=
  concat (map (seg_bytes data) (segs_of t id)).

(** The slot of the file called [n], and its bytes. *)
Definition named (t : tables) (n : list Z) (f : logfs_file_state) : Prop :=
  file_in_use f <> 0 /\ name_of t f = Some n.
#[export] Instance named_dec t n f : Decision (named t n f).
Proof. unfold named. apply _. Defined.
Definition slot_of (t : tables) (n : list Z) : option (nat * logfs_file_state) :=
  list_find (named t n) (logfs_files t).
Definition bytes_of (data : list Z) (t : tables) (n : list Z) : option (list Z) :=
  '(_, f) ← slot_of t n; Some (contents data t (file_id f)).

(** The invariant of the tables; the segments lie below [hi] on the disk and
    are no larger than a record's payload. *)
Record tables_ok (t : tables) (hi : Z) : Prop := {
  to_files : lenZ (logfs_files t) = LOGFS_MAX_FILES;
  to_names : lenZ (logfs_file_names t) = LOGFS_MAX_FILES;
  to_rows : Forall (fun r => lenZ r = LOGFS_NAME_MAX) (logfs_file_names t);
  to_segments : lenZ (logfs_segments t) = LOGFS_MAX_SEGMENTS;
  to_count : 0 <= logfs_segment_count t <= LOGFS_MAX_SEGMENTS;
  to_live : forall i f, live t i f ->
    info_name f = Some (Z.of_nat i) /\ is_Some (name_of t f) /\ 0 <= info_size f < 2 ^ 32 /\
    contiguous 0 (segs_of t (file_id f)) (info_size f);
  to_ids : forall i j f g, live t i f -> live t j g -> file_id f = file_id g -> i = j;
  to_unique : forall i j f g, live t i f -> live t j g -> name_of t f = name_of t g -> i = j;
  to_range : Forall (fun g => 0 <= seg_data_offset g /\ seg_data_offset g + seg_data_size g <= hi /\ seg_data_size g <= 480) (segs t);
  to_owner : Forall (fun g => exists i f, live t i f /\ file_id f = seg_file_id g) (segs t)
}.

Lemma live_lookup t hi i f : tables_ok t hi -> live t i f -> rd (logfs_files t) (Z.of_nat i) = Some f /\ (i < 16)%nat.
Proof.
  intros Hok [Hi _]. rewrite rd_nat. split; [done|]. apply lookup_lt_Some in Hi.
  pose proof (to_files _ _ Hok). unfold LOGFS_MAX_FILES, lenZ in *. lia.
Qed.

Lemma slot_of_live t hi i f n : tables_ok t hi -> live t i f -> name_of t f = Some n -> slot_of t n = Some (i, f).
Proof.
  intros Hok [Hi Hu] Hn. apply list_find_Some. split_and!; [done|done|].
  intros j g Hj Hlt [Hgu Hgn]. assert (j = i); [|lia].
  apply (to_unique _ _ Hok j i g f); [done|done|]. by rewrite Hn, Hgn.
Qed.

Lemma slot_of_Some t n i f : slot_of t n = Some (i, f) -> live t i f /\ name_of t f = Some n.
Proof. intros (Hi & [Hu Hn] & _)%list_find_Some. by repeat split. Qed.

Lemma slot_of_None t n : slot_of t n = None -> forall i f, live t i f -> name_of t f <> Some n.
Proof.
  intros Hn%list_find_None i f [Hi Hu] Hf. apply (Forall_lookup_1 _ _ _ _ Hn Hi). by split.
Qed.

Lemma contiguous_bound gs start stop k :
  contiguous start gs stop -> Forall (fun g => seg_data_size g <= k) gs -> stop - start <= k * Z.of_nat (length gs).
Proof.
  intros Hc Hk. revert start Hc. induction Hk as [|g gs Hg Hk IH]; intros start; cbn [contiguous length]; [lia|].
  intros (_ & _ & _ & Hc%IH). lia.
Qed.

(** No file is larger than 64 payloads. *)
Lemma live_size t hi i f : tables_ok t hi -> live t i f -> 0 <= info_size f <= 30720.
Proof.
  intros Hok Hl. destruct (to_live _ _ Hok i f Hl) as (_ & _ & Hs & Hc).
  pose proof (contiguous_bound _ _ _ 480 Hc) as Hb. assert (Hlen : (length (segs_of t (file_id f)) <= 64)%nat).
  { unfold segs_of. etransitivity; [apply length_filter|]. unfold segs. rewrite length_take.
    pose proof (to_count _ _ Hok). unfold LOGFS_MAX_SEGMENTS in *. lia. }
  assert (info_size f - 0 <= 480 * Z.of_nat (length (segs_of t (file_id f)))); [|lia]. apply Hb.
  apply Forall_forall. intros g [_ Hg]%list_elem_of_filter. by apply (proj1 (Forall_forall _ _) (to_range _ _ Hok) g Hg).
Qed.

(** ** The searches *)

Lemma find_state_loop_spec n t hi i name s :
  tables_ok t hi -> cval name = Some s -> (i + n = 16)%nat ->
  find_state_loop n (Z.of_nat i) t name =
    Some ((fun '(j, _) => Z.of_nat (i + j)) <$> list_find (named t s) (drop i (logfs_files t))).
Proof.
  intros Hok Hs. pose proof (to_files _ _ Hok) as Hlen. unfold LOGFS_MAX_FILES, lenZ in Hlen.
  revert i. induction n as [|n IH]; intros i Hi; cbn [find_state_loop].
  { rewrite drop_ge by lia. done. }
  destruct (lookup_lt_is_Some_2 (logfs_files t) i) as [f Hf]; [lia|].
  rewrite rd_nat, Hf. cbn [mbind option_bind]. rewrite (drop_S _ _ _ Hf). cbn [list_find].
  assert (Hrec : find_state_loop n (Z.of_nat i + 1) t name =
    Some ((fun '(j, _) => Z.of_nat (i + j)) <$> (prod_map S id <$> list_find (named t s) (drop (S i) (logfs_files t))))).
  { replace (Z.of_nat i + 1) with (Z.of_nat (S i)) by lia. rewrite IH by lia. f_equal.
    destruct (list_find _ _) as [[j g]|]; simpl; [|done]. by rewrite Nat.add_succ_r. }
  destruct (Z.eqb_spec (file_in_use f) 0) as [Hz|Hz].
  - cbn [mbind option_bind]. rewrite Hrec. rewrite decide_False by (by intros [? _]). done.
  - destruct (to_live _ _ Hok i f) as (_ & [nm Hnm] & _); [by split|]. pose proof Hnm as Hnm'.
    unfold name_of in Hnm. destruct (file_name t f) as [m|]; [|done]. cbn [mbind option_bind] in *.
    destruct (strcmp_eqb m name nm s Hnm Hs) as (c & -> & Hc). cbn [mbind option_bind]. rewrite Hc.
    case_bool_decide as Heq.
    + rewrite decide_True by (subst; by split). simpl. by rewrite Nat.add_0_r.
    + rewrite decide_False by (intros [_ ?]; congruence). exact Hrec.
Qed.

Lemma logfs_find_file_state_spec t hi name s :
  tables_ok t hi -> cval name = Some s ->
  logfs_find_file_state t name = Some ((fun '(i, _) => Z.of_nat i) <$> slot_of t s).
Proof.
  intros Hok Hs. pose proof (find_state_loop_spec (Z.to_nat LOGFS_MAX_FILES) t hi 0 name s Hok Hs eq_refl) as He.
  exact He.
Qed.

(** A search by identifier finds the file that has it. *)
Lemma find_id_loop_spec n t id i :
  lenZ (logfs_files t) = LOGFS_MAX_FILES -> (i + n = 16)%nat ->
  match find_id_loop n (Z.of_nat i) t id with
  | Some (Some j) => exists k f, j = Z.of_nat k /\ live t k f /\ file_id f = id
  | Some None => forall k f, (i <= k)%nat -> live t k f -> file_id f <> id
  | None => False
  end.
Proof.
  unfold LOGFS_MAX_FILES, lenZ. intros Hlen. revert i. induction n as [|n IH]; intros i Hi; cbn [find_id_loop].
  { intros k f Hk [Hf%lookup_lt_Some _]. lia. }
  destruct (lookup_lt_is_Some_2 (logfs_files t) i) as [f Hf]; [lia|]. rewrite rd_nat, Hf. cbn [mbind option_bind].
  destruct (Z.eqb_spec (file_in_use f) 0) as [Hz|Hz], (Z.eqb_spec (file_id f) id) as [Hid|Hid]; cbn [negb andb].
  2,1,4: specialize (IH (S i)); replace (Z.of_nat (S i)) with (Z.of_nat i + 1) in IH by lia.
  4: { exists i, f. by repeat split. }
  all: destruct (find_id_loop n (Z.of_nat i + 1) t id) as [[j|]|]; try (apply IH; lia).
  all: intros k g Hk Hg; destruct (decide (k = i)) as [->|]; [|apply (IH ltac:(lia) k); [lia|done]].
  all: destruct Hg as [Hg Hgu]; rewrite Hf in Hg; injection Hg as <-; congruence.
Qed.

Lemma logfs_find_file_id_spec t hi id :
  tables_ok t hi ->
  (exists k f, logfs_find_file_id t id = Some (Some (Z.of_nat k)) /\ live t k f /\ file_id f = id) \/
  (logfs_find_file_id t id = Some None /\ forall k f, live t k f -> file_id f <> id).
Proof.
  intros Hok. pose proof (find_id_loop_spec (Z.to_nat LOGFS_MAX_FILES) t id 0 (to_files _ _ Hok) eq_refl) as He.
  change (Z.of_nat 0) with 0 in He. fold (logfs_find_file_id t id) in He.
  destruct (logfs_find_file_id t id) as [[j|]|]; [left|right|done].
  - destruct He as (k & f & -> & ?). by exists k, f.
  - split; [done|]. intros k f Hf. apply (He k f); [lia|done].
Qed.

Lemma find_id_live t hi i f : tables_ok t hi -> live t i f -> logfs_find_file_id t (file_id f) = Some (Some (Z.of_nat i)).
Proof.
  intros Hok Hl. destruct (logfs_find_file_id_spec t hi (file_id f) Hok) as [(k & g & -> & Hg & He)|[_ Hn]].
  - do 3 f_equal. by apply (to_ids _ _ Hok k i g f).
  - by destruct (Hn i f Hl).
Qed.

(** ** Creating a file *)

(** The lowest free slot. *)
Definition free_slot (t : tables) : option nat :=
  fst <$> list_find (fun f => file_in_use f = 0) (logfs_files t).

Lemma free_slot_Some t i : free_slot t = Some i -> exists f, logfs_files t !! i = Some f /\ file_in_use f = 0.
Proof.
  unfold free_slot. destruct (list_find _ _) as [[j f]|] eqn:Hf; [|done]. intros [= <-].
  apply list_find_Some in Hf as (? & ? & _). by exists f.
Qed.

Lemma alloc_loop_spec n t i :
  lenZ (logfs_files t) = LOGFS_MAX_FILES -> (i + n = 16)%nat ->
  alloc_loop n (Z.of_nat i) t =
    Some (match list_find (fun f => file_in_use f = 0) (drop i (logfs_files t)) with
          | Some (j, _) => (Some (Z.of_nat (i + j)),
              set_logfs_files (<[(i + j)%nat := FileState None 0 0 0 1]> (logfs_files t)) t)
          | None => (None, t)
          end).
Proof.
  unfold LOGFS_MAX_FILES, lenZ. intros Hlen. revert i. induction n as [|n IH]; intros i Hi; cbn [alloc_loop].
  { rewrite drop_ge by lia. done. }
  destruct (lookup_lt_is_Some_2 (logfs_files t) i) as [f Hf]; [lia|]. rewrite rd_nat, Hf. cbn [mbind option_bind].
  rewrite (drop_S _ _ _ Hf). cbn [list_find]. destruct (Z.eqb_spec (file_in_use f) 0) as [Hz|Hz].
  - rewrite decide_True by done. rewrite wr_Some by (unfold lenZ; lia). rewrite Nat2Z.id. cbn [mbind option_bind].
    by rewrite Nat.add_0_r.
  - rewrite decide_False by done. replace (Z.of_nat i + 1) with (Z.of_nat (S i)) by lia. rewrite IH by lia.
    destruct (list_find _ _) as [[j g]|]; simpl; [|done]. by rewrite Nat.add_succ_r.
Qed.

Lemma logfs_alloc_file_state_spec t :
  lenZ (logfs_files t) = LOGFS_MAX_FILES ->
  logfs_alloc_file_state t =
    Some (match free_slot t with
          | Some i => (Some (Z.of_nat i), set_logfs_files (<[i := FileState None 0 0 0 1]> (logfs_files t)) t)
          | None => (None, t)
          end).
Proof.
  intros Hl. pose proof (alloc_loop_spec (Z.to_nat LOGFS_MAX_FILES) t 0 Hl eq_refl) as He.
  unfold logfs_alloc_file_state. change (Z.of_nat 0) with 0 in He. rewrite He. unfold free_slot.
  rewrite drop_0. by destruct (list_find _ _) as [[j g]|].
Qed.

(** The tables with a new file in slot [i]. *)
Definition created (t : tables) (i : nat) (id : Z) (row : mem) (next : Z) : tables :=
  Tables (<[i := FileState (Some (Z.of_nat i)) 0 id 0 1]> (logfs_files t)) (<[i := row]> (logfs_file_names t))
    (logfs_segments t) (logfs_segment_count t) next.

Lemma created_live t hi i f0 id row next j g :
  tables_ok t hi -> logfs_files t !! i = Some f0 -> file_in_use f0 = 0 ->
  live (created t i id row next) j g <->
    (j = i /\ g = FileState (Some (Z.of_nat i)) 0 id 0 1) \/ (j <> i /\ live t j g).
Proof.
  intros Hok Hi Hu. unfold live. simpl. destruct (decide (j = i)) as [->|Hne].
  - rewrite list_lookup_insert_eq by (by eapply lookup_lt_Some). split.
    + intros [[= <-] _]. by left.
    + intros [[_ ->]|[? _]]; done.
  - rewrite list_lookup_insert_ne by done. split; [by right|]. by intros [[? _]|[_ ?]].
Qed.

Lemma created_name t hi i id row next j g :
  tables_ok t hi -> j <> i -> live t j g -> name_of (created t i id row next) g = name_of t g.
Proof.
  intros Hok Hne Hl. unfold name_of, file_name. destruct (to_live _ _ Hok j g Hl) as (-> & _).
  cbn [mbind option_bind]. rewrite !rd_nat. cbn [created logfs_file_names].
  by rewrite list_lookup_insert_ne by done.
Qed.

Lemma created_own_name t hi i id row next n :
  tables_ok t hi -> (i < 16)%nat -> cval row = Some n ->
  name_of (created t i id row next) (FileState (Some (Z.of_nat i)) 0 id 0 1) = Some n.
Proof.
  intros Hok Hi Hr. unfold name_of, file_name. cbn [info_name mbind option_bind created logfs_file_names].
  pose proof (to_names _ _ Hok). unfold LOGFS_MAX_FILES, lenZ in *.
  rewrite rd_nat, list_lookup_insert_eq by lia. done.
Qed.

(** Segments of an identifier no file has: there are none. *)
Lemma segs_of_fresh t hi id : tables_ok t hi -> (forall k f, live t k f -> file_id f <> id) -> segs_of t id = [].
Proof.
  intros Hok Hid. unfold segs_of. destruct (filter _ _) as [|g gs] eqn:Hf; [done|].
  assert (Hg : g ∈ filter (fun g => seg_file_id g = id) (segs t)) by (rewrite Hf; constructor).
  apply list_elem_of_filter in Hg as [Hgi Hg].
  destruct (proj1 (Forall_forall _ _) (to_owner _ _ Hok) g Hg) as (k & f & Hl & He).
  destruct (Hid k f Hl). by rewrite He.
Qed.

Lemma slot_lt t hi i f0 : tables_ok t hi -> logfs_files t !! i = Some f0 -> (i < 16)%nat.
Proof.
  intros Hok Hi%lookup_lt_Some. pose proof (to_files _ _ Hok). unfold LOGFS_MAX_FILES, lenZ in *. lia.
Qed.

Section created.
Context (t : tables) (hi : Z) (i : nat) (f0 : logfs_file_state) (id : Z) (row : mem) (n : list Z) (next : Z).
Context (Hok : tables_ok t hi) (Hi : logfs_files t !! i = Some f0) (Hu : file_in_use f0 = 0).
Context (Hrow : lenZ row = LOGFS_NAME_MAX) (Hn : cval row = Some n).
Context (Hname : slot_of t n = None) (Hid : forall k f, live t k f -> file_id f <> id).

Lemma created_ok : tables_ok (created t i id row next) hi.
Proof using Hok Hi Hu Hrow Hn Hname Hid.
  pose proof (fun j g => created_live t hi i f0 id row next j g Hok Hi Hu) as Hlive.
  pose proof (created_own_name t hi i id row next n Hok (slot_lt t hi i f0 Hok Hi) Hn) as Hown.
  pose proof (fun j g => created_name t hi i id row next j g Hok) as Hoth.
  pose proof Hok as [Hf Hnm Hr Hs Hc Hl Hids Hun Hrg Ho].
  split; simpl; try done.
  - unfold lenZ in *. by rewrite length_insert.
  - unfold lenZ in *. by rewrite length_insert.
  - by apply Forall_insert.
  - intros j g [[-> ->]|[Hne Hg]]%Hlive.
    + split_and!; [done|by rewrite Hown; eexists|done|done|]. change (contiguous 0 (segs_of t id) 0).
      by rewrite (segs_of_fresh t hi id).
    + rewrite (Hoth j g Hne Hg). by apply Hl.
  - intros j k f g [[-> ->]|[Hj Hfl]]%Hlive [[-> ->]|[Hk Hgl]]%Hlive; simpl; try done.
    + intros He. by destruct (Hid k g Hgl).
    + intros He. by destruct (Hid j f Hfl).
    + by apply Hids.
  - intros j k f g [[-> ->]|[Hj Hfl]]%Hlive [[-> ->]|[Hk Hgl]]%Hlive; try done.
    + rewrite Hown, (Hoth k g Hk Hgl). intros He. by destruct (slot_of_None t n Hname k g Hgl).
    + rewrite Hown, (Hoth j f Hj Hfl). intros He. by destruct (slot_of_None t n Hname j f Hfl).
    + rewrite (Hoth k g Hk Hgl), (Hoth j f Hj Hfl). by apply Hun.
  - apply (Forall_impl _ _ _ Ho). intros g (k & f & Hlk & He). exists k, f. split; [|done].
    apply Hlive. right. split; [|done]. intros ->. destruct Hlk as [Hlk ?]. by rewrite Hi in Hlk; injection Hlk as <-.
Qed.

(** The new file is empty, and the others keep their bytes. *)
Lemma created_bytes data m :
  bytes_of data (created t i id row next) m = if decide (m = n) then Some [] else bytes_of data t m.
Proof using Hok Hi Hu Hrow Hn Hname Hid.
  pose proof (fun j g => created_live t hi i f0 id row next j g Hok Hi Hu) as Hlive.
  pose proof (created_own_name t hi i id row next n Hok (slot_lt t hi i f0 Hok Hi) Hn) as Hown.
  pose proof (fun j g => created_name t hi i id row next j g Hok) as Hoth.
  unfold bytes_of. destruct (decide (m = n)) as [->|Hmn].
  - rewrite (slot_of_live _ hi i (FileState (Some (Z.of_nat i)) 0 id 0 1) n created_ok).
    + cbn [mbind option_bind file_id]. unfold contents. change (segs_of (created t i id row next) id) with (segs_of t id).
      by rewrite (segs_of_fresh t hi id).
    + apply Hlive. by left.
    + done.
  - destruct (slot_of t m) as [[j g]|] eqn:Hs.
    + apply slot_of_Some in Hs as [Hg Hgn].
      assert (Hne : j <> i) by (intros ->; destruct Hg as [Hg ?]; rewrite Hi in Hg; by injection Hg as <-).
      rewrite (slot_of_live _ hi j g m created_ok); [done| |by rewrite (Hoth j g)]. apply Hlive. by right.
    + destruct (slot_of (created t i id row next) m) as [[j g]|] eqn:Hs'; [|done]. exfalso.
      apply slot_of_Some in Hs' as [[[-> ->]|[Hne Hg]]%Hlive Hgn]; [congruence|].
      rewrite (Hoth j g Hne Hg) in Hgn. by apply (slot_of_None t m Hs j g).
Qed.

End created.

(** ** Growing a file *)

Definition grown (f : logfs_file_state) (size : Z) : logfs_file_state :=
  FileState (info_name f) (info_size f + size) (file_id f) (u32 (file_segment_count f + 1)) (file_in_use f).

(** The tables after [size] bytes at disk offset [off] were added to file [f]. *)
Definition extended (t : tables) (i : nat) (f : logfs_file_state) (size off : Z) : tables :=
  Tables (<[i := grown f size]> (logfs_files t)) (logfs_file_names t)
    (<[Z.to_nat (logfs_segment_count t) := Segment (file_id f) (info_size f) size off]> (logfs_segments t))
    (logfs_segment_count t + 1) (logfs_next_file_id t).

(** Both appends reach it while there is room for a segment. *)
Lemma extend_spec t hi i f size off :
  tables_ok t hi -> live t i f -> logfs_segment_count t < LOGFS_MAX_SEGMENTS ->
  exists t1, logfs_add_segment (file_id f) (info_size f) size off t = Some (0, t1) /\
    grow_file t1 (Z.of_nat i) (info_size f + size) = Some (extended t i f size off).
Proof.
  intros Hok Hl Hc. pose proof Hok as [Hf _ _ Hs Hcnt _ _ _ _ _]. unfold LOGFS_MAX_FILES, LOGFS_MAX_SEGMENTS in *.
  unfold logfs_add_segment, LOGFS_MAX_SEGMENTS. rewrite (proj2 (Z.leb_gt 64 _)) by lia.
  rewrite wr_Some by lia. cbn [mbind option_bind]. eexists. split; [done|]. unfold grow_file. cbn [logfs_files set_logfs_segment_count set_logfs_segments].
  destruct (live_lookup _ _ _ _ Hok Hl) as [-> Hi]. cbn [mbind option_bind]. rewrite wr_Some by lia.
  cbn [mbind option_bind]. rewrite Nat2Z.id. unfold extended, set_logfs_files. simpl. rewrite (u32_small (logfs_segment_count t + 1)) by lia. done.
Qed.

Lemma add_segment_full id fo size off t :
  LOGFS_MAX_SEGMENTS <= logfs_segment_count t -> logfs_add_segment id fo size off t = Some (-1, t).
Proof. intros H. unfold logfs_add_segment. by rewrite (proj2 (Z.leb_le _ _)). Qed.

Lemma extended_segs t hi i f size off :
  tables_ok t hi -> logfs_segment_count t < LOGFS_MAX_SEGMENTS ->
  segs (extended t i f size off) = segs t ++ [Segment (file_id f) (info_size f) size off].
Proof.
  intros [_ _ _ Hs Hcnt _ _ _ _ _] Hc. unfold segs. simpl. unfold LOGFS_MAX_SEGMENTS, lenZ in *.
  replace (Z.to_nat (logfs_segment_count t + 1)) with (S (Z.to_nat (logfs_segment_count t))) by lia.
  rewrite (take_S_r _ _ (Segment (file_id f) (info_size f) size off)) by (apply list_lookup_insert_eq; lia).
  by rewrite take_insert_ge by lia.
Qed.

Lemma contiguous_snoc gs start stop g :
  contiguous start gs stop -> seg_file_offset g = stop -> 0 < seg_data_size g ->
  stop + seg_data_size g < 2 ^ 32 -> contiguous start (gs ++ [g]) (stop + seg_data_size g).
Proof.
  revert start. induction gs as [|g' gs IH]; intros start; simpl.
  - intros <- -> ? ?. done.
  - intros (? & ? & ? & ?) ? ? ?. split_and!; try done. by apply IH.
Qed.

Section extended.
Context (t : tables) (hi hi' : Z) (i : nat) (f : logfs_file_state) (size off : Z).
Context (Hok : tables_ok t hi) (Hl : live t i f) (Hc : logfs_segment_count t < LOGFS_MAX_SEGMENTS).
Context (Hsize : 0 < size <= 480) (Hfit : info_size f + size < 2 ^ 32).
Context (Hoff : 0 <= off) (Hend : off + size <= hi') (Hhi : hi <= hi').

Lemma extended_live j g :
  live (extended t i f size off) j g <-> (j = i /\ g = grown f size) \/ (j <> i /\ live t j g).
Proof using Hl.
  clear - Hl. destruct Hl as [Hi Hu]. unfold live. simpl. destruct (decide (j = i)) as [->|Hne].
  - rewrite list_lookup_insert_eq by (by eapply lookup_lt_Some). split.
    + intros [[= <-] _]. by left.
    + intros [[_ ->]|[? _]]; done.
  - rewrite list_lookup_insert_ne by done. split; [by right|]. by intros [[? _]|[_ ?]].
Qed.

Lemma extended_segs_of id :
  segs_of (extended t i f size off) id =
    segs_of t id ++ (if decide (file_id f = id) then [Segment (file_id f) (info_size f) size off] else []).
Proof using Hok Hc.
  clear - Hok Hc. unfold segs_of. rewrite (extended_segs t hi i f size off Hok Hc), filter_app. f_equal.
Qed.

Lemma extended_name g : name_of (extended t i f size off) g = name_of t g.
Proof using Type. done. Qed.

Lemma extended_ok : tables_ok (extended t i f size off) hi'.
Proof using Hok Hl Hc Hsize Hfit Hoff Hend Hhi.
  pose proof Hok as [Hf Hnm Hr Hs Hcnt Hlv Hids Hun Hrg Ho].
  split; simpl; try done.
  - unfold lenZ in *. by rewrite length_insert.
  - unfold lenZ in *. by rewrite length_insert.
  - lia.
  - intros j g [[-> ->]|[Hne Hg]]%extended_live.
    + destruct (Hlv i f Hl) as (Hn & Hnn & Hsz & Hct). split_and!; simpl; try done; try lia.
      rewrite extended_segs_of, decide_True by done. apply contiguous_snoc; simpl; done || lia.
    + destruct (Hlv j g Hg) as (Hn & Hnn & Hsz & Hct). split_and!; try done; try lia.
      rewrite extended_segs_of, decide_False, app_nil_r; [done|]. intros He. by apply Hne, (Hids j i g f).
  - intros j k g g' [[-> ->]|[Hj Hg]]%extended_live [[-> ->]|[Hk Hg']]%extended_live; simpl; try done.
    + by apply Hids.
    + by apply Hids.
    + by apply Hids.
  - intros j k g g' [[-> ->]|[Hj Hg]]%extended_live [[-> ->]|[Hk Hg']]%extended_live; rewrite !extended_name; try done.
    + by apply (Hun i k f g').
    + by apply (Hun j i g f).
    + by apply Hun.
  - rewrite (extended_segs t hi i f size off Hok Hc). apply Forall_app. split.
    + apply (Forall_impl _ _ _ Hrg). intros g [? ?]. lia.
    + apply Forall_singleton. simpl. lia.
  - rewrite (extended_segs t hi i f size off Hok Hc). apply Forall_app. split.
    + apply (Forall_impl _ _ _ Ho). intros g (k & fk & Hk & He). destruct (decide (k = i)) as [->|Hne].
      * exists i, (grown f size). split; [apply extended_live; by left|].
        destruct Hk as [Hk _], Hl as [Hl' _]. rewrite Hl' in Hk. injection Hk as <-. done.
      * exists k, fk. split; [apply extended_live; by right|done].
    + apply Forall_singleton. exists i, (grown f size). split; [apply extended_live; by left|done].
Qed.

(** The file grows by the bytes at [off]; the others keep theirs. *)
Lemma extended_bytes data m :
  bytes_of data (extended t i f size off) m =
    if decide (name_of t f = Some m)
    then Some (contents data t (file_id f) ++ slice data (Z.to_nat off) (Z.to_nat size))
    else bytes_of data t m.
Proof using Hok Hl Hc Hsize Hfit Hoff Hend Hhi.
  pose proof extended_ok as Hok'. unfold bytes_of. destruct (decide (name_of t f = Some m)) as [Hm|Hm].
  - rewrite (slot_of_live _ hi' i (grown f size) m Hok'); [|apply extended_live; by left|done].
    cbn [mbind option_bind grown file_id]. unfold contents. rewrite extended_segs_of, decide_True by done.
    by rewrite map_app, concat_app; simpl; rewrite app_nil_r.
  - destruct (slot_of t m) as [[j g]|] eqn:Hs.
    + apply slot_of_Some in Hs as [Hg Hgn].
      assert (Hne : j <> i) by (intros ->; destruct Hg as [Hg ?], Hl as [Hl' ?]; rewrite Hl' in Hg; by injection Hg as <-).
      rewrite (slot_of_live _ hi' j g m Hok'); [|apply extended_live; by right|done].
      cbn [mbind option_bind]. unfold contents. rewrite extended_segs_of, decide_False, app_nil_r; [done|].
      intros He. by apply Hne, (to_ids _ _ Hok j i g f).
    + destruct (slot_of (extended t i f size off) m) as [[j g]|] eqn:Hs'; [|done]. exfalso.
      apply slot_of_Some in Hs' as [[[-> ->]|[Hne Hg]]%extended_live Hgn]; [done|].
      by apply (slot_of_None t m Hs j g).
Qed.

End extended.
