(* ===== verification/LogDisk.v ===== *)
(** The append-only file system on its disk: reading a file delivers its
    bytes, appending a record writes exactly the record's bytes behind the
    log, and records read back as they were written. *)
From S2P Require Import Prelude LibString Klog BlockDevice BlockIO LogFS LogTables.

(** ** Records as bytes *)

(** Every field of the header is an [unsigned int]. *)
Definition header_ok (h : logfs_record_header) : Prop :=
  Forall (fun v => 0 <= v < 2 ^ 32)
    [h_magic h; h_type h; h_file_id h; h_payload_size h; h_file_size_before h; h_file_size_after h;
     h_checksum h; h_name_length h].

Lemma lenZ_header_bytes h : lenZ (header_bytes h) = 32.
Proof. done. Qed.

(** A header reads back from its bytes. *)
Lemma header_of_bytes h r : header_ok h -> header_of (header_bytes h ++ r) = h.
Proof.
  unfold header_ok. intros Hok. repeat (apply Forall_cons in Hok as [? Hok]).
  destruct h as [m t i p b a c n]. cbn in *. unfold header_of.
  f_equal; (etransitivity; [apply le32_bytes32|]); by apply u32_small.
Qed.

Lemma checksum_loop_app n i seed l r :
  0 <= i -> i + Z.of_nat n <= lenZ l -> checksum_loop n i seed (l ++ r) = checksum_loop n i seed l.
Proof.
  revert i seed. induction n as [|n IH]; intros i seed Hi Hl; cbn [checksum_loop]; [done|].
  unfold rd. rewrite (proj2 (Z.leb_le 0 i)) by lia. unfold lenZ in *. rewrite lookup_app_l by lia.
  destruct (l !! Z.to_nat i); [|done]. cbn [mbind option_bind]. apply IH; lia.
Qed.

(** The checksum of a prefix depends on the prefix only. *)
Lemma checksum_prefix seed l r n :
  0 <= n <= lenZ l -> logfs_checksum_bytes seed (l ++ r) n = logfs_checksum_bytes seed l n.
Proof. intros Hn. apply checksum_loop_app; lia. Qed.

Lemma checksum_total seed l n :
  0 <= seed < 2 ^ 32 -> 0 <= n <= lenZ l ->
  exists c, logfs_checksum_bytes seed l n = Some c /\ 0 <= c < 2 ^ 32.
Proof.
  intros Hs Hn. unfold logfs_checksum_bytes.
  assert (Hgo : forall k i seed, 0 <= seed < 2 ^ 32 -> 0 <= i -> i + Z.of_nat k <= lenZ l ->
    exists c, checksum_loop k i seed l = Some c /\ 0 <= c < 2 ^ 32).
  { clear. induction k as [|k IH]; intros i seed Hs Hi Hk; cbn [checksum_loop]; [by exists seed|].
    destruct (rd_Some l i) as [b ->]; [lia|]. cbn [mbind option_bind]. apply IH; [apply u32_bound|lia|lia]. }
  apply Hgo; lia.
Qed.

Lemma logfs_align_up_spec v : 0 <= v -> v + 7 < 2 ^ 32 -> logfs_align_up v = (v + 7) / 8 * 8.
Proof.
  intros Hv Hb. unfold logfs_align_up, LOGFS_ALIGN. change (8 - 1) with (2 ^ 3 - 1).
  rewrite u32_small by lia. rewrite land_not32 by lia. change (2 ^ 3 - 1) with 7. change (2 ^ 3) with 8.
  pose proof (Z.div_mod (v + 7) 8). lia.
Qed.

(** ** The state of a file system on a disk *)

Section disk.
Context {X : Type} `{DiskDriver X}.
Implicit Types (s : logfs X) (d : block_device X).

Record log_state s (p : nat) d : Prop := {
  ls_device : logfs_block_device s = Some p;
  ls_disk : disk_at (logfs_bio s) p d;
  ls_bs : block_size d <= LOGFS_IO_BUFFER_SIZE;
  ls_record : lenZ (logfs_record_buffer s) = LOGFS_IO_BUFFER_SIZE;
  ls_limit : 0 <= log_limit s <= capacity d;
  ls_end : 0 <= logfs_log_end s < 2 ^ 63;
  ls_tables : tables_ok (logfs_tables s) (Z.min (logfs_log_end s) (capacity d))
}.

(** The state with another block buffer, which no operation reads before it
    filled it. *)
Definition rebuf (buf : mem) s : logfs X := set_logfs_bio (Bio (logfs_devs s) buf) s.

Lemma log_state_rebuf s p d buf :
  log_state s p d -> lenZ buf = lenZ (logfs_block_buffer s) -> log_state (rebuf buf s) p d.
Proof.
  intros [Hp (Hd & Hdev & Hbuf) Hbs Hrec Hlim Hend Ht] Hb. split; try done. split_and!; try done. simpl in *. by rewrite Hb.
Qed.

Lemma logfs_dev_at s p d :
  disk_at (logfs_bio s) p d -> zoom logfs_devs set_logfs_devs (dev_at (Some p)) s = Ret d s [].
Proof.
  intros (Hd & _). unfold zoom, dev_at. rewrite bind_deref_Some with (a := p) by done.
  unfold bind, gets, deref. simpl in *. rewrite Hd. by destruct s.
Qed.

Lemma logfs_read_bytes_spec s p d offset size dest :
  logfs_block_device s = Some p -> disk_at (logfs_bio s) p d -> block_size d <= LOGFS_IO_BUFFER_SIZE ->
  0 <= offset -> 0 <= size -> offset + size < 2 ^ 64 -> size <= lenZ dest ->
  exists buf dest', lenZ buf = lenZ (logfs_block_buffer s) /\ lenZ dest' = lenZ dest /\
    logfs_read_bytes offset (Some dest) size s =
      Ret (if (size <=? 0) || (offset + size <=? capacity d) then 0 else -1, Some dest') (rebuf buf s) [] /\
    ((size <=? 0) || (offset + size <=? capacity d) = true ->
     dest' = splice dest 0 (slice (dev_data d) (Z.to_nat offset) (Z.to_nat size))).
Proof.
  intros Hp Hat Hbs Ho Hs Hos Hd.
  destruct (read_chunks_spec (Z.to_nat (size + 1)) (logfs_bio s) p d offset size 0 dest)
    as (buf & dest' & Hb & Hl & He & Hv); try done; try lia.
  exists buf, dest'. split_and!; [done|done| |].
  - unfold logfs_read_bytes. krun. rewrite Hp.
    rewrite (bind_Ret_nil _ _ _ _ _ (logfs_dev_at s p d Hat)). rewrite (proj2 (Z.ltb_ge _ _)) by lia.
    by rewrite (bind_Ret_nil _ _ _ _ _ (zoom_Ret _ set_logfs_bio _ s _ _ _ He)).
  - intros Hok. rewrite (Hv Hok). by rewrite Z.add_0_r, Z.sub_0_r.
Qed.

(** A read that stays on the disk. *)
Lemma logfs_read_in s p d offset size dest :
  log_state s p d -> 0 <= offset -> 0 <= size -> offset + size <= capacity d -> size <= lenZ dest ->
  exists buf, lenZ buf = lenZ (logfs_block_buffer s) /\
    logfs_read_bytes offset (Some dest) size s =
      Ret (0, Some (splice dest 0 (slice (dev_data d) (Z.to_nat offset) (Z.to_nat size)))) (rebuf buf s) [].
Proof.
  intros Hls Ho Hs Hc Hd. pose proof Hls as [Hp Hat Hbs _ _ _ _]. pose proof Hat as (_ & Hdev & _).
  destruct (disk_device_geometry d Hdev) as (_ & _ & Hcap & _).
  destruct (logfs_read_bytes_spec s p d offset size dest) as (buf & dest' & Hb & _ & He & Hv); try done; try lia.
  rewrite (proj2 (Z.leb_le (offset + size) _)), orb_true_r in He, Hv by lia.
  exists buf. split; [done|]. by rewrite He, Hv.
Qed.

(** Writing inside the disk changes exactly the bytes written. *)
Lemma logfs_write_in s p d offset src size :
  log_state s p d -> 0 <= offset -> 0 <= size -> offset + size <= capacity d -> size <= lenZ src ->
  exists b' d', logfs_write_bytes offset (Some src) size s = Ret 0 (set_logfs_bio b' s) [] /\
    disk_at b' p d' /\ same_disk d d' /\ lenZ (bio_buffer b') = lenZ (logfs_block_buffer s) /\
    dev_data d' = splice (dev_data d) (Z.to_nat offset) (take (Z.to_nat size) src).
Proof.
  intros Hls Ho Hs Hc Hd. pose proof Hls as [Hp Hat Hbs _ _ _ _]. pose proof Hat as (_ & Hdev & _).
  destruct (write_chunks_spec (Z.to_nat (size + 1)) (logfs_bio s) p d offset size 0 src)
    as (b' & He & d' & Hat' & Hsame & _ & Hbl & Hdata); try done; try lia.
  exists b', d'. split_and!; [|done|done|done|].
  - unfold logfs_write_bytes. krun. rewrite Hp.
    rewrite (bind_Ret_nil _ _ _ _ _ (logfs_dev_at s p d Hat)). destruct Hdev as [_ _ _ _ -> _].
    rewrite (proj2 (Z.ltb_ge _ _)) by lia. by apply zoom_Ret.
  - rewrite Hdata, Z.add_0_r, Z.sub_0_r. unfold slice. change (Z.to_nat 0) with 0%nat. by rewrite drop_0.
Qed.

(** ** Reading a file *)

(** The bytes of the segments behind position [P] of a file. *)
Lemma contiguous_length data gs start stop hi :
  contiguous start gs stop ->
  Forall (fun g => 0 <= seg_data_offset g /\ seg_data_offset g + seg_data_size g <= hi /\ seg_data_size g <= 480) gs -> hi <= lenZ data ->
  lenZ (concat (map (seg_bytes data) gs)) = stop - start /\ start <= stop.
Proof.
  intros Hc Hr Hd. revert start Hc. induction Hr as [|g gs (Hg1 & Hg2 & _) Hr IH]; intros start; simpl.
  - intros ->. change (lenZ []) with 0. lia.
  - intros (Ho & Hs & Hb & Hc). destruct (IH _ Hc) as [Hl Hle]. rewrite lenZ_app, Hl.
    assert (lenZ (seg_bytes data g) = seg_data_size g); [|lia].
    unfold seg_bytes, lenZ in *. rewrite length_slice; lia.
Qed.

Lemma contiguous_le gs start stop : contiguous start gs stop -> start <= stop.
Proof.
  revert start. induction gs as [|g gs IH]; intros start; simpl; [lia|].
  intros (_ & Hs & _ & Hc%IH). lia.
Qed.

(** What has been copied once the segments up to position [pos] are done. *)
Definition copied_at (offset size pos : Z) : Z := Z.max 0 (Z.min pos (offset + size) - offset).

(** The piece that a segment at position [pos] contributes. *)
Lemma segment_piece data C g gs pos stop offset size hi :
  drop (Z.to_nat pos) C = concat (map (seg_bytes data) (g :: gs)) -> lenZ C = stop ->
  0 <= pos -> contiguous pos (g :: gs) stop ->
  0 <= seg_data_offset g /\ seg_data_offset g + seg_data_size g <= hi /\ seg_data_size g <= 480 -> hi <= lenZ data ->
  0 <= offset -> offset < pos + seg_data_size g -> pos < offset + size ->
  let lo := Z.max offset pos in
  let up := Z.min (offset + size) (pos + seg_data_size g) in
  slice data (Z.to_nat (seg_data_offset g + (lo - pos))) (Z.to_nat (up - lo)) =
    slice C (Z.to_nat lo) (Z.to_nat (up - lo)).
Proof.
  intros Hdrop HC Hpos (Hgo & Hgs & Hgb & Hct) (Hr1 & Hr2 & _) Hhi Ho H1 H2. cbn zeta.
  set (lo := Z.max offset pos). set (up := Z.min (offset + size) (pos + seg_data_size g)).
  replace (Z.to_nat lo) with (Z.to_nat pos + Z.to_nat (lo - pos))%nat by lia.
  unfold slice. rewrite <- (drop_drop C), Hdrop. cbn [map concat].
  assert (Hlen : length (seg_bytes data g) = Z.to_nat (seg_data_size g)).
  { unfold seg_bytes, lenZ in *. apply length_slice. lia. }
  rewrite drop_app_le by lia. rewrite take_app_le by (rewrite length_drop; lia).
  change (take (Z.to_nat (up - lo)) (drop (Z.to_nat (lo - pos)) (seg_bytes data g)))
    with (slice (seg_bytes data g) (Z.to_nat (lo - pos)) (Z.to_nat (up - lo))).
  unfold seg_bytes. rewrite slice_slice by lia. unfold slice. do 2 f_equal. lia.
Qed.

(** Continuing a partial copy. *)
Lemma splice_continue (D C : list Z) offset k n :
  0 <= offset -> 0 <= k -> 0 <= n -> k + n <= lenZ D -> offset + k + n <= lenZ C ->
  let dest := splice D 0 (slice C (Z.to_nat offset) (Z.to_nat k)) in
  take (Z.to_nat k) dest ++
    splice (drop (Z.to_nat k) dest) 0 (slice C (Z.to_nat (offset + k)) (Z.to_nat n)) =
  splice D 0 (slice C (Z.to_nat offset) (Z.to_nat (k + n))).
Proof.
  intros Ho Hk Hn HD HC. cbn zeta. unfold lenZ in *.
  assert (Hl : length (slice C (Z.to_nat offset) (Z.to_nat k)) = Z.to_nat k) by (apply length_slice; lia).
  assert (Hl2 : length (slice C (Z.to_nat (offset + k)) (Z.to_nat n)) = Z.to_nat n) by (apply length_slice; lia).
  replace (Z.to_nat (k + n)) with (Z.to_nat k + Z.to_nat n)%nat by lia. rewrite slice_app.
  replace (Z.to_nat offset + Z.to_nat k)%nat with (Z.to_nat (offset + k)) by lia.
  set (a := slice C (Z.to_nat offset) _) in *. set (b := slice C (Z.to_nat (offset + k)) _) in *.
  unfold splice. rewrite !take_0. cbn [app]. rewrite Hl, Hl2, length_app, Hl, Hl2.
  rewrite take_app_le, drop_app_ge by lia. rewrite take_ge by lia. rewrite Hl, Nat.sub_diag, drop_0.
  rewrite drop_drop, <- app_assoc. done.
Qed.

Section read_loop.
Context (s0 : logfs X) (p : nat) (d : block_device X) (id offset size stop : Z) (C D : list Z).
Context (Hls : log_state s0 p d) (Hoff : 0 <= offset) (Hsize : 0 < size) (Hend : offset + size <= stop)
  (Hstop : stop < 2 ^ 32) (HC : lenZ C = stop) (HD : size <= lenZ D).

Definition partial (k : Z) : mem := splice D 0 (slice C (Z.to_nat offset) (Z.to_nat k)).

Lemma lenZ_partial k : 0 <= k <= size -> lenZ (partial k) = lenZ D.
Proof using Hoff Hsize Hend HC HD.
  intros Hk. unfold partial, lenZ in *. apply f_equal, length_splice. rewrite length_slice; lia.
Qed.

Lemma read_segments_spec fuel k pos buf :
  lenZ buf = lenZ (logfs_block_buffer s0) ->
  (k + fuel = length (segs (logfs_tables s0)))%nat ->
  contiguous pos (filter (fun g => seg_file_id g = id) (drop k (segs (logfs_tables s0)))) stop ->
  drop (Z.to_nat pos) C =
    concat (map (seg_bytes (dev_data d)) (filter (fun g => seg_file_id g = id) (drop k (segs (logfs_tables s0))))) ->
  0 <= pos ->
  exists buf', lenZ buf' = lenZ (logfs_block_buffer s0) /\
    read_segments fuel (Z.of_nat k) id offset size (copied_at offset size pos)
      (partial (copied_at offset size pos)) (rebuf buf s0) =
      Ret (i32 size, partial size) (rebuf buf' s0) [].
Proof using Hls Hoff Hsize Hend Hstop HC HD.
  revert k pos buf. induction fuel as [|fuel IH]; intros k pos buf Hbuf Hk Hct Hdrop Hpos; cbn [read_segments].
  { rewrite drop_ge in Hct by lia. simpl in Hct. subst pos.
    replace (copied_at offset size stop) with size by (unfold copied_at; lia). by exists buf. }
  destruct (Z.leb_spec size (copied_at offset size pos)) as [Hdone|Hmore].
  { replace (copied_at offset size pos) with size by (unfold copied_at in *; lia). by exists buf. }
  destruct (lookup_lt_is_Some_2 (segs (logfs_tables s0)) k) as [g Hg]; [lia|].
  pose proof Hls as [_ (_ & Hdev & _) _ _ _ _ Hok]. pose proof (capacity_data d Hdev) as Hcap.
  assert (Hrd : rd (logfs_segments (logfs_tables s0)) (Z.of_nat k) = Some g).
  { rewrite rd_nat. unfold segs in Hg. by apply lookup_take_Some in Hg as [? _]. }
  pose proof (Forall_lookup_1 _ _ _ _ (to_range _ _ Hok) Hg) as Hrange. cbn beta in Hrange.
  krun. change (logfs_tables (rebuf buf s0)) with (logfs_tables s0). rewrite (bind_deref_Some _ _ _ _ Hrd).
  rewrite (drop_S _ _ _ Hg) in Hct, Hdrop. rewrite filter_cons in Hct, Hdrop.
  replace (Z.of_nat k + 1) with (Z.of_nat (S k)) by lia.
  destruct (Z.eqb_spec (seg_file_id g) id) as [Hid|Hid]; cbn [negb].
  2:{ rewrite decide_False in Hct, Hdrop by done. apply IH; try done; lia. }
  rewrite decide_True in Hct, Hdrop by done. pose proof Hct as (Hgo & Hgs & Hgb & Hct').
  assert (Hdrop' : drop (Z.to_nat (pos + seg_data_size g)) C =
    concat (map (seg_bytes (dev_data d)) (filter (fun g => seg_file_id g = id) (drop (S k) (segs (logfs_tables s0)))))).
  { replace (Z.to_nat (pos + seg_data_size g)) with (Z.to_nat pos + Z.to_nat (seg_data_size g))%nat by lia.
    rewrite <- drop_drop, Hdrop. cbn [map concat]. rewrite drop_app_ge; unfold seg_bytes;
      rewrite length_slice by (unfold lenZ in *; lia); [by rewrite Nat.sub_diag, drop_0|lia]. }
  cbn zeta. rewrite (u32_small (offset + size)), Hgo, (u32_small (pos + seg_data_size g)) by lia.
  destruct (Z.leb_spec (pos + seg_data_size g) offset) as [Hskip|Hov1]; cbn [orb].
  { replace (copied_at offset size pos) with (copied_at offset size (pos + seg_data_size g)) by (unfold copied_at; lia).
    apply IH; try done; lia. }
  destruct (Z.leb_spec (offset + size) pos) as [Hskip|Hov2]; [unfold copied_at in Hmore; lia|].
  assert (Hlo : (if pos <? offset then offset else pos) = Z.max offset pos) by (destruct (Z.ltb_spec pos offset); lia).
  assert (Hup : (if offset + size <? pos + seg_data_size g then offset + size else pos + seg_data_size g) =
    Z.min (offset + size) (pos + seg_data_size g)) by (destruct (Z.ltb_spec (offset + size) (pos + seg_data_size g)); lia).
  rewrite Hlo, Hup. clear Hlo Hup. pose proof Hct as Hstop'. pose proof (contiguous_le _ _ _ Hct').
  set (lo := Z.max offset pos). set (up := Z.min (offset + size) (pos + seg_data_size g)).
  destruct (disk_device_geometry d Hdev) as (_ & _ & Hcap63 & _).
  rewrite (u32_small (lo - pos)), (u32_small (up - lo)), u64_small by lia.
  assert (Hcop : copied_at offset size pos = lo - offset) by (unfold copied_at; lia).
  pose proof (lenZ_partial (lo - offset) ltac:(lia)) as Hpl.
  destruct (logfs_read_in (rebuf buf s0) p d (seg_data_offset g + (lo - pos)) (up - lo)
    (drop (Z.to_nat (copied_at offset size pos)) (partial (copied_at offset size pos)))) as (buf2 & Hb2 & He);
    [by apply log_state_rebuf|lia|lia|lia|rewrite Hcop; unfold lenZ in *; rewrite length_drop; lia|].
  rewrite (bind_Ret_nil _ _ _ _ _ He). cbn iota. rewrite (bind_deref_Some _ _ _ _ eq_refl).
  change (negb (0 =? 0)) with false. cbn iota.
  pose proof (segment_piece (dev_data d) C g _ pos stop offset size _ Hdrop HC Hpos Hstop' Hrange) as Hpiece.
  cbn zeta in Hpiece. fold lo up in Hpiece. rewrite Hpiece by lia. rewrite Hcop, u32_small by lia.
  pose proof (splice_continue D C offset (lo - offset) (up - lo)) as Hsc. cbn zeta in Hsc.
  replace (offset + (lo - offset)) with lo in Hsc by lia. fold (partial (lo - offset)) in Hsc.
  rewrite Hsc by lia. fold (partial (lo - offset + (up - lo))).
  replace (lo - offset + (up - lo)) with (copied_at offset size (pos + seg_data_size g)) by (unfold copied_at; lia).
  change (rebuf buf2 (rebuf buf s0)) with (rebuf buf2 s0). apply IH; try done; try lia. by rewrite Hb2.
Qed.

End read_loop.

(** A mounted file system on disk [d], and the bytes of its files. *)
Definition log_mounted s (p : nat) d : Prop := log_state s p d /\ logfs_ready s = 1.
Definition log_bytes s d (n : list Z) : option (list Z) := bytes_of (dev_data d) (logfs_tables s) n.

Lemma contents_length s p d i f :
  log_state s p d -> live (logfs_tables s) i f ->
  lenZ (contents (dev_data d) (logfs_tables s) (file_id f)) = info_size f.
Proof.
  intros [_ (_ & Hdev & _) _ _ _ _ Hok] Hl. destruct (to_live _ _ Hok i f Hl) as (_ & _ & _ & Hct).
  unfold contents. destruct (contiguous_length (dev_data d) _ _ _ (capacity d) Hct) as [-> _]; [|rewrite capacity_data; done|lia].
  apply Forall_forall. intros g [_ Hg]%list_elem_of_filter.
  pose proof (proj1 (Forall_forall _ _) (to_range _ _ Hok) g Hg). cbn beta in *. lia.
Qed.

(** The window of a file that a read should deliver. *)
Definition log_window s d (n : list Z) (offset size : Z) : option (list Z) :=
  C ← log_bytes s d n;
  if offset <=? lenZ C then Some (slice C (Z.to_nat offset) (Z.to_nat (Z.min size (lenZ C - offset)))) else None.

(** A read with result [r] that leaves [b] in the buffer did what was wanted. *)
Definition log_delivered (want : option (list Z)) (buf : mem) (r : Z) (b : mem) : Prop :=
  match want with
  | Some got => r = i32 (lenZ got) /\ b = splice buf 0 got
  | None => r = -1 /\ b = buf
  end.

Lemma logfs_read_file_part_ok s p d nm n offset buf size :
  log_mounted s p d -> cval nm = Some n -> 0 <= offset < 2 ^ 32 -> 0 <= size < 2 ^ 32 -> size <= lenZ buf ->
  exists r b bb, lenZ bb = lenZ (logfs_block_buffer s) /\
    logfs_read_file_part nm offset (Some buf) size s = Ret (r, Some b) (rebuf bb s) [] /\
    log_delivered (log_window s d n offset size) buf r b.
Proof.
  intros [Hls Hrdy] Hn Ho Hs Hb. pose proof Hls as [_ (_ & Hdev & _) _ _ _ _ Hok].
  assert (Hid : rebuf (logfs_block_buffer s) s = s) by (by destruct s).
  unfold logfs_read_file_part, log_window, log_bytes, bytes_of. krun. rewrite Hrdy. change (1 =? 0) with false. cbn iota. krun.
  rewrite (bind_deref_Some _ _ _ _ (logfs_find_file_state_spec _ _ _ _ Hok Hn)).
  destruct (slot_of (logfs_tables s) n) as [[i f]|] eqn:Hsl; cbn [fmap option_fmap option_map mbind option_bind].
  2:{ eexists _, _, (logfs_block_buffer s). rewrite Hid. by split_and!. }
  apply slot_of_Some in Hsl as [Hl _]. destruct (live_lookup _ _ _ _ Hok Hl) as [Hrd _].
  rewrite (bind_deref_Some _ _ _ _ Hrd). rewrite (contents_length s p d i f Hls Hl), Z.ltb_antisym.
  pose proof (contents_length s p d i f Hls Hl) as HC. set (C := contents _ _ _) in *.
  destruct (to_live _ _ Hok i f Hl) as (_ & _ & Hsz & Hct).
  destruct (Z.leb_spec offset (info_size f)) as [Hle|Hgt]; cbn [negb].
  2:{ eexists _, _, (logfs_block_buffer s). rewrite Hid. by split_and!. }
  assert (Hmin : (if info_size f - offset <? size then info_size f - offset else size) = Z.min size (info_size f - offset))
    by (destruct (Z.ltb_spec (info_size f - offset) size); lia).
  cbn zeta. rewrite Hmin. destruct (Z.eqb_spec (Z.min size (info_size f - offset)) 0) as [Hz|Hz].
  { eexists _, _, (logfs_block_buffer s). rewrite Hid, Hz. split; [done|]. split; [done|].
    change (Z.to_nat 0) with 0%nat. rewrite slice_nil. split; [done|]. by rewrite splice_nil. }
  set (size1 := Z.min size (info_size f - offset)) in *.
  assert (Hgl : lenZ (slice C (Z.to_nat offset) (Z.to_nat size1)) = size1).
  { unfold lenZ in *. rewrite length_slice; lia. }
  destruct (read_segments_spec s p d (file_id f) offset size1 (info_size f) C buf Hls) with
    (fuel := Z.to_nat (logfs_segment_count (logfs_tables s))) (k := 0%nat) (pos := 0) (buf := logfs_block_buffer s)
    as (bb & Hbb & He); try done; try lia.
  { destruct (to_count _ _ Hok), (to_segments _ _ Hok). unfold segs. rewrite length_take.
    pose proof (to_segments _ _ Hok). unfold lenZ in *. lia. }
  rewrite Hid in He. replace (copied_at offset size1 0) with 0 in He by (unfold copied_at; lia).
  unfold partial in He. change (Z.to_nat 0) with 0%nat in He. rewrite slice_nil, splice_nil in He.
  rewrite (bind_Ret_nil _ _ _ _ _ He). eexists _, _, bb. split; [done|]. split; [done|]. cbn iota. unfold log_delivered. by rewrite Hgl.
Qed.

Lemma log_mounted_rebuf s p d bb : log_mounted s p d -> lenZ bb = lenZ (logfs_block_buffer s) -> log_mounted (rebuf bb s) p d.
Proof. intros [Hls Hr] Hb. split; [by apply log_state_rebuf|done]. Qed.

(** Reading part of a file delivers exactly the bytes of the window, cut at the
    end of the file, assembled from its segments wherever they lie on the
    disk; the tables and the disk do not change. *)
Theorem logfs_read_file_part_spec s p d nm n offset buf size :
  log_mounted s p d -> cval nm = Some n -> 0 <= offset < 2 ^ 32 -> 0 <= size < 2 ^ 32 -> size <= lenZ buf ->
  exists r b s', logfs_read_file_part nm offset (Some buf) size s = Ret (r, Some b) s' [] /\
    log_mounted s' p d /\ logfs_tables s' = logfs_tables s /\ logfs_devs s' = logfs_devs s /\
    log_delivered (log_window s d n offset size) buf r b.
Proof.
  intros Hm Hn Ho Hs Hb.
  destruct (logfs_read_file_part_ok s p d nm n offset buf size Hm Hn Ho Hs Hb) as (r & b & bb & Hbb & He & Hd).
  exists r, b, (rebuf bb s). split; [done|]. split; [by apply log_mounted_rebuf|]. done.
Qed.

(** A whole file, when the buffer has room for it. *)
Lemma logfs_read_file_ok s p d nm n buf :
  log_mounted s p d -> cval nm = Some n -> lenZ buf < 2 ^ 32 ->
  exists r b s', logfs_read_file (Some nm) (Some buf) (lenZ buf) s = Ret (r, Some b) s' [] /\ log_mounted s' p d /\
    logfs_tables s' = logfs_tables s /\ logfs_devs s' = logfs_devs s /\
    log_delivered (match log_bytes s d n with
                   | Some C => if lenZ C <=? lenZ buf then Some C else None
                   | None => None
                   end) buf r b.
Proof.
  intros Hm Hn Hb. pose proof Hm as [Hls Hrdy]. pose proof Hls as [_ _ _ _ _ _ Hok]. pose proof (lenZ_nonneg buf).
  assert (Hstat : logfs_stat (Some nm) s = Ret ((fun '(i, _) => Z.of_nat i) <$> slot_of (logfs_tables s) n) s []).
  { unfold logfs_stat. krun. rewrite Hrdy. change (1 =? 0) with false. cbn iota. krun.
    by rewrite (logfs_find_file_state_spec _ _ _ _ Hok Hn). }
  unfold logfs_read_file.
  rewrite (bind_Ret_nil _ _ _ _ _ Hstat). clear Hstat. unfold log_bytes, bytes_of.
  destruct (slot_of (logfs_tables s) n) as [[i f]|] eqn:Hsl; cbn [fmap option_fmap option_map mbind option_bind].
  2:{ by exists (-1), buf, s. }
  pose proof Hsl as [Hl _]%slot_of_Some. destruct (live_lookup _ _ _ _ Hok Hl) as [Hrd _]. krun.
  rewrite (bind_deref_Some _ _ _ _ Hrd). cbn [is_null orb].
  pose proof (contents_length s p d i f Hls Hl) as HC. rewrite HC, Z.ltb_antisym.
  destruct (to_live _ _ Hok i f Hl) as (_ & _ & Hsz & _).
  destruct (Z.leb_spec (info_size f) (lenZ buf)) as [Hle|]; cbn [negb]; [|by exists (-1), buf, s].
  destruct (logfs_read_file_part_ok s p d nm n 0 buf (info_size f) Hm Hn) as (r & b & bb & Hbb & He & Hd);
    [lia|lia|lia|].
  exists r, b, (rebuf bb s). split; [done|]. split; [by apply log_mounted_rebuf|]. split_and!; [done|done|].
  unfold log_window, log_bytes, bytes_of in Hd. rewrite Hsl in Hd. cbn [mbind option_bind] in Hd.
  rewrite HC, (proj2 (Z.leb_le 0 _)), Z.sub_0_r, Z.min_id in Hd by lia. change (Z.to_nat 0) with 0%nat in Hd.
  replace (Z.to_nat (info_size f)) with (length (contents (dev_data d) (logfs_tables s) (file_id f))) in Hd
    by (unfold lenZ in HC; lia). by rewrite slice_all in Hd.
Qed.

End disk.
