(* ===== verification/LogWrite.v ===== *)
(** Changing the append-only file system: what a record looks like on the
    disk, and the effect of [logfs_append_record], [logfs_create] and
    [logfs_append] on the tables, the log and the bytes of the files. *)
From S2P Require Import Prelude LibString Klog BlockDevice BlockIO LogFS LogTables LogDisk.

(** ** Records *)

Definition record_sum (h : logfs_record_header) (payload : mem) : option Z :=
  sum1 ← logfs_checksum_bytes 0 (header_bytes (set_h_checksum 0 h)) LOGFS_HEADER_SIZE;
  logfs_checksum_bytes sum1 payload (lenZ payload).
Definition sealed (h : logfs_record_header) (payload : mem) : logfs_record_header :=
  set_h_checksum (default 0 (record_sum h payload)) h.

(** The size of a record, and its bytes: the header with its checksum, the
    payload and zeros up to a multiple of eight. *)
Definition record_size (payload_size : Z) : Z := (LOGFS_HEADER_SIZE + payload_size + 7) / 8 * 8.
Definition record_bytes (h : logfs_record_header) (payload : mem) : mem :=
  header_bytes (sealed h payload) ++ payload ++
  replicate (Z.to_nat (record_size (lenZ payload) - LOGFS_HEADER_SIZE - lenZ payload)) 0.

Lemma record_size_bounds n : 0 <= n <= 480 -> 32 + n <= record_size n < 40 + n /\ record_size n <= 512.
Proof.
  intros Hn. unfold record_size, LOGFS_HEADER_SIZE. pose proof (Z.div_mod (32 + n + 7) 8). 
  pose proof (Z.mod_pos_bound (32 + n + 7) 8). lia.
Qed.

Lemma record_size_align n : 0 <= n <= 480 -> logfs_align_up (u32 (LOGFS_HEADER_SIZE + n)) = record_size n.
Proof.
  intros Hn. unfold LOGFS_HEADER_SIZE. rewrite u32_small by lia. rewrite logfs_align_up_spec by lia. done.
Qed.

Lemma lenZ_record_bytes h payload : lenZ payload <= 480 -> lenZ (record_bytes h payload) = record_size (lenZ payload).
Proof.
  intros Hp. pose proof (lenZ_nonneg payload). pose proof (record_size_bounds (lenZ payload) ltac:(lia)).
  unfold record_bytes. rewrite !lenZ_app, lenZ_header_bytes. unfold LOGFS_HEADER_SIZE.
  unfold lenZ at 2. rewrite length_replicate. lia.
Qed.

Lemma splice_0 (b k : mem) : splice b 0 k = k ++ drop (length k) b.
Proof. done. Qed.

(** The steps of [build_record] all extend a prefix of the buffer. *)
Lemma extend_prefix (a b k : mem) :
  lenZ a + lenZ k <= lenZ (a ++ b) -> memcpy (a ++ b) (lenZ a) k 0 (lenZ k) = Some ((a ++ k) ++ drop (length k) b).
Proof.
  intros Hl. rewrite memcpy_spec by (unfold lenZ in *; lia). unfold slice, lenZ. rewrite !Nat2Z.id.
  change (Z.to_nat 0) with 0%nat. rewrite drop_0, firstn_all, splice_at. by rewrite app_assoc.
Qed.

(** Header, payload and padding, one after the other. *)
Lemma fill_payload hb rest payload n :
  lenZ hb = 32 -> 0 <= n <= lenZ payload -> 32 + n <= lenZ (hb ++ rest) ->
  (if negb (n =? 0) then memcpy (hb ++ rest) 32 payload 0 n else Some (hb ++ rest)) =
    Some ((hb ++ take (Z.to_nat n) payload) ++ drop (Z.to_nat n) rest).
Proof.
  intros Hhb Hn Hl. set (pl := take (Z.to_nat n) payload).
  assert (Hpl : lenZ pl = n) by (unfold pl, lenZ in *; rewrite length_take; lia).
  destruct (Z.eqb_spec n 0) as [->|Hz]; cbn [negb].
  - unfold pl. change (Z.to_nat 0) with 0%nat. by rewrite take_0, drop_0, app_nil_r.
  - pose proof (extend_prefix hb rest pl) as He. rewrite Hhb, Hpl in He.
    rewrite <- (take_drop (Z.to_nat n) payload). fold pl. rewrite memcpy_app_src by lia. rewrite He by lia.
    replace (length pl) with (Z.to_nat n) by (unfold lenZ in Hpl; lia). done.
Qed.

Lemma fill_padding pre rest k :
  0 <= k -> lenZ pre + k <= lenZ (pre ++ rest) ->
  (if negb (k =? 0) then memset (pre ++ rest) (lenZ pre) 0 k else Some (pre ++ rest)) =
    Some ((pre ++ replicate (Z.to_nat k) 0) ++ drop (Z.to_nat k) rest).
Proof.
  intros Hk Hl. destruct (Z.eqb_spec k 0) as [->|Hz]; cbn [negb].
  - change (Z.to_nat 0) with 0%nat. by rewrite drop_0, app_nil_r.
  - rewrite memset_spec by (pose proof (lenZ_nonneg pre); lia). unfold lenZ at 1. rewrite Nat2Z.id, splice_at, length_replicate.
    change (u8 0) with 0. by rewrite <- app_assoc.
Qed.

Lemma replace_header (hb hb' rest : mem) :
  lenZ hb = 32 -> lenZ hb' = 32 -> memcpy (hb ++ rest) 0 hb' 0 32 = Some (hb' ++ rest).
Proof.
  intros Hhb Hhb'. pose proof (extend_prefix [] (hb ++ rest) hb') as He. rewrite Hhb' in He.
  cbn [app] in He. change (lenZ []) with 0 in He. rewrite He by (rewrite lenZ_app; pose proof (lenZ_nonneg rest); lia).
  replace (length hb') with (length hb) by (unfold lenZ in *; lia). by rewrite drop_app_length.
Qed.

(** The checksum the code computes is that of the record. *)
Lemma record_checksum h payload n :
  h_checksum h = 0 -> 0 <= n <= lenZ payload ->
  exists sum1 sum2, logfs_checksum_bytes 0 (header_bytes h) LOGFS_HEADER_SIZE = Some sum1 /\
    logfs_checksum_bytes sum1 payload n = Some sum2 /\
    set_h_checksum sum2 h = sealed h (take (Z.to_nat n) payload).
Proof.
  intros Hc Hn. set (pl := take (Z.to_nat n) payload).
  assert (Hpl : lenZ pl = n) by (unfold pl, lenZ in *; rewrite length_take; lia).
  assert (Hset : set_h_checksum 0 h = h) by (destruct h; simpl in *; by rewrite Hc).
  destruct (checksum_total 0 (header_bytes h) LOGFS_HEADER_SIZE) as (c1 & Hc1 & Hc1b);
    [lia|rewrite lenZ_header_bytes; unfold LOGFS_HEADER_SIZE; lia|].
  destruct (checksum_total c1 pl n) as (c2 & Hc2 & _); [done|lia|]. exists c1, c2. split; [done|]. split.
  - rewrite <- (take_drop (Z.to_nat n) payload). fold pl. by rewrite checksum_prefix by lia.
  - unfold sealed, record_sum. rewrite Hset, Hc1. cbn [mbind option_bind]. by rewrite Hpl, Hc2.
Qed.

Lemma build_record_spec buffer h payload n :
  lenZ buffer = 512 -> h_checksum h = 0 -> 0 <= n <= 480 -> n <= lenZ payload ->
  exists rest, build_record buffer h payload n (record_size n - (LOGFS_HEADER_SIZE + n)) =
      Some (record_bytes h (take (Z.to_nat n) payload) ++ rest) /\
    lenZ (record_bytes h (take (Z.to_nat n) payload) ++ rest) = 512.
Proof.
  intros Hb Hc Hn Hp. pose proof (record_size_bounds n Hn) as [Hr1 Hr2].
  destruct (record_checksum h payload n Hc) as (c1 & c2 & Hc1 & Hc2 & Hseal); [lia|].
  pose proof (lenZ_header_bytes h) as Hhb. pose proof (lenZ_header_bytes (set_h_checksum c2 h)) as Hhb'.
  rewrite Hseal in Hhb'. unfold build_record, record_bytes.
  set (pl := take (Z.to_nat n) payload) in *.
  assert (Hpl : lenZ pl = n) by (unfold pl, lenZ in *; rewrite length_take; lia).
  generalize dependent (header_bytes h). intros hb Hc1 Hhb.
  unfold LOGFS_HEADER_SIZE in *. rewrite Hpl. rewrite <- (take_drop 32 buffer).
  assert (Ht : lenZ (take 32 buffer) = 32) by (unfold lenZ in *; rewrite length_take; lia).
  assert (Hd : lenZ (drop 32 buffer) = 480) by (unfold lenZ in *; rewrite length_drop; lia).
  rewrite (replace_header (take 32 buffer) hb) by done. cbn [mbind option_bind].
  generalize dependent (drop 32 buffer). intros rest Hrest.
  rewrite fill_payload by (rewrite ?lenZ_app; lia). fold pl. cbn [mbind option_bind].
  assert (Hpre : lenZ (hb ++ pl) = 32 + n) by (rewrite lenZ_app; lia).
  assert (Hrest2 : lenZ (drop (Z.to_nat n) rest) = 480 - n) by (unfold lenZ in *; rewrite length_drop; lia).
  set (rest2 := drop (Z.to_nat n) rest) in *.
  pose proof (fill_padding (hb ++ pl) rest2 (record_size n - (32 + n))) as Hpad. rewrite Hpre in Hpad.
  rewrite Hpad by (rewrite ?lenZ_app; lia). clear Hpad. cbn [mbind option_bind].
  replace (record_size n - 32 - n) with (record_size n - (32 + n)) by lia.
  set (pad := replicate _ 0). assert (Hpadl : lenZ pad = record_size n - (32 + n)).
  { unfold pad, lenZ. rewrite length_replicate. lia. }
  set (rest3 := drop _ rest2). assert (Hrest3 : lenZ rest3 = 512 - record_size n).
  { unfold rest3, lenZ in *. rewrite length_drop. lia. }
  exists rest3. rewrite Hc1. cbn [mbind option_bind]. rewrite Hc2. cbn [mbind option_bind]. rewrite Hseal.
  rewrite <- !app_assoc, replace_header by done. split; [done|].
  rewrite !lenZ_app. lia.
Qed.

(** ** Appending a record *)

Lemma tables_ok_mono t hi hi' : hi <= hi' -> tables_ok t hi -> tables_ok t hi'.
Proof.
  intros Hhi [???????? Hr ?]. split; try done. apply (Forall_impl _ _ _ Hr). intros g [? ?]. lia.
Qed.

(** What is written at or behind [hi] does not change the files. *)
Lemma contents_splice data t hi e r id :
  tables_ok t hi -> hi <= e -> 0 <= e -> e + lenZ r <= lenZ data ->
  contents (splice data (Z.to_nat e) r) t id = contents data t id.
Proof.
  intros Hok He He0 Hr. unfold contents. f_equal. apply map_ext_in. intros g Hg%list_elem_of_In.
  apply list_elem_of_filter in Hg as [_ Hg]. pose proof (proj1 (Forall_forall _ _) (to_range _ _ Hok) g Hg) as (Hg1 & Hg2 & _).
  unfold seg_bytes. destruct (decide (seg_data_size g <= 0)).
  - by replace (Z.to_nat (seg_data_size g)) with 0%nat by lia.
  - apply slice_splice_lt; unfold lenZ in *; lia.
Qed.

Lemma bytes_splice data t hi e r n :
  tables_ok t hi -> hi <= e -> 0 <= e -> e + lenZ r <= lenZ data ->
  bytes_of (splice data (Z.to_nat e) r) t n = bytes_of data t n.
Proof.
  intros Hok He He0 Hr. unfold bytes_of. destruct (slot_of t n) as [[i f]|]; [|done].
  cbn [mbind option_bind]. f_equal. by apply (contents_splice data t hi).
Qed.

Section append.
Context {X : Type} `{DiskDriver X}.
Implicit Types (s : logfs X) (d : block_device X).

(** Record [r] was written behind the log. *)
Record appended s (p : nat) d (r : mem) s' d' : Prop := {
  ap_state : log_state s' p d';
  ap_tables : logfs_tables s' = logfs_tables s;
  ap_ready : logfs_ready s' = logfs_ready s;
  ap_superblock : logfs_superblock s' = logfs_superblock s;
  ap_end : logfs_log_end s' = logfs_log_end s + lenZ r;
  ap_fit : logfs_log_end s + lenZ r <= log_limit s;
  ap_disk : same_disk d d';
  ap_data : dev_data d' = splice (dev_data d) (Z.to_nat (logfs_log_end s)) r
}.

Definition new_header (type id n size_before size_after name_length : Z) : logfs_record_header :=
  Header LOGFS_RECORD_MAGIC type id n size_before size_after 0 name_length.

Lemma log_state_record_buffer s p d buf :
  log_state s p d -> lenZ buf = LOGFS_IO_BUFFER_SIZE -> log_state (set_logfs_record_buffer buf s) p d.
Proof. intros [] Hb. by split. Qed.

Lemma logfs_append_record_ok s p d type id size_before size_after name_length payload n :
  log_state s p d -> 0 <= n -> n <= lenZ payload ->
  let h := new_header type id n size_before size_after name_length in
  let r := record_bytes h (take (Z.to_nat n) payload) in
  if (n <=? 480) && (logfs_log_end s + record_size n <=? log_limit s) then
    exists s' d', logfs_append_record type id size_before size_after name_length payload n s =
        Ret (0, Some (logfs_log_end s)) s' [] /\ appended s p d r s' d' /\ lenZ r = record_size n
  else
    exists buf, lenZ buf = LOGFS_IO_BUFFER_SIZE /\
      logfs_append_record type id size_before size_after name_length payload n s =
        Ret (-1, None) (set_logfs_record_buffer buf s) [].
Proof.
  intros Hls Hn Hp h r. pose proof Hls as [Hp0 Hat Hbs Hrec Hlim Hend Hok]. pose proof Hat as (_ & Hdev & _).
  destruct (disk_device_geometry d Hdev) as (_ & _ & Hcap & Hlen).
  unfold logfs_append_record. change (LOGFS_IO_BUFFER_SIZE - LOGFS_HEADER_SIZE) with 480.
  rewrite Z.ltb_antisym. destruct (Z.leb_spec n 480) as [Hn480|]; cbn [negb andb].
  2:{ exists (logfs_record_buffer s). split; [done|]. by destruct s. }
  pose proof (record_size_bounds n ltac:(lia)) as [Hr1 Hr2]. rewrite record_size_align by lia. cbn zeta.
  rewrite (u32_small (LOGFS_HEADER_SIZE + n)) by (unfold LOGFS_HEADER_SIZE; lia).
  rewrite (u32_small (record_size n - _)) by (unfold LOGFS_HEADER_SIZE; lia).
  destruct (build_record_spec (logfs_record_buffer s) h payload n Hrec eq_refl) as (rest & Hb & Hbl); [lia|done|].
  fold r in Hb, Hbl. krun. fold (new_header type id n size_before size_after name_length). fold h.
  rewrite (bind_deref_Some _ _ _ _ Hb). krun. set (s1 := set_logfs_record_buffer (r ++ rest) s).
  assert (Hls1 : log_state s1 p d) by (by apply log_state_record_buffer).
  change (logfs_log_end s1) with (logfs_log_end s). change (log_limit s1) with (log_limit s).
  rewrite u64_small, Z.ltb_antisym by lia.
  destruct (Z.leb_spec (logfs_log_end s + record_size n) (log_limit s)) as [Hfit|Hfull]; cbn [negb].
  2:{ by exists (r ++ rest). }
  assert (Hrl : lenZ r = record_size n).
  { unfold r. rewrite lenZ_record_bytes; unfold lenZ in *; rewrite length_take; [f_equal; lia|lia]. }
  destruct (logfs_write_in s1 p d (logfs_log_end s) (r ++ rest) (record_size n) Hls1) as (b' & d' & Hw & Hat' & Hsame & Hbl' & Hdata);
    [lia|lia|lia|lia|].
  rewrite (bind_Ret_nil _ _ _ _ _ Hw). change (negb (0 =? 0)) with false. cbn iota. krun.
  eexists _, d'. split; [reflexivity|]. split; [|done]. rewrite <- Hrl in *.
  assert (Htk : take (Z.to_nat (lenZ r)) (r ++ rest) = r) by apply take_lenZ_app. rewrite Htk in Hdata.
  pose proof (same_disk_capacity _ _ Hsame) as Hcap'.
  split; simpl; try done. split; simpl; try done.
  - destruct Hsame as (_ & -> & _). done.
  - rewrite Hcap'. change (log_limit _) with (log_limit s). done.
  - lia.
  - rewrite Hcap'. apply (tables_ok_mono _ (Z.min (logfs_log_end s) (capacity d))); [lia|done].
Qed.

End append.

(** ** Names *)

Definition log_slash : Z := 47.
Definition valid_name (n : list Z) : bool :=
  bool_decide (n <> []) && (lenZ n <? LOGFS_NAME_MAX) && bool_decide (log_slash ∉ n).

Lemma name_has_no_slash_spec n r : no_nul n -> name_has_no_slash (n ++ 0 :: r) = Some (bool_decide (log_slash ∉ n)).
Proof.
  induction 1 as [|c n Hc Hn IH]; cbn [app name_has_no_slash].
  - rewrite bool_decide_eq_true_2; [done|]. apply not_elem_of_nil.
  - rewrite (proj2 (Z.eqb_neq c 0)) by done. change (ch "/") with log_slash.
    destruct (Z.eqb_spec c log_slash) as [->|Hs].
    + rewrite bool_decide_eq_false_2; [done|]. intros Hin. apply Hin. constructor.
    + rewrite IH. f_equal. apply bool_decide_ext. rewrite not_elem_of_cons. split; [|by intros [_ ?]].
      intros ?. split; [|done]. by intros <-.
Qed.

Lemma logfs_name_valid_spec nm n :
  cval nm = Some n -> lenZ n < 2 ^ 32 -> logfs_name_valid (Some nm) = Some (valid_name n).
Proof.
  intros [Hn [r ->]]%cval_inv Hl. unfold logfs_name_valid, valid_name. destruct n as [|c n]; [done|].
  change (rd ((c :: n) ++ 0 :: r) 0) with (Some c). cbn [mbind option_bind].
  rewrite (proj2 (Z.eqb_neq c 0)) by (by inversion Hn). rewrite strlen_app by done. cbn [mbind option_bind].
  pose proof (lenZ_nonneg n). rewrite u32_small by (rewrite lenZ_cons in *; lia).
  rewrite (proj2 (Z.eqb_neq (lenZ (c :: n)) 0)) by (rewrite lenZ_cons; lia). cbn [orb].
  rewrite (bool_decide_eq_true_2 (c :: n <> [])) by done. cbn [andb]. rewrite Z.leb_antisym.
  destruct (lenZ (c :: n) <? LOGFS_NAME_MAX); cbn [negb andb]; [|done]. by apply name_has_no_slash_spec.
Qed.

(** The name in a row: the bytes copied include the terminator. *)
Lemma cval_take name m k r : cval name = Some m -> lenZ m < k -> cval (take (Z.to_nat k) name ++ r) = Some m.
Proof.
  intros [Hm [r' ->]]%cval_inv Hk. rewrite take_app_ge by (unfold lenZ in *; lia).
  destruct (Z.to_nat k - length m)%nat as [|j] eqn:Hj; [unfold lenZ in *; lia|]. cbn [take].
  rewrite <- app_assoc. cbn [app]. by apply cval_app.
Qed.

(** Row [i] after [count] bytes of a name were copied to its start. *)
Definition named_row (t : tables) (i : nat) (name : mem) (count : Z) : mem :=
  take (Z.to_nat count) name ++ drop (Z.to_nat count) (default [] (logfs_file_names t !! i)).

Lemma name_file_spec t i name m count id next :
  lenZ (logfs_files t) = LOGFS_MAX_FILES -> lenZ (logfs_file_names t) = LOGFS_MAX_FILES ->
  Forall (fun r => lenZ r = LOGFS_NAME_MAX) (logfs_file_names t) -> (i < 16)%nat ->
  cval name = Some m -> lenZ m < count -> count <= LOGFS_NAME_MAX -> count <= lenZ name ->
  lenZ (named_row t i name count) = LOGFS_NAME_MAX /\ cval (named_row t i name count) = Some m /\
  name_file (set_logfs_next_file_id next
    (set_logfs_files (<[i := FileState None 0 0 0 1]> (logfs_files t)) t)) (Z.of_nat i) name count id =
  Some (created t i id (named_row t i name count) next).
Proof.
  unfold LOGFS_MAX_FILES, LOGFS_NAME_MAX. intros Hf Hn Hrows Hi Hm Hc1 Hc2 Hc3. pose proof (lenZ_nonneg m).
  destruct (lookup_lt_is_Some_2 (logfs_file_names t) i) as [row0 Hr0]; [unfold lenZ in *; lia|].
  pose proof (Forall_lookup_1 _ _ _ _ Hrows Hr0) as Hl0. cbn beta in Hl0.
  unfold named_row. rewrite Hr0. change (default [] (Some row0)) with row0. split; [|split].
  - rewrite lenZ_app. unfold lenZ in *. rewrite length_take, length_drop. lia.
  - by apply cval_take.
  - unfold name_file. cbn [logfs_file_names set_logfs_next_file_id set_logfs_files logfs_files].
    rewrite (rd_nat (logfs_file_names t)), Hr0. cbn [mbind option_bind]. rewrite memcpy_spec by (unfold lenZ in *; lia). cbn [mbind option_bind].
    rewrite wr_Some by (unfold lenZ in *; lia). cbn [mbind option_bind]. rewrite rd_nat.
    rewrite list_lookup_insert_eq by (unfold lenZ in *; lia). cbn [mbind option_bind].
    rewrite wr_Some by (unfold lenZ in *; rewrite length_insert; lia). cbn [mbind option_bind].
    rewrite Nat2Z.id, list_insert_insert_eq. unfold created, slice. change (Z.to_nat 0) with 0%nat.
    rewrite drop_0, splice_0, length_take. replace (Z.to_nat count `min` length name)%nat with (Z.to_nat count)
      by (unfold lenZ in *; lia). done.
Qed.

(** Clearing a free slot and its name changes no file. *)
Definition cleared (t : tables) (i : nat) (row : mem) (next : Z) : tables :=
  Tables (<[i := empty_file]> (logfs_files t)) (<[i := row]> (logfs_file_names t))
    (logfs_segments t) (logfs_segment_count t) next.

Section cleared.
Context (t : tables) (hi : Z) (i : nat) (f0 : logfs_file_state) (row : mem) (next : Z).
Context (Hok : tables_ok t hi) (Hi : logfs_files t !! i = Some f0) (Hu : file_in_use f0 = 0).
Context (Hrow : lenZ row = LOGFS_NAME_MAX).

Lemma cleared_live j g : live (cleared t i row next) j g <-> live t j g.
Proof using Hi Hu.
  clear Hok Hrow. unfold live. simpl. destruct (decide (j = i)) as [->|Hne].
  - rewrite list_lookup_insert_eq by (by eapply lookup_lt_Some). rewrite Hi.
    split; intros [[= <-] ?]; [by simpl in *|done].
  - by rewrite list_lookup_insert_ne.
Qed.

Lemma cleared_name j g : live t j g -> name_of (cleared t i row next) g = name_of t g.
Proof using Hok Hi Hu.
  clear Hrow. intros Hl. unfold name_of, file_name. destruct (to_live _ _ Hok j g Hl) as (-> & _).
  cbn [mbind option_bind cleared logfs_file_names]. rewrite !rd_nat.
  rewrite list_lookup_insert_ne; [done|]. intros ->. destruct Hl as [Hl ?]. rewrite Hi in Hl. by injection Hl as <-.
Qed.

Lemma cleared_ok : tables_ok (cleared t i row next) hi.
Proof using Hok Hi Hu Hrow.
  pose proof Hok as [Hf Hnm Hr Hs Hc Hl Hids Hun Hrg Ho]. split; simpl; try done.
  - unfold lenZ in *. by rewrite length_insert.
  - unfold lenZ in *. by rewrite length_insert.
  - by apply Forall_insert.
  - intros j g Hg%cleared_live. rewrite (cleared_name j g Hg). by apply Hl.
  - intros j k f g Hf'%cleared_live Hg%cleared_live. by apply Hids.
  - intros j k f g Hf'%cleared_live Hg%cleared_live. rewrite (cleared_name j f Hf'), (cleared_name k g Hg). by apply Hun.
  - apply (Forall_impl _ _ _ Ho). intros g (k & f & Hlk & He). exists k, f. split; [by apply cleared_live|done].
Qed.

Lemma cleared_bytes data m : bytes_of data (cleared t i row next) m = bytes_of data t m.
Proof using Hok Hi Hu Hrow.
  unfold bytes_of. destruct (slot_of t m) as [[j g]|] eqn:Hs.
  - apply slot_of_Some in Hs as [Hg Hgn]. rewrite (slot_of_live _ hi j g m cleared_ok); [done| |by rewrite (cleared_name j g)].
    by apply cleared_live.
  - destruct (slot_of (cleared t i row next) m) as [[j g]|] eqn:Hs'; [|done]. exfalso.
    apply slot_of_Some in Hs' as [Hg%cleared_live Hgn]. rewrite (cleared_name j g Hg) in Hgn.
    by apply (slot_of_None t m Hs j g).
Qed.

End cleared.

(** ** Creating and appending *)

Section operations.
Context {X : Type} `{DiskDriver X}.
Implicit Types (s : logfs X) (d : block_device X).

(** Identifiers are handed out in increasing order. *)
Definition ids_fresh (t : tables) : Prop :=
  0 <= logfs_next_file_id t < 2 ^ 32 /\ forall i f, live t i f -> 0 <= file_id f < logfs_next_file_id t.

(** The conditions under which a file can be created. *)
Definition can_create s (n : list Z) : bool :=
  valid_name n && is_null (slot_of (logfs_tables s) n) && negb (is_null (free_slot (logfs_tables s))) &&
  (logfs_log_end s + record_size (lenZ n + 1) <=? log_limit s).

Definition create_record (id : Z) (n : list Z) : mem :=
  record_bytes (new_header LOGFS_RECORD_TYPE_CREATE id (lenZ n + 1) 0 0 (lenZ n)) (n ++ [0]).

(** A failed change leaves the disk and every file as they were; at most it
    clears a free slot and uses up an identifier. *)
Definition nothing_changed s p d s' : Prop :=
  log_mounted s' p d /\ logfs_devs s' = logfs_devs s /\ logfs_log_end s' = logfs_log_end s /\
  (forall m, log_bytes s' d m = log_bytes s d m) /\ logfs_superblock s' = logfs_superblock s /\
  let t := logfs_tables s in
  (logfs_tables s' = t \/ exists i, free_slot t = Some i /\
     logfs_tables s' = cleared t i (replicate 32 0) (u32 (logfs_next_file_id t + 1))).

Lemma nothing_changed_refl s p d : log_mounted s p d -> nothing_changed s p d s.
Proof. intros Hm. split_and!; try done. by left. Qed.

Lemma log_state_tables s p d t :
  log_state s p d -> tables_ok t (Z.min (logfs_log_end s) (capacity d)) -> log_state (set_logfs_tables t s) p d.
Proof. intros [] Ht. by split. Qed.

(** Clearing slot [i], which was allocated for nothing. *)
Lemma forget_file_spec t i id row next :
  lenZ (logfs_files t) = LOGFS_MAX_FILES -> lenZ (logfs_file_names t) = LOGFS_MAX_FILES -> lenZ row = LOGFS_NAME_MAX ->
  (i < 16)%nat ->
  forget_file (Z.of_nat i) (created t i id row next) = Some (tt, cleared t i (replicate 32 0) next).
Proof.
  unfold LOGFS_MAX_FILES, LOGFS_NAME_MAX. intros Hf Hn Hr Hi. unfold forget_file, created. cbn [logfs_files logfs_file_names].
  rewrite wr_Some by (unfold lenZ in *; rewrite length_insert; lia). cbn [mbind option_bind].
  rewrite rd_nat, list_lookup_insert_eq by (unfold lenZ in *; lia). cbn [mbind option_bind]. unfold LOGFS_NAME_MAX.
  rewrite memset_all by done. cbn [mbind option_bind].
  rewrite wr_Some by (unfold lenZ in *; rewrite length_insert; lia). cbn [mbind option_bind].
  rewrite Nat2Z.id, !list_insert_insert_eq. replace (length row) with 32%nat by (unfold lenZ in Hr; lia). done.
Qed.

Lemma logfs_create_ok s p d nm n :
  log_mounted s p d -> cval nm = Some n -> lenZ n < 2 ^ 32 -> ids_fresh (logfs_tables s) ->
  let id := logfs_next_file_id (logfs_tables s) in
  if can_create s n then
    exists i s' d', free_slot (logfs_tables s) = Some i /\
      let row := named_row (logfs_tables s) i (n ++ [0]) (lenZ n + 1) in
      lenZ row = LOGFS_NAME_MAX /\ cval row = Some n /\
      logfs_create (Some nm) s = Ret 0 s' [] /\
      appended (set_logfs_tables (created (logfs_tables s) i id row (u32 (id + 1))) s) p d (create_record id n) s' d'
  else exists s', logfs_create (Some nm) s = Ret (-1) s' [] /\ nothing_changed s p d s'.
Proof.
  intros [Hls Hrdy] Hn Hl [Hnext Hfresh] id. pose proof Hls as [_ _ _ _ _ _ Hok]. set (t := logfs_tables s) in *.
  pose proof (nothing_changed_refl s p d (conj Hls Hrdy)) as Hsame.
  unfold logfs_create, can_create. krun. rewrite Hrdy. change (1 =? 0) with false. cbn iota.
  rewrite (bind_deref_Some _ _ _ _ (logfs_name_valid_spec nm n Hn Hl)).
  destruct (valid_name n) eqn:Hvalid; cbn [negb andb]; [|by exists s].
  rewrite (bind_deref_Some _ _ _ _ eq_refl). krun. fold t.
  rewrite (bind_deref_Some _ _ _ _ (logfs_find_file_state_spec _ _ _ _ Hok Hn)).
  destruct (slot_of t n) as [[j g]|] eqn:Hslot; cbn [is_null fmap option_fmap option_map negb andb]; [by exists s|].
  assert (Halloc : on_tables logfs_alloc_file_state s = match free_slot t with
    | Some i => Ret (Some (Z.of_nat i)) (set_logfs_tables (set_logfs_files (<[i := FileState None 0 0 0 1]> (logfs_files t)) t) s) []
    | None => Ret None s []
    end).
  { unfold on_tables. krun. fold t. rewrite (logfs_alloc_file_state_spec t (to_files _ _ Hok)).
    destruct (free_slot t); [done|]. unfold t. by destruct s. }
  destruct (free_slot t) as [i|] eqn:Hfree; cbn [is_null negb andb].
  2:{ rewrite (bind_Ret_nil _ _ _ _ _ Halloc). by exists s. }
  rewrite (bind_Ret_nil _ _ _ _ _ Halloc). clear Halloc. cbn iota.
  destruct (free_slot_Some t i Hfree) as (f0 & Hi & Hu). pose proof (slot_lt t _ i f0 Hok Hi) as Hi16.
  unfold valid_name in Hvalid. apply andb_true_iff in Hvalid as [[_ Hlen%Z.ltb_lt]%andb_true_iff _].
  unfold LOGFS_NAME_MAX in Hlen. pose proof (lenZ_nonneg n).
  pose proof Hn as [Hnn [r Hnm]]%cval_inv.
  assert (Hstrlen : strlen nm = Some (lenZ n)) by (rewrite Hnm; by apply strlen_app).
  rewrite (bind_deref_Some _ _ _ _ Hstrlen). krun. rewrite (u32_small (lenZ n)) by lia.
  cbn [logfs_tables set_logfs_tables]. cbn [set_logfs_files logfs_next_file_id]. fold id.
  destruct (name_file_spec t i nm n (lenZ n + 1) id (u32 (id + 1)) (to_files _ _ Hok) (to_names _ _ Hok) (to_rows _ _ Hok))
    as (Hrow & Hrn & Hnamed); try done; try (unfold LOGFS_NAME_MAX; lia).
  { rewrite Hnm, lenZ_app, lenZ_cons. pose proof (lenZ_nonneg r). lia. }
  assert (Htk : take (Z.to_nat (lenZ n + 1)) nm = n ++ [0]).
  { rewrite Hnm, cons_middle, app_assoc. replace (lenZ n + 1) with (lenZ (n ++ [0])) by (by rewrite lenZ_app). apply take_lenZ_app. }
  assert (Hrowe : named_row t i nm (lenZ n + 1) = named_row t i (n ++ [0]) (lenZ n + 1)).
  { unfold named_row. rewrite Htk. f_equal. replace (lenZ n + 1) with (lenZ (n ++ [0])) by (by rewrite lenZ_app).
    symmetry. unfold lenZ. rewrite Nat2Z.id. apply firstn_all. }
  rewrite Hrowe in Hrow, Hrn, Hnamed. clear Hrowe. set (row := named_row t i (n ++ [0]) (lenZ n + 1)) in *.
  rewrite (bind_deref_Some _ _ _ _ Hnamed). krun. set (t2 := created t i id row (u32 (id + 1))).
  assert (Hidf : forall k f, live t k f -> file_id f <> id) by (intros k f Hk; destruct (Hfresh k f Hk); unfold id; lia).
  assert (Hok2 : tables_ok t2 (Z.min (logfs_log_end s) (capacity d))).
  { by apply (created_ok t _ i f0 id row n). }
  set (s2 := set_logfs_tables t2 s).
  replace (set_logfs_tables t2 (set_logfs_tables (set_logfs_files (<[i := FileState None 0 0 0 1]> (logfs_files t)) t) s))
    with s2 by done.
  assert (Hls2 : log_state s2 p d) by (by apply log_state_tables).
  rewrite (u32_small (lenZ n + 1)) by lia.
  pose proof (logfs_append_record_ok s2 p d LOGFS_RECORD_TYPE_CREATE id 0 0 (lenZ n) nm (lenZ n + 1) Hls2) as Happ.
  cbn zeta in Happ. rewrite (proj2 (Z.leb_le (lenZ n + 1) 480)) in Happ by lia. cbn [andb] in Happ.
  change (logfs_log_end s2) with (logfs_log_end s) in Happ. change (log_limit s2) with (log_limit s) in Happ.
  assert (Hnml : lenZ n + 1 <= lenZ nm) by (rewrite Hnm, lenZ_app, lenZ_cons; pose proof (lenZ_nonneg r); lia).
  rewrite Htk in Happ.
  destruct (logfs_log_end s + record_size (lenZ n + 1) <=? log_limit s).
  - destruct Happ as (s' & d' & He & Hap & _); [lia|done|]. exists i, s', d'.
    split; [done|]. split_and!; [done|done| |exact Hap]. by rewrite (bind_Ret_nil _ _ _ _ _ He).
  - destruct Happ as (buf & Hbuf & He); [lia|done|]. rewrite (bind_Ret_nil _ _ _ _ _ He). cbn iota.
    change (negb (-1 =? 0)) with true. cbn iota.
    set (s3 := set_logfs_tables (cleared t i (replicate 32 0) (u32 (id + 1))) (set_logfs_record_buffer buf s)).
    assert (Hforget : on_tables (forget_file (Z.of_nat i)) (set_logfs_record_buffer buf s2) = Ret tt s3 []).
    { unfold on_tables. krun. change (logfs_tables (set_logfs_record_buffer buf s2)) with t2. unfold t2.
      rewrite (forget_file_spec t i id row _ (to_files _ _ Hok) (to_names _ _ Hok) Hrow Hi16). done. }
    rewrite (bind_Ret_nil _ _ _ _ _ Hforget). exists s3. split; [done|].
    assert (Hok3 : tables_ok (cleared t i (replicate 32 0) (u32 (id + 1))) (Z.min (logfs_log_end s) (capacity d)))
      by (by apply (cleared_ok t _ i f0)).
    split; [split; [|done]|split; [done|split; [done|split; [|split; [done|right; by exists i]]]]].
    + apply log_state_tables; [by apply log_state_record_buffer|done].
    + intros m. exact (cleared_bytes t _ i f0 (replicate 32 0) _ Hok Hi Hu eq_refl (dev_data d) m).
Qed.

(** The bytes of the files after a record was written. *)
Lemma appended_bytes s p d r s' d' m :
  log_state s p d -> appended s p d r s' d' ->
  log_bytes s' d' m = bytes_of (dev_data d) (logfs_tables s) m.
Proof.
  intros Hls [Hls' Ht _ _ _ Hfit Hsame Hdata]. pose proof Hls as [_ (_ & Hdev & _) _ _ Hlim Hend Hok].
  unfold log_bytes. rewrite Ht, Hdata. apply (bytes_splice _ _ _ _ _ _ Hok); [lia|lia|rewrite capacity_data by done; lia].
Qed.

Lemma ids_fresh_created t hi i f0 id row :
  tables_ok t hi -> logfs_files t !! i = Some f0 -> file_in_use f0 = 0 -> ids_fresh t ->
  id = logfs_next_file_id t -> id + 1 < 2 ^ 32 -> ids_fresh (created t i id row (u32 (id + 1))).
Proof.
  intros Hok Hi Hu [Hn Hf] -> Hb. unfold ids_fresh. cbn [created logfs_next_file_id]. rewrite u32_small by lia.
  split; [lia|]. intros j g [[-> ->]|[_ Hg]]%(created_live t hi i f0 _ _ _ _ _ Hok Hi Hu); simpl; [lia|].
  specialize (Hf j g Hg). lia.
Qed.

Lemma logfs_create_effect s p d nm n :
  log_mounted s p d -> cval nm = Some n -> lenZ n < 2 ^ 32 -> ids_fresh (logfs_tables s) ->
  logfs_next_file_id (logfs_tables s) + 1 < 2 ^ 32 ->
  exists s' d', logfs_create (Some nm) s = Ret (if can_create s n then 0 else -1) s' [] /\
    log_mounted s' p d' /\ same_disk d d' /\ (can_create s n = true -> ids_fresh (logfs_tables s')) /\
    forall m, log_bytes s' d' m = if decide (m = n /\ can_create s n = true) then Some [] else log_bytes s d m.
Proof.
  intros Hm Hn Hl Hfresh Hnext. pose proof Hm as [Hls Hrdy]. pose proof Hls as [_ (_ & Hdev & _) _ _ _ _ Hok].
  pose proof (logfs_create_ok s p d nm n Hm Hn Hl Hfresh) as Hc. cbn zeta in Hc.
  destruct (can_create s n) eqn:Hcan.
  - destruct Hc as (i & s' & d' & Hfree & Hrow & Hrn & He & Hap). set (row := named_row _ i _ _) in *.
    destruct (free_slot_Some _ i Hfree) as (f0 & Hi & Hu).
    assert (Hslot : slot_of (logfs_tables s) n = None).
    { unfold can_create in Hcan. destruct (slot_of _ n); [|done].
      by rewrite andb_false_r in Hcan. }
    assert (Hidf : forall k f, live (logfs_tables s) k f -> file_id f <> logfs_next_file_id (logfs_tables s)).
    { intros k f Hk. destruct (proj2 Hfresh k f Hk). lia. }
    set (t2 := created _ _ _ _ _) in *.
    assert (Hok2 : tables_ok t2 (Z.min (logfs_log_end s) (capacity d))) by (by apply (created_ok _ _ i f0 _ row n)).
    exists s', d'. split; [done|]. pose proof Hap as [Hls' Ht Hr' Hsb Hend Hfit Hsame Hdata].
    split; [split; [done|by rewrite Hr']|]. split; [done|]. split.
    + intros _. rewrite Ht. by apply (ids_fresh_created _ _ i f0 _ _ Hok Hi Hu).
    + intros m. rewrite (appended_bytes (set_logfs_tables t2 s) p d (create_record (logfs_next_file_id (logfs_tables s)) n) s' d' m); [|by apply log_state_tables|exact Hap].
      cbn [logfs_tables set_logfs_tables]. unfold t2.
      rewrite (created_bytes _ _ i f0 _ row n _ Hok Hi Hu Hrow Hrn Hslot Hidf).
      destruct (decide (m = n)) as [->|Hne]; [by rewrite decide_True|]. by rewrite decide_False by (by intros [? _]).
  - destruct Hc as (s' & He & Hm' & _ & _ & Hb & _). exists s', d. split_and!; try done.
    intros m. rewrite decide_False by (by intros [_ ?]). apply Hb.
Qed.

(** Creating a file succeeds exactly when its name is valid and new and there
    is room for it in the table and in the log; then it exists and is empty,
    and no other file changed. A failed creation leaves every file as it was. *)
Theorem logfs_create_spec s p d nm n :
  log_mounted s p d -> cval nm = Some n -> lenZ n < 2 ^ 32 -> ids_fresh (logfs_tables s) ->
  logfs_next_file_id (logfs_tables s) + 1 < 2 ^ 32 ->
  exists s' d', logfs_create (Some nm) s = Ret (if can_create s n then 0 else -1) s' [] /\
    log_mounted s' p d' /\ same_disk d d' /\ (can_create s n = true -> ids_fresh (logfs_tables s')) /\
    forall m, log_bytes s' d' m = if decide (m = n /\ can_create s n = true) then Some [] else log_bytes s d m.
Proof. apply logfs_create_effect. Qed.

Definition append_record (f : logfs_file_state) (data : list Z) : mem :=
  record_bytes (new_header LOGFS_RECORD_TYPE_APPEND (file_id f) (lenZ data) (info_size f)
    (u32 (info_size f + lenZ data)) 0) data.

(** A record fits the log behind the records that are there. *)
Definition record_fits s (n : Z) : bool := (n <=? 480) && (logfs_log_end s + record_size n <=? log_limit s).

Lemma logfs_append_ok s p d nm n bytes size i f :
  log_mounted s p d -> cval nm = Some n -> slot_of (logfs_tables s) n = Some (i, f) ->
  0 < size < 2 ^ 32 -> size <= lenZ bytes -> info_size f + size < 2 ^ 32 ->
  let data := take (Z.to_nat size) bytes in
  if record_fits s size then
    exists s' d', appended s p d (append_record f data) s' d' /\
      if logfs_segment_count (logfs_tables s) <? LOGFS_MAX_SEGMENTS
      then logfs_append nm (Some bytes) size s =
             Ret 0 (set_logfs_tables (extended (logfs_tables s) i f size (logfs_log_end s + 32)) s') []
      else logfs_append nm (Some bytes) size s = Ret (-1) s' []
  else exists buf, lenZ buf = LOGFS_IO_BUFFER_SIZE /\
    logfs_append nm (Some bytes) size s = Ret (-1) (set_logfs_record_buffer buf s) [].
Proof.
  intros [Hls Hrdy] Hn Hslot Hsz Hsb Hsum data. pose proof Hls as [_ (_ & Hdev & _) _ _ Hlim Hend Hok].
  destruct (disk_device_geometry d Hdev) as (_ & _ & Hcap & _).
  assert (Hdl : lenZ data = size) by (unfold data, lenZ in *; rewrite length_take; lia).
  pose proof Hslot as [Hl Hnm]%slot_of_Some. destruct (live_lookup _ _ _ _ Hok Hl) as [Hrd _].
  destruct (to_live _ _ Hok i f Hl) as (_ & _ & Hisz & _).
  unfold logfs_append, record_fits. krun. rewrite Hrdy. change (1 =? 0) with false.
  rewrite (proj2 (Z.eqb_neq size 0)) by lia. cbn [orb]. krun.
  rewrite (bind_deref_Some _ _ _ _ (logfs_find_file_state_spec _ _ _ _ Hok Hn)), Hslot.
  cbn [fmap option_fmap option_map]. rewrite (bind_deref_Some _ _ _ _ Hrd).
  rewrite (u32_small (info_size f + size)) by lia.
  pose proof (logfs_append_record_ok s p d LOGFS_RECORD_TYPE_APPEND (file_id f) (info_size f) (info_size f + size) 0
    bytes size Hls) as Happ. cbn zeta in Happ. fold data in Happ.
  destruct ((size <=? 480) && (logfs_log_end s + record_size size <=? log_limit s)) eqn:Hfits.
  2:{ destruct Happ as (buf & Hbuf & He); [lia|done|]. rewrite (bind_Ret_nil _ _ _ _ _ He).
      by exists buf. }
  apply andb_true_iff in Hfits as [H480%Z.leb_le Hfit%Z.leb_le].
  destruct Happ as (s' & d' & He & Hap & Hrl); [lia|done|]. exists s', d'.
  assert (Hrec : append_record f data = record_bytes (new_header LOGFS_RECORD_TYPE_APPEND (file_id f) size
    (info_size f) (info_size f + size) 0) data) by (unfold append_record; by rewrite Hdl, u32_small by lia).
  rewrite Hrec. split; [exact Hap|]. rewrite (bind_Ret_nil _ _ _ _ _ He). cbn iota.
  change (negb (0 =? 0)) with false. cbn iota. rewrite (bind_deref_Some _ _ _ _ eq_refl).
  pose proof (ap_tables _ _ _ _ _ _ Hap) as Ht. pose proof (record_size_bounds size ltac:(lia)) as [Hr1 Hr2].
  unfold LOGFS_HEADER_SIZE. rewrite u64_small by lia.
  destruct (Z.ltb_spec (logfs_segment_count (logfs_tables s)) LOGFS_MAX_SEGMENTS) as [Hc|Hc].
  - destruct (extend_spec (logfs_tables s) _ i f size (logfs_log_end s + 32) Hok Hl Hc) as (t1 & Hadd & Hgrow).
    assert (H1 : on_tables (logfs_add_segment (file_id f) (info_size f) size (logfs_log_end s + 32)) s' =
      Ret 0 (set_logfs_tables t1 s') []).
    { unfold on_tables. krun. by rewrite Ht, Hadd. }
    rewrite (bind_Ret_nil _ _ _ _ _ H1). change (negb (0 =? 0)) with false. cbn iota.
    unfold on_tables. krun. cbn [logfs_tables set_logfs_tables]. by rewrite Hgrow.
  - assert (H1 : on_tables (logfs_add_segment (file_id f) (info_size f) size (logfs_log_end s + 32)) s' =
      Ret (-1) s' []).
    { unfold on_tables. krun. rewrite Ht, add_segment_full by done. cbn [deref]. krun. rewrite <- Ht. by destruct s'. }
    by rewrite (bind_Ret_nil _ _ _ _ _ H1).
Qed.

Lemma append_record_length f data : lenZ data <= 480 -> lenZ (append_record f data) = record_size (lenZ data).
Proof. apply lenZ_record_bytes. Qed.

(** The payload of a record on the disk. *)
Lemma append_record_payload f (data disk : list Z) e :
  0 <= e -> lenZ data <= 480 -> e + record_size (lenZ data) <= lenZ disk ->
  slice (splice disk (Z.to_nat e) (append_record f data)) (Z.to_nat (e + 32)) (Z.to_nat (lenZ data)) = data.
Proof.
  intros He Hd Hdisk. pose proof (append_record_length f data Hd) as Hl. pose proof (lenZ_nonneg data).
  pose proof (record_size_bounds (lenZ data) ltac:(lia)) as [Hr1 Hr2].
  replace (Z.to_nat (e + 32)) with (Z.to_nat e + 32)%nat by lia.
  rewrite slice_splice_in by (unfold lenZ in *; lia).
  unfold append_record, record_bytes, slice. change 32%nat with (length (header_bytes (sealed
    (new_header LOGFS_RECORD_TYPE_APPEND (file_id f) (lenZ data) (info_size f) (u32 (info_size f + lenZ data)) 0) data))).
  rewrite drop_app_length. apply take_lenZ_app.
Qed.

Lemma logfs_append_effect s p d nm n old bytes size :
  log_mounted s p d -> cval nm = Some n -> log_bytes s d n = Some old ->
  0 < size < 2 ^ 31 -> size <= lenZ bytes ->
  let ok := record_fits s size && (logfs_segment_count (logfs_tables s) <? LOGFS_MAX_SEGMENTS) in
  exists s' d', logfs_append nm (Some bytes) size s = Ret (if ok then 0 else -1) s' [] /\
    log_mounted s' p d' /\ same_disk d d' /\ (ids_fresh (logfs_tables s) -> ids_fresh (logfs_tables s')) /\
    forall m, log_bytes s' d' m =
      if decide (m = n /\ ok = true) then Some (old ++ take (Z.to_nat size) bytes) else log_bytes s d m.
Proof.
  intros Hm Hn Hold Hsz Hsb ok. pose proof Hm as [Hls Hrdy]. pose proof Hls as [_ (_ & Hdev & _) _ _ Hlim Hend Hok].
  unfold log_bytes, bytes_of in Hold. destruct (slot_of (logfs_tables s) n) as [[i f]|] eqn:Hslot; [|done].
  cbn [mbind option_bind] in Hold. injection Hold as Hold. pose proof Hslot as [Hl Hnm]%slot_of_Some.
  assert (Hlen : info_size f = lenZ old) by (rewrite <- Hold; symmetry; by eapply contents_length).
  pose proof (live_size _ _ _ _ Hok Hl) as Hls30.
  pose proof (logfs_append_ok s p d nm n bytes size i f Hm Hn Hslot ltac:(lia) Hsb ltac:(lia)) as Happ. cbn zeta in Happ.
  set (data := take (Z.to_nat size) bytes) in *. unfold ok. clear ok.
  assert (Hdl : lenZ data = size) by (unfold data, lenZ in *; rewrite length_take; lia).
  destruct (record_fits s size) eqn:Hfits; cbn [andb].
  2:{ destruct Happ as (buf & Hbuf & He). exists (set_logfs_record_buffer buf s), d.
      split; [done|]. split; [split; [by apply log_state_record_buffer|done]|]. split; [done|]. split; [done|].
      intros m. by rewrite decide_False by (by intros [_ ?]). }
  destruct Happ as (s' & d' & Hap & Hres). pose proof Hap as [Hls' Ht Hr' Hsb' Hend' Hfit Hsame Hdata].
  destruct (Z.ltb_spec (logfs_segment_count (logfs_tables s)) LOGFS_MAX_SEGMENTS) as [Hc|Hc].
  2:{ exists s', d'. split; [done|]. split; [split; [done|by rewrite Hr']|]. split; [done|]. split; [by rewrite Ht|].
      intros m. rewrite decide_False by (by intros [_ ?]). by apply (appended_bytes s p d (append_record f data) s' d'). }
  pose proof (append_record_length f data) as Hrl. rewrite Hdl in Hrl.
  unfold record_fits in Hfits. apply andb_true_iff in Hfits as [H480%Z.leb_le _]. specialize (Hrl H480).
  pose proof (record_size_bounds size ltac:(lia)) as [Hr1 Hr2].
  set (off := logfs_log_end s + 32) in *. pose proof (same_disk_capacity _ _ Hsame) as Hcap'.
  set (t' := extended (logfs_tables s) i f size off) in *.
  assert (Hok' : tables_ok t' (Z.min (logfs_log_end s') (capacity d'))).
  { apply (extended_ok _ (Z.min (logfs_log_end s) (capacity d))); try done; rewrite ?Hcap'; lia. }
  exists (set_logfs_tables t' s'), d'. split; [done|]. split; [split; [by apply log_state_tables|by rewrite <- Hrdy, <- Hr']|].
  split; [done|]. split.
  - intros [Hn0 Hf]. split; [done|]. intros j g [[-> ->]|[_ Hg]]%(extended_live _ _ _ _ _ Hl); [apply (Hf i f Hl)|by apply (Hf j)].
  - intros m. unfold log_bytes. cbn [logfs_tables set_logfs_tables]. unfold t'.
    rewrite (extended_bytes _ (Z.min (logfs_log_end s) (capacity d)) (Z.min (logfs_log_end s') (capacity d'))) by (done || rewrite ?Hcap'; lia).
    rewrite Hdata. rewrite (bytes_splice _ _ _ _ _ _ Hok), (contents_splice _ _ _ _ _ _ Hok), Hold
      by (rewrite ?capacity_data by done; lia).
    pose proof (append_record_payload f data (dev_data d) (logfs_log_end s)) as Hpay. rewrite Hdl in Hpay.
    fold off in Hpay. rewrite Hpay by (rewrite ?capacity_data by done; lia).
    rewrite Hnm. destruct (decide (m = n)) as [->|Hne]; [by rewrite !decide_True by done|].
    rewrite !decide_False by (first [by intros [= ->]|by intros [? _]]). done.
Qed.

(** C36. Appending to a file makes its bytes the old ones followed by the new, and
    changes no other file; it fails, and changes no file, when the record is
    too large, the log is full or the segment table is full. *)
Theorem logfs_append_spec s p d nm n old bytes size :
  log_mounted s p d -> cval nm = Some n -> log_bytes s d n = Some old ->
  0 < size < 2 ^ 31 -> size <= lenZ bytes ->
  let ok := record_fits s size && (logfs_segment_count (logfs_tables s) <? LOGFS_MAX_SEGMENTS) in
  exists s' d', logfs_append nm (Some bytes) size s = Ret (if ok then 0 else -1) s' [] /\
    log_mounted s' p d' /\ same_disk d d' /\ (ids_fresh (logfs_tables s) -> ids_fresh (logfs_tables s')) /\
    forall m, log_bytes s' d' m =
      if decide (m = n /\ ok = true) then Some (old ++ take (Z.to_nat size) bytes) else log_bytes s d m.
Proof. apply logfs_append_effect. Qed.

End operations.
