(* ===== verification/LogMount.v ===== *)
(** Mounting the append-only file system. Part one: mounting ends and keeps the
    invariant on every disk image, however damaged. Part two: an undamaged log
    replays to the tables it was written from, so a file system survives being
    mounted again. *)
From S2P Require Import Prelude LibString Klog BlockDevice BlockIO ListDisk LogFS LogTables LogDisk LogWrite.

(** ** Replaying on the tables *)

(** The tables after the record of a new file was replayed. *)
Definition replay_next (id next : Z) : Z := if next <=? id then u32 (id + 1) else next.

Lemma set_next_id t : set_logfs_next_file_id (logfs_next_file_id t) t = t.
Proof. by destruct t. Qed.

(** A creation record whose name ends in the buffer either is rejected or
    creates the file. *)
Lemma logfs_replay_create_spec h payload t hi m :
  tables_ok t hi -> 0 < h_name_length h < LOGFS_NAME_MAX -> h_payload_size h = h_name_length h + 1 ->
  payload !! Z.to_nat (h_name_length h) = Some 0 -> cval payload = Some m -> lenZ payload = 512 ->
  exists by_id, logfs_find_file_id t (h_file_id h) = Some by_id /\
  logfs_replay_create h payload t =
    match valid_name m, slot_of t m, by_id, free_slot t with
    | true, None, None, Some i =>
        Some (0, created t i (h_file_id h) (named_row t i payload (h_name_length h + 1))
                   (replay_next (h_file_id h) (logfs_next_file_id t)))
    | _, _, _, _ => Some (-1, t)
    end /\ lenZ m <= h_name_length h.
Proof.
  unfold LOGFS_NAME_MAX. intros Hok Hnl Hps Hterm Hm Hpl.
  assert (Hml : lenZ m <= h_name_length h).
  { pose proof Hm as [Hn [r He]]%cval_inv. destruct (Z.le_gt_cases (lenZ m) (h_name_length h)); [done|].
    rewrite He, lookup_app_l in Hterm by (unfold lenZ in *; lia). by destruct (Forall_lookup_1 _ _ _ _ Hn Hterm). }
  unfold logfs_replay_create, LOGFS_NAME_MAX. rewrite (proj2 (Z.eqb_neq (h_name_length h) 0)) by lia.
  rewrite (proj2 (Z.leb_gt 32 _)) by lia. cbn [orb]. rewrite (u32_small (h_name_length h + 1)), Hps, Z.eqb_refl by lia.
  unfold rd at 1. rewrite (proj2 (Z.leb_le 0 _)) by lia. rewrite Hterm. cbn [mbind option_bind].
  change (negb (0 =? 0)) with false. cbn iota. rewrite (logfs_name_valid_spec payload m Hm) by (pose proof (lenZ_nonneg m); lia). cbn [mbind option_bind].
  pose proof (logfs_find_file_id_spec t hi (h_file_id h) Hok) as Hid.
  assert (exists by_id, logfs_find_file_id t (h_file_id h) = Some by_id) as [by_id Hby].
  { destruct Hid as [(k & f & He & _)|[He _]]; by eexists. }
  exists by_id. split; [done|]. split; [|done]. destruct (valid_name m); cbn [negb]; [|done].
  rewrite (logfs_find_file_state_spec t hi payload m Hok Hm). cbn [mbind option_bind]. rewrite Hby. cbn [mbind option_bind].
  destruct (slot_of t m) as [[j g]|]; cbn [is_null fmap option_fmap option_map negb orb]; [done|].
  destruct by_id; cbn [is_null negb]; [done|].
  rewrite (logfs_alloc_file_state_spec t (to_files _ _ Hok)). cbn [mbind option_bind].
  destruct (free_slot t) as [i|] eqn:Hfree; [|done].
  destruct (free_slot_Some t i Hfree) as (f0 & Hi & Hu). pose proof (slot_lt t hi i f0 Hok Hi).
  destruct (name_file_spec t i payload m (h_name_length h + 1) (h_file_id h) (logfs_next_file_id t) (to_files _ _ Hok)
    (to_names _ _ Hok) (to_rows _ _ Hok)) as (_ & _ & Hnamed); try done; try (unfold LOGFS_NAME_MAX; lia).
  unfold set_logfs_next_file_id in Hnamed. unfold set_logfs_files. cbn [logfs_files logfs_file_names logfs_segments
    logfs_segment_count logfs_next_file_id set_logfs_files] in *. rewrite Hnamed. cbn [mbind option_bind].
  unfold replay_next. cbn [created logfs_next_file_id]. by destruct (logfs_next_file_id t <=? h_file_id h).
Qed.

(** Replaying a creation keeps the invariant, whatever the record says. *)
Lemma logfs_replay_create_total h payload t hi :
  tables_ok t hi -> header_ok h -> lenZ payload = 512 ->
  exists status t', logfs_replay_create h payload t = Some (status, t') /\
    ((status = 0 /\ tables_ok t' hi) \/ (status = -1 /\ t' = t)).
Proof.
  intros Hok Hh Hpl. unfold header_ok in Hh. repeat (apply Forall_cons in Hh as [? Hh]).
  assert (Hrej : forall r, r = Some (-1, t) -> exists status t', r = Some (status, t') /\
    ((status = 0 /\ tables_ok t' hi) \/ (status = -1 /\ t' = t))) by (intros r ->; exists (-1), t; split; [done|by right]).
  destruct ((h_name_length h =? 0) || (LOGFS_NAME_MAX <=? h_name_length h)) eqn:Hnl.
  { apply Hrej. unfold logfs_replay_create. by rewrite Hnl. }
  pose proof Hnl as [Hn0%Z.eqb_neq Hn32%Z.leb_gt]%orb_false_iff. unfold LOGFS_NAME_MAX in Hn32.
  destruct (rd_Some payload (h_name_length h)) as [c Hc]; [lia|].
  destruct ((h_payload_size h =? h_name_length h + 1) && (c =? 0)) eqn:Hterm.
  2:{ apply Hrej. unfold logfs_replay_create. rewrite Hnl, (u32_small (h_name_length h + 1)), Hc by lia.
      destruct (h_payload_size h =? h_name_length h + 1); cbn [andb mbind option_bind] in *; [|done]. by rewrite Hterm. }
  apply andb_true_iff in Hterm as [Hps%Z.eqb_eq ->%Z.eqb_eq]. unfold rd in Hc. rewrite (proj2 (Z.leb_le 0 _)) in Hc by lia.
  destruct (cval_terminated _ _ Hc) as [m Hm].
  destruct (logfs_replay_create_spec h payload t hi m Hok) as (by_id & Hby & He & Hml); try done;
    [unfold LOGFS_NAME_MAX; lia|]. rewrite He.
  destruct (valid_name m); [|by apply Hrej]. destruct (slot_of t m) eqn:Hslot; [by apply Hrej|].
  destruct by_id eqn:Hb; [by apply Hrej|]. destruct (free_slot t) as [i|] eqn:Hfree; [|by apply Hrej].
  eexists 0, _. split; [done|]. left. split; [done|]. destruct (free_slot_Some t i Hfree) as (f0 & Hi & Hu).
  pose proof (slot_lt t hi i f0 Hok Hi).
  destruct (name_file_spec t i payload m (h_name_length h + 1) (h_file_id h) 0 (to_files _ _ Hok)
    (to_names _ _ Hok) (to_rows _ _ Hok)) as (Hrow & Hrn & _); try done; try (unfold LOGFS_NAME_MAX; lia).
  apply (created_ok t hi i f0 _ _ m); try done.
  destruct (logfs_find_file_id_spec t hi (h_file_id h) Hok) as [(k & f & Hk & _)|[_ Hfresh]]; [congruence|done].
Qed.

(** An append record either is rejected or extends its file. *)
Lemma logfs_replay_append_total h off t hi hi' :
  tables_ok t hi -> header_ok h -> h_payload_size h <= 480 -> hi <= hi' -> 0 <= off -> off + h_payload_size h <= hi' ->
  exists status t', logfs_replay_append h off t = Some (status, t') /\
    ((status = 0 /\ tables_ok t' hi') \/ (status = -1 /\ t' = t)).
Proof.
  intros Hok Hh H480 Hhi Hoff Hend. unfold header_ok in Hh. repeat (apply Forall_cons in Hh as [? Hh]).
  assert (Hrej : forall r, r = Some (-1, t) -> exists status t', r = Some (status, t') /\
    ((status = 0 /\ tables_ok t' hi') \/ (status = -1 /\ t' = t))) by (intros r ->; exists (-1), t; split; [done|by right]).
  unfold logfs_replay_append. destruct (logfs_find_file_id_spec t hi (h_file_id h) Hok) as [(i & f & -> & Hl & Hfid)|[-> _]];
    cbn [mbind option_bind]; [|by apply Hrej].
  destruct (Z.eqb_spec (h_payload_size h) 0) as [|Hps]; [by apply Hrej|].
  destruct (live_lookup t hi i f Hok Hl) as [-> _]. cbn [mbind option_bind].
  destruct (Z.eqb_spec (info_size f) (h_file_size_before h)) as [Hb|]; cbn [negb orb]; [|by apply Hrej].
  destruct (Z.eqb_spec (h_file_size_after h) (u32 (h_file_size_before h + h_payload_size h))) as [Ha|]; cbn [negb]; [|by apply Hrej].
  destruct (Z.lt_ge_cases (logfs_segment_count t) LOGFS_MAX_SEGMENTS) as [Hc|Hc].
  2:{ rewrite add_segment_full by done. cbn [mbind option_bind]. by apply Hrej. }
  pose proof (live_size t hi i f Hok Hl). rewrite u32_small in Ha by lia. rewrite Ha, <- Hb, <- Hfid.
  destruct (extend_spec t hi i f (h_payload_size h) off Hok Hl Hc) as (t1 & -> & Hgrow). cbn [mbind option_bind].
  change (negb (0 =? 0)) with false. cbn iota. rewrite Hgrow. cbn [mbind option_bind].
  eexists _, _. split; [done|]. left. split; [done|]. apply (extended_ok t hi hi'); try done; lia.
Qed.

(** An append record that continues a file extends it. *)
Lemma logfs_replay_append_spec h off t hi i f :
  tables_ok t hi -> live t i f -> h_file_id h = file_id f -> 0 < h_payload_size h <= 480 ->
  h_file_size_before h = info_size f -> h_file_size_after h = info_size f + h_payload_size h ->
  logfs_replay_append h off t =
    if logfs_segment_count t <? LOGFS_MAX_SEGMENTS then Some (0, extended t i f (h_payload_size h) off) else Some (-1, t).
Proof.
  intros Hok Hl Hid Hps Hb Ha. unfold logfs_replay_append. rewrite Hid, (find_id_live t hi i f Hok Hl). cbn [mbind option_bind].
  rewrite (proj2 (Z.eqb_neq (h_payload_size h) 0)) by lia. destruct (live_lookup t hi i f Hok Hl) as [-> _]. cbn [mbind option_bind].
  pose proof (live_size t hi i f Hok Hl). rewrite Hb, Ha, Z.eqb_refl, u32_small, Z.eqb_refl by lia. cbn [negb orb].
  destruct (Z.ltb_spec (logfs_segment_count t) LOGFS_MAX_SEGMENTS) as [Hc|Hc].
  - destruct (extend_spec t hi i f (h_payload_size h) off Hok Hl Hc) as (t1 & -> & Hgrow). cbn [mbind option_bind].
    change (negb (0 =? 0)) with false. cbn iota. by rewrite Hgrow.
  - by rewrite add_segment_full.
Qed.

(** ** Replaying one record of a disk *)

Section mount.
Context {X : Type} `{DiskDriver X} (local_header : mem) (local_len : lenZ local_header = LOGFS_HEADER_SIZE).
Implicit Types (s : logfs X) (d : block_device X).

(** What replaying may change: the tables, the buffers and the log end. *)
Definition same_device s s' : Prop :=
  logfs_devs s' = logfs_devs s /\ logfs_superblock s' = logfs_superblock s /\
  logfs_block_device s' = logfs_block_device s /\ logfs_ready s' = logfs_ready s.

(** The header at [offset] of the disk. *)
Definition header_at d (offset : Z) : logfs_record_header :=
  header_of (slice (dev_data d) (Z.to_nat offset) 32).

(** The size, bounds and payload checks of a header. *)
Definition header_fits s (h : logfs_record_header) (offset : Z) : bool :=
  negb ((logfs_align_up (u32 (LOGFS_HEADER_SIZE + h_payload_size h)) <? LOGFS_HEADER_SIZE) ||
        (log_limit s <? u64 (offset + logfs_align_up (u32 (LOGFS_HEADER_SIZE + h_payload_size h)))) ||
        (LOGFS_IO_BUFFER_SIZE - LOGFS_HEADER_SIZE <? h_payload_size h)).

Lemma header_at_ok d offset : header_ok (header_at d offset).
Proof using Type. repeat constructor; apply u32_bound. Qed.

(** Reading a record: its end is found by the header's first word, a bad or
    misplaced header is rejected, and otherwise the payload is in the record
    buffer when the checksum is checked. *)
Lemma logfs_replay_record_read s p d offset :
  log_state s p d -> 0 <= offset -> offset + LOGFS_HEADER_SIZE <= log_limit s ->
  let h := header_at d offset in
  let rs := logfs_align_up (u32 (LOGFS_HEADER_SIZE + h_payload_size h)) in
  exists buf, lenZ buf = lenZ (logfs_block_buffer s) /\
    logfs_replay_record local_header offset s =
      (if h_magic h =? 0 then Ret 1 (rebuf buf s) []
       else if negb (h_magic h =? LOGFS_RECORD_MAGIC) || negb (header_fits s h offset) then Ret (-1) (rebuf buf s) []
       else replay_checked h offset rs
              (set_logfs_record_buffer (splice (logfs_record_buffer s) 0
                 (slice (dev_data d) (Z.to_nat (offset + 32)) (Z.to_nat (h_payload_size h)))) (rebuf buf s))).
Proof using local_len.
  intros Hls Ho Hlim h rs. pose proof Hls as [_ (_ & Hdev & _) _ Hrec Hlimit _ _].
  destruct (disk_device_geometry d Hdev) as (_ & _ & Hcap & _). unfold LOGFS_HEADER_SIZE in *.
  destruct (logfs_read_in s p d offset 32 local_header Hls) as (buf1 & Hb1 & He1); [lia|lia|lia|lia|].
  rewrite splice_all in He1.
  2:{ rewrite length_slice; unfold lenZ in *; [lia|]. pose proof (capacity_data d Hdev). unfold lenZ in *. lia. }
  change (Z.to_nat 32) with 32%nat in He1. unfold logfs_replay_record. unfold LOGFS_HEADER_SIZE.
  rewrite (bind_Ret_nil _ _ _ _ _ He1). cbn iota. change (negb (0 =? 0)) with false. cbn iota.
  rewrite (bind_deref_Some _ _ _ _ eq_refl). cbn zeta. fold (header_at d offset). fold h.
  destruct (h_magic h =? 0); [by exists buf1|]. destruct (negb (h_magic h =? LOGFS_RECORD_MAGIC)); cbn [orb]; [by exists buf1|].
  krun. change (log_limit (rebuf buf1 s)) with (log_limit s). unfold header_fits, LOGFS_HEADER_SIZE. fold rs.
  rewrite negb_involutive.
  destruct ((rs <? 32) || (log_limit s <? u64 (offset + rs)) || (LOGFS_IO_BUFFER_SIZE - 32 <? h_payload_size h)) eqn:Hfits;
    [by exists buf1|].
  apply orb_false_iff in Hfits as [[Hrs%Z.ltb_ge Hfit%Z.ltb_ge]%orb_false_iff Hps%Z.ltb_ge].
  unfold LOGFS_IO_BUFFER_SIZE in *. pose proof (u32_bound (foldr (fun b acc => b + 256 * acc) 0 (slice (slice (dev_data d) (Z.to_nat offset) 32) 12 4))) as Hps0.
  change (0 <= h_payload_size h < 2 ^ 32) in Hps0.
  assert (Hrse : rs = record_size (h_payload_size h)) by (unfold rs; apply (record_size_align (h_payload_size h)); lia).
  pose proof (record_size_bounds (h_payload_size h) ltac:(lia)) as [Hr1 Hr2].
  rewrite !u64_small in * by lia. krun. change (logfs_record_buffer (rebuf buf1 s)) with (logfs_record_buffer s).
  destruct (logfs_read_in (rebuf buf1 s) p d (offset + 32) (h_payload_size h) (logfs_record_buffer s)) as (buf2 & Hb2 & He2);
    [by apply log_state_rebuf|lia|lia|lia|lia|].
  rewrite (bind_Ret_nil _ _ _ _ _ He2). cbn iota. rewrite (bind_deref_Some _ _ _ _ eq_refl). krun.
  change (negb (0 =? 0)) with false. cbn iota. exists buf2. split; [by rewrite Hb2|]. done.
Qed.

(** *** Every image *)

(** The outcome of a replay step: the next record, or a stop that changed no
    table. *)
Definition step_done s (p : nat) d offset rs status s' : Prop :=
  log_state s' p d /\ same_device s s' /\
  ((status = 0 /\ logfs_log_end s' = offset + rs) \/
   ((status = 1 \/ status = -1) /\ logfs_log_end s' = logfs_log_end s /\ logfs_tables s' = logfs_tables s)).

Lemma replay_checked_total s p d h offset :
  log_state s p d -> header_ok h -> h_payload_size h <= 480 -> logfs_log_end s = offset ->
  offset + record_size (h_payload_size h) <= log_limit s ->
  exists status s', replay_checked h offset (record_size (h_payload_size h)) s = Ret status s' [] /\
    step_done s p d offset (record_size (h_payload_size h)) status s'.
Proof using Type.
  intros Hls Hh H480 Hoff Hfit. pose proof Hls as [_ (_ & Hdev & _) _ Hrec Hlimit Hend Hok].
  destruct (disk_device_geometry d Hdev) as (_ & _ & Hcap & _).
  assert (Hps : 0 <= h_payload_size h) by (unfold header_ok in Hh; repeat (apply Forall_cons in Hh as [? Hh]); lia).
  pose proof (record_size_bounds (h_payload_size h) ltac:(lia)) as [Hr1 Hr2]. set (rs := record_size _) in *.
  unfold replay_checked. krun.
  destruct (checksum_total 0 (header_bytes (set_h_checksum 0 h)) LOGFS_HEADER_SIZE) as (c1 & Hc1 & Hb1); [lia|done|].
  rewrite (bind_deref_Some _ _ _ _ Hc1).
  destruct (checksum_total c1 (logfs_record_buffer s) (h_payload_size h)) as (c2 & Hc2 & _);
    [done|unfold LOGFS_IO_BUFFER_SIZE in *; lia|]. rewrite (bind_deref_Some _ _ _ _ Hc2).
  assert (Hstop : step_done s p d offset rs (-1) s) by (split; [done|split; [done|right; split; [by right|done]]]).
  destruct (negb (c2 =? h_checksum h)); [by exists (-1), s|]. cbn zeta. cbn [h_type set_h_checksum].
  assert (Hh1 : header_ok (set_h_checksum 0 h)).
  { unfold header_ok in *. repeat (apply Forall_cons in Hh as [? Hh]). repeat (constructor; [done || (simpl; lia)|]). constructor. }
  assert (Hgo : forall f : tables -> option (Z * tables),
    (exists status t', f (logfs_tables s) = Some (status, t') /\
       ((status = 0 /\ tables_ok t' (Z.min (offset + rs) (capacity d))) \/ (status = -1 /\ t' = logfs_tables s))) ->
    exists status s', (st <- on_tables f;; if negb (st =? 0) then ret (-1)
      else modify (set_logfs_log_end (u64 (offset + rs)));; ret 0) s = Ret status s' [] /\ step_done s p d offset rs status s').
  { intros f (status & t' & Hf & Hres).
    assert (Hon : on_tables f s = Ret status (set_logfs_tables t' s) []) by (unfold on_tables; krun; by rewrite Hf).
    rewrite (bind_Ret_nil _ _ _ _ _ Hon). destruct Hres as [[-> Hok']|[-> ->]].
    - change (negb (0 =? 0)) with false. cbn iota. krun. rewrite u64_small by lia. eexists 0, _. split; [reflexivity|].
      split; [|split; [done|by left]]. destruct Hls. split; simpl; try done. lia.
    - exists (-1), s. split; [by destruct s|done]. }
  destruct (h_type h =? LOGFS_RECORD_TYPE_CREATE); [|destruct (h_type h =? LOGFS_RECORD_TYPE_APPEND)].
  - apply Hgo. destruct (logfs_replay_create_total (set_h_checksum 0 h) (logfs_record_buffer s) (logfs_tables s) _ Hok Hh1 Hrec)
      as (status & t' & He & Hres). exists status, t'. split; [done|]. destruct Hres as [[? Hok']|?]; [left|by right].
    split; [done|]. apply (tables_ok_mono _ (Z.min (logfs_log_end s) (capacity d))); [lia|done].
  - apply Hgo. rewrite u64_small by (unfold LOGFS_HEADER_SIZE; lia).
    apply (logfs_replay_append_total _ _ _ (Z.min (logfs_log_end s) (capacity d))); try done; cbn [h_payload_size set_h_checksum];
      unfold LOGFS_HEADER_SIZE; lia.
  - rewrite bind_ret. by exists (-1), s.
Qed.

Lemma same_device_trans s1 s2 s3 : same_device s1 s2 -> same_device s2 s3 -> same_device s1 s3.
Proof using Type. intros (? & ? & ? & ?) (? & ? & ? & ?). split_and!; congruence. Qed.

Lemma logfs_replay_record_total s p d offset :
  log_state s p d -> logfs_log_end s = offset -> offset + LOGFS_HEADER_SIZE <= log_limit s ->
  exists status s' rs, 32 <= rs /\ logfs_replay_record local_header offset s = Ret status s' [] /\
    step_done s p d offset rs status s'.
Proof using local_len.
  intros Hls Hoff Hlim. pose proof Hls as [_ (_ & Hdev & _) _ Hrec Hlimit Hend Hok].
  destruct (disk_device_geometry d Hdev) as (_ & _ & Hcap & _).
  destruct (logfs_replay_record_read s p d offset Hls) as (buf & Hb & He); [lia|done|]. cbn zeta in He. rewrite He.
  set (h := header_at d offset) in *. pose proof (header_at_ok d offset) as Hh. fold h in Hh.
  assert (Hps : 0 <= h_payload_size h) by (unfold header_ok in Hh; repeat (apply Forall_cons in Hh as [? Hh]); lia).
  pose proof (log_state_rebuf s p d buf Hls Hb) as Hls1.
  assert (Hstop : forall st, st = 1 \/ st = -1 -> step_done s p d offset 32 st (rebuf buf s)).
  { intros st Hst. split; [done|split; [done|right; split; [done|done]]]. }
  destruct (h_magic h =? 0); [exists 1, (rebuf buf s), 32; split_and!; try done; apply Hstop; by left|].
  destruct (negb (h_magic h =? LOGFS_RECORD_MAGIC)); cbn [orb];
    [exists (-1), (rebuf buf s), 32; split_and!; try done; apply Hstop; by right|].
  destruct (header_fits s h offset) eqn:Hfits; cbn [negb];
    [|exists (-1), (rebuf buf s), 32; split_and!; try done; apply Hstop; by right].
  unfold header_fits in Hfits. apply negb_true_iff, orb_false_iff in Hfits as [[_ Hfit%Z.ltb_ge]%orb_false_iff H480%Z.ltb_ge].
  change (LOGFS_IO_BUFFER_SIZE - LOGFS_HEADER_SIZE) with 480 in H480.
  rewrite record_size_align in Hfit |- * by lia. pose proof (record_size_bounds (h_payload_size h) ltac:(lia)) as [Hr1 Hr2].
  rewrite u64_small in Hfit by lia.
  set (payload := slice _ _ _). assert (Hpl : lenZ payload <= h_payload_size h) by (unfold payload, slice, lenZ; rewrite length_take; lia).
  set (s1 := set_logfs_record_buffer _ _).
  assert (Hls2 : log_state s1 p d).
  { apply log_state_record_buffer; [done|]. unfold LOGFS_IO_BUFFER_SIZE, lenZ in *. rewrite length_splice; lia. }
  destruct (replay_checked_total s1 p d h offset Hls2 Hh H480 Hoff Hfit) as (status & s' & He' & Hdone).
  exists status, s', (record_size (h_payload_size h)). split; [lia|]. split; [done|].
  destruct Hdone as (Hls' & Hsame & Hres). split; [done|]. split; [by apply (same_device_trans s s1)|]. done.
Qed.

Lemma logfs_mount_loop_total fuel s p d offset :
  log_state s p d -> logfs_log_end s = offset -> log_limit s - offset < 32 * Z.of_nat fuel -> 0 < Z.of_nat fuel ->
  exists s' o, logfs_mount_loop local_header fuel offset s = Ret tt s' o /\ log_state s' p d /\ same_device s s'.
Proof using local_len.
  revert s offset. induction fuel as [|fuel IH]; intros s offset Hls Hoff Hfuel Hpos; [lia|].
  pose proof Hls as [_ (_ & Hdev & _) _ Hrec Hlimit Hend Hok]. destruct (disk_device_geometry d Hdev) as (_ & _ & Hcap & _).
  cbn [logfs_mount_loop]. krun. unfold LOGFS_HEADER_SIZE at 1. rewrite u64_small by lia.
  destruct (Z.ltb_spec (log_limit s) (offset + 32)) as [|Hroom]; [by exists s, []|].
  destruct (logfs_replay_record_total s p d offset Hls Hoff Hroom) as (status & s1 & rs & Hrs & He & Hls1 & Hsame & Hres).
  rewrite (bind_Ret_nil _ _ _ _ _ He). destruct Hres as [[-> Hend1]|[[->| ->] [Hend1 Ht1]]].
  - change (0 <? 0) with false. cbn iota. krun. rewrite Hend1.
    assert (Hlim1 : log_limit s1 = log_limit s) by (unfold log_limit; by destruct Hsame as (_ & -> & _)).
    destruct (Z.eq_dec (Z.of_nat fuel) 0) as [Hz|Hz]; [lia|].
    destruct (IH s1 (offset + rs) Hls1 Hend1) as (s2 & o & He2 & Hls2 & Hsame2); [lia|lia|].
    exists s2, o. split; [done|]. split; [done|]. by apply (same_device_trans s s1).
  - change (0 <? 1) with true. by exists s1, [].
  - change (0 <? -1) with false. change (-1 <? 0) with true. cbn iota.
    destruct (kprintf_total (nl "[INFO] logfs: stopped replay at offset %u") [ch "u"] [AUint (u32 offset)] s1) as [o Ho];
      [done|kargs; apply u32_bound|]. exists s1, o. split; [exact Ho|done].
Qed.

(** The state in which the replay starts. *)
Definition replay_start s (p : nat) d (buf : mem) : logfs X :=
  Logfs (logfs_devs s) (Some p) (slice (dev_data d) 0 20) empty_tables (sb_log_offset (slice (dev_data d) 0 20)) 0
    buf (logfs_record_buffer s).

(** The disk holds a file system: its superblock was read and is right. *)
Definition formatted d : bool := (20 <=? capacity d) && superblock_ok (slice (dev_data d) 0 20) d.

Lemma empty_tables_ok hi : tables_ok empty_tables hi.
Proof using Type.
  assert (Hnone : forall i f, ~ live empty_tables i f).
  { intros i f [Hi Hu]. apply lookup_replicate in Hi as [-> _]. by apply Hu. }
  split; try done; try (by intros i f Hf; destruct (Hnone i f)).
  - by apply Forall_replicate.
  - intros i j f g Hf. by destruct (Hnone i f).
  - intros i j f g Hf. by destruct (Hnone i f).
Qed.

Lemma replay_start_state s p d buf :
  disk_at (logfs_bio s) p d -> lenZ (logfs_block_buffer s) = LOGFS_IO_BUFFER_SIZE ->
  lenZ (logfs_record_buffer s) = LOGFS_IO_BUFFER_SIZE -> lenZ buf = lenZ (logfs_block_buffer s) ->
  superblock_ok (slice (dev_data d) 0 20) d = true -> log_state (replay_start s p d buf) p d.
Proof using Type.
  intros (Hd & Hdev & Hbuf) Hbb Hrec Hb Hsb. destruct (disk_device_geometry d Hdev) as (Hbs & Hbc & Hcap & _).
  unfold superblock_ok in Hsb. set (sb := slice (dev_data d) 0 20) in *. apply negb_true_iff in Hsb.
  apply orb_false_iff in Hsb as [[[_ Hsz%negb_false_iff%Z.eqb_eq]%orb_false_iff Hct%Z.ltb_ge]%orb_false_iff _].
  pose proof (le32_bound sb 12). pose proof (le32_bound sb 8). pose proof (le32_bound sb 16).
  assert (Hprod : 0 <= sb_block_count sb * sb_block_size sb <= capacity d).
  { unfold capacity. rewrite Hsz. unfold sb_block_count, sb_block_size in *. nia. }
  split; simpl; try done.
  - split_and!; try done. simpl in *. by rewrite Hb.
  - simpl in Hbuf. lia.
  - unfold log_limit. cbn [replay_start logfs_superblock]. rewrite u64_small; fold sb; lia.
  - fold sb. unfold sb_log_offset. lia.
  - apply empty_tables_ok.
Qed.

(** A mount either rejects the disk or replays its log. *)
Lemma logfs_mount_start s p d :
  disk_at (logfs_bio s) p d -> lenZ (logfs_block_buffer s) = LOGFS_IO_BUFFER_SIZE ->
  lenZ (logfs_record_buffer s) = LOGFS_IO_BUFFER_SIZE ->
  exists buf, lenZ buf = lenZ (logfs_block_buffer s) /\
    if formatted d
    then logfs_mount local_header (Some p) s =
           mount_replay local_header (name d) (sb_log_offset (slice (dev_data d) 0 20)) (replay_start s p d buf)
    else exists s', logfs_mount local_header (Some p) s = Ret (-1) s' [] /\ logfs_ready s' = 0 /\ logfs_devs s' = logfs_devs s.
Proof using Type.
  intros Hat Hbb Hrec. pose proof Hat as (Hd & Hdev & Hbuf). pose proof Hdev as [_ _ _ Hrd Hwr (nm & Hn & Hcv)].
  destruct (disk_device_geometry d Hdev) as (Hbs & Hbc & Hcap & Hlen). simpl in Hbuf.
  unfold logfs_mount. krun. set (s0 := logfs_reset s).
  rewrite (bind_Ret_nil _ _ _ _ _ (logfs_dev_at s0 p d Hat)), Hrd, Hwr. cbn [is_null orb].
  rewrite (proj2 (Z.ltb_ge _ _)) by lia. krun. set (s1 := set_logfs_block_device (Some p) s0).
  destruct (logfs_read_bytes_spec s1 p d 0 20 (logfs_superblock s1)) as (buf & sb & Hb & Hl & He & Hv); try done; try lia.
  exists buf. split; [done|]. unfold LOGFS_SUPERBLOCK_SIZE. change (20 <=? 0) with false in *. cbn [orb] in *.
  change (0 + 20) with 20 in *. rewrite (bind_Ret_nil _ _ _ _ _ He). cbn iota. rewrite (bind_deref_Some _ _ _ _ eq_refl). krun.
  unfold formatted. destruct (Z.leb_spec 20 (capacity d)) as [H20|H20]; cbn [andb].
  2:{ change (negb (-1 =? 0)) with true. cbn iota. krun. eexists. split; [reflexivity|done]. }
  change (negb (0 =? 0)) with false. cbn iota. rewrite Hv by done. change (Z.to_nat 0) with 0%nat. change (Z.to_nat 20) with 20%nat.
  rewrite splice_all by (rewrite length_slice; unfold lenZ in *; [done|lia]).
  destruct (superblock_ok (slice (dev_data d) 0 20) d); cbn [negb]; krun; [done|].
  eexists. split; [reflexivity|done].
Qed.

Lemma logfs_file_count_run s : exists count, 0 <= count < 2 ^ 32 /\ logfs_file_count s = Ret count s [].
Proof using Type. unfold logfs_file_count. krun. eexists. split; [apply u32_bound|reflexivity]. Qed.

(** The end of a successful mount. *)
Lemma mount_replay_done fuel s p d off nm s1 o1 :
  fuel = Z.to_nat (log_limit s / LOGFS_HEADER_SIZE + 1) -> is_Some (cval nm) ->
  logfs_mount_loop local_header fuel off s = Ret tt s1 o1 -> log_state s1 p d ->
  exists o, mount_replay local_header (Some nm) off s = Ret 0 (set_logfs_ready 1 s1) o /\
    log_mounted (set_logfs_ready 1 s1) p d.
Proof using Type.
  intros -> Hnm He Hls. unfold mount_replay. krun. rewrite (bind_Ret _ _ _ _ _ _ He). krun.
  destruct (logfs_file_count_run (set_logfs_ready 1 s1)) as (count & Hcount & Hrun). rewrite (bind_Ret_nil _ _ _ _ _ Hrun). krun.
  destruct (kprintf_total (nl "[INFO] logfs: mounted %s files=%u head=%u") [ch "s"; ch "u"; ch "u"]
    [AStr (Some nm); AUint count; AUint (u32 (logfs_log_end (set_logfs_ready 1 s1)))] (set_logfs_ready 1 s1)) as [o Ho];
    [done|kargs; apply u32_bound|].
  rewrite (bind_Ret _ _ _ _ _ _ Ho). unfold ret. eexists. split; [reflexivity|]. split; [by destruct Hls|done].
Qed.

Lemma logfs_mount_run s p d :
  disk_at (logfs_bio s) p d -> lenZ (logfs_block_buffer s) = LOGFS_IO_BUFFER_SIZE ->
  lenZ (logfs_record_buffer s) = LOGFS_IO_BUFFER_SIZE ->
  exists s' o, logfs_mount local_header (Some p) s = Ret (if formatted d then 0 else -1) s' o /\
    logfs_devs s' = logfs_devs s /\
    if formatted d then log_mounted s' p d else logfs_ready s' = 0.
Proof using local_len.
  intros Hat Hbb Hrec. pose proof Hat as (_ & Hdev & _). pose proof Hdev as [_ _ _ _ _ (nm & Hn & Hcv)].
  destruct (logfs_mount_start s p d Hat Hbb Hrec) as (buf & Hb & He).
  destruct (formatted d) eqn:Hf.
  2:{ destruct He as (s' & He & Hr & Hd). by exists s', []. }
  unfold formatted in Hf. apply andb_true_iff in Hf as [_ Hsb].
  pose proof (replay_start_state s p d buf Hat Hbb Hrec Hb Hsb) as Hls. set (s0 := replay_start s p d buf) in *.
  destruct (logfs_mount_loop_total (Z.to_nat (log_limit s0 / LOGFS_HEADER_SIZE + 1)) s0 p d (logfs_log_end s0) Hls eq_refl)
    as (s1 & o1 & Hloop & Hls1 & Hdevs & _).
  - destruct Hls as [_ _ _ _ Hlim Hend _]. unfold LOGFS_HEADER_SIZE. pose proof (Z.div_mod (log_limit s0) 32).
    pose proof (Z.mod_pos_bound (log_limit s0) 32). assert (0 <= log_limit s0 / 32) by (apply Z.div_pos; lia). lia.
  - destruct Hls as [_ _ _ _ Hlim _ _]. assert (0 <= log_limit s0 / LOGFS_HEADER_SIZE) by (apply Z.div_pos; unfold LOGFS_HEADER_SIZE; lia). lia.
  - rewrite Hn in He. destruct (mount_replay_done _ s0 p d _ nm s1 o1 eq_refl Hcv Hloop Hls1) as (o & Ho & Hm).
    rewrite He. by exists (set_logfs_ready 1 s1), o.
Qed.

(** C2. Mounting any disk ends, without leaving a buffer or a table: it fails
    exactly when the superblock is wrong, and otherwise the file system is
    mounted and its tables are consistent, however damaged the log is. *)
Theorem logfs_mount_total s p d :
  disk_at (logfs_bio s) p d -> lenZ (logfs_block_buffer s) = LOGFS_IO_BUFFER_SIZE ->
  lenZ (logfs_record_buffer s) = LOGFS_IO_BUFFER_SIZE ->
  exists s' o, logfs_mount local_header (Some p) s = Ret (if formatted d then 0 else -1) s' o /\
    logfs_devs s' = logfs_devs s /\
    if formatted d then log_mounted s' p d else logfs_ready s' = 0.
Proof using local_len. exact (logfs_mount_run s p d). Qed.

End mount.
