(* ===== verification/LogRemount.v ===== *)
(** Persistence of the append-only file system: the log on the disk as a list
    of records, the tables it stands for, the proof that replaying it at mount
    time gives these tables, and that every change of a file is recorded. *)
From S2P Require Import Prelude LibString Klog BlockDevice BlockIO ListDisk LogFS LogTables LogDisk LogWrite LogMount.

(** ** The log as a list of records *)

(** [recorded data start e t]: from [start] to [e] the disk holds records, and
    together they stand for the tables [t]. *)
Inductive recorded (data : list Z) (start : Z) : Z -> tables -> Prop :=
| recorded_start : recorded data start start empty_tables
| recorded_create e t i n id :
    recorded data start e t -> free_slot t = Some i -> no_nul n -> valid_name n = true -> slot_of t n = None ->
    logfs_next_file_id t <= id -> id + 1 < 2 ^ 32 ->
    slice data (Z.to_nat e) (Z.to_nat (record_size (lenZ n + 1))) = create_record id n ->
    recorded data start (e + record_size (lenZ n + 1))
      (created t i id (named_row t i (n ++ [0]) (lenZ n + 1)) (id + 1))
| recorded_append e t i f bytes :
    recorded data start e t -> live t i f -> 0 < lenZ bytes <= 480 -> logfs_segment_count t < LOGFS_MAX_SEGMENTS ->
    slice data (Z.to_nat e) (Z.to_nat (record_size (lenZ bytes))) = append_record f bytes ->
    recorded data start (e + record_size (lenZ bytes)) (extended t i f (lenZ bytes) (e + 32)).

(** Free slots are all zeros. *)
Definition clean (t : tables) : Prop :=
  forall i f, logfs_files t !! i = Some f -> file_in_use f = 0 ->
    f = empty_file /\ logfs_file_names t !! i = Some (replicate 32 0).

Lemma valid_name_length n : valid_name n = true -> 0 < lenZ n < 32.
Proof.
  intros [[Hn%bool_decide_eq_true Hl%Z.ltb_lt]%andb_true_iff _]%andb_true_iff. unfold LOGFS_NAME_MAX in Hl.
  split; [|done]. destruct n; [done|]. rewrite lenZ_cons. pose proof (lenZ_nonneg n). lia.
Qed.

Lemma clean_created t i id row next : clean t -> (i < length (logfs_files t))%nat -> clean (created t i id row next).
Proof.
  intros Hc Hi j f. cbn [created logfs_files logfs_file_names]. destruct (decide (j = i)) as [->|Hne].
  - rewrite list_lookup_insert_eq by done. by intros [= <-].
  - rewrite !list_lookup_insert_ne by done. apply Hc.
Qed.

Lemma clean_extended t i f size off : clean t -> live t i f -> clean (extended t i f size off).
Proof.
  intros Hc [Hi Hu] j g. cbn [extended logfs_files logfs_file_names]. destruct (decide (j = i)) as [->|Hne].
  - rewrite list_lookup_insert_eq by (by eapply lookup_lt_Some). by intros [= <-].
  - rewrite list_lookup_insert_ne by done. apply Hc.
Qed.

Lemma created_row t i n hi :
  tables_ok t hi -> (i < 16)%nat -> no_nul n -> valid_name n = true ->
  let row := named_row t i (n ++ [0]) (lenZ n + 1) in lenZ row = LOGFS_NAME_MAX /\ cval row = Some n.
Proof.
  intros Hok Hi Hnn Hv. pose proof (valid_name_length n Hv).
  destruct (name_file_spec t i (n ++ [0]) n (lenZ n + 1) 0 0 (to_files _ _ Hok) (to_names _ _ Hok) (to_rows _ _ Hok))
    as (? & ? & _); try done;
    first [by apply cval_app|rewrite lenZ_app; change (lenZ [0]) with 1; lia|unfold LOGFS_NAME_MAX; lia].
Qed.

(** What holds of every recorded table. *)
Lemma recorded_facts data start e t :
  0 <= start -> recorded data start e t -> start <= e /\ clean t /\ ids_fresh t /\ tables_ok t e.
Proof.
  intros Hs. induction 1 as [|e t i n id Hrec (He & Hcl & Hfr & Hok) Hfree Hnn Hv Hslot Hid Hidb Hd
    |e t i f bytes Hrec (He & Hcl & Hfr & Hok) Hl Hb Hc Hd].
  - split; [done|]. split; [|split; [|apply empty_tables_ok]].
    + intros i f [-> Hi]%lookup_replicate _. split; [done|]. apply lookup_replicate. split; [done|]. exact Hi.
    + split; [done|]. by intros i f [[-> Hi]%lookup_replicate Hu].
  - pose proof (valid_name_length n Hv) as Hn. pose proof (record_size_bounds (lenZ n + 1) ltac:(lia)) as [Hr _].
    destruct (free_slot_Some t i Hfree) as (f0 & Hi & Hu). pose proof (slot_lt t e i f0 Hok Hi) as Hi16.
    split; [lia|]. split; [by apply clean_created; [|eapply lookup_lt_Some]|].
    assert (Hidf : forall k f, live t k f -> file_id f <> id) by (intros k f Hk; destruct (proj2 Hfr k f Hk); lia).
    destruct (created_row t i n e Hok Hi16 Hnn Hv) as [Hrow Hrn]. split.
    + split; [cbn [created logfs_next_file_id]; destruct Hfr; lia|].
      intros j g [[-> ->]|[_ Hg]]%(created_live t e i f0 _ _ _ _ _ Hok Hi Hu); cbn [created logfs_next_file_id file_id].
      * destruct Hfr. lia.
      * destruct (proj2 Hfr j g Hg). lia.
    + apply (tables_ok_mono _ e); [lia|]. by apply (created_ok t e i f0 id _ n).
  - pose proof (record_size_bounds (lenZ bytes) ltac:(lia)) as [Hr _]. pose proof (live_size t e i f Hok Hl).
    split; [lia|]. split; [by apply clean_extended|]. split.
    + destruct Hfr as [? Hfr]. split; [done|]. intros j g [[-> ->]|[_ Hg]]%(extended_live _ _ _ _ _ Hl); [by apply (Hfr i f)|by apply (Hfr j g)].
    + apply (extended_ok t e); try done; lia.
Qed.

(** ** Replaying a record that is there *)

Section replay.
Context {X : Type} `{DiskDriver X} (local_header : mem) (local_len : lenZ local_header = LOGFS_HEADER_SIZE).
Implicit Types (s : logfs X) (d : block_device X).

(** What [logfs_replay_record] does to the tables for a record of this header
    and payload at offset [e]. *)
Definition replay_tables (h : logfs_record_header) (buffer : mem) (e : Z) (t : tables) : option (Z * tables) :=
  if h_type h =? LOGFS_RECORD_TYPE_CREATE then logfs_replay_create h buffer t
  else if h_type h =? LOGFS_RECORD_TYPE_APPEND then logfs_replay_append h (e + 32) t
  else Some (-1, t).

Definition record_ok (h : logfs_record_header) (payload : mem) : Prop :=
  header_ok h /\ h_magic h = LOGFS_RECORD_MAGIC /\ h_checksum h = 0 /\
  h_payload_size h = lenZ payload /\ lenZ payload <= 480.

Lemma record_sum_total h payload : exists c, record_sum h payload = Some c /\ 0 <= c < 2 ^ 32.
Proof using Type.
  unfold record_sum. destruct (checksum_total 0 (header_bytes (set_h_checksum 0 h)) LOGFS_HEADER_SIZE) as (c1 & -> & ?); [lia|done|].
  cbn [mbind option_bind]. apply checksum_total; [done|]. pose proof (lenZ_nonneg payload). lia.
Qed.

Lemma sealed_ok h payload : header_ok h -> header_ok (sealed h payload).
Proof using Type.
  intros Hh. unfold sealed. destruct (record_sum_total h payload) as (c & -> & Hc). cbn [default].
  unfold header_ok in *. repeat (apply Forall_cons in Hh as [? Hh]). repeat (constructor; [done || (simpl; lia)|]). constructor.
Qed.

(** Header and payload, back from the bytes of the record. *)
Lemma record_read d e h payload :
  record_ok h payload -> 0 <= e ->
  slice (dev_data d) (Z.to_nat e) (Z.to_nat (record_size (lenZ payload))) = record_bytes h payload ->
  header_at d e = sealed h payload /\ slice (dev_data d) (Z.to_nat (e + 32)) (Z.to_nat (lenZ payload)) = payload.
Proof using Type.
  intros (Hh & _ & _ & _ & H480) He Hd. pose proof (lenZ_nonneg payload).
  pose proof (record_size_bounds (lenZ payload) ltac:(lia)) as [Hr1 Hr2].
  assert (Hpart : forall i n, (i + n <= Z.to_nat (record_size (lenZ payload)))%nat ->
    slice (dev_data d) (Z.to_nat e + i) n = slice (record_bytes h payload) i n).
  { intros i n Hin. rewrite <- Hd. by rewrite slice_slice. }
  split.
  - unfold header_at. pose proof (Hpart 0%nat 32%nat ltac:(lia)) as Hp. rewrite Nat.add_0_r in Hp. rewrite Hp.
    unfold record_bytes, slice. rewrite drop_0. change 32%nat with (Z.to_nat (lenZ (header_bytes (sealed h payload)))).
    rewrite take_lenZ_app. rewrite <- (app_nil_r (header_bytes _)). apply header_of_bytes. by apply sealed_ok.
  - replace (Z.to_nat (e + 32)) with (Z.to_nat e + 32)%nat by lia. rewrite Hpart by lia.
    unfold record_bytes, slice. change 32%nat with (length (header_bytes (sealed h payload))).
    rewrite drop_app_length. apply take_lenZ_app.
Qed.

Lemma replay_outcome (f : tables -> option (Z * tables)) e' s :
  (status <- on_tables f;;
   if negb (status =? 0) then ret (-1) else modify (set_logfs_log_end e');; ret 0) s =
  match f (logfs_tables s) with
  | Some (status, t') =>
      if negb (status =? 0) then Ret (-1) (set_logfs_tables t' s) []
      else Ret 0 (set_logfs_log_end e' (set_logfs_tables t' s)) []
  | None => Undef
  end.
Proof using Type.
  destruct (f (logfs_tables s)) as [[st t']|] eqn:Hf.
  - assert (Hon : on_tables f s = Ret st (set_logfs_tables t' s) []) by (unfold on_tables; krun; by rewrite Hf).
    rewrite (bind_Ret_nil _ _ _ _ _ Hon). destruct (negb (st =? 0)); by krun.
  - assert (Hon : on_tables f s = Undef) by (unfold on_tables; krun; by rewrite Hf). unfold bind at 1. by rewrite Hon.
Qed.

(** The checksum of such a record is right, so the outcome of the replay is
    that on the tables. *)
Lemma replay_checked_sealed s h payload rest e :
  record_ok h payload -> logfs_record_buffer s = payload ++ rest -> 0 <= e -> e + 1024 < 2 ^ 64 ->
  replay_checked (sealed h payload) e (record_size (lenZ payload)) s =
    match replay_tables h (payload ++ rest) e (logfs_tables s) with
    | Some (status, t') =>
        if negb (status =? 0) then Ret (-1) (set_logfs_tables t' s) []
        else Ret 0 (set_logfs_log_end (e + record_size (lenZ payload)) (set_logfs_tables t' s)) []
    | None => Undef
    end.
Proof using Type.
  intros (Hh & _ & Hc & Hps & H480) Hbuf He Heb. pose proof (lenZ_nonneg payload).
  pose proof (record_size_bounds (lenZ payload) ltac:(lia)) as [Hr1 Hr2].
  assert (Hset : set_h_checksum 0 (sealed h payload) = h) by (destruct h; simpl in *; by rewrite Hc).
  destruct (record_sum_total h payload) as (c & Hsum & Hcb).
  assert (Hseal : h_checksum (sealed h payload) = c) by (unfold sealed; by rewrite Hsum).
  unfold replay_checked. krun. rewrite Hbuf, Hset. unfold record_sum in Hsum.
  assert (Hset0 : set_h_checksum 0 h = h) by (destruct h; simpl in *; by rewrite Hc). rewrite Hset0 in Hsum.
  destruct (logfs_checksum_bytes 0 (header_bytes h) LOGFS_HEADER_SIZE) as [c1|]; [|done]. cbn [mbind option_bind] in Hsum.
  rewrite (bind_deref_Some _ _ _ _ eq_refl). change (h_payload_size (sealed h payload)) with (h_payload_size h).
  rewrite Hps, checksum_prefix, Hsum, (bind_deref_Some _ _ _ _ eq_refl), Hseal, Z.eqb_refl by lia. cbn [negb]. cbn zeta.
  unfold LOGFS_HEADER_SIZE. rewrite !u64_small by lia. unfold replay_tables.
  destruct (h_type h =? LOGFS_RECORD_TYPE_CREATE); [|destruct (h_type h =? LOGFS_RECORD_TYPE_APPEND)].
  - apply replay_outcome.
  - apply replay_outcome.
  - krun. change (negb (-1 =? 0)) with true. cbn iota. by destruct s.
Qed.

Lemma replay_one s p d h payload :
  log_state s p d -> record_ok h payload -> let e := logfs_log_end s in
  e + record_size (lenZ payload) <= log_limit s ->
  slice (dev_data d) (Z.to_nat e) (Z.to_nat (record_size (lenZ payload))) = record_bytes h payload ->
  exists s1 rest, lenZ (payload ++ rest) = 512 /\ log_state s1 p d /\ same_device s s1 /\
    logfs_tables s1 = logfs_tables s /\ logfs_log_end s1 = e /\
    logfs_replay_record local_header e s =
      match replay_tables h (payload ++ rest) e (logfs_tables s) with
      | Some (status, t') =>
          if negb (status =? 0) then Ret (-1) (set_logfs_tables t' s1) []
          else Ret 0 (set_logfs_log_end (e + record_size (lenZ payload)) (set_logfs_tables t' s1)) []
      | None => Undef
      end.
Proof using local_len.
  intros Hls Hrk e Hfit Hd. pose proof Hls as [_ (_ & Hdev & _) _ Hrec Hlimit Hend Hok]. fold e in Hend.
  destruct (disk_device_geometry d Hdev) as (_ & _ & Hcap & _). pose proof (lenZ_nonneg payload).
  pose proof Hrk as (Hh & Hm & Hc & Hps & H480). pose proof (record_size_bounds (lenZ payload) ltac:(lia)) as [Hr1 Hr2].
  destruct (record_read d e h payload Hrk) as [Hhd Hpay]; [lia|done|].
  destruct (logfs_replay_record_read local_header local_len s p d e Hls) as (buf & Hb & He);
    [lia|unfold LOGFS_HEADER_SIZE; lia|]. cbn zeta in He. rewrite Hhd in He.
  change (h_payload_size (sealed h payload)) with (h_payload_size h) in He.
  change (h_magic (sealed h payload)) with (h_magic h) in He. rewrite Hm, Hps, Hpay, Z.eqb_refl in He.
  rewrite record_size_align in He by lia. change (LOGFS_RECORD_MAGIC =? 0) with false in He. cbn [negb orb] in He.
  assert (Hfits : header_fits s (sealed h payload) e = true).
  { unfold header_fits. change (h_payload_size (sealed h payload)) with (h_payload_size h). rewrite Hps, record_size_align by lia.
    change (LOGFS_IO_BUFFER_SIZE - LOGFS_HEADER_SIZE) with 480. unfold LOGFS_HEADER_SIZE. rewrite u64_small by lia.
    rewrite !(proj2 (Z.ltb_ge _ _)) by lia. done. }
  rewrite Hfits in He. cbn [negb] in He. set (rest := drop (length payload) (logfs_record_buffer s)).
  unfold LOGFS_IO_BUFFER_SIZE in Hrec.
  assert (Hrl : lenZ (payload ++ rest) = 512).
  { unfold rest. rewrite lenZ_app. unfold lenZ in *. rewrite length_drop. lia. }
  rewrite splice_0 in He. fold rest in He. set (s1 := set_logfs_record_buffer (payload ++ rest) (rebuf buf s)) in *.
  exists s1, rest. split; [done|]. split; [apply log_state_record_buffer; [by apply log_state_rebuf|done]|].
  split; [done|]. split; [done|]. split; [done|]. rewrite He.
  apply (replay_checked_sealed s1 h payload rest e Hrk); [done|lia|lia].
Qed.

(** The two kinds of record that are written. *)
Lemma create_record_ok id n :
  valid_name n = true -> 0 <= id < 2 ^ 32 ->
  record_ok (new_header LOGFS_RECORD_TYPE_CREATE id (lenZ n + 1) 0 0 (lenZ n)) (n ++ [0]).
Proof using Type.
  intros Hv Hid. pose proof (valid_name_length n Hv). unfold record_ok. rewrite lenZ_app. change (lenZ [0]) with 1.
  split_and!; try done; try lia. repeat (constructor; [simpl; unfold LOGFS_RECORD_MAGIC, LOGFS_RECORD_TYPE_CREATE; lia|]). constructor.
Qed.

Lemma append_record_ok t hi i f bytes :
  tables_ok t hi -> live t i f -> 0 <= file_id f < 2 ^ 32 -> 0 < lenZ bytes <= 480 ->
  record_ok (new_header LOGFS_RECORD_TYPE_APPEND (file_id f) (lenZ bytes) (info_size f) (u32 (info_size f + lenZ bytes)) 0) bytes.
Proof using Type.
  intros Hok Hl Hid Hb. pose proof (live_size t hi i f Hok Hl). destruct (to_live _ _ Hok i f Hl) as (_ & _ & Hsz & _).
  rewrite u32_small by lia. split_and!; try done; try lia.
  repeat (constructor; [simpl; unfold LOGFS_RECORD_MAGIC, LOGFS_RECORD_TYPE_APPEND; lia|]). constructor.
Qed.

Lemma replay_create_outcome t hi i n id rest e :
  tables_ok t hi -> ids_fresh t -> free_slot t = Some i -> no_nul n -> valid_name n = true -> slot_of t n = None ->
  logfs_next_file_id t <= id -> id + 1 < 2 ^ 32 -> lenZ ((n ++ [0]) ++ rest) = 512 ->
  replay_tables (new_header LOGFS_RECORD_TYPE_CREATE id (lenZ n + 1) 0 0 (lenZ n)) ((n ++ [0]) ++ rest) e t =
    Some (0, created t i id (named_row t i (n ++ [0]) (lenZ n + 1)) (id + 1)).
Proof using Type.
  intros Hok [Hn0 Hfr] Hfree Hnn Hv Hslot Hid Hidb Hl. pose proof (valid_name_length n Hv) as Hlen.
  unfold replay_tables. cbn [new_header h_type]. rewrite Z.eqb_refl. set (h := new_header _ _ _ _ _ _).
  rewrite <- app_assoc in *. cbn [app] in *.
  destruct (logfs_replay_create_spec h (n ++ 0 :: rest) t hi n Hok) as (by_id & Hby & -> & _); simpl; try done.
  - unfold lenZ. rewrite Nat2Z.id, lookup_app_r, Nat.sub_diag by lia. done.
  - by apply cval_app.
  - assert (by_id = None) as ->.
    { destruct (logfs_find_file_id_spec t hi (h_file_id h) Hok) as [(k & f & _ & Hk & Hf)|[He _]]; [|congruence].
      simpl in Hf. destruct (Hfr k f Hk). lia. }
    rewrite Hv, Hslot, Hfree. unfold replay_next. rewrite (proj2 (Z.leb_le _ id)) by done. rewrite u32_small by lia.
    do 2 f_equal. f_equal. unfold named_row. f_equal. unfold lenZ.
    replace (Z.to_nat (Z.of_nat (length n) + 1)) with (length n + 1)%nat by lia.
    rewrite !take_app_add. done.
Qed.

Lemma replay_append_outcome t hi i f bytes rest e :
  tables_ok t hi -> live t i f -> 0 < lenZ bytes <= 480 ->
  replay_tables (new_header LOGFS_RECORD_TYPE_APPEND (file_id f) (lenZ bytes) (info_size f) (u32 (info_size f + lenZ bytes)) 0)
      (bytes ++ rest) e t =
    if logfs_segment_count t <? LOGFS_MAX_SEGMENTS then Some (0, extended t i f (lenZ bytes) (e + 32)) else Some (-1, t).
Proof using Type.
  intros Hok Hl Hb. pose proof (live_size t hi i f Hok Hl). destruct (to_live _ _ Hok i f Hl) as (_ & _ & Hsz & _).
  unfold replay_tables. cbn [new_header h_type]. change (LOGFS_RECORD_TYPE_APPEND =? LOGFS_RECORD_TYPE_CREATE) with false.
  rewrite Z.eqb_refl. rewrite (logfs_replay_append_spec _ (e + 32) t hi i f Hok Hl); simpl; try done.
  rewrite u32_small by lia. done.
Qed.

(** The loop that starts in [s] comes to offset [e] with tables [t], after at
    most one turn for every 32 bytes. *)
Definition reached s (p : nat) d (e : Z) (t : tables) : Prop :=
  exists k s1, 32 * Z.of_nat k <= e - logfs_log_end s /\ log_state s1 p d /\ same_device s s1 /\
    logfs_log_end s1 = e /\ logfs_tables s1 = t /\
    forall fuel, logfs_mount_loop local_header (k + S fuel) (logfs_log_end s) s = logfs_mount_loop local_header (S fuel) e s1.

Lemma reached_step s p d e t h payload t1 :
  reached s p d e t -> record_ok h payload -> e + record_size (lenZ payload) <= log_limit s ->
  slice (dev_data d) (Z.to_nat e) (Z.to_nat (record_size (lenZ payload))) = record_bytes h payload ->
  (forall rest, lenZ (payload ++ rest) = 512 -> replay_tables h (payload ++ rest) e t = Some (0, t1)) ->
  tables_ok t1 (e + record_size (lenZ payload)) -> reached s p d (e + record_size (lenZ payload)) t1.
Proof using local_len.
  intros (k & s1 & Hk & Hls1 & Hsame & Hend1 & Ht & Hloop) Hrk Hfit Hd Htab Hok1.
  pose proof Hls1 as [_ (_ & Hdev & _) _ _ Hlimit Hend _]. destruct (disk_device_geometry d Hdev) as (_ & _ & Hcap & _).
  assert (Hlim1 : log_limit s1 = log_limit s) by (unfold log_limit; by destruct Hsame as (_ & -> & _)).
  destruct (replay_one s1 p d h payload Hls1 Hrk) as (s2 & rest & Hrl & Hls2 & Hsame2 & Ht2 & Hend2 & He); [by rewrite Hend1, Hlim1|by rewrite Hend1|].
  rewrite Hend1, Ht, (Htab rest Hrl) in He. change (negb (0 =? 0)) with false in He. cbn iota in He.
  pose proof Hrk as (_ & _ & _ & _ & H480). pose proof (lenZ_nonneg payload).
  pose proof (record_size_bounds (lenZ payload) ltac:(lia)) as [Hr1 Hr2].
  set (s' := set_logfs_log_end _ _) in He. exists (S k), s'. split; [lia|].
  split. { destruct Hls2. split; try done; simpl; [lia|]. rewrite Z.min_l by lia. done. }
  split. { apply (same_device_trans s s1); [done|]. by apply (same_device_trans s1 s2). }
  split; [done|]. split; [done|]. intros fuel. replace (S k + S fuel)%nat with (k + S (S fuel))%nat by lia.
  rewrite Hloop. cbn [logfs_mount_loop]. krun. rewrite Hlim1. unfold LOGFS_HEADER_SIZE. rewrite u64_small by lia.
  rewrite (proj2 (Z.ltb_ge (log_limit s) (e + 32))) by lia. rewrite (bind_Ret_nil _ _ _ _ _ He).
  change (0 <? 0) with false. cbn iota. krun. done.
Qed.

(** Replaying a recorded log reaches its tables. *)
Lemma replay_recorded s p d e t :
  log_state s p d -> logfs_tables s = empty_tables ->
  recorded (dev_data d) (logfs_log_end s) e t -> e <= log_limit s -> reached s p d e t.
Proof using local_len.
  intros Hls Ht Hrec. assert (H0 : 0 <= logfs_log_end s) by (destruct Hls; lia).
  induction Hrec as [|e t i n id Hrec IH Hfree Hnn Hv Hslot Hid Hidb Hd|e t i f bytes Hrec IH Hl Hb Hc Hd]; intros Hlim.
  - exists 0%nat, s. split; [lia|]. done.
  - pose proof (valid_name_length n Hv). pose proof (record_size_bounds (lenZ n + 1) ltac:(lia)) as [Hr _].
    destruct (recorded_facts _ _ _ _ H0 Hrec) as (_ & _ & Hfr & Hok).
    assert (Hln : lenZ (n ++ [0]) = lenZ n + 1) by (by rewrite lenZ_app).
    pose proof (recorded_create _ _ _ _ _ _ _ Hrec Hfree Hnn Hv Hslot Hid Hidb Hd) as Hrec'.
    apply (recorded_facts _ _ _ _ H0) in Hrec' as (_ & _ & _ & Hok').
    assert (Hidr : 0 <= id < 2 ^ 32) by (destruct Hfr; lia).
    pose proof (IH ltac:(lia)) as IH'. pose proof (create_record_ok id n Hv Hidr) as Hrk. rewrite <- Hln in Hd, Hlim, Hok' |- *.
    apply (reached_step s p d e t _ (n ++ [0]) _ IH' Hrk Hlim Hd); [|exact Hok'].
    intros rest Hrest. rewrite Hln. by apply (replay_create_outcome t e).
  - pose proof (record_size_bounds (lenZ bytes) ltac:(lia)) as [Hr _].
    destruct (recorded_facts _ _ _ _ H0 Hrec) as (_ & _ & Hfr & Hok).
    pose proof (recorded_append _ _ _ _ _ _ _ Hrec Hl Hb Hc Hd) as Hrec'.
    apply (recorded_facts _ _ _ _ H0) in Hrec' as (_ & _ & _ & Hok').
    assert (Hidr : 0 <= file_id f < 2 ^ 32) by (destruct Hfr as [? Hfr]; destruct (Hfr i f Hl); lia).
    apply (reached_step s p d e t _ bytes _ (IH ltac:(lia)) (append_record_ok t e i f bytes Hok Hl Hidr Hb) Hlim Hd); [|exact Hok'].
    intros rest Hrest. rewrite (replay_append_outcome t e i f bytes rest e Hok Hl Hb).
    by rewrite (proj2 (Z.ltb_lt _ _) Hc).
Qed.

End replay.

(** ** Mounting a recorded log *)

(** The log of [d] holds the records of [t] up to [e]. *)
Record log_image {X} `{DiskDriver X} (d : block_device X) (e : Z) (t : tables) : Prop := {
  li_formatted : formatted d = true;
  li_start : 20 <= sb_log_offset (slice (dev_data d) 0 20);
  li_log : recorded (dev_data d) (sb_log_offset (slice (dev_data d) 0 20)) e t;
  li_fit : e <= sb_block_count (slice (dev_data d) 0 20) * sb_block_size (slice (dev_data d) 0 20)
}.

(** From [e] to the end of the log the disk is blank. *)
Definition blank {X} `{DiskDriver X} (d : block_device X) (e : Z) : Prop :=
  forall i, e <= Z.of_nat i ->
    Z.of_nat i < sb_block_count (slice (dev_data d) 0 20) * sb_block_size (slice (dev_data d) 0 20) ->
    dev_data d !! i = Some 0.

Section remount.
Context {X : Type} `{DiskDriver X} (local_header : mem) (local_len : lenZ local_header = LOGFS_HEADER_SIZE).
Implicit Types (s : logfs X) (d : block_device X).

(** The replay stops at [e], where the tables are [t]. *)
Definition stops (p : nat) d (e : Z) (t : tables) : Prop :=
  forall s fuel, log_state s p d -> logfs_superblock s = slice (dev_data d) 0 20 -> logfs_log_end s = e ->
    logfs_tables s = t ->
    exists s' o, logfs_mount_loop local_header (S fuel) e s = Ret tt s' o /\ log_state s' p d /\ same_device s s' /\
      logfs_log_end s' = e /\ logfs_tables s' = t.

Lemma limit_of_image d e t s :
  log_image d e t -> logfs_superblock s = slice (dev_data d) 0 20 ->
  log_limit s = sb_block_count (slice (dev_data d) 0 20) * sb_block_size (slice (dev_data d) 0 20).
Proof using Type.
  intros Hi Hsb. unfold log_limit. rewrite Hsb. apply u64_small.
  pose proof (le32_bound (slice (dev_data d) 0 20) 12). pose proof (le32_bound (slice (dev_data d) 0 20) 8).
  unfold sb_block_count, sb_block_size. nia.
Qed.

Lemma blank_stops p d e t : disk_device d -> 0 <= e -> log_image d e t -> blank d e -> stops p d e t.
Proof using local_len.
  intros Hdev He Hi Hbl s fuel Hls Hsb Hend Ht. pose proof Hls as [_ _ _ _ Hlim Hend0 _].
  destruct (disk_device_geometry d Hdev) as (_ & _ & Hcap & _).
  pose proof (limit_of_image d e t s Hi Hsb) as Hlimit. cbn [logfs_mount_loop]. krun. unfold LOGFS_HEADER_SIZE at 1.
  rewrite u64_small by lia. destruct (Z.ltb_spec (log_limit s) (e + 32)) as [|Hroom]; [by exists s, []|].
  destruct (logfs_replay_record_read local_header local_len s p d e Hls He) as (buf & Hb & Hr); [done|]. cbn zeta in Hr.
  assert (Hz : slice (dev_data d) (Z.to_nat e) 32 = replicate 32 0).
  { apply (list_eq_same_length _ _ 32); [done| |].
    - apply length_slice. pose proof (capacity_data d Hdev). unfold lenZ in *. lia.
    - intros i x y Hi32. unfold slice. rewrite lookup_take_lt, lookup_drop by done. rewrite Hbl by lia.
      intros [= <-] [-> _]%lookup_replicate. done. }
  unfold header_at in Hr. rewrite Hz in Hr. change (h_magic (header_of (replicate 32 0)) =? 0) with true in Hr. cbn iota in Hr.
  rewrite (bind_Ret_nil _ _ _ _ _ Hr). change (0 <? 1) with true. cbn iota. exists (rebuf buf s), [].
  split; [done|]. split; [by apply log_state_rebuf|]. done.
Qed.

(** Mounting a disk with a recorded log gives its tables. *)
Lemma mount_image s p d e t :
  disk_at (logfs_bio s) p d -> lenZ (logfs_block_buffer s) = LOGFS_IO_BUFFER_SIZE ->
  lenZ (logfs_record_buffer s) = LOGFS_IO_BUFFER_SIZE -> log_image d e t -> stops p d e t ->
  exists s' o, logfs_mount local_header (Some p) s = Ret 0 s' o /\ log_mounted s' p d /\
    logfs_tables s' = t /\ logfs_log_end s' = e /\ logfs_superblock s' = slice (dev_data d) 0 20.
Proof using local_len.
  intros Hat Hbb Hrec Hi Hstop. pose proof Hat as (_ & Hdev & _). pose proof Hdev as [_ _ _ _ _ (nm & Hn & Hcv)].
  pose proof Hi as [Hf Hst Hlog Hfit].
  destruct (logfs_mount_start local_header s p d Hat Hbb Hrec) as (buf & Hb & He). rewrite Hf in He.
  pose proof Hf as [_ Hsb]%andb_true_iff. pose proof (replay_start_state s p d buf Hat Hbb Hrec Hb Hsb) as Hls.
  set (s0 := replay_start s p d buf) in *. pose proof (limit_of_image d e t s0 Hi eq_refl) as Hlim.
  destruct (replay_recorded local_header local_len s0 p d e t Hls eq_refl Hlog) as (k & s1 & Hk & Hls1 & Hsame & Hend1 & Ht1 & Hloop); [lia|].
  assert (Hsb1 : logfs_superblock s1 = slice (dev_data d) 0 20) by (by destruct Hsame as (_ & -> & _)).
  assert (Hfuel : exists fuel, Z.to_nat (log_limit s0 / LOGFS_HEADER_SIZE + 1) = (k + S fuel)%nat).
  { unfold LOGFS_HEADER_SIZE. assert (Z.of_nat k <= log_limit s0 / 32).
    { apply Z.div_le_lower_bound; [lia|]. change (logfs_log_end s0) with (sb_log_offset (slice (dev_data d) 0 20)) in Hk. lia. }
    exists (Z.to_nat (log_limit s0 / 32) - k)%nat. lia. }
  destruct Hfuel as [fuel Hfuel]. destruct (Hstop s1 fuel Hls1 Hsb1 Hend1 Ht1) as (s2 & o & Hl2 & Hls2 & Hsame2 & Hend2 & Ht2).
  rewrite <- Hloop, <- Hfuel in Hl2. rewrite Hn in He.
  destruct (mount_replay_done local_header _ s0 p d _ nm s2 o eq_refl Hcv Hl2 Hls2) as (o' & Ho & Hm).
  rewrite He. exists (set_logfs_ready 1 s2), o'. split; [done|]. split; [done|]. split; [done|]. split; [done|].
  simpl. by destruct Hsame2 as (_ & -> & _).
Qed.

End remount.

(** ** Changes are recorded *)

Lemma recorded_same data data' start e t :
  0 <= start -> recorded data start e t -> take (Z.to_nat e) data' = take (Z.to_nat e) data -> recorded data' start e t.
Proof.
  intros Hs Hrec. assert (Hpart : forall a n b, 0 <= a -> take (Z.to_nat (a + n)) data' = take (Z.to_nat (a + n)) data ->
    0 <= n -> slice data (Z.to_nat a) (Z.to_nat n) = b -> slice data' (Z.to_nat a) (Z.to_nat n) = b).
  { intros a n b Ha Htk Hn <-. unfold slice. rewrite !take_drop_commute, <- Z2Nat.inj_add by done. by rewrite Htk. }
  assert (Hsub : forall a n, 0 <= n -> 0 <= a -> take (Z.to_nat (a + n)) data' = take (Z.to_nat (a + n)) data ->
    take (Z.to_nat a) data' = take (Z.to_nat a) data).
  { intros a n Hn Ha Htk. apply (f_equal (take (Z.to_nat a))) in Htk. rewrite !take_take in Htk.
    by replace (Z.to_nat a `min` Z.to_nat (a + n))%nat with (Z.to_nat a) in Htk by lia. }
  induction Hrec as [|e t i n id Hrec IH Hfree Hnn Hv|e t i f bytes Hrec IH Hl Hb]; intros Htk; [constructor| |];
    destruct (recorded_facts _ _ _ _ Hs Hrec) as (He & _).
  - pose proof (valid_name_length n Hv). pose proof (record_size_bounds (lenZ n + 1) ltac:(lia)) as [Hr _].
    apply recorded_create; try done; [apply IH; eapply Hsub; [| |exact Htk]; lia|apply Hpart; try done; lia].
  - pose proof (record_size_bounds (lenZ bytes) ltac:(lia)) as [Hr _].
    apply recorded_append; try done; [apply IH; eapply Hsub; [| |exact Htk]; lia|apply Hpart; try done; lia].
Qed.

Lemma tables_ok_next t hi next : tables_ok t hi -> tables_ok (set_logfs_next_file_id next t) hi.
Proof. intros []. by split. Qed.

Section saved.
Context {X : Type} `{DiskDriver X}.
Implicit Types (s : logfs X) (d : block_device X).

(** The log holds everything the tables of a running file system say, except
    that identifiers may have been used up by failed creations. *)
Record saved s d : Prop := {
  sv_superblock : logfs_superblock s = slice (dev_data d) 0 20;
  sv_log : exists t, log_image d (logfs_log_end s) t /\ logfs_next_file_id t <= logfs_next_file_id (logfs_tables s) /\
    logfs_tables s = set_logfs_next_file_id (logfs_next_file_id (logfs_tables s)) t;
  sv_blank : blank d (logfs_log_end s)
}.

(** A record written behind the log leaves what is recorded. *)
Lemma appended_image s p d r s' d' t :
  appended s p d r s' d' -> disk_device d -> logfs_superblock s = slice (dev_data d) 0 20 ->
  log_image d (logfs_log_end s) t -> blank d (logfs_log_end s) -> log_limit s <= capacity d ->
  let e := logfs_log_end s in
  slice (dev_data d') 0 20 = slice (dev_data d) 0 20 /\ formatted d' = true /\
  recorded (dev_data d') (sb_log_offset (slice (dev_data d) 0 20)) e t /\
  slice (dev_data d') (Z.to_nat e) (length r) = r /\ blank d' (e + lenZ r).
Proof using Type.
  intros [Hls' _ _ _ Hend Hfit Hsame Hdata] Hdev Hsb Hi Hbl Hcap e. fold e in Hend, Hfit, Hdata, Hi, Hbl.
  pose proof Hi as [Hf Hst Hlog Hlim].
  pose proof (le32_bound (slice (dev_data d) 0 20) 16) as Hoff. fold (sb_log_offset (slice (dev_data d) 0 20)) in Hoff.
  destruct (recorded_facts _ _ _ _ (proj1 Hoff) Hlog) as (He & _). pose proof (capacity_data d Hdev) as Hlen.
  rewrite (limit_of_image d _ t s Hi Hsb) in Hfit, Hcap.
  assert (Hin : (Z.to_nat e + length r <= length (dev_data d))%nat) by (unfold lenZ in *; lia).
  assert (Hsl : slice (dev_data d') 0 20 = slice (dev_data d) 0 20) by (rewrite Hdata; apply slice_splice_lt; lia).
  split; [done|]. split; [|split; [|split]].
  - unfold formatted in *. rewrite Hsl, (same_disk_capacity _ _ Hsame). unfold superblock_ok in *.
    destruct Hsame as (_ & -> & -> & _). done.
  - apply (recorded_same (dev_data d)); [lia|done|]. rewrite Hdata.
    change (take (Z.to_nat e) ?l) with (slice l 0 (Z.to_nat e)). by apply slice_splice_lt.
  - rewrite Hdata. by apply slice_splice_same.
  - intros i Hi1 Hi2. rewrite Hsl in Hi2. rewrite Hdata, lookup_splice_ge by (unfold lenZ in *; lia). apply Hbl; unfold lenZ in *; lia.
Qed.

(** The facts about the tables of a saved state. *)
Lemma saved_tables s p d :
  log_state s p d -> saved s d -> logfs_next_file_id (logfs_tables s) < 2 ^ 32 ->
  clean (logfs_tables s) /\ ids_fresh (logfs_tables s) /\ 20 <= logfs_log_end s.
Proof using Type.
  intros Hls [Hsb (t & Hi & Hnext & Ht) Hbl] Hn. pose proof Hi as [_ Hst Hlog _].
  destruct (recorded_facts _ _ _ _ (Z.le_trans 0 20 _ ltac:(done) Hst) Hlog) as (He & Hcl & [Hn0 Hfr] & _).
  rewrite Ht. split; [done|]. split; [|lia]. split; [cbn [logfs_next_file_id set_logfs_next_file_id]; lia|].
  intros i f Hl. destruct (Hfr i f Hl). cbn [logfs_next_file_id set_logfs_next_file_id]. lia.
Qed.

(** Writing the record of a change keeps the log complete. *)
Lemma saved_appended s0 s p d r s' d' t1 :
  appended s p d r s' d' -> disk_device d -> log_limit s <= capacity d -> saved s0 d ->
  logfs_superblock s = logfs_superblock s0 -> logfs_log_end s = logfs_log_end s0 ->
  (forall t, recorded (dev_data d') (sb_log_offset (slice (dev_data d) 0 20)) (logfs_log_end s) t ->
     logfs_tables s0 = set_logfs_next_file_id (logfs_next_file_id (logfs_tables s0)) t ->
     logfs_next_file_id t <= logfs_next_file_id (logfs_tables s0) ->
     slice (dev_data d') (Z.to_nat (logfs_log_end s)) (length r) = r ->
     exists t2, recorded (dev_data d') (sb_log_offset (slice (dev_data d) 0 20)) (logfs_log_end s + lenZ r) t2 /\
       logfs_next_file_id t2 <= logfs_next_file_id t1 /\ t1 = set_logfs_next_file_id (logfs_next_file_id t1) t2) ->
  saved (set_logfs_tables t1 s') d'.
Proof using Type.
  intros Hap Hdev Hcap [Hsb (t & Hi & Hnext & Ht) Hbl] Hsb0 Hend0 Hrec. rewrite <- Hsb0 in Hsb. rewrite <- Hend0 in Hi, Hbl.
  destruct (appended_image s p d r s' d' t Hap Hdev Hsb Hi Hbl Hcap) as (Hsl & Hf & Hlog & Hr & Hbl').
  pose proof Hap as [_ _ _ Hsb' Hend' Hfit _ _]. rewrite (limit_of_image d _ t s Hi Hsb) in Hfit.
  destruct (Hrec t Hlog Ht Hnext Hr) as (t2 & Hlog2 & Hn2 & Ht2). pose proof Hi as [_ Hst _ _].
  split; cbn [set_logfs_tables logfs_superblock logfs_log_end logfs_tables].
  - by rewrite Hsb', Hsl.
  - exists t2. split; [|done]. rewrite Hend'. split; rewrite ?Hsl; done.
  - by rewrite Hend'.
Qed.

Lemma saved_create s p d nm n :
  log_mounted s p d -> saved s d -> cval nm = Some n -> lenZ n < 2 ^ 32 ->
  logfs_next_file_id (logfs_tables s) + 1 < 2 ^ 32 ->
  exists r s' d', logfs_create (Some nm) s = Ret r s' [] /\ saved s' d' /\ log_mounted s' p d' /\ same_disk d d' /\
    logfs_next_file_id (logfs_tables s') <= logfs_next_file_id (logfs_tables s) + 1 /\
    logfs_segment_count (logfs_tables s') = logfs_segment_count (logfs_tables s).
Proof using Type.
  intros Hm Hsv Hn Hl Hnext. pose proof Hm as [Hls _]. pose proof Hls as [_ (Hat & Hdev & _) _ _ Hlim _ Hok].
  destruct (saved_tables s p d Hls Hsv) as (Hcl & Hfr & _); [lia|]. pose proof Hfr as [Hn0 _].
  pose proof (logfs_create_ok s p d nm n Hm Hn Hl Hfr) as Hc. cbn zeta in Hc. pose proof Hn as [Hnn _]%cval_inv.
  set (id := logfs_next_file_id (logfs_tables s)) in *.
  destruct (can_create s n) eqn:Hcan.
  - destruct Hc as (i & s' & d' & Hfree & Hrow & Hrn & He & Hap). exists 0, s', d'. split; [done|].
    unfold can_create in Hcan. destruct (valid_name n) eqn:Hv; [|done]. destruct (slot_of (logfs_tables s) n) eqn:Hslot; [done|].
    pose proof Hap as [Hls' Ht' Hr' _ _ _ Hsame _]. cbn [logfs_tables set_logfs_tables logfs_ready] in Ht', Hr'.
    split; [|split; [split; [done|by rewrite Hr'; destruct Hm]|split; [done|]]].
    + replace s' with (set_logfs_tables (logfs_tables s') s') by (by destruct s'). rewrite Ht'.
      apply (saved_appended s _ p d _ s' d' _ Hap Hdev (proj2 Hlim) Hsv eq_refl eq_refl). fold id.
      intros t Hrec Htt Hnt Hsl. exists (created t i id (named_row t i (n ++ [0]) (lenZ n + 1)) (id + 1)).
      pose proof (valid_name_length n Hv) as Hvl. cbn [logfs_log_end set_logfs_tables] in *.
      assert (Hcl1 : lenZ (create_record id n) = record_size (lenZ n + 1)).
      { unfold create_record. assert (Hn1 : lenZ (n ++ [0]) = lenZ n + 1) by (by rewrite lenZ_app).
        rewrite lenZ_record_bytes; rewrite Hn1; [done|lia]. }
      rewrite Hcl1. rewrite u32_small by lia. split; [|split].
      * rewrite Htt in Hfree, Hslot. apply recorded_create; try done. rewrite <- Hcl1. unfold lenZ. by rewrite Nat2Z.id.
      * cbn [created logfs_next_file_id]. lia.
      * rewrite Htt. done.
    + rewrite Ht'. cbn [created logfs_next_file_id logfs_segment_count]. rewrite u32_small by lia. split; [lia|done].
  - destruct Hc as (s' & He & Hm' & Hdevs & Hend & _ & Hsb & Htab). exists (-1), s', d. split; [done|].
    assert (Htt : exists next, id <= next <= id + 1 /\ logfs_tables s' = set_logfs_next_file_id next (logfs_tables s)).
    { destruct Htab as [->|(i & Hfree & ->)]; [exists id; split; [lia|by destruct (logfs_tables s)]|].
      destruct (free_slot_Some _ i Hfree) as (f0 & Hi & Hu). destruct (Hcl i f0 Hi Hu) as [-> Hrow].
      exists (id + 1). split; [lia|]. unfold cleared, set_logfs_next_file_id. fold id. rewrite u32_small by lia.
      by rewrite (list_insert_id _ _ _ Hi), (list_insert_id _ _ _ Hrow). }
    destruct Htt as (next & Hnx & Htt). destruct Hsv as [Hsb0 (t & Hi & Hnt & Ht) Hbl]. fold id in Hnt, Ht. rewrite Htt.
    split; [|split; [done|split; [by apply same_disk_refl|split; [cbn; lia|done]]]].
    split; rewrite ?Hsb, ?Hend, ?Htt; try done. exists t. split; [done|].
    cbn [logfs_next_file_id set_logfs_next_file_id]. split; [lia|]. by rewrite Ht.
Qed.

Lemma logfs_append_missing s p d nm n bytes size :
  log_mounted s p d -> cval nm = Some n -> slot_of (logfs_tables s) n = None -> 0 < size ->
  logfs_append nm (Some bytes) size s = Ret (-1) s [].
Proof using Type.
  intros [Hls Hrdy] Hn Hslot Hsz. pose proof Hls as [_ _ _ _ _ _ Hok]. unfold logfs_append. krun. rewrite Hrdy.
  change (1 =? 0) with false. rewrite (proj2 (Z.eqb_neq size 0)) by lia. cbn [orb]. krun.
  by rewrite (bind_deref_Some _ _ _ _ (logfs_find_file_state_spec _ _ _ _ Hok Hn)), Hslot.
Qed.

Lemma saved_append s p d nm n bytes size :
  log_mounted s p d -> saved s d -> cval nm = Some n -> 0 < size < 2 ^ 31 -> size <= lenZ bytes ->
  logfs_segment_count (logfs_tables s) < LOGFS_MAX_SEGMENTS -> logfs_next_file_id (logfs_tables s) < 2 ^ 32 ->
  exists r s' d', logfs_append nm (Some bytes) size s = Ret r s' [] /\ saved s' d' /\ log_mounted s' p d' /\ same_disk d d' /\
    logfs_next_file_id (logfs_tables s') = logfs_next_file_id (logfs_tables s) /\
    logfs_segment_count (logfs_tables s') <= logfs_segment_count (logfs_tables s) + 1.
Proof using Type.
  intros Hm Hsv Hn Hsz Hsb Hc Hnext. pose proof Hm as [Hls Hrdy]. pose proof Hls as [_ (Hat & Hdev & _) _ _ Hlim _ Hok].
  destruct (saved_tables s p d Hls Hsv Hnext) as (_ & [_ Hfr] & Hend20).
  destruct (slot_of (logfs_tables s) n) as [[i f]|] eqn:Hslot.
  2:{ exists (-1), s, d. split_and!; try done; [apply (logfs_append_missing _ p d _ n); done || lia|lia]. }
  pose proof Hslot as [Hl _]%slot_of_Some. pose proof (live_size _ _ _ _ Hok Hl).
  pose proof (logfs_append_ok s p d nm n bytes size i f Hm Hn Hslot ltac:(lia) Hsb ltac:(lia)) as Happ. cbn zeta in Happ.
  set (data := take (Z.to_nat size) bytes) in *.
  assert (Hdl : lenZ data = size) by (unfold data, lenZ in *; rewrite length_take; lia).
  destruct (record_fits s size) eqn:Hfits.
  2:{ destruct Happ as (buf & Hbuf & He). exists (-1), (set_logfs_record_buffer buf s), d. split; [done|].
      split; [by destruct Hsv|]. split; [split; [by apply log_state_record_buffer|done]|].
      split; [by apply same_disk_refl|]. split; [done|]. cbn [logfs_tables set_logfs_record_buffer]. lia. }
  destruct Happ as (s' & d' & Hap & Hres). rewrite (proj2 (Z.ltb_lt _ _) Hc) in Hres.
  unfold record_fits in Hfits. apply andb_true_iff in Hfits as [H480%Z.leb_le _].
  set (t' := extended (logfs_tables s) i f size (logfs_log_end s + 32)) in *.
  pose proof Hap as [Hls' Ht' Hr' _ Hend' Hfit Hsame _]. pose proof (same_disk_capacity _ _ Hsame) as Hcap'.
  pose proof (append_record_length f data) as Hrl. rewrite Hdl in Hrl. specialize (Hrl H480).
  pose proof (record_size_bounds size ltac:(lia)) as [Hr1 Hr2].
  exists 0, (set_logfs_tables t' s'), d'. split; [done|]. split; [|split; [split; [|by rewrite <- Hrdy, <- Hr']|split; [done|]]].
  - apply (saved_appended s s p d _ s' d' t' Hap Hdev (proj2 Hlim) Hsv eq_refl eq_refl).
    intros t Hrec Htt Hnt Hsl. exists (extended t i f size (logfs_log_end s + 32)). split; [|split; [done|]].
    + rewrite Hrl. rewrite <- Hdl. apply recorded_append; [done|by rewrite Htt in Hl|lia|by rewrite Htt in Hc|].
      rewrite Hdl, <- Hrl. unfold lenZ at 1. by rewrite Nat2Z.id.
    + unfold t'. rewrite Htt. done.
  - apply log_state_tables; [done|].
    apply (extended_ok _ (Z.min (logfs_log_end s) (capacity d))); try done; rewrite ?Hcap'; lia.
  - split; [done|]. cbn [logfs_tables set_logfs_tables t' extended logfs_segment_count]. lia.
Qed.

End saved.

(** ** Durability *)

(** A client's change of the file system, as it is called. *)
Inductive log_op : Type := OpCreate (n : list Z) | OpAppend (n data : list Z).

Section durable.
Context {X : Type} `{DiskDriver X} (local_header : mem) (local_len : lenZ local_header = LOGFS_HEADER_SIZE).
Implicit Types (s : logfs X) (d : block_device X).

Definition run_op (op : log_op) : M (logfs X) Z :=
  match op with
  | OpCreate n => logfs_create (Some (n ++ [0]))
  | OpAppend n data => logfs_append (n ++ [0]) (Some data) (lenZ data)
  end.
Fixpoint run_ops (ops : list log_op) : M (logfs X) (list Z) :=
  match ops with
  | [] => ret []
  | op :: ops' => r <- run_op op;; rs <- run_ops ops';; ret (r :: rs)
  end.

(** What an operation with result [r] means for the files. *)
Definition op_effect (op : log_op) (r : Z) (fs : list Z -> option (list Z)) : list Z -> option (list Z) := fun m =>
  if negb (r =? 0) then fs m
  else match op with
       | OpCreate n => if decide (m = n) then Some [] else fs m
       | OpAppend n data => if decide (m = n) then old ← fs n; Some (old ++ data) else fs m
       end.
Fixpoint ops_effect (ops : list log_op) (rs : list Z) (fs : list Z -> option (list Z)) : list Z -> option (list Z) :=
  match ops, rs with
  | op :: ops', r :: rs' => ops_effect ops' rs' (op_effect op r fs)
  | _, _ => fs
  end.

Definition op_ok (op : log_op) : Prop :=
  match op with
  | OpCreate n => no_nul n /\ lenZ n < 2 ^ 32
  | OpAppend n data => no_nul n /\ 0 < lenZ data < 2 ^ 31
  end.

(** Whether an operation succeeds: a name that can be created, or a file with
    room for the record. *)
Definition op_succeeds s (op : log_op) : bool :=
  match op with
  | OpCreate n => can_create s n
  | OpAppend n data =>
      bool_decide (is_Some (slot_of (logfs_tables s) n)) && record_fits s (lenZ data) &&
      (logfs_segment_count (logfs_tables s) <? LOGFS_MAX_SEGMENTS)
  end.

(** The results of a run are 0 for the operations that succeed, and -1 for the
    others. *)
Fixpoint results_of (ops : list log_op) (rs : list Z) s : Prop :=
  match ops, rs with
  | [], [] => True
  | op :: ops', r :: rs' =>
      r = (if op_succeeds s op then 0 else -1) /\ forall s' o, run_op op s = Ret r s' o -> results_of ops' rs' s'
  | _, _ => False
  end.

Definition saved_mounted s p d : Prop := log_mounted s p d /\ saved s d.

(** There is room for [k] more changes: segments and identifiers. *)
Definition room s (k : Z) : Prop :=
  logfs_segment_count (logfs_tables s) + k <= LOGFS_MAX_SEGMENTS /\ logfs_next_file_id (logfs_tables s) + k < 2 ^ 32.

Lemma op_effect_ext op r fs fs' : (forall m, fs' m = fs m) -> forall m, op_effect op r fs' m = op_effect op r fs m.
Proof using Type. intros He m. unfold op_effect. rewrite He. destruct op; by rewrite ?He. Qed.

Lemma ops_effect_ext ops rs fs fs' : (forall m, fs' m = fs m) -> forall m, ops_effect ops rs fs' m = ops_effect ops rs fs m.
Proof using Type.
  revert rs fs fs'. induction ops as [|op ops IH]; intros [|r rs] fs fs' He m; cbn [ops_effect]; try done.
  apply IH. by apply op_effect_ext.
Qed.

Lemma log_mounted_disk s p d d' : log_mounted s p d -> log_mounted s p d' -> d' = d.
Proof using Type. intros [[_ (Hd & _) _ _ _ _ _] _] [[_ (Hd' & _) _ _ _ _ _] _]. congruence. Qed.

Lemma run_op_saved op s p d :
  saved_mounted s p d -> op_ok op -> room s 1 ->
  exists r s' d', run_op op s = Ret r s' [] /\ saved_mounted s' p d' /\ same_disk d d' /\
    (forall k, room s (1 + k) -> room s' k) /\ r = (if op_succeeds s op then 0 else -1) /\ forall m, log_bytes s' d' m = op_effect op r (log_bytes s d) m.
Proof using Type.
  intros [Hm Hsv] Hop [Hseg Hnext]. pose proof Hm as [Hls _].
  destruct (saved_tables s p d Hls Hsv) as (_ & Hfr & _); [lia|]. destruct op as [n|n data]; cbn [run_op op_ok op_succeeds] in *.
  - destruct Hop as [Hn Hl]. assert (Hcv : cval (n ++ [0]) = Some n) by (by apply cval_app).
    destruct (saved_create s p d _ n Hm Hsv Hcv Hl Hnext) as (r & s' & d' & He & Hsv' & Hm' & Hsame & Hnx & Hsc).
    destruct (logfs_create_effect s p d _ n Hm Hcv Hl Hfr Hnext) as (s2 & d2 & He2 & Hm2 & _ & _ & Hb).
    rewrite He in He2. injection He2 as Hr <-. rewrite (log_mounted_disk _ _ _ _ Hm' Hm2) in Hb.
    exists r, s', d'. split; [done|]. split; [done|]. split; [done|]. split; [unfold room; rewrite Hsc; lia|].
    split; [done|]. intros m. rewrite Hb, Hr. unfold op_effect. destruct (can_create s n); simpl.
    + destruct (decide (m = n)); [by rewrite decide_True|by rewrite decide_False by (by intros [? _])].
    + by rewrite decide_False by (by intros [_ ?]).
  - destruct Hop as [Hn Hl]. assert (Hcv : cval (n ++ [0]) = Some n) by (by apply cval_app).
    destruct (saved_append s p d _ n data (lenZ data) Hm Hsv Hcv Hl) as (r & s' & d' & He & Hsv' & Hm' & Hsame & Hnx & Hsc); [lia|lia|lia|].
    exists r, s', d'. split; [done|]. split; [done|]. split; [done|]. split; [unfold room; lia|].
    destruct (log_bytes s d n) as [old|] eqn:Hold.
    + assert (Hslot : is_Some (slot_of (logfs_tables s) n)).
      { unfold log_bytes, bytes_of in Hold. by destruct (slot_of (logfs_tables s) n). }
      rewrite bool_decide_true by done. cbn [andb]. destruct (logfs_append_effect s p d _ n old data (lenZ data) Hm Hcv Hold Hl) as (s2 & d2 & He2 & Hm2 & _ & _ & Hb); [lia|].
      rewrite He in He2. injection He2 as Hr <-. rewrite (log_mounted_disk _ _ _ _ Hm' Hm2) in Hb.
      assert (Htk : take (Z.to_nat (lenZ data)) data = data) by (unfold lenZ; rewrite Nat2Z.id; apply firstn_all).
      split; [done|]. intros m. rewrite Hb, Hr, Htk. unfold op_effect.
      destruct (record_fits s (lenZ data) && (logfs_segment_count (logfs_tables s) <? LOGFS_MAX_SEGMENTS)); simpl.
      * destruct (decide (m = n)) as [->|]; [by rewrite decide_True, Hold|by rewrite decide_False by (by intros [? _])].
      * by rewrite decide_False by (by intros [_ ?]).
    + assert (Hslot : slot_of (logfs_tables s) n = None).
      { unfold log_bytes, bytes_of in Hold. by destruct (slot_of (logfs_tables s) n) as [[i f]|]. }
      rewrite (logfs_append_missing s p d _ n data (lenZ data) Hm Hcv Hslot) in He by lia. injection He as <- <-.
      rewrite bool_decide_false by (rewrite Hslot; by intros [??]). split; [done|].
      by rewrite (log_mounted_disk _ _ _ _ Hm Hm').
Qed.

Lemma run_ops_saved ops : forall s p d,
  saved_mounted s p d -> Forall op_ok ops -> room s (lenZ ops) ->
  exists rs s' d', run_ops ops s = Ret rs s' [] /\ saved_mounted s' p d' /\ same_disk d d' /\ room s' 0 /\
    results_of ops rs s /\ forall m, log_bytes s' d' m = ops_effect ops rs (log_bytes s d) m.
Proof using Type.
  induction ops as [|op ops IH]; intros s p d Hm Hok Hroom.
  - exists [], s, d. split; [done|]. split; [done|]. split; [|by split]. apply same_disk_refl.
    by destruct Hm as [[[_ (_ & Hdev & _) _ _ _ _ _] _] _].
  - apply Forall_cons in Hok as [Hop Hok]. rewrite lenZ_cons in Hroom. pose proof (lenZ_nonneg ops).
    destruct (run_op_saved op s p d Hm Hop) as (r & s1 & d1 & He & Hm1 & Hsame & Hr1 & Hr & Hb); [unfold room in *; lia|].
    destruct (IH s1 p d1 Hm1 Hok) as (rs & s2 & d2 & He2 & Hm2 & Hsame2 & Hr2 & Hrs & Hb2); [apply Hr1; by rewrite Z.add_comm in Hroom|].
    exists (r :: rs), s2, d2. split; [cbn [run_ops]; by rewrite (bind_Ret_nil _ _ _ _ _ He), (bind_Ret_nil _ _ _ _ _ He2)|].
    split; [done|]. split; [by apply (same_disk_trans _ d1)|]. split; [done|].
    split; [split; [done|]; intros s3 o He3; rewrite He in He3; by injection He3 as <- _|].
    intros m. rewrite Hb2. cbn [ops_effect]. by apply ops_effect_ext.
Qed.

(** A saved file system comes back when its disk is mounted, by whatever
    state the mounting machine was in. *)
Lemma remount_saved s s0 p d :
  saved_mounted s p d -> logfs_next_file_id (logfs_tables s) < 2 ^ 32 ->
  disk_at (logfs_bio s0) p d -> lenZ (logfs_block_buffer s0) = LOGFS_IO_BUFFER_SIZE ->
  lenZ (logfs_record_buffer s0) = LOGFS_IO_BUFFER_SIZE ->
  exists s' o, logfs_mount local_header (Some p) s0 = Ret 0 s' o /\ saved_mounted s' p d /\
    forall m, log_bytes s' d m = log_bytes s d m.
Proof using local_len.
  intros [Hm Hsv] Hnext Hat Hbb Hrec. pose proof Hm as [Hls _]. pose proof Hat as (_ & Hdev & _).
  destruct (saved_tables s p d Hls Hsv Hnext) as (_ & _ & H20). destruct Hsv as [Hsb (t & Hi & Hnt & Ht) Hbl].
  destruct (mount_image local_header local_len s0 p d _ t Hat Hbb Hrec Hi) as (s' & o & He & Hm' & Ht' & Hend' & Hsb').
  { apply blank_stops; done || lia. }
  exists s', o. split; [done|]. split.
  - split; [done|]. split; [done| |by rewrite Hend'].
    exists t. rewrite Hend', Ht'. split; [done|]. split; [done|]. by destruct t.
  - intros m. unfold log_bytes. by rewrite Ht', Ht.
Qed.

(** C1. In any run of creations and appends that does not use up the segment
    table each operation succeeds exactly when the name can be created or the
    record fits, and has its effect; the disk of the state the run ends in, in
    whatever state the machine that mounts it then is, brings back every file
    with its bytes. *)
Theorem logfs_durable s p d ops :
  saved_mounted s p d -> Forall op_ok ops -> room s (lenZ ops) ->
  exists rs s' d', run_ops ops s = Ret rs s' [] /\ logfs_devs s' !! p = Some d' /\ results_of ops rs s /\
    (forall m, log_bytes s' d' m = ops_effect ops rs (log_bytes s d) m) /\
    forall s0, logfs_devs s0 !! p = logfs_devs s' !! p -> lenZ (logfs_block_buffer s0) = LOGFS_IO_BUFFER_SIZE ->
      lenZ (logfs_record_buffer s0) = LOGFS_IO_BUFFER_SIZE ->
      exists s2 o, logfs_mount local_header (Some p) s0 = Ret 0 s2 o /\ saved_mounted s2 p d' /\
        forall m, log_bytes s2 d' m = ops_effect ops rs (log_bytes s d) m.
Proof using local_len.
  intros Hm Hok Hroom.
  destruct (run_ops_saved ops s p d Hm Hok Hroom) as (rs & s' & d' & He & Hm' & Hsame & [_ Hr] & Hrs & Hb).
  pose proof Hm' as [[[_ (Hd & Hdev & _) Hbs _ _ _ _] _] _]. change (logfs_devs s' !! p = Some d') in Hd.
  exists rs, s', d'. split_and!; [done..|]. intros s0 Hs0 Hbb Hrec.
  destruct (remount_saved s' s0 p d' Hm') as (s2 & o & Hmount & Hm2 & Hb2); try done; [lia| |].
  - split; [by rewrite <- Hd, <- Hs0|]. split; [done|]. cbn [logfs_bio bio_buffer]. by rewrite Hbb.
  - exists s2, o. split; [done|]. split; [done|]. intros m. by rewrite Hb2, Hb.
Qed.

(** A disk with a superblock and a blank log mounts as a saved file system
    without files. *)
Lemma mount_blank s p d :
  disk_at (logfs_bio s) p d -> lenZ (logfs_block_buffer s) = LOGFS_IO_BUFFER_SIZE ->
  lenZ (logfs_record_buffer s) = LOGFS_IO_BUFFER_SIZE -> let off := sb_log_offset (slice (dev_data d) 0 20) in
  log_image d off empty_tables -> blank d off ->
  exists s' o, logfs_mount local_header (Some p) s = Ret 0 s' o /\ saved_mounted s' p d /\
    logfs_tables s' = empty_tables /\ logfs_log_end s' = off /\ logfs_superblock s' = slice (dev_data d) 0 20.
Proof using local_len.
  intros Hat Hbb Hrec off Hi Hbl. pose proof Hat as (_ & Hdev & _). pose proof Hi as [_ Hst _ _].
  destruct (mount_image local_header local_len s p d off empty_tables Hat Hbb Hrec Hi) as (s' & o & He & Hm & Ht & Hend & Hsb).
  { apply blank_stops; done || (unfold off; lia). }
  exists s', o. split; [done|]. split; [|done]. split; [done|]. split; [done| |by rewrite Hend].
  exists empty_tables. by rewrite Hend, Ht.
Qed.

(** *** The full segment table *)

(** An append record that is replayed into a full segment table ends the
    replay. *)
Lemma full_stops p d e t i f bytes :
  log_image d e t -> tables_ok t e -> live t i f -> 0 <= file_id f < 2 ^ 32 -> 0 < lenZ bytes <= 480 ->
  LOGFS_MAX_SEGMENTS <= logfs_segment_count t ->
  e + record_size (lenZ bytes) <= sb_block_count (slice (dev_data d) 0 20) * sb_block_size (slice (dev_data d) 0 20) ->
  slice (dev_data d) (Z.to_nat e) (Z.to_nat (record_size (lenZ bytes))) = append_record f bytes ->
  stops local_header p d e t.
Proof using local_len.
  intros Hi Hok Hl Hid Hb Hc Hfit Hd s fuel Hls Hsb Hend Ht. pose proof Hls as [_ (_ & Hdev & _) _ _ Hlim Hend0 _].
  destruct (disk_device_geometry d Hdev) as (_ & _ & Hcap & _). pose proof (record_size_bounds (lenZ bytes) ltac:(lia)) as [Hr _].
  pose proof (limit_of_image d e t s Hi Hsb) as Hlimit. rewrite <- Hlimit in Hfit.
  destruct (replay_one local_header local_len s p d _ bytes Hls (append_record_ok t e i f bytes Hok Hl Hid Hb))
    as (s1 & rest & Hrl & Hls1 & Hsame & Ht1 & Hend1 & He); [by rewrite Hend|by rewrite Hend|].
  rewrite Hend, Ht in He. rewrite (replay_append_outcome t e i f bytes rest e Hok Hl Hb), (proj2 (Z.ltb_ge _ _) Hc) in He.
  change (negb (-1 =? 0)) with true in He. cbn iota in He. set (s2 := set_logfs_tables t s1) in He.
  assert (Hs2 : s2 = s1) by (unfold s2; rewrite <- Ht, <- Ht1; by destruct s1). rewrite Hs2 in He. clear s2 Hs2.
  cbn [logfs_mount_loop]. krun. unfold LOGFS_HEADER_SIZE at 1. rewrite u64_small by lia.
  rewrite (proj2 (Z.ltb_ge (log_limit s) (e + 32))) by lia. rewrite (bind_Ret_nil _ _ _ _ _ He).
  change (0 <? -1) with false. change (-1 <? 0) with true. cbn iota.
  destruct (kprintf_total (nl "[INFO] logfs: stopped replay at offset %u") [ch "u"] [AUint (u32 e)] s1) as [o Ho];
    [done|kargs; apply u32_bound|]. exists s1, o. rewrite Hend in Hend1. rewrite Ht in Ht1. by split_and!.
Qed.

Lemma bytes_same_prefix t hi (data data' : list Z) m :
  tables_ok t hi -> 0 <= hi -> hi <= lenZ data -> lenZ data' = lenZ data ->
  take (Z.to_nat hi) data' = take (Z.to_nat hi) data -> bytes_of data' t m = bytes_of data t m.
Proof using Type.
  clear local_len. intros Hok Hhi Hlen Hlen' Htk. rewrite <- (take_drop (Z.to_nat hi) data'), Htk.
  assert (Hsp : take (Z.to_nat hi) data ++ drop (Z.to_nat hi) data' = splice data (Z.to_nat hi) (drop (Z.to_nat hi) data')).
  { unfold splice. rewrite length_drop, (drop_ge data) by (unfold lenZ in *; lia). by rewrite app_nil_r. }
  rewrite Hsp. apply (bytes_splice _ _ hi); try done; try lia. unfold lenZ in *. rewrite length_drop. lia.
Qed.

(** C39. Appending with a full segment table fails, but leaves its record in the
    log; from then on nothing that is recorded survives: whatever is written
    behind that record, mounting the disk again gives only the files as they
    were before it. *)
Theorem logfs_append_full_table s p d n bytes old :
  saved_mounted s p d -> logfs_next_file_id (logfs_tables s) < 2 ^ 32 -> no_nul n -> log_bytes s d n = Some old ->
  0 < lenZ bytes -> record_fits s (lenZ bytes) = true -> logfs_segment_count (logfs_tables s) = LOGFS_MAX_SEGMENTS ->
  exists s' d', logfs_append (n ++ [0]) (Some bytes) (lenZ bytes) s = Ret (-1) s' [] /\
    log_mounted s' p d' /\ logfs_log_end s' = logfs_log_end s + record_size (lenZ bytes) /\
    forall d2 s0, same_disk d' d2 -> 
      take (Z.to_nat (logfs_log_end s')) (dev_data d2) = take (Z.to_nat (logfs_log_end s')) (dev_data d') ->
      disk_at (logfs_bio s0) p d2 -> lenZ (logfs_block_buffer s0) = LOGFS_IO_BUFFER_SIZE ->
      lenZ (logfs_record_buffer s0) = LOGFS_IO_BUFFER_SIZE ->
      exists s2 o, logfs_mount local_header (Some p) s0 = Ret 0 s2 o /\ log_mounted s2 p d2 /\
        forall m, log_bytes s2 d2 m = log_bytes s d m.
Proof using local_len.
  intros [Hm Hsv] Hnext Hn Hold Hpos Hfits Hc. pose proof Hm as [Hls Hrdy].
  pose proof Hls as [_ (_ & Hdev & _) _ _ Hlim Hend Hok]. destruct (disk_device_geometry d Hdev) as (_ & _ & Hcap & Hlen).
  assert (Hcv : cval (n ++ [0]) = Some n) by (by apply cval_app).
  unfold log_bytes, bytes_of in Hold. destruct (slot_of (logfs_tables s) n) as [[i f]|] eqn:Hslot; [clear Hold|done].
  pose proof Hslot as [Hl _]%slot_of_Some. pose proof (live_size _ _ _ _ Hok Hl).
  pose proof Hfits as [H480%Z.leb_le _]%andb_true_iff. pose proof (record_size_bounds (lenZ bytes) ltac:(lia)) as [Hr _].
  pose proof (logfs_append_ok s p d _ n bytes (lenZ bytes) i f Hm Hcv Hslot ltac:(lia) ltac:(lia) ltac:(lia)) as Happ.
  cbn zeta in Happ. rewrite Hfits in Happ. destruct Happ as (s' & d' & Hap & He). rewrite Hc in He.
  change (LOGFS_MAX_SEGMENTS <? LOGFS_MAX_SEGMENTS) with false in He. cbn iota in He.
  assert (Htk : take (Z.to_nat (lenZ bytes)) bytes = bytes) by (unfold lenZ; rewrite Nat2Z.id; apply firstn_all). rewrite Htk in Hap.
  pose proof (append_record_length f bytes H480) as Hrl.
  destruct (saved_tables s p d Hls Hsv Hnext) as (_ & [_ Hfr] & H20). destruct Hsv as [Hsb (t & Hi & Hnt & Ht) Hbl].
  destruct (appended_image s p d _ s' d' t Hap Hdev Hsb Hi Hbl (proj2 Hlim)) as (Hsl & Hf & Hlog & Hrec & _).
  pose proof Hap as [Hls' _ Hr' _ Hend' Hfit' Hsame Hdata]. rewrite (limit_of_image d _ t s Hi Hsb) in Hfit', Hlim.
  exists s', d'. split; [done|]. split; [split; [done|by rewrite Hr']|]. split; [by rewrite Hend', Hrl|].
  intros d2 s0 Hsame2 Hpre Hat Hbb Hrb. set (e := logfs_log_end s) in *. rewrite Hend', Hrl in Hpre. rewrite Hrl in Hfit'.
  pose proof (same_disk_capacity _ _ Hsame) as Hc1. pose proof (same_disk_capacity _ _ Hsame2) as Hc2.
  assert (Hsub : forall a b, (a + b <= Z.to_nat (e + record_size (lenZ bytes)))%nat -> slice (dev_data d2) a b = slice (dev_data d') a b).
  { intros a b Hab. apply (f_equal (fun l => slice l a b)) in Hpre.
    change (take ?k ?l) with (slice l 0 k) in Hpre. rewrite !slice_slice in Hpre by done. done. }
  assert (Hsl2 : slice (dev_data d2) 0 20 = slice (dev_data d) 0 20) by (rewrite Hsub by lia; done).
  pose proof Hi as [_ Hst Hlog0 _].
  assert (Htk2 : take (Z.to_nat e) (dev_data d2) = take (Z.to_nat e) (dev_data d)).
  { change (take ?k ?l) with (slice l 0 k). rewrite Hsub by lia. rewrite Hdata. apply slice_splice_lt; [lia|unfold lenZ in *; lia]. }
  assert (Hi2 : log_image d2 e t).
  { split; rewrite ?Hsl2; try done; [|apply (recorded_same (dev_data d)); [lia|done|done]|lia].
    unfold formatted in *. rewrite Hsl2, Hc2. rewrite Hsl in Hf. unfold superblock_ok in *. 
    destruct Hsame2 as (_ & -> & -> & _). done. }
  assert (Hokt : tables_ok t e) by (apply (recorded_facts _ _ _ _ (Z.le_trans 0 20 _ ltac:(done) Hst) Hlog0)).
  assert (Hlt : live t i f) by (by rewrite Ht in Hl).
  destruct (mount_image local_header local_len s0 p d2 e t Hat Hbb Hrb Hi2) as (s2 & o & Hmount & Hm2 & Ht2 & Hend2 & _).
  { apply (full_stops p d2 e t i f bytes); rewrite ?Hsl2; try done.
    - destruct (Hfr i f Hl). lia.
    - rewrite Ht in Hc. cbn [logfs_segment_count set_logfs_next_file_id] in Hc. lia.
    - rewrite Hsub by lia. rewrite <- Hrl. unfold lenZ at 1. by rewrite Nat2Z.id. }
  exists s2, o. split; [done|]. split; [done|]. intros m. unfold log_bytes. rewrite Ht2, Ht.
  change (bytes_of (dev_data d) (set_logfs_next_file_id _ t) m) with (bytes_of (dev_data d) t m).
  destruct Hsame2 as (Hdev2 & _). apply (bytes_same_prefix t e); try done; try lia.
  by rewrite !capacity_data, Hc2, Hc1 by done.
Qed.

End durable.
