(* ===== verification/LogSample.v ===== *)
(** The theorems about the append-only file system at concrete disks. *)
From S2P Require Import Prelude LibString Klog BlockDevice BlockIO ListDisk LogFS LogTables LogDisk LogWrite LogMount LogRemount.

(** A disk of [count] blocks of 64 bytes with a blank log from byte 64 on. *)
Definition log_sample_image (count : Z) : mem :=
  bytes32 LOGFS_MAGIC ++ bytes32 1 ++ bytes32 64 ++ bytes32 count ++ bytes32 64 ++ replicate (Z.to_nat (64 * count - 20)) 0.
Definition log_sample_device (count : Z) : block_device list_disk :=
  list_device "d" (ListDisk 64 count (log_sample_image count)).
Definition log_header0 : mem := replicate 32 0.

Definition log_unmounted (count : Z) : logfs list_disk :=
  Logfs [log_sample_device count] None (replicate 20 0) empty_tables 0 0 (replicate 512 0) (replicate 512 0).
Definition after {S A} (r : res S A) (s : S) : S := match r with Ret _ s' _ => s' | Panic _ s' _ => s' | Undef => s end.
Definition log_mounted_sample (count : Z) : logfs list_disk :=
  after (logfs_mount log_header0 (Some 0%nat) (log_unmounted count)) (log_unmounted count).

Lemma log_sample_bytes count : 1 <= count < 2 ^ 20 -> lenZ (log_sample_image count) = 64 * count.
Proof.
  intros Hc. unfold log_sample_image. rewrite !lenZ_app. unfold lenZ at 6. rewrite length_replicate.
  change (lenZ (bytes32 _)) with 4. lia.
Qed.

Lemma log_sample_disk count buf : 1 <= count < 2 ^ 20 -> 64 <= lenZ buf ->
  disk_at (Bio [log_sample_device count] buf) 0 (log_sample_device count).
Proof.
  intros Hc Hb. apply (list_device_at "d" (ListDisk 64 count (log_sample_image count))); [|by eexists|done].
  unfold list_disk_ok. cbn [ld_bs ld_count ld_data]. rewrite log_sample_bytes by done. lia.
Qed.

Lemma log_sample_superblock count : 
  slice (dev_data (log_sample_device count)) 0 20 = bytes32 LOGFS_MAGIC ++ bytes32 1 ++ bytes32 64 ++ bytes32 count ++ bytes32 64.
Proof. reflexivity. Qed.

Lemma log_sample_mounted count : 1 <= count < 2 ^ 20 -> 
  exists o, logfs_mount log_header0 (Some 0%nat) (log_unmounted count) = Ret 0 (log_mounted_sample count) o /\
    saved_mounted (log_mounted_sample count) 0 (log_sample_device count) /\
    logfs_tables (log_mounted_sample count) = empty_tables /\ logfs_log_end (log_mounted_sample count) = 64 /\
    log_limit (log_mounted_sample count) = 64 * count.
Proof.
  intros Hc. pose proof (log_sample_superblock count) as Hsb. set (sb := slice _ _ _) in Hsb.
  assert (Hcount : sb_block_count sb = count).
  { unfold sb_block_count. transitivity (u32 count); [|apply u32_small; lia]. rewrite Hsb. 
    exact (le32_bytes32 count). }
  assert (Hrest : sb_block_size sb = 64 /\ sb_log_offset sb = 64) by (rewrite Hsb; split; reflexivity).
  destruct Hrest as [Hbs Hoff]. pose proof (log_sample_bytes count Hc) as Hlen.
  assert (Hi : log_image (log_sample_device count) (sb_log_offset sb) empty_tables).
  { split; fold sb; rewrite ?Hcount, ?Hbs, ?Hoff; try lia; [|constructor].
    unfold formatted. fold sb. unfold superblock_ok. rewrite Hcount, Hbs, Hoff.
    unfold capacity. cbn [log_sample_device list_device block_size block_count ld_bs ld_count].
    rewrite (proj2 (Z.leb_le 20 _)), (proj2 (Z.ltb_ge count count)) by lia. rewrite Hsb. reflexivity. }
  destruct (mount_blank log_header0 eq_refl (log_unmounted count) 0 (log_sample_device count)) as (s' & o & He & Hm & Ht & Hend & Hsb');
    try done; [by apply log_sample_disk| |].
  - fold sb. rewrite Hoff. intros i H1 H2. fold sb in H2. rewrite Hcount, Hbs in H2.
    unfold dev_data. cbn [log_sample_device list_device driver_data disk_data list_disk_driver ld_data]. unfold log_sample_image.
    rewrite !app_assoc, lookup_app_r by (cbn; lia). apply lookup_replicate. split; [done|]. cbn. lia.
  - unfold log_mounted_sample. rewrite He. cbn [after]. exists o. fold sb in Hend, Hsb'. split; [done|]. split; [done|].
    split; [done|]. split; [by rewrite Hend|]. unfold log_limit. rewrite Hsb', Hcount, Hbs. rewrite u64_small; lia.
Qed.

(** The 16-block disk after a file was created and written. *)
Definition log_sample_ops : list log_op := [OpCreate (lit "a"); OpAppend (lit "a") (lit "hello")].
Definition log_file_sample : logfs list_disk := after (run_ops log_sample_ops (log_mounted_sample 16)) (log_mounted_sample 16).
Definition log_file_device : block_device list_disk := default (log_sample_device 16) (logfs_devs log_file_sample !! 0%nat).

Lemma log_sample_ops_ok : Forall op_ok log_sample_ops.
Proof. repeat constructor; vm_compute; congruence || done. Qed.

Lemma log_sample_room count k : 1 <= count < 2 ^ 20 -> 0 <= k <= 64 -> room (log_mounted_sample count) k.
Proof.
  intros Hc Hk. destruct (log_sample_mounted count Hc) as (o & _ & _ & Ht & _). unfold room. rewrite Ht. 
  cbn [logfs_segment_count logfs_next_file_id empty_tables]. unfold LOGFS_MAX_SEGMENTS. lia.
Qed.

Lemma log_file_sample_ok :
  saved_mounted log_file_sample 0 log_file_device /\ room log_file_sample 1 /\
  log_bytes log_file_sample log_file_device (lit "a") = Some (lit "hello").
Proof.
  destruct (log_sample_mounted 16) as (o & _ & Hm & _); [lia|].
  destruct (run_ops_saved log_sample_ops _ 0 _ Hm log_sample_ops_ok) as (rs & s' & d' & He & Hm' & _ & _ & _).
  { apply log_sample_room; [lia|vm_compute; split; congruence]. }
  assert (Hs : log_file_sample = s') by (unfold log_file_sample; by rewrite He).
  assert (Hd : log_file_device = d').
  { unfold log_file_device. rewrite Hs. destruct Hm' as [[[_ (Hd & _) _ _ _ _ _] _] _]. simpl in Hd. by rewrite Hd. }
  split; [by rewrite Hs, Hd|]. split; [split; vm_compute; congruence|]. vm_compute. reflexivity.
Qed.

Lemma logfs_read_file_part_spec_witness :
  exists s' b, logfs_read_file_part (cstr "a") 1 (Some (replicate 4 0)) 3 log_file_sample = Ret (3, Some b) s' [] /\
    b = lit "ell" ++ [0].
Proof.
  destruct log_file_sample_ok as ([Hm _] & _ & Hb).
  destruct (logfs_read_file_part_spec log_file_sample 0 log_file_device (cstr "a") (lit "a") 1 (replicate 4 0) 3 Hm eq_refl)
    as (r & b & s' & He & _ & _ & _ & Hd); [lia|lia|vm_compute; congruence|].
  unfold log_window in Hd. rewrite Hb in Hd. destruct Hd as [-> ->]. exists s', (lit "ell" ++ [0]). exact (conj He eq_refl).
Defined.

Lemma logfs_create_spec_witness :
  exists s' d', logfs_create (Some (cstr "b")) log_file_sample = Ret 0 s' [] /\
    log_bytes s' d' (lit "b") = Some [] /\ log_bytes s' d' (lit "a") = Some (lit "hello").
Proof.
  destruct log_file_sample_ok as ([Hm Hsv] & [_ Hroom] & Hb). pose proof Hm as [Hls _].
  destruct (saved_tables _ _ _ Hls Hsv) as (_ & Hfr & _); [lia|].
  destruct (logfs_create_spec log_file_sample 0 log_file_device (cstr "b") (lit "b") Hm eq_refl)
    as (s' & d' & He & _ & _ & _ & Hby); [reflexivity|exact Hfr|lia|].
  assert (Hcan : can_create log_file_sample (lit "b") = true) by (vm_compute; reflexivity). rewrite Hcan in He, Hby.
  exists s', d'. split; [exact He|]. rewrite !Hby, Hb. split; reflexivity.
Defined.

Lemma logfs_append_spec_witness :
  exists s' d', logfs_append (cstr "a") (Some (lit " you")) 4 log_file_sample = Ret 0 s' [] /\
    log_bytes s' d' (lit "a") = Some (lit "hello you").
Proof.
  destruct log_file_sample_ok as ([Hm Hsv] & [_ Hroom] & Hb).
  pose proof (logfs_append_spec log_file_sample 0 log_file_device (cstr "a") (lit "a") (lit "hello") (lit " you") 4 Hm eq_refl Hb) as Hsp.
  destruct Hsp as (s' & d' & He & _ & _ & _ & Hby); [lia|vm_compute; congruence|].
  match goal with H : _ = Ret (if ?c then _ else _) _ _ |- _ => assert (Hok : c = true) by (vm_compute; reflexivity) end.
  rewrite Hok in He, Hby. exists s', d'. split; [exact He|]. rewrite Hby. reflexivity.
Defined.

Lemma logfs_mount_total_witness :
  exists s' o, logfs_mount log_header0 (Some 0%nat) (log_unmounted 16) = Ret 0 s' o /\ log_mounted s' 0 (log_sample_device 16).
Proof.
  destruct (logfs_mount_total log_header0 eq_refl (log_unmounted 16) 0 (log_sample_device 16)) as (s' & o & He & _ & Hr);
    [by apply log_sample_disk|reflexivity|reflexivity|].
  assert (Hf : formatted (log_sample_device 16) = true) by (vm_compute; reflexivity). rewrite Hf in He, Hr.
  exists s', o. split; [exact He|exact Hr].
Defined.

(** The sample run: its disk, mounted by a machine that only has the disk in
    common with it, holds the file. *)
Lemma logfs_durable_witness :
  exists s' d' s2 o, run_ops log_sample_ops (log_mounted_sample 16) = Ret [0; 0] s' [] /\
    logfs_mount log_header0 (Some 0%nat) (set_logfs_devs (logfs_devs s') (log_unmounted 16)) = Ret 0 s2 o /\
    log_bytes s2 d' (lit "a") = Some (lit "hello").
Proof.
  destruct (log_sample_mounted 16) as (o & _ & Hm & _); [lia|].
  destruct (logfs_durable log_header0 eq_refl _ 0 _ log_sample_ops Hm log_sample_ops_ok) as (rs & s' & d' & He & _ & _ & _ & Hmount).
  { apply log_sample_room; [lia|vm_compute; split; congruence]. }
  assert (Hrs : match run_ops log_sample_ops (log_mounted_sample 16) with Ret rs _ _ => rs | _ => [] end = [0; 0])
    by (vm_compute; reflexivity).
  rewrite He in Hrs. subst rs.
  destruct (Hmount (set_logfs_devs (logfs_devs s') (log_unmounted 16)) eq_refl eq_refl eq_refl) as (s2 & o2 & He2 & _ & Hb2).
  exists s', d', s2, o2. split; [exact He|]. split; [exact He2|]. rewrite Hb2. reflexivity.
Defined.

(** A larger disk after 64 appends of one byte. *)
Definition full_sample_ops : list log_op := OpCreate (lit "a") :: replicate 63 (OpAppend (lit "a") (lit "x")).
Definition almost_full_sample : logfs list_disk := after (run_ops full_sample_ops (log_mounted_sample 64)) (log_mounted_sample 64).
Definition full_sample : logfs list_disk := after (logfs_append (cstr "a") (Some (lit "x")) 1 almost_full_sample) almost_full_sample.
Definition full_device : block_device list_disk := default (log_sample_device 64) (logfs_devs full_sample !! 0%nat).

Lemma full_sample_ok :
  saved_mounted full_sample 0 full_device /\ logfs_next_file_id (logfs_tables full_sample) = 2 /\
  logfs_segment_count (logfs_tables full_sample) = 64 /\ record_fits full_sample 1 = true /\
  log_bytes full_sample full_device (lit "a") = Some (replicate 64 120).
Proof.
  destruct (log_sample_mounted 64) as (o & _ & Hm & _); [lia|].
  destruct (run_ops_saved full_sample_ops _ 0 _ Hm) as (rs & s1 & d1 & He & [Hm1 Hsv1] & _ & _ & _ & _).
  { constructor; [vm_compute; split; [repeat constructor; congruence|congruence]|].
    apply Forall_replicate. split; [repeat constructor; vm_compute; congruence|vm_compute; split; congruence]. }
  { apply log_sample_room; [lia|vm_compute; split; congruence]. }
  assert (Hs1 : almost_full_sample = s1) by (unfold almost_full_sample; by rewrite He).
  destruct (saved_append s1 0 d1 (cstr "a") (lit "a") (lit "x") 1 Hm1 Hsv1 eq_refl) as (r & s' & d' & He' & Hsv & Hm' & _ & _ & _);
    [lia|vm_compute; congruence|rewrite <- Hs1; vm_compute; congruence|rewrite <- Hs1; vm_compute; congruence|].
  assert (Hs : full_sample = s') by (unfold full_sample; by rewrite Hs1, He').
  assert (Hd : full_device = d').
  { unfold full_device. rewrite Hs. destruct Hm' as [[_ (Hd & _) _ _ _ _ _] _]. simpl in Hd. by rewrite Hd. }
  split; [split; by rewrite Hs, Hd|]. split; [vm_compute; reflexivity|]. split; [vm_compute; reflexivity|].
  split; vm_compute; reflexivity.
Qed.

Lemma logfs_append_full_table_witness :
  exists s' d', logfs_append (lit "a" ++ [0]) (Some (lit "y")) 1 full_sample = Ret (-1) s' [] /\
    log_mounted s' 0 d' /\ logfs_log_end s' = logfs_log_end full_sample + 40.
Proof.
  destruct full_sample_ok as (Hm & Hn & Hc & Hf & Hb).
  destruct (logfs_append_full_table log_header0 eq_refl full_sample 0 full_device (lit "a") (lit "y") (replicate 64 120) Hm) as (s' & d' & He & Hm' & Hend & _);
    [rewrite Hn; lia|repeat constructor; vm_compute; congruence|exact Hb|vm_compute; congruence|exact Hf|exact Hc|].
  exists s', d'. split; [exact He|]. split; [exact Hm'|exact Hend].
Defined.
