(* ===== verification/Input.v ===== *)
(** The input layer (src/src/input/input.c): the event ring, the source mode, the
    translation of keys to characters and the blocking reader. The serial port
    is the list of bytes it has received; the keyboard driver is an interface
    that promises a list of key events for each poll. *)
From S2P Require Import Prelude LibString.

Definition INPUT_SOURCE_SERIAL : Z := 1.
Definition INPUT_SOURCE_KEYBOARD : Z := 2.
Definition INPUT_EVENT_CHAR : Z := 1.
Definition INPUT_EVENT_KEY : Z := 2.
Definition INPUT_KEY_RELEASE : Z := 0.
Definition INPUT_KEY_PRESS : Z := 1.
Definition INPUT_KEY_REPEAT : Z := 2.
Definition INPUT_KEY_LEFTSHIFT : Z := 42.
Definition INPUT_KEY_RIGHTSHIFT : Z := 54.
Definition INPUT_QUEUE_CAPACITY : Z := 64.
Definition INPUT_MOD_SHIFT : Z := 1.

(** The union of an event: the member that was written. *)
Inductive input_event_data : Type := Keycode (k : Z) | Character (c : Z).
Record input_event : Type := Event {
  type : Z;
  source : Z;
  data : input_event_data;
  pressed : Z;
  modifiers : Z
}.

(** Reading a member. The low byte of a keycode is its first byte; the high
    byte of a character is not written, so it has no keycode. *)
Definition event_character (d : input_event_data) : Z :=
  match d with Keycode k => u8 k | Character c => c end.
Definition event_keycode (d : input_event_data) : option Z :=
  match d with Keycode k => Some k | Character _ => None end.

(** What the layer relies on from the keyboard driver: whether there is one,
    and the (code, value) pairs it hands to [input_queue_key_event] when it is
    polled. *)
Class KeyboardDriver (K : Type) := {
  virtio_input_available : K -> bool;
  virtio_input_poll : K -> K * list (Z * Z)
}.

Record input (K : Type) : Type := Input {
  input_queue : list input_event;
  input_queue_head : Z;
  input_queue_tail : Z;
  input_mode_flags : Z;
  input_modifiers : Z;
  uart_rx : list Z;
  keyboard : K
}.
Arguments Input {K}.
Arguments input_queue {K}.
Arguments input_queue_head {K}.
Arguments input_queue_tail {K}.
Arguments input_mode_flags {K}.
Arguments input_modifiers {K}.
Arguments uart_rx {K}.
Arguments keyboard {K}.

Section definitions.
Context {K : Type} `{KeyboardDriver K}.
Implicit Types (s : input K).

Definition set_input_queue (v : list input_event) s : input K :=
  Input v (input_queue_head s) (input_queue_tail s) (input_mode_flags s) (input_modifiers s) (uart_rx s) (keyboard s).
Definition set_input_queue_head (v : Z) s : input K :=
  Input (input_queue s) v (input_queue_tail s) (input_mode_flags s) (input_modifiers s) (uart_rx s) (keyboard s).
Definition set_input_queue_tail (v : Z) s : input K :=
  Input (input_queue s) (input_queue_head s) v (input_mode_flags s) (input_modifiers s) (uart_rx s) (keyboard s).
Definition set_input_mode_flags (v : Z) s : input K :=
  Input (input_queue s) (input_queue_head s) (input_queue_tail s) v (input_modifiers s) (uart_rx s) (keyboard s).
Definition set_input_modifiers (v : Z) s : input K :=
  Input (input_queue s) (input_queue_head s) (input_queue_tail s) (input_mode_flags s) v (uart_rx s) (keyboard s).
Definition set_uart_rx (v : list Z) s : input K :=
  Input (input_queue s) (input_queue_head s) (input_queue_tail s) (input_mode_flags s) (input_modifiers s) v (keyboard s).
Definition set_keyboard (v : K) s : input K :=
  Input (input_queue s) (input_queue_head s) (input_queue_tail s) (input_mode_flags s) (input_modifiers s) (uart_rx s) v.

(** ** The queue *)

Definition input_queue_is_empty s : bool := input_queue_head s =? input_queue_tail s.
Definition input_queue_is_full s : bool := u32 (input_queue_tail s + 1) mod INPUT_QUEUE_CAPACITY =? input_queue_head s.

Definition input_push_event (event : option input_event) : M (input K) Z :=
  match event with
  | None => ret 0
  | Some e =>
      full <- gets input_queue_is_full;;
      head <- gets input_queue_head;;
      (if (full : bool) then modify (set_input_queue_head (u32 (head + 1) mod INPUT_QUEUE_CAPACITY)) else ret tt);;
      queue <- gets input_queue;;
      tail <- gets input_queue_tail;;
      queue1 <- deref (wr queue tail e);;
      modify (set_input_queue queue1);;
      modify (set_input_queue_tail (u32 (tail + 1) mod INPUT_QUEUE_CAPACITY));;
      ret 1
  end.

(** The status and the contents of [*event_out]. *)
Definition input_pop_event (event_out : option input_event) : M (input K) (Z * option input_event) :=
  empty <- gets input_queue_is_empty;;
  match event_out with
  | None => ret (0, None)
  | Some e0 =>
      if (empty : bool) then ret (0, Some e0)
      else
        queue <- gets input_queue;;
        head <- gets input_queue_head;;
        e <- deref (rd queue head);;
        modify (set_input_queue_head (u32 (head + 1) mod INPUT_QUEUE_CAPACITY));;
        ret (1, Some e)
  end.

Definition input_has_event : M (input K) Z :=
  empty <- gets input_queue_is_empty;; ret (if (empty : bool) then 0 else 1).

(** ** Sources and modes *)

Definition input_event_allowed (mode : Z) (e : input_event) : bool :=
  if source e =? INPUT_SOURCE_SERIAL then negb (Z.land mode INPUT_SOURCE_SERIAL =? 0)
  else if source e =? INPUT_SOURCE_KEYBOARD then negb (Z.land mode INPUT_SOURCE_KEYBOARD =? 0)
  else false.

Definition input_init : M (input K) unit :=
  modify (set_input_queue_head 0);;
  modify (set_input_queue_tail 0);;
  modify (set_input_mode_flags INPUT_SOURCE_SERIAL);;
  modify (set_input_modifiers 0).

Definition input_set_mode (mode : Z) : M (input K) unit :=
  let flags := Z.land mode (Z.lor INPUT_SOURCE_SERIAL INPUT_SOURCE_KEYBOARD) in
  modify (set_input_mode_flags (if flags =? 0 then INPUT_SOURCE_SERIAL else flags)).

Definition input_mode : M (input K) Z := gets input_mode_flags.
Definition input_keyboard_available : M (input K) bool := gets (fun s => virtio_input_available (keyboard s)).

Definition input_queue_serial_char (c : Z) : M (input K) unit :=
  input_push_event (Some (Event INPUT_EVENT_CHAR INPUT_SOURCE_SERIAL (Character c) INPUT_KEY_PRESS 0));; ret tt.

Definition input_queue_key_event (keycode value : Z) : M (input K) unit :=
  mods <- gets input_modifiers;;
  input_push_event (Some (Event INPUT_EVENT_KEY INPUT_SOURCE_KEYBOARD (Keycode keycode) (u8 value) (u8 mods)));; ret tt.

(** The serial port: [uart_getc] waits for a byte, so it ends only when there
    is one. *)
Definition uart_can_read : M (input K) bool := gets (fun s => negb (bool_decide (uart_rx s = []))).
Definition uart_getc : M (input K) Z :=
  rx <- gets uart_rx;;
  match rx with
  | [] => undef
  | c :: rx' => modify (set_uart_rx rx');; ret c
  end.

Fixpoint queue_keys (keys : list (Z * Z)) : M (input K) unit :=
  match keys with
  | [] => ret tt
  | (code, value) :: keys' => input_queue_key_event code value;; queue_keys keys'
  end.

Definition input_poll : M (input K) unit :=
  mode <- gets input_mode_flags;;
  can_read <- uart_can_read;;
  (if negb (Z.land mode INPUT_SOURCE_SERIAL =? 0) && (can_read : bool)
   then c <- uart_getc;; input_queue_serial_char c else ret tt);;
  mode1 <- gets input_mode_flags;;
  kb <- gets keyboard;;
  (if negb (Z.land mode1 INPUT_SOURCE_KEYBOARD =? 0) && virtio_input_available kb
   then let (kb1, keys) := virtio_input_poll kb in modify (set_keyboard kb1);; queue_keys keys
   else ret tt).

End definitions.

(** ** Keys to characters *)

Definition input_key_is_shift (keycode : Z) : bool := (keycode =? INPUT_KEY_LEFTSHIFT) || (keycode =? INPUT_KEY_RIGHTSHIFT).

Section translate.
Context (shifted : bool).

Definition pick (up down : string) : Z := if shifted then ch up else ch down.

Definition input_translate_alpha (keycode : Z) : Z :=
  match keycode with
  | 30 => pick "A" "a" | 48 => pick "B" "b" | 46 => pick "C" "c" | 32 => pick "D" "d"
  | 18 => pick "E" "e" | 33 => pick "F" "f" | 34 => pick "G" "g" | 35 => pick "H" "h"
  | 23 => pick "I" "i" | 36 => pick "J" "j" | 37 => pick "K" "k" | 38 => pick "L" "l"
  | 50 => pick "M" "m" | 49 => pick "N" "n" | 24 => pick "O" "o" | 25 => pick "P" "p"
  | 16 => pick "Q" "q" | 19 => pick "R" "r" | 31 => pick "S" "s" | 20 => pick "T" "t"
  | 22 => pick "U" "u" | 47 => pick "V" "v" | 17 => pick "W" "w" | 45 => pick "X" "x"
  | 21 => pick "Y" "y" | 44 => pick "Z" "z"
  | _ => 0
  end.

Definition input_translate_digit (keycode : Z) : Z :=
  match keycode with
  | 2 => pick "!" "1" | 3 => pick "@" "2" | 4 => pick "#" "3" | 5 => pick "$" "4"
  | 6 => pick "%" "5" | 7 => pick "^" "6" | 8 => pick "&" "7" | 9 => pick "*" "8"
  | 10 => pick "(" "9" | 11 => pick ")" "0"
  | _ => 0
  end.

Definition input_translate_punctuation (keycode : Z) : Z :=
  match keycode with
  | 57 => ch " " | 28 => 10 | 14 => 8 | 15 => 9
  | 12 => pick "_" "-" | 13 => pick "+" "=" | 26 => pick "{" "[" | 27 => pick "}" "]"
  | 39 => pick ":" ";" | 40 => if shifted then 34 else ch "'" | 41 => pick "~" "`" | 43 => pick "|" "\"
  | 51 => pick "<" "," | 52 => pick ">" "." | 53 => pick "?" "/"
  | _ => 0
  end.

Definition input_translate_keypress (keycode : Z) : Z :=
  let c := input_translate_alpha keycode in
  if negb (c =? 0) then c
  else
    let c := input_translate_digit keycode in
    if negb (c =? 0) then c else input_translate_punctuation keycode.

End translate.

Section reading.
Context {K : Type} `{KeyboardDriver K}.
Implicit Types (s : input K).

(** The status and the contents of [*ch_out]. *)
Definition input_event_to_char (event : option input_event) (ch_out : option Z) : M (input K) (Z * option Z) :=
  match event, ch_out with
  | Some e, Some c0 =>
      mode <- gets input_mode_flags;;
      if negb (input_event_allowed mode e) then ret (0, ch_out)
      else if type e =? INPUT_EVENT_CHAR then ret (1, Some (event_character (data e)))
      else if negb (type e =? INPUT_EVENT_KEY) then ret (0, ch_out)
      else
        keycode <- deref (event_keycode (data e));;
        if input_key_is_shift keycode then
          mods <- gets input_modifiers;;
          modify (set_input_modifiers (if pressed e =? INPUT_KEY_RELEASE then Z.land mods (not32 INPUT_MOD_SHIFT)
                                       else Z.lor mods INPUT_MOD_SHIFT));;
          ret (0, ch_out)
        else if negb (pressed e =? INPUT_KEY_PRESS) && negb (pressed e =? INPUT_KEY_REPEAT) then ret (0, ch_out)
        else
          mods <- gets input_modifiers;;
          let c := input_translate_keypress (negb (Z.land mods INPUT_MOD_SHIFT =? 0)) keycode in
          if c =? 0 then ret (0, ch_out) else ret (1, Some c)
  | _, _ => ret (0, ch_out)
  end.

(** The reader waits for input; [fuel] bounds the number of polls and events
    looked at, and running out of it is a reader that still waits. *)
Fixpoint input_getc (fuel : nat) (event : input_event) (c : Z) : M (input K) Z :=
  match fuel with
  | O => undef
  | S fuel' =>
      has <- input_has_event;;
      if has =? 0 then input_poll;; input_getc fuel' event c
      else
        let! (popped, event1) := input_pop_event (Some event) in
        e <- deref event1;;
        if popped =? 0 then input_getc fuel' e c
        else
          let! (status, c1) := input_event_to_char (Some e) (Some c) in
          c' <- deref c1;;
          if negb (status =? 0) then ret c' else input_getc fuel' e c'
  end.

End reading.

(** ** The queue as a bounded first-in first-out list *)

(** The [n] events from position [h] on, round the ring. *)
Fixpoint window (q : list input_event) (h : Z) (n : nat) : list input_event :=
  match n with
  | O => []
  | S n' => match rd q (h mod 64) with Some e => e :: window q (h + 1) n' | None => [] end
  end.

(** A list that holds at most 63 events: a full one loses its oldest. *)
Definition fifo_push (l : list input_event) (e : input_event) : list input_event :=
  (if (length l =? 63)%nat then tail l else l) ++ [e].

Lemma window_mod q h n : window q (h mod 64) n = window q h n.
Proof.
  revert h. induction n as [|n IH]; intros h; cbn [window]; [done|]. rewrite Zmod_mod.
  destruct (rd q (h mod 64)); [|done]. f_equal. rewrite <- IH. symmetry. rewrite <- IH. by rewrite Zplus_mod_idemp_l.
Qed.

Lemma ring_lookup (q : list input_event) h : lenZ q = 64 -> exists e, rd q (h mod 64) = Some e.
Proof. intros Hq. apply rd_Some. rewrite Hq. apply Z.mod_pos_bound. lia. Qed.

Lemma length_window q h n : lenZ q = 64 -> length (window q h n) = n.
Proof.
  intros Hq. revert h. induction n as [|n IH]; intros h; cbn [window]; [done|].
  destruct (ring_lookup q h Hq) as [e ->]. simpl. by rewrite IH.
Qed.

Lemma window_snoc q h n e :
  lenZ q = 64 -> rd q ((h + Z.of_nat n) mod 64) = Some e -> window q h (S n) = window q h n ++ [e].
Proof.
  intros Hq. revert h. induction n as [|n IH]; intros h He.
  - cbn [window]. rewrite Z.add_0_r in He. by rewrite He.
  - change (window q h (S (S n))) with (match rd q (h mod 64) with Some x => x :: window q (h + 1) (S n) | None => [] end).
    cbn [window]. destruct (ring_lookup q h Hq) as [x ->]. cbn [app]. f_equal.
    apply IH. rewrite <- He. do 2 f_equal. lia.
Qed.

(** A store outside a window does not change it. *)
Lemma window_insert q h n t e :
  0 <= t < 64 -> (forall i, 0 <= i < Z.of_nat n -> (h + i) mod 64 <> t) -> window (<[Z.to_nat t := e]> q) h n = window q h n.
Proof.
  intros Ht. revert h. induction n as [|n IH]; intros h Hout; cbn [window]; [done|].
  pose proof (Hout 0 ltac:(lia)) as H0. rewrite Z.add_0_r in H0. unfold rd.
  pose proof (Z.mod_pos_bound h 64 ltac:(lia)). rewrite list_lookup_insert_ne by lia.
  rewrite IH; [done|]. intros i Hi. replace (h + 1 + i) with (h + (i + 1)) by lia. apply Hout. lia.
Qed.

Section proofs.
Context {K : Type} `{KeyboardDriver K}.
Implicit Types (s : input K).

Record ring_wf s : Prop := {
  rw_queue : lenZ (input_queue s) = 64;
  rw_head : 0 <= input_queue_head s < 64;
  rw_tail : 0 <= input_queue_tail s < 64
}.

Definition pending s : list input_event :=
  window (input_queue s) (input_queue_head s) (Z.to_nat ((input_queue_tail s - input_queue_head s) mod 64)).

(** Everything but the queue. *)
Definition rest_of s := (input_mode_flags s, input_modifiers s, uart_rx s, keyboard s).

Lemma pending_length s : ring_wf s -> (length (pending s) <= 63)%nat.
Proof.
  intros [Hq _ _]. unfold pending. rewrite length_window by done.
  pose proof (Z.mod_pos_bound (input_queue_tail s - input_queue_head s) 64). lia.
Qed.

Lemma input_queue_is_empty_spec s : ring_wf s -> input_queue_is_empty s = bool_decide (pending s = []).
Proof.
  intros [Hq Hh Ht]. unfold input_queue_is_empty, pending.
  destruct (Z.eqb_spec (input_queue_head s) (input_queue_tail s)) as [He|Hne].
  - rewrite He, Z.sub_diag. by rewrite bool_decide_eq_true_2.
  - rewrite bool_decide_eq_false_2; [done|]. intros Hnil. apply (f_equal length) in Hnil.
    rewrite length_window in Hnil by done. simpl in Hnil.
    pose proof (Z.mod_pos_bound (input_queue_tail s - input_queue_head s) 64).
    assert (Hz : (input_queue_tail s - input_queue_head s) mod 64 = 0) by lia.
    apply Z.mod_divide in Hz as [k Hk]; lia.
Qed.

Lemma input_push_event_ok s e :
  ring_wf s -> exists s', input_push_event (Some e) s = Ret 1 s' [] /\ ring_wf s' /\
    pending s' = fifo_push (pending s) e /\ rest_of s' = rest_of s.
Proof.
  intros Hwf. pose proof Hwf as [Hq Hh Ht]. unfold input_push_event, INPUT_QUEUE_CAPACITY. krun.
  set (h := input_queue_head s) in *. set (t := input_queue_tail s) in *. set (q := input_queue s) in *.
  assert (Hfull : input_queue_is_full s = (length (pending s) =? 63)%nat).
  { unfold input_queue_is_full, pending. rewrite length_window by done. fold h t q. rewrite u32_small by lia.
    unfold INPUT_QUEUE_CAPACITY. pose proof (Z.div_mod (t - h) 64). pose proof (Z.div_mod (t + 1) 64).
    pose proof (Z.mod_pos_bound (t - h) 64). pose proof (Z.mod_pos_bound (t + 1) 64).
    destruct (Z.eqb_spec ((t + 1) mod 64) h), (Nat.eqb_spec (Z.to_nat ((t - h) mod 64)) 63); lia. }
  rewrite (u32_small (h + 1)) by lia.
  set (n := Z.to_nat ((t - h) mod 64)). pose proof (Z.mod_pos_bound (t - h) 64 ltac:(lia)) as Hn.
  pose proof (Z.div_mod (t - h) 64 ltac:(lia)) as Hdm.
  assert (Hlen : length (pending s) = n) by (unfold pending; by rewrite length_window).
  assert (Hslot : forall i, 0 <= i < Z.of_nat n -> (h + i) mod 64 <> t).
  { intros i Hi. pose proof (Z.div_mod (h + i) 64 ltac:(lia)). pose proof (Z.mod_pos_bound (h + i) 64 ltac:(lia)). lia. }
  assert (Hlast : (h + Z.of_nat n) mod 64 = t).
  { pose proof (Z.div_mod (h + Z.of_nat n) 64 ltac:(lia)). pose proof (Z.mod_pos_bound (h + Z.of_nat n) 64 ltac:(lia)). lia. }
  assert (Hins : rd (<[Z.to_nat t := e]> q) ((h + Z.of_nat n) mod 64) = Some e).
  { rewrite Hlast. unfold rd. rewrite (proj2 (Z.leb_le 0 t)) by lia. apply list_lookup_insert_eq. unfold lenZ in Hq. lia. }
  assert (Hqi : lenZ (<[Z.to_nat t := e]> q) = 64) by (unfold lenZ in *; by rewrite length_insert).
  assert (Hwin : window (<[Z.to_nat t := e]> q) h (S n) = pending s ++ [e]).
  { rewrite (window_snoc _ _ _ e) by done. f_equal. by apply window_insert. }
  assert (Hcnt : forall h', (h' = h \/ h' = (h + 1) mod 64) -> ((t + 1) mod 64 - h') mod 64 = (t + 1 - h') mod 64).
  { intros h' _. by rewrite Zminus_mod_idemp_l. }
  rewrite Hfull, Hlen. unfold fifo_push. rewrite Hlen. destruct (Nat.eqb_spec n 63) as [H63|H63]; krun.
  - change (input_queue (set_input_queue_head _ s)) with q. change (input_queue_tail (set_input_queue_head _ s)) with t.
    rewrite wr_Some, (u32_small (t + 1)) by lia. krun. eexists. split; [reflexivity|]. split; [|split; [|done]].
    + split; simpl; [done| |]; apply Z.mod_pos_bound; lia.
    + unfold pending at 1. simpl. fold q h t. rewrite window_mod, Hcnt by (by right).
      assert (Heq : Z.to_nat ((t + 1 - (h + 1) mod 64) mod 64) = n).
      { rewrite Zminus_mod_idemp_r. replace (t + 1 - (h + 1)) with (t - h) by lia. done. }
      rewrite Heq. destruct (ring_lookup (<[Z.to_nat t := e]> q) h Hqi) as [x Hx].
      cbn [window] in Hwin. rewrite Hx in Hwin. rewrite <- Hlen in H63. destruct (pending s) as [|y l]; [done|].
      cbn [app tail] in *. by injection Hwin.
  - change (input_queue s) with q. change (input_queue_tail s) with t.
    rewrite wr_Some, (u32_small (t + 1)) by lia. krun. eexists. split; [reflexivity|]. split; [|split; [|done]].
    + split; simpl; [done|done|]. apply Z.mod_pos_bound; lia.
    + unfold pending at 1. simpl. fold q h t. rewrite Hcnt by (by left).
      assert (Heq : Z.to_nat ((t + 1 - h) mod 64) = S n).
      { pose proof (Z.div_mod (t + 1 - h) 64 ltac:(lia)). pose proof (Z.mod_pos_bound (t + 1 - h) 64 ltac:(lia)). lia. }
      by rewrite Heq.
Qed.

Lemma input_pop_event_ok s e0 :
  ring_wf s ->
  match pending s with
  | [] => input_pop_event (Some e0) s = Ret (0, Some e0) s []
  | e :: l => exists s', input_pop_event (Some e0) s = Ret (1, Some e) s' [] /\ ring_wf s' /\ pending s' = l /\ rest_of s' = rest_of s
  end.
Proof.
  intros Hwf. pose proof Hwf as [Hq Hh Ht]. unfold input_pop_event, INPUT_QUEUE_CAPACITY. krun.
  rewrite (input_queue_is_empty_spec s Hwf). destruct (pending s) as [|e l] eqn:Hp; [done|].
  rewrite bool_decide_eq_false_2 by done. krun. unfold pending in Hp.
  set (h := input_queue_head s) in *. set (t := input_queue_tail s) in *. set (q := input_queue s) in *.
  pose proof (Z.mod_pos_bound (t - h) 64 ltac:(lia)) as Hn. pose proof (Z.div_mod (t - h) 64 ltac:(lia)) as Hdm.
  destruct (Z.to_nat ((t - h) mod 64)) as [|n] eqn:Hc; [done|]. cbn [window] in Hp.
  rewrite (Z.mod_small h) in Hp by lia. destruct (rd q h) as [x|]; [|done]. injection Hp as -> Hl. krun.
  rewrite u32_small by lia. eexists. split; [reflexivity|]. split; [|split; [|done]].
  - split; simpl; [done| |done]. apply Z.mod_pos_bound; lia.
  - unfold pending. simpl. fold q h t. rewrite window_mod, Zminus_mod_idemp_r.
    replace (Z.to_nat ((t - (h + 1)) mod 64)) with n; [done|].
    pose proof (Z.div_mod (t - (h + 1)) 64 ltac:(lia)). pose proof (Z.mod_pos_bound (t - (h + 1)) 64 ltac:(lia)). lia.
Qed.

Lemma input_has_event_run s : ring_wf s -> input_has_event s = Ret (if bool_decide (pending s = []) then 0 else 1) s [].
Proof. intros Hwf. unfold input_has_event. krun. by rewrite (input_queue_is_empty_spec s Hwf). Qed.

(** *** Runs of the queue *)

Inductive queue_op : Type := Push (e : input_event) | Pop.
Definition ring_op (op : queue_op) (e0 : input_event) : M (input K) (option input_event) :=
  match op with
  | Push e => input_push_event (Some e);; ret None
  | Pop => let! (status, e) := input_pop_event (Some e0) in ret (if status =? 0 then None else e)
  end.
Fixpoint ring_run (ops : list queue_op) (e0 : input_event) : M (input K) (list (option input_event)) :=
  match ops with
  | [] => ret []
  | op :: ops' => r <- ring_op op e0;; rs <- ring_run ops' e0;; ret (r :: rs)
  end.
Fixpoint fifo_run (ops : list queue_op) (l : list input_event) : list (option input_event) * list input_event :=
  match ops with
  | [] => ([], l)
  | Push e :: ops' => let (rs, l') := fifo_run ops' (fifo_push l e) in (None :: rs, l')
  | Pop :: ops' => let (rs, l') := fifo_run ops' (tail l) in (head l :: rs, l')
  end.

Lemma ring_op_ok op e0 s :
  ring_wf s -> exists s', ring_op op e0 s = Ret (match op with Push _ => None | Pop => head (pending s) end) s' [] /\ ring_wf s' /\
    pending s' = (match op with Push e => fifo_push (pending s) e | Pop => tail (pending s) end) /\ rest_of s' = rest_of s.
Proof.
  intros Hwf. destruct op as [e|]; unfold ring_op.
  - destruct (input_push_event_ok s e Hwf) as (s' & He & Hwf' & Hp & Hr). rewrite (bind_Ret_nil _ _ _ _ _ He). by exists s'.
  - pose proof (input_pop_event_ok s e0 Hwf) as Hpop. destruct (pending s) as [|e l] eqn:Hp.
    + rewrite (bind_Ret_nil _ _ _ _ _ Hpop). exists s. by rewrite Hp.
    + destruct Hpop as (s' & He & Hwf' & Hp' & Hr). rewrite (bind_Ret_nil _ _ _ _ _ He). by exists s'.
Qed.

(** *** Reading characters *)

Definition event_ok (e : input_event) : Prop := type e = INPUT_EVENT_KEY -> exists k, data e = Keycode k.

(** What one event means to the reader, given the state of the shift keys. *)
Definition event_text (mode : Z) (shift : bool) (e : input_event) : option Z * bool :=
  if negb (input_event_allowed mode e) then (None, shift)
  else if type e =? INPUT_EVENT_CHAR then (Some (event_character (data e)), shift)
  else match type e =? INPUT_EVENT_KEY, data e with
       | true, Keycode k =>
           if input_key_is_shift k then (None, negb (pressed e =? INPUT_KEY_RELEASE))
           else if (pressed e =? INPUT_KEY_PRESS) || (pressed e =? INPUT_KEY_REPEAT) then
             let c := input_translate_keypress shift k in (if c =? 0 then None else Some c, shift)
           else (None, shift)
       | _, _ => (None, shift)
       end.

(** The first character of a list of events, the events behind it and the
    shift state after it. *)
Fixpoint read_events (mode : Z) (shift : bool) (l : list input_event) : option (Z * list input_event) * bool :=
  match l with
  | [] => (None, shift)
  | e :: l' => match event_text mode shift e with
               | (Some c, shift') => (Some (c, l'), shift')
               | (None, shift') => read_events mode shift' l'
               end
  end.

Lemma input_event_to_char_ok s e c0 shift :
  event_ok e -> input_modifiers s = Z.b2z shift ->
  exists s', input_event_to_char (Some e) (Some c0) s =
      Ret (match fst (event_text (input_mode_flags s) shift e) with Some c => (1, Some c) | None => (0, Some c0) end) s' [] /\
    s' = set_input_modifiers (Z.b2z (snd (event_text (input_mode_flags s) shift e))) s.
Proof.
  intros Hok Hm. assert (Hid : set_input_modifiers (Z.b2z shift) s = s) by (destruct s; simpl in *; by rewrite Hm).
  unfold input_event_to_char, event_text. krun. destruct (input_event_allowed (input_mode_flags s) e); cbn [negb]; [|by exists s; cbn [fst snd]; rewrite Hid].
  destruct (type e =? INPUT_EVENT_CHAR); [by exists s; cbn [fst snd]; rewrite Hid|].
  destruct (Z.eqb_spec (type e) INPUT_EVENT_KEY) as [Ht|]; cbn [negb]; [|by exists s; cbn [fst snd]; rewrite Hid].
  destruct (Hok Ht) as [k ->]. cbn [event_keycode]. rewrite (bind_deref_Some _ _ _ _ eq_refl). destruct (input_key_is_shift k).
  { krun. rewrite Hm. eexists. split; [reflexivity|]. cbn [snd]. f_equal.
    by destruct (pressed e =? INPUT_KEY_RELEASE), shift. }
  rewrite <- negb_orb. destruct ((pressed e =? INPUT_KEY_PRESS) || (pressed e =? INPUT_KEY_REPEAT)); cbn [negb]; [|by exists s; cbn [fst snd]; rewrite Hid].
  krun. rewrite Hm. assert (Hsh : negb (Z.land (Z.b2z shift) INPUT_MOD_SHIFT =? 0) = shift) by (by destruct shift). rewrite Hsh.
  cbn zeta. destruct (input_translate_keypress shift k =? 0); exists s; cbn [fst snd]; by rewrite Hid.
Qed.

(** A reader with events: it takes the first character they spell. *)
Lemma input_getc_pending fuel s e0 c0 shift :
  ring_wf s -> Forall event_ok (pending s) -> input_modifiers s = Z.b2z shift ->
  exists s1 e1 c1, ring_wf s1 /\ (input_mode_flags s1, uart_rx s1, keyboard s1) = (input_mode_flags s, uart_rx s, keyboard s) /\
    let (r, shift1) := read_events (input_mode_flags s) shift (pending s) in
    input_modifiers s1 = Z.b2z shift1 /\
    match r with
    | Some (c, l) => pending s1 = l /\ input_getc (length (pending s) + fuel) e0 c0 s = Ret c s1 []
    | None => pending s1 = [] /\ input_getc (length (pending s) + fuel) e0 c0 s = input_getc fuel e1 c1 s1
    end.
Proof.
  remember (pending s) as l eqn:Hl. revert s e0 c0 shift Hl.
  induction l as [|e l IH]; intros s e0 c0 shift Hl Hwf Hok Hm.
  { exists s, e0, c0. by split_and!. }
  apply Forall_cons in Hok as [He Hok]. pose proof (input_pop_event_ok s e0 Hwf) as Hpop. rewrite <- Hl in Hpop.
  destruct Hpop as (s1 & Hpop & Hwf1 & Hl1 & Hr1). unfold rest_of in Hr1. injection Hr1 as Hmode1 Hmod1 Hrx1 Hkb1.
  destruct (input_event_to_char_ok s1 e c0 shift He) as (s2 & Hch & Hs2); [congruence|].
  assert (Hstep : forall n, input_getc (S n) e0 c0 s = match fst (event_text (input_mode_flags s) shift e) with
    | Some c => Ret c s2 [] | None => input_getc n e c0 s2 end).
  { intros n. cbn [input_getc]. rewrite (bind_Ret_nil _ _ _ _ _ (input_has_event_run s Hwf)), <- Hl.
    rewrite bool_decide_eq_false_2 by done. cbn iota. change (1 =? 0) with false. cbn iota.
    rewrite (bind_Ret_nil _ _ _ _ _ Hpop). cbn iota. krun. rewrite (bind_deref_Some _ _ _ _ eq_refl).
    change (1 =? 0) with false. cbn iota. rewrite (bind_Ret_nil _ _ _ _ _ Hch), Hmode1.
    destruct (fst (event_text (input_mode_flags s) shift e)) as [c|]; cbn iota; rewrite (bind_deref_Some _ _ _ _ eq_refl);
      [by change (negb (1 =? 0)) with true|by change (negb (0 =? 0)) with false]. }
  cbn [length Nat.add read_events]. rewrite Hstep. rewrite Hmode1 in Hs2.
  assert (Hp2 : pending s2 = l) by (by rewrite Hs2).
  assert (Hwf2 : ring_wf s2) by (rewrite Hs2; by destruct Hwf1).
  destruct (event_text (input_mode_flags s) shift e) as [[c|] shift']; cbn [fst snd] in *.
  - exists s2, e0, c0. split; [done|]. split; [rewrite Hs2; simpl; congruence|]. split; [by rewrite Hs2|]. done.
  - assert (Hmode2 : input_mode_flags s2 = input_mode_flags s) by (rewrite Hs2; simpl; congruence).
    destruct (IH s2 e c0 shift') as (s3 & e3 & c3 & Hwf3 & Hrest & Hres); [done|done|done|by rewrite Hs2|].
    exists s3, e3, c3. rewrite Hmode2 in Hres. split; [done|]. split; [rewrite Hrest, Hs2; simpl; congruence|]. done.
Qed.

End proofs.

(** ** Properties *)

Section properties.
Context {K : Type} `{KeyboardDriver K}.
Implicit Types (s : input K).

(** C18. The ring is a first-in first-out queue of at most 63 events: any run of
    pushes and pops gives what a list gives that drops its oldest event when
    it is full, and touches nothing else. *)
Theorem input_queue_refines s ops e0 :
  ring_wf s -> let (rs, l) := fifo_run ops (pending s) in
  exists s', ring_run ops e0 s = Ret rs s' [] /\ ring_wf s' /\ pending s' = l /\ rest_of s' = rest_of s.
Proof.
  revert s. induction ops as [|op ops IH]; intros s Hwf; cbn [fifo_run]; [by exists s|].
  destruct (ring_op_ok op e0 s Hwf) as (s1 & He & Hwf1 & Hp1 & Hr1). specialize (IH s1 Hwf1).
  destruct op as [e|]; rewrite Hp1 in IH; destruct (fifo_run ops _) as [rs l]; destruct IH as (s2 & He2 & Hwf2 & Hp2 & Hr2);
    exists s2; cbn [ring_run]; rewrite (bind_Ret_nil _ _ _ _ _ He), (bind_Ret_nil _ _ _ _ _ He2);
    (split; [done|]; split; [done|]; split; [done|congruence]).
Qed.

(** [input_getc] returns the first character that the waiting events spell,
    with the shift keys as they were when each key was pressed, and leaves the
    events behind it; when they spell none and only the serial port is read,
    it returns the next byte the port has received. *)
Theorem input_getc_spec s e0 c0 shift fuel :
  ring_wf s -> Forall event_ok (pending s) -> input_modifiers s = Z.b2z shift ->
  match read_events (input_mode_flags s) shift (pending s) with
  | (Some (c, l), shift') => exists s', input_getc (length (pending s) + fuel) e0 c0 s = Ret c s' [] /\ ring_wf s' /\
      pending s' = l /\ input_modifiers s' = Z.b2z shift' /\ uart_rx s' = uart_rx s
  | (None, shift') => forall c rx, input_mode_flags s = INPUT_SOURCE_SERIAL -> uart_rx s = c :: rx -> 
      exists s', input_getc (length (pending s) + (2 + fuel)) e0 c0 s = Ret c s' [] /\ ring_wf s' /\
        pending s' = [] /\ input_modifiers s' = Z.b2z shift' /\ uart_rx s' = rx
  end.
Proof.
  intros Hwf Hok Hm. destruct (read_events _ shift (pending s)) as [[[c l]|] shift'] eqn:Hr.
  - destruct (input_getc_pending fuel s e0 c0 shift Hwf Hok Hm) as (s1 & e1 & c1 & Hwf1 & Hrest & Hres). rewrite Hr in Hres.
    destruct Hres as (Hm1 & Hp1 & He). injection Hrest as _ Hrx _. exists s1. by rewrite Hrx.
  - intros c rx Hmode Hrx.
    destruct (input_getc_pending (2 + fuel) s e0 c0 shift Hwf Hok Hm) as (s1 & e1 & c1 & Hwf1 & Hrest & Hres). rewrite Hr in Hres.
    destruct Hres as (Hm1 & Hp1 & He). injection Hrest as Hmode1 Hrx1 Hkb1. rewrite He. cbn [Nat.add input_getc].
    rewrite (bind_Ret_nil _ _ _ _ _ (input_has_event_run s1 Hwf1)), Hp1, bool_decide_eq_true_2 by done. cbn iota.
    change (0 =? 0) with true. cbn iota.
    set (ev := Event INPUT_EVENT_CHAR INPUT_SOURCE_SERIAL (Character c) INPUT_KEY_PRESS 0).
    assert (Hwf2 : ring_wf (set_uart_rx rx s1)) by (by destruct Hwf1).
    destruct (input_push_event_ok (set_uart_rx rx s1) ev Hwf2) as (s2 & Hpush & Hwf3 & Hp2 & Hr2).
    change (pending (set_uart_rx rx s1)) with (pending s1) in Hp2. rewrite Hp1 in Hp2. cbn [fifo_push length Nat.eqb app] in Hp2.
    injection Hr2 as Hmode2 Hm2 Hrx2 Hkb2. cbn in Hmode2, Hm2, Hrx2, Hkb2.
    assert (Hpoll : input_poll s1 = Ret tt s2 []).
    { unfold input_poll, uart_can_read. krun. rewrite Hmode1, Hmode, Hrx1, Hrx. rewrite bool_decide_eq_false_2 by done.
      change (negb (Z.land INPUT_SOURCE_SERIAL INPUT_SOURCE_SERIAL =? 0) && negb false) with true. cbn iota.
      assert (Hq : (c <- uart_getc;; input_queue_serial_char c) s1 = Ret tt s2 []).
      { unfold uart_getc. unfold bind at 1, bind at 1, gets. rewrite Hrx1, Hrx. cbn.
        unfold input_queue_serial_char. fold ev. unfold bind. by rewrite Hpush. }
      rewrite (bind_Ret_nil _ _ _ _ _ Hq). krun. rewrite Hmode2, Hmode1, Hmode. done. }
    rewrite (bind_Ret_nil _ _ _ _ _ Hpoll).
    destruct (input_getc_pending fuel s2 e1 c1 shift' Hwf3) as (s3 & e3 & c3 & Hwf4 & Hrest3 & Hres3).
    { rewrite Hp2. constructor; [|done]. intros Ht. done. }
    { congruence. }
    rewrite Hp2 in Hres3. injection Hrest3 as _ Hrx3 _. rewrite Hmode2, Hmode1, Hmode in Hres3.
    change (read_events INPUT_SOURCE_SERIAL shift' [ev]) with (Some (c, @nil input_event), shift') in Hres3.
    destruct Hres3 as (Hm3 & Hp3 & He3). exists s3. split; [exact He3|]. split; [done|]. split; [done|]. split; [done|]. congruence.
Qed.

End properties.

(** *** The keyboard layout *)

Lemma translate_none shifted k : input_translate_keypress shifted k <> 0 -> 0 <= k < 64.
Proof.
  intros Hk. destruct k as [|p|p]; [lia| |by destruct Hk].
  do 6 (destruct p as [p|p|]; [| |lia]); exfalso; apply Hk; reflexivity.
Qed.

(** The characters a keyboard should have, and the keys of the table. *)
Definition typed_chars : list Z := [8; 9; 10] ++ map Z.of_nat (seq 32 95).
Definition layout_keys : list Z := map Z.of_nat (seq 0 64).
Definition types_char (c k : Z) : bool := (input_translate_keypress false k =? c) || (input_translate_keypress true k =? c).

Lemma layout_forward : forallb (fun c => (length (List.filter (types_char c) layout_keys) =? 1)%nat) typed_chars = true.
Proof. vm_compute. reflexivity. Qed.

Lemma layout_backward :
  forallb (fun k => forallb (fun sh => (input_translate_keypress sh k =? 0) ||
    existsb (Z.eqb (input_translate_keypress sh k)) typed_chars) [false; true]) layout_keys = true.
Proof. vm_compute. reflexivity. Qed.

Lemma typed_chars_spec c : In c typed_chars <-> c = 8 \/ c = 9 \/ c = 10 \/ 32 <= c < 127.
Proof.
  unfold typed_chars. rewrite in_app_iff, in_map_iff. split.
  - intros [Hin|(n & <- & Hn%in_seq)]; [|lia]. simpl in Hin. lia.
  - intros [->|[->|[->|Hc]]]; [left; simpl; tauto..|]. right. exists (Z.to_nat c). split; [lia|]. apply in_seq. lia.
Qed.

Lemma layout_key_in sh k : input_translate_keypress sh k <> 0 -> In k layout_keys.
Proof.
  intros Hk%translate_none. apply in_map_iff. exists (Z.to_nat k). split; [lia|]. apply in_seq. lia.
Qed.

Lemma types_char_spec c k : types_char c k = true <-> exists sh, input_translate_keypress sh k = c.
Proof.
  unfold types_char. rewrite orb_true_iff, !Z.eqb_eq. split; [intros [?|?]; eauto|]. intros [[|] ?]; tauto.
Qed.

(** The characters the keyboard can type are the printable ASCII characters,
    newline, backspace and tab, and each is typed by exactly one key. *)
Theorem keyboard_layout c :
  c <> 0 ->
  ((exists sh k, input_translate_keypress sh k = c) <-> c = 8 \/ c = 9 \/ c = 10 \/ 32 <= c < 127) /\
  (forall k k' sh sh', input_translate_keypress sh k = c -> input_translate_keypress sh' k' = c -> k = k').
Proof.
  intros Hc. rewrite <- typed_chars_spec.
  assert (Hback : forall sh k, input_translate_keypress sh k = c -> In c typed_chars).
  { intros sh k Hk. pose proof (proj1 (forallb_forall _ _) layout_backward k (layout_key_in sh k ltac:(congruence))) as Hb.
    pose proof (proj1 (forallb_forall _ _) Hb sh) as Hb2. cbn beta in Hb2. rewrite Hk, (proj2 (Z.eqb_neq c 0)) in Hb2 by done.
    apply existsb_exists in Hb2 as (x & Hx & ->%Z.eqb_eq); [done|]. destruct sh; simpl; tauto. }
  assert (Hone : In c typed_chars -> exists k0, List.filter (types_char c) layout_keys = [k0]).
  { intros Hin. pose proof (proj1 (forallb_forall _ _) layout_forward c Hin) as Hl. apply Nat.eqb_eq in Hl.
    destruct (List.filter _ _) as [|k0 [|]]; [done|by exists k0|done]. }
  split; [split|].
  - intros (sh & k & Hk). by apply (Hback sh k).
  - intros Hin. destruct (Hone Hin) as [k0 Hk0]. assert (Hf : In k0 (List.filter (types_char c) layout_keys)) by (rewrite Hk0; by left).
    apply filter_In in Hf as [_ [sh Hsh]%types_char_spec]. eauto.
  - intros k k' sh sh' Hk Hk'. destruct (Hone (Hback sh k Hk)) as [k0 Hk0].
    assert (Hin : forall x y, input_translate_keypress x y = c -> In y [k0]).
    { intros x y Hxy. rewrite <- Hk0. apply filter_In. split; [by apply (layout_key_in x); congruence|]. apply types_char_spec. eauto. }
    destruct (Hin sh k Hk) as [<-|[]]. by destruct (Hin sh' k' Hk') as [<-|[]].
Qed.

(** ** Concrete input *)

(** A machine without a keyboard. *)
#[export] Instance no_keyboard : KeyboardDriver unit := {| virtio_input_available _ := false; virtio_input_poll k := (k, []) |}.

Definition key_event (k p : Z) : input_event := Event INPUT_EVENT_KEY INPUT_SOURCE_KEYBOARD (Keycode k) p 0.
Definition no_event : input_event := Event 0 0 (Keycode 0) 0 0.
(** Shift down, key A, shift up, key B. *)
Definition typed_sample : input unit :=
  Input ([key_event 42 1; key_event 30 1; key_event 42 0; key_event 48 1] ++ replicate 60 no_event) 0 4 3 0 [] tt.

Lemma typed_sample_wf : ring_wf typed_sample.
Proof. split; simpl; [done|lia|lia]. Qed.

Lemma input_queue_refines_witness :
  exists s', ring_run [Pop; Push (key_event 46 1); Pop] no_event typed_sample =
    Ret [Some (key_event 42 1); None; Some (key_event 30 1)] s' [] /\ length (pending s') = 3%nat.
Proof.
  pose proof (input_queue_refines typed_sample [Pop; Push (key_event 46 1); Pop] no_event typed_sample_wf) as Hr.
  change (pending typed_sample) with [key_event 42 1; key_event 30 1; key_event 42 0; key_event 48 1] in Hr.
  destruct Hr as (s' & He & _ & Hp & _). exists s'. split; [exact He|]. by rewrite Hp.
Defined.

Lemma input_getc_spec_witness :
  exists s', input_getc 4 no_event 0 typed_sample = Ret (ch "A") s' [] /\ length (pending s') = 2%nat.
Proof.
  assert (Hok : Forall event_ok (pending typed_sample)) by (repeat constructor; intros _; by eexists).
  pose proof (input_getc_spec typed_sample no_event 0 false 0 typed_sample_wf Hok eq_refl) as Hr.
  change (pending typed_sample) with [key_event 42 1; key_event 30 1; key_event 42 0; key_event 48 1] in Hr.
  destruct Hr as (s' & He & _ & Hp & _). exists s'. split; [exact He|]. by rewrite Hp.
Defined.

Lemma keyboard_layout_witness : exists sh k, input_translate_keypress sh k = ch "~".
Proof.
  apply (proj2 (proj1 (keyboard_layout (ch "~") ltac:(done)))). right. right. right. split; vm_compute; congruence.
Defined.
