(* ===== verification/Task.v ===== *)
(** Tasks and the scheduler (src/src/kernel/task.c): the task table, creation on a
    heap stack, the round-robin choice of the next task, and the two ways an
    exception switches tasks. A trap frame is the record that the exception
    entry code saves; the frames in memory are a map from addresses. *)
From S2P Require Import Prelude LibString Klog Memory.

Definition TASK_MAX : Z := 8.
Definition TASK_STACK_SIZE : Z := 16384.
Definition TASK_TIME_SLICE_TICKS : Z := 1.

Inductive task_state : Type := TASK_UNUSED | TASK_READY | TASK_RUNNING | TASK_FINISHED.
#[export] Instance task_state_eq_dec : EqDecision task_state.
Proof. solve_decision. Defined.

Record task : Type := Task {
  task_name : option mem;
  task_sp : Z;
  entry : Z;
  arg : Z;
  stack_base : Z;
  stack_size : Z;
  state : task_state
}.
Definition set_task_sp (v : Z) (t : task) : task := Task (task_name t) v (entry t) (arg t) (stack_base t) (stack_size t) (state t).
Definition set_state (v : task_state) (t : task) : task :=
  Task (task_name t) (task_sp t) (entry t) (arg t) (stack_base t) (stack_size t) v.
(** A task structure filled with zeros. *)
Definition zero_task : task := Task None 0 0 0 0 0 TASK_UNUSED.

Record exception_trap_frame : Type := Frame {
  x : list Z;
  frame_sp : Z;
  elr_el1 : Z;
  spsr_el1 : Z;
  esr_el1 : Z;
  far_el1 : Z;
  frame_daif : Z;
  vector_id : Z
}.
Definition set_x (v : list Z) (f : exception_trap_frame) : exception_trap_frame :=
  Frame v (frame_sp f) (elr_el1 f) (spsr_el1 f) (esr_el1 f) (far_el1 f) (frame_daif f) (vector_id f).
(** [sizeof(struct exception_trap_frame)]: 38 words. *)
Definition FRAME_SIZE : Z := 304.

(** A [struct task *]: the kernel's own task or an entry of the table. *)
Inductive task_ref : Type := KernelTask | TableTask (i : Z).
#[export] Instance task_ref_eq_dec : EqDecision task_ref.
Proof. solve_decision. Defined.

Record sched : Type := Sched {
  heap : mm;
  task_table : list task;
  kernel_task : task;
  current_task : option task_ref;
  task_initialized : bool;
  frames : gmap Z exception_trap_frame
}.
Definition set_heap (v : mm) (s : sched) : sched :=
  Sched v (task_table s) (kernel_task s) (current_task s) (task_initialized s) (frames s).
Definition set_task_table (v : list task) (s : sched) : sched :=
  Sched (heap s) v (kernel_task s) (current_task s) (task_initialized s) (frames s).
Definition set_kernel_task (v : task) (s : sched) : sched :=
  Sched (heap s) (task_table s) v (current_task s) (task_initialized s) (frames s).
Definition set_current_task (v : option task_ref) (s : sched) : sched :=
  Sched (heap s) (task_table s) (kernel_task s) v (task_initialized s) (frames s).
Definition set_task_initialized (v : bool) (s : sched) : sched :=
  Sched (heap s) (task_table s) (kernel_task s) (current_task s) v (frames s).
Definition set_frames (v : gmap Z exception_trap_frame) (s : sched) : sched :=
  Sched (heap s) (task_table s) (kernel_task s) (current_task s) (task_initialized s) v.

(** Reading and updating a task through a pointer. *)
Definition get_task (t : task_ref) : M sched task :=
  match t with
  | KernelTask => gets kernel_task
  | TableTask i => table <- gets task_table;; deref (rd table i)
  end.
Definition update_task (t : task_ref) (f : task -> task) : M sched unit :=
  match t with
  | KernelTask => modify (fun s => set_kernel_task (f (kernel_task s)) s)
  | TableTask i =>
      table <- gets task_table;;
      old <- deref (rd table i);;
      new <- deref (wr table i (f old));;
      modify (set_task_table new)
  end.
Definition the_current_task : M sched task_ref := cur <- gets current_task;; deref cur.

Definition align_down_16 (value : Z) : Z := Z.land value (not64 15).

(** The loop that looks for the address finds the index of an entry. *)
Definition task_index_of (t : task_ref) : Z :=
  match t with
  | KernelTask => -1
  | TableTask i => if (0 <=? i) && (i <? TASK_MAX) then i else -1
  end.

Fixpoint task_pick_loop (fuel : nat) (current_index i : Z) (table : list task) : option (option Z) :=
  match fuel with
  | O => Some None
  | S fuel' =>
      let candidate_index := Z.rem (current_index + i + TASK_MAX) TASK_MAX in
      t ← rd table candidate_index;
      if decide (state t = TASK_READY) then Some (Some candidate_index)
      else task_pick_loop fuel' current_index (i + 1) table
  end.

Definition task_pick_next : M sched (option task_ref) :=
  cur <- the_current_task;;
  table <- gets task_table;;
  found <- deref (task_pick_loop (Z.to_nat TASK_MAX) (task_index_of cur) 1 table);;
  match found with
  | Some i => ret (Some (TableTask i))
  | None => ret (if decide (cur = KernelTask) then None else Some KernelTask)
  end.

Definition task_mark_finished (t : task_ref) : M sched unit := update_task t (set_state TASK_FINISHED).

(** The frame at the top of a new stack: it returns into [task_trampoline],
    with interrupts masked as they are now ([daif]). *)
Definition new_frame (task_trampoline daif top : Z) : exception_trap_frame :=
  Frame (replicate 31 0) top task_trampoline (Z.lor (Z.land daif 0x3c0) 5) 0 0 0 0.

Definition task_prepare_stack (task_trampoline daif : Z) (t : task_ref) : M sched unit :=
  task <- get_task t;;
  let sp := u64 (align_down_16 (u64 (stack_base task + stack_size task)) - FRAME_SIZE) in
  modify (fun s => set_frames (<[sp := new_frame task_trampoline daif (u64 (stack_base task + stack_size task))]> (frames s)) s);;
  update_task t (set_task_sp sp).

Definition task_init : M sched unit :=
  initialized <- gets task_initialized;;
  if (initialized : bool) then ret tt
  else
    modify (set_task_table (replicate (Z.to_nat TASK_MAX) zero_task));;
    modify (set_kernel_task (Task (Some (cstr "kernel")) 0 0 0 0 0 TASK_RUNNING));;
    modify (set_current_task (Some KernelTask));;
    modify (set_task_initialized true).

(** The search for an unused entry. *)
Fixpoint task_unused_loop (fuel : nat) (i : Z) (table : list task) : option (option Z) :=
  match fuel with
  | O => Some None
  | S fuel' =>
      t ← rd table i;
      if decide (state t = TASK_UNUSED) then Some (Some i) else task_unused_loop fuel' (i + 1) table
  end.

Section operations.
Context (plat : platform) (task_trampoline : Z).

(** The new task, or a null pointer. [daif] is the interrupt mask register. *)
Definition task_create (daif : Z) (nm : option mem) (code code_arg : Z) : M sched (option task_ref) :=
  task_init;;
  table <- gets task_table;;
  unused <- deref (task_unused_loop (Z.to_nat TASK_MAX) 0 table);;
  match unused with
  | None => ret None
  | Some i =>
      let t := TableTask i in
      base <- zoom heap set_heap (kmalloc plat TASK_STACK_SIZE);;
      update_task t (fun k => Task (task_name k) (task_sp k) (entry k) (arg k) base (stack_size k) (state k));;
      if base =? 0 then ret None
      else
        update_task t (fun k => Task nm (task_sp k) code code_arg base TASK_STACK_SIZE TASK_READY);;
        task_prepare_stack task_trampoline daif t;;
        ret (Some t)
  end.

End operations.

Definition task_active_count : M sched Z :=
  task_init;;
  table <- gets task_table;;
  ret (u64 (lenZ (filter (fun t => state t = TASK_READY \/ state t = TASK_RUNNING) table))).

Definition task_time_slice_ticks : Z := TASK_TIME_SLICE_TICKS.

(** [frame] is the address of the frame the exception entry saved; the result
    is that of the frame to return from. *)
Definition task_schedule_from_exception (frame : Z) (current_can_continue : bool) : M sched Z :=
  task_init;;
  previous <- the_current_task;;
  update_task previous (set_task_sp frame);;
  next <- task_pick_next;;
  match next with
  | None => ret frame
  | Some n =>
      if decide (n = previous) then ret frame
      else
        p <- get_task previous;;
        (if current_can_continue && bool_decide (state p = TASK_RUNNING)
         then update_task previous (set_state TASK_READY) else ret tt);;
        update_task n (set_state TASK_RUNNING);;
        modify (set_current_task (Some n));;
        t <- get_task n;;
        ret (task_sp t)
  end.

Definition task_exit_from_exception (frame status : Z) : M sched Z :=
  task_init;;
  previous <- the_current_task;;
  update_task previous (set_task_sp frame);;
  if decide (previous = KernelTask) then
    fs <- gets frames;;
    f <- deref (fs !! frame);;
    x' <- deref (wr (x f) 0 status);;
    modify (set_frames (<[frame := set_x x' f]> fs));;
    ret frame
  else
    task_mark_finished previous;;
    next <- task_pick_next;;
    match next with
    | None =>
        update_task KernelTask (set_state TASK_RUNNING);;
        modify (set_current_task (Some KernelTask));;
        t <- get_task KernelTask;;
        ret (task_sp t)
    | Some n =>
        update_task n (set_state TASK_RUNNING);;
        modify (set_current_task (Some n));;
        t <- get_task n;;
        ret (task_sp t)
    end.

(** [task_yield]: its [svc #0] enters the scheduler with the frame the
    exception entry saved at [frame]. *)
Definition task_yield (frame : Z) : M sched Z := task_init;; task_schedule_from_exception frame true.

(** [task_trampoline] once the task's function has returned. *)
Definition task_trampoline_end (frame : Z) : M sched Z :=
  cur <- the_current_task;;
  task_mark_finished cur;;
  task_yield frame.

(** ** The choice of the next task *)

(** How far behind entry [ci] entry [k] comes, going round the table. *)
Definition distance (ci k : Z) : Z := (k - ci - 1) mod 8.

Definition ready (table : list task) (i : Z) : Prop := exists t, rd table i = Some t /\ state t = TASK_READY.

(** Entry [j] is the first ready one behind [ci]. *)
Definition first_ready (table : list task) (ci j : Z) : Prop :=
  0 <= j < 8 /\ ready table j /\ forall k, 0 <= k < 8 -> distance ci k < distance ci j -> ~ ready table k.

Lemma distance_bound ci k : 0 <= distance ci k < 8.
Proof. apply Z.mod_pos_bound. lia. Qed.

Lemma task_pick_loop_spec n table ci i :
  lenZ table = 8 -> -1 <= ci < 8 -> 1 <= i -> i + Z.of_nat n = 9 ->
  (forall k, 0 <= k < 8 -> distance ci k < i - 1 -> ~ ready table k) ->
  exists r, task_pick_loop n ci i table = Some r /\
    match r with Some j => first_ready table ci j | None => forall k, 0 <= k < 8 -> ~ ready table k end.
Proof.
  intros Hlen Hci. revert i. induction n as [|n IH]; intros i Hi Hn Hbefore; cbn [task_pick_loop].
  { exists None. split; [done|]. intros k Hk. apply Hbefore; [done|]. pose proof (distance_bound ci k). lia. }
  unfold TASK_MAX. rewrite Z.rem_mod_nonneg by lia. set (cand := (ci + i + 8) mod 8).
  assert (Hc : 0 <= cand < 8) by (apply Z.mod_pos_bound; lia).
  assert (Hdist : distance ci cand = i - 1) by (unfold distance, cand; Z.to_euclidean_division_equations; lia).
  assert (Huniq : forall k, 0 <= k < 8 -> distance ci k = i - 1 -> k = cand)
    by (intros k Hk Hd; unfold distance, cand in *; Z.to_euclidean_division_equations; lia).
  destruct (rd_Some table cand) as [t Ht]; [lia|]. rewrite Ht. cbn [mbind option_bind].
  destruct (decide (state t = TASK_READY)) as [Hr|Hr].
  - exists (Some cand). split; [done|]. split; [done|]. split; [by exists t|]. rewrite Hdist. exact Hbefore.
  - apply IH; [lia|lia|]. intros k Hk Hd. destruct (Z.eq_dec (distance ci k) (i - 1)) as [He|Hne]; [|apply Hbefore; lia].
    rewrite (Huniq k Hk He). intros (t' & Ht' & Hr'). congruence.
Qed.

(** ** The invariant *)

Definition valid_ref (r : task_ref) : Prop := match r with KernelTask => True | TableTask i => 0 <= i < 8 end.

Definition task_at (s : sched) (r : task_ref) : option task :=
  match r with KernelTask => Some (kernel_task s) | TableTask i => rd (task_table s) i end.
Definition put_task (r : task_ref) (t : task) (s : sched) : sched :=
  match r with
  | KernelTask => set_kernel_task t s
  | TableTask i => set_task_table (<[Z.to_nat i := t]> (task_table s)) s
  end.

(** Exactly the current task [c] is running, and the kernel's own task is
    always either running or ready. *)
Record sched_wf (s : sched) (c : task_ref) : Prop := {
  sw_init : task_initialized s = true;
  sw_len : lenZ (task_table s) = 8;
  sw_current : current_task s = Some c;
  sw_valid : valid_ref c;
  sw_kernel : state (kernel_task s) = if decide (c = KernelTask) then TASK_RUNNING else TASK_READY;
  sw_running : forall i t, rd (task_table s) i = Some t -> (state t = TASK_RUNNING <-> c = TableTask i)
}.

Lemma task_at_Some s r : lenZ (task_table s) = 8 -> valid_ref r -> exists t, task_at s r = Some t.
Proof. intros Hl Hr. destruct r as [|i]; [by eexists|]. apply rd_Some. simpl in Hr. lia. Qed.

Lemma get_task_run s r t : task_at s r = Some t -> get_task r s = Ret t s [].
Proof. destruct r as [|i]; simpl; [by intros [= <-]|]. intros Ht. krun. by rewrite Ht. Qed.

Lemma update_task_run s r t f : task_at s r = Some t -> update_task r f s = Ret tt (put_task r (f t) s) [].
Proof.
  destruct r as [|i]; simpl; [by intros [= <-]|]. intros Ht. pose proof (rd_inv _ _ _ Ht) as Hi. krun.
  rewrite (bind_deref_Some _ _ _ _ Ht), (bind_deref_Some _ _ _ _ (wr_Some _ _ (f t) Hi)). by krun.
Qed.

Lemma task_at_put s r t r' :
  lenZ (task_table s) = 8 -> valid_ref r -> 
  task_at (put_task r t s) r' = if decide (r' = r) then Some t else task_at s r'.
Proof.
  intros Hl Hr. destruct (decide (r' = r)) as [->|Hne].
  - destruct r as [|i]; simpl in *; [done|]. unfold rd. rewrite (proj2 (Z.leb_le 0 i)) by lia.
    apply list_lookup_insert_eq. unfold lenZ in Hl. lia.
  - destruct r as [|i], r' as [|j]; simpl in *; try done. unfold rd. destruct (Z.leb_spec 0 j); [|done].
    apply list_lookup_insert_ne. intros He. apply Hne. f_equal. lia.
Qed.

Lemma put_task_len s r t : lenZ (task_table (put_task r t s)) = lenZ (task_table s).
Proof. destruct r as [|i]; [done|]. unfold lenZ. simpl. by rewrite length_insert. Qed.

Lemma put_task_misc s r t :
  current_task (put_task r t s) = current_task s /\ task_initialized (put_task r t s) = task_initialized s /\
  frames (put_task r t s) = frames s /\ heap (put_task r t s) = heap s.
Proof. by destruct r. Qed.

Lemma task_init_run s c : sched_wf s c -> task_init s = Ret tt s [].
Proof. intros [Hi _ _ _ _ _]. unfold task_init. krun. by rewrite Hi. Qed.

Lemma the_current_task_run s c : current_task s = Some c -> the_current_task s = Ret c s [].
Proof. intros Hc. unfold the_current_task. krun. by rewrite Hc. Qed.

Lemma task_index_of_bound c : valid_ref c -> -1 <= task_index_of c < 8 /\ (c = KernelTask <-> task_index_of c = -1).
Proof.
  destruct c as [|i]; simpl; intros Hv; [split; [lia|done]|]. rewrite (proj2 (Z.leb_le 0 i)), (proj2 (Z.ltb_lt i TASK_MAX)) by (unfold TASK_MAX; lia).
  simpl. split; [lia|]. split; [done|lia].
Qed.

(** The task the scheduler goes to from [c]. *)
Definition next_task (table : list task) (c c' : task_ref) : Prop :=
  match c' with
  | TableTask j => first_ready table (task_index_of c) j
  | KernelTask => forall k, 0 <= k < 8 -> ~ ready table k
  end.

Lemma task_pick_next_run s c :
  lenZ (task_table s) = 8 -> valid_ref c -> current_task s = Some c ->
  exists c', next_task (task_table s) c c' /\
    task_pick_next s = Ret (if decide (c = KernelTask /\ c' = KernelTask) then None else Some c') s [].
Proof.
  intros Hl Hv Hc. destruct (task_index_of_bound c Hv) as [Hb _].
  destruct (task_pick_loop_spec 8 (task_table s) (task_index_of c) 1 Hl Hb) as (r & Hr & Hspec); [lia|lia| |].
  { intros k _ Hd. pose proof (distance_bound (task_index_of c) k). lia. }
  unfold task_pick_next. rewrite (bind_Ret_nil _ _ _ _ _ (the_current_task_run s c Hc)). krun.
  change (Z.to_nat TASK_MAX) with 8%nat. rewrite (bind_deref_Some _ _ _ _ Hr). destruct r as [j|].
  - exists (TableTask j). split; [done|]. by rewrite decide_False by (by intros [_ ?]).
  - exists KernelTask. split; [done|]. destruct (decide (c = KernelTask)) as [->|Hne].
    + by rewrite decide_True.
    + by rewrite decide_False by (by intros [? _]).
Qed.

(** ** A switch from one task to the next *)

Definition stepped (c c' : task_ref) (frame : Z) (st : task_state) (r : task_ref) (t : task) : task :=
  set_state (if decide (r = c') then TASK_RUNNING else if decide (r = c) then st else state t)
    (if decide (r = c) then set_task_sp frame t else t).

(** From [s] to [s'] the processor went from [c], which was suspended with
    [frame] and is [st] now, to [c']; nothing else changed. *)
Record switched (s : sched) (c c' : task_ref) (frame : Z) (st : task_state) (s' : sched) : Prop := {
  sd_wf : sched_wf s' c';
  sd_next : next_task (task_table s) c c';
  sd_tasks : forall r t, valid_ref r -> task_at s r = Some t -> task_at s' r = Some (stepped c c' frame st r t);
  sd_frames : frames s' = frames s;
  sd_heap : heap s' = heap s
}.

Lemma ready_put s r t t1 k :
  lenZ (task_table s) = 8 -> valid_ref r -> task_at s r = Some t -> state t <> TASK_READY -> state t1 <> TASK_READY ->
  ready (task_table (put_task r t1 s)) k <-> ready (task_table s) k.
Proof.
  intros Hl Hv Ht Hs Hs1. pose proof (task_at_put s r t1 (TableTask k) Hl Hv) as Hk. cbn [task_at] in Hk. unfold ready. rewrite Hk.
  destruct (decide (TableTask k = r)) as [<-|Hne]; [|done]. simpl in Ht. split; intros (u & Hu & Hr); congruence.
Qed.

Lemma next_task_put s r t t1 c c' :
  lenZ (task_table s) = 8 -> valid_ref r -> task_at s r = Some t -> state t <> TASK_READY -> state t1 <> TASK_READY ->
  next_task (task_table (put_task r t1 s)) c c' -> next_task (task_table s) c c'.
Proof.
  intros Hl Hv Ht Hs Hs1 Hn. pose proof (fun k => ready_put s r t t1 k Hl Hv Ht Hs Hs1) as Hr. destruct c' as [|j]; simpl in *.
  - intros k Hk. rewrite <- Hr. by apply Hn.
  - destruct Hn as (Hj & Hrj & Hk). split; [done|]. split; [by apply Hr|]. intros k Hb Hd. rewrite <- Hr. by apply Hk.
Qed.

Lemma next_task_valid table c c' : next_task table c c' -> valid_ref c'.
Proof. destruct c' as [|j]; simpl; [done|]. by intros [? _]. Qed.

(** Going to [c']. *)
Lemma go_run s c' t :
  lenZ (task_table s) = 8 -> valid_ref c' -> task_at s c' = Some t ->
  (update_task c' (set_state TASK_RUNNING);; modify (set_current_task (Some c'));; t <- get_task c';; ret (task_sp t)) s =
    Ret (task_sp t) (set_current_task (Some c') (put_task c' (set_state TASK_RUNNING t) s)) [].
Proof.
  intros Hl Hv Ht. rewrite (bind_Ret_nil _ _ _ _ _ (update_task_run s c' t _ Ht)). krun.
  assert (Hg : get_task c' (set_current_task (Some c') (put_task c' (set_state TASK_RUNNING t) s)) =
    Ret (set_state TASK_RUNNING t) (set_current_task (Some c') (put_task c' (set_state TASK_RUNNING t) s)) []).
  { apply get_task_run. pose proof (task_at_put s c' (set_state TASK_RUNNING t) c' Hl Hv) as Hp. rewrite decide_True in Hp by done.
    by destruct c'. }
  by rewrite (bind_Ret_nil _ _ _ _ _ Hg).
Qed.

(** The state behind a switch, given what was stored into [c] before. *)
Lemma switched_go s c c' frame st t t' :
  sched_wf s c -> next_task (task_table s) c c' -> c' <> c -> task_at s c = Some t -> task_at s c' = Some t' ->
  st <> TASK_RUNNING -> (c = KernelTask -> st = TASK_READY) ->
  switched s c c' frame st
    (set_current_task (Some c') (put_task c' (set_state TASK_RUNNING t') (put_task c (set_state st (set_task_sp frame t)) s))).
Proof.
  intros Hwf Hn Hne Ht Ht' Hst Hk. pose proof Hwf as [Hi Hl Hc Hv Hker Hrun]. pose proof (next_task_valid _ _ _ Hn) as Hv'.
  set (s1 := put_task c (set_state st (set_task_sp frame t)) s). set (s2 := put_task c' _ s1).
  assert (Hl1 : lenZ (task_table s1) = 8) by (unfold s1; by rewrite put_task_len).
  assert (Htasks : forall r u, valid_ref r -> task_at s r = Some u -> task_at (set_current_task (Some c') s2) r = Some (stepped c c' frame st r u)).
  { intros r u Hr Hu. transitivity (task_at s2 r); [by destruct r|]. unfold s2, stepped. rewrite (task_at_put s1 c' _ r Hl1 Hv').
    destruct (decide (r = c')) as [->|Hrc'].
    - rewrite decide_False by done. f_equal. rewrite Ht' in Hu. by injection Hu as ->.
    - unfold s1. rewrite (task_at_put s c _ r Hl Hv). destruct (decide (r = c)) as [->|Hrc].
      + rewrite Ht in Hu. by injection Hu as ->.
      + rewrite Hu. by destruct u. }
  split; [|done|exact Htasks| |].
  - destruct (put_task_misc s c (set_state st (set_task_sp frame t))) as (_ & Hi1 & _). fold s1 in Hi1.
    destruct (put_task_misc s1 c' (set_state TASK_RUNNING t')) as (_ & Hi2 & _). fold s2 in Hi2.
    split; cbn [task_initialized task_table kernel_task current_task set_current_task].
    + congruence.
    + unfold s2. by rewrite put_task_len.
    + done.
    + done.
    + pose proof (Htasks KernelTask (kernel_task s) I eq_refl) as Hkt. cbn [task_at] in Hkt. injection Hkt as ->.
      unfold stepped. destruct (decide (c' = KernelTask)) as [->|Hc'].
      * by rewrite decide_True.
      * rewrite decide_False by congruence. destruct (decide (KernelTask = c)) as [<-|Hkc]; cbn; [by apply Hk|].
        rewrite Hker. by rewrite decide_False by congruence.
    + intros i u Hu. assert (Hvi : valid_ref (TableTask i)).
      { pose proof (rd_inv _ _ _ Hu) as Hb. unfold s2 in Hb. rewrite put_task_len, Hl1 in Hb. exact Hb. }
      destruct (task_at_Some s (TableTask i) Hl Hvi) as [u0 Hu0]. pose proof (Htasks _ _ Hvi Hu0) as Hs. cbn [task_at task_table set_current_task] in Hs.
      rewrite Hu in Hs. injection Hs as ->. unfold stepped. cbn [state set_state].
      destruct (decide (TableTask i = c')) as [<-|Hic']; [done|]. destruct (decide (TableTask i = c)) as [<-|Hic]; [split; [done|congruence]|].
      split; [|congruence]. intros Hr. apply (Hrun i u0 Hu0) in Hr. congruence.
  - unfold s2, s1. by destruct c, c'.
  - unfold s2, s1. by destruct c, c'.
Qed.

Lemma put_put r t1 t2 s : put_task r t2 (put_task r t1 s) = put_task r t2 s.
Proof. destruct r as [|i]; [done|]. unfold put_task, set_task_table. simpl. by rewrite list_insert_insert_eq. Qed.

Lemma put_same r t s : task_at s r = Some t -> put_task r t s = s.
Proof.
  destruct r as [|i], s; simpl; [by intros [= ->]|]. unfold rd, set_task_table. simpl.
  destruct (0 <=? i); [|done]. intros Hi. by rewrite list_insert_id.
Qed.

(** ** The operations *)

Lemma running_not_ready s c t : sched_wf s c -> task_at s c = Some t -> state t = TASK_RUNNING.
Proof.
  intros [Hi Hl Hc Hv Hker Hrun] Ht. destruct c as [|i]; simpl in Ht.
  - injection Ht as <-. rewrite Hker. by rewrite decide_True.
  - by apply (Hrun i t Ht).
Qed.

(** An entry that is ready or the kernel is another task. *)
Lemma next_task_other s c c' :
  sched_wf s c -> next_task (task_table s) c c' -> c' <> KernelTask -> c' <> c.
Proof.
  intros Hwf Hn Hk ->. destruct c as [|i]; [done|]. destruct Hn as (_ & (t & Ht & Hr) & _).
  pose proof (running_not_ready s _ t Hwf Ht). congruence.
Qed.

Lemma wf_current s s' c : sched_wf s c -> current_task s' = current_task s -> current_task s' = Some c.
Proof. intros [_ _ Hc _ _ _] He. congruence. Qed.

(** [task_schedule_from_exception]: it always returns, and resumes the next
    task with the frame that task was suspended with. *)
Lemma schedule_ok s c frame :
  sched_wf s c -> exists c' s' t', switched s c c' frame TASK_READY s' /\ task_at s' c' = Some t' /\
    task_schedule_from_exception frame true s = Ret (task_sp t') s' [].
Proof.
  intros Hwf. pose proof Hwf as [Hi Hl Hc Hv Hker Hrun]. destruct (task_at_Some s c Hl Hv) as [t Ht].
  pose proof (running_not_ready s c t Hwf Ht) as Hst. unfold task_schedule_from_exception.
  rewrite (bind_Ret_nil _ _ _ _ _ (task_init_run s c Hwf)), (bind_Ret_nil _ _ _ _ _ (the_current_task_run s c Hc)).
  rewrite (bind_Ret_nil _ _ _ _ _ (update_task_run s c t _ Ht)). set (s1 := put_task c (set_task_sp frame t) s).
  assert (Hl1 : lenZ (task_table s1) = 8) by (unfold s1; by rewrite put_task_len).
  assert (Hc1 : current_task s1 = Some c) by (unfold s1; by destruct c).
  destruct (task_pick_next_run s1 c Hl1 Hv Hc1) as (c' & Hn1 & Hpick). rewrite (bind_Ret_nil _ _ _ _ _ Hpick).
  assert (Hn : next_task (task_table s) c c').
  { apply (next_task_put s c t (set_task_sp frame t)); try done; cbn; congruence. }
  pose proof (task_at_put s c (set_task_sp frame t)) as Hput. fold s1 in Hput.
  destruct (decide (c = KernelTask /\ c' = KernelTask)) as [[-> ->]|Hnk].
  - exists KernelTask, s1, (set_task_sp frame t). split; [|split; [|done]].
    + split; [|done| |done|done].
      * by split.
      * intros r u Hr Hu. rewrite (Hput r Hl Hv). unfold stepped. destruct (decide (r = KernelTask)) as [->|Hrk]; [|by destruct u].
        injection Ht as <-. injection Hu as <-. f_equal.
        unfold set_state, set_task_sp. cbn. by rewrite Hst.
    + rewrite (Hput _ Hl Hv). by rewrite decide_True.
  - assert (Hne : c' <> c). { intros ->. destruct c as [|i]; [by apply Hnk|]. by apply (next_task_other s (TableTask i) (TableTask i) Hwf Hn). }
    rewrite decide_False by done. destruct (task_at_Some s c' Hl (next_task_valid _ _ _ Hn)) as [t' Ht'].
    assert (Htc : task_at s1 c = Some (set_task_sp frame t)) by (rewrite (Hput _ Hl Hv); by rewrite decide_True).
    rewrite (bind_Ret_nil _ _ _ _ _ (get_task_run s1 c _ Htc)). cbn [state set_task_sp]. rewrite Hst, bool_decide_eq_true_2 by done. cbn [andb].
    rewrite (bind_Ret_nil _ _ _ _ _ (update_task_run s1 c _ _ Htc)). unfold s1. rewrite put_put.
    set (s2 := put_task c _ s). assert (Hl2 : lenZ (task_table s2) = 8) by (unfold s2; by rewrite put_task_len).
    assert (Ht2 : task_at s2 c' = Some t').
    { unfold s2. rewrite (task_at_put s c _ c' Hl Hv). by rewrite decide_False. }
    rewrite (go_run s2 c' t' Hl2 (next_task_valid _ _ _ Hn) Ht2).
    pose proof (switched_go s c c' frame TASK_READY t t' Hwf Hn Hne Ht Ht' ltac:(done) ltac:(done)) as Hsw. fold s2 in Hsw.
    eexists c', _, (stepped c c' frame TASK_READY c' t'). split; [exact Hsw|]. split; [by apply (sd_tasks _ _ _ _ _ _ Hsw); [eapply next_task_valid|]|].
    unfold stepped. rewrite (decide_True (P := c' = c')) by done. rewrite !(decide_False (P := c' = c)) by done. by destruct t'.
Qed.

(** A task of the table that ends: marked finished, it gives the processor to
    the next task. *)
Lemma finish_core s c frame t :
  sched_wf s c -> c <> KernelTask -> task_at s c = Some t ->
  let s2 := put_task c (set_state TASK_FINISHED (set_task_sp frame t)) s in
  exists c' s' t', switched s c c' frame TASK_FINISHED s' /\ task_at s' c' = Some t' /\ c' <> c /\
    task_pick_next s2 = Ret (Some c') s2 [] /\
    (update_task c' (set_state TASK_RUNNING);; modify (set_current_task (Some c'));; t <- get_task c';; ret (task_sp t)) s2 =
      Ret (task_sp t') s' [].
Proof.
  intros Hwf Hk Ht s2. pose proof Hwf as [Hi Hl Hc Hv Hker Hrun].
  pose proof (running_not_ready s c t Hwf Ht) as Hst.
  assert (Hl2 : lenZ (task_table s2) = 8) by (unfold s2; by rewrite put_task_len).
  assert (Hc2 : current_task s2 = Some c) by (unfold s2; by destruct c).
  destruct (task_pick_next_run s2 c Hl2 Hv Hc2) as (c' & Hn2 & Hpick). rewrite decide_False in Hpick by (by intros [? _]).
  assert (Hn : next_task (task_table s) c c').
  { apply (next_task_put s c t (set_state TASK_FINISHED (set_task_sp frame t))); try done; congruence. }
  assert (Hne : c' <> c) by (destruct c'; [done|by apply (next_task_other s)]).
  destruct (task_at_Some s c' Hl (next_task_valid _ _ _ Hn)) as [t' Ht'].
  assert (Ht2 : task_at s2 c' = Some t') by (unfold s2; rewrite (task_at_put s c _ c' Hl Hv); by rewrite decide_False).
  pose proof (switched_go s c c' frame TASK_FINISHED t t' Hwf Hn Hne Ht Ht' ltac:(done) ltac:(done)) as Hsw. fold s2 in Hsw.
  eexists c', _, (stepped c c' frame TASK_FINISHED c' t'). split; [exact Hsw|].
  split; [by apply (sd_tasks _ _ _ _ _ _ Hsw); [eapply next_task_valid|]|]. split; [done|]. split; [done|].
  rewrite (go_run s2 c' t' Hl2 (next_task_valid _ _ _ Hn) Ht2).
  unfold stepped. rewrite (decide_True (P := c' = c')) by done. rewrite !(decide_False (P := c' = c)) by done. by destruct t'.
Qed.

Lemma exit_ok s c frame status :
  sched_wf s c -> c <> KernelTask -> exists c' s' t', switched s c c' frame TASK_FINISHED s' /\ task_at s' c' = Some t' /\ c' <> c /\
    task_exit_from_exception frame status s = Ret (task_sp t') s' [].
Proof.
  intros Hwf Hk. pose proof Hwf as [Hi Hl Hc Hv Hker Hrun]. destruct (task_at_Some s c Hl Hv) as [t Ht].
  destruct (finish_core s c frame t Hwf Hk Ht) as (c' & s' & t' & Hsw & Ht' & Hne & Hpick & Hgo).
  exists c', s', t'. split; [done|]. split; [done|]. split; [done|]. unfold task_exit_from_exception.
  rewrite (bind_Ret_nil _ _ _ _ _ (task_init_run s c Hwf)), (bind_Ret_nil _ _ _ _ _ (the_current_task_run s c Hc)).
  rewrite (bind_Ret_nil _ _ _ _ _ (update_task_run s c t _ Ht)). rewrite decide_False by done. unfold task_mark_finished.
  assert (Htc : task_at (put_task c (set_task_sp frame t) s) c = Some (set_task_sp frame t)).
  { rewrite (task_at_put s c _ c Hl Hv). by rewrite decide_True. }
  rewrite (bind_Ret_nil _ _ _ _ _ (update_task_run _ c _ _ Htc)), put_put, (bind_Ret_nil _ _ _ _ _ Hpick). exact Hgo.
Qed.

Lemma trampoline_end_ok s c frame :
  sched_wf s c -> c <> KernelTask -> exists c' s' t', switched s c c' frame TASK_FINISHED s' /\ task_at s' c' = Some t' /\ c' <> c /\
    task_trampoline_end frame s = Ret (task_sp t') s' [].
Proof.
  intros Hwf Hk. pose proof Hwf as [Hi Hl Hc Hv Hker Hrun]. destruct (task_at_Some s c Hl Hv) as [t Ht].
  destruct (finish_core s c frame t Hwf Hk Ht) as (c' & s' & t' & Hsw & Ht' & Hne & Hpick & Hgo).
  exists c', s', t'. split; [done|]. split; [done|]. split; [done|]. unfold task_trampoline_end, task_mark_finished, task_yield.
  rewrite (bind_Ret_nil _ _ _ _ _ (the_current_task_run s c Hc)), (bind_Ret_nil _ _ _ _ _ (update_task_run s c t _ Ht)).
  set (s1 := put_task c (set_state TASK_FINISHED t) s).
  assert (Hinit : task_init s1 = Ret tt s1 []) by (unfold task_init; krun; unfold s1; destruct c; cbn; by rewrite Hi).
  assert (Hc1 : current_task s1 = Some c) by (unfold s1; by destruct c).
  assert (Htc : task_at s1 c = Some (set_state TASK_FINISHED t)) by (unfold s1; rewrite (task_at_put s c _ c Hl Hv); by rewrite decide_True).
  rewrite (bind_Ret_nil _ _ _ _ _ Hinit). unfold task_schedule_from_exception.
  rewrite (bind_Ret_nil _ _ _ _ _ Hinit), (bind_Ret_nil _ _ _ _ _ (the_current_task_run s1 c Hc1)).
  rewrite (bind_Ret_nil _ _ _ _ _ (update_task_run s1 c _ _ Htc)). unfold s1. rewrite put_put.
  change (set_task_sp frame (set_state TASK_FINISHED t)) with (set_state TASK_FINISHED (set_task_sp frame t)).
  rewrite (bind_Ret_nil _ _ _ _ _ Hpick). rewrite decide_False by done.
  assert (Ht2 : task_at (put_task c (set_state TASK_FINISHED (set_task_sp frame t)) s) c = Some (set_state TASK_FINISHED (set_task_sp frame t))).
  { rewrite (task_at_put s c _ c Hl Hv). by rewrite decide_True. }
  rewrite (bind_Ret_nil _ _ _ _ _ (get_task_run _ c _ Ht2)). cbn [state set_state]. rewrite bool_decide_eq_false_2 by done. cbn [andb].
  krun. exact Hgo.
Qed.

(** ** Creating a task *)

Section create.
Context (plat : platform) (task_trampoline : Z).

Definition unused_at (s : sched) (i : Z) : Prop := exists t, rd (task_table s) i = Some t /\ state t = TASK_UNUSED.

Lemma task_unused_loop_spec n i s :
  lenZ (task_table s) = 8 -> 0 <= i -> i + Z.of_nat n = 8 ->
  exists r, task_unused_loop n i (task_table s) = Some r /\
    match r with
    | Some j => i <= j < 8 /\ unused_at s j /\ forall k, i <= k < j -> ~ unused_at s k
    | None => forall k, i <= k < 8 -> ~ unused_at s k
    end.
Proof.
  intros Hl. revert i. induction n as [|n IH]; intros i Hi Hn; cbn [task_unused_loop].
  { exists None. split; [done|]. intros k Hk. lia. }
  destruct (rd_Some (task_table s) i) as [t Ht]; [lia|]. rewrite Ht. cbn [mbind option_bind].
  destruct (decide (state t = TASK_UNUSED)) as [Hu|Hu].
  - exists (Some i). split; [done|]. split; [lia|]. split; [by exists t|]. intros k Hk. lia.
  - assert (Hno : ~ unused_at s i) by (intros (t' & Ht' & Hu'); congruence).
    destruct (IH (i + 1)) as (r & Hr & Hspec); [lia|lia|]. exists r. split; [done|]. destruct r as [j|].
    + destruct Hspec as (Hj & Huj & Hk). split; [lia|]. split; [done|]. intros k Hb.
      destruct (Z.eq_dec k i) as [->|]; [done|]. apply Hk. lia.
    + intros k Hk. destruct (Z.eq_dec k i) as [->|]; [done|]. apply Hspec. lia.
Qed.

(** The entry of a task that was just created with the stack at [base]. *)
Definition created_task (nm : option mem) (code code_arg base : Z) : task :=
  Task nm (base + TASK_STACK_SIZE - FRAME_SIZE) code code_arg base TASK_STACK_SIZE TASK_READY.

(** What creation promises: a new ready task in the lowest unused entry, on an
    aligned stack of its own inside the heap with a first frame that enters
    the trampoline; or a null pointer when no entry is unused, or the heap has
    no room for a stack, and then no task changed its state or frame. *)
Definition create_result (s : sched) (daif : Z) (nm : option mem) (code code_arg : Z) (r : option task_ref) (s' : sched) : Prop :=
  match r with
  | Some t => exists i base, t = TableTask i /\ 0 <= i < 8 /\ unused_at s i /\ (forall k, 0 <= k < i -> ~ unused_at s k) /\
      base = heap_current (heap s) /\ base mod 16 = 0 /\ 0 < base /\
      base + TASK_STACK_SIZE <= heap_current (heap s') <= heap_limit (heap s) /\
      (forall r', valid_ref r' -> task_at s' r' = if decide (r' = t) then Some (created_task nm code code_arg base) else task_at s r') /\
      frames s' = <[base + TASK_STACK_SIZE - FRAME_SIZE :=
        new_frame task_trampoline daif (base + TASK_STACK_SIZE)]> (frames s)
  | None => frames s' = frames s /\ heap s' = heap s /\
      (forall r' t, valid_ref r' -> task_at s r' = Some t ->
         exists t', task_at s' r' = Some t' /\ state t' = state t /\ task_sp t' = task_sp t /\ (state t <> TASK_UNUSED -> t' = t)) /\
      ((forall k, 0 <= k < 8 -> ~ unused_at s k) \/ heap_limit (heap s) - heap_current (heap s) < TASK_STACK_SIZE)
  end.

Lemma put_wf s c i t t1 :
  sched_wf s c -> 0 <= i < 8 -> rd (task_table s) i = Some t -> state t <> TASK_RUNNING -> state t1 <> TASK_RUNNING ->
  sched_wf (put_task (TableTask i) t1 s) c.
Proof.
  intros [Hi Hl Hc Hv Hker Hrun] Hb Ht Hs Hs1. split; try done; [by rewrite put_task_len|]. intros j u Hu.
  pose proof (task_at_put s (TableTask i) t1 (TableTask j) Hl Hb) as Hp. cbn [task_at] in Hp. rewrite Hu in Hp.
  destruct (decide (TableTask j = TableTask i)) as [[= ->]|Hne].
  - injection Hp as ->. split; [done|]. intros ->. destruct Hs. by apply (Hrun i t Ht).
  - by apply Hrun.
Qed.

Lemma task_create_ok s c daif nm code code_arg :
  sched_wf s c -> heap_wf (heap s) -> 
  exists r s', task_create plat task_trampoline daif nm code code_arg s = Ret r s' [] /\
    sched_wf s' c /\ heap_wf (heap s') /\ create_result s daif nm code code_arg r s'.
Proof.
  intros Hwf Hheap. pose proof Hwf as [Hi Hl Hc Hv Hker Hrun]. unfold task_create.
  rewrite (bind_Ret_nil _ _ _ _ _ (task_init_run s c Hwf)). krun.
  destruct (task_unused_loop_spec (Z.to_nat TASK_MAX) 0 s Hl) as (r & Hr & Hspec); [lia|done|].
  rewrite (bind_deref_Some _ _ _ _ Hr). destruct r as [i|].
  2:{ exists None, s. split; [done|]. split; [done|]. split; [done|]. split; [done|]. split; [done|].
      split; [intros r' t Hr' Ht; by exists t|]. by left. }
  destruct Hspec as (Hib & (t & Ht & Hu) & Hlow). cbn zeta.
  destruct (kmalloc_cases plat (heap s) TASK_STACK_SIZE Hheap) as (base & h' & Hk & Hh' & Hbase); [unfold small_size, TASK_STACK_SIZE; lia|].
  rewrite (bind_Ret_nil _ _ _ _ _ (zoom_Ret heap set_heap _ s _ _ _ Hk)). set (s1 := set_heap h' s).
  assert (Hwf1 : sched_wf s1 c) by (by split). assert (Ht1 : task_at s1 (TableTask i) = Some t) by done.
  rewrite (bind_Ret_nil _ _ _ _ _ (update_task_run s1 _ t _ Ht1)). cbn beta.
  change (align_up_16 TASK_STACK_SIZE) with 16384 in Hbase. unfold TASK_STACK_SIZE in *. destruct Hh' as [Hh1 Hh2 Hh3 Hh4].
  destruct (Z.ltb_spec (heap_limit (heap s) - heap_current (heap s)) 16384) as [Hfull|Hroom].
  - destruct Hbase as [-> ->]. change (0 =? 0) with true. cbn iota.
    eexists None, _. split; [reflexivity|]. split; [by apply (put_wf s1 c i t); [done..|congruence|cbn; congruence]|].
    split; [done|]. split; [done|]. split; [done|]. split; [|by right].
    intros r' u Hr' Hru. rewrite (task_at_put s1 (TableTask i) _ r' Hl) by done.
    destruct (decide (r' = TableTask i)) as [->|]; [|by exists u]. eexists. split; [reflexivity|].
    cbn [task_at] in Hru. rewrite Ht in Hru. by injection Hru as <-.
  - destruct Hbase as (Hb1 & Hb2 & Hb3 & Hb4 & Hb5). rewrite (proj2 (Z.eqb_neq base 0)) by lia.
    set (t1 := Task (task_name t) (task_sp t) (entry t) (arg t) base (stack_size t) (state t)).
    set (s2 := put_task (TableTask i) t1 s1). assert (Hl2 : lenZ (task_table s2) = 8) by (unfold s2; by rewrite put_task_len).
    assert (Hvi : valid_ref (TableTask i)) by done.
    assert (Ht2 : task_at s2 (TableTask i) = Some t1) by (unfold s2; rewrite (task_at_put s1 _ _ _ Hl Hvi); by rewrite decide_True).
    rewrite (bind_Ret_nil _ _ _ _ _ (update_task_run s2 _ t1 _ Ht2)). cbn beta. unfold s2. rewrite put_put. cbn [task_sp t1].
    set (t3 := Task nm (task_sp t) code code_arg base 16384 TASK_READY). set (s3 := put_task (TableTask i) t3 s1).
    assert (Hl3 : lenZ (task_table s3) = 8) by (unfold s3; by rewrite put_task_len).
    assert (Ht3 : task_at s3 (TableTask i) = Some t3) by (unfold s3; rewrite (task_at_put s1 _ _ _ Hl Hvi); by rewrite decide_True).
    assert (Hal : align_down_16 (base + 16384) = base + 16384).
    { unfold align_down_16. change 15 with (2 ^ 4 - 1). rewrite land_not64 by lia. change (2 ^ 4) with 16.
      pose proof (Z.div_mod (base + 16384) 16). pose proof (Z.div_mod base 16).
      assert ((base + 16384) mod 16 = 0) by (rewrite Zplus_mod, Hb2; done). lia. }
    assert (Hprep : task_prepare_stack task_trampoline daif (TableTask i) s3 =
      Ret tt (put_task (TableTask i) (created_task nm code code_arg base)
        (set_frames (<[base + 16384 - FRAME_SIZE := new_frame task_trampoline daif (base + 16384)]> (frames s)) s3)) []).
    { unfold task_prepare_stack. rewrite (bind_Ret_nil _ _ _ _ _ (get_task_run s3 _ _ Ht3)). cbn [stack_base stack_size t3]. cbn zeta.
      rewrite (u64_small (base + 16384)) by lia. rewrite Hal. unfold FRAME_SIZE. rewrite (u64_small (base + 16384 - 304)) by lia. krun.
      rewrite (update_task_run _ (TableTask i) t3); [|exact Ht3]. done. }
    rewrite (bind_Ret_nil _ _ _ _ _ Hprep). set (s4 := put_task _ _ _). exists (Some (TableTask i)), s4. split; [done|].
    assert (Hs4 : s4 = put_task (TableTask i) (created_task nm code code_arg base)
      (set_frames (<[base + 16384 - FRAME_SIZE := new_frame task_trampoline daif (base + 16384)]> (frames s)) s1)).
    { unfold s4, s3, put_task, set_task_table, set_frames. simpl. by rewrite list_insert_insert_eq. }
    rewrite Hs4. split; [apply (put_wf _ c i t); try done; congruence|]. split; [by split|].
    exists i, base. split; [done|]. split; [lia|]. split; [by exists t|]. split; [intros k Hk'; apply Hlow; lia|].
    split; [done|]. split; [done|]. split; [done|]. unfold TASK_STACK_SIZE. split; [simpl; lia|]. split; [|done].
    intros r' Hr'. rewrite (task_at_put (set_frames _ s1) (TableTask i) _ r' Hl Hvi). by destruct r'.
Qed.

End create.

(** ** Runs of the scheduler *)

Section runs.
Context (plat : platform) (task_trampoline : Z).

(** A switch: the timer or a yield, a task that returns, a task that exits. *)
Inductive switch_step (s : sched) : sched -> Prop :=
| switch_preempt frame r s' o : task_schedule_from_exception frame true s = Ret r s' o -> switch_step s s'
| switch_return frame r s' o :
    current_task s <> Some KernelTask -> task_trampoline_end frame s = Ret r s' o -> switch_step s s'
| switch_exit frame status r s' o :
    current_task s <> Some KernelTask -> task_exit_from_exception frame status s = Ret r s' o -> switch_step s s'.

(** The running task creates a task. *)
Inductive create_step (s : sched) : sched -> Prop :=
| create daif nm code code_arg r s' o : task_create plat task_trampoline daif nm code code_arg s = Ret r s' o -> create_step s s'.

Definition task_step (s s' : sched) : Prop := switch_step s s' \/ create_step s s'.

(** A heap and the tables as [task_init] first finds them. *)
Definition sched_boot (s : sched) : Prop := task_initialized s = false /\ heap_wf (heap s).

Definition sched_ok (s : sched) (c : task_ref) : Prop := sched_wf s c /\ heap_wf (heap s).

Lemma switch_ok s s' c :
  sched_ok s c -> switch_step s s' -> exists c' frame st, switched s c c' frame st s' /\ st <> TASK_UNUSED.
Proof.
  intros [Hwf _] Hstep. pose proof (sw_current _ _ Hwf) as Hc. destruct Hstep as [frame r s' o He|frame r s' o Hk He|frame status r s' o Hk He].
  - destruct (schedule_ok s c frame Hwf) as (c' & s1 & t' & Hsw & _ & He1). rewrite He1 in He. injection He as _ <- _. by eexists _, _, _.
  - destruct (trampoline_end_ok s c frame Hwf) as (c' & s1 & t' & Hsw & _ & _ & He1); [congruence|].
    rewrite He1 in He. injection He as _ <- _. by eexists _, _, _.
  - destruct (exit_ok s c frame status Hwf) as (c' & s1 & t' & Hsw & _ & _ & He1); [congruence|].
    rewrite He1 in He. injection He as _ <- _. by eexists _, _, _.
Qed.

Lemma switched_sched_ok s c c' frame st s' : sched_ok s c -> switched s c c' frame st s' -> sched_ok s' c'.
Proof. intros [_ Hh] [Hwf _ _ _ Hheap]. split; [done|]. by rewrite Hheap. Qed.

Lemma create_step_ok s s' c :
  sched_ok s c -> create_step s s' ->
  sched_ok s' c /\ forall r t, valid_ref r -> task_at s r = Some t -> state t <> TASK_UNUSED ->
    exists t', task_at s' r = Some t' /\ state t' = state t /\ task_sp t' = task_sp t.
Proof.
  intros [Hwf Hh] Hstep. destruct Hstep as [daif nm code code_arg r s' o He].
  destruct (task_create_ok plat task_trampoline s c daif nm code code_arg Hwf Hh) as (r1 & s1 & He1 & Hwf1 & Hh1 & Hres).
  rewrite He1 in He. injection He as _ <- _. split; [done|]. intros r' t Hv Ht Hu. destruct r1 as [t1|].
  - destruct Hres as (i & base & -> & Hi & (u & Hu1 & Hu2) & _ & _ & _ & _ & _ & Hall & _). rewrite (Hall r' Hv).
    rewrite decide_False; [by exists t|]. intros ->. cbn [task_at] in Ht. congruence.
  - destruct Hres as (_ & _ & Hall & _). destruct (Hall r' t Hv Ht) as (t' & Ht' & Hs' & Hsp & _). by exists t'.
Qed.

(** Finished stays finished. *)
Lemma finished_stays s s' c r t :
  sched_ok s c -> task_step s s' -> valid_ref r -> task_at s r = Some t -> state t = TASK_FINISHED ->
  exists t', task_at s' r = Some t' /\ state t' = TASK_FINISHED.
Proof.
  intros Hok [Hstep|Hstep] Hv Ht Hf.
  - destruct (switch_ok s s' c Hok Hstep) as (c' & frame & st & Hsw & _). exists (stepped c c' frame st r t).
    split; [by apply (sd_tasks _ _ _ _ _ _ Hsw)|]. unfold stepped. cbn [state set_state].
    pose proof (sd_next _ _ _ _ _ _ Hsw) as Hn. destruct Hok as [Hwf _].
    destruct (decide (r = c')) as [->|_].
    + exfalso. destruct c' as [|j].
      * injection Ht as <-. pose proof (sw_kernel _ _ Hwf) as Hk. destruct (decide (c = KernelTask)); congruence.
      * destruct Hn as (_ & (u & Hu & Hr) & _). cbn [task_at] in Ht. congruence.
    + destruct (decide (r = c)) as [->|_]; [|done]. exfalso. pose proof (running_not_ready s c t Hwf Ht). congruence.
  - destruct (create_step_ok s s' c Hok Hstep) as [_ Hall]. destruct (Hall r t Hv Ht) as (t' & Ht' & Hs & _); [congruence|].
    exists t'. split; [done|congruence].
Qed.

Lemma step_sched_ok s s' c : sched_ok s c -> task_step s s' -> exists c', sched_ok s' c'.
Proof.
  intros Hok [Hstep|Hstep].
  - destruct (switch_ok s s' c Hok Hstep) as (c' & frame & st & Hsw & _). exists c'. by apply (switched_sched_ok s c c' frame st).
  - exists c. by apply (create_step_ok s s' c).
Qed.

Lemma steps_sched_ok s s' c : rtc task_step s s' -> sched_ok s c -> exists c', sched_ok s' c'.
Proof.
  intros Hsteps. revert c. induction Hsteps as [s|s s1 s2 Hstep _ IH]; intros c Hok; [by exists c|].
  destruct (step_sched_ok s s1 c Hok Hstep) as [c1 Hok1]. by apply (IH c1).
Qed.

Lemma boot_sched_ok s : sched_boot s -> exists s', task_init s = Ret tt s' [] /\ sched_ok s' KernelTask.
Proof.
  intros [Hi Hh]. unfold task_init. krun. rewrite Hi. krun. eexists. split; [reflexivity|]. split; [|done].
  split; try done. cbn. intros i t Ht. unfold rd in Ht. destruct (0 <=? i); [|done].
  apply lookup_replicate in Ht as [-> _]. done.
Qed.

(** C13. Every state the scheduler can reach from boot has exactly one running
    task, the current one, in every interleaving of timer ticks, yields,
    returns, exits and creations; and once a task is finished it stays so: its
    trampoline is never entered again. *)
Theorem scheduler_invariant s0 s :
  sched_boot s0 -> (exists s1, task_init s0 = Ret tt s1 [] /\ rtc task_step s1 s) ->
  exists c, sched_wf s c /\
    (forall r t, valid_ref r -> task_at s r = Some t -> (state t = TASK_RUNNING <-> r = c)) /\
    forall s' r t, rtc task_step s s' -> valid_ref r -> task_at s r = Some t -> state t = TASK_FINISHED ->
      current_task s' <> Some r.
Proof.
  intros Hboot (s1 & Hinit & Hsteps). destruct (boot_sched_ok s0 Hboot) as (s1' & Hinit' & Hok1).
  rewrite Hinit' in Hinit. injection Hinit as ->. destruct (steps_sched_ok s1 s _ Hsteps Hok1) as [c Hok].
  pose proof Hok as [Hwf _]. exists c. split; [done|]. split.
  - intros r t Hv Ht. destruct r as [|i]; [|rewrite (sw_running _ _ Hwf i t Ht); split; congruence].
    injection Ht as <-. rewrite (sw_kernel _ _ Hwf). destruct (decide (c = KernelTask)); split; congruence.
  - intros s' r t Hrun. clear Hsteps Hok1 Hwf. revert c t Hok. induction Hrun as [s|s s2 s3 Hstep _ IH]; intros c t Hok Hv Ht Hf.
    + destruct Hok as [Hwf _]. rewrite (sw_current _ _ Hwf). intros [= ->]. pose proof (running_not_ready s r t Hwf Ht). congruence.
    + destruct (step_sched_ok s s2 c Hok Hstep) as [c2 Hok2]. destruct (finished_stays s s2 c r t Hok Hstep Hv Ht Hf) as (t2 & Ht2 & Hf2).
      by apply (IH c2 t2).
Qed.

(** *** Waiting *)

(** [P] holds after at most [n] switches, whichever they are, with any
    creations in between. *)
Inductive within (P : sched -> Prop) : nat -> sched -> Prop :=
| within_now n s : P s -> within P n s
| within_step n s :
    (forall s1 s2, rtc create_step s s1 -> switch_step s1 s2 -> within P n s2) -> within P (S n) s.

Lemma creates_keep s s1 c j t :
  rtc create_step s s1 -> sched_ok s c -> valid_ref (TableTask j) -> task_at s (TableTask j) = Some t -> state t = TASK_READY ->
  sched_ok s1 c /\ ready (task_table s1) j.
Proof.
  intros Hsteps. revert t. induction Hsteps as [s|s s2 s3 Hstep _ IH]; intros t Hok Hv Ht Hr; [split; [done|by exists t]|].
  destruct (create_step_ok s s2 c Hok Hstep) as [Hok2 Hall]. destruct (Hall _ t Hv Ht) as (t2 & Ht2 & Hs2 & _); [congruence|].
  apply (IH t2 Hok2 Hv Ht2). congruence.
Qed.

(** C14. Round robin: a ready task of the table runs after at most eight
    switches, whatever the other tasks do. The kernel's own task is no task of
    the table and has no such bound: it is picked only when no other is ready. *)
Theorem scheduler_fair s c j t :
  sched_ok s c -> 0 <= j < 8 -> task_at s (TableTask j) = Some t -> state t = TASK_READY ->
  within (fun s' => current_task s' = Some (TableTask j)) 8 s.
Proof.
  intros Hok Hj Ht Hr. assert (Hgo : forall n s c t, distance (task_index_of c) j < Z.of_nat n -> sched_ok s c ->
    task_at s (TableTask j) = Some t -> state t = TASK_READY -> within (fun s' => current_task s' = Some (TableTask j)) n s).
  2:{ apply (Hgo 8%nat s c t); [|done..]. pose proof (distance_bound (task_index_of c) j). lia. }
  clear s c t Hok Ht Hr. induction n as [|n IH]; intros s c t Hd Hok Ht Hr; [pose proof (distance_bound (task_index_of c) j); lia|].
  apply within_step. intros s1 s2 Hcreates Hswitch.
  destruct (creates_keep s s1 c j t Hcreates Hok Hj Ht Hr) as (Hok1 & t1 & Ht1 & Hr1).
  destruct (switch_ok s1 s2 c Hok1 Hswitch) as (c' & frame & st & Hsw & _). pose proof (switched_sched_ok _ _ _ _ _ _ Hok1 Hsw) as Hok2.
  pose proof (sd_next _ _ _ _ _ _ Hsw) as Hn. destruct c' as [|m]; [destruct (Hn j Hj); by exists t1|].
  destruct Hn as (Hm & _ & Hmin). destruct (decide (m = j)) as [->|Hne]; [apply within_now; apply (sw_current _ (TableTask j)); by destruct Hok2|].
  assert (Hle : distance (task_index_of c) m <= distance (task_index_of c) j).
  { apply Z.nlt_ge. intros Hlt. apply (Hmin j Hj Hlt). by exists t1. }
  assert (Hm0 : task_index_of (TableTask m) = m) by (simpl; rewrite (proj2 (Z.leb_le 0 m)), (proj2 (Z.ltb_lt m TASK_MAX)) by (unfold TASK_MAX; lia); done).
  pose proof (sd_tasks _ _ _ _ _ _ Hsw (TableTask j) t1 Hj Ht1) as Ht2. apply (IH s2 (TableTask m) (stepped c (TableTask m) frame st (TableTask j) t1)); [|done|exact Ht2|].
  - rewrite Hm0. pose proof (sw_valid _ _ (proj1 Hok1)) as Hvc. pose proof (task_index_of_bound c Hvc) as [Hbc _].
    unfold distance in *. Z.to_euclidean_division_equations; lia.
  - unfold stepped. cbn [state set_state]. rewrite decide_False by congruence. destruct (decide (TableTask j = c)) as [<-|]; [|done].
    exfalso. pose proof (running_not_ready s1 _ t1 (proj1 Hok1) Ht1). congruence.
Qed.

(** The scheduler suspends the running task with its frame, picks the first
    ready task behind it (the kernel only when none is ready), and returns
    the frame that task was itself suspended or created with. *)
Theorem task_schedule_spec s c frame :
  sched_wf s c -> exists c' s' t', task_schedule_from_exception frame true s = Ret (task_sp t') s' [] /\
    next_task (task_table s) c c' /\ task_at s' c' = Some t' /\
    forall r t, valid_ref r -> task_at s r = Some t -> task_at s' r = Some (stepped c c' frame TASK_READY r t).
Proof.
  intros Hwf. destruct (schedule_ok s c frame Hwf) as (c' & s' & t' & [_ Hn Hall _ _] & Ht' & He). by exists c', s', t'.
Qed.

(** Creating a task takes the lowest unused entry, gives it an aligned stack
    of its own and a first frame; it fails, without changing what any task
    does, when all eight entries are taken or the heap is full. A finished
    task's entry is never unused again. *)
Theorem task_create_spec s c daif nm code code_arg :
  sched_wf s c -> heap_wf (heap s) ->
  exists r s', task_create plat task_trampoline daif nm code code_arg s = Ret r s' [] /\
    create_result task_trampoline s daif nm code code_arg r s'.
Proof.
  intros Hwf Hheap. destruct (task_create_ok plat task_trampoline s c daif nm code code_arg Hwf Hheap) as (r & s' & He & _ & _ & Hres).
  by exists r, s'.
Qed.

End runs.

(** ** A machine with two tasks *)

Definition task_heap : mm := Mm 0 [] 0 0 0 true 4096 4096 (4096 + 65536) (fun _ => 0).
Lemma task_heap_wf : heap_wf task_heap.
Proof. split; simpl; done || lia. Qed.

Definition cold_sched : sched := Sched task_heap [] zero_task None false empty.
Lemma cold_sched_boot : sched_boot cold_sched.
Proof. split; [done|apply task_heap_wf]. Qed.

Definition warm_sched : sched :=
  Sched task_heap (replicate 8 zero_task) (Task (Some (cstr "kernel")) 0 0 0 0 0 TASK_RUNNING) (Some KernelTask) true empty.
Lemma warm_sched_ok : sched_ok warm_sched KernelTask.
Proof. destruct (boot_sched_ok cold_sched cold_sched_boot) as (s & [= <-] & Hok). exact Hok. Qed.

Definition one_task : task := Task (Some (cstr "a")) 5000 64 0 4096 16384 TASK_READY.
Definition busy_sched : sched :=
  Sched task_heap (one_task :: replicate 7 zero_task) (Task (Some (cstr "kernel")) 0 0 0 0 0 TASK_RUNNING) (Some KernelTask) true empty.
Lemma busy_sched_ok : sched_ok busy_sched KernelTask.
Proof.
  split; [|apply task_heap_wf]. split; try done. cbn [task_table busy_sched]. intros i t Ht.
  pose proof (rd_inv _ _ _ Ht) as Hb. unfold rd in Ht. destruct (0 <=? i); [|done].
  destruct (Z.to_nat i) as [|n]; simpl in Ht; [by injection Ht as <-|]. apply (lookup_replicate_1 7) in Ht as [-> _]. done.
Qed.

Lemma scheduler_invariant_witness : exists c, sched_wf warm_sched c.
Proof.
  destruct (scheduler_invariant tiny_plat 64 cold_sched warm_sched cold_sched_boot) as (c & Hwf & _).
  - exists warm_sched. split; [reflexivity|apply rtc_refl].
  - exists c. exact Hwf.
Defined.

Lemma scheduler_fair_witness : within tiny_plat 64 (fun s => current_task s = Some (TableTask 0)) 8 busy_sched.
Proof. apply (scheduler_fair tiny_plat 64 busy_sched KernelTask 0 one_task busy_sched_ok); [lia|reflexivity|reflexivity]. Defined.

Lemma task_schedule_spec_witness :
  exists s', task_schedule_from_exception 7000 true busy_sched = Ret 5000 s' [] /\ current_task s' = Some (TableTask 0).
Proof.
  destruct (task_schedule_spec busy_sched KernelTask 7000 (proj1 busy_sched_ok)) as (c' & s' & t' & He & _).
  exists s'. assert (Hsp : task_sp t' = 5000) by (vm_compute in He; by injection He).
  rewrite <- Hsp. split; [exact He|]. vm_compute in He. by injection He as _ <-.
Defined.

Lemma task_create_spec_witness :
  exists s', task_create tiny_plat 64 0 (Some (cstr "b")) 128 0 busy_sched = Ret (Some (TableTask 1)) s' [] /\
    exists t, task_at s' (TableTask 1) = Some t /\ state t = TASK_READY.
Proof.
  destruct (task_create_spec tiny_plat 64 busy_sched KernelTask 0 (Some (cstr "b")) 128 0 (proj1 busy_sched_ok) task_heap_wf)
    as (r & s' & He & _).
  assert (Hr : r = Some (TableTask 1)) by (vm_compute in He; by injection He).
  exists s'. rewrite <- Hr. split; [exact He|]. vm_compute in He. injection He as _ <-. eexists. split; reflexivity.
Defined.
