(* ===== verification/Graphics.v ===== *)
(** The framebuffer and the drawing primitives (src/src/gfx/framebuffer.c,
    draw.c, text.c, font8x8.c). A screen is the framebuffer that a pointer
    leads to, or nothing for a null pointer. What a drawing operation does is
    stated as the picture it paints: a partial function from positions to
    colours, laid over what the screen showed before. *)
From S2P Require Import Prelude LibString Memory.

(** ** The framebuffer *)

Inductive fb_pixel_format : Type := FB_PIXEL_FORMAT_X8R8G8B8 | FB_PIXEL_FORMAT_B8G8R8A8.

(** The buffer is the list of its 32-bit words. *)
Record framebuffer : Type := Framebuffer {
  fb_width : Z;
  fb_height : Z;
  fb_pitch : Z;
  bytes_per_pixel : Z;
  pixel_format : fb_pixel_format;
  fb_buffer : option (list Z)
}.
Definition set_fb_buffer (v : option (list Z)) (f : framebuffer) : framebuffer :=
  Framebuffer (fb_width f) (fb_height f) (fb_pitch f) (bytes_per_pixel f) (pixel_format f) v.
(** [sizeof(framebuffer_t)] *)
Definition FRAMEBUFFER_SIZE : Z := 32.

Abbreviation screen := (option framebuffer).

Definition fb_is_supported (fb : screen) : bool :=
  match fb with
  | Some f => match fb_buffer f with Some _ => bytes_per_pixel f =? 4 | None => false end
  | None => false
  end.

(** The word that [row[x]] names; a misaligned row is undefined behaviour. *)
Definition fb_word (f : framebuffer) (x y : Z) : option Z :=
  let row := u64 (y * fb_pitch f) in if row mod 4 =? 0 then Some (row / 4 + x) else None.

Definition fb_put_pixel (x y color : Z) : M screen unit :=
  fb <- gets id;;
  match fb with
  | Some f =>
      if negb (fb_is_supported fb) || (fb_width f <=? x) || (fb_height f <=? y) then ret tt
      else
        buffer <- deref (fb_buffer f);;
        i <- deref (fb_word f x y);;
        buffer1 <- deref (wr buffer i color);;
        modify (fun _ => Some (set_fb_buffer (Some buffer1) f))
  | None => ret tt
  end.

Definition fb_get_pixel (x y : Z) : M screen Z :=
  fb <- gets id;;
  match fb with
  | Some f =>
      if negb (fb_is_supported fb) || (fb_width f <=? x) || (fb_height f <=? y) then ret 0
      else
        buffer <- deref (fb_buffer f);;
        i <- deref (fb_word f x y);;
        deref (rd buffer i)
  | None => ret 0
  end.

Definition fb_clear (color : Z) : M screen unit :=
  fb <- gets id;;
  match fb with
  | Some f =>
      if negb (fb_is_supported fb) then ret tt
      else for_range (Z.to_nat (fb_height f)) 0 (fun y =>
             for_range (Z.to_nat (fb_width f)) 0 (fun x => fb_put_pixel x y color))
  | None => ret tt
  end.

(** The new framebuffer lies in the heap; its buffer follows its structure. *)
Definition fb_create_test (plat : platform) (width height : Z) : M mm (option framebuffer) :=
  if (width =? 0) || (height =? 0) then ret None
  else
    let pitch := u64 (width * 4) in
    let buffer_size := u64 (pitch * height) in
    if (0xffffffff <? pitch) || (0xffffffff <? buffer_size) then ret None
    else
      let allocation_size := u64 (FRAMEBUFFER_SIZE + buffer_size) in
      if allocation_size <? FRAMEBUFFER_SIZE then ret None
      else
        fb <- kzalloc plat allocation_size;;
        if fb =? 0 then ret None
        else ret (Some (Framebuffer width height (u32 pitch) 4 FB_PIXEL_FORMAT_X8R8G8B8
                          (Some (replicate (Z.to_nat (buffer_size / 4)) 0)))).

(** ** Drawing *)

Definition draw_abs (value : Z) : M screen Z := if value <? 0 then signed (- value) else ret value.
Definition draw_min (a b : Z) : Z := if a <? b then a else b.
Definition draw_max (a b : Z) : Z := if b <? a then a else b.

Definition draw_pixel (x y color : Z) : M screen unit :=
  fb <- gets id;;
  match fb with
  | None => ret tt
  | Some _ => if (x <? 0) || (y <? 0) then ret tt else fb_put_pixel (u32 x) (u32 y) color
  end.

Definition draw_hline (x y width color : Z) : M screen unit :=
  fb <- gets id;;
  match fb with
  | None => ret tt
  | Some f =>
      if (width <=? 0) || (y <? 0) || (i32 (fb_height f) <=? y) then ret tt
      else
        let start_x := draw_max x 0 in
        right <- signed (x + width);;
        let end_x := draw_min right (i32 (fb_width f)) in
        for_range (Z.to_nat (end_x - start_x)) start_x (fun current_x => fb_put_pixel (u32 current_x) (u32 y) color)
  end.

Definition draw_vline (x y height color : Z) : M screen unit :=
  fb <- gets id;;
  match fb with
  | None => ret tt
  | Some f =>
      if (height <=? 0) || (x <? 0) || (i32 (fb_width f) <=? x) then ret tt
      else
        let start_y := draw_max y 0 in
        bottom <- signed (y + height);;
        let end_y := draw_min bottom (i32 (fb_height f)) in
        for_range (Z.to_nat (end_y - start_y)) start_y (fun current_y => fb_put_pixel (u32 x) (u32 current_y) color)
  end.

(** The endless loop of [draw_line]; running out of [fuel] is a loop that has
    not ended. *)
Fixpoint draw_line_loop (fuel : nat) (x0 y0 x1 y1 dx dy sx sy err color : Z) : M screen unit :=
  match fuel with
  | O => undef
  | S fuel' =>
      draw_pixel x0 y0 color;;
      if (x0 =? x1) && (y0 =? y1) then ret tt
      else
        e2 <- signed (err * 2);;
        let! (err1, x2) :=
          if - dy <? e2 then (e <- signed (err - dy);; x2 <- signed (x0 + sx);; ret (e, x2)) else ret (err, x0) in
        e3 <- signed (err1 * 2);;
        let! (err2, y2) :=
          if e3 <? dx then (e <- signed (err1 + dx);; y2 <- signed (y0 + sy);; ret (e, y2)) else ret (err1, y0) in
        draw_line_loop fuel' x2 y2 x1 y1 dx dy sx sy err2 color
  end.

Definition draw_line (fuel : nat) (x0 y0 x1 y1 color : Z) : M screen unit :=
  fb <- gets id;;
  match fb with
  | None => ret tt
  | Some _ =>
      w <- signed (x1 - x0);; dx <- draw_abs w;;
      h <- signed (y1 - y0);; dy <- draw_abs h;;
      err <- signed (dx - dy);;
      draw_line_loop fuel x0 y0 x1 y1 dx dy (if x0 <? x1 then 1 else -1) (if y0 <? y1 then 1 else -1) err color
  end.

Definition draw_rect (x y width height color : Z) : M screen unit :=
  fb <- gets id;;
  match fb with
  | None => ret tt
  | Some _ =>
      if (width <=? 0) || (height <=? 0) then ret tt
      else
        draw_hline x y width color;;
        bottom <- signed (y + height);;
        draw_hline x (bottom - 1) width color;;
        draw_vline x y height color;;
        right <- signed (x + width);;
        draw_vline (right - 1) y height color
  end.

Definition draw_fill_rect (x y width height color : Z) : M screen unit :=
  fb <- gets id;;
  match fb with
  | None => ret tt
  | Some f =>
      if (width <=? 0) || (height <=? 0) then ret tt
      else
        let start_y := draw_max y 0 in
        bottom <- signed (y + height);;
        let end_y := draw_min bottom (i32 (fb_height f)) in
        for_range (Z.to_nat (end_y - start_y)) start_y (fun current_y => draw_hline x current_y width color)
  end.

(** ** Text *)

Definition GFX_FONT_WIDTH : Z := 8.
Definition GFX_FONT_HEIGHT : Z := 8.
Definition GFX_FONT_FIRST_CHAR : Z := 32.
Definition GFX_FONT_LAST_CHAR : Z := 126.

Definition gfx_font8x8_basic : list (list Z) := [
  [0x00; 0x00; 0x00; 0x00; 0x00; 0x00; 0x00; 0x00];
  [0x18; 0x3c; 0x3c; 0x18; 0x18; 0x00; 0x18; 0x00];
  [0x36; 0x36; 0x00; 0x00; 0x00; 0x00; 0x00; 0x00];
  [0x36; 0x36; 0x7f; 0x36; 0x7f; 0x36; 0x36; 0x00];
  [0x0c; 0x3e; 0x03; 0x1e; 0x30; 0x1f; 0x0c; 0x00];
  [0x00; 0x63; 0x33; 0x18; 0x0c; 0x66; 0x63; 0x00];
  [0x1c; 0x36; 0x1c; 0x6e; 0x3b; 0x33; 0x6e; 0x00];
  [0x06; 0x06; 0x03; 0x00; 0x00; 0x00; 0x00; 0x00];
  [0x18; 0x0c; 0x06; 0x06; 0x06; 0x0c; 0x18; 0x00];
  [0x06; 0x0c; 0x18; 0x18; 0x18; 0x0c; 0x06; 0x00];
  [0x00; 0x66; 0x3c; 0xff; 0x3c; 0x66; 0x00; 0x00];
  [0x00; 0x0c; 0x0c; 0x3f; 0x0c; 0x0c; 0x00; 0x00];
  [0x00; 0x00; 0x00; 0x00; 0x00; 0x0c; 0x0c; 0x06];
  [0x00; 0x00; 0x00; 0x3f; 0x00; 0x00; 0x00; 0x00];
  [0x00; 0x00; 0x00; 0x00; 0x00; 0x0c; 0x0c; 0x00];
  [0x60; 0x30; 0x18; 0x0c; 0x06; 0x03; 0x01; 0x00];
  [0x3e; 0x63; 0x73; 0x7b; 0x6f; 0x67; 0x3e; 0x00];
  [0x0c; 0x0e; 0x0c; 0x0c; 0x0c; 0x0c; 0x3f; 0x00];
  [0x1e; 0x33; 0x30; 0x1c; 0x06; 0x33; 0x3f; 0x00];
  [0x1e; 0x33; 0x30; 0x1c; 0x30; 0x33; 0x1e; 0x00];
  [0x38; 0x3c; 0x36; 0x33; 0x7f; 0x30; 0x78; 0x00];
  [0x3f; 0x03; 0x1f; 0x30; 0x30; 0x33; 0x1e; 0x00];
  [0x1c; 0x06; 0x03; 0x1f; 0x33; 0x33; 0x1e; 0x00];
  [0x3f; 0x33; 0x30; 0x18; 0x0c; 0x0c; 0x0c; 0x00];
  [0x1e; 0x33; 0x33; 0x1e; 0x33; 0x33; 0x1e; 0x00];
  [0x1e; 0x33; 0x33; 0x3e; 0x30; 0x18; 0x0e; 0x00];
  [0x00; 0x0c; 0x0c; 0x00; 0x00; 0x0c; 0x0c; 0x00];
  [0x00; 0x0c; 0x0c; 0x00; 0x00; 0x0c; 0x0c; 0x06];
  [0x18; 0x0c; 0x06; 0x03; 0x06; 0x0c; 0x18; 0x00];
  [0x00; 0x00; 0x3f; 0x00; 0x00; 0x3f; 0x00; 0x00];
  [0x06; 0x0c; 0x18; 0x30; 0x18; 0x0c; 0x06; 0x00];
  [0x1e; 0x33; 0x30; 0x18; 0x0c; 0x00; 0x0c; 0x00];
  [0x3e; 0x63; 0x7b; 0x7b; 0x7b; 0x03; 0x1e; 0x00];
  [0x0c; 0x1e; 0x33; 0x33; 0x3f; 0x33; 0x33; 0x00];
  [0x3f; 0x66; 0x66; 0x3e; 0x66; 0x66; 0x3f; 0x00];
  [0x3c; 0x66; 0x03; 0x03; 0x03; 0x66; 0x3c; 0x00];
  [0x1f; 0x36; 0x66; 0x66; 0x66; 0x36; 0x1f; 0x00];
  [0x7f; 0x46; 0x16; 0x1e; 0x16; 0x46; 0x7f; 0x00];
  [0x7f; 0x46; 0x16; 0x1e; 0x16; 0x06; 0x0f; 0x00];
  [0x3c; 0x66; 0x03; 0x03; 0x73; 0x66; 0x7c; 0x00];
  [0x33; 0x33; 0x33; 0x3f; 0x33; 0x33; 0x33; 0x00];
  [0x1e; 0x0c; 0x0c; 0x0c; 0x0c; 0x0c; 0x1e; 0x00];
  [0x78; 0x30; 0x30; 0x30; 0x33; 0x33; 0x1e; 0x00];
  [0x67; 0x66; 0x36; 0x1e; 0x36; 0x66; 0x67; 0x00];
  [0x0f; 0x06; 0x06; 0x06; 0x46; 0x66; 0x7f; 0x00];
  [0x63; 0x77; 0x7f; 0x7f; 0x6b; 0x63; 0x63; 0x00];
  [0x63; 0x67; 0x6f; 0x7b; 0x73; 0x63; 0x63; 0x00];
  [0x1c; 0x36; 0x63; 0x63; 0x63; 0x36; 0x1c; 0x00];
  [0x3f; 0x66; 0x66; 0x3e; 0x06; 0x06; 0x0f; 0x00];
  [0x1e; 0x33; 0x33; 0x33; 0x3b; 0x1e; 0x38; 0x00];
  [0x3f; 0x66; 0x66; 0x3e; 0x36; 0x66; 0x67; 0x00];
  [0x1e; 0x33; 0x07; 0x0e; 0x38; 0x33; 0x1e; 0x00];
  [0x3f; 0x2d; 0x0c; 0x0c; 0x0c; 0x0c; 0x1e; 0x00];
  [0x33; 0x33; 0x33; 0x33; 0x33; 0x33; 0x3f; 0x00];
  [0x33; 0x33; 0x33; 0x33; 0x33; 0x1e; 0x0c; 0x00];
  [0x63; 0x63; 0x63; 0x6b; 0x7f; 0x77; 0x63; 0x00];
  [0x63; 0x63; 0x36; 0x1c; 0x1c; 0x36; 0x63; 0x00];
  [0x33; 0x33; 0x33; 0x1e; 0x0c; 0x0c; 0x1e; 0x00];
  [0x7f; 0x63; 0x31; 0x18; 0x4c; 0x66; 0x7f; 0x00];
  [0x1e; 0x06; 0x06; 0x06; 0x06; 0x06; 0x1e; 0x00];
  [0x03; 0x06; 0x0c; 0x18; 0x30; 0x60; 0x40; 0x00];
  [0x1e; 0x18; 0x18; 0x18; 0x18; 0x18; 0x1e; 0x00];
  [0x08; 0x1c; 0x36; 0x63; 0x00; 0x00; 0x00; 0x00];
  [0x00; 0x00; 0x00; 0x00; 0x00; 0x00; 0x00; 0xff];
  [0x0c; 0x0c; 0x18; 0x00; 0x00; 0x00; 0x00; 0x00];
  [0x00; 0x00; 0x1e; 0x30; 0x3e; 0x33; 0x6e; 0x00];
  [0x07; 0x06; 0x06; 0x3e; 0x66; 0x66; 0x3b; 0x00];
  [0x00; 0x00; 0x1e; 0x33; 0x03; 0x33; 0x1e; 0x00];
  [0x38; 0x30; 0x30; 0x3e; 0x33; 0x33; 0x6e; 0x00];
  [0x00; 0x00; 0x1e; 0x33; 0x3f; 0x03; 0x1e; 0x00];
  [0x1c; 0x36; 0x06; 0x0f; 0x06; 0x06; 0x0f; 0x00];
  [0x00; 0x00; 0x6e; 0x33; 0x33; 0x3e; 0x30; 0x1f];
  [0x07; 0x06; 0x36; 0x6e; 0x66; 0x66; 0x67; 0x00];
  [0x0c; 0x00; 0x0e; 0x0c; 0x0c; 0x0c; 0x1e; 0x00];
  [0x30; 0x00; 0x30; 0x30; 0x30; 0x33; 0x33; 0x1e];
  [0x07; 0x06; 0x66; 0x36; 0x1e; 0x36; 0x67; 0x00];
  [0x0e; 0x0c; 0x0c; 0x0c; 0x0c; 0x0c; 0x1e; 0x00];
  [0x00; 0x00; 0x33; 0x7f; 0x7f; 0x6b; 0x63; 0x00];
  [0x00; 0x00; 0x1f; 0x33; 0x33; 0x33; 0x33; 0x00];
  [0x00; 0x00; 0x1e; 0x33; 0x33; 0x33; 0x1e; 0x00];
  [0x00; 0x00; 0x3b; 0x66; 0x66; 0x3e; 0x06; 0x0f];
  [0x00; 0x00; 0x6e; 0x33; 0x33; 0x3e; 0x30; 0x78];
  [0x00; 0x00; 0x3b; 0x6e; 0x66; 0x06; 0x0f; 0x00];
  [0x00; 0x00; 0x3e; 0x03; 0x1e; 0x30; 0x1f; 0x00];
  [0x08; 0x0c; 0x3e; 0x0c; 0x0c; 0x2c; 0x18; 0x00];
  [0x00; 0x00; 0x33; 0x33; 0x33; 0x33; 0x6e; 0x00];
  [0x00; 0x00; 0x33; 0x33; 0x33; 0x1e; 0x0c; 0x00];
  [0x00; 0x00; 0x63; 0x6b; 0x7f; 0x7f; 0x36; 0x00];
  [0x00; 0x00; 0x63; 0x36; 0x1c; 0x36; 0x63; 0x00];
  [0x00; 0x00; 0x33; 0x33; 0x33; 0x3e; 0x30; 0x1f];
  [0x00; 0x00; 0x3f; 0x19; 0x0c; 0x26; 0x3f; 0x00];
  [0x38; 0x0c; 0x0c; 0x07; 0x0c; 0x0c; 0x38; 0x00];
  [0x18; 0x18; 0x18; 0x00; 0x18; 0x18; 0x18; 0x00];
  [0x07; 0x0c; 0x0c; 0x38; 0x0c; 0x0c; 0x07; 0x00];
  [0x6e; 0x3b; 0x00; 0x00; 0x00; 0x00; 0x00; 0x00]
].

Definition gfx_font8x8_get (c : Z) : option (list Z) :=
  let c1 := if (c <? GFX_FONT_FIRST_CHAR) || (GFX_FONT_LAST_CHAR <? c) then ch "?" else c in
  rd gfx_font8x8_basic (c1 - GFX_FONT_FIRST_CHAR).

Definition gfx_draw_char (x y c fg_color bg_color : Z) : M screen unit :=
  glyph <- deref (gfx_font8x8_get c);;
  for_range (Z.to_nat GFX_FONT_HEIGHT) 0 (fun row =>
    for_range (Z.to_nat GFX_FONT_WIDTH) 0 (fun col =>
      bits <- deref (rd glyph row);;
      px <- signed (x + col);; py <- signed (y + row);;
      if negb (Z.land bits (Z.shiftl 1 col) =? 0) then draw_pixel px py fg_color else draw_pixel px py bg_color)).

(** The loop over the text ends at its terminator. *)
Fixpoint draw_string_loop (x cursor_x cursor_y : Z) (text : mem) (fg_color bg_color : Z) : M screen unit :=
  match text with
  | [] => undef
  | c :: text' =>
      if c =? 0 then ret tt
      else if c =? 10 then
        next_y <- signed (cursor_y + GFX_FONT_HEIGHT);;
        draw_string_loop x x next_y text' fg_color bg_color
      else
        gfx_draw_char cursor_x cursor_y c fg_color bg_color;;
        next_x <- signed (cursor_x + GFX_FONT_WIDTH);;
        draw_string_loop x next_x cursor_y text' fg_color bg_color
  end.

Definition gfx_draw_string (x y : Z) (text : option mem) (fg_color bg_color : Z) : M screen unit :=
  fb <- gets id;;
  match fb, text with
  | Some _, Some t => draw_string_loop x x y t fg_color bg_color
  | _, _ => ret tt
  end.

(** ** Pictures *)

Abbreviation picture := (Z -> Z -> option Z).

(** [over g g'] is picture [g] laid over [g']. *)
Definition over (g g' : picture) : picture := fun x y => match g x y with Some c => Some c | None => g' x y end.
Definition blank_picture : picture := fun _ _ => None.

(** A filled box and a single point. *)
Definition box (x0 y0 w h color : Z) : picture := fun x y =>
  if decide (x0 <= x < x0 + w /\ y0 <= y < y0 + h) then Some color else None.
Definition outline (x0 y0 w h color : Z) : picture := fun x y =>
  if decide ((x0 <= x < x0 + w /\ y0 <= y < y0 + h) /\ (x = x0 \/ x = x0 + w - 1 \/ y = y0 \/ y = y0 + h - 1))
  then Some color else None.

(** A straight run of [n + 1] points from [(x0, y0)] in direction [(ux, uy)]. *)
Definition run (x0 y0 ux uy : Z) (n : Z) (color : Z) : picture := fun x y =>
  let k := if ux =? 0 then (y - y0) * uy else (x - x0) * ux in
  if decide (0 <= k <= n /\ x = x0 + k * ux /\ y = y0 + k * uy) then Some color else None.

(** Picture [n] of a list of pictures is on top. *)
Fixpoint stack (n : nat) (i : Z) (g : Z -> picture) : picture :=
  match n with O => blank_picture | S n' => over (stack n' (i + 1) g) (g i) end.

Record fb_wf (f : framebuffer) : Prop := {
  fw_bpp : bytes_per_pixel f = 4;
  fw_width : 0 <= fb_width f < 2 ^ 30;
  fw_height : 0 <= fb_height f < 2 ^ 31;
  fw_pitch : fb_pitch f = 4 * fb_width f;
  fw_buffer : exists b, fb_buffer f = Some b /\ lenZ b = fb_width f * fb_height f
}.

Definition inside (f : framebuffer) (x y : Z) : Prop := 0 <= x < fb_width f /\ 0 <= y < fb_height f.
Definition pixel (f : framebuffer) (x y : Z) : Z :=
  default 0 (b ← fb_buffer f; rd b (y * fb_width f + x)).

(** [f'] shows [g] over what [f] shows. *)
Record painted (g : picture) (f f' : framebuffer) : Prop := {
  pa_wf : fb_wf f';
  pa_width : fb_width f' = fb_width f;
  pa_height : fb_height f' = fb_height f;
  pa_pixel : forall x y, inside f x y -> pixel f' x y = default (pixel f x y) (g x y)
}.

(** Operation [m] paints [g] on every framebuffer. The framebuffer may be a
    part of a larger state, and nothing else of that state changes. *)
Definition draws_in {S} (emb : screen -> S) (m : M S unit) (g : picture) : Prop :=
  forall f, fb_wf f -> exists f', m (emb (Some f)) = Ret tt (emb (Some f')) [] /\ painted g f f'.
Abbreviation draws := (draws_in (fun s => s)).

Lemma painted_refl f : fb_wf f -> painted blank_picture f f.
Proof. by constructor. Qed.

Lemma painted_over g g' f f1 f2 : painted g' f f1 -> painted g f1 f2 -> painted (over g g') f f2.
Proof.
  intros [_ Hw1 Hh1 Hp1] [Hwf Hw2 Hh2 Hp2]. split; [done|congruence|congruence|]. intros x y Hin.
  rewrite Hp2 by (unfold inside in *; rewrite Hw1, Hh1; done). unfold over. destruct (g x y); [done|]. by apply Hp1.
Qed.

Lemma painted_ext g g' f f' : (forall x y, inside f x y -> g x y = g' x y) -> painted g f f' -> painted g' f f'.
Proof. intros He [Hwf Hw Hh Hp]. split; try done. intros x y Hin. rewrite <- He by done. by apply Hp. Qed.

Lemma draws_ret {S} (emb : screen -> S) : draws_in emb (ret tt) blank_picture.
Proof. intros f Hf. exists f. split; [done|by apply painted_refl]. Qed.

Lemma draws_bind {S} (emb : screen -> S) m1 m2 g1 g2 :
  draws_in emb m1 g1 -> draws_in emb m2 g2 -> draws_in emb (m1;; m2) (over g2 g1).
Proof.
  intros H1 H2 f Hf. destruct (H1 f Hf) as (f1 & He1 & Hp1). destruct (H2 f1 (pa_wf _ _ _ Hp1)) as (f2 & He2 & Hp2).
  exists f2. rewrite (bind_Ret_nil _ _ _ _ _ He1). split; [done|]. by eapply painted_over.
Qed.

Lemma draws_ext {S} (emb : screen -> S) m g g' :
  (forall x y, 0 <= x -> 0 <= y -> g x y = g' x y) -> draws_in emb m g -> draws_in emb m g'.
Proof.
  intros He H f Hf. destruct (H f Hf) as (f' & Hr & Hp). exists f'. split; [done|]. eapply painted_ext; [|done].
  intros x y [Hx Hy]. apply He; lia.
Qed.

Lemma draws_signed {S} {emb : screen -> S} {z} {k : Z -> M S unit} {g} :
  - 2 ^ 31 <= z < 2 ^ 31 -> draws_in emb (k z) g -> draws_in emb (bind (signed z) k) g.
Proof. intros Hz H f Hf. rewrite bind_signed by done. by apply H. Qed.

Lemma draws_deref {S A} {emb : screen -> S} {o : option A} {a} {k : A -> M S unit} {g} :
  o = Some a -> draws_in emb (k a) g -> draws_in emb (bind (deref o) k) g.
Proof. intros Ho H f Hf. rewrite (bind_deref_Some _ _ _ _ Ho). by apply H. Qed.

(** Reading a part of the state that is no screen. *)
Lemma draws_gets {S A} {emb : screen -> S} {h : S -> A} {a} {k : A -> M S unit} {g} :
  (forall fb, h (emb fb) = a) -> draws_in emb (k a) g -> draws_in emb (bind (gets h) k) g.
Proof. intros Ha H f Hf. rewrite bind_gets, Ha. by apply H. Qed.

(** Drawing on the screen inside a larger state. *)
Lemma draws_zoom {S} (get : S -> screen) (put : screen -> S -> S) (emb : screen -> S) m g :
  (forall fb, get (emb fb) = fb) -> (forall fb fb', put fb' (emb fb) = emb fb') ->
  draws m g -> draws_in emb (zoom get put m) g.
Proof.
  intros Hget Hput H f Hf. destruct (H f Hf) as (f' & Hr & Hp). exists f'. unfold zoom. rewrite Hget. cbn beta in Hr. rewrite Hr, Hput. done.
Qed.

Lemma draws_for {S} (emb : screen -> S) n i body (g : Z -> picture) :
  (forall k, i <= k < i + Z.of_nat n -> draws_in emb (body k) (g k)) -> draws_in emb (for_range n i body) (stack n i g).
Proof.
  revert i. induction n as [|n IH]; intros i H; [apply draws_ret|]. apply draws_bind; [apply H; lia|].
  apply IH. intros k Hk. apply H. lia.
Qed.

(** A position that only picture [k] of a stack colours. *)
Lemma stack_at n i g x y k :
  (forall j, i <= j < i + Z.of_nat n -> j <> k -> g j x y = None) ->
  stack n i g x y = if decide (i <= k < i + Z.of_nat n) then g k x y else None.
Proof.
  revert i. induction n as [|n IH]; intros i H; cbn [stack]; [by rewrite decide_False by lia|].
  unfold over. rewrite IH by (intros j Hj Hn; apply H; [lia|done]).
  destruct (Z.eq_dec i k) as [->|Hne].
  - by rewrite decide_False, decide_True by lia.
  - rewrite (H i) by lia. repeat case_decide; try lia; by destruct (g k x y).
Qed.

(** ** The primitives *)

Lemma fb_word_wf f x y :
  fb_wf f -> inside f x y -> fb_word f x y = Some (y * fb_width f + x) /\ 0 <= y * fb_width f + x < fb_width f * fb_height f.
Proof.
  intros [_ Hw Hh Hp _] [Hx Hy]. unfold fb_word. rewrite Hp, u64_small by nia.
  replace (y * (4 * fb_width f)) with (y * fb_width f * 4) by lia.
  rewrite Z_mod_mult, Z.eqb_refl, Z.div_mul by lia. split; [done|nia].
Qed.

Lemma supported_wf f : fb_wf f -> fb_is_supported (Some f) = true.
Proof. intros [Hb _ _ _ (b & He & _)]. cbn [fb_is_supported]. by rewrite He, Hb. Qed.

Lemma fb_get_pixel_run f x y : fb_wf f -> inside f x y -> fb_get_pixel x y (Some f) = Ret (pixel f x y) (Some f) [].
Proof.
  intros Hf Hin. destruct (fb_word_wf f x y Hf Hin) as [Hword Hb]. unfold fb_get_pixel. krun. unfold id.
  rewrite supported_wf by done. destruct Hin as [Hx Hy].
  rewrite (proj2 (Z.leb_gt _ _)), (proj2 (Z.leb_gt (fb_height f) y)) by lia. kif.
  destruct (fw_buffer f Hf) as (b & He & Hl). destruct (rd_Some b (y * fb_width f + x)) as [c Hc]; [lia|].
  rewrite (bind_deref_Some _ _ _ _ He), (bind_deref_Some _ _ _ _ Hword). unfold pixel. rewrite He. cbn [mbind option_bind]. by rewrite Hc.
Qed.

Lemma point_index w x y x' y' : 0 <= x < w -> 0 <= x' < w -> (y * w + x = y' * w + x' <-> x = x' /\ y = y').
Proof.
  intros Hx Hx'. split; [|intros [-> ->]; done]. intros He. assert (y = y') as ->; [|lia].
  destruct (Z.lt_trichotomy y y') as [H|[H|H]]; [|done|]; nia.
Qed.

Lemma set_pixel_wf f b i c : fb_wf f -> fb_buffer f = Some b -> fb_wf (set_fb_buffer (Some (<[i := c]> b)) f).
Proof.
  intros [H1 H2 H3 H4 (b' & He & Hl)] Hb. split; try done. eexists. split; [done|]. unfold lenZ in *.
  cbn. rewrite length_insert. simplify_eq. done.
Qed.

Lemma draws_put_pixel x y c : 0 <= x -> 0 <= y -> draws (fb_put_pixel x y c) (box x y 1 1 c).
Proof.
  intros Hx Hy f Hf. unfold fb_put_pixel. krun. unfold id. rewrite supported_wf by done. cbn [negb orb].
  assert (Hbox : forall x' y', box x y 1 1 c x' y' = if (x' =? x) && (y' =? y) then Some c else None).
  { intros x' y'. unfold box. case_decide; destruct (Z.eqb_spec x' x), (Z.eqb_spec y' y); try done; lia. }
  destruct (Z.leb_spec (fb_width f) x) as [Hw|Hw]; [|destruct (Z.leb_spec (fb_height f) y) as [Hh|Hh]]; kif.
  1, 2: exists f; split; [done|]; eapply painted_ext; [|by apply painted_refl]; intros x' y' [Hx' Hy']; rewrite Hbox;
    destruct (Z.eqb_spec x' x), (Z.eqb_spec y' y); try done; lia.
  destruct (fw_buffer f Hf) as (b & He & Hl). destruct (fb_word_wf f x y Hf) as [Hword Hb]; [by split; lia|].
  rewrite (bind_deref_Some _ _ _ _ He), (bind_deref_Some _ _ _ _ Hword), (bind_deref_Some _ _ _ _ (wr_Some b _ c ltac:(rewrite Hl; exact Hb))).
  eexists. split; [reflexivity|]. split; [by apply set_pixel_wf|done|done|]. intros x' y' [Hx' Hy']. rewrite Hbox. unfold pixel. cbn. rewrite He. cbn.
  unfold rd. rewrite (proj2 (Z.leb_le 0 (y' * fb_width f + x'))) by nia.
  destruct ((x' =? x) && (y' =? y)) eqn:Heq.
  - apply andb_prop in Heq as [->%Z.eqb_eq ->%Z.eqb_eq]. rewrite list_lookup_insert_eq; [done|]. unfold lenZ in Hl. lia.
  - rewrite list_lookup_insert_ne; [done|]. intros Hi. apply Z2Nat.inj in Hi; [|nia|nia].
    apply (point_index (fb_width f)) in Hi as [-> ->]; [|lia|lia]. by rewrite !Z.eqb_refl in Heq.
Qed.

(** A loop that ends at the edge of the screen. *)
Lemma draws_clipped n i body g g' f :
  fb_wf f -> (forall k, i <= k < i + Z.of_nat n -> draws (body k) (g k)) ->
  (forall x y, inside f x y -> stack n i g x y = g' x y) ->
  exists f', for_range n i body (Some f) = Ret tt (Some f') [] /\ painted g' f f'.
Proof.
  intros Hf Hb He. destruct (draws_for _ n i body g Hb f Hf) as (f' & Hr & Hp). exists f'. split; [done|].
  by eapply painted_ext.
Qed.

(** Two pictures agree at a position: case analysis on what covers it. *)
Ltac pic := unfold box, outline, blank_picture, over; repeat case_decide; try done; lia.

(** Two ways to lay the same pictures over each other. *)
Ltac overs := unfold over; repeat (match goal with
  |- context [match ?t with Some _ => _ | None => _ end] =>
     lazymatch t with context [match _ with Some _ => _ | None => _ end] => fail | _ => destruct t; [done|] end end); done.

(** What the callers of the primitives must ensure: sums of coordinates are
    representable. *)
Definition near (z : Z) : Prop := - 2 ^ 29 <= z < 2 ^ 29.

Lemma draw_pixel_draws x y c : x < 2 ^ 31 -> y < 2 ^ 31 -> draws (draw_pixel x y c) (box x y 1 1 c).
Proof.
  intros Hx Hy f Hf. unfold draw_pixel. krun. unfold id.
  destruct (Z.ltb_spec x 0) as [|Hx0]; [|destruct (Z.ltb_spec y 0) as [|Hy0]]; cbn [orb].
  1, 2: exists f; split; [done|]; eapply painted_ext; [|by apply painted_refl]; intros x' y' [Hx' Hy']; pic.
  rewrite !u32_small by lia. by apply draws_put_pixel.
Qed.

Lemma draw_hline_draws x y w c : near x -> y < 2 ^ 31 -> near w -> draws (draw_hline x y w c) (box x y w 1 c).
Proof.
  unfold near. intros Hx Hy Hw f Hf. unfold draw_hline. krun. unfold id. pose proof (fw_width f Hf). pose proof (fw_height f Hf).
  rewrite !i32_small by lia.
  destruct (Z.leb_spec w 0) as [|Hw0]; [|destruct (Z.ltb_spec y 0) as [|Hy0]; [|destruct (Z.leb_spec (fb_height f) y) as [|Hy1]]]; cbn [orb].
  1, 2, 3: exists f; split; [done|]; eapply painted_ext; [|by apply painted_refl]; intros x' y' [Hx' Hy']; pic.
  rewrite bind_signed by lia.
  assert (Hmax : draw_max x 0 = Z.max x 0) by (unfold draw_max; case_match; lia).
  assert (Hmin : draw_min (x + w) (fb_width f) = Z.min (x + w) (fb_width f)) by (unfold draw_min; case_match; lia).
  rewrite Hmax, Hmin. apply (draws_clipped _ _ _ (fun k => box k y 1 1 c)); [done| |].
  - intros k Hk. rewrite !u32_small by lia. apply draws_put_pixel; lia.
  - intros x' y' [Hx' Hy']. rewrite (stack_at _ _ _ _ _ x') by (intros j _ Hj; pic).
    pic.
Qed.

Lemma draw_vline_draws x y h c : x < 2 ^ 31 -> near y -> near h -> draws (draw_vline x y h c) (box x y 1 h c).
Proof.
  unfold near. intros Hx Hy Hh f Hf. unfold draw_vline. krun. unfold id. pose proof (fw_width f Hf). pose proof (fw_height f Hf).
  rewrite !i32_small by lia.
  destruct (Z.leb_spec h 0) as [|Hh0]; [|destruct (Z.ltb_spec x 0) as [|Hx0]; [|destruct (Z.leb_spec (fb_width f) x) as [|Hx1]]]; cbn [orb].
  1, 2, 3: exists f; split; [done|]; eapply painted_ext; [|by apply painted_refl]; intros x' y' [Hx' Hy']; pic.
  rewrite bind_signed by lia.
  assert (Hmax : draw_max y 0 = Z.max y 0) by (unfold draw_max; case_match; lia).
  assert (Hmin : draw_min (y + h) (fb_height f) = Z.min (y + h) (fb_height f)) by (unfold draw_min; case_match; lia).
  rewrite Hmax, Hmin. apply (draws_clipped _ _ _ (fun k => box x k 1 1 c)); [done| |].
  - intros k Hk. rewrite !u32_small by lia. apply draws_put_pixel; lia.
  - intros x' y' [Hx' Hy']. rewrite (stack_at _ _ _ _ _ y') by (intros j _ Hj; pic).
    pic.
Qed.

Lemma draw_fill_rect_draws x y w h c : near x -> near y -> near w -> near h -> draws (draw_fill_rect x y w h c) (box x y w h c).
Proof.
  unfold near. intros Hx Hy Hw Hh f Hf. unfold draw_fill_rect. krun. unfold id. pose proof (fw_width f Hf). pose proof (fw_height f Hf).
  rewrite !i32_small by lia.
  destruct (Z.leb_spec w 0) as [|Hw0]; [|destruct (Z.leb_spec h 0) as [|Hh0]]; cbn [orb].
  1, 2: exists f; split; [done|]; eapply painted_ext; [|by apply painted_refl]; intros x' y' [Hx' Hy']; pic.
  rewrite bind_signed by lia.
  assert (Hmax : draw_max y 0 = Z.max y 0) by (unfold draw_max; case_match; lia).
  assert (Hmin : draw_min (y + h) (fb_height f) = Z.min (y + h) (fb_height f)) by (unfold draw_min; case_match; lia).
  rewrite Hmax, Hmin. apply (draws_clipped _ _ _ (fun k => box x k w 1 c)); [done| |].
  - intros k Hk. apply draw_hline_draws; unfold near; lia.
  - intros x' y' [Hx' Hy']. rewrite (stack_at _ _ _ _ _ y') by (intros j _ Hj; pic).
    pic.
Qed.

Lemma draw_rect_draws x y w h c : near x -> near y -> near w -> near h -> draws (draw_rect x y w h c) (outline x y w h c).
Proof.
  unfold near. intros Hx Hy Hw Hh f Hf. unfold draw_rect. krun. unfold id.
  destruct (Z.leb_spec w 0) as [|Hw0]; [|destruct (Z.leb_spec h 0) as [|Hh0]]; cbn [orb].
  1, 2: exists f; split; [done|]; eapply painted_ext; [|by apply painted_refl]; intros x' y' [Hx' Hy']; pic.
  revert f Hf.
  change (draws (draw_hline x y w c;; bottom <- signed (y + h);; draw_hline x (bottom - 1) w c;; draw_vline x y h c;;
    right <- signed (x + w);; draw_vline (right - 1) y h c) (outline x y w h c)).
  eapply draws_ext; [|apply draws_bind; [apply draw_hline_draws; unfold near; lia|apply draws_signed; [lia|]; apply draws_bind;
    [apply draw_hline_draws; unfold near; lia|apply draws_bind; [apply draw_vline_draws; unfold near; lia|apply draws_signed; [lia|];
    apply draw_vline_draws; unfold near; lia]]]].
  intros x' y' _ _. pic.
Qed.

Lemma fb_clear_draws c : draws (fb_clear c) (fun _ _ => Some c).
Proof.
  intros f Hf. unfold fb_clear. krun. unfold id. rewrite supported_wf by done. cbn [negb].
  pose proof (fw_width f Hf). pose proof (fw_height f Hf).
  apply (draws_clipped _ _ _ (fun k => stack (Z.to_nat (fb_width f)) 0 (fun j => box j k 1 1 c))); [done| |].
  - intros k Hk. apply draws_for. intros j Hj. apply draws_put_pixel; lia.
  - assert (Hrow : forall x y k, stack (Z.to_nat (fb_width f)) 0 (fun j => box j k 1 1 c) x y =
              if decide (0 <= x < 0 + Z.of_nat (Z.to_nat (fb_width f))) then box x k 1 1 c x y else None).
    { intros x y k. apply (stack_at _ _ (fun j => box j k 1 1 c)). intros j _ Hj. pic. }
    intros x y [Hx Hy]. rewrite (stack_at _ _ _ _ _ y) by (intros j _ Hj; rewrite Hrow; pic). rewrite Hrow. pic.
Qed.

(** *** Lines *)

(** The states of the line loop on a horizontal, vertical or diagonal line:
    the error term comes back to the same value. *)
Definition straight (dx dy sx sy err ux uy : Z) : Prop :=
  (sx = 1 \/ sx = -1) /\ (sy = 1 \/ sy = -1) /\ 0 <= dx < 2 ^ 30 /\ 0 <= dy < 2 ^ 30 /\
  ((0 < dx /\ dy = 0 /\ err = dx /\ ux = sx /\ uy = 0) \/
   (dx = 0 /\ 0 < dy /\ err = - dy /\ ux = 0 /\ uy = sy) \/
   (0 < dx /\ dy = dx /\ err = 0 /\ ux = sx /\ uy = sy)).

Lemma run_step x y ux uy n c :
  (ux = 1 \/ ux = -1 \/ ux = 0) -> (uy = 1 \/ uy = -1 \/ uy = 0) -> (ux <> 0 \/ uy <> 0) -> 0 < n ->
  forall x' y', over (run (x + ux) (y + uy) ux uy (n - 1) c) (box x y 1 1 c) x' y' = run x y ux uy n c x' y'.
Proof.
  intros [->|[->| ->]] [->|[->| ->]] Hne Hn x' y'; try lia; unfold over, run, box; cbn [Z.eqb];
    repeat case_decide; try done; lia.
Qed.

Lemma signed_pair a b (s : screen) :
  - 2 ^ 31 <= a < 2 ^ 31 -> - 2 ^ 31 <= b < 2 ^ 31 -> (e <- signed a;; z <- signed b;; ret (e, z)) s = Ret (a, b) s [].
Proof. intros Ha Hb. by rewrite !bind_signed by done. Qed.

Lemma run_0 x y ux uy c :
  (ux = 1 \/ ux = -1 \/ ux = 0) -> (uy = 1 \/ uy = -1 \/ uy = 0) -> (ux <> 0 \/ uy <> 0) ->
  forall x' y', over blank_picture (box x y 1 1 c) x' y' = run x y ux uy 0 c x' y'.
Proof.
  intros [->|[-> | ->]] [->|[-> | ->]] Hne x' y'; try lia; unfold over, run, box, blank_picture; cbn [Z.eqb];
    repeat case_decide; try done; lia.
Qed.

Lemma straight_unit dx dy sx sy err ux uy :
  straight dx dy sx sy err ux uy ->
  (ux = 1 \/ ux = -1 \/ ux = 0) /\ (uy = 1 \/ uy = -1 \/ uy = 0) /\ (ux <> 0 \/ uy <> 0).
Proof. intros (Hsx & Hsy & _ & _ & Hc). lia. Qed.

Lemma line_loop_straight n dx dy sx sy err ux uy c :
  straight dx dy sx sy err ux uy -> forall fuel x y, (n < fuel)%nat ->
  (forall k, 0 <= k <= Z.of_nat n -> - 2 ^ 31 <= x + k * ux < 2 ^ 31 /\ - 2 ^ 31 <= y + k * uy < 2 ^ 31) ->
  draws (draw_line_loop fuel x y (x + Z.of_nat n * ux) (y + Z.of_nat n * uy) dx dy sx sy err c) (run x y ux uy (Z.of_nat n) c).
Proof.
  intros Hs. induction n as [|n IH]; intros fuel x y Hfuel Hb; (destruct fuel as [|fuel]; [lia|]); cbn [draw_line_loop].
  - pose proof (Hb 0 ltac:(lia)). rewrite !Z.add_0_r, !Z.eqb_refl. cbn [andb].
    eapply draws_ext; [|apply draws_bind; [apply draw_pixel_draws; lia|apply draws_ret]].
    intros x' y' _ _. destruct (straight_unit _ _ _ _ _ _ _ Hs) as (H1 & H2 & H3). by apply run_0.
  - pose proof (Hb 0 ltac:(lia)) as H0. pose proof (Hb 1 ltac:(lia)) as H1.
    pose proof (straight_unit _ _ _ _ _ _ _ Hs) as Hu.
    eapply draws_ext; [|apply draws_bind; [apply draw_pixel_draws; lia|]].
    { intros x' y' _ _. apply run_step; [apply Hu|apply Hu|apply Hu|lia]. }
    replace ((x =? x + Z.of_nat (S n) * ux) && (y =? y + Z.of_nat (S n) * uy)) with false
      by (symmetry; apply andb_false_iff; rewrite !Z.eqb_neq; destruct Hu as (_ & _ & [?|?]); nia).
    assert (Hnext : draws (draw_line_loop fuel (x + ux) (y + uy) (x + Z.of_nat (S n) * ux) (y + Z.of_nat (S n) * uy) dx dy sx sy err c)
                      (run (x + ux) (y + uy) ux uy (Z.of_nat (S n) - 1) c)).
    { replace (x + Z.of_nat (S n) * ux) with (x + ux + Z.of_nat n * ux) by lia.
      replace (y + Z.of_nat (S n) * uy) with (y + uy + Z.of_nat n * uy) by lia.
      replace (Z.of_nat (S n) - 1) with (Z.of_nat n) by lia.
      apply IH; [lia|]. intros k Hk. specialize (Hb (k + 1) ltac:(lia)). lia. }
    intros f Hf. destruct (Hnext f Hf) as (f' & Hr & Hp). exists f'. split; [|done]. rewrite <- Hr.
    destruct Hs as (Hsx & Hsy & Hdx & Hdy & [(? & -> & -> & -> & ->)|[(-> & ? & -> & -> & ->)|(? & -> & -> & -> & ->)]]).
    + rewrite bind_signed, (proj2 (Z.ltb_lt _ _)) by lia.
      rewrite (bind_Ret_nil _ _ _ _ _ (signed_pair (dx - 0) (x + sx) _ ltac:(lia) ltac:(lia))). cbn beta iota.
      rewrite Z.sub_0_r, bind_signed, (proj2 (Z.ltb_ge _ dx)) by lia. by rewrite bind_ret, !Z.add_0_r.
    + rewrite bind_signed, (proj2 (Z.ltb_ge _ _)) by lia. rewrite bind_ret. cbn beta iota.
      rewrite bind_signed, (proj2 (Z.ltb_lt _ _)) by lia.
      rewrite (bind_Ret_nil _ _ _ _ _ (signed_pair (- dy + 0) (y + sy) _ ltac:(lia) ltac:(lia))). cbn beta iota. by rewrite !Z.add_0_r.
    + rewrite bind_signed, (proj2 (Z.ltb_lt _ _)) by lia.
      rewrite (bind_Ret_nil _ _ _ _ _ (signed_pair (0 - dx) (x + sx) _ ltac:(lia) ltac:(lia))). cbn beta iota.
      rewrite bind_signed, (proj2 (Z.ltb_lt _ _)) by lia.
      rewrite (bind_Ret_nil _ _ _ _ _ (signed_pair (0 - dx + dx) (y + sy) _ ltac:(lia) ltac:(lia))). cbn beta iota.
      by replace (0 - dx + dx) with 0 by lia.
Qed.

Definition direction (a b : Z) : Z := Z.sgn (b - a).

(** The picture of a line that is horizontal, vertical or diagonal. *)
Definition line_picture (x0 y0 x1 y1 color : Z) : picture :=
  run x0 y0 (direction x0 x1) (direction y0 y1) (Z.max (Z.abs (x1 - x0)) (Z.abs (y1 - y0))) color.

Lemma draw_abs_run z (s : screen) : - 2 ^ 31 < z < 2 ^ 31 -> draw_abs z s = Ret (Z.abs z) s [].
Proof.
  intros Hz. unfold draw_abs. destruct (Z.ltb_spec z 0).
  - unfold signed, int_ok. rewrite (proj2 (Z.leb_le _ _)), (proj2 (Z.ltb_lt (- z) _)) by lia. by rewrite Z.abs_neq by lia.
  - by rewrite Z.abs_eq by lia.
Qed.

Lemma draw_line_start f fuel x0 y0 x1 y1 c :
  near x0 -> near y0 -> near x1 -> near y1 ->
  draw_line fuel x0 y0 x1 y1 c (Some f) =
  draw_line_loop fuel x0 y0 x1 y1 (Z.abs (x1 - x0)) (Z.abs (y1 - y0)) (if x0 <? x1 then 1 else -1) (if y0 <? y1 then 1 else -1)
    (Z.abs (x1 - x0) - Z.abs (y1 - y0)) c (Some f).
Proof.
  unfold near. intros. unfold draw_line. krun. unfold id. rewrite bind_signed by lia.
  rewrite (bind_Ret_nil _ _ _ _ _ (draw_abs_run (x1 - x0) (Some f) ltac:(lia))). rewrite bind_signed by lia.
  rewrite (bind_Ret_nil _ _ _ _ _ (draw_abs_run (y1 - y0) (Some f) ltac:(lia))). by rewrite bind_signed by lia.
Qed.

Lemma draw_line_draws fuel x0 y0 x1 y1 c :
  near x0 -> near y0 -> near x1 -> near y1 ->
  x0 = x1 \/ y0 = y1 \/ Z.abs (x1 - x0) = Z.abs (y1 - y0) ->
  Z.max (Z.abs (x1 - x0)) (Z.abs (y1 - y0)) < Z.of_nat fuel ->
  draws (draw_line fuel x0 y0 x1 y1 c) (line_picture x0 y0 x1 y1 c).
Proof.
  intros Hx0 Hy0 Hx1 Hy1 Hdir Hfuel f Hf. rewrite draw_line_start by done. revert f Hf. unfold near in *.
  set (n := Z.to_nat (Z.max (Z.abs (x1 - x0)) (Z.abs (y1 - y0)))).
  destruct (decide (x0 = x1 /\ y0 = y1)) as [[-> ->]|Hne].
  - destruct fuel as [|fuel]; [lia|]. cbn [draw_line_loop]. rewrite !Z.eqb_refl. cbn [andb].
    eapply (draws_ext (fun s => s)); [|apply draws_bind; [apply draw_pixel_draws; lia|apply draws_ret]]. intros x y _ _.
    unfold line_picture, direction, run. rewrite !Z.sub_diag. cbn. pic.
  - assert (Hn : Z.of_nat n = Z.max (Z.abs (x1 - x0)) (Z.abs (y1 - y0))) by lia.
    assert (Hs : straight (Z.abs (x1 - x0)) (Z.abs (y1 - y0)) (if x0 <? x1 then 1 else -1) (if y0 <? y1 then 1 else -1)
                   (Z.abs (x1 - x0) - Z.abs (y1 - y0)) (direction x0 x1) (direction y0 y1)).
    { unfold straight, direction. destruct (Z.ltb_spec x0 x1), (Z.ltb_spec y0 y1),
        (Z.sgn_spec (x1 - x0)) as [[? ->]|[[? ->]|[? ->]]], (Z.sgn_spec (y1 - y0)) as [[? ->]|[[? ->]|[? ->]]]; lia. }
    pose proof (line_loop_straight n _ _ _ _ _ _ _ c Hs fuel x0 y0 ltac:(lia)) as Hloop.
    assert (Hends : x0 + Z.of_nat n * direction x0 x1 = x1 /\ y0 + Z.of_nat n * direction y0 y1 = y1).
    { unfold direction. destruct (Z.sgn_spec (x1 - x0)) as [[? ->]|[[? ->]|[? ->]]],
        (Z.sgn_spec (y1 - y0)) as [[? ->]|[[? ->]|[? ->]]]; lia. }
    rewrite (proj1 Hends), (proj2 Hends), Hn in Hloop. apply Hloop. intros k Hk. clear Hloop Hs Hends. unfold direction.
    destruct (Z.sgn_spec (x1 - x0)) as [[? ->]|[[? ->]|[? ->]]], (Z.sgn_spec (y1 - y0)) as [[? ->]|[[? ->]|[? ->]]]; lia.
Qed.

(** A line that has gone past its last row never ends. *)
Lemma line_past fuel x y x1 y1 dx dy sx err c f :
  fb_wf f -> x < 2 ^ 31 -> y1 < y < 2 ^ 31 -> draw_line_loop fuel x y x1 y1 dx dy sx 1 err c (Some f) = Undef.
Proof.
  intros Hf. revert x y err f Hf. induction fuel as [|fuel IH]; intros x y err f Hf Hx Hy; [done|]. cbn [draw_line_loop].
  destruct (draw_pixel_draws x y c Hx ltac:(lia) f Hf) as (f' & He & Hp). rewrite (bind_Ret_nil _ _ _ _ _ He).
  rewrite (proj2 (Z.eqb_neq y y1)) by lia. rewrite andb_false_r. pose proof (pa_wf _ _ _ Hp) as Hf'.
  assert (Hint : forall z (k : Z -> M screen unit) s, (- 2 ^ 31 <= z < 2 ^ 31 -> k z s = Undef) -> bind (signed z) k s = Undef).
  { intros z k s Hk. destruct (int_ok z) eqn:Ho.
    - apply andb_prop in Ho as [H1%Z.leb_le H2%Z.ltb_lt]. rewrite bind_signed by lia. apply Hk. lia.
    - unfold signed. by rewrite Ho. }
  assert (Hpair : forall a b (k : Z * Z -> M screen unit) s, (- 2 ^ 31 <= b < 2 ^ 31 -> k (a, b) s = Undef) ->
            bind (e <- signed a;; z <- signed b;; ret (e, z)) k s = Undef).
  { intros a b k s Hk. unfold signed at 1. destruct (int_ok a); [|done]. unfold signed. destruct (int_ok b) eqn:Hb; [|done].
    apply andb_prop in Hb as [H1%Z.leb_le H2%Z.ltb_lt]. rewrite (bind_Ret_nil _ _ s (a, b) s eq_refl). apply Hk. lia. }
  apply Hint. intros _. destruct (- dy <? err * 2).
  - apply Hpair. intros Hx'. cbn beta iota. apply Hint. intros _. destruct (_ <? dx).
    + apply Hpair. intros Hy'. apply IH; [done|lia|lia].
    + rewrite bind_ret. apply IH; [done|lia|lia].
  - rewrite bind_ret. cbn beta iota. apply Hint. intros _. destruct (_ <? dx).
    + apply Hpair. intros Hy'. apply IH; [done|lia|lia].
    + rewrite bind_ret. apply IH; [done|lia|lia].
Qed.

(** One round of the loop, where no sum overflows. *)
Lemma line_loop_step fuel x y x1 y1 dx dy sx sy err c f :
  fb_wf f -> - 2 ^ 30 <= x < 2 ^ 30 -> - 2 ^ 30 <= y < 2 ^ 30 -> -1 <= sx <= 1 -> -1 <= sy <= 1 ->
  0 <= dx < 2 ^ 20 -> 0 <= dy < 2 ^ 20 -> - 2 ^ 20 <= err < 2 ^ 20 -> (x =? x1) && (y =? y1) = false ->
  let e1 := if - dy <? err * 2 then err - dy else err in
  exists f', fb_wf f' /\
    draw_line_loop (S fuel) x y x1 y1 dx dy sx sy err c (Some f) =
    draw_line_loop fuel (if - dy <? err * 2 then x + sx else x) (if e1 * 2 <? dx then y + sy else y) x1 y1 dx dy sx sy
      (if e1 * 2 <? dx then e1 + dx else e1) c (Some f').
Proof.
  intros Hf Hx Hy Hsx Hsy Hdx Hdy Herr Hend e1. cbn [draw_line_loop].
  destruct (draw_pixel_draws x y c ltac:(lia) ltac:(lia) f Hf) as (f' & He & Hp). exists f'. split; [by apply (pa_wf _ _ _ Hp)|].
  rewrite (bind_Ret_nil _ _ _ _ _ He), Hend. rewrite bind_signed by lia. unfold e1. clear e1. destruct (- dy <? err * 2).
  - rewrite (bind_Ret_nil _ _ _ _ _ (signed_pair (err - dy) (x + sx) _ ltac:(lia) ltac:(lia))). cbn beta iota.
    rewrite bind_signed by lia. destruct (_ <? dx); [|by rewrite bind_ret].
    by rewrite (bind_Ret_nil _ _ _ _ _ (signed_pair (err - dy + dx) (y + sy) _ ltac:(lia) ltac:(lia))).
  - rewrite bind_ret. cbn beta iota. rewrite bind_signed by lia. destruct (_ <? dx); [|by rewrite bind_ret].
    by rewrite (bind_Ret_nil _ _ _ _ _ (signed_pair (err + dx) (y + sy) _ ltac:(lia) ltac:(lia))).
Qed.

Lemma line_misses f c fuel : fb_wf f -> draw_line fuel 0 0 3 2 c (Some f) = Undef.
Proof.
  intros Hf. rewrite draw_line_start by (unfold near; lia).
  change (draw_line_loop fuel 0 0 3 2 3 2 1 1 1 c (Some f) = Undef). destruct fuel as [|fuel]; [done|].
  destruct (line_loop_step fuel 0 0 3 2 3 2 1 1 1 c f) as (f1 & Hf1 & ->); [done|lia..|done|]. change (draw_line_loop fuel 1 1 3 2 3 2 1 1 2 c (Some f1) = Undef).
  destruct fuel as [|fuel]; [done|].
  destruct (line_loop_step fuel 1 1 3 2 3 2 1 1 2 c f1) as (f2 & Hf2 & ->); [done|lia..|done|]. change (draw_line_loop fuel 2 2 3 2 3 2 1 1 3 c (Some f2) = Undef).
  destruct fuel as [|fuel]; [done|].
  destruct (line_loop_step fuel 2 2 3 2 3 2 1 1 3 c f2) as (f3 & Hf3 & ->); [done|lia..|done|]. change (draw_line_loop fuel 3 3 3 2 3 2 1 1 4 c (Some f3) = Undef).
  apply line_past; [done|lia|lia].
Qed.

(** *** Text *)

Lemma gfx_font8x8_get_some c : 0 <= c < 256 -> exists g, gfx_font8x8_get c = Some g /\ lenZ g = 8.
Proof.
  intros Hc. unfold gfx_font8x8_get, GFX_FONT_FIRST_CHAR, GFX_FONT_LAST_CHAR. change (ch "?") with 63.
  assert (Hrows : Forall (fun g => lenZ g = 8) gfx_font8x8_basic) by (apply Forall_forall; intros g Hg;
    repeat (apply elem_of_cons in Hg as [->|Hg]; [done|]); by apply elem_of_nil in Hg).
  set (c1 := if _ || _ then _ else _).
  assert (Hc1 : 32 <= c1 < 127) by (unfold c1; destruct (Z.ltb_spec c 32), (Z.ltb_spec 126 c); cbn; lia).
  destruct (rd_Some gfx_font8x8_basic (c1 - 32)) as [g Hg]; [change (lenZ gfx_font8x8_basic) with 95; lia|].
  exists g. split; [done|]. unfold rd in Hg. destruct (0 <=? c1 - 32); [|done]. exact (Forall_lookup_1 _ _ _ _ Hrows Hg).
Qed.

(** The pixels of character [c] with its upper left corner at [(x, y)]. *)
Definition glyph_picture (x y c fg bg : Z) : picture := fun x' y' =>
  if decide (x <= x' < x + 8 /\ y <= y' < y + 8)
  then Some (if Z.testbit (default 0 (g ← gfx_font8x8_get c; rd g (y' - y))) (x' - x) then fg else bg) else None.

(** The characters of [s] from [(cx, cy)] on; a line break goes back to
    column [x]. *)
Fixpoint text_picture (x cx cy : Z) (s : list Z) (fg bg : Z) : picture :=
  match s with
  | [] => blank_picture
  | c :: s' =>
      if c =? 10 then text_picture x x (cy + 8) s' fg bg
      else over (text_picture x (cx + 8) cy s' fg bg) (glyph_picture cx cy c fg bg)
  end.

Lemma gfx_draw_char_draws x y c fg bg :
  0 <= c < 256 -> - 2 ^ 30 <= x < 2 ^ 30 -> - 2 ^ 30 <= y < 2 ^ 30 -> draws (gfx_draw_char x y c fg bg) (glyph_picture x y c fg bg).
Proof.
  intros Hc Hx Hy. unfold gfx_draw_char.
  change (Z.to_nat GFX_FONT_HEIGHT) with 8%nat. change (Z.to_nat GFX_FONT_WIDTH) with 8%nat.
  destruct (gfx_font8x8_get_some c Hc) as (g & Hg & Hlen). apply (draws_deref Hg).
  set (cell := fun row col => box (x + col) (y + row) 1 1 (if Z.testbit (default 0 (rd g row)) col then fg else bg)).
  eapply draws_ext; [|apply (draws_for _ _ _ _ (fun row => stack 8 0 (cell row)))].
  - intros x' y' _ _.
    assert (Hrow : forall row, stack 8 0 (cell row) x' y' = if decide (0 <= x' - x < 0 + Z.of_nat 8) then cell row (x' - x) x' y' else None).
    { intros row. apply stack_at. intros j _ Hj. unfold cell. pic. }
    rewrite (stack_at _ _ _ _ _ (y' - y)) by (intros j _ Hj; rewrite Hrow; unfold cell; pic). rewrite Hrow.
    unfold cell, glyph_picture. rewrite Hg. cbn [mbind option_bind]. pic.
  - intros row Hrow. apply draws_for. intros col Hcol. destruct (rd_Some g row) as [bits Hbits]; [lia|].
    apply (draws_deref Hbits). apply draws_signed; [lia|]. apply draws_signed; [lia|].
    unfold cell. rewrite Hbits. cbn [default from_option]. unfold id. rewrite Z.shiftl_1_l, land_bit by lia.
    destruct (Z.testbit bits col); apply draw_pixel_draws; lia.
Qed.

Lemma draw_string_loop_draws x cx cy s r fg bg :
  no_nul s -> Forall (fun c => 0 <= c < 256) s -> - 2 ^ 29 <= x -> - 2 ^ 29 <= cx -> - 2 ^ 29 <= cy ->
  x + 8 * lenZ s < 2 ^ 30 -> cx + 8 * lenZ s < 2 ^ 30 -> cy + 8 * lenZ s < 2 ^ 30 ->
  draws (draw_string_loop x cx cy (s ++ 0 :: r) fg bg) (text_picture x cx cy s fg bg).
Proof.
  intros Hn Hb. revert cx cy. induction s as [|c s IH]; intros cx cy Hx Hcx Hcy Hx' Hcx' Hcy'; cbn [app draw_string_loop text_picture].
  { apply draws_ret. }
  rewrite lenZ_cons in *. pose proof (lenZ_nonneg s). apply Forall_cons in Hn as [Hc0 Hn]. apply Forall_cons in Hb as [Hc Hb].
  unfold GFX_FONT_HEIGHT, GFX_FONT_WIDTH. rewrite (proj2 (Z.eqb_neq c 0)) by done. destruct (Z.eqb_spec c 10).
  - apply draws_signed; [lia|]. apply IH; try done; lia.
  - apply draws_bind; [apply gfx_draw_char_draws; lia|]. apply draws_signed; [lia|]. apply IH; try done; lia.
Qed.

Lemma gfx_draw_string_draws x y t s fg bg :
  cval t = Some s -> Forall (fun c => 0 <= c < 256) s -> near x -> near y -> lenZ s < 2 ^ 25 ->
  draws (gfx_draw_string x y (Some t) fg bg) (text_picture x x y s fg bg).
Proof.
  unfold near. intros (Hn & r & ->)%cval_inv Hb Hx Hy Hl f Hf. unfold gfx_draw_string. krun. unfold id.
  apply draw_string_loop_draws; try done; lia.
Qed.

(** ** Properties *)

(** Rectangles: [draw_fill_rect] colours exactly the pixels of the rectangle
    that are on the screen and [draw_rect] exactly those of its outline; every
    other pixel keeps its colour and no access leaves the buffer. *)
Theorem draw_rect_spec x y w h c :
  near x -> near y -> near w -> near h ->
  draws (draw_fill_rect x y w h c) (box x y w h c) /\ draws (draw_rect x y w h c) (outline x y w h c).
Proof. intros Hx Hy Hw Hh. split; [by apply draw_fill_rect_draws|by apply draw_rect_draws]. Qed.

(** [draw_line] ends and colours exactly the points of the line when it is
    horizontal, vertical or diagonal. It does not end for every line: the loop
    tests the error term that it has just changed, and misses the end point of
    the line from (0, 0) to (3, 2) however long it runs. *)
Theorem draw_line_spec x0 y0 x1 y1 c fuel :
  near x0 -> near y0 -> near x1 -> near y1 ->
  x0 = x1 \/ y0 = y1 \/ Z.abs (x1 - x0) = Z.abs (y1 - y0) ->
  Z.max (Z.abs (x1 - x0)) (Z.abs (y1 - y0)) < Z.of_nat fuel ->
  draws (draw_line fuel x0 y0 x1 y1 c) (line_picture x0 y0 x1 y1 c) /\
  forall n f, fb_wf f -> draw_line n 0 0 3 2 c (Some f) = Undef.
Proof.
  intros Hx0 Hy0 Hx1 Hy1 Hdir Hfuel. split; [by apply draw_line_draws|]. intros n f. apply line_misses.
Qed.

(** [gfx_draw_string] paints the glyphs of the text side by side from the
    given position, a line break going back to the first column one row down,
    and nothing else. *)
Theorem gfx_draw_string_spec x y t s fg bg :
  cval t = Some s -> Forall (fun c => 0 <= c < 256) s -> near x -> near y -> lenZ s < 2 ^ 25 ->
  draws (gfx_draw_string x y (Some t) fg bg) (text_picture x x y s fg bg).
Proof. apply gfx_draw_string_draws. Qed.

(** ** A small screen *)

Definition small_screen : framebuffer :=
  Framebuffer 16 12 64 4 FB_PIXEL_FORMAT_X8R8G8B8 (Some (replicate 192 0)).

Lemma small_screen_wf : fb_wf small_screen.
Proof. constructor; try done. by eexists. Qed.

Lemma draw_rect_spec_witness :
  (near (-2) /\ near 5) /\ draws (draw_fill_rect (-2) 1 5 6 7) (box (-2) 1 5 6 7) /\ draws (draw_rect (-2) 1 5 6 7) (outline (-2) 1 5 6 7).
Proof. split; [unfold near; lia|]. apply (draw_rect_spec (-2) 1 5 6 7); unfold near; lia. Defined.

Lemma draw_line_spec_witness :
  (near (-2) /\ near 4) /\ draws (draw_line 20 (-2) (-2) 4 4 7) (line_picture (-2) (-2) 4 4 7) /\
  forall n f, fb_wf f -> draw_line n 0 0 3 2 7 (Some f) = Undef.
Proof. split; [unfold near; lia|]. apply (draw_line_spec (-2) (-2) 4 4 7 20); unfold near; lia. Defined.

Lemma gfx_draw_string_spec_witness :
  cval (cstr "Hi") = Some (lit "Hi") /\ draws (gfx_draw_string 1 2 (Some (cstr "Hi")) 9 3) (text_picture 1 1 2 (lit "Hi") 9 3).
Proof.
  split; [reflexivity|]. apply (gfx_draw_string_spec 1 2 (cstr "Hi") (lit "Hi") 9 3);
    [reflexivity|apply (bool_decide_unpack _); vm_compute; exact I|unfold near; lia|unfold near; lia|reflexivity].
Defined.
