(* ===== verification/Cursor.v ===== *)
(** The mouse pointer (src/src/gfx/cursor.c): it saves the pixels it covers
    and puts them back before it moves. *)
From S2P Require Import Prelude LibString Memory Graphics.

Definition GFX_CURSOR_WIDTH : Z := 12.
Definition GFX_CURSOR_HEIGHT : Z := 16.
Definition GFX_CURSOR_FILL_COLOR : Z := 0xffffffff.
Definition GFX_CURSOR_ACCENT_COLOR : Z := 0xff7fd1ff.
Definition GFX_CURSOR_OUTLINE_COLOR : Z := 0xff101010.

Record gfx_cursor_state : Type := CursorState {
  cur_fb : screen;
  cur_x : Z;
  cur_y : Z;
  saved_width : Z;
  saved_height : Z;
  saved_pixels : list Z;
  visible : Z
}.
Definition set_cur_fb (v : screen) (s : gfx_cursor_state) : gfx_cursor_state :=
  CursorState v (cur_x s) (cur_y s) (saved_width s) (saved_height s) (saved_pixels s) (visible s).
Definition set_saved_pixels (v : list Z) (s : gfx_cursor_state) : gfx_cursor_state :=
  CursorState (cur_fb s) (cur_x s) (cur_y s) (saved_width s) (saved_height s) v (visible s).
Definition set_visible (v : Z) (s : gfx_cursor_state) : gfx_cursor_state :=
  CursorState (cur_fb s) (cur_x s) (cur_y s) (saved_width s) (saved_height s) (saved_pixels s) v.
Definition set_cur_pos (x y : Z) (s : gfx_cursor_state) : gfx_cursor_state :=
  CursorState (cur_fb s) x y (saved_width s) (saved_height s) (saved_pixels s) (visible s).
Definition set_saved_size (w h : Z) (s : gfx_cursor_state) : gfx_cursor_state :=
  CursorState (cur_fb s) (cur_x s) (cur_y s) w h (saved_pixels s) (visible s).

(** Drawing through the attached pointer. *)
Definition on_screen {A} (m : M screen A) : M gfx_cursor_state A := zoom cur_fb set_cur_fb m.

Definition gfx_cursor_clip_width (s : gfx_cursor_state) (x : Z) : Z :=
  match cur_fb s with
  | None => 0
  | Some f =>
      if fb_width f <=? x then 0
      else if fb_width f <? u32 (x + GFX_CURSOR_WIDTH) then u32 (fb_width f - x) else GFX_CURSOR_WIDTH
  end.
Definition gfx_cursor_clip_height (s : gfx_cursor_state) (y : Z) : Z :=
  match cur_fb s with
  | None => 0
  | Some f =>
      if fb_height f <=? y then 0
      else if fb_height f <? u32 (y + GFX_CURSOR_HEIGHT) then u32 (fb_height f - y) else GFX_CURSOR_HEIGHT
  end.

(** The two nested loops over the saved rectangle. *)
Definition for_saved (body : Z -> Z -> M gfx_cursor_state unit) : M gfx_cursor_state unit :=
  h <- gets saved_height;;
  w <- gets saved_width;;
  for_range (Z.to_nat h) 0 (fun row => for_range (Z.to_nat w) 0 (fun col => body row col)).

Definition gfx_cursor_restore_background : M gfx_cursor_state unit :=
  vis <- gets visible;;
  fb <- gets cur_fb;;
  match fb with
  | Some _ =>
      if vis =? 0 then ret tt
      else
        for_saved (fun row col =>
          saved <- gets saved_pixels;;
          x <- gets cur_x;; y <- gets cur_y;;
          c <- deref (rd saved (u32 (row * GFX_CURSOR_WIDTH + col)));;
          on_screen (fb_put_pixel (u32 (x + col)) (u32 (y + row)) c));;
        modify (set_visible 0)
  | None => ret tt
  end.

Definition gfx_cursor_save_background (x y : Z) : M gfx_cursor_state unit :=
  modify (fun s => set_saved_size (gfx_cursor_clip_width s x) (gfx_cursor_clip_height s y) s);;
  for_saved (fun row col =>
    c <- on_screen (fb_get_pixel (u32 (x + col)) (u32 (y + row)));;
    saved <- gets saved_pixels;;
    saved1 <- deref (wr saved (u32 (row * GFX_CURSOR_WIDTH + col)) c);;
    modify (set_saved_pixels saved1)).

(** The colour of the pointer at a position of a rectangle of this size. *)
Definition cursor_color (w h row col : Z) : Z :=
  if (row =? 0) || (col =? 0) || (row + 1 =? h) || (col + 1 =? w) then GFX_CURSOR_OUTLINE_COLOR
  else if (3 <=? row) && (row + 3 <? h) && (3 <=? col) && (col + 3 <? w) then GFX_CURSOR_FILL_COLOR
  else GFX_CURSOR_ACCENT_COLOR.

Definition gfx_cursor_draw_at (x y : Z) : M gfx_cursor_state unit :=
  for_saved (fun row col =>
    h <- gets saved_height;; w <- gets saved_width;;
    let color := cursor_color w h row col in
    if negb (color =? 0) then on_screen (fb_put_pixel (u32 (x + col)) (u32 (y + row)) color) else ret tt);;
  modify (set_visible 1).

(** The result is the framebuffer the pointer was attached to, which lives on. *)
Definition gfx_cursor_attach (fb : screen) : M gfx_cursor_state screen :=
  vis <- gets visible;;
  (if negb (vis =? 0) then gfx_cursor_restore_background else ret tt);;
  old <- gets cur_fb;;
  modify (fun s => CursorState fb 0 0 0 0 (saved_pixels s) 0);;
  ret old.

Definition gfx_cursor_available : M gfx_cursor_state bool :=
  fb <- gets cur_fb;;
  ret (match fb with Some f => match fb_buffer f with Some _ => true | None => false end | None => false end).

Definition gfx_cursor_move (x y : Z) : M gfx_cursor_state unit :=
  available <- gfx_cursor_available;;
  if negb available then ret tt
  else
    gfx_cursor_restore_background;;
    fb <- gets cur_fb;;
    f <- deref fb;;
    let x1 := if fb_width f <=? x then u32 (fb_width f - 1) else x in
    let y1 := if fb_height f <=? y then u32 (fb_height f - 1) else y in
    modify (set_cur_pos x1 y1);;
    gfx_cursor_save_background x1 y1;;
    gfx_cursor_draw_at x1 y1.

Definition gfx_cursor_refresh : M gfx_cursor_state unit :=
  available <- gfx_cursor_available;;
  if negb available then ret tt
  else
    x <- gets cur_x;; y <- gets cur_y;;
    modify (set_visible 0);;
    gfx_cursor_save_background x y;;
    gfx_cursor_draw_at x y.

Definition gfx_cursor_x : M gfx_cursor_state Z := gets cur_x.
Definition gfx_cursor_y : M gfx_cursor_state Z := gets cur_y.

(** A run of moves, after which the pointer is taken off the screen. *)
Fixpoint cursor_moves (moves : list (Z * Z)) : M gfx_cursor_state screen :=
  match moves with
  | [] => gfx_cursor_attach None
  | (x, y) :: moves' => gfx_cursor_move x y;; cursor_moves moves'
  end.

(** ** The saved rectangle *)

Definition at_fb (s : gfx_cursor_state) : screen -> gfx_cursor_state := fun fb => set_cur_fb fb s.

(** The part of the screen that the pointer covers, with a colour for each
    row and column of it. *)
Definition covered (s : gfx_cursor_state) (x y : Z) : Prop :=
  cur_x s <= x < cur_x s + saved_width s /\ cur_y s <= y < cur_y s + saved_height s.
#[export] Instance covered_dec s x y : Decision (covered s x y).
Proof. unfold covered. apply _. Defined.
Definition patch (s : gfx_cursor_state) (color : Z -> Z -> Z) : picture := fun x y =>
  if decide (covered s x y) then Some (color (y - cur_y s) (x - cur_x s)) else None.

Record cursor_wf (s : gfx_cursor_state) (f : framebuffer) : Prop := {
  cw_fb : cur_fb s = Some f;
  cw_wf : fb_wf f;
  cw_size : 0 < fb_width f /\ 0 < fb_height f;
  cw_saved : lenZ (saved_pixels s) = 192;
  cw_rect : visible s <> 0 -> 0 <= cur_x s < fb_width f /\ 0 <= cur_y s < fb_height f /\
    0 <= saved_width s <= 12 /\ 0 <= saved_height s <= 16
}.

Definition saved_color (s : gfx_cursor_state) (row col : Z) : Z := default 0 (rd (saved_pixels s) (row * 12 + col)).

(** What the screen shows without the pointer. *)
Definition background (s : gfx_cursor_state) (f : framebuffer) (x y : Z) : Z :=
  if decide (visible s <> 0 /\ covered s x y) then saved_color s (y - cur_y s) (x - cur_x s) else pixel f x y.

Lemma for_saved_draws s body color :
  0 <= saved_width s -> 0 <= saved_height s ->
  (forall row col, 0 <= row < saved_height s -> 0 <= col < saved_width s ->
    draws_in (at_fb s) (body row col) (box (cur_x s + col) (cur_y s + row) 1 1 (color row col))) ->
  draws_in (at_fb s) (for_saved body) (patch s color).
Proof.
  intros Hw Hh Hbody. unfold for_saved. apply (draws_gets (a := saved_height s)); [done|].
  apply (draws_gets (a := saved_width s)); [done|].
  set (cell := fun row col => box (cur_x s + col) (cur_y s + row) 1 1 (color row col)).
  set (n := Z.to_nat (saved_width s)).
  eapply draws_ext; [|apply (draws_for _ _ _ _ (fun row => stack n 0 (cell row)))].
  - intros x y _ _.
    assert (Hrow : forall row, stack n 0 (cell row) x y = if decide (0 <= x - cur_x s < 0 + Z.of_nat n) then cell row (x - cur_x s) x y else None).
    { intros row. apply stack_at. intros j _ Hj. unfold cell. pic. }
    rewrite (stack_at _ _ _ _ _ (y - cur_y s)) by (intros j _ Hj; rewrite Hrow; unfold cell; pic). rewrite Hrow.
    unfold cell, patch, covered, n, box. repeat case_decide; try done; lia.
  - intros row Hrow. apply draws_for. intros col Hcol. apply Hbody; lia.
Qed.

Lemma put_draws s x y c : 0 <= x -> 0 <= y -> draws_in (at_fb s) (on_screen (fb_put_pixel x y c)) (box x y 1 1 c).
Proof. intros Hx Hy. apply draws_zoom; [done|done|]. by apply draws_put_pixel. Qed.

(** Restoring puts the background back. *)
Lemma restore_ok s f :
  cursor_wf s f -> exists f',
  gfx_cursor_restore_background s = Ret tt (set_visible 0 (set_cur_fb (Some f') s)) [] /\ cursor_wf (set_visible 0 (set_cur_fb (Some f') s)) f' /\
  fb_width f' = fb_width f /\ fb_height f' = fb_height f /\ forall x y, inside f x y -> pixel f' x y = background s f x y.
Proof.
  intros [Hfb Hf Hsz Hl Hr]. unfold gfx_cursor_restore_background. krun. rewrite Hfb.
  destruct (Z.eqb_spec (visible s) 0) as [Hv|Hv].
  { exists f. destruct s as [fb x y w h p v]; cbn in *; subst. do 4 (split; [done|]).
    intros x' y' _. unfold background. cbn. by rewrite decide_False by tauto. }
  destruct (Hr Hv) as (Hx & Hy & Hw & Hh). pose proof (fw_width f Hf). pose proof (fw_height f Hf).
  assert (Hdraw : draws_in (at_fb s) (for_saved (fun row col =>
    saved <- gets saved_pixels;; x <- gets cur_x;; y <- gets cur_y;;
    c <- deref (rd saved (u32 (row * GFX_CURSOR_WIDTH + col)));;
    on_screen (fb_put_pixel (u32 (x + col)) (u32 (y + row)) c))) (patch s (saved_color s))).
  { apply for_saved_draws; [lia|lia|]. intros row col Hrow Hcol.
    apply (draws_gets (a := saved_pixels s)); [done|]. apply (draws_gets (a := cur_x s)); [done|].
    apply (draws_gets (a := cur_y s)); [done|]. destruct (rd_Some (saved_pixels s) (row * 12 + col)) as [c Hc]; [lia|].
    unfold GFX_CURSOR_WIDTH. rewrite u32_small by lia. apply (draws_deref Hc). rewrite !u32_small by lia.
    replace (saved_color s row col) with c by (unfold saved_color; by rewrite Hc). apply put_draws; lia. }
  destruct (Hdraw f Hf) as (f' & Hrun & Hp).
  exists f'. assert (Hs : at_fb s (Some f) = s) by (destruct s; cbn in *; by subst). rewrite Hs in Hrun.
  rewrite (bind_Ret_nil _ _ _ _ _ Hrun). destruct Hp as [Hwf' Hw' Hh' Hpix].
  split; [done|]. split; [split; try done; cbn; lia|]. split; [done|]. split; [done|].
  intros x' y' Hin. rewrite Hpix by done. unfold background, patch. repeat case_decide; try done; tauto.
Qed.

(** *** Saving *)

Lemma clip_size (dim pos n : Z) :
  0 < dim < 2 ^ 31 -> 0 <= pos < dim -> 0 <= n < 2 ^ 20 ->
  (if dim <=? pos then 0 else if dim <? u32 (pos + n) then u32 (dim - pos) else n) = Z.min n (dim - pos).
Proof.
  intros Hd Hp Hn. rewrite (proj2 (Z.leb_gt dim pos)), !u32_small by lia. destruct (Z.ltb_spec dim (pos + n)); lia.
Qed.

Section saving.
Context (s : gfx_cursor_state) (f : framebuffer) (x y : Z).
Hypothesis (Hf : fb_wf f) (Hfb : cur_fb s = Some f) (Hx : 0 <= x) (Hy : 0 <= y).

Definition save_pixel (row col : Z) : M gfx_cursor_state unit :=
  c <- on_screen (fb_get_pixel (u32 (x + col)) (u32 (y + row)));;
  saved <- gets saved_pixels;;
  saved1 <- deref (wr saved (u32 (row * GFX_CURSOR_WIDTH + col)) c);;
  modify (set_saved_pixels saved1).

Lemma save_pixel_run saved row col :
  lenZ saved = 192 -> 0 <= row < 16 -> 0 <= col < 12 -> inside f (x + col) (y + row) ->
  save_pixel row col (set_saved_pixels saved s) =
  Ret tt (set_saved_pixels (<[Z.to_nat (row * 12 + col) := pixel f (x + col) (y + row)]> saved) s) [].
Proof using Type*.
  intros Hl Hrow Hcol Hin. pose proof (fw_width f Hf). pose proof (fw_height f Hf). destruct Hin as [Hi1 Hi2].
  unfold save_pixel, GFX_CURSOR_WIDTH. rewrite !u32_small by lia.
  assert (Hget : on_screen (fb_get_pixel (x + col) (y + row)) (set_saved_pixels saved s) =
                 Ret (pixel f (x + col) (y + row)) (set_saved_pixels saved s) []).
  { unfold on_screen. erewrite zoom_Ret; [|cbn; rewrite Hfb; apply fb_get_pixel_run; [done|by split]]. destruct s; cbn in *; by subst. }
  rewrite (bind_Ret_nil _ _ _ _ _ Hget). krun. cbn [saved_pixels set_saved_pixels].
  by rewrite (bind_deref_Some _ _ _ _ (wr_Some saved (row * 12 + col) (pixel f (x + col) (y + row)) ltac:(lia))).
Qed.

(** One row of the rectangle, columns [c0] to [c0 + n - 1]. *)
Lemma save_row row n c0 saved :
  lenZ saved = 192 -> 0 <= row < 16 -> 0 <= c0 -> c0 + Z.of_nat n <= 12 ->
  (forall col, c0 <= col < c0 + Z.of_nat n -> inside f (x + col) (y + row)) ->
  exists saved', for_range n c0 (save_pixel row) (set_saved_pixels saved s) = Ret tt (set_saved_pixels saved' s) [] /\
    lenZ saved' = 192 /\
    forall r c, 0 <= r -> 0 <= c < 12 ->
      rd saved' (r * 12 + c) = if decide (r = row /\ c0 <= c < c0 + Z.of_nat n) then Some (pixel f (x + c) (y + r)) else rd saved (r * 12 + c).
Proof using Type*.
  revert c0 saved. induction n as [|n IH]; intros c0 saved Hl Hrow Hc0 Hn Hin; cbn [for_range].
  { exists saved. split; [done|]. split; [done|]. intros r c _ _. by rewrite decide_False by lia. }
  rewrite (bind_Ret_nil _ _ _ _ _ (save_pixel_run saved row c0 Hl Hrow ltac:(lia) (Hin c0 ltac:(lia)))).
  edestruct (IH (c0 + 1)) as (saved' & Hr & Hl' & Hrd); [| | | | |exists saved'; split; [exact Hr|]; split; [done|]]; [|lia|lia|lia| |].
  { unfold lenZ in *. by rewrite length_insert. }
  { intros col Hcol. apply Hin. lia. }
  intros r c Hr0 Hc. rewrite Hrd by done. destruct (decide (r = row /\ c = c0)) as [[-> ->]|Hne].
  - rewrite decide_False, decide_True by lia. unfold rd. rewrite (proj2 (Z.leb_le 0 _)) by lia.
    apply list_lookup_insert_eq. unfold lenZ in Hl. lia.
  - assert (Hold : rd (<[Z.to_nat (row * 12 + c0) := pixel f (x + c0) (y + row)]> saved) (r * 12 + c) = rd saved (r * 12 + c)).
    { unfold rd. rewrite (proj2 (Z.leb_le 0 _)) by lia. apply list_lookup_insert_ne. lia. }
    rewrite Hold. repeat case_decide; try done; lia.
Qed.
End saving.

(** All rows from [r0] on, [w] columns of each. *)
Lemma save_rows s f x y w n r0 saved :
  fb_wf f -> cur_fb s = Some f -> 0 <= x -> 0 <= y -> 0 <= w <= 12 ->
  lenZ saved = 192 -> 0 <= r0 -> r0 + Z.of_nat n <= 16 ->
  (forall row col, 0 <= row < r0 + Z.of_nat n -> 0 <= col < w -> inside f (x + col) (y + row)) ->
  exists saved', for_range n r0 (fun row => for_range (Z.to_nat w) 0 (save_pixel x y row)) (set_saved_pixels saved s) =
      Ret tt (set_saved_pixels saved' s) [] /\
    lenZ saved' = 192 /\
    forall r c, 0 <= r -> 0 <= c < 12 ->
      rd saved' (r * 12 + c) = if decide (r0 <= r < r0 + Z.of_nat n /\ c < w) then Some (pixel f (x + c) (y + r)) else rd saved (r * 12 + c).
Proof.
  intros Hf Hfb Hx Hy Hw. revert r0 saved. induction n as [|n IH]; intros r0 saved Hl Hr0 Hn Hin; cbn [for_range].
  { exists saved. split; [done|]. split; [done|]. intros r c _ _. by rewrite decide_False by lia. }
  destruct (save_row s f x y Hf Hfb Hx Hy r0 (Z.to_nat w) 0 saved) as (saved1 & Hr1 & Hl1 & Hrd1); [done|lia|lia|lia| |].
  { intros col Hcol. apply Hin; lia. }
  rewrite (bind_Ret_nil _ _ _ _ _ Hr1).
  destruct (IH (r0 + 1) saved1) as (saved' & Hr & Hl' & Hrd); [done|lia|lia| |].
  { intros row col Hrow Hcol. apply Hin; lia. }
  exists saved'. split; [done|]. split; [done|]. intros r c Hr' Hc. rewrite Hrd, Hrd1 by done.
  repeat case_decide; try done; lia.
Qed.

Definition clipped (s : gfx_cursor_state) (f : framebuffer) (x y : Z) : gfx_cursor_state :=
  set_saved_size (Z.min 12 (fb_width f - x)) (Z.min 16 (fb_height f - y)) s.

Lemma save_ok s f x y :
  fb_wf f -> cur_fb s = Some f -> lenZ (saved_pixels s) = 192 -> inside f x y ->
  exists saved', gfx_cursor_save_background x y s = Ret tt (set_saved_pixels saved' (clipped s f x y)) [] /\
    lenZ saved' = 192 /\
    forall row col, 0 <= row < Z.min 16 (fb_height f - y) -> 0 <= col < Z.min 12 (fb_width f - x) ->
      rd saved' (row * 12 + col) = Some (pixel f (x + col) (y + row)).
Proof.
  intros Hf Hfb Hl [Hx Hy]. pose proof (fw_width f Hf). pose proof (fw_height f Hf).
  unfold gfx_cursor_save_background, gfx_cursor_clip_width, gfx_cursor_clip_height, GFX_CURSOR_WIDTH, GFX_CURSOR_HEIGHT. krun.
  rewrite Hfb, !clip_size by lia. fold (clipped s f x y).
  destruct (save_rows (clipped s f x y) f x y (Z.min 12 (fb_width f - x)) (Z.to_nat (Z.min 16 (fb_height f - y))) 0 (saved_pixels s))
    as (saved' & Hr & Hl' & Hrd); [done|done|lia|lia|lia|done|lia|lia| |].
  { intros row col Hrow Hcol. split; lia. }
  exists saved'. split; [|split; [done|]].
  - unfold for_saved. krun. by rewrite <- Hr.
  - intros row col Hrow Hcol. rewrite Hrd by lia. by rewrite decide_True by lia.
Qed.

(** *** Drawing *)

Lemma cursor_color_nz w h row col : cursor_color w h row col <> 0.
Proof. unfold cursor_color. by repeat case_match. Qed.

Lemma draw_at_ok s f :
  fb_wf f -> cur_fb s = Some f -> 0 <= cur_x s < fb_width f -> 0 <= cur_y s < fb_height f ->
  0 <= saved_width s <= 12 -> 0 <= saved_height s <= 16 ->
  exists f', gfx_cursor_draw_at (cur_x s) (cur_y s) s = Ret tt (set_visible 1 (set_cur_fb (Some f') s)) [] /\
    painted (patch s (cursor_color (saved_width s) (saved_height s))) f f'.
Proof.
  intros Hf Hfb Hx Hy Hw Hh. pose proof (fw_width f Hf). pose proof (fw_height f Hf).
  assert (Hdraw : draws_in (at_fb s) (for_saved (fun row col =>
    h <- gets saved_height;; w <- gets saved_width;;
    let color := cursor_color w h row col in
    if negb (color =? 0) then on_screen (fb_put_pixel (u32 (cur_x s + col)) (u32 (cur_y s + row)) color) else ret tt))
    (patch s (cursor_color (saved_width s) (saved_height s)))).
  { apply for_saved_draws; [lia|lia|]. intros row col Hrow Hcol. apply (draws_gets (a := saved_height s)); [done|].
    apply (draws_gets (a := saved_width s)); [done|]. cbn zeta.
    rewrite (proj2 (Z.eqb_neq _ _) (cursor_color_nz _ _ _ _)). cbn [negb]. rewrite !u32_small by lia. apply put_draws; lia. }
  destruct (Hdraw f Hf) as (f' & Hr & Hp). exists f'. split; [|done]. unfold gfx_cursor_draw_at.
  assert (Hs : at_fb s (Some f) = s) by (destruct s; cbn in *; by subst). rewrite Hs in Hr.
  by rewrite (bind_Ret_nil _ _ _ _ _ Hr).
Qed.

(** ** Moving the pointer *)

Lemma available_run s f : cursor_wf s f -> gfx_cursor_available s = Ret true s [].
Proof.
  intros [Hfb Hf _ _ _]. unfold gfx_cursor_available. krun. rewrite Hfb. by destruct (fw_buffer f Hf) as (b & -> & _).
Qed.

(** Pointing at a position shows the pointer there and nothing else changes. *)
Definition shown_at (s s' : gfx_cursor_state) (f f' : framebuffer) (x y : Z) : Prop :=
  cursor_wf s' f' /\ fb_width f' = fb_width f /\ fb_height f' = fb_height f /\ visible s' = 1 /\
  cur_x s' = Z.min x (fb_width f - 1) /\ cur_y s' = Z.min y (fb_height f - 1) /\
  (forall px py, inside f px py -> background s' f' px py = background s f px py) /\
  (forall px py, inside f px py -> pixel f' px py =
     if decide (covered s' px py) then cursor_color (saved_width s') (saved_height s') (py - cur_y s') (px - cur_x s')
     else background s f px py).

Lemma move_ok s f x y :
  cursor_wf s f -> 0 <= x -> 0 <= y ->
  exists s' f', gfx_cursor_move x y s = Ret tt s' [] /\ shown_at s s' f f' x y.
Proof.
  intros Hwf Hx Hy. unfold gfx_cursor_move. rewrite (bind_Ret_nil _ _ _ _ _ (available_run s f Hwf)). cbn [negb].
  destruct (restore_ok s f Hwf) as (f1 & Hr & Hwf1 & Hw1 & Hh1 & Hpix1). rewrite (bind_Ret_nil _ _ _ _ _ Hr).
  set (s1 := set_visible 0 (set_cur_fb (Some f1) s)) in *. destruct Hwf1 as [Hfb1 Hf1 Hsz Hl1 _]. krun. rewrite Hfb1.
  rewrite (bind_deref_Some _ _ _ _ eq_refl). krun. pose proof (fw_width f1 Hf1). pose proof (fw_height f1 Hf1).
  replace (if fb_width f1 <=? x then u32 (fb_width f1 - 1) else x) with (Z.min x (fb_width f1 - 1))
    by (rewrite u32_small by lia; destruct (Z.leb_spec (fb_width f1) x); lia).
  replace (if fb_height f1 <=? y then u32 (fb_height f1 - 1) else y) with (Z.min y (fb_height f1 - 1))
    by (rewrite u32_small by lia; destruct (Z.leb_spec (fb_height f1) y); lia).
  set (x1 := Z.min x _). set (y1 := Z.min y _). set (s2 := set_cur_pos x1 y1 s1).
  assert (Hin : inside f1 x1 y1) by (unfold inside, x1, y1; lia).
  destruct (save_ok s2 f1 x1 y1) as (saved & Hs & Hls & Hrd); [done|done|done|done|]. rewrite (bind_Ret_nil _ _ _ _ _ Hs).
  set (s3 := set_saved_pixels saved (clipped s2 f1 x1 y1)).
  destruct (draw_at_ok s3 f1) as (f2 & Hd & Hp); [done|done|cbn; unfold x1; lia|cbn; unfold y1; lia|cbn; unfold x1; lia|cbn; unfold y1; lia|].
  change (gfx_cursor_draw_at x1 y1 s3) with (gfx_cursor_draw_at (cur_x s3) (cur_y s3) s3). rewrite Hd.
  exists (set_visible 1 (set_cur_fb (Some f2) s3)), f2. split; [done|]. destruct Hp as [Hf2 Hw2 Hh2 Hpix2].
  assert (Hcov : forall px py, covered (set_visible 1 (set_cur_fb (Some f2) s3)) px py <-> covered s3 px py) by done.
  assert (Hback : forall px py, inside f px py -> ~ covered s3 px py -> pixel f2 px py = background s f px py).
  { intros px py Hpin Hnc. rewrite Hpix2 by (unfold inside in *; lia). unfold patch. rewrite decide_False by done.
    cbn [default from_option]. unfold id. by apply Hpix1. }
  split; [split; try done; [lia|]; intros _; cbn; unfold x1, y1; lia|]. split; [lia|]. split; [lia|]. split; [done|].
  split; [cbn; unfold x1; lia|]. split; [cbn; unfold y1; lia|]. split.
  - intros px py Hpin. unfold background at 1. case_decide as Hd2.
    + destruct Hd2 as [_ Hc]. apply Hcov in Hc. destruct Hc as [Hc1 Hc2]. cbn in Hc1, Hc2. unfold saved_color. cbn.
      rewrite Hrd by lia. cbn. rewrite <- Hpix1 by done. f_equal; lia.
    + apply Hback; [done|]. intros Hc. apply Hd2. split; [done|]. by apply Hcov.
  - intros px py Hpin. case_decide as Hc; [|by apply Hback].
    rewrite Hpix2 by (unfold inside in *; lia). unfold patch. by rewrite decide_True by done.
Qed.

Lemma detach_ok s f :
  cursor_wf s f -> exists s' f', gfx_cursor_attach None s = Ret (Some f') s' [] /\
    fb_wf f' /\ fb_width f' = fb_width f /\ fb_height f' = fb_height f /\ forall x y, inside f x y -> pixel f' x y = background s f x y.
Proof.
  intros Hwf. unfold gfx_cursor_attach. krun. destruct (Z.eqb_spec (visible s) 0) as [Hv|Hv]; cbn [negb].
  - krun. destruct Hwf as [Hfb Hf _ _ _]. rewrite Hfb. eexists _, f. split; [reflexivity|]. do 3 (split; [done|]).
    intros x y _. unfold background. by rewrite decide_False by tauto.
  - destruct (restore_ok s f Hwf) as (f1 & Hr & [Hfb1 Hf1 _ _ _] & Hw1 & Hh1 & Hpix1). rewrite (bind_Ret_nil _ _ _ _ _ Hr). krun.
    eexists _, f1. split; [reflexivity|]. done.
Qed.

Lemma moves_ok moves s f :
  cursor_wf s f -> Forall (fun p => 0 <= p.1 /\ 0 <= p.2) moves ->
  exists s' f', cursor_moves moves s = Ret (Some f') s' [] /\
    fb_wf f' /\ fb_width f' = fb_width f /\ fb_height f' = fb_height f /\ forall x y, inside f x y -> pixel f' x y = background s f x y.
Proof.
  revert s f. induction moves as [|[x y] moves IH]; intros s f Hwf Hm; cbn [cursor_moves]; [by apply detach_ok|].
  apply Forall_cons in Hm as [[Hx Hy] Hm]. destruct (move_ok s f x y Hwf Hx Hy) as (s1 & f1 & Hr & Hwf1 & Hw1 & Hh1 & _ & _ & _ & Hb & _).
  rewrite (bind_Ret_nil _ _ _ _ _ Hr). destruct (IH s1 f1 Hwf1 Hm) as (s' & f' & Hr' & Hf' & Hw' & Hh' & Hpix).
  exists s', f'. split; [done|]. split; [done|]. split; [congruence|]. split; [congruence|]. intros px py Hin.
  rewrite Hpix by (unfold inside in *; congruence || by rewrite Hw1, Hh1). by apply Hb.
Qed.

(** C34. Wherever the pointer is moved, it shows up whole at the position it was
    moved to, held on the screen, over an unchanged background; and after any
    run of moves, taking it off leaves every pixel as it was. *)
Theorem cursor_transparent s f x y moves :
  cursor_wf s f -> 0 <= x -> 0 <= y -> Forall (fun p => 0 <= p.1 /\ 0 <= p.2) moves ->
  (exists s' f', gfx_cursor_move x y s = Ret tt s' [] /\ shown_at s s' f f' x y) /\
  exists s' f', cursor_moves moves s = Ret (Some f') s' [] /\
    fb_width f' = fb_width f /\ fb_height f' = fb_height f /\ forall px py, inside f px py -> pixel f' px py = background s f px py.
Proof.
  intros Hwf Hx Hy Hm. split; [by apply move_ok|].
  destruct (moves_ok moves s f Hwf Hm) as (s' & f' & Hr & _ & Hw & Hh & Hp). by exists s', f'.
Qed.

Definition cursor_sample : gfx_cursor_state := CursorState (Some small_screen) 0 0 0 0 (replicate 192 0) 0.

Lemma cursor_transparent_witness :
  cursor_wf cursor_sample small_screen /\
  (exists s' f', gfx_cursor_move 9 40 cursor_sample = Ret tt s' [] /\ shown_at cursor_sample s' small_screen f' 9 40) /\
  exists s' f', cursor_moves [(3, 4); (15, 1)] cursor_sample = Ret (Some f') s' [] /\
    fb_width f' = 16 /\ fb_height f' = 12 /\
    forall px py, inside small_screen px py -> pixel f' px py = background cursor_sample small_screen px py.
Proof.
  assert (Hwf : cursor_wf cursor_sample small_screen) by (split; [done|apply small_screen_wf|done|done|done]).
  split; [exact Hwf|]. apply (cursor_transparent cursor_sample small_screen 9 40 [(3, 4); (15, 1)]); [exact Hwf|lia|lia|].
  apply (bool_decide_unpack _). vm_compute. exact I.
Defined.
