(* ===== verification/Theme.v ===== *)
(** The desktop colours (src/src/desktop/desktop_theme.c): the parser of
    /etc/theme, which works on its buffer in place, and the shades derived
    from a colour. A [char *] into the buffer is a position. *)
From S2P Require Import Prelude LibString Klog BlockDevice BlockIO ListDisk TinyFS Vfs FileTable.

Definition DESKTOP_THEME_FILE_MAX : Z := 512.

Record desktop_theme : Type := Theme {
  background : Z;
  taskbar : Z;
  window_body : Z;
  titlebar_active : Z;
  titlebar_inactive : Z;
  text : Z;
  accent : Z
}.
Definition set_background (v : Z) (t : desktop_theme) : desktop_theme :=
  Theme v (taskbar t) (window_body t) (titlebar_active t) (titlebar_inactive t) (text t) (accent t).
Definition set_taskbar (v : Z) (t : desktop_theme) : desktop_theme :=
  Theme (background t) v (window_body t) (titlebar_active t) (titlebar_inactive t) (text t) (accent t).
Definition set_window_body (v : Z) (t : desktop_theme) : desktop_theme :=
  Theme (background t) (taskbar t) v (titlebar_active t) (titlebar_inactive t) (text t) (accent t).
Definition set_titlebar_active (v : Z) (t : desktop_theme) : desktop_theme :=
  Theme (background t) (taskbar t) (window_body t) v (titlebar_inactive t) (text t) (accent t).
Definition set_titlebar_inactive (v : Z) (t : desktop_theme) : desktop_theme :=
  Theme (background t) (taskbar t) (window_body t) (titlebar_active t) v (text t) (accent t).
Definition set_text (v : Z) (t : desktop_theme) : desktop_theme :=
  Theme (background t) (taskbar t) (window_body t) (titlebar_active t) (titlebar_inactive t) v (accent t).
Definition set_accent (v : Z) (t : desktop_theme) : desktop_theme :=
  Theme (background t) (taskbar t) (window_body t) (titlebar_active t) (titlebar_inactive t) (text t) v.

Definition desktop_theme_defaults : desktop_theme :=
  Theme 0xff6d8fa4 0xff20313c 0xffd9e4ea 0xff2a6076 0xff546b78 0xff102030 0xff89aebf.

(** ** Colours *)

Definition desktop_theme_is_space (c : Z) : bool := (c =? ch " ") || (c =? 9) || (c =? 13) || (c =? 10).

(** The value of a digit; [None] is [*valid_out = 0]. *)
Definition desktop_theme_hex_value (c : Z) : option Z :=
  if (ch "0" <=? c) && (c <=? ch "9") then Some (c - ch "0")
  else if (ch "a" <=? c) && (c <=? ch "f") then Some (10 + (c - ch "a"))
  else if (ch "A" <=? c) && (c <=? ch "F") then Some (10 + (c - ch "A"))
  else None.

(** Results of a scan over a string: the outer option is [None] when the scan
    leaves the buffer. *)
Fixpoint color_spaces (text : mem) : option mem :=
  match text with
  | [] => None
  | c :: text' => if desktop_theme_is_space c then color_spaces text' else Some text
  end.
Definition color_prefix (text : mem) : option mem :=
  c ← rd text 0;
  if c =? ch "#" then Some (drop 1 text)
  else if c =? ch "0" then
    d ← rd text 1; Some (if (d =? ch "x") || (d =? ch "X") then drop 2 text else text)
  else Some text.
Fixpoint color_digits (text : mem) (color digits : Z) : option (option (Z * Z)) :=
  match text with
  | [] => None
  | c :: text' =>
      if (c =? 0) || desktop_theme_is_space c then Some (Some (color, digits))
      else match desktop_theme_hex_value c with
           | None => Some None
           | Some v => color_digits text' (Z.lor (u32 (Z.shiftl color 4)) v) (u32 (digits + 1))
           end
  end.
Definition desktop_theme_parse_color (text : option mem) : option (option Z) :=
  match text with
  | None => Some None
  | Some t =>
      t1 ← color_spaces t;
      t2 ← color_prefix t1;
      r ← color_digits t2 0 0;
      Some (match r with
            | None => None
            | Some (color, digits) =>
                if digits =? 6 then Some (Z.lor 0xff000000 color)
                else if digits =? 8 then Some color else None
            end)
  end.

Definition desktop_theme_lighten (color amount : Z) : Z :=
  let alpha := Z.land color 0xff000000 in
  let red := Z.land (Z.shiftr color 16) 0xff in
  let green := Z.land (Z.shiftr color 8) 0xff in
  let blue := Z.land color 0xff in
  let up c := if 0xff <? u32 (c + amount) then 0xff else u32 (c + amount) in
  Z.lor (Z.lor (Z.lor alpha (Z.shiftl (up red) 16)) (Z.shiftl (up green) 8)) (up blue).
Definition desktop_theme_darken (color amount : Z) : Z :=
  let alpha := Z.land color 0xff000000 in
  let red := Z.land (Z.shiftr color 16) 0xff in
  let green := Z.land (Z.shiftr color 8) 0xff in
  let blue := Z.land color 0xff in
  let down c := if amount <? c then c - amount else 0 in
  Z.lor (Z.lor (Z.lor alpha (Z.shiftl (down red) 16)) (Z.shiftl (down green) 8)) (down blue).

(** ** The parser *)

(** [key_is key n name]: [key_length == n] and [memcmp] finds no difference. *)
Definition key_is (key : mem) (key_length : Z) (name : string) : option bool :=
  if key_length =? lenZ (lit name) then
    d ← memcmp key (cstr name) key_length; Some (d =? 0)
  else Some false.

Definition desktop_theme_apply_value (key : mem) (key_length color : Z) : M desktop_theme unit :=
  b <- deref (key_is key key_length "background");;
  if (b : bool) then modify (set_background color) else
  b <- deref (key_is key key_length "taskbar");;
  if (b : bool) then modify (set_taskbar color) else
  b <- deref (key_is key key_length "window_body");;
  if (b : bool) then modify (set_window_body color) else
  b <- deref (key_is key key_length "titlebar_active");;
  if (b : bool) then modify (set_titlebar_active color) else
  b <- deref (key_is key key_length "titlebar_inactive");;
  if (b : bool) then modify (set_titlebar_inactive color) else
  b <- deref (key_is key key_length "text");;
  if (b : bool) then modify (set_text color) else
  b <- deref (key_is key key_length "accent");;
  if (b : bool) then modify (set_accent color) else ret tt.

(** [while (!stop( *line)) line++] and [while (end > start && is_space(end[-1])) end--]. *)
Fixpoint scan_loop (fuel : nat) (stop : Z -> bool) (buffer : mem) (line : Z) : option Z :=
  match fuel with
  | O => None
  | S fuel' => c ← rd buffer line; if stop c then Some line else scan_loop fuel' stop buffer (line + 1)
  end.
Definition scan (stop : Z -> bool) (buffer : mem) (line : Z) : option Z := scan_loop (length buffer) stop buffer line.
Fixpoint trim_loop (fuel : nat) (buffer : mem) (start stop : Z) : option Z :=
  match fuel with
  | O => Some stop
  | S fuel' =>
      if start <? stop then
        c ← rd buffer (stop - 1);
        if desktop_theme_is_space c then trim_loop fuel' buffer start (stop - 1) else Some stop
      else Some stop
  end.
Definition trim (buffer : mem) (start stop : Z) : option Z := trim_loop (Z.to_nat (stop - start)) buffer start stop.

Definition is_break (c : Z) : bool := (c =? 10) || (c =? 13).
Definition ends_line (c : Z) : bool := (c =? 0) || is_break c.
Definition ends_key (c : Z) : bool := ends_line c || (c =? ch "=") || (c =? ch "#").
Definition ends_value (c : Z) : bool := ends_line c || (c =? ch "#").

(** One round of the parser: the buffer and the position it goes on from, or
    [None] at a [break]. *)
Definition theme_round (buffer : mem) (line0 : Z) : M desktop_theme (option (mem * Z)) :=
  line <- deref (scan (fun c => negb (is_break c)) buffer line0);;
  c <- deref (rd buffer line);;
  if c =? 0 then ret None
  else
    line <- deref (scan (fun c => negb (desktop_theme_is_space c)) buffer line);;
    c <- deref (rd buffer line);;
    if c =? 0 then ret None
    else
      let key_start := line in
      line <- deref (scan ends_key buffer line);;
      c <- deref (rd buffer line);;
      if c =? ch "#" then
        line <- deref (scan ends_line buffer line);; ret (Some (buffer, line))
      else
        key_end <- deref (trim buffer key_start line);;
        if negb (c =? ch "=") then
          line <- deref (scan ends_line buffer line);; ret (Some (buffer, line))
        else
          value_start <- deref (scan (fun c => negb (desktop_theme_is_space c)) buffer (line + 1));;
          line <- deref (scan ends_value buffer value_start);;
          scn <- deref (trim buffer value_start line);;
          buffer1 <- deref (wr buffer scn 0);;
          (if key_start <? key_end then
             color <- deref (desktop_theme_parse_color (Some (drop (Z.to_nat value_start) buffer1)));;
             match color with
             | Some color => desktop_theme_apply_value (drop (Z.to_nat key_start) buffer1) (key_end - key_start) color
             | None => ret tt
             end
           else ret tt);;
          line <- deref (scan ends_line buffer1 line);;
          ret (Some (buffer1, line)).

Fixpoint theme_loop (fuel : nat) (buffer : mem) (line : Z) : M desktop_theme unit :=
  match fuel with
  | O => undef
  | S fuel' =>
      c <- deref (rd buffer line);;
      if c =? 0 then ret tt
      else
        next <- theme_round buffer line;;
        match next with
        | None => ret tt
        | Some (buffer1, line1) => theme_loop fuel' buffer1 line1
        end
  end.
Definition desktop_theme_parse_buffer (buffer : option mem) : M desktop_theme unit :=
  match buffer with
  | None => ret tt
  | Some b => theme_loop (S (length b)) b 0
  end.

(** ** Loading *)

Record theme_state (X : Type) : Type := ThemeState {
  th_files : files X;
  desktop_theme_current : desktop_theme;
  desktop_theme_loaded : Z
}.
Arguments ThemeState {X}.
Arguments th_files {X}.
Arguments desktop_theme_current {X}.
Arguments desktop_theme_loaded {X}.

Section loading.
Context {X : Type} (local64 : mem).
Implicit Types (s : theme_state X).

Definition set_th_files (v : files X) s : theme_state X := ThemeState v (desktop_theme_current s) (desktop_theme_loaded s).
Definition set_current (v : desktop_theme) s : theme_state X := ThemeState (th_files s) v (desktop_theme_loaded s).
Definition set_loaded (v : Z) s : theme_state X := ThemeState (th_files s) (desktop_theme_current s) v.

Definition desktop_theme_init : M (theme_state X) unit :=
  modify (set_current desktop_theme_defaults);;
  modify (set_loaded 1);;
  let buffer := replicate (Z.to_nat DESKTOP_THEME_FILE_MAX) 0 in
  file <- zoom th_files set_th_files (file_open local64 (Some (cstr "/etc/theme")));;
  match file with
  | None => ret tt
  | Some _ =>
      let! (read_size, buffer1) :=
        zoom th_files set_th_files (file_read local64 file (Some buffer) (DESKTOP_THEME_FILE_MAX - 1)) in
      zoom th_files set_th_files (file_close file);;
      if read_size <=? 0 then ret tt
      else
        b <- deref buffer1;;
        buffer2 <- deref (wr b read_size 0);;
        zoom desktop_theme_current set_current (desktop_theme_parse_buffer (Some buffer2))
  end.

Definition desktop_theme_get : M (theme_state X) desktop_theme :=
  loaded <- gets desktop_theme_loaded;;
  (if loaded =? 0 then desktop_theme_init else ret tt);;
  gets desktop_theme_current.

End loading.

(** The theme that the repository ships in rootfs/etc/theme. *)
Definition shipped_theme : mem :=
  lit (nl "background=0xff1f2018") ++ lit (nl "taskbar=0xff2b2d22") ++ lit (nl "window_body=0xff343527") ++
  lit (nl "titlebar_active=0xff8e8456") ++ lit (nl "titlebar_inactive=0xff5a5947") ++ lit (nl "text=0xffe7dfb5") ++
  lit (nl "accent=0xffb8ab72") ++ [0].

(** ** Scans *)

(** Byte [k] of the buffer is a terminator at or behind position [i]. *)
Definition terminated (buffer : mem) (i : Z) : Prop := exists k, 0 <= i <= k /\ rd buffer k = Some 0.

Lemma terminated_rd b i : terminated b i -> exists c, rd b i = Some c.
Proof. intros (k & Hk & Hr). apply rd_Some. apply rd_inv in Hr. lia. Qed.

Lemma terminated_next b i c : terminated b i -> rd b i = Some c -> c <> 0 -> terminated b (i + 1).
Proof.
  intros (k & Hk & Hr) Hc Hne. exists k. split; [|done]. destruct (Z.eq_dec i k) as [->|]; [|lia]. congruence.
Qed.

(** A scan that stops at a terminator ends in the buffer, at the first
    position where it stops. *)
Lemma scan_loop_spec fuel stop b i :
  stop 0 = true -> terminated b i -> lenZ b - i <= Z.of_nat fuel ->
  exists j c, scan_loop fuel stop b i = Some j /\ i <= j /\ rd b j = Some c /\ stop c = true /\ terminated b j /\
    forall k d, i <= k < j -> rd b k = Some d -> stop d = false.
Proof.
  intros Hs. revert i. induction fuel as [|fuel IH]; intros i Ht Hf.
  { destruct (terminated_rd b i Ht) as [c Hc]. apply rd_inv in Hc. lia. }
  cbn [scan_loop]. destruct (terminated_rd b i Ht) as [c Hc]. rewrite Hc. cbn [mbind option_bind].
  destruct (stop c) eqn:Hsc.
  - exists i, c. do 5 (split; [done || lia|]). lia.
  - destruct (IH (i + 1)) as (j & d & Hj & Hij & Hd & Hsd & Htj & Hall); [|lia|].
    { apply (terminated_next b i c Ht Hc). intros ->. congruence. }
    exists j, d. do 5 (split; [done || lia|]). intros k e Hk He. destruct (Z.eq_dec k i) as [->|]; [congruence|].
    apply (Hall k); [lia|done].
Qed.

Lemma scan_spec stop b i :
  stop 0 = true -> terminated b i ->
  exists j c, scan stop b i = Some j /\ i <= j /\ rd b j = Some c /\ stop c = true /\ terminated b j /\
    forall k d, i <= k < j -> rd b k = Some d -> stop d = false.
Proof.
  intros Hs Ht. apply scan_loop_spec; [done|done|]. destruct Ht as (k & Hk & Hr). unfold lenZ. lia.
Qed.

Lemma trim_spec b start stop c :
  0 <= start <= stop -> rd b stop = Some c -> exists j, trim b start stop = Some j /\ start <= j <= stop.
Proof.
  intros Hs Hc. apply rd_inv in Hc. unfold trim.
  assert (H : forall fuel stop, start <= stop < lenZ b -> exists j, trim_loop fuel b start stop = Some j /\ start <= j <= stop).
  { induction fuel as [|fuel IH]; intros st Hst; cbn [trim_loop]; [by exists st; split; [|lia]|].
    destruct (Z.ltb_spec start st); [|by exists st; split; [|lia]].
    destruct (rd_Some b (st - 1)) as [d Hd]; [lia|]. rewrite Hd. cbn [mbind option_bind].
    destruct (desktop_theme_is_space d); [|by exists st; split; [|lia]].
    destruct (IH (st - 1)) as (j & Hj & Hb); [lia|]. exists j. split; [done|lia]. }
  apply H. lia.
Qed.

(** ** Settings *)

(** Setting a colour by its name; other names change nothing. *)
Definition theme_set (name : list Z) (color : Z) (t : desktop_theme) : desktop_theme :=
  if decide (name = lit "background") then set_background color t
  else if decide (name = lit "taskbar") then set_taskbar color t
  else if decide (name = lit "window_body") then set_window_body color t
  else if decide (name = lit "titlebar_active") then set_titlebar_active color t
  else if decide (name = lit "titlebar_inactive") then set_titlebar_inactive color t
  else if decide (name = lit "text") then set_text color t
  else if decide (name = lit "accent") then set_accent color t
  else t.

Lemma key_is_spec key n name :
  0 <= n <= lenZ key -> key_is key n name = Some (bool_decide (take (Z.to_nat n) key = lit name)).
Proof.
  intros Hn. unfold key_is. destruct (Z.eqb_spec n (lenZ (lit name))) as [->|Hne].
  - destruct (memcmp_take key (cstr name) (lenZ (lit name))) as (z & -> & Heq); [lia|lia|unfold cstr; rewrite lenZ_app; unfold lenZ; lia|].
    cbn [mbind option_bind]. f_equal. unfold cstr in Heq. rewrite take_lenZ_app in Heq.
    destruct (Z.eqb_spec z 0) as [Hz|Hz]; symmetry; [by apply bool_decide_eq_true, Heq|by apply bool_decide_eq_false; rewrite <- Heq].
  - f_equal. symmetry. apply bool_decide_eq_false. intros He. apply Hne. rewrite <- He. unfold lenZ in *. rewrite length_take. lia.
Qed.

Lemma apply_value_run key n color t :
  0 <= n <= lenZ key ->
  desktop_theme_apply_value key n color t = Ret tt (theme_set (take (Z.to_nat n) key) color t) [].
Proof.
  intros Hn. unfold desktop_theme_apply_value, theme_set.
  do 7 (rewrite (bind_deref_Some _ _ _ _ (key_is_spec _ _ _ Hn)); case_decide as Hd;
    [rewrite bool_decide_eq_true_2 by done; reflexivity|rewrite bool_decide_eq_false_2 by done; clear Hd]).
  reflexivity.
Qed.

Definition zterm (m : mem) : Prop := 0 ∈ m.

Lemma color_spaces_total m : zterm m -> exists m', color_spaces m = Some m' /\ zterm m'.
Proof.
  induction m as [|c m IH]; unfold zterm in *; intros H; [by apply elem_of_nil in H|]. cbn [color_spaces].
  destruct (desktop_theme_is_space c) eqn:Hs; [|by exists (c :: m)].
  apply IH. apply elem_of_cons in H as [<-|H]; [done|done].
Qed.

Lemma color_prefix_total m : zterm m -> exists m', color_prefix m = Some m' /\ zterm m'.
Proof.
  unfold zterm, color_prefix. destruct m as [|c m]; intros H; [by apply elem_of_nil in H|]. cbn [rd lookup list_lookup mbind option_bind].
  change (rd (c :: m) 0) with (Some c). cbn [mbind option_bind].
  destruct (Z.eqb_spec c (ch "#")) as [->|].
  { exists m. split; [done|]. by apply elem_of_cons in H as [H|H]. }
  destruct (Z.eqb_spec c (ch "0")) as [->|]; [|by exists (c :: m)].
  apply elem_of_cons in H as [H|H]; [done|]. destruct m as [|d m]; [by apply elem_of_nil in H|].
  change (rd (ch "0" :: d :: m) 1) with (Some d). cbn [mbind option_bind].
  destruct (Z.eqb_spec d (ch "x")) as [->|]; cbn [orb].
  { exists m. split; [done|]. by apply elem_of_cons in H as [H|H]. }
  destruct (Z.eqb_spec d (ch "X")) as [->|].
  { exists m. split; [done|]. by apply elem_of_cons in H as [H|H]. }
  eexists. split; [reflexivity|]. apply elem_of_cons. by right.
Qed.

Lemma color_digits_total m color digits : zterm m -> exists r, color_digits m color digits = Some r.
Proof.
  revert color digits. induction m as [|c m IH]; intros color digits H; [by apply elem_of_nil in H|]. cbn [color_digits].
  destruct (Z.eqb_spec c 0) as [->|Hc]; [by eexists|]. destruct (desktop_theme_is_space c); cbn [orb]; [by eexists|].
  apply elem_of_cons in H as [H|H]; [done|]. destruct (desktop_theme_hex_value c); [by apply IH|by eexists].
Qed.

Lemma parse_color_total m : zterm m -> exists r, desktop_theme_parse_color (Some m) = Some r.
Proof.
  intros H. unfold desktop_theme_parse_color. destruct (color_spaces_total m H) as (m1 & -> & H1). cbn [mbind option_bind].
  destruct (color_prefix_total m1 H1) as (m2 & -> & H2). cbn [mbind option_bind].
  destruct (color_digits_total m2 0 0 H2) as (r & ->). cbn [mbind option_bind]. by eexists.
Qed.

Lemma terminated_zterm b i : terminated b i -> zterm (drop (Z.to_nat i) b).
Proof.
  intros (k & Hk & Hr). unfold zterm. apply (list_elem_of_lookup_2 _ (Z.to_nat (k - i))). rewrite lookup_drop.
  unfold rd in Hr. rewrite (proj2 (Z.leb_le 0 k)) in Hr by lia. rewrite <- Hr. f_equal. lia.
Qed.

(** ** Termination *)

(** Storing the terminator of a value keeps a terminator ahead. *)
Lemma wr_terminated b scn line :
  terminated b line -> 0 <= scn <= line -> exists b1, wr b scn 0 = Some b1 /\ length b1 = length b /\ rd b1 scn = Some 0 /\ terminated b1 line /\
    forall k, k <> scn -> rd b1 k = rd b k.
Proof.
  intros (k & Hk & Hr) Hs. pose proof (rd_inv _ _ _ Hr) as Hkb. rewrite wr_Some by lia. eexists. split; [done|].
  assert (Hat : forall j, 0 <= j -> rd (<[Z.to_nat scn := 0]> b) j = if decide (j = scn) then Some 0 else rd b j).
  { intros j Hj. unfold rd. rewrite (proj2 (Z.leb_le 0 j)) by lia. case_decide as Hd; [subst|].
    - apply list_lookup_insert_eq. unfold lenZ in Hkb. lia.
    - apply list_lookup_insert_ne. lia. }
  split; [by rewrite length_insert|]. split; [rewrite Hat by lia; by rewrite decide_True|]. split.
  - exists k. split; [done|]. rewrite Hat by lia. by case_decide.
  - intros j Hj. destruct (Z.leb_spec 0 j) as [Hp|Hp]; [rewrite Hat by lia; by rewrite decide_False|].
    unfold rd. by rewrite (proj2 (Z.leb_gt 0 j)) by lia.
Qed.

(** A deref of a scan, and of the byte it stops at. *)
Ltac scan_step Hs Ht j c :=
  let Hj := fresh "Hscan" in let Hc := fresh "Hc" in
  match goal with |- context [bind (deref (scan ?stop ?b ?i)) ?k ?s] =>
    destruct (scan_spec stop b i Hs Ht) as (j & c & Hj & ? & Hc & ? & ? & ?);
    rewrite (bind_deref_Some (scan stop b i) j k s Hj); cbv beta end.

Lemma round_total b i t :
  terminated b i -> exists r t', theme_round b i t = Ret r t' [] /\
    match r with None => True | Some (b', j) => length b' = length b /\ i < j /\ terminated b' j end.
Proof.
  intros Ht. unfold theme_round. scan_step (eq_refl true) Ht j1 c1. rewrite (bind_deref_Some _ _ _ _ Hc).
  destruct (Z.eqb_spec c1 0) as [|Hn1]; [by exists None, t|].
  scan_step (eq_refl true) H1 j2 c2. rewrite (bind_deref_Some _ _ _ _ Hc0).
  destruct (Z.eqb_spec c2 0) as [|Hn2]; [by exists None, t|].
  scan_step (eq_refl true) H5 j3 c3. rewrite (bind_deref_Some _ _ _ _ Hc1).
  assert (Hl2 : ends_line c2 = false).
  { unfold ends_line, is_break. rewrite (proj2 (Z.eqb_neq c2 0)) by done. unfold desktop_theme_is_space in H4.
    destruct (c2 =? 13), (c2 =? 10), (c2 =? 9), (c2 =? ch " "); done. }
  destruct (Z.eqb_spec c3 (ch "#")) as [Hh|Hh].
  { scan_step (eq_refl true) H9 j4 c4. krun. exists (Some (b, j4)), t. split; [done|]. split; [done|]. split; [|done].
    destruct (Z.eq_dec j4 j2) as [->|]; [congruence|lia]. }
  destruct (trim_spec b j2 j3 c3) as (ke & Hke & Hkb); [destruct Ht; lia|done|]. rewrite (bind_deref_Some _ _ _ _ Hke).
  destruct (Z.eqb_spec c3 (ch "=")) as [He|He]; cbn [negb].
  2: { scan_step (eq_refl true) H9 j4 c4. krun. exists (Some (b, j4)), t. split; [done|]. split; [done|]. split; [|done].
    destruct (Z.eq_dec j4 j2) as [->|]; [congruence|lia]. }
  assert (Ht4 : terminated b (j3 + 1)) by (apply (terminated_next _ _ c3); [done|done|by rewrite He]).
  scan_step (eq_refl true) Ht4 vs c5. scan_step (eq_refl true) H13 j6 c6.
  destruct (trim_spec b vs j6 c6) as (sc & Hsc & Hsb); [destruct Ht; lia|done|]. rewrite (bind_deref_Some _ _ _ _ Hsc).
  destruct (wr_terminated b sc j6 H17) as (b1 & Hwr & Hlen & Hnul & Htb & Hsame); [destruct Ht; lia|].
  rewrite (bind_deref_Some _ _ _ _ Hwr).
  assert (Hset : exists t', (if j2 <? ke
      then color <- deref (desktop_theme_parse_color (Some (drop (Z.to_nat vs) b1)));;
           match color with
           | Some color => desktop_theme_apply_value (drop (Z.to_nat j2) b1) (ke - j2) color
           | None => ret tt
           end
      else ret tt) t = Ret tt t' []).
  { destruct (j2 <? ke) eqn:Hlt; [apply Z.ltb_lt in Hlt|by exists t].
    destruct (parse_color_total (drop (Z.to_nat vs) b1)) as (r & Hr).
    { apply terminated_zterm. exists sc. split; [destruct Ht; lia|done]. }
    rewrite (bind_deref_Some _ _ _ _ Hr). destruct r as [color|]; [|by exists t]. rewrite apply_value_run; [by eexists|].
    unfold lenZ. rewrite length_drop. apply rd_inv in Hc1. unfold lenZ in Hc1. destruct Ht; lia. }
  destruct Hset as (t' & Hset). rewrite (bind_Ret_nil _ _ _ _ _ Hset).
  scan_step (eq_refl true) Htb j7 c7. krun. exists (Some (b1, j7)), t'. split; [done|]. split; [done|]. split; [lia|done].
Qed.

Lemma theme_loop_total fuel b i t :
  terminated b i -> lenZ b - i < Z.of_nat fuel -> exists t', theme_loop fuel b i t = Ret tt t' [].
Proof.
  revert b i t. induction fuel as [|fuel IH]; intros b i t Ht Hf.
  { destruct (terminated_rd b i Ht) as [c Hc]. apply rd_inv in Hc. lia. }
  cbn [theme_loop]. destruct (terminated_rd b i Ht) as [c Hc]. rewrite (bind_deref_Some _ _ _ _ Hc).
  destruct (c =? 0); [by exists t|]. destruct (round_total b i t Ht) as (r & t1 & Hr & Hnext). rewrite (bind_Ret_nil _ _ _ _ _ Hr).
  destruct r as [[b1 j]|]; [|by exists t1]. destruct Hnext as (Hl & Hij & Htj). apply IH; [done|]. unfold lenZ in *. lia.
Qed.

Lemma parse_buffer_total b t : zterm b -> exists t', desktop_theme_parse_buffer (Some b) t = Ret tt t' [].
Proof.
  intros H. apply list_elem_of_lookup_1 in H as [k Hk]. apply theme_loop_total; [|unfold lenZ; lia].
  exists (Z.of_nat k). split; [lia|]. by rewrite rd_nat.
Qed.

(** ** One setting *)

(** Text without blanks, line ends, [=] or [#]. *)
Definition plain (l : list Z) : Prop := l <> [] /\ Forall (fun c => ends_key c = false /\ desktop_theme_is_space c = false) l.
#[export] Instance plain_dec l : Decision (plain l).
Proof. unfold plain. apply _. Defined.

Lemma rd_app_at {A} (pre : list A) c r : rd (pre ++ c :: r) (lenZ pre) = Some c.
Proof. unfold lenZ. by rewrite rd_nat, lookup_app_r, Nat.sub_diag by lia. Qed.

Lemma scan_app stop pre a c r :
  Forall (fun c => stop c = false) a -> stop c = true -> scan stop (pre ++ a ++ c :: r) (lenZ pre) = Some (lenZ pre + lenZ a).
Proof.
  intros Ha Hc. unfold scan.
  assert (H : forall fuel pre, (length a < fuel)%nat ->
            scan_loop fuel stop (pre ++ a ++ c :: r) (lenZ pre) = Some (lenZ pre + lenZ a)).
  { clear pre. induction Ha as [|x a Hx Ha IH]; intros fuel pre Hf; (destruct fuel as [|fuel]; [simpl in Hf; lia|]); cbn [scan_loop].
    - cbn [app]. rewrite rd_app_at. cbn [mbind option_bind]. rewrite Hc. f_equal. unfold lenZ. cbn. lia.
    - cbn [app]. rewrite rd_app_at. cbn [mbind option_bind]. rewrite Hx. change (pre ++ x :: a ++ c :: r) with (pre ++ [x] ++ (a ++ c :: r)). rewrite (app_assoc pre [x]).
      replace (lenZ pre + 1) with (lenZ (pre ++ [x])) by (rewrite lenZ_app; unfold lenZ; cbn; lia).
      rewrite IH by (simpl in Hf; lia). rewrite lenZ_app, lenZ_cons. unfold lenZ. cbn. f_equal. lia. }
  apply H. rewrite !length_app. simpl. lia.
Qed.

(** Nothing to trim behind a byte that is no blank. *)
Lemma trim_keep pre a r x :
  desktop_theme_is_space x = false -> trim (pre ++ (a ++ [x]) ++ r) (lenZ pre) (lenZ pre + lenZ (a ++ [x])) = Some (lenZ pre + lenZ (a ++ [x])).
Proof.
  intros Hx. unfold trim. rewrite lenZ_app. change (lenZ [x]) with 1. pose proof (lenZ_nonneg a).
  destruct (Z.to_nat _) eqn:Hn; [lia|]. cbn [trim_loop]. rewrite (proj2 (Z.ltb_lt _ _)) by lia.
  replace (lenZ pre + (lenZ a + 1) - 1) with (Z.of_nat (length pre + length a)) by (unfold lenZ; lia).
  rewrite rd_nat, lookup_app_r, lookup_app_l, lookup_app_r by (rewrite ?length_app; simpl; lia).
  replace (length pre + length a - length pre - length a)%nat with 0%nat by lia. cbn. by rewrite Hx.
Qed.

Lemma plain_snoc l : plain l -> exists a x, l = a ++ [x] /\ desktop_theme_is_space x = false /\ ends_key x = false.
Proof.
  intros [Hne Hl]. destruct (exists_last Hne) as (a & x & ->). exists a, x. split; [done|].
  apply Forall_app in Hl as [_ Hx]. apply Forall_cons in Hx as [[H1 H2] _]. done.
Qed.

Lemma plain_cons l : plain l -> exists x a, l = x :: a /\ desktop_theme_is_space x = false /\ ends_key x = false.
Proof.
  intros [Hne Hl]. destruct l as [|x a]; [done|]. exists x, a. apply Forall_cons in Hl as [Hx _]. split; [done|]. tauto.
Qed.

Lemma ends_key_break c : ends_key c = false -> c <> 0 /\ is_break c = false /\ c <> ch "=" /\ c <> ch "#".
Proof. unfold ends_key, ends_line. rewrite !orb_false_iff, !Z.eqb_neq. tauto. Qed.

Lemma color_digits_app m r color digits : no_nul m -> color_digits (m ++ 0 :: r) color digits = color_digits (m ++ [0]) color digits.
Proof.
  intros Hm. revert color digits. induction Hm as [|c m Hc Hm IH]; intros color digits; [done|]. cbn [app color_digits].
  destruct (_ || _); [done|]. destruct (desktop_theme_hex_value c); [apply IH|done].
Qed.

(** Only the text up to the terminator matters. *)
Lemma parse_color_app x m r :
  no_nul (x :: m) -> desktop_theme_is_space x = false ->
  desktop_theme_parse_color (Some (x :: m ++ 0 :: r)) = desktop_theme_parse_color (Some (x :: m ++ [0])).
Proof.
  intros Hn Hx. unfold desktop_theme_parse_color. cbn [color_spaces]. rewrite !Hx. cbn [mbind option_bind]. unfold color_prefix.
  change (rd (x :: m ++ 0 :: r) 0) with (Some x). change (rd (x :: m ++ [0]) 0) with (Some x). cbn [mbind option_bind].
  apply Forall_cons in Hn as [Hx0 Hn].
  assert (Hxm : no_nul (x :: m)) by (apply Forall_cons; done).
  destruct (x =? ch "#"); [cbn [mbind option_bind drop]; by rewrite !drop_0, color_digits_app|].
  destruct (x =? ch "0").
  - destruct m as [|y m]; cbn [app].
    + change (rd (x :: 0 :: r) 1) with (Some 0). change (rd [x; 0] 1) with (Some 0). cbn [mbind option_bind].
      change ((0 =? ch "x") || (0 =? ch "X")) with false. cbn iota beta.
      change (x :: 0 :: r) with ([x] ++ 0 :: r). change [x; 0] with ([x] ++ [0]). by rewrite color_digits_app.
    + change (rd (x :: y :: m ++ 0 :: r) 1) with (Some y). change (rd (x :: y :: m ++ [0]) 1) with (Some y). cbn [mbind option_bind].
      apply Forall_cons in Hn as [Hy Hn]. destruct (_ || _).
      * cbn [drop mbind option_bind]. by rewrite !drop_0, color_digits_app.
      * change (x :: y :: m ++ 0 :: r) with ((x :: y :: m) ++ 0 :: r). change (x :: y :: m ++ [0]) with ((x :: y :: m) ++ [0]).
        by rewrite color_digits_app.
  - cbn [mbind option_bind]. change (x :: m ++ 0 :: r) with ((x :: m) ++ 0 :: r). change (x :: m ++ [0]) with ((x :: m) ++ [0]).
    by rewrite color_digits_app.
Qed.

(** The colour that a value stands for. *)
Definition value_color (value : list Z) : option Z := default None (desktop_theme_parse_color (Some (value ++ [0]))).
Definition with_setting (key value : list Z) (t : desktop_theme) : desktop_theme :=
  match value_color value with Some c => theme_set key c t | None => t end.

Lemma equals_eq : ch "=" = 61. Proof. done. Qed.

(** A round that starts at a setting [key=]: what happens from the [=] on. *)
Lemma round_key key tail t :
  plain key ->
  let pre := key ++ [ch "="] in
  theme_round (pre ++ tail) 0 t =
  (value_start <- deref (scan (fun c => negb (desktop_theme_is_space c)) (pre ++ tail) (lenZ key + 1));;
   line <- deref (scan ends_value (pre ++ tail) value_start);;
   scn <- deref (trim (pre ++ tail) value_start line);;
   buffer1 <- deref (wr (pre ++ tail) scn 0);;
   (color <- deref (desktop_theme_parse_color (Some (drop (Z.to_nat value_start) buffer1)));;
    match color with
    | Some color => desktop_theme_apply_value (drop 0 buffer1) (lenZ key) color
    | None => ret tt
    end);;
   line <- deref (scan ends_line buffer1 line);;
   ret (Some (buffer1, line))) t.
Proof.
  intros Hp pre. destruct (plain_cons key Hp) as (k0 & key' & Hkey & Hs0 & He0). destruct (ends_key_break k0 He0) as (Hk0 & Hb0 & _ & _).
  assert (Hb : pre ++ tail = key ++ ch "=" :: tail) by (unfold pre; by rewrite <- app_assoc).
  assert (Hfirst : pre ++ tail = [] ++ [] ++ k0 :: (key' ++ ch "=" :: tail)) by (rewrite Hb, Hkey; done).
  unfold theme_round.
  assert (H1 : scan (fun c => negb (is_break c)) (pre ++ tail) 0 = Some 0).
  { rewrite Hfirst. apply (scan_app _ [] [] k0); [done|by rewrite Hb0]. }
  assert (H2 : scan (fun c => negb (desktop_theme_is_space c)) (pre ++ tail) 0 = Some 0).
  { rewrite Hfirst. apply (scan_app _ [] [] k0); [done|by rewrite Hs0]. }
  assert (Hr0 : rd (pre ++ tail) 0 = Some k0) by (rewrite Hfirst; done).
  rewrite (bind_deref_Some _ _ _ _ H1), (bind_deref_Some _ _ _ _ Hr0), (proj2 (Z.eqb_neq k0 0) Hk0).
  rewrite (bind_deref_Some _ _ _ _ H2), (bind_deref_Some _ _ _ _ Hr0), (proj2 (Z.eqb_neq k0 0) Hk0). cbn zeta.
  assert (H3 : scan ends_key (pre ++ tail) 0 = Some (lenZ key)).
  { rewrite Hb. apply (scan_app _ [] key); [|done]. eapply Forall_impl; [apply Hp|]. simpl. tauto. }
  assert (Hr1 : rd (pre ++ tail) (lenZ key) = Some (ch "=")) by (rewrite Hb; apply rd_app_at).
  rewrite (bind_deref_Some _ _ _ _ H3), (bind_deref_Some _ _ _ _ Hr1). change (ch "=" =? ch "#") with false. cbn iota.
  assert (H4 : trim (pre ++ tail) 0 (lenZ key) = Some (lenZ key)).
  { destruct (plain_snoc key Hp) as (a & x & -> & Hx & _). rewrite Hb. by apply (trim_keep [] a). }
  rewrite (bind_deref_Some _ _ _ _ H4). change (negb (ch "=" =? ch "=")) with false. cbn iota.
  rewrite (proj2 (Z.ltb_lt 0 (lenZ key))) by (rewrite Hkey, lenZ_cons; pose proof (lenZ_nonneg key'); lia).
  by rewrite Z.sub_0_r.
Qed.

Lemma theme_loop_round fuel b line c b1 line1 t t' :
  rd b line = Some c -> c <> 0 -> theme_round b line t = Ret (Some (b1, line1)) t' [] -> rd b1 line1 = Some 0 ->
  (2 <= fuel)%nat -> theme_loop fuel b line t = Ret tt t' [].
Proof.
  intros Hc Hne Hr H0 Hf. destruct fuel as [|[|fuel]]; [lia|lia|]. cbn [theme_loop].
  rewrite (bind_deref_Some _ _ _ _ Hc), (proj2 (Z.eqb_neq c 0)) by done. rewrite (bind_Ret_nil _ _ _ _ _ Hr).
  by rewrite (bind_deref_Some _ _ _ _ H0).
Qed.

Lemma rd_first key tail : plain key -> exists c, rd (key ++ tail) 0 = Some c /\ c <> 0.
Proof.
  intros Hp. destruct (plain_cons key Hp) as (c & a & -> & _ & He). destruct (ends_key_break c He) as (H0 & _).
  exists c. by split.
Qed.

(** After a setting without a trailing blank the parser stops. *)
Lemma parse_one_setting key value rest t :
  plain key -> plain value ->
  desktop_theme_parse_buffer (Some (key ++ ch "=" :: value ++ 10 :: rest)) t = Ret tt (with_setting key value t) [].
Proof.
  intros Hk Hv. set (pre := key ++ [ch "="]).
  assert (Hb : key ++ ch "=" :: value ++ 10 :: rest = pre ++ value ++ 10 :: rest) by (unfold pre; by rewrite <- app_assoc).
  destruct (plain_cons value Hv) as (v0 & value' & Hval & Hs0 & He0).
  destruct (rd_first key (ch "=" :: value ++ 10 :: rest) Hk) as (c & Hc & Hne). unfold desktop_theme_parse_buffer. rewrite Hb in *.
  assert (Hpre : lenZ key + 1 = lenZ pre) by (unfold pre; rewrite lenZ_app; done).
  eapply (theme_loop_round _ _ 0 c (pre ++ value ++ 0 :: rest) (lenZ pre + lenZ value)); [done|done| | |].
  2: { rewrite app_assoc, <- lenZ_app. apply rd_app_at. }
  2: { rewrite !length_app. simpl. destruct Hv as [Hne' _]. destruct value; [done|simpl; lia]. }
  unfold pre. rewrite round_key by done. fold pre. rewrite Hpre.
  assert (H1 : scan (fun c => negb (desktop_theme_is_space c)) (pre ++ value ++ 10 :: rest) (lenZ pre) = Some (lenZ pre)).
  { rewrite Hval. rewrite <- (Z.add_0_r (lenZ pre)) at 2. apply (scan_app _ pre [] v0); [done|by rewrite Hs0]. }
  assert (Hplain : Forall (fun c => ends_value c = false) value).
  { eapply Forall_impl; [apply Hv|]. intros x [Hx _]. simpl in Hx. destruct (ends_key_break x Hx) as (Hx0 & Hxb & _ & Hxh).
    unfold ends_value, ends_line. rewrite (proj2 (Z.eqb_neq x 0)), Hxb, (proj2 (Z.eqb_neq x (ch "#"))) by done. done. }
  assert (H2 : scan ends_value (pre ++ value ++ 10 :: rest) (lenZ pre) = Some (lenZ pre + lenZ value)) by (by apply scan_app).
  assert (H3 : trim (pre ++ value ++ 10 :: rest) (lenZ pre) (lenZ pre + lenZ value) = Some (lenZ pre + lenZ value)).
  { destruct (plain_snoc value Hv) as (a & x & -> & Hx & _). by apply trim_keep. }
  assert (H4 : wr (pre ++ value ++ 10 :: rest) (lenZ pre + lenZ value) 0 = Some (pre ++ value ++ 0 :: rest)).
  { rewrite (app_assoc pre value (10 :: rest)), (app_assoc pre value (0 :: rest)), <- lenZ_app. apply wr_app. }
  rewrite (bind_deref_Some _ _ _ _ H1), (bind_deref_Some _ _ _ _ H2), (bind_deref_Some _ _ _ _ H3), (bind_deref_Some _ _ _ _ H4).
  rewrite drop_lenZ_app.
  assert (Hnn : no_nul value) by (eapply Forall_impl; [apply Hplain|]; intros x Hx ->; done).
  assert (Hcol : desktop_theme_parse_color (Some (value ++ 0 :: rest)) = Some (value_color value)).
  { unfold value_color. rewrite Hval in *. cbn [app]. rewrite parse_color_app by done.
    destruct (parse_color_total (v0 :: value' ++ [0])) as (r & ->); [|done]. apply elem_of_cons. right. apply elem_of_app. right. by apply elem_of_cons; left. }
  assert (Hset : (color <- deref (desktop_theme_parse_color (Some (value ++ 0 :: rest)));;
    match color with
    | Some color => desktop_theme_apply_value (drop 0 (pre ++ value ++ 0 :: rest)) (lenZ key) color
    | None => ret tt
    end) t = Ret tt (with_setting key value t) []).
  { rewrite (bind_deref_Some _ _ _ _ Hcol). unfold with_setting. destruct (value_color value) as [color|]; [|done].
    rewrite apply_value_run; unfold pre; rewrite drop_0, <- !app_assoc; [by rewrite take_lenZ_app|rewrite lenZ_app; pose proof (lenZ_nonneg key);
      pose proof (lenZ_nonneg ([ch "="] ++ value ++ 0 :: rest)); lia]. }
  rewrite (bind_Ret_nil _ _ _ _ _ Hset).
  assert (H5 : scan ends_line (pre ++ value ++ 0 :: rest) (lenZ pre + lenZ value) = Some (lenZ pre + lenZ value)).
  { rewrite app_assoc, <- lenZ_app. rewrite <- (Z.add_0_r (lenZ (pre ++ value))) at 2. by apply (scan_app _ (pre ++ value) []). }
  by rewrite (bind_deref_Some _ _ _ _ H5).
Qed.

(** A value written [#rrggbb] is taken for a comment. *)
Lemma parse_hash_value key rest t :
  plain key -> desktop_theme_parse_buffer (Some (key ++ ch "=" :: ch "#" :: rest)) t = Ret tt t [].
Proof.
  intros Hk. set (pre := key ++ [ch "="]).
  assert (Hb : key ++ ch "=" :: ch "#" :: rest = pre ++ ch "#" :: rest) by (unfold pre; by rewrite <- app_assoc).
  destruct (rd_first key (ch "=" :: ch "#" :: rest) Hk) as (c & Hc & Hne). unfold desktop_theme_parse_buffer. rewrite Hb in *.
  assert (Hpre : lenZ key + 1 = lenZ pre) by (unfold pre; rewrite lenZ_app; done).
  eapply (theme_loop_round _ _ 0 c (pre ++ 0 :: rest) (lenZ pre)); [done|done| |by rewrite rd_app_at|rewrite length_app; simpl; lia].
  unfold pre. rewrite round_key by done. fold pre. rewrite Hpre.
  assert (Hscan : forall stop x, stop x = true -> scan stop (pre ++ x :: rest) (lenZ pre) = Some (lenZ pre)).
  { intros stop x Hx. rewrite <- (Z.add_0_r (lenZ pre)) at 2. by apply (scan_app _ pre []). }
  rewrite (bind_deref_Some _ _ _ _ (Hscan (fun c => negb (desktop_theme_is_space c)) (ch "#") eq_refl)), (bind_deref_Some _ _ _ _ (Hscan ends_value (ch "#") eq_refl)).
  assert (H3 : trim (pre ++ ch "#" :: rest) (lenZ pre) (lenZ pre) = Some (lenZ pre)) by (unfold trim; by rewrite Z.sub_diag).
  rewrite (bind_deref_Some _ _ _ _ H3), (bind_deref_Some _ _ _ _ (wr_app pre rest (ch "#") 0)). rewrite drop_lenZ_app.
  assert (Hset : (color <- deref (desktop_theme_parse_color (Some (0 :: rest)));;
    match color with
    | Some color => desktop_theme_apply_value (drop 0 (pre ++ 0 :: rest)) (lenZ key) color
    | None => ret tt
    end) t = Ret tt t []) by done.
  rewrite (bind_Ret_nil _ _ _ _ _ Hset).
  by rewrite (bind_deref_Some _ _ _ _ (Hscan ends_line 0 eq_refl)).
Qed.

(** ** Colours in text *)

Definition hex_digit (v : Z) : Z := if v <? 10 then ch "0" + v else ch "a" + (v - 10).
(** [n] digits, the most significant first. *)
Fixpoint hex_text (n : nat) (v : Z) : list Z :=
  match n with O => [] | S n' => hex_digit (v / 16 ^ Z.of_nat n' mod 16) :: hex_text n' v end.

Lemma hex_digit_value v : 0 <= v < 16 ->
  desktop_theme_hex_value (hex_digit v) = Some v /\ hex_digit v <> 0 /\ desktop_theme_is_space (hex_digit v) = false /\
  hex_digit v <> ch "#" /\ hex_digit v <> ch "x" /\ hex_digit v <> ch "X".
Proof.
  intros H. assert (v = 0 \/ v = 1 \/ v = 2 \/ v = 3 \/ v = 4 \/ v = 5 \/ v = 6 \/ v = 7 \/ v = 8 \/ v = 9 \/ v = 10 \/ v = 11 \/ v = 12 \/
    v = 13 \/ v = 14 \/ v = 15) as Hv by lia. repeat destruct Hv as [-> | Hv]; try done. by subst.
Qed.

Lemma lor_digit c v : 0 <= v < 16 -> 0 <= c < 2 ^ 28 -> Z.lor (u32 (Z.shiftl c 4)) v = c * 16 + v.
Proof.
  intros Hv Hc. rewrite Z.shiftl_mul_pow2 by lia. change (2 ^ 4) with 16. rewrite u32_small by lia.
  replace v with (v mod 2 ^ 4) by (apply Z.mod_small; lia). rewrite <- Z.land_ones by lia.
  change (c * 16) with (c * 2 ^ 4). rewrite <- Z.shiftl_mul_pow2 by lia. rewrite Z.add_nocarry_lxor; [symmetry; apply Z.lxor_lor|].
  all: apply Z.bits_inj'; intros i Hi; rewrite !Z.land_spec, Z.bits_0; destruct (Z.ltb_spec i 4);
    [rewrite Z.shiftl_spec_low by lia; done|rewrite Z.ones_spec_high by lia; by rewrite !andb_false_r].
Qed.

Lemma color_digits_hex n v c d r :
  (n <= 8)%nat -> 0 <= c < 16 ^ (8 - Z.of_nat n) -> 0 <= d -> d + Z.of_nat n < 2 ^ 32 ->
  color_digits (hex_text n v ++ 0 :: r) c d = Some (Some (c * 16 ^ Z.of_nat n + v mod 16 ^ Z.of_nat n, d + Z.of_nat n)).
Proof.
  revert c d. induction n as [|n IH]; intros c d Hn8 Hc Hd Hdn; cbn [hex_text app color_digits].
  { cbn [Z.of_nat]. rewrite Z.pow_0_r, Z.mod_1_r. change ((0 =? 0) || _) with true. cbn iota. do 3 f_equal; lia. }
  pose proof (Z.mod_pos_bound (v / 16 ^ Z.of_nat n) 16 ltac:(lia)) as Hm.
  destruct (hex_digit_value _ Hm) as (-> & Hz & -> & _). rewrite (proj2 (Z.eqb_neq _ 0)) by done. cbn [orb].
  pose proof (Z.pow_pos_nonneg 16 (Z.of_nat n) ltac:(lia) ltac:(lia)).
  assert (Hpow : 16 ^ (8 - Z.of_nat n) = 16 * 16 ^ (8 - Z.of_nat (S n))).
  { rewrite <- Z.pow_succ_r by lia. f_equal. lia. }
  assert (Hc28 : c < 2 ^ 28).
  { eapply Z.lt_le_trans; [apply Hc|]. change (2 ^ 28) with (16 ^ 7). apply Z.pow_le_mono_r; lia. }
  rewrite lor_digit, u32_small by lia. rewrite IH by lia. do 3 f_equal; [|lia].
  rewrite Nat2Z.inj_succ, Z.pow_succ_r, (Z.mul_comm 16 (16 ^ Z.of_nat n)), Z.rem_mul_r by lia. lia.
Qed.

(** ** Properties *)

(** The parser ends on every buffer that holds a terminator, whatever else is
    in it, without an access out of the buffer. *)
Theorem desktop_theme_parse_total b t : 0 ∈ b -> exists t', desktop_theme_parse_buffer (Some b) t = Ret tt t' [].
Proof. apply parse_buffer_total. Qed.

(** A setting whose value ends its line is the last that takes effect,
    whatever follows it: the terminator of the value is stored over the line
    end, where the parser then stops. And a value in the [#rrggbb] notation
    sets nothing, because its [#] is taken for a comment. *)
Theorem desktop_theme_first_setting key value rest t :
  plain key -> plain value ->
  desktop_theme_parse_buffer (Some (key ++ ch "=" :: value ++ 10 :: rest)) t = Ret tt (with_setting key value t) [] /\
  desktop_theme_parse_buffer (Some (key ++ ch "=" :: ch "#" :: rest)) t = Ret tt t [].
Proof. intros Hk Hv. split; [by apply parse_one_setting|by apply parse_hash_value]. Qed.

(** A colour written with eight hexadecimal digits reads back, with six
    digits it gets an opaque alpha. *)
Theorem desktop_theme_color_roundtrip color :
  0 <= color < 2 ^ 32 ->
  desktop_theme_parse_color (Some (lit "0x" ++ hex_text 8 color ++ [0])) = Some (Some color) /\
  desktop_theme_parse_color (Some (lit "#" ++ hex_text 6 color ++ [0])) = Some (Some (Z.lor 0xff000000 (color mod 2 ^ 24))).
Proof.
  intros Hc. unfold desktop_theme_parse_color. split.
  - change (color_spaces (lit "0x" ++ hex_text 8 color ++ [0])) with (Some (lit "0x" ++ hex_text 8 color ++ [0])). cbn [mbind option_bind].
    change (color_prefix (lit "0x" ++ hex_text 8 color ++ [0])) with (Some (hex_text 8 color ++ [0])). cbn [mbind option_bind].
    rewrite color_digits_hex by (cbn; lia). cbn [mbind option_bind]. rewrite (Z.mod_small color) by (cbn; lia). done.
  - change (color_spaces (lit "#" ++ hex_text 6 color ++ [0])) with (Some (lit "#" ++ hex_text 6 color ++ [0])). cbn [mbind option_bind].
    change (color_prefix (lit "#" ++ hex_text 6 color ++ [0])) with (Some (hex_text 6 color ++ [0])). cbn [mbind option_bind].
    rewrite color_digits_hex by (cbn; lia). done.
Qed.

Lemma desktop_theme_parse_total_witness :
  0 ∈ shipped_theme /\ exists t', desktop_theme_parse_buffer (Some shipped_theme) desktop_theme_defaults = Ret tt t' [].
Proof.
  assert (H : 0 ∈ shipped_theme) by (apply (bool_decide_unpack _); vm_compute; exact I).
  split; [exact H|exact (desktop_theme_parse_total shipped_theme desktop_theme_defaults H)].
Defined.

(** Of the theme that the repository ships only the first line is applied. *)
Lemma desktop_theme_first_setting_witness :
  shipped_theme = lit "background" ++ ch "=" :: lit "0xff1f2018" ++ 10 :: drop 22 shipped_theme /\
  with_setting (lit "background") (lit "0xff1f2018") desktop_theme_defaults = set_background 0xff1f2018 desktop_theme_defaults /\
  desktop_theme_parse_buffer (Some (lit "background" ++ ch "=" :: lit "0xff1f2018" ++ 10 :: drop 22 shipped_theme)) desktop_theme_defaults =
    Ret tt (with_setting (lit "background") (lit "0xff1f2018") desktop_theme_defaults) [].
Proof.
  split; [reflexivity|]. split; [reflexivity|].
  refine (proj1 (desktop_theme_first_setting (lit "background") (lit "0xff1f2018") (drop 22 shipped_theme) desktop_theme_defaults _ _));
    apply (bool_decide_unpack _); vm_compute; exact I.
Defined.

Lemma desktop_theme_color_roundtrip_witness :
  0 <= 0xff1f2018 < 2 ^ 32 /\ desktop_theme_parse_color (Some (lit "0x" ++ hex_text 8 0xff1f2018 ++ [0])) = Some (Some 0xff1f2018).
Proof.
  assert (H : 0 <= 0xff1f2018 < 2 ^ 32) by lia. split; [exact H|exact (proj1 (desktop_theme_color_roundtrip 0xff1f2018 H))].
Defined.
