(* ===== verification/DesktopWindow.v ===== *)
(** Desktop windows (src/src/desktop/desktop_window.c): geometry, hit tests,
    the clamp to the screen and the drawing of the frame. A pointer to a window
    is the window or nothing; functions and structures that a window points to
    are named by numbers. *)
From S2P Require Import Prelude LibString BlockDevice BlockIO ListDisk TinyFS Vfs FileTable Graphics Theme.

Definition DESKTOP_WINDOW_TITLE_MAX : Z := 32.
Definition DESKTOP_WINDOW_FLAG_VISIBLE : Z := 1.
Definition DESKTOP_WINDOW_FLAG_MINIMIZED : Z := 2.
Definition DESKTOP_WINDOW_FLAG_MAXIMIZED : Z := 4.
Definition DESKTOP_WINDOW_FLAG_NO_CONTROLS : Z := 8.
Definition DESKTOP_WINDOW_CONTROL_NONE : Z := 0.
Definition DESKTOP_WINDOW_CONTROL_CLOSE : Z := 1.
Definition DESKTOP_WINDOW_CONTROL_MINIMIZE : Z := 2.
Definition DESKTOP_WINDOW_CONTROL_MAXIMIZE : Z := 3.
Definition DESKTOP_WINDOW_TITLE_HEIGHT : Z := GFX_FONT_HEIGHT + 8.
Definition DESKTOP_WINDOW_PADDING : Z := 8.
Definition DESKTOP_WINDOW_CONTROL_SIZE : Z := 12.
Definition DESKTOP_WINDOW_CONTROL_GAP : Z := 4.
Definition DESKTOP_WINDOW_CONTROL_MARGIN : Z := 6.

Record desktop_window : Type := Window {
  id : Z;
  win_x : Z;
  win_y : Z;
  win_width : Z;
  win_height : Z;
  win_flags : Z;
  restore_x : Z;
  restore_y : Z;
  restore_width : Z;
  restore_height : Z;
  title : mem;
  owner : option Z;
  draw : option Z;
  handle_event : option Z;
  user_data : option Z
}.
Definition set_win_x (v : Z) (w : desktop_window) : desktop_window :=
  Window (id w) v (win_y w) (win_width w) (win_height w) (win_flags w) (restore_x w) (restore_y w) (restore_width w) (restore_height w)
    (title w) (owner w) (draw w) (handle_event w) (user_data w).
Definition set_win_y (v : Z) (w : desktop_window) : desktop_window :=
  Window (id w) (win_x w) v (win_width w) (win_height w) (win_flags w) (restore_x w) (restore_y w) (restore_width w) (restore_height w)
    (title w) (owner w) (draw w) (handle_event w) (user_data w).

Section operations.
Context {S : Type}.

Definition desktop_window_control_x (window : option desktop_window) (control : Z) : M S Z :=
  match window with
  | None => ret 0
  | Some w =>
      if control =? DESKTOP_WINDOW_CONTROL_NONE then ret 0
      else
        right0 <- signed (win_x w + i32 (win_width w));;
        right1 <- signed (right0 - DESKTOP_WINDOW_CONTROL_MARGIN);;
        right <- signed (right1 - DESKTOP_WINDOW_CONTROL_SIZE);;
        offset <- signed (i32 (control - 1) * (DESKTOP_WINDOW_CONTROL_SIZE + DESKTOP_WINDOW_CONTROL_GAP));;
        signed (right - offset)
  end.

(** The sums are of type [long]; the result is cut to [int]. *)
Definition desktop_clip_dimension (start size limit : Z) : M S Z :=
  if (size =? 0) || (i32 limit <=? start) then ret 0
  else
    let end0 := start + size in
    if end0 <=? 0 then ret 0
    else
      let end1 := if limit <? end0 then limit else end0 in
      let start1 := if start <? 0 then 0 else start in
      signed (i32 end1 - start1).

Definition desktop_window_right (w : desktop_window) : M S Z := signed (win_x w + i32 (win_width w)).
Definition desktop_window_bottom (w : desktop_window) : M S Z := signed (win_y w + i32 (win_height w)).

(** The contents of [*window] afterwards. *)
Definition desktop_window_init (window : option desktop_window) (wid x y width height : Z) (ttl : option mem) : M S (option desktop_window) :=
  match window with
  | None => ret None
  | Some _ =>
      let empty := replicate (Z.to_nat DESKTOP_WINDOW_TITLE_MAX) 0 in
      t <- match ttl with
           | Some t => copied <- deref (strlcpy empty 0 t DESKTOP_WINDOW_TITLE_MAX);; ret copied.1
           | None => ret empty
           end;;
      ret (Some (Window wid x y width height DESKTOP_WINDOW_FLAG_VISIBLE x y width height t None None None None))
  end.

Definition desktop_window_bind (window : option desktop_window) (drw handle data : option Z) : M S (option desktop_window) :=
  match window with
  | None => ret None
  | Some w =>
      ret (Some (Window (id w) (win_x w) (win_y w) (win_width w) (win_height w) (win_flags w) (restore_x w) (restore_y w)
        (restore_width w) (restore_height w) (title w) (owner w) drw handle data))
  end.

Definition desktop_window_is_visible (window : option desktop_window) : bool :=
  match window with
  | None => false
  | Some w => negb (id w =? 0) && negb (Z.land (win_flags w) DESKTOP_WINDOW_FLAG_VISIBLE =? 0)
  end.

Definition desktop_window_content_x (window : option desktop_window) : M S Z :=
  match window with None => ret 0 | Some w => signed (win_x w + DESKTOP_WINDOW_PADDING) end.
Definition desktop_window_content_y (window : option desktop_window) : M S Z :=
  match window with
  | None => ret 0
  | Some w => y1 <- signed (win_y w + DESKTOP_WINDOW_TITLE_HEIGHT);; signed (y1 + DESKTOP_WINDOW_PADDING)
  end.
Definition desktop_window_content_width (window : option desktop_window) : Z :=
  match window with
  | None => 0
  | Some w => if win_width w <=? DESKTOP_WINDOW_PADDING * 2 then 0 else u32 (win_width w - DESKTOP_WINDOW_PADDING * 2)
  end.
Definition desktop_window_content_height (window : option desktop_window) : Z :=
  match window with
  | None => 0
  | Some w =>
      let reserved_height := u32 (DESKTOP_WINDOW_TITLE_HEIGHT + DESKTOP_WINDOW_PADDING * 2) in
      if win_height w <=? reserved_height then 0 else u32 (win_height w - reserved_height)
  end.
Definition desktop_window_title_height : Z := DESKTOP_WINDOW_TITLE_HEIGHT.

Definition desktop_window_contains_point (window : option desktop_window) (x y : Z) : M S bool :=
  match window with
  | None => ret false
  | Some w =>
      if negb (desktop_window_is_visible window) then ret false
      else
        nx <- (if win_x w <? 0 then signed (- win_x w) else ret 0);;
        if (win_x w <? 0) && (x <? u32 nx) then ret false
        else
          ny <- (if win_y w <? 0 then signed (- win_y w) else ret 0);;
          if (win_y w <? 0) && (y <? u32 ny) then ret false
          else
            if negb (u32 (win_x w) <=? x) || negb (u32 (win_y w) <=? y) then ret false
            else
              right <- desktop_window_right w;;
              if negb (x <? u32 right) then ret false
              else bottom <- desktop_window_bottom w;; ret (y <? u32 bottom)
  end.

Fixpoint control_loop (fuel : nat) (w : desktop_window) (control x y : Z) : M S Z :=
  match fuel with
  | O => ret DESKTOP_WINDOW_CONTROL_NONE
  | Datatypes.S fuel' =>
      control_x <- desktop_window_control_x (Some w) control;;
      control_y <- signed (win_y w + Z.quot (i32 desktop_window_title_height - DESKTOP_WINDOW_CONTROL_SIZE) 2);;
      right <- signed (control_x + DESKTOP_WINDOW_CONTROL_SIZE);;
      bottom <- signed (control_y + DESKTOP_WINDOW_CONTROL_SIZE);;
      if (u32 control_x <=? x) && (x <? u32 right) && (u32 control_y <=? y) && (y <? u32 bottom) then ret control
      else control_loop fuel' w (control + 1) x y
  end.

Definition desktop_window_control_hit_test (window : option desktop_window) (x y : Z) : M S Z :=
  inside <- desktop_window_contains_point window x y;;
  if negb inside then ret DESKTOP_WINDOW_CONTROL_NONE
  else
    w <- deref window;;
    if negb (Z.land (win_flags w) DESKTOP_WINDOW_FLAG_NO_CONTROLS =? 0) then ret DESKTOP_WINDOW_CONTROL_NONE
    else
      title_bottom <- signed (win_y w + i32 desktop_window_title_height);;
      if u32 title_bottom <=? y then ret DESKTOP_WINDOW_CONTROL_NONE
      else control_loop 3 w DESKTOP_WINDOW_CONTROL_CLOSE x y.

Definition desktop_window_title_hit_test (window : option desktop_window) (x y : Z) : M S bool :=
  inside <- desktop_window_contains_point window x y;;
  if negb inside then ret false
  else
    w <- deref window;;
    title_bottom <- signed (win_y w + i32 desktop_window_title_height);;
    if negb (y <? u32 title_bottom) then ret false
    else control <- desktop_window_control_hit_test window x y;; ret (control =? DESKTOP_WINDOW_CONTROL_NONE).

Definition desktop_window_clamp_to_screen (window : option desktop_window) (screen_width screen_height : Z) : M S (option desktop_window) :=
  match window with
  | None => ret None
  | Some w =>
      negw <- signed (- i32 (win_width w));;
      min_x <- signed (negw + 24);;
      let min_y := 0 in
      max_x <- signed (i32 screen_width - 24);;
      max_y <- signed (i32 screen_height - i32 desktop_window_title_height);;
      let w1 := if win_x w <? min_x then set_win_x min_x w else w in
      let w2 := if win_y w1 <? min_y then set_win_y min_y w1 else w1 in
      let w3 := if max_x <? win_x w2 then set_win_x max_x w2 else w2 in
      let w4 := if max_y <? win_y w3 then set_win_y max_y w3 else w3 in
      ret (Some w4)
  end.

End operations.

(** ** Drawing *)

(** The screen and the theme that drawing works on. *)
Record canvas (X : Type) : Type := Canvas { cv_screen : screen; cv_theme : theme_state X }.
Arguments Canvas {X}.
Arguments cv_screen {X}.
Arguments cv_theme {X}.

Section drawing.
Context {X : Type} `{DiskDriver X} (local64 : mem).
Implicit Types (s : canvas X).

Definition set_cv_screen (v : screen) s : canvas X := Canvas v (cv_theme s).
Definition set_cv_theme (v : theme_state X) s : canvas X := Canvas (cv_screen s) v.
Definition on_canvas (m : M screen unit) : M (canvas X) unit := zoom cv_screen set_cv_screen m.
Definition the_theme : M (canvas X) desktop_theme := zoom cv_theme set_cv_theme (desktop_theme_get local64).

(** The background and the label of a control. *)
Definition control_look (theme : desktop_theme) (w : desktop_window) (control : Z) : Z * string :=
  if control =? DESKTOP_WINDOW_CONTROL_CLOSE then (desktop_theme_darken (accent theme) 20, "X"%string)
  else if control =? DESKTOP_WINDOW_CONTROL_MINIMIZE then (desktop_theme_lighten (accent theme) 8, "_"%string)
  else (desktop_theme_lighten (titlebar_active theme) 20,
        if negb (Z.land (win_flags w) DESKTOP_WINDOW_FLAG_MAXIMIZED =? 0) then "R"%string else "+"%string).

Definition draw_control (theme : desktop_theme) (w : desktop_window) (border_color title_fg control : Z) : M (canvas X) unit :=
  control_x <- desktop_window_control_x (Some w) control;;
  control_y <- signed (win_y w + Z.quot (DESKTOP_WINDOW_TITLE_HEIGHT - DESKTOP_WINDOW_CONTROL_SIZE) 2);;
  let '(bg, label) := control_look theme w control in
  on_canvas (draw_fill_rect control_x control_y DESKTOP_WINDOW_CONTROL_SIZE DESKTOP_WINDOW_CONTROL_SIZE bg);;
  on_canvas (draw_rect control_x control_y DESKTOP_WINDOW_CONTROL_SIZE DESKTOP_WINDOW_CONTROL_SIZE border_color);;
  lx <- signed (control_x + 3);; ly <- signed (control_y + 2);;
  on_canvas (gfx_draw_string lx ly (Some (cstr label)) title_fg bg).

Definition desktop_window_draw (window : option desktop_window) (active : bool) : M (canvas X) unit :=
  fb <- gets cv_screen;;
  match window, fb with
  | Some w, Some f =>
      if negb (desktop_window_is_visible window) || negb (bool_decide (is_Some (fb_buffer f))) then ret tt
      else
        theme <- the_theme;;
        let border_color := desktop_theme_darken (text theme) 8 in
        width <- desktop_clip_dimension (win_x w) (win_width w) (fb_width f);;
        height <- desktop_clip_dimension (win_y w) (win_height w) (fb_height f);;
        if (width <=? 0) || (height <=? 0) then ret tt
        else
          let title_height := if height <? DESKTOP_WINDOW_TITLE_HEIGHT then height else DESKTOP_WINDOW_TITLE_HEIGHT in
          let title_bg := if active then titlebar_active theme else titlebar_inactive theme in
          let title_fg := desktop_theme_lighten (text theme) 208 in
          let body_bg := window_body theme in
          on_canvas (draw_fill_rect (win_x w) (win_y w) width height body_bg);;
          on_canvas (draw_fill_rect (win_x w) (win_y w) width title_height title_bg);;
          on_canvas (draw_rect (win_x w) (win_y w) width height border_color);;
          tx <- signed (win_x w + DESKTOP_WINDOW_PADDING);; ty <- signed (win_y w + 4);;
          on_canvas (gfx_draw_string tx ty (Some (title w)) title_fg title_bg);;
          if negb (Z.land (win_flags w) DESKTOP_WINDOW_FLAG_NO_CONTROLS =? 0) then ret tt
          else for_range 3 DESKTOP_WINDOW_CONTROL_CLOSE (draw_control theme w border_color title_fg)
  | _, _ => ret tt
  end.

End drawing.

(** ** Geometry *)

Abbreviation visible_window w := (desktop_window_is_visible (Some w)).

(** A window whose corners have representable coordinates. *)
Record win_wf (w : desktop_window) : Prop := {
  ww_x : - 2 ^ 28 <= win_x w < 2 ^ 28;
  ww_y : - 2 ^ 28 <= win_y w < 2 ^ 28;
  ww_width : 0 <= win_width w < 2 ^ 28;
  ww_height : 0 <= win_height w < 2 ^ 28
}.

(** What the mouse can hit: a window that does not stick out to the left or
    above the screen, and there its rectangle. *)
Definition hits (w : desktop_window) (x y : Z) : Prop :=
  visible_window w = true /\ 0 <= win_x w <= x /\ x < win_x w + win_width w /\ 0 <= win_y w <= y /\ y < win_y w + win_height w.
#[export] Instance hits_dec w x y : Decision (hits w x y).
Proof. unfold hits. apply _. Defined.

(** The square of a control. *)
Definition control_left (w : desktop_window) (k : Z) : Z := win_x w + win_width w - 18 - (k - 1) * 16.
Definition in_control (w : desktop_window) (k x y : Z) : Prop :=
  control_left w k <= x < control_left w k + 12 /\ win_y w + 2 <= y < win_y w + 14.

Section geometry.
Context {S : Type}.
Implicit Types (s : S) (w : desktop_window).

Lemma i32_dim28 d : 0 <= d < 2 ^ 28 -> i32 d = d.
Proof. intros H. apply i32_small. lia. Qed.

Lemma u32_neg z : - 2 ^ 31 <= z < 0 -> u32 z = 2 ^ 32 + z.
Proof. intros H. unfold u32. Z.div_mod_to_equations. lia. Qed.

Lemma contains_point_run w x y s :
  win_wf w -> 0 <= x < 2 ^ 31 -> 0 <= y < 2 ^ 31 ->
  desktop_window_contains_point (Some w) x y s = Ret (bool_decide (hits w x y)) s [].
Proof.
  intros [Hx Hy Hw Hh] Hpx Hpy. unfold desktop_window_contains_point.
  destruct (visible_window w) eqn:Hv; cbn [negb].
  2: { rewrite bool_decide_eq_false_2; [done|]. unfold hits. by rewrite Hv; intros [? _]. }
  destruct (Z.ltb_spec (win_x w) 0) as [Hxn|Hxn].
  - rewrite bind_signed by lia. rewrite bool_decide_eq_false_2 by (unfold hits; lia). cbn [andb].
    destruct (x <? u32 (- win_x w)); [done|].
    assert (Hout : (u32 (win_x w) <=? x) = false) by (rewrite u32_neg by lia; apply Z.leb_gt; lia). rewrite Hout. cbn [negb orb].
    destruct (win_y w <? 0); [rewrite bind_signed by lia|rewrite bind_ret]; by destruct (_ && _).
  - rewrite bind_ret. cbn [andb]. destruct (Z.ltb_spec (win_y w) 0) as [Hyn|Hyn].
    + rewrite bind_signed by lia. rewrite bool_decide_eq_false_2 by (unfold hits; lia). cbn [andb].
      destruct (y <? u32 (- win_y w)); [done|].
      assert (Hout : (u32 (win_y w) <=? y) = false) by (rewrite (u32_neg (win_y w)) by lia; apply Z.leb_gt; lia). rewrite Hout.
      cbn [negb]. by rewrite orb_true_r.
    + rewrite bind_ret. cbn [andb]. rewrite (u32_small (win_x w)), (u32_small (win_y w)) by lia.
      unfold desktop_window_right, desktop_window_bottom. rewrite !i32_dim28 by done.
      destruct (Z.leb_spec (win_x w) x), (Z.leb_spec (win_y w) y); cbn [negb orb];
        [|by rewrite bool_decide_eq_false_2 by (unfold hits; lia)..]. rewrite bind_signed, u32_small by lia.
      destruct (Z.ltb_spec x (win_x w + win_width w)); cbn [negb]; [|by rewrite bool_decide_eq_false_2 by (unfold hits; lia)].
      rewrite bind_signed, u32_small by lia. unfold ret. f_equal. symmetry.
      destruct (Z.ltb_spec y (win_y w + win_height w)); [apply bool_decide_eq_true_2|apply bool_decide_eq_false_2]; unfold hits; [split; [done|lia]|lia].
Qed.

Lemma content_x_run w s : win_wf w -> desktop_window_content_x (Some w) s = Ret (win_x w + 8) s [].
Proof. intros [Hx Hy Hw Hh]. apply signed_run. unfold DESKTOP_WINDOW_PADDING. lia. Qed.

Lemma content_y_run w s : win_wf w -> desktop_window_content_y (Some w) s = Ret (win_y w + 24) s [].
Proof.
  intros [Hx Hy Hw Hh]. unfold desktop_window_content_y. change DESKTOP_WINDOW_TITLE_HEIGHT with 16. unfold DESKTOP_WINDOW_PADDING.
  rewrite bind_signed, signed_run by lia. f_equal. lia.
Qed.

Lemma content_width_bound w : win_wf w -> 0 <= desktop_window_content_width (Some w) < 2 ^ 28.
Proof.
  intros [Hx Hy Hw Hh]. unfold desktop_window_content_width, DESKTOP_WINDOW_PADDING.
  destruct (Z.leb_spec (win_width w) (8 * 2)); [lia|]. rewrite u32_small by lia. lia.
Qed.

Lemma content_height_bound w : win_wf w -> 0 <= desktop_window_content_height (Some w) < 2 ^ 28.
Proof.
  intros [Hx Hy Hw Hh]. unfold desktop_window_content_height, DESKTOP_WINDOW_PADDING. change DESKTOP_WINDOW_TITLE_HEIGHT with 16.
  change (u32 (16 + 8 * 2)) with 32. cbn zeta. destruct (Z.leb_spec (win_height w) 32); [lia|]. rewrite u32_small by lia. lia.
Qed.

Lemma control_x_run w k s :
  win_wf w -> 1 <= k <= 3 -> desktop_window_control_x (Some w) k s = Ret (control_left w k) s [].
Proof.
  intros [Hx Hy Hw Hh] Hk. unfold desktop_window_control_x, control_left, DESKTOP_WINDOW_CONTROL_NONE, DESKTOP_WINDOW_CONTROL_MARGIN,
    DESKTOP_WINDOW_CONTROL_SIZE, DESKTOP_WINDOW_CONTROL_GAP. rewrite (proj2 (Z.eqb_neq k 0)), !i32_dim28 by lia.
  rewrite !bind_signed by lia. unfold signed, int_ok. rewrite (proj2 (Z.leb_le _ _)), (proj2 (Z.ltb_lt _ (2 ^ 31))) by lia.
  cbn [andb]. unfold ret. f_equal. lia.
Qed.

(** The loop over the controls, from control [k] on, in a window wide enough
    for them. *)
Lemma control_loop_run n w k x y s :
  win_wf w -> 0 <= win_x w -> 0 <= win_y w -> 50 <= win_width w -> 1 <= k -> k + Z.of_nat n = 4 ->
  exists c, control_loop n w k x y s = Ret c s [] /\
    ((k <= c <= 3 /\ in_control w c x y) \/ (c = 0 /\ forall j, k <= j <= 3 -> ~ in_control w j x y)).
Proof.
  intros Hwf Hx0 Hy0 Hw50. revert k. induction n as [|n IH]; intros k Hk Hn; cbn [control_loop].
  { exists 0. split; [done|]. right. split; [done|]. lia. }
  pose proof Hwf as [Hx Hy Hw Hh].
  rewrite (bind_Ret_nil _ _ _ _ _ (control_x_run w k s Hwf ltac:(lia))).
  assert (Hl : win_x w <= control_left w k < 2 ^ 30) by (unfold control_left; lia).
  change (Z.quot (i32 desktop_window_title_height - DESKTOP_WINDOW_CONTROL_SIZE) 2) with 2. unfold DESKTOP_WINDOW_CONTROL_SIZE.
  rewrite !bind_signed, !u32_small by lia.
  destruct ((control_left w k <=? x) && (x <? control_left w k + 12) && (win_y w + 2 <=? y) && (y <? win_y w + 2 + 12)) eqn:Hin.
  - exists k. split; [done|]. left. split; [lia|]. unfold in_control.
    rewrite !andb_true_iff, !Z.leb_le, !Z.ltb_lt in Hin. lia.
  - destruct (IH (k + 1)) as (c & Hc & Hor); [lia|lia|]. exists c. split; [done|].
    assert (Hnot : ~ in_control w k x y).
    { unfold in_control. intros Hi. rewrite !(proj2 (Z.leb_le _ _)), !(proj2 (Z.ltb_lt _ _)) in Hin by lia. done. }
    destruct Hor as [[Hb Hi]|[-> Hall]]; [left; split; [lia|done]|]. right. split; [done|]. intros j Hj.
    destruct (Z.eq_dec j k) as [->|]; [done|]. apply Hall. lia.
Qed.
End geometry.

(** ** Hit tests *)

Definition has_controls (w : desktop_window) : Prop := Z.land (win_flags w) DESKTOP_WINDOW_FLAG_NO_CONTROLS = 0.

(** What a position hits: control [k], the title bar outside of the controls. *)
Definition hits_control (w : desktop_window) (x y k : Z) : Prop := hits w x y /\ has_controls w /\ in_control w k x y.
Definition hits_title (w : desktop_window) (x y : Z) : Prop :=
  hits w x y /\ y < win_y w + 16 /\ forall k, 1 <= k <= 3 -> ~ hits_control w x y k.

Lemma in_control_unique w j k x y : in_control w j x y -> in_control w k x y -> j = k.
Proof. unfold in_control, control_left. lia. Qed.

Section hit_tests.
Context {S : Type}.
Implicit Types (s : S) (w : desktop_window).

Lemma control_hit_run w x y s :
  win_wf w -> 50 <= win_width w -> 0 <= x < 2 ^ 31 -> 0 <= y < 2 ^ 31 ->
  exists c, desktop_window_control_hit_test (Some w) x y s = Ret c s [] /\ 0 <= c <= 3 /\
    forall k, 1 <= k <= 3 -> (c = k <-> hits_control w x y k).
Proof.
  intros Hwf Hw Hx Hy. unfold desktop_window_control_hit_test. rewrite (bind_Ret_nil _ _ _ _ _ (contains_point_run w x y s Hwf Hx Hy)).
  destruct (decide (hits w x y)) as [Hh|Hh]; [rewrite bool_decide_eq_true_2 by done|rewrite bool_decide_eq_false_2 by done]; cbn [negb].
  2: { exists 0. split; [done|]. split; [lia|]. intros k Hk. split; [lia|]. by intros [? _]. }
  rewrite (bind_deref_Some _ _ _ _ eq_refl). destruct (Z.eqb_spec (Z.land (win_flags w) DESKTOP_WINDOW_FLAG_NO_CONTROLS) 0) as [Hc|Hc]; cbn [negb].
  2: { exists 0. split; [done|]. split; [lia|]. intros k Hk. split; [lia|]. by intros (_ & ? & _). }
  pose proof Hwf as [Hwx Hwy Hww Hwh]. pose proof Hh as (_ & Hhx & _ & Hhy & _).
  change (i32 desktop_window_title_height) with 16. rewrite bind_signed, u32_small by lia.
  destruct (Z.leb_spec (win_y w + 16) y) as [Hb|Hb].
  { exists 0. split; [done|]. split; [lia|]. intros k Hk. split; [lia|]. unfold hits_control, in_control. lia. }
  destruct (control_loop_run 3 w 1 x y s Hwf ltac:(lia) ltac:(lia) Hw ltac:(lia) ltac:(lia)) as (c & Hr & Hor).
  exists c. split; [done|]. destruct Hor as [[Hb3 Hin]|[-> Hno]].
  - split; [lia|]. intros k Hk. split; [by intros <-|]. intros (_ & _ & Hk'). by apply (in_control_unique w c k x y).
  - split; [lia|]. intros k Hk. split; [lia|]. intros (_ & _ & Hk'). by destruct (Hno k Hk).
Qed.

Lemma title_hit_run w x y s :
  win_wf w -> 50 <= win_width w -> 0 <= x < 2 ^ 31 -> 0 <= y < 2 ^ 31 ->
  exists b, desktop_window_title_hit_test (Some w) x y s = Ret b s [] /\ (b = true <-> hits_title w x y).
Proof.
  intros Hwf Hw Hx Hy. unfold desktop_window_title_hit_test. rewrite (bind_Ret_nil _ _ _ _ _ (contains_point_run w x y s Hwf Hx Hy)).
  destruct (decide (hits w x y)) as [Hh|Hh]; [rewrite bool_decide_eq_true_2 by done|rewrite bool_decide_eq_false_2 by done]; cbn [negb].
  2: { exists false. split; [done|]. split; [done|]. by intros [? _]. }
  rewrite (bind_deref_Some _ _ _ _ eq_refl). pose proof Hwf as [Hwx Hwy Hww Hwh]. pose proof Hh as (_ & Hhx & _ & Hhy & _).
  change (i32 desktop_window_title_height) with 16. rewrite bind_signed, u32_small by lia.
  destruct (Z.ltb_spec y (win_y w + 16)) as [Hb|Hb]; cbn [negb].
  2: { exists false. split; [done|]. split; [done|]. intros (_ & ? & _). lia. }
  destruct (control_hit_run w x y s Hwf Hw Hx Hy) as (c & Hr & Hc03 & Hck). rewrite (bind_Ret_nil _ _ _ _ _ Hr).
  exists (c =? 0). split; [done|]. rewrite Z.eqb_eq. split.
  - intros ->. split; [done|]. split; [done|]. intros k Hk Hhc. apply Hck in Hhc; lia.
  - intros (_ & _ & Hno). destruct (Z.eq_dec c 0) as [|Hne]; [done|]. destruct (Hno c ltac:(lia)). by apply Hck; [lia|].
Qed.

(** ** The clamp *)

Definition clamp (lo hi z : Z) : Z := Z.min (Z.max z lo) hi.

(** The window at its clamped position. *)
Definition clamped (w : desktop_window) (sw sh : Z) : desktop_window :=
  set_win_y (clamp 0 (sh - 16) (win_y w)) (set_win_x (clamp (24 - win_width w) (sw - 24) (win_x w)) w).

(** Reads the fields of a window that was updated. *)
#[local] Ltac win_cbn := unfold set_win_x, set_win_y; cbn [win_x win_y id win_width win_height win_flags restore_x
    restore_y restore_width restore_height title owner draw handle_event user_data].

Lemma clamp_run w sw sh s :
  win_wf w -> 0 <= sw < 2 ^ 28 -> 0 <= sh < 2 ^ 28 ->
  desktop_window_clamp_to_screen (Some w) sw sh s = Ret (Some (clamped w sw sh)) s [].
Proof.
  intros [Hx Hy Hw Hh] Hsw Hsh. unfold desktop_window_clamp_to_screen.
  change (i32 desktop_window_title_height) with 16. rewrite !i32_dim28 by done. rewrite !bind_signed by lia. unfold ret, clamped, clamp. f_equal. f_equal.
  destruct w as [i x y wd ht fl rx ry rw rh tt o d h u]. cbn [win_x win_y win_width set_win_x set_win_y] in *.
  destruct (Z.ltb_spec x (- wd + 24)); win_cbn; destruct (Z.ltb_spec y 0); win_cbn;
  (match goal with |- context [Z.ltb (sw - 24) ?a] => destruct (Z.ltb_spec (sw - 24) a) end); win_cbn;
  (match goal with |- context [Z.ltb (sh - 16) ?a] => destruct (Z.ltb_spec (sh - 16) a) end); win_cbn; f_equal; lia.
Qed.
End hit_tests.

Lemma clamp_idem lo hi z : clamp lo hi (clamp lo hi z) = clamp lo hi z.
Proof. unfold clamp. lia. Qed.

(** ** The picture of a window *)

(** The visible length of a side, as the drawing code computes it. *)
Definition clip_length (start size limit : Z) : Z :=
  if decide (0 < size /\ start < limit /\ 0 < start + size) then Z.min (start + size) limit - Z.max start 0 else 0.

Lemma clip_run {S} start size limit (s : S) :
  - 2 ^ 28 <= start < 2 ^ 28 -> 0 <= size < 2 ^ 28 -> 0 <= limit < 2 ^ 28 ->
  desktop_clip_dimension start size limit s = Ret (clip_length start size limit) s [].
Proof.
  intros Hst Hsz Hl. unfold desktop_clip_dimension, clip_length. rewrite (i32_dim28 limit) by done.
  destruct (Z.eqb_spec size 0) as [->|Hz]; cbn [orb]; [by rewrite decide_False by lia|].
  destruct (Z.leb_spec limit start); [by rewrite decide_False by lia|].
  destruct (Z.leb_spec (start + size) 0); [by rewrite decide_False by lia|]. rewrite decide_True by lia.
  assert (Hv : i32 (if limit <? start + size then limit else start + size) - (if start <? 0 then 0 else start) =
               Z.min (start + size) limit - Z.max start 0).
  { destruct (Z.ltb_spec limit (start + size)), (Z.ltb_spec start 0); rewrite i32_small by lia; lia. }
  rewrite Hv. unfold signed, int_ok. by rewrite (proj2 (Z.leb_le _ _)), (proj2 (Z.ltb_lt _ (2 ^ 31))) by lia.
Qed.

Section pictures.
Context (theme : desktop_theme) (w : desktop_window).

Definition title_color (active : bool) : Z := if active then titlebar_active theme else titlebar_inactive theme.
Definition border_color : Z := desktop_theme_darken (text theme) 8.
Definition title_fg : Z := desktop_theme_lighten (text theme) 208.

(** Body, title bar and border, of the given size. *)
Definition frame_picture (width height : Z) (active : bool) : picture :=
  over (outline (win_x w) (win_y w) width height border_color)
    (over (box (win_x w) (win_y w) width (Z.min height 16) (title_color active))
       (box (win_x w) (win_y w) width height (window_body theme))).

Definition control_picture (k : Z) : picture :=
  let x := control_left w k in
  let y := win_y w + 2 in
  let '(bg, label) := control_look theme w k in
  over (text_picture (x + 3) (x + 3) (y + 2) (lit label) title_fg bg)
    (over (outline x y 12 12 border_color) (box x y 12 12 bg)).

Definition window_picture (width height : Z) (active : bool) (ttl : list Z) : picture :=
  over (if decide (has_controls w) then stack 3 1 control_picture else blank_picture)
    (over (text_picture (win_x w + 8) (win_x w + 8) (win_y w + 4) ttl title_fg (title_color active))
       (frame_picture width height active)).
End pictures.

Section drawing_proofs.
Context {X : Type} `{DiskDriver X} (local64 : mem).

Definition on_fb (ts : theme_state X) : screen -> canvas X := fun fb => Canvas fb ts.

Lemma canvas_draws ts m g : draws m g -> draws_in (on_fb ts) (on_canvas m) g.
Proof. by apply draws_zoom. Qed.

Lemma draws_run {S A} {emb : screen -> S} {m : M S A} {a} {k : A -> M S unit} {g} :
  (forall fb, m (emb fb) = Ret a (emb fb) []) -> draws_in emb (k a) g -> draws_in emb (bind m k) g.
Proof. intros Hm Hk f Hf. rewrite (bind_Ret_nil _ _ _ _ _ (Hm (Some f))). by apply Hk. Qed.

Lemma the_theme_run ts fb : desktop_theme_loaded ts <> 0 -> the_theme local64 (on_fb ts fb) = Ret (desktop_theme_current ts) (on_fb ts fb) [].
Proof.
  intros Hl. unfold the_theme. erewrite zoom_Ret; [|unfold desktop_theme_get; cbn [cv_theme on_fb]; krun;
    rewrite (proj2 (Z.eqb_neq (desktop_theme_loaded ts) 0)) by done; krun; reflexivity]. done.
Qed.

Lemma label_bytes label : Forall (fun c => 0 <= c < 256) (lit label).
Proof.
  induction label as [|a l IH]; cbn [lit]; [by apply Forall_nil|]. apply Forall_cons. split; [|done].
  pose proof (Ascii.nat_ascii_bounded a). lia.
Qed.

Lemma label_cval label : no_nul (lit label) -> cval (cstr label) = Some (lit label).
Proof. intros Hn. unfold cstr. by apply cval_app. Qed.

Lemma draw_control_draws ts theme w k :
  win_wf w -> 1 <= k <= 3 -> draws_in (on_fb ts) (draw_control theme w (border_color theme) (title_fg theme) k) (control_picture theme w k).
Proof.
  intros Hwf Hk. unfold draw_control. apply (draws_run (fun fb => control_x_run w k _ Hwf Hk)).
  assert (Hl : control_left w k = win_x w + win_width w - 18 - (k - 1) * 16) by done. pose proof Hwf as [Hx Hy Hw Hh].
  change (Z.quot (DESKTOP_WINDOW_TITLE_HEIGHT - DESKTOP_WINDOW_CONTROL_SIZE) 2) with 2. unfold DESKTOP_WINDOW_CONTROL_SIZE.
  apply draws_signed; [lia|]. unfold control_picture. destruct (control_look theme w k) as [bg label] eqn:Hlook.
  assert (Hlab : no_nul (lit label) /\ lenZ (lit label) = 1).
  { unfold control_look in Hlook. repeat case_match; simplify_eq; by (split; [apply (bool_decide_unpack _); vm_compute; exact I|]). }
  eapply draws_ext; [|apply draws_bind; [apply canvas_draws, draw_fill_rect_draws; unfold near; lia|apply draws_bind;
    [apply canvas_draws, draw_rect_draws; unfold near; lia|apply draws_signed; [lia|]; apply draws_signed; [lia|];
     apply canvas_draws, (gfx_draw_string_draws _ _ _ (lit label)); [apply label_cval, Hlab|apply label_bytes|unfold near; lia|unfold near; lia|lia]]]].
  intros x y _ _. overs.
Qed.

(** The drawing calls for a window of this visible size. *)
Definition draw_calls (theme : desktop_theme) (w : desktop_window) (width height : Z) (active : bool) : M (canvas X) unit :=
  on_canvas (draw_fill_rect (win_x w) (win_y w) width height (window_body theme));;
  on_canvas (draw_fill_rect (win_x w) (win_y w) width (Z.min height 16) (title_color theme active));;
  on_canvas (draw_rect (win_x w) (win_y w) width height (border_color theme));;
  tx <- signed (win_x w + DESKTOP_WINDOW_PADDING);; ty <- signed (win_y w + 4);;
  on_canvas (gfx_draw_string tx ty (Some (title w)) (title_fg theme) (title_color theme active));;
  if negb (Z.land (win_flags w) DESKTOP_WINDOW_FLAG_NO_CONTROLS =? 0) then ret tt
  else for_range 3 DESKTOP_WINDOW_CONTROL_CLOSE (draw_control theme w (border_color theme) (title_fg theme)).

Lemma draw_calls_draws ts theme w width height active ttl :
  win_wf w -> 0 <= width < 2 ^ 28 -> 0 <= height < 2 ^ 28 ->
  cval (title w) = Some ttl -> Forall (fun c => 0 <= c < 256) ttl -> lenZ ttl < 32 ->
  draws_in (on_fb ts) (draw_calls theme w width height active) (window_picture theme w width height active ttl).
Proof.
  intros Hwf Hwd Hht Ht Hb Hl. pose proof Hwf as [Hx Hy Hw Hh].
  eapply draws_ext; [|apply draws_bind; [apply canvas_draws, draw_fill_rect_draws; unfold near; lia|
    apply draws_bind; [apply canvas_draws, draw_fill_rect_draws; unfold near; lia|
    apply draws_bind; [apply canvas_draws, draw_rect_draws; unfold near; lia|
    apply draws_signed; [unfold DESKTOP_WINDOW_PADDING; lia|]; apply draws_signed; [lia|];
    apply draws_bind; [apply canvas_draws, (gfx_draw_string_draws _ _ _ ttl); [done|done|unfold near, DESKTOP_WINDOW_PADDING; lia|unfold near; lia|lia]|
    instantiate (1 := if decide (has_controls w) then stack 3 1 (control_picture theme w) else blank_picture)]]]]].
  - intros x y _ _. unfold window_picture, frame_picture. generalize (if decide (has_controls w) then stack 3 1 (control_picture theme w) else blank_picture).
    intros g. change DESKTOP_WINDOW_PADDING with 8. overs.
  - unfold has_controls. case_decide as Hc; [rewrite Hc|rewrite (proj2 (Z.eqb_neq _ 0)) by done; apply draws_ret].
    apply draws_for. intros k Hk. apply draw_control_draws; [done|lia].
Qed.

Lemma desktop_window_draw_draws ts w active ttl f :
  win_wf w -> visible_window w = true -> desktop_theme_loaded ts <> 0 -> fb_wf f -> fb_width f < 2 ^ 28 -> fb_height f < 2 ^ 28 ->
  cval (title w) = Some ttl -> Forall (fun c => 0 <= c < 256) ttl -> lenZ ttl < 32 ->
  let width := clip_length (win_x w) (win_width w) (fb_width f) in
  let height := clip_length (win_y w) (win_height w) (fb_height f) in
  exists f', desktop_window_draw local64 (Some w) active (on_fb ts (Some f)) = Ret tt (on_fb ts (Some f')) [] /\
    painted (if decide (0 < width /\ 0 < height) then window_picture (desktop_theme_current ts) w width height active ttl else blank_picture) f f'.
Proof.
  intros Hwf Hv Hload Hf Hfw Hfh Ht Hb Hlt width height. unfold desktop_window_draw. krun. cbn [cv_screen on_fb]. rewrite Hv.
  destruct (fw_buffer f Hf) as (buf & Hbuf & _). rewrite Hbuf. rewrite bool_decide_eq_true_2 by by eexists. cbn [negb orb].
  rewrite (bind_Ret_nil _ _ _ _ _ (the_theme_run ts (Some f) Hload)). cbn zeta.
  pose proof (fw_width f Hf). pose proof (fw_height f Hf). pose proof Hwf as [Hx Hy Hw Hh].
  rewrite (bind_Ret_nil _ _ _ _ _ (clip_run (win_x w) (win_width w) (fb_width f) (on_fb ts (Some f)) Hx Hw ltac:(lia))).
  rewrite (bind_Ret_nil _ _ _ _ _ (clip_run (win_y w) (win_height w) (fb_height f) (on_fb ts (Some f)) Hy Hh ltac:(lia))).
  fold width. fold height.
  assert (Hwb : 0 <= width < 2 ^ 28) by (unfold width, clip_length; case_decide; lia).
  assert (Hhb : 0 <= height < 2 ^ 28) by (unfold height, clip_length; case_decide; lia).
  destruct (Z.leb_spec width 0) as [|Hw0]; [|destruct (Z.leb_spec height 0) as [|Hh0]]; cbn [orb].
  1, 2: rewrite decide_False by lia; exists f; split; [done|by apply painted_refl].
  rewrite decide_True by lia.
  destruct (draw_calls_draws ts (desktop_theme_current ts) w width height active ttl Hwf Hwb Hhb Ht Hb Hlt f Hf) as (f' & Hr & Hp).
  assert (Hth : (if height <? DESKTOP_WINDOW_TITLE_HEIGHT then height else DESKTOP_WINDOW_TITLE_HEIGHT) = Z.min height 16).
  { change DESKTOP_WINDOW_TITLE_HEIGHT with 16. destruct (Z.ltb_spec height 16); lia. }
  rewrite Hth. exists f'. split; [exact Hr|done].
Qed.
End drawing_proofs.

(** ** Properties *)

(** The mouse hits a visible window exactly inside its rectangle, provided the
    rectangle starts on the screen: a window moved beyond the left or upper
    edge cannot be hit anywhere. What is hit is one of the controls, at its
    square, or the title bar outside of them, and never both. *)
Theorem desktop_window_hit_spec {S} w x y (s : S) :
  win_wf w -> 50 <= win_width w -> 0 <= x < 2 ^ 31 -> 0 <= y < 2 ^ 31 ->
  desktop_window_contains_point (Some w) x y s = Ret (bool_decide (hits w x y)) s [] /\
  (exists c, desktop_window_control_hit_test (Some w) x y s = Ret c s [] /\ 0 <= c <= 3 /\
    forall k, 1 <= k <= 3 -> (c = k <-> hits_control w x y k)) /\
  (exists b, desktop_window_title_hit_test (Some w) x y s = Ret b s [] /\ (b = true <-> hits_title w x y)).
Proof.
  intros Hwf Hw Hx Hy. split; [by apply contains_point_run|]. split; [by apply control_hit_run|by apply title_hit_run].
Qed.

(** C40. The clamp moves a window as little as needed to keep 24 columns and the
    title bar on the screen, and a second clamp changes nothing. But where it
    leaves the window partly to the left of the screen, the mouse can no longer
    hit it. *)
Theorem desktop_window_clamp_spec {S} w sw sh (s : S) :
  win_wf w -> 48 <= sw < 2 ^ 28 -> 16 <= sh < 2 ^ 28 ->
  exists w', desktop_window_clamp_to_screen (Some w) sw sh s = Ret (Some w') s [] /\
    w' = set_win_y (win_y w') (set_win_x (win_x w') w) /\
    24 <= win_x w' + win_width w /\ win_x w' <= sw - 24 /\ 0 <= win_y w' <= sh - 16 /\
    (24 <= win_x w + win_width w /\ win_x w <= sw - 24 -> win_x w' = win_x w) /\ (0 <= win_y w <= sh - 16 -> win_y w' = win_y w) /\
    desktop_window_clamp_to_screen (Some w') sw sh s = Ret (Some w') s [] /\
    (win_x w' < 0 -> forall px py, 0 <= px < 2 ^ 31 -> 0 <= py < 2 ^ 31 ->
       desktop_window_contains_point (Some w') px py s = Ret false s []).
Proof.
  intros Hwf Hsw Hsh. pose proof Hwf as [Hx Hy Hw Hh]. exists (clamped w sw sh). split; [apply clamp_run; [done|lia|lia]|].
  assert (Hpos : win_x (clamped w sw sh) = clamp (24 - win_width w) (sw - 24) (win_x w) /\ win_y (clamped w sw sh) = clamp 0 (sh - 16) (win_y w)) by done.
  destruct Hpos as [-> ->]. split; [done|]. unfold clamp at 1 2 3 4 5 6.
  assert (Hwf' : win_wf (clamped w sw sh)) by (split; unfold clamped, clamp; cbn; lia).
  do 5 (split; [lia|]). split.
  - rewrite clamp_run by (done || lia). unfold clamped at 1. cbn [win_x win_y set_win_x set_win_y win_width].
    unfold clamped. cbn. by rewrite !clamp_idem.
  - intros Hneg px py Hpx Hpy. rewrite contains_point_run by done. by rewrite bool_decide_eq_false_2 by (unfold hits, clamped, clamp in *; cbn; lia).
Qed.

(** Drawing a visible window paints its frame, title and controls and changes
    nothing else. The frame has the width that is visible, counted from the
    left edge of the window: of a window that starts left of the screen, the
    last [- win_x w] visible columns are left out. *)
Theorem desktop_window_draw_spec {X} `{DiskDriver X} local64 (ts : theme_state X) w active ttl f :
  win_wf w -> visible_window w = true -> desktop_theme_loaded ts <> 0 -> fb_wf f -> fb_width f < 2 ^ 28 -> fb_height f < 2 ^ 28 ->
  cval (title w) = Some ttl -> Forall (fun c => 0 <= c < 256) ttl -> lenZ ttl < 32 ->
  let width := clip_length (win_x w) (win_width w) (fb_width f) in
  let height := clip_length (win_y w) (win_height w) (fb_height f) in
  (exists f', desktop_window_draw local64 (Some w) active (on_fb ts (Some f)) = Ret tt (on_fb ts (Some f')) [] /\
    painted (if decide (0 < width /\ 0 < height) then window_picture (desktop_theme_current ts) w width height active ttl else blank_picture) f f') /\
  (win_x w < 0 -> forall theme px py, 2 * win_x w + win_width w <= px -> frame_picture theme w width height active px py = None).
Proof.
  intros Hwf Hv Hl Hf Hfw Hfh Ht Hb Hlt width height. split; [by apply desktop_window_draw_draws|].
  intros Hneg theme px py Hpx. unfold frame_picture, over, outline, box.
  assert (Hw : win_x w + width <= px \/ width = 0) by (unfold width, clip_length; pose proof (ww_width w Hwf); case_decide; lia).
  repeat (rewrite decide_False by lia). done.
Qed.

(** ** A window that was dragged to the left *)

Definition sample_window (x : Z) : desktop_window :=
  Window 7 x 3 100 40 DESKTOP_WINDOW_FLAG_VISIBLE x 3 100 40 (cstr "Files" ++ replicate 26 0) None None None None.
Definition sample_theme : theme_state list_disk := ThemeState sample_files desktop_theme_defaults 1.

Lemma desktop_window_hit_spec_witness :
  win_wf (sample_window 5) /\
  desktop_window_contains_point (Some (sample_window 5)) 30 10 tt = Ret true tt [] /\
  exists c, desktop_window_control_hit_test (Some (sample_window 5)) 90 7 tt = Ret c tt [] /\ 0 <= c <= 3.
Proof.
  assert (Hwf : win_wf (sample_window 5)) by (split; cbn; lia). split; [exact Hwf|].
  destruct (desktop_window_hit_spec (sample_window 5) 30 10 tt Hwf ltac:(cbn; lia) ltac:(lia) ltac:(lia)) as [H _]. split; [exact H|].
  destruct (desktop_window_hit_spec (sample_window 5) 90 7 tt Hwf ltac:(cbn; lia) ltac:(lia) ltac:(lia)) as (_ & (c & Hc & Hb & _) & _).
  exists c. exact (conj Hc Hb).
Defined.

Lemma desktop_window_clamp_spec_witness :
  win_wf (sample_window (-90)) /\
  exists w', desktop_window_clamp_to_screen (Some (sample_window (-90))) 640 480 tt = Ret (Some w') tt [] /\
    24 <= win_x w' + 100 /\ win_x w' <= 616.
Proof.
  assert (Hwf : win_wf (sample_window (-90))) by (split; cbn; lia). split; [exact Hwf|].
  destruct (desktop_window_clamp_spec (sample_window (-90)) 640 480 tt Hwf ltac:(lia) ltac:(lia)) as (w' & Hr & _ & H1 & H2 & _).
  exists w'. exact (conj Hr (conj H1 H2)).
Defined.

Lemma desktop_window_draw_spec_witness :
  win_wf (sample_window (-4)) /\
  exists f', desktop_window_draw (replicate 64 7) (Some (sample_window (-4))) true (on_fb sample_theme (Some small_screen)) =
    Ret tt (on_fb sample_theme (Some f')) [].
Proof.
  assert (Hwf : win_wf (sample_window (-4))) by (split; cbn; lia). split; [exact Hwf|].
  destruct (desktop_window_draw_spec (replicate 64 7) sample_theme (sample_window (-4)) true (lit "Files") small_screen Hwf)
    as [(f' & Hr & _) _]; [reflexivity|discriminate|exact small_screen_wf|cbn; lia|cbn; lia|reflexivity| |reflexivity|exists f'; exact Hr].
  apply (bool_decide_unpack _). vm_compute. exact I.
Defined.
