(* ===== verification/DesktopInput.v ===== *)
(** Desktop events (src/src/desktop/desktop_event.c) and the router that turns
    input events into them (desktop_input.c): which window is hit, which is
    focused next, where the cursor goes. The objects that the router's pointers
    lead to are arguments and parts of its result. *)
From S2P Require Import Prelude LibString Input DesktopWindow.

Definition DESKTOP_EVENT_NONE : Z := 0.
Definition DESKTOP_EVENT_REDRAW : Z := 1.
Definition DESKTOP_EVENT_KEY : Z := 2.
Definition DESKTOP_EVENT_CHAR : Z := 3.
Definition DESKTOP_EVENT_BUTTON_DOWN : Z := 4.
Definition DESKTOP_EVENT_BUTTON_UP : Z := 5.
Definition DESKTOP_EVENT_CURSOR_MOVE : Z := 6.
Definition DESKTOP_EVENT_WINDOW_CLOSE : Z := 7.
Definition DESKTOP_INPUT_RESULT_NONE : Z := 0.
Definition DESKTOP_INPUT_RESULT_REDRAW : Z := 1.
Definition DESKTOP_INPUT_RESULT_EXIT : Z := 2.
Definition DESKTOP_CURSOR_STEP : Z := 8.
Definition INPUT_KEY_ESC : Z := 1.
Definition INPUT_KEY_TAB : Z := 15.
Definition INPUT_KEY_BACKSPACE : Z := 14.
Definition INPUT_KEY_ENTER : Z := 28.
Definition INPUT_KEY_UP : Z := 103.
Definition INPUT_KEY_LEFT : Z := 105.
Definition INPUT_KEY_RIGHT : Z := 106.
Definition INPUT_KEY_DOWN : Z := 108.
Definition INPUT_KEY_MOUSE_LEFT : Z := 272.

Record desktop_event : Type := DesktopEvent {
  ev_type : Z;
  ev_input : input_event;
  character : Z;
  target_window_id : Z;
  ev_cursor_x : Z;
  ev_cursor_y : Z
}.
Definition zero_event : desktop_event := DesktopEvent 0 (Event 0 0 (Keycode 0) 0 0) 0 0 0 0.

(** The contents of [*event] afterwards. *)
Definition desktop_event_init (event : option desktop_event) : option desktop_event :=
  match event with None => None | Some _ => Some zero_event end.
Definition desktop_event_from_input (event : option desktop_event) (e : option input_event) : option desktop_event :=
  match desktop_event_init event, e with
  | Some ev, Some e =>
      let ev1 := DesktopEvent (ev_type ev) e (character ev) 0 0 0 in
      if type e =? INPUT_EVENT_CHAR then Some (DesktopEvent DESKTOP_EVENT_CHAR e (event_character (data e)) 0 0 0)
      else if type e =? INPUT_EVENT_KEY then Some (DesktopEvent DESKTOP_EVENT_KEY e (character ev1) 0 0 0)
      else Some ev1
  | ev, _ => ev
  end.

(** What the router writes through its pointers. *)
Record pointers : Type := Pointers {
  cursor_x : option Z;
  cursor_y : option Z;
  focused_window_index : option Z;
  primary_button_down : option Z
}.

Section definitions.
Context {S : Type}.

Fixpoint topmost_loop (fuel : nat) (windows : list desktop_window) (window_count index x y : Z) : M S Z :=
  match fuel with
  | O => ret window_count
  | Datatypes.S fuel' =>
      w <- deref (rd windows (index - 1));;
      hit <- desktop_window_contains_point (Some w) x y;;
      if (hit : bool) then ret (index - 1) else topmost_loop fuel' windows window_count (index - 1) x y
  end.
Definition desktop_find_topmost_window (windows : list desktop_window) (window_count x y : Z) : M S Z :=
  topmost_loop (Z.to_nat window_count) windows window_count window_count x y.

Fixpoint focusable_loop (fuel : nat) (windows : list desktop_window) (window_count focused offset : Z) : M S Z :=
  match fuel with
  | O => ret focused
  | Datatypes.S fuel' =>
      let index := u32 (focused + offset) mod window_count in
      w <- deref (rd windows index);;
      if desktop_window_is_visible (Some w) then ret index
      else focusable_loop fuel' windows window_count focused (offset + 1)
  end.
Definition desktop_find_next_focusable_window (windows : list desktop_window) (window_count focused : Z) : M S Z :=
  if window_count =? 0 then ret 0 else focusable_loop (Z.to_nat window_count) windows window_count focused 1.

Definition desktop_input_is_key_pressed (e : input_event) : bool :=
  (pressed e =? INPUT_KEY_PRESS) || (pressed e =? INPUT_KEY_REPEAT).

Definition desktop_clamp_cursor (fb_width fb_height cx cy : Z) : Z * Z :=
  if (fb_width =? 0) || (fb_height =? 0) then (0, 0)
  else (if fb_width <=? cx then fb_width - 1 else cx, if fb_height <=? cy then fb_height - 1 else cy).

Definition desktop_input_reset (fb_width fb_height : Z) (p : pointers) : pointers :=
  Pointers (match cursor_x p with Some _ => Some (fb_width / 2) | None => None end)
    (match cursor_y p with Some _ => Some (fb_height / 2) | None => None end)
    (match focused_window_index p with Some _ => Some 0 | None => None end)
    (match primary_button_down p with Some _ => Some 0 | None => None end).

(** [index < window_count ? windows[index].id : 0]. *)
Definition window_id (windows : list desktop_window) (window_count index : Z) : M S Z :=
  if index <? window_count then w <- deref (rd windows index);; ret (id w) else ret 0.

(** The tail of every branch that reports an event. *)
Definition report (ev : desktop_event) (ty : Z) (windows : list desktop_window) (window_count index cx cy : Z) : M S desktop_event :=
  target <- window_id windows window_count index;;
  ret (DesktopEvent ty (ev_input ev) (character ev) target cx cy).
End definitions.

Record routed : Type := Routed { result : Z; ptrs : pointers; event_out : option desktop_event }.

Section route.
Context {K : Type} `{KeyboardDriver K}.

Definition route_char (e : input_event) (windows : list desktop_window) (window_count : Z) (allow_exit : bool)
    (cx cy focus button : Z) (ev : desktop_event) : M (input K) routed :=
  let same := Pointers (Some cx) (Some cy) (Some focus) (Some button) in
  let c := event_character (data e) in
  if allow_exit && (c =? 27) then ret (Routed DESKTOP_INPUT_RESULT_EXIT same (Some ev))
  else if c =? 9 then
    next_focus_index <- desktop_find_next_focusable_window windows window_count focus;;
    ev1 <- deref (desktop_event_from_input (Some ev) (Some e));;
    ev2 <- report ev1 DESKTOP_EVENT_CHAR windows window_count next_focus_index cx cy;;
    ret (Routed DESKTOP_INPUT_RESULT_REDRAW same (Some ev2))
  else if (c =? 10) || (c =? 13) then
    index <- desktop_find_topmost_window windows window_count cx cy;;
    let focus1 := if index <? window_count then index else focus in
    let '(button1, ty) := if button =? 0 then (1, DESKTOP_EVENT_BUTTON_DOWN) else (0, DESKTOP_EVENT_BUTTON_UP) in
    ev1 <- report ev ty windows window_count index cx cy;;
    ret (Routed DESKTOP_INPUT_RESULT_REDRAW (Pointers (Some cx) (Some cy) (Some focus1) (Some button1)) (Some ev1))
  else
    ev1 <- deref (desktop_event_from_input (Some ev) (Some e));;
    ev2 <- report ev1 (ev_type ev1) windows window_count focus cx cy;;
    ret (Routed DESKTOP_INPUT_RESULT_REDRAW same (Some ev2)).

(** The arrow keys: the cursor and whether it was one of them. *)
Definition arrow (keycode cx cy : Z) : Z * Z * bool :=
  if keycode =? INPUT_KEY_LEFT then ((if DESKTOP_CURSOR_STEP <? cx then cx - DESKTOP_CURSOR_STEP else 0), cy, true)
  else if keycode =? INPUT_KEY_RIGHT then (u32 (cx + DESKTOP_CURSOR_STEP), cy, true)
  else if keycode =? INPUT_KEY_UP then (cx, (if DESKTOP_CURSOR_STEP <? cy then cy - DESKTOP_CURSOR_STEP else 0), true)
  else if keycode =? INPUT_KEY_DOWN then (cx, u32 (cy + DESKTOP_CURSOR_STEP), true)
  else (cx, cy, false).

Definition route_key (e : input_event) (windows : list desktop_window) (window_count fb_width fb_height : Z) (allow_exit : bool)
    (cx cy focus button : Z) (ev : desktop_event) : M (input K) routed :=
  let same := Pointers (Some cx) (Some cy) (Some focus) (Some button) in
  keycode <- deref (event_keycode (data e));;
  if allow_exit && (keycode =? INPUT_KEY_ESC) then
    ret (Routed (if desktop_input_is_key_pressed e then DESKTOP_INPUT_RESULT_EXIT else DESKTOP_INPUT_RESULT_NONE) same (Some ev))
  else
    let! (translated, ch1) :=
      if negb (keycode =? INPUT_KEY_MOUSE_LEFT) && negb (keycode =? INPUT_KEY_TAB)
      then input_event_to_char (Some e) (Some 0) else ret (0, Some 0) in
    if negb (translated =? 0) then
      c <- deref ch1;;
      ev1 <- report (DesktopEvent 0 e c 0 0 0) DESKTOP_EVENT_CHAR windows window_count focus cx cy;;
      ret (Routed DESKTOP_INPUT_RESULT_REDRAW same (Some ev1))
    else if (keycode =? INPUT_KEY_ENTER) || (keycode =? INPUT_KEY_MOUSE_LEFT) then
      index <- desktop_find_topmost_window windows window_count cx cy;;
      ev1 <- deref (desktop_event_from_input (Some ev) (Some e));;
      let down := desktop_input_is_key_pressed e in
      ev2 <- report ev1 (if down then DESKTOP_EVENT_BUTTON_DOWN else DESKTOP_EVENT_BUTTON_UP) windows window_count index cx cy;;
      ret (Routed DESKTOP_INPUT_RESULT_REDRAW (Pointers (Some cx) (Some cy) (Some focus) (Some (if down then 1 else 0))) (Some ev2))
    else if negb (desktop_input_is_key_pressed e) then
      if focus <? window_count then
        ev1 <- deref (desktop_event_from_input (Some ev) (Some e));;
        ev2 <- report ev1 (ev_type ev1) windows window_count focus cx cy;;
        ret (Routed DESKTOP_INPUT_RESULT_REDRAW same (Some ev2))
      else ret (Routed DESKTOP_INPUT_RESULT_NONE same (Some ev))
    else if keycode =? INPUT_KEY_TAB then
      index <- desktop_find_next_focusable_window windows window_count focus;;
      ev1 <- deref (desktop_event_from_input (Some ev) (Some e));;
      ev2 <- report ev1 DESKTOP_EVENT_KEY windows window_count index cx cy;;
      ret (Routed DESKTOP_INPUT_RESULT_REDRAW same (Some ev2))
    else
      let '(ax, ay, moved) := arrow keycode cx cy in
      let '(cx1, cy1) := desktop_clamp_cursor fb_width fb_height ax ay in
      let after := Pointers (Some cx1) (Some cy1) (Some focus) (Some button) in
      if (moved : bool) then
        ev1 <- report ev DESKTOP_EVENT_CURSOR_MOVE windows window_count focus cx1 cy1;;
        ret (Routed DESKTOP_INPUT_RESULT_REDRAW after (Some ev1))
      else
        ev1 <- deref (desktop_event_from_input (Some ev) (Some e));;
        ev2 <- report ev1 (ev_type ev1) windows window_count focus cx1 cy1;;
        ret (Routed DESKTOP_INPUT_RESULT_REDRAW after (Some ev2)).

Definition desktop_input_route (input_event : option input_event) (windows : option (list desktop_window)) (window_count fb_width fb_height : Z)
    (allow_exit : bool) (p : pointers) (event_out : option desktop_event) : M (input K) routed :=
  let ev := desktop_event_init event_out in
  match input_event, windows, cursor_x p, cursor_y p, focused_window_index p, primary_button_down p with
  | Some e, Some ws, Some cx, Some cy, Some focus, Some button =>
      if type e =? INPUT_EVENT_CHAR then ev <- deref ev;; route_char e ws window_count allow_exit cx cy focus button ev
      else if negb (type e =? INPUT_EVENT_KEY) then ret (Routed DESKTOP_INPUT_RESULT_NONE p ev)
      else ev <- deref ev;; route_key e ws window_count fb_width fb_height allow_exit cx cy focus button ev
  | _, _, _, _, _, _ => ret (Routed DESKTOP_INPUT_RESULT_NONE p ev)
  end.

End route.

(** ** Windows *)

Definition window_at (windows : list desktop_window) (i : Z) (P : desktop_window -> Prop) : Prop :=
  exists w, rd windows i = Some w /\ P w.

(** Window [i] is the topmost one at a position; [i] is the number of windows
    when there is none. *)
Definition topmost (windows : list desktop_window) (x y i : Z) : Prop :=
  (i = lenZ windows \/ (0 <= i < lenZ windows /\ window_at windows i (fun w => hits w x y))) /\
  forall j, i < j < lenZ windows \/ (i = lenZ windows /\ 0 <= j < i) -> ~ window_at windows j (fun w => hits w x y).

(** Window [i] is the first visible one behind [focused], going round; it is
    [focused] itself when no window is visible. *)
Definition next_focusable (windows : list desktop_window) (focused i : Z) : Prop :=
  (windows = [] /\ i = 0) \/
  (exists d, 1 <= d <= lenZ windows /\ i = (focused + d) mod lenZ windows /\ window_at windows i (fun w => visible_window w = true) /\
    forall k, 1 <= k < d -> ~ window_at windows ((focused + k) mod lenZ windows) (fun w => visible_window w = true)) \/
  (i = focused /\ forall j, ~ window_at windows j (fun w => visible_window w = true)).

Definition id_at (windows : list desktop_window) (i : Z) : Z :=
  if i <? lenZ windows then default 0 (id <$> rd windows i) else 0.

Section windows.
Context {S : Type}.
Implicit Types (s : S) (windows : list desktop_window).

Lemma rd_wf windows i w : Forall win_wf windows -> rd windows i = Some w -> win_wf w.
Proof. intros Hall Hr. unfold rd in Hr. destruct (0 <=? i); [|done]. exact (Forall_lookup_1 _ _ _ _ Hall Hr). Qed.

Lemma topmost_loop_run n windows index x y s :
  Forall win_wf windows -> 0 <= x < 2 ^ 31 -> 0 <= y < 2 ^ 31 -> Z.of_nat n = index -> index <= lenZ windows ->
  (forall j, index <= j < lenZ windows -> ~ window_at windows j (fun w => hits w x y)) ->
  exists i, topmost_loop n windows (lenZ windows) index x y s = Ret i s [] /\ topmost windows x y i.
Proof.
  intros Hwf Hx Hy. revert index. induction n as [|n IH]; intros index Hn Hi Hno; cbn [topmost_loop].
  { exists (lenZ windows). split; [done|]. split; [by left|]. intros j [Hj|[_ Hj]]; [lia|]. apply Hno. lia. }
  destruct (rd_Some windows (index - 1)) as [w Hw]; [lia|]. rewrite (bind_deref_Some _ _ _ _ Hw).
  rewrite (bind_Ret_nil _ _ _ _ _ (contains_point_run w x y s (rd_wf _ _ _ Hwf Hw) Hx Hy)).
  destruct (decide (hits w x y)) as [Hh|Hh]; [rewrite bool_decide_eq_true_2 by done|rewrite bool_decide_eq_false_2 by done].
  - exists (index - 1). split; [done|]. split; [right; split; [lia|by exists w]|]. intros j [Hj|[? ?]]; [|lia]. apply Hno. lia.
  - apply IH; [lia|lia|]. intros j Hj. destruct (Z.eq_dec j (index - 1)) as [->|]; [|apply Hno; lia].
    intros (w' & Hw' & Hh'). congruence.
Qed.

Lemma topmost_run windows x y s :
  Forall win_wf windows -> 0 <= x < 2 ^ 31 -> 0 <= y < 2 ^ 31 ->
  exists i, desktop_find_topmost_window windows (lenZ windows) x y s = Ret i s [] /\ topmost windows x y i.
Proof.
  intros Hwf Hx Hy. apply topmost_loop_run; [done|done|done|unfold lenZ; lia|lia|]. intros j Hj. lia.
Qed.

Lemma focusable_loop_run n windows focused offset s :
  0 <= focused < 2 ^ 31 -> 0 < lenZ windows < 2 ^ 31 -> 1 <= offset -> offset + Z.of_nat n = lenZ windows + 1 ->
  (forall k, 1 <= k < offset -> ~ window_at windows ((focused + k) mod lenZ windows) (fun w => visible_window w = true)) ->
  exists i, focusable_loop n windows (lenZ windows) focused offset s = Ret i s [] /\ next_focusable windows focused i.
Proof.
  intros Hf Hl. revert offset. induction n as [|n IH]; intros offset Ho Hn Hno; cbn [focusable_loop].
  { exists focused. split; [done|]. right. right. split; [done|]. intros j (w & Hw & Hv).
    pose proof (rd_inv _ _ _ Hw) as Hj. set (k := (j - focused - 1) mod lenZ windows + 1).
    pose proof (Z.mod_pos_bound (j - focused - 1) (lenZ windows) ltac:(lia)).
    apply (Hno k); [unfold k; lia|]. exists w. split; [|done]. rewrite <- Hw. f_equal. unfold k.
    rewrite (Z.add_comm _ 1), Z.add_assoc, Z.add_mod_idemp_r by lia.
    replace (focused + 1 + (j - focused - 1)) with j by lia. apply Z.mod_small. lia. }
  rewrite u32_small by lia. pose proof (Z.mod_pos_bound (focused + offset) (lenZ windows) ltac:(lia)) as Hb.
  destruct (rd_Some windows ((focused + offset) mod lenZ windows)) as [w Hw]; [lia|]. rewrite (bind_deref_Some _ _ _ _ Hw).
  destruct (visible_window w) eqn:Hv.
  - eexists. split; [done|]. right. left. exists offset. split; [lia|]. split; [done|]. split; [by exists w|]. done.
  - apply IH; [lia|lia|]. intros k Hk. destruct (Z.eq_dec k offset) as [->|]; [|apply Hno; lia].
    intros (w' & Hw' & Hv'). congruence.
Qed.

Lemma next_focusable_run windows focused s :
  0 <= focused < 2 ^ 31 -> lenZ windows < 2 ^ 31 ->
  exists i, desktop_find_next_focusable_window windows (lenZ windows) focused s = Ret i s [] /\ next_focusable windows focused i.
Proof.
  intros Hf Hl. unfold desktop_find_next_focusable_window. destruct (Z.eqb_spec (lenZ windows) 0) as [Hz|Hz].
  - exists 0. split; [done|]. left. split; [|done]. destruct windows; [done|]. unfold lenZ in Hz. simpl in Hz. lia.
  - pose proof (lenZ_nonneg windows). apply focusable_loop_run; [done|lia|lia|unfold lenZ in *; lia|]. intros k Hk. lia.
Qed.

Lemma window_id_run windows i s : 0 <= i -> window_id windows (lenZ windows) i s = Ret (id_at windows i) s [].
Proof.
  intros Hi. unfold window_id, id_at. destruct (Z.ltb_spec i (lenZ windows)); [|done].
  destruct (rd_Some windows i) as [w Hw]; [lia|]. by rewrite (bind_deref_Some _ _ _ _ Hw), Hw.
Qed.

Lemma report_run ev ty windows i cx cy s :
  0 <= i -> report ev ty windows (lenZ windows) i cx cy s = Ret (DesktopEvent ty (ev_input ev) (character ev) (id_at windows i) cx cy) s [].
Proof. intros Hi. unfold report. by rewrite (bind_Ret_nil _ _ _ _ _ (window_id_run windows i s Hi)). Qed.

Lemma topmost_nonneg windows x y i : topmost windows x y i -> 0 <= i.
Proof. intros [[->|[? _]] _]; [apply lenZ_nonneg|lia]. Qed.

Lemma next_focusable_nonneg windows focused i : 0 <= focused -> next_focusable windows focused i -> 0 <= i.
Proof.
  intros Hf [[_ ->]|[(d & Hd & -> & _)|[-> _]]]; [lia| |done]. apply Z.mod_pos_bound. lia.
Qed.
End windows.

(** ** Routing *)

Definition escape (e : input_event) : Prop :=
  (type e = INPUT_EVENT_CHAR /\ event_character (data e) = 27) \/
  (type e = INPUT_EVENT_KEY /\ data e = Keycode INPUT_KEY_ESC /\ desktop_input_is_key_pressed e = true).

(** The window an event is for: what is under the cursor for a button, the
    focused window or the next one to focus for the rest. *)
Definition designated (windows : list desktop_window) (cx cy focus : Z) (ev : desktop_event) (i : Z) : Prop :=
  if decide (ev_type ev = DESKTOP_EVENT_BUTTON_DOWN \/ ev_type ev = DESKTOP_EVENT_BUTTON_UP) then topmost windows cx cy i
  else i = focus \/ next_focusable windows focus i.

Definition well_routed (windows : list desktop_window) (fbw fbh : Z) (allow_exit : bool) (e : input_event) (cx cy focus button : Z) (r : routed) : Prop :=
  exists cx' cy' focus' button' ev,
    ptrs r = Pointers (Some cx') (Some cy') (Some focus') (Some button') /\ event_out r = Some ev /\
    0 <= cx' < fbw /\ 0 <= cy' < fbh /\ 0 <= button' <= 1 /\
    (focus' = focus \/ (topmost windows cx cy focus' /\ focus' < lenZ windows)) /\
    (result r = DESKTOP_INPUT_RESULT_EXIT <-> allow_exit = true /\ escape e) /\
    (result r = DESKTOP_INPUT_RESULT_REDRAW ->
       ev_cursor_x ev = cx' /\ ev_cursor_y ev = cy' /\ exists i, target_window_id ev = id_at windows i /\ designated windows cx cy focus ev i).

Section routing.
Context {K : Type} `{KeyboardDriver K}.
Implicit Types (s : input K) (windows : list desktop_window).

Context (windows : list desktop_window) (fbw fbh cx cy focus button : Z) (allow_exit : bool).
Hypothesis (Hwf : Forall win_wf windows) (Hlen : lenZ windows < 2 ^ 31).
Hypothesis (Hcx : 0 <= cx < fbw) (Hcy : 0 <= cy < fbh) (Hfbw : fbw < 2 ^ 28) (Hfbh : fbh < 2 ^ 28).
Hypothesis (Hfocus : 0 <= focus < 2 ^ 31) (Hbutton : 0 <= button <= 1).

Lemma redraw_ok e cx' cy' focus' button' ty inp c i :
  0 <= cx' < fbw -> 0 <= cy' < fbh -> 0 <= button' <= 1 ->
  (focus' = focus \/ (topmost windows cx cy focus' /\ focus' < lenZ windows)) ->
  ~ (allow_exit = true /\ escape e) ->
  (if decide (ty = DESKTOP_EVENT_BUTTON_DOWN \/ ty = DESKTOP_EVENT_BUTTON_UP) then topmost windows cx cy i
   else i = focus \/ next_focusable windows focus i) ->
  well_routed windows fbw fbh allow_exit e cx cy focus button
    (Routed DESKTOP_INPUT_RESULT_REDRAW (Pointers (Some cx') (Some cy') (Some focus') (Some button'))
       (Some (DesktopEvent ty inp c (id_at windows i) cx' cy'))).
Proof.
  clear Hwf Hlen Hcx Hcy Hfbw Hfbh Hfocus Hbutton. intros Hx Hy Hb Hf He Hi. exists cx', cy', focus', button'. eexists. do 5 (split; [done|]). split; [done|].
  split; [split; [done|tauto]|]. intros _. do 2 (split; [done|]). by exists i.
Qed.

Lemma quiet_ok e res ev :
  (res = DESKTOP_INPUT_RESULT_EXIT /\ allow_exit = true /\ escape e) \/ (res = DESKTOP_INPUT_RESULT_NONE /\ ~ (allow_exit = true /\ escape e)) ->
  well_routed windows fbw fbh allow_exit e cx cy focus button
    (Routed res (Pointers (Some cx) (Some cy) (Some focus) (Some button)) (Some ev)).
Proof using Hcx Hcy Hbutton.
  intros Hr. exists cx, cy, focus, button, ev. do 5 (split; [done|]). split; [by left|]. cbn [result].
  split; [destruct Hr as [(-> & ? & ?)|[-> ?]]; split; done || tauto|]. by destruct Hr as [(-> & ? & ?)|[-> ?]].
Qed.

Lemma route_char_ok e ev s :
  type e = INPUT_EVENT_CHAR ->
  exists r, route_char e windows (lenZ windows) allow_exit cx cy focus button ev s = Ret r s [] /\
    well_routed windows fbw fbh allow_exit e cx cy focus button r.
Proof using Hwf Hlen Hcx Hcy Hfbw Hfbh Hfocus Hbutton.
  intros Hty. unfold route_char. set (c := event_character (data e)).
  assert (Hesc : escape e <-> c = 27).
  { unfold escape. rewrite Hty. split; [intros [[_ ?]|[? _]]; done|]. intros ?. by left. }
  destruct (allow_exit && (c =? 27)) eqn:Hex.
  { apply andb_prop in Hex as [Ha Hc%Z.eqb_eq]. eexists. split; [done|]. apply quiet_ok. left. by rewrite Hesc. }
  assert (Hne : ~ (allow_exit = true /\ escape e)).
  { intros [Ha He]. apply Hesc in He. by rewrite Ha, He in Hex. }
  assert (Hfrom : desktop_event_from_input (Some ev) (Some e) = Some (DesktopEvent DESKTOP_EVENT_CHAR e c 0 0 0)).
  { unfold desktop_event_from_input, desktop_event_init. rewrite Hty. done. }
  destruct (Z.eqb_spec c 9) as [H9|H9].
  { destruct (next_focusable_run windows focus s Hfocus Hlen) as (i & Hi & Hnf). rewrite (bind_Ret_nil _ _ _ _ _ Hi).
    rewrite (bind_deref_Some _ _ _ _ Hfrom). rewrite (bind_Ret_nil _ _ _ _ _ (report_run _ _ _ i _ _ _ (next_focusable_nonneg _ _ _ (proj1 Hfocus) Hnf))).
    eexists. split; [done|]. apply redraw_ok; [done|done|done|by left|done|by right]. }
  destruct ((c =? 10) || (c =? 13)) eqn:Hnl.
  { destruct (topmost_run windows cx cy s Hwf) as (i & Hi & Htop); [lia|lia|]. rewrite (bind_Ret_nil _ _ _ _ _ Hi).
    pose proof (topmost_nonneg _ _ _ _ Htop) as Hi0. destruct (button =? 0).
    all: rewrite (bind_Ret_nil _ _ _ _ _ (report_run _ _ _ i _ _ _ Hi0)); eexists; (split; [done|]).
    all: apply redraw_ok; [done|done|done| |done|done].
    all: destruct (Z.ltb_spec i (lenZ windows)); [by right|by left]. }
  rewrite (bind_deref_Some _ _ _ _ Hfrom). rewrite (bind_Ret_nil _ _ _ _ _ (report_run _ _ _ focus _ _ _ (proj1 Hfocus))).
  eexists. split; [done|]. apply redraw_ok; [done|done|done|by left|done|by left].
Qed.

Lemma clamp_cursor_ok ax ay :
  0 <= ax -> 0 <= ay -> exists x y, desktop_clamp_cursor fbw fbh ax ay = (x, y) /\ 0 <= x < fbw /\ 0 <= y < fbh.
Proof using Hcx Hcy.
  intros Hx Hy. unfold desktop_clamp_cursor. rewrite (proj2 (Z.eqb_neq fbw 0)), (proj2 (Z.eqb_neq fbh 0)) by lia.
  eexists _, _. split; [done|]. destruct (Z.leb_spec fbw ax), (Z.leb_spec fbh ay); lia.
Qed.

Lemma arrow_nonneg k ax ay moved : arrow k cx cy = (ax, ay, moved) -> 0 <= ax /\ 0 <= ay.
Proof using Hcx Hcy.
  unfold arrow, DESKTOP_CURSOR_STEP. pose proof (u32_bound (cx + 8)). pose proof (u32_bound (cy + 8)).
  destruct (Z.ltb_spec 8 cx), (Z.ltb_spec 8 cy); repeat case_match; intros; simplify_eq; lia.
Qed.

Lemma route_key_ok e ev s shift :
  type e = INPUT_EVENT_KEY -> event_ok e -> input_modifiers s = Z.b2z shift ->
  exists r s', route_key e windows (lenZ windows) fbw fbh allow_exit cx cy focus button ev s = Ret r s' [] /\
    (exists m, s' = set_input_modifiers m s) /\ well_routed windows fbw fbh allow_exit e cx cy focus button r.
Proof using Hwf Hlen Hcx Hcy Hfbw Hfbh Hfocus Hbutton.
  intros Hty Hok Hm. destruct (Hok Hty) as [k Hk]. unfold route_key. rewrite (bind_deref_Some _ k) by (by rewrite Hk).
  set (down := desktop_input_is_key_pressed e).
  assert (Hself : exists m, s = set_input_modifiers m s) by (exists (input_modifiers s); by destruct s).
  assert (Hesc : escape e <-> k = INPUT_KEY_ESC /\ down = true).
  { unfold escape. rewrite Hty, Hk. fold down. split; [intros [[? _]|(_ & [= <-] & ?)]; done|]. intros [-> ?]. by right. }
  destruct (allow_exit && (k =? INPUT_KEY_ESC)) eqn:Hex.
  { apply andb_prop in Hex as [Ha He%Z.eqb_eq]. eexists _, s. split; [done|]. split; [done|]. apply quiet_ok. rewrite Hesc. destruct down; [by left|].
    right. split; [done|]. by intros (_ & _ & ?). }
  assert (Hne : ~ (allow_exit = true /\ escape e)).
  { intros [Ha He]. apply Hesc in He as [He _]. by rewrite Ha, He in Hex. }
  assert (Hfrom : desktop_event_from_input (Some ev) (Some e) = Some (DesktopEvent DESKTOP_EVENT_KEY e 0 0 0 0)).
  { unfold desktop_event_from_input, desktop_event_init. rewrite Hty. done. }
  assert (Htr : exists s1 t c, (if negb (k =? INPUT_KEY_MOUSE_LEFT) && negb (k =? INPUT_KEY_TAB)
      then input_event_to_char (Some e) (Some 0) else ret (0, Some 0)) s = Ret (t, Some c) s1 [] /\ exists m, s1 = set_input_modifiers m s).
  { destruct (negb (k =? INPUT_KEY_MOUSE_LEFT) && negb (k =? INPUT_KEY_TAB)); [|exists s, 0, 0; split; [reflexivity|exact Hself]]. destruct (input_event_to_char_ok s e 0 shift Hok Hm) as (s1 & Hr & Hs1).
    destruct (fst (event_text (input_mode_flags s) shift e)) as [c|]; [exists s1, 1, c|exists s1, 0, 0]; (split; [done|by eexists]). }
  destruct Htr as (s1 & t & c & Htr & Hs1). rewrite (bind_Ret_nil _ _ _ _ _ Htr). cbn beta iota. clear Htr Hself.
  destruct (negb (t =? 0)).
  { rewrite (bind_deref_Some _ c) by done. rewrite (bind_Ret_nil _ _ _ _ _ (report_run _ _ _ focus _ _ _ (proj1 Hfocus))).
    eexists _, s1. split; [done|]. split; [done|]. apply redraw_ok; [done|done|done|by left|done|by left]. }
  destruct ((k =? INPUT_KEY_ENTER) || (k =? INPUT_KEY_MOUSE_LEFT)).
  { destruct (topmost_run windows cx cy s1 Hwf) as (i & Hi & Htop); [lia|lia|]. rewrite (bind_Ret_nil _ _ _ _ _ Hi).
    rewrite (bind_deref_Some _ _ _ _ Hfrom). cbn zeta. rewrite (bind_Ret_nil _ _ _ _ _ (report_run _ _ _ i _ _ _ (topmost_nonneg _ _ _ _ Htop))).
    eexists _, s1. split; [done|]. split; [done|]. fold down. apply redraw_ok; [done|done|by destruct down|by left|done|by destruct down]. }
  destruct (negb down) eqn:Hd.
  { pose proof (lenZ_nonneg windows). destruct (focus <? lenZ windows).
    - rewrite (bind_deref_Some _ _ _ _ Hfrom), (bind_Ret_nil _ _ _ _ _ (report_run _ _ _ focus _ _ _ (proj1 Hfocus))).
      eexists _, s1. split; [done|]. split; [done|]. apply redraw_ok; [done|done|done|by left|done|by left].
    - eexists _, s1. split; [done|]. split; [done|]. apply quiet_ok. by right. }
  destruct (k =? INPUT_KEY_TAB).
  { destruct (next_focusable_run windows focus s1 Hfocus Hlen) as (i & Hi & Hnf). rewrite (bind_Ret_nil _ _ _ _ _ Hi).
    rewrite (bind_deref_Some _ _ _ _ Hfrom). rewrite (bind_Ret_nil _ _ _ _ _ (report_run _ _ _ i _ _ _ (next_focusable_nonneg _ _ _ (proj1 Hfocus) Hnf))).
    eexists _, s1. split; [done|]. split; [done|]. apply redraw_ok; [done|done|done|by left|done|by right]. }
  destruct (arrow k cx cy) as [[ax ay] moved] eqn:Harrow. destruct (arrow_nonneg k ax ay moved Harrow) as [Hax Hay].
  destruct (clamp_cursor_ok ax ay Hax Hay) as (x & y & -> & Hx & Hy). destruct moved.
  - rewrite (bind_Ret_nil _ _ _ _ _ (report_run _ _ _ focus _ _ _ (proj1 Hfocus))).
    eexists _, s1. split; [done|]. split; [done|]. apply redraw_ok; [done|done|done|by left|done|by left].
  - rewrite (bind_deref_Some _ _ _ _ Hfrom), (bind_Ret_nil _ _ _ _ _ (report_run _ _ _ focus _ _ _ (proj1 Hfocus))).
    eexists _, s1. split; [done|]. split; [done|]. apply redraw_ok; [done|done|done|by left|done|by left].
Qed.
End routing.

(** C33. Every input event is routed: the cursor stays on the screen, the focus
    moves only to the topmost window under it, the desktop is left exactly on
    an escape where that is allowed, and a reported event carries the cursor
    and goes to the window it is meant for: the topmost one under the cursor
    for a button, else the focused one or the next one to focus. *)
Theorem desktop_input_route_spec {K} `{KeyboardDriver K} (s : input K) windows e ev0 fbw fbh allow_exit cx cy focus button shift :
  Forall win_wf windows -> lenZ windows < 2 ^ 31 -> fbw < 2 ^ 28 -> fbh < 2 ^ 28 ->
  0 <= cx < fbw -> 0 <= cy < fbh -> 0 <= focus < 2 ^ 31 -> 0 <= button <= 1 ->
  type e = INPUT_EVENT_CHAR \/ type e = INPUT_EVENT_KEY -> event_ok e -> input_modifiers s = Z.b2z shift ->
  exists r s', desktop_input_route (Some e) (Some windows) (lenZ windows) fbw fbh allow_exit
      (Pointers (Some cx) (Some cy) (Some focus) (Some button)) (Some ev0) s = Ret r s' [] /\
    (exists m, s' = set_input_modifiers m s) /\ well_routed windows fbw fbh allow_exit e cx cy focus button r.
Proof.
  intros Hwf Hlen Hfw Hfh Hcx Hcy Hf Hb Hty Hok Hm. unfold desktop_input_route. cbn [cursor_x cursor_y focused_window_index primary_button_down].
  destruct Hty as [Hty|Hty]; rewrite Hty.
  - change (INPUT_EVENT_CHAR =? INPUT_EVENT_CHAR) with true. cbn iota. rewrite (bind_deref_Some _ zero_event) by done.
    destruct (route_char_ok windows fbw fbh cx cy focus button allow_exit Hwf Hlen Hcx Hcy Hfw Hfh Hf Hb e zero_event s Hty) as (r & Hr & Hw).
    exists r, s. split; [exact Hr|]. split; [|done]. exists (input_modifiers s). by destruct s.
  - change (INPUT_EVENT_KEY =? INPUT_EVENT_CHAR) with false. change (negb (INPUT_EVENT_KEY =? INPUT_EVENT_KEY)) with false. cbn iota.
    rewrite (bind_deref_Some _ zero_event) by done.
    destruct (route_key_ok windows fbw fbh cx cy focus button allow_exit Hwf Hlen Hcx Hcy Hfw Hfh Hf Hb e zero_event s shift Hty Hok Hm)
      as (r & s' & Hr & Hs' & Hw).
    exists r, s'. done.
Qed.

Definition two_windows : list desktop_window := [sample_window 5; sample_window 40].

Lemma desktop_input_route_spec_witness :
  Forall win_wf two_windows /\
  exists r s', desktop_input_route (Some (key_event INPUT_KEY_MOUSE_LEFT 1)) (Some two_windows) 2 640 480 true
      (Pointers (Some 50) (Some 10) (Some 0) (Some 0)) (Some zero_event) typed_sample = Ret r s' [] /\
    well_routed two_windows 640 480 true (key_event INPUT_KEY_MOUSE_LEFT 1) 50 10 0 0 r.
Proof.
  assert (Hwf : Forall win_wf two_windows) by (repeat (apply Forall_cons; split; [split; cbn; lia|]); by apply Forall_nil).
  split; [exact Hwf|].
  destruct (desktop_input_route_spec typed_sample two_windows (key_event INPUT_KEY_MOUSE_LEFT 1) zero_event 640 480 true 50 10 0 0 false Hwf)
    as (r & s' & Hr & _ & Hw); [reflexivity|lia|lia|lia|lia|lia|lia|right; reflexivity|intros _; by eexists|reflexivity|].
  exists r, s'. exact (conj Hr Hw).
Defined.
