(* ===== verification/Editor.v ===== *)
(** The text editor (src/src/desktop/text_editor_app.c): the edit buffer and its
    line scans, loading a file, the event handler and the rendering. A
    [text_editor_state_t *] is an index into [editor_states]. What the editor
    asks of the desktop is an interface. *)
From S2P Require Import Prelude LibString BlockDevice BlockIO ListDisk TinyFS Vfs FileTable Input Graphics Theme DesktopWindow DesktopInput.

Definition EDITOR_WINDOW_WIDTH : Z := 620.
Definition EDITOR_WINDOW_HEIGHT : Z := 300.
Definition EDITOR_TEXT_MAX : Z := 4096.
Definition EDITOR_STATUS_MAX : Z := 64.
Definition EDITOR_PATH_MAX : Z := 64.
Definition EDITOR_BG_COLOR : Z := 0xfff7f1e5.
Definition EDITOR_TEXT_COLOR : Z := 0xff1d2530.
Definition EDITOR_MUTED_COLOR : Z := 0xff5d6c79.
Definition EDITOR_BORDER_COLOR : Z := 0xff8c9aa6.
Definition EDITOR_CURSOR_COLOR : Z := 0xff1e7ea6.
Definition EDITOR_BUTTON_BG : Z := 0xffd8e6ec.
Definition EDITOR_BUTTON_FG : Z := 0xff16313d.
Definition EDITOR_LINE_SPACING : Z := 2.
Definition EDITOR_MARGIN : Z := 6.
Definition EDITOR_HEADER_HEIGHT : Z := 18.
Definition EDITOR_STATUS_HEIGHT : Z := 14.
Definition EDITOR_MAX_INSTANCES : Z := 8.

Record text_editor_state : Type := Editor {
  ed_text : mem;
  ed_length : Z;
  ed_cursor : Z;
  ed_status : mem;
  ed_path : mem;
  ed_active : Z
}.
Definition set_ed_text (v : mem) (e : text_editor_state) : text_editor_state :=
  Editor v (ed_length e) (ed_cursor e) (ed_status e) (ed_path e) (ed_active e).
Definition set_ed_length (v : Z) (e : text_editor_state) : text_editor_state :=
  Editor (ed_text e) v (ed_cursor e) (ed_status e) (ed_path e) (ed_active e).
Definition set_ed_cursor (v : Z) (e : text_editor_state) : text_editor_state :=
  Editor (ed_text e) (ed_length e) v (ed_status e) (ed_path e) (ed_active e).
Definition set_ed_status (v : mem) (e : text_editor_state) : text_editor_state :=
  Editor (ed_text e) (ed_length e) (ed_cursor e) v (ed_path e) (ed_active e).
Definition set_ed_path (v : mem) (e : text_editor_state) : text_editor_state :=
  Editor (ed_text e) (ed_length e) (ed_cursor e) (ed_status e) v (ed_active e).
Definition set_ed_active (v : Z) (e : text_editor_state) : text_editor_state :=
  Editor (ed_text e) (ed_length e) (ed_cursor e) (ed_status e) (ed_path e) v.

(** A state filled with zeros. *)
Definition zero_editor : text_editor_state :=
  Editor (replicate (Z.to_nat EDITOR_TEXT_MAX) 0) 0 0 (replicate (Z.to_nat EDITOR_STATUS_MAX) 0) (replicate (Z.to_nat EDITOR_PATH_MAX) 0) 0.

(** ** The edit buffer *)

Abbreviation E := (M text_editor_state).

Definition text_editor_set_status (message : option mem) : E unit :=
  status <- gets ed_status;;
  match message with
  | None => status1 <- deref (wr status 0 0);; modify (set_ed_status status1)
  | Some m => copied <- deref (strlcpy status 0 m EDITOR_STATUS_MAX);; modify (set_ed_status copied.1)
  end.

Definition text_editor_reset : E unit :=
  active <- gets ed_active;;
  modify (fun _ => zero_editor);;
  modify (set_ed_active active);;
  text_editor_set_status (Some (cstr "ready")).

(** The loops that make room for a character and that close the gap of one. *)
Fixpoint shift_up (fuel : nat) (text : mem) (index cursor : Z) : option mem :=
  match fuel with
  | O => Some text
  | S fuel' =>
      if cursor <? index then
        c ← rd text (u32 (index - 1)); text1 ← wr text index c; shift_up fuel' text1 (u32 (index - 1)) cursor
      else Some text
  end.
Fixpoint shift_down (fuel : nat) (text : mem) (index stop : Z) : option mem :=
  match fuel with
  | O => Some text
  | S fuel' =>
      if index <? stop then
        c ← rd text (u32 (index + 1)); text1 ← wr text index c; shift_down fuel' text1 (u32 (index + 1)) stop
      else Some text
  end.

Definition text_editor_insert_char (c : Z) : E Z :=
  length <- gets ed_length;;
  if EDITOR_TEXT_MAX <=? u32 (length + 1) then text_editor_set_status (Some (cstr "buffer full"));; ret (-1)
  else
    text <- gets ed_text;;
    cursor <- gets ed_cursor;;
    text1 <- deref (shift_up (Z.to_nat (length - cursor)) text length cursor);;
    text2 <- deref (wr text1 cursor c);;
    text3 <- deref (wr text2 (u32 (length + 1)) 0);;
    modify (set_ed_text text3);;
    modify (set_ed_length (u32 (length + 1)));;
    modify (set_ed_cursor (u32 (cursor + 1)));;
    ret 0.

Definition text_editor_backspace : E unit :=
  length <- gets ed_length;;
  cursor <- gets ed_cursor;;
  if (cursor =? 0) || (length =? 0) then ret tt
  else
    text <- gets ed_text;;
    text1 <- deref (shift_down (Z.to_nat (length - cursor)) text (u32 (cursor - 1)) (u32 (length - 1)));;
    text2 <- deref (wr text1 (u32 (length - 1)) 0);;
    modify (set_ed_text text2);;
    modify (set_ed_cursor (u32 (cursor - 1)));;
    modify (set_ed_length (u32 (length - 1))).

(** ** Line scans

    They read the text of [state]; the outer option is an access out of the
    buffer or a loop that did not end in [fuel] rounds. *)

Fixpoint line_start_loop (fuel : nat) (text : mem) (index columns scan count start : Z) : option Z :=
  match fuel with
  | O => None
  | S fuel' =>
      if scan <? index then
        let start1 := if count =? 0 then scan else start in
        c ← rd text scan;
        if c =? 10 then line_start_loop fuel' text index columns (u32 (scan + 1)) 0 (u32 (scan + 1))
        else
          let count1 := u32 (count + 1) in
          line_start_loop fuel' text index columns (u32 (scan + 1)) (if columns <=? count1 then 0 else count1) start1
      else Some start
  end.
Definition text_editor_find_line_start (state : text_editor_state) (index columns : Z) : option Z :=
  if columns =? 0 then Some 0
  else
    let index1 := if ed_length state <? index then ed_length state else index in
    line_start_loop (S (Z.to_nat index1)) (ed_text state) index1 columns 0 0 0.

Definition text_editor_find_prev_line_start (state : text_editor_state) (line_start columns : Z) : option Z :=
  if line_start =? 0 then Some 0 else text_editor_find_line_start state (u32 (line_start - 1)) columns.

Fixpoint next_line_loop (fuel : nat) (text : mem) (length columns index count : Z) : option Z :=
  match fuel with
  | O => None
  | S fuel' =>
      if index <? length then
        c ← rd text index;
        if c =? 10 then Some (u32 (index + 1))
        else
          let index1 := u32 (index + 1) in
          let count1 := u32 (count + 1) in
          if columns <=? count1 then Some index1 else next_line_loop fuel' text length columns index1 count1
      else Some length
  end.
Definition text_editor_find_next_line_start (state : text_editor_state) (line_start columns : Z) : option Z :=
  if columns =? 0 then Some line_start
  else next_line_loop (S (Z.to_nat (ed_length state))) (ed_text state) (ed_length state) columns line_start 0.

Fixpoint line_length_loop (fuel : nat) (text : mem) (length columns index count : Z) : option Z :=
  match fuel with
  | O => None
  | S fuel' =>
      if (index <? length) && (count <? columns) then
        c ← rd text index;
        if c =? 10 then Some count else line_length_loop fuel' text length columns (u32 (index + 1)) (u32 (count + 1))
      else Some count
  end.
Definition text_editor_line_length (state : text_editor_state) (line_start columns : Z) : option Z :=
  line_length_loop (S (Z.to_nat (ed_length state))) (ed_text state) (ed_length state) columns line_start 0.

Definition text_editor_cursor_prev_line (state : text_editor_state) (columns : Z) : option Z :=
  line_start ← text_editor_find_line_start state (ed_cursor state) columns;
  if line_start =? 0 then Some (ed_cursor state)
  else
    prev_start ← text_editor_find_prev_line_start state line_start columns;
    prev_length ← text_editor_line_length state prev_start columns;
    let column := u32 (ed_cursor state - line_start) in
    Some (u32 (prev_start + (if prev_length <? column then prev_length else column))).

Definition text_editor_cursor_next_line (state : text_editor_state) (columns : Z) : option Z :=
  line_start ← text_editor_find_line_start state (ed_cursor state) columns;
  next_start ← text_editor_find_next_line_start state line_start columns;
  if (ed_length state <=? next_start) && (next_start =? line_start) then Some (ed_cursor state)
  else
    next_length ← text_editor_line_length state next_start columns;
    let column := u32 (ed_cursor state - line_start) in
    Some (u32 (next_start + (if next_length <? column then next_length else column))).

(** ** The application *)

(** What the editor asks of the desktop: to show an alert, to open a window
    for an application instance. *)
Class DesktopServices (D : Type) := {
  desktop_show_alert : mem -> mem -> D -> D * Z;
  desktop_open_app_instance_window : Z -> mem -> Z -> Z -> option Z -> D -> D * Z;
  desktop_launch_app_with_argument : mem -> option mem -> D -> D * Z
}.

Record editor_app (X D : Type) : Type := EditorApp {
  editor_states : list text_editor_state;
  ea_files : files X;
  ea_desktop : D
}.
Arguments EditorApp {X D}.
Arguments editor_states {X D}.
Arguments ea_files {X D}.
Arguments ea_desktop {X D}.

(** The part of an application instance that the editor uses. *)
Record app_instance : Type := AppInstance { instance_id : Z; argument : mem; instance_data : option Z }.

Section application.
Context {X D : Type} `{DiskDriver X} `{DesktopServices D} (local64 : mem).
Implicit Types (s : editor_app X D).

Definition set_editor_states (v : list text_editor_state) s : editor_app X D := EditorApp v (ea_files s) (ea_desktop s).
Definition set_ea_files (v : files X) s : editor_app X D := EditorApp (editor_states s) v (ea_desktop s).
Definition set_ea_desktop (v : D) s : editor_app X D := EditorApp (editor_states s) (ea_files s) v.

Abbreviation A := (M (editor_app X D)).

(** An operation on the state that a pointer leads to. *)
Definition on_state {B} (st : Z) (m : E B) : A B := fun s =>
  match rd (editor_states s) st with
  | None => Undef
  | Some e =>
      match m e with
      | Ret b e1 o => match wr (editor_states s) st e1 with Some l => Ret b (set_editor_states l s) o | None => Undef end
      | Panic msg e1 o => match wr (editor_states s) st e1 with Some l => Panic msg (set_editor_states l s) o | None => Undef end
      | Undef => Undef
      end
  end.
Definition ask_desktop {B} (f : D -> D * B) : A B := fun s => let (d, b) := f (ea_desktop s) in Ret b (set_ea_desktop d s) [].

Fixpoint alloc_state_loop (fuel : nat) (index : Z) : A (option Z) :=
  match fuel with
  | O => ret None
  | S fuel' =>
      states <- gets editor_states;;
      e <- deref (rd states index);;
      if ed_active e =? 0 then
        on_state index (modify (fun _ => zero_editor);; modify (set_ed_active 1);; text_editor_set_status (Some (cstr "ready")));;
        ret (Some index)
      else alloc_state_loop fuel' (index + 1)
  end.
Definition text_editor_alloc_state : A (option Z) := alloc_state_loop (Z.to_nat EDITOR_MAX_INSTANCES) 0.

(** What follows the call of [file_open]. *)
Definition load_opened (st : Z) (file : option Z) : A unit :=
  match file with
  | None =>
      on_state st (text_editor_set_status (Some (cstr "open failed")));;
      ask_desktop (desktop_show_alert (cstr "File Open Error") (cstr "Editor could not open file"));;
      ret tt
  | Some _ =>
      text <- on_state st (gets ed_text);;
      let! (read_size, text1) :=
        zoom ea_files set_ea_files (file_read local64 file (Some text) (EDITOR_TEXT_MAX - 1)) in
      text2 <- deref text1;;
      on_state st (modify (set_ed_text text2));;
      if read_size <? 0 then
        zoom ea_files set_ea_files (file_close file);;
        on_state st (text3 <- deref (wr text2 0 0);; modify (set_ed_text text3);; modify (set_ed_length 0);;
                     text_editor_set_status (Some (cstr "read failed")));;
        ask_desktop (desktop_show_alert (cstr "File Open Error") (cstr "Editor could not read file"));;
        ret tt
      else
        zoom ea_files set_ea_files (file_close file);;
        on_state st (modify (set_ed_length (u32 read_size));;
                     text3 <- deref (wr text2 (u32 read_size) 0);; modify (set_ed_text text3);;
                     modify (set_ed_cursor (u32 read_size));;
                     text_editor_set_status (Some (cstr "file loaded")))
  end.

Definition text_editor_load_file (state : option Z) (path : option mem) : A unit :=
  match state with
  | None => ret tt
  | Some st =>
      on_state st text_editor_reset;;
      empty <- match path with None => ret true | Some p => c <- deref (rd p 0);; ret (c =? 0) end;;
      match path, empty with
      | Some p, false =>
          on_state st (old <- gets ed_path;; copied <- deref (strlcpy old 0 p EDITOR_PATH_MAX);; modify (set_ed_path copied.1));;
          file <- zoom ea_files set_ea_files (file_open local64 (Some p));;
          load_opened st file
      | _, _ => on_state st (text_editor_set_status (Some (cstr "new file")))
      end
  end.

Definition text_editor_save_button_hit_test (window : option desktop_window) (x y : Z) : A bool :=
  match window with
  | None => ret false
  | Some _ =>
      content_x <- desktop_window_content_x window;;
      content_y <- desktop_window_content_y window;;
      let content_width := desktop_window_content_width window in
      right <- signed (content_x + i32 content_width);;
      button_x <- signed (right - 56);;
      button_y <- signed (content_y + 2);;
      if negb (u32 button_x <=? x) then ret false
      else
        x_end <- signed (button_x + 48);;
        if negb (x <? u32 x_end) || negb (u32 button_y <=? y) then ret false
        else y_end <- signed (button_y + 14);; ret (y <? u32 y_end)
  end.

(** The text columns of a window, for the event handler. *)
Definition event_columns (window : option desktop_window) : Z :=
  let content_width := desktop_window_content_width window in
  let columns := if EDITOR_MARGIN * 2 <? content_width then u32 (content_width - EDITOR_MARGIN * 2) / GFX_FONT_WIDTH else 1 in
  if columns =? 0 then 1 else columns.

(** The arrow keys of the handler; [None] is a key that it does not use. *)
Definition arrow_key (keycode columns : Z) : option (E unit) :=
  if keycode =? INPUT_KEY_LEFT then
    Some (cursor <- gets ed_cursor;; if 0 <? cursor then modify (set_ed_cursor (u32 (cursor - 1))) else ret tt)
  else if keycode =? INPUT_KEY_RIGHT then
    Some (cursor <- gets ed_cursor;; length <- gets ed_length;;
          if cursor <? length then modify (set_ed_cursor (u32 (cursor + 1))) else ret tt)
  else if keycode =? INPUT_KEY_UP then
    Some (cursor <- gets (fun e => text_editor_cursor_prev_line e columns);; c <- deref cursor;; modify (set_ed_cursor c))
  else if keycode =? INPUT_KEY_DOWN then
    Some (cursor <- gets (fun e => text_editor_cursor_next_line e columns);; c <- deref cursor;; modify (set_ed_cursor c))
  else None.

(** A character event. *)
Definition type_char (c : Z) : E unit :=
  if (c =? 8) || (c =? 0x7f) then text_editor_backspace
  else if (c =? 10) || (c =? 13) then text_editor_insert_char 10;; ret tt
  else if (c <? 32) || (126 <? c) then ret tt
  else text_editor_insert_char c;; ret tt.

Definition text_editor_app_event (window : option desktop_window) (event : option desktop_event) : A unit :=
  match event, window with
  | Some ev, Some w =>
      match user_data w with
      | None => ret tt
      | Some st =>
          if ev_type ev =? DESKTOP_EVENT_WINDOW_CLOSE then ret tt
          else
            let columns := event_columns window in
            if ev_type ev =? DESKTOP_EVENT_BUTTON_DOWN then
              hit <- text_editor_save_button_hit_test window (ev_cursor_x ev) (ev_cursor_y ev);;
              if (hit : bool) then
                on_state st (text_editor_set_status (Some (cstr "save not supported yet")));;
                ask_desktop (desktop_show_alert (cstr "Save Unsupported") (cstr "Saving files not supported yet"));;
                ret tt
              else ret tt
            else
              moved <- (if (ev_type ev =? DESKTOP_EVENT_KEY) && desktop_input_is_key_pressed (ev_input ev)
                        then keycode <- deref (event_keycode (data (ev_input ev)));; ret (arrow_key keycode columns)
                        else ret None);;
              match moved with
              | Some m => on_state st m
              | None => if negb (ev_type ev =? DESKTOP_EVENT_CHAR) then ret tt else on_state st (type_char (character ev))
              end
      end
  | _, _ => ret tt
  end.

Definition text_editor_app_start (instance : option app_instance) : A (Z * option app_instance) :=
  match instance with
  | None => ret (-1, None)
  | Some i =>
      state <- text_editor_alloc_state;;
      match state with
      | None => ret (-1, instance)
      | Some _ =>
          text_editor_load_file state (Some (argument i));;
          status <- ask_desktop (desktop_open_app_instance_window (instance_id i) (cstr "Editor") EDITOR_WINDOW_WIDTH EDITOR_WINDOW_HEIGHT state);;
          ret (status, Some (AppInstance (instance_id i) (argument i) state))
      end
  end.

Definition text_editor_app_close (instance : option app_instance) : A unit :=
  match instance with
  | None => ret tt
  | Some i => match instance_data i with None => ret tt | Some st => on_state st (modify (fun _ => zero_editor)) end
  end.

Definition text_editor_app_launch_path (path : option mem) : A Z := ask_desktop (desktop_launch_app_with_argument (cstr "editor") path).

End application.

(** ** The buffer as a zipper *)

(** The state holds the text [before] the cursor and the text [after] it, with
    a terminator behind them. *)
Record holds (e : text_editor_state) (before after : list Z) : Prop := {
  ho_text : exists junk, ed_text e = before ++ after ++ 0 :: junk;
  ho_size : lenZ (ed_text e) = EDITOR_TEXT_MAX;
  ho_length : ed_length e = lenZ before + lenZ after;
  ho_cursor : ed_cursor e = lenZ before;
  ho_status : lenZ (ed_status e) = EDITOR_STATUS_MAX;
  ho_path : lenZ (ed_path e) = EDITOR_PATH_MAX
}.

Lemma holds_bound e b a : holds e b a -> lenZ b + lenZ a < 4096 /\ 0 <= lenZ b /\ 0 <= lenZ a.
Proof.
  intros [(junk & Ht) Hs _ _ _ _]. rewrite Ht, !lenZ_app, lenZ_cons in Hs. pose proof (lenZ_nonneg junk).
  pose proof (lenZ_nonneg a). pose proof (lenZ_nonneg b). unfold EDITOR_TEXT_MAX in Hs. lia.
Qed.

Lemma shift_up_run a : forall b x r, lenZ b + lenZ a < 2 ^ 31 ->
  exists y, shift_up (Z.to_nat (lenZ a)) (b ++ a ++ x :: r) (lenZ b + lenZ a) (lenZ b) = Some (b ++ y :: a ++ r).
Proof.
  induction a as [|z a IH] using rev_ind; intros b x r Hb.
  { exists x. cbn [lenZ length Z.of_nat Z.to_nat shift_up app]. done. }
  rewrite lenZ_app in *. change (lenZ [z]) with 1 in *. pose proof (lenZ_nonneg a). pose proof (lenZ_nonneg b).
  replace (Z.to_nat (lenZ a + 1)) with (S (Z.to_nat (lenZ a))) by lia. cbn [shift_up].
  rewrite (proj2 (Z.ltb_lt _ _)), u32_small by lia.
  replace (lenZ b + (lenZ a + 1) - 1) with (lenZ b + lenZ a) by lia.
  assert (Hrd : rd (b ++ (a ++ [z]) ++ x :: r) (lenZ b + lenZ a) = Some z).
  { rewrite <- lenZ_app, <- (app_assoc a), (app_assoc b). apply rd_at. }
  rewrite Hrd. cbn [mbind option_bind].
  assert (Hwr : wr (b ++ (a ++ [z]) ++ x :: r) (lenZ b + (lenZ a + 1)) z = Some (b ++ a ++ z :: z :: r)).
  { replace (lenZ b + (lenZ a + 1)) with (lenZ (b ++ a ++ [z])) by (rewrite !lenZ_app; done).
    rewrite app_assoc, wr_app. by rewrite <- !app_assoc. }
  rewrite Hwr. cbn [mbind option_bind]. destruct (IH b z (z :: r) ltac:(lia)) as (y & Hy). exists y. rewrite Hy. by rewrite <- app_assoc.
Qed.

Lemma shift_down_run a : forall b x r, lenZ b + lenZ a < 2 ^ 31 ->
  exists y, shift_down (Z.to_nat (lenZ a)) (b ++ x :: a ++ r) (lenZ b) (lenZ b + lenZ a) = Some (b ++ a ++ y :: r).
Proof.
  induction a as [|z a IH]; intros b x r Hb; [by exists x|]. rewrite lenZ_cons in *. pose proof (lenZ_nonneg a). pose proof (lenZ_nonneg b).
  replace (Z.to_nat (lenZ a + 1)) with (S (Z.to_nat (lenZ a))) by lia. cbn [shift_down].
  rewrite (proj2 (Z.ltb_lt _ _)), u32_small by lia.
  assert (Hrd : rd (b ++ x :: (z :: a) ++ r) (lenZ b + 1) = Some z).
  { replace (lenZ b + 1) with (lenZ (b ++ [x])) by (rewrite lenZ_app; done). change (b ++ x :: (z :: a) ++ r) with (b ++ [x] ++ z :: a ++ r).
    rewrite app_assoc. apply rd_at. }
  rewrite Hrd. cbn [mbind option_bind]. rewrite wr_app. cbn [mbind option_bind].
  destruct (IH (b ++ [z]) z r) as (y & Hy); [rewrite lenZ_app; change (lenZ [z]) with 1; lia|]. exists y.
  rewrite lenZ_app in Hy. change (lenZ [z]) with 1 in Hy. rewrite <- !app_assoc in Hy. cbn [app] in Hy.
  replace (lenZ b + (lenZ a + 1)) with (lenZ b + 1 + lenZ a) by lia. exact Hy.
Qed.

(** *** Edits *)

Definition zinsert (c : Z) (z : list Z * list Z) : list Z * list Z :=
  if lenZ z.1 + lenZ z.2 + 1 <? EDITOR_TEXT_MAX then (z.1 ++ [c], z.2) else z.
(** A state that differs in text, length and cursor only, and in the status if
    there is a message. *)
Record edited (message : option (list Z)) (e e' : text_editor_state) : Prop := {
  ed_same_active : ed_active e' = ed_active e;
  ed_same_path : ed_path e' = ed_path e;
  ed_new_status : match message with Some t => cval (ed_status e') = Some t | None => ed_status e' = ed_status e end
}.
Lemma edited_refl e : edited None e e.
Proof. done. Qed.

Definition zbackspace (z : list Z * list Z) : list Z * list Z := (removelast z.1, z.2).
Definition zleft (z : list Z * list Z) : list Z * list Z :=
  match last z.1 with Some c => (removelast z.1, c :: z.2) | None => z end.
Definition zright (z : list Z * list Z) : list Z * list Z :=
  match z.2 with c :: a => (z.1 ++ [c], a) | [] => z end.

Lemma set_status_run e b a m t :
  holds e b a -> cval m = Some t ->
  exists e', text_editor_set_status (Some m) e = Ret tt e' [] /\ holds e' b a /\ ed_active e' = ed_active e /\ ed_path e' = ed_path e /\
    cval (ed_status e') = Some (take 63 t).
Proof.
  intros [Ht Hs Hl Hc Hst Hp] Hm. unfold text_editor_set_status. krun. destruct (cval_inv m t Hm) as (Hn & r & ->).
  assert (Hcopy : strlcpy (ed_status e) 0 (t ++ 0 :: r) EDITOR_STATUS_MAX =
            Some (splice (ed_status e) 0 (take 63 t ++ [0]), lenZ t)).
  { apply strlcpy_spec; [done|lia|done|]. rewrite Hst. done. }
  rewrite (bind_deref_Some _ _ _ _ Hcopy). cbn [fst]. eexists. split; [done|].
  assert (Hlen : (length (take 63 t) <= 63)%nat) by (rewrite length_take; lia).
  assert (Hst' : length (ed_status e) = 64%nat) by (unfold lenZ, EDITOR_STATUS_MAX in Hst; lia).
  split; [split; try done|].
  - cbn. unfold lenZ. rewrite length_splice by (rewrite length_app; simpl; lia). rewrite Hst'. done.
  - do 2 (split; [done|]). cbn. unfold splice. rewrite take_0. cbn [app]. rewrite <- app_assoc. apply cval_app. by apply no_nul_take.
Qed.

(** The message of an insertion into a full buffer. *)
Definition full_message (z : list Z * list Z) : option (list Z) :=
  if lenZ z.1 + lenZ z.2 + 1 <? EDITOR_TEXT_MAX then None else Some (lit "buffer full").

Lemma insert_char_run e b a c :
  holds e b a ->
  exists r e', text_editor_insert_char c e = Ret r e' [] /\ holds e' (zinsert c (b, a)).1 (zinsert c (b, a)).2 /\ edited (full_message (b, a)) e e'.
Proof.
  intros Hh. destruct (holds_bound e b a Hh) as (Hb & Hb0 & Ha0). pose proof Hh as [(junk & Ht) Hs Hl Hc Hst Hp].
  unfold text_editor_insert_char, zinsert, full_message, EDITOR_TEXT_MAX. krun. rewrite Hl, u32_small by lia. cbn [fst snd].
  destruct (Z.leb_spec 4096 (lenZ b + lenZ a + 1)) as [Hfull|Hroom].
  { rewrite (proj2 (Z.ltb_ge _ _)) by lia.
    destruct (set_status_run e b a (cstr "buffer full") (lit "buffer full") Hh eq_refl) as (e' & Hr & Hh' & Hact & Hpath & Hstatus).
    exists (-1), e'. rewrite (bind_Ret_nil _ _ _ _ _ Hr). split; [done|]. split; [done|]. by split. }
  rewrite (proj2 (Z.ltb_lt _ _)) by lia. cbn [fst snd].
  assert (Hjunk : exists j junk', junk = j :: junk').
  { destruct junk as [|j junk']; [|by exists j, junk']. rewrite Ht, !lenZ_app in Hs. unfold EDITOR_TEXT_MAX, lenZ in *. cbn in Hs. lia. }
  destruct Hjunk as (j & junk' & ->).
  destruct (shift_up_run a b 0 (j :: junk') ltac:(lia)) as (y & Hshift). krun. rewrite Hc, Ht.
  replace (lenZ b + lenZ a - lenZ b) with (lenZ a) by lia.
  rewrite (bind_deref_Some _ _ _ _ Hshift), (bind_deref_Some _ _ _ _ (wr_app b (a ++ j :: junk') y c)).
  assert (Hend : wr (b ++ c :: a ++ j :: junk') (lenZ b + lenZ a + 1) 0 = Some ((b ++ [c]) ++ a ++ 0 :: junk')).
  { change (b ++ c :: a ++ j :: junk') with (b ++ [c] ++ a ++ j :: junk'). rewrite (app_assoc b), (app_assoc (b ++ [c])).
    replace (lenZ b + lenZ a + 1) with (lenZ ((b ++ [c]) ++ a)) by (rewrite !lenZ_app; change (lenZ [c]) with 1; lia).
    rewrite wr_app. by rewrite <- !app_assoc. }
  rewrite (bind_deref_Some _ _ _ _ Hend). rewrite u32_small by lia. krun. eexists _, _. split; [reflexivity|]. split; [|done].
  split; try done; cbn; [by exists junk'| | |]; rewrite !lenZ_app, ?lenZ_cons; change (lenZ (@nil Z)) with 0;
    [rewrite Ht, !lenZ_app, !lenZ_cons in Hs; unfold EDITOR_TEXT_MAX in *; lia|lia|lia].
Qed.

Lemma backspace_run e b a :
  holds e b a ->
  exists e', text_editor_backspace e = Ret tt e' [] /\ holds e' (zbackspace (b, a)).1 (zbackspace (b, a)).2 /\ edited None e e'.
Proof.
  intros Hh. destruct (holds_bound e b a Hh) as (Hb & Hb0 & Ha0). pose proof Hh as [(junk & Ht) Hs Hl Hc Hst Hp].
  unfold text_editor_backspace, zbackspace. krun. rewrite Hl, Hc. cbn [fst snd].
  destruct b as [|x b _] using rev_ind; [by exists e|]. rewrite removelast_last. rewrite lenZ_app in *. change (lenZ [x]) with 1 in *.
  pose proof (lenZ_nonneg b). rewrite (proj2 (Z.eqb_neq _ 0)), (proj2 (Z.eqb_neq (lenZ b + 1 + lenZ a) 0)), !u32_small by lia. cbn [orb].
  destruct (shift_down_run a b x (0 :: junk) ltac:(lia)) as (y & Hshift).
  assert (Hdown : shift_down (Z.to_nat (lenZ b + 1 + lenZ a - (lenZ b + 1))) (ed_text e) (lenZ b + 1 - 1) (lenZ b + 1 + lenZ a - 1) = Some (b ++ a ++ y :: 0 :: junk)).
  { rewrite <- Hshift, Ht. rewrite <- app_assoc. cbn [app]. f_equal; [f_equal; lia|lia|lia]. }
  krun. rewrite (bind_deref_Some _ _ _ _ Hdown).
  assert (Hend : wr (b ++ a ++ y :: 0 :: junk) (lenZ b + 1 + lenZ a - 1) 0 = Some (b ++ a ++ 0 :: 0 :: junk)).
  { rewrite app_assoc. replace (lenZ b + 1 + lenZ a - 1) with (lenZ (b ++ a)) by (rewrite lenZ_app; lia). rewrite wr_app. by rewrite <- app_assoc. }
  rewrite (bind_deref_Some _ _ _ _ Hend). krun. eexists. split; [reflexivity|]. split; [|done].
  split; try done; cbn; [by exists (0 :: junk)| |lia|lia].
  rewrite Ht, !lenZ_app, !lenZ_cons in Hs. change (lenZ (@nil Z)) with 0 in Hs. rewrite !lenZ_app, !lenZ_cons. unfold EDITOR_TEXT_MAX in *. lia.
Qed.

(** Moving the cursor to another place of the same text. *)
Lemma move_cursor e b a k :
  holds e b a -> 0 <= k <= lenZ b + lenZ a ->
  holds (set_ed_cursor k e) (take (Z.to_nat k) (b ++ a)) (drop (Z.to_nat k) (b ++ a)).
Proof.
  intros [(junk & Ht) Hs Hl Hc Hst Hp] Hk. unfold lenZ in Hk.
  assert (Hlen : lenZ (take (Z.to_nat k) (b ++ a)) = k) by (unfold lenZ; rewrite length_take, length_app; lia).
  assert (Hdl : lenZ (drop (Z.to_nat k) (b ++ a)) = lenZ b + lenZ a - k) by (unfold lenZ; rewrite length_drop, length_app; lia).
  split; try done; cbn; [|lia..]. exists junk. by rewrite app_assoc, take_drop, <- app_assoc.
Qed.

(** ** Line scans stay in the text *)

Lemma line_start_loop_ok fuel text index columns scan count start :
  0 <= start <= scan -> scan <= index -> index <= lenZ text -> index < 2 ^ 31 -> 0 <= count <= scan -> index - scan < Z.of_nat fuel ->
  exists r, line_start_loop fuel text index columns scan count start = Some r /\ 0 <= r <= index.
Proof.
  intros Hst Hsc Hi H31 Hcnt. revert scan count start Hst Hsc Hcnt. induction fuel as [|fuel IH]; intros scan count start Hst Hsc Hcnt Hf; [lia|].
  cbn [line_start_loop]. destruct (Z.ltb_spec scan index); [|exists start; split; [done|lia]].
  destruct (rd_Some text scan) as [c Hc]; [lia|]. rewrite Hc. cbn [mbind option_bind]. rewrite !u32_small by lia.
  destruct (c =? 10); [apply IH; lia|]. apply IH; [destruct (count =? 0); lia|lia|destruct (columns <=? count + 1); lia|lia].
Qed.

Lemma find_line_start_ok e b a index columns :
  holds e b a -> 0 <= index -> exists r, text_editor_find_line_start e index columns = Some r /\ 0 <= r <= index.
Proof.
  intros Hh Hi. destruct (holds_bound e b a Hh) as (Hb & Hb0 & Ha0). pose proof Hh as [_ Hs Hl _ _ _].
  unfold text_editor_find_line_start. destruct (columns =? 0); [exists 0; split; [done|lia]|]. unfold EDITOR_TEXT_MAX in Hs.
  set (i1 := if ed_length e <? index then ed_length e else index). assert (Hi1 : 0 <= i1 <= index /\ i1 <= 4095) by (unfold i1; case_match; lia).
  destruct (line_start_loop_ok (S (Z.to_nat i1)) (ed_text e) i1 columns 0 0 0) as (r & Hr & Hb'); [lia|lia|lia|lia|lia|lia|].
  exists r. split; [done|lia].
Qed.

Lemma next_line_loop_ok fuel text length columns index count :
  0 <= index <= length -> length <= lenZ text -> length < 2 ^ 31 -> 0 <= count <= index -> length - index < Z.of_nat fuel ->
  exists r, next_line_loop fuel text length columns index count = Some r /\ index <= r <= length /\ (index < length -> index < r).
Proof.
  intros Hi Hl H31. revert index count Hi. induction fuel as [|fuel IH]; intros index count Hi Hc Hf; [lia|].
  cbn [next_line_loop]. destruct (Z.ltb_spec index length); [|exists length; split; [done|lia]].
  destruct (rd_Some text index) as [c Hr]; [lia|]. rewrite Hr. cbn [mbind option_bind]. rewrite !u32_small by lia.
  destruct (c =? 10); [exists (index + 1); split; [done|lia]|]. destruct (columns <=? count + 1); [exists (index + 1); split; [done|lia]|].
  destruct (IH (index + 1) (count + 1)) as (r & -> & Hb & _); [lia|lia|lia|]. exists r. split; [done|lia].
Qed.

Lemma find_next_ok e b a p columns :
  holds e b a -> 0 <= p <= ed_length e -> exists r, text_editor_find_next_line_start e p columns = Some r /\ p <= r <= ed_length e.
Proof.
  intros Hh Hp. destruct (holds_bound e b a Hh) as (Hb & Hb0 & Ha0). pose proof Hh as [_ Hs Hl _ _ _]. unfold EDITOR_TEXT_MAX in Hs.
  unfold text_editor_find_next_line_start. destruct (columns =? 0); [exists p; split; [done|lia]|].
  destruct (next_line_loop_ok (S (Z.to_nat (ed_length e))) (ed_text e) (ed_length e) columns p 0) as (r & Hr & Hb' & _); [lia|lia|lia|lia|lia|].
  by exists r.
Qed.


(** ** Rows of the text

    What the line scans find: a row is at most [n] characters of a line. The
    cursor is in the row that ends before it, which may be full. *)

(** The row a text ends with. *)
Definition row_add (n : Z) (row : list Z) (c : Z) : list Z := if c =? 10 then [] else if lenZ row =? n then [c] else row ++ [c].
Definition row (n : Z) (before : list Z) : list Z := fold_left (row_add n) before [].
(** The row a text starts with, and how far it is to the next one. *)
Fixpoint first_row (n : nat) (text : list Z) : list Z :=
  match n, text with
  | S n', c :: text' => if c =? 10 then [] else c :: first_row n' text'
  | _, _ => []
  end.
Definition next_row (n : Z) (text : list Z) : Z :=
  let length := lenZ (first_row (Z.to_nat n) text) in
  if (length =? n) || (lenZ text =? length) then length else length + 1.

Lemma row_snoc n before c : row n (before ++ [c]) = row_add n (row n before) c.
Proof. unfold row. by rewrite fold_left_app. Qed.

Lemma row_bound n before : 0 < n -> 0 <= lenZ (row n before) <= n /\ lenZ (row n before) <= lenZ before.
Proof.
  intros Hn. induction before as [|c before IH] using rev_ind; [change (lenZ (row n [])) with 0; change (lenZ (@nil Z)) with 0; lia|]. rewrite row_snoc, lenZ_app. unfold row_add. change (lenZ [c]) with 1.
  destruct (c =? 10); [change (lenZ (@nil Z)) with 0; lia|]. destruct (Z.eqb_spec (lenZ (row n before)) n); [change (lenZ [c]) with 1; lia|].
  rewrite lenZ_app. change (lenZ [c]) with 1. lia.
Qed.

Lemma first_row_bound n text : 0 <= lenZ (first_row n text) <= Z.of_nat n /\ lenZ (first_row n text) <= lenZ text.
Proof.
  revert text. induction n as [|n IH]; intros text; [cbn [first_row]; change (lenZ (@nil Z)) with 0; pose proof (lenZ_nonneg text); lia|].
  destruct text as [|c text]; cbn [first_row]; [change (lenZ (@nil Z)) with 0; lia|]. pose proof (lenZ_nonneg text). rewrite lenZ_cons.
  destruct (c =? 10); [change (lenZ (@nil Z)) with 0; lia|]. rewrite lenZ_cons. destruct (IH text). lia.
Qed.

(** Up and down: to the same column of the row above and below, or its end. *)
Definition row_start (n : Z) (before : list Z) : Z := lenZ before - lenZ (row n before).
Definition zup_index (n : Z) (z : list Z * list Z) : Z :=
  let start := row_start n z.1 in
  if start =? 0 then lenZ z.1
  else
    let above := row_start n (take (Z.to_nat (start - 1)) z.1) in
    above + Z.min (lenZ (first_row (Z.to_nat n) (drop (Z.to_nat above) (z.1 ++ z.2)))) (lenZ (row n z.1)).
Definition zdown_index (n : Z) (z : list Z * list Z) : Z :=
  let text := z.1 ++ z.2 in
  let start := row_start n z.1 in
  let below := start + next_row n (drop (Z.to_nat start) text) in
  if (lenZ text <=? below) && (below =? start) then lenZ z.1
  else below + Z.min (lenZ (first_row (Z.to_nat n) (drop (Z.to_nat below) text))) (lenZ (row n z.1)).
Definition zmove (k : Z) (z : list Z * list Z) : list Z * list Z := (take (Z.to_nat k) (z.1 ++ z.2), drop (Z.to_nat k) (z.1 ++ z.2)).
Definition zup (n : Z) (z : list Z * list Z) : list Z * list Z := zmove (zup_index n z) z.
Definition zdown (n : Z) (z : list Z * list Z) : list Z * list Z := zmove (zdown_index n z) z.

Lemma line_start_loop_row n t : forall p rest fuel, 0 < n -> lenZ p + lenZ t < 2 ^ 31 -> lenZ t < Z.of_nat fuel ->
  line_start_loop fuel (p ++ t ++ rest) (lenZ p + lenZ t) n (lenZ p) (if lenZ (row n p) =? n then 0 else lenZ (row n p)) (row_start n p) =
  Some (row_start n (p ++ t)).
Proof.
  induction t as [|c t IH]; intros p rest [|fuel] Hn Hb Hf; [by change (lenZ (@nil Z)) with 0 in Hf| |by rewrite lenZ_cons in Hf; pose proof (lenZ_nonneg t); lia|]; cbn [line_start_loop].
  { change (lenZ (@nil Z)) with 0. rewrite (proj2 (Z.ltb_ge _ _)) by lia. by rewrite app_nil_r. }
  rewrite lenZ_cons in *. pose proof (lenZ_nonneg t). pose proof (lenZ_nonneg p). rewrite (proj2 (Z.ltb_lt _ _)) by lia.
  cbn [app]. rewrite rd_at. cbn [mbind option_bind]. rewrite !(u32_small (lenZ p + 1)) by lia.
  destruct (row_bound n p Hn) as [Hrb Hrp].
  specialize (IH (p ++ [c]) rest fuel Hn). rewrite <- !app_assoc in IH. cbn [app] in IH. rewrite lenZ_app in IH. change (lenZ [c]) with 1 in IH.
  replace (lenZ p + 1 + lenZ t) with (lenZ p + (lenZ t + 1)) in IH by lia. rewrite <- IH by lia.
  unfold row_start. rewrite row_snoc, lenZ_app. change (lenZ [c]) with 1. unfold row_add.
  destruct (Z.eqb_spec c 10); [change (lenZ (@nil Z)) with 0; rewrite (proj2 (Z.eqb_neq 0 n)) by lia; f_equal; lia|].
  destruct (Z.eqb_spec (lenZ (row n p)) n) as [Hfull|Hroom].
  - change (0 =? 0) with true. cbn iota. change (lenZ [c]) with 1. rewrite (u32_small (0 + 1)) by lia.
    destruct (Z.leb_spec n (0 + 1)); [rewrite (proj2 (Z.eqb_eq 1 n)) by lia|rewrite (proj2 (Z.eqb_neq 1 n)) by lia]; f_equal; lia.
  - rewrite lenZ_app. change (lenZ [c]) with 1. rewrite u32_small by lia.
    replace (if lenZ (row n p) =? 0 then lenZ p else lenZ p - lenZ (row n p)) with (lenZ p + 1 - (lenZ (row n p) + 1)) by (destruct (Z.eqb_spec (lenZ (row n p)) 0); lia).
    destruct (Z.leb_spec n (lenZ (row n p) + 1)); [rewrite (proj2 (Z.eqb_eq _ n)) by lia|rewrite (proj2 (Z.eqb_neq _ n)) by lia]; done.
Qed.

Lemma next_line_loop_row n t : forall p rest fuel count, 0 <= count < n -> count <= lenZ p -> lenZ p + lenZ t < 2 ^ 31 -> lenZ t < Z.of_nat fuel ->
  next_line_loop fuel (p ++ t ++ rest) (lenZ p + lenZ t) n (lenZ p) count = Some (lenZ p + next_row (n - count) t).
Proof.
  induction t as [|c t IH]; intros p rest [|fuel] count Hc Hcp Hb Hf; [by change (lenZ (@nil Z)) with 0 in Hf| |by rewrite lenZ_cons in Hf; pose proof (lenZ_nonneg t); lia|]; cbn [next_line_loop].
  { change (lenZ (@nil Z)) with 0. rewrite (proj2 (Z.ltb_ge _ _)) by lia. unfold next_row. destruct (Z.to_nat (n - count)); change (lenZ (first_row _ [])) with 0; change (lenZ (@nil Z)) with 0; by rewrite Z.eqb_refl, orb_true_r. }
  rewrite lenZ_cons in *. pose proof (lenZ_nonneg t). pose proof (lenZ_nonneg p). rewrite (proj2 (Z.ltb_lt _ _)) by lia.
  cbn [app]. rewrite rd_at. cbn [mbind option_bind]. rewrite (u32_small (lenZ p + 1)), (u32_small (count + 1)) by lia.
  assert (Hsn : Z.to_nat (n - count) = S (Z.to_nat (n - (count + 1)))) by lia. unfold next_row. rewrite Hsn. cbn [first_row].
  destruct (Z.eqb_spec c 10) as [->|Hc10].
  { change (lenZ (@nil Z)) with 0. rewrite lenZ_cons, (proj2 (Z.eqb_neq 0 _)), (proj2 (Z.eqb_neq _ 0)) by lia. done. }
  rewrite !lenZ_cons. destruct (Z.leb_spec n (count + 1)) as [Hend|Hmore].
  { replace (Z.to_nat (n - (count + 1))) with 0%nat by lia. cbn [first_row]. change (lenZ (@nil Z)) with 0. rewrite (proj2 (Z.eqb_eq (0 + 1) _)) by lia. done. }
  specialize (IH (p ++ [c]) rest fuel (count + 1)). rewrite <- !app_assoc in IH. cbn [app] in IH. rewrite lenZ_app in IH. change (lenZ [c]) with 1 in IH.
  replace (lenZ p + 1 + lenZ t) with (lenZ p + (lenZ t + 1)) in IH by lia. rewrite IH by lia. unfold next_row.
  set (l := lenZ (first_row _ t)). f_equal.
  destruct (Z.eqb_spec l (n - (count + 1))), (Z.eqb_spec (l + 1) (n - count)), (Z.eqb_spec (lenZ t) l), (Z.eqb_spec (lenZ t + 1) (l + 1)); cbn [orb]; lia.
Qed.

Lemma line_length_loop_row n t : forall p rest fuel count, 0 <= count <= n -> count <= lenZ p -> lenZ p + lenZ t < 2 ^ 31 -> lenZ t < Z.of_nat fuel ->
  line_length_loop fuel (p ++ t ++ rest) (lenZ p + lenZ t) n (lenZ p) count = Some (count + lenZ (first_row (Z.to_nat (n - count)) t)).
Proof.
  induction t as [|c t IH]; intros p rest [|fuel] count Hc Hcp Hb Hf; [by change (lenZ (@nil Z)) with 0 in Hf| |by rewrite lenZ_cons in Hf; pose proof (lenZ_nonneg t); lia|]; cbn [line_length_loop].
  { change (lenZ (@nil Z)) with 0. rewrite (proj2 (Z.ltb_ge _ _)) by lia. cbn [andb]. destruct (Z.to_nat (n - count)); change (lenZ (first_row _ [])) with 0; f_equal; lia. }
  rewrite lenZ_cons in *. pose proof (lenZ_nonneg t). pose proof (lenZ_nonneg p). rewrite (proj2 (Z.ltb_lt (lenZ p) _)) by lia. cbn [andb].
  destruct (Z.ltb_spec count n) as [Hm|Hm].
  2:{ replace (Z.to_nat (n - count)) with 0%nat by lia. cbn [first_row]. change (lenZ (@nil Z)) with 0. f_equal. lia. }
  cbn [app]. rewrite rd_at. cbn [mbind option_bind]. rewrite (u32_small (lenZ p + 1)), (u32_small (count + 1)) by lia.
  assert (Hsn : Z.to_nat (n - count) = S (Z.to_nat (n - (count + 1)))) by lia. rewrite Hsn. cbn [first_row].
  destruct (c =? 10); [change (lenZ (@nil Z)) with 0; f_equal; lia|]. rewrite lenZ_cons.
  specialize (IH (p ++ [c]) rest fuel (count + 1)). rewrite <- !app_assoc in IH. cbn [app] in IH. rewrite lenZ_app in IH. change (lenZ [c]) with 1 in IH.
  replace (lenZ p + 1 + lenZ t) with (lenZ p + (lenZ t + 1)) in IH by lia. rewrite IH by lia. f_equal. lia.
Qed.

(** ** Events *)

(** What typing a character does, and what the status then says if it is new. *)
Definition zchar (c : Z) (z : list Z * list Z) : list Z * list Z :=
  if (c =? 8) || (c =? 127) then zbackspace z
  else if (c =? 10) || (c =? 13) then zinsert 10 z
  else if (c <? 32) || (126 <? c) then z
  else zinsert c z.
Definition char_message (c : Z) (z : list Z * list Z) : option (list Z) :=
  if (c =? 8) || (c =? 127) then None
  else if (c =? 10) || (c =? 13) then full_message z
  else if (c <? 32) || (126 <? c) then None
  else full_message z.

(** What a pressed key does in a window of [n] columns. *)
Definition zkey (n k : Z) (z : list Z * list Z) : list Z * list Z :=
  if k =? INPUT_KEY_LEFT then zleft z
  else if k =? INPUT_KEY_RIGHT then zright z
  else if k =? INPUT_KEY_UP then zup n z
  else if k =? INPUT_KEY_DOWN then zdown n z
  else z.

(** The Save button, at the right end of the header of the window. *)
Definition save_button_hit (w : desktop_window) (x y : Z) : bool :=
  let left := win_x w + DESKTOP_WINDOW_PADDING + desktop_window_content_width (Some w) - 56 in
  let top := win_y w + DESKTOP_WINDOW_TITLE_HEIGHT + DESKTOP_WINDOW_PADDING + 2 in
  (u32 left <=? x) && (x <? u32 (left + 48)) && (u32 top <=? y) && (y <? u32 (top + 14)).
Definition saves (w : desktop_window) (ev : desktop_event) : bool :=
  (ev_type ev =? DESKTOP_EVENT_BUTTON_DOWN) && save_button_hit w (ev_cursor_x ev) (ev_cursor_y ev).

(** What an event does to text and cursor, to the status and to the desktop. *)
Definition event_effect (w : desktop_window) (ev : desktop_event) (z : list Z * list Z) : list Z * list Z :=
  if ev_type ev =? DESKTOP_EVENT_CHAR then zchar (character ev) z
  else if (ev_type ev =? DESKTOP_EVENT_KEY) && desktop_input_is_key_pressed (ev_input ev)
  then match data (ev_input ev) with Keycode k => zkey (event_columns (Some w)) k z | Character _ => z end
  else z.
Definition event_message (w : desktop_window) (ev : desktop_event) (z : list Z * list Z) : option (list Z) :=
  if ev_type ev =? DESKTOP_EVENT_CHAR then char_message (character ev) z
  else if saves w ev then Some (lit "save not supported yet") else None.
Definition event_desktop {D} `{DesktopServices D} (w : desktop_window) (ev : desktop_event) (d : D) : D :=
  if saves w ev then (desktop_show_alert (cstr "Save Unsupported") (cstr "Saving files not supported yet") d).1 else d.

Definition desktop_event_ok (ev : desktop_event) : Prop :=
  ev_type ev = DESKTOP_EVENT_KEY -> exists k, data (ev_input ev) = Keycode k.

Lemma type_char_run e b a c :
  holds e b a -> exists e', type_char c e = Ret tt e' [] /\ holds e' (zchar c (b, a)).1 (zchar c (b, a)).2 /\ edited (char_message c (b, a)) e e'.
Proof.
  intros Hh. unfold type_char, zchar, char_message. destruct ((c =? 8) || (c =? 127)); [by apply backspace_run|].
  destruct ((c =? 10) || (c =? 13)); [|destruct ((c <? 32) || (126 <? c)); [by exists e|]].
  - destruct (insert_char_run e b a 10 Hh) as (r & e' & Hr & Hh'). exists e'. by rewrite (bind_Ret_nil _ _ _ _ _ Hr).
  - destruct (insert_char_run e b a c Hh) as (r & e' & Hr & Hh'). exists e'. by rewrite (bind_Ret_nil _ _ _ _ _ Hr).
Qed.

Lemma zleft_cursor b a : b <> [] -> zleft (b, a) = (take (length b - 1) (b ++ a), drop (length b - 1) (b ++ a)).
Proof.
  intros Hne. destruct b as [|x b _] using rev_ind; [done|]. unfold zleft. cbn [fst snd]. rewrite last_snoc, removelast_last.
  rewrite length_app. simpl. replace (length b + 1 - 1)%nat with (length b) by lia. rewrite <- app_assoc. cbn [app].
  by rewrite take_app_length, drop_app_length.
Qed.

Lemma zright_cursor b a : a <> [] -> zright (b, a) = (take (length b + 1) (b ++ a), drop (length b + 1) (b ++ a)).
Proof.
  intros Hne. destruct a as [|x a]; [done|]. unfold zright. cbn [fst snd]. change (b ++ x :: a) with (b ++ [x] ++ a). rewrite (app_assoc b).
  replace (length b + 1)%nat with (length (b ++ [x])) by (rewrite length_app; simpl; lia). by rewrite take_app_length, drop_app_length.
Qed.

(** The line scans of the code find the rows. *)
Lemma find_line_start_row e b a n index :
  holds e b a -> 0 < n -> 0 <= index <= lenZ b + lenZ a ->
  text_editor_find_line_start e index n = Some (row_start n (take (Z.to_nat index) (b ++ a))).
Proof.
  intros Hh Hn Hi. destruct (holds_bound e b a Hh) as (Hb & Hb0 & Ha0). pose proof Hh as [(junk & Ht) _ Hl _ _ _].
  unfold text_editor_find_line_start. rewrite (proj2 (Z.eqb_neq n 0)) by lia. rewrite (proj2 (Z.ltb_ge _ index)) by lia.
  set (t := take (Z.to_nat index) (b ++ a)).
  assert (Htl : lenZ t = index) by (unfold t, lenZ in *; rewrite length_take, length_app; lia).
  pose proof (line_start_loop_row n t [] (drop (Z.to_nat index) (b ++ a) ++ 0 :: junk) (S (Z.to_nat index)) Hn) as Hrow.
  assert (Htext : ed_text e = t ++ drop (Z.to_nat index) (b ++ a) ++ 0 :: junk) by (unfold t; by rewrite (app_assoc (take _ _)), take_drop, <- app_assoc).
  cbn [app] in Hrow. rewrite <- Htext in Hrow.
  change (row n []) with (@nil Z) in Hrow. change (row_start n []) with 0 in Hrow. change (lenZ (@nil Z)) with 0 in Hrow.
  rewrite Z.add_0_l, Htl, (proj2 (Z.eqb_neq 0 n)) in Hrow by lia. apply Hrow; lia.
Qed.

Lemma find_next_row e b a n p :
  holds e b a -> 0 < n -> 0 <= p <= lenZ b + lenZ a ->
  text_editor_find_next_line_start e p n = Some (p + next_row n (drop (Z.to_nat p) (b ++ a))).
Proof.
  intros Hh Hn Hi. destruct (holds_bound e b a Hh) as (Hb & Hb0 & Ha0). pose proof Hh as [(junk & Ht) _ Hl _ _ _].
  unfold text_editor_find_next_line_start. rewrite (proj2 (Z.eqb_neq n 0)) by lia.
  set (t := drop (Z.to_nat p) (b ++ a)). assert (Htl : lenZ t = lenZ b + lenZ a - p) by (unfold t, lenZ in *; rewrite length_drop, length_app; lia).
  assert (Hpl : lenZ (take (Z.to_nat p) (b ++ a)) = p) by (unfold lenZ in *; rewrite length_take, length_app; lia).
  pose proof (next_line_loop_row n t (take (Z.to_nat p) (b ++ a)) (0 :: junk) (S (Z.to_nat (ed_length e))) 0) as Hrow.
  assert (Htext : ed_text e = take (Z.to_nat p) (b ++ a) ++ t ++ 0 :: junk) by (unfold t; by rewrite (app_assoc (take _ _)), take_drop, <- app_assoc).
  rewrite <- Htext, Hpl, Htl, Z.sub_0_r in Hrow.
  replace (p + (lenZ b + lenZ a - p)) with (ed_length e) in Hrow by lia. apply Hrow; lia.
Qed.

Lemma line_length_row e b a n p :
  holds e b a -> 0 < n -> 0 <= p <= lenZ b + lenZ a ->
  text_editor_line_length e p n = Some (lenZ (first_row (Z.to_nat n) (drop (Z.to_nat p) (b ++ a)))).
Proof.
  intros Hh Hn Hi. destruct (holds_bound e b a Hh) as (Hb & Hb0 & Ha0). pose proof Hh as [(junk & Ht) _ Hl _ _ _].
  unfold text_editor_line_length.
  set (t := drop (Z.to_nat p) (b ++ a)). assert (Htl : lenZ t = lenZ b + lenZ a - p) by (unfold t, lenZ in *; rewrite length_drop, length_app; lia).
  assert (Hpl : lenZ (take (Z.to_nat p) (b ++ a)) = p) by (unfold lenZ in *; rewrite length_take, length_app; lia).
  pose proof (line_length_loop_row n t (take (Z.to_nat p) (b ++ a)) (0 :: junk) (S (Z.to_nat (ed_length e))) 0) as Hrow.
  assert (Htext : ed_text e = take (Z.to_nat p) (b ++ a) ++ t ++ 0 :: junk) by (unfold t; by rewrite (app_assoc (take _ _)), take_drop, <- app_assoc).
  rewrite <- Htext, Hpl, Htl, Z.sub_0_r in Hrow.
  replace (p + (lenZ b + lenZ a - p)) with (ed_length e) in Hrow by lia. apply Hrow; lia.
Qed.

Lemma row_start_bound n b : 0 < n -> 0 <= row_start n b <= lenZ b.
Proof. intros Hn. unfold row_start. pose proof (row_bound n b Hn). lia. Qed.

Lemma next_row_bound n t : 0 < n -> 0 <= next_row n t <= lenZ t.
Proof.
  intros Hn. unfold next_row. destruct (first_row_bound (Z.to_nat n) t) as [Hf Hl].
  destruct (Z.eqb_spec (lenZ (first_row (Z.to_nat n) t)) n), (Z.eqb_spec (lenZ t) (lenZ (first_row (Z.to_nat n) t))); cbn [orb]; lia.
Qed.

Lemma min_if x y : (if x <? y then x else y) = Z.min x y.
Proof. destruct (Z.ltb_spec x y); lia. Qed.

Lemma lenZ_drop (t : list Z) k : 0 <= k <= lenZ t -> lenZ (drop (Z.to_nat k) t) = lenZ t - k.
Proof. intros Hk. unfold lenZ in *. rewrite length_drop. lia. Qed.

Lemma prev_line_row e b a n :
  holds e b a -> 0 < n -> text_editor_cursor_prev_line e n = Some (zup_index n (b, a)) /\ 0 <= zup_index n (b, a) <= lenZ b + lenZ a.
Proof.
  intros Hh Hn. destruct (holds_bound e b a Hh) as (Hb & Hb0 & Ha0). pose proof Hh as [_ _ _ Hc _ _].
  unfold text_editor_cursor_prev_line, zup_index. cbn [fst snd]. rewrite Hc, (find_line_start_row e b a) by (done || lia). cbn [mbind option_bind].
  assert (Hall : take (Z.to_nat (lenZ b)) (b ++ a) = b) by (unfold lenZ; rewrite Nat2Z.id; apply take_app_length). rewrite Hall.
  pose proof (row_start_bound n b Hn) as Hsb. set (start := row_start n b) in *.
  destruct (Z.eqb_spec start 0) as [|Hne]; [split; [done|lia]|].
  unfold text_editor_find_prev_line_start. rewrite (proj2 (Z.eqb_neq start 0)), (u32_small (start - 1)) by lia.
  rewrite (find_line_start_row e b a) by (done || lia). cbn [mbind option_bind]. rewrite take_app_le by (unfold lenZ in *; lia).
  set (pre := take (Z.to_nat (start - 1)) b). assert (Hpl : lenZ pre = start - 1) by (unfold pre, lenZ in *; rewrite length_take; lia).
  pose proof (row_start_bound n pre Hn) as Hab. set (above := row_start n pre) in *.
  rewrite (line_length_row e b a) by (done || lia). cbn [mbind option_bind]. cbn zeta.
  replace (lenZ b - start) with (lenZ (row n b)) by (unfold start, row_start; lia). destruct (row_bound n b Hn) as [Hr1 Hr2].
  destruct (first_row_bound (Z.to_nat n) (drop (Z.to_nat above) (b ++ a))) as [Hf1 Hf2]. rewrite lenZ_drop, lenZ_app in Hf2 by (rewrite lenZ_app; lia).
  rewrite (u32_small (lenZ (row n b))), min_if by lia. rewrite u32_small by lia. split; [done|lia].
Qed.

Lemma next_line_row e b a n :
  holds e b a -> 0 < n -> text_editor_cursor_next_line e n = Some (zdown_index n (b, a)) /\ 0 <= zdown_index n (b, a) <= lenZ b + lenZ a.
Proof.
  intros Hh Hn. destruct (holds_bound e b a Hh) as (Hb & Hb0 & Ha0). pose proof Hh as [_ _ Hl Hc _ _].
  unfold text_editor_cursor_next_line, zdown_index. cbn [fst snd]. rewrite Hc, (find_line_start_row e b a) by (done || lia). cbn [mbind option_bind].
  assert (Hall : take (Z.to_nat (lenZ b)) (b ++ a) = b) by (unfold lenZ; rewrite Nat2Z.id; apply take_app_length). rewrite Hall.
  pose proof (row_start_bound n b Hn) as Hsb. set (start := row_start n b) in *.
  rewrite (find_next_row e b a) by (done || lia). cbn [mbind option_bind].
  pose proof (next_row_bound n (drop (Z.to_nat start) (b ++ a)) Hn) as Hnb. rewrite lenZ_drop, lenZ_app in Hnb by (rewrite lenZ_app; lia).
  set (below := start + next_row _ _) in *. rewrite Hl, lenZ_app.
  destruct (_ && _); [split; [done|lia]|].
  rewrite (line_length_row e b a) by (done || lia). cbn [mbind option_bind]. cbn zeta.
  replace (lenZ b - start) with (lenZ (row n b)) by (unfold start, row_start; lia). destruct (row_bound n b Hn) as [Hr1 Hr2].
  destruct (first_row_bound (Z.to_nat n) (drop (Z.to_nat below) (b ++ a))) as [Hf1 Hf2]. rewrite lenZ_drop, lenZ_app in Hf2 by (rewrite lenZ_app; lia).
  rewrite (u32_small (lenZ (row n b))), min_if by lia. rewrite u32_small by lia. split; [done|lia].
Qed.

Lemma arrow_key_run e b a k n m :
  holds e b a -> 0 < n -> arrow_key k n = Some m ->
  exists e', m e = Ret tt e' [] /\ holds e' (zkey n k (b, a)).1 (zkey n k (b, a)).2 /\ edited None e e'.
Proof.
  intros Hh Hn. destruct (holds_bound e b a Hh) as (Hb & Hb0 & Ha0). pose proof Hh as [_ _ Hl Hc _ _].
  assert (Hmove : forall c, 0 <= c <= lenZ b + lenZ a -> holds (set_ed_cursor c e) (take (Z.to_nat c) (b ++ a)) (drop (Z.to_nat c) (b ++ a)))
    by (intros c Hcb; by apply move_cursor).
  unfold arrow_key, zkey. destruct (k =? INPUT_KEY_LEFT).
  { intros [= <-]. krun. rewrite Hc. destruct (Z.ltb_spec 0 (lenZ b)).
    - rewrite u32_small by lia. exists (set_ed_cursor (lenZ b - 1) e). split; [done|]. split; [|done].
      rewrite zleft_cursor by (intros ->; done). replace (length b - 1)%nat with (Z.to_nat (lenZ b - 1)) by (unfold lenZ; lia). apply Hmove. lia.
    - exists e. destruct b; [done|]. rewrite lenZ_cons in *. pose proof (lenZ_nonneg b). lia. }
  destruct (k =? INPUT_KEY_RIGHT).
  { intros [= <-]. krun. rewrite Hc, Hl. destruct (Z.ltb_spec (lenZ b) (lenZ b + lenZ a)).
    - rewrite u32_small by lia. exists (set_ed_cursor (lenZ b + 1) e). split; [done|]. split; [|done].
      rewrite zright_cursor by (intros ->; unfold lenZ in *; simpl in *; lia). replace (length b + 1)%nat with (Z.to_nat (lenZ b + 1)) by (unfold lenZ; lia). apply Hmove. lia.
    - exists e. destruct a; [done|]. rewrite lenZ_cons in *. pose proof (lenZ_nonneg a). lia. }
  destruct (k =? INPUT_KEY_UP); [|destruct (k =? INPUT_KEY_DOWN); [|done]]; intros [= <-]; krun.
  - destruct (prev_line_row e b a n Hh Hn) as (Hr & Hcb). rewrite (bind_deref_Some _ _ _ _ Hr).
    exists (set_ed_cursor (zup_index n (b, a)) e). split; [done|]. split; [by apply Hmove|done].
  - destruct (next_line_row e b a n Hh Hn) as (Hr & Hcb). rewrite (bind_deref_Some _ _ _ _ Hr).
    exists (set_ed_cursor (zdown_index n (b, a)) e). split; [done|]. split; [by apply Hmove|done].
Qed.

Lemma arrow_key_none k n z : arrow_key k n = None -> zkey n k z = z.
Proof.
  unfold arrow_key, zkey. destruct (k =? INPUT_KEY_LEFT), (k =? INPUT_KEY_RIGHT), (k =? INPUT_KEY_UP), (k =? INPUT_KEY_DOWN); done.
Qed.

Lemma event_columns_pos w : win_wf w -> 0 < event_columns (Some w).
Proof.
  intros Hwf. pose proof (content_width_bound w Hwf). unfold event_columns, EDITOR_MARGIN, GFX_FONT_WIDTH.
  destruct (Z.ltb_spec (6 * 2) (desktop_window_content_width (Some w))); [|done]. rewrite u32_small by lia.
  destruct (Z.eqb_spec ((desktop_window_content_width (Some w) - 6 * 2) / 8) 0); [done|]. Z.div_mod_to_equations. lia.
Qed.

Section events.
Context {X D : Type} `{DiskDriver X} `{DesktopServices D}.
Implicit Types (s : editor_app X D).

Lemma on_state_run {B} s st e (m : E B) r e' :
  rd (editor_states s) st = Some e -> m e = Ret r e' [] ->
  on_state st m s = Ret r (set_editor_states (<[Z.to_nat st := e']> (editor_states s)) s) [].
Proof.
  intros Hr Hm. unfold on_state. rewrite Hr, Hm. by rewrite wr_Some by (by eapply rd_inv).
Qed.

Lemma ask_desktop_run {B} s (f : D -> D * B) d r : f (ea_desktop s) = (d, r) -> ask_desktop f s = Ret r (set_ea_desktop d s) [].
Proof. intros Hf. unfold ask_desktop. by rewrite Hf. Qed.

Lemma states_same s st e : rd (editor_states s) st = Some e -> s = set_editor_states (<[Z.to_nat st := e]> (editor_states s)) s.
Proof.
  intros Hr. destruct s as [l f d]. unfold set_editor_states. cbn in *. f_equal. symmetry. apply list_insert_id.
  unfold rd in Hr. by destruct (0 <=? st).
Qed.

Lemma save_button_run s w x y :
  win_wf w -> text_editor_save_button_hit_test (Some w) x y s = Ret (save_button_hit w x y) s [].
Proof.
  intros Hwf. unfold text_editor_save_button_hit_test, save_button_hit. rewrite (bind_Ret_nil _ _ _ _ _ (content_x_run w s Hwf)), (bind_Ret_nil _ _ _ _ _ (content_y_run w s Hwf)).
  cbn zeta. pose proof (content_width_bound w Hwf) as Hcw. destruct Hwf as [Hx Hy Hw Hh]. rewrite i32_dim28 by done.
  change (win_y w + DESKTOP_WINDOW_TITLE_HEIGHT + DESKTOP_WINDOW_PADDING + 2) with (win_y w + 16 + 8 + 2). change DESKTOP_WINDOW_PADDING with 8.
  rewrite !bind_signed by lia. replace (win_y w + 16 + 8 + 2) with (win_y w + 24 + 2) by lia. set (left := win_x w + 8 + _ - 56) in *.
  destruct (u32 left <=? x); cbn [negb andb]; [|done]. rewrite bind_signed by lia.
  destruct (x <? u32 (left + 48)); cbn [negb orb andb]; [|done]. destruct (u32 (win_y w + 24 + 2) <=? y); cbn [negb andb]; [|done].
  rewrite bind_signed by lia. done.
Qed.

Lemma text_editor_event_ok s w ev st e b a :
  win_wf w -> user_data w = Some st -> rd (editor_states s) st = Some e -> holds e b a -> desktop_event_ok ev ->
  exists e', text_editor_app_event (Some w) (Some ev) s =
      Ret tt (set_ea_desktop (event_desktop w ev (ea_desktop s)) (set_editor_states (<[Z.to_nat st := e']> (editor_states s)) s)) [] /\
    holds e' (event_effect w ev (b, a)).1 (event_effect w ev (b, a)).2 /\ edited (event_message w ev (b, a)) e e'.
Proof.
  intros Hwf Hu Hr Hh Hok. unfold text_editor_app_event. rewrite Hu.
  assert (Hstay : event_effect w ev (b, a) = (b, a) -> event_message w ev (b, a) = None -> saves w ev = false -> exists e', Ret tt s [] =
      Ret tt (set_ea_desktop (event_desktop w ev (ea_desktop s)) (set_editor_states (<[Z.to_nat st := e']> (editor_states s)) s)) [] /\
    holds e' (event_effect w ev (b, a)).1 (event_effect w ev (b, a)).2 /\ edited (event_message w ev (b, a)) e e').
  { intros -> -> Hsv. exists e. split; [|by split]. unfold event_desktop. rewrite Hsv. rewrite (states_same s st e Hr) at 1. done. }
  destruct (Z.eqb_spec (ev_type ev) DESKTOP_EVENT_WINDOW_CLOSE) as [Hcl|Hcl].
  { apply Hstay; unfold event_effect, event_message, saves; rewrite Hcl; done. }
  cbn zeta. destruct (Z.eqb_spec (ev_type ev) DESKTOP_EVENT_BUTTON_DOWN) as [Hbd|Hbd].
  { rewrite (bind_Ret_nil _ _ _ _ _ (save_button_run s w (ev_cursor_x ev) (ev_cursor_y ev) Hwf)).
    assert (Heff : event_effect w ev (b, a) = (b, a)) by (unfold event_effect; rewrite Hbd; done).
    assert (Hsv : saves w ev = save_button_hit w (ev_cursor_x ev) (ev_cursor_y ev)) by (unfold saves; rewrite Hbd; done).
    assert (Hmsg : event_message w ev (b, a) = if saves w ev then Some (lit "save not supported yet") else None) by (unfold event_message; rewrite Hbd; done).
    rewrite <- Hsv. destruct (saves w ev) eqn:Hhit; [|by apply Hstay].
    destruct (set_status_run e b a (cstr "save not supported yet") (lit "save not supported yet") Hh eq_refl) as (e' & He' & Hh' & Hact & Hpath & Hst).
    rewrite (bind_Ret_nil _ _ _ _ _ (on_state_run s st e _ tt e' Hr He')).
    set (s2 := set_editor_states _ s). destruct (desktop_show_alert (cstr "Save Unsupported") (cstr "Saving files not supported yet") (ea_desktop s2)) as [d n] eqn:Hal.
    rewrite (bind_Ret_nil _ _ _ _ _ (ask_desktop_run s2 _ d n Hal)). exists e'. rewrite Heff, Hmsg. split; [|by split].
    unfold event_desktop. rewrite Hhit. change (ea_desktop s2) with (ea_desktop s) in Hal. by rewrite Hal. }
  assert (Hsv : saves w ev = false) by (unfold saves; by rewrite (proj2 (Z.eqb_neq _ _) Hbd)).
  assert (Hdesk : forall s', ea_desktop s' = ea_desktop s -> set_ea_desktop (event_desktop w ev (ea_desktop s)) s' = s')
    by (intros s' <-; unfold event_desktop; rewrite Hsv; by destruct s').
  destruct ((ev_type ev =? DESKTOP_EVENT_KEY) && desktop_input_is_key_pressed (ev_input ev)) eqn:Hkey.
  - apply andb_prop in Hkey as [Hk%Z.eqb_eq Hp]. destruct (Hok Hk) as [k Hdata].
    assert (Heff : event_effect w ev (b, a) = zkey (event_columns (Some w)) k (b, a)) by (unfold event_effect; by rewrite Hk, Hp, Hdata).
    assert (Hmsg : event_message w ev (b, a) = None) by (unfold event_message; by rewrite Hk, Hsv).
    erewrite bind_Ret_nil; [|by rewrite (bind_deref_Some _ k) by (by rewrite Hdata)].
    destruct (arrow_key k (event_columns (Some w))) as [m|] eqn:Harr.
    + destruct (arrow_key_run e b a k _ m Hh (event_columns_pos w Hwf) Harr) as (e' & Hm & Hh' & Hed).
      exists e'. rewrite Hdesk, Heff, Hmsg by done. split; [exact (on_state_run s st e m tt e' Hr Hm)|by split].
    + rewrite (proj2 (Z.eqb_neq (ev_type ev) DESKTOP_EVENT_CHAR)) by (by rewrite Hk). apply Hstay; [|done|done]. rewrite Heff. by apply arrow_key_none.
  - rewrite bind_ret. destruct (Z.eqb_spec (ev_type ev) DESKTOP_EVENT_CHAR) as [Hc|Hc]; cbn [negb].
    + destruct (type_char_run e b a (character ev) Hh) as (e' & Hm & Hh' & Hed).
      exists e'. rewrite Hdesk by done. split; [exact (on_state_run s st e _ tt e' Hr Hm)|]. unfold event_effect, event_message. by rewrite Hc.
    + apply Hstay; [| |done]; unfold event_effect, event_message; rewrite (proj2 (Z.eqb_neq _ _) Hc), ?Hkey, ?Hsv; done.
Qed.
End events.


(** ** Loading a file *)

Lemma reset_run e :
  exists e', text_editor_reset e = Ret tt e' [] /\ holds e' [] [] /\ ed_active e' = ed_active e /\ ed_path e' = ed_path zero_editor.
Proof.
  unfold text_editor_reset. krun. set (e1 := set_ed_active (ed_active e) zero_editor).
  assert (Hh : holds e1 [] []) by (split; try done; by exists (replicate 4095 0)).
  destruct (set_status_run e1 [] [] (cstr "ready") (lit "ready") Hh eq_refl) as (e' & Hr & Hh' & Ha & Hp & _).
  by exists e'.
Qed.

Lemma set_path_run e b a p t :
  holds e b a -> cval p = Some t ->
  exists e', (old <- gets ed_path;; copied <- deref (strlcpy old 0 p EDITOR_PATH_MAX);; modify (set_ed_path copied.1)) e = Ret tt e' [] /\
    holds e' b a /\ ed_active e' = ed_active e /\ cval (ed_path e') = Some (take 63 t).
Proof.
  intros [Ht Hs Hl Hc Hst Hp] Hm. krun. destruct (cval_inv p t Hm) as (Hn & r & ->).
  assert (Hcopy : strlcpy (ed_path e) 0 (t ++ 0 :: r) EDITOR_PATH_MAX = Some (splice (ed_path e) 0 (take 63 t ++ [0]), lenZ t)).
  { apply strlcpy_spec; [done|lia|done|]. rewrite Hp. done. }
  rewrite (bind_deref_Some _ _ _ _ Hcopy). cbn [fst]. eexists. split; [done|].
  assert (Hlen : (length (take 63 t) <= 63)%nat) by (rewrite length_take; lia).
  assert (Hp' : length (ed_path e) = 64%nat) by (unfold lenZ, EDITOR_PATH_MAX in Hp; lia).
  split; [split; try done|].
  - cbn. unfold lenZ. rewrite length_splice by (rewrite length_app; simpl; lia). rewrite Hp'. done.
  - split; [done|]. cbn. unfold splice. rewrite take_0. cbn [app]. rewrite <- app_assoc. apply cval_app. by apply no_nul_take.
Qed.

(** The last steps: the bytes are in the buffer, [got] of them. *)
Lemma loaded_run e got rest :
  lenZ (ed_status e) = EDITOR_STATUS_MAX -> lenZ (ed_path e) = EDITOR_PATH_MAX -> ed_text e = got ++ rest -> lenZ (ed_text e) = EDITOR_TEXT_MAX ->
  lenZ got < EDITOR_TEXT_MAX ->
  exists e', (modify (set_ed_length (u32 (lenZ got)));; text3 <- deref (wr (got ++ rest) (u32 (lenZ got)) 0);; modify (set_ed_text text3);;
              modify (set_ed_cursor (u32 (lenZ got)));; text_editor_set_status (Some (cstr "file loaded"))) e = Ret tt e' [] /\
    holds e' got [] /\ ed_active e' = ed_active e /\ ed_path e' = ed_path e /\ cval (ed_status e') = Some (lit "file loaded").
Proof.
  intros Hst Hp Ht Hl Hg. pose proof (lenZ_nonneg got). unfold EDITOR_TEXT_MAX in *. rewrite u32_small by lia. krun.
  destruct rest as [|c rest]; [rewrite Ht, lenZ_app in Hl; change (lenZ (@nil Z)) with 0 in Hl; lia|].
  rewrite (bind_deref_Some _ _ _ _ (wr_app got rest c 0)). krun. set (e1 := set_ed_cursor _ _).
  assert (Hh : holds e1 got []).
  { split; try done; cbn; [by exists rest| |by rewrite Z.add_0_r]. rewrite Ht, lenZ_app, lenZ_cons in Hl. rewrite lenZ_app, lenZ_cons. done. }
  destruct (set_status_run e1 got [] (cstr "file loaded") (lit "file loaded") Hh eq_refl) as (e' & Hr & Hh' & Ha & Hpath & Hs).
  exists e'. split; [exact Hr|]. done.
Qed.

Section loading.
Context {X D : Type} `{DiskDriver X} `{DesktopServices D} (local64 : mem) (local64_len : lenZ local64 = VFS_PATH_MAX).
Implicit Types (s : editor_app X D).

Definition with_state (st : Z) (e : text_editor_state) s : editor_app X D := set_editor_states (<[Z.to_nat st := e]> (editor_states s)) s.

Lemma with_state_rd st e e0 s : rd (editor_states s) st = Some e0 -> rd (editor_states (with_state st e s)) st = Some e.
Proof.
  intros Hr. pose proof (rd_inv _ _ _ Hr) as Hb. cbn. unfold rd. rewrite (proj2 (Z.leb_le 0 st)) by lia.
  apply list_lookup_insert_eq. unfold lenZ in Hb. lia.
Qed.

Lemma on_state_with {B} st (m : E B) s e0 e r e' :
  rd (editor_states s) st = Some e0 -> m e = Ret r e' [] -> on_state st m (with_state st e s) = Ret r (with_state st e' s) [].
Proof.
  intros Hr Hm. rewrite (on_state_run (with_state st e s) st e m r e' (with_state_rd st e e0 s Hr) Hm).
  unfold with_state, set_editor_states. cbn. by rewrite list_insert_insert_eq.
Qed.

(** A file that could not be opened: the alert, and an empty buffer. *)
Lemma load_opened_none s st e0 e :
  rd (editor_states s) st = Some e0 -> holds e [] [] ->
  exists e', load_opened local64 st None (with_state st e s) =
    Ret tt (with_state st e' (set_ea_desktop (desktop_show_alert (cstr "File Open Error") (cstr "Editor could not open file") (ea_desktop s)).1 s)) [] /\
    holds e' [] [] /\ ed_active e' = ed_active e /\ ed_path e' = ed_path e /\ cval (ed_status e') = Some (lit "open failed").
Proof.
  intros Hrd Hh. unfold load_opened.
  destruct (set_status_run e [] [] (cstr "open failed") (lit "open failed") Hh eq_refl) as (e' & Hr & Hh' & Ha & Hp & Hs).
  rewrite (bind_Ret_nil _ _ _ _ _ (on_state_with st _ s e0 e tt e' Hrd Hr)).
  destruct (desktop_show_alert (cstr "File Open Error") (cstr "Editor could not open file") (ea_desktop s)) as [d n] eqn:Hal.
  rewrite (bind_Ret_nil _ _ _ _ _ (ask_desktop_run (with_state st e' s) _ d n Hal)). by exists e'.
Qed.

(** An open file: its bytes, and the handle closed. *)
Lemma load_opened_some s st e0 e d h i fe n :
  rd (editor_states s) st = Some e0 -> holds e [] [] -> open_at (ea_files s) d h i fe n 0 -> on_disk d fe -> 0 <= h < FILE_TABLE_MAX ->
  exists e' f', load_opened local64 st (Some h) (with_state st e s) = Ret tt (with_state st e' (set_ea_files f' s)) [] /\
    holds e' (take 4095 (file_bytes d fe)) [] /\ ed_active e' = ed_active e /\ ed_path e' = ed_path e /\ cval (ed_status e') = Some (lit "file loaded") /\
    rd (file_table f') h = Some (File None 0 0 0 0) /\ forall h', h' <> h -> rd (file_table f') h' = rd (file_table (ea_files s)) h'.
Proof using local64_len.
  intros Hrd Hh Hop Hdisk Hhb. pose proof Hh as [_ Htl _ _ Hstl Hpl]. unfold load_opened.
  assert (Hget : on_state st (gets ed_text) (with_state st e s) = Ret (ed_text e) (with_state st e s) []) by (by apply (on_state_with st _ s e0)).
  rewrite (bind_Ret_nil _ _ _ _ _ Hget).
  destruct (file_read_step local64 local64_len (ea_files s) d h i fe n 0 (ed_text e) 4095 Hop Hdisk Hhb) as (f1 & Hread & Hop1 & Hoth);
    [rewrite Htl; unfold EDITOR_TEXT_MAX; lia..|].
  assert (Hslice : slice (file_bytes d fe) (Z.to_nat 0) (Z.to_nat (Z.min 4095 (file_size fe - 0))) = take 4095 (file_bytes d fe)).
  { destruct Hop as [_ [p [Hm _ _]] _ _ _ _]. destruct (mt_disk _ _ _ Hm) as (_ & Hdev & _).
    pose proof (file_bytes_length d fe Hdev Hdisk) as Hfb. unfold slice. change (Z.to_nat 0) with 0%nat. rewrite drop_0.
    destruct (Z.min_spec 4095 (file_size fe - 0)) as [[Hc ->]|[Hc ->]]; [done|]. unfold lenZ in Hfb. by rewrite !take_ge by lia. }
  rewrite Hslice in Hread, Hop1. clear Hslice.
  set (got := take 4095 (file_bytes d fe)) in *. pose proof (lenZ_nonneg got).
  assert (Hg : lenZ got < EDITOR_TEXT_MAX) by (unfold got, lenZ, EDITOR_TEXT_MAX; rewrite length_take; lia).
  change (EDITOR_TEXT_MAX - 1) with 4095.
  rewrite (bind_Ret_nil _ _ _ _ _ (zoom_Ret ea_files set_ea_files _ (with_state st e s) _ _ _ Hread)). cbn iota.
  change (set_ea_files f1 (with_state st e s)) with (with_state st e (set_ea_files f1 s)).
  rewrite (bind_deref_Some _ _ _ _ eq_refl).
  set (s1 := set_ea_files f1 s). assert (Hrd1 : rd (editor_states s1) st = Some e0) by done.
  rewrite (bind_Ret_nil _ _ _ _ _ (on_state_with st (modify (set_ed_text (splice (ed_text e) 0 got))) s1 e0 e tt _ Hrd1 eq_refl)).
  rewrite (proj2 (Z.ltb_ge _ 0)) by lia.
  pose proof Hop1 as [Hwf1 _ _ _ _ _]. destruct (table_wr f1 h (File None 0 0 0 0) Hwf1 Hhb) as (tb & Htb & _ & Hself & Hrest); [by split; simpl; lia|].
  assert (Hclose : file_close (Some h) f1 = Ret tt (set_file_table tb f1) []) by (unfold file_close; krun; by rewrite (bind_deref_Some _ _ _ _ Htb)).
  rewrite (bind_Ret_nil _ _ _ _ _ (zoom_Ret ea_files set_ea_files _ (with_state st _ s1) _ _ _ Hclose)).
  set (f2 := set_file_table tb f1). set (e2 := set_ed_text _ e).
  change (set_ea_files f2 (with_state st e2 s1)) with (with_state st e2 (set_ea_files f2 s)).
  assert (Hspl : splice (ed_text e) 0 got = got ++ drop (length got) (ed_text e)) by (unfold splice; by rewrite take_0).
  assert (He2 : ed_text e2 = got ++ drop (length got) (ed_text e)) by done.
  destruct (loaded_run e2 got (drop (length got) (ed_text e))) as (e' & Hr & Hh' & Ha & Hp & Hs); [done|done|done| |done|].
  { rewrite He2. unfold lenZ in *. rewrite length_app, length_drop. lia. }
  rewrite Hspl. exists e', f2. rewrite (on_state_with st _ (set_ea_files f2 s) e0 e2 tt e' Hrd Hr). split; [done|].
  do 4 (split; [done|]). split; [exact Hself|]. intros h' Hne. rewrite <- (Hoth h' Hne). exact (Hrest h' Hne).
Qed.

Lemma load_file_ok s st e0 p d pth t :
  rd (editor_states s) st = Some e0 -> root_mounted (files_vfs (ea_files s)) p d -> table_wf (ea_files s) ->
  cval pth = Some t -> t <> [] -> lenZ t < 2 ^ 31 -> (forall n i e, open_target (files_vfs (ea_files s)) t = Some (n, i, e) -> on_disk d e) ->
  exists s' e', text_editor_load_file local64 (Some st) (Some pth) s = Ret tt s' [] /\
    editor_states s' = <[Z.to_nat st := e']> (editor_states s) /\ ed_active e' = ed_active e0 /\ cval (ed_path e') = Some (take 63 t) /\
    match open_target (files_vfs (ea_files s)) t, free_slot (ea_files s) with
    | Some (n, i, e), Some h =>
        holds e' (take 4095 (file_bytes d e)) [] /\ cval (ed_status e') = Some (lit "file loaded") /\ ea_desktop s' = ea_desktop s /\
        rd (file_table (ea_files s')) h = Some (File None 0 0 0 0) /\
        forall h', h' <> h -> rd (file_table (ea_files s')) h' = rd (file_table (ea_files s)) h'
    | _, _ =>
        holds e' [] [] /\ cval (ed_status e') = Some (lit "open failed") /\
        ea_desktop s' = (desktop_show_alert (cstr "File Open Error") (cstr "Editor could not open file") (ea_desktop s)).1 /\
        file_table (ea_files s') = file_table (ea_files s)
    end.
Proof using local64_len.
  intros Hrd Hroot Hwf Ht Hne Hl Hdisk. unfold text_editor_load_file.
  destruct (reset_run e0) as (e1 & Hr1 & Hh1 & Ha1 & _).
  rewrite (bind_Ret_nil _ _ _ _ _ (on_state_run s st e0 _ tt e1 Hrd Hr1)). fold (with_state st e1 s).
  assert (Hempty : (c <- deref (rd pth 0);; ret (c =? 0)) (with_state st e1 s) = Ret false (with_state st e1 s) []).
  { destruct (cval_inv _ _ Ht) as (Hn & r & ->). destruct t as [|c t]; [done|]. rewrite (bind_deref_Some _ c) by done.
    apply Forall_cons in Hn as [Hc _]. by rewrite (proj2 (Z.eqb_neq c 0)). }
  rewrite (bind_Ret_nil _ _ _ _ _ Hempty). cbn iota.
  destruct (set_path_run e1 [] [] pth t Hh1 Ht) as (e2 & Hr2 & Hh2 & Ha2 & Hp2).
  rewrite (bind_Ret_nil _ _ _ _ _ (on_state_with st _ s e0 e1 tt e2 Hrd Hr2)).
  destruct (file_open_ok local64 local64_len (ea_files s) p d pth t Hroot Hwf Ht Hl) as (f1 & Hroot1 & Hwf1 & Htn & Hopen).
  assert (Hfail : file_open local64 (Some pth) (ea_files s) = Ret None f1 [] -> file_table f1 = file_table (ea_files s) -> exists s' e',
    (file <- zoom ea_files set_ea_files (file_open local64 (Some pth));; load_opened local64 st file) (with_state st e2 s) = Ret tt s' [] /\
    editor_states s' = <[Z.to_nat st := e']> (editor_states s) /\ ed_active e' = ed_active e0 /\ cval (ed_path e') = Some (take 63 t) /\
    holds e' [] [] /\ cval (ed_status e') = Some (lit "open failed") /\
    ea_desktop s' = (desktop_show_alert (cstr "File Open Error") (cstr "Editor could not open file") (ea_desktop s)).1 /\
    file_table (ea_files s') = file_table (ea_files s)).
  { intros Ho Hsame. rewrite (bind_Ret_nil _ _ _ _ _ (zoom_Ret ea_files set_ea_files _ (with_state st e2 s) _ _ _ Ho)).
    destruct (load_opened_none (set_ea_files f1 s) st e0 e2 Hrd Hh2) as (e' & Hr & Hh' & Ha & Hp & Hs).
    eexists _, e'. split; [exact Hr|]. split; [done|]. split; [congruence|]. split; [congruence|]. done. }
  destruct (open_target (files_vfs (ea_files s)) t) as [[[n i] fe]|] eqn:Htgt, (free_slot (ea_files s)) as [h|].
  { destruct Hopen as (Ho & Hslot & Hoth).
    pose proof (rd_inv _ _ _ Hslot) as Hh. rewrite (tb_len _ Hwf1) in Hh.
    assert (Hname : normal_path false t = Some n /\ lookup_file (vfs_tinyfs (files_vfs (ea_files s))) n = Some (i, fe) /\
      Z.land (file_flags fe) VFS_FILE_FLAG_DIRECTORY = 0) by (by apply open_target_inv).
    destruct Hname as (Hnp & Hlk & Hfl).
    assert (Hop : open_at f1 d h i fe n 0).
    { split; [done|by exists p|done|by rewrite Htn|exact (proj1 (normal_path_idem _ _ _ Hnp))|done]. }
    rewrite (bind_Ret_nil _ _ _ _ _ (zoom_Ret ea_files set_ea_files _ (with_state st e2 s) _ _ _ Ho)).
    change (set_ea_files f1 (with_state st e2 s)) with (with_state st e2 (set_ea_files f1 s)).
    destruct (load_opened_some (set_ea_files f1 s) st e0 e2 d h i fe n Hrd Hh2 Hop (Hdisk _ _ _ eq_refl) Hh) as (e' & f' & Hr & Hh' & Ha & Hp & Hs & Hself & Hrest).
    exists (with_state st e' (set_ea_files f' (set_ea_files f1 s))), e'. split; [exact Hr|]. split; [done|]. split; [congruence|]. split; [congruence|].
    do 4 (split; [done|]). intros h' Hn. rewrite <- (Hoth h' Hn). exact (Hrest h' Hn). }
  all: destruct Hopen as (Ho & Hsame); exact (Hfail Ho Hsame).
Qed.

(** Opening a file that exists and has a handle to read from leaves its first
    4095 bytes in the buffer, the cursor behind them, and the handle free
    again; a path that names no file leaves an empty buffer and shows an
    alert. *)
Theorem text_editor_load_file_spec s st e0 p d pth t :
  rd (editor_states s) st = Some e0 -> root_mounted (files_vfs (ea_files s)) p d -> table_wf (ea_files s) ->
  cval pth = Some t -> t <> [] -> lenZ t < 2 ^ 31 -> (forall n i e, open_target (files_vfs (ea_files s)) t = Some (n, i, e) -> on_disk d e) ->
  exists s' e', text_editor_load_file local64 (Some st) (Some pth) s = Ret tt s' [] /\
    editor_states s' = <[Z.to_nat st := e']> (editor_states s) /\ ed_active e' = ed_active e0 /\ cval (ed_path e') = Some (take 63 t) /\
    match open_target (files_vfs (ea_files s)) t, free_slot (ea_files s) with
    | Some (n, i, e), Some h =>
        holds e' (take 4095 (file_bytes d e)) [] /\ cval (ed_status e') = Some (lit "file loaded") /\ ea_desktop s' = ea_desktop s /\
        rd (file_table (ea_files s')) h = Some (File None 0 0 0 0) /\
        forall h', h' <> h -> rd (file_table (ea_files s')) h' = rd (file_table (ea_files s)) h'
    | _, _ =>
        holds e' [] [] /\ cval (ed_status e') = Some (lit "open failed") /\
        ea_desktop s' = (desktop_show_alert (cstr "File Open Error") (cstr "Editor could not open file") (ea_desktop s)).1 /\
        file_table (ea_files s') = file_table (ea_files s)
    end.
Proof using local64_len. apply load_file_ok. Qed.
End loading.

(** ** Down at a full line *)

Lemma line_start_full l : forall rest columns scan start pre fuel text,
  text = pre ++ l ++ rest -> Forall (fun c => c <> 10) l -> lenZ pre = scan -> scan + lenZ l = columns -> 0 < columns < 2 ^ 31 -> 0 < scan ->
  lenZ l < Z.of_nat fuel -> line_start_loop fuel text columns columns scan scan start = Some start.
Proof.
  induction l as [|c l IH]; intros rest columns scan start pre fuel text -> Hl Hpre Hcol Hb Hsc Hf; (destruct fuel as [|fuel]; [unfold lenZ in Hf; lia|]); cbn [line_start_loop].
  { change (lenZ (@nil Z)) with 0 in Hcol. by rewrite (proj2 (Z.ltb_ge _ _)) by lia. }
  apply Forall_cons in Hl as [Hc Hl]. rewrite lenZ_cons in *. pose proof (lenZ_nonneg l).
  rewrite (proj2 (Z.ltb_lt _ _)), (proj2 (Z.eqb_neq scan 0)) by lia. cbn [app]. rewrite <- Hpre at 1. rewrite rd_at. cbn [mbind option_bind]. cbn zeta.
  rewrite (proj2 (Z.eqb_neq c 10)), u32_small by (done || lia).
  destruct (Z.leb_spec columns (scan + 1)).
  - assert (l = []) as -> by (destruct l; [done|rewrite lenZ_cons in *; pose proof (lenZ_nonneg l); lia]).
    destruct fuel as [|fuel]; [change (lenZ (@nil Z)) with 0 in Hf; lia|]. cbn [line_start_loop].
    by rewrite (proj2 (Z.ltb_ge _ _)) by lia.
  - apply (IH rest _ _ _ (pre ++ [c])); [by rewrite <- app_assoc|done|rewrite lenZ_app; change (lenZ [c]) with 1; lia|lia|lia|lia|lia].
Qed.

Lemma next_line_full l : forall rest length columns count pre fuel text,
  text = pre ++ l ++ rest -> Forall (fun c => c <> 10) l -> l <> [] -> lenZ pre = count -> count + lenZ l = columns -> columns <= length < 2 ^ 31 ->
  lenZ l < Z.of_nat fuel -> next_line_loop fuel text length columns count count = Some columns.
Proof.
  induction l as [|c l IH]; intros rest length columns count pre fuel text -> Hl Hne Hpre Hcol Hb Hf; [done|].
  destruct fuel as [|fuel]; [unfold lenZ in Hf; lia|]. cbn [next_line_loop].
  apply Forall_cons in Hl as [Hc Hl]. rewrite lenZ_cons in *. pose proof (lenZ_nonneg l). pose proof (lenZ_nonneg pre).
  rewrite (proj2 (Z.ltb_lt _ _)) by lia. cbn [app]. rewrite <- Hpre at 1. rewrite rd_at. cbn [mbind option_bind]. cbn zeta.
  rewrite (proj2 (Z.eqb_neq c 10)), u32_small by (done || lia).
  destruct (Z.leb_spec columns (count + 1)); [f_equal; lia|].
  apply (IH rest _ _ _ (pre ++ [c])); [by rewrite <- app_assoc|done|intros ->; change (lenZ (@nil Z)) with 0 in *; lia
    |rewrite lenZ_app; change (lenZ [c]) with 1; lia|lia|lia|lia].
Qed.

Lemma line_start_first e columns l rest :
  ed_text e = l ++ rest -> Forall (fun c => c <> 10) l -> lenZ l = columns -> 0 < columns < 2 ^ 31 -> columns <= ed_length e ->
  text_editor_find_line_start e columns columns = Some 0.
Proof.
  intros Ht Hl Hc Hb Hlen. unfold text_editor_find_line_start. rewrite (proj2 (Z.eqb_neq columns 0)), (proj2 (Z.ltb_ge _ columns)) by lia.
  destruct l as [|c l]; [change (lenZ (@nil Z)) with 0 in Hc; lia|]. apply Forall_cons in Hl as [Hc10 Hl]. rewrite lenZ_cons in Hc.
  cbn [line_start_loop]. rewrite (proj2 (Z.ltb_lt _ _)) by lia. rewrite Ht. change (rd ((c :: l) ++ rest) 0) with (Some c). cbn [mbind option_bind]. cbn zeta.
  rewrite (proj2 (Z.eqb_neq c 10)) by done. change (u32 (0 + 1)) with 1. pose proof (lenZ_nonneg l). destruct (Z.leb_spec columns 1) as [H1|H1].
  - assert (columns = 1) as -> by lia. done.
  - apply (line_start_full l rest columns 1 0 [c]); [done|done|done|lia|lia|lia|unfold lenZ in *; lia].
Qed.

(** A line of exactly [columns] characters that a newline ends: at its end the
    cursor counts as in that line, and the next line found starts at the
    newline, which has length 0, so Down answers the cursor itself. *)
Theorem down_key_stuck e columns l b a :
  holds e l (10 :: b ++ a) -> Forall (fun c => c <> 10) l -> lenZ l = columns -> 0 < columns ->
  exists m, arrow_key INPUT_KEY_DOWN columns = Some m /\ m e = Ret tt (set_ed_cursor columns e) [] /\ ed_cursor e = columns.
Proof.
  intros Hh Hl Hc Hpos. destruct (holds_bound _ _ _ Hh) as (Hb & Hb0 & Ha0). pose proof Hh as [(junk & Ht) Hs Hlen Hcur _ _].
  eexists. split; [reflexivity|]. split; [|lia]. krun.
  assert (Hdown : text_editor_cursor_next_line e columns = Some columns); [|by rewrite (bind_deref_Some _ _ _ _ Hdown)].
  rewrite lenZ_cons in *. pose proof (lenZ_nonneg (b ++ a)). unfold text_editor_cursor_next_line. rewrite Hcur, Hc.
  rewrite (line_start_first e columns l _ Ht Hl Hc) by lia. cbn [mbind option_bind].
  assert (Hnext : text_editor_find_next_line_start e 0 columns = Some columns).
  { unfold text_editor_find_next_line_start. rewrite (proj2 (Z.eqb_neq columns 0)) by lia.
    apply (next_line_full l _ _ _ 0 [] _ _ Ht Hl); [intros ->; change (lenZ (@nil Z)) with 0 in *; lia|done|lia|lia|unfold lenZ in *; lia]. }
  rewrite Hnext. cbn [mbind option_bind]. rewrite (proj2 (Z.eqb_neq columns 0)), andb_false_r by lia.
  assert (Hzero : text_editor_line_length e columns columns = Some 0).
  { unfold text_editor_line_length. cbn [line_length_loop]. rewrite !(proj2 (Z.ltb_lt _ _)) by lia. cbn [andb]. rewrite Ht, <- Hc.
    cbn [app]. rewrite rd_at. done. }
  rewrite Hzero. cbn [mbind option_bind]. cbn zeta. rewrite (proj2 (Z.ltb_lt 0 _)) by (rewrite u32_small; lia). rewrite u32_small by lia. f_equal. lia.
Qed.

(** *** Samples *)

(** A desktop that counts the alerts it is asked for and opens nothing. *)
#[export] Instance counting_desktop : DesktopServices Z := {
  desktop_show_alert _ _ d := (d + 1, 0);
  desktop_open_app_instance_window _ _ _ _ _ d := (d, -1);
  desktop_launch_app_with_argument _ _ d := (d, -1)
}.

Definition sample_editor (b a : list Z) : text_editor_state :=
  Editor (b ++ a ++ replicate (Z.to_nat EDITOR_TEXT_MAX - length b - length a) 0) (lenZ b + lenZ a) (lenZ b)
    (replicate (Z.to_nat EDITOR_STATUS_MAX) 0) (replicate (Z.to_nat EDITOR_PATH_MAX) 0) 1.

Lemma sample_editor_holds b a : lenZ b + lenZ a < EDITOR_TEXT_MAX -> holds (sample_editor b a) b a.
Proof.
  unfold EDITOR_TEXT_MAX, lenZ. intros Hb. split; try done; cbn [ed_text sample_editor].
  - destruct (Z.to_nat EDITOR_TEXT_MAX - length b - length a)%nat as [|n] eqn:E; [unfold EDITOR_TEXT_MAX in E; lia|]. by exists (replicate n 0).
  - unfold lenZ. rewrite !length_app, length_replicate. unfold EDITOR_TEXT_MAX. lia.
Qed.

Lemma down_key_stuck_witness :
  exists m, arrow_key INPUT_KEY_DOWN 2 = Some m /\
    m (sample_editor [97; 98] [10; 99]) = Ret tt (set_ed_cursor 2 (sample_editor [97; 98] [10; 99])) [] /\ ed_cursor (sample_editor [97; 98] [10; 99]) = 2.
Proof.
  apply (down_key_stuck (sample_editor [97; 98] [10; 99]) 2 [97; 98] [99] []); [|by repeat constructor|done|done].
  apply (sample_editor_holds [97; 98] [10; 99]). done.
Defined.

Definition sample_editor_app : editor_app list_disk Z := EditorApp [sample_editor [97; 98] [10; 99]] sample_files 0.

Definition editor_window : desktop_window :=
  Window 7 5 3 100 40 DESKTOP_WINDOW_FLAG_VISIBLE 5 3 100 40 (cstr "Editor" ++ replicate 25 0) None None None (Some 0).

Definition key_event (k : Z) : desktop_event := DesktopEvent DESKTOP_EVENT_KEY (Event 0 0 (Keycode k) INPUT_KEY_PRESS 0) 0 0 0 0.


Lemma text_editor_load_file_spec_witness :
  exists s' e', text_editor_load_file (replicate 64 7) (Some 0) (Some (cstr "/a")) sample_editor_app = Ret tt s' [] /\
    editor_states s' = [e'] /\ holds e' (lit "abc") [].
Proof.
  destruct (text_editor_load_file_spec (replicate 64 7) eq_refl sample_editor_app 0 (sample_editor [97; 98] [10; 99]) 0 sample_device
    (cstr "/a") (lit "/a") eq_refl sample_root_mounted sample_files_wf eq_refl) as (s' & e' & Hr & Hs & _ & _ & Hres); [done|done| |].
  - intros n i e Ht. replace (open_target (files_vfs (ea_files sample_editor_app)) (lit "/a")) with (Some (lit "a", 0%nat, slice sample_image 20 76)) in Ht
      by (vm_compute; reflexivity). injection Ht as _ _ <-. split_and!; vm_compute; congruence.
  - replace (open_target (files_vfs (ea_files sample_editor_app)) (lit "/a")) with (Some (lit "a", 0%nat, slice sample_image 20 76))
      in Hres by (vm_compute; reflexivity).
    replace (free_slot (ea_files sample_editor_app)) with (Some 0) in Hres by (vm_compute; reflexivity).
    destruct Hres as (Hh & _). exists s', e'. split; [exact Hr|]. split; [exact Hs|].
    replace (lit "abc") with (take 4095 (file_bytes sample_device (slice sample_image 20 76))) by (vm_compute; reflexivity). exact Hh.
Defined.
