(* ===== verification/EditorView.v ===== *)
(** Rendering of the text editor (src/src/desktop/text_editor_app.c,
    text_editor_app_render): header, visible lines with the cursor bar, status
    line. *)
From S2P Require Import Prelude LibString BlockDevice BlockIO TinyFS Vfs FileTable Input Graphics Theme DesktopWindow DesktopInput Editor.

Definition LINE_BUFFER_SIZE : Z := 80.

(** From the line of the cursor upwards, while rows are left. *)
Fixpoint view_loop (fuel : nat) (state : text_editor_state) (columns rows view_start line_count : Z) : option Z :=
  match fuel with
  | O => None
  | S fuel' =>
      if (0 <? view_start) && (line_count <? rows) then
        prev_start ← text_editor_find_prev_line_start state view_start columns;
        if prev_start =? view_start then Some view_start
        else view_loop fuel' state columns rows prev_start (u32 (line_count + 1))
      else Some view_start
  end.

(** The characters of a line, copied to [line_buffer]. *)
Fixpoint line_loop (fuel : nat) (state : text_editor_state) (line_buffer : mem) (columns index count : Z) : option (mem * Z) :=
  match fuel with
  | O => None
  | S fuel' =>
      if (index <? ed_length state) && (count <? columns) && (u32 (count + 1) <? LINE_BUFFER_SIZE) then
        c ← rd (ed_text state) index;
        if c =? 10 then Some (line_buffer, count)
        else
          line_buffer1 ← wr line_buffer count c;
          line_loop fuel' state line_buffer1 columns (u32 (index + 1)) (u32 (count + 1))
      else Some (line_buffer, count)
  end.

Fixpoint lines_loop (fuel : nat) (state : text_editor_state) (columns rows x text_top walk line_count : Z) : M screen unit :=
  match fuel with
  | O => undef
  | S fuel' =>
      if (walk <=? ed_length state) && (line_count <? rows) then
        let draw_x := u32 (u32 x + EDITOR_MARGIN) in
        let draw_y := u32 (u32 (text_top + EDITOR_MARGIN) + u32 (line_count * (GFX_FONT_HEIGHT + EDITOR_LINE_SPACING))) in
        cursor_on_line <- (if walk <=? ed_cursor state
                           then next <- deref (text_editor_find_next_line_start state walk columns);; ret (ed_cursor state <=? next)
                           else ret false);;
        let! (line_buffer, count) :=
          deref (line_loop (Z.to_nat LINE_BUFFER_SIZE) state (replicate (Z.to_nat LINE_BUFFER_SIZE) 0) columns walk 0) in
        gfx_draw_string (i32 draw_x) (i32 draw_y) (Some line_buffer) EDITOR_TEXT_COLOR EDITOR_BG_COLOR;;
        (if (cursor_on_line : bool) then
           let cursor_column0 := u32 (ed_cursor state - walk) in
           let cursor_column := if count <? cursor_column0 then count else cursor_column0 in
           bar_y0 <- signed (i32 draw_y + GFX_FONT_HEIGHT);;
           bar_y <- signed (bar_y0 - 2);;
           draw_fill_rect (i32 (u32 (draw_x + u32 (cursor_column * GFX_FONT_WIDTH)))) bar_y GFX_FONT_WIDTH 2 EDITOR_CURSOR_COLOR
         else ret tt);;
        walk1 <- deref (text_editor_find_next_line_start state walk columns);;
        if (walk1 =? ed_length state) && (ed_cursor state =? ed_length state) && (rows <=? u32 (line_count + 1)) then ret tt
        else
          last_open <- (if (walk1 =? ed_length state) && (0 <? ed_length state)
                        then c <- deref (rd (ed_text state) (u32 (ed_length state - 1)));; ret (negb (c =? 10) && (count <? columns))
                        else ret false);;
          if (last_open : bool) || ((walk1 =? ed_length state) && (ed_length state =? 0)) then ret tt
          else lines_loop fuel' state columns rows x text_top walk1 (u32 (line_count + 1))
      else ret tt
  end.

(** The header: path or [(untitled)]. *)
Definition header_text (state : text_editor_state) : option mem :=
  let header := replicate (Z.to_nat (EDITOR_PATH_MAX + 8)) 0 in
  c ← rd (ed_path state) 0;
  copied ← strlcpy header 0 (if negb (c =? 0) then ed_path state else cstr "(untitled)") (EDITOR_PATH_MAX + 8);
  Some copied.1.

Definition text_editor_app_render (instance : option app_instance) (window : option desktop_window) (states : list text_editor_state) : M screen unit :=
  match window with
  | None => ret tt
  | Some w =>
      match user_data w with
      | None => ret tt
      | Some st =>
          state <- deref (rd states st);;
          x <- desktop_window_content_x window;;
          y <- desktop_window_content_y window;;
          let content_width := desktop_window_content_width window in
          let content_height := desktop_window_content_height window in
          text_top0 <- signed (y + EDITOR_HEADER_HEIGHT);;
          let text_top := u32 text_top0 in
          let text_height := u32 (content_height - EDITOR_HEADER_HEIGHT - EDITOR_STATUS_HEIGHT) in
          draw_fill_rect x y (i32 content_width) (i32 content_height) EDITOR_BG_COLOR;;
          draw_rect x y (i32 content_width) (i32 content_height) EDITOR_BORDER_COLOR;;
          draw_fill_rect x y (i32 content_width) EDITOR_HEADER_HEIGHT 0xffe5dcc8;;
          draw_fill_rect x (i32 (u32 (y + content_height - EDITOR_STATUS_HEIGHT))) (i32 content_width) EDITOR_STATUS_HEIGHT 0xffece5d8;;
          right <- signed (x + i32 content_width);;
          button_x <- signed (right - 56);;
          button_y <- signed (y + 2);;
          draw_fill_rect button_x button_y 48 14 EDITOR_BUTTON_BG;;
          draw_rect button_x button_y 48 14 EDITOR_BORDER_COLOR;;
          label_x <- signed (right - 45);;
          label_y <- signed (y + 5);;
          gfx_draw_string label_x label_y (Some (cstr "Save")) EDITOR_BUTTON_FG EDITOR_BUTTON_BG;;
          header <- deref (header_text state);;
          header_x <- signed (x + EDITOR_MARGIN);;
          gfx_draw_string header_x label_y (Some header) EDITOR_TEXT_COLOR 0xffe5dcc8;;
          let columns := if EDITOR_MARGIN * 2 <? content_width then u32 (content_width - EDITOR_MARGIN * 2) / GFX_FONT_WIDTH else 0 in
          let rows := if EDITOR_MARGIN <? text_height then u32 (text_height - EDITOR_MARGIN) / (GFX_FONT_HEIGHT + EDITOR_LINE_SPACING) else 0 in
          if (columns =? 0) || (rows =? 0) then ret tt
          else
            cursor_line_start <- deref (text_editor_find_line_start state (ed_cursor state) columns);;
            view_start <- deref (view_loop (S (Z.to_nat rows)) state columns rows cursor_line_start 1);;
            lines_loop (S (Z.to_nat rows)) state columns rows x text_top view_start 0;;
            gfx_draw_string header_x (i32 (u32 (y + content_height - EDITOR_STATUS_HEIGHT + 3))) (Some (ed_status state)) EDITOR_MUTED_COLOR 0xffece5d8
      end
  end.

(** ** Rendering ends and stays in bounds *)

(** What the renderer reads besides the buffer. *)
Record renderable (e : text_editor_state) : Prop := {
  rn_text : Forall (fun c => 0 <= c < 256) (ed_text e);
  rn_status : exists st, cval (ed_status e) = Some st /\ Forall (fun c => 0 <= c < 256) st /\ lenZ st < 64;
  rn_path : exists p, cval (ed_path e) = Some p /\ Forall (fun c => 0 <= c < 256) p /\ lenZ p < 64
}.

(** Operation [m] is a finite drawing. *)
Definition paints {S} (emb : screen -> S) (m : M S unit) : Prop := exists g, draws_in emb m g.

Section paints.
Context {S : Type} (emb : screen -> S).
Lemma paints_ret : paints emb (ret tt).
Proof. exists blank_picture. apply draws_ret. Qed.
Lemma paints_bind m1 m2 : paints emb m1 -> paints emb m2 -> paints emb (m1;; m2).
Proof. intros [g1 H1] [g2 H2]. exists (over g2 g1). by apply draws_bind. Qed.
Lemma paints_signed z (k : Z -> M S unit) : - 2 ^ 31 <= z < 2 ^ 31 -> paints emb (k z) -> paints emb (bind (signed z) k).
Proof. intros Hz [g Hg]. exists g. by apply draws_signed. Qed.
Lemma paints_deref {A} (o : option A) a (k : A -> M S unit) : o = Some a -> paints emb (k a) -> paints emb (bind (deref o) k).
Proof. intros Ho [g Hg]. exists g. by apply (draws_deref Ho). Qed.
Lemma paints_run {A} (m : M S A) a (k : A -> M S unit) : (forall s, m s = Ret a s []) -> paints emb (k a) -> paints emb (bind m k).
Proof. intros Hm [g Hg]. exists g. apply (draws_run (fun fb => Hm (emb fb)) Hg). Qed.
End paints.

Lemma paints_fill x y w h c : near x -> near y -> near w -> near h -> paints (fun s => s) (draw_fill_rect x y w h c).
Proof. intros. eexists. by apply draw_fill_rect_draws. Qed.
Lemma paints_rect x y w h c : near x -> near y -> near w -> near h -> paints (fun s => s) (draw_rect x y w h c).
Proof. intros. eexists. by apply draw_rect_draws. Qed.
Lemma paints_string x y t s fg bg :
  cval t = Some s -> Forall (fun c => 0 <= c < 256) s -> near x -> near y -> lenZ s < 2 ^ 25 ->
  paints (fun s => s) (gfx_draw_string x y (Some t) fg bg).
Proof. intros. eexists. by eapply gfx_draw_string_draws. Qed.

(** The string in a buffer that a zero ends. *)
Lemma cval_prefix (P : Z -> Prop) l r : Forall P l -> exists s, cval (l ++ 0 :: r) = Some s /\ Forall P s /\ lenZ s <= lenZ l.
Proof.
  induction 1 as [|c l Hc Hl IH]; [by exists []|]. destruct IH as (s & Hs & Hf & Hle). cbn [app cval].
  destruct (c =? 0); [exists []; rewrite lenZ_cons; split_and!; [done|by constructor|pose proof (lenZ_nonneg l); change (lenZ (@nil Z)) with 0; lia]|].
  rewrite Hs. exists (c :: s). rewrite !lenZ_cons. split_and!; [done|by constructor|lia].
Qed.

Section rendering.
Context (e : text_editor_state) (b a : list Z) (Hh : holds e b a) (Hrn : renderable e) (columns : Z) (Hcol : 0 < columns < 2 ^ 28).

Lemma length_4096 : 0 <= ed_length e < 4096 /\ 0 <= ed_cursor e <= ed_length e /\ lenZ (ed_text e) = 4096.
Proof using Hh.
  destruct (holds_bound e b a Hh) as (Hb & Hb0 & Ha0). pose proof Hh as [_ Hs Hl Hc _ _]. unfold EDITOR_TEXT_MAX in Hs. lia.
Qed.

Lemma view_loop_ok rows fuel vs n :
  0 <= vs <= ed_length e -> 0 <= n <= rows -> rows < 2 ^ 30 -> rows - n < Z.of_nat fuel ->
  exists r, view_loop fuel e columns rows vs n = Some r /\ 0 <= r <= vs.
Proof using Hh.
  pose proof length_4096 as (Hl & _). intros Hvs Hn Hr. revert vs n Hvs Hn.
  induction fuel as [|fuel IH]; intros vs n Hvs Hn Hf; [lia|]. cbn [view_loop].
  destruct (Z.ltb_spec 0 vs), (Z.ltb_spec n rows); cbn [andb]; try (exists vs; split; [done|lia]).
  unfold text_editor_find_prev_line_start. rewrite (proj2 (Z.eqb_neq vs 0)), (u32_small (vs - 1)) by lia.
  destruct (find_line_start_ok e b a (vs - 1) columns Hh ltac:(lia)) as (ps & -> & Hps). cbn [mbind option_bind].
  destruct (ps =? vs); [exists vs; split; [done|lia]|]. rewrite u32_small by lia.
  destruct (IH ps (n + 1)) as (r & -> & Hrb); [lia|lia|lia|]. exists r. split; [done|lia].
Qed.

Lemma line_loop_ok fuel l r index :
  lenZ l + lenZ r = 80 -> 1 <= lenZ r -> Forall (fun c => 0 <= c < 256) l -> 0 <= index <= ed_length e -> lenZ r <= Z.of_nat fuel ->
  exists l' r', line_loop fuel e (l ++ r) columns index (lenZ l) = Some (l' ++ r', lenZ l') /\
    Forall (fun c => 0 <= c < 256) l' /\ lenZ l' + lenZ r' = 80 /\ 1 <= lenZ r' /\ exists n, r' = drop n r.
Proof using Hh Hrn.
  pose proof length_4096 as (Hl & _ & Ht). revert l r index. induction fuel as [|fuel IH]; intros l r index Hlr Hr Hb Hi Hf; [lia|].
  cbn [line_loop]. pose proof (lenZ_nonneg l). unfold LINE_BUFFER_SIZE. rewrite (u32_small (lenZ l + 1)) by lia.
  assert (Hstop : exists l' r', Some (l ++ r, lenZ l) = Some (l' ++ r', lenZ l') /\
    Forall (fun c => 0 <= c < 256) l' /\ lenZ l' + lenZ r' = 80 /\ 1 <= lenZ r' /\ exists n, r' = drop n r).
  { exists l, r. do 4 (split; [done|]). by exists 0%nat. }
  destruct (Z.ltb_spec index (ed_length e)) as [Hil|]; [|done]. destruct (lenZ l <? columns); [|done].
  destruct (Z.ltb_spec (lenZ l + 1) 80) as [Hroom|]; [|done]. cbn [andb].
  destruct (rd_Some (ed_text e) index) as [c Hc]; [lia|]. rewrite Hc. cbn [mbind option_bind].
  destruct (c =? 10); [done|]. destruct r as [|z r]; [change (lenZ (@nil Z)) with 0 in Hr; lia|]. rewrite lenZ_cons in *.
  rewrite wr_app. cbn [mbind option_bind]. change (c :: r) with ([c] ++ r). rewrite app_assoc.
  assert (Hll : lenZ (l ++ [c]) = lenZ l + 1) by (rewrite lenZ_app; done). rewrite <- Hll.
  rewrite u32_small by lia. assert (Hcb : 0 <= c < 256).
  { unfold rd in Hc. destruct (0 <=? index); [|done]. exact (Forall_lookup_1 _ _ _ _ (rn_text e Hrn) Hc). }
  destruct (IH (l ++ [c]) r (index + 1)) as (l' & r' & -> & Hb' & Hs & Hr' & n & ->); [lia|lia|by apply Forall_app; split; [|constructor]|lia|lia|].
  exists l', (drop n r). do 4 (split; [done|]). by exists (S n).
Qed.

(** A row of the text: its characters fit the line buffer, so they are drawn
    without the buffer running over. *)
Lemma line_chars walk :
  0 <= walk <= ed_length e ->
  exists buffer count s, line_loop (Z.to_nat LINE_BUFFER_SIZE) e (replicate (Z.to_nat LINE_BUFFER_SIZE) 0) columns walk 0 = Some (buffer, count) /\
    0 <= count < 80 /\ cval buffer = Some s /\ Forall (fun c => 0 <= c < 256) s /\ lenZ s < 80.
Proof using Hh Hrn.
  intros Hw. destruct (line_loop_ok (Z.to_nat LINE_BUFFER_SIZE) [] (replicate 80 0) walk) as (l & r & Hrun & Hb & Hs & Hr & n & Hn);
    [done|done|by constructor|done|done|].
  change ([] ++ replicate 80 0) with (replicate (Z.to_nat LINE_BUFFER_SIZE) 0) in Hrun. change (lenZ (@nil Z)) with 0 in Hrun.
  rewrite drop_replicate in Hn. destruct r as [|z r]; [change (lenZ (@nil Z)) with 0 in Hr; lia|].
  assert (z = 0) as -> by (destruct (80 - n)%nat; [done|]; by injection Hn).
  destruct (cval_prefix _ l r Hb) as (s & Hcv & Hsb & Hsl). rewrite lenZ_cons in Hs. pose proof (lenZ_nonneg r). pose proof (lenZ_nonneg l).
  exists (l ++ 0 :: r), (lenZ l), s. split_and!; [done|lia|lia|done|done|lia].
Qed.

Lemma lines_loop_paints rows x top fuel :
  - 2 ^ 28 <= x <= 2 ^ 28 + 8 -> - 2 ^ 28 <= top <= 2 ^ 28 + 42 -> rows <= 2 ^ 24 -> forall walk n,
  0 <= walk <= ed_length e -> 0 <= n <= rows -> rows - n < Z.of_nat fuel ->
  paints (fun s => s) (lines_loop fuel e columns rows x (u32 top) walk n).
Proof using Hh Hrn.
  intros Hx Htop Hrows. pose proof length_4096 as (Hl & Hcur & Ht). induction fuel as [|fuel IH]; intros walk n Hw Hn Hf; [lia|].
  cbn [lines_loop]. destruct (_ && _) eqn:Hin; [|apply paints_ret]. apply andb_prop in Hin as [_ Hnr%Z.ltb_lt]. cbn zeta.
  change (GFX_FONT_HEIGHT + EDITOR_LINE_SPACING) with 10. unfold EDITOR_MARGIN. rewrite (u32_add_l top 6), !u32_add_l, !u32_add_r.
  destruct (find_next_ok e b a walk columns Hh Hw) as (next & Hnext & Hnb).
  assert (Hon : exists on : bool, forall s : screen, (if walk <=? ed_cursor e
    then nx <- deref (text_editor_find_next_line_start e walk columns);; ret (ed_cursor e <=? nx) else ret false) s = Ret on s []).
  { destruct (walk <=? ed_cursor e); [|by exists false]. eexists. intros s. by rewrite (bind_deref_Some _ _ _ _ Hnext). }
  destruct Hon as (on & Hon). apply (paints_run _ _ on _ Hon).
  destruct (line_chars walk Hw) as (buffer & count & s & Hline & Hc & Hcv & Hsb & Hsl). apply (paints_deref _ _ _ _ Hline). cbn iota.
  rewrite !i32_u32 by lia. apply paints_bind; [apply (paints_string _ _ _ s); [done|done|unfold near; lia|unfold near; lia|lia]|].
  apply paints_bind.
  { destruct on; [|apply paints_ret]. change GFX_FONT_HEIGHT with 8. change GFX_FONT_WIDTH with 8. apply paints_signed; [lia|]. apply paints_signed; [lia|].
    set (column := if count <? u32 (ed_cursor e - walk) then count else u32 (ed_cursor e - walk)).
    assert (Hcolumn : 0 <= column <= count) by (unfold column; pose proof (u32_bound (ed_cursor e - walk)); destruct (Z.ltb_spec count (u32 (ed_cursor e - walk))); lia).
    rewrite (u32_add_l (x + 6)), u32_add_r, i32_u32 by lia. apply paints_fill; unfold near; lia. }
  apply (paints_deref _ _ _ _ Hnext). destruct (_ && _ && _); [apply paints_ret|].
  assert (Hlast : exists last : bool, forall s : screen, (if (next =? ed_length e) && (0 <? ed_length e)
    then c <- deref (rd (ed_text e) (u32 (ed_length e - 1)));; ret (negb (c =? 10) && (count <? columns)) else ret false) s = Ret last s []).
  { destruct (next =? ed_length e); [|by exists false]. destruct (Z.ltb_spec 0 (ed_length e)); [|by exists false]. cbn [andb].
    rewrite u32_small by lia. destruct (rd_Some (ed_text e) (ed_length e - 1)) as [c Hrd]; [lia|]. eexists. intros s'. by rewrite (bind_deref_Some _ _ _ _ Hrd). }
  destruct Hlast as (last & Hlast). apply (paints_run _ _ last _ Hlast). destruct (last || _); [apply paints_ret|].
  rewrite (u32_small (n + 1)) by lia. apply IH; lia.
Qed.
End rendering.

Lemma header_text_ok e p :
  cval (ed_path e) = Some p -> Forall (fun c => 0 <= c < 256) p -> lenZ p < 64 ->
  exists hd hs, header_text e = Some hd /\ cval hd = Some hs /\ Forall (fun c => 0 <= c < 256) hs /\ lenZ hs < 72.
Proof.
  intros Hp Hb Hl. unfold header_text. destruct (cval_inv _ _ Hp) as (Hn & r & Heq).
  assert (Hc : exists c, rd (ed_path e) 0 = Some c) by (rewrite Heq; destruct p; by eexists).
  destruct Hc as (c & Hc). rewrite Hc. cbn [mbind option_bind].
  set (shown := if negb (c =? 0) then p else lit "(untitled)").
  assert (Hsrc : exists r', (if negb (c =? 0) then ed_path e else cstr "(untitled)") = shown ++ 0 :: r') by (unfold shown; destruct (negb _); [by exists r|by exists []]).
  assert (Hshown : no_nul shown /\ Forall (fun c => 0 <= c < 256) shown /\ lenZ shown < 64).
  { unfold shown. destruct (negb _); [done|]. split; [apply (bool_decide_unpack _); vm_compute; exact I|]. split; [apply label_bytes|done]. }
  destruct Hsrc as (r' & ->), Hshown as (Hsn & Hsb & Hsl). change (EDITOR_PATH_MAX + 8) with 72.
  assert (Hcopy : strlcpy (replicate (Z.to_nat 72) 0) 0 (shown ++ 0 :: r') 72 = Some (splice (replicate (Z.to_nat 72) 0) 0 (take 71 shown ++ [0]), lenZ shown))
    by (by apply strlcpy_spec).
  rewrite Hcopy. cbn [mbind option_bind fst]. eexists _, (take 71 shown). split; [done|].
  assert (Htk : take 71 shown = shown) by (apply take_ge; unfold lenZ in Hsl; lia). rewrite Htk. split; [|split; [done|lia]].
  unfold splice. rewrite take_0. cbn [app]. rewrite <- app_assoc. by apply cval_app.
Qed.

(** Rendering ends on every framebuffer with a drawing, for a window that has
    room for the status line: the two loops make progress, every read is
    inside the text, the line buffer is never overrun, and no coordinate
    overflows. *)
Theorem text_editor_render_total w states st e b a instance :
  win_wf w -> user_data w = Some st -> rd states st = Some e -> holds e b a -> renderable e -> 32 <= desktop_window_content_height (Some w) < 2 ^ 27 ->
  paints (fun s => s) (text_editor_app_render instance (Some w) states).
Proof.
  intros Hwf Hu Hst Hh Hrn Hch. pose proof (content_width_bound w Hwf) as Hcw. pose proof (content_height_bound w Hwf) as Hchb.
  pose proof (length_4096 e b a Hh) as (Hl & Hcur & Ht). pose proof Hwf as [Hx Hy Hw Hhh]. pose proof Hrn as [_ (s & Hsv & Hsb & Hsl) (p & Hpv & Hpb & Hpl)].
  unfold text_editor_app_render. rewrite Hu. apply (paints_deref _ _ _ _ Hst).
  apply (paints_run _ _ _ _ (fun s => content_x_run w s Hwf)), (paints_run _ _ _ _ (fun s => content_y_run w s Hwf)). cbn zeta.
  set (cw := desktop_window_content_width (Some w)) in *. set (ch := desktop_window_content_height (Some w)) in *.
  unfold EDITOR_HEADER_HEIGHT, EDITOR_STATUS_HEIGHT. apply paints_signed; [lia|]. rewrite !i32_small by lia.
  rewrite !i32_u32 by lia.
  apply paints_bind; [apply paints_fill; unfold near; lia|]. apply paints_bind; [apply paints_rect; unfold near; lia|].
  apply paints_bind; [apply paints_fill; unfold near; lia|]. apply paints_bind; [apply paints_fill; unfold near; lia|].
  do 3 (apply paints_signed; [lia|]). apply paints_bind; [apply paints_fill; unfold near; lia|]. apply paints_bind; [apply paints_rect; unfold near; lia|].
  do 2 (apply paints_signed; [lia|]).
  apply paints_bind; [apply (paints_string _ _ _ (lit "Save")); [done|by repeat constructor|unfold near; lia|unfold near; lia|done]|].
  destruct (header_text_ok e p Hpv Hpb Hpl) as (hd & hs & Hhd & Hhs & Hhb & Hhl). apply (paints_deref _ _ _ _ Hhd).
  unfold EDITOR_MARGIN. apply paints_signed; [lia|].
  apply paints_bind; [apply (paints_string _ _ _ hs); [done|done|unfold near; lia|unfold near; lia|lia]|].
  rewrite (u32_small (ch - 18 - 14)) by lia. change GFX_FONT_WIDTH with 8. change (GFX_FONT_HEIGHT + EDITOR_LINE_SPACING) with 10.
  set (columns := if 6 * 2 <? cw then _ else 0). set (rows := if 6 <? ch - 18 - 14 then _ else 0).
  assert (Hcols : 0 <= columns < 2 ^ 28).
  { unfold columns. destruct (Z.ltb_spec (6 * 2) cw); [|lia]. rewrite u32_small by lia. Z.div_mod_to_equations. lia. }
  assert (Hrows : 0 <= rows <= 2 ^ 24).
  { unfold rows. destruct (Z.ltb_spec 6 (ch - 18 - 14)); [|lia]. rewrite u32_small by lia. Z.div_mod_to_equations. lia. }
  destruct (Z.eqb_spec columns 0) as [|Hc0]; [apply paints_ret|]. destruct (Z.eqb_spec rows 0) as [|Hr0]; [apply paints_ret|]. cbn [orb].
  destruct (find_line_start_ok e b a (ed_cursor e) columns Hh ltac:(lia)) as (ls & Hls & Hlsb). apply (paints_deref _ _ _ _ Hls).
  destruct (view_loop_ok e b a Hh columns rows (S (Z.to_nat rows)) ls 1) as (vs & Hvs & Hvsb); [lia|lia|lia|lia|].
  apply (paints_deref _ _ _ _ Hvs). apply paints_bind; [apply (lines_loop_paints e b a); [done|done|lia..]|].
  apply (paints_string _ _ _ s); [done|done|unfold near; lia|unfold near; lia|lia].
Qed.

Definition tall_window : desktop_window :=
  Window 7 5 3 100 90 DESKTOP_WINDOW_FLAG_VISIBLE 5 3 100 90 (cstr "Editor" ++ replicate 25 0) None None None (Some 0).

Lemma text_editor_render_total_witness :
  holds (sample_editor [97; 98] [10; 99]) [97; 98] [10; 99] /\ paints (fun s => s) (text_editor_app_render None (Some tall_window) [sample_editor [97; 98] [10; 99]]).
Proof.
  split; [by apply sample_editor_holds|].
  apply (text_editor_render_total tall_window [sample_editor [97; 98] [10; 99]] 0 (sample_editor [97; 98] [10; 99]) [97; 98] [10; 99] None);
    [split; vm_compute; done|done|done|by apply sample_editor_holds| |split; vm_compute; congruence].
  split; [apply (bool_decide_unpack _); vm_compute; exact I| |]; exists []; done.
Defined.
