(* ===== verification/MMU.v ===== *)
(** Translation tables (src/src/arch/aarch64/mmu.c): how they are built, the
    pages of a user program, and the cache maintenance of buffers. The five
    tables are named by [table]; their addresses are the linker's. Barriers,
    TLB and cache instructions are recorded in the order they are issued. The
    last part reads the tables the way the processor does and states what the
    kernel's tables map. *)
From S2P Require Import Prelude LibString Klog Memory.

(** ** Constants *)

Definition MMU_TABLE_ENTRIES : Z := 512.
Definition MMU_L1_BLOCK_SIZE : Z := 0x40000000.
Definition MMU_L2_BLOCK_SIZE : Z := 0x00200000.
Definition MMU_L3_PAGE_SIZE : Z := 0x00001000.

Definition MMU_DESC_VALID : Z := Z.shiftl 1 0.
Definition MMU_DESC_TABLE : Z := Z.shiftl 1 1.
Definition MMU_DESC_BLOCK : Z := MMU_DESC_VALID.
Definition MMU_DESC_PAGE : Z := Z.lor MMU_DESC_VALID MMU_DESC_TABLE.
Definition MMU_DESC_AF : Z := Z.shiftl 1 10.
Definition MMU_DESC_SH_INNER : Z := Z.shiftl 3 8.
Definition MMU_DESC_ATTR_DEVICE : Z := Z.shiftl 0 2.
Definition MMU_DESC_ATTR_NORMAL : Z := Z.shiftl 1 2.
Definition MMU_DESC_AP_USER_RW : Z := Z.shiftl 1 6.
Definition MMU_DESC_AP_USER_RO : Z := Z.shiftl 3 6.
Definition MMU_DESC_PXN : Z := Z.shiftl 1 53.
Definition MMU_DESC_UXN : Z := Z.shiftl 1 54.

Definition MAIR_ATTR_DEVICE_nGnRnE : Z := 0x00.
Definition MAIR_ATTR_NORMAL_WBWA : Z := 0xff.

Definition TCR_T0SZ_39BIT : Z := 25.
Definition TCR_IRGN0_WBWA : Z := Z.shiftl 1 8.
Definition TCR_ORGN0_WBWA : Z := Z.shiftl 1 10.
Definition TCR_SH0_INNER : Z := Z.shiftl 3 12.
Definition TCR_TG0_4K : Z := Z.shiftl 0 14.
Definition TCR_EPD1_DISABLE : Z := Z.shiftl 1 23.
Definition TCR_IPS_1TB : Z := Z.shiftl 2 32.

Definition SCTLR_M : Z := Z.shiftl 1 0.
Definition SCTLR_C : Z := Z.shiftl 1 2.
Definition SCTLR_I : Z := Z.shiftl 1 12.

Definition GICD_BASE : Z := 0x08000000.
Definition platform_get_uart0_base : Z := 0x09000000.
Definition platform_get_virtio_mmio_base : Z := 0x0a000000.
Definition platform_get_pci_ecam_base : Z := 0x4010000000.
Definition platform_get_pci_ecam_size : Z := 0x10000000.

(** ** State *)

Inductive table : Set := mmu_l1_table | mmu_l2_low_table | mmu_l2_ram_table | mmu_l2_pci_table | mmu_l3_user_table.
#[export] Instance table_eq_dec : EqDecision table.
Proof. solve_decision. Defined.

Inductive mmu_op : Set :=
| DsbIsh | DsbIshst | Isb
| TlbiVmalle1 | TlbiVaae1is (page : Z)
| DcCvau (line : Z) | IcIvau (line : Z) | DcCivac (line : Z) | DcIvac (line : Z).

Record mmu : Type := Mmu {
  entries : table -> list Z;
  mmu_initialized : Z;
  sctlr_el1 : Z;
  mair_el1 : Z;
  tcr_el1 : Z;
  ttbr0_el1 : Z;
  issued : list mmu_op
}.
Definition set_entries (v : table -> list Z) (s : mmu) : mmu :=
  Mmu v (mmu_initialized s) (sctlr_el1 s) (mair_el1 s) (tcr_el1 s) (ttbr0_el1 s) (issued s).
Definition set_mmu_initialized (v : Z) (s : mmu) : mmu :=
  Mmu (entries s) v (sctlr_el1 s) (mair_el1 s) (tcr_el1 s) (ttbr0_el1 s) (issued s).
Definition set_sctlr_el1 (v : Z) (s : mmu) : mmu :=
  Mmu (entries s) (mmu_initialized s) v (mair_el1 s) (tcr_el1 s) (ttbr0_el1 s) (issued s).
Definition set_mair_el1 (v : Z) (s : mmu) : mmu :=
  Mmu (entries s) (mmu_initialized s) (sctlr_el1 s) v (tcr_el1 s) (ttbr0_el1 s) (issued s).
Definition set_tcr_el1 (v : Z) (s : mmu) : mmu :=
  Mmu (entries s) (mmu_initialized s) (sctlr_el1 s) (mair_el1 s) v (ttbr0_el1 s) (issued s).
Definition set_ttbr0_el1 (v : Z) (s : mmu) : mmu :=
  Mmu (entries s) (mmu_initialized s) (sctlr_el1 s) (mair_el1 s) (tcr_el1 s) v (issued s).
Definition set_issued (v : list mmu_op) (s : mmu) : mmu :=
  Mmu (entries s) (mmu_initialized s) (sctlr_el1 s) (mair_el1 s) (tcr_el1 s) (ttbr0_el1 s) v.

(** ** Operations *)

Section operations.
Context (plat : platform) (table_address : table -> Z).

Definition issue (op : mmu_op) : M mmu unit := modify (fun s => set_issued (issued s ++ [op]) s).
Definition mmu_dsb_ish : M mmu unit := issue DsbIsh.
Definition mmu_dsb_ishst : M mmu unit := issue DsbIshst.
Definition mmu_isb : M mmu unit := issue Isb.
Definition mmu_tlbi_vmalle1 : M mmu unit := issue TlbiVmalle1.
Definition mmu_tlbi_vaae1 (address : Z) : M mmu unit := issue (TlbiVaae1is (Z.shiftr address 12)).
Definition mmu_ic_ivau (address : Z) : M mmu unit := issue (IcIvau address).
Definition mmu_dc_cvau (address : Z) : M mmu unit := issue (DcCvau address).
Definition mmu_dc_civac (address : Z) : M mmu unit := issue (DcCivac address).
Definition mmu_dc_ivac (address : Z) : M mmu unit := issue (DcIvac address).

Definition mmu_l1_index (address : Z) : Z := Z.land (address / MMU_L1_BLOCK_SIZE) 0x1ff.
Definition mmu_l2_index (address : Z) : Z := Z.land (address / MMU_L2_BLOCK_SIZE) 0x1ff.
Definition mmu_l3_index (address : Z) : Z := Z.land (address / MMU_L3_PAGE_SIZE) 0x1ff.

Definition set_table (t : table) (v : list Z) : M mmu unit :=
  modify (fun s => set_entries (fun t' => if decide (t' = t) then v else entries s t') s).
(** The store [table[index] = descriptor]. *)
Definition store_entry (t : table) (index descriptor : Z) : M mmu unit :=
  old <- gets (fun s => entries s t);; new <- deref (wr old index descriptor);; set_table t new.

Definition mmu_map_l1_table (virtual_address : Z) (t : table) : M mmu unit :=
  store_entry mmu_l1_table (mmu_l1_index virtual_address)
    (Z.lor (Z.lor (Z.land (table_address t) (not64 0xfff)) MMU_DESC_VALID) MMU_DESC_TABLE).
Definition mmu_map_l2_block (t : table) (address attributes : Z) : M mmu unit :=
  store_entry t (mmu_l2_index address) (Z.lor (Z.lor (Z.land address (not64 (MMU_L2_BLOCK_SIZE - 1))) attributes) MMU_DESC_BLOCK).
Definition mmu_map_l2_table (t : table) (virtual_address : Z) (next_table : table) : M mmu unit :=
  store_entry t (mmu_l2_index virtual_address)
    (Z.lor (Z.lor (Z.land (table_address next_table) (not64 0xfff)) MMU_DESC_VALID) MMU_DESC_TABLE).
Definition mmu_map_l3_page (t : table) (virtual_address physical_address attributes : Z) : M mmu unit :=
  store_entry t (mmu_l3_index virtual_address)
    (Z.lor (Z.lor (Z.land physical_address (not64 (MMU_L3_PAGE_SIZE - 1))) attributes) MMU_DESC_PAGE).

Definition device_attributes : Z :=
  Z.lor (Z.lor (Z.lor MMU_DESC_AF MMU_DESC_ATTR_DEVICE) MMU_DESC_PXN) MMU_DESC_UXN.
Definition ram_attributes : Z := Z.lor (Z.lor MMU_DESC_AF MMU_DESC_SH_INNER) MMU_DESC_ATTR_NORMAL.
Definition user_code_attributes : Z :=
  Z.lor (Z.lor (Z.lor (Z.lor MMU_DESC_AF MMU_DESC_SH_INNER) MMU_DESC_ATTR_NORMAL) MMU_DESC_AP_USER_RO) MMU_DESC_PXN.
Definition user_data_attributes : Z :=
  Z.lor (Z.lor (Z.lor (Z.lor (Z.lor MMU_DESC_AF MMU_DESC_SH_INNER) MMU_DESC_ATTR_NORMAL) MMU_DESC_AP_USER_RW) MMU_DESC_PXN) MMU_DESC_UXN.

(** A loop that maps a range in blocks of 2 MiB. *)
Fixpoint map_blocks (fuel : nat) (t : table) (address end_ attributes : Z) : M mmu unit :=
  match fuel with
  | O => undef
  | S fuel' =>
      if address <? end_ then
        mmu_map_l2_block t address attributes;;
        map_blocks fuel' t (u64 (address + MMU_L2_BLOCK_SIZE)) end_ attributes
      else ret tt
  end.
Definition block_fuel (start end_ : Z) : nat := Z.to_nat ((end_ - start) / MMU_L2_BLOCK_SIZE + 2).

Definition clear_table (t : table) : M mmu unit := set_table t (replicate (Z.to_nat MMU_TABLE_ENTRIES) 0).

Definition mmu_build_tables : M mmu unit :=
  clear_table mmu_l1_table;;
  clear_table mmu_l2_low_table;;
  clear_table mmu_l2_ram_table;;
  clear_table mmu_l2_pci_table;;
  clear_table mmu_l3_user_table;;
  mmu_map_l1_table 0 mmu_l2_low_table;;
  mmu_map_l1_table (platform_get_ram_base plat) mmu_l2_ram_table;;
  mmu_map_l2_table mmu_l2_low_table 0 mmu_l3_user_table;;
  (if negb (platform_get_pci_ecam_base =? 0) && negb (platform_get_pci_ecam_size =? 0)
   then mmu_map_l1_table platform_get_pci_ecam_base mmu_l2_pci_table else ret tt);;
  mmu_map_l2_block mmu_l2_low_table GICD_BASE device_attributes;;
  mmu_map_l2_block mmu_l2_low_table platform_get_uart0_base device_attributes;;
  mmu_map_l2_block mmu_l2_low_table platform_get_virtio_mmio_base device_attributes;;
  let ram_start := platform_get_ram_base plat in
  let ram_end := u64 (ram_start + platform_get_ram_size plat) in
  map_blocks (block_fuel ram_start ram_end) mmu_l2_ram_table ram_start ram_end ram_attributes;;
  let pci_ecam_end := u64 (platform_get_pci_ecam_base + platform_get_pci_ecam_size) in
  map_blocks (block_fuel platform_get_pci_ecam_base pci_ecam_end) mmu_l2_pci_table platform_get_pci_ecam_base pci_ecam_end device_attributes.

Definition mmu_map_user_page (virtual_address physical_address attributes : Z) : M mmu unit :=
  mmu_map_l3_page mmu_l3_user_table virtual_address physical_address attributes;;
  mmu_dsb_ishst;;
  mmu_tlbi_vaae1 virtual_address;;
  mmu_dsb_ish;;
  mmu_isb.

Definition mmu_is_enabled (s : mmu) : bool := negb (Z.land (sctlr_el1 s) SCTLR_M =? 0).

Definition mmu_init : M mmu unit :=
  initialized <- gets mmu_initialized;;
  enabled <- gets mmu_is_enabled;;
  if negb (initialized =? 0) || (enabled : bool) then modify (set_mmu_initialized 1)
  else
    klog_info "mmu: enabling";;
    mmu_build_tables;;
    mmu_dsb_ishst;;
    let mair := Z.lor (Z.shiftl MAIR_ATTR_DEVICE_nGnRnE 0) (Z.shiftl MAIR_ATTR_NORMAL_WBWA 8) in
    let tcr := Z.lor (Z.lor (Z.lor (Z.lor (Z.lor (Z.lor TCR_T0SZ_39BIT TCR_IRGN0_WBWA) TCR_ORGN0_WBWA) TCR_SH0_INNER) TCR_TG0_4K)
                 TCR_EPD1_DISABLE) TCR_IPS_1TB in
    modify (set_mair_el1 mair);;
    modify (set_tcr_el1 tcr);;
    modify (set_ttbr0_el1 (table_address mmu_l1_table));;
    mmu_isb;;
    mmu_tlbi_vmalle1;;
    mmu_dsb_ish;;
    mmu_isb;;
    sctlr <- gets sctlr_el1;;
    modify (set_sctlr_el1 (Z.lor sctlr (Z.lor (Z.lor SCTLR_M SCTLR_C) SCTLR_I)));;
    mmu_isb;;
    modify (set_mmu_initialized 1);;
    klog_info "mmu: enabled".

Definition mmu_map_user_code_page (virtual_address physical_address : Z) : M mmu unit :=
  mmu_map_user_page virtual_address physical_address user_code_attributes.
Definition mmu_map_user_data_page (virtual_address physical_address : Z) : M mmu unit :=
  mmu_map_user_page virtual_address physical_address user_data_attributes.

(** A loop over the cache lines of a range. *)
Fixpoint for_lines (fuel : nat) (current end_ : Z) (line_op : Z -> M mmu unit) : M mmu unit :=
  match fuel with
  | O => undef
  | S fuel' => if current <? end_ then line_op current;; for_lines fuel' (u64 (current + 64)) end_ line_op else ret tt
  end.
Definition line_start (address : Z) : Z := Z.land address (not64 63).
Definition line_end (address size : Z) : Z := Z.land (u64 (u64 (address + size) + 63)) (not64 63).
Definition line_fuel (address size : Z) : nat := Z.to_nat ((line_end address size - line_start address) / 64 + 2).

Definition mmu_sync_for_exec (address size : Z) : M mmu unit :=
  for_lines (line_fuel address size) (line_start address) (line_end address size) mmu_dc_cvau;;
  mmu_dsb_ish;;
  for_lines (line_fuel address size) (line_start address) (line_end address size) mmu_ic_ivau;;
  mmu_dsb_ish;;
  mmu_isb.
Definition mmu_sync_for_device (address size : Z) : M mmu unit :=
  for_lines (line_fuel address size) (line_start address) (line_end address size) mmu_dc_civac;;
  mmu_dsb_ish.
Definition mmu_sync_for_cpu (address size : Z) : M mmu unit :=
  for_lines (line_fuel address size) (line_start address) (line_end address size) mmu_dc_ivac;;
  mmu_dsb_ish;;
  mmu_isb.

End operations.

(** ** The walk of the processor

    Four kilobyte pages and 39-bit addresses, as [mmu_init] programs it: a table
    descriptor has bits 1 and 0 set, a block descriptor of level 1 or 2 only
    bit 0, a page descriptor of level 3 both; bits 47 to 12 are the address; a
    clear access flag faults. *)

Section walk.
Context (table_address : table -> Z).

Definition tables : list table := [mmu_l1_table; mmu_l2_low_table; mmu_l2_ram_table; mmu_l2_pci_table; mmu_l3_user_table].
Definition address_mask (k : Z) : Z := Z.shiftl (Z.ones (48 - k)) k.

(** The descriptor in entry [i] of the table at an address. *)
Definition fetch (s : mmu) (address i : Z) : option Z :=
  '(_, t) ← list_find (fun t => table_address t = address) tables;
  rd (entries s t) i.

Record leaf : Type := Leaf { output : Z; descriptor : Z }.

(** The leaf at level [3 - n], for [n] further levels; [k] address bits are left. *)
Fixpoint descend (n : nat) (s : mmu) (base k va : Z) : option leaf :=
  d ← fetch s base ((va / 2 ^ k) mod 512);
  if negb (Z.testbit d 0) then None
  else
    let is_leaf := match n with O => Z.testbit d 1 | S _ => negb (Z.testbit d 1) end in
    if is_leaf then
      if Z.testbit d 10 then Some (Leaf (Z.land d (address_mask k) + va mod 2 ^ k) d) else None
    else match n with O => None | S n' => descend n' s (Z.land d (address_mask 12)) (k - 9) va end.

Definition walk (s : mmu) (va : Z) : option leaf :=
  if (0 <=? va) && (va <? 2 ^ 39) then descend 2 s (ttbr0_el1 s) 30 va else None.

(** Permissions of a leaf: bits 7 and 6 are the access permissions, bits 53 and
    54 forbid the privileged and the unprivileged level to execute. *)
Definition el0_reads (l : leaf) : bool := Z.testbit (descriptor l) 6.
Definition el0_writes (l : leaf) : bool := Z.testbit (descriptor l) 6 && negb (Z.testbit (descriptor l) 7).
Definition el1_writes (l : leaf) : bool := negb (Z.testbit (descriptor l) 7).
Definition el1_executes (l : leaf) : bool := negb (Z.testbit (descriptor l) 53).
Definition el0_executes (l : leaf) : bool := negb (Z.testbit (descriptor l) 54).

End walk.

(** ** Descriptors *)

Lemma low_bit k a i : 0 <= i < k -> a mod 2 ^ k = 0 -> Z.testbit a i = false.
Proof.
  intros Hi Ha. rewrite <- (Z.mod_pow2_bits_low a k i) by lia. rewrite Ha. apply Z.bits_0.
Qed.

Lemma high_bit a i : 0 <= a < 2 ^ 48 -> 48 <= i -> Z.testbit a i = false.
Proof. intros Ha Hi. apply (Z.testbit_false _ i); [lia|]. rewrite Z.div_small; [done|]. pose proof (Z.pow_le_mono_r 2 48 i). lia. Qed.

Lemma mask_bit k i : 0 <= k <= 48 -> 0 <= i -> Z.testbit (address_mask k) i = (k <=? i) && (i <? 48).
Proof.
  intros Hk Hi. unfold address_mask. rewrite Z.shiftl_spec by lia. destruct (Z.leb_spec k i); cbn [andb].
  - destruct (Z.ltb_spec i 48); [apply Z.ones_spec_low; lia|apply Z.ones_spec_high; lia].
  - apply Z.testbit_neg_r. lia.
Qed.

Lemma address_field k a x :
  0 <= k <= 48 -> a mod 2 ^ k = 0 -> 0 <= a < 2 ^ 48 -> Z.land x (address_mask k) = 0 -> Z.land (Z.lor a x) (address_mask k) = a.
Proof.
  intros Hk Ha Hb Hx. rewrite Z.land_lor_distr_l, Hx, Z.lor_0_r. apply Z.bits_inj'. intros i Hi. rewrite Z.land_spec, mask_bit by lia.
  destruct (Z.leb_spec k i); [|by rewrite (low_bit k), andb_false_r by lia]. destruct (Z.ltb_spec i 48); [by rewrite andb_true_r|].
  rewrite (high_bit a i) by lia. done.
Qed.

Lemma lor_bit_low k a x i : a mod 2 ^ k = 0 -> 0 <= i < k -> Z.testbit (Z.lor a x) i = Z.testbit x i.
Proof. intros Ha Hi. by rewrite Z.lor_spec, (low_bit k). Qed.
Lemma lor_bit_high a x i : 0 <= a < 2 ^ 48 -> 48 <= i -> Z.testbit (Z.lor a x) i = Z.testbit x i.
Proof. intros Ha Hi. by rewrite Z.lor_spec, high_bit by lia. Qed.

(** [SCTLR_M] is set. *)
Lemma mmu_bit_set x : negb (Z.land (Z.lor x (Z.lor (Z.lor SCTLR_M SCTLR_C) SCTLR_I)) SCTLR_M =? 0) = true.
Proof.
  rewrite negb_true_iff, Z.eqb_neq. intros H. apply (f_equal (fun z => Z.testbit z 0)) in H.
  rewrite Z.land_spec, Z.lor_spec in H. change (Z.testbit SCTLR_M 0) with true in H.
  change (Z.testbit (Z.lor (Z.lor SCTLR_M SCTLR_C) SCTLR_I) 0) with true in H. by rewrite orb_true_r in H.
Qed.

Lemma index_land x : Z.land x 0x1ff = x mod 512.
Proof. exact (Z.land_ones x 9 ltac:(lia)). Qed.

(** ** What the tables hold *)

Definition content : Type := table -> Z -> Z.

Record has (s : mmu) (c : content) : Prop := {
  has_len : forall t, lenZ (entries s t) = 512;
  has_at : forall t j, 0 <= j < 512 -> rd (entries s t) j = Some (c t j)
}.

Definition put (t : table) (i d : Z) (c : content) : content := fun t' j =>
  if decide (t' = t) then if decide (j = i) then d else c t' j else c t' j.
(** Entries [i] to [i + n - 1] hold the blocks from address [a] on. *)
Definition block (a attributes : Z) : Z := Z.lor a (Z.lor attributes 1).
Definition fill (t : table) (i n a attributes : Z) (c : content) : content := fun t' j =>
  if decide (t' = t) then if decide (i <= j < i + n) then block (a + (j - i) * 2 ^ 21) attributes else c t' j else c t' j.

(** Operation [m] changes the contents by [f], and nothing but the tables. *)
Definition writes (m : M mmu unit) (f : content -> content) : Prop := forall s c,
  has s c -> exists s', m s = Ret tt s' [] /\ has s' (f c) /\ s' = set_entries (entries s') s.

Lemma set_entries_twice e e' s : set_entries e (set_entries e' s) = set_entries e s.
Proof. done. Qed.

Lemma writes_bind m1 m2 f1 f2 : writes m1 f1 -> writes m2 f2 -> writes (m1;; m2) (fun c => f2 (f1 c)).
Proof.
  intros H1 H2 s c Hc. destruct (H1 s c Hc) as (s1 & Hr1 & Hc1 & He1). destruct (H2 s1 _ Hc1) as (s2 & Hr2 & Hc2 & He2).
  exists s2. rewrite (bind_Ret_nil _ _ _ _ _ Hr1). split_and!; [done|done|]. rewrite He2, He1. done.
Qed.

Lemma writes_ret : writes (ret tt) (fun c => c).
Proof. intros s c Hc. exists s. split_and!; [done|done|by destruct s]. Qed.

Lemma writes_ext m f g : (forall c t j, 0 <= j < 512 -> f c t j = g c t j) -> writes m f -> writes m g.
Proof.
  intros He H s c Hc. destruct (H s c Hc) as (s' & Hr & [Hl Ha] & Hs). exists s'. split_and!; [done| |done].
  split; [done|]. intros t j Hj. rewrite <- He by done. by apply Ha.
Qed.

Lemma store_writes t i d : 0 <= i < 512 -> writes (store_entry t i d) (put t i d).
Proof.
  intros Hi s c [Hl Ha]. unfold store_entry, set_table. krun. rewrite wr_Some by (rewrite Hl; lia).
  rewrite (bind_deref_Some _ _ _ _ eq_refl). eexists. split; [reflexivity|]. split; [|done].
  split; cbn [entries set_entries].
  - intros t'. case_decide; [subst; unfold lenZ; rewrite length_insert; exact (Hl t)|apply Hl].
  - intros t' j Hj. unfold put. destruct (decide (t' = t)) as [->|Hne]; [|by apply Ha].
    pose proof (Ha t j Hj) as Hold. unfold rd in *. rewrite (proj2 (Z.leb_le 0 j)) in * by lia. destruct (decide (j = i)) as [->|Hji].
    + apply list_lookup_insert_eq. pose proof (Hl t). unfold lenZ in *. lia.
    + rewrite list_lookup_insert_ne by lia. done.
Qed.

Lemma map_l2_block_writes t a attributes :
  a mod 2 ^ 21 = 0 -> 0 <= a < 2 ^ 48 ->
  writes (mmu_map_l2_block t a attributes) (put t ((a / 2 ^ 21) mod 512) (block a attributes)).
Proof.
  intros Ha Hb. unfold mmu_map_l2_block. unfold mmu_l2_index. rewrite index_land. change MMU_L2_BLOCK_SIZE with (2 ^ 21).
  rewrite land_not64, Ha, Z.sub_0_r by lia. unfold block, MMU_DESC_BLOCK, MMU_DESC_VALID. change (Z.shiftl 1 0) with 1. rewrite <- Z.lor_assoc.
  apply store_writes. by apply Z.mod_pos_bound.
Qed.

Lemma map_blocks_writes n : forall t a attributes fuel,
  a mod 2 ^ 21 = 0 -> 0 <= a -> a + Z.of_nat n * 2 ^ 21 < 2 ^ 48 -> (a / 2 ^ 21) mod 512 + Z.of_nat n <= 512 -> (n < fuel)%nat ->
  writes (map_blocks fuel t a (a + Z.of_nat n * 2 ^ 21) attributes) (fill t ((a / 2 ^ 21) mod 512) (Z.of_nat n) a attributes).
Proof.
  induction n as [|n IH]; intros t a attributes fuel Ha H0 Hb Hi Hf; (destruct fuel as [|fuel]; [lia|]); cbn [map_blocks].
  - rewrite (proj2 (Z.ltb_ge _ _)) by lia. eapply writes_ext; [|apply writes_ret]. intros c t' j Hj. unfold fill. case_decide; [|done]. by rewrite decide_False by lia.
  - rewrite (proj2 (Z.ltb_lt _ _)) by lia. change MMU_L2_BLOCK_SIZE with (2 ^ 21). rewrite u64_small by lia.
    set (i := (a / 2 ^ 21) mod 512) in *. assert (Hi0 : 0 <= i < 512) by (by apply Z.mod_pos_bound).
    replace (a + Z.of_nat (S n) * 2 ^ 21) with ((a + 2 ^ 21) + Z.of_nat n * 2 ^ 21) by lia.
    assert (Hnext : (a + 2 ^ 21) mod 2 ^ 21 = 0) by (rewrite <- Z.add_mod_idemp_r, Z.mod_same, Z.add_0_r by lia; done).
    assert (Hdiv : (a + 2 ^ 21) / 2 ^ 21 = a / 2 ^ 21 + 1) by (rewrite <- (Z.mul_1_l (2 ^ 21)) at 1; rewrite Z.div_add by lia; done).
    destruct n as [|n].
    { eapply writes_ext; [|apply writes_bind; [apply map_l2_block_writes; [done|lia]|]].
      2:{ destruct fuel as [|fuel]; [lia|]. cbn [map_blocks]. rewrite (proj2 (Z.ltb_ge _ _)) by lia. apply writes_ret. }
      intros c t' j Hj. cbn beta. unfold fill, put. fold i. case_decide; [|done]. destruct (decide (j = i)) as [->|Hne].
      - rewrite decide_True by lia. by rewrite Z.sub_diag, Z.mul_0_l, Z.add_0_r.
      - by rewrite decide_False by lia. }
    assert (Hmod : ((a + 2 ^ 21) / 2 ^ 21) mod 512 = i + 1).
    { rewrite Hdiv, <- Z.add_mod_idemp_l by lia. fold i. rewrite Z.mod_small by lia. done. }
    eapply writes_ext; [|apply writes_bind; [apply map_l2_block_writes; [done|lia]|apply (IH t (a + 2 ^ 21) attributes fuel Hnext); [lia|lia|rewrite Hmod; lia|lia]]].
    intros c t' j Hj. cbn beta. rewrite Hmod. unfold fill, put. fold i. case_decide; [|done].
    destruct (decide (i + 1 <= j < i + 1 + Z.of_nat (S n))); [rewrite decide_True by lia; f_equal; lia|].
    destruct (decide (j = i)) as [->|Hne]; [|by rewrite decide_False by lia].
    rewrite decide_True by lia. by rewrite Z.sub_diag, Z.mul_0_l, Z.add_0_r.
Qed.

Lemma clear_writes t : writes (clear_table t) (fun c t' j => if decide (t' = t) then 0 else c t' j).
Proof.
  intros s c [Hl Ha]. eexists. split; [reflexivity|]. split; [|done]. split; cbn [entries set_entries].
  - intros t'. case_decide; [done|apply Hl].
  - intros t' j Hj. case_decide; [|by apply Ha]. unfold rd. rewrite (proj2 (Z.leb_le 0 j)) by lia.
    apply lookup_replicate_2. unfold MMU_TABLE_ENTRIES. lia.
Qed.

Lemma sized_has s : (forall t, lenZ (entries s t) = 512) -> exists c, has s c.
Proof.
  intros Hl. exists (fun t j => default 0 (rd (entries s t) j)). split; [done|]. intros t j Hj.
  destruct (rd_Some (entries s t) j) as [d ->]; [by rewrite Hl|done].
Qed.

Lemma block_fields a attributes k :
  12 < k <= 47 -> a mod 2 ^ k = 0 -> 0 <= a < 2 ^ 48 -> Z.land (Z.lor attributes 1) (address_mask k) = 0 ->
  Z.testbit (block a attributes) 0 = true /\ Z.testbit (block a attributes) 1 = Z.testbit attributes 1 /\
  Z.testbit (block a attributes) 10 = Z.testbit attributes 10 /\ Z.land (block a attributes) (address_mask k) = a.
Proof.
  intros Hk Ha Hr Hm. unfold block. rewrite (lor_bit_low k a _ 0), (lor_bit_low k a _ 1), (lor_bit_low k a _ 10) by (done || lia).
  rewrite !Z.lor_spec. split_and!.
  - apply orb_true_r.
  - apply orb_false_r.
  - apply orb_false_r.
  - by apply address_field; [lia| | |].
Qed.

Section board.
Context (plat : platform) (table_address : table -> Z).

(** The RAM starts at a gigabyte of its own and is a number of 2 MiB blocks;
    the tables are at distinct pages. *)
Record board_ok : Prop := {
  bo_base : platform_get_ram_base plat mod 2 ^ 30 = 0;
  bo_base_bound : 2 ^ 30 <= platform_get_ram_base plat < 2 ^ 38;
  bo_size : 0 < platform_get_ram_size plat <= 2 ^ 30;
  bo_blocks : platform_get_ram_size plat mod 2 ^ 21 = 0;
  bo_aligned : forall t, table_address t mod 2 ^ 12 = 0 /\ 0 <= table_address t < 2 ^ 48;
  bo_distinct : forall t t', table_address t = table_address t' -> t = t'
}.
Context (Hb : board_ok).

Definition next_table (t : table) : Z := Z.lor (table_address t) 3.
Definition kernel_content : content := fun t j =>
  match t with
  | mmu_l1_table =>
      if decide (j = 0) then next_table mmu_l2_low_table
      else if decide (j = platform_get_ram_base plat / 2 ^ 30) then next_table mmu_l2_ram_table
      else if decide (j = 256) then next_table mmu_l2_pci_table else 0
  | mmu_l2_low_table =>
      if decide (j = 0) then next_table mmu_l3_user_table
      else if decide (j = 64 \/ j = 72 \/ j = 80) then block (j * 2 ^ 21) device_attributes else 0
  | mmu_l2_ram_table =>
      if decide (j < platform_get_ram_size plat / 2 ^ 21) then block (platform_get_ram_base plat + j * 2 ^ 21) ram_attributes else 0
  | mmu_l2_pci_table => if decide (128 <= j < 256) then block (256 * 2 ^ 30 + j * 2 ^ 21) device_attributes else 0
  | mmu_l3_user_table => 0
  end.

Lemma base_facts : exists g n, platform_get_ram_base plat = g * 2 ^ 30 /\ 1 <= g < 256 /\ platform_get_ram_size plat = n * 2 ^ 21 /\ 0 < n <= 512.
Proof using Hb.
  destruct Hb as [H1 H2 H3 H4 _ _]. exists (platform_get_ram_base plat / 2 ^ 30), (platform_get_ram_size plat / 2 ^ 21). Z.div_mod_to_equations. lia.
Qed.

Lemma table_desc t : Z.lor (Z.lor (Z.land (table_address t) (not64 0xfff)) MMU_DESC_VALID) MMU_DESC_TABLE = next_table t.
Proof using Hb.
  destruct (bo_aligned Hb t) as [Ha Hr]. change 0xfff with (2 ^ 12 - 1). rewrite land_not64, Ha, Z.sub_0_r by lia.
  unfold MMU_DESC_VALID, MMU_DESC_TABLE, next_table. by rewrite <- Z.lor_assoc.
Qed.

Lemma map_l1_table_writes g t : 0 <= g < 512 -> writes (mmu_map_l1_table table_address (g * 2 ^ 30) t) (put mmu_l1_table g (next_table t)).
Proof using Hb.
  intros Hg. unfold mmu_map_l1_table, mmu_l1_index. rewrite table_desc, index_land. change MMU_L1_BLOCK_SIZE with (2 ^ 30).
  rewrite Z.div_mul, Z.mod_small by lia. by apply store_writes.
Qed.

Lemma build_tables_run s :
  (forall t, lenZ (entries s t) = 512) ->
  exists s', mmu_build_tables plat table_address s = Ret tt s' [] /\ has s' kernel_content /\ s' = set_entries (entries s') s.
Proof using Hb.
  intros Hl. destruct (sized_has s Hl) as [c Hc]. destruct base_facts as (g & n & Hg & Hgb & Hn & Hnb).
  assert (Hdiv : platform_get_ram_base plat / 2 ^ 30 = g) by (rewrite Hg; apply Z.div_mul; lia).
  assert (Hblocks : platform_get_ram_size plat / 2 ^ 21 = n) by (rewrite Hn; apply Z.div_mul; lia).
  assert (Hw : exists f, writes (mmu_build_tables plat table_address) f /\ forall t j, 0 <= j < 512 -> f c t j = kernel_content t j).
  { unfold mmu_build_tables. cbn zeta. eexists. split.
    { do 5 (apply writes_bind; [apply clear_writes|]).
      apply writes_bind; [apply (map_l1_table_writes 0); lia|].
      apply writes_bind; [rewrite Hg; apply map_l1_table_writes; lia|].
      apply writes_bind; [unfold mmu_map_l2_table; rewrite table_desc; apply (store_writes _ 0); lia|].
      apply writes_bind; [apply (map_l1_table_writes 256); lia|].
      do 3 (apply writes_bind; [apply map_l2_block_writes; [done|by vm_compute]|]).
      apply writes_bind.
      - rewrite u64_small by lia. replace (platform_get_ram_base plat + platform_get_ram_size plat) with (platform_get_ram_base plat + Z.of_nat (Z.to_nat n) * 2 ^ 21) by lia.
        assert (Hidx : (platform_get_ram_base plat / 2 ^ 21) mod 512 = 0) by (rewrite Hg; Z.div_mod_to_equations; lia).
        apply map_blocks_writes; [rewrite Hg; Z.div_mod_to_equations; lia|lia|lia|rewrite Hidx; lia|].
        unfold block_fuel. change MMU_L2_BLOCK_SIZE with (2 ^ 21). replace (platform_get_ram_base plat + Z.of_nat (Z.to_nat n) * 2 ^ 21 - platform_get_ram_base plat) with (Z.of_nat (Z.to_nat n) * 2 ^ 21) by lia.
        rewrite Z.div_mul by lia. lia.
      - apply (map_blocks_writes 128 mmu_l2_pci_table platform_get_pci_ecam_base device_attributes); [done|done|done|by vm_compute|].
        apply Nat.ltb_lt. vm_compute. done. }
    assert (Hidx : (platform_get_ram_base plat / 2 ^ 21) mod 512 = 0) by (rewrite Hg; Z.div_mod_to_equations; lia).
    intros t j Hj. cbn beta. rewrite Hidx.
    change ((GICD_BASE / 2 ^ 21) mod 512) with 64. change ((platform_get_uart0_base / 2 ^ 21) mod 512) with 72.
    change ((platform_get_virtio_mmio_base / 2 ^ 21) mod 512) with 80. change ((platform_get_pci_ecam_base / 2 ^ 21) mod 512) with 128.
    change GICD_BASE with (64 * 2 ^ 21). change platform_get_uart0_base with (72 * 2 ^ 21). change platform_get_virtio_mmio_base with (80 * 2 ^ 21).
    change platform_get_pci_ecam_base with (256 * 2 ^ 30 + 128 * 2 ^ 21).
    unfold fill, put. destruct t; cbn [kernel_content]; rewrite ?Hdiv, ?Hblocks.
    all: repeat first [rewrite (decide_True (P := _ = _)) by reflexivity|rewrite (decide_False (P := _ = _)) by discriminate].
    all: repeat (case_decide; try lia; subst; try done).
    all: first [done|f_equal; lia]. }
  destruct Hw as (f & Hw & Hf). destruct (Hw s c Hc) as (s' & Hr & [Hl' Ha'] & Hs). exists s'. split_and!; [done| |done].
  split; [done|]. intros t j Hj. by rewrite <- Hf, Ha'.
Qed.

(** ** The walk over known tables *)

Lemma fetch_has s c t i : has s c -> 0 <= i < 512 -> fetch table_address s (table_address t) i = Some (c t i).
Proof using Hb.
  intros Hc Hi. unfold fetch. destruct (list_find (fun t' => table_address t' = table_address t) tables) as [[k t']|] eqn:Hf.
  - apply list_find_Some in Hf as (_ & Ht%(bo_distinct Hb) & _). subst t'. cbn [mbind option_bind]. by apply has_at.
  - apply list_find_None in Hf. exfalso. apply (proj1 (Forall_forall _ _) Hf t); [|done]. apply list_elem_of_In. destruct t; cbn; tauto.
Qed.

Lemma next_table_walk t n s k va :
  k <> 12 -> descend table_address (S n) s (table_address t) k va =
    (d ← fetch table_address s (table_address t) ((va / 2 ^ k) mod 512);
     if negb (Z.testbit d 0) then None
     else if negb (Z.testbit d 1) then (if Z.testbit d 10 then Some (Leaf (Z.land d (address_mask k) + va mod 2 ^ k) d) else None)
     else descend table_address n s (Z.land d (address_mask 12)) (k - 9) va).
Proof. done. Qed.

Lemma next_table_fields t : Z.testbit (next_table t) 0 = true /\ Z.testbit (next_table t) 1 = true /\ Z.land (next_table t) (address_mask 12) = table_address t.
Proof using Hb.
  destruct (bo_aligned Hb t) as [Ha Hr]. unfold next_table. rewrite (lor_bit_low 12 _ _ 0), (lor_bit_low 12 _ _ 1) by (done || lia). split_and!; [done|done|].
  by apply address_field.
Qed.

(** What the kernel maps an address to: devices, RAM, the PCI registers. *)
Definition region (va : Z) : option Z :=
  let b := va / 2 ^ 21 in
  if decide (b = 64 \/ b = 72 \/ b = 80) then Some device_attributes
  else if decide (platform_get_ram_base plat <= va < platform_get_ram_base plat + platform_get_ram_size plat) then Some ram_attributes
  else if decide (platform_get_pci_ecam_base <= va < platform_get_pci_ecam_base + platform_get_pci_ecam_size) then Some device_attributes
  else None.
Definition identity_leaf (va : Z) : option leaf := attributes ← region va; Some (Leaf va (block (va - va mod 2 ^ 21) attributes)).

(** Below level 1: a block, the table of user pages, or nothing. *)
Lemma level2_block s c t va a attributes :
  has s c -> c t ((va / 2 ^ 21) mod 512) = block a attributes -> a mod 2 ^ 21 = 0 -> 0 <= a < 2 ^ 48 ->
  attributes = device_attributes \/ attributes = ram_attributes ->
  descend table_address 1 s (table_address t) 21 va = Some (Leaf (a + va mod 2 ^ 21) (block a attributes)).
Proof using Hb.
  intros Hc Hd Ha Hr Hattr. rewrite next_table_walk by done. rewrite (fetch_has s c) by (done || by apply Z.mod_pos_bound). rewrite Hd. cbn [mbind option_bind].
  destruct (block_fields a attributes 21) as (H0 & H1 & H10 & Hm); [lia|done|done|by destruct Hattr as [-> | ->]|].
  rewrite H0, H1, H10, Hm. by destruct Hattr as [-> | ->].
Qed.
Lemma level2_none s c t va : has s c -> c t ((va / 2 ^ 21) mod 512) = 0 -> descend table_address 1 s (table_address t) 21 va = None.
Proof using Hb.
  intros Hc Hd. rewrite next_table_walk by done. rewrite (fetch_has s c) by (done || by apply Z.mod_pos_bound). by rewrite Hd.
Qed.
Lemma level2_table s c t va t' :
  has s c -> c t ((va / 2 ^ 21) mod 512) = next_table t' ->
  descend table_address 1 s (table_address t) 21 va = descend table_address 0 s (table_address t') 12 va.
Proof using Hb.
  intros Hc Hd. rewrite next_table_walk by done. rewrite (fetch_has s c) by (done || by apply Z.mod_pos_bound). rewrite Hd. cbn [mbind option_bind].
  destruct (next_table_fields t') as (-> & -> & ->). done.
Qed.

(** Contents that differ from the kernel's only in the table of user pages. *)
Definition kernel_like (c : content) : Prop := forall t j, 0 <= j < 512 -> t <> mmu_l3_user_table -> c t j = kernel_content t j.

Lemma block_start va : (va - va mod 2 ^ 21) mod 2 ^ 21 = 0.
Proof using Type. Z.div_mod_to_equations. lia. Qed.

(** A block that maps [va] to itself. *)
Lemma level2_identity s c t va attributes :
  has s c -> 0 <= va < 2 ^ 48 -> c t ((va / 2 ^ 21) mod 512) = block (va - va mod 2 ^ 21) attributes ->
  attributes = device_attributes \/ attributes = ram_attributes ->
  descend table_address 1 s (table_address t) 21 va = Some (Leaf va (block (va - va mod 2 ^ 21) attributes)).
Proof using Hb.
  intros Hc Hva Hd Hattr. rewrite (level2_block s c t va _ attributes Hc Hd (block_start va)); [|Z.div_mod_to_equations; lia|done].
  do 2 f_equal. lia.
Qed.

Lemma walk_low s c va :
  has s c -> kernel_like c -> 0 <= va < 2 ^ 30 ->
  descend table_address 1 s (table_address mmu_l2_low_table) 21 va =
    if decide (va < 2 ^ 21) then descend table_address 0 s (table_address mmu_l3_user_table) 12 va else identity_leaf va.
Proof using Hb.
  intros Hc Hk Hva. destruct base_facts as (g & n & Hg & Hgb & Hn & Hnb). 
  assert (Hj : (va / 2 ^ 21) mod 512 = va / 2 ^ 21) by (Z.div_mod_to_equations; lia).
  assert (Hjb : 0 <= va / 2 ^ 21 < 512) by (Z.div_mod_to_equations; lia).
  pose proof (Hk mmu_l2_low_table _ Hjb ltac:(discriminate)) as Hcj. cbn [kernel_content] in Hcj. rewrite <- Hj in Hcj at 1.
  assert (Hmul : va / 2 ^ 21 * 2 ^ 21 = va - va mod 2 ^ 21) by (Z.div_mod_to_equations; lia).
  destruct (decide (va < 2 ^ 21)) as [Hlow|Hlow].
  - rewrite decide_True in Hcj by (Z.div_mod_to_equations; lia). by apply (level2_table s c).
  - rewrite decide_False in Hcj by (Z.div_mod_to_equations; lia). unfold identity_leaf, region. cbn zeta.
    destruct (decide (va / 2 ^ 21 = 64 \/ va / 2 ^ 21 = 72 \/ va / 2 ^ 21 = 80)).
    + cbn [mbind option_bind]. rewrite Hmul in Hcj. apply (level2_identity s c); [done|lia|exact Hcj|by left].
    + rewrite decide_False by lia. rewrite decide_False by (unfold platform_get_pci_ecam_base; lia). by apply (level2_none s c).
Qed.

Lemma walk_ram s c va :
  has s c -> kernel_like c -> platform_get_ram_base plat <= va < platform_get_ram_base plat + 2 ^ 30 ->
  descend table_address 1 s (table_address mmu_l2_ram_table) 21 va = identity_leaf va.
Proof using Hb.
  intros Hc Hk Hva. destruct base_facts as (g & n & Hg & Hgb & Hn & Hnb). 
  assert (Hj : (va / 2 ^ 21) mod 512 = (va - platform_get_ram_base plat) / 2 ^ 21) by (rewrite Hg in *; Z.div_mod_to_equations; lia).
  assert (Hjb : 0 <= (va - platform_get_ram_base plat) / 2 ^ 21 < 512) by (Z.div_mod_to_equations; lia).
  pose proof (Hk mmu_l2_ram_table _ Hjb ltac:(discriminate)) as Hcj. cbn [kernel_content] in Hcj. rewrite <- Hj in Hcj at 1.
  assert (Hmul : platform_get_ram_base plat + (va - platform_get_ram_base plat) / 2 ^ 21 * 2 ^ 21 = va - va mod 2 ^ 21).
  { rewrite Hg in *. Z.div_mod_to_equations. lia. }
  assert (Hsz : platform_get_ram_size plat / 2 ^ 21 = n) by (rewrite Hn; apply Z.div_mul; lia). rewrite Hsz, Hmul in Hcj.
  unfold identity_leaf, region. cbn zeta. rewrite decide_False by (rewrite Hg in *; Z.div_mod_to_equations; lia).
  destruct (decide (platform_get_ram_base plat <= va < platform_get_ram_base plat + platform_get_ram_size plat)).
  - rewrite decide_True in Hcj by (Z.div_mod_to_equations; lia). cbn [mbind option_bind].
    apply (level2_identity s c); [done|lia|exact Hcj|by right].
  - rewrite decide_False in Hcj by (Z.div_mod_to_equations; lia). rewrite decide_False by (unfold platform_get_pci_ecam_base; lia). by apply (level2_none s c).
Qed.

Lemma walk_pci s c va :
  has s c -> kernel_like c -> 2 ^ 38 <= va < 2 ^ 38 + 2 ^ 30 ->
  descend table_address 1 s (table_address mmu_l2_pci_table) 21 va = identity_leaf va.
Proof using Hb.
  intros Hc Hk Hva. destruct base_facts as (g & n & Hg & Hgb & Hn & Hnb). 
  assert (Hj : (va / 2 ^ 21) mod 512 = (va - 2 ^ 38) / 2 ^ 21) by (Z.div_mod_to_equations; lia).
  assert (Hjb : 0 <= (va - 2 ^ 38) / 2 ^ 21 < 512) by (Z.div_mod_to_equations; lia).
  pose proof (Hk mmu_l2_pci_table _ Hjb ltac:(discriminate)) as Hcj. cbn [kernel_content] in Hcj. rewrite <- Hj in Hcj at 1.
  assert (Hmul : 256 * 2 ^ 30 + (va - 2 ^ 38) / 2 ^ 21 * 2 ^ 21 = va - va mod 2 ^ 21) by (Z.div_mod_to_equations; lia). rewrite Hmul in Hcj.
  unfold identity_leaf, region. cbn zeta. rewrite decide_False by (Z.div_mod_to_equations; lia). rewrite decide_False by lia.
  unfold platform_get_pci_ecam_base, platform_get_pci_ecam_size.
  destruct (decide (0x4010000000 <= va < 0x4010000000 + 0x10000000)).
  - rewrite decide_True in Hcj by (Z.div_mod_to_equations; lia). cbn [mbind option_bind].
    apply (level2_identity s c); [done|lia|exact Hcj|by left].
  - rewrite decide_False in Hcj by (Z.div_mod_to_equations; lia). by apply (level2_none s c).
Qed.

Lemma walk_kernel s c va :
  has s c -> kernel_like c -> ttbr0_el1 s = table_address mmu_l1_table -> 0 <= va < 2 ^ 39 ->
  walk table_address s va =
    if decide (va < 2 ^ 21) then descend table_address 0 s (table_address mmu_l3_user_table) 12 va else identity_leaf va.
Proof using Hb.
  intros Hc Hk Ht Hva. destruct base_facts as (g & n & Hg & Hgb & Hn & Hnb). 
  unfold walk. rewrite (proj2 (Z.leb_le 0 va)), (proj2 (Z.ltb_lt va _)) by lia. cbn [andb]. rewrite Ht, next_table_walk by done.
  assert (Hj : (va / 2 ^ 30) mod 512 = va / 2 ^ 30) by (Z.div_mod_to_equations; lia). rewrite Hj.
  assert (Hjb : 0 <= va / 2 ^ 30 < 512) by (Z.div_mod_to_equations; lia).
  rewrite (fetch_has s c) by done. rewrite (Hk mmu_l1_table _ Hjb ltac:(discriminate)). cbn [kernel_content mbind option_bind].
  assert (Hdiv : platform_get_ram_base plat / 2 ^ 30 = g) by (rewrite Hg; apply Z.div_mul; lia). rewrite Hdiv.
  destruct (decide (va / 2 ^ 30 = 0)).
  { destruct (next_table_fields mmu_l2_low_table) as (-> & -> & ->). cbn [negb]. apply (walk_low s c); [done|done|]. Z.div_mod_to_equations. lia. }
  assert (Hhigh : ~ va < 2 ^ 21) by (Z.div_mod_to_equations; lia). rewrite (decide_False (P := va < 2 ^ 21)) by done.
  destruct (decide (va / 2 ^ 30 = g)).
  { destruct (next_table_fields mmu_l2_ram_table) as (-> & -> & ->). cbn [negb]. apply (walk_ram s c); [done|done|]. rewrite Hg. Z.div_mod_to_equations. lia. }
  destruct (decide (va / 2 ^ 30 = 256)).
  { destruct (next_table_fields mmu_l2_pci_table) as (-> & -> & ->). cbn [negb]. apply (walk_pci s c); [done|done|]. Z.div_mod_to_equations. lia. }
  cbn [Z.testbit negb]. unfold identity_leaf, region. cbn zeta.
  rewrite decide_False by (Z.div_mod_to_equations; lia). rewrite decide_False by (rewrite Hg, Hn; Z.div_mod_to_equations; lia).
  unfold platform_get_pci_ecam_base, platform_get_pci_ecam_size. by rewrite decide_False by (Z.div_mod_to_equations; lia).
Qed.

(** ** User pages *)

Definition user_page (pa attributes : Z) : Z := Z.lor pa (Z.lor attributes 3).
Definition user_attributes (attributes : Z) : Prop := attributes = user_code_attributes \/ attributes = user_data_attributes.
Definition page_ok (pa : Z) : Prop := pa mod 2 ^ 12 = 0 /\ 0 <= pa < 2 ^ 48.

(** The state of the tables after [mmu_init]: only user pages may be mapped in
    the first 2 MiB. *)
Record mmu_ok (s : mmu) : Prop := {
  mo_tables : exists c, has s c /\ kernel_like c /\
    forall j, 0 <= j < 512 -> c mmu_l3_user_table j = 0 \/
      exists pa attributes, page_ok pa /\ user_attributes attributes /\ c mmu_l3_user_table j = user_page pa attributes;
  mo_root : ttbr0_el1 s = table_address mmu_l1_table
}.

Lemma level3_page s c va pa attributes :
  has s c -> 0 <= va < 2 ^ 21 -> page_ok pa -> user_attributes attributes -> c mmu_l3_user_table (va / 2 ^ 12) = user_page pa attributes ->
  descend table_address 0 s (table_address mmu_l3_user_table) 12 va = Some (Leaf (pa + va mod 2 ^ 12) (user_page pa attributes)).
Proof using Hb.
  intros Hc Hva [Ha Hr] Hattr Hd. cbn [descend]. assert (Hj : (va / 2 ^ 12) mod 512 = va / 2 ^ 12) by (Z.div_mod_to_equations; lia).
  rewrite Hj, (fetch_has s c) by (done || (Z.div_mod_to_equations; lia)). rewrite Hd. cbn [mbind option_bind]. unfold user_page.
  rewrite (lor_bit_low 12 pa _ 0), (lor_bit_low 12 pa _ 1), (lor_bit_low 12 pa _ 10) by (done || lia).
  rewrite address_field by (done || lia || by destruct Hattr as [-> | ->]). by destruct Hattr as [-> | ->].
Qed.

Lemma level3_none s c va :
  has s c -> 0 <= va < 2 ^ 21 -> c mmu_l3_user_table (va / 2 ^ 12) = 0 ->
  descend table_address 0 s (table_address mmu_l3_user_table) 12 va = None.
Proof using Hb.
  intros Hc Hva Hd. cbn [descend]. assert (Hj : (va / 2 ^ 12) mod 512 = va / 2 ^ 12) by (Z.div_mod_to_equations; lia).
  rewrite Hj, (fetch_has s c) by (done || (Z.div_mod_to_equations; lia)). by rewrite Hd.
Qed.

Lemma identity_none va : ~ 2 ^ 21 <= va < 2 ^ 39 -> identity_leaf va = None.
Proof using Hb.
  intros Hva. destruct base_facts as (g & n & Hg & Hgb & Hn & Hnb). unfold identity_leaf, region, platform_get_pci_ecam_base, platform_get_pci_ecam_size. cbn zeta.
  rewrite decide_False by (Z.div_mod_to_equations; lia). by rewrite !decide_False by lia.
Qed.

Lemma map_user_page_ok s va pa attributes :
  mmu_ok s -> 0 <= va < 2 ^ 21 -> page_ok pa -> user_attributes attributes ->
  exists s', mmu_map_user_page va pa attributes s = Ret tt s' [] /\ mmu_ok s' /\
    issued s' = issued s ++ [DsbIshst; TlbiVaae1is (va / 2 ^ 12); DsbIsh; Isb] /\
    forall a, walk table_address s' a =
      if decide (0 <= a < 2 ^ 21 /\ a / 2 ^ 12 = va / 2 ^ 12) then Some (Leaf (pa + a mod 2 ^ 12) (user_page pa attributes))
      else walk table_address s a.
Proof using Hb.
  intros [(c & Hc & Hk & Hu) Hroot] Hva Hpa Hattr. pose proof Hpa as [Ha Hr].
  assert (Hi : (va / 2 ^ 12) mod 512 = va / 2 ^ 12 /\ 0 <= va / 2 ^ 12 < 512) by (Z.div_mod_to_equations; lia). destruct Hi as [Hi Hib].
  destruct (store_writes mmu_l3_user_table (va / 2 ^ 12) (user_page pa attributes) Hib s c Hc) as (s1 & Hr1 & Hc1 & Hs1).
  set (c1 := put mmu_l3_user_table (va / 2 ^ 12) (user_page pa attributes) c) in *.
  assert (Hmap : mmu_map_l3_page mmu_l3_user_table va pa attributes s = Ret tt s1 []).
  { unfold mmu_map_l3_page, mmu_l3_index. rewrite index_land. change MMU_L3_PAGE_SIZE with (2 ^ 12). rewrite Hi, land_not64, Ha, Z.sub_0_r by lia.
    rewrite <- Z.lor_assoc. exact Hr1. }
  unfold mmu_map_user_page. rewrite (bind_Ret_nil _ _ _ _ _ Hmap). unfold mmu_dsb_ishst, mmu_tlbi_vaae1, mmu_dsb_ish, mmu_isb, issue.
  rewrite Z.shiftr_div_pow2 by lia. krun.
  assert (Hiss : issued s1 = issued s) by (by rewrite Hs1).
  set (s2 := set_issued (issued s ++ [DsbIshst; TlbiVaae1is (va / 2 ^ 12); DsbIsh; Isb]) s1). exists s2.
  split; [unfold s2, set_issued, modify; cbn [issued]; rewrite Hiss, <- !app_assoc; done|].
  assert (Hroot1 : ttbr0_el1 s2 = table_address mmu_l1_table) by (unfold s2; cbn; rewrite Hs1; exact Hroot).
  assert (Hc2 : has s2 c1) by (destruct Hc1; by split).
  assert (Hk1 : kernel_like c1) by (intros t j Hj Ht; unfold c1, put; rewrite decide_False by done; by apply Hk).
  assert (Hown : c1 mmu_l3_user_table (va / 2 ^ 12) = user_page pa attributes) by (unfold c1, put; by rewrite !decide_True by done).
  split; [split; [exists c1; split_and!; [done|done|]|done]|split; [done|]].
  - intros j Hj. unfold c1, put. rewrite decide_True by done. case_decide; [|by apply Hu]. right. by exists pa, attributes.
  - intros a. destruct (decide (0 <= a < 2 ^ 39)) as [Ha39|Hno].
    2:{ rewrite decide_False by lia. unfold walk. destruct (Z.leb_spec 0 a), (Z.ltb_spec a (2 ^ 39)); done || lia. }
    rewrite (walk_kernel s2 c1), (walk_kernel s c) by done. destruct (decide (a < 2 ^ 21)) as [Hlow|Hhigh]; [|by rewrite decide_False by lia].
    case_decide as Hsame.
    + destruct Hsame as [_ Hsame]. rewrite <- Hsame in Hown. apply (level3_page s2 c1); [done|lia|done|done|done].
    + assert (Hother : c1 mmu_l3_user_table (a / 2 ^ 12) = c mmu_l3_user_table (a / 2 ^ 12)).
      { unfold c1, put. rewrite decide_True by done. rewrite decide_False; [done|]. intros ?. apply Hsame; split; [lia|done]. }
      assert (Hjb : 0 <= a / 2 ^ 12 < 512) by (Z.div_mod_to_equations; lia).
      destruct (Hu _ Hjb) as [Hz|(pa' & at' & Hpa' & Hat' & Hd)].
      * assert (Hz1 : c1 mmu_l3_user_table (a / 2 ^ 12) = 0) by (by rewrite Hother).
        by rewrite (level3_none s c a Hc ltac:(lia) Hz), (level3_none s2 c1 a Hc2 ltac:(lia) Hz1).
      * assert (Hd1 : c1 mmu_l3_user_table (a / 2 ^ 12) = user_page pa' at') by (by rewrite Hother).
        by rewrite (level3_page s c a pa' at' Hc ltac:(lia) Hpa' Hat' Hd), (level3_page s2 c1 a pa' at' Hc2 ltac:(lia) Hpa' Hat' Hd1).
Qed.

Lemma mmu_init_ok s :
  (forall t, lenZ (entries s t) = 512) -> mmu_initialized s = 0 -> mmu_is_enabled s = false ->
  exists s' o, mmu_init plat table_address s = Ret tt s' o /\ mmu_ok s' /\ mmu_is_enabled s' = true /\ mmu_initialized s' = 1 /\
    issued s' = issued s ++ [DsbIshst; Isb; TlbiVmalle1; DsbIsh; Isb; Isb] /\ forall va, walk table_address s' va = identity_leaf va.
Proof using Hb.
  intros Hl Hi He. unfold mmu_init. krun. rewrite Hi, He. cbn [Z.eqb negb orb].
  assert (Hlog : forall (m : string) (st : mmu), exists o, klog_info m st = Ret tt st o) by (intros m st; apply klog_info_run).
  destruct (Hlog "mmu: enabling" s) as (o1 & H1). destruct (build_tables_run s Hl) as (s1 & H2 & Hc & Hs1).
  assert (Hen : sctlr_el1 s1 = sctlr_el1 s) by (by rewrite Hs1). assert (Hiss : issued s1 = issued s) by (by rewrite Hs1).
  match goal with |- context [bind (klog_info _) ?k] => assert (Hk : exists s' o, k tt s = Ret tt s' o /\ mmu_ok s' /\ mmu_is_enabled s' = true /\ mmu_initialized s' = 1 /\
    issued s' = issued s ++ [DsbIshst; Isb; TlbiVmalle1; DsbIsh; Isb; Isb] /\ forall va, walk table_address s' va = identity_leaf va) end.
  { cbn beta. rewrite (bind_Ret_nil _ _ _ _ _ H2). unfold mmu_dsb_ishst, mmu_isb, mmu_tlbi_vmalle1, mmu_dsb_ish, issue. krun. cbn zeta. krun.
    match goal with |- context [klog_info "mmu: enabled" ?st] => set (s2 := st); destruct (Hlog "mmu: enabled" s2) as (o2 & Ho2) end.
    exists s2, o2. split; [exact Ho2|].
    assert (Hc2 : has s2 kernel_content) by (destruct Hc; by split).
    assert (Hroot : ttbr0_el1 s2 = table_address mmu_l1_table) by done.
    assert (Hk : kernel_like kernel_content) by (by intros t j _ _).
    split; [split; [exists kernel_content; split_and!; [done|done|by left]|done]|].
    split; [unfold s2, mmu_is_enabled; cbn [sctlr_el1 set_mmu_initialized set_issued set_sctlr_el1]; by apply mmu_bit_set|].
    split; [done|]. split; [unfold s2; cbn [issued set_issued set_mmu_initialized set_sctlr_el1 set_ttbr0_el1 set_tcr_el1 set_mair_el1]; by rewrite Hiss, <- !app_assoc|].
    intros va. destruct (decide (0 <= va < 2 ^ 39)) as [Hva|Hno].
    - rewrite (walk_kernel s2 kernel_content) by done. case_decide as Hlow; [|done].
      rewrite (level3_none s2 kernel_content) by (done || lia). by rewrite (identity_none va) by lia.
    - rewrite (identity_none va) by lia. unfold walk. destruct (Z.leb_spec 0 va), (Z.ltb_spec va (2 ^ 39)); done || lia. }
  destruct Hk as (s' & o & Hr & Hrest). exists s', (o1 ++ o). split; [|exact Hrest]. unfold bind at 1. rewrite H1. by rewrite Hr.
Qed.

(** ** Permissions *)

Lemma leaf_bits k pa x i va : 0 <= k -> pa mod 2 ^ k = 0 -> 0 <= pa < 2 ^ 48 -> 0 <= i < k \/ 48 <= i ->
  Z.testbit (descriptor (Leaf va (Z.lor pa x))) i = Z.testbit x i.
Proof using Type. intros Hk Ha Hr [Hi|Hi]; cbn [descriptor]; [by apply (lor_bit_low k)|by apply lor_bit_high]. Qed.

(** What a mapped address allows. *)
Definition allowed (va : Z) (l : leaf) : Prop :=
  (el0_writes l = true -> el0_executes l = false) /\
  (el0_reads l = true -> va < 2 ^ 21 /\ el1_executes l = false) /\
  (2 ^ 21 <= va -> output l = va /\ el0_reads l = false) /\
  (el1_executes l = true -> platform_get_ram_base plat <= va < platform_get_ram_base plat + platform_get_ram_size plat) /\
  (platform_get_ram_base plat <= va < platform_get_ram_base plat + platform_get_ram_size plat -> el0_executes l = true).

Lemma user_leaf_allowed va pa attributes :
  0 <= va < 2 ^ 21 -> page_ok pa -> user_attributes attributes -> allowed va (Leaf (pa + va mod 2 ^ 12) (user_page pa attributes)).
Proof using Hb.
  intros Hva [Ha Hr] Hattr. pose proof (bo_base_bound Hb). unfold allowed, el0_writes, el0_reads, el1_executes, el0_executes, user_page.
  rewrite !(leaf_bits 12 pa _ 6), !(leaf_bits 12 pa _ 7), !(leaf_bits 12 pa _ 53), !(leaf_bits 12 pa _ 54) by (done || lia).
  destruct Hattr as [-> | ->]; split_and!; intros; try done; try (by split; [lia|]); exfalso; lia.
Qed.

Lemma identity_leaf_allowed va l : identity_leaf va = Some l -> allowed va l.
Proof using Hb.
  intros Hl. destruct (decide (2 ^ 21 <= va < 2 ^ 39)) as [Hva|Hno]; [|by rewrite identity_none in Hl].
  unfold identity_leaf in Hl. destruct (region va) as [attributes|] eqn:Hreg; [|done]. injection Hl as <-.
  destruct base_facts as (g & n & Hg & Hgb & Hn & Hnb).
  assert (Hcases : attributes = device_attributes /\ ~ platform_get_ram_base plat <= va < platform_get_ram_base plat + platform_get_ram_size plat \/
                   attributes = ram_attributes /\ platform_get_ram_base plat <= va < platform_get_ram_base plat + platform_get_ram_size plat).
  { unfold region in Hreg. cbn zeta in Hreg. case_decide as Hd; [injection Hreg as <-; left; split; [done|]; rewrite Hg; Z.div_mod_to_equations; lia|].
    case_decide; [injection Hreg as <-; by right|]. case_decide as Hp; [|done]. injection Hreg as <-. left. split; [done|].
    unfold platform_get_pci_ecam_base in Hp. lia. }
  unfold allowed, el0_writes, el0_reads, el1_executes, el0_executes, block.
  assert (Hs : 0 <= va - va mod 2 ^ 21 < 2 ^ 48) by (Z.div_mod_to_equations; lia).
  pose proof (block_start va).
  rewrite !(leaf_bits 21 _ _ 6), !(leaf_bits 21 _ _ 7), !(leaf_bits 21 _ _ 53), !(leaf_bits 21 _ _ 54) by (done || lia).
  destruct Hcases as [[-> Hout]|[-> Hin]]; split_and!; try done; intros; done.
Qed.

Lemma mmu_ok_allowed s va l : mmu_ok s -> walk table_address s va = Some l -> allowed va l.
Proof using Hb.
  intros [(c & Hc & Hk & Hu) Hroot] Hw. destruct (decide (0 <= va < 2 ^ 39)) as [Hva|Hno].
  2:{ exfalso. unfold walk in Hw. destruct (Z.leb_spec 0 va), (Z.ltb_spec va (2 ^ 39)); done || lia. }
  rewrite (walk_kernel s c) in Hw by done. case_decide as Hlow; [|by apply identity_leaf_allowed].
  assert (Hj : 0 <= va / 2 ^ 12 < 512) by (Z.div_mod_to_equations; lia).
  destruct (Hu _ Hj) as [Hz|(pa & attributes & Hpa & Hattr & Hd)].
  - by rewrite (level3_none s c va Hc ltac:(lia) Hz) in Hw.
  - rewrite (level3_page s c va pa attributes Hc ltac:(lia) Hpa Hattr Hd) in Hw. injection Hw as <-. apply user_leaf_allowed; [lia|done|done].
Qed.
End board.

(** ** Cache maintenance *)

(** The cache lines of a range, lowest first. *)
Definition lines (address size : Z) : list Z :=
  (fun k => 64 * (address / 64) + 64 * Z.of_nat k) <$> seq 0 (Z.to_nat ((address + size + 63) / 64 - address / 64)).

Lemma line_bounds address size :
  0 <= address -> 0 <= size -> address + size + 63 < 2 ^ 64 ->
  line_start address = 64 * (address / 64) /\ line_end address size = 64 * ((address + size + 63) / 64).
Proof.
  intros Ha Hs Hb. unfold line_start, line_end. change (not64 63) with (not64 (2 ^ 6 - 1)). rewrite !u64_small by (rewrite ?u64_small; lia).
  rewrite !land_not64 by lia. change (2 ^ 6) with 64. Z.div_mod_to_equations. lia.
Qed.

Lemma for_lines_run n : forall fuel start k op s,
  (forall a s', op a s' = Ret tt (set_issued (issued s' ++ [k a]) s') []) -> (n < fuel)%nat -> 0 <= start -> start + 64 * Z.of_nat n < 2 ^ 64 ->
  for_lines fuel start (start + 64 * Z.of_nat n) op s = Ret tt (set_issued (issued s ++ ((fun i => k (start + 64 * Z.of_nat i)) <$> seq 0 n)) s) [].
Proof.
  induction n as [|n IH]; intros fuel start k op s Hop Hf H0 Hb; (destruct fuel as [|fuel]; [lia|]); cbn [for_lines].
  - rewrite (proj2 (Z.ltb_ge _ _)) by lia. cbn [seq fmap list_fmap]. rewrite app_nil_r. by destruct s.
  - rewrite (proj2 (Z.ltb_lt _ _)) by lia. rewrite (bind_Ret_nil _ _ _ _ _ (Hop start s)). rewrite u64_small by lia.
    replace (start + 64 * Z.of_nat (S n)) with ((start + 64) + 64 * Z.of_nat n) by lia.
    rewrite (IH fuel (start + 64) k op _ Hop) by lia. f_equal. unfold set_issued. cbn [issued entries mmu_initialized sctlr_el1 mair_el1 tcr_el1 ttbr0_el1].
    f_equal. rewrite <- app_assoc. f_equal. cbn [seq fmap list_fmap app]. f_equal; [f_equal; lia|].
    rewrite <- seq_shift, <- list_fmap_compose. apply list_fmap_ext. intros i x _. cbn. f_equal. lia.
Qed.

Lemma sync_lines_run address size k op s :
  (forall a s', op a s' = Ret tt (set_issued (issued s' ++ [k a]) s') []) ->
  0 <= address -> 0 <= size -> address + size + 63 < 2 ^ 64 ->
  for_lines (line_fuel address size) (line_start address) (line_end address size) op s =
    Ret tt (set_issued (issued s ++ (k <$> lines address size)) s) [].
Proof.
  intros Hop Ha Hs Hb. destruct (line_bounds address size Ha Hs Hb) as [H1 H2]. unfold line_fuel, lines. rewrite H1, H2.
  set (n := Z.to_nat ((address + size + 63) / 64 - address / 64)).
  assert (Hn : 64 * ((address + size + 63) / 64) = 64 * (address / 64) + 64 * Z.of_nat n) by (unfold n; Z.div_mod_to_equations; lia).
  rewrite Hn. rewrite (for_lines_run n _ _ k op s Hop).
  - f_equal. f_equal. f_equal. by rewrite <- list_fmap_compose.
  - replace (64 * (address / 64) + 64 * Z.of_nat n - 64 * (address / 64)) with (Z.of_nat n * 64) by lia. rewrite Z.div_mul by lia. lia.
  - Z.div_mod_to_equations. lia.
  - rewrite <- Hn. Z.div_mod_to_equations. lia.
Qed.

Lemma sync_exec_run address size s :
  0 <= address -> 0 <= size -> address + size + 63 < 2 ^ 64 ->
  mmu_sync_for_exec address size s =
    Ret tt (set_issued (issued s ++ (DcCvau <$> lines address size) ++ [DsbIsh] ++ (IcIvau <$> lines address size) ++ [DsbIsh; Isb]) s) [].
Proof.
  intros Ha Hs Hb. unfold mmu_sync_for_exec.
  rewrite (bind_Ret_nil _ _ _ _ _ (sync_lines_run address size DcCvau mmu_dc_cvau s (fun _ _ => eq_refl) Ha Hs Hb)). unfold mmu_dsb_ish at 1, issue at 1. krun.
  rewrite (bind_Ret_nil _ _ _ _ _ (sync_lines_run address size IcIvau mmu_ic_ivau _ (fun _ _ => eq_refl) Ha Hs Hb)). unfold mmu_dsb_ish, mmu_isb, issue. krun.
  unfold modify. f_equal. unfold set_issued. cbn [issued entries mmu_initialized sctlr_el1 mair_el1 tcr_el1 ttbr0_el1]. f_equal. by rewrite <- !app_assoc.
Qed.

Lemma line_covered address size a : 0 <= address -> 0 <= size -> address <= a < address + size -> 64 * (a / 64) ∈ lines address size.
Proof.
  intros H0 Hs Ha. unfold lines. apply list_elem_of_fmap. exists (Z.to_nat (a / 64 - address / 64)). split; [Z.div_mod_to_equations; lia|].
  apply elem_of_seq. Z.div_mod_to_equations. lia.
Qed.

(** Code written to memory can be executed: every line of the range is written
    back before any of them is dropped from the instruction cache, with the
    barriers in between and behind. *)
Theorem mmu_sync_for_exec_spec address size s :
  0 <= address -> 0 <= size -> address + size + 63 < 2 ^ 64 ->
  mmu_sync_for_exec address size s =
    Ret tt (set_issued (issued s ++ (DcCvau <$> lines address size) ++ [DsbIsh] ++ (IcIvau <$> lines address size) ++ [DsbIsh; Isb]) s) [] /\
  forall a, address <= a < address + size -> 64 * (a / 64) ∈ lines address size.
Proof. intros Ha Hs Hb. split; [by apply sync_exec_run|]. intros a. by apply line_covered. Qed.

(** A page of a user program is mapped. *)
Inductive mmu_step : mmu -> mmu -> Prop :=
| step_code va pa s s' : 0 <= va < 2 ^ 21 -> page_ok pa -> mmu_map_user_code_page va pa s = Ret tt s' [] -> mmu_step s s'
| step_data va pa s s' : 0 <= va < 2 ^ 21 -> page_ok pa -> mmu_map_user_data_page va pa s = Ret tt s' [] -> mmu_step s s'.

(** [mmu_init] turns translation on with tables that map exactly the device
    blocks, the RAM and the PCI registers, each address to itself; before it
    does so, the table writes are completed and the old translations dropped. *)
Theorem mmu_init_spec plat table_address s :
  board_ok plat table_address -> (forall t, lenZ (entries s t) = 512) -> mmu_initialized s = 0 -> mmu_is_enabled s = false ->
  exists s' o, mmu_init plat table_address s = Ret tt s' o /\ mmu_is_enabled s' = true /\ mmu_initialized s' = 1 /\
    issued s' = issued s ++ [DsbIshst; Isb; TlbiVmalle1; DsbIsh; Isb; Isb] /\ forall va, walk table_address s' va = identity_leaf plat va.
Proof.
  intros Hb Hl Hi He. destruct (mmu_init_ok plat table_address Hb s Hl Hi He) as (s' & o & Hr & _ & Hrest). by exists s', o.
Qed.

(** Mapping a page of a user program changes the translation of exactly the
    addresses of that page, and drops the old translation of it. *)
Theorem mmu_map_user_spec plat table_address s va pa (writable : bool) :
  board_ok plat table_address -> mmu_ok plat table_address s -> 0 <= va < 2 ^ 21 -> page_ok pa ->
  exists s', (if writable then mmu_map_user_data_page va pa else mmu_map_user_code_page va pa) s = Ret tt s' [] /\ mmu_ok plat table_address s' /\
    issued s' = issued s ++ [DsbIshst; TlbiVaae1is (va / 2 ^ 12); DsbIsh; Isb] /\
    forall a, walk table_address s' a =
      if decide (0 <= a < 2 ^ 21 /\ a / 2 ^ 12 = va / 2 ^ 12)
      then Some (Leaf (pa + a mod 2 ^ 12) (user_page pa (if writable then user_data_attributes else user_code_attributes)))
      else walk table_address s a.
Proof. intros Hb Hs Hva Hpa. destruct writable; apply map_user_page_ok; first [done|by left|by right]. Qed.

(** C7. In every state that mapping user pages leads to, no address is writable and
    executable for a user program; what a program can read lies in the first
    2 MiB and is never executed by the kernel; all other addresses map to
    themselves and cannot be read by a program; the kernel executes only RAM.
    The RAM blocks do not forbid a program to execute them, though. *)
Theorem user_isolation plat table_address s0 s1 s o va l :
  board_ok plat table_address -> (forall t, lenZ (entries s0 t) = 512) -> mmu_initialized s0 = 0 -> mmu_is_enabled s0 = false ->
  mmu_init plat table_address s0 = Ret tt s1 o -> rtc mmu_step s1 s -> walk table_address s va = Some l -> allowed plat va l.
Proof.
  intros Hb Hl Hi He Hr Hsteps Hw. destruct (mmu_init_ok plat table_address Hb s0 Hl Hi He) as (s1' & o' & Hr' & Hok & _).
  rewrite Hr' in Hr. injection Hr as <- <-. eapply mmu_ok_allowed; [done| |done]. clear Hw Hr'.
  induction Hsteps as [s|s s2 s3 Hstep _ IH]; [done|]. apply IH. destruct Hstep as [v p a b Hv Hp Hm|v p a b Hv Hp Hm].
  - destruct (map_user_page_ok plat table_address Hb a v p user_code_attributes Hok Hv Hp (or_introl eq_refl)) as (b' & Hb' & Hok' & _).
    unfold mmu_map_user_code_page in Hm. rewrite Hb' in Hm. by injection Hm as <-.
  - destruct (map_user_page_ok plat table_address Hb a v p user_data_attributes Hok Hv Hp (or_intror eq_refl)) as (b' & Hb' & Hok' & _).
    unfold mmu_map_user_data_page in Hm. rewrite Hb' in Hm. by injection Hm as <-.
Qed.

(** ** A board *)

Definition sample_tables (t : table) : Z :=
  match t with
  | mmu_l1_table => 0x40100000 | mmu_l2_low_table => 0x40101000 | mmu_l2_ram_table => 0x40102000
  | mmu_l2_pci_table => 0x40103000 | mmu_l3_user_table => 0x40104000
  end.
Definition cold_mmu : mmu := Mmu (fun _ => replicate 512 7) 0 0 0 0 0 [].

Lemma sample_board : board_ok demo_plat sample_tables.
Proof.
  split.
  - reflexivity.
  - change (2 ^ 30 <= 0x40000000 < 2 ^ 38). lia.
  - change (0 < 128 * 1024 * 1024 <= 2 ^ 30). lia.
  - reflexivity.
  - intros []; cbn [sample_tables]; (split; [reflexivity|lia]).
  - intros [] []; cbn [sample_tables]; intros Heq; (reflexivity || discriminate Heq).
Qed.

Lemma cold_sized t : lenZ (entries cold_mmu t) = 512.
Proof. reflexivity. Qed.
Lemma sample_page : page_ok 0x40300000.
Proof. split; [reflexivity|lia]. Qed.

Lemma mmu_init_spec_witness :
  exists s' o, mmu_init demo_plat sample_tables cold_mmu = Ret tt s' o /\ mmu_is_enabled s' = true /\
    walk sample_tables s' 0x40000123 = Some (Leaf 0x40000123 (block 0x40000000 ram_attributes)) /\ walk sample_tables s' 0x10000 = None.
Proof.
  destruct (mmu_init_spec demo_plat sample_tables cold_mmu sample_board) as (s' & o & Hr & He & _ & _ & Hw); [apply cold_sized|reflexivity|reflexivity|].
  exists s', o. split; [exact Hr|]. split; [exact He|]. rewrite !Hw. split; vm_compute; reflexivity.
Defined.

Lemma mmu_map_user_spec_witness :
  exists s1 o s2, mmu_init demo_plat sample_tables cold_mmu = Ret tt s1 o /\ mmu_map_user_code_page 0x10000 0x40300000 s1 = Ret tt s2 [] /\
    walk sample_tables s2 0x10004 = Some (Leaf 0x40300004 (user_page 0x40300000 user_code_attributes)).
Proof.
  destruct (mmu_init_ok demo_plat sample_tables sample_board cold_mmu) as (s1 & o & Hr & Hok & _); [apply cold_sized|reflexivity|reflexivity|].
  destruct (mmu_map_user_spec demo_plat sample_tables s1 0x10000 0x40300000 false sample_board Hok) as (s2 & Hm & _ & _ & Hw);
    [lia|apply sample_page|].
  exists s1, o, s2. split; [exact Hr|]. split; [exact Hm|]. rewrite Hw. rewrite decide_True by (split; [lia|reflexivity]). reflexivity.
Defined.

Lemma user_isolation_witness :
  exists s1 o s2, mmu_init demo_plat sample_tables cold_mmu = Ret tt s1 o /\ mmu_map_user_code_page 0x10000 0x40300000 s1 = Ret tt s2 [] /\
    allowed demo_plat 0x10004 (Leaf 0x40300004 (user_page 0x40300000 user_code_attributes)).
Proof.
  destruct (mmu_init_ok demo_plat sample_tables sample_board cold_mmu) as (s1 & o & Hr & Hok & _); [apply cold_sized|reflexivity|reflexivity|].
  destruct (map_user_page_ok demo_plat sample_tables sample_board s1 0x10000 0x40300000 user_code_attributes Hok) as (s2 & Hm & _ & _ & Hw);
    [lia|apply sample_page|by left|].
  exists s1, o, s2. split; [exact Hr|]. split; [exact Hm|].
  apply (user_isolation demo_plat sample_tables cold_mmu s1 s2 o 0x10004 _ sample_board); [apply cold_sized|reflexivity|reflexivity|exact Hr| |].
  - eapply rtc_once, (step_code 0x10000 0x40300000); [lia|apply sample_page|exact Hm].
  - rewrite Hw. rewrite decide_True by (split; [lia|reflexivity]). reflexivity.
Defined.

Lemma mmu_sync_for_exec_spec_witness :
  0x40300000 + 130 + 63 < 2 ^ 64 /\ 0x40300080 ∈ lines 0x40300000 130.
Proof.
  split; [lia|]. destruct (mmu_sync_for_exec_spec 0x40300000 130 cold_mmu) as [_ Hin]; [lia|lia|lia|]. apply (Hin 0x40300081). lia.
Defined.
