(* ===== verification/UserProgram.v ===== *)
(** User programs (src/src/kernel/user.c): loading a flat binary or an ELF
    executable from a file into fresh pages, mapping the pages and entering the
    program. The program itself, from [arch_enter_user] until it exits, is a
    parameter: an arbitrary computation on the machine. *)
From S2P Require Import Prelude LibString Klog Memory BlockDevice BlockIO ListDisk TinyFS Vfs FileTable Input Task MMU.

(** ** Constants and data *)

Definition USER_CODE_VA : Z := 0x00010000.
Definition USER_STACK_TOP : Z := 0x00200000.
Definition USER_LOAD_CHUNK_SIZE : Z := 256.
Definition USER_FLAT_BINARY_MAX_PAGES : Z := 16.
Definition USER_MAX_PROGRAM_PAGES : Z := (USER_STACK_TOP - USER_CODE_VA - PMM_PAGE_SIZE) / PMM_PAGE_SIZE.
Definition ELF_MAGIC0 : Z := 0x7f.
Definition ELF_MAGIC1 : Z := ch "E".
Definition ELF_MAGIC2 : Z := ch "L".
Definition ELF_MAGIC3 : Z := ch "F".
Definition ELF_EI_CLASS : Z := 4.
Definition ELF_EI_DATA : Z := 5.
Definition ELF_EI_VERSION : Z := 6.
Definition ELF_CLASS_64 : Z := 2.
Definition ELF_DATA_LITTLE_ENDIAN : Z := 1.
Definition ELF_VERSION_CURRENT : Z := 1.
Definition ELF_TYPE_EXECUTABLE : Z := 2.
Definition ELF_MACHINE_AARCH64 : Z := 183.
Definition ELF_PROGRAM_TYPE_LOAD : Z := 1.
Definition ELF_PROGRAM_FLAG_WRITE : Z := 0x2.

(** Little-endian fields of 2 and 8 bytes. *)
Definition le16 (m : mem) (off : nat) : Z := u16 (foldr (fun b acc => b + 256 * acc) 0 (slice m off 2)).
Definition le64 (m : mem) (off : nat) : Z := u64 (foldr (fun b acc => b + 256 * acc) 0 (slice m off 8)).

Record elf64_header : Type := ElfHeader {
  ident : mem;
  e_type : Z;
  e_machine : Z;
  e_version : Z;
  e_entry : Z;
  e_phoff : Z;
  e_ehsize : Z;
  e_phentsize : Z;
  e_phnum : Z
}.
Definition elf64_header_size : Z := 64.
Definition elf64_header_of (m : mem) : elf64_header :=
  ElfHeader (slice m 0 16) (le16 m 16) (le16 m 18) (le32 m 20) (le64 m 24) (le64 m 32) (le16 m 52) (le16 m 54) (le16 m 56).

Record elf64_program_header : Type := ElfProgramHeader {
  p_type : Z;
  p_flags : Z;
  p_offset : Z;
  p_vaddr : Z;
  p_filesz : Z;
  p_memsz : Z
}.
Definition elf64_program_header_size : Z := 56.
Definition elf64_program_header_of (m : mem) : elf64_program_header :=
  ElfProgramHeader (le32 m 0) (le32 m 4) (le64 m 8) (le64 m 16) (le64 m 32) (le64 m 40).

(** ** State *)

Record machine (X : Type) : Type := Machine {
  u_files : files X;
  u_mm : mm;
  u_mmu : mmu;
  user_active : Z;
  user_resume_spsr : Z;
  user_program_pages : list Z;
  user_program_page_writable : list Z;
  daif : Z
}.
Arguments Machine {X}.
Arguments u_files {X}.
Arguments u_mm {X}.
Arguments u_mmu {X}.
Arguments user_active {X}.
Arguments user_resume_spsr {X}.
Arguments user_program_pages {X}.
Arguments user_program_page_writable {X}.
Arguments daif {X}.

Section definitions.
Context {X : Type} `{DiskDriver X} (plat : platform).
(** What the code leaves uninitialised, and what the linker and the assembly
    provide. *)
Context (local64 local256 local_header : mem) (local16 : list Z).
Context (blob : mem) (arch_enter_user : Z -> Z -> M (machine X) Z) (arch_user_resume_el1 : Z).
Implicit Types s : machine X.

Definition set_u_files (v : files X) s : machine X :=
  Machine v (u_mm s) (u_mmu s) (user_active s) (user_resume_spsr s) (user_program_pages s) (user_program_page_writable s) (daif s).
Definition set_u_mm (v : mm) s : machine X :=
  Machine (u_files s) v (u_mmu s) (user_active s) (user_resume_spsr s) (user_program_pages s) (user_program_page_writable s) (daif s).
Definition set_u_mmu (v : mmu) s : machine X :=
  Machine (u_files s) (u_mm s) v (user_active s) (user_resume_spsr s) (user_program_pages s) (user_program_page_writable s) (daif s).
Definition set_user_active (v : Z) s : machine X :=
  Machine (u_files s) (u_mm s) (u_mmu s) v (user_resume_spsr s) (user_program_pages s) (user_program_page_writable s) (daif s).
Definition set_user_resume_spsr (v : Z) s : machine X :=
  Machine (u_files s) (u_mm s) (u_mmu s) (user_active s) v (user_program_pages s) (user_program_page_writable s) (daif s).
Definition set_user_program_pages (v : list Z) s : machine X :=
  Machine (u_files s) (u_mm s) (u_mmu s) (user_active s) (user_resume_spsr s) v (user_program_page_writable s) (daif s).
Definition set_user_program_page_writable (v : list Z) s : machine X :=
  Machine (u_files s) (u_mm s) (u_mmu s) (user_active s) (user_resume_spsr s) (user_program_pages s) v (daif s).

Abbreviation U := (M (machine X)).
Definition on_files {A} (m : M (files X) A) : U A := zoom u_files set_u_files m.
Definition on_mm {A} (m : M mm A) : U A := zoom u_mm set_u_mm m.
Definition on_mmu {A} (m : M mmu A) : U A := zoom u_mmu set_u_mmu m.

(** Writes through a physical address, which the kernel maps to itself. *)
Definition phys_memset (address n : Z) : U unit :=
  on_mm (modify (fun m => set_ram (fun a => if (address <=? a) && (a <? address + n) then 0 else ram m a) m)).
Definition phys_memcpy (address : Z) (bytes : mem) : U unit :=
  on_mm (modify (fun m => set_ram (fun a => default (ram m a) (rd bytes (a - address))) m)).
(** [n] bytes of a buffer from an offset on. *)
Definition bytes_at (buffer : mem) (off n : Z) : option mem :=
  if (0 <=? off) && (off + n <=? lenZ buffer) then Some (slice buffer (Z.to_nat off) (Z.to_nat n)) else None.

Definition user_blob_size : Z := lenZ blob.

Fixpoint prepare_loop (fuel : nat) (code_pages : list Z) (page_index code_page_count : Z) : U unit :=
  match fuel with
  | O => undef
  | S fuel' =>
      if page_index <? code_page_count then
        p <- deref (rd code_pages page_index);;
        phys_memset p PMM_PAGE_SIZE;;
        prepare_loop fuel' code_pages (u32 (page_index + 1)) code_page_count
      else ret tt
  end.
Definition user_prepare_pages (code_pages : list Z) (code_page_count stack_page : Z) : U unit :=
  prepare_loop (S (Z.to_nat code_page_count)) code_pages 0 code_page_count;;
  phys_memset stack_page PMM_PAGE_SIZE;;
  let program_size := user_blob_size in
  if u64 (PMM_PAGE_SIZE * code_page_count) <? program_size then panic "user program too large"
  else p <- deref (rd code_pages 0);; bytes <- deref (bytes_at blob 0 program_size);; phys_memcpy p bytes.

Definition user_code_page_count (program_size : Z) : Z := u32 (u64 (u64 (program_size + PMM_PAGE_SIZE) - 1) / PMM_PAGE_SIZE).

Definition user_program_range_valid (image_base page_count : Z) : bool :=
  if (page_count =? 0) || (USER_MAX_PROGRAM_PAGES <? page_count) then false
  else if image_base <? USER_CODE_VA then false
  else negb (USER_STACK_TOP - PMM_PAGE_SIZE <? u64 (image_base + u64 (page_count * PMM_PAGE_SIZE))).

(** Allocates pages into an array; the result is the status and the array. *)
Fixpoint alloc_loop (fuel : nat) (program_pages : list Z) (index page_count : Z) : U (Z * list Z) :=
  match fuel with
  | O => undef
  | S fuel' =>
      if index <? page_count then
        page <- on_mm (pmm_alloc_page plat);;
        pages1 <- deref (wr program_pages index page);;
        if page =? 0 then ret (-1, pages1)
        else
          phys_memset page PMM_PAGE_SIZE;;
          alloc_loop fuel' pages1 (u32 (index + 1)) page_count
      else ret (0, program_pages)
  end.
Definition user_alloc_program_pages (program_pages : list Z) (page_count : Z) : U (Z * list Z) :=
  alloc_loop (S (Z.to_nat page_count)) program_pages 0 page_count.

Fixpoint map_loop (fuel : nat) (image_base : Z) (program_pages : list Z) (page_writable : option (list Z)) (page_index page_count : Z) : U unit :=
  match fuel with
  | O => undef
  | S fuel' =>
      if page_index <? page_count then
        let virtual_address := u64 (image_base + u64 (page_index * PMM_PAGE_SIZE)) in
        writable <- match page_writable with
                    | Some w => v <- deref (rd w page_index);; ret (negb (v =? 0))
                    | None => ret false
                    end;;
        p <- deref (rd program_pages page_index);;
        on_mmu (if (writable : bool) then mmu_map_user_data_page virtual_address p else mmu_map_user_code_page virtual_address p);;
        map_loop fuel' image_base program_pages page_writable (u32 (page_index + 1)) page_count
      else ret tt
  end.
Fixpoint sync_loop (fuel : nat) (program_pages : list Z) (page_index page_count : Z) : U unit :=
  match fuel with
  | O => undef
  | S fuel' =>
      if page_index <? page_count then
        p <- deref (rd program_pages page_index);;
        on_mmu (mmu_sync_for_exec p PMM_PAGE_SIZE);;
        sync_loop fuel' program_pages (u32 (page_index + 1)) page_count
      else ret tt
  end.

(** Everything before the program is entered. *)
Definition prepare_run (label : mem) (image_base entry_point : Z) (program_pages : list Z) (page_writable : option (list Z))
    (page_count stack_page program_size : Z) : U unit :=
  map_loop (S (Z.to_nat page_count)) image_base program_pages page_writable 0 page_count;;
  on_mmu (mmu_map_user_data_page (USER_STACK_TOP - PMM_PAGE_SIZE) stack_page);;
  sync_loop (S (Z.to_nat page_count)) program_pages 0 page_count;;
  modify (fun s => set_user_resume_spsr (Z.lor (Z.land (daif s) 0x3c0) 0x5) s);;
  kprintf (nl "[INFO] user: loading %s base=%p entry=%p size=%u pages=%u")
    [AStr (Some label); APtr image_base; APtr entry_point; AUint (u32 program_size); AUint page_count];;
  klog_info "user: entering EL0";;
  modify (set_user_active 1).
(** The program, and what follows its exit. *)
Definition run_user (entry_point : Z) : U Z :=
  result <- arch_enter_user entry_point USER_STACK_TOP;;
  modify (set_user_active 0);;
  kprintf (nl "[INFO] user: exited EL0 status=%u") [AUint (u32 result)];;
  ret (i32 (u32 result)).
Definition user_run_loaded_pages (label : mem) (image_base entry_point : Z) (program_pages : list Z) (page_writable : option (list Z))
    (page_count stack_page program_size : Z) : U Z :=
  prepare_run label image_base entry_point program_pages page_writable page_count stack_page program_size;;
  run_user entry_point.

(** Copies a chunk of a flat file to the pages; the result is the status and
    [total_read]. *)
Fixpoint chunk_loop (fuel : nat) (buffer : mem) (code_pages : list Z) (code_page_count total_read copy_offset remaining : Z) : U (Z * Z) :=
  match fuel with
  | O => undef
  | S fuel' =>
      if 0 <? remaining then
        let page_index := total_read / PMM_PAGE_SIZE in
        let page_offset := total_read mod PMM_PAGE_SIZE in
        if code_page_count <=? page_index then ret (-1, total_read)
        else
          let copy_size0 := u32 (PMM_PAGE_SIZE - page_offset) in
          let copy_size := if remaining <? copy_size0 then remaining else copy_size0 in
          p <- deref (rd code_pages page_index);;
          bytes <- deref (bytes_at buffer copy_offset copy_size);;
          phys_memcpy (u64 (p + page_offset)) bytes;;
          chunk_loop fuel' buffer code_pages code_page_count (u32 (total_read + copy_size)) (u32 (copy_offset + copy_size)) (u32 (remaining - copy_size))
      else ret (0, total_read)
  end.
Fixpoint load_loop (fuel : nat) (file : option Z) (buffer : mem) (code_pages : list Z) (code_page_count total_read : Z) : U Z :=
  match fuel with
  | O => undef
  | S fuel' =>
      let! (chunk_size, buffer1) := on_files (file_read local64 file (Some buffer) USER_LOAD_CHUNK_SIZE) in
      if chunk_size <? 0 then ret (-1)
      else if chunk_size =? 0 then ret 0
      else
        bytes <- deref buffer1;;
        let! (status, total1) := chunk_loop (S (Z.to_nat chunk_size)) bytes code_pages code_page_count total_read 0 (u32 chunk_size) in
        if negb (status =? 0) then ret (-1) else load_loop fuel' file bytes code_pages code_page_count total1
  end.
(** Every round but the last reads a byte of the [n] of the file. *)
Definition user_load_file_into_pages (n : nat) (file : option Z) (code_pages : list Z) (code_page_count : Z) : U Z :=
  load_loop (S (S n)) file local256 code_pages code_page_count 0.

Fixpoint read_exact_loop (fuel : nat) (file : option Z) (buffer : mem) (cursor remaining : Z) : U (Z * mem) :=
  match fuel with
  | O => undef
  | S fuel' =>
      if 0 <? remaining then
        let! (read_size, rest) := on_files (file_read local64 file (Some (drop (Z.to_nat cursor) buffer)) remaining) in
        rest1 <- deref rest;;
        let buffer1 := take (Z.to_nat cursor) buffer ++ rest1 in
        if read_size <=? 0 then ret (-1, buffer1)
        else read_exact_loop fuel' file buffer1 (cursor + read_size) (u32 (remaining - u32 read_size))
      else ret (0, buffer)
  end.
Definition user_read_exact (file : option Z) (buffer : mem) (size0 : Z) : U (Z * mem) :=
  read_exact_loop (S (Z.to_nat size0)) file buffer 0 size0.
Definition user_read_exact_at (file : option Z) (offset0 : Z) (buffer : mem) (size0 : Z) : U (Z * mem) :=
  status <- on_files (file_seek file offset0);;
  if negb (status =? 0) then ret (-1, buffer) else user_read_exact file buffer size0.

Fixpoint copy_loop (fuel : nat) (file : option Z) (buffer : mem) (destination_va size image_base : Z) (program_pages : list Z)
    (page_count copied : Z) : U Z :=
  match fuel with
  | O => undef
  | S fuel' =>
      if copied <? size then
        let chunk_size := if u64 (size - copied) <? USER_LOAD_CHUNK_SIZE then u32 (size - copied) else USER_LOAD_CHUNK_SIZE in
        let! (read_size, buffer1) := on_files (file_read local64 file (Some buffer) chunk_size) in
        if negb (read_size =? i32 chunk_size) then ret (-1)
        else
          bytes <- deref buffer1;;
          let destination_offset := u64 (u64 (destination_va - image_base) + copied) in
          let page_index := u32 (destination_offset / PMM_PAGE_SIZE) in
          let page_offset := destination_offset mod PMM_PAGE_SIZE in
          if page_count <=? page_index then ret (-1)
          else
            let copy_size0 := u32 (PMM_PAGE_SIZE - page_offset) in
            let copy_size := if chunk_size <? copy_size0 then chunk_size else copy_size0 in
            p <- deref (rd program_pages page_index);;
            piece <- deref (bytes_at bytes 0 copy_size);;
            phys_memcpy (u64 (p + page_offset)) piece;;
            let copied1 := u64 (copied + copy_size) in
            if copy_size <? chunk_size then
              let page_index1 := u32 (page_index + 1) in
              if page_count <=? page_index1 then ret (-1)
              else
                let remainder := u32 (chunk_size - copy_size) in
                p1 <- deref (rd program_pages page_index1);;
                piece1 <- deref (bytes_at bytes copy_size remainder);;
                phys_memcpy p1 piece1;;
                copy_loop fuel' file bytes destination_va size image_base program_pages page_count (u64 (copied1 + remainder))
            else copy_loop fuel' file bytes destination_va size image_base program_pages page_count copied1
      else ret 0
  end.
(** [n] bytes at most are read before the copy ends or fails. *)
Definition user_copy_file_range_into_pages (n : nat) (file : option Z) (file_offset destination_va size image_base : Z)
    (program_pages : list Z) (page_count : Z) : U Z :=
  status <- on_files (file_seek file file_offset);;
  if negb (status =? 0) then ret (-1)
  else copy_loop (S (S n)) file local256 destination_va size image_base program_pages page_count 0.

Fixpoint zero_loop (fuel : nat) (start_va size image_base : Z) (program_pages : list Z) (page_count cleared : Z) : U Z :=
  match fuel with
  | O => undef
  | S fuel' =>
      if cleared <? size then
        let destination_offset := u64 (u64 (start_va - image_base) + cleared) in
        let page_index := u32 (destination_offset / PMM_PAGE_SIZE) in
        let page_offset := destination_offset mod PMM_PAGE_SIZE in
        if page_count <=? page_index then ret (-1)
        else
          let clear_size0 := u32 (PMM_PAGE_SIZE - page_offset) in
          let clear_size := if u64 (size - cleared) <? clear_size0 then u32 (size - cleared) else clear_size0 in
          p <- deref (rd program_pages page_index);;
          phys_memset (u64 (p + page_offset)) clear_size;;
          zero_loop fuel' start_va size image_base program_pages page_count (u64 (cleared + clear_size))
      else ret 0
  end.
(** A round clears up to the end of a page, and there are [page_count] pages. *)
Definition user_zero_range_in_pages (start_va size image_base : Z) (program_pages : list Z) (page_count : Z) : U Z :=
  zero_loop (S (S (Z.to_nat page_count))) start_va size image_base program_pages page_count 0.

Definition elf_magic (bytes : mem) : option bool :=
  c0 ← rd bytes 0; c1 ← rd bytes 1; c2 ← rd bytes 2; c3 ← rd bytes 3;
  Some ((c0 =? ELF_MAGIC0) && (c1 =? ELF_MAGIC1) && (c2 =? ELF_MAGIC2) && (c3 =? ELF_MAGIC3)).

Definition user_elf_header_valid (header : elf64_header) (file_size : Z) : option bool :=
  if file_size <? elf64_header_size then Some false
  else
    magic ← elf_magic (ident header);
    class ← rd (ident header) ELF_EI_CLASS;
    data ← rd (ident header) ELF_EI_DATA;
    version ← rd (ident header) ELF_EI_VERSION;
    if negb magic || negb (class =? ELF_CLASS_64) || negb (data =? ELF_DATA_LITTLE_ENDIAN)
       || negb (version =? ELF_VERSION_CURRENT) || negb (e_version header =? ELF_VERSION_CURRENT)
       || negb (e_machine header =? ELF_MACHINE_AARCH64) || negb (e_type header =? ELF_TYPE_EXECUTABLE)
       || negb (e_ehsize header =? elf64_header_size) || negb (e_phentsize header =? elf64_program_header_size) || (e_phnum header =? 0)
    then Some false
    else
      let program_headers_end := u64 (e_phoff header + u64 (e_phnum header * e_phentsize header)) in
      Some (negb ((program_headers_end <? e_phoff header) || (file_size <? program_headers_end))).

(** [file->size]. *)
Definition handle_size (file : option Z) : U Z :=
  h <- deref file;; on_files (table <- gets file_table;; f <- deref (rd table h);; ret (size f)).

Definition user_run_flat_file (file : option Z) (path : mem) : U Z :=
  program_size <- handle_size file;;
  let code_page_count := user_code_page_count program_size in
  if negb (user_program_range_valid USER_CODE_VA code_page_count) || (USER_FLAT_BINARY_MAX_PAGES <? code_page_count) then ret (-1)
  else
    let! (status, code_pages) := user_alloc_program_pages local16 code_page_count in
    if negb (status =? 0) then ret (-1)
    else
      stack_page <- on_mm (pmm_alloc_page plat);;
      if stack_page =? 0 then ret (-1)
      else
        phys_memset stack_page PMM_PAGE_SIZE;;
        loaded <- user_load_file_into_pages (Z.to_nat program_size) file code_pages code_page_count;;
        if negb (loaded =? 0) then ret (-1)
        else user_run_loaded_pages path USER_CODE_VA USER_CODE_VA code_pages None code_page_count stack_page program_size.

(** Reads program header [index]. *)
Definition read_program_header (file : option Z) (header : elf64_header) (index : Z) : U (option elf64_program_header) :=
  let header_offset := u32 (u64 (e_phoff header + u64 (index * e_phentsize header))) in
  let! (status, bytes) := user_read_exact_at file header_offset (take 56 local_header) elf64_program_header_size in
  ret (if status =? 0 then Some (elf64_program_header_of bytes) else None).

(** The first pass: [None] is a rejected file, else [found_load_segment],
    [image_base] and [image_end]. *)
Definition scan_segment (ph : elf64_program_header) (file_size : Z) (found : bool) (image_base image_end : Z) : option (bool * Z * Z) :=
  if negb (p_type ph =? ELF_PROGRAM_TYPE_LOAD) || (p_memsz ph =? 0) then Some (found, image_base, image_end)
  else if p_memsz ph <? p_filesz ph then None
  else if (u64 (p_offset ph + p_filesz ph) <? p_offset ph) || (file_size <? u64 (p_offset ph + p_filesz ph)) then None
  else if u64 (p_vaddr ph + p_memsz ph) <? p_vaddr ph then None
  else
    let segment_start := Z.land (p_vaddr ph) (not64 (PMM_PAGE_SIZE - 1)) in
    let segment_end := Z.land (u64 (u64 (u64 (p_vaddr ph + p_memsz ph) + PMM_PAGE_SIZE) - 1)) (not64 (PMM_PAGE_SIZE - 1)) in
    if (segment_start <? USER_CODE_VA) || (USER_STACK_TOP - PMM_PAGE_SIZE <? segment_end) then None
    else
      Some (true, if negb found || (segment_start <? image_base) then segment_start else image_base,
                  if negb found || (image_end <? segment_end) then segment_end else image_end).
Fixpoint scan_headers (fuel : nat) (file : option Z) (header : elf64_header) (file_size index : Z) (found : bool) (image_base image_end : Z) :
    U (option (bool * Z * Z)) :=
  match fuel with
  | O => undef
  | S fuel' =>
      if index <? e_phnum header then
        ph <- read_program_header file header index;;
        match ph with
        | None => ret None
        | Some ph =>
            match scan_segment ph file_size found image_base image_end with
            | None => ret None
            | Some (found1, base1, end1) => scan_headers fuel' file header file_size (u32 (index + 1)) found1 base1 end1
            end
        end
      else ret (Some (found, image_base, image_end))
  end.

(** Marks pages [first] to [last] as writable. *)
Fixpoint mark_loop (fuel : nat) (page_index last_page_index : Z) : U unit :=
  match fuel with
  | O => undef
  | S fuel' =>
      if page_index <=? last_page_index then
        w <- gets user_program_page_writable;; w1 <- deref (wr w page_index 1);;
        modify (set_user_program_page_writable w1);;
        mark_loop fuel' (u32 (page_index + 1)) last_page_index
      else ret tt
  end.

(** The second pass, for one program header: [None] is a rejected file, else
    whether the entry point is in the segment. *)
Definition load_segment (file : option Z) (n : nat) (header : elf64_header) (ph : elf64_program_header) (image_base page_count : Z) : U (option bool) :=
  if negb (p_type ph =? ELF_PROGRAM_TYPE_LOAD) || (p_memsz ph =? 0) then ret (Some false)
  else
    let entry_mapped := (p_vaddr ph <=? e_entry header) && (e_entry header <? u64 (p_vaddr ph + p_memsz ph)) in
    let segment_offset := u64 (p_vaddr ph - image_base) in
    let first_page_index := u32 (segment_offset / PMM_PAGE_SIZE) in
    let last_page_index := u32 (u64 (u64 (segment_offset + p_memsz ph) - 1) / PMM_PAGE_SIZE) in
    if page_count <=? last_page_index then ret None
    else
      (if negb (Z.land (p_flags ph) ELF_PROGRAM_FLAG_WRITE =? 0)
       then mark_loop (S (S (Z.to_nat (last_page_index - first_page_index)))) first_page_index last_page_index else ret tt);;
      pages <- gets user_program_pages;;
      copied <- (if 0 <? p_filesz ph
                 then user_copy_file_range_into_pages n file (u32 (p_offset ph)) (p_vaddr ph) (p_filesz ph) image_base pages page_count
                 else ret 0);;
      if negb (copied =? 0) then ret None
      else
        cleared <- (if p_filesz ph <? p_memsz ph
                    then user_zero_range_in_pages (u64 (p_vaddr ph + p_filesz ph)) (u64 (p_memsz ph - p_filesz ph)) image_base pages page_count
                    else ret 0);;
        if negb (cleared =? 0) then ret None else ret (Some entry_mapped).
Fixpoint load_segments (fuel : nat) (file : option Z) (n : nat) (header : elf64_header) (index image_base page_count : Z) (entry_mapped : bool) :
    U (option bool) :=
  match fuel with
  | O => undef
  | S fuel' =>
      if index <? e_phnum header then
        ph <- read_program_header file header index;;
        match ph with
        | None => ret None
        | Some ph =>
            mapped <- load_segment file n header ph image_base page_count;;
            match mapped with
            | None => ret None
            | Some m => load_segments fuel' file n header (u32 (index + 1)) image_base page_count (m || entry_mapped)
            end
        end
      else ret (Some entry_mapped)
  end.

(** The two passes of [user_run_elf_file]: [None] is a rejected file, else the
    base, end and page count of the image, which is in [user_program_pages]. *)
Definition load_elf (file : option Z) (header : elf64_header) (file_size : Z) : U (option (Z * Z * Z)) :=
  scanned <- scan_headers (S (Z.to_nat (e_phnum header))) file header file_size 0 false (u64 (-1)) 0;;
  match scanned with
  | None => ret None
  | Some (found, image_base, image_end) =>
      if negb found || (image_end <=? image_base) then ret None
      else
        let page_count := user_code_page_count (u64 (image_end - image_base)) in
        if negb (user_program_range_valid image_base page_count) then ret None
        else if (e_entry header <? image_base) || (image_end <=? e_entry header) then ret None
        else
          pages <- gets user_program_pages;;
          let! (status, pages1) := user_alloc_program_pages pages page_count in
          modify (set_user_program_pages pages1);;
          if negb (status =? 0) then ret None
          else
            w <- gets user_program_page_writable;;
            w1 <- deref (memset w 0 0 page_count);;
            modify (set_user_program_page_writable w1);;
            mapped <- load_segments (S (Z.to_nat (e_phnum header))) file (Z.to_nat file_size) header 0 image_base page_count false;;
            match mapped with
            | Some true => ret (Some (image_base, image_end, page_count))
            | _ => ret None
            end
  end.

Definition user_run_elf_file (file : option Z) (path : mem) : U Z :=
  let! (status, bytes) := user_read_exact_at file 0 local_header elf64_header_size in
  if negb (status =? 0) then ret (-1)
  else
    file_size <- handle_size file;;
    let header := elf64_header_of bytes in
    valid <- deref (user_elf_header_valid header file_size);;
    if negb (valid : bool) then ret (-1)
    else
      image <- load_elf file header file_size;;
      match image with
      | None => ret (-1)
      | Some (image_base, image_end, page_count) =>
          stack_page <- on_mm (pmm_alloc_page plat);;
          if stack_page =? 0 then ret (-1)
          else
            phys_memset stack_page PMM_PAGE_SIZE;;
            pages <- gets user_program_pages;;
            w <- gets user_program_page_writable;;
            user_run_loaded_pages path image_base (e_entry header) pages (Some w) page_count stack_page (u64 (image_end - image_base))
      end.

Definition user_exception_active : U Z := gets user_active.

Definition user_exit_from_exception (frame : exception_trap_frame) (status : Z) : U exception_trap_frame :=
  active <- gets user_active;;
  if active =? 0 then x' <- deref (wr (x frame) 0 (u64 (-1)));; ret (set_x x' frame)
  else
    modify (set_user_active 0);;
    x' <- deref (wr (x frame) 0 status);;
    spsr <- gets user_resume_spsr;;
    ret (Frame x' (frame_sp frame) arch_user_resume_el1 spsr (esr_el1 frame) (far_el1 frame) (frame_daif frame) (vector_id frame)).

Definition user_run_demo : U Z :=
  code_page <- on_mm (pmm_alloc_page plat);;
  stack_page <- on_mm (pmm_alloc_page plat);;
  if (code_page =? 0) || (stack_page =? 0) then panic "user page allocation failed"
  else
    let program_size := user_blob_size in
    user_prepare_pages [code_page] 1 stack_page;;
    user_run_loaded_pages (cstr "demo") USER_CODE_VA USER_CODE_VA [code_page] None 1 stack_page program_size.

Definition user_run_file (path : option mem) : U Z :=
  file <- on_files (file_open local64 path);;
  match file with
  | None => ret (-1)
  | Some _ =>
      let! (status, bytes) := user_read_exact_at file 0 local_header elf64_header_size in
      is_elf <- (if status =? 0 then deref (elf_magic bytes) else ret false);;
      label <- deref path;;
      if (is_elf : bool) then
        result <- user_run_elf_file file label;;
        on_files (file_close file);;
        ret result
      else
        sought <- on_files (file_seek file 0);;
        if negb (sought =? 0) then on_files (file_close file);; ret (-1)
        else
          result <- user_run_flat_file file label;;
          on_files (file_close file);;
          ret result
  end.

End definitions.
