(* ===== verification/UserPages.v ===== *)
(** The pages of a user program: what the loader's writes make of them. An
    image is the byte at each offset; page [j] of the program holds offsets
    [4096 * j] to [4096 * j + 4095]. The pages are fresh ones of the page
    allocator, and nothing else of the memory changes. *)
From S2P Require Import Prelude LibString Klog Memory BlockDevice BlockIO ListDisk TinyFS Vfs FileTable Input Task MMU UserProgram.

(** ** Images *)

Definition image : Type := Z -> Z.
Definition blank_image : image := fun _ => 0.
(** [bytes] laid over an image from an offset on. *)
Definition blit (d : Z) (bytes : list Z) (i : image) : image := fun off => default (i off) (rd bytes (off - d)).

Lemma blit_in d bytes i off x : rd bytes (off - d) = Some x -> blit d bytes i off = x.
Proof. unfold blit. by intros ->. Qed.

Lemma blit_out d bytes i off : ~ d <= off < d + lenZ bytes -> blit d bytes i off = i off.
Proof. intros H. unfold blit. by rewrite rd_out by lia. Qed.

Lemma blit_app d b1 b2 i off : blit (d + lenZ b1) b2 (blit d b1 i) off = blit d (b1 ++ b2) i off.
Proof.
  unfold blit, rd. destruct (Z.leb_spec 0 (off - d)).
  - destruct (Z.leb_spec 0 (off - (d + lenZ b1))).
    + rewrite (lookup_app_r b1) by (unfold lenZ in *; lia). replace (Z.to_nat (off - d) - length b1)%nat with (Z.to_nat (off - (d + lenZ b1))) by (unfold lenZ in *; lia).
      destruct (b2 !! _); [done|]. by rewrite (lookup_ge_None_2 b1) by (unfold lenZ in *; lia).
    + rewrite (lookup_app_l b1) by (unfold lenZ in *; lia). done.
  - destruct (Z.leb_spec 0 (off - (d + lenZ b1))); [pose proof (lenZ_nonneg b1); lia|done].
Qed.

Lemma blit_nil d i off : blit d [] i off = i off.
Proof. apply blit_out. change (lenZ (@nil Z)) with 0. lia. Qed.

Lemma blit_ext d bytes i i' off : i off = i' off -> blit d bytes i off = blit d bytes i' off.
Proof. unfold blit. by intros ->. Qed.

(** ** Pages *)

Record pages_ok (pages : list Z) : Prop := {
  pg_distinct : NoDup pages;
  pg_aligned : forall p, p ∈ pages -> p mod 4096 = 0 /\ 0 < p /\ p + 4096 < 2 ^ 63
}.

Definition in_pages (pages : list Z) (a : Z) : Prop := exists p, p ∈ pages /\ p <= a < p + 4096.
Definition holds_image (r : Z -> Z) (pages : list Z) (i : image) : Prop := forall j p o,
  rd pages j = Some p -> 0 <= o < 4096 -> r (p + o) = i (4096 * j + o).
Definition same_outside (pages : list Z) (r r' : Z -> Z) : Prop := forall a, ~ in_pages pages a -> r' a = r a.

Lemma rd_elem {A} (l : list A) j x : rd l j = Some x -> x ∈ l.
Proof. unfold rd. destruct (0 <=? j); [|done]. apply list_elem_of_lookup_2. Qed.

Lemma page_apart pages j j' p p' o o' :
  pages_ok pages -> rd pages j = Some p -> rd pages j' = Some p' -> 0 <= o < 4096 -> 0 <= o' < 4096 -> p + o = p' + o' -> j = j' /\ o = o'.
Proof.
  intros [Hnd Hal] Hj Hj' Ho Ho' He. destruct (Hal p (rd_elem _ _ _ Hj)) as [Hp _]. destruct (Hal p' (rd_elem _ _ _ Hj')) as [Hp' _].
  assert (Hpp : p = p' /\ o = o') by (Z.div_mod_to_equations; lia). destruct Hpp as [-> ->]. split; [|done].
  pose proof (rd_inv _ _ _ Hj). pose proof (rd_inv _ _ _ Hj'). unfold rd in Hj, Hj'.
  rewrite (proj2 (Z.leb_le 0 j)) in Hj by lia. rewrite (proj2 (Z.leb_le 0 j')) in Hj' by lia. pose proof (NoDup_lookup pages _ _ _ Hnd Hj Hj'). lia.
Qed.

(** A write inside one page. *)
Lemma write_page r pages i j p o bytes :
  pages_ok pages -> holds_image r pages i -> rd pages j = Some p -> 0 <= o -> o + lenZ bytes <= 4096 ->
  let r' := fun a => default (r a) (rd bytes (a - (p + o))) in
  holds_image r' pages (blit (4096 * j + o) bytes i) /\ same_outside pages r r'.
Proof.
  intros Hok Hh Hj Ho Hb. split.
  - intros j' p' o' Hj' Ho'. unfold blit. destruct (rd bytes (p' + o' - (p + o))) as [x|] eqn:Hx.
    + pose proof (rd_inv _ _ _ Hx) as Hxb. destruct (page_apart pages j' j p' p o' (o + (p' + o' - (p + o)))) as [-> Hoo]; [done|done|done|done|lia|lia|].
      replace (4096 * j + o' - (4096 * j + o)) with (p' + o' - (p + o)) by lia. by rewrite Hx.
    + cbn [default]. rewrite (Hh j' p' o' Hj' Ho'). rewrite rd_out; [done|]. intros Hin.
      assert (Hjj : j' = j) by lia. subst j'. rewrite Hj in Hj'. injection Hj' as <-.
      replace (4096 * j + o' - (4096 * j + o)) with (p + o' - (p + o)) in Hin by lia. destruct (rd_Some bytes _ Hin) as [y Hy]. congruence.
  - intros a Ha. rewrite rd_out; [done|]. intros Hin. apply Ha. exists p. split; [by eapply rd_elem|lia].
Qed.

Lemma same_outside_refl pages r : same_outside pages r r.
Proof. done. Qed.
Lemma same_outside_trans pages r1 r2 r3 : same_outside pages r1 r2 -> same_outside pages r2 r3 -> same_outside pages r1 r3.
Proof. intros H1 H2 a Ha. by rewrite H2, H1. Qed.
Lemma same_outside_more pages pages' r r' : (forall p, p ∈ pages -> p ∈ pages') -> same_outside pages r r' -> same_outside pages' r r'.
Proof. intros Hsub H a Ha. apply H. intros (p & Hp & Hr). apply Ha. exists p. auto. Qed.
Lemma holds_ext r pages i i' : (forall off, i off = i' off) -> holds_image r pages i -> holds_image r pages i'.
Proof. intros He H j p o Hj Ho. by rewrite <- He, <- (H j p o). Qed.

Lemma holds_ram_ext r r' pages i : (forall a, r' a = r a) -> holds_image r pages i -> holds_image r' pages i.
Proof. intros He H j p o Hj Ho. rewrite He. by apply H. Qed.

(** Zeros, the way [memset] writes them. *)
Lemma zeros_ram (r : Z -> Z) address n a :
  0 <= n -> (if (address <=? a) && (a <? address + n) then 0 else r a) = default (r a) (rd (replicate (Z.to_nat n) 0) (a - address)).
Proof.
  intros Hn. destruct (Z.leb_spec address a), (Z.ltb_spec a (address + n)); cbn [andb].
  - unfold rd. rewrite (proj2 (Z.leb_le 0 (a - address))) by lia. by rewrite lookup_replicate_2 by lia.
  - rewrite rd_out; [done|]. unfold lenZ. rewrite length_replicate. lia.
  - rewrite rd_out; [done|]. lia.
  - rewrite rd_out; [done|]. lia.
Qed.
Definition zeros (n : Z) : list Z := replicate (Z.to_nat n) 0.
Lemma lenZ_zeros n : 0 <= n -> lenZ (zeros n) = n.
Proof. intros Hn. unfold lenZ, zeros. rewrite length_replicate. lia. Qed.

Section machine.
Context {X : Type} `{DiskDriver X} (plat : platform) (Hplat : plat_wf plat).
Implicit Types s : machine X.

(** ** The pages of the loader *)

(** [pages] were free in [m0] and are in use in [m]; what was in use still is,
    and no other page was taken. *)
Record fresh_pages (m0 m : mm) (pages : list Z) : Prop := {
  fp_on : pmm_on plat m;
  fp_count : pmm_page_count m = pmm_page_count m0;
  fp_fresh : forall p, p ∈ pages -> exists q, p = page_addr plat q /\ 0 <= q < pmm_page_count m0 /\ page_used m0 q = false /\ page_used m q = true;
  fp_kept : forall q, 0 <= q -> page_used m0 q = true -> page_used m q = true;
  fp_distinct : NoDup pages;
  fp_only : forall q, 0 <= q -> page_used m q = true -> page_used m0 q = true \/ page_addr plat q ∈ pages;
  fp_taken : pmm_used_count m = pmm_used_count m0 + lenZ pages
}.

(** The pages that are left. *)
Definition free_pages (m : mm) : Z := pmm_page_count m - pmm_used_count m.

Lemma free_pages_bound m : pmm_on plat m -> 0 <= free_pages m.
Proof using Type.
  intros [[_ [_ [Hc _] _] Hu] _]. unfold free_pages. rewrite Hu. pose proof (pages_used_bound m Hc). lia.
Qed.

Lemma fresh_free_pages m0 m pages : fresh_pages m0 m pages -> free_pages m0 = free_pages m + lenZ pages.
Proof using Type. intros []. unfold free_pages. lia. Qed.

Lemma fresh_nil m : pmm_on plat m -> fresh_pages m m [].
Proof using Type.
  intros Hon. split; [done|done| |done|by apply NoDup_nil_2|by left|change (lenZ (@nil Z)) with 0; lia].
  intros p Hp. by apply elem_of_nil in Hp.
Qed.

(** The pages hold an image, and the rest of the memory is as in [s0]. *)
Record loading (s0 s : machine X) (pages : list Z) (i : image) : Prop := {
  lo_pages : fresh_pages (u_mm s0) (u_mm s) pages;
  lo_holds : holds_image (ram (u_mm s)) pages i;
  lo_outside : same_outside pages (ram (u_mm s0)) (ram (u_mm s))
}.
Definition all_used (m : mm) : Prop := forall q, 0 <= q < pmm_page_count m -> page_used m q = true.

Lemma all_used_free m : pmm_on plat m -> all_used m -> free_pages m = 0.
Proof using Type.
  intros [[_ [_ [Hc _] _] Hu] _] Hall. unfold free_pages. rewrite Hu. unfold pages_used, lenZ.
  rewrite (filter_ext_in _ (fun _ => true)) by (intros q Hin%elem_of_seqZ; apply Hall; lia).
  rewrite filter_all, length_seqZ. lia.
Qed.

Lemma fresh_ok m0 m pages : fresh_pages m0 m pages -> pages_ok pages.
Proof using Hplat.
  intros [Hon Hc Hf _ Hnd _ _]. split; [done|]. intros p Hp. destruct (Hf p Hp) as (q & -> & Hq & _).
  assert (Hq' : 0 <= q < pmm_page_count m) by lia. pose proof (page_addr_range plat m q Hplat Hon Hq') as Hr.
  destruct Hplat as [Hb Ha Hs He]. unfold page_addr, PMM_PAGE_SIZE in *. split; [|lia]. Z.div_mod_to_equations. lia.
Qed.

Lemma pmm_on_ram m r : pmm_on plat m -> pmm_on plat (set_ram r m).
Proof using Type. intros [[Hi [Hb1 Hb2 Hb3] Hu] Hc]. split; [split; [exact Hi|split; [exact Hb1|exact Hb2|exact Hb3]|exact Hu]|exact Hc]. Qed.

Lemma fresh_ram m0 m pages r : fresh_pages m0 m pages -> fresh_pages m0 (set_ram r m) pages.
Proof using Type. intros [Hon Hc Hf Hk Hn Ho Ht]. split; [by apply pmm_on_ram|done..]. Qed.

Lemma write_run s0 s pages i j p o bytes :
  loading s0 s pages i -> rd pages j = Some p -> 0 <= o -> o + lenZ bytes <= 4096 ->
  exists s', phys_memcpy (p + o) bytes s = Ret tt s' [] /\ loading s0 s' pages (blit (4096 * j + o) bytes i) /\ s' = set_u_mm (u_mm s') s.
Proof using Hplat.
  intros [Hp Hh Ho] Hj H0 Hb. eexists. split; [reflexivity|]. split; [|done].
  destruct (write_page (ram (u_mm s)) pages i j p o bytes (fresh_ok _ _ _ Hp) Hh Hj H0 Hb) as [Hh' Ho'].
  split; [by apply fresh_ram|exact Hh'|]. eapply same_outside_trans; [exact Ho|exact Ho'].
Qed.

Lemma clear_run s0 s pages i j p o n :
  loading s0 s pages i -> rd pages j = Some p -> 0 <= o -> 0 <= n -> o + n <= 4096 ->
  exists s', phys_memset (p + o) n s = Ret tt s' [] /\ loading s0 s' pages (blit (4096 * j + o) (zeros n) i) /\ s' = set_u_mm (u_mm s') s.
Proof using Hplat.
  intros [Hp Hh Ho] Hj H0 Hn Hb. eexists. split; [reflexivity|]. split; [|done].
  destruct (write_page (ram (u_mm s)) pages i j p o (zeros n) (fresh_ok _ _ _ Hp) Hh Hj H0) as [Hh' Ho']; [rewrite lenZ_zeros by lia; lia|].
  split; [by apply fresh_ram| |].
  - eapply holds_ram_ext; [|exact Hh']. intros a. by apply zeros_ram.
  - eapply same_outside_trans; [exact Ho|]. intros a Ha. rewrite <- (Ho' a Ha). by apply zeros_ram.
Qed.

(** One page more, filled with zeros. *)
Lemma alloc_page_run s0 s pages i :
  loading s0 s pages i -> (forall off, 4096 * lenZ pages <= off < 4096 * lenZ pages + 4096 -> i off = 0) ->
  (exists p s1 s2, on_mm (pmm_alloc_page plat) s = Ret p s1 [] /\ p <> 0 /\ phys_memset p 4096 s1 = Ret tt s2 [] /\
     loading s0 s2 (pages ++ [p]) i /\ s2 = set_u_mm (u_mm s2) s) \/
  (on_mm (pmm_alloc_page plat) s = Ret 0 s [] /\ all_used (u_mm s)).
Proof using Hplat.
  intros Hl Hz. pose proof Hl as [Hp Hh Ho]. pose proof Hp as [Hon Hc Hf Hk Hnd Honly Htaken].
  destruct (pmm_alloc_page_cases plat (u_mm s) Hplat Hon) as [(q & m1 & Hq & Hlow & Hr & Ht & Hon1)|[Hall Hr]].
  2:{ right. split; [|done]. unfold on_mm, zoom. rewrite Hr. by destruct s. }
  left. destruct Ht as (Hfree & Hc1 & _ & _ & Huc & _ & Hram & Hused). pose proof (page_addr_range plat (u_mm s) q Hplat Hon Hq) as Hrange.
  set (p := page_addr plat q) in *. pose proof (pl_base plat Hplat).
  assert (Hnew : p ∉ pages).
  { intros Hin. destruct (Hf p Hin) as (q' & Hpq & _ & _ & Hu'). apply page_addr_inj in Hpq as <-. congruence. }
  assert (Hfresh : fresh_pages (u_mm s0) m1 (pages ++ [p])).
  { split; [done|congruence| | | | |].
    - intros p' [Hin| ->%list_elem_of_singleton]%elem_of_app.
      + destruct (Hf p' Hin) as (q' & -> & Hq' & Hfr & Hu'). exists q'. split_and!; try done; try lia. rewrite Hused, Hu' by lia. apply orb_true_r.
      + exists q. split_and!; try done; try lia; [|by rewrite Hused, Z.eqb_refl by lia].
        destruct (page_used (u_mm s0) q) eqn:E; [|done]. rewrite (Hk q) in Hfree by (done || lia). done.
    - intros q' Hq' Hu'. rewrite Hused, (Hk q' Hq' Hu') by lia. apply orb_true_r.
    - apply NoDup_app. split_and!; [done| |by apply NoDup_singleton]. intros p' Hp' ->%list_elem_of_singleton. done.
    - intros q' Hq' Hu'. rewrite Hused in Hu' by lia. apply orb_true_iff in Hu' as [->%Z.eqb_eq|Hu'].
      + right. apply elem_of_app. right. by apply list_elem_of_singleton.
      + destruct (Honly q' Hq' Hu') as [Hold|Hin]; [by left|right; apply elem_of_app; by left].
    - pose proof (free_pages_bound m1 Hon1) as Hb1. pose proof (free_pages_bound _ Hon) as Hb0. unfold free_pages in *.
      destruct Hon as [[_ [_ [Hc0 _] Hs0] Hu0] _]. pose proof (pages_used_bound _ Hc0).
      rewrite Huc, lenZ_app, u64_small by lia. change (lenZ [p]) with 1. lia. }
  exists p, (set_u_mm m1 s). eexists. split; [unfold on_mm, zoom; by rewrite Hr|]. split; [lia|]. split; [reflexivity|]. split; [|done].
  split; [by apply fresh_ram| |].
  - intros j p' o Hj Hob. cbn. destruct (decide (j < lenZ pages)) as [Hlt|Hge].
    + assert (Hj' : rd pages j = Some p').
      { pose proof (rd_inv _ _ _ Hj). unfold rd in *. rewrite (proj2 (Z.leb_le 0 j)) in * by lia. rewrite lookup_app_l in Hj by (unfold lenZ in Hlt; lia). done. }
      assert (Hne : p' <> p) by (intros ->; apply Hnew; by eapply rd_elem).
      pose proof (fresh_ok _ _ _ Hfresh) as [_ Hal]. destruct (Hal p') as [Hm _]; [by eapply rd_elem|]. destruct (Hal p) as [Hm' _]; [apply elem_of_app; right; by apply list_elem_of_singleton|].
      assert (Hout : (p <=? p' + o) && (p' + o <? p + 4096) = false).
      { destruct (Z.leb_spec p (p' + o)), (Z.ltb_spec (p' + o) (p + 4096)); try done. exfalso. apply Hne. Z.div_mod_to_equations. lia. }
      rewrite Hout, Hram. by apply Hh.
    + pose proof (rd_inv _ _ _ Hj) as Hjb. rewrite lenZ_app in Hjb. change (lenZ [p]) with 1 in Hjb. assert (Hje : j = lenZ pages) by lia. subst j.
      rewrite rd_at in Hj. injection Hj as <-. rewrite (proj2 (Z.leb_le p (p + o))), (proj2 (Z.ltb_lt (p + o) (p + 4096))) by lia. cbn [andb].
      symmetry. apply Hz. lia.
  - intros a Ha. cbn. destruct (Z.leb_spec p a), (Z.ltb_spec a (p + 4096)); cbn [andb].
    1: exfalso; apply Ha; exists p; split; [apply elem_of_app; right; by apply list_elem_of_singleton|lia].
    all: rewrite Hram; apply Ho; intros (p' & Hp' & Hr'); apply Ha; exists p'; split; [apply elem_of_app; by left|done].
Qed.
End machine.

(** ** Reading the file *)

Section reading.
Context {X : Type} `{DiskDriver X} (d : block_device X) (h : Z) (i : nat) (e : mem) (n : list Z) (Hdisk : on_disk d e) (Hh : 0 <= h < FILE_TABLE_MAX).
Implicit Types s : machine X.

Definition reading s (pos : Z) : Prop := open_at (u_files s) d h i e n pos.

Lemma reading_bound s pos : reading s pos -> 0 <= pos <= file_size e /\ file_size e < 2 ^ 31 /\ lenZ (file_bytes d e) = file_size e.
Proof using Hdisk Hh.
  intros [Hwf [p [Hm _ _]] Hslot _ _ _]. destruct (mt_disk _ _ _ Hm) as (_ & Hdev & _). destruct (table_rd _ h Hwf Hh) as (f & Hf & Hok).
  rewrite Hslot in Hf. injection Hf as <-. destruct Hok as [Hb _]. cbn in Hb. split; [done|]. split; [apply Hdisk|]. by apply file_bytes_length.
Qed.

(** Only the open file moves. *)
Definition moves s s' pos : Prop := reading s' pos /\ s' = set_u_files (u_files s') s /\
  forall h', h' <> h -> rd (file_table (u_files s')) h' = rd (file_table (u_files s)) h'.

Lemma moves_trans s s1 s2 pos1 pos2 : moves s s1 pos1 -> moves s1 s2 pos2 -> moves s s2 pos2.
Proof using Type.
  intros (_ & H1 & H1') (H2 & H3 & H4). split; [done|]. split; [rewrite H3, H1; done|]. intros h' Hne. by rewrite H4, H1'.
Qed.
Lemma moves_refl s pos : reading s pos -> moves s s pos.
Proof using Type. intros Hr. split; [done|]. split; [by destruct s|done]. Qed.

Lemma got_length s pos k : reading s pos -> 0 <= k -> lenZ (slice (file_bytes d e) (Z.to_nat pos) (Z.to_nat (Z.min k (file_size e - pos)))) = Z.min k (file_size e - pos).
Proof using Hdisk Hh.
  intros Hr Hk. destruct (reading_bound s pos Hr) as (Hp & Hs & Hl). unfold lenZ in *. rewrite length_slice; lia.
Qed.

Context (local64 : mem) (local64_len : lenZ local64 = VFS_PATH_MAX).

Lemma read_run s pos buf k :
  reading s pos -> 0 <= k <= lenZ buf -> lenZ buf < 2 ^ 32 ->
  let got := slice (file_bytes d e) (Z.to_nat pos) (Z.to_nat (Z.min k (file_size e - pos))) in
  exists s', on_files (file_read local64 (Some h) (Some buf) k) s = Ret (lenZ got, Some (splice buf 0 got)) s' [] /\ moves s s' (pos + lenZ got).
Proof using local64_len Hdisk Hh.
  intros Hr Hk Hb got. destruct (file_read_step local64 local64_len (u_files s) d h i e n pos buf k Hr Hdisk Hh Hk Hb) as (f' & Hread & Hop & Hoth).
  exists (set_u_files f' s). split; [exact (zoom_Ret u_files set_u_files _ s _ _ _ Hread)|]. by split_and!.
Qed.

Lemma seek_run s pos o :
  reading s pos -> 0 <= o < 2 ^ 32 ->
  exists s', on_files (file_seek (Some h) o) s = Ret (if o <=? file_size e then 0 else -1) s' [] /\ moves s s' (if o <=? file_size e then o else pos).
Proof using Hh.
  intros Hr Ho. destruct (file_seek_step (u_files s) d h i e n pos o Hr Hh Ho) as (f' & Hseek & Hop & Hoth).
  exists (set_u_files f' s). split; [exact (zoom_Ret u_files set_u_files _ s _ _ _ Hseek)|]. by split_and!.
Qed.

(** All of the bytes asked for, or a failure at the end of the file. *)
Lemma read_exact_run s pos buf k :
  reading s pos -> 0 <= k <= lenZ buf -> lenZ buf < 2 ^ 31 ->
  exists buf' s', user_read_exact local64 (Some h) buf k s = Ret (if pos + k <=? file_size e then 0 else -1, buf') s' [] /\
    (pos + k <= file_size e -> buf' = splice buf 0 (slice (file_bytes d e) (Z.to_nat pos) (Z.to_nat k))) /\ exists pos', moves s s' pos'.
Proof using local64_len Hdisk Hh.
  intros Hr Hk Hb. destruct (reading_bound s pos Hr) as (Hp & Hs & Hl). unfold user_read_exact.
  destruct (Z.eqb_spec k 0) as [->|Hk0].
  { exists buf, s. cbn [Z.to_nat read_exact_loop]. change (0 <? 0) with false. rewrite Z.add_0_r, (proj2 (Z.leb_le _ _)) by lia.
    split; [done|]. split; [intros _; by rewrite slice_nil, splice_nil|]. exists pos. by apply moves_refl. }
  destruct (Z.to_nat k) as [|k'] eqn:Hkk; [lia|]. rewrite <- Hkk. cbn [read_exact_loop]. rewrite (proj2 (Z.ltb_lt 0 k)) by lia.
  change (Z.to_nat 0) with 0%nat. rewrite drop_0, take_0. cbn [app].
  destruct (read_run s pos buf k Hr Hk ltac:(lia)) as (s1 & Hr1 & Hm1). pose proof (got_length s pos k Hr ltac:(lia)) as Hgl.
  set (got := slice (file_bytes d e) (Z.to_nat pos) (Z.to_nat (Z.min k (file_size e - pos)))) in *.
  rewrite (bind_Ret_nil _ _ _ _ _ Hr1). cbn iota. rewrite (bind_deref_Some _ _ _ _ eq_refl).
  destruct (Z.leb_spec (lenZ got) 0) as [Hz|Hpos].
  { rewrite (proj2 (Z.leb_gt _ _)) by lia. exists (splice buf 0 got), s1. split; [done|]. split; [lia|by eexists]. }
  rewrite (u32_small (lenZ got)), u32_small by lia. rewrite Hkk. destruct k' as [|k'']; cbn [read_exact_loop].
  - assert (lenZ got = 1 /\ k = 1) as [-> ->] by lia. change (0 <? 1 - 1) with false. rewrite (proj2 (Z.leb_le _ _)) by lia.
    exists (splice buf 0 got), s1. split; [done|]. split; [|by eexists]. intros _. unfold got. by replace (Z.min 1 (file_size e - pos)) with 1 by lia.
  - destruct (Z.ltb_spec 0 (k - lenZ got)) as [Hmore|Hdone].
    + rewrite (proj2 (Z.leb_gt _ _)) by lia. pose proof Hm1 as (Hr1' & _ & _). set (buf1 := splice buf 0 got).
      assert (Hlb : lenZ buf1 = lenZ buf) by (unfold buf1, lenZ in *; rewrite length_splice; lia).
      assert (Hld : lenZ (drop (Z.to_nat (0 + lenZ got)) buf1) = lenZ buf - lenZ got) by (unfold lenZ in *; rewrite length_drop; lia).
      destruct (read_run s1 (pos + lenZ got) (drop (Z.to_nat (0 + lenZ got)) buf1) (k - lenZ got) Hr1') as (s2 & Hr2 & Hm2); [lia|lia|].
      replace (Z.min (k - lenZ got) (file_size e - (pos + lenZ got))) with 0 in Hr2, Hm2 by lia. change (Z.to_nat 0) with 0%nat in Hr2, Hm2.
      rewrite slice_nil, splice_nil in Hr2. change (lenZ []) with 0 in Hr2. rewrite (bind_Ret_nil _ _ _ _ _ Hr2). cbn iota.
      rewrite (bind_deref_Some _ _ _ _ eq_refl). change (0 <=? 0) with true. eexists _, s2. split; [done|]. split; [lia|]. eexists. by eapply moves_trans.
    + rewrite (proj2 (Z.leb_le _ _)) by lia. exists (splice buf 0 got), s1. split; [done|]. split; [|by eexists]. intros _. unfold got.
      rewrite <- Hkk. by replace (Z.min k (file_size e - pos)) with k by lia.
Qed.

Lemma read_exact_at_run s pos o buf k :
  reading s pos -> 0 <= o < 2 ^ 32 -> 0 <= k <= lenZ buf -> lenZ buf < 2 ^ 31 ->
  exists buf' s', user_read_exact_at local64 (Some h) o buf k s = Ret (if o + k <=? file_size e then 0 else -1, buf') s' [] /\
    (o + k <= file_size e -> buf' = splice buf 0 (slice (file_bytes d e) (Z.to_nat o) (Z.to_nat k))) /\ exists pos', moves s s' pos'.
Proof using local64_len Hdisk Hh.
  intros Hr Ho Hk Hb. destruct (seek_run s pos o Hr Ho) as (s1 & Hs1 & Hm1). unfold user_read_exact_at. rewrite (bind_Ret_nil _ _ _ _ _ Hs1).
  destruct (Z.leb_spec o (file_size e)) as [Hle|Hgt].
  - change (negb (0 =? 0)) with false. cbn iota. destruct (read_exact_run s1 o buf k (proj1 Hm1) Hk Hb) as (buf' & s2 & Hr2 & Hbuf & pos' & Hm2).
    exists buf', s2. split; [exact Hr2|]. split; [exact Hbuf|]. exists pos'. by eapply moves_trans.
  - change (negb (-1 =? 0)) with true. cbn iota. rewrite (proj2 (Z.leb_gt _ _)) by lia. exists buf, s1. split; [done|]. split; [lia|by eexists].
Qed.
End reading.
