(* ===== verification/UserLoad.v ===== *)
(** Loading a user program into memory: the stages the loader of user.c goes
    through, from the first page allocated to the last byte copied. A stage is
    a set of fresh pages that hold an image, an open file at a position, and
    nothing else of the machine changed. *)
From S2P Require Import Prelude LibString Klog Memory BlockDevice BlockIO ListDisk TinyFS Vfs FileTable Input Task MMU UserProgram UserPages.

(** ** Pieces of arrays and buffers *)

Lemma prefix_rd (arr pages : list Z) j : take (length pages) arr = pages -> 0 <= j < lenZ pages -> rd arr j = rd pages j.
Proof.
  intros Ht Hj. unfold rd, lenZ in *. rewrite (proj2 (Z.leb_le 0 j)) by lia. rewrite <- Ht. symmetry. apply lookup_take_lt. lia.
Qed.

Lemma bytes_at_slice (b : mem) off k : 0 <= off -> off + k <= lenZ b -> bytes_at b off k = Some (slice b (Z.to_nat off) (Z.to_nat k)).
Proof. intros H1 H2. unfold bytes_at. by rewrite (proj2 (Z.leb_le 0 off)), (proj2 (Z.leb_le _ (lenZ b))) by lia. Qed.

Lemma slice_len (b : mem) off k : 0 <= off -> 0 <= k -> off + k <= lenZ b -> lenZ (slice b (Z.to_nat off) (Z.to_nat k)) = k.
Proof. intros. unfold lenZ in *. rewrite length_slice; lia. Qed.

Lemma slice_split (b : mem) off k1 k2 : 0 <= off -> 0 <= k1 -> 0 <= k2 ->
  slice b (Z.to_nat off) (Z.to_nat (k1 + k2)) = slice b (Z.to_nat off) (Z.to_nat k1) ++ slice b (Z.to_nat (off + k1)) (Z.to_nat k2).
Proof. intros. rewrite Z2Nat.inj_add, slice_app by lia. do 2 f_equal. lia. Qed.

Section stages.
Context {X : Type} `{DiskDriver X} (plat : platform) (Hplat : plat_wf plat).
Context (d : block_device X) (h : Z) (i : nat) (e : mem) (n : list Z) (Hdisk : on_disk d e) (Hh : 0 <= h < FILE_TABLE_MAX).
Context (local64 : mem) (local64_len : lenZ local64 = VFS_PATH_MAX).
Context (s0 : machine X).
Implicit Types s : machine X.

Abbreviation contents := (file_bytes d e).

(** What the loader leaves alone. *)
Record same_cpu s s' : Prop := {
  sc_mmu : u_mmu s' = u_mmu s;
  sc_active : user_active s' = user_active s;
  sc_spsr : user_resume_spsr s' = user_resume_spsr s;
  sc_daif : daif s' = daif s
}.
Definition same_arrays s s' : Prop :=
  user_program_pages s' = user_program_pages s /\ user_program_page_writable s' = user_program_page_writable s.

Lemma same_cpu_refl s : same_cpu s s.
Proof using Type. done. Qed.
Lemma same_cpu_trans s s1 s2 : same_cpu s s1 -> same_cpu s1 s2 -> same_cpu s s2.
Proof using Type. intros [? ? ? ?] [? ? ? ?]. split; congruence. Qed.
Lemma same_arrays_refl s : same_arrays s s.
Proof using Type. done. Qed.
Lemma same_arrays_trans s s1 s2 : same_arrays s s1 -> same_arrays s1 s2 -> same_arrays s s2.
Proof using Type. intros [? ?] [? ?]. split; congruence. Qed.

Record stage s (pos : Z) (pages : list Z) (img : image) : Prop := {
  sg_load : loading plat s0 s pages img;
  sg_read : reading d h i e n s pos;
  sg_slots : forall h', h' <> h -> rd (file_table (u_files s)) h' = rd (file_table (u_files s0)) h';
  sg_cpu : same_cpu s0 s
}.

Lemma stage_image s pos pages img img' : (forall off, img off = img' off) -> stage s pos pages img -> stage s pos pages img'.
Proof using Type. intros He [[Hp Hl Ho] Hr Hs Hc]. split; [split; [done| |done]|done..]. by eapply holds_ext. Qed.

Lemma stage_moves s s' pos pos' pages img :
  stage s pos pages img -> moves d h i e n s s' pos' -> stage s' pos' pages img /\ same_arrays s s'.
Proof using Type.
  intros [Hl Hr Hs Hc] (Hr' & He & Hoth). split; [|by rewrite He]. split; [|done| |].
  - rewrite He. destruct Hl as [? ? ?]. by split.
  - intros h' Hne. rewrite Hoth by done. by apply Hs.
  - eapply same_cpu_trans; [exact Hc|]. by rewrite He.
Qed.

Lemma stage_mm s s' pos pages img pages' img' :
  stage s pos pages img -> s' = set_u_mm (u_mm s') s -> loading plat s0 s' pages' img' -> stage s' pos pages' img' /\ same_arrays s s'.
Proof using Type.
  intros [Hl Hr Hs Hc] He Hl'. split; [|by rewrite He]. split; [done|by rewrite He|by rewrite He|].
  eapply same_cpu_trans; [exact Hc|]. by rewrite He.
Qed.

Lemma stage_read s pos pages img buf k :
  stage s pos pages img -> 0 <= k <= lenZ buf -> lenZ buf < 2 ^ 32 ->
  let got := slice contents (Z.to_nat pos) (Z.to_nat (Z.min k (file_size e - pos))) in
  exists s', on_files (file_read local64 (Some h) (Some buf) k) s = Ret (lenZ got, Some (splice buf 0 got)) s' [] /\
    stage s' (pos + lenZ got) pages img /\ same_arrays s s'.
Proof using local64_len Hdisk Hh.
  intros Hst Hk Hb got. destruct (read_run d h i e n Hdisk Hh local64 local64_len s pos buf k (sg_read _ _ _ _ Hst) Hk Hb) as (s' & Hr & Hm).
  exists s'. split; [exact Hr|]. by eapply stage_moves.
Qed.

Lemma stage_seek s pos pages img o :
  stage s pos pages img -> 0 <= o < 2 ^ 32 ->
  exists s', on_files (file_seek (Some h) o) s = Ret (if o <=? file_size e then 0 else -1) s' [] /\
    stage s' (if o <=? file_size e then o else pos) pages img /\ same_arrays s s'.
Proof using Hh.
  intros Hst Ho. destruct (seek_run d h i e n Hh s pos o (sg_read _ _ _ _ Hst) Ho) as (s' & Hr & Hm). exists s'. split; [exact Hr|]. by eapply stage_moves.
Qed.

Lemma stage_read_exact_at s pos pages img o buf k :
  stage s pos pages img -> 0 <= o < 2 ^ 32 -> 0 <= k <= lenZ buf -> lenZ buf < 2 ^ 31 ->
  exists buf' s' pos', user_read_exact_at local64 (Some h) o buf k s = Ret (if o + k <=? file_size e then 0 else -1, buf') s' [] /\
    (o + k <= file_size e -> buf' = splice buf 0 (slice contents (Z.to_nat o) (Z.to_nat k))) /\ stage s' pos' pages img /\ same_arrays s s'.
Proof using local64_len Hdisk Hh.
  intros Hst Ho Hk Hb. destruct (read_exact_at_run d h i e n Hdisk Hh local64 local64_len s pos o buf k (sg_read _ _ _ _ Hst) Ho Hk Hb) as (buf' & s' & Hr & Hbuf & pos' & Hm).
  exists buf', s', pos'. split; [exact Hr|]. split; [exact Hbuf|]. by eapply stage_moves.
Qed.

Lemma stage_write s pos pages img j p o bytes :
  stage s pos pages img -> rd pages j = Some p -> 0 <= o -> o + lenZ bytes <= 4096 ->
  exists s', phys_memcpy (p + o) bytes s = Ret tt s' [] /\ stage s' pos pages (blit (4096 * j + o) bytes img) /\ same_arrays s s'.
Proof using Hplat.
  intros Hst Hj Ho Hb. destruct (write_run plat Hplat s0 s pages img j p o bytes (sg_load _ _ _ _ Hst) Hj Ho Hb) as (s' & Hr & Hl & He).
  exists s'. split; [exact Hr|]. by eapply stage_mm.
Qed.

Lemma stage_clear s pos pages img j p o k :
  stage s pos pages img -> rd pages j = Some p -> 0 <= o -> 0 <= k -> o + k <= 4096 ->
  exists s', phys_memset (p + o) k s = Ret tt s' [] /\ stage s' pos pages (blit (4096 * j + o) (zeros k) img) /\ same_arrays s s'.
Proof using Hplat.
  intros Hst Hj Ho Hk Hb. destruct (clear_run plat Hplat s0 s pages img j p o k (sg_load _ _ _ _ Hst) Hj Ho Hk Hb) as (s' & Hr & Hl & He).
  exists s'. split; [exact Hr|]. by eapply stage_mm.
Qed.

(** A page more that holds zeros, or no page is left. *)
Lemma stage_alloc s pos pages img :
  stage s pos pages img -> (forall off, 4096 * lenZ pages <= off < 4096 * lenZ pages + 4096 -> img off = 0) ->
  (exists p s1 s2, on_mm (pmm_alloc_page plat) s = Ret p s1 [] /\ p <> 0 /\ phys_memset p 4096 s1 = Ret tt s2 [] /\
     stage s2 pos (pages ++ [p]) img /\ same_arrays s s2) \/
  (on_mm (pmm_alloc_page plat) s = Ret 0 s [] /\ all_used (u_mm s)).
Proof using Hplat.
  intros Hst Hz. destruct (alloc_page_run plat Hplat s0 s pages img (sg_load _ _ _ _ Hst) Hz) as [(p & s1 & s2 & Ha & Hp & Hm & Hl & He)|Hno]; [left|by right].
  exists p, s1, s2. split; [exact Ha|]. split; [exact Hp|]. split; [exact Hm|]. by eapply stage_mm.
Qed.

Lemma page_bound s pos pages img j p : stage s pos pages img -> rd pages j = Some p -> 0 < p /\ p + 4096 < 2 ^ 63 /\ p mod 4096 = 0.
Proof using Hplat.
  intros [[Hp _ _] _ _ _] Hj. destruct (pg_aligned _ (fresh_ok plat Hplat _ _ _ Hp) p (rd_elem _ _ _ Hj)) as (? & ? & ?). lia.
Qed.

(** ** Allocating the pages of a program *)

Lemma alloc_loop_run m : forall fuel s pos pages arr count,
  stage s pos pages blank_image -> take (length pages) arr = pages -> lenZ pages + Z.of_nat m = count -> count <= lenZ arr -> count < 2 ^ 31 -> (m < fuel)%nat ->
  exists status arr' s' pages', alloc_loop plat fuel arr (lenZ pages) count s = Ret (status, arr') s' [] /\
    stage s' pos pages' blank_image /\ same_arrays s s' /\ lenZ arr' = lenZ arr /\
    (status = 0 /\ lenZ pages' = count /\ take (length pages') arr' = pages' \/ status = -1 /\ all_used (u_mm s') /\ lenZ pages' < count).
Proof using All.
  induction m as [|m IH]; intros fuel s pos pages arr count Hst Harr Hc Hlen Hb Hf; (destruct fuel as [|fuel]; [lia|]); cbn [alloc_loop].
  - rewrite (proj2 (Z.ltb_ge _ _)) by lia. exists 0, arr, s, pages. split; [done|]. split; [done|]. split; [done|]. split; [done|]. left. split; [done|]. split; [lia|done].
  - rewrite (proj2 (Z.ltb_lt _ _)) by lia. pose proof (lenZ_nonneg pages) as Hnn.
    destruct (stage_alloc s pos pages blank_image Hst (fun _ _ => eq_refl)) as [(p & s1 & s2 & Ha & Hp & Hm & Hst2 & Hsa)|[Ha Hno]].
    + rewrite (bind_Ret_nil _ _ _ _ _ Ha), wr_Some by lia. rewrite (bind_deref_Some _ _ _ _ eq_refl). rewrite (proj2 (Z.eqb_neq p 0)) by done.
      change PMM_PAGE_SIZE with 4096. rewrite (bind_Ret_nil _ _ _ _ _ Hm), u32_small by lia.
      replace (lenZ pages + 1) with (lenZ (pages ++ [p])) by (rewrite lenZ_app; done).
      destruct (IH fuel s2 pos (pages ++ [p]) (<[Z.to_nat (lenZ pages) := p]> arr) count Hst2) as (status & arr' & s' & pages' & Hr & Hst' & Hsa' & Hl' & Hres).
      * unfold lenZ in *. rewrite length_app, Nat2Z.id. cbn [length]. rewrite Nat.add_1_r.
        erewrite take_S_r by (apply list_lookup_insert_eq; lia). by rewrite take_insert_ge, Harr by lia.
      * rewrite lenZ_app. change (lenZ [p]) with 1. lia.
      * unfold lenZ in *. rewrite length_insert. lia.
      * done.
      * lia.
      * exists status, arr', s', pages'. split; [exact Hr|]. split; [exact Hst'|]. split; [by eapply same_arrays_trans|]. split; [|exact Hres].
        rewrite Hl'. unfold lenZ. by rewrite length_insert.
    + rewrite (bind_Ret_nil _ _ _ _ _ Ha), wr_Some by lia. rewrite (bind_deref_Some _ _ _ _ eq_refl). change (0 =? 0) with true. cbn iota.
      exists (-1), (<[Z.to_nat (lenZ pages) := 0]> arr), s, pages. split; [done|]. split; [done|]. split; [done|]. split; [|right; split_and!; [done|done|lia]].
      unfold lenZ. by rewrite length_insert.
Qed.

Lemma alloc_pages_run s pos arr count :
  stage s pos [] blank_image -> 0 <= count <= lenZ arr -> count < 2 ^ 31 ->
  exists status arr' s' pages', user_alloc_program_pages plat arr count s = Ret (status, arr') s' [] /\
    stage s' pos pages' blank_image /\ same_arrays s s' /\ lenZ arr' = lenZ arr /\
    (status = 0 /\ lenZ pages' = count /\ take (length pages') arr' = pages' \/ status = -1 /\ all_used (u_mm s') /\ lenZ pages' < count).
Proof using All.
  intros Hst Hc Hb. apply (alloc_loop_run (Z.to_nat count) _ s pos [] arr count Hst); [done| |lia|lia|lia]. change (lenZ (@nil Z)) with 0. lia.
Qed.

(** ** A flat file *)

Lemma chunk_run arr pages count bytes (Harr : forall j, 0 <= j < count -> rd arr j = rd pages j) (Hcount : count <= lenZ pages) (Hc : count < 2 ^ 19) (Hb : lenZ bytes < 2 ^ 31) fuel :
  forall s pos img total co left, stage s pos pages img -> 0 <= co -> 0 <= left -> co + left <= lenZ bytes -> 0 <= total -> total + left <= 4096 * count -> (Z.to_nat left < fuel)%nat ->
  exists s', chunk_loop fuel bytes arr count total co left s = Ret (0, total + left) s' [] /\
    stage s' pos pages (blit total (slice bytes (Z.to_nat co) (Z.to_nat left)) img) /\ same_arrays s s'.
Proof using All.
  induction fuel as [|fuel IH]; intros s pos img total co left Hst Hco Hleft Hcb Htot Hfit Hf; [lia|]. cbn [chunk_loop].
  destruct (Z.ltb_spec 0 left) as [Hpos|Hz].
  2:{ assert (left = 0) as -> by lia. exists s. rewrite Z.add_0_r. split; [done|]. split; [|done]. eapply stage_image; [|exact Hst].
      intros off. by rewrite slice_nil, blit_nil. }
  change PMM_PAGE_SIZE with 4096. set (j := total / 4096). set (o := total mod 4096).
  assert (Hjo : total = 4096 * j + o /\ 0 <= o < 4096 /\ 0 <= j < count) by (unfold j, o; Z.div_mod_to_equations; lia).
  rewrite (proj2 (Z.leb_gt count j)) by lia. cbv zeta. rewrite (u32_small (4096 - o)) by lia.
  set (cs := if left <? 4096 - o then left else 4096 - o). assert (Hcs : 0 < cs <= left /\ o + cs <= 4096) by (unfold cs; destruct (Z.ltb_spec left (4096 - o)); lia).
  destruct (rd_Some pages j) as [p Hp]; [lia|]. rewrite (bind_deref_Some _ p) by (rewrite Harr by lia; done).
  rewrite bytes_at_slice by lia. rewrite (bind_deref_Some _ _ _ _ eq_refl). destruct (page_bound s pos pages img j p Hst Hp) as (Hp0 & Hp1 & _).
  rewrite (u64_small (p + o)) by lia.
  destruct (stage_write s pos pages img j p o (slice bytes (Z.to_nat co) (Z.to_nat cs)) Hst Hp) as (s1 & Hr1 & Hst1 & Hsa1); [lia|rewrite slice_len; lia|].
  rewrite (bind_Ret_nil _ _ _ _ _ Hr1). rewrite !u32_small by lia.
  destruct (IH s1 pos _ (total + cs) (co + cs) (left - cs) Hst1) as (s' & Hr & Hst' & Hsa'); [lia..|].
  exists s'. rewrite Hr. split; [f_equal; f_equal; lia|]. split; [|by eapply same_arrays_trans]. eapply stage_image; [|exact Hst'].
  intros off. replace (slice bytes (Z.to_nat co) (Z.to_nat left)) with (slice bytes (Z.to_nat co) (Z.to_nat cs) ++ slice bytes (Z.to_nat (co + cs)) (Z.to_nat (left - cs))).
  - rewrite <- blit_app, slice_len by lia. by replace (4096 * j + o) with total by lia.
  - rewrite <- slice_split by lia. do 2 f_equal. lia.
Qed.

Lemma stage_bounds s pos pages img : stage s pos pages img -> 0 <= pos <= file_size e /\ file_size e < 2 ^ 31 /\ lenZ contents = file_size e.
Proof using Hdisk Hh. intros Hst. exact (reading_bound d h i e n Hdisk Hh s pos (sg_read _ _ _ _ Hst)). Qed.

(** The first [pos] bytes are in the pages; the rest follows. *)
Lemma load_run arr pages count (Harr : forall j, 0 <= j < count -> rd arr j = rd pages j) (Hcount : count <= lenZ pages) (Hc : count < 2 ^ 19) (Hfit : file_size e <= 4096 * count) fuel :
  forall s pos buf, stage s pos pages (blit 0 (take (Z.to_nat pos) contents) blank_image) -> lenZ buf = 256 -> (Z.to_nat (file_size e - pos) + 1 < fuel)%nat ->
  exists s', load_loop local64 fuel (Some h) buf arr count pos s = Ret 0 s' [] /\ stage s' (file_size e) pages (blit 0 contents blank_image) /\ same_arrays s s'.
Proof using All.
  induction fuel as [|fuel IH]; intros s pos buf Hst Hbuf Hf; [lia|]. cbn [load_loop]. destruct (stage_bounds _ _ _ _ Hst) as (Hpos & Hs31 & Hlen).
  change USER_LOAD_CHUNK_SIZE with 256. destruct (stage_read s pos pages _ buf 256 Hst) as (s1 & Hr1 & Hst1 & Hsa1); [lia|lia|].
  set (k := Z.min 256 (file_size e - pos)) in *. set (got := slice contents (Z.to_nat pos) (Z.to_nat k)) in *.
  assert (Hgot : lenZ got = k) by (unfold got; apply slice_len; lia). rewrite Hgot in *. rewrite (bind_Ret_nil _ _ _ _ _ Hr1). cbn iota.
  rewrite (proj2 (Z.ltb_ge k 0)) by lia. destruct (Z.eqb_spec k 0) as [Hk0|Hk0].
  - assert (pos = file_size e) as -> by lia. exists s1. split; [done|]. split; [|done]. rewrite Hk0, Z.add_0_r in Hst1.
    rewrite take_ge in Hst1 by (unfold lenZ in *; lia). done.
  - rewrite (bind_deref_Some _ _ _ _ eq_refl). rewrite (u32_small k) by lia.
    assert (Hsl : lenZ (splice buf 0 got) = 256) by (unfold lenZ in *; rewrite length_splice; lia).
    destruct (chunk_run arr pages count (splice buf 0 got) Harr Hcount Hc ltac:(lia) (S (Z.to_nat k)) s1 (pos + k) _ pos 0 k Hst1) as (s2 & Hr2 & Hst2 & Hsa2); [lia..|].
    rewrite (bind_Ret_nil _ _ _ _ _ Hr2). change (negb (0 =? 0)) with false. cbn iota.
    destruct (IH s2 (pos + k) (splice buf 0 got)) as (s3 & Hr3 & Hst3 & Hsa3); [|done|lia|].
    + eapply stage_image; [|exact Hst2]. intros off.
      assert (Hsp : slice (splice buf 0 got) (Z.to_nat 0) (Z.to_nat k) = got).
      { change (Z.to_nat 0) with 0%nat. replace (Z.to_nat k) with (length got) by (unfold lenZ in Hgot; lia). apply slice_splice_same. unfold lenZ in *. lia. }
      rewrite Hsp. replace pos with (0 + lenZ (take (Z.to_nat pos) contents)) at 1 by (unfold lenZ in *; rewrite length_take; lia).
      rewrite blit_app. f_equal. unfold got, slice. rewrite Z2Nat.inj_add by lia. by rewrite take_take_drop.
    + exists s3. split; [exact Hr3|]. split; [exact Hst3|]. by do 2 (eapply same_arrays_trans; [done|]).
Qed.

(** ** A segment of an executable *)

Lemma piece_of_read buf pos k a b :
  0 <= pos -> 0 <= k -> pos + k <= lenZ contents -> k <= lenZ buf -> 0 <= a -> 0 <= b -> a + b <= k ->
  slice (splice buf 0 (slice contents (Z.to_nat pos) (Z.to_nat k))) (Z.to_nat a) (Z.to_nat b) = slice contents (Z.to_nat (pos + a)) (Z.to_nat b).
Proof using Type.
  clear. intros. unfold lenZ in *. change (Z.to_nat a) with (0 + Z.to_nat a)%nat. rewrite slice_splice_in by (rewrite length_slice; lia).
  rewrite slice_slice by lia. f_equal. lia.
Qed.

(** A read of [k] bytes that go to the image at [off], over one page or two. *)
Lemma place_run arr pages count (Harr : take (length pages) arr = pages) (Hcount : count = lenZ pages) (Hc : count < 2 ^ 19) s pos img bytes k off :
  stage s pos pages img -> 0 < k <= 256 -> k <= lenZ bytes -> 0 <= off -> off + k <= 4096 * count ->
  let o := off mod 4096 in let cs := if k <? 4096 - o then k else 4096 - o in
  exists p s1, rd arr (off / 4096) = Some p /\ 0 < cs <= k /\ 0 < p /\ p + 4096 < 2 ^ 63 /\
    phys_memcpy (p + o) (slice bytes 0 (Z.to_nat cs)) s = Ret tt s1 [] /\ same_arrays s s1 /\
    (cs < k -> exists p1 s2, off / 4096 + 1 < count /\ rd arr (off / 4096 + 1) = Some p1 /\
       phys_memcpy p1 (slice bytes (Z.to_nat cs) (Z.to_nat (k - cs))) s1 = Ret tt s2 [] /\ same_arrays s s2 /\
       stage s2 pos pages (blit off (slice bytes 0 (Z.to_nat k)) img)) /\
    (cs = k -> stage s1 pos pages (blit off (slice bytes 0 (Z.to_nat k)) img)).
Proof using All.
  intros Hst Hk Hkb Hoff Hfit o cs. set (j := off / 4096). assert (Hjo : off = 4096 * j + o /\ 0 <= o < 4096 /\ 0 <= j < count) by (unfold j, o; Z.div_mod_to_equations; lia).
  assert (Hcs : 0 < cs <= k /\ o + cs <= 4096 /\ (cs < k -> o + cs = 4096)) by (unfold cs; destruct (Z.ltb_spec k (4096 - o)); lia).
  destruct (rd_Some pages j) as [p Hp]; [lia|]. destruct (page_bound s pos pages img j p Hst Hp) as (Hp0 & Hp1 & _).
  change (slice bytes 0) with (slice bytes (Z.to_nat 0)).
  destruct (stage_write s pos pages img j p o (slice bytes (Z.to_nat 0) (Z.to_nat cs)) Hst Hp) as (s1 & Hr1 & Hst1 & Hsa1); [lia|rewrite slice_len; lia|].
  exists p, s1. split; [rewrite (prefix_rd arr pages) by (done || lia); done|]. split; [lia|]. split; [done|]. split; [done|]. split; [exact Hr1|]. split; [done|]. split.
  - intros Hlt. destruct (rd_Some pages (j + 1)) as [p1 Hp1']; [lia|].
    destruct (stage_write s1 pos pages _ (j + 1) p1 0 (slice bytes (Z.to_nat cs) (Z.to_nat (k - cs))) Hst1 Hp1') as (s2 & Hr2 & Hst2 & Hsa2); [lia|rewrite slice_len; lia|].
    rewrite Z.add_0_r in Hr2. exists p1, s2. split; [lia|]. split; [rewrite (prefix_rd arr pages) by (done || lia); done|]. split; [exact Hr2|]. split; [by eapply same_arrays_trans|].
    eapply stage_image; [|exact Hst2]. intros a. replace (4096 * (j + 1) + 0) with (4096 * j + o + lenZ (slice bytes (Z.to_nat 0) (Z.to_nat cs))) by (rewrite slice_len; lia).
    rewrite blit_app. replace (4096 * j + o) with off by lia. f_equal. pose proof (slice_split bytes 0 cs (k - cs)) as Hsplit. rewrite Z.add_0_l in Hsplit. rewrite <- Hsplit by lia. do 2 f_equal. lia.
  - intros He. rewrite <- He. by replace off with (4096 * j + o) by lia.
Qed.

Lemma copy_run arr pages count (Harr : take (length pages) arr = pages) (Hcount : count = lenZ pages) (Hc : count < 2 ^ 19) base va off size :
  0 <= base <= va -> va < 2 ^ 63 -> 0 <= off -> off + size <= file_size e -> va - base + size <= 4096 * count -> forall fuel s c img buf,
  stage s (off + c) pages img -> 0 <= c <= size -> lenZ buf = 256 -> (Z.to_nat (size - c) < fuel)%nat ->
  exists s', copy_loop local64 fuel (Some h) buf va size base arr count c s = Ret 0 s' [] /\
    stage s' (off + size) pages (blit (va - base + c) (slice contents (Z.to_nat (off + c)) (Z.to_nat (size - c))) img) /\ same_arrays s s'.
Proof using All.
  intros Hbase Hva Hoff Hend Hfit. induction fuel as [|fuel IH]; intros s c img buf Hst Hcb Hbuf Hf; [lia|]. cbn [copy_loop].
  destruct (stage_bounds _ _ _ _ Hst) as (Hpos & Hs31 & Hlen). destruct (Z.ltb_spec c size) as [Hlt|Hge].
  2:{ assert (c = size) as -> by lia. exists s. split; [done|]. split; [|done]. rewrite Z.sub_diag. eapply stage_image; [|exact Hst].
      intros a. change (Z.to_nat 0) with 0%nat. by rewrite slice_nil, blit_nil. }
  change USER_LOAD_CHUNK_SIZE with 256. change PMM_PAGE_SIZE with 4096. cbv zeta. rewrite (u64_small (size - c)), (u32_small (size - c)) by lia.
  set (k := if size - c <? 256 then size - c else 256). assert (Hk : 0 < k <= 256 /\ k <= size - c) by (unfold k; destruct (Z.ltb_spec (size - c) 256); lia).
  destruct (stage_read s (off + c) pages img buf k Hst) as (s1 & Hr1 & Hst1 & Hsa1); [lia|lia|].
  rewrite Z.min_l in Hr1, Hst1 by lia. rewrite slice_len in Hr1, Hst1 by lia. rewrite (bind_Ret_nil _ _ _ _ _ Hr1). cbn iota.
  rewrite (i32_small k), Z.eqb_refl by lia. cbn [negb]. cbn iota. rewrite (bind_deref_Some _ _ _ _ eq_refl).
  set (bytes := splice buf 0 (slice contents (Z.to_nat (off + c)) (Z.to_nat k))).
  assert (Hbytes : lenZ bytes = 256) by (unfold bytes, lenZ in *; rewrite length_splice by (rewrite length_slice; lia); lia).
  assert (Hbk : slice bytes 0 (Z.to_nat k) = slice contents (Z.to_nat (off + c)) (Z.to_nat k)).
  { unfold bytes. change (slice (splice buf 0 (slice contents (Z.to_nat (off + c)) (Z.to_nat k))) 0) with (slice (splice buf 0 (slice contents (Z.to_nat (off + c)) (Z.to_nat k))) (Z.to_nat 0)). rewrite piece_of_read by lia. by rewrite Z.add_0_r. }
  set (dest := va - base + c). rewrite (u64_small (va - base)), (u64_small (va - base + c)) by lia. fold dest.
  destruct (place_run arr pages count Harr Hcount Hc s1 (off + c + k) img bytes k dest Hst1) as (p & s2 & Hp & Hcs & Hp0 & Hp1 & Hr2 & Hsa2 & Htwo & Hone); [lia..|].
  assert (Hjd : 0 <= dest / 4096 < count) by (Z.div_mod_to_equations; lia). assert (Ho : 0 <= dest mod 4096 < 4096) by (apply Z.mod_pos_bound; lia).
  rewrite (u32_small (dest / 4096)) by lia. rewrite (proj2 (Z.leb_gt count (dest / 4096))) by lia. rewrite (u32_small (4096 - dest mod 4096)) by lia.
  set (cs := if k <? 4096 - dest mod 4096 then k else 4096 - dest mod 4096) in *.
  rewrite (bind_deref_Some _ _ _ _ Hp). rewrite bytes_at_slice by lia. change (Z.to_nat 0) with 0%nat. rewrite (bind_deref_Some _ _ _ _ eq_refl).
  rewrite (u64_small (p + dest mod 4096)) by lia. rewrite (bind_Ret_nil _ _ _ _ _ Hr2). rewrite (u64_small (c + cs)) by lia.
  assert (Hnext : forall s3, stage s3 (off + c + k) pages (blit dest (slice bytes 0 (Z.to_nat k)) img) -> same_arrays s s3 ->
    exists s', copy_loop local64 fuel (Some h) bytes va size base arr count (c + k) s3 = Ret 0 s' [] /\
      stage s' (off + size) pages (blit dest (slice contents (Z.to_nat (off + c)) (Z.to_nat (size - c))) img) /\ same_arrays s s').
  { intros s3 Hst3 Hsa3. rewrite <- Z.add_assoc in Hst3. destruct (IH s3 (c + k) _ bytes Hst3) as (s' & Hr & Hst' & Hsa'); [lia|done|lia|].
    exists s'. split; [exact Hr|]. split; [|by eapply same_arrays_trans]. eapply stage_image; [|exact Hst']. intros a. rewrite Hbk.
    replace (va - base + (c + k)) with (dest + lenZ (slice contents (Z.to_nat (off + c)) (Z.to_nat k))) by (rewrite slice_len; unfold dest; lia).
    rewrite blit_app. f_equal. replace (off + (c + k)) with (off + c + k) by lia. rewrite <- slice_split by lia. do 2 f_equal. lia. }
  destruct (Z.ltb_spec cs k) as [Hsplit|Hwhole].
  - destruct (Htwo Hsplit) as (p1 & s3 & Hj1 & Hp1' & Hr3 & Hsa3 & Hst3). rewrite (u32_small (dest / 4096 + 1)) by lia. rewrite (proj2 (Z.leb_gt count _)) by lia.
    rewrite (bind_deref_Some _ _ _ _ Hp1'). rewrite (u32_small (k - cs)), bytes_at_slice by lia. rewrite (bind_deref_Some _ _ _ _ eq_refl). rewrite (bind_Ret_nil _ _ _ _ _ Hr3).
    rewrite u64_small by lia. replace (c + cs + (k - cs)) with (c + k) by lia. apply Hnext; [exact Hst3|]. by eapply same_arrays_trans.
  - replace (c + cs) with (c + k) by lia. apply Hnext; [apply Hone; lia|]. by eapply same_arrays_trans.
Qed.
End stages.
