(* ===== verification/UserElf.v ===== *)
(** Executables of user programs: what an ELF file says its image is, as
    functions of the bytes of the file, and that the two passes of the loader
    of user.c compute it. *)
From S2P Require Import Prelude LibString Klog Memory BlockDevice BlockIO ListDisk TinyFS Vfs FileTable Input Task MMU UserProgram UserPages UserLoad.

(** ** The image of a program header *)

Definition loadable (ph : elf64_program_header) : bool := (p_type ph =? ELF_PROGRAM_TYPE_LOAD) && negb (p_memsz ph =? 0).
(** The segment's bytes are in the file, and its addresses are those of user programs. *)
Definition segment_fits (file_size : Z) (ph : elf64_program_header) : bool :=
  (p_filesz ph <=? p_memsz ph) && (p_offset ph + p_filesz ph <=? file_size) &&
  (USER_CODE_VA <=? p_vaddr ph) && (p_vaddr ph + p_memsz ph <=? USER_STACK_TOP - PMM_PAGE_SIZE).
(** Its end is within a page of 2^64. *)
Definition segment_wraps (ph : elf64_program_header) : bool :=
  (2 ^ 64 - 4096 <? p_vaddr ph + p_memsz ph) && (p_vaddr ph + p_memsz ph <? 2 ^ 64).
Definition segment_image (file : mem) (base : Z) (ph : elf64_program_header) (img : image) : image :=
  blit (p_vaddr ph - base + p_filesz ph) (zeros (p_memsz ph - p_filesz ph))
    (blit (p_vaddr ph - base) (slice file (Z.to_nat (p_offset ph)) (Z.to_nat (p_filesz ph))) img).
Definition writes_pages (ph : elf64_program_header) : bool := negb (Z.land (p_flags ph) ELF_PROGRAM_FLAG_WRITE =? 0).
(** Page [j] of the image is one the segment has bytes in. *)
Definition touches (base : Z) (ph : elf64_program_header) (j : Z) : bool :=
  ((p_vaddr ph - base) / 4096 <=? j) && (j <=? (p_vaddr ph - base + p_memsz ph - 1) / 4096).
Definition holds_address (ph : elf64_program_header) (a : Z) : bool := (p_vaddr ph <=? a) && (a <? p_vaddr ph + p_memsz ph).

Record header_bounds (ph : elf64_program_header) : Prop := {
  hb_offset : 0 <= p_offset ph < 2 ^ 64;
  hb_vaddr : 0 <= p_vaddr ph < 2 ^ 64;
  hb_filesz : 0 <= p_filesz ph < 2 ^ 64;
  hb_memsz : 0 <= p_memsz ph < 2 ^ 64
}.
Lemma header_of_bounds m : header_bounds (elf64_program_header_of m).
Proof. split; apply u64_bound. Qed.

Lemma segment_fits_spec file_size ph : segment_fits file_size ph = true <->
  p_filesz ph <= p_memsz ph /\ p_offset ph + p_filesz ph <= file_size /\ 0x10000 <= p_vaddr ph /\ p_vaddr ph + p_memsz ph <= 0x1ff000.
Proof.
  unfold segment_fits. change USER_CODE_VA with 0x10000. change (USER_STACK_TOP - PMM_PAGE_SIZE) with 0x1ff000.
  rewrite !andb_true_iff, !Z.leb_le. tauto.
Qed.

(** ** The program of a file *)

Record program : Type := Program {
  pr_base : Z;
  pr_count : Z;
  pr_entry : Z;
  pr_size : Z;
  pr_image : image;
  pr_writable : Z -> bool
}.

Definition segment_start (ph : elf64_program_header) : Z := p_vaddr ph - p_vaddr ph mod 4096.
Definition segment_end (ph : elf64_program_header) : Z := (p_vaddr ph + p_memsz ph + 4095) - (p_vaddr ph + p_memsz ph + 4095) mod 4096.
Definition program_headers (file : mem) (hd : elf64_header) : list elf64_program_header :=
  (fun k => elf64_program_header_of (slice file (Z.to_nat (e_phoff hd) + 56 * k)%nat 56)) <$> seq 0 (Z.to_nat (e_phnum hd)).
Definition elf_base (l : list elf64_program_header) : Z := foldr (fun ph b => if loadable ph then Z.min (segment_start ph) b else b) (2 ^ 64 - 1) l.
Definition elf_end (l : list elf64_program_header) : Z := foldr (fun ph t => if loadable ph then Z.max (segment_end ph) t else t) 0 l.
Definition elf_image (file : mem) (base : Z) (l : list elf64_program_header) (img : image) : image :=
  foldl (fun img ph => if loadable ph then segment_image file base ph img else img) img l.
Definition elf_writable (base : Z) (l : list elf64_program_header) (j : Z) : bool :=
  existsb (fun ph => loadable ph && writes_pages ph && touches base ph j) l.
(** A 64-bit little-endian AArch64 executable whose program headers are in the file. *)
Definition header_ok (hd : elf64_header) (file_size : Z) : bool :=
  bool_decide (take 7 (ident hd) = [0x7f; ch "E"; ch "L"; ch "F"; 2; 1; 1]) && (64 <=? file_size) &&
  (e_version hd =? 1) && (e_machine hd =? 183) && (e_type hd =? 2) && (e_ehsize hd =? 64) && (e_phentsize hd =? 56) &&
  (0 <? e_phnum hd) && (e_phoff hd + 56 * e_phnum hd <=? file_size).
Definition elf_program (file : mem) : option program :=
  let hd := elf64_header_of (take 64 file) in
  let l := program_headers file hd in
  if header_ok hd (lenZ file) && forallb (fun ph => negb (loadable ph) || segment_fits (lenZ file) ph) l &&
     existsb (fun ph => loadable ph && holds_address ph (e_entry hd)) l
  then Some (Program (elf_base l) ((elf_end l - elf_base l) / 4096) (e_entry hd) (elf_end l - elf_base l)
               (elf_image file (elf_base l) l blank_image) (elf_writable (elf_base l) l))
  else None.

Lemma ident_tests c0 c1 c2 c3 c4 c5 c6 r :
  bool_decide (take 7 (c0 :: c1 :: c2 :: c3 :: c4 :: c5 :: c6 :: r) = [0x7f; ch "E"; ch "L"; ch "F"; 2; 1; 1]) =
  (c0 =? 0x7f) && (c1 =? ch "E") && (c2 =? ch "L") && (c3 =? ch "F") && (c4 =? 2) && (c5 =? 1) && (c6 =? 1).
Proof.
  case_bool_decide as He; cbn [take] in He.
  - injection He as -> -> -> -> -> -> ->. reflexivity.
  - symmetry. rewrite !andb_false_iff, !Z.eqb_neq. cbn [take] in He.
    destruct (decide (c0 = 127)), (decide (c1 = ch "E")), (decide (c2 = ch "L")), (decide (c3 = ch "F")), (decide (c4 = 2)), (decide (c5 = 1)), (decide (c6 = 1)); subst; tauto.
Qed.

Record header_bounded (hd : elf64_header) : Prop := {
  eb_ident : lenZ (ident hd) = 16;
  eb_phoff : 0 <= e_phoff hd < 2 ^ 64;
  eb_entry : 0 <= e_entry hd < 2 ^ 64;
  eb_phnum : 0 <= e_phnum hd < 2 ^ 16
}.
Lemma elf_header_bounded m : lenZ m = 64 -> header_bounded (elf64_header_of m).
Proof.
  intros Hm. split; [|apply u64_bound|apply u64_bound|apply u16_bound]. cbn. unfold lenZ in *. rewrite length_slice; lia.
Qed.

Lemma header_valid_ok hd file_size : header_bounded hd -> 0 <= file_size < 2 ^ 31 -> user_elf_header_valid hd file_size = Some (header_ok hd file_size).
Proof.
  intros [Hi Hp _ Hn] Hs. unfold user_elf_header_valid, header_ok, elf_magic. change elf64_header_size with 64. change elf64_program_header_size with 56.
  destruct (ident hd) as [|c0 [|c1 [|c2 [|c3 [|c4 [|c5 [|c6 r]]]]]]]; try (unfold lenZ in Hi; cbn in Hi; lia).
  destruct (Z.ltb_spec file_size 64).
  { rewrite (proj2 (Z.leb_gt 64 _)) by lia. by rewrite andb_false_r, !andb_false_l. }
  rewrite (proj2 (Z.leb_le 64 _)) by lia. rewrite ident_tests.
  change (rd _ 0) with (Some c0). change (rd _ 1) with (Some c1). change (rd _ 2) with (Some c2). change (rd _ 3) with (Some c3).
  change (rd _ ELF_EI_CLASS) with (Some c4). change (rd _ ELF_EI_DATA) with (Some c5). change (rd _ ELF_EI_VERSION) with (Some c6). cbn [mbind option_bind].
  unfold ELF_MAGIC0, ELF_MAGIC1, ELF_MAGIC2, ELF_MAGIC3, ELF_CLASS_64, ELF_DATA_LITTLE_ENDIAN, ELF_VERSION_CURRENT, ELF_MACHINE_AARCH64, ELF_TYPE_EXECUTABLE.
  destruct (c0 =? 127), (c1 =? ch "E"), (c2 =? ch "L"), (c3 =? ch "F"); try reflexivity. destruct (c4 =? 2), (c5 =? 1), (c6 =? 1); try reflexivity.
  destruct (e_version hd =? 1), (e_machine hd =? 183), (e_type hd =? 2), (e_ehsize hd =? 64); try reflexivity.
  destruct (Z.eqb_spec (e_phentsize hd) 56) as [->|]; [|reflexivity]. cbn [andb negb orb]. destruct (Z.eqb_spec (e_phnum hd) 0) as [->|Hz]; [reflexivity|].
  rewrite (proj2 (Z.ltb_lt 0 (e_phnum hd))) by lia. cbn [andb]. rewrite (u64_small (e_phnum hd * 56)) by lia. f_equal.
  assert (Hend : u64 (e_phoff hd + e_phnum hd * 56) = if e_phoff hd + e_phnum hd * 56 <? 2 ^ 64 then e_phoff hd + e_phnum hd * 56 else e_phoff hd + e_phnum hd * 56 - 2 ^ 64).
  { destruct (Z.ltb_spec (e_phoff hd + e_phnum hd * 56) (2 ^ 64)); [by apply u64_small; lia|]. unfold u64. symmetry. apply Z.mod_unique_pos with 1; lia. }
  rewrite Hend. destruct (Z.ltb_spec (e_phoff hd + e_phnum hd * 56) (2 ^ 64)).
  - rewrite (proj2 (Z.ltb_ge _ (e_phoff hd))) by lia. cbn [orb]. rewrite <- Z.leb_antisym. f_equal. lia.
  - rewrite (proj2 (Z.ltb_lt _ (e_phoff hd))) by lia. cbn [orb negb]. symmetry. apply Z.leb_gt. lia.
Qed.

(** ** What the first pass accepts *)

Lemma u64_wrap x y : 0 <= x < 2 ^ 64 -> 0 <= y < 2 ^ 64 -> u64 (x + y) = if x + y <? 2 ^ 64 then x + y else x + y - 2 ^ 64.
Proof.
  intros Hx Hy. destruct (Z.ltb_spec (x + y) (2 ^ 64)); [by apply u64_small; lia|]. unfold u64. symmetry. apply Z.mod_unique_pos with 1; lia.
Qed.

Lemma page_floor x : 0 <= x < 2 ^ 64 -> Z.land x (not64 (PMM_PAGE_SIZE - 1)) = x - x mod 4096.
Proof. intros Hx. change (PMM_PAGE_SIZE - 1) with (2 ^ 12 - 1). by rewrite land_not64 by lia. Qed.

(** What the first pass takes as the end of a segment. *)
Definition scanned_end (file_size : Z) (ph : elf64_program_header) : Z := if segment_fits file_size ph then segment_end ph else 0.
Definition scan_step (file_size : Z) (ph : elf64_program_header) (acc : bool * Z * Z) : bool * Z * Z :=
  let '(found, b, t) := acc in
  (true, if negb found || (segment_start ph <? b) then segment_start ph else b, if negb found || (t <? scanned_end file_size ph) then scanned_end file_size ph else t).

Lemma scan_segment_skip ph file_size acc : loadable ph = false -> scan_segment ph file_size acc.1.1 acc.1.2 acc.2 = Some acc.
Proof. unfold scan_segment, loadable. destruct acc as [[f b] t]. destruct (p_type ph =? ELF_PROGRAM_TYPE_LOAD), (p_memsz ph =? 0); done. Qed.

Lemma scan_segment_load ph file_size acc :
  header_bounds ph -> 0 <= file_size < 2 ^ 31 -> loadable ph = true ->
  match scan_segment ph file_size acc.1.1 acc.1.2 acc.2 with
  | Some acc' => (segment_fits file_size ph = true \/ segment_fits file_size ph = false /\ segment_wraps ph = true) /\ acc' = scan_step file_size ph acc /\ 0x10000 <= p_vaddr ph
  | None => segment_fits file_size ph = false
  end.
Proof.
  intros [Ho Hv Hf Hm] Hs Hl. destruct acc as [[f b] t]. cbn [fst snd]. unfold scan_segment. apply andb_true_iff in Hl as [Hty Hnz]. rewrite Hty. apply negb_true_iff in Hnz. rewrite Hnz. cbn [negb orb].
  apply Z.eqb_neq in Hnz.
  assert (Hrej : ~ (p_filesz ph <= p_memsz ph /\ p_offset ph + p_filesz ph <= file_size /\ 0x10000 <= p_vaddr ph /\ p_vaddr ph + p_memsz ph <= 0x1ff000) -> segment_fits file_size ph = false).
  { intros Hn. destruct (segment_fits file_size ph) eqn:E; [|done]. by apply segment_fits_spec in E. }
  destruct (Z.ltb_spec (p_memsz ph) (p_filesz ph)); [apply Hrej; lia|].
  rewrite (u64_wrap (p_offset ph)) by done. destruct (Z.ltb_spec (p_offset ph + p_filesz ph) (2 ^ 64)).
  2:{ rewrite (proj2 (Z.ltb_lt _ (p_offset ph))) by lia. cbn [orb]. apply Hrej. lia. }
  rewrite (proj2 (Z.ltb_ge _ (p_offset ph))) by lia. cbn [orb]. destruct (Z.ltb_spec file_size (p_offset ph + p_filesz ph)); [apply Hrej; lia|].
  rewrite (u64_wrap (p_vaddr ph)) by done. destruct (Z.ltb_spec (p_vaddr ph + p_memsz ph) (2 ^ 64)).
  2:{ rewrite (proj2 (Z.ltb_lt _ (p_vaddr ph))) by lia. apply Hrej. lia. }
  rewrite (proj2 (Z.ltb_ge _ (p_vaddr ph))) by lia. rewrite (page_floor (p_vaddr ph)) by done. fold (segment_start ph).
  assert (Hst : 0x10000 <= segment_start ph <-> 0x10000 <= p_vaddr ph) by (unfold segment_start; Z.div_mod_to_equations; lia).
  change USER_CODE_VA with 0x10000. change (USER_STACK_TOP - PMM_PAGE_SIZE) with 0x1ff000. change PMM_PAGE_SIZE with 4096.
  destruct (Z.ltb_spec (segment_start ph) 0x10000); cbn [orb]; [apply Hrej; lia|]. change (4096 - 1) with (PMM_PAGE_SIZE - 1).
  set (x := p_vaddr ph + p_memsz ph) in *. assert (Hend : u64 (u64 (x + 4096) - 1) = if x + 4095 <? 2 ^ 64 then x + 4095 else x + 4095 - 2 ^ 64).
  { rewrite (u64_wrap x 4096) by lia. destruct (Z.ltb_spec (x + 4096) (2 ^ 64)).
    - rewrite u64_small by lia. rewrite (proj2 (Z.ltb_lt _ _)); lia.
    - destruct (Z.ltb_spec (x + 4095) (2 ^ 64)); [replace x with (2 ^ 64 - 4096) by lia; reflexivity|]. rewrite u64_small; lia. }
  rewrite Hend, page_floor by (destruct (Z.ltb_spec (x + 4095) (2 ^ 64)); lia). unfold scan_step, scanned_end. destruct (Z.ltb_spec (x + 4095) (2 ^ 64)) as [Hnw|Hw].
  - unfold segment_end. fold x. destruct (Z.ltb_spec 0x1ff000 (x + 4095 - (x + 4095) mod 4096)) as [Hbig|Hsmall]; [apply Hrej; Z.div_mod_to_equations; lia|].
    assert (Hfit : segment_fits file_size ph = true) by (apply segment_fits_spec; fold x; Z.div_mod_to_equations; lia). rewrite Hfit. split; [by left|]. split; [done|lia].
  - rewrite (Z.mod_small (x + 4095 - 2 ^ 64)) by lia. rewrite Z.sub_diag. change (0x1ff000 <? 0) with false. cbn iota.
    assert (Hfit : segment_fits file_size ph = false) by (apply Hrej; lia). rewrite Hfit. split; [right; split; [done|]|split; [done|lia]].
    unfold segment_wraps. fold x. by rewrite (proj2 (Z.ltb_lt _ x)), (proj2 (Z.ltb_lt x _)) by lia.
Qed.

(** The first pass, over the list of headers. *)
Fixpoint scan_list (file_size : Z) (l : list elf64_program_header) (acc : bool * Z * Z) : option (bool * Z * Z) :=
  match l with
  | [] => Some acc
  | ph :: l' => let '(found, base, end_) := acc in acc' ← scan_segment ph file_size found base end_; scan_list file_size l' acc'
  end.

Abbreviation fitting file_size l := (forallb (fun ph => negb (loadable ph) || segment_fits file_size ph) l).

Lemma segment_start_bound ph : header_bounds ph -> 0 <= segment_start ph <= p_vaddr ph.
Proof. intros [_ Hv _ _]. unfold segment_start. Z.div_mod_to_equations. lia. Qed.
Lemma segment_end_bound ph file_size : header_bounds ph -> segment_fits file_size ph = true -> p_vaddr ph + p_memsz ph <= segment_end ph <= 0x1ff000.
Proof. intros [_ Hv _ Hm] (_ & _ & H1 & H2)%segment_fits_spec. unfold segment_end. Z.div_mod_to_equations. lia. Qed.

Lemma scan_list_fitting file_size l : forall f b t,
  0 <= file_size < 2 ^ 31 -> Forall header_bounds l -> fitting file_size l = true -> (f = false -> b = 2 ^ 64 - 1 /\ t = 0) -> b <= 2 ^ 64 - 1 -> 0 <= t ->
  scan_list file_size l (f, b, t) = Some (f || existsb loadable l, Z.min b (elf_base l), Z.max t (elf_end l)).
Proof.
  induction l as [|ph l IH]; intros f b t Hs Hb Hfit Hf Hb0 Ht0; cbn [scan_list existsb elf_base elf_end foldr].
  - rewrite orb_false_r, Z.min_l, Z.max_l by lia. done.
  - apply Forall_cons in Hb as [Hp Hb]. cbn [forallb] in Hfit. apply andb_true_iff in Hfit as [Hph Hfit]. fold (elf_base l). fold (elf_end l).
    destruct (loadable ph) eqn:Hl; cbn [negb orb] in Hph |- *.
    + pose proof (scan_segment_load ph file_size (f, b, t) Hp Hs Hl) as Hscan. cbn [fst snd] in Hscan.
      destruct (scan_segment ph file_size f b t) as [acc'|]; [|congruence]. destruct Hscan as (_ & -> & _). cbn [mbind option_bind].
      pose proof (segment_start_bound ph Hp) as Hs1. pose proof (segment_end_bound ph file_size Hp Hph) as He1. pose proof (hb_vaddr ph Hp). pose proof (hb_memsz ph Hp).
      unfold scan_step, scanned_end. rewrite Hph.
      assert (Hmin : (if negb f || (segment_start ph <? b) then segment_start ph else b) = Z.min b (segment_start ph)).
      { destruct f; cbn [negb orb]; [destruct (Z.ltb_spec (segment_start ph) b); lia|]. destruct (Hf eq_refl). lia. }
      assert (Hmax : (if negb f || (t <? segment_end ph) then segment_end ph else t) = Z.max t (segment_end ph)).
      { destruct f; cbn [negb orb]; [destruct (Z.ltb_spec t (segment_end ph)); lia|]. destruct (Hf eq_refl). lia. }
      rewrite Hmin, Hmax. rewrite IH by (done || lia). rewrite orb_true_r. do 2 f_equal; [f_equal; lia|lia].
    + pose proof (scan_segment_skip ph file_size (f, b, t) Hl) as Hskip. cbn [fst snd] in Hskip. rewrite Hskip. cbn [mbind option_bind orb]. by apply IH.
Qed.

Lemma scan_list_inv file_size l : forall f b t f' b' t',
  0 <= file_size < 2 ^ 31 -> Forall header_bounds l -> scan_list file_size l (f, b, t) = Some (f', b', t') -> (f = false -> b = 2 ^ 64 - 1 /\ t = 0) -> 0 <= b <= 2 ^ 64 - 1 -> 0 <= t <= 0x1ff000 ->
  0 <= b' <= b /\ t <= t' <= 0x1ff000 /\ Forall (fun ph => loadable ph = true -> b' <= segment_start ph /\
    (segment_fits file_size ph = true /\ segment_end ph <= t' \/ segment_fits file_size ph = false /\ segment_wraps ph = true)) l.
Proof.
  induction l as [|ph l IH]; intros f b t f' b' t' Hs Hb Hscan Hf Hb0 Ht0; cbn [scan_list] in Hscan; [injection Hscan as <- <- <-; split; [lia|]; split; [lia|done]|].
  apply Forall_cons in Hb as [Hp Hb]. destruct (loadable ph) eqn:Hl.
  - pose proof (scan_segment_load ph file_size (f, b, t) Hp Hs Hl) as Hcase. cbn [fst snd] in Hcase.
    destruct (scan_segment ph file_size f b t) as [acc'|]; [|done]. destruct Hcase as (Hfw & -> & Hv). cbn [mbind option_bind] in Hscan. unfold scan_step in Hscan.
    pose proof (segment_start_bound ph Hp) as Hs1. pose proof (hb_vaddr ph Hp). pose proof (hb_memsz ph Hp).
    assert (He : 0 <= scanned_end file_size ph <= 0x1ff000) by (unfold scanned_end; destruct (segment_fits file_size ph) eqn:E; [pose proof (segment_end_bound ph file_size Hp E)|]; lia).
    destruct (IH _ _ _ _ _ _ Hs Hb Hscan) as (H1 & H2 & H3).
    + done.
    + destruct (_ || _); lia.
    + destruct (negb f || (t <? scanned_end file_size ph)); [exact He|exact Ht0].
    + assert (Hbb : b' <= segment_start ph /\ b' <= b).
      { destruct f; cbn [negb orb] in H1; [destruct (Z.ltb_spec (segment_start ph) b); lia|]. destruct (Hf eq_refl). lia. }
      assert (Htt : scanned_end file_size ph <= t' /\ t <= t').
      { destruct f; cbn [negb orb] in H2; [destruct (Z.ltb_spec t (scanned_end file_size ph)); lia|]. destruct (Hf eq_refl). lia. }
      split; [lia|]. split; [lia|]. constructor; [|done]. intros _. split; [lia|]. destruct Hfw as [Hfit|Hw]; [left|by right]. split; [done|].
      unfold scanned_end in Htt. rewrite Hfit in Htt. lia.
  - pose proof (scan_segment_skip ph file_size (f, b, t) Hl) as Hskip. cbn [fst snd] in Hskip. rewrite Hskip in Hscan. cbn [mbind option_bind] in Hscan. destruct (IH _ _ _ _ _ _ Hs Hb Hscan Hf Hb0 Ht0) as (H1 & H2 & H3).
    split; [lia|]. split; [lia|]. constructor; [congruence|done].
Qed.

(** A fitting image: page-aligned, between the lowest and the highest address of programs. *)
Lemma elf_bounds file_size l :
  0 <= file_size -> Forall header_bounds l -> fitting file_size l = true -> existsb loadable l = true ->
  0x10000 <= elf_base l < elf_end l /\ elf_end l <= 0x1ff000 /\ elf_base l mod 4096 = 0 /\ elf_end l mod 4096 = 0 /\
  Forall (fun ph => loadable ph = true -> elf_base l <= segment_start ph /\ segment_end ph <= elf_end l) l.
Proof.
  intros Hs. induction l as [|ph l IH]; intros Hb Hfit Hex; [done|]. apply Forall_cons in Hb as [Hp Hb]. cbn [forallb] in Hfit. apply andb_true_iff in Hfit as [Hph Hfit].
  cbn [existsb elf_base elf_end foldr] in *. fold (elf_base l) (elf_end l). destruct (loadable ph) eqn:Hl; cbn [negb orb] in Hph, Hex |- *.
  2:{ destruct (IH Hb Hfit Hex) as (H1 & H2 & H3 & H4 & H5). repeat (split; [done|]). constructor; [congruence|done]. }
  pose proof (segment_end_bound ph file_size Hp Hph) as He. pose proof Hph as (_ & _ & Hv & Hve)%segment_fits_spec. pose proof (hb_memsz ph Hp).
  assert (Hm0 : p_memsz ph <> 0) by (unfold loadable in Hl; apply andb_true_iff in Hl as [_ Hl%negb_true_iff%Z.eqb_neq]; done).
  assert (Hst : 0x10000 <= segment_start ph <= p_vaddr ph /\ segment_start ph mod 4096 = 0 /\ segment_end ph mod 4096 = 0) by (unfold segment_start, segment_end; Z.div_mod_to_equations; lia).
  destruct (existsb loadable l) eqn:Hex'.
  - destruct (IH Hb Hfit eq_refl) as (H1 & H2 & H3 & H4 & H5). split; [lia|]. split; [lia|]. split; [|split].
    + destruct (Z.min_spec (segment_start ph) (elf_base l)) as [[_ ->]|[_ ->]]; [apply Hst|done].
    + destruct (Z.max_spec (segment_end ph) (elf_end l)) as [[_ ->]|[_ ->]]; [done|apply Hst].
    + constructor; [intros; lia|]. eapply Forall_impl; [exact H5|]. cbn. intros ph' Hi Hl'. specialize (Hi Hl'). lia.
  - assert (Hnone : elf_base l = 2 ^ 64 - 1 /\ elf_end l = 0 /\ Forall (fun ph => loadable ph = false) l).
    { clear -Hex'. induction l as [|ph' l IH]; [done|]. cbn in Hex'. apply orb_false_iff in Hex' as [Hl Hex]. destruct (IH Hex) as (H1 & H2 & H3).
      cbn [elf_base elf_end foldr]. rewrite Hl. split; [done|]. split; [done|]. by constructor. }
    destruct Hnone as (-> & -> & Hn). rewrite Z.min_l, Z.max_l by lia. split; [lia|]. split; [lia|]. split; [apply Hst|]. split; [apply Hst|].
    constructor; [intros; lia|]. eapply Forall_impl; [exact Hn|]. cbn. congruence.
Qed.

Lemma holds_loadable l a : existsb (fun ph => loadable ph && holds_address ph a) l = true -> existsb loadable l = true.
Proof. rewrite !existsb_exists. intros (ph & Hin & [Hl _]%andb_true_iff). eauto. Qed.

Lemma page_count_exact x : 0 <= x < 2 ^ 32 -> x mod 4096 = 0 -> user_code_page_count x = x / 4096.
Proof.
  intros Hx Hm. unfold user_code_page_count. change PMM_PAGE_SIZE with 4096. rewrite (u64_small (x + 4096)), u64_small by lia. rewrite u32_small by (Z.div_mod_to_equations; lia).
  Z.div_mod_to_equations. lia.
Qed.
Lemma page_count_covers x : 0 <= x < 2 ^ 32 -> x <= 4096 * user_code_page_count x.
Proof.
  intros Hx. unfold user_code_page_count. change PMM_PAGE_SIZE with 4096. rewrite (u64_small (x + 4096)), u64_small by lia. rewrite u32_small by (Z.div_mod_to_equations; lia).
  Z.div_mod_to_equations. lia.
Qed.

(** The first pass on a good file. *)
Lemma scan_good file_size l a :
  0 <= file_size < 2 ^ 31 -> Forall header_bounds l -> fitting file_size l = true -> existsb (fun ph => loadable ph && holds_address ph a) l = true ->
  scan_list file_size l (false, 2 ^ 64 - 1, 0) = Some (true, elf_base l, elf_end l) /\ elf_base l < elf_end l /\ elf_base l <= a < elf_end l /\
  user_code_page_count (elf_end l - elf_base l) = (elf_end l - elf_base l) / 4096 /\ user_program_range_valid (elf_base l) ((elf_end l - elf_base l) / 4096) = true.
Proof.
  intros Hs Hb Hfit Hentry. pose proof (holds_loadable _ _ Hentry) as Hload. destruct (elf_bounds file_size l) as (Hbe & Htop & Hbm & Hem & Hall); [lia|done..|].
  split; [rewrite scan_list_fitting by (done || lia); rewrite Hload, Z.min_r, Z.max_r by lia; done|]. split; [lia|].
  assert (Hdm : (elf_end l - elf_base l) mod 4096 = 0) by (Z.div_mod_to_equations; lia).
  split; [|split; [apply page_count_exact; [lia|done]|]].
  - apply existsb_exists in Hentry as (ph & Hin & [Hl Ha]%andb_true_iff). apply list_elem_of_In in Hin. pose proof (proj1 (Forall_forall _ _) Hall ph Hin Hl) as Hph.
    pose proof (proj1 (Forall_forall _ _) Hb ph Hin) as Hphb. pose proof (segment_start_bound ph Hphb).
    assert (Hf : segment_fits file_size ph = true).
    { apply list_elem_of_In in Hin. pose proof (proj1 (forallb_forall _ _) Hfit ph Hin) as Hf. cbn in Hf. by rewrite Hl in Hf. }
    pose proof (segment_end_bound ph file_size Hphb Hf). unfold holds_address in Ha. apply andb_true_iff in Ha as [Ha1%Z.leb_le Ha2%Z.ltb_lt]. lia.
  - unfold user_program_range_valid. change USER_MAX_PROGRAM_PAGES with 495. change USER_CODE_VA with 0x10000. change (USER_STACK_TOP - PMM_PAGE_SIZE) with 0x1ff000. change PMM_PAGE_SIZE with 4096.
    set (x := elf_end l - elf_base l) in *. assert (Hx : x = 4096 * (x / 4096)) by (Z.div_mod_to_equations; lia). assert (Hc : 0 < x / 4096 <= 495) by (Z.div_mod_to_equations; lia).
    rewrite (proj2 (Z.eqb_neq (x / 4096) 0)), (proj2 (Z.ltb_ge 495 _)) by lia. cbn [orb]. rewrite (proj2 (Z.ltb_ge (elf_base l) _)) by lia.
    rewrite (u64_small (x / 4096 * 4096)), u64_small by lia. rewrite (proj2 (Z.ltb_ge 0x1ff000 _)) by lia. done.
Qed.

Lemma rd_insert {A} (l : list A) i x j : 0 <= i < lenZ l -> rd (<[Z.to_nat i := x]> l) j = if decide (j = i) then Some x else rd l j.
Proof.
  intros Hi. unfold lenZ in Hi. destruct (decide (j = i)) as [->|Hne]; unfold rd.
  - rewrite (proj2 (Z.leb_le 0 i)) by lia. apply list_lookup_insert_eq. lia.
  - destruct (Z.leb_spec 0 j); [|done]. apply list_lookup_insert_ne. lia.
Qed.

Section loader.
Context {X : Type} `{DiskDriver X} (plat : platform) (Hplat : plat_wf plat).
Context (d : block_device X) (h : Z) (i : nat) (e : mem) (n : list Z) (Hdisk : on_disk d e) (Hh : 0 <= h < FILE_TABLE_MAX).
Context (local64 local256 local_header : mem) (local64_len : lenZ local64 = VFS_PATH_MAX) (local256_len : lenZ local256 = 256) (local_header_len : lenZ local_header = 64).
Context (s0 : machine X).
Implicit Types s : machine X.

Abbreviation contents := (file_bytes d e).
Abbreviation stage := (stage plat d h i e n s0).

Lemma zero_run arr pages count (Harr : take (length pages) arr = pages) (Hcount : count = lenZ pages) (Hc : count < 2 ^ 19) base va size pos :
  0 <= base <= va -> va < 2 ^ 63 -> va - base + size <= 4096 * count -> forall fuel s c img,
  stage s pos pages img -> 0 <= c <= size -> (0 < fuel)%nat -> (c < size -> (Z.to_nat (count - (va - base + c) / 4096) < fuel)%nat) ->
  exists s', zero_loop fuel va size base arr count c s = Ret 0 s' [] /\ stage s' pos pages (blit (va - base + c) (zeros (size - c)) img) /\ same_arrays s s'.
Proof using All.
  intros Hbase Hva Hfit. induction fuel as [|fuel IH]; intros s c img Hst Hcb H0 Hf; [lia|]. cbn [zero_loop].
  destruct (Z.ltb_spec c size) as [Hlt|Hge].
  2:{ assert (c = size) as -> by lia. exists s. split; [done|]. split; [|done]. rewrite Z.sub_diag. eapply stage_image; [|exact Hst].
      intros a. change (zeros 0) with (@nil Z). by rewrite blit_nil. }
  change PMM_PAGE_SIZE with 4096. cbv zeta. set (dest := va - base + c) in *. rewrite (u64_small (va - base)), (u64_small (va - base + c)) by lia. fold dest.
  set (j := dest / 4096) in *. set (o := dest mod 4096). assert (Hjo : dest = 4096 * j + o /\ 0 <= o < 4096 /\ 0 <= j < count) by (unfold j, o; Z.div_mod_to_equations; lia).
  rewrite (u32_small j) by lia. rewrite (proj2 (Z.leb_gt count j)) by lia. rewrite (u32_small (4096 - o)) by lia. rewrite (u64_small (size - c)) by lia.
  set (k := if size - c <? 4096 - o then u32 (size - c) else 4096 - o).
  assert (Hk : 0 < k <= size - c /\ o + k <= 4096 /\ (k < size - c -> o + k = 4096)) by (unfold k; destruct (Z.ltb_spec (size - c) (4096 - o)); rewrite ?u32_small by lia; lia).
  destruct (rd_Some pages j) as [p Hp]; [lia|]. destruct (page_bound plat Hplat d h i e n s0 s pos pages img j p Hst Hp) as (Hp0 & Hp1 & _).
  rewrite (bind_deref_Some _ p) by (rewrite (prefix_rd arr pages) by (done || lia); done). rewrite (u64_small (p + o)), (u64_small (c + k)) by lia.
  destruct (stage_clear plat Hplat d h i e n s0 s pos pages img j p o k Hst Hp) as (s1 & Hr1 & Hst1 & Hsa1); [lia..|].
  specialize (Hf Hlt). rewrite (bind_Ret_nil _ _ _ _ _ Hr1). destruct (IH s1 (c + k) _ Hst1) as (s2 & Hr2 & Hst2 & Hsa2); [lia|lia| |].
  - intros Hmore. assert ((va - base + (c + k)) / 4096 = j + 1) by (unfold dest in *; Z.div_mod_to_equations; lia). lia.
  - exists s2. split; [exact Hr2|]. split; [|by eapply same_arrays_trans]. eapply stage_image; [|exact Hst2]. intros a.
    replace (va - base + (c + k)) with (4096 * j + o + lenZ (zeros k)) by (rewrite lenZ_zeros; unfold dest in *; lia).
    rewrite blit_app. replace (4096 * j + o) with dest by lia. f_equal. unfold zeros. rewrite <- replicate_add. f_equal. lia.
Qed.

(** The pages a writable segment touches are marked. *)
Definition marks s s' (first last : Z) : Prop :=
  lenZ (user_program_page_writable s') = lenZ (user_program_page_writable s) /\
  forall j, rd (user_program_page_writable s') j = if (first <=? j) && (j <=? last) then Some 1 else rd (user_program_page_writable s) j.

Lemma mark_run pos pages img last m : forall fuel s first,
  stage s pos pages img -> first + Z.of_nat m = last + 1 -> 0 <= first -> last < lenZ (user_program_page_writable s) -> last < 2 ^ 31 -> (m < fuel)%nat ->
  exists s', mark_loop fuel first last s = Ret tt s' [] /\ stage s' pos pages img /\ user_program_pages s' = user_program_pages s /\ marks s s' first last.
Proof using Type.
  clear. induction m as [|m IH]; intros fuel s first Hst Hm H0 Hl Hb Hf; (destruct fuel as [|fuel]; [lia|]); cbn [mark_loop].
  - rewrite (proj2 (Z.leb_gt _ _)) by lia. exists s. split; [done|]. split; [done|]. split; [done|]. split; [done|]. intros j.
    destruct (Z.leb_spec first j), (Z.leb_spec j last); try done. lia.
  - rewrite (proj2 (Z.leb_le _ _)) by lia. krun. rewrite wr_Some by lia. rewrite (bind_deref_Some _ _ _ _ eq_refl). krun. rewrite u32_small by lia.
    set (s1 := set_user_program_page_writable _ s).
    assert (Hst1 : stage s1 pos pages img) by (destruct Hst as [[? ? ?] ? ? [? ? ? ?]]; done).
    destruct (IH fuel s1 (first + 1) Hst1) as (s' & Hr & Hst' & Hp & Hl' & Hrd); [lia|lia|cbn; unfold lenZ in *; rewrite length_insert; lia|lia|lia|].
    exists s'. split; [exact Hr|]. split; [done|]. split; [done|]. split; [rewrite Hl'; cbn; unfold lenZ; by rewrite length_insert|].
    intros j. rewrite Hrd. cbn [user_program_page_writable s1 set_user_program_page_writable]. rewrite rd_insert by lia.
    destruct (Z.leb_spec (first + 1) j), (Z.leb_spec j last), (Z.leb_spec first j); cbn [andb]; try lia; destruct (decide (j = first)); try done; lia.
Qed.

Lemma copy_range_run arr pages count s pos img base va off size :
  stage s pos pages img -> take (length pages) arr = pages -> count = lenZ pages -> count < 2 ^ 19 ->
  0 <= base <= va -> va < 2 ^ 63 -> 0 <= off -> 0 <= size -> off + size <= file_size e -> va - base + size <= 4096 * count ->
  exists s', user_copy_file_range_into_pages local64 local256 (Z.to_nat (file_size e)) (Some h) off va size base arr count s = Ret 0 s' [] /\
    stage s' (off + size) pages (blit (va - base) (slice contents (Z.to_nat off) (Z.to_nat size)) img) /\ same_arrays s s'.
Proof using Hplat Hdisk Hh local64_len local256_len.
  intros Hst Harr Hcount Hc Hbase Hva Hoff Hsize Hend Hfit. destruct (stage_bounds plat d h i e n Hdisk Hh s0 s pos pages img Hst) as (_ & Hs31 & _).
  unfold user_copy_file_range_into_pages. destruct (stage_seek plat d h i e n Hh s0 s pos pages img off Hst) as (s1 & Hr1 & Hst1 & Hsa1); [lia|].
  rewrite (proj2 (Z.leb_le off (file_size e))) in Hr1, Hst1 by lia. rewrite (bind_Ret_nil _ _ _ _ _ Hr1). change (negb (0 =? 0)) with false. cbn iota.
  rewrite <- (Z.add_0_r off) in Hst1 at 1.
  destruct (copy_run plat Hplat d h i e n Hdisk Hh local64 local64_len s0 arr pages count Harr Hcount Hc base va off size Hbase Hva Hoff Hend Hfit
    (S (S (Z.to_nat (file_size e)))) s1 0 img local256 Hst1) as (s2 & Hr2 & Hst2 & Hsa2); [lia|done|lia|].
  rewrite Z.add_0_r, Z.sub_0_r in Hst2. rewrite Z.add_0_r in Hst2. exists s2. split; [exact Hr2|]. split; [exact Hst2|]. by eapply same_arrays_trans.
Qed.

Lemma zero_range_run arr pages count s pos img base va size :
  stage s pos pages img -> take (length pages) arr = pages -> count = lenZ pages -> count < 2 ^ 19 ->
  0 <= base <= va -> va < 2 ^ 63 -> 0 <= size -> va - base + size <= 4096 * count ->
  exists s', user_zero_range_in_pages va size base arr count s = Ret 0 s' [] /\ stage s' pos pages (blit (va - base) (zeros size) img) /\ same_arrays s s'.
Proof using All.
  intros Hst Harr Hcount Hc Hbase Hva Hsize Hfit. unfold user_zero_range_in_pages.
  destruct (zero_run arr pages count Harr Hcount Hc base va size pos Hbase Hva Hfit (S (S (Z.to_nat count))) s 0 img Hst) as (s1 & Hr1 & Hst1 & Hsa1); [lia|lia| |].
  - intros _. assert (0 <= (va - base + 0) / 4096) by (apply Z.div_pos; lia). lia.
  - rewrite Z.add_0_r, Z.sub_0_r in Hst1. by exists s1.
Qed.

(** [pages] are the program's pages, and the writable marks cover them. *)
Record arrays s (pages : list Z) : Prop := {
  ar_pages : take (length pages) (user_program_pages s) = pages;
  ar_count : lenZ pages < 2 ^ 19;
  ar_marks : lenZ pages <= lenZ (user_program_page_writable s)
}.
Lemma arrays_same s s' pages : same_arrays s s' -> arrays s pages -> arrays s' pages.
Proof using Type. intros [Hp Hw] [? ? ?]. by split; rewrite ?Hp, ?Hw. Qed.

Definition marked base s s' (ph : elf64_program_header) : Prop :=
  lenZ (user_program_page_writable s') = lenZ (user_program_page_writable s) /\
  forall j, rd (user_program_page_writable s') j = if writes_pages ph && touches base ph j then Some 1 else rd (user_program_page_writable s) j.

Lemma load_segment_run header ph s pos pages img base :
  stage s pos pages img -> arrays s pages -> header_bounds ph -> loadable ph = true -> segment_fits (file_size e) ph = true ->
  0 <= base <= p_vaddr ph -> p_vaddr ph - base + p_memsz ph <= 4096 * lenZ pages ->
  exists s' pos', load_segment local64 local256 (Some h) (Z.to_nat (file_size e)) header ph base (lenZ pages) s = Ret (Some (holds_address ph (e_entry header))) s' [] /\
    stage s' pos' pages (segment_image contents base ph img) /\ user_program_pages s' = user_program_pages s /\ marked base s s' ph.
Proof using All.
  intros Hst [Harr Hc Hmk] [Ho Hv Hfs Hms] Hl (Hf1 & Hf2 & Hf3 & Hf4)%segment_fits_spec Hbase Hfit. unfold load_segment.
  destruct (stage_bounds plat d h i e n Hdisk Hh s0 s pos pages img Hst) as (_ & Hs31 & _).
  apply andb_true_iff in Hl as [Hty Hnz]. rewrite Hty. apply negb_true_iff in Hnz. rewrite Hnz. cbn [negb orb]. cbn iota. apply Z.eqb_neq in Hnz.
  cbv zeta. change PMM_PAGE_SIZE with 4096. rewrite (u64_small (p_vaddr ph - base)), (u64_small (p_vaddr ph - base + p_memsz ph)) by lia.
  rewrite (u64_small (p_vaddr ph - base + p_memsz ph - 1)) by lia. rewrite (u64_small (p_vaddr ph + p_memsz ph)) by lia.
  set (first := (p_vaddr ph - base) / 4096). set (last := (p_vaddr ph - base + p_memsz ph - 1) / 4096).
  assert (Hfl : 0 <= first <= last /\ last < lenZ pages) by (unfold first, last; Z.div_mod_to_equations; lia).
  rewrite (u32_small first), (u32_small last) by lia. rewrite (proj2 (Z.leb_gt _ last)) by lia. rewrite (u32_small (p_offset ph)) by lia.
  fold (writes_pages ph). fold (holds_address ph (e_entry header)).
  assert (Hmark : exists s1, (if writes_pages ph then mark_loop (S (S (Z.to_nat (last - first)))) first last else ret tt) s = Ret tt s1 [] /\
    stage s1 pos pages img /\ user_program_pages s1 = user_program_pages s /\ marked base s s1 ph).
  { unfold marked, touches. fold first. fold last. destruct (writes_pages ph).
    - destruct (mark_run pos pages img last (Z.to_nat (last - first + 1)) (S (S (Z.to_nat (last - first)))) s first Hst) as (s1 & Hr1 & Hst1 & Hp1 & Hm1); [lia..|].
      exists s1. split; [exact Hr1|]. split; [exact Hst1|]. split; [exact Hp1|]. exact Hm1.
    - by exists s. }
  destruct Hmark as (s1 & Hr1 & Hst1 & Hp1 & Hm1). rewrite (bind_Ret_nil _ _ _ _ _ Hr1). krun. rewrite Hp1.
  assert (Hcopy : exists s2 pos2, (if 0 <? p_filesz ph then user_copy_file_range_into_pages local64 local256 (Z.to_nat (file_size e)) (Some h) (p_offset ph) (p_vaddr ph) (p_filesz ph) base (user_program_pages s) (lenZ pages) else ret 0) s1 = Ret 0 s2 [] /\
    stage s2 pos2 pages (blit (p_vaddr ph - base) (slice contents (Z.to_nat (p_offset ph)) (Z.to_nat (p_filesz ph))) img) /\ same_arrays s1 s2).
  { destruct (Z.ltb_spec 0 (p_filesz ph)) as [Hpos|Hz].
    - destruct (copy_range_run (user_program_pages s) pages (lenZ pages) s1 pos img base (p_vaddr ph) (p_offset ph) (p_filesz ph) Hst1 Harr eq_refl Hc) as (s2 & Hr2 & Hst2 & Hsa2); [lia..|]. eauto.
    - exists s1, pos. split; [done|]. split; [|done]. eapply stage_image; [|exact Hst1]. intros a. assert (p_filesz ph = 0) as -> by lia.
      change (Z.to_nat 0) with 0%nat. by rewrite slice_nil, blit_nil. }
  destruct Hcopy as (s2 & pos2 & Hr2 & Hst2 & Hsa2). rewrite (bind_Ret_nil _ _ _ _ _ Hr2). change (negb (0 =? 0)) with false. cbn iota.
  rewrite (u64_small (p_vaddr ph + p_filesz ph)), (u64_small (p_memsz ph - p_filesz ph)) by lia.
  assert (Hzero : exists s3, (if p_filesz ph <? p_memsz ph then user_zero_range_in_pages (p_vaddr ph + p_filesz ph) (p_memsz ph - p_filesz ph) base (user_program_pages s) (lenZ pages) else ret 0) s2 = Ret 0 s3 [] /\
    stage s3 pos2 pages (segment_image contents base ph img) /\ same_arrays s2 s3).
  { unfold segment_image. destruct (Z.ltb_spec (p_filesz ph) (p_memsz ph)) as [Hmore|Hall].
    - destruct (zero_range_run (user_program_pages s) pages (lenZ pages) s2 pos2 _ base (p_vaddr ph + p_filesz ph) (p_memsz ph - p_filesz ph) Hst2 Harr eq_refl Hc) as (s3 & Hr3 & Hst3 & Hsa3); [lia..|].
      exists s3. split; [exact Hr3|]. split; [|done]. by replace (p_vaddr ph - base + p_filesz ph) with (p_vaddr ph + p_filesz ph - base) by lia.
    - exists s2. split; [done|]. split; [|done]. eapply stage_image; [|exact Hst2]. intros a. assert (p_memsz ph - p_filesz ph = 0) as -> by lia.
      change (zeros 0) with (@nil Z). by rewrite blit_nil. }
  destruct Hzero as (s3 & Hr3 & Hst3 & Hsa3). rewrite (bind_Ret_nil _ _ _ _ _ Hr3). change (negb (0 =? 0)) with false. cbn iota.
  exists s3, pos2. split; [done|]. split; [exact Hst3|]. destruct (same_arrays_trans _ _ _ Hsa2 Hsa3) as [Hp3 Hw3]. split; [congruence|].
  destruct Hm1 as [Hml Hmr]. split; [by rewrite Hw3|]. intros j. rewrite Hw3. apply Hmr.
Qed.

Lemma load_segment_skip header ph s base count nn :
  loadable ph = false -> load_segment local64 local256 (Some h) nn header ph base count s = Ret (Some false) s [].
Proof using Type.
  clear. intros Hl. unfold load_segment. unfold loadable in Hl. destruct (p_type ph =? ELF_PROGRAM_TYPE_LOAD), (p_memsz ph =? 0); done.
Qed.

(** A segment that ends within a page of 2^64 passes the first pass, but not the second. *)
Lemma load_segment_wraps header ph s base count nn :
  header_bounds ph -> loadable ph = true -> segment_wraps ph = true -> 0 <= base <= p_vaddr ph -> base < 2 ^ 21 -> 0 <= count < 2 ^ 19 ->
  load_segment local64 local256 (Some h) nn header ph base count s = Ret None s [].
Proof using Type.
  clear. intros [Ho Hv Hfs Hms] Hl Hw Hbase Hb Hc. unfold load_segment.
  apply andb_true_iff in Hl as [Hty Hnz]. rewrite Hty. apply negb_true_iff in Hnz. rewrite Hnz. cbn [negb orb]. cbn iota. cbv zeta. change PMM_PAGE_SIZE with 4096.
  apply andb_true_iff in Hw as [Hw1%Z.ltb_lt Hw2%Z.ltb_lt].
  rewrite (u64_small (p_vaddr ph - base)), (u64_small (p_vaddr ph - base + p_memsz ph)) by lia. rewrite (u64_small (p_vaddr ph - base + p_memsz ph - 1)) by lia.
  rewrite (proj2 (Z.leb_le count _)); [done|]. set (l := (p_vaddr ph - base + p_memsz ph - 1) / 4096).
  assert (Hlb : 2 ^ 52 - 514 <= l < 2 ^ 52) by (unfold l; Z.div_mod_to_equations; lia).
  unfold u32. replace (l mod 2 ^ 32) with (l - (2 ^ 20 - 1) * 2 ^ 32); [lia|]. apply Z.mod_unique_pos with (2 ^ 20 - 1); lia.
Qed.

Lemma header_ok_spec hd file_size : header_ok hd file_size = true ->
  64 <= file_size /\ e_phentsize hd = 56 /\ 0 < e_phnum hd /\ e_phoff hd + 56 * e_phnum hd <= file_size.
Proof using Type. clear. unfold header_ok. rewrite !andb_true_iff, !Z.leb_le, !Z.eqb_eq, Z.ltb_lt. tauto. Qed.

Lemma read_program_header_run hd k s pos pages img :
  stage s pos pages img -> header_bounded hd -> header_ok hd (file_size e) = true -> 0 <= k < e_phnum hd ->
  exists ph s' pos', read_program_header local64 local_header (Some h) hd k s = Ret (Some ph) s' [] /\
    program_headers contents hd !! Z.to_nat k = Some ph /\ stage s' pos' pages img /\ same_arrays s s'.
Proof using All.
  intros Hst [_ Hb _ Hn] (_ & He & _ & Hend)%header_ok_spec Hk. destruct (stage_bounds plat d h i e n Hdisk Hh s0 s pos pages img Hst) as (_ & Hs31 & Hlen).
  unfold read_program_header. rewrite He. rewrite (u64_small (k * 56)), (u64_small (e_phoff hd + k * 56)), (u32_small (e_phoff hd + k * 56)) by lia.
  assert (Hl56 : lenZ (take 56 local_header) = 56) by (unfold lenZ in *; rewrite length_take; lia).
  destruct (stage_read_exact_at plat d h i e n Hdisk Hh local64 local64_len s0 s pos pages img (e_phoff hd + k * 56) (take 56 local_header) 56 Hst) as (buf & s' & pos' & Hr & Hbuf & Hst' & Hsa); [lia|lia|lia|].
  change elf64_program_header_size with 56. rewrite (bind_Ret_nil _ _ _ _ _ Hr). rewrite (proj2 (Z.leb_le _ (file_size e))) by lia. cbn iota. change (0 =? 0) with true. cbn iota.
  eexists _, s', pos'. split; [reflexivity|]. split; [|done]. rewrite Hbuf by lia. unfold program_headers. rewrite list_lookup_fmap, lookup_seq_lt by lia. cbn [fmap option_fmap option_map].
  rewrite splice_all by (unfold lenZ in *; rewrite length_slice; lia). do 2 f_equal. change (Z.to_nat 56) with 56%nat. f_equal. lia.
Qed.

Lemma headers_length hd : 0 <= e_phnum hd -> lenZ (program_headers contents hd) = e_phnum hd.
Proof using Type. clear. intros Hn. unfold lenZ, program_headers. rewrite length_fmap, length_seq. lia. Qed.

Lemma scan_run hd pages img (Hb : header_bounded hd) (Hok : header_ok hd (file_size e) = true) m : forall fuel k s pos acc,
  stage s pos pages img -> Z.of_nat k + Z.of_nat m = e_phnum hd -> (m < fuel)%nat ->
  exists s' pos', scan_headers local64 local_header fuel (Some h) hd (file_size e) (Z.of_nat k) acc.1.1 acc.1.2 acc.2 s =
      Ret (scan_list (file_size e) (drop k (program_headers contents hd)) acc) s' [] /\ stage s' pos' pages img /\ same_arrays s s'.
Proof using All.
  induction m as [|m IH]; intros fuel k s pos [[f b] t] Hst Hk Hf; (destruct fuel as [|fuel]; [lia|]); cbn [scan_headers fst snd]; pose proof (headers_length hd (proj1 (eb_phnum _ Hb))) as Hl; pose proof (eb_phnum _ Hb).
  - rewrite (proj2 (Z.ltb_ge _ _)) by lia. rewrite drop_ge by (unfold lenZ in *; lia). exists s, pos. done.
  - rewrite (proj2 (Z.ltb_lt _ _)) by lia.
    destruct (read_program_header_run hd (Z.of_nat k) s pos pages img Hst Hb Hok) as (ph & s1 & pos1 & Hr & Hph & Hst1 & Hsa1); [lia|].
    rewrite (bind_Ret_nil _ _ _ _ _ Hr). cbn iota. rewrite Nat2Z.id in Hph. rewrite (drop_S _ _ _ Hph). cbn [scan_list].
    destruct (scan_segment ph (file_size e) f b t) as [[[f1 b1] t1]|]; cbn [mbind option_bind]; [|by exists s1, pos1].
    rewrite u32_small by lia. replace (Z.of_nat k + 1) with (Z.of_nat (S k)) by lia.
    destruct (IH fuel (S k) s1 pos1 (f1, b1, t1) Hst1) as (s2 & pos2 & Hr2 & Hst2 & Hsa2); [lia|lia|]. exists s2, pos2. split; [exact Hr2|]. split; [done|]. by eapply same_arrays_trans.
Qed.

(** The second pass: every segment fits, or one of them is rejected. *)
Lemma segments_run hd pages base (Hb : header_bounded hd) (Hok : header_ok hd (file_size e) = true) (H0 : 0 <= base < 2 ^ 21) m : forall fuel k s pos img mapped,
  let l := drop k (program_headers contents hd) in
  stage s pos pages img -> arrays s pages -> Z.of_nat k + Z.of_nat m = e_phnum hd -> (m < fuel)%nat ->
  Forall (fun ph => header_bounds ph /\ (loadable ph = true -> base <= p_vaddr ph /\
    (segment_fits (file_size e) ph = true /\ p_vaddr ph - base + p_memsz ph <= 4096 * lenZ pages \/ segment_fits (file_size e) ph = false /\ segment_wraps ph = true))) l ->
  exists s' pos' img', load_segments local64 local256 local_header fuel (Some h) (Z.to_nat (file_size e)) hd (Z.of_nat k) base (lenZ pages) mapped s =
      Ret (if forallb (fun ph => negb (loadable ph) || segment_fits (file_size e) ph) l
           then Some (mapped || existsb (fun ph => loadable ph && holds_address ph (e_entry hd)) l) else None) s' [] /\
    stage s' pos' pages img' /\ user_program_pages s' = user_program_pages s /\ lenZ (user_program_page_writable s') = lenZ (user_program_page_writable s) /\
    (forallb (fun ph => negb (loadable ph) || segment_fits (file_size e) ph) l = true ->
      img' = elf_image contents base l img /\
      forall j, rd (user_program_page_writable s') j = if elf_writable base l j then Some 1 else rd (user_program_page_writable s) j).
Proof using All.
  induction m as [|m IH]; intros fuel k s pos img mapped l Hst Har Hk Hf Hall; (destruct fuel as [|fuel]; [lia|]); cbn [load_segments];
    pose proof (headers_length hd (proj1 (eb_phnum _ Hb))) as Hl; pose proof (eb_phnum _ Hb).
  - rewrite (proj2 (Z.ltb_ge _ _)) by lia. assert (l = []) as -> by (unfold l; apply drop_ge; unfold lenZ in *; lia). cbn [forallb existsb]. rewrite orb_false_r.
    exists s, pos, img. done.
  - rewrite (proj2 (Z.ltb_lt _ _)) by lia.
    destruct (read_program_header_run hd (Z.of_nat k) s pos pages img Hst Hb Hok) as (ph & s1 & pos1 & Hr & Hph & Hst1 & Hsa1); [lia|].
    rewrite (bind_Ret_nil _ _ _ _ _ Hr). cbn iota. rewrite Nat2Z.id in Hph. unfold l in *. rewrite (drop_S _ _ _ Hph) in *. clear l. set (l := drop (S k) (program_headers contents hd)) in *.
    apply Forall_cons in Hall as [[Hphb Hcase] Hall]. pose proof (arrays_same _ _ _ Hsa1 Har) as Har1. rewrite u32_small by lia. replace (Z.of_nat k + 1) with (Z.of_nat (S k)) by lia.
    destruct Hsa1 as [Hp1 Hw1]. cbn [forallb existsb].
    destruct (loadable ph) eqn:Hload; cbn [negb orb andb].
    2:{ rewrite (bind_Ret_nil _ _ _ _ _ (load_segment_skip hd ph s1 base (lenZ pages) (Z.to_nat (file_size e)) Hload)). cbn iota.
        destruct (IH fuel (S k) s1 pos1 img (false || mapped) Hst1 Har1 ltac:(lia) ltac:(lia) Hall) as (s2 & pos2 & img2 & Hr2 & Hst2 & Hp2 & Hw2 & Hok2).
        fold l in Hr2, Hok2. exists s2, pos2, img2. split; [exact Hr2|]. split; [done|]. split; [congruence|]. split; [congruence|]. intros Hfb. destruct (Hok2 Hfb) as [-> Hm].
        unfold elf_image, elf_writable. cbn [foldl existsb]. rewrite Hload. cbn [andb orb]. split; [done|]. intros j. by rewrite Hm, Hw1. }
    destruct (Hcase eq_refl) as [Hbase [[Hfits Hroom]|[Hno Hwrap]]].
    + rewrite Hfits. cbn [andb].
      destruct (load_segment_run hd ph s1 pos1 pages img base Hst1 Har1 Hphb Hload Hfits) as (s2 & pos2 & Hr2 & Hst2 & Hp2 & Hml & Hm2); [lia|lia|].
      rewrite (bind_Ret_nil _ _ _ _ _ Hr2). cbn iota. destruct Har1 as [Ha1 Ha2 Ha3].
      assert (Har2 : arrays s2 pages) by (split; [by rewrite Hp2|done|by rewrite Hml]).
      destruct (IH fuel (S k) s2 pos2 _ (holds_address ph (e_entry hd) || mapped) Hst2 Har2 ltac:(lia) ltac:(lia) Hall) as (s3 & pos3 & img3 & Hr3 & Hst3 & Hp3 & Hw3 & Hok3).
      fold l in Hr3, Hok3. exists s3, pos3, img3. split; [|split; [done|split; [congruence|split; [congruence|]]]].
      * rewrite Hr3. destruct (forallb _ l); [|done]. do 2 f_equal. rewrite (orb_comm (holds_address ph (e_entry hd)) mapped). by rewrite orb_assoc.
      * intros Hfb. destruct (Hok3 Hfb) as [-> Hm]. unfold elf_image, elf_writable. cbn [foldl existsb]. rewrite Hload. cbn [andb]. split; [done|].
        intros j. rewrite Hm, Hm2, Hw1. unfold elf_writable. destruct (writes_pages ph && touches base ph j); cbn [orb]; [by match goal with |- context [if ?b then _ else _] => destruct b end|reflexivity].
    + rewrite Hno. cbn [andb]. rewrite (bind_Ret_nil _ _ _ _ _ (load_segment_wraps hd ph s1 base (lenZ pages) (Z.to_nat (file_size e)) Hphb Hload Hwrap ltac:(lia) ltac:(lia) ltac:(pose proof (lenZ_nonneg pages); destruct Har1; lia))).
      cbn iota. exists s1, pos1, img. split; [done|]. split; [done|]. split; [congruence|]. split; [congruence|]. done.
Qed.

(** What the loader's result says: the image of the program is in the pages,
    or the file has none, or no page is left. *)
Definition elf_result hd (l : list elf64_program_header) s' pages img (r : option (Z * Z * Z)) : Prop :=
  match r with
  | Some (b, t, count) =>
      fitting (file_size e) l = true /\ existsb (fun ph => loadable ph && holds_address ph (e_entry hd)) l = true /\
      b = elf_base l /\ t = elf_end l /\ count = (t - b) / 4096 /\ lenZ pages = count /\ take (length pages) (user_program_pages s') = pages /\
      img = elf_image contents b l blank_image /\ forall j, 0 <= j < count -> rd (user_program_page_writable s') j = Some (if elf_writable b l j then 1 else 0)
  | None =>
      fitting (file_size e) l && existsb (fun ph => loadable ph && holds_address ph (e_entry hd)) l = false /\ lenZ pages <= USER_MAX_PROGRAM_PAGES \/
      fitting (file_size e) l && existsb (fun ph => loadable ph && holds_address ph (e_entry hd)) l = true /\
        all_used (u_mm s') /\ lenZ pages < (elf_end l - elf_base l) / 4096
  end.

Lemma program_headers_bounds hd : Forall header_bounds (program_headers contents hd).
Proof using Type. clear. unfold program_headers. apply Forall_fmap, Forall_true. intros k. apply header_of_bounds. Qed.

(** The second half of [load_elf]: pages, marks and segments. *)
Lemma fill_run hd s pos b t count f :
  let l := program_headers contents hd in
  stage s pos [] blank_image -> header_bounded hd -> header_ok hd (file_size e) = true ->
  lenZ (user_program_pages s) = USER_MAX_PROGRAM_PAGES -> lenZ (user_program_page_writable s) = USER_MAX_PROGRAM_PAGES ->
  scan_list (file_size e) l (false, 2 ^ 64 - 1, 0) = Some (f, b, t) -> user_program_range_valid b count = true -> b < t -> t <= b + 4096 * count -> 0 <= b ->
  exists r s' pos' pages img, (pages <- gets user_program_pages;;
     let! (status, pages1) := user_alloc_program_pages plat pages count in
     modify (set_user_program_pages pages1);;
     if negb (status =? 0) then ret None
     else
       w <- gets user_program_page_writable;;
       w1 <- deref (memset w 0 0 count);;
       modify (set_user_program_page_writable w1);;
       mapped <- load_segments local64 local256 local_header (S (Z.to_nat (e_phnum hd))) (Some h) (Z.to_nat (file_size e)) hd 0 b count false;;
       match mapped with
       | Some true => ret (Some (b, t, count))
       | _ => ret None
       end) s = Ret r s' [] /\ stage s' pos' pages img /\
    lenZ (user_program_pages s') = USER_MAX_PROGRAM_PAGES /\ lenZ (user_program_page_writable s') = USER_MAX_PROGRAM_PAGES /\
    (r = None /\ lenZ pages <= count /\ count <= USER_MAX_PROGRAM_PAGES /\
       (fitting (file_size e) l && existsb (fun ph => loadable ph && holds_address ph (e_entry hd)) l = false \/ all_used (u_mm s') /\ lenZ pages < count) \/
     r = Some (b, t, count) /\ fitting (file_size e) l = true /\ existsb (fun ph => loadable ph && holds_address ph (e_entry hd)) l = true /\
     lenZ pages = count /\ take (length pages) (user_program_pages s') = pages /\
     img = elf_image contents b l blank_image /\ forall j, 0 <= j < count -> rd (user_program_page_writable s') j = Some (if elf_writable b l j then 1 else 0)).
Proof using All.
  intros l Hst Hb Hok Hlp Hlw Hscan Hrange Hbt Hroom Hb0. destruct (stage_bounds plat d h i e n Hdisk Hh s0 s pos [] blank_image Hst) as (_ & Hs31 & Hlen).
  destruct (header_ok_spec _ _ Hok) as (Hsize & _ & Hn0 & _).
  assert (Hr : 0x10000 <= b /\ b < 2 ^ 21 /\ 0 < count <= 495).
  { unfold user_program_range_valid in Hrange. change USER_MAX_PROGRAM_PAGES with 495 in *. change USER_CODE_VA with 0x10000 in Hrange. change (USER_STACK_TOP - PMM_PAGE_SIZE) with 0x1ff000 in Hrange. change PMM_PAGE_SIZE with 4096 in Hrange.
    destruct (Z.eqb_spec count 0); [done|]. destruct (Z.ltb_spec 495 count); [done|]. cbn [orb] in Hrange. destruct (Z.ltb_spec b 0x10000); [done|].
    destruct (scan_list_inv (file_size e) l false (2 ^ 64 - 1) 0 f b t) as (_ & Htt & _); [lia|apply program_headers_bounds|done|done|lia|lia|].
    apply negb_true_iff in Hrange. apply Z.ltb_ge in Hrange. rewrite (u64_small (count * 4096)) in Hrange by lia.
    rewrite u64_small in Hrange by lia. lia. }
  krun. destruct (alloc_pages_run plat Hplat d h i e n Hdisk Hh local64 local64_len s0 s pos (user_program_pages s) count Hst) as (status & arr & s1 & pages & Hr1 & Hst1 & [Hp1 Hw1] & Hla & Hres); [change USER_MAX_PROGRAM_PAGES with 495 in *; lia|lia|].
  rewrite (bind_Ret_nil _ _ _ _ _ Hr1). cbn iota. krun. set (s2 := set_user_program_pages arr s1).
  assert (Hst2 : stage s2 pos pages blank_image) by (destruct Hst1 as [[? ? ?] ? ? [? ? ? ?]]; done).
  destruct Hres as [(-> & Hcount & Htake)|(-> & Hall & Hshort)].
  2:{ change (negb (-1 =? 0)) with true. cbn iota. exists None, s2, pos, pages, blank_image. split; [done|]. split; [exact Hst2|]. cbn. split; [congruence|]. split; [congruence|]. left. split; [done|]. split; [lia|]. split; [apply Hr|by right]. }
  change (negb (0 =? 0)) with false. cbn iota. krun. rewrite memset_spec by (cbn; rewrite ?Hw1, ?Hlw; change USER_MAX_PROGRAM_PAGES with 495 in *; lia).
  rewrite (bind_deref_Some _ _ _ _ eq_refl). krun.
  set (w1 := splice _ _ _). set (s3 := set_user_program_page_writable w1 s2).
  assert (Hst3 : stage s3 pos pages blank_image) by (destruct Hst2 as [[? ? ?] ? ? [? ? ? ?]]; done).
  assert (Hlw1 : lenZ w1 = 495).
  { unfold w1, lenZ in *. cbn. rewrite Hw1. change USER_MAX_PROGRAM_PAGES with 495 in *. rewrite length_splice by (rewrite length_replicate; lia). lia. }
  assert (Hw1z : forall j, 0 <= j < count -> rd w1 j = Some 0).
  { intros j Hj. unfold w1, rd. rewrite (proj2 (Z.leb_le 0 j)) by lia. replace (Z.to_nat j) with (Z.to_nat 0 + Z.to_nat j)%nat by lia.
    rewrite lookup_splice_new; [apply lookup_replicate_2; lia|lia|rewrite length_replicate; lia]. }
  assert (Har : arrays s3 pages) by (split; [exact Htake|lia|cbn; lia]).
  destruct (segments_run hd pages b Hb Hok ltac:(lia) (Z.to_nat (e_phnum hd)) (S (Z.to_nat (e_phnum hd))) 0%nat s3 pos blank_image false Hst3 Har ltac:(lia) ltac:(lia)) as (s4 & pos4 & img & Hr4 & Hst4 & Hp4 & Hw4 & Hok4).
  { destruct (scan_list_inv (file_size e) l false (2 ^ 64 - 1) 0 f b t) as (_ & _ & Hinv); [lia|apply program_headers_bounds|done|done|lia|lia|].
    rewrite drop_0. apply Forall_forall. intros ph Hin. pose proof (proj1 (Forall_forall _ _) (program_headers_bounds hd) ph Hin) as Hphb.
    split; [done|]. intros Hload. pose proof (proj1 (Forall_forall _ _) Hinv ph Hin) as Hph. cbn in Hph.
    destruct (Hph Hload) as [Hstart Hcase]. pose proof (segment_start_bound ph Hphb). split; [lia|]. destruct Hcase as [[Hfit Hend]|Hw]; [left|by right]. split; [done|].
    pose proof (segment_end_bound ph (file_size e) Hphb Hfit). rewrite Hcount. lia. }
  rewrite drop_0 in Hr4, Hok4. fold l in Hr4, Hok4. change (Z.of_nat 0) with 0 in Hr4. rewrite Hcount in Hr4. rewrite (bind_Ret_nil _ _ _ _ _ Hr4). cbn [orb].
  destruct (fitting (file_size e) l) eqn:Hfit.
  2:{ exists None, s4, pos4, pages, img. split; [done|]. split; [exact Hst4|]. split; [rewrite Hp4; cbn; congruence|]. split; [rewrite Hw4; exact Hlw1|]. left. split; [done|]. split; [lia|]. split; [apply Hr|by left]. }
  destruct (Hok4 eq_refl) as [-> Hmarks]. destruct (existsb (fun ph => loadable ph && holds_address ph (e_entry hd)) l) eqn:Hentry.
  - exists (Some (b, t, count)), s4, pos4, pages, (elf_image contents b l blank_image). split; [done|]. split; [exact Hst4|]. split; [rewrite Hp4; cbn; congruence|]. split; [rewrite Hw4; exact Hlw1|].
    right. split; [done|]. split; [done|]. split; [done|]. split; [exact Hcount|]. split; [rewrite Hp4; exact Htake|]. split; [done|]. intros j Hj. rewrite Hmarks.
    change (user_program_page_writable s3) with w1. rewrite Hw1z by done. by destruct (elf_writable b l j).
  - exists None, s4, pos4, pages, (elf_image contents b l blank_image). split; [done|]. split; [exact Hst4|]. split; [rewrite Hp4; cbn; congruence|]. split; [rewrite Hw4; exact Hlw1|]. left. split; [done|]. split; [lia|]. split; [apply Hr|by left].
Qed.

Lemma load_elf_run hd s pos :
  let l := program_headers contents hd in
  stage s pos [] blank_image -> header_bounded hd -> header_ok hd (file_size e) = true ->
  lenZ (user_program_pages s) = USER_MAX_PROGRAM_PAGES -> lenZ (user_program_page_writable s) = USER_MAX_PROGRAM_PAGES ->
  exists r s' pos' pages img, load_elf plat local64 local256 local_header (Some h) hd (file_size e) s = Ret r s' [] /\ stage s' pos' pages img /\
    lenZ (user_program_pages s') = USER_MAX_PROGRAM_PAGES /\ lenZ (user_program_page_writable s') = USER_MAX_PROGRAM_PAGES /\ elf_result hd l s' pages img r.
Proof using All.
  intros l Hst Hb Hok Hlp Hlw. destruct (stage_bounds plat d h i e n Hdisk Hh s0 s pos [] blank_image Hst) as (_ & Hs31 & _).
  destruct (header_ok_spec _ _ Hok) as (Hsize & _ & Hn0 & _). unfold load_elf. change (u64 (-1)) with (2 ^ 64 - 1).
  destruct (scan_run hd [] blank_image Hb Hok (Z.to_nat (e_phnum hd)) (S (Z.to_nat (e_phnum hd))) 0%nat s pos (false, 2 ^ 64 - 1, 0) Hst) as (s1 & pos1 & Hr1 & Hst1 & [Hp1 Hw1]); [lia|lia|].
  cbn [fst snd] in Hr1. change (Z.of_nat 0) with 0 in Hr1. rewrite drop_0 in Hr1. fold l in Hr1. rewrite (bind_Ret_nil _ _ _ _ _ Hr1).
  pose proof (program_headers_bounds hd) as Hbs. fold l in Hbs.
  pose proof (scan_good (file_size e) l (e_entry hd) ltac:(lia) Hbs) as Hgood.
  assert (Hbad : ((fitting (file_size e) l = true -> existsb (fun ph => loadable ph && holds_address ph (e_entry hd)) l = true -> False) ->
    exists r s' pos' pages img, ret None s1 = Ret r s' [] /\ stage s' pos' pages img /\
    lenZ (user_program_pages s') = USER_MAX_PROGRAM_PAGES /\ lenZ (user_program_page_writable s') = USER_MAX_PROGRAM_PAGES /\ elf_result hd l s' pages img r)).
  { intros Hno. exists None, s1, pos1, [], blank_image. split; [done|]. split; [done|]. split; [congruence|]. split; [congruence|]. left. split; [|done].
    apply andb_false_iff. destruct (forallb _ l); [|by left]. right. destruct (existsb _ l); [|done]. by destruct (Hno eq_refl eq_refl). }
  destruct (scan_list (file_size e) l (false, 2 ^ 64 - 1, 0)) as [[[f b] t]|] eqn:Hscan; cbn iota beta.
  2:{ apply Hbad. intros H1 H2. by destruct (Hgood H1 H2) as [? _]. }
  destruct (scan_list_inv (file_size e) l false (2 ^ 64 - 1) 0 f b t) as (Hb0 & Ht0 & _); [lia|done|done|done|lia|lia|].
  destruct (negb f || (t <=? b)) eqn:Hg1.
  { apply Hbad. intros H1 H2. destruct (Hgood H1 H2) as ([= -> -> ->] & Hlt & _). cbn [negb orb] in Hg1. apply Z.leb_le in Hg1. lia. }
  apply orb_false_iff in Hg1 as [_ Hbt%Z.leb_gt]. cbv zeta. rewrite (u64_small (t - b)) by lia. set (count := user_code_page_count (t - b)) in *.
  destruct (user_program_range_valid b count) eqn:Hrange; cbn [negb]; cbn iota.
  2:{ apply Hbad. intros H1 H2. destruct (Hgood H1 H2) as ([= -> -> ->] & _ & _ & Hc & Hv). unfold count in Hrange. congruence. }
  destruct ((e_entry hd <? b) || (t <=? e_entry hd)) eqn:Hg2.
  { apply Hbad. intros H1 H2. destruct (Hgood H1 H2) as ([= -> -> ->] & _ & He & _). apply orb_true_iff in Hg2 as [Hg2%Z.ltb_lt|Hg2%Z.leb_le]; lia. }
  destruct (fill_run hd s1 pos1 b t count f Hst1 Hb Hok ltac:(congruence) ltac:(congruence) Hscan Hrange ltac:(lia)) as (r & s2 & pos2 & pages & img & Hr2 & Hst2 & Hl2 & Hw2 & Hres).
  { pose proof (page_count_covers (t - b)). lia. }
  { lia. }
  exists r, s2, pos2, pages, img. split; [exact Hr2|]. split; [done|]. split; [done|]. split; [done|]. fold l in Hres.
  destruct Hres as [(-> & Hle & Hmax & Hno)|(-> & Hfit & Hent & Hlen & Htake & -> & Hmk)].
  { cbn [elf_result]. destruct (fitting (file_size e) l) eqn:Hfit; [|by left; split; [|lia]].
    destruct (existsb _ l) eqn:Hent; [|by left; split; [|lia]]. right. destruct Hno as [?|[Hall Hlt]]; [done|].
    destruct (Hgood eq_refl eq_refl) as ([= -> -> ->] & _ & _ & <- & _). by split_and!. }
  destruct (Hgood Hfit Hent) as ([= -> -> ->] & _ & _ & Hc & _). by split_and!.
Qed.
End loader.
