(* ===== verification/UserRun.v ===== *)
(** Running a user program: [user_run_file] of user.c from the path to the
    entry of the program and back. The contract is [program_of], a function of
    the bytes of the file; the theorems say that the loader keeps it. *)
From S2P Require Import Prelude LibString Klog Memory BlockDevice BlockIO ListDisk TinyFS Vfs FileTable Input Task MMU UserProgram UserPages UserLoad UserElf.

(** ** The contract *)

Definition flat_program (file : mem) : option program :=
  if (0 <? lenZ file) && (lenZ file <=? 65536)
  then Some (Program 0x10000 ((lenZ file + 4095) / 4096) 0x10000 (lenZ file) (blit 0 file blank_image) (fun _ => false)) else None.
Definition is_elf (file : mem) : bool := bool_decide (take 4 file = [0x7f; ch "E"; ch "L"; ch "F"]) && (64 <=? lenZ file).
Definition program_of (file : mem) : option program := if is_elf file then elf_program file else flat_program file.

(** The page an address of the program is in. *)
Definition program_leaf (base : Z) (pages : list Z) (writable : Z -> bool) (a : Z) : option leaf :=
  p ← rd pages ((a - base) / 4096);
  Some (Leaf (p + a mod 4096) (user_page p (if writable ((a - base) / 4096) then user_data_attributes else user_code_attributes))).
Definition sync_ops (p : Z) : list mmu_op := (DcCvau <$> lines p 4096) ++ [DsbIsh] ++ (IcIvau <$> lines p 4096) ++ [DsbIsh; Isb].

Section run.
Context {X : Type} `{DiskDriver X} (plat : platform) (Hplat : plat_wf plat) (table_address : table -> Z) (Hboard : board_ok plat table_address).
Implicit Types s : machine X.

Abbreviation mmu_good s := (mmu_ok plat table_address (u_mmu s)).
Abbreviation walk_at s := (walk table_address (u_mmu s)).

Lemma walk_issued v (m : mmu) a : walk table_address (set_issued v m) a = walk table_address m a.
Proof using Type. done. Qed.
Lemma mmu_ok_issued v (m : mmu) : mmu_ok plat table_address m -> mmu_ok plat table_address (set_issued v m).
Proof using Type. intros [(c & [Hl Ha] & Hk & Hu) Hr]. split; [|done]. exists c. split; [by split|done]. Qed.

(** ** Mapping the pages *)

Lemma map_one_run s va pa (writable : bool) :
  mmu_good s -> 0 <= va < 2 ^ 21 -> page_ok pa ->
  exists s', on_mmu (if writable then mmu_map_user_data_page va pa else mmu_map_user_code_page va pa) s = Ret tt s' [] /\
    s' = set_u_mmu (u_mmu s') s /\ mmu_good s' /\
    forall a, walk_at s' a = if decide (0 <= a < 2 ^ 21 /\ a / 2 ^ 12 = va / 2 ^ 12)
      then Some (Leaf (pa + a mod 2 ^ 12) (user_page pa (if writable then user_data_attributes else user_code_attributes))) else walk_at s a.
Proof using Hboard.
  intros Hg Hva Hpa. destruct (map_user_page_ok plat table_address Hboard (u_mmu s) va pa (if writable then user_data_attributes else user_code_attributes)) as (m & Hr & Hok & _ & Hw); [done|done|done|destruct writable; [by right|by left]|].
  exists (set_u_mmu m s). split; [|done]. destruct writable; exact (zoom_Ret u_mmu set_u_mmu _ s _ _ _ Hr).
Qed.

(** The marks of the pages, as the code passes them. *)
Definition marks_are (w : option (list Z)) (count : Z) (writable : Z -> bool) : Prop := forall j, 0 <= j < count ->
  match w with Some w' => rd w' j = Some (if writable j then 1 else 0) | None => writable j = false end.

Lemma map_loop_run base pages arr w writable count m : forall fuel k s,
  mmu_good s -> take (length pages) arr = pages -> lenZ pages = count -> Forall page_ok pages -> marks_are w count writable ->
  0 <= k -> k + Z.of_nat m = count -> 0 <= base -> base mod 4096 = 0 -> base + 4096 * count <= 2 ^ 21 -> (m < fuel)%nat ->
  exists s', map_loop fuel base arr w k count s = Ret tt s' [] /\ s' = set_u_mmu (u_mmu s') s /\ mmu_good s' /\
    forall a, walk_at s' a = if decide (base + 4096 * k <= a < base + 4096 * count) then program_leaf base pages writable a else walk_at s a.
Proof using Hboard.
  induction m as [|m IH]; intros fuel k s Hg Harr Hlen Hpages Hmk Hk0 Hkm Hb0 Hbm Hfit Hf; (destruct fuel as [|fuel]; [lia|]); cbn [map_loop].
  - rewrite (proj2 (Z.ltb_ge _ _)) by lia. exists s. split; [done|]. split; [by destruct s|]. split; [done|]. intros a. by rewrite decide_False by lia.
  - rewrite (proj2 (Z.ltb_lt _ _)) by lia. change PMM_PAGE_SIZE with 4096. cbv zeta. rewrite (u64_small (k * 4096)), (u64_small (base + k * 4096)) by lia.
    assert (Hwr : (match w with Some w' => v <- deref (rd w' k);; ret (negb (v =? 0)) | None => ret false end) s = Ret (writable k) s []).
    { specialize (Hmk k ltac:(lia)). destruct w as [w'|]; [rewrite (bind_deref_Some _ _ _ _ Hmk); by destruct (writable k)|by rewrite Hmk]. }
    rewrite (bind_Ret_nil _ _ _ _ _ Hwr). destruct (rd_Some pages k) as [p Hp]; [lia|]. rewrite (bind_deref_Some _ p) by (rewrite (prefix_rd arr pages) by (done || lia); done).
    assert (Hpok : page_ok p) by exact (proj1 (Forall_forall _ _) Hpages p (rd_elem _ _ _ Hp)).
    destruct (map_one_run s (base + k * 4096) p (writable k) Hg ltac:(lia) Hpok) as (s1 & Hr1 & He1 & Hg1 & Hw1).
    rewrite (bind_Ret_nil _ _ _ _ _ Hr1). rewrite u32_small by lia.
    destruct (IH fuel (k + 1) s1 Hg1 Harr Hlen Hpages Hmk) as (s2 & Hr2 & He2 & Hg2 & Hw2); [lia..|].
    exists s2. split; [exact Hr2|]. split; [rewrite He2, He1; done|]. split; [done|]. intros a. rewrite Hw2.
    destruct (decide (base + 4096 * (k + 1) <= a < base + 4096 * count)); [by rewrite decide_True by lia|]. rewrite Hw1. change (2 ^ 12) with 4096.
    destruct (decide (0 <= a < 2 ^ 21 /\ a / 4096 = (base + k * 4096) / 4096)) as [Hin|Hout].
    + assert (Hak : base + 4096 * k <= a < base + 4096 * k + 4096) by (Z.div_mod_to_equations; lia). rewrite decide_True by lia.
      unfold program_leaf. replace ((a - base) / 4096) with k by (Z.div_mod_to_equations; lia). by rewrite Hp.
    + rewrite decide_False; [done|]. intros Hin. apply Hout. split; [lia|]. Z.div_mod_to_equations. lia.
Qed.

Lemma sync_loop_run pages arr count m : forall fuel k s,
  take (length pages) arr = pages -> lenZ pages = count -> Forall page_ok pages -> count < 2 ^ 31 -> Z.of_nat k + Z.of_nat m = count -> (m < fuel)%nat ->
  sync_loop fuel arr (Z.of_nat k) count s = Ret tt (set_u_mmu (set_issued (issued (u_mmu s) ++ concat (sync_ops <$> drop k pages)) (u_mmu s)) s) [].
Proof using Type.
  clear. induction m as [|m IH]; intros fuel k s Harr Hlen Hpages Hc Hkm Hf; (destruct fuel as [|fuel]; [lia|]); cbn [sync_loop].
  - rewrite (proj2 (Z.ltb_ge _ _)) by lia. rewrite drop_ge by (unfold lenZ in *; lia). cbn. rewrite app_nil_r. by destruct s as [? ? []].
  - rewrite (proj2 (Z.ltb_lt _ _)) by lia. destruct (rd_Some pages (Z.of_nat k)) as [p Hp]; [lia|]. rewrite (bind_deref_Some _ p) by (rewrite (prefix_rd arr pages) by (done || lia); done).
    destruct (proj1 (Forall_forall _ _) Hpages p (rd_elem _ _ _ Hp)) as [_ Hpb]. rewrite rd_nat in Hp. rewrite (drop_S _ _ _ Hp).
    pose proof (sync_exec_run p PMM_PAGE_SIZE (u_mmu s) ltac:(lia) ltac:(done) ltac:(change PMM_PAGE_SIZE with 4096; lia)) as Hs.
    rewrite (bind_Ret_nil _ _ _ _ _ (zoom_Ret u_mmu set_u_mmu _ s _ _ _ Hs)). rewrite u32_small by lia. replace (Z.of_nat k + 1) with (Z.of_nat (S k)) by lia.
    rewrite (IH fuel (S k)) by (done || lia). f_equal. unfold set_u_mmu, set_issued. cbn. f_equal. f_equal. change PMM_PAGE_SIZE with 4096. unfold sync_ops. by rewrite <- app_assoc.
Qed.

Lemma fresh_page_ok m0 m pages : fresh_pages plat m0 m pages -> Forall page_ok pages.
Proof using Hplat Hboard.
  intros Hf. apply Forall_forall. intros p Hp. pose proof (pg_aligned _ (fresh_ok plat Hplat _ _ _ Hf) p Hp) as (Hm & H0 & _). split; [exact Hm|].
  destruct (fp_fresh _ _ _ _ Hf p Hp) as (q & -> & Hq & _). destruct Hf as [Hon Hc _ _ _]. pose proof (page_addr_range plat m q Hplat Hon ltac:(lia)) as [_ He].
  destruct Hboard. unfold PMM_PAGE_SIZE in He. lia.
Qed.

(** ** A program that is about to be entered *)

(** The image is at the addresses of user programs, below the stack. *)
Record program_fits (prog : program) : Prop := {
  pf_base : 0x10000 <= pr_base prog;
  pf_aligned : pr_base prog mod 4096 = 0;
  pf_count : 0 < pr_count prog;
  pf_end : pr_base prog + 4096 * pr_count prog <= 0x1ff000;
  pf_entry : 0 <= pr_entry prog < 2 ^ 64
}.

(** What the program finds in memory: the bytes of its image, with no page both
    writable and executable, and a stack of zeros; what it does not own is as
    it was before the loader. *)
Record ready s0 s (prog : program) (pages : list Z) (stack : Z) : Prop := {
  rs_pages : fresh_pages plat (u_mm s0) (u_mm s) (pages ++ [stack]);
  rs_count : lenZ pages = pr_count prog;
  rs_image : forall a, pr_base prog <= a < pr_base prog + 4096 * pr_count prog -> exists l, walk_at s a = Some l /\
    ram (u_mm s) (output l) = pr_image prog (a - pr_base prog) /\ in_pages pages (output l) /\ el0_reads l = true /\
    el0_writes l = pr_writable prog ((a - pr_base prog) / 4096) /\ el0_executes l = negb (pr_writable prog ((a - pr_base prog) / 4096));
  rs_stack : forall a, 0x1ff000 <= a < 0x200000 -> exists l, walk_at s a = Some l /\
    output l = stack + a mod 4096 /\ ram (u_mm s) (output l) = 0 /\ el0_writes l = true /\ el0_executes l = false;
  rs_outside : same_outside (pages ++ [stack]) (ram (u_mm s0)) (ram (u_mm s));
  rs_rest : forall a, ~ pr_base prog <= a < pr_base prog + 4096 * pr_count prog -> ~ 0x1ff000 <= a < 0x200000 -> walk_at s a = walk_at s0 a;
  rs_mmu : mmu_good s;
  rs_sync : exists before, issued (u_mmu s) = before ++ concat (sync_ops <$> pages);
  rs_active : user_active s = 1;
  rs_spsr : user_resume_spsr s = Z.lor (Z.land (daif s0) 0x3c0) 0x5
}.

Lemma user_leaf_bits p a (writable : bool) : page_ok p ->
  let l := Leaf (p + a mod 4096) (user_page p (if writable then user_data_attributes else user_code_attributes)) in
  el0_reads l = true /\ el0_writes l = writable /\ el0_executes l = negb writable.
Proof using Type.
  clear. intros [Hm Hr]. cbn zeta. unfold el0_writes, el0_reads, el0_executes, user_page.
  rewrite !(leaf_bits 12 p _ 6), !(leaf_bits 12 p _ 7), !(leaf_bits 12 p _ 54) by (done || lia). by destruct writable.
Qed.

Context (d : block_device X) (h : Z) (i : nat) (e : mem) (n : list Z).

Lemma prepare_ok s0 s pos pages stack img prog label arr w :
  stage plat d h i e n s0 s pos (pages ++ [stack]) img -> mmu_good s0 -> take (length pages) arr = pages -> lenZ pages = pr_count prog ->
  marks_are w (pr_count prog) (pr_writable prog) -> program_fits prog -> is_Some (cval label) ->
  (forall off, 0 <= off < 4096 * pr_count prog -> img off = pr_image prog off) -> (forall off, 4096 * pr_count prog <= off < 4096 * pr_count prog + 4096 -> img off = 0) ->
  exists s1 o, prepare_run label (pr_base prog) (pr_entry prog) arr w (pr_count prog) stack (pr_size prog) s = Ret tt s1 o /\
    ready s0 s1 prog pages stack /\ u_files s1 = u_files s.
Proof using Hplat Hboard.
  intros [[Hfr Hho Hout] Hrd Hsl [Hmmu Hact Hspsr Hdaif]] Hg Harr Hlen Hmk [Hb Hba Hc He Hent] Hlab Himg Hzero.
  pose proof (fresh_page_ok _ _ _ Hfr) as Hok. pose proof Hok as [Hpages Hst]%Forall_app. apply Forall_cons in Hst as [Hstack _].
  unfold prepare_run. rewrite <- Hmmu in Hg.
  destruct (map_loop_run (pr_base prog) pages arr w (pr_writable prog) (pr_count prog) (Z.to_nat (pr_count prog)) (S (Z.to_nat (pr_count prog))) 0 s Hg Harr Hlen Hpages Hmk) as (s1 & Hr1 & He1 & Hg1 & Hw1); [lia..|].
  rewrite (bind_Ret_nil _ _ _ _ _ Hr1). destruct (map_one_run s1 (USER_STACK_TOP - PMM_PAGE_SIZE) stack true Hg1) as (s2 & Hr2 & He2 & Hg2 & Hw2); [change (USER_STACK_TOP - PMM_PAGE_SIZE) with 0x1ff000; lia|done|].
  rewrite (bind_Ret_nil _ _ _ _ _ Hr2).
  pose proof (sync_loop_run pages arr (pr_count prog) (Z.to_nat (pr_count prog)) (S (Z.to_nat (pr_count prog))) 0%nat s2 Harr Hlen Hpages ltac:(lia) ltac:(lia) ltac:(lia)) as Hr3.
  change (Z.of_nat 0) with 0 in Hr3. rewrite drop_0 in Hr3. rewrite (bind_Ret_nil _ _ _ _ _ Hr3). set (s3 := set_u_mmu (set_issued _ (u_mmu s2)) s2). krun. set (s4 := set_user_resume_spsr _ s3).
  destruct (kprintf_total (nl "[INFO] user: loading %s base=%p entry=%p size=%u pages=%u") [ch "s"; ch "p"; ch "p"; ch "u"; ch "u"]
    [AStr (Some label); APtr (pr_base prog); APtr (pr_entry prog); AUint (u32 (pr_size prog)); AUint (pr_count prog)] s4) as [o1 Ho1]; [reflexivity| |].
  { pose proof (u32_bound (pr_size prog)). kargs. }
  destruct (klog_info_run "user: entering EL0" s4) as [o2 Ho2].
  exists (set_user_active 1 s4), (o1 ++ o2 ++ []). split; [rewrite (bind_Ret _ _ _ _ _ _ Ho1), (bind_Ret _ _ _ _ _ _ Ho2); done|].
  assert (Hs4 : u_mm s4 = u_mm s /\ u_files s4 = u_files s /\ daif s4 = daif s) by (cbn; rewrite He2, He1; done). destruct Hs4 as (Hmm & Hfiles & Hd4).
  split; [|by cbn in *]. cbn [set_user_active u_mm u_mmu user_active user_resume_spsr] in *.
  assert (Hwalk : forall a, walk table_address (u_mmu s4) a = if decide (0x1ff000 <= a < 0x200000) then Some (Leaf (stack + a mod 4096) (user_page stack user_data_attributes))
      else if decide (pr_base prog <= a < pr_base prog + 4096 * pr_count prog) then program_leaf (pr_base prog) pages (pr_writable prog) a else walk_at s0 a).
  { intros a. change (walk table_address (u_mmu s4) a) with (walk_at s2 a). rewrite Hw2. change (USER_STACK_TOP - PMM_PAGE_SIZE) with 0x1ff000. change (2 ^ 12) with 4096.
    destruct (decide (0x1ff000 <= a < 0x200000)); [rewrite decide_True by (Z.div_mod_to_equations; lia); done|]. rewrite decide_False by (Z.div_mod_to_equations; lia).
    rewrite Hw1, Hmmu. by rewrite Z.mul_0_r, Z.add_0_r. }
  rewrite <- Hmm in Hfr, Hho, Hout.
  split; [done|done| | |done| | |by eexists|done|].
  - intros a Ha. rewrite Hwalk, decide_False, decide_True by lia. unfold program_leaf. set (j := (a - pr_base prog) / 4096).
    assert (Hj : 0 <= j < pr_count prog /\ a - pr_base prog = 4096 * j + a mod 4096) by (unfold j; Z.div_mod_to_equations; lia).
    destruct (rd_Some pages j) as [p Hp]; [lia|]. rewrite Hp. cbn [mbind option_bind]. eexists. split; [reflexivity|].
    assert (Ham : 0 <= a mod 4096 < 4096) by (apply Z.mod_pos_bound; lia).
    pose proof (proj1 (Forall_forall _ _) Hpages p (rd_elem _ _ _ Hp)) as Hpok. destruct (user_leaf_bits p a (pr_writable prog j) Hpok) as (Hl1 & Hl2 & Hl3).
    split; [|split; [exists p; split; [by eapply rd_elem|cbn; lia]|by split_and!]]. cbn [output]. change (u_mm (set_user_active 1 s4)) with (u_mm s4). rewrite (Hho j p (a mod 4096)); [|unfold rd, lenZ in *; destruct (0 <=? j); [|done]; by apply lookup_app_l_Some|done].
    replace (4096 * j + a mod 4096) with (a - pr_base prog) by lia. apply Himg. lia.
  - intros a Ha. rewrite Hwalk, decide_True by lia. eexists. split; [reflexivity|]. split; [done|]. destruct (user_leaf_bits stack a true Hstack) as (_ & Hl2 & Hl3).
    split; [|done]. cbn [output]. assert (Ham : 0 <= a mod 4096 < 4096) by (apply Z.mod_pos_bound; lia). change (u_mm (set_user_active 1 s4)) with (u_mm s4). rewrite (Hho (pr_count prog) stack (a mod 4096)); [|rewrite <- Hlen; apply rd_at|done]. apply Hzero. lia.
  - intros a H1 H2. by rewrite Hwalk, !decide_False by done.
  - apply mmu_ok_issued. exact Hg2.
  - cbn. rewrite He2, He1. cbn. by rewrite Hdaif.
Qed.

Context (arch_enter_user : Z -> Z -> M (machine X) Z).
Context (local64 local256 local_header : mem) (local64_len : lenZ local64 = VFS_PATH_MAX) (local256_len : lenZ local256 = 256) (local_header_len : lenZ local_header = 64).
Context (local16 : list Z) (local16_len : lenZ local16 = USER_FLAT_BINARY_MAX_PAGES).
Context (Hdisk : on_disk d e) (Hh : 0 <= h < FILE_TABLE_MAX).

Abbreviation contents := (file_bytes d e).
Abbreviation stage := (stage plat d h i e n).

(** Why the loader gives up, having taken [pages]: the file is no program, or
    there are too few pages for it. *)
Definition refused (most : Z) (prog : option program) s (pages : list Z) : Prop :=
  match prog with
  | None => lenZ pages <= most
  | Some p => all_used (u_mm s) /\ lenZ pages <= pr_count p
  end.
(** What becomes of a program: it is entered, or it does not get in; then
    [pages] are lost. *)
Definition outcome s0 (most : Z) (prog : option program) (m : M (machine X) Z) s : Prop :=
  (exists s' pos pages img, m s = Ret (-1) s' [] /\ stage s0 s' pos pages img /\ refused most prog s' pages) \/
  (exists p s1 pages stack o pos, prog = Some p /\ m s = (emit o;; run_user arch_enter_user (pr_entry p)) s1 /\ ready s0 s1 p pages stack /\
     reading d h i e n s1 pos /\ forall h', h' <> h -> rd (file_table (u_files s1)) h' = rd (file_table (u_files s0)) h').

Lemma stage_cut s0 s pos pages img img' :
  stage s0 s pos pages img -> (forall off, 0 <= off < 4096 * lenZ pages -> img off = img' off) -> stage s0 s pos pages img'.
Proof using Type.
  clear. intros [[Hp Hl Ho] Hr Hs Hc] He. split; [split; [done| |done]|done..]. intros j p o Hj Ho'. rewrite <- He; [by apply Hl|]. pose proof (rd_inv _ _ _ Hj). lia.
Qed.

(** The image and the stack are ready; the program follows. *)
Lemma enter_ready s0 most s pos pages stack img prog label arr w :
  stage s0 s pos (pages ++ [stack]) img -> mmu_good s0 -> take (length pages) arr = pages -> lenZ pages = pr_count prog ->
  marks_are w (pr_count prog) (pr_writable prog) -> program_fits prog -> is_Some (cval label) ->
  (forall off, 0 <= off < 4096 * pr_count prog -> img off = pr_image prog off) -> (forall off, 4096 * pr_count prog <= off < 4096 * pr_count prog + 4096 -> img off = 0) ->
  outcome s0 most (Some prog) (user_run_loaded_pages arch_enter_user label (pr_base prog) (pr_entry prog) arr w (pr_count prog) stack (pr_size prog)) s.
Proof using Hplat Hboard.
  intros Hst Hg Harr Hlen Hmk Hfits Hlab Himg Hzero. right.
  destruct (prepare_ok s0 s pos pages stack img prog label arr w Hst Hg Harr Hlen Hmk Hfits Hlab Himg Hzero) as (s3 & o & Hr3 & Hready & Hfiles).
  exists prog, s3, pages, stack, o, pos. split; [done|]. split; [unfold user_run_loaded_pages; by rewrite (bind_Ret _ _ _ _ _ _ Hr3)|]. split; [done|].
  destruct Hst as [_ Hrd Hsl _]. unfold reading. rewrite Hfiles. done.
Qed.

(** A failed allocation, or a page for the stack. *)
Lemma stack_run s0 most s pos pages img p (k : Z -> M (machine X) Z) :
  stage s0 s pos pages img -> lenZ pages <= pr_count p ->
  (forall q s2 img', q <> 0 -> stage s0 s2 pos (pages ++ [q]) img' -> same_arrays s s2 -> (forall off, 0 <= off < 4096 * lenZ pages -> img' off = img off) ->
     (forall off, 4096 * lenZ pages <= off -> img' off = 0) -> outcome s0 most (Some p) (k q) s2) ->
  outcome s0 most (Some p) (stack_page <- on_mm (pmm_alloc_page plat);; if stack_page =? 0 then ret (-1) else phys_memset stack_page PMM_PAGE_SIZE;; k stack_page) s.
Proof using Hplat.
  intros Hst Hle Hk. set (img' := fun off => if off <? 4096 * lenZ pages then img off else 0).
  assert (Hst' : stage s0 s pos pages img') by (eapply stage_cut; [exact Hst|]; intros off Hoff; unfold img'; by rewrite (proj2 (Z.ltb_lt off _)) by lia).
  destruct (stage_alloc plat Hplat d h i e n s0 s pos pages img' Hst') as [(q & s1 & s2 & Ha & Hp & Hm & Hst2 & Hsa)|[Ha Hno]].
  { intros off Hoff. unfold img'. by rewrite (proj2 (Z.ltb_ge off _)) by lia. }
  2:{ left. exists s, pos, pages, img. rewrite (bind_Ret_nil _ _ _ _ _ Ha). by split_and!. }
  unfold outcome. rewrite (bind_Ret_nil _ _ _ _ _ Ha). rewrite (proj2 (Z.eqb_neq q 0)) by done. change PMM_PAGE_SIZE with 4096. rewrite (bind_Ret_nil _ _ _ _ _ Hm).
  apply (Hk q s2 img' Hp Hst2 Hsa); intros off Hoff; unfold img'; [by rewrite (proj2 (Z.ltb_lt off _)) by lia|by rewrite (proj2 (Z.ltb_ge off _)) by lia].
Qed.

Lemma handle_size_run s pos : reading d h i e n s pos -> handle_size (Some h) s = Ret (file_size e) s [].
Proof using Type.
  clear. intros [_ _ Hslot _ _ _]. unfold handle_size. rewrite (bind_deref_Some _ h) by done.
  replace (Ret (file_size e) s []) with (Ret (file_size e) (set_u_files (u_files s) s) []) by (by destruct s).
  apply (zoom_Ret u_files set_u_files). krun. by rewrite (bind_deref_Some _ _ _ _ Hslot).
Qed.

Lemma flat_run s0 s label :
  stage s0 s 0 [] blank_image -> mmu_good s0 -> is_Some (cval label) ->
  outcome s0 0 (flat_program contents) (user_run_flat_file plat local64 local256 local16 arch_enter_user (Some h) label) s.
Proof using All.
  intros Hst Hg Hlab. destruct (stage_bounds plat d h i e n Hdisk Hh s0 s 0 [] blank_image Hst) as (_ & Hs31 & Hlen). pose proof (sg_read _ _ _ _ _ _ _ _ _ _ _ Hst) as Hread.
  unfold user_run_flat_file, outcome at 1. rewrite (bind_Ret_nil _ _ _ _ _ (handle_size_run s 0 Hread)). cbv zeta. unfold flat_program. rewrite Hlen. set (size := file_size e) in *.
  assert (Hs0 : 0 <= size) by (pose proof (lenZ_nonneg contents); lia).
  assert (Hcount : user_code_page_count size = (size + 4095) / 4096).
  { unfold user_code_page_count. change PMM_PAGE_SIZE with 4096. rewrite (u64_small (size + 4096)), u64_small by lia. rewrite u32_small by (Z.div_mod_to_equations; lia). f_equal. lia. }
  rewrite Hcount. set (count := (size + 4095) / 4096) in *.
  assert (Hvalid : negb (user_program_range_valid USER_CODE_VA count) || (USER_FLAT_BINARY_MAX_PAGES <? count) = negb ((0 <? size) && (size <=? 65536))).
  { unfold user_program_range_valid. change USER_MAX_PROGRAM_PAGES with 495. change USER_CODE_VA with 0x10000. change (USER_STACK_TOP - PMM_PAGE_SIZE) with 0x1ff000. change PMM_PAGE_SIZE with 4096. change USER_FLAT_BINARY_MAX_PAGES with 16.
    change (0x10000 <? 0x10000) with false. cbn iota. assert (Hc : 0 <= count /\ size <= 4096 * count < size + 4096) by (unfold count; Z.div_mod_to_equations; lia).
    destruct (Z.eqb_spec count 0), (Z.ltb_spec 495 count), (Z.ltb_spec 16 count), (Z.ltb_spec 0 size), (Z.leb_spec size 65536); cbn [orb negb andb]; try done; try lia.
    rewrite (u64_small (count * 4096)), u64_small by lia. by rewrite (proj2 (Z.ltb_ge _ _)) by lia. }
  rewrite Hvalid. destruct ((0 <? size) && (size <=? 65536)) eqn:Hsize; cbn [negb]; cbn iota.
  2:{ left. by exists s, 0, [], blank_image. }
  apply andb_true_iff in Hsize as [H0%Z.ltb_lt H1%Z.leb_le]. assert (Hc : 0 < count <= 16 /\ size <= 4096 * count) by (unfold count; Z.div_mod_to_equations; lia).
  destruct (alloc_pages_run plat Hplat d h i e n Hdisk Hh local64 local64_len s0 s 0 local16 count Hst) as (status & arr & s1 & pages & Hr1 & Hst1 & _ & Hla & Hres); [change USER_FLAT_BINARY_MAX_PAGES with 16 in *; lia|lia|].
  rewrite (bind_Ret_nil _ _ _ _ _ Hr1). cbn iota. destruct Hres as [(-> & Hpc & Htake)|(-> & Hall & Hlt)].
  2:{ change (negb (-1 =? 0)) with true. cbn iota. left. exists s1, 0, pages, blank_image. split_and!; [done|done|]. split; [done|]. cbn. lia. }
  change (negb (0 =? 0)) with false. cbn iota.
  set (prog := Program 0x10000 count 0x10000 size (blit 0 contents blank_image) (fun _ => false)).
  apply (stack_run s0 0 s1 0 pages blank_image prog (fun stack_page =>
    loaded <- user_load_file_into_pages local64 local256 (Z.to_nat size) (Some h) arr count;;
    if negb (loaded =? 0) then ret (-1) else user_run_loaded_pages arch_enter_user label USER_CODE_VA USER_CODE_VA arr None count stack_page size) Hst1); [cbn; lia|].
  intros p s2 img' Hp Hst2 _ Himg' Hz'.
  assert (Hst2' : stage s0 s2 0 (pages ++ [p]) (blit 0 (take (Z.to_nat 0) contents) blank_image)).
  { eapply stage_cut; [exact Hst2|]. intros off Hoff. change (take (Z.to_nat 0) contents) with (@nil Z). rewrite blit_nil.
    destruct (decide (off < 4096 * lenZ pages)); [apply Himg'; lia|apply Hz'; lia]. }
  destruct (load_run plat Hplat d h i e n Hdisk Hh local64 local64_len s0 arr (pages ++ [p]) count) with (fuel := S (S (Z.to_nat size))) (s := s2) (pos := 0) (buf := local256) as (s3 & Hr3 & Hst3 & _).
  { intros j Hj. rewrite (prefix_rd arr pages) by (done || lia). unfold rd, lenZ in *. destruct (0 <=? j); [|done]. symmetry. apply lookup_app_l. lia. }
  { rewrite lenZ_app. pose proof (lenZ_nonneg [p]). lia. }
  { lia. } { fold size. lia. } { exact Hst2'. } { exact local256_len. } { fold size. lia. }
  unfold outcome. unfold user_load_file_into_pages. rewrite (bind_Ret_nil _ _ _ _ _ Hr3). change (negb (0 =? 0)) with false. cbn iota.
  apply (enter_ready s0 0 s3 (file_size e) pages p (blit 0 contents blank_image) prog label arr None Hst3 Hg Htake Hpc); [by intros j _| |done|done|].
  - split; cbn; [lia|done|lia|lia|lia].
  - cbn. intros off Hoff. apply blit_out. rewrite Hlen. lia.
Qed.

Lemma read_header s0 s pos img :
  stage s0 s pos [] img ->
  exists buf s' pos', user_read_exact_at local64 (Some h) 0 local_header elf64_header_size s = Ret (if 64 <=? file_size e then 0 else -1, buf) s' [] /\
    (64 <= file_size e -> buf = take 64 contents) /\ stage s0 s' pos' [] img /\ same_arrays s s'.
Proof using All.
  intros Hst. destruct (stage_read_exact_at plat d h i e n Hdisk Hh local64 local64_len s0 s pos [] img 0 local_header 64 Hst) as (buf & s' & pos' & Hr & Hbuf & Hst' & Hsa); [lia|lia|lia|].
  destruct (stage_bounds plat d h i e n Hdisk Hh s0 s pos [] img Hst) as (_ & _ & Hlen).
  exists buf, s', pos'. split; [exact Hr|]. split; [|done]. intros Hs. rewrite Hbuf by lia. apply splice_all. unfold lenZ in *. rewrite length_take; lia.
Qed.

Lemma elf_run s0 s pos label :
  stage s0 s pos [] blank_image -> mmu_good s0 -> is_Some (cval label) ->
  lenZ (user_program_pages s) = USER_MAX_PROGRAM_PAGES -> lenZ (user_program_page_writable s) = USER_MAX_PROGRAM_PAGES ->
  outcome s0 USER_MAX_PROGRAM_PAGES (elf_program contents) (user_run_elf_file plat local64 local256 local_header arch_enter_user (Some h) label) s.
Proof using All.
  intros Hst Hg Hlab Hlp Hlw. destruct (stage_bounds plat d h i e n Hdisk Hh s0 s pos [] blank_image Hst) as (_ & Hs31 & Hlen).
  destruct (read_header s0 s pos blank_image Hst) as (buf & s1 & pos1 & Hr1 & Hbuf & Hst1 & [Hp1 Hw1]).
  unfold user_run_elf_file, outcome. rewrite (bind_Ret_nil _ _ _ _ _ Hr1). cbn iota.
  assert (Hgive : forall s2 pos2 pages img, stage s0 s2 pos2 pages img -> refused USER_MAX_PROGRAM_PAGES (elf_program contents) s2 pages ->
    outcome s0 USER_MAX_PROGRAM_PAGES (elf_program contents) (ret (-1)) s2).
  { intros s2 pos2 pages img Hst2 Hwhy. left. by exists s2, pos2, pages, img. }
  assert (Hnone : forall s2 pos2, stage s0 s2 pos2 [] blank_image -> elf_program contents = None -> outcome s0 USER_MAX_PROGRAM_PAGES (elf_program contents) (ret (-1)) s2).
  { intros s2 pos2 Hst2 Hno. apply (Hgive s2 pos2 [] blank_image Hst2). by rewrite Hno. }
  destruct (Z.leb_spec 64 (file_size e)) as [Hs64|Hsmall].
  2:{ apply (Hnone s1 pos1 Hst1). unfold elf_program, header_ok. rewrite Hlen. rewrite (proj2 (Z.leb_gt 64 _)) by lia. by rewrite andb_false_r, !andb_false_l. }
  change (negb (0 =? 0)) with false. cbn iota. rewrite (bind_Ret_nil _ _ _ _ _ (handle_size_run s1 pos1 (sg_read _ _ _ _ _ _ _ _ _ _ _ Hst1))). cbv zeta.
  rewrite Hbuf by done. set (hd := elf64_header_of (take 64 contents)).
  assert (Hb : header_bounded hd) by (apply elf_header_bounded; unfold lenZ in *; rewrite length_take; lia).
  rewrite (bind_deref_Some _ _ _ _ (header_valid_ok hd (file_size e) Hb ltac:(lia))). destruct (header_ok hd (file_size e)) eqn:Hok; cbn [negb]; cbn iota.
  2:{ apply (Hnone s1 pos1 Hst1). unfold elf_program. rewrite Hlen. fold hd. by rewrite Hok. }
  destruct (load_elf_run plat Hplat d h i e n Hdisk Hh local64 local256 local_header local64_len local256_len local_header_len s0 hd s1 pos1 Hst1 Hb Hok) as (r & s2 & pos2 & pages & img & Hr2 & Hst2 & _ & _ & Hres); [congruence|congruence|].
  rewrite (bind_Ret_nil _ _ _ _ _ Hr2). destruct r as [[[b t] count]|]; cbn iota beta.
  2:{ apply (Hgive s2 pos2 pages img Hst2). unfold elf_program. rewrite Hlen. fold hd. rewrite Hok. cbn [andb].
      destruct Hres as [[-> Hle]|(-> & Hall & Hlt)]; [done|]. split; [done|]. cbn [pr_count]. lia. }
  destruct Hres as (Hfit & Hent & -> & -> & Hcount & Hpc & Htake & -> & Hmk). set (l := program_headers contents hd) in *.
  destruct (scan_good (file_size e) l (e_entry hd) ltac:(lia) (program_headers_bounds d e hd) Hfit Hent) as (_ & Hlt & He & _ & _).
  destruct (elf_bounds (file_size e) l ltac:(lia) (program_headers_bounds d e hd) Hfit (holds_loadable _ _ Hent)) as ([Hbase _] & Htop & Hbm & Hem & _).
  rewrite (u64_small (elf_end l - elf_base l)) by lia.
  set (prog := Program (elf_base l) count (e_entry hd) (elf_end l - elf_base l) (elf_image contents (elf_base l) l blank_image) (elf_writable (elf_base l) l)).
  assert (Hprog : elf_program contents = Some prog) by (unfold elf_program; rewrite Hlen; fold hd l; rewrite Hok, Hfit, Hent; cbn [andb]; by rewrite <- Hcount).
  rewrite Hprog.
  apply (stack_run s0 USER_MAX_PROGRAM_PAGES s2 pos2 pages (pr_image prog) prog (fun stack_page => pages <- gets user_program_pages;; w <- gets user_program_page_writable;;
    user_run_loaded_pages arch_enter_user label (elf_base l) (e_entry hd) pages (Some w) count stack_page (elf_end l - elf_base l)) Hst2); [cbn; lia|].
  intros p s3 img' Hp Hst3 [Hp3 Hw3] Himg' Hz'. unfold outcome. krun. rewrite Hp3, Hw3.
  apply (enter_ready s0 USER_MAX_PROGRAM_PAGES s3 pos2 pages p img' prog label (user_program_pages s2) (Some (user_program_page_writable s2)) Hst3 Hg Htake Hpc Hmk); [|done| |].
  - split; cbn; [lia|done| | |apply Hb]; rewrite Hcount; Z.div_mod_to_equations; lia.
  - intros off Hoff. apply Himg'. cbn in Hoff. lia.
  - intros off Hoff. apply Hz'. cbn in Hoff. lia.
Qed.

(** ** The whole run of an open file *)

(** A failed run. What is lost are [pages], which were free; nothing else of the
    memory, no mapping and no other page has changed, the handle is free again
    and the root file system mounted with the file in it. Only the two arrays
    the loader keeps the pages of a program in may have been written. *)
Record failed s s' (pages : list Z) : Prop := {
  fa_cpu : same_cpu s s';
  fa_pages : fresh_pages plat (u_mm s) (u_mm s') pages;
  fa_outside : same_outside pages (ram (u_mm s)) (ram (u_mm s'));
  fa_root : exists p, root_mounted (files_vfs (u_files s')) p d;
  fa_entry : lookup_file (vfs_tinyfs (files_vfs (u_files s'))) n = Some (i, e);
  fa_handle : rd (file_table (u_files s')) h = Some (File None 0 0 0 0);
  fa_slots : forall h', h' <> h -> rd (file_table (u_files s')) h' = rd (file_table (u_files s)) h'
}.
(** The program, and the handle closed when it is back. *)
Definition run_and_close (entry : Z) : M (machine X) Z :=
  result <- run_user arch_enter_user entry;; on_files (file_close (Some h));; ret result.
(** The run reaches the entry of the program. *)
Definition entered s0 (m : M (machine X) Z) s (p : program) : Prop :=
  exists s1 pages stack o pos, m s = (emit o;; run_and_close (pr_entry p)) s1 /\ ready s0 s1 p pages stack /\
     reading d h i e n s1 pos /\ forall h', h' <> h -> rd (file_table (u_files s1)) h' = rd (file_table (u_files s0)) h'.
(** What becomes of the file: a file that is no program is refused, and at most
    as many pages are lost as a program may have, none if it is no ELF file;
    a program is entered if there are pages for it and its stack, and if not,
    it is refused and what pages there were are lost. *)
Definition run_outcome s0 (m : M (machine X) Z) s : Prop :=
  match program_of contents with
  | None => exists s' pages, m s = Ret (-1) s' [] /\ failed s0 s' pages /\
      lenZ pages <= if is_elf contents then USER_MAX_PROGRAM_PAGES else 0
  | Some p =>
      if pr_count p + 1 <=? free_pages (u_mm s0) then entered s0 m s p
      else exists s' pages, m s = Ret (-1) s' [] /\ failed s0 s' pages /\ lenZ pages = free_pages (u_mm s0)
  end.

Lemma run_outcome_eq s0 m m' s s' : m s = m' s' -> run_outcome s0 m' s' -> run_outcome s0 m s.
Proof using Type.
  clear. unfold run_outcome, entered. intros ->. done.
Qed.

Lemma close_run s0 s pos pages img : stage s0 s pos pages img ->
  exists s', on_files (file_close (Some h)) s = Ret tt s' [] /\ failed s0 s' pages /\ u_mm s' = u_mm s.
Proof using Hh.
  intros [[Hf Hho Hout] Hrd Hsl Hc]. pose proof Hrd as [[Hlen _] Hroot _ Hentry _ _].
  exists (set_u_files (set_file_table (<[Z.to_nat h := File None 0 0 0 0]> (file_table (u_files s))) (u_files s)) s). split; [|split; [|done]].
  - apply (zoom_Ret u_files set_u_files). unfold file_close. krun. rewrite wr_Some by lia. by rewrite (bind_deref_Some _ _ _ _ eq_refl).
  - split; [by destruct Hc|done|done|exact Hroot|exact Hentry| |]; cbn.
    + rewrite rd_insert by lia. by rewrite decide_True.
    + intros h' Hne. rewrite rd_insert by lia. rewrite decide_False by done. by apply Hsl.
Qed.

(** Closing the file behind an outcome. *)
Lemma outcome_closed s0 most m s : most = (if is_elf contents then USER_MAX_PROGRAM_PAGES else 0) ->
  outcome s0 most (program_of contents) m s -> run_outcome s0 (result <- m;; on_files (file_close (Some h));; ret result) s.
Proof using Hh Hplat.
  intros -> [(s' & pos & pages & img & Hr & Hst & Hwhy)|(p & s1 & pages & stack & o & pos & Hp & Hr & Hready & Hrd & Hsl)]; unfold run_outcome.
  - destruct (close_run s0 s' pos pages img Hst) as (s2 & Hc & Hf & Hmm).
    assert (Hret : (result <- m;; on_files (file_close (Some h));; ret result) s = Ret (-1) s2 [])
      by (by rewrite (bind_Ret_nil _ _ _ _ _ Hr), (bind_Ret_nil _ _ _ _ _ Hc)).
    destruct (program_of contents) as [p|]; [|by exists s2, pages]. destruct Hwhy as [Hall Hle].
    pose proof (sg_load _ _ _ _ _ _ _ _ _ _ _ Hst) as [Hfr _ _]. pose proof (fresh_free_pages plat _ _ _ Hfr) as Hfree.
    rewrite (all_used_free plat _ (fp_on _ _ _ _ Hfr) Hall) in Hfree. rewrite (proj2 (Z.leb_gt _ _)) by lia. by exists s2, pages.
  - rewrite Hp. pose proof (fresh_free_pages plat _ _ _ (rs_pages _ _ _ _ _ Hready)) as Hfree.
    pose proof (free_pages_bound plat _ (fp_on _ _ _ _ (rs_pages _ _ _ _ _ Hready))). rewrite lenZ_app, (rs_count _ _ _ _ _ Hready) in Hfree.
    change (lenZ [stack]) with 1 in Hfree. rewrite (proj2 (Z.leb_le _ _)) by lia. exists s1, pages, stack, o, pos.
    split; [exact (bind_emit _ _ _ _ _ _ Hr)|by split_and!].
Qed.

Lemma magic_of file : 64 <= lenZ file -> elf_magic (take 64 file) = Some (is_elf file).
Proof using Type.
  clear. intros Hs. unfold is_elf. rewrite (proj2 (Z.leb_le 64 _)) by done. rewrite andb_true_r.
  destruct file as [|c0 [|c1 [|c2 [|c3 r]]]]; try (unfold lenZ in Hs; cbn in Hs; lia). unfold elf_magic. cbn [take].
  change (rd _ 0) with (Some c0). change (rd _ 1) with (Some c1). change (rd _ 2) with (Some c2). change (rd _ 3) with (Some c3). cbn [mbind option_bind]. f_equal.
  unfold ELF_MAGIC0, ELF_MAGIC1, ELF_MAGIC2, ELF_MAGIC3. case_bool_decide as He; [by injection He as -> -> -> ->|].
  rewrite !andb_false_iff, !Z.eqb_neq. destruct (decide (c0 = 127)), (decide (c1 = ch "E")), (decide (c2 = ch "L")), (decide (c3 = ch "F")); subst; tauto.
Qed.

(** What [user_run_file] does with the file it has opened. *)
Definition run_opened (label : mem) : M (machine X) Z :=
  let! (status, bytes) := user_read_exact_at local64 (Some h) 0 local_header elf64_header_size in
  is_elf <- (if status =? 0 then deref (elf_magic bytes) else ret false);;
  label <- deref (Some label);;
  if (is_elf : bool) then
    result <- user_run_elf_file plat local64 local256 local_header arch_enter_user (Some h) label;; on_files (file_close (Some h));; ret result
  else
    sought <- on_files (file_seek (Some h) 0);;
    if negb (sought =? 0) then on_files (file_close (Some h));; ret (-1)
    else result <- user_run_flat_file plat local64 local256 local16 arch_enter_user (Some h) label;; on_files (file_close (Some h));; ret result.

Lemma opened_run s0 label :
  stage s0 s0 0 [] blank_image -> mmu_good s0 -> is_Some (cval label) ->
  lenZ (user_program_pages s0) = USER_MAX_PROGRAM_PAGES -> lenZ (user_program_page_writable s0) = USER_MAX_PROGRAM_PAGES ->
  run_outcome s0 (run_opened label) s0.
Proof using All.
  intros Hst Hg Hlab Hlp Hlw. destruct (stage_bounds plat d h i e n Hdisk Hh s0 s0 0 [] blank_image Hst) as (_ & Hs31 & Hlen).
  destruct (read_header s0 s0 0 blank_image Hst) as (buf & s1 & pos1 & Hr1 & Hbuf & Hst1 & [Hp1 Hw1]).
  unfold run_opened. eapply run_outcome_eq; [exact (bind_Ret_nil _ _ _ _ _ Hr1)|]. cbn iota.
  assert (Hmagic : (if (if 64 <=? file_size e then 0 else -1) =? 0 then deref (elf_magic buf) else ret false) s1 = Ret (is_elf contents) s1 []).
  { destruct (Z.leb_spec 64 (file_size e)).
    - change (0 =? 0) with true. cbn iota. rewrite Hbuf, magic_of by lia. done.
    - change (-1 =? 0) with false. cbn iota. unfold is_elf. rewrite Hlen, (proj2 (Z.leb_gt 64 _)) by lia. by rewrite andb_false_r. }
  eapply run_outcome_eq; [exact (bind_Ret_nil _ _ _ _ _ Hmagic)|]. eapply run_outcome_eq; [exact (bind_deref_Some _ _ _ _ eq_refl)|]. assert (Hprog : program_of contents = if is_elf contents then elf_program contents else flat_program contents) by done.
  destruct (is_elf contents) eqn:Helf.
  - apply (outcome_closed s0 USER_MAX_PROGRAM_PAGES); [by rewrite Helf|]. rewrite Hprog. apply (elf_run s0 s1 pos1 label Hst1 Hg Hlab); congruence.
  - destruct (stage_seek plat d h i e n Hh s0 s1 pos1 [] blank_image 0 Hst1) as (s2 & Hr2 & Hst2 & _); [lia|].
    rewrite (proj2 (Z.leb_le 0 (file_size e))) in Hr2, Hst2 by (pose proof (lenZ_nonneg contents); lia). eapply run_outcome_eq; [exact (bind_Ret_nil _ _ _ _ _ Hr2)|].
    change (negb (0 =? 0)) with false. cbn iota. apply (outcome_closed s0 0); [by rewrite Helf|]. rewrite Hprog. by apply flat_run.
Qed.

(** Opening the file first changes the file table only. *)
Lemma run_outcome_from f s m s1 :
  run_outcome (set_u_files f s) m s1 -> (forall h', h' <> h -> rd (file_table f) h' = rd (file_table (u_files s)) h') -> run_outcome s m s1.
Proof using Type.
  clear. intros Ho Hf. unfold run_outcome, entered in *. change (free_pages (u_mm (set_u_files f s))) with (free_pages (u_mm s)) in Ho.
  assert (Hfail : forall s' pages, failed (set_u_files f s) s' pages -> failed s s' pages).
  { intros s' pages [[H1 H2 H3 H4] Hp Hout Hroot He Hh Hs]. split; [by split|done..|]. intros h' Hne. rewrite Hs by done. by apply Hf. }
  destruct (program_of contents) as [p|]; [|destruct Ho as (s' & pages & Hr & Hfa & Hle); exists s', pages; split_and!; by auto].
  destruct (pr_count p + 1 <=? free_pages (u_mm s)); [|destruct Ho as (s' & pages & Hr & Hfa & Hle); exists s', pages; split_and!; by auto].
  destruct Ho as (s2 & pages & stack & o & pos & Hr & [] & Hrd & Hsl). exists s2, pages, stack, o, pos.
  split; [done|]. split; [by split|]. split; [done|]. intros h' Hne. rewrite Hsl by done. by apply Hf.
Qed.
End run.

(** C3. [user_run_file] keeps its contract. A path that names no file, or no free
    handle, gives -1 and changes nothing. Else the bytes of the file decide. A
    file that is no program gives -1, the handle free again, and costs no page
    if it is no ELF file and at most the pages of a program if it is. A program
    is entered exactly when there are pages for it and its stack: at its entry
    point with its image at its addresses, no page of it both writable and
    executable, a cleared stack, and no other memory, mapping or page changed,
    and the handle is closed when it is back; without them it gives -1 and the
    pages that were free are lost. A failure changes no mapping and no memory
    but the pages it loses. *)
Theorem user_run_file_spec {X} `{DiskDriver X} plat table_address arch_enter_user local64 local256 local_header local16 (s : machine X) p d pth t :
  plat_wf plat -> board_ok plat table_address -> lenZ local64 = VFS_PATH_MAX -> lenZ local256 = 256 -> lenZ local_header = 64 -> lenZ local16 = USER_FLAT_BINARY_MAX_PAGES ->
  pmm_on plat (u_mm s) -> mmu_ok plat table_address (u_mmu s) -> lenZ (user_program_pages s) = USER_MAX_PROGRAM_PAGES -> lenZ (user_program_page_writable s) = USER_MAX_PROGRAM_PAGES ->
  root_mounted (files_vfs (u_files s)) p d -> table_wf (u_files s) -> cval pth = Some t -> lenZ t < 2 ^ 31 ->
  (forall n i e, open_target (files_vfs (u_files s)) t = Some (n, i, e) -> on_disk d e) ->
  match open_target (files_vfs (u_files s)) t, free_slot (u_files s) with
  | Some (n, i, e), Some h =>
      run_outcome plat table_address d h i e n arch_enter_user s (user_run_file plat local64 local256 local_header local16 arch_enter_user (Some pth)) s
  | _, _ => exists s', user_run_file plat local64 local256 local_header local16 arch_enter_user (Some pth) s = Ret (-1) s' [] /\
      s' = set_u_files (u_files s') s /\ root_mounted (files_vfs (u_files s')) p d /\ file_table (u_files s') = file_table (u_files s)
  end.
Proof.
  intros Hplat Hboard H64 H256 Hhd H16 Hon Hg Hlp Hlw Hroot Hwf Ht Hl Hdisk.
  destruct (file_open_ok local64 H64 (u_files s) p d pth t Hroot Hwf Ht Hl) as (f1 & Hroot1 & Hwf1 & Htn & Hopen). unfold user_run_file.
  destruct (open_target (files_vfs (u_files s)) t) as [[[n i] e]|] eqn:Htgt, (free_slot (u_files s)) as [h|].
  { destruct Hopen as (Ho & Hslot & Hoth). pose proof (rd_inv _ _ _ Hslot) as Hh. rewrite (tb_len _ Hwf1) in Hh.
    destruct (open_target_inv _ _ _ _ _ Htgt) as (Hnp & Hlk & Hfl).
    apply (run_outcome_from plat table_address d h i e n arch_enter_user f1); [|exact Hoth].
    eapply run_outcome_eq; [exact (bind_Ret_nil _ _ _ _ _ (zoom_Ret u_files set_u_files _ s _ _ _ Ho))|]. cbn iota.
    apply (opened_run plat Hplat table_address Hboard d h i e n arch_enter_user local64 local256 local_header H64 H256 Hhd local16 H16 (Hdisk _ _ _ eq_refl) Hh (set_u_files f1 s) pth);
      [|exact Hg|by eexists|exact Hlp|exact Hlw].
    split; [|split; [done|by exists p|done|cbn [u_files set_u_files]; rewrite Htn; exact Hlk|exact (proj1 (normal_path_idem _ _ _ Hnp))|done]|done|done].
    split; [by apply fresh_nil|intros j q o Hj; by apply rd_elem, elem_of_nil in Hj|apply same_outside_refl]. }
  all: destruct Hopen as (Ho & Hsame); exists (set_u_files f1 s);
    rewrite (bind_Ret_nil _ _ _ _ _ (zoom_Ret u_files set_u_files _ s _ _ _ Ho)); done.
Qed.

(** ** A run of the file of the sample disk, which is three bytes long *)

Definition sample_machine (m : mm) (u : mmu) : machine list_disk := Machine sample_files m u 0 0 (replicate 495 0) (replicate 495 0) 0x3c0.
Definition sample_entry (_ _ : Z) : M (machine list_disk) Z := ret 7.

Lemma user_run_file_spec_witness :
  exists m u, run_outcome demo_plat sample_tables sample_device 0 0 (slice sample_image 20 76) (lit "a") sample_entry (sample_machine m u)
      (user_run_file demo_plat (replicate 64 7) (replicate 256 7) (replicate 64 7) (replicate 16 7) sample_entry (Some (cstr "/a"))) (sample_machine m u) /\
    is_Some (program_of (file_bytes sample_device (slice sample_image 20 76))).
Proof.
  destruct (pmm_init_ok demo_plat (mm_reset (fun _ => 0)) demo_boot_wf) as (m & om & _ & Hon & _); [by split_and!|].
  destruct (mmu_init_ok demo_plat sample_tables sample_board cold_mmu) as (u & ou & _ & Hok & _); [apply cold_sized|reflexivity|reflexivity|].
  exists m, u.
  pose proof (user_run_file_spec demo_plat sample_tables sample_entry (replicate 64 7) (replicate 256 7) (replicate 64 7) (replicate 16 7) (sample_machine m u) 0 sample_device (cstr "/a") (lit "/a")
    (bt_plat demo_plat demo_boot_wf) sample_board eq_refl eq_refl eq_refl eq_refl Hon Hok eq_refl eq_refl sample_root_mounted sample_files_wf eq_refl) as Hrun.
  split.
  - change (u_files (sample_machine m u)) with sample_files in Hrun.
    replace (open_target (files_vfs sample_files) (lit "/a")) with (Some (lit "a", 0%nat, slice sample_image 20 76)) in Hrun by (vm_compute; reflexivity).
    apply Hrun; [reflexivity|]. intros n i e [= <- <- <-]. split_and!; vm_compute; congruence.
  - vm_compute. by eexists.
Defined.
