(* ===== verification/Virtqueue.v ===== *)
(** Virtqueues (src/src/drivers/virtqueue.c): descriptors that driver and
    device share through a page of memory, and the two rings through which they
    hand requests to each other. The page is bytes of the RAM; a pointer into it
    is an address. *)
From S2P Require Import Prelude Klog Memory BlockDevice MMU.

(** ** Fields of structures in memory *)

(** [n] bytes at an address, little-endian. *)
Fixpoint ld (n : nat) (r : Z -> Z) (a : Z) : Z :=
  match n with
  | O => 0
  | S n' => u8 (r a) + 256 * ld n' r (a + 1)
  end.
Definition st (n : nat) (r : Z -> Z) (a v : Z) : Z -> Z := fun x =>
  if (a <=? x) && (x <? a + Z.of_nat n) then v / 256 ^ (x - a) mod 256 else r x.

Lemma ld_bound n r : forall a, 0 <= ld n r a < 256 ^ Z.of_nat n.
Proof.
  induction n as [|n IH]; intros a; [cbn; lia|]. cbn [ld]. specialize (IH (a + 1)). pose proof (Z.mod_pos_bound (r a) (2 ^ 8) eq_refl). unfold u8.
  rewrite Nat2Z.inj_succ, Z.pow_succ_r by lia. lia.
Qed.
Lemma ld_ext n r r' : forall a, (forall x, a <= x < a + Z.of_nat n -> r x = r' x) -> ld n r a = ld n r' a.
Proof.
  induction n as [|n IH]; intros a He; [done|]. cbn [ld]. rewrite (He a) by lia. f_equal. f_equal. apply IH. intros x Hx. apply He. lia.
Qed.
Lemma ld_st_other n m r a b v : b + Z.of_nat m <= a \/ a + Z.of_nat n <= b -> ld n (st m r b v) a = ld n r a.
Proof.
  intros Hd. apply ld_ext. intros x Hx. unfold st. destruct (Z.leb_spec b x), (Z.ltb_spec x (b + Z.of_nat m)); cbn [andb]; done || lia.
Qed.
Lemma ld_st_same n r a : forall v, 0 <= v < 256 ^ Z.of_nat n -> ld n (st n r a v) a = v.
Proof.
  intros v. assert (Hg : forall m k, 0 <= v -> (k + m = n)%nat -> ld m (st n r a v) (a + Z.of_nat k) = v / 256 ^ Z.of_nat k mod 256 ^ Z.of_nat m).
  { induction m as [|m IH]; intros k Hv Hk; cbn [ld]; [by rewrite Z.mod_1_r|].
    replace (a + Z.of_nat k + 1) with (a + Z.of_nat (S k)) by lia. rewrite IH by lia. unfold st.
    rewrite (proj2 (Z.leb_le a _)), (proj2 (Z.ltb_lt (a + Z.of_nat k) _)) by lia. cbn [andb]. replace (a + Z.of_nat k - a) with (Z.of_nat k) by lia.
    unfold u8. change (2 ^ 8) with 256. rewrite Z.mod_mod by lia. rewrite !Nat2Z.inj_succ, !Z.pow_succ_r by lia.
    assert (Hp : 0 < 256 ^ Z.of_nat k) by (apply Z.pow_pos_nonneg; lia). assert (Hm : 0 < 256 ^ Z.of_nat m) by (apply Z.pow_pos_nonneg; lia).
    rewrite (Z.mul_comm 256 (256 ^ Z.of_nat k)), <- Z.div_div by lia. symmetry. apply Z.rem_mul_r; lia. }
  intros [H0 Hv]. specialize (Hg n 0%nat H0 eq_refl). change (Z.of_nat 0) with 0 in Hg. rewrite Z.add_0_r, Z.pow_0_r, Z.div_1_r in Hg. rewrite Hg. by apply Z.mod_small.
Qed.

Arguments ld : simpl never.
Arguments st : simpl never.

(** ** Data *)

Definition VIRTQ_DESC_F_NEXT : Z := 1.
Definition VIRTQ_DESC_F_WRITE : Z := 2.

(** Sizes and fields of [struct virtq_desc], [virtq_avail], [virtq_used_elem]
    and [virtq_used]. *)
Definition sizeof_virtq_desc : Z := 16.
Definition desc_addr (desc i : Z) : Z := desc + 16 * i.
Definition desc_len (desc i : Z) : Z := desc + 16 * i + 8.
Definition desc_flags (desc i : Z) : Z := desc + 16 * i + 12.
Definition desc_next (desc i : Z) : Z := desc + 16 * i + 14.
Definition sizeof_virtq_avail : Z := 4.
Definition avail_idx (avail : Z) : Z := avail + 2.
Definition sizeof_virtq_used_elem : Z := 8.
Definition elem_id (used_ring i : Z) : Z := used_ring + 8 * i.
Definition elem_len (used_ring i : Z) : Z := used_ring + 8 * i + 4.
Definition sizeof_virtq_used : Z := 4.
Definition used_idx (used : Z) : Z := used + 2.

Record virtqueue : Type := Virtqueue {
  size : Z;
  num_free : Z;
  free_head : Z;
  last_used_idx : Z;
  page : Z;
  desc : Z;
  avail : Z;
  avail_ring : Z;
  used : Z;
  used_ring : Z
}.
Definition set_num_free (v : Z) (q : virtqueue) : virtqueue :=
  Virtqueue (size q) v (free_head q) (last_used_idx q) (page q) (desc q) (avail q) (avail_ring q) (used q) (used_ring q).
Definition set_free_head (v : Z) (q : virtqueue) : virtqueue :=
  Virtqueue (size q) (num_free q) v (last_used_idx q) (page q) (desc q) (avail q) (avail_ring q) (used q) (used_ring q).
Definition set_last_used_idx (v : Z) (q : virtqueue) : virtqueue :=
  Virtqueue (size q) (num_free q) (free_head q) v (page q) (desc q) (avail q) (avail_ring q) (used q) (used_ring q).

(** A queue, the memory and the cache it works with. *)
Record vio : Type := Vio { queue : virtqueue; v_mm : mm; v_mmu : mmu }.
Definition set_queue (v : virtqueue) (s : vio) : vio := Vio v (v_mm s) (v_mmu s).
Definition set_v_mm (v : mm) (s : vio) : vio := Vio (queue s) v (v_mmu s).
Definition set_v_mmu (v : mmu) (s : vio) : vio := Vio (queue s) (v_mm s) v.

Section operations.
Context (plat : platform).

Definition on_v_mm {A} (m : M mm A) : M vio A := zoom v_mm set_v_mm m.
Definition on_v_mmu {A} (m : M mmu A) : M vio A := zoom v_mmu set_v_mmu m.
Definition load (n : nat) (a : Z) : M vio Z := gets (fun s => ld n (ram (v_mm s)) a).
Definition store (n : nat) (a v : Z) : M vio unit := on_v_mm (modify (fun m => set_ram (st n (ram m) a v) m)).
(** [memset] of bytes in memory to zero. *)
Definition clear (a n : Z) : M vio unit := on_v_mm (modify (fun m => set_ram (fun x => if (a <=? x) && (x <? a + n) then 0 else ram m x) m)).

(** [dmb ish] orders accesses of this processor; the model executes them in
    order anyway. *)
Definition virtqueue_barrier : M vio unit := ret tt.
Definition virtqueue_align_up (value alignment : Z) : Z := Z.land (u64 (u64 (value + alignment) - 1)) (not64 (alignment - 1)).
Definition virtqueue_sync_page_for_device : M vio unit := q <- gets queue;; on_v_mmu (mmu_sync_for_device (page q) PMM_PAGE_SIZE).
Definition virtqueue_sync_page_for_cpu : M vio unit := q <- gets queue;; on_v_mmu (mmu_sync_for_cpu (page q) PMM_PAGE_SIZE).

(** Links every descriptor to the one behind it. *)
Fixpoint link_loop (fuel : nat) (size0 : Z) : M vio unit :=
  match fuel with
  | O => undef
  | S fuel' =>
      q <- gets queue;;
      if free_head q <? u16 (u32 (size0 - 1)) then
        store 2 (desc_next (desc q) (free_head q)) (u16 (free_head q + 1));;
        modify (fun s => set_queue (set_free_head (u16 (free_head q + 1)) q) s);;
        link_loop fuel' size0
      else ret tt
  end.

(** A null pointer to a queue is [None]; else it is the queue of the state. *)
Definition virtqueue_init (queue0 : option unit) (size0 : Z) : M vio Z :=
  if is_null queue0 || (size0 =? 0) then ret (-1)
  else
    let desc_bytes := sizeof_virtq_desc * size0 in
    let avail_bytes := sizeof_virtq_avail + 2 * size0 + 2 in
    let used_offset := virtqueue_align_up (desc_bytes + avail_bytes) 4 in
    let used_bytes := sizeof_virtq_used + sizeof_virtq_used_elem * size0 + 2 in
    let total_bytes := u64 (used_offset + used_bytes) in
    if PMM_PAGE_SIZE <? total_bytes then ret (-1)
    else
      page_address <- on_v_mm (pmm_alloc_page plat);;
      if page_address =? 0 then ret (-1)
      else
        clear page_address PMM_PAGE_SIZE;;
        modify (fun s => set_queue (Virtqueue size0 size0 0 0 page_address page_address (u64 (page_address + desc_bytes))
          (u64 (page_address + desc_bytes + sizeof_virtq_avail)) (u64 (page_address + used_offset)) (u64 (page_address + used_offset + sizeof_virtq_used))) s);;
        link_loop (S (Z.to_nat size0)) size0;;
        q <- gets queue;;
        store 2 (desc_next (desc q) (free_head q)) 0;;
        modify (fun s => set_queue (set_free_head 0 (queue s)) s);;
        ret 0.

Definition virtqueue_alloc_desc (queue0 : option unit) : M vio Z :=
  q <- gets queue;;
  if is_null queue0 || (num_free q =? 0) then ret (-1)
  else
    let desc_index := free_head q in
    next <- load 2 (desc_next (desc q) desc_index);;
    modify (fun s => set_queue (set_num_free (u16 (num_free q - 1)) (set_free_head next q)) s);;
    store 2 (desc_next (desc q) desc_index) 0;;
    store 2 (desc_flags (desc q) desc_index) 0;;
    ret desc_index.

Definition virtqueue_free_desc (desc_index : Z) : M vio unit :=
  q <- gets queue;;
  store 2 (desc_next (desc q) desc_index) (free_head q);;
  store 2 (desc_flags (desc q) desc_index) 0;;
  modify (fun s => set_queue (set_num_free (u16 (num_free q + 1)) (set_free_head desc_index q)) s).

Definition virtqueue_submit (head_index : Z) : M vio unit :=
  q <- gets queue;;
  idx <- load 2 (avail_idx (avail q));;
  ring_index <- deref (if size q =? 0 then None else Some (u16 (idx mod size q)));;
  store 2 (avail_ring q + 2 * ring_index) head_index;;
  virtqueue_barrier;;
  idx1 <- load 2 (avail_idx (avail q));;
  store 2 (avail_idx (avail q)) (u16 (idx1 + 1));;
  virtqueue_sync_page_for_device;;
  virtqueue_barrier.

(** [virtqueue_pop_used] looks at the ring, and takes an element if there is one. *)
Definition pop_check : M vio bool :=
  virtqueue_sync_page_for_cpu;;
  virtqueue_barrier;;
  q <- gets queue;;
  idx <- load 2 (used_idx (used q));;
  ret (negb (last_used_idx q =? idx)).
Definition pop_take : M vio (Z * Z) :=
  q <- gets queue;;
  used_index <- deref (if size q =? 0 then None else Some (u16 (last_used_idx q mod size q)));;
  id <- load 4 (elem_id (used_ring q) used_index);;
  len <- load 4 (elem_len (used_ring q) used_index);;
  q1 <- gets queue;;
  modify (fun s => set_queue (set_last_used_idx (u16 (last_used_idx q1 + 1)) q1) s);;
  ret (id, len).
Definition virtqueue_pop_used : M vio (option (Z * Z)) :=
  more <- pop_check;;
  if more : bool then e <- pop_take;; ret (Some e) else ret None.
End operations.

(** ** Running the operations *)

Abbreviation mem_of s := (ram (v_mm s)).
Definition poke (n : nat) (a v : Z) (s : vio) : vio := set_v_mm (set_ram (st n (mem_of s) a v) (v_mm s)) s.

Lemma bind_load {B} n a (k : Z -> M vio B) s : bind (load n a) k s = k (ld n (mem_of s) a) s.
Proof. exact (bind_gets _ k s). Qed.
Lemma bind_store {B} n a v (k : unit -> M vio B) s : bind (store n a v) k s = k tt (poke n a v s).
Proof. by apply bind_Ret_nil. Qed.
#[export] Hint Rewrite @bind_load @bind_store : kernel.

(** Where a queue lies in its page. *)
Record layout (q : virtqueue) : Prop := {
  ly_size : 0 < size q <= 157;
  ly_page : 0 < page q /\ page q + 4096 < 2 ^ 63;
  ly_desc : desc q = page q;
  ly_avail : avail q = page q + 16 * size q;
  ly_avail_ring : avail_ring q = avail q + 4;
  ly_used : avail_ring q + 2 * size q + 2 <= used q;
  ly_used_ring : used_ring q = used q + 4;
  ly_end : used_ring q + 8 * size q + 2 <= page q + 4096
}.

(** The rest of the state stays: only bytes of the page and cache operations. *)
Record same_queue (s s' : vio) : Prop := {
  sq_size : size (queue s') = size (queue s);
  sq_page : page (queue s') = page (queue s);
  sq_desc : desc (queue s') = desc (queue s);
  sq_avail : avail (queue s') = avail (queue s);
  sq_avail_ring : avail_ring (queue s') = avail_ring (queue s);
  sq_used : used (queue s') = used (queue s);
  sq_used_ring : used_ring (queue s') = used_ring (queue s);
  sq_mm : v_mm s' = set_ram (mem_of s') (v_mm s);
  sq_outside : forall a, ~ page (queue s) <= a < page (queue s) + 4096 -> mem_of s' a = mem_of s a
}.

Lemma same_layout s s' : same_queue s s' -> layout (queue s) -> layout (queue s').
Proof. intros [] []. split; congruence || lia. Qed.
Lemma same_queue_refl s : same_queue s s.
Proof. split; try done. by destruct s as [? []]. Qed.
Lemma same_queue_trans s s1 s2 : same_queue s s1 -> same_queue s1 s2 -> same_queue s s2.
Proof.
  intros [] []. split; try congruence.
  - rewrite sq_mm1, sq_mm0. by destruct (v_mm s).
  - intros a Ha. rewrite sq_outside1 by (rewrite sq_page0; done). by apply sq_outside0.
Qed.

Lemma sync_device_run a n u : 0 <= a -> 0 <= n -> a + n + 63 < 2 ^ 64 -> exists v, mmu_sync_for_device a n u = Ret tt (set_issued v u) [].
Proof.
  intros Ha Hn Hb. unfold mmu_sync_for_device. rewrite (bind_Ret_nil _ _ _ _ _ (sync_lines_run a n DcCivac mmu_dc_civac u (fun _ _ => eq_refl) Ha Hn Hb)). by eexists.
Qed.
Lemma sync_cpu_run a n u : 0 <= a -> 0 <= n -> a + n + 63 < 2 ^ 64 -> exists v, mmu_sync_for_cpu a n u = Ret tt (set_issued v u) [].
Proof.
  intros Ha Hn Hb. unfold mmu_sync_for_cpu. rewrite (bind_Ret_nil _ _ _ _ _ (sync_lines_run a n DcIvac mmu_dc_ivac u (fun _ _ => eq_refl) Ha Hn Hb)).
  unfold mmu_dsb_ish, mmu_isb, issue. krun. by eexists.
Qed.

Lemma page_sync_device_run s : layout (queue s) -> exists u, virtqueue_sync_page_for_device s = Ret tt (set_v_mmu u s) [].
Proof.
  intros [_ [] _ _ _ _ _ _]. unfold virtqueue_sync_page_for_device. krun. change PMM_PAGE_SIZE with 4096.
  destruct (sync_device_run (page (queue s)) 4096 (v_mmu s)) as [v Hv]; [lia|lia|lia|]. eexists. exact (zoom_Ret v_mmu set_v_mmu _ s _ _ _ Hv).
Qed.
Lemma page_sync_cpu_run s : layout (queue s) -> exists u, virtqueue_sync_page_for_cpu s = Ret tt (set_v_mmu u s) [].
Proof.
  intros [_ [] _ _ _ _ _ _]. unfold virtqueue_sync_page_for_cpu. krun. change PMM_PAGE_SIZE with 4096.
  destruct (sync_cpu_run (page (queue s)) 4096 (v_mmu s)) as [v Hv]; [lia|lia|lia|]. eexists. exact (zoom_Ret v_mmu set_v_mmu _ s _ _ _ Hv).
Qed.

(** A store inside the page. *)
Lemma poke_same n a v s : page (queue s) <= a -> a + Z.of_nat n <= page (queue s) + 4096 -> same_queue s (poke n a v s).
Proof.
  intros H1 H2. split; try done. intros x Hx. cbn. unfold st. destruct (Z.leb_spec a x), (Z.ltb_spec x (a + Z.of_nat n)); cbn [andb]; done || lia.
Qed.

(** ** The free descriptors *)

(** The list that starts at [h] and follows the [next] fields. *)
Fixpoint free_list (k : nat) (r : Z -> Z) (desc0 h : Z) : list Z :=
  match k with
  | O => []
  | S k' => h :: free_list k' r desc0 (ld 2 r (desc_next desc0 h))
  end.
Definition free (s : vio) : list Z := free_list (Z.to_nat (num_free (queue s))) (mem_of s) (desc (queue s)) (free_head (queue s)).

(** Every descriptor is free or owned, once. *)
Record descs_ok (s : vio) (owned : list Z) : Prop := {
  do_distinct : NoDup (free s ++ owned);
  do_range : forall i, i ∈ free s ++ owned -> 0 <= i < size (queue s);
  do_count : num_free (queue s) + lenZ owned = size (queue s);
  do_free : 0 <= num_free (queue s)
}.

Lemma free_list_length k r d : forall h, length (free_list k r d h) = k.
Proof. induction k as [|k IH]; intros h; [done|]. cbn. by rewrite IH. Qed.

(** Only the [next] fields of the free descriptors matter. *)
Lemma free_list_ext k r r' d : forall h, (forall i, i ∈ free_list k r d h -> ld 2 r' (desc_next d i) = ld 2 r (desc_next d i)) ->
  free_list k r' d h = free_list k r d h.
Proof.
  induction k as [|k IH]; intros h He; [done|]. cbn [free_list]. rewrite (He h) by (cbn; constructor). f_equal. apply IH. intros i Hi. apply He. cbn [free_list]. by constructor.
Qed.

(** ** The rings *)

(** The device's view of request [k], and the driver's view of element [k]. *)
Definition avail_at (s : vio) (k : Z) : Z := ld 2 (mem_of s) (avail_ring (queue s) + 2 * (k mod size (queue s))).
Definition used_at (s : vio) (k : Z) : Z * Z :=
  (ld 4 (mem_of s) (elem_id (used_ring (queue s)) (k mod size (queue s))), ld 4 (mem_of s) (elem_len (used_ring (queue s)) (k mod size (queue s)))).

(** [submitted] has every head the driver submitted; [completed] what the
    device put in the used ring, of which [popped] are taken. *)
Record rings_ok (s : vio) (submitted : list Z) (completed : list (Z * Z)) (popped : Z) : Prop := {
  ro_divides : (size (queue s) | 2 ^ 16);
  ro_avail_idx : ld 2 (mem_of s) (avail_idx (avail (queue s))) = u16 (lenZ submitted);
  ro_avail : forall k, lenZ submitted - size (queue s) <= k < lenZ submitted -> 0 <= k -> rd submitted k = Some (avail_at s k);
  ro_used_idx : ld 2 (mem_of s) (used_idx (used (queue s))) = u16 (lenZ completed);
  ro_last : last_used_idx (queue s) = u16 popped;
  ro_popped : 0 <= popped <= lenZ completed /\ lenZ completed <= popped + size (queue s);
  ro_used : forall k, popped <= k < lenZ completed -> rd completed k = Some (used_at s k)
}.

(** *** What leaves the invariants alone *)

Definition same_cursor (s s' : vio) : Prop := num_free (queue s') = num_free (queue s) /\ free_head (queue s') = free_head (queue s).
Definition table_kept (s s' : vio) : Prop := forall a, desc (queue s) <= a < desc (queue s) + 16 * size (queue s) -> mem_of s' a = mem_of s a.
Definition rings_kept (s s' : vio) : Prop :=
  last_used_idx (queue s') = last_used_idx (queue s) /\ forall a, avail (queue s) <= a < page (queue s) + 4096 -> mem_of s' a = mem_of s a.

Lemma descs_frame s s' owned : layout (queue s) -> same_queue s s' -> same_cursor s s' -> table_kept s s' -> descs_ok s owned -> descs_ok s' owned.
Proof.
  intros [] [] [Hn Hf] Ht [Hd Hr Hc H0]. assert (He : free s' = free s).
  { unfold free. rewrite Hn, Hf, sq_desc0. apply free_list_ext. intros i Hi. apply ld_ext. intros x Hx. apply Ht.
    assert (Hir : 0 <= i < size (queue s)) by (apply Hr, elem_of_app; by left). unfold desc_next in Hx. lia. }
  split; rewrite ?He, ?Hn, ?sq_size0; done.
Qed.

Lemma rings_frame s s' submitted completed popped : layout (queue s) -> same_queue s s' -> rings_kept s s' ->
  rings_ok s submitted completed popped -> rings_ok s' submitted completed popped.
Proof.
  intros [] [] [Hl Hk] [Hd Hai Ha Hui Hlu Hp Hu]. assert (Hld : forall n a, avail (queue s) <= a -> a + Z.of_nat n <= page (queue s) + 4096 -> ld n (mem_of s') a = ld n (mem_of s) a).
  { intros n a H1 H2. apply ld_ext. intros x Hx. apply Hk. lia. }
  assert (Hmod : forall k, 0 <= k mod size (queue s) < size (queue s)) by (intros k; apply Z.mod_pos_bound; lia).
  split; unfold avail_idx, used_idx, avail_at, used_at, elem_id, elem_len in *; rewrite ?sq_size0, ?sq_avail0, ?sq_avail_ring0, ?sq_used0, ?sq_used_ring0, ?Hl; try done.
  - rewrite Hld by lia. done.
  - intros k H1 H2. rewrite Hld by (specialize (Hmod k); lia). by apply Ha.
  - rewrite Hld by lia. done.
  - intros k H1. rewrite !Hld by (specialize (Hmod k); lia). by apply Hu.
Qed.

Lemma descs_perm s owned owned' : owned ≡ₚ owned' -> descs_ok s owned -> descs_ok s owned'.
Proof.
  intros He [Hd Hr Hc H0]. split; [by rewrite <- He|intros i Hi; apply Hr; by rewrite He|unfold lenZ in *; by rewrite <- He|done].
Qed.

(** *** Allocating and freeing a descriptor *)

Lemma table_poke n a v s : layout (queue s) -> desc (queue s) <= a -> a + Z.of_nat n <= desc (queue s) + 16 * size (queue s) -> rings_kept s (poke n a v s).
Proof.
  intros [] H1 H2. split; [done|]. intros x Hx. cbn. unfold st. destruct (Z.leb_spec a x), (Z.ltb_spec x (a + Z.of_nat n)); cbn [andb]; done || lia.
Qed.

Lemma free_cons s owned : descs_ok s owned -> 0 < num_free (queue s) ->
  free s = free_head (queue s) :: free_list (Z.to_nat (num_free (queue s) - 1)) (mem_of s) (desc (queue s)) (ld 2 (mem_of s) (desc_next (desc (queue s)) (free_head (queue s)))).
Proof. intros _ Hn. unfold free. destruct (Z.to_nat (num_free (queue s))) as [|k] eqn:Hk; [lia|]. cbn [free_list]. do 2 f_equal. lia. Qed.

Lemma alloc_desc_run s owned : layout (queue s) -> descs_ok s owned ->
  if decide (lenZ owned = size (queue s)) then virtqueue_alloc_desc (Some tt) s = Ret (-1) s []
  else exists i s', virtqueue_alloc_desc (Some tt) s = Ret i s' [] /\ (i ∉ owned) /\ 0 <= i < size (queue s) /\
    same_queue s s' /\ rings_kept s s' /\ descs_ok s' (i :: owned).
Proof.
  intros Hly Hok. pose proof Hly as []. pose proof Hok as [Hd Hr Hc H0]. pose proof (lenZ_nonneg owned). unfold virtqueue_alloc_desc. krun. cbn [is_null orb].
  case_decide as Hfull; [by rewrite (proj2 (Z.eqb_eq _ _)) by lia|]. rewrite (proj2 (Z.eqb_neq _ _)) by lia. cbv zeta. krun.
  pose proof (free_cons s owned Hok ltac:(lia)) as Hfree. set (h := free_head (queue s)) in *. set (next := ld 2 (mem_of s) (desc_next (desc (queue s)) h)) in *.
  assert (Hh : 0 <= h < size (queue s)) by (apply Hr; rewrite Hfree; constructor).
  rewrite Hfree in Hd, Hr. rewrite <- app_comm_cons in Hd. apply NoDup_cons in Hd as [Hnew Hd].
  set (tl := free_list _ (mem_of s) _ next) in *. eexists h, _. split; [reflexivity|]. split; [intros Hin; apply Hnew, elem_of_app; by right|]. split; [done|].
  match goal with |- same_queue s ?s1 /\ _ => set (s' := s1) end.
  assert (Hsame : same_queue s s').
  { set (s1 := set_queue (set_num_free (u16 (num_free (queue s) - 1)) (set_free_head next (queue s))) s).
    assert (H1 : same_queue s s1) by (split; try done; by destruct s as [? []]).
    assert (H2 : same_queue s1 (poke 2 (desc_next (desc (queue s)) h) 0 s1)) by (apply poke_same; unfold desc_next; cbn; lia).
    eapply same_queue_trans; [exact H1|]. eapply same_queue_trans; [exact H2|]. apply poke_same; unfold desc_flags; cbn; lia. }
  split; [done|]. split.
  { split; [done|]. intros x Hx. subst s'. cbn. unfold st, desc_next, desc_flags.
    repeat match goal with |- context [?a <=? ?b] => destruct (Z.leb_spec a b) | |- context [?a <? ?b] => destruct (Z.ltb_spec a b) end; cbn [andb]; done || lia. }
  assert (Hfree' : free s' = tl).
  { unfold free, tl. subst s'. cbn [queue set_v_mm poke set_queue num_free set_num_free free_head set_free_head desc]. rewrite u16_small by lia. apply free_list_ext. intros i Hi.
    assert (Hne : i <> h) by (intros ->; apply Hnew, elem_of_app; by left). cbn. unfold desc_next, desc_flags. rewrite !ld_st_other by lia. done. }
  split; rewrite ?Hfree'.
  - rewrite <- Permutation_middle. by apply NoDup_cons.
  - intros i Hi. rewrite <- Permutation_middle in Hi. rewrite (sq_size _ _ Hsame). by apply Hr.
  - subst s'. cbn. rewrite lenZ_cons, u16_small by lia. lia.
  - subst s'. cbn. rewrite u16_small by lia. lia.
Qed.

Lemma free_desc_run s owned i : layout (queue s) -> descs_ok s (i :: owned) ->
  exists s', virtqueue_free_desc i s = Ret tt s' [] /\ same_queue s s' /\ rings_kept s s' /\ descs_ok s' owned.
Proof.
  intros Hly Hok. pose proof Hly as []. pose proof Hok as [Hd Hr Hc H0]. rewrite lenZ_cons in Hc. pose proof (lenZ_nonneg owned).
  assert (Hi : 0 <= i < size (queue s)) by (apply Hr, elem_of_app; right; constructor).
  rewrite <- Permutation_middle in Hd. apply NoDup_cons in Hd as [Hnew Hd].
  unfold virtqueue_free_desc. krun. eexists. split; [reflexivity|]. match goal with |- same_queue s ?s1 /\ _ => set (s' := s1) end.
  assert (Hsame : same_queue s s').
  { set (s1 := poke 2 (desc_next (desc (queue s)) i) (free_head (queue s)) s).
    assert (H1 : same_queue s s1) by (apply poke_same; unfold desc_next; cbn; lia).
    assert (H2 : same_queue s1 (poke 2 (desc_flags (desc (queue s)) i) 0 s1)) by (apply poke_same; unfold desc_flags; cbn; lia).
    eapply same_queue_trans; [exact H1|]. eapply same_queue_trans; [exact H2|]. by split. }
  split; [done|]. split.
  { split; [done|]. intros x Hx. subst s'. cbn. unfold st, desc_next, desc_flags.
    repeat match goal with |- context [?a <=? ?b] => destruct (Z.leb_spec a b) | |- context [?a <? ?b] => destruct (Z.ltb_spec a b) end; cbn [andb]; done || lia. }
  assert (Hfree' : free s' = i :: free s).
  { unfold free at 1. subst s'. cbn [queue set_v_mm poke set_queue num_free set_num_free free_head set_free_head desc]. rewrite u16_small by lia.
    replace (Z.to_nat (num_free (queue s) + 1)) with (S (Z.to_nat (num_free (queue s)))) by lia. cbn [free_list].
    assert (Hhead : num_free (queue s) <> 0 -> 0 <= free_head (queue s) < size (queue s)).
    { intros Hn. apply Hr. rewrite (free_cons s (i :: owned) Hok) by lia. constructor. }
    f_equal. destruct (Z.eq_dec (num_free (queue s)) 0) as [Hz|Hz]; [unfold free; rewrite Hz; done|].
    assert (Hnext : ld 2 (mem_of (set_queue (set_num_free (num_free (queue s) + 1) (set_free_head i (queue s))) (poke 2 (desc_flags (desc (queue s)) i) 0 (poke 2 (desc_next (desc (queue s)) i) (free_head (queue s)) s)))) (desc_next (desc (queue s)) i) = free_head (queue s)).
    { cbn. unfold desc_next, desc_flags. specialize (Hhead Hz). rewrite ld_st_other by lia. apply ld_st_same. change (256 ^ Z.of_nat 2) with 65536. lia. }
    cbn in Hnext. cbn. rewrite Hnext. unfold free. apply free_list_ext. intros j Hj.
    assert (Hne : j <> i) by (intros ->; apply Hnew, elem_of_app; by left). unfold desc_next, desc_flags. rewrite !ld_st_other by lia. done. }
  split; rewrite ?Hfree'.
  - rewrite <- app_comm_cons. by apply NoDup_cons.
  - intros j Hj. rewrite (sq_size _ _ Hsame). apply Hr. rewrite <- Permutation_middle. by rewrite <- app_comm_cons in Hj.
  - subst s'. cbn. rewrite u16_small by lia. lia.
  - subst s'. cbn. rewrite u16_small by lia. lia.
Qed.

(** *** Submitting and completing requests *)

Lemma slot_ne n a b : 0 < n -> 0 < a - b < n -> a mod n <> b mod n.
Proof.
  intros Hn Hab He. pose proof (Z.div_mod a n ltac:(lia)). pose proof (Z.div_mod b n ltac:(lia)). set (q := a / n - b / n) in *.
  assert (Hq : n * q = a - b) by (unfold q; lia). destruct (Z.le_gt_cases q 0); [pose proof (Z.mul_nonneg_nonpos n q)|pose proof (Z.mul_le_mono_nonneg_l 1 q n)]; lia.
Qed.

Lemma slot_of n len : (n | 2 ^ 16) -> 0 < n <= 157 -> u16 (u16 len mod n) = len mod n.
Proof.
  intros Hd Hn. unfold u16 at 2. rewrite Z.mod_mod_divide by done. apply u16_small. pose proof (Z.mod_pos_bound len n ltac:(lia)). lia.
Qed.

Lemma u16_succ x : u16 (u16 x + 1) = u16 (x + 1).
Proof. unfold u16. by rewrite Z.add_mod_idemp_l. Qed.

Lemma u16_near a b : 0 <= b - a <= 157 -> u16 a = u16 b -> a = b.
Proof.
  unfold u16. change (2 ^ 16) with 65536. intros H He. pose proof (Z.div_mod a 65536). pose proof (Z.div_mod b 65536). lia.
Qed.

Lemma rd_snoc {A} (l : list A) x k : rd (l ++ [x]) k = if decide (k = lenZ l) then Some x else rd l k.
Proof.
  case_decide as Hk; [subst; apply rd_at|]. destruct (decide (0 <= k < lenZ l)) as [Hin|Hout].
  - unfold rd, lenZ in *. destruct (0 <=? k); [|done]. apply lookup_app_l. lia.
  - rewrite !rd_out; [done|done|]. rewrite lenZ_app. change (lenZ [x]) with 1. lia.
Qed.

(** A field stored behind the table of descriptors. *)
Lemma ring_poke n a v s : layout (queue s) -> avail (queue s) <= a -> table_kept s (poke n a v s).
Proof. intros [] H1 x Hx. cbn. unfold st. destruct (Z.leb_spec a x), (Z.ltb_spec x (a + Z.of_nat n)); cbn [andb]; done || lia. Qed.

Lemma submit_run s head submitted completed popped : layout (queue s) -> rings_ok s submitted completed popped -> 0 <= head < 2 ^ 16 ->
  exists s', virtqueue_submit head s = Ret tt s' [] /\ same_queue s s' /\ same_cursor s s' /\ table_kept s s' /\ rings_ok s' (submitted ++ [head]) completed popped.
Proof.
  intros Hly Hok Hhead. pose proof Hly as []. pose proof Hok as [Hd Hai Ha Hui Hlu Hp Hu]. set (len := lenZ submitted) in *.
  unfold virtqueue_submit. krun. rewrite Hai. rewrite (proj2 (Z.eqb_neq (size (queue s)) 0)) by lia. rewrite (bind_deref_Some _ _ _ _ eq_refl). rewrite slot_of by done.
  set (slot := len mod size (queue s)). assert (Hslot : 0 <= slot < size (queue s)) by (apply Z.mod_pos_bound; lia). krun. unfold virtqueue_barrier. krun.
  set (s1 := poke 2 (avail_ring (queue s) + 2 * slot) head s).
  assert (Hidx : ld 2 (mem_of s1) (avail_idx (avail (queue s))) = u16 len) by (cbn; unfold avail_idx in *; rewrite ld_st_other by lia; done).
  rewrite Hidx, u16_succ. set (s2 := poke 2 (avail_idx (avail (queue s))) (u16 (len + 1)) s1).
  assert (H1 : same_queue s s1) by (apply poke_same; lia). assert (H2 : same_queue s1 s2) by (apply poke_same; unfold avail_idx; cbn; lia).
  assert (Hsame : same_queue s s2) by (by eapply same_queue_trans). pose proof (same_layout _ _ Hsame Hly) as Hly2.
  destruct (page_sync_device_run s2 Hly2) as [u Hsync]. rewrite (bind_Ret_nil _ _ _ _ _ Hsync). unfold virtqueue_barrier, ret.
  exists (set_v_mmu u s2). split; [done|]. split; [by destruct Hsame|]. split; [done|]. split.
  { intros x Hx. change (mem_of (set_v_mmu u s2) x) with (mem_of s2 x). unfold s2. rewrite (ring_poke 2 (avail_idx (avail (queue s))) _ s1 (same_layout _ _ H1 Hly)) by (unfold avail_idx; cbn; lia || exact Hx). apply ring_poke; [done|lia|done]. }
  assert (Hmod : forall k, 0 <= k mod size (queue s) < size (queue s)) by (intros k; apply Z.mod_pos_bound; lia).
  pose proof (u16_bound (len + 1)) as Hub.
  split; unfold avail_at, used_at, elem_id, elem_len, avail_idx, used_idx in *; cbn; rewrite ?lenZ_app; change (lenZ [head]) with 1; fold len; try done.
  - apply ld_st_same. exact Hub.
  - intros k Hk Hk0. rewrite rd_snoc. fold len. specialize (Hmod k). rewrite ld_st_other by lia. case_decide as He.
    + subst k. fold slot. f_equal. symmetry. by apply ld_st_same.
    + assert (Hne : k mod size (queue s) <> slot) by (apply not_eq_sym, slot_ne; lia). rewrite ld_st_other by lia. apply Ha; lia.
  - rewrite !ld_st_other by lia. done.
  - intros k Hk. specialize (Hmod k). rewrite !ld_st_other by lia. by apply Hu.
Qed.

(** What the device does when it is done with a request: an element behind the
    others, then the index. *)
Definition device_complete (e : Z * Z) (s : vio) : vio :=
  let slot := ld 2 (mem_of s) (used_idx (used (queue s))) mod size (queue s) in
  poke 2 (used_idx (used (queue s))) (u16 (ld 2 (mem_of s) (used_idx (used (queue s))) + 1))
    (poke 4 (elem_len (used_ring (queue s)) slot) e.2 (poke 4 (elem_id (used_ring (queue s)) slot) e.1 s)).

Lemma complete_run s e submitted completed popped : layout (queue s) -> rings_ok s submitted completed popped ->
  0 <= e.1 < 2 ^ 32 -> 0 <= e.2 < 2 ^ 32 -> lenZ completed < popped + size (queue s) ->
  let s' := device_complete e s in same_queue s s' /\ same_cursor s s' /\ table_kept s s' /\ rings_ok s' submitted (completed ++ [e]) popped.
Proof.
  intros Hly Hok He1 He2 Hroom s'. pose proof Hly as []. pose proof Hok as [Hd Hai Ha Hui Hlu Hp Hu]. set (len := lenZ completed) in *.
  unfold s', device_complete. cbv zeta. rewrite Hui, u16_succ.
  assert (Hmm : u16 len mod size (queue s) = len mod size (queue s)) by (unfold u16; by rewrite Z.mod_mod_divide). rewrite !Hmm.
  set (slot := len mod size (queue s)). assert (Hslot : 0 <= slot < size (queue s)) by (apply Z.mod_pos_bound; lia).
  set (s1 := poke 4 (elem_id (used_ring (queue s)) slot) e.1 s). set (s2 := poke 4 (elem_len (used_ring (queue s)) slot) e.2 s1).
  assert (H1 : same_queue s s1) by (apply poke_same; unfold elem_id; lia). assert (H2 : same_queue s1 s2) by (apply poke_same; unfold elem_len; cbn; lia).
  split; [eapply same_queue_trans; [exact H1|]; eapply same_queue_trans; [exact H2|]; apply poke_same; unfold used_idx; cbn; lia|]. split; [done|]. split.
  { intros x Hx. pose proof (same_layout _ _ H1 Hly) as Hly1. pose proof (same_layout _ _ H2 Hly1) as Hly2.
    rewrite (ring_poke _ _ _ s2 Hly2) by (unfold used_idx; cbn; lia || exact Hx). unfold s2. rewrite (ring_poke _ _ _ s1 Hly1) by (unfold elem_len; cbn; lia || exact Hx).
    apply ring_poke; [done|unfold elem_id; lia|done]. }
  assert (Hmod : forall k, 0 <= k mod size (queue s) < size (queue s)) by (intros k; apply Z.mod_pos_bound; lia).
  pose proof (u16_bound (len + 1)) as Hub.
  split; unfold avail_at, used_at, elem_id, elem_len, avail_idx, used_idx in *; cbn; rewrite ?lenZ_app; change (lenZ [e]) with 1; fold len; try done.
  - rewrite !ld_st_other by lia. done.
  - intros k Hk Hk0. specialize (Hmod k). rewrite !ld_st_other by lia. by apply Ha.
  - apply ld_st_same. exact Hub.
  - lia.
  - intros k Hk. rewrite rd_snoc. fold len. specialize (Hmod k). rewrite !(ld_st_other 4 2) by lia. case_decide as He.
    + subst k. fold slot. rewrite (ld_st_other 4 4) by lia. rewrite !ld_st_same by done. by destruct e.
    + assert (Hne : k mod size (queue s) <> slot) by (apply not_eq_sym, slot_ne; lia). rewrite !ld_st_other by lia. apply Hu. lia.
Qed.

Lemma pop_run s submitted completed popped : layout (queue s) -> rings_ok s submitted completed popped ->
  exists s', virtqueue_pop_used s = Ret (rd completed popped) s' [] /\ same_queue s s' /\ same_cursor s s' /\ mem_of s' = mem_of s /\
    rings_ok s' submitted completed (if decide (popped = lenZ completed) then popped else popped + 1).
Proof.
  intros Hly Hok. pose proof Hly as []. pose proof Hok as [Hd Hai Ha Hui Hlu Hp Hu]. unfold virtqueue_pop_used, pop_check. rewrite bind_assoc.
  destruct (page_sync_cpu_run s Hly) as [u Hsync]. rewrite (bind_Ret_nil _ _ _ _ _ Hsync). set (s1 := set_v_mmu u s). rewrite bind_assoc. unfold virtqueue_barrier. krun.
  rewrite bind_assoc. krun. rewrite bind_assoc. krun. change (queue s1) with (queue s). change (mem_of s1) with (mem_of s). rewrite Hui, Hlu.
  assert (H1 : same_queue s s1) by (split; try done; by destruct s as [? []]).
  destruct (Z.eqb_spec (u16 popped) (u16 (lenZ completed))) as [Heq|Hne]; cbn [negb]; cbn iota.
  - assert (popped = lenZ completed) as Hpc by (apply u16_near; [lia|done]). rewrite decide_True by done. rewrite rd_out by lia. exists s1. split; [done|]. split; [done|]. split; [done|]. split; [done|].
    by apply (rings_frame s).
  - assert (Hpc : popped <> lenZ completed) by congruence. rewrite decide_False by done. unfold pop_take. rewrite bind_assoc. krun. change (queue s1) with (queue s).
    rewrite Hlu, (proj2 (Z.eqb_neq (size (queue s)) 0)) by lia. rewrite bind_assoc. rewrite (bind_deref_Some _ _ _ _ eq_refl). rewrite slot_of by done.
    rewrite bind_assoc. krun. rewrite bind_assoc. krun. rewrite bind_assoc. krun. rewrite bind_assoc. krun. change (queue s1) with (queue s). rewrite Hlu, u16_succ.
    change (mem_of s1) with (mem_of s). eexists. split; [rewrite (Hu popped) by lia; reflexivity|]. split; [split; try done; by destruct s as [? []]|]. split; [done|]. split; [done|].
    split; try done; [cbn; lia|]. intros k Hk. apply Hu. lia.
Qed.

(** ** Setting a queue up *)

Lemma ld_zero n r : forall a, (forall x, a <= x < a + Z.of_nat n -> r x = 0) -> ld n r a = 0.
Proof.
  induction n as [|n IH]; intros a Hz; [done|]. change (ld (S n) r a) with (u8 (r a) + 256 * ld n r (a + 1)). rewrite (Hz a) by lia. rewrite IH; [done|]. intros x Hx. apply Hz. lia.
Qed.

Lemma free_list_seq k r d : forall h, (forall i, h <= i < h + Z.of_nat k - 1 -> ld 2 r (desc_next d i) = i + 1) -> free_list k r d h = seqZ h (Z.of_nat k).
Proof.
  induction k as [|k IH]; intros h Hn; [done|]. rewrite seqZ_cons by lia. cbn [free_list]. rewrite Nat2Z.inj_succ, Z.pred_succ. destruct k as [|k]; [done|].
  rewrite (Hn h) by lia. rewrite <- Z.add_1_r. f_equal. apply IH. intros i Hi. apply Hn. lia.
Qed.

Lemma used_offset_small n : 0 < n < 2 ^ 16 -> 18 * n + 6 <= virtqueue_align_up (16 * n + (4 + 2 * n + 2)) 4 < 18 * n + 10.
Proof.
  intros Hn. unfold virtqueue_align_up. rewrite !u64_small by (rewrite ?u64_small; lia). change (4 - 1) with (2 ^ 2 - 1). rewrite land_not64 by lia.
  change (2 ^ 2) with 4. Z.div_mod_to_equations. lia.
Qed.

Lemma link_loop_run k : forall s, layout (queue s) -> 0 <= free_head (queue s) < size (queue s) -> size (queue s) - free_head (queue s) <= Z.of_nat k ->
  (forall i, 0 <= i < free_head (queue s) -> ld 2 (mem_of s) (desc_next (desc (queue s)) i) = i + 1) ->
  exists s', link_loop k (size (queue s)) s = Ret tt s' [] /\ same_queue s s' /\ rings_kept s s' /\ num_free (queue s') = num_free (queue s) /\
    free_head (queue s') = size (queue s) - 1 /\
    forall i, 0 <= i < size (queue s) - 1 -> ld 2 (mem_of s') (desc_next (desc (queue s)) i) = i + 1.
Proof.
  induction k as [|k IH]; intros s Hly Hh Hk Hlinked; [lia|]. pose proof Hly as []. cbn [link_loop]. krun. set (n := size (queue s)) in *. set (h := free_head (queue s)) in *.
  rewrite (u32_small (n - 1)), (u16_small (n - 1)) by lia. destruct (Z.ltb_spec h (n - 1)) as [Hlt|Hge].
  2:{ exists s. split; [done|]. split; [apply same_queue_refl|]. split; [done|]. split; [done|]. split; [lia|]. intros i Hi. apply Hlinked. lia. }
  krun. rewrite u16_small by lia. set (s0 := poke 2 (desc_next (desc (queue s)) h) (h + 1) s). set (s1 := set_queue (set_free_head (h + 1) (queue s)) s0).
  assert (H0 : same_queue s s0) by (apply poke_same; unfold desc_next; lia). assert (H1 : same_queue s s1) by (by destruct H0).
  destruct (IH s1) as (s' & Hrun & Hsame & [Hl Hkept] & Hnum & Hhead & Hall).
  - by eapply same_layout.
  - cbn. lia.
  - cbn. fold n. lia.
  - intros i Hi. cbn in Hi. cbn. unfold desc_next. destruct (Z.eq_dec i h) as [->|Hne].
    + apply ld_st_same. change (256 ^ Z.of_nat 2) with 65536. lia.
    + rewrite ld_st_other by lia. apply Hlinked. lia.
  - exists s'. change (size (queue s1)) with n in *. change (desc (queue s1)) with (desc (queue s)) in *. split; [exact Hrun|]. split; [by eapply same_queue_trans|].
    split; [|done]. split; [done|]. intros a Ha. rewrite Hkept by exact Ha. cbn. unfold st, desc_next.
    destruct (Z.leb_spec (desc (queue s) + 16 * h + 14) a), (Z.ltb_spec a (desc (queue s) + 16 * h + 14 + Z.of_nat 2)); cbn [andb]; done || lia.
Qed.

Section setup.
Context (plat : platform) (Hplat : plat_wf plat).

(** A fresh queue of [n] descriptors in a page that was free. *)
Record fresh_queue (s s' : vio) (n : Z) : Prop := {
  fq_layout : layout (queue s');
  fq_size : size (queue s') = n;
  fq_descs : descs_ok s' [];
  fq_rings : (n | 2 ^ 16) -> rings_ok s' [] [] 0;
  fq_page : exists p, 0 <= p < pmm_page_count (v_mm s) /\ page (queue s') = page_addr plat p /\ page_used (v_mm s) p = false /\
    forall q, 0 <= q -> page_used (v_mm s') q = (q =? p) || page_used (v_mm s) q;
  fq_pmm : pmm_on plat (v_mm s');
  fq_outside : forall a, ~ page (queue s') <= a < page (queue s') + 4096 -> mem_of s' a = mem_of s a
}.

Lemma virtqueue_init_run s n : pmm_on plat (v_mm s) -> 0 <= n < 2 ^ 16 ->
  (0 < n <= 157 /\ exists s', virtqueue_init plat (Some tt) n s = Ret 0 s' [] /\ fresh_queue s s' n) \/
  ((n = 0 \/ 157 < n \/ forall q, 0 <= q < pmm_page_count (v_mm s) -> page_used (v_mm s) q = true) /\ virtqueue_init plat (Some tt) n s = Ret (-1) s []).
Proof using Hplat.
  intros Hon Hn. unfold virtqueue_init. cbn [is_null orb]. destruct (Z.eqb_spec n 0) as [->|Hn0]; [by right; split; [left|]|].
  pose proof (used_offset_small n ltac:(lia)) as Hoff. unfold sizeof_virtq_desc, sizeof_virtq_avail, sizeof_virtq_used, sizeof_virtq_used_elem, PMM_PAGE_SIZE. cbv zeta.
  set (off := virtqueue_align_up _ 4) in *. rewrite (u64_small (off + (4 + 8 * n + 2))) by lia.
  assert (Hfit : (4096 <? off + (4 + 8 * n + 2)) = (157 <? n)).
  { destruct (Z.ltb_spec 157 n) as [Hbig|Hsmall]; [apply Z.ltb_lt; destruct (Z.eq_dec n 158) as [->|]; [by vm_compute|lia]|].
    apply Z.ltb_ge. destruct (Z.eq_dec n 157) as [->|]; [by vm_compute|lia]. }
  rewrite Hfit. destruct (Z.ltb_spec 157 n) as [Hbig|Hsmall]; [right; split; [by right; left|done]|].
  destruct (pmm_alloc_page_cases plat (v_mm s) Hplat Hon) as [(p & m1 & Hp & Hlow & Hr & Ht & Hon1)|[Hall Hr]].
  2:{ right. split; [by right; right|]. rewrite (bind_Ret_nil _ _ _ _ _ (zoom_Ret v_mm set_v_mm _ s _ _ _ Hr)). destruct s. done. }
  left. split; [lia|]. destruct Ht as (Hfree & Hc1 & _ & _ & _ & _ & Hram & Hused). pose proof (page_addr_range plat (v_mm s) p Hplat Hon Hp) as Hrange.
  pose proof (pl_base plat Hplat) as Hbase. pose proof (pl_end plat Hplat) as Hend. set (pg := page_addr plat p) in *. unfold PMM_PAGE_SIZE in Hrange.
  rewrite (bind_Ret_nil _ _ _ _ _ (zoom_Ret v_mm set_v_mm _ s _ _ _ Hr)), (proj2 (Z.eqb_neq pg 0)) by lia.
  rewrite (bind_Ret_nil (clear pg 4096) _ _ tt _ eq_refl). krun. rewrite (u64_small (pg + 16 * n)), (u64_small (pg + 16 * n + 4)), (u64_small (pg + off)), (u64_small (pg + off + 4)) by lia. match goal with |- context [bind (link_loop _ _) _ ?x] => set (s1 := x) end.
  assert (Hzero : forall a, pg <= a < pg + 4096 -> mem_of s1 a = 0).
  { intros a Ha. cbn. by rewrite (proj2 (Z.leb_le pg a)), (proj2 (Z.ltb_lt a _)) by lia. }
  assert (Hly : layout (queue s1)) by (split; cbn; lia).
  destruct (link_loop_run (S (Z.to_nat n)) s1 Hly) as (s2 & Hrun & Hsame & Hkept & Hnum & Hhead & Hlinked); [cbn; lia|cbn; lia|cbn; lia|].
  change (size (queue s1)) with n in *. rewrite (bind_Ret_nil _ _ _ _ _ Hrun). krun. rewrite Hhead. pose proof (same_layout _ _ Hsame Hly) as Hly2.
  pose proof Hly2 as []. pose proof (sq_size _ _ Hsame) as Hsz. pose proof (sq_page _ _ Hsame) as Hpg. pose proof (sq_desc _ _ Hsame) as Hdesc. cbn in Hsz, Hpg, Hdesc.
  set (s3 := poke 2 (desc_next (desc (queue s2)) (n - 1)) 0 s2). assert (H3 : same_queue s2 s3) by (apply poke_same; unfold desc_next; lia).
  assert (Hk3 : rings_kept s2 s3) by (apply table_poke; unfold desc_next; lia || done).
  eexists. split; [reflexivity|]. set (s4 := set_queue _ s3). assert (H4 : same_queue s2 s4) by (by destruct H3).
  assert (Hsame4 : same_queue s1 s4) by (by eapply same_queue_trans).
  assert (Hring : forall a, avail (queue s1) <= a < page (queue s1) + 4096 -> mem_of s4 a = mem_of s1 a).
  { intros a Ha. destruct Hkept as [_ Hkept], Hk3 as [_ Hk3]. change (mem_of s4) with (mem_of s3). rewrite Hk3; [by apply Hkept|]. rewrite (sq_avail _ _ Hsame), Hpg. exact Ha. }
  assert (Hfree4 : free s4 = seqZ 0 n).
  { unfold free. change (num_free (queue s4)) with (num_free (queue s2)). rewrite Hnum. change (num_free (queue s1)) with n. change (free_head (queue s4)) with 0.
    change (desc (queue s4)) with (desc (queue s2)). rewrite free_list_seq; [by rewrite Z2Nat.id by lia|]. intros i Hi. rewrite Z2Nat.id in Hi by lia. change (mem_of s4) with (mem_of s3). cbn.
    unfold desc_next. rewrite ld_st_other by lia. rewrite Hdesc. apply Hlinked. lia. }
  assert (Hnum4 : num_free (queue s4) = n) by exact Hnum. assert (Hsize4 : size (queue s4) = n) by exact Hsz.
  pose proof (same_layout _ _ Hsame4 Hly) as Hly4. split; [done|done| | | | |].
  - split; rewrite ?Hfree4, ?app_nil_r, ?Hnum4, ?Hsize4; [apply NoDup_seqZ|intros i Hi%elem_of_seqZ; lia|unfold lenZ; cbn; lia|lia].
  - intros Hdiv. assert (Hld0 : forall a, avail (queue s1) <= a -> a + 2 <= page (queue s1) + 4096 -> ld 2 (mem_of s4) a = 0).
    { intros a H1 H2. apply ld_zero. intros x Hx. rewrite Hring by lia. apply Hzero. cbn in H1, H2. lia. }
    split; rewrite ?Hsize4; try (unfold lenZ; cbn; done || lia).
    + apply Hld0; rewrite (sq_avail _ _ Hsame4); unfold avail_idx; cbn; lia.
    + apply Hld0; rewrite (sq_used _ _ Hsame4); unfold used_idx; cbn; lia.
    + destruct Hkept as [Hl _]. exact Hl.
  - exists p. split; [done|]. split; [exact Hpg|]. split; [done|]. intros q Hq. rewrite (sq_mm _ _ Hsame4). by apply Hused.
  - rewrite (sq_mm _ _ Hsame4). by destruct Hon1 as [[? [] ?] ?].
  - intros a Ha. assert (Ha1 : ~ page (queue s1) <= a < page (queue s1) + 4096) by (rewrite <- (sq_page _ _ Hsame4); exact Ha).
    rewrite (sq_outside _ _ Hsame4) by exact Ha1. cbn in Ha1. cbn. rewrite Hram. destruct (Z.leb_spec pg a), (Z.ltb_spec a (pg + 4096)); cbn [andb]; done || lia.
Qed.
End setup.

(** ** Runs of a driver and a device *)

(** A queue with what its users know: the descriptors the driver owns, the heads
    it submitted, the elements it took, and those the device completed since. *)
Record shared : Type := Shared { at_queue : vio; owned : list Z; submitted : list Z; delivered : list (Z * Z); pending : list (Z * Z) }.

(** The driver allocates, frees and fills in descriptors it owns, submits and
    takes elements; the device completes requests while the ring has room; the
    memory outside the page changes at will. *)
Inductive vq_step : shared -> shared -> Prop :=
| StepAlloc s o sub (d : list (Z * Z)) (p : list (Z * Z)) i s' : virtqueue_alloc_desc (Some tt) s = Ret i s' [] -> i <> -1 ->
    vq_step (Shared s o sub d p) (Shared s' (i :: o) sub d p)
| StepFree s o o' sub (d : list (Z * Z)) (p : list (Z * Z)) i s' : o ≡ₚ i :: o' -> virtqueue_free_desc i s = Ret tt s' [] ->
    vq_step (Shared s o sub d p) (Shared s' o' sub d p)
| StepFill s o sub (d : list (Z * Z)) (p : list (Z * Z)) i n a v : i ∈ o -> desc (queue s) + 16 * i <= a -> a + Z.of_nat n <= desc (queue s) + 16 * i + 16 ->
    vq_step (Shared s o sub d p) (Shared (poke n a v s) o sub d p)
| StepSubmit s o sub (d : list (Z * Z)) (p : list (Z * Z)) head s' : 0 <= head < 2 ^ 16 -> virtqueue_submit head s = Ret tt s' [] ->
    vq_step (Shared s o sub d p) (Shared s' o (sub ++ [head]) d p)
| StepComplete s o sub d p e : 0 <= e.1 < 2 ^ 32 -> 0 <= e.2 < 2 ^ 32 -> lenZ p < size (queue s) ->
    vq_step (Shared s o sub d p) (Shared (device_complete e s) o sub d (p ++ [e]))
| StepPop s o sub d p e s' : virtqueue_pop_used s = Ret (Some e) s' [] ->
    vq_step (Shared s o sub d p) (Shared s' o sub (d ++ [e]) (tail p))
| StepPopNone s o sub (d : list (Z * Z)) (p : list (Z * Z)) s' : virtqueue_pop_used s = Ret None s' [] ->
    vq_step (Shared s o sub d p) (Shared s' o sub d p)
| StepOther s o sub (d : list (Z * Z)) (p : list (Z * Z)) r u : (forall a, page (queue s) <= a < page (queue s) + 4096 -> r a = mem_of s a) ->
    vq_step (Shared s o sub d p) (Shared (set_v_mmu u (set_v_mm (set_ram r (v_mm s)) s)) o sub d p).

Record shared_ok (c : shared) : Prop := {
  so_layout : layout (queue (at_queue c));
  so_descs : descs_ok (at_queue c) (owned c);
  so_rings : rings_ok (at_queue c) (submitted c) (delivered c ++ pending c) (lenZ (delivered c))
}.

Lemma table_rings s s' : layout (queue s) -> same_queue s s' -> same_cursor s s' -> table_kept s s' ->
  forall o, descs_ok s o -> layout (queue s') /\ descs_ok s' o.
Proof. intros Hly Hs Hc Ht o Hd. split; [by eapply same_layout|by eapply descs_frame]. Qed.

Lemma other_ok s r u : (forall a, page (queue s) <= a < page (queue s) + 4096 -> r a = mem_of s a) -> layout (queue s) ->
  forall o sub comp pop, descs_ok s o -> rings_ok s sub comp pop ->
  let s' := set_v_mmu u (set_v_mm (set_ram r (v_mm s)) s) in layout (queue s') /\ descs_ok s' o /\ rings_ok s' sub comp pop.
Proof.
  intros Hr Hly o sub comp pop [Hd Hrg Hc H0] [Hdv Hai Ha Hui Hlu Hp Hu] s'. pose proof Hly as [].
  assert (Hld : forall n a, page (queue s) <= a -> a + Z.of_nat n <= page (queue s) + 4096 -> ld n r a = ld n (mem_of s) a).
  { intros n a H1 H2. apply ld_ext. intros x Hx. apply Hr. lia. }
  assert (Hmod : forall k, 0 <= k mod size (queue s) < size (queue s)) by (intros k; apply Z.mod_pos_bound; lia).
  split; [done|]. split.
  - assert (He : free s' = free s).
    { unfold free. apply free_list_ext. intros i Hi. apply Hld; assert (Hir : 0 <= i < size (queue s)) by (apply Hrg, elem_of_app; by left); unfold desc_next; cbn; lia. }
    split; rewrite ?He; done.
  - split; unfold avail_idx, used_idx, avail_at, used_at, elem_id, elem_len in *; cbn; try done.
    + rewrite Hld by lia. done.
    + intros k H1 H2. rewrite Hld by (specialize (Hmod k); lia). by apply Ha.
    + rewrite Hld by lia. done.
    + intros k H1. rewrite !Hld by (specialize (Hmod k); lia). by apply Hu.
Qed.

Lemma vq_step_ok c c' : shared_ok c -> vq_step c c' -> shared_ok c'.
Proof.
  intros [Hly Hd Hr] Hs. destruct Hs as [s o sub d p i s' E Hi|s o o' sub d p i s' Ho E|s o sub d p i n a v Hin H1 H2|s o sub d p head s' Hh E|s o sub d p e He1 He2 Hroom
    |s o sub d p e s' E|s o sub d p s' E|s o sub d p r u Hm]; cbn [at_queue owned submitted delivered pending] in *.
  - pose proof (alloc_desc_run s o Hly Hd) as Ha. case_decide as Hf; [rewrite Ha in E; congruence|].
    destruct Ha as (i' & s1 & E1 & _ & _ & Hsame & Hk & Hd1). rewrite E1 in E. injection E as <- <-. split; cbn; [by eapply same_layout|done|by eapply rings_frame].
  - destruct (free_desc_run s o' i Hly) as (s1 & E1 & Hsame & Hk & Hd1); [by eapply descs_perm|]. rewrite E1 in E. injection E as <-.
    split; cbn; [by eapply same_layout|done|by eapply rings_frame].
  - pose proof Hly as []. assert (Hir : 0 <= i < size (queue s)) by (apply (do_range _ _ Hd), elem_of_app; by right).
    assert (Hsame : same_queue s (poke n a v s)) by (apply poke_same; lia). assert (Hk : rings_kept s (poke n a v s)) by (apply table_poke; done || lia).
    split; cbn [at_queue owned submitted delivered pending]; [by eapply same_layout| |by eapply rings_frame].
    destruct Hd as [Hdis Hrg Hcnt H0]. assert (He : free (poke n a v s) = free s).
    { unfold free. apply free_list_ext. intros j Hj. assert (Hjr : 0 <= j < size (queue s)) by (apply Hrg, elem_of_app; by left).
      assert (Hne : j <> i) by (intros ->; apply NoDup_app in Hdis as (_ & Hx & _); by apply (Hx i)). cbn. unfold desc_next. apply ld_st_other. lia. }
    split; rewrite ?He; done.
  - destruct (submit_run s head _ _ _ Hly Hr Hh) as (s1 & E1 & Hsame & Hcur & Ht & Hr1). rewrite E1 in E. injection E as <-.
    destruct (table_rings s s1 Hly Hsame Hcur Ht o Hd) as [H1 H2]. by split.
  - destruct (complete_run s e _ _ _ Hly Hr He1 He2) as (Hsame & Hcur & Ht & Hr1); [rewrite lenZ_app; lia|].
    destruct (table_rings s _ Hly Hsame Hcur Ht o Hd) as [H1 H2]. split; cbn; [done|done|by rewrite app_assoc].
  - destruct (pop_run s _ _ _ Hly Hr) as (s1 & E1 & Hsame & Hcur & Hm & Hr1). rewrite E1 in E. injection E as Hrd <-.
    assert (Ht : table_kept s s1) by (intros a _; by rewrite Hm). destruct (table_rings s s1 Hly Hsame Hcur Ht o Hd) as [H1 H2].
    destruct p as [|e' p']; [by rewrite app_nil_r, rd_out in Hrd by lia|]. rewrite rd_at in Hrd. injection Hrd as ->.
    rewrite decide_False in Hr1 by (rewrite lenZ_app, lenZ_cons; pose proof (lenZ_nonneg p'); lia). split; cbn; [done|done|]. rewrite <- app_assoc, lenZ_app. exact Hr1.
  - destruct (pop_run s _ _ _ Hly Hr) as (s1 & E1 & Hsame & Hcur & Hm & Hr1). rewrite E1 in E. injection E as Hrd <-.
    assert (Ht : table_kept s s1) by (intros a _; by rewrite Hm). destruct (table_rings s s1 Hly Hsame Hcur Ht o Hd) as [H1 H2].
    assert (Hp : p = []).
    { destruct p as [|e p]; [done|]. by rewrite rd_at in Hrd. }
    subst p. rewrite app_nil_r, decide_True in Hr1 by done. by split; cbn; rewrite ?app_nil_r.
  - destruct (other_ok s r u Hm Hly _ _ _ _ Hd Hr) as (H1 & H2 & H3). by split.
Qed.

(** What runs of a new queue of [n] descriptors lead to. *)
Definition vq_reach (plat : platform) (s : vio) (n : Z) (c : shared) : Prop :=
  exists s0, virtqueue_init plat (Some tt) n s = Ret 0 s0 [] /\ rtc vq_step (Shared s0 [] [] [] []) c.

Lemma vq_step_size c c' : shared_ok c -> vq_step c c' -> size (queue (at_queue c')) = size (queue (at_queue c)).
Proof.
  intros [Hly Hd Hr] Hs. destruct Hs as [s o sub d p i s' E Hi|s o o' sub d p i s' Ho E|s o sub d p i n a v Hin H1 H2|s o sub d p head s' Hh E|s o sub d p e He1 He2 Hroom
    |s o sub d p e s' E|s o sub d p s' E|s o sub d p r u Hm]; cbn [at_queue owned submitted delivered pending] in *; try done.
  - pose proof (alloc_desc_run s o Hly Hd) as Ha. case_decide as Hf; [congruence|]. destruct Ha as (i' & s1 & E1 & _ & _ & [] & _). congruence.
  - destruct (free_desc_run s o' i Hly) as (s1 & E1 & [] & _); [by eapply descs_perm|]. congruence.
  - destruct (submit_run s head _ _ _ Hly Hr Hh) as (s1 & E1 & [] & _). congruence.
  - destruct (pop_run s _ _ _ Hly Hr) as (s1 & E1 & [] & _). congruence.
  - destruct (pop_run s _ _ _ Hly Hr) as (s1 & E1 & [] & _). congruence.
Qed.

Lemma vq_reach_ok plat s n c : plat_wf plat -> pmm_on plat (v_mm s) -> 0 <= n < 2 ^ 16 -> (n | 2 ^ 16) -> vq_reach plat s n c ->
  shared_ok c /\ size (queue (at_queue c)) = n.
Proof.
  intros Hp Hon Hn Hdiv (s0 & Hi & Hrun). assert (Hok : shared_ok (Shared s0 [] [] [] []) /\ size (queue s0) = n).
  { destruct (virtqueue_init_run plat Hp s n Hon Hn) as [(_ & s1 & E & [Hly Hsz Hd Hr _ _ _])|[_ E]]; rewrite E in Hi; [injection Hi as <-|done].
    split; [split; cbn; [done|done|by apply Hr]|done]. }
  clear Hi. remember (Shared s0 [] [] [] []) as c0 eqn:E0. assert (Hs0 : size (queue (at_queue c0)) = n) by (subst; apply Hok). destruct Hok as [Hok _]. clear E0.
  induction Hrun as [|c0 c1 c2 Hs _ IH]; [done|]. pose proof (vq_step_size _ _ Hok Hs). apply IH; congruence || by eapply vq_step_ok.
Qed.

(** ** A pop between the two halves of another *)

Fixpoint pops (k : nat) : M vio (list (option (Z * Z))) :=
  match k with
  | O => ret []
  | S k' => r <- virtqueue_pop_used;; rs <- pops k';; ret (r :: rs)
  end.

Lemma pop_check_run s : layout (queue s) ->
  exists u, pop_check s = Ret (negb (last_used_idx (queue s) =? ld 2 (mem_of s) (used_idx (used (queue s))))) (set_v_mmu u s) [].
Proof.
  intros Hly. unfold pop_check. destruct (page_sync_cpu_run s Hly) as [u Hsync]. rewrite (bind_Ret_nil _ _ _ _ _ Hsync). unfold virtqueue_barrier. krun.
  by exists u.
Qed.

Lemma pop_take_run s : layout (queue s) -> (size (queue s) | 2 ^ 16) ->
  pop_take s = Ret (used_at s (last_used_idx (queue s))) (set_queue (set_last_used_idx (u16 (last_used_idx (queue s) + 1)) (queue s)) s) [].
Proof.
  intros [] Hd. unfold pop_take. krun. rewrite (proj2 (Z.eqb_neq (size (queue s)) 0)) by lia. rewrite (bind_deref_Some _ _ _ _ eq_refl). krun.
  rewrite (u16_small (last_used_idx (queue s) mod size (queue s))); [done|]. pose proof (Z.mod_pos_bound (last_used_idx (queue s)) (size (queue s)) ltac:(lia)). lia.
Qed.

Lemma pops_ahead k : forall s done0, layout (queue s) -> (size (queue s) | 2 ^ 16) -> ld 2 (mem_of s) (used_idx (used (queue s))) = u16 done0 ->
  (exists j, last_used_idx (queue s) = u16 (done0 + j) /\ 1 <= j /\ j + Z.of_nat k <= 65536) ->
  exists es s', pops k s = Ret (map Some es) s' [] /\ length es = k.
Proof.
  induction k as [|k IH]; intros s done0 Hly Hd Hidx (j & Hl & Hj & Hk); [by exists [], s|]. cbn [pops]. unfold virtqueue_pop_used. rewrite !bind_assoc.
  destruct (pop_check_run s Hly) as [u Hc]. rewrite (bind_Ret_nil _ _ _ _ _ Hc), Hl, Hidx. rewrite (proj2 (Z.eqb_neq _ _)); cycle 1.
  { unfold u16. change (2 ^ 16) with 65536. intros He. Z.div_mod_to_equations. lia. }
  cbn [negb]. cbn iota. rewrite bind_assoc. set (s1 := set_v_mmu u s). rewrite (bind_Ret_nil _ _ _ _ _ (pop_take_run s1 Hly Hd)). krun.
  change (queue s1) with (queue s). rewrite Hl, u16_succ. set (s2 := set_queue _ s1). destruct (IH s2 done0) as (es & s' & E & Hlen).
  - by destruct Hly.
  - done.
  - done.
  - exists (j + 1). split; [cbn; f_equal; lia|lia].
  - rewrite (bind_Ret_nil _ _ _ _ _ E). eexists (_ :: es), s'. split; [reflexivity|]. cbn. by rewrite Hlen.
Qed.

(** ** Properties *)

(** C5. In every state that a driver which frees only its own descriptors and
    a device that keeps to its ring lead to, an allocation succeeds
    exactly while some descriptor is not owned, and gives one that is not. *)
Theorem virtqueue_ownership plat s n c :
  plat_wf plat -> pmm_on plat (v_mm s) -> 0 <= n < 2 ^ 16 -> (n | 2 ^ 16) -> vq_reach plat s n c ->
  NoDup (owned c) /\ exists r s', virtqueue_alloc_desc (Some tt) (at_queue c) = Ret r s' [] /\
    ((r = -1 /\ s' = at_queue c /\ lenZ (owned c) = n) \/ (0 <= r < n /\ (r ∉ owned c) /\ lenZ (owned c) < n)).
Proof.
  intros Hp Hon Hn Hdiv Hr. destruct (vq_reach_ok plat s n c Hp Hon Hn Hdiv Hr) as [[Hly Hd _] Hsz]. split; [destruct Hd as [Hdis _ _ _]; by apply NoDup_app in Hdis as (_ & _ & Hx)|].
  pose proof (do_count _ _ Hd). pose proof (do_free _ _ Hd). pose proof (alloc_desc_run _ _ Hly Hd) as Ha. rewrite Hsz in *. case_decide as Hf.
  - exists (-1), (at_queue c). split; [done|]. by left.
  - destruct Ha as (i & s' & E & Hni & Hi & _). exists i, s'. split; [done|]. right. split; [done|]. split; [done|]. lia.
Qed.

(** C16. The rings are two first-in first-out channels: in every such state the
    device finds each of the last [n] heads the driver submitted in its slot, with
    the count of all of them, and the driver's next element is the oldest it
    has not taken, none exactly when there is none. *)
Theorem virtqueue_rings plat s n c :
  plat_wf plat -> pmm_on plat (v_mm s) -> 0 <= n < 2 ^ 16 -> (n | 2 ^ 16) -> vq_reach plat s n c ->
  ld 2 (mem_of (at_queue c)) (avail_idx (avail (queue (at_queue c)))) = u16 (lenZ (submitted c)) /\
  (forall k, 0 <= k -> lenZ (submitted c) - n <= k < lenZ (submitted c) -> rd (submitted c) k = Some (avail_at (at_queue c) k)) /\
  exists s', virtqueue_pop_used (at_queue c) = Ret (head (pending c)) s' [].
Proof.
  intros Hp Hon Hn Hdiv Hr. destruct (vq_reach_ok plat s n c Hp Hon Hn Hdiv Hr) as [[Hly _ Hrg] Hsz]. split; [apply Hrg|]. split.
  - intros k H0 Hk. apply (ro_avail _ _ _ _ Hrg); [by rewrite Hsz|done].
  - destruct (pop_run _ _ _ _ Hly Hrg) as (s' & E & _). exists s'. rewrite E. f_equal. destruct (pending c) as [|e p]; [rewrite app_nil_r; apply rd_out; lia|apply rd_at].
Qed.

(** C37. If an interrupt takes the only pending element between the two
    halves of a pop, that pop returns an element the device has not written, and
    so do the 65535 pops that follow. *)
Theorem virtqueue_pop_race plat s n c e :
  plat_wf plat -> pmm_on plat (v_mm s) -> 0 <= n < 2 ^ 16 -> (n | 2 ^ 16) -> vq_reach plat s n c -> pending c = [e] ->
  exists s1 s2 s3 es s4, pop_check (at_queue c) = Ret true s1 [] /\ virtqueue_pop_used s1 = Ret (Some e) s2 [] /\
    pop_take s2 = Ret (used_at (at_queue c) (u16 (lenZ (delivered c) + 1))) s3 [] /\ pops (Z.to_nat 65535) s3 = Ret (map Some es) s4 [] /\ lenZ es = 65535.
Proof.
  intros Hp Hon Hn Hdiv Hr He. destruct (vq_reach_ok plat s n c Hp Hon Hn Hdiv Hr) as [[Hly _ Hrg] Hsz]. rewrite He in Hrg. pose proof Hrg as [_ _ _ Hui Hlu _ _].
  rewrite lenZ_app in Hui. change (lenZ [e]) with 1 in Hui. set (k := lenZ (delivered c)) in *. destruct (pop_check_run _ Hly) as [u Hc]. rewrite Hlu, Hui in Hc.
  assert (Hne : (u16 k =? u16 (k + 1)) = false).
  { apply Z.eqb_neq. unfold u16. change (2 ^ 16) with 65536. Z.div_mod_to_equations. lia. }
  rewrite Hne in Hc. set (s1 := set_v_mmu u (at_queue c)) in *. assert (Hr1 : rings_ok s1 (submitted c) (delivered c ++ [e]) k) by (by destruct Hrg).
  destruct (pop_run s1 _ _ _ Hly Hr1) as (s2 & E2 & Hsame & _ & Hm & Hr2). unfold k in E2. rewrite rd_at in E2. rewrite decide_False in Hr2 by (rewrite lenZ_app; change (lenZ [e]) with 1; fold k; lia).
  pose proof (same_layout _ _ Hsame Hly) as Hly2. pose proof Hr2 as [Hd2 _ _ Hui2 Hlu2 _ _]. pose proof (pop_take_run s2 Hly2 Hd2) as E3. set (s3 := set_queue _ s2) in *.
  destruct (pops_ahead (Z.to_nat 65535) s3 (k + 1)) as (es & s4 & E4 & Hlen).
  - by destruct Hly2.
  - done.
  - rewrite lenZ_app in Hui2. exact Hui2.
  - exists 1. rewrite Z2Nat.id by lia. cbn [last_used_idx s3 set_queue queue set_last_used_idx]. rewrite Hlu2, u16_succ. split; [done|lia].
  - exists s1, s2, s3, es, s4. split; [exact Hc|]. split; [exact E2|]. split; [|split; [exact E4|unfold lenZ; rewrite Hlen; by apply Z2Nat.id]]. rewrite E3. f_equal. rewrite Hlu2. unfold used_at. rewrite Hm. destruct Hsame. by rewrite sq_used_ring0, sq_size0.
Qed.

(** ** A run *)

Definition blank_queue : vio := Vio (Virtqueue 0 0 0 0 0 0 0 0 0 0) tiny_mm (Mmu (fun _ => []) 0 0 0 0 0 []).

(** Set up, one request allocated and submitted, and completed by the device. *)
Lemma sample_run : exists c i, vq_reach tiny_plat blank_queue 8 c /\ owned c = [i] /\ submitted c = [0] /\ pending c = [(0, 1)].
Proof.
  assert (Hdiv : (8 | 2 ^ 16)) by (by exists 8192).
  destruct (virtqueue_init_run tiny_plat tiny_plat_wf blank_queue 8 tiny_pmm_on) as [(_ & s0 & E & [Hly Hsz Hd Hr _ _ _])|[[H|[H|H]] _]];
    [lia| |lia|lia|exfalso; specialize (H 1 ltac:(by vm_compute)); by vm_compute in H]. specialize (Hr Hdiv).
  pose proof (alloc_desc_run s0 [] Hly Hd) as Ha. rewrite decide_False in Ha by (rewrite Hsz; unfold lenZ; cbn; lia).
  destruct Ha as (i & s1 & E1 & _ & Hi & Hs1 & Hk1 & Hd1). pose proof (same_layout _ _ Hs1 Hly) as Hly1. pose proof (rings_frame _ _ _ _ _ Hly Hs1 Hk1 Hr) as Hr1.
  destruct (submit_run s1 0 _ _ _ Hly1 Hr1) as (s2 & E2 & Hs2 & Hc2 & Ht2 & Hr2); [lia|].
  exists (Shared (device_complete (0, 1) s2) [i] [0] [] [(0, 1)]), i. split; [|split; [reflexivity|split; reflexivity]]. exists s0. split; [done|].
  eapply rtc_l; [apply (StepAlloc _ _ _ _ _ i s1 E1); lia|]. eapply rtc_l; [apply (StepSubmit _ _ _ _ _ 0 s2); [lia|exact E2]|].
  eapply rtc_l; [|apply rtc_refl]. apply (StepComplete s2 [i] ([] ++ [0]) [] [] (0, 1)); [cbn; lia|cbn; lia|]. rewrite (sq_size _ _ Hs2), (sq_size _ _ Hs1), Hsz. unfold lenZ. cbn. lia.
Qed.

Lemma virtqueue_ownership_witness : exists c i r s', owned c = [i] /\ virtqueue_alloc_desc (Some tt) (at_queue c) = Ret r s' [] /\ r <> i.
Proof.
  destruct sample_run as (c & i & Hc & Ho & _ & _).
  destruct (virtqueue_ownership tiny_plat blank_queue 8 c tiny_plat_wf tiny_pmm_on ltac:(lia) ltac:(by exists 8192) Hc) as (_ & r & s' & E & Hr). exists c, i, r, s'. split; [done|]. split; [done|].
  rewrite Ho in Hr. intros ->. destruct Hr as [(_ & _ & Hl)|(_ & Hn & _)]; [done|]. apply Hn. constructor.
Defined.

Lemma virtqueue_rings_witness : exists c s', submitted c = [0] /\ avail_at (at_queue c) 0 = 0 /\ virtqueue_pop_used (at_queue c) = Ret (Some (0, 1)) s' [].
Proof.
  destruct sample_run as (c & i & Hc & _ & Hs & Hp).
  destruct (virtqueue_rings tiny_plat blank_queue 8 c tiny_plat_wf tiny_pmm_on ltac:(lia) ltac:(by exists 8192) Hc) as (_ & Ha & s' & E). exists c, s'. split; [done|].
  rewrite Hp in E. split; [|exact E]. rewrite Hs in Ha. specialize (Ha 0 ltac:(lia) ltac:(by vm_compute)). change (rd [0] 0) with (Some 0) in Ha. by injection Ha.
Defined.

Lemma virtqueue_pop_race_witness : exists c s1 s2 x s3, pending c = [(0, 1)] /\ pop_check (at_queue c) = Ret true s1 [] /\ virtqueue_pop_used s1 = Ret (Some (0, 1)) s2 [] /\ pop_take s2 = Ret x s3 [].
Proof.
  destruct sample_run as (c & i & Hc & _ & _ & Hp).
  destruct (virtqueue_pop_race tiny_plat blank_queue 8 c (0, 1) tiny_plat_wf tiny_pmm_on ltac:(lia) ltac:(by exists 8192) Hc Hp) as (s1 & s2 & s3 & es & s4 & H1 & H2 & H3 & _).
  exists c, s1, s2. eexists. exists s3. split; [exact Hp|]. split; [exact H1|]. split; [exact H2|exact H3].
Defined.
