(* ===== verification/Console.v ===== *)
(** The console (src/src/kernel/console.c): characters go to the serial port and
    to a grid of cells drawn on the framebuffer, with a cursor bar and the
    rectangle that changed since the last flush. Here the bytes an operation
    hands out are those for the serial port. *)
From S2P Require Import Prelude LibString Klog Memory BlockDevice Input Graphics.

Definition CONSOLE_SINK_SERIAL : Z := 1.
Definition CONSOLE_SINK_GRAPHICS : Z := 2.

Record gfx_console_state : Type := GfxConsole {
  con_fb : screen;
  cells : option (list Z);
  cols : Z;
  rows : Z;
  cursor_col : Z;
  cursor_row : Z;
  fg_color : Z;
  bg_color : Z;
  cursor_color : Z;
  dirty_x0 : Z;
  dirty_y0 : Z;
  dirty_x1 : Z;
  dirty_y1 : Z;
  dirty_valid : Z;
  cursor_visible : Z
}.
Definition zero_gfx : gfx_console_state := GfxConsole None None 0 0 0 0 0 0 0 0 0 0 0 0 0.
Definition set_con_fb (v : screen) (g : gfx_console_state) : gfx_console_state :=
  GfxConsole v (cells g) (cols g) (rows g) (cursor_col g) (cursor_row g) (fg_color g) (bg_color g) (cursor_color g) (dirty_x0 g) (dirty_y0 g) (dirty_x1 g) (dirty_y1 g) (dirty_valid g) (cursor_visible g).
Definition set_cells (v : option (list Z)) (g : gfx_console_state) : gfx_console_state :=
  GfxConsole (con_fb g) v (cols g) (rows g) (cursor_col g) (cursor_row g) (fg_color g) (bg_color g) (cursor_color g) (dirty_x0 g) (dirty_y0 g) (dirty_x1 g) (dirty_y1 g) (dirty_valid g) (cursor_visible g).
Definition set_grid_size (c r : Z) (g : gfx_console_state) : gfx_console_state :=
  GfxConsole (con_fb g) (cells g) c r (cursor_col g) (cursor_row g) (fg_color g) (bg_color g) (cursor_color g) (dirty_x0 g) (dirty_y0 g) (dirty_x1 g) (dirty_y1 g) (dirty_valid g) (cursor_visible g).
Definition set_cursor_col (v : Z) (g : gfx_console_state) : gfx_console_state :=
  GfxConsole (con_fb g) (cells g) (cols g) (rows g) v (cursor_row g) (fg_color g) (bg_color g) (cursor_color g) (dirty_x0 g) (dirty_y0 g) (dirty_x1 g) (dirty_y1 g) (dirty_valid g) (cursor_visible g).
Definition set_cursor_row (v : Z) (g : gfx_console_state) : gfx_console_state :=
  GfxConsole (con_fb g) (cells g) (cols g) (rows g) (cursor_col g) v (fg_color g) (bg_color g) (cursor_color g) (dirty_x0 g) (dirty_y0 g) (dirty_x1 g) (dirty_y1 g) (dirty_valid g) (cursor_visible g).
Definition set_colors (fg bg cur : Z) (g : gfx_console_state) : gfx_console_state :=
  GfxConsole (con_fb g) (cells g) (cols g) (rows g) (cursor_col g) (cursor_row g) fg bg cur (dirty_x0 g) (dirty_y0 g) (dirty_x1 g) (dirty_y1 g) (dirty_valid g) (cursor_visible g).
Definition set_dirty (x0 y0 x1 y1 : Z) (g : gfx_console_state) : gfx_console_state :=
  GfxConsole (con_fb g) (cells g) (cols g) (rows g) (cursor_col g) (cursor_row g) (fg_color g) (bg_color g) (cursor_color g) x0 y0 x1 y1 (dirty_valid g) (cursor_visible g).
Definition set_dirty_valid (v : Z) (g : gfx_console_state) : gfx_console_state :=
  GfxConsole (con_fb g) (cells g) (cols g) (rows g) (cursor_col g) (cursor_row g) (fg_color g) (bg_color g) (cursor_color g) (dirty_x0 g) (dirty_y0 g) (dirty_x1 g) (dirty_y1 g) v (cursor_visible g).
Definition set_cursor_visible (v : Z) (g : gfx_console_state) : gfx_console_state :=
  GfxConsole (con_fb g) (cells g) (cols g) (rows g) (cursor_col g) (cursor_row g) (fg_color g) (bg_color g) (cursor_color g) (dirty_x0 g) (dirty_y0 g) (dirty_x1 g) (dirty_y1 g) (dirty_valid g) v.

(** ** The grid on the screen *)

Definition on_fb {A} (m : M screen A) : M gfx_console_state A := zoom con_fb set_con_fb m.
Definition no_cells (g : gfx_console_state) : bool := is_null (con_fb g) || is_null (cells g).

Definition gfx_console_mark_dirty_rect (x y width height : Z) : M gfx_console_state unit :=
  fb <- gets con_fb;;
  match fb with
  | None => ret tt
  | Some f =>
      if (width =? 0) || (height =? 0) then ret tt
      else if (fb_width f <=? x) || (fb_height f <=? y) then ret tt
      else
        let x1 := u32 (x + width) in
        let y1 := u32 (y + height) in
        let x1 := if fb_width f <? x1 then fb_width f else x1 in
        let y1 := if fb_height f <? y1 then fb_height f else y1 in
        valid <- gets dirty_valid;;
        if valid =? 0 then modify (set_dirty x y x1 y1);; modify (set_dirty_valid 1)
        else
          modify (fun g => set_dirty (if x <? dirty_x0 g then x else dirty_x0 g) (if y <? dirty_y0 g then y else dirty_y0 g)
            (if dirty_x1 g <? x1 then x1 else dirty_x1 g) (if dirty_y1 g <? y1 then y1 else dirty_y1 g) g)
  end.

Definition gfx_console_index (g : gfx_console_state) (col row : Z) : Z := u32 (u32 (row * cols g) + col).

Definition gfx_console_cell_char (col row : Z) : M gfx_console_state Z :=
  g <- gets id;;
  cs <- deref (cells g);;
  c <- deref (rd cs (gfx_console_index g col row));;
  ret (if c =? 0 then ch " " else c).
Definition set_cell (col row c : Z) : M gfx_console_state unit :=
  g <- gets id;;
  cs <- deref (cells g);;
  cs1 <- deref (wr cs (gfx_console_index g col row) c);;
  modify (set_cells (Some cs1)).

Definition gfx_console_draw_cell (col row : Z) : M gfx_console_state unit :=
  g <- gets id;;
  if no_cells g || (cols g <=? col) || (rows g <=? row) then ret tt
  else
    let x := u32 (col * GFX_FONT_WIDTH) in
    let y := u32 (row * GFX_FONT_HEIGHT) in
    c <- gfx_console_cell_char col row;;
    on_fb (gfx_draw_char (i32 x) (i32 y) c (fg_color g) (bg_color g));;
    gfx_console_mark_dirty_rect x y GFX_FONT_WIDTH GFX_FONT_HEIGHT.

Definition gfx_console_hide_cursor : M gfx_console_state unit :=
  g <- gets id;;
  if no_cells g || (cursor_visible g =? 0) then ret tt
  else
    gfx_console_draw_cell (cursor_col g) (cursor_row g);;
    modify (set_cursor_visible 0).

Definition gfx_console_show_cursor : M gfx_console_state unit :=
  g <- gets id;;
  if no_cells g || (rows g <=? cursor_row g) || (cols g <=? cursor_col g) then ret tt
  else
    let x := u32 (cursor_col g * GFX_FONT_WIDTH) in
    let y := u32 (u32 (cursor_row g * GFX_FONT_HEIGHT) + (GFX_FONT_HEIGHT - 2)) in
    on_fb (draw_fill_rect (i32 x) (i32 y) GFX_FONT_WIDTH 2 (cursor_color g));;
    gfx_console_mark_dirty_rect x y GFX_FONT_WIDTH 2;;
    modify (set_cursor_visible 1).

Definition gfx_console_redraw_all : M gfx_console_state unit :=
  g <- gets id;;
  if no_cells g then ret tt
  else for_range (Z.to_nat (rows g)) 0 (fun row => for_range (Z.to_nat (cols g)) 0 (fun col => gfx_console_draw_cell col row)).

(** The cells move up by one row. *)
Definition move_cell (col row : Z) : M gfx_console_state unit :=
  g <- gets id;;
  cs <- deref (cells g);;
  c <- deref (rd cs (gfx_console_index g col row));;
  set_cell col (row - 1) c.

Definition gfx_console_scroll : M gfx_console_state unit :=
  g <- gets id;;
  if no_cells g || (rows g =? 0) then ret tt
  else
    for_range (Z.to_nat (rows g - 1)) 1 (fun row => for_range (Z.to_nat (cols g)) 0 (fun col => move_cell col row));;
    for_range (Z.to_nat (cols g)) 0 (fun col => set_cell col (rows g - 1) (ch " "));;
    gfx_console_redraw_all;;
    gfx_console_mark_dirty_rect 0 0 (u32 (cols g * GFX_FONT_WIDTH)) (u32 (rows g * GFX_FONT_HEIGHT)).

Definition gfx_console_newline : M gfx_console_state unit :=
  modify (set_cursor_col 0);;
  modify (fun g => set_cursor_row (u32 (cursor_row g + 1)) g);;
  g <- gets id;;
  if rows g <=? cursor_row g then modify (set_cursor_row (u32 (rows g - 1)));; gfx_console_scroll else ret tt.

Definition gfx_console_backspace : M gfx_console_state unit :=
  g <- gets id;;
  if no_cells g then ret tt
  else if (cursor_col g =? 0) && (cursor_row g =? 0) then ret tt
  else
    (if 0 <? cursor_col g then modify (set_cursor_col (cursor_col g - 1))
     else modify (set_cursor_row (cursor_row g - 1));; modify (set_cursor_col (u32 (cols g - 1))));;
    g1 <- gets id;;
    set_cell (cursor_col g1) (cursor_row g1) (ch " ");;
    gfx_console_draw_cell (cursor_col g1) (cursor_row g1).

Definition console_is_backspace (c : Z) : bool := (c =? 8) || (c =? 0x7f).

Definition gfx_console_putc (c : Z) : M gfx_console_state unit :=
  g <- gets id;;
  if no_cells g || (cols g =? 0) || (rows g =? 0) then ret tt
  else
    gfx_console_hide_cursor;;
    if c =? 13 then modify (set_cursor_col 0);; gfx_console_show_cursor
    else if c =? 10 then gfx_console_newline;; gfx_console_show_cursor
    else if console_is_backspace c then gfx_console_backspace;; gfx_console_show_cursor
    else
      let c1 := if (c <? 32) || (126 <? c) then ch "?" else c in
      g1 <- gets id;;
      set_cell (cursor_col g1) (cursor_row g1) c1;;
      gfx_console_draw_cell (cursor_col g1) (cursor_row g1);;
      modify (fun g2 => set_cursor_col (u32 (cursor_col g2 + 1)) g2);;
      g2 <- gets id;;
      (if cols g2 <=? cursor_col g2 then gfx_console_newline else ret tt);;
      gfx_console_show_cursor.

(** ** The console *)

(** What the console relies on from the display driver: a flush of a rectangle
    makes the display show that part of the framebuffer when it succeeds. *)
Class DisplayDriver (G : Type) := {
  virtio_gpu_available : G -> bool;
  virtio_gpu_flush_rect : Z -> Z -> Z -> Z -> framebuffer -> G -> G * Z;
  displayed : G -> Z -> Z -> Z;
  flush_available : forall x y w h f d, virtio_gpu_available (virtio_gpu_flush_rect x y w h f d).1 = virtio_gpu_available d;
  flush_displays : forall x y w h f d px py, (virtio_gpu_flush_rect x y w h f d).2 = 0 -> inside f px py ->
    displayed (virtio_gpu_flush_rect x y w h f d).1 px py =
      if decide (x <= px < x + w /\ y <= py < y + h) then pixel f px py else displayed d px py
}.

(** A client that takes the output instead of the sinks. *)
Class OutputCapture (C : Type) := { console_capture_char : Z -> C -> C }.

Record console (G C K : Type) : Type := Console {
  console_mode : Z;
  console_capture : option C;
  gfx_console : gfx_console_state;
  gpu : G;
  console_heap : mm;
  console_input : input K
}.
Arguments Console {G C K}.
Arguments console_mode {G C K}.
Arguments console_capture {G C K}.
Arguments gfx_console {G C K}.
Arguments gpu {G C K}.
Arguments console_heap {G C K}.
Arguments console_input {G C K}.

Section console.
Context {G C K : Type} `{DisplayDriver G} `{OutputCapture C} `{KeyboardDriver K} (plat : platform).
Implicit Types s : console G C K.

Definition set_console_mode v s : console G C K := Console v (console_capture s) (gfx_console s) (gpu s) (console_heap s) (console_input s).
Definition set_console_capture v s : console G C K := Console (console_mode s) v (gfx_console s) (gpu s) (console_heap s) (console_input s).
Definition set_gfx_console v s : console G C K := Console (console_mode s) (console_capture s) v (gpu s) (console_heap s) (console_input s).
Definition set_gpu v s : console G C K := Console (console_mode s) (console_capture s) (gfx_console s) v (console_heap s) (console_input s).
Definition set_console_heap v s : console G C K := Console (console_mode s) (console_capture s) (gfx_console s) (gpu s) v (console_input s).
Definition set_console_input v s : console G C K := Console (console_mode s) (console_capture s) (gfx_console s) (gpu s) (console_heap s) v.
Definition on_gfx {A} (m : M gfx_console_state A) : M (console G C K) A := zoom gfx_console set_gfx_console m.
Definition on_input {A} (m : M (input K) A) : M (console G C K) A := zoom console_input set_console_input m.

Definition uart_putc (c : Z) : M (console G C K) unit := emit [c].

Definition has_sink (mode sink : Z) : bool := negb (Z.land mode sink =? 0).

(** The flush hands over the framebuffer that the display driver owns. *)
Definition console_flush_unlocked : M (console G C K) unit :=
  s <- gets id;;
  if has_sink (console_mode s) CONSOLE_SINK_GRAPHICS && virtio_gpu_available (gpu s) then
    let g := gfx_console s in
    if negb (dirty_valid g =? 0) then
      f <- deref (con_fb g);;
      modify (set_gpu (virtio_gpu_flush_rect (dirty_x0 g) (dirty_y0 g) (u32 (dirty_x1 g - dirty_x0 g)) (u32 (dirty_y1 g - dirty_y0 g)) f (gpu s)).1);;
      on_gfx (modify (set_dirty_valid 0))
    else ret tt
  else ret tt.

Definition console_init : M (console G C K) unit :=
  on_gfx (modify (fun _ => zero_gfx));;
  modify (set_console_mode CONSOLE_SINK_SERIAL).

Definition console_putc_unlocked (c : Z) : M (console G C K) unit :=
  s <- gets id;;
  match console_capture s with
  | Some user_data => modify (set_console_capture (Some (console_capture_char c user_data)))
  | None =>
      (if has_sink (console_mode s) CONSOLE_SINK_SERIAL then
         (if c =? 10 then uart_putc 13 else ret tt);; uart_putc c
       else ret tt);;
      if has_sink (console_mode s) CONSOLE_SINK_GRAPHICS then on_gfx (gfx_console_putc c) else ret tt
  end.

(** The loop over a string ends at its terminator. *)
Fixpoint console_write_unlocked (str : mem) : M (console G C K) unit :=
  match str with
  | [] => undef
  | c :: str' => if c =? 0 then ret tt else console_putc_unlocked c;; console_write_unlocked str'
  end.

Definition console_putc (c : Z) : M (console G C K) unit := console_putc_unlocked c;; console_flush_unlocked.
Definition console_write (str : mem) : M (console G C K) unit := console_write_unlocked str;; console_flush_unlocked.
Definition console_write_len (buffer : mem) (length : Z) : M (console G C K) unit :=
  for_range (Z.to_nat length) 0 (fun i => c <- deref (rd buffer i);; console_putc_unlocked c);;
  console_flush_unlocked.
Definition console_flush : M (console G C K) unit := console_flush_unlocked.

(** [while (!input_has_event()) input_poll();] *)
Fixpoint wait_event (fuel : nat) : M (console G C K) unit :=
  match fuel with
  | O => undef
  | S fuel' =>
      has <- on_input input_has_event;;
      if has =? 0 then on_input input_poll;; wait_event fuel' else ret tt
  end.

(** The reader; [fuel] bounds its rounds and the polls of each, and running out
    of it is a reader that still waits. *)
Fixpoint read_line_loop (fuel : nat) (max_len : Z) (event : input_event) (c : Z) (buffer : mem) (length : Z) : M (console G C K) (mem * Z) :=
  match fuel with
  | O => undef
  | S fuel' =>
      wait_event fuel;;
      let! (popped, event1) := on_input (input_pop_event (Some event)) in
      e <- deref event1;;
      if popped =? 0 then read_line_loop fuel' max_len e c buffer length
      else
        let! (status, c1) := on_input (input_event_to_char (Some e) (Some c)) in
        c' <- deref c1;;
        if status =? 0 then read_line_loop fuel' max_len e c' buffer length
        else if (c' =? 13) || (c' =? 10) then
          console_putc 10;;
          buffer1 <- deref (wr buffer length 0);;
          ret (buffer1, length)
        else if console_is_backspace c' then
          if negb (length =? 0) then
            console_write [8; 32; 8; 0];;
            read_line_loop fuel' max_len e c' buffer (length - 1)
          else read_line_loop fuel' max_len e c' buffer length
        else if u64 (length + 1) <? max_len then
          buffer1 <- deref (wr buffer length c');;
          console_putc c';;
          read_line_loop fuel' max_len e c' buffer1 (length + 1)
        else read_line_loop fuel' max_len e c' buffer length
  end.

Definition console_read_line (fuel : nat) (event : input_event) (c : Z) (buffer : mem) (max_len : Z) : M (console G C K) (mem * Z) :=
  if max_len =? 0 then ret (buffer, 0) else read_line_loop fuel max_len event c buffer 0.

(** Detaches the previous framebuffer, which is the result, its cursor hidden,
    and attaches another. *)
Definition drop_graphics : M (console G C K) unit := modify (fun s => set_console_mode (Z.land (console_mode s) (not32 CONSOLE_SINK_GRAPHICS)) s).
Definition console_attach_graphics (fb : screen) : M (console G C K) screen :=
  on_gfx gfx_console_hide_cursor;;
  old <- gets (fun s => con_fb (gfx_console s));;
  on_gfx (modify (fun _ => zero_gfx));;
  match fb with
  | None => drop_graphics;; ret old
  | Some f =>
      if (fb_width f <? GFX_FONT_WIDTH) || (fb_height f <? GFX_FONT_HEIGHT) then drop_graphics;; ret old
      else
        on_gfx (modify (set_con_fb fb));;
        let ncols := fb_width f / GFX_FONT_WIDTH in
        let nrows := fb_height f / GFX_FONT_HEIGHT in
        on_gfx (modify (set_grid_size ncols nrows));;
        let cell_count := u32 (ncols * nrows) in
        new_cells <- zoom console_heap set_console_heap (kzalloc plat cell_count);;
        if new_cells =? 0 then on_gfx (modify (fun _ => zero_gfx));; drop_graphics;; ret old
        else
          on_gfx (modify (set_cells (Some (replicate (Z.to_nat cell_count) 0))));;
          on_gfx (modify (set_colors 0xffffffff 0xff000000 0xff7fd1ff));;
          on_gfx (on_fb (fb_clear 0xff000000));;
          on_gfx (gfx_console_mark_dirty_rect 0 0 (fb_width f) (fb_height f));;
          on_gfx gfx_console_show_cursor;;
          console_flush_unlocked;;
          ret old
  end.

Definition console_graphics_framebuffer : M (console G C K) screen := gets (fun s => con_fb (gfx_console s)).

Definition console_set_output_mode (mode : Z) : M (console G C K) unit :=
  modify (set_console_mode (Z.land mode (Z.lor CONSOLE_SINK_SERIAL CONSOLE_SINK_GRAPHICS)));;
  g <- gets gfx_console;;
  (if no_cells g then drop_graphics else ret tt);;
  s <- gets id;;
  if has_sink (console_mode s) CONSOLE_SINK_GRAPHICS then on_gfx gfx_console_show_cursor;; console_flush_unlocked
  else on_gfx gfx_console_hide_cursor.

Definition console_output_mode : M (console G C K) Z := gets console_mode.
Definition console_set_input_mode (mode : Z) : M (console G C K) unit := on_input (input_set_mode mode).
Definition console_input_mode : M (console G C K) Z := on_input input_mode.
Definition console_set_output_capture (callback : option C) : M (console G C K) unit := modify (set_console_capture callback).
End console.
