(* ===== verification/ConsoleTerm.v ===== *)
(** The console's screen (src/src/kernel/console.c): what it shows is a terminal, a
    grid of characters with a cursor, and every pixel that changes lies in the
    dirty rectangle until the next flush. *)
From S2P Require Import Prelude LibString Klog Memory BlockDevice Input Graphics Console.

(** ** The terminal *)

Record term : Type := Term { t_col : Z; t_row : Z; t_grid : Z -> Z -> Z }.

Section terminal.
Context (nc nr : Z).

Definition term_set (c r v : Z) (t : term) : term :=
  Term (t_col t) (t_row t) (fun c' r' => if (c' =? c) && (r' =? r) then v else t_grid t c' r').
Definition term_at (c r : Z) (t : term) : term := Term c r (t_grid t).
(** At the bottom the rows move up. *)
Definition term_newline (t : term) : term :=
  if t_row t + 1 <? nr then term_at 0 (t_row t + 1) t
  else Term 0 (nr - 1) (fun c r => if r =? nr - 1 then 32 else t_grid t c (r + 1)).
Definition term_backspace (t : term) : term :=
  if 0 <? t_col t then term_set (t_col t - 1) (t_row t) 32 (term_at (t_col t - 1) (t_row t) t)
  else if 0 <? t_row t then term_set (nc - 1) (t_row t - 1) 32 (term_at (nc - 1) (t_row t - 1) t)
  else t.
Definition printable (c : Z) : Z := if (32 <=? c) && (c <=? 126) then c else 63.
Definition term_putc (c : Z) (t : term) : term :=
  if c =? 13 then term_at 0 (t_row t) t
  else if c =? 10 then term_newline t
  else if (c =? 8) || (c =? 127) then term_backspace t
  else
    let t1 := term_set (t_col t) (t_row t) (printable c) t in
    if t_col t + 1 <? nc then term_at (t_col t + 1) (t_row t) t1 else term_newline (term_at (t_col t + 1) (t_row t) t1).
End terminal.

(** The size and the colours of a screen, and its pixels. *)
Record look : Type := Look { lk_cols : Z; lk_rows : Z; lk_fg : Z; lk_bg : Z; lk_cursor : Z }.
Definition look_of (g : gfx_console_state) : look := Look (cols g) (rows g) (fg_color g) (bg_color g) (cursor_color g).
Definition glyph_pixel (l : look) (c x y : Z) : Z :=
  if Z.testbit (default 0 (b ← gfx_font8x8_get c; rd b y)) x then lk_fg l else lk_bg l.
Definition term_pixel (l : look) (t : term) (bar : bool) (x y : Z) : Z :=
  if (x <? 8 * lk_cols l) && (y <? 8 * lk_rows l) then
    if bar && (x / 8 =? t_col t) && (y / 8 =? t_row t) && (6 <=? y mod 8) then lk_cursor l
    else glyph_pixel l (t_grid t (x / 8) (y / 8)) (x mod 8) (y mod 8)
  else lk_bg l.

(** ** Invariants *)

Definition in_dirty (g : gfx_console_state) (x y : Z) : Prop :=
  dirty_valid g <> 0 /\ dirty_x0 g <= x < dirty_x1 g /\ dirty_y0 g <= y < dirty_y1 g.
Definition shown_char (c : Z) : Z := if c =? 0 then 32 else c.

(** The cells hold the characters of the terminal. *)
Record grid_ok (g : gfx_console_state) (f : framebuffer) (t : term) : Prop := {
  go_fb : con_fb g = Some f;
  go_wf : fb_wf f;
  go_small : fb_width f < 2 ^ 29 /\ fb_height f < 2 ^ 29;
  go_cols : cols g = fb_width f / 8;
  go_rows : rows g = fb_height f / 8;
  go_area : cols g * rows g < 2 ^ 32;
  go_cells : exists cs, cells g = Some cs /\ lenZ cs = cols g * rows g /\
    forall c r, 0 <= c < cols g -> 0 <= r < rows g -> exists v, rd cs (r * cols g + c) = Some v /\ 0 <= v < 256 /\ shown_char v = t_grid t c r;
  go_cursor : cursor_col g = t_col t /\ cursor_row g = t_row t;
  go_row : 0 <= t_row t < rows g;
  go_dirty : dirty_valid g <> 0 -> 0 <= dirty_x0 g <= dirty_x1 g /\ dirty_x1 g <= fb_width f /\ 0 <= dirty_y0 g <= dirty_y1 g /\ dirty_y1 g <= fb_height f
}.
Definition col_ok (g : gfx_console_state) (t : term) : Prop := 0 <= t_col t < cols g.

(** The pixels show the terminal, with or without the bar of the cursor. *)
Definition shows (g : gfx_console_state) (f : framebuffer) (t : term) (bar : bool) : Prop :=
  forall x y, inside f x y -> pixel f x y = term_pixel (look_of g) t bar x y.

(** Every pixel that changed is dirty, and what was dirty stays so. *)
Record tracked (g : gfx_console_state) (f : framebuffer) (g' : gfx_console_state) (f' : framebuffer) : Prop := {
  tr_width : fb_width f' = fb_width f;
  tr_height : fb_height f' = fb_height f;
  tr_look : look_of g' = look_of g;
  tr_dirty : forall x y, in_dirty g x y -> in_dirty g' x y;
  tr_pixels : forall x y, inside f x y -> pixel f' x y = pixel f x y \/ in_dirty g' x y
}.

Lemma tracked_refl g g' f : look_of g' = look_of g -> (forall x y, in_dirty g x y -> in_dirty g' x y) -> tracked g f g' f.
Proof. intros Hl Hd. split; try done. by left. Qed.
Lemma tracked_trans g f g1 f1 g2 f2 : tracked g f g1 f1 -> tracked g1 f1 g2 f2 -> tracked g f g2 f2.
Proof.
  intros [Hw1 Hh1 Hl1 Hd1 Hp1] [Hw2 Hh2 Hl2 Hd2 Hp2]. split; [congruence..|by auto|]. intros x y Hin.
  destruct (Hp2 x y) as [->|?]; [unfold inside in *; by rewrite Hw1, Hh1| |by right]. destruct (Hp1 x y Hin); auto.
Qed.

(** Only the pixels and the dirty rectangle are others. *)
Definition redrawn (g g' : gfx_console_state) (f' : framebuffer) : Prop :=
  exists v a b c d, g' = set_dirty_valid v (set_dirty a b c d (set_con_fb (Some f') g)).

Lemma redrawn_trans g g1 g2 f1 f2 : redrawn g g1 f1 -> redrawn g1 g2 f2 -> redrawn g g2 f2.
Proof. intros (v & a & b & c & d & ->) (v2 & a2 & b2 & c2 & d2 & ->). by exists v2, a2, b2, c2, d2. Qed.

Definition dirty_inside (g : gfx_console_state) (f : framebuffer) : Prop :=
  dirty_valid g <> 0 -> 0 <= dirty_x0 g <= dirty_x1 g /\ dirty_x1 g <= fb_width f /\ 0 <= dirty_y0 g <= dirty_y1 g /\ dirty_y1 g <= fb_height f.

Lemma redrawn_grid g g' f f' t : grid_ok g f t -> redrawn g g' f' -> fb_wf f' -> fb_width f' = fb_width f -> fb_height f' = fb_height f ->
  dirty_inside g' f' -> grid_ok g' f' t.
Proof. intros [] (v & a & b & c & d & ->) Hwf Hw Hh Hd. split; cbn; try done; congruence || lia. Qed.

(** ** Drawing *)

Lemma mark_dirty_run g f x y w h : con_fb g = Some f -> fb_wf f -> fb_width f < 2 ^ 29 /\ fb_height f < 2 ^ 29 -> dirty_inside g f ->
  0 <= x -> 0 <= y -> 0 <= w -> 0 <= h -> x + w < 2 ^ 32 -> y + h < 2 ^ 32 ->
  exists g', gfx_console_mark_dirty_rect x y w h g = Ret tt g' [] /\ redrawn g g' f /\ dirty_inside g' f /\
    (forall px py, in_dirty g px py -> in_dirty g' px py) /\
    forall px py, inside f px py -> x <= px < x + w -> y <= py < y + h -> in_dirty g' px py.
Proof.
  intros Hfb Hwf Hht Hd Hx Hy Hw Hh Hxw Hyh. pose proof (fw_width f Hwf) as Hfw. unfold gfx_console_mark_dirty_rect. krun. rewrite Hfb.
  assert (Hself : redrawn g g f) by (exists (dirty_valid g), (dirty_x0 g), (dirty_y0 g), (dirty_x1 g), (dirty_y1 g); destruct g; cbn in *; by subst).
  destruct ((w =? 0) || (h =? 0)) eqn:He.
  { exists g. split; [done|]. split; [done|]. split; [done|]. split; [done|]. intros px py _ Hpx Hpy. apply orb_prop in He as [->%Z.eqb_eq| ->%Z.eqb_eq]; lia. }
  destruct ((fb_width f <=? x) || (fb_height f <=? y)) eqn:Ho.
  { exists g. split; [done|]. split; [done|]. split; [done|]. split; [done|]. intros px py [? ?] Hpx Hpy. apply orb_prop in Ho as [?%Z.leb_le|?%Z.leb_le]; lia. }
  apply orb_false_elim in He as [?%Z.eqb_neq ?%Z.eqb_neq]. apply orb_false_elim in Ho as [?%Z.leb_gt ?%Z.leb_gt]. rewrite !u32_small by lia. cbv zeta.
  set (x1 := if fb_width f <? x + w then _ else _). set (y1 := if fb_height f <? y + h then _ else _).
  assert (Hx1 : x1 = Z.min (fb_width f) (x + w)) by (unfold x1; destruct (Z.ltb_spec (fb_width f) (x + w)); lia).
  assert (Hy1 : y1 = Z.min (fb_height f) (y + h)) by (unfold y1; destruct (Z.ltb_spec (fb_height f) (y + h)); lia).
  clearbody x1 y1. subst x1 y1. krun. destruct (Z.eqb_spec (dirty_valid g) 0) as [Hv|Hv]; krun.
  - eexists. split; [reflexivity|]. split; [exists 1; do 4 eexists; destruct g; cbn in *; by subst|]. split; [intros _; cbn; lia|].
    split; [by intros px py [? _]|]. intros px py [? ?] Hpx Hpy. split; [done|]. cbn. lia.
  - eexists. split; [reflexivity|]. split.
    { assert (Hsame : set_con_fb (Some f) g = g) by (destruct g; cbn in *; by subst). exists (dirty_valid g). do 4 eexists. rewrite Hsame. reflexivity. }
    specialize (Hd Hv).
    unfold in_dirty, dirty_inside. cbn. repeat match goal with |- context [?a <? ?b] => destruct (Z.ltb_spec a b) end;
    (split; [lia|]; split; [intros px py (? & ? & ?); split; [done|lia]|]; intros px py [? ?] Hpx Hpy; split; [done|lia]).
Qed.

(** A picture drawn inside a rectangle that is marked dirty. *)
Lemma paint_run g f t m pic x y w h :
  grid_ok g f t -> draws m pic -> 0 <= x -> 0 <= y -> 0 <= w -> 0 <= h -> x + w < 2 ^ 32 -> y + h < 2 ^ 32 ->
  (forall px py, ~ (x <= px < x + w /\ y <= py < y + h) -> pic px py = None) ->
  exists g' f', (on_fb m;; gfx_console_mark_dirty_rect x y w h) g = Ret tt g' [] /\ redrawn g g' f' /\ grid_ok g' f' t /\ painted pic f f' /\ tracked g f g' f'.
Proof.
  intros Hok Hm Hx Hy Hw Hh Hxw Hyh Hout. pose proof Hok as [Hfb Hwf Hht _ _ _ _ _ _ Hd]. destruct (Hm f Hwf) as (f' & Hr & Hp).
  assert (Hr1 : on_fb m g = Ret tt (set_con_fb (Some f') g) []) by (unfold on_fb, zoom; rewrite Hfb; by rewrite Hr).
  rewrite (bind_Ret_nil _ _ _ _ _ Hr1). pose proof Hp as [Hwf' Hw' Hh' Hpx].
  destruct (mark_dirty_run (set_con_fb (Some f') g) f' x y w h) as (g' & Hg & Hre & Hdi & Hmono & Hcov); [done|done|by rewrite Hw', Hh'|unfold dirty_inside; cbn; by rewrite Hw', Hh'|lia..|].
  assert (Hre' : redrawn g g' f') by (destruct Hre as (v & a & b & c & d & ->); by exists v, a, b, c, d).
  exists g', f'. split; [done|]. split; [done|]. split; [by eapply redrawn_grid|]. split; [done|].
  split; [done|done|by destruct Hre' as (v & a & b & c & d & ->)|exact Hmono|]. intros px py Hin. rewrite Hpx by done.
  destruct (decide (x <= px < x + w /\ y <= py < y + h)) as [[H1 H2]|Hno]; [right; apply Hcov; [unfold inside in *; by rewrite Hw', Hh'|done|done]|].
  left. by rewrite Hout.
Qed.

Lemma cell_bounds g f t c r : grid_ok g f t -> 0 <= c < cols g -> 0 <= r < rows g ->
  0 <= c * 8 /\ c * 8 + 8 <= fb_width f /\ 0 <= r * 8 /\ r * 8 + 8 <= fb_height f /\ fb_width f < 2 ^ 29 /\ fb_height f < 2 ^ 29 /\ 0 <= r * cols g + c < cols g * rows g.
Proof.
  intros [_ Hwf Hht Hc Hr _ _ _ _ _] H1 H2. pose proof (fw_width f Hwf). pose proof (Z.mul_div_le (fb_width f) 8). pose proof (Z.mul_div_le (fb_height f) 8). nia.
Qed.

Lemma no_cells_ok g f t : grid_ok g f t -> no_cells g = false.
Proof. intros [Hfb _ _ _ _ _ (cs & Hc & _) _ _ _]. unfold no_cells. by rewrite Hfb, Hc. Qed.

Lemma index_run g f t c r : grid_ok g f t -> 0 <= c < cols g -> 0 <= r < rows g -> gfx_console_index g c r = r * cols g + c.
Proof.
  intros Hok H1 H2. pose proof (cell_bounds g f t c r Hok H1 H2). pose proof (go_area _ _ _ Hok). pose proof (Z.mul_nonneg_nonneg r (cols g)). unfold gfx_console_index.
  rewrite (u32_small (r * cols g)) by lia. apply u32_small. lia.
Qed.

Definition cell_picture (g : gfx_console_state) (t : term) (c r : Z) : picture := glyph_picture (c * 8) (r * 8) (t_grid t c r) (fg_color g) (bg_color g).

Lemma draw_cell_run g f t c r : grid_ok g f t -> 0 <= c < cols g -> 0 <= r < rows g ->
  exists g' f', gfx_console_draw_cell c r g = Ret tt g' [] /\ redrawn g g' f' /\ grid_ok g' f' t /\ painted (cell_picture g t c r) f f' /\ tracked g f g' f'.
Proof.
  intros Hok H1 H2. pose proof (cell_bounds g f t c r Hok H1 H2). unfold gfx_console_draw_cell, GFX_FONT_WIDTH, GFX_FONT_HEIGHT. krun. unfold id.
  rewrite (no_cells_ok _ _ _ Hok), (proj2 (Z.leb_gt _ _)), (proj2 (Z.leb_gt (rows g) r)) by lia. kif.
  destruct (go_cells _ _ _ Hok) as (cs & Hcs & Hlen & Hgrid). destruct (Hgrid c r H1 H2) as (v & Hv & Hvb & Hvt).
  unfold gfx_console_cell_char. rewrite !bind_assoc. krun. unfold id. rewrite !bind_assoc, (bind_deref_Some _ _ _ _ Hcs), !bind_assoc.
  rewrite (index_run _ _ _ _ _ Hok H1 H2), (bind_deref_Some _ _ _ _ Hv). krun. change (if v =? 0 then ch " " else v) with (shown_char v). rewrite Hvt, !u32_small, !i32_small by lia.
  apply (paint_run g f t _ (cell_picture g t c r)); [done| |lia..|].
  - apply gfx_draw_char_draws; [|lia|lia]. rewrite <- Hvt. unfold shown_char. destruct (v =? 0); lia.
  - intros px py Hno. unfold cell_picture, glyph_picture. by rewrite decide_False.
Qed.

Lemma cell_picture_at g t c r x y :
  cell_picture g t c r x y = if decide (x / 8 = c /\ y / 8 = r) then Some (glyph_pixel (look_of g) (t_grid t c r) (x mod 8) (y mod 8)) else None.
Proof.
  unfold cell_picture, glyph_picture, glyph_pixel. cbn. pose proof (Z.div_mod x 8 ltac:(lia)). pose proof (Z.div_mod y 8 ltac:(lia)). pose proof (Z.mod_pos_bound x 8 ltac:(lia)). pose proof (Z.mod_pos_bound y 8 ltac:(lia)).
  case_decide as Hd1; case_decide as Hd2; try done; try lia. replace (y - r * 8) with (y mod 8) by lia. by replace (x - c * 8) with (x mod 8) by lia.
Qed.

Lemma term_pixel_cell l t c r x y : 0 <= c < lk_cols l -> 0 <= r < lk_rows l -> x / 8 = c -> y / 8 = r ->
  term_pixel l t false x y = glyph_pixel l (t_grid t c r) (x mod 8) (y mod 8).
Proof.
  intros Hc Hr Hx Hy. unfold term_pixel. rewrite (proj2 (Z.ltb_lt x _)), (proj2 (Z.ltb_lt y _)) by (Z.div_mod_to_equations; lia). cbn [andb]. by rewrite Hx, Hy.
Qed.

(** Once a cell that differed is drawn, the whole terminal is shown. *)
Lemma shows_cell g f f' t c r : 0 <= c < cols g -> 0 <= r < rows g -> painted (cell_picture g t c r) f f' ->
  (forall x y, inside f x y -> ~ (x / 8 = c /\ y / 8 = r) -> pixel f x y = term_pixel (look_of g) t false x y) -> shows g f' t false.
Proof.
  intros Hc Hr [_ Hw Hh Hp] He x y Hin. assert (Hin' : inside f x y) by (unfold inside in *; by rewrite <- Hw, <- Hh). rewrite Hp, cell_picture_at by done.
  case_decide as Hd; cbn [default from_option]; [destruct Hd as [<- <-]; unfold id; symmetry; by apply term_pixel_cell|by apply He].
Qed.

Lemma term_pixel_bar l t bar x y : ~ (x / 8 = t_col t /\ y / 8 = t_row t) -> term_pixel l t bar x y = term_pixel l t false x y.
Proof.
  intros Hno. unfold term_pixel. destruct ((x <? 8 * lk_cols l) && (y <? 8 * lk_rows l)); [|done].
  destruct bar, (Z.eqb_spec (x / 8) (t_col t)), (Z.eqb_spec (y / 8) (t_row t)); try done. exfalso. by apply Hno.
Qed.

Lemma redrawn_look g g' f : redrawn g g' f -> look_of g' = look_of g /\ cursor_visible g' = cursor_visible g /\ cols g' = cols g /\ rows g' = rows g.
Proof. by intros (v & a & b & c & d & ->). Qed.

(** *** The cursor *)

Definition bar_on (g : gfx_console_state) : bool := negb (cursor_visible g =? 0).

(** A screen between two operations. *)
Record con_ok (g : gfx_console_state) (f : framebuffer) (t : term) : Prop := {
  ck_grid : grid_ok g f t;
  ck_col : col_ok g t;
  ck_shows : shows g f t (bar_on g)
}.

Lemma grid_visible g f t v : grid_ok g f t -> grid_ok (set_cursor_visible v g) f t.
Proof. by intros []. Qed.

Lemma hide_run g f t : con_ok g f t ->
  exists g' f', gfx_console_hide_cursor g = Ret tt g' [] /\ grid_ok g' f' t /\ col_ok g' t /\ shows g' f' t false /\ cursor_visible g' = 0 /\ tracked g f g' f'.
Proof.
  intros [Hok Hcol Hs]. unfold gfx_console_hide_cursor. krun. unfold id. rewrite (no_cells_ok _ _ _ Hok). cbn [orb]. unfold bar_on in Hs.
  destruct (Z.eqb_spec (cursor_visible g) 0) as [Hv|Hv].
  { exists g, f. split; [done|]. split; [done|]. split; [done|]. split; [done|]. split; [done|by apply tracked_refl]. }
  destruct (go_cursor _ _ _ Hok) as [-> ->]. destruct (draw_cell_run g f t (t_col t) (t_row t) Hok Hcol (go_row _ _ _ Hok)) as (g' & f' & Hr & Hre & Hok' & Hp & Htr).
  rewrite (bind_Ret_nil _ _ _ _ _ Hr). exists (set_cursor_visible 0 g'), f'. destruct (redrawn_look _ _ _ Hre) as (Hl & _ & Hc & _). split; [done|]. split; [by apply grid_visible|].
  split; [unfold col_ok in *; cbn; by rewrite Hc|]. split; [|split; [done|by destruct Htr]].
  assert (Hsh : shows g f' t false).
  { eapply shows_cell; [exact Hcol|apply (go_row _ _ _ Hok)|exact Hp|]. intros x y Hin Hno. rewrite (Hs x y Hin). by apply term_pixel_bar. }
  intros x y Hin. rewrite (Hsh x y Hin). unfold look_of in *. cbn. by rewrite Hl.
Qed.

Definition bar_picture (g : gfx_console_state) (t : term) : picture := box (t_col t * 8) (t_row t * 8 + 6) 8 2 (cursor_color g).

Lemma show_run g f t bar : grid_ok g f t -> col_ok g t -> shows g f t bar ->
  exists g' f', gfx_console_show_cursor g = Ret tt g' [] /\ con_ok g' f' t /\ cursor_visible g' = 1 /\ tracked g f g' f'.
Proof.
  intros Hok Hcol Hs. pose proof (go_row _ _ _ Hok) as Hrow. pose proof (cell_bounds g f t _ _ Hok Hcol Hrow). unfold gfx_console_show_cursor, GFX_FONT_WIDTH, GFX_FONT_HEIGHT. krun. unfold id.
  destruct (go_cursor _ _ _ Hok) as [-> ->]. rewrite (no_cells_ok _ _ _ Hok), (proj2 (Z.leb_gt (rows g) _)), (proj2 (Z.leb_gt (cols g) _)) by (unfold col_ok in Hcol; lia). kif.
  rewrite !u32_small by (rewrite ?u32_small; lia). rewrite !i32_small by lia. change (8 - 2) with 6.
  destruct (paint_run g f t (draw_fill_rect (t_col t * 8) (t_row t * 8 + 6) 8 2 (cursor_color g)) (bar_picture g t) (t_col t * 8) (t_row t * 8 + 6) 8 2) as (g' & f' & Hr & Hre & Hok' & Hp & Htr); [done| |lia..| |].
  { apply draw_fill_rect_draws; unfold near; lia. }
  { intros px py Hno. unfold bar_picture, box. by rewrite decide_False. }
  destruct (redrawn_look _ _ _ Hre) as (Hl & _ & Hc & _). exists (set_cursor_visible 1 g'), f'. split.
  { rewrite <- (bind_assoc _ (fun _ => gfx_console_mark_dirty_rect _ _ _ _) (fun _ => modify _)). by rewrite (bind_Ret_nil _ _ _ _ _ Hr). }
  split; [|split; [done|by destruct Htr]]. split; [by apply grid_visible|unfold col_ok in *; cbn; by rewrite Hc|].
  change (bar_on (set_cursor_visible 1 g')) with true. change (look_of (set_cursor_visible 1 g')) with (look_of g').
  intros x y Hin. destruct Hp as [_ Hw Hh Hpx]. assert (Hin' : inside f x y) by (unfold inside in *; by rewrite <- Hw, <- Hh).
  rewrite Hpx, (Hs x y Hin') by done. change (look_of (set_cursor_visible 1 g')) with (look_of g'). rewrite Hl. unfold bar_picture, box.
  pose proof (Z.div_mod x 8 ltac:(lia)). pose proof (Z.div_mod y 8 ltac:(lia)). pose proof (Z.mod_pos_bound x 8 ltac:(lia)). pose proof (Z.mod_pos_bound y 8 ltac:(lia)). unfold term_pixel. cbn [lk_cols lk_rows lk_cursor look_of].
  case_decide as Hd; cbn [default from_option]; unfold id.
  - assert (Hx : x / 8 = t_col t) by (Z.div_mod_to_equations; lia). assert (Hy : y / 8 = t_row t) by (Z.div_mod_to_equations; lia). unfold col_ok in Hcol.
    rewrite Hx, Hy, !Z.eqb_refl, (proj2 (Z.ltb_lt x (8 * cols g))), (proj2 (Z.ltb_lt y (8 * rows g))), (proj2 (Z.leb_le 6 _)) by lia. done.
  - destruct ((x <? 8 * cols g) && (y <? 8 * rows g)); [|done].
    assert (Hno : forall b, b && (x / 8 =? t_col t) && (y / 8 =? t_row t) && (6 <=? y mod 8) = false).
    { intros b. destruct b, (Z.eqb_spec (x / 8) (t_col t)), (Z.eqb_spec (y / 8) (t_row t)), (Z.leb_spec 6 (y mod 8)); try done. exfalso. apply Hd. lia. }
    by rewrite !Hno.
Qed.

(** *** Cells *)

Lemma grid_ext g f t t' : grid_ok g f t -> t_col t' = t_col t -> t_row t' = t_row t ->
  (forall c r, 0 <= c < cols g -> 0 <= r < rows g -> t_grid t' c r = t_grid t c r) -> grid_ok g f t'.
Proof.
  intros [Hfb Hwf Hht Hc Hr Ha (cs & Hcs & Hlen & Hg) Hcur Hrow Hd] H1 H2 He. split; try done; [|congruence|congruence].
  exists cs. split; [done|]. split; [done|]. intros c r H3 H4. rewrite He by done. by apply Hg.
Qed.

Lemma grid_move g f t c r : grid_ok g f t -> 0 <= r < rows g -> grid_ok (set_cursor_row r (set_cursor_col c g)) f (term_at c r t).
Proof. intros [Hfb Hwf Hht Hc Hr Ha Hcs Hcur Hrow Hd] H1. by split. Qed.

Lemma cell_index w c r c' r' : 0 <= c < w -> 0 <= c' < w -> 0 <= r -> 0 <= r' ->
  (Z.to_nat (r * w + c) = Z.to_nat (r' * w + c') <-> c = c' /\ r = r').
Proof.
  intros H1 H2 H3 H4. pose proof (point_index w c r c' r' H1 H2) as Hp. rewrite <- Hp.
  pose proof (Z.mul_nonneg_nonneg r w). pose proof (Z.mul_nonneg_nonneg r' w). split; [intros; apply Z2Nat.inj; lia|by intros ->].
Qed.

Lemma set_cell_run g f t c r v : grid_ok g f t -> 0 <= c < cols g -> 0 <= r < rows g -> 0 <= v < 256 ->
  exists cs, set_cell c r v g = Ret tt (set_cells (Some cs) g) [] /\ grid_ok (set_cells (Some cs) g) f (term_set c r (shown_char v) t).
Proof.
  intros Hok H1 H2 Hv. pose proof (cell_bounds _ _ _ _ _ Hok H1 H2). pose proof (index_run _ _ _ _ _ Hok H1 H2) as Hi.
  destruct Hok as [Hfb Hwf Hht Hc Hr Ha (cs & Hcs & Hlen & Hg) Hcur Hrow Hd]. unfold set_cell. krun. unfold id.
  rewrite (bind_deref_Some _ _ _ _ Hcs), Hi, (bind_deref_Some _ _ _ _ (wr_Some cs (r * cols g + c) v ltac:(lia))).
  eexists. split; [reflexivity|]. split; try done. eexists. split; [reflexivity|]. split; [unfold lenZ in *; cbn; by rewrite length_insert|].
  cbn. intros c' r' H3 H4. pose proof (cell_index (cols g) c r c' r' H1 H3 ltac:(lia) ltac:(lia)) as Hci. pose proof (Z.mul_nonneg_nonneg r' (cols g)).
  unfold rd. rewrite (proj2 (Z.leb_le 0 _)) by lia.
  destruct (decide (c = c' /\ r = r')) as [[-> ->]|Hne].
  - rewrite !Z.eqb_refl. cbn [andb]. exists v. split; [|done]. apply list_lookup_insert_eq. unfold lenZ in Hlen. lia.
  - assert (Hb : (c' =? c) && (r' =? r) = false) by (destruct (Z.eqb_spec c' c), (Z.eqb_spec r' r); try done; subst; exfalso; by apply Hne). rewrite Hb.
    rewrite list_lookup_insert_ne by (intros He; apply Hne, Hci, He). destruct (Hg c' r' H3 H4) as (v' & Hv' & Hb' & Hs'). exists v'. split; [|done].
    unfold rd in Hv'. rewrite (proj2 (Z.leb_le 0 _)) in Hv' by lia. done.
Qed.

(** Only the cells change. *)
Definition recelled (g g' : gfx_console_state) : Prop := exists cs, g' = set_cells (Some cs) g.
Lemma recelled_refl g cs : cells g = Some cs -> recelled g g.
Proof. intros Hc. exists cs. destruct g. cbn in *. by subst. Qed.
Lemma recelled_trans g g1 g2 : recelled g g1 -> recelled g1 g2 -> recelled g g2.
Proof. intros [cs ->] [cs2 ->]. by exists cs2. Qed.
Lemma recelled_size g g' : recelled g g' -> cols g' = cols g /\ rows g' = rows g.
Proof. by intros [cs ->]. Qed.

Lemma move_cell_run g f t c r : grid_ok g f t -> 0 <= c < cols g -> 1 <= r < rows g ->
  exists g', move_cell c r g = Ret tt g' [] /\ recelled g g' /\ grid_ok g' f (term_set c (r - 1) (t_grid t c r) t).
Proof.
  intros Hok H1 H2. pose proof (index_run g f t c r Hok H1 ltac:(lia)) as Hi. destruct (go_cells _ _ _ Hok) as (cs & Hcs & _ & Hg). destruct (Hg c r H1 ltac:(lia)) as (v & Hv & Hb & <-).
  destruct (set_cell_run g f t c (r - 1) v Hok H1 ltac:(lia) Hb) as (cs1 & Hr & Hok1). unfold move_cell. krun. unfold id.
  rewrite (bind_deref_Some _ _ _ _ Hcs), Hi, (bind_deref_Some _ _ _ _ Hv), Hr. eexists. split; [done|]. split; [by exists cs1|done].
Qed.

Definition term_grid (t : term) (grid : Z -> Z -> Z) : term := Term (t_col t) (t_row t) grid.

Lemma move_row_run r n : forall c0 g f t, grid_ok g f t -> 1 <= r < rows g -> 0 <= c0 -> c0 + Z.of_nat n <= cols g ->
  exists g', for_range n c0 (fun col => move_cell col r) g = Ret tt g' [] /\ recelled g g' /\
    grid_ok g' f (term_grid t (fun c' r' => if (r' =? r - 1) && (c0 <=? c') && (c' <? c0 + Z.of_nat n) then t_grid t c' r else t_grid t c' r')).
Proof.
  induction n as [|n IH]; intros c0 g f t Hok Hr Hc0 Hn.
  { exists g. destruct (go_cells _ _ _ Hok) as (cs & Hcs & _). split; [done|]. split; [by eapply recelled_refl|]. eapply grid_ext; [exact Hok|done|done|].
    intros c r' _ _. cbn. destruct (Z.leb_spec c0 c), (Z.ltb_spec c (c0 + Z.of_nat 0)); rewrite ?andb_false_r; cbn; try done; lia. }
  cbn [for_range]. destruct (move_cell_run g f t c0 r Hok ltac:(lia) Hr) as (g1 & H1 & Hrc1 & Hok1). rewrite (bind_Ret_nil _ _ _ _ _ H1).
  destruct (recelled_size _ _ Hrc1) as [Hcs1 Hrs1]. destruct (IH (c0 + 1) g1 f _ Hok1) as (g2 & H2 & Hrc2 & Hok2); [lia|lia|lia|].
  exists g2. split; [done|]. split; [by eapply recelled_trans|]. eapply grid_ext; [exact Hok2|done|done|]. intros c r' _ _. cbn.
  rewrite (proj2 (Z.eqb_neq r (r - 1))), andb_false_r by lia.
  destruct (Z.eqb_spec r' (r - 1)), (Z.leb_spec c0 c), (Z.leb_spec (c0 + 1) c), (Z.eqb_spec c c0), (Z.ltb_spec c (c0 + Z.of_nat (S n))), (Z.ltb_spec c (c0 + 1 + Z.of_nat n)); cbn [andb]; try done; try lia; by subst.
Qed.

Lemma move_rows_run n : forall r0 g f t, grid_ok g f t -> 1 <= r0 -> r0 + Z.of_nat n <= rows g ->
  exists g', for_range n r0 (fun row => for_range (Z.to_nat (cols g)) 0 (fun col => move_cell col row)) g = Ret tt g' [] /\ recelled g g' /\
    grid_ok g' f (term_grid t (fun c r => if (r0 - 1 <=? r) && (r <? r0 - 1 + Z.of_nat n) then t_grid t c (r + 1) else t_grid t c r)).
Proof.
  induction n as [|n IH]; intros r0 g f t Hok Hr Hn.
  { exists g. destruct (go_cells _ _ _ Hok) as (cs & Hcs & _). split; [done|]. split; [by eapply recelled_refl|]. eapply grid_ext; [exact Hok|done|done|].
    intros c r _ _. cbn. destruct (Z.leb_spec (r0 - 1) r), (Z.ltb_spec r (r0 - 1 + Z.of_nat 0)); cbn; try done; lia. }
  cbn [for_range]. assert (Hcols : 0 <= cols g) by (pose proof (fw_width f (go_wf _ _ _ Hok)); rewrite (go_cols _ _ _ Hok); Z.div_mod_to_equations; lia).
  destruct (move_row_run r0 (Z.to_nat (cols g)) 0 g f t Hok) as (g1 & H1 & Hrc1 & Hok1); [lia|lia|lia|]. rewrite (bind_Ret_nil _ _ _ _ _ H1).
  destruct (recelled_size _ _ Hrc1) as [Hcs1 Hrs1]. rewrite <- Hcs1. destruct (IH (r0 + 1) g1 f _ Hok1) as (g2 & H2 & Hrc2 & Hok2); [lia|lia|].
  exists g2. split; [done|]. split; [by eapply recelled_trans|]. destruct (recelled_size _ _ Hrc2) as [Hcs2 Hrs2]. eapply grid_ext; [exact Hok2|done|done|]. intros c r Hc _. cbn.
  rewrite Z2Nat.id by done. rewrite Hcs2, Hcs1 in Hc.
  rewrite (proj2 (Z.leb_le 0 c)), (proj2 (Z.ltb_lt c (0 + cols g))) by lia. rewrite !andb_true_r.
  destruct (Z.leb_spec (r0 - 1) r), (Z.ltb_spec r (r0 - 1 + Z.of_nat (S n))), (Z.leb_spec (r0 + 1 - 1) r), (Z.ltb_spec r (r0 + 1 - 1 + Z.of_nat n)), (Z.eqb_spec r (r0 - 1)), (Z.eqb_spec (r + 1) (r0 - 1)); cbn [andb]; try done; try lia.
  f_equal. lia.
Qed.

Lemma blank_row_run r n : forall c0 g f t, grid_ok g f t -> 0 <= r < rows g -> 0 <= c0 -> c0 + Z.of_nat n <= cols g ->
  exists g', for_range n c0 (fun col => set_cell col r (ch " ")) g = Ret tt g' [] /\ recelled g g' /\
    grid_ok g' f (term_grid t (fun c' r' => if (r' =? r) && (c0 <=? c') && (c' <? c0 + Z.of_nat n) then 32 else t_grid t c' r')).
Proof.
  induction n as [|n IH]; intros c0 g f t Hok Hr Hc0 Hn.
  { exists g. destruct (go_cells _ _ _ Hok) as (cs & Hcs & _). split; [done|]. split; [by eapply recelled_refl|]. eapply grid_ext; [exact Hok|done|done|].
    intros c r' _ _. cbn. destruct (Z.leb_spec c0 c), (Z.ltb_spec c (c0 + Z.of_nat 0)); rewrite ?andb_false_r; cbn; try done; lia. }
  cbn [for_range]. destruct (set_cell_run g f t c0 r (ch " ") Hok) as (cs1 & H1 & Hok1); [lia|done|done|]. rewrite (bind_Ret_nil _ _ _ _ _ H1).
  destruct (IH (c0 + 1) _ f _ Hok1) as (g2 & H2 & Hrc2 & Hok2); [done|lia|cbn; lia|].
  exists g2. split; [done|]. split; [eapply recelled_trans; [by exists cs1|exact Hrc2]|]. eapply grid_ext; [exact Hok2|done|done|]. intros c r' _ _. cbn. change (shown_char (ch " ")) with 32.
  destruct (Z.eqb_spec r' r), (Z.leb_spec c0 c), (Z.leb_spec (c0 + 1) c), (Z.eqb_spec c c0), (Z.ltb_spec c (c0 + Z.of_nat (S n))), (Z.ltb_spec c (c0 + 1 + Z.of_nat n)); cbn [andb]; try done; try lia; by subst.
Qed.

(** *** Scrolling *)

(** Drawing a set of cells again. *)
Definition redraws (g g' : gfx_console_state) (f f' : framebuffer) (t : term) (cell : Z -> Z -> Prop) : Prop :=
  redrawn g g' f' /\ grid_ok g' f' t /\ tracked g f g' f' /\
  forall x y, inside f x y -> (cell (x / 8) (y / 8) -> pixel f' x y = term_pixel (look_of g) t false x y) /\ (~ cell (x / 8) (y / 8) -> pixel f' x y = pixel f x y).

Lemma redraws_none g f t (cell : Z -> Z -> Prop) : grid_ok g f t -> (forall c r, ~ cell c r) -> redraws g g f f t cell.
Proof.
  intros Hok Hno. split; [|split; [done|split; [by apply tracked_refl|intros x y _; split; [intros Hc; by destruct (Hno _ _ Hc)|done]]]].
  exists (dirty_valid g), (dirty_x0 g), (dirty_y0 g), (dirty_x1 g), (dirty_y1 g). destruct Hok as [Hfb]. destruct g. cbn in *. by subst.
Qed.

Lemma redraws_trans g g1 g2 f f1 f2 t (cell1 cell2 cell : Z -> Z -> Prop) : (forall c r, Decision (cell2 c r)) ->
  redraws g g1 f f1 t cell1 -> redraws g1 g2 f1 f2 t cell2 -> (forall c r, cell c r <-> cell1 c r \/ cell2 c r) -> redraws g g2 f f2 t cell.
Proof.
  intros Hdec (Hr1 & Hok1 & Ht1 & Hp1) (Hr2 & Hok2 & Ht2 & Hp2) He. split; [by eapply redrawn_trans|]. split; [done|]. split; [by eapply tracked_trans|].
  intros x y Hin. assert (Hin1 : inside f1 x y) by (destruct Ht1; unfold inside in *; congruence). destruct (Hp1 x y Hin) as [Ha1 Hb1], (Hp2 x y Hin1) as [Ha2 Hb2].
  rewrite (tr_look _ _ _ _ Ht1) in Ha2. rewrite He. split.
  - intros Hc. destruct (Hdec (x / 8) (y / 8)) as [H2|H2]; [by apply Ha2|]. rewrite Hb2 by done. apply Ha1. tauto.
  - intros Hc. rewrite Hb2 by tauto. apply Hb1. tauto.
Qed.

Lemma draw_cell_redraws g f t c r : grid_ok g f t -> 0 <= c < cols g -> 0 <= r < rows g ->
  exists g' f', gfx_console_draw_cell c r g = Ret tt g' [] /\ redraws g g' f f' t (fun c' r' => c' = c /\ r' = r).
Proof.
  intros Hok H1 H2. destruct (draw_cell_run g f t c r Hok H1 H2) as (g' & f' & Hr & Hre & Hok' & Hp & Ht). exists g', f'. split; [done|]. split; [done|]. split; [done|]. split; [done|].
  intros x y Hin. rewrite (pa_pixel _ _ _ Hp x y Hin), cell_picture_at. case_decide as Hd; cbn [default from_option]; unfold id; split; try done; intros Hc.
  symmetry. destruct Hd as [<- <-]. by apply term_pixel_cell.
Qed.

Lemma redraw_row_run r n : forall c0 g f t, grid_ok g f t -> 0 <= r < rows g -> 0 <= c0 -> c0 + Z.of_nat n <= cols g ->
  exists g' f', for_range n c0 (fun col => gfx_console_draw_cell col r) g = Ret tt g' [] /\ redraws g g' f f' t (fun c' r' => c0 <= c' < c0 + Z.of_nat n /\ r' = r).
Proof.
  induction n as [|n IH]; intros c0 g f t Hok Hr Hc0 Hn; [exists g, f; split; [done|]; apply redraws_none; [done|lia]|].
  cbn [for_range]. destruct (draw_cell_redraws g f t c0 r Hok) as (g1 & f1 & H1 & Hd1); [lia|done|]. rewrite (bind_Ret_nil _ _ _ _ _ H1).
  pose proof Hd1 as (Hr1 & Hok1 & _). destruct (redrawn_look _ _ _ Hr1) as (_ & _ & Hc1 & Hw1).
  destruct (IH (c0 + 1) g1 f1 t Hok1) as (g2 & f2 & H2 & Hd2); [lia|lia|lia|]. exists g2, f2. split; [done|].
  eapply redraws_trans; [|exact Hd1|exact Hd2|cbn; lia]. intros c' r'. apply _.
Qed.

Lemma redraw_rows_run n : forall r0 g f t, grid_ok g f t -> 0 <= r0 -> r0 + Z.of_nat n <= rows g ->
  exists g' f', for_range n r0 (fun row => for_range (Z.to_nat (cols g)) 0 (fun col => gfx_console_draw_cell col row)) g = Ret tt g' [] /\
    redraws g g' f f' t (fun c' r' => 0 <= c' < cols g /\ r0 <= r' < r0 + Z.of_nat n).
Proof.
  induction n as [|n IH]; intros r0 g f t Hok Hr Hn; [exists g, f; split; [done|]; apply redraws_none; [done|lia]|].
  assert (Hcols : 0 <= cols g) by (pose proof (fw_width f (go_wf _ _ _ Hok)); rewrite (go_cols _ _ _ Hok); Z.div_mod_to_equations; lia).
  cbn [for_range]. destruct (redraw_row_run r0 (Z.to_nat (cols g)) 0 g f t Hok) as (g1 & f1 & H1 & Hd1); [lia|lia|lia|]. rewrite (bind_Ret_nil _ _ _ _ _ H1).
  pose proof Hd1 as (Hr1 & Hok1 & _). destruct (redrawn_look _ _ _ Hr1) as (_ & _ & Hc1 & Hw1).
  destruct (IH (r0 + 1) g1 f1 t Hok1) as (g2 & f2 & H2 & Hd2); [lia|lia|]. rewrite Hc1 in H2, Hd2. exists g2, f2. split; [done|].
  eapply redraws_trans; [|exact Hd1|exact Hd2|cbn; lia]. intros c' r'. apply _.
Qed.

Lemma shows_cells g g' f f' t t0 bar : shows g f t0 bar -> redraws g g' f f' t (fun c r => 0 <= c < cols g /\ 0 <= r < rows g) -> shows g' f' t false.
Proof.
  intros Hs (_ & _ & Ht & Hp) x y Hin. assert (Hin0 : inside f x y) by (destruct Ht; unfold inside in *; congruence). destruct (Hp x y Hin0) as [Ha Hb]. rewrite (tr_look _ _ _ _ Ht).
  destruct (decide (0 <= x / 8 < cols g /\ 0 <= y / 8 < rows g)) as [Hc|Hc]; [by apply Ha|]. rewrite (Hb Hc), (Hs x y Hin0). unfold term_pixel. cbn [look_of lk_cols lk_rows].
  assert (Hout : (x <? 8 * cols g) && (y <? 8 * rows g) = false); [|by rewrite Hout].
  destruct Hin0 as [Hx Hy]. destruct (Z.ltb_spec x (8 * cols g)), (Z.ltb_spec y (8 * rows g)); try done. exfalso. apply Hc. Z.div_mod_to_equations. lia.
Qed.

Lemma scroll_run g f t t0 bar : grid_ok g f t -> shows g f t0 bar ->
  exists g' f', gfx_console_scroll g = Ret tt g' [] /\ shows g' f' (term_grid t (fun c r => if r =? rows g - 1 then 32 else t_grid t c (r + 1))) false /\
    grid_ok g' f' (term_grid t (fun c r => if r =? rows g - 1 then 32 else t_grid t c (r + 1))) /\ cols g' = cols g /\ rows g' = rows g /\ cursor_visible g' = cursor_visible g /\ tracked g f g' f'.
Proof.
  intros Hok Hs. pose proof (go_row _ _ _ Hok) as Hrow. assert (Hcols : 0 <= cols g) by (pose proof (fw_width f (go_wf _ _ _ Hok)); rewrite (go_cols _ _ _ Hok); Z.div_mod_to_equations; lia).
  unfold gfx_console_scroll. krun. unfold id. rewrite (no_cells_ok _ _ _ Hok), (proj2 (Z.eqb_neq (rows g) 0)) by lia. kif.
  destruct (move_rows_run (Z.to_nat (rows g - 1)) 1 g f t Hok) as (g1 & H1 & Hrc1 & Hok1); [lia|lia|]. rewrite (bind_Ret_nil _ _ _ _ _ H1). destruct (recelled_size _ _ Hrc1) as [Hcs1 Hrs1].
  destruct (blank_row_run (rows g - 1) (Z.to_nat (cols g)) 0 g1 f _ Hok1) as (g2 & H2 & Hrc2 & Hok2); [lia|lia|lia|]. rewrite (bind_Ret_nil _ _ _ _ _ H2).
  pose proof (recelled_trans _ _ _ Hrc1 Hrc2) as Hrc. destruct (recelled_size _ _ Hrc) as [Hcs2 Hrs2].
  set (t' := term_grid t (fun c r => if r =? rows g - 1 then 32 else t_grid t c (r + 1))). assert (Hok2' : grid_ok g2 f t').
  { eapply grid_ext; [exact Hok2|done|done|]. intros c r Hc Hr. cbn. rewrite !Z2Nat.id by lia. rewrite (proj2 (Z.leb_le 0 c)), (proj2 (Z.ltb_lt c (0 + cols g))) by lia. rewrite !andb_true_r.
    destruct (Z.eqb_spec r (rows g - 1)) as [->|Hne]; [done|]. by rewrite (proj2 (Z.leb_le (1 - 1) r)), (proj2 (Z.ltb_lt r _)) by lia. }
  clear Hok1 Hok2. assert (Hs2 : shows g2 f t0 bar) by (destruct Hrc as [cs ->]; exact Hs). assert (Htr2 : tracked g f g2 f) by (destruct Hrc as [cs ->]; by apply tracked_refl).
  assert (Hvis2 : cursor_visible g2 = cursor_visible g) by (by destruct Hrc as [cs ->]).
  destruct (redraw_rows_run (Z.to_nat (rows g2)) 0 g2 f t' Hok2') as (g3 & f3 & H3 & Hd3); [lia|lia|]. rewrite Z2Nat.id in Hd3 by lia.
  assert (Hall : gfx_console_redraw_all g2 = Ret tt g3 []) by (unfold gfx_console_redraw_all; krun; unfold id; by rewrite (no_cells_ok _ _ _ Hok2')).
  rewrite (bind_Ret_nil _ _ _ _ _ Hall). pose proof (shows_cells _ _ _ _ _ _ _ Hs2 Hd3) as Hs3. pose proof Hd3 as (Hr3 & Hok3 & Ht3 & _).
  destruct (redrawn_look _ _ _ Hr3) as (Hl3 & Hv3 & Hc3 & Hw3). pose proof Hok3 as [Hfb3 Hwf3 Hht3 Hcc3 Hrr3 _ _ _ _ Hd3'].
  unfold GFX_FONT_WIDTH, GFX_FONT_HEIGHT. assert (Hwid : cols g * 8 <= fb_width f3) by (rewrite <- Hcs2, <- Hc3, Hcc3; pose proof (Z.mul_div_le (fb_width f3) 8); lia).
  assert (Hhei : rows g * 8 <= fb_height f3) by (rewrite <- Hrs2, <- Hw3, Hrr3; pose proof (Z.mul_div_le (fb_height f3) 8); lia). rewrite !u32_small by lia.
  destruct (mark_dirty_run g3 f3 0 0 (cols g * 8) (rows g * 8) Hfb3 Hwf3 Hht3 Hd3') as (g4 & H4 & Hr4 & Hd4 & Hm4 & _); [lia..|].
  rewrite H4. destruct (redrawn_look _ _ _ Hr4) as (Hl4 & Hv4 & Hc4 & Hw4). exists g4, f3. split; [done|]. split; [unfold shows in *; by rewrite Hl4|].
  split; [by eapply redrawn_grid|]. split; [congruence|]. split; [congruence|]. split; [congruence|].
  eapply tracked_trans; [exact Htr2|]. eapply tracked_trans; [exact Ht3|]. by apply tracked_refl.
Qed.

(** *** Characters *)

(** The state of a screen without the bar, in the middle of an operation. *)
Record bare (g : gfx_console_state) (f : framebuffer) (t : term) (v : Z) : Prop := {
  ba_grid : grid_ok g f t;
  ba_shows : shows g f t false;
  ba_visible : cursor_visible g = v
}.

Lemma at_cursor g f t c r : grid_ok g f t -> 0 <= r < rows g -> grid_ok (set_cursor_row r (set_cursor_col c g)) f (term_at c r t).
Proof. apply grid_move. Qed.

Lemma rows_small g f t : grid_ok g f t -> 0 < rows g < 2 ^ 29 /\ 0 <= cols g < 2 ^ 29.
Proof.
  intros [_ Hwf Hs Hc Hr _ _ _ Hrow _]. pose proof (fw_width f Hwf). pose proof (fw_height f Hwf). pose proof (Z.mul_div_le (fb_width f) 8). pose proof (Z.mul_div_le (fb_height f) 8).
  assert (0 <= cols g) by (rewrite Hc; Z.div_mod_to_equations; lia). lia.
Qed.

Lemma newline_run g f t v : bare g f t v -> 0 < cols g ->
  exists g' f', gfx_console_newline g = Ret tt g' [] /\ bare g' f' (term_newline (rows g) t) v /\ tracked g f g' f'.
Proof.
  intros [Hok Hs Hv] Hc. pose proof (go_row _ _ _ Hok) as Hrow. pose proof (rows_small _ _ _ Hok). destruct (go_cursor _ _ _ Hok) as [Hcc Hcr].
  unfold gfx_console_newline. krun. unfold id. cbn [cursor_row set_cursor_row set_cursor_col rows]. rewrite Hcr, (u32_small (t_row t + 1)) by lia. unfold term_newline.
  destruct (Z.leb_spec (rows g) (t_row t + 1)) as [Hb|Hb].
  - rewrite (proj2 (Z.ltb_ge _ _)) by lia. krun. rewrite u32_small by lia. set (g1 := set_cursor_row (rows g - 1) _).
    assert (Hok1 : grid_ok g1 f (term_at 0 (rows g - 1) t)) by (apply (at_cursor g f t 0 (rows g - 1) Hok); lia).
    destruct (scroll_run g1 f _ t false Hok1 Hs) as (g2 & f2 & H2 & Hs2 & Hok2 & Hc2 & Hr2 & Hv2 & Ht2).
    exists g2, f2. split; [done|]. split; [split; [done|done|by rewrite Hv2]|]. eapply tracked_trans; [|exact Ht2]. by apply tracked_refl.
  - rewrite (proj2 (Z.ltb_lt _ _)) by lia. eexists _, f. split; [reflexivity|]. split; [|by apply tracked_refl].
    split; [apply (at_cursor g f t 0 (t_row t + 1) Hok); lia|exact Hs|exact Hv].
Qed.

(** A cell gets a character and is drawn. *)
Lemma put_cell_run g f t v c r ch0 : bare g f t v -> 0 <= c < cols g -> 0 <= r < rows g -> 0 < ch0 < 256 ->
  exists g' f', (set_cell c r ch0;; gfx_console_draw_cell c r) g = Ret tt g' [] /\ bare g' f' (term_set c r ch0 t) v /\ tracked g f g' f' /\ cursor_col g' = cursor_col g /\ cursor_row g' = cursor_row g.
Proof.
  intros [Hok Hs Hv] Hc Hr Hch. destruct (set_cell_run g f t c r ch0 Hok Hc Hr ltac:(lia)) as (cs & H1 & Hok1). rewrite (bind_Ret_nil _ _ _ _ _ H1).
  assert (Hsc : shown_char ch0 = ch0) by (unfold shown_char; by rewrite (proj2 (Z.eqb_neq ch0 0)) by lia). rewrite Hsc in Hok1. set (g1 := set_cells (Some cs) g) in *.
  destruct (draw_cell_run g1 f _ c r Hok1 Hc Hr) as (g2 & f2 & H2 & Hr2 & Hok2 & Hp2 & Ht2). destruct (redrawn_look _ _ _ Hr2) as (Hl2 & Hv2 & _ & _).
  assert (Hs1 : shows g1 f2 (term_set c r ch0 t) false).
  { eapply (shows_cell g1 f f2 _ c r Hc Hr Hp2). intros x y Hin Hno. rewrite (Hs x y Hin). unfold term_pixel. cbn.
    destruct ((x <? 8 * cols g) && (y <? 8 * rows g)); [|done]. destruct (Z.eqb_spec (x / 8) c), (Z.eqb_spec (y / 8) r); try done. exfalso. by apply Hno. }
  exists g2, f2. split; [done|]. split; [split; [done|unfold shows in *; by rewrite Hl2|by rewrite Hv2]|].
  split; [|by destruct Hr2 as (? & ? & ? & ? & ? & ->)]. eapply tracked_trans; [|exact Ht2]. by apply tracked_refl.
Qed.

Lemma tracked_size g f g' f' : tracked g f g' f' -> cols g' = cols g /\ rows g' = rows g.
Proof. intros [_ _ Hl _ _]. by injection Hl. Qed.

Lemma grid_backspace_run g f t v : bare g f t v -> col_ok g t ->
  exists g' f', gfx_console_backspace g = Ret tt g' [] /\ bare g' f' (term_backspace (cols g) t) v /\ 0 <= t_col (term_backspace (cols g) t) < cols g /\ tracked g f g' f'.
Proof.
  intros [Hok Hs Hv] Hcol. unfold col_ok in Hcol. pose proof (go_row _ _ _ Hok) as Hrow. pose proof (rows_small _ _ _ Hok). destruct (go_cursor _ _ _ Hok) as [Hcc Hcr].
  unfold gfx_console_backspace, term_backspace. krun. unfold id. rewrite (no_cells_ok _ _ _ Hok), Hcc, Hcr.
  destruct (Z.ltb_spec 0 (t_col t)) as [H1|H1].
  - rewrite (proj2 (Z.eqb_neq (t_col t) 0)) by lia. kif. rewrite bind_modify. krun. unfold id. cbn [cursor_col cursor_row set_cursor_col set_cursor_row]. rewrite Hcr.
    assert (Hb : bare (set_cursor_col (t_col t - 1) g) f (term_at (t_col t - 1) (t_row t) t) v).
    { split; [|exact Hs|exact Hv]. replace (set_cursor_col (t_col t - 1) g) with (set_cursor_row (t_row t) (set_cursor_col (t_col t - 1) g)); [by apply at_cursor|]. destruct g; cbn in *; by subst. }
    destruct (put_cell_run _ _ _ _ (t_col t - 1) (t_row t) (ch " ") Hb) as (g' & f' & Hr' & Hb' & Ht' & _); [cbn; lia|done|done|].
    exists g', f'. split; [done|]. split; [done|]. split; [cbn; lia|]. eapply tracked_trans; [|exact Ht']. by apply tracked_refl.
  - assert (Hc0 : t_col t = 0) by lia. rewrite Hc0. cbn [Z.eqb andb]. destruct (Z.ltb_spec 0 (t_row t)) as [H2|H2].
    + rewrite (proj2 (Z.eqb_neq (t_row t) 0)) by lia. kif. rewrite bind_assoc, !bind_modify. krun. unfold id. cbn [cursor_col cursor_row set_cursor_col set_cursor_row]. rewrite u32_small by lia.
      set (g1 := set_cursor_col (cols g - 1) (set_cursor_row (t_row t - 1) g)).
      assert (Hb : bare g1 f (term_at (cols g - 1) (t_row t - 1) t) v) by (split; [apply (at_cursor g f t (cols g - 1) (t_row t - 1) Hok); lia|exact Hs|exact Hv]).
      destruct (put_cell_run _ _ _ _ (cols g - 1) (t_row t - 1) (ch " ") Hb) as (g' & f' & Hr' & Hb' & Ht' & _); [cbn; lia|cbn; lia|done|].
      exists g', f'. split; [done|]. split; [done|]. split; [cbn; lia|]. eapply tracked_trans; [|exact Ht']. by apply tracked_refl.
    + assert (Hr0 : t_row t = 0) by lia. rewrite Hr0. kif. exists g, f. split; [done|]. split; [done|]. split; [lia|by apply tracked_refl].
Qed.

Lemma newline_col nr t : t_col (term_newline nr t) = 0.
Proof. unfold term_newline. by case_match. Qed.

Lemma printable_run c : (if (c <? 32) || (126 <? c) then ch "?" else c) = printable c.
Proof. unfold printable. change (ch "?") with 63. destruct (Z.ltb_spec c 32), (Z.ltb_spec 126 c), (Z.leb_spec 32 c), (Z.leb_spec c 126); cbn; done || lia. Qed.

Lemma gfx_putc_run g f t c : con_ok g f t ->
  exists g' f', gfx_console_putc c g = Ret tt g' [] /\ con_ok g' f' (term_putc (cols g) (rows g) c t) /\ cursor_visible g' = 1 /\ tracked g f g' f'.
Proof.
  intros Hck. pose proof Hck as [Hok Hcol _]. pose proof (go_row _ _ _ Hok) as Hrow. pose proof Hcol as Hcol'. unfold col_ok in Hcol'. pose proof (rows_small _ _ _ Hok) as Hsm.
  unfold gfx_console_putc, term_putc, console_is_backspace. krun. unfold id. rewrite (no_cells_ok _ _ _ Hok), (proj2 (Z.eqb_neq (cols g) 0)), (proj2 (Z.eqb_neq (rows g) 0)) by lia. kif.
  destruct (hide_run g f t Hck) as (g1 & f1 & H1 & Hok1 & Hcol1 & Hs1 & Hv1 & Ht1). rewrite (bind_Ret_nil _ _ _ _ _ H1). destruct (tracked_size _ _ _ _ Ht1) as [Hc1 Hr1].
  assert (Hfin : forall g2 f2 t2 v, bare g2 f2 t2 v -> tracked g1 f1 g2 f2 -> 0 <= t_col t2 < cols g ->
    exists g' f', gfx_console_show_cursor g2 = Ret tt g' [] /\ con_ok g' f' t2 /\ cursor_visible g' = 1 /\ tracked g f g' f').
  { intros g2 f2 t2 v [Hok2 Hs2 _] Ht2 Hc2. destruct (tracked_size _ _ _ _ Ht2) as [Hcs2 _]. destruct (show_run g2 f2 t2 false Hok2) as (g' & f' & Hr' & Hck' & Hv' & Ht'); [unfold col_ok; congruence|done|].
    exists g', f'. split; [done|]. split; [done|]. split; [done|]. eapply tracked_trans; [exact Ht1|]. by eapply tracked_trans. }
  assert (Hb1 : bare g1 f1 t 0) by by split. destruct (go_cursor _ _ _ Hok1) as [Hcc Hcr].
  destruct (c =? 13).
  { krun. apply (Hfin _ f1 (term_at 0 (t_row t) t) 0); [|by apply tracked_refl|cbn; lia].
    split; [|exact Hs1|exact Hv1]. replace (set_cursor_col 0 g1) with (set_cursor_row (t_row t) (set_cursor_col 0 g1)); [apply at_cursor; [done|congruence]|]. destruct g1; cbn in *; by subst. }
  destruct (c =? 10).
  { destruct (newline_run g1 f1 t 0 Hb1) as (g2 & f2 & H2 & Hb2 & Ht2); [congruence || lia|]. rewrite (bind_Ret_nil _ _ _ _ _ H2), <- Hr1. apply (Hfin _ f2 _ 0); [done|done|]. rewrite newline_col. lia. }
  change 0x7f with 127. destruct ((c =? 8) || (c =? 127)).
  { destruct (grid_backspace_run g1 f1 t 0 Hb1 Hcol1) as (g2 & f2 & H2 & Hb2 & Hcb & Ht2). rewrite (bind_Ret_nil _ _ _ _ _ H2). rewrite Hc1 in Hb2, Hcb. by apply (Hfin _ f2 _ 0). }
  cbv zeta. krun. unfold id. rewrite printable_run, Hcc, Hcr.
  assert (Hpr : 0 < printable c < 256) by (unfold printable; destruct (Z.leb_spec 32 c), (Z.leb_spec c 126); cbn; lia).
  destruct (put_cell_run g1 f1 t 0 (t_col t) (t_row t) (printable c) Hb1) as (g2 & f2 & H2 & Hb2 & Ht2 & Hcc2 & Hcr2); [exact Hcol1|congruence|done|].
  rewrite <- (bind_assoc _ (fun _ => gfx_console_draw_cell _ _)). rewrite (bind_Ret_nil _ _ _ _ _ H2). krun. unfold id. cbn [cursor_col set_cursor_col cols].
  destruct (tracked_size _ _ _ _ Ht2) as [Hc2 Hr2]. rewrite Hcc2, Hcc, Hc2, Hc1, u32_small by lia. set (t1 := term_set _ _ _ t) in *.
  set (g3 := set_cursor_col (t_col t + 1) g2). assert (Hb3 : bare g3 f2 (term_at (t_col t + 1) (t_row t) t1) 0).
  { destruct Hb2 as [Hok2 Hs2 Hv2]. split; [|exact Hs2|exact Hv2]. replace g3 with (set_cursor_row (t_row t) g3); [apply (at_cursor g2 f2 t1 (t_col t + 1) (t_row t) Hok2); by rewrite Hr2, Hr1|].
    assert (Hrr : t_row t = cursor_row g2) by congruence. unfold g3. rewrite Hrr. by destruct g2. }
  assert (Ht3 : tracked g1 f1 g3 f2) by (eapply tracked_trans; [exact Ht2|by apply tracked_refl]).
  destruct (Z.leb_spec (cols g) (t_col t + 1)) as [Hend|Hend].
  - rewrite (proj2 (Z.ltb_ge _ _)) by lia. destruct (newline_run g3 f2 _ 0 Hb3) as (g4 & f4 & H4 & Hb4 & Ht4); [cbn; lia|]. rewrite (bind_Ret_nil _ _ _ _ _ H4).
    assert (Hrr : rows g3 = rows g) by (cbn; congruence). rewrite Hrr in Hb4. apply (Hfin _ f4 _ 0); [done|by eapply tracked_trans|]. rewrite newline_col. lia.
  - rewrite (proj2 (Z.ltb_lt _ _)) by lia. krun. apply (Hfin _ f2 _ 0); [done|done|cbn; lia].
Qed.
