(* ===== verification/ConsoleDisplay.v ===== *)
(** The console as its callers see it (src/src/kernel/console.c): the serial port
    gets the characters written, and the display shows a terminal they were
    written to, whatever the framebuffer and the display showed before. *)
From S2P Require Import Prelude LibString Klog Memory BlockDevice Input Graphics Console ConsoleTerm.

(** ** The contract *)

Record view : Type := View { v_mode : Z; v_term : term }.

Section contract.
Context (nc nr : Z).

Definition view_putc (v : view) (c : Z) : view :=
  View (v_mode v) (if has_sink (v_mode v) CONSOLE_SINK_GRAPHICS then term_putc nc nr c (v_term v) else v_term v).
Definition serial_putc (v : view) (c : Z) : list Z :=
  if has_sink (v_mode v) CONSOLE_SINK_SERIAL then if c =? 10 then [13; 10] else [c] else [].

Inductive con_op : Type := Putc (c : Z) | Write (l : list Z) (rest : mem) | WriteLen (buffer : mem) (length : Z) | Flush | OutputMode (mode : Z).
Definition written (op : con_op) : list Z :=
  match op with Putc c => [c] | Write l _ => l | WriteLen buffer n => take (Z.to_nat n) buffer | _ => [] end.
Definition op_ok (op : con_op) : Prop :=
  match op with Write l _ => no_nul l | WriteLen buffer n => 0 <= n <= lenZ buffer | _ => True end.
Definition view_op (v : view) (op : con_op) : view :=
  match op with OutputMode m => View (Z.land m 3) (v_term v) | _ => fold_left view_putc (written op) v end.
Definition serial_op (v : view) (op : con_op) : list Z := flat_map (serial_putc v) (written op).
Fixpoint serial_ops (v : view) (ops : list con_op) : list Z :=
  match ops with [] => [] | op :: ops' => serial_op v op ++ serial_ops (view_op v op) ops' end.
End contract.

Definition blank_term : term := Term 0 0 (fun _ _ => 32).

Section display.
Context {G C K : Type} `{DisplayDriver G} `{OutputCapture C} `{KeyboardDriver K} (plat : platform).
Implicit Types s : console G C K.

Definition run_op (op : con_op) : M (console G C K) unit :=
  match op with
  | Putc c => console_putc c
  | Write l rest => console_write (l ++ 0 :: rest)
  | WriteLen buffer n => console_write_len buffer n
  | Flush => console_flush
  | OutputMode mode => console_set_output_mode mode
  end.
Fixpoint run_ops (ops : list con_op) : M (console G C K) unit :=
  match ops with [] => ret tt | op :: ops' => run_op op;; run_ops ops' end.

(** ** The invariant *)

Abbreviation graphics m := (has_sink m CONSOLE_SINK_GRAPHICS).

(** Between operations; [l] is the look of the screen. *)
Record console_ok (s : console G C K) (f : framebuffer) (l : look) (v : view) : Prop := {
  co_con : con_ok (gfx_console s) f (v_term v);
  co_look : look_of (gfx_console s) = l;
  co_mode : console_mode s = v_mode v;
  co_capture : console_capture s = None;
  co_avail : virtio_gpu_available (gpu s) = true;
  co_bar : graphics (v_mode v) = true -> cursor_visible (gfx_console s) = 1;
  co_sync : forall x y, inside f x y -> displayed (gpu s) x y = pixel f x y \/ in_dirty (gfx_console s) x y
}.

(** The rest of the console, and the size of the screen. *)
Definition screen_size (s : console G C K) : option (Z * Z) := f ← con_fb (gfx_console s); Some (fb_width f, fb_height f).
Definition same_rest (s s' : console G C K) : Prop := console_heap s' = console_heap s /\ console_input s' = console_input s /\ screen_size s' = screen_size s.

Lemma same_rest_trans (s s1 s2 : console G C K) : same_rest s s1 -> same_rest s1 s2 -> same_rest s s2.
Proof. unfold same_rest. intros (-> & -> & ->) (-> & -> & ->). done. Qed.

Lemma same_rest_refl (s : console G C K) : same_rest s s.
Proof. by split. Qed.
#[local] Hint Resolve same_rest_refl : core.

Lemma tracked_rest (s : console G C K) f g' f' t : con_fb (gfx_console s) = Some f -> grid_ok g' f' t -> tracked (gfx_console s) f g' f' -> same_rest s (set_gfx_console g' s).
Proof. intros Hf [Hf' _ _ _ _ _ _ _ _ _] [Hw Hh _ _ _]. split; [done|]. split; [done|]. unfold screen_size. cbn. rewrite Hf, Hf'. cbn. by rewrite Hw, Hh. Qed.

Lemma on_gfx_run {A} (m : M gfx_console_state A) s a g o : m (gfx_console s) = Ret a g o -> on_gfx m s = Ret a (set_gfx_console g s) o.
Proof. apply zoom_Ret. Qed.

Lemma sync_tracked g f g' f' (d : G) : tracked g f g' f' ->
  (forall x y, inside f x y -> displayed d x y = pixel f x y \/ in_dirty g x y) ->
  forall x y, inside f' x y -> displayed d x y = pixel f' x y \/ in_dirty g' x y.
Proof.
  intros [Hw Hh _ Hd Hp] Hs x y Hin. assert (Hin0 : inside f x y) by (unfold inside in *; by rewrite <- Hw, <- Hh).
  destruct (Hp x y Hin0) as [Hpx|Hpx]; [|by right]. rewrite Hpx. destruct (Hs x y Hin0); [by left|right; by apply Hd].
Qed.

Lemma look_size s f l v : console_ok s f l v -> cols (gfx_console s) = lk_cols l /\ rows (gfx_console s) = lk_rows l.
Proof. intros [_ Hl _ _ _ _ _]. by rewrite <- Hl. Qed.

Lemma putc_unlocked_run s f l v c : console_ok s f l v ->
  exists s' f', console_putc_unlocked c s = Ret tt s' (serial_putc v c) /\ console_ok s' f' l (view_putc (lk_cols l) (lk_rows l) v c) /\ same_rest s s'.
Proof.
  intros Hok. destruct (look_size _ _ _ _ Hok) as [Hlc Hlr]. pose proof Hok as [Hcon Hl Hm Hcap Hav Hbar Hsync]. unfold console_putc_unlocked. krun. unfold id. rewrite Hcap, Hm.
  assert (Hser : forall s0, (if has_sink (v_mode v) CONSOLE_SINK_SERIAL then (if c =? 10 then uart_putc 13 else ret tt);; uart_putc c else ret tt) s0 = Ret tt s0 (serial_putc v c)).
  { intros s0. unfold serial_putc. destruct (has_sink _ CONSOLE_SINK_SERIAL); [|done]. destruct (Z.eqb_spec c 10) as [->|]; done. }
  unfold bind at 1. rewrite Hser. unfold view_putc. destruct (graphics (v_mode v)) eqn:Hg.
  - destruct (gfx_putc_run _ _ _ c Hcon) as (g' & f' & Hr & Hcon' & Hv' & Ht'). rewrite (on_gfx_run _ _ _ _ _ Hr), app_nil_r. rewrite Hlc, Hlr in Hcon'.
    exists (set_gfx_console g' s), f'. split; [done|]. split; [|exact (tracked_rest s f g' f' _ (go_fb _ _ _ (ck_grid _ _ _ Hcon)) (ck_grid _ _ _ Hcon') Ht')].
    split; cbn; try done; [rewrite (tr_look _ _ _ _ Ht'); exact Hl|]. by eapply sync_tracked.
  - exists s, f. split; [unfold ret; by rewrite app_nil_r|]. split; [|done]. split; try done. cbn. by rewrite Hg.
Qed.

Lemma bind_out {A B} (m : M (console G C K) A) (k : A -> M (console G C K) B) s a s1 o b s2 o2 :
  m s = Ret a s1 o -> k a s1 = Ret b s2 o2 -> bind m k s = Ret b s2 (o ++ o2).
Proof. unfold bind. intros -> ->. done. Qed.

Lemma puts_mode nc nr l v : v_mode (fold_left (view_putc nc nr) l v) = v_mode v.
Proof. revert v. induction l as [|c l IH]; intros v; [done|]. cbn. by rewrite IH. Qed.

Lemma write_unlocked_run str rest : no_nul str -> forall s f l v, console_ok s f l v ->
  exists s' f', console_write_unlocked (str ++ 0 :: rest) s = Ret tt s' (flat_map (serial_putc v) str) /\
    console_ok s' f' l (fold_left (view_putc (lk_cols l) (lk_rows l)) str v) /\ same_rest s s'.
Proof.
  induction str as [|c str IH]; intros Hn s f l v Hok; [by exists s, f|]. apply Forall_cons in Hn as [Hc Hn]. cbn [app console_write_unlocked].
  rewrite (proj2 (Z.eqb_neq c 0)) by done. destruct (putc_unlocked_run s f l v c Hok) as (s1 & f1 & Ha1 & Hok1 & Hr1).
  destruct (IH Hn s1 f1 l _ Hok1) as (s2 & f2 & Ha2 & Hok2 & Hr2). exists s2, f2. split; [|split; [done|by eapply same_rest_trans]].
  rewrite (bind_out _ _ _ _ _ _ _ _ _ Ha1 Ha2). done.
Qed.

Lemma write_len_run n : forall i buffer s f l v, 0 <= i -> i + Z.of_nat n <= lenZ buffer -> console_ok s f l v ->
  exists s' f', for_range n i (fun i => c <- deref (rd buffer i);; console_putc_unlocked c) s = Ret tt s' (flat_map (serial_putc v) (take n (drop (Z.to_nat i) buffer))) /\
    console_ok s' f' l (fold_left (view_putc (lk_cols l) (lk_rows l)) (take n (drop (Z.to_nat i) buffer)) v) /\ same_rest s s'.
Proof.
  induction n as [|n IH]; intros i buffer s f l v Hi Hn Hok; [by exists s, f|]. cbn [for_range]. destruct (rd_Some buffer i ltac:(lia)) as [c Hc].
  destruct (putc_unlocked_run s f l v c Hok) as (s1 & f1 & Ha1 & Hok1 & Hr1). destruct (IH (i + 1) buffer s1 f1 l _ ltac:(lia) ltac:(lia) Hok1) as (s2 & f2 & Ha2 & Hok2 & Hr2).
  assert (Hd : drop (Z.to_nat i) buffer = c :: drop (Z.to_nat (i + 1)) buffer).
  { replace (Z.to_nat (i + 1)) with (S (Z.to_nat i)) by lia. apply drop_S. unfold rd in Hc. by rewrite (proj2 (Z.leb_le 0 i)) in Hc. }
  rewrite Hd. exists s2, f2. split; [|split; [done|by eapply same_rest_trans]].
  assert (Hb : (c0 <- deref (rd buffer i);; console_putc_unlocked c0) s = Ret tt s1 (serial_putc v c)) by (by rewrite (bind_deref_Some _ _ _ _ Hc)).
  rewrite (bind_out _ _ _ _ _ _ _ _ _ Hb Ha2). done.
Qed.

(** *** Flushing *)

Context (works : forall x y w h f (d : G), (virtio_gpu_flush_rect x y w h f d).2 = 0).

(** The display shows every pixel. *)
Definition in_sync (s : console G C K) (f : framebuffer) : Prop := forall x y, inside f x y -> displayed (gpu s) x y = pixel f x y.

Lemma flush_run s f l v : console_ok s f l v ->
  exists s', console_flush_unlocked s = Ret tt s' [] /\ console_ok s' f l v /\ same_rest s s' /\ (graphics (v_mode v) = true -> in_sync s' f).
Proof using works.
  intros Hok. pose proof Hok as [Hcon Hl Hm Hcap Hav Hbar Hsync]. unfold console_flush_unlocked. krun. unfold id. rewrite Hm, Hav, andb_true_r.
  destruct (graphics (v_mode v)) eqn:Hg; [|by exists s]. pose proof (go_fb _ _ _ (ck_grid _ _ _ Hcon)) as Hfb. pose proof (go_dirty _ _ _ (ck_grid _ _ _ Hcon)) as Hdi.
  destruct (Z.eqb_spec (dirty_valid (gfx_console s)) 0) as [Hv|Hv]; cbn [negb].
  - exists s. split; [done|]. split; [done|]. split; [done|]. intros _ x y Hin. destruct (Hsync x y Hin) as [?|[? _]]; done.
  - specialize (Hdi Hv). rewrite (bind_deref_Some _ _ _ _ Hfb). krun. eexists. split; [reflexivity|].
    pose proof (go_small _ _ _ (ck_grid _ _ _ Hcon)). rewrite !u32_small by lia. set (g := gfx_console s) in *.
    match goal with |- console_ok ?s1 _ _ _ /\ _ => assert (Hin : in_sync s1 f) end.
    { intros x y Hin. cbn. rewrite flush_displays by (done || apply works). destruct (decide _) as [Hd|Hd]; [done|]. destruct (Hsync x y Hin) as [?|(_ & ? & ?)]; [done|]. exfalso. apply Hd. lia. }
    split; [|done]. destruct Hcon as [Hgr Hcol Hsh]. split; cbn; try done.
    + split; [|done|done]. by destruct Hgr.
    + by rewrite flush_available.
    + intros _. by apply Hbar.
    + intros x y Hi. left. by apply Hin.
Qed.

(** *** Operations *)

Lemma set_console_mode_ok s f l v m : console_ok s f l v -> (graphics m = true -> cursor_visible (gfx_console s) = 1) ->
  console_ok (set_console_mode m s) f l (View m (v_term v)).
Proof. intros [] Hb. by split. Qed.

Lemma output_mode_run s f l v m : console_ok s f l v ->
  exists s' f', console_set_output_mode m s = Ret tt s' [] /\ console_ok s' f' l (View (Z.land m 3) (v_term v)) /\ same_rest s s' /\ (graphics (Z.land m 3) = true -> in_sync s' f').
Proof using works.
  intros Hok. pose proof Hok as [Hcon Hl Hm Hcap Hav Hbar Hsync]. unfold console_set_output_mode. change (Z.lor CONSOLE_SINK_SERIAL CONSOLE_SINK_GRAPHICS) with 3. krun.
  cbn [gfx_console set_console_mode]. rewrite (no_cells_ok _ _ _ (ck_grid _ _ _ Hcon)). krun. unfold id. cbn [console_mode set_console_mode].
  set (s1 := set_console_mode (Z.land m 3) s). destruct (graphics (Z.land m 3)) eqn:Hg.
  - destruct Hcon as [Hgr Hcol Hsh]. destruct (show_run (gfx_console s1) f (v_term v) _ Hgr Hcol Hsh) as (g' & f' & Hr & Hcon' & Hvis & Ht).
    rewrite (bind_Ret_nil _ _ _ _ _ (on_gfx_run _ _ _ _ _ Hr)).
    assert (Hok2 : console_ok (set_gfx_console g' s1) f' l (View (Z.land m 3) (v_term v))).
    { split; cbn; try done; [rewrite (tr_look _ _ _ _ Ht); exact Hl|]. by eapply sync_tracked. }
    destruct (flush_run _ _ _ _ Hok2) as (s3 & H3 & Hok3 & Hr3 & Hin3). exists s3, f'. split; [done|]. split; [done|]. split; [|intros _; by apply Hin3].
    eapply same_rest_trans; [|exact Hr3]. exact (tracked_rest s1 f g' f' _ (go_fb _ _ _ Hgr) (ck_grid _ _ _ Hcon') Ht).
  - destruct (hide_run (gfx_console s1) f (v_term v) Hcon) as (g' & f' & Hr & Hgr & Hcol & Hsh & Hvis & Ht). exists (set_gfx_console g' s1), f'.
    split; [by apply on_gfx_run|]. split; [|split; [exact (tracked_rest s1 f g' f' _ (go_fb _ _ _ (ck_grid _ _ _ Hcon)) Hgr Ht)|congruence]].
    split; cbn; try done; [|rewrite (tr_look _ _ _ _ Ht); exact Hl|congruence|by eapply sync_tracked].
    split; [done|done|]. unfold bar_on. by rewrite Hvis.
Qed.

Lemma run_op_run op s f l v : op_ok op -> console_ok s f l v -> (graphics (v_mode v) = true -> in_sync s f) ->
  exists s' f', run_op op s = Ret tt s' (serial_op v op) /\ console_ok s' f' l (view_op (lk_cols l) (lk_rows l) v op) /\ same_rest s s' /\
    (graphics (v_mode (view_op (lk_cols l) (lk_rows l) v op)) = true -> in_sync s' f').
Proof using works.
  intros Hop Hok Hsy. assert (Hfl : forall (m : M (console G C K) unit) s1 f1 l0, m s = Ret tt s1 (flat_map (serial_putc v) l0) ->
    console_ok s1 f1 l (fold_left (view_putc (lk_cols l) (lk_rows l)) l0 v) -> same_rest s s1 ->
    exists s' f', (m;; console_flush_unlocked) s = Ret tt s' (flat_map (serial_putc v) l0) /\ console_ok s' f' l (fold_left (view_putc (lk_cols l) (lk_rows l)) l0 v) /\
      same_rest s s' /\ (graphics (v_mode (fold_left (view_putc (lk_cols l) (lk_rows l)) l0 v)) = true -> in_sync s' f')).
  { intros m s1 f1 l0 Ha1 Hok1 Hr1. destruct (flush_run _ _ _ _ Hok1) as (s2 & Ha2 & Hok2 & Hr2 & Hin2). exists s2, f1. rewrite (bind_out _ _ _ _ _ _ _ _ _ Ha1 Ha2), app_nil_r.
    split; [done|]. split; [done|]. split; [by eapply same_rest_trans|done]. }
  unfold serial_op. destruct op as [c|str rest|buffer n| |m]; cbn [run_op written view_op fold_left flat_map app op_ok] in *.
  - destruct (putc_unlocked_run s f l v c Hok) as (s1 & f1 & Ha1 & Hok1 & Hr1). unfold console_putc. rewrite app_nil_r.
    destruct (Hfl (console_putc_unlocked c) s1 f1 [c]) as (s2 & f2 & Ha2 & Hres); [cbn; by rewrite app_nil_r|done|done|]. exists s2, f2. cbn in Ha2. rewrite app_nil_r in Ha2. by split.
  - destruct (write_unlocked_run str rest Hop s f l v Hok) as (s1 & f1 & Ha1 & Hok1 & Hr1). by apply (Hfl _ s1 f1).
  - unfold console_write_len. destruct (write_len_run (Z.to_nat n) 0 buffer s f l v ltac:(lia) ltac:(lia) Hok) as (s1 & f1 & Ha1 & Hok1 & Hr1). by apply (Hfl _ s1 f1).
  - destruct (flush_run _ _ _ _ Hok) as (s2 & Ha2 & Hok2 & Hr2 & Hin2). by exists s2, f.
  - exact (output_mode_run s f l v m Hok).
Qed.

Lemma run_ops_run ops : forall s f l v, Forall op_ok ops -> console_ok s f l v -> (graphics (v_mode v) = true -> in_sync s f) ->
  exists s' f', run_ops ops s = Ret tt s' (serial_ops (lk_cols l) (lk_rows l) v ops) /\ console_ok s' f' l (fold_left (view_op (lk_cols l) (lk_rows l)) ops v) /\ same_rest s s' /\
    (graphics (v_mode (fold_left (view_op (lk_cols l) (lk_rows l)) ops v)) = true -> in_sync s' f').
Proof using works.
  induction ops as [|op ops IH]; intros s f l v Hop Hok Hsy; [by exists s, f|]. apply Forall_cons in Hop as [Ho Hop]. cbn [run_ops serial_ops fold_left].
  destruct (run_op_run op s f l v Ho Hok Hsy) as (s1 & f1 & Ha1 & Hok1 & Hr1 & Hsy1). destruct (IH s1 f1 l _ Hop Hok1 Hsy1) as (s2 & f2 & Ha2 & Hok2 & Hr2 & Hsy2).
  exists s2, f2. split; [|split; [done|split; [by eapply same_rest_trans|done]]]. by rewrite (bind_out _ _ _ _ _ _ _ _ _ Ha1 Ha2).
Qed.

(** *** Attaching a framebuffer *)

Definition console_look (f : framebuffer) : look := Look (fb_width f / 8) (fb_height f / 8) 0xffffffff 0xff000000 0xff7fd1ff.

Record attachable (s : console G C K) (f : framebuffer) : Prop := {
  at_before : no_cells (gfx_console s) = true \/ exists f0 t0, con_ok (gfx_console s) f0 t0;
  at_capture : console_capture s = None;
  at_avail : virtio_gpu_available (gpu s) = true;
  at_wf : fb_wf f;
  at_width : 8 <= fb_width f < 2 ^ 29;
  at_height : 8 <= fb_height f < 2 ^ 29;
  at_area : fb_width f / 8 * (fb_height f / 8) < 2 ^ 32;
  at_heap : heap_wf (console_heap s);
  at_room : align_up_16 (fb_width f / 8 * (fb_height f / 8)) <= heap_limit (console_heap s) - heap_current (console_heap s)
}.

Lemma kzalloc_run m n : heap_wf m -> 0 <= n < 2 ^ 32 -> align_up_16 n <= heap_limit m - heap_current m ->
  exists p m', kzalloc plat n m = Ret p m' [] /\ p <> 0.
Proof.
  intros Hwf Hn Hroom. destruct (kmalloc_cases plat m n Hwf) as (p & m' & Hr & Hwf' & Hc); [unfold small_size; lia|].
  rewrite (proj2 (Z.ltb_ge _ _)) in Hc by lia. destruct Hc as (_ & _ & _ & _ & Hp). unfold kzalloc. rewrite (bind_Ret_nil _ _ _ _ _ Hr), (proj2 (Z.eqb_neq p 0)) by lia.
  krun. eexists p, _. split; [reflexivity|lia].
Qed.

Lemma space_pixel l y x : 0 <= y < 8 -> glyph_pixel l 32 x y = lk_bg l.
Proof.
  intros Hy. unfold glyph_pixel. assert (Hz : default 0 (b ← gfx_font8x8_get 32; rd b y) = 0); [|rewrite Hz; by rewrite Z.bits_0].
  change (gfx_font8x8_get 32) with (Some [0; 0; 0; 0; 0; 0; 0; 0]). cbn [mbind option_bind].
  assert (Hc : y = 0 \/ y = 1 \/ y = 2 \/ y = 3 \/ y = 4 \/ y = 5 \/ y = 6 \/ y = 7) by lia.
  repeat (destruct Hc as [->|Hc]; [done|]). by subst.
Qed.

Lemma blank_pixel l x y : term_pixel l blank_term false x y = lk_bg l.
Proof.
  unfold term_pixel. destruct ((x <? 8 * lk_cols l) && (y <? 8 * lk_rows l)); [|done]. cbn. apply space_pixel. apply Z.mod_pos_bound. lia.
Qed.

Lemma hide_any g : no_cells g = true \/ (exists f0 t0, con_ok g f0 t0) -> exists g', gfx_console_hide_cursor g = Ret tt g' [].
Proof.
  intros [Hn|(f0 & t0 & Hc)]; [exists g; unfold gfx_console_hide_cursor; krun; unfold id; by rewrite Hn|].
  destruct (hide_run g f0 t0 Hc) as (g' & _ & Hr & _). by exists g'.
Qed.

Lemma replicate_rd n i : 0 <= i < n -> rd (replicate (Z.to_nat n) 0) i = Some 0.
Proof. intros Hi. unfold rd. rewrite (proj2 (Z.leb_le 0 i)) by lia. apply lookup_replicate_2. lia. Qed.

Lemma attach_run s f : attachable s f ->
  exists old s' f', console_attach_graphics plat (Some f) s = Ret old s' [] /\ console_ok s' f' (console_look f) (View (console_mode s) blank_term) /\
    fb_width f' = fb_width f /\ fb_height f' = fb_height f /\ (graphics (console_mode s) = true -> in_sync s' f') /\ console_input s' = console_input s.
Proof using works.
  intros [Hbef Hcap Hav Hwf Hw Hh Harea Hheap Hroom]. unfold console_attach_graphics. destruct (hide_any _ Hbef) as (g0 & Hh0).
  rewrite (bind_Ret_nil _ _ _ _ _ (on_gfx_run _ _ _ _ _ Hh0)). krun. rewrite (bind_Ret_nil _ _ _ _ _ (on_gfx_run (modify _) _ _ _ _ eq_refl)).
  unfold GFX_FONT_WIDTH, GFX_FONT_HEIGHT. rewrite (proj2 (Z.ltb_ge (fb_width f) 8)), (proj2 (Z.ltb_ge (fb_height f) 8)) by lia. kif.
  set (nc := fb_width f / 8) in *. set (nr := fb_height f / 8) in *. assert (Hnc : 1 <= nc) by (unfold nc; Z.div_mod_to_equations; lia). assert (Hnr : 1 <= nr) by (unfold nr; Z.div_mod_to_equations; lia).
  pose proof (Z.mul_nonneg_nonneg nc nr). rewrite (u32_small (nc * nr)) by lia. do 2 rewrite (bind_Ret_nil _ _ _ _ _ (on_gfx_run (modify _) _ _ _ _ eq_refl)).
  match goal with |- context [bind (zoom _ _ _) _ ?x] => set (s1 := x) end. destruct (kzalloc_run (console_heap s1) (nc * nr)) as (p & m' & Hk & Hp); [done|lia|done|].
  rewrite (bind_Ret_nil _ _ _ _ _ (zoom_Ret console_heap set_console_heap _ s1 _ _ _ Hk)), (proj2 (Z.eqb_neq p 0)) by done.
  do 2 rewrite (bind_Ret_nil _ _ _ _ _ (on_gfx_run (modify _) _ _ _ _ eq_refl)). match goal with |- context [bind (on_gfx (on_fb _)) _ ?x] => set (s2 := x) end.
  destruct (fb_clear_draws 0xff000000 f Hwf) as (f2 & Hcl & [Hwf2 Hw2 Hh2 Hp2]).
  assert (Hcl2 : on_fb (fb_clear 0xff000000) (gfx_console s2) = Ret tt (set_con_fb (Some f2) (gfx_console s2)) []) by (unfold on_fb, zoom; change (con_fb (gfx_console s2)) with (Some f); by rewrite Hcl).
  rewrite (bind_Ret_nil _ _ _ _ _ (on_gfx_run _ _ _ _ _ Hcl2)). set (s3 := set_gfx_console _ s2).
  assert (Hok3 : grid_ok (gfx_console s3) f2 blank_term).
  { split; cbn; rewrite ?Hw2, ?Hh2; try done; try lia.
    - exists (replicate (Z.to_nat (nc * nr)) 0). split; [done|]. split; [unfold lenZ; rewrite length_replicate; lia|]. intros c r Hc Hr. 
      exists 0. split; [|done]. apply replicate_rd. split; nia. }
  destruct (mark_dirty_run (gfx_console s3) f2 0 0 (fb_width f) (fb_height f)) as (g4 & H4 & Hre4 & Hd4 & _ & Hcov4); [done|done|rewrite Hw2, Hh2; lia|done|lia..|].
  rewrite (bind_Ret_nil _ _ _ _ _ (on_gfx_run _ _ _ _ _ H4)). destruct (redrawn_look _ _ _ Hre4) as (Hl4 & _ & Hc4 & Hr4).
  assert (Hok4 : grid_ok g4 f2 blank_term) by (by eapply redrawn_grid).
  assert (Hs4 : shows g4 f2 blank_term false).
  { intros x y Hin. rewrite Hl4, blank_pixel. assert (Hin0 : inside f x y) by (unfold inside in *; by rewrite <- Hw2, <- Hh2). by rewrite (Hp2 x y Hin0). }
  destruct (show_run g4 f2 blank_term false Hok4) as (g5 & f5 & H5 & Hcon5 & Hv5 & Ht5); [unfold col_ok; rewrite Hc4; cbn; lia|done|].
  set (s4 := set_gfx_console g4 s3). rewrite (bind_Ret_nil _ _ _ _ _ (on_gfx_run _ s4 _ _ _ H5)). set (s5 := set_gfx_console g5 s4).
  assert (Hok5 : console_ok s5 f5 (console_look f) (View (console_mode s) blank_term)).
  { split; try done; [change (gfx_console s5) with g5; rewrite (tr_look _ _ _ _ Ht5), Hl4; done|]. intros x y Hin. right. apply (tr_dirty _ _ _ _ Ht5).
    assert (Hin2 : inside f2 x y) by (destruct Ht5; unfold inside in *; congruence). apply Hcov4; [done|unfold inside in *; lia|unfold inside in *; lia]. }
  destruct (flush_run _ _ _ _ Hok5) as (s6 & H6 & Hok6 & (_ & Hi6 & _) & Hin6). rewrite (bind_Ret_nil _ _ _ _ _ H6). eexists _, s6, f5. split; [reflexivity|]. split; [done|].
  destruct Ht5 as [Hw5 Hh5 _ _ _]. split; [congruence|]. split; [congruence|]. split; [done|exact Hi6].
Qed.
End display.

(** ** Property *)

(** C8. Whatever was on the framebuffer and the display, once a framebuffer is
    attached every sequence of writes, flushes and changes of the output mode
    sends the characters to the serial port while that is on, and while the
    graphics are on the display shows the terminal the characters were
    written to, every pixel of it, with the bar of the cursor. *)
Theorem console_refines {G C K} `{DisplayDriver G} `{OutputCapture C} `{KeyboardDriver K} plat (s : console G C K) f ops :
  (forall x y w h f (d : G), (virtio_gpu_flush_rect x y w h f d).2 = 0) -> attachable s f -> Forall op_ok ops ->
  let nc := fb_width f / 8 in let nr := fb_height f / 8 in
  let v0 := View (console_mode s) blank_term in let v := fold_left (view_op nc nr) ops v0 in
  exists old s1 s2, console_attach_graphics plat (Some f) s = Ret old s1 [] /\ run_ops ops s1 = Ret tt s2 (serial_ops nc nr v0 ops) /\ console_mode s2 = v_mode v /\
    (has_sink (v_mode v) CONSOLE_SINK_GRAPHICS = true -> forall x y, inside f x y -> displayed (gpu s2) x y = term_pixel (console_look f) (v_term v) true x y).
Proof.
  intros Hworks Hat Hops nc nr v0 v. destruct (attach_run plat Hworks s f Hat) as (old & s1 & f1 & H1' & Hok1 & Hw1 & Hh1 & Hsy1 & _).
  destruct (run_ops_run Hworks ops s1 f1 _ _ Hops Hok1 Hsy1) as (s2 & f2 & H2' & Hok2 & Hr2 & Hsy2). cbn [console_look lk_cols lk_rows] in *. fold nc nr v0 v in H2', Hok2, Hsy2.
  exists old, s1, s2. split; [done|]. split; [done|]. destruct Hok2 as [[Hgr Hcol Hsh] Hl Hm Hcap Hav Hbar Hsy]. split; [done|]. intros Hg x y Hin.
  destruct Hr2 as (_ & _ & Hsz). unfold screen_size in Hsz. destruct Hok1 as [Hcon1 _ _ _ _ _ _]. rewrite (go_fb _ _ _ Hgr), (go_fb _ _ _ (ck_grid _ _ _ Hcon1)) in Hsz. injection Hsz as Hw2 Hh2.
  assert (Hin2 : inside f2 x y) by (unfold inside in *; congruence). rewrite (Hsy2 Hg x y Hin2), (Hsh x y Hin2), Hl. unfold bar_on. by rewrite (Hbar Hg).
Qed.

(** ** A display *)

(** A display that is there, and what it shows. *)
Definition panel : Type := Z -> Z -> Z.
Definition panel_flush (x y w h : Z) (f : framebuffer) (d : panel) : panel := fun px py => if decide (x <= px < x + w /\ y <= py < y + h) then pixel f px py else d px py.
#[export] Instance panel_display : DisplayDriver panel := {
  virtio_gpu_available _ := true;
  virtio_gpu_flush_rect x y w h f d := (panel_flush x y w h f d, 0);
  displayed d := d;
  flush_available _ _ _ _ _ _ := eq_refl;
  flush_displays _ _ _ _ _ _ _ _ _ _ := eq_refl
}.
#[export] Instance log_capture : OutputCapture (list Z) := { console_capture_char c l := l ++ [c] }.
#[export] Instance no_keyboard : KeyboardDriver unit := { virtio_input_available _ := false; virtio_input_poll k := (k, []) }.

Definition cold_console : console panel (list Z) unit :=
  Console 3 None zero_gfx (fun _ _ => 7) demo_heap (Input (replicate 64 (Event 0 0 (Character 0) 0 0)) 0 0 INPUT_SOURCE_SERIAL 0 [] tt).

Lemma cold_attachable : attachable cold_console small_screen.
Proof. split; [by left|done|done|exact small_screen_wf|cbn; lia|cbn; lia|by vm_compute|exact demo_heap_wf|by vm_compute]. Qed.

(** On a screen of two cells in one row: three letters and a backspace. *)
Lemma console_refines_witness : attachable cold_console small_screen /\ exists s1 s2 old,
  console_attach_graphics tiny_plat (Some small_screen) cold_console = Ret old s1 [] /\
  run_ops [Write [65; 66] []; OutputMode 2; WriteLen [67; 8] 2] s1 = Ret tt s2 [65; 66] /\
  displayed (gpu s2) 0 7 = 0xff7fd1ff.
Proof.
  split; [exact cold_attachable|]. assert (Hworks : forall x y w h f (d : panel), (virtio_gpu_flush_rect x y w h f d).2 = 0) by done.
  destruct (console_refines tiny_plat cold_console small_screen [Write [65; 66] []; OutputMode 2; WriteLen [67; 8] 2] Hworks cold_attachable)
    as (old & s1 & s2 & Ha & Hr & _ & Hd); [repeat constructor; cbn; done || lia|]. exists s1, s2, old. split; [exact Ha|]. split; [exact Hr|].
  rewrite (Hd eq_refl 0 7); [|split; cbn; lia]. vm_compute. reflexivity.
Defined.
