(* ===== verification/ConsoleLine.v ===== *)
(** Reading a line (src/src/kernel/console.c, console_read_line) over the events of
    the input layer, with its echo on the console. *)
From S2P Require Import Prelude LibString Klog Memory BlockDevice Input Graphics Console ConsoleTerm ConsoleDisplay.

(** ** What a line editor does *)

(** What one character does to the line: the new line and what is echoed, or the
    end of the line. *)
Inductive edit : Type := Edited (line : list Z) (echo : list con_op) | Entered.
Definition edit_char (max_len : Z) (line : list Z) (c : Z) : edit :=
  if (c =? 13) || (c =? 10) then Entered
  else if (c =? 8) || (c =? 127) then
    if bool_decide (line = []) then Edited [] [] else Edited (removelast line) [Write [8; 32; 8] []]
  else if lenZ line + 1 <? max_len then Edited (line ++ [c]) [Putc c]
  else Edited line [].

(** What the waiting events do, up to the one that ends the line: the line, the
    echo, the events left over and the state of the shift keys. *)
Fixpoint edit_events (mode max_len : Z) (shift : bool) (line : list Z) (events : list input_event) : option (list Z * list con_op * list input_event * bool) :=
  match events with
  | [] => None
  | e :: events' =>
      match event_text mode shift e with
      | (None, shift') => edit_events mode max_len shift' line events'
      | (Some c, shift') =>
          match edit_char max_len line c with
          | Entered => Some (line, [Putc 10], events', shift')
          | Edited line' echo =>
              '(r, echo', rest, shift'') ← edit_events mode max_len shift' line' events';
              Some (r, echo ++ echo', rest, shift'')
          end
      end
  end.

Lemma removelast_length (l : list Z) : l <> [] -> lenZ (removelast l) = lenZ l - 1.
Proof.
  intros Hl. destruct (exists_last Hl) as (l' & c & ->). rewrite removelast_last, lenZ_app. change (lenZ [c]) with 1. lia.
Qed.

Lemma edit_char_fit max_len line c line' echo : lenZ line < max_len -> edit_char max_len line c = Edited line' echo -> lenZ line' < max_len.
Proof.
  intros Hl. unfold edit_char. destruct ((c =? 13) || (c =? 10)); [done|]. destruct ((c =? 8) || (c =? 127)).
  - case_bool_decide as Hn; intros [= <- <-]; [unfold lenZ in *; cbn; lia|]. rewrite removelast_length by done. lia.
  - destruct (Z.ltb_spec (lenZ line + 1) max_len); intros [= <- <-]; [|done]. rewrite lenZ_app. change (lenZ [c]) with 1. lia.
Qed.

(** The line fits into the buffer with its terminator. *)
Lemma edit_events_fit mode max_len events : forall shift line r echo rest shift', lenZ line < max_len ->
  edit_events mode max_len shift line events = Some (r, echo, rest, shift') -> lenZ r < max_len.
Proof.
  induction events as [|e events IH]; intros shift line r echo rest shift' Hl He; [done|]. cbn [edit_events] in He. destruct (event_text mode shift e) as [[c|] shift1]; [|by eapply IH].
  destruct (edit_char max_len line c) as [line1 echo1|] eqn:Ec; [|by injection He as <- _ _ _]. apply edit_char_fit in Ec; [|done].
  destruct (edit_events mode max_len shift1 line1 events) as [[[[r2 echo2] rest2] shift2]|] eqn:Er; [|done]. injection He as <- _ _ _. by eapply IH.
Qed.

Section reading.
Context {G C K : Type} `{DisplayDriver G} `{OutputCapture C} `{KeyboardDriver K}.
Implicit Types s : console G C K.
Context (works : forall x y w h f (d : G), (virtio_gpu_flush_rect x y w h f d).2 = 0).

Lemma input_ok s f l v i : console_ok s f l v -> console_ok (set_console_input i s) f l v.
Proof. by intros []. Qed.

(** The reader with [n] more events to look at. *)
Record reading (s : console G C K) (f : framebuffer) (l : look) (v : view) (mode : Z) (shift : bool) (events : list input_event) : Prop := {
  rg_ok : console_ok s f l v;
  rg_sync : has_sink (v_mode v) CONSOLE_SINK_GRAPHICS = true -> in_sync s f;
  rg_ring : ring_wf (console_input s);
  rg_events : pending (console_input s) = events;
  rg_event_ok : Forall event_ok events;
  rg_mode : input_mode_flags (console_input s) = mode;
  rg_shift : input_modifiers (console_input s) = Z.b2z shift
}.

Lemma on_input_run {A} (m : M (input K) A) s a i o : m (console_input s) = Ret a i o -> on_input m s = Ret a (set_console_input i s) o.
Proof. apply zoom_Ret. Qed.

Lemma wait_ready n s f l v mode shift e events : reading s f l v mode shift (e :: events) -> wait_event (S n) s = Ret tt s [].
Proof.
  intros [_ _ Hwf He _ _ _]. cbn [wait_event]. rewrite (bind_Ret_nil _ _ _ _ _ (on_input_run _ _ _ _ _ (input_has_event_run _ Hwf))), He.
  rewrite bool_decide_eq_false_2 by done. cbn. by destruct s.
Qed.

(** Taking an event and asking for its character. *)
Lemma next_char s f l v mode shift e events e0 c0 : reading s f l v mode shift (e :: events) ->
  exists s1 s2, on_input (input_pop_event (Some e0)) s = Ret (1, Some e) s1 [] /\
    on_input (input_event_to_char (Some e) (Some c0)) s1 = Ret (match (event_text mode shift e).1 with Some c => (1, Some c) | None => (0, Some c0) end) s2 [] /\
    reading s2 f l v mode (event_text mode shift e).2 events.
Proof.
  intros [Hok Hsy Hwf He Hev Hm Hsh]. apply Forall_cons in Hev as [Heo Hev]. pose proof (input_pop_event_ok _ e0 Hwf) as Hpop. rewrite He in Hpop.
  destruct Hpop as (i1 & Hpop & Hwf1 & Hp1 & Hr1). unfold rest_of in Hr1. injection Hr1 as Hm1 Hs1 Hrx1 Hk1.
  destruct (input_event_to_char_ok i1 e c0 shift Heo) as (i2 & Hch & ->); [congruence|]. rewrite Hm1, Hm in Hch.
  exists (set_console_input i1 s). eexists. split; [by apply on_input_run|]. split; [exact (on_input_run _ (set_console_input i1 s) _ _ _ Hch)|].
  split; cbn; try done; [by do 2 apply input_ok|by destruct Hwf1|congruence].
Qed.

Lemma echo_run op s f l v mode shift events : op_ok op -> (match op with OutputMode _ => False | _ => True end) -> reading s f l v mode shift events ->
  exists s' f', run_op op s = Ret tt s' (serial_op v op) /\ reading s' f' l (view_op (lk_cols l) (lk_rows l) v op) mode shift events.
Proof using works.
  intros Ho _ [Hok Hsy Hwf He Hev Hm Hsh]. destruct (run_op_run works op s f l v Ho Hok Hsy) as (s' & f' & Hr & Hok' & (_ & Hi & _) & Hsy').
  exists s', f'. split; [done|]. split; try done; by rewrite Hi.
Qed.

(** *** The buffer *)

Lemma take_set (buffer line : list Z) (c : Z) : take (length line) buffer = line -> lenZ line < lenZ buffer ->
  exists buffer', wr buffer (lenZ line) c = Some buffer' /\ take (S (length line)) buffer' = line ++ [c] /\ lenZ buffer' = lenZ buffer /\
    forall n, lenZ line < n -> drop (Z.to_nat n) buffer' = drop (Z.to_nat n) buffer.
Proof.
  intros Ht Hl. exists (<[length line := c]> buffer). unfold lenZ in *. split; [|split; [|split]].
  - rewrite wr_Some by (unfold lenZ; lia). by rewrite Nat2Z.id.
  - rewrite (take_S_r _ _ c) by (apply list_lookup_insert_eq; lia). by rewrite take_insert_ge, Ht by lia.
  - by rewrite length_insert.
  - intros n Hn. apply drop_insert_lt. lia.
Qed.

Lemma take_removelast (buffer line : list Z) : line <> [] -> take (length line) buffer = line -> take (length (removelast line)) buffer = removelast line.
Proof.
  intros Hn Ht. destruct (exists_last Hn) as (l & c & ->). rewrite removelast_last. rewrite length_app in Ht. cbn in Ht.
  apply (f_equal (take (length l))) in Ht. rewrite take_take, take_app_length in Ht. by replace (length l `min` (length l + 1))%nat with (length l) in Ht by lia.
Qed.

Lemma read_line_run l mode max_len events : forall fuel shift line buffer s f v e0 c0 r echo rest shift',
  reading s f l v mode shift events -> lenZ line < max_len -> max_len <= lenZ buffer -> max_len < 2 ^ 64 -> take (length line) buffer = line ->
  edit_events mode max_len shift line events = Some (r, echo, rest, shift') ->
  exists s' f' buffer', read_line_loop (length events + fuel) max_len e0 c0 buffer (lenZ line) s = Ret (buffer', lenZ r) s' (serial_ops (lk_cols l) (lk_rows l) v echo) /\
    reading s' f' l (fold_left (view_op (lk_cols l) (lk_rows l)) echo v) mode shift' rest /\
    lenZ buffer' = lenZ buffer /\ take (S (length r)) buffer' = r ++ [0] /\ drop (Z.to_nat max_len) buffer' = drop (Z.to_nat max_len) buffer.
Proof using works.
  induction events as [|e events IH]; intros fuel shift line buffer s f v e0 c0 r echo rest shift' Hrd Hl Hb Hm Ht He; [done|]. cbn [edit_events] in He.
  cbn [length Nat.add read_line_loop]. rewrite (bind_Ret_nil _ _ _ _ _ (wait_ready _ _ _ _ _ _ _ _ _ Hrd)).
  destruct (next_char s f l v mode shift e events e0 c0 Hrd) as (s1 & s2 & Ha1 & Ha2 & Hrd2). rewrite (bind_Ret_nil _ _ _ _ _ Ha1). cbn iota. krun. rewrite (bind_deref_Some _ _ _ _ eq_refl).
  change (1 =? 0) with false. cbn iota. rewrite (bind_Ret_nil _ _ _ _ _ Ha2). destruct (event_text mode shift e) as [[c|] shift1]; cbn [fst snd] in *; cbn iota; rewrite (bind_deref_Some _ _ _ _ eq_refl).
  2:{ change (0 =? 0) with true. cbn iota. by eapply IH. }
  change (1 =? 0) with false. cbn iota. change (console_is_backspace c) with ((c =? 8) || (c =? 127)). pose proof (edit_char_fit max_len line c) as Hfit. unfold edit_char in He, Hfit.
  destruct ((c =? 13) || (c =? 10)).
  { injection He as <- <- <- <-. destruct (echo_run (Putc 10) s2 f l v mode shift1 events I I Hrd2) as (s3 & f3 & Ha3 & Hrd3).
    destruct (take_set buffer line 0 Ht) as (b1 & Hw & Ht1 & Hl1 & Hd1); [lia|]. exists s3, f3, b1. split; [|split; [done|split; [done|split; [done|by apply Hd1]]]].
    cbn [run_op] in Ha3. transitivity (Ret (b1, lenZ line) s3 (serial_op v (Putc 10) ++ [])); [apply (bind_out _ _ _ _ _ _ _ _ _ Ha3); by rewrite Hw|].
    by cbn [serial_ops]. }
  destruct ((c =? 8) || (c =? 127)).
  - case_bool_decide as Hn.
    + subst line. destruct (edit_events mode max_len shift1 [] events) as [[[[r2 echo2] rest2] shift2]|] eqn:Er; [|done]. injection He as <- <- <- <-.
      change (negb (lenZ (@nil Z) =? 0)) with false. cbn iota. by eapply IH.
    + destruct (edit_events mode max_len shift1 (removelast line) events) as [[[[r2 echo2] rest2] shift2]|] eqn:Er; [|done]. injection He as <- <- <- <-.
      assert (Hz : (lenZ line =? 0) = false) by (apply Z.eqb_neq; destruct line; [done|rewrite lenZ_cons; pose proof (lenZ_nonneg line); lia]). rewrite Hz. kif.
      destruct (echo_run (Write [8; 32; 8] []) s2 f l v mode shift1 events) as (s3 & f3 & Ha3 & Hrd3); [repeat constructor; done|done|done|].
      destruct (IH fuel shift1 (removelast line) buffer s3 f3 _ e c r2 echo2 rest2 shift2 Hrd3) as (s4 & f4 & b4 & Ha4 & Hrd4 & Hres); [by apply (Hfit _ _ Hl eq_refl)|done|done|by apply take_removelast|done|].
      exists s4, f4, b4. rewrite removelast_length in Ha4 by done. split; [|by split]. cbn [run_op app] in Ha3. by rewrite (bind_out _ _ _ _ _ _ _ _ _ Ha3 Ha4).
  - pose proof (lenZ_nonneg line). rewrite u64_small by lia. destruct (Z.ltb_spec (lenZ line + 1) max_len) as [Hroom|Hroom].
    + destruct (edit_events mode max_len shift1 (line ++ [c]) events) as [[[[r2 echo2] rest2] shift2]|] eqn:Er; [|done]. injection He as <- <- <- <-.
      destruct (take_set buffer line c Ht) as (b1 & Hw & Ht1 & Hl1 & Hd1); [lia|]. rewrite (bind_deref_Some _ _ _ _ Hw).
      destruct (echo_run (Putc c) s2 f l v mode shift1 events I I Hrd2) as (s3 & f3 & Ha3 & Hrd3).
      assert (Hlen : length (line ++ [c]) = S (length line)) by (rewrite length_app; cbn; lia).
      destruct (IH fuel shift1 (line ++ [c]) b1 s3 f3 _ e c r2 echo2 rest2 shift2 Hrd3) as (s4 & f4 & b4 & Ha4 & Hrd4 & Hlb & Htb & Hdb); [by apply (Hfit _ _ Hl eq_refl)|lia|done|by rewrite Hlen|done|].
      exists s4, f4, b4. rewrite lenZ_app in Ha4. change (lenZ [c]) with 1 in Ha4. split; [cbn [run_op] in Ha3; by rewrite (bind_out _ _ _ _ _ _ _ _ _ Ha3 Ha4)|].
      split; [done|]. split; [congruence|]. split; [done|]. rewrite Hdb. apply Hd1. lia.
    + destruct (edit_events mode max_len shift1 line events) as [[[[r2 echo2] rest2] shift2]|] eqn:Er; [|done]. injection He as <- <- <- <-. by eapply IH.
Qed.
End reading.

(** ** Property *)

(** C26. When the waiting events spell a line, [console_read_line] returns what a line
    editor makes of them, at most [max_len - 1] characters with a terminator
    and nothing written behind the buffer's length; its echo goes to the
    console and the events behind the line stay. *)
Theorem console_read_line_spec {G C K} `{DisplayDriver G} `{OutputCapture C} `{KeyboardDriver K} (s : console G C K) f l v mode shift events buffer max_len fuel e0 c0 r echo rest shift' :
  (forall x y w h f (d : G), (virtio_gpu_flush_rect x y w h f d).2 = 0) -> reading s f l v mode shift events -> 0 < max_len < 2 ^ 64 -> max_len <= lenZ buffer ->
  edit_events mode max_len shift [] events = Some (r, echo, rest, shift') ->
  lenZ r < max_len /\ exists s' f' buffer',
    console_read_line (length events + fuel) e0 c0 buffer max_len s = Ret (buffer', lenZ r) s' (serial_ops (lk_cols l) (lk_rows l) v echo) /\
    reading s' f' l (fold_left (view_op (lk_cols l) (lk_rows l)) echo v) mode shift' rest /\
    lenZ buffer' = lenZ buffer /\ take (S (length r)) buffer' = r ++ [0] /\ drop (Z.to_nat max_len) buffer' = drop (Z.to_nat max_len) buffer.
Proof.
  intros Hworks Hrd Hm Hb He. assert (Hnil : lenZ (@nil Z) = 0) by done. split; [by apply (edit_events_fit mode max_len events shift [] r echo rest shift'); [lia|]|].
  unfold console_read_line. rewrite (proj2 (Z.eqb_neq max_len 0)) by lia. eapply (read_line_run Hworks l mode max_len events fuel shift [] buffer); [exact Hrd|lia|exact Hb|lia|done|exact He].
Qed.

Definition typed (c : Z) : input_event := Event INPUT_EVENT_CHAR INPUT_SOURCE_SERIAL (Character c) INPUT_KEY_PRESS 0.
(** Events for [d], [u], backspace, [k], newline and [x] in the ring. *)
Definition typing : list input_event := map typed [100; 117; 8; 107; 10; 120].
Definition typed_console : console panel (list Z) unit :=
  set_console_input (Input (typing ++ replicate 58 (typed 0)) 0 6 INPUT_SOURCE_SERIAL 0 [] tt) cold_console.

Lemma console_read_line_spec_witness : exists old s1 s2 buffer',
  console_attach_graphics tiny_plat (Some small_screen) typed_console = Ret old s1 [] /\
  console_read_line 6 (typed 0) 0 (replicate 16 7) 16 s1 = Ret (buffer', 2) s2 [100; 117; 8; 32; 8; 107; 13; 10] /\ take 3 buffer' = [100; 107; 0] /\ pending (console_input s2) = [typed 120].
Proof.
  assert (Hworks : forall x y w h f (d : panel), (virtio_gpu_flush_rect x y w h f d).2 = 0) by done.
  assert (Hat : attachable typed_console small_screen) by (by destruct cold_attachable).
  destruct (attach_run tiny_plat Hworks typed_console small_screen Hat) as (old & s1 & f1 & Ha & Hok & _ & _ & Hsy & Hi).
  assert (Hrd : reading s1 f1 (console_look small_screen) (View 3 blank_term) INPUT_SOURCE_SERIAL false typing).
  { split; [exact Hok|exact Hsy|rewrite Hi; split; [reflexivity|cbn; lia|cbn; lia]|rewrite Hi; reflexivity| |rewrite Hi; reflexivity|rewrite Hi; reflexivity].
    repeat (constructor; [intros Ht; discriminate Ht|]). constructor. }
  destruct (console_read_line_spec s1 f1 _ _ _ _ _ (replicate 16 7) 16 0 (typed 0) 0 [100; 107] [Putc 100; Putc 117; Write [8; 32; 8] []; Putc 107; Putc 10] [typed 120] false Hworks Hrd)
    as (_ & s2 & f2 & b & Hr & Hrd2 & _ & Ht & _); [lia|done|by vm_compute|].
  exists old, s1, s2, b. split; [exact Ha|]. split; [exact Hr|]. split; [exact Ht|]. by destruct Hrd2.
Defined.
