(* ===== verification/Bus.v ===== *)
(** Registers of devices and of the processor, the interrupt controller
    (src/src/arch/aarch64/gic.c) and the timer (src/src/kernel/timer.c). The hardware
    is a machine [D] that answers reads and takes writes; a read may change it. *)
From S2P Require Import Prelude LibString Klog.

(** Registers of the processor. *)
Inductive sysreg : Type := CNTFRQ_EL0 | CNTPCT_EL0 | CNTP_TVAL_EL0 | CNTP_CTL_EL0 | CURRENTEL | VBAR_EL1.

Class Hardware (D : Type) := {
  mmio_read : Z -> D -> Z * D;
  mmio_write : Z -> Z -> D -> D;
  sysreg_read : sysreg -> D -> Z * D;
  sysreg_write : sysreg -> Z -> D -> D
}.

Section access.
Context {D : Type} `{Hardware D}.

Definition read32 (a : Z) : M D Z := fun d => Ret (mmio_read a d).1 (mmio_read a d).2 [].
Definition write32 (a v : Z) : M D unit := modify (mmio_write a v).
Definition read_reg (r : sysreg) : M D Z := fun d => Ret (sysreg_read r d).1 (sysreg_read r d).2 [].
Definition write_reg (r : sysreg) (v : Z) : M D unit := modify (sysreg_write r v).

Lemma bind_read32 {B} a (k : Z -> M D B) d : bind (read32 a) k d = k (mmio_read a d).1 (mmio_read a d).2.
Proof. by apply bind_Ret_nil. Qed.
Lemma bind_write32 {B} a v (k : unit -> M D B) d : bind (write32 a v) k d = k tt (mmio_write a v d).
Proof. by apply bind_Ret_nil. Qed.
Lemma bind_read_reg {B} r (k : Z -> M D B) d : bind (read_reg r) k d = k (sysreg_read r d).1 (sysreg_read r d).2.
Proof. by apply bind_Ret_nil. Qed.
Lemma bind_write_reg {B} r v (k : unit -> M D B) d : bind (write_reg r v) k d = k tt (sysreg_write r v d).
Proof. by apply bind_Ret_nil. Qed.
End access.
#[export] Hint Rewrite @bind_read32 @bind_write32 @bind_read_reg @bind_write_reg : kernel.

(** ** The interrupt controller *)

Definition GICD_BASE : Z := 0x08000000.
Definition GICC_BASE : Z := 0x08010000.
Definition GIC_IRQ_TIMER_PHYSICAL_PPI : Z := 30.
Definition GICD_CTLR : Z := GICD_BASE.
Definition GICD_ISENABLER (irq_id : Z) : Z := GICD_BASE + 0x100 + irq_id / 32 * 4.
Definition GICD_ITARGETSR (irq_id : Z) : Z := GICD_BASE + 0x800 + irq_id / 4 * 4.
Definition GICC_CTLR : Z := GICC_BASE.
Definition GICC_PMR : Z := GICC_BASE + 4.
Definition GICC_IAR : Z := GICC_BASE + 0xc.
Definition GICC_EOIR : Z := GICC_BASE + 0x10.

Section gic.
Context {D : Type} `{Hardware D}.

Definition gic_init : M D unit :=
  write32 GICD_CTLR 0;;
  write32 GICC_CTLR 0;;
  write32 GICC_PMR 0xff;;
  write32 GICD_CTLR 1;;
  write32 GICC_CTLR 1.

Definition gic_enable_irq (irq_id : Z) : M D unit :=
  write32 (GICD_ISENABLER irq_id) (u32 (Z.shiftl 1 (irq_id mod 32)));;
  if 32 <=? irq_id then
    let shift := irq_id mod 4 * 8 in
    value <- read32 (GICD_ITARGETSR irq_id);;
    write32 (GICD_ITARGETSR irq_id) (Z.lor (Z.land value (not32 (u32 (Z.shiftl 0xff shift)))) (u32 (Z.shiftl 1 shift)))
  else ret tt.

Definition gic_acknowledge_irq : M D Z := read32 GICC_IAR.
Definition gic_end_irq (irq_id : Z) : M D unit := write32 GICC_EOIR irq_id.
End gic.

(** ** The timer *)

Definition CNTP_CTL_ENABLE : Z := Z.shiftl 1 0.

Record timer (D : Type) : Type := Timer {
  timer_freq : Z;
  timer_period_ticks : Z;
  timer_irq_ticks : Z;
  timer_boot_ticks : Z;
  hardware : D
}.
Arguments Timer {D}.
Arguments timer_freq {D}.
Arguments timer_period_ticks {D}.
Arguments timer_irq_ticks {D}.
Arguments timer_boot_ticks {D}.
Arguments hardware {D}.

Section timer.
Context {D : Type} `{Hardware D}.
Implicit Types s : timer D.

Definition set_timer_freq v s : timer D := Timer v (timer_period_ticks s) (timer_irq_ticks s) (timer_boot_ticks s) (hardware s).
Definition set_timer_period_ticks v s : timer D := Timer (timer_freq s) v (timer_irq_ticks s) (timer_boot_ticks s) (hardware s).
Definition set_timer_irq_ticks v s : timer D := Timer (timer_freq s) (timer_period_ticks s) v (timer_boot_ticks s) (hardware s).
Definition set_timer_boot_ticks v s : timer D := Timer (timer_freq s) (timer_period_ticks s) (timer_irq_ticks s) v (hardware s).
Definition set_hardware v s : timer D := Timer (timer_freq s) (timer_period_ticks s) (timer_irq_ticks s) (timer_boot_ticks s) v.
Definition on_hardware {A} (m : M D A) : M (timer D) A := zoom hardware set_hardware m.

Definition timer_init : M (timer D) unit :=
  freq <- gets timer_freq;;
  if negb (freq =? 0) then ret tt
  else
    freq0 <- on_hardware (read_reg CNTFRQ_EL0);;
    modify (set_timer_freq freq0);;
    boot <- on_hardware (read_reg CNTPCT_EL0);;
    modify (set_timer_boot_ticks boot);;
    kprintf (nl "[INFO] timer: CNTFRQ_EL0=%u Hz") [AUint (u32 freq0)].

Definition timer_frequency : M (timer D) Z := timer_init;; gets timer_freq.
Definition timer_now_ticks : M (timer D) Z := timer_init;; on_hardware (read_reg CNTPCT_EL0).

Definition timer_start_periodic_ms (period_ms : Z) : M (timer D) unit :=
  timer_init;;
  freq <- gets timer_freq;;
  let period_ticks := u64 (freq * period_ms) / 1000 in
  let period_ticks := if period_ticks =? 0 then 1 else period_ticks in
  modify (set_timer_period_ticks period_ticks);;
  on_hardware (write_reg CNTP_TVAL_EL0 period_ticks);;
  on_hardware (write_reg CNTP_CTL_EL0 CNTP_CTL_ENABLE).

Definition timer_irq_count : M (timer D) Z := gets timer_irq_ticks.

Definition timer_uptime_ms : M (timer D) Z :=
  timer_init;;
  now <- timer_now_ticks;;
  boot <- gets timer_boot_ticks;;
  let elapsed_ticks := u64 (now - boot) in
  freq <- gets timer_freq;;
  deref (if freq =? 0 then None else Some (u64 (elapsed_ticks * 1000) / freq)).

Definition timer_handle_irq : M (timer D) unit :=
  modify (fun s => set_timer_irq_ticks (u64 (timer_irq_ticks s + 1)) s);;
  period <- gets timer_period_ticks;;
  if negb (period =? 0) then
    on_hardware (write_reg CNTP_TVAL_EL0 period);;
    on_hardware (write_reg CNTP_CTL_EL0 CNTP_CTL_ENABLE)
  else ret tt.

(** [fuel] bounds the readings of the counter. *)
Fixpoint busy_loop (fuel : nat) (start wait_ticks : Z) : M (timer D) unit :=
  match fuel with
  | O => undef
  | S fuel' =>
      now <- timer_now_ticks;;
      if u64 (now - start) <? wait_ticks then busy_loop fuel' start wait_ticks else ret tt
  end.
Definition timer_busy_wait_ms (fuel : nat) (ms : Z) : M (timer D) unit :=
  if ms =? 0 then ret tt
  else
    timer_init;;
    freq <- gets timer_freq;;
    let wait_ticks := u64 (freq * ms) / 1000 in
    let wait_ticks := if wait_ticks =? 0 then 1 else wait_ticks in
    start <- timer_now_ticks;;
    busy_loop fuel start wait_ticks.

(** *** Waiting *)

(** A counter that moves forward by at least one tick, and by less than half of
    its range, between two readings. *)
Definition counting (elapsed : D -> Z) : Prop :=
  forall d, 0 <= elapsed d /\ (sysreg_read CNTPCT_EL0 d).1 = u64 (elapsed d) /\
    elapsed d + 1 <= elapsed (sysreg_read CNTPCT_EL0 d).2 < elapsed d + 2 ^ 32.

Lemma now_run s : timer_freq s <> 0 -> timer_now_ticks s = Ret (sysreg_read CNTPCT_EL0 (hardware s)).1 (set_hardware (sysreg_read CNTPCT_EL0 (hardware s)).2 s) [].
Proof.
  intros Hf. unfold timer_now_ticks, timer_init. unfold bind at 1. unfold bind, gets. rewrite (proj2 (Z.eqb_neq (timer_freq s) 0)) by done. done.
Qed.

Lemma busy_loop_run elapsed fuel : counting elapsed -> forall s start0 wait, timer_freq s <> 0 -> 0 < wait < 2 ^ 63 -> start0 <= elapsed (hardware s) < start0 + wait + 2 ^ 32 ->
  1 <= Z.of_nat fuel -> start0 + wait <= elapsed (hardware s) + Z.of_nat fuel - 1 -> exists s', busy_loop fuel (u64 start0) wait s = Ret tt s' [] /\ 
    start0 + wait < elapsed (hardware s') /\ s' = set_hardware (hardware s') s.
Proof.
  intros Hcount. induction fuel as [|fuel IH]; intros s start0 wait Hf Hw Hb H1 Hfuel; [lia|]. cbn [busy_loop]. rewrite (bind_Ret_nil _ _ _ _ _ (now_run s Hf)).
  destruct (Hcount (hardware s)) as (Hn & Hr & Hlt). rewrite Hr. assert (Hd : u64 (u64 (elapsed (hardware s)) - u64 start0) = elapsed (hardware s) - start0).
  { unfold u64. rewrite Zminus_mod_idemp_l, Zminus_mod_idemp_r. apply Z.mod_small. lia. }
  rewrite Hd. set (s1 := set_hardware _ s). assert (Hh : hardware s1 = (sysreg_read CNTPCT_EL0 (hardware s)).2) by done. destruct (Z.ltb_spec (elapsed (hardware s) - start0) wait) as [Hlt'|Hge].
  - destruct (IH s1 start0 wait) as (s2 & Ha & Hb2 & Hc); [done|done|rewrite Hh; lia|lia|rewrite Hh; lia|]. exists s2. split; [done|]. split; [done|]. by rewrite Hc.
  - exists s1. split; [done|]. split; [rewrite Hh; lia|done].
Qed.
End timer.

(** ** Property *)

(** With a counter that runs, [timer_busy_wait_ms] ends, after at least the
    ticks of the given time and at least one, also when the counter wraps. *)
Theorem timer_busy_wait_spec {D} `{Hardware D} (elapsed : D -> Z) (s : timer D) ms :
  counting elapsed -> timer_freq s <> 0 -> 0 < timer_freq s * ms < 2 ^ 64 ->
  let ticks := Z.max 1 (timer_freq s * ms / 1000) in
  exists s', timer_busy_wait_ms (Z.to_nat ticks) ms s = Ret tt s' [] /\ elapsed (hardware s) + ticks < elapsed (hardware s') /\ s' = set_hardware (hardware s') s.
Proof.
  intros Hcount Hf Hm ticks. assert (Hticks : (if timer_freq s * ms / 1000 =? 0 then 1 else timer_freq s * ms / 1000) = ticks).
  { unfold ticks. destruct (Z.eqb_spec (timer_freq s * ms / 1000) 0); Z.div_mod_to_equations; lia. }
  assert (Hb : 1 <= ticks < 2 ^ 63) by (unfold ticks; Z.div_mod_to_equations; lia). clearbody ticks.
  assert (Hms : ms <> 0) by (intros ->; lia). unfold timer_busy_wait_ms. rewrite (proj2 (Z.eqb_neq ms 0)) by done.
  assert (Hi : timer_init s = Ret tt s []) by (unfold timer_init; krun; by rewrite (proj2 (Z.eqb_neq (timer_freq s) 0))).
  rewrite (bind_Ret_nil _ _ _ _ _ Hi). krun. rewrite u64_small by lia. cbv zeta. rewrite Hticks, (bind_Ret_nil _ _ _ _ _ (now_run s Hf)).
  destruct (Hcount (hardware s)) as (Hn & Hr & Hlt). rewrite Hr. set (s1 := set_hardware _ s). assert (Hh : hardware s1 = (sysreg_read CNTPCT_EL0 (hardware s)).2) by done.
  destruct (busy_loop_run elapsed (Z.to_nat ticks) Hcount s1 (elapsed (hardware s)) ticks) as (s2 & Ha & Hb2 & Hc); [done|lia|rewrite Hh; lia|lia|rewrite Hh; lia|].
  exists s2. split; [done|]. split; [done|]. by rewrite Hc.
Qed.

(** A processor whose counter moves by a hundred ticks at each reading. *)
#[export] Instance ticking : Hardware Z := {
  mmio_read _ d := (0, d);
  mmio_write _ _ d := d;
  sysreg_read r d := match r with CNTPCT_EL0 => (u64 (Z.abs d), Z.abs d + 100) | CNTFRQ_EL0 => (62500, d) | _ => (0, d) end;
  sysreg_write _ _ d := d
}.

Lemma ticking_counts : counting (D := Z) Z.abs.
Proof. intros d. cbn. lia. Qed.

Lemma timer_busy_wait_spec_witness : counting (D := Z) Z.abs /\
  exists s', timer_busy_wait_ms 312 5 (Timer 62500 0 0 0 7) = Ret tt s' [] /\ 319 < Z.abs (hardware s').
Proof.
  split; [exact ticking_counts|]. destruct (timer_busy_wait_spec Z.abs (Timer 62500 0 0 0 7) 5 ticking_counts) as (s' & Ha & Hb & _); [done|cbn; lia|].
  exists s'. split; [exact Ha|exact Hb].
Defined.
