(* ===== verification/VirtioMmio.v ===== *)
(** The transport of virtio devices (src/src/drivers/virtio_mmio.c): probing the
    slots, dispatch of interrupts, and the handshake that brings a device up.
    A [struct virtio_mmio_device *] is the index of a slot. Then what the virtio
    specification says of the registers of the 32 devices behind the slots, what
    probing finds of them, and the steps of the handshake against one of them. *)
From S2P Require Import Prelude LibString Klog BlockDevice MMU Virtqueue Bus.

Definition VIRTIO_MMIO_MAGIC : Z := 0x74726976.
Definition VIRTIO_MMIO_VERSION_MODERN : Z := 2.
Definition VIRTIO_DEVICE_ID_INVALID : Z := 0.
Definition VIRTIO_DEVICE_ID_BLOCK : Z := 2.
Definition VIRTIO_DEVICE_ID_RNG : Z := 4.
Definition VIRTIO_DEVICE_ID_GPU : Z := 16.
Definition VIRTIO_DEVICE_ID_INPUT : Z := 18.
Definition VIRTIO_STATUS_ACKNOWLEDGE : Z := 1.
Definition VIRTIO_STATUS_DRIVER : Z := 2.
Definition VIRTIO_STATUS_DRIVER_OK : Z := 4.
Definition VIRTIO_STATUS_FEATURES_OK : Z := 8.
Definition VIRTIO_STATUS_FAILED : Z := 0x80.
Definition VIRTIO_INTERRUPT_USED_RING : Z := 1.
Definition VIRTIO_INTERRUPT_CONFIG_CHANGE : Z := 2.
Definition VIRTIO_F_VERSION_1 : Z := 32.

Definition VIRTIO_MMIO_MAGIC_VALUE : Z := 0x000.
Definition VIRTIO_MMIO_VERSION : Z := 0x004.
Definition VIRTIO_MMIO_DEVICE_ID : Z := 0x008.
Definition VIRTIO_MMIO_VENDOR_ID : Z := 0x00c.
Definition VIRTIO_MMIO_DEVICE_FEATURES : Z := 0x010.
Definition VIRTIO_MMIO_DEVICE_FEATURES_SEL : Z := 0x014.
Definition VIRTIO_MMIO_DRIVER_FEATURES : Z := 0x020.
Definition VIRTIO_MMIO_DRIVER_FEATURES_SEL : Z := 0x024.
Definition VIRTIO_MMIO_QUEUE_SEL : Z := 0x030.
Definition VIRTIO_MMIO_QUEUE_NUM_MAX : Z := 0x034.
Definition VIRTIO_MMIO_QUEUE_NUM : Z := 0x038.
Definition VIRTIO_MMIO_QUEUE_READY : Z := 0x044.
Definition VIRTIO_MMIO_QUEUE_NOTIFY : Z := 0x050.
Definition VIRTIO_MMIO_INTERRUPT_STATUS : Z := 0x060.
Definition VIRTIO_MMIO_INTERRUPT_ACK : Z := 0x064.
Definition VIRTIO_MMIO_STATUS : Z := 0x070.
Definition VIRTIO_MMIO_QUEUE_DESC_LOW : Z := 0x080.
Definition VIRTIO_MMIO_QUEUE_DESC_HIGH : Z := 0x084.
Definition VIRTIO_MMIO_QUEUE_AVAIL_LOW : Z := 0x090.
Definition VIRTIO_MMIO_QUEUE_AVAIL_HIGH : Z := 0x094.
Definition VIRTIO_MMIO_QUEUE_USED_LOW : Z := 0x0a0.
Definition VIRTIO_MMIO_QUEUE_USED_HIGH : Z := 0x0a4.

Definition platform_get_virtio_mmio_stride : Z := 0x200.
Definition platform_get_virtio_mmio_count : Z := 32.
Definition platform_get_virtio_mmio_irq (slot : Z) : Z := u32 (48 + slot).

(** [H] are the drivers' interrupt handlers. *)
Record virtio_mmio_device (H : Type) : Type := VirtioMmioDevice {
  base : Z;
  slot : Z;
  irq : Z;
  device_id : Z;
  vendor_id : Z;
  status : Z;
  driver_features : Z * Z;
  present : Z;
  initialized : Z;
  irq_handler : option H;
  driver_data : Z
}.
Arguments VirtioMmioDevice {H}.
Arguments base {H}.
Arguments slot {H}.
Arguments irq {H}.
Arguments device_id {H}.
Arguments vendor_id {H}.
Arguments status {H}.
Arguments driver_features {H}.
Arguments present {H}.
Arguments initialized {H}.
Arguments irq_handler {H}.
Arguments driver_data {H}.

(** [W] is the state of the drivers, which their handlers change. *)
Record virtio (H D W : Type) : Type := Virtio {
  virtio_devices : list (virtio_mmio_device H);
  virtio_device_total : Z;
  bus : D;
  drivers : W
}.
Arguments Virtio {H D W}.
Arguments virtio_devices {H D W}.
Arguments virtio_device_total {H D W}.
Arguments bus {H D W}.
Arguments drivers {H D W}.

Section transport.
Context {H D W : Type} `{Hardware D} (call_handler : H -> Z -> Z -> M (virtio H D W) unit).
Implicit Types (s : virtio H D W) (d : virtio_mmio_device H).

Definition set_virtio_devices v s : virtio H D W := Virtio v (virtio_device_total s) (bus s) (drivers s).
Definition set_virtio_device_total v s : virtio H D W := Virtio (virtio_devices s) v (bus s) (drivers s).
Definition set_bus v s : virtio H D W := Virtio (virtio_devices s) (virtio_device_total s) v (drivers s).
Definition set_drivers v s : virtio H D W := Virtio (virtio_devices s) (virtio_device_total s) (bus s) v.
Definition set_device_status v d : virtio_mmio_device H :=
  VirtioMmioDevice (base d) (slot d) (irq d) (device_id d) (vendor_id d) v (driver_features d) (present d) (initialized d) (irq_handler d) (driver_data d).
Definition set_driver_features v d : virtio_mmio_device H :=
  VirtioMmioDevice (base d) (slot d) (irq d) (device_id d) (vendor_id d) (status d) v (present d) (initialized d) (irq_handler d) (driver_data d).
Definition set_initialized v d : virtio_mmio_device H :=
  VirtioMmioDevice (base d) (slot d) (irq d) (device_id d) (vendor_id d) (status d) (driver_features d) (present d) v (irq_handler d) (driver_data d).
Definition set_irq_handler h data d : virtio_mmio_device H :=
  VirtioMmioDevice (base d) (slot d) (irq d) (device_id d) (vendor_id d) (status d) (driver_features d) (present d) (initialized d) h data.
Definition set_identity id vendor d : virtio_mmio_device H :=
  VirtioMmioDevice (base d) (slot d) (irq d) id vendor (status d) (driver_features d) 1 (initialized d) (irq_handler d) (driver_data d).

Definition on_bus {A} (m : M D A) : M (virtio H D W) A := zoom bus set_bus m.
Definition get_device (slot0 : Z) : M (virtio H D W) (virtio_mmio_device H) := ds <- gets virtio_devices;; deref (rd ds slot0).
Definition update_device (slot0 : Z) (f : virtio_mmio_device H -> virtio_mmio_device H) : M (virtio H D W) unit :=
  d <- get_device slot0;;
  ds <- gets virtio_devices;;
  ds1 <- deref (wr ds slot0 (f d));;
  modify (set_virtio_devices ds1).

Definition virtio_mmio_read32 (device offset : Z) : M (virtio H D W) Z := d <- get_device device;; on_bus (read32 (u64 (base d + offset))).
Definition virtio_mmio_write32 (device offset value : Z) : M (virtio H D W) unit := d <- get_device device;; on_bus (write32 (u64 (base d + offset)) value).

Definition virtio_mmio_read_features (device page : Z) : M (virtio H D W) Z :=
  virtio_mmio_write32 device VIRTIO_MMIO_DEVICE_FEATURES_SEL page;;
  virtio_mmio_read32 device VIRTIO_MMIO_DEVICE_FEATURES.
Definition virtio_mmio_write_features (device page value : Z) : M (virtio H D W) unit :=
  virtio_mmio_write32 device VIRTIO_MMIO_DRIVER_FEATURES_SEL page;;
  virtio_mmio_write32 device VIRTIO_MMIO_DRIVER_FEATURES value.

Definition virtio_mmio_probe_slot (slot0 : Z) : M (virtio H D W) unit :=
  let base0 := u64 (platform_get_virtio_mmio_base + u64 (platform_get_virtio_mmio_stride * slot0)) in
  update_device slot0 (fun _ => VirtioMmioDevice base0 slot0 (platform_get_virtio_mmio_irq slot0) VIRTIO_DEVICE_ID_INVALID 0 0 (0, 0) 0 0 None 0);;
  magic <- virtio_mmio_read32 slot0 VIRTIO_MMIO_MAGIC_VALUE;;
  version <- virtio_mmio_read32 slot0 VIRTIO_MMIO_VERSION;;
  id <- virtio_mmio_read32 slot0 VIRTIO_MMIO_DEVICE_ID;;
  if negb (magic =? VIRTIO_MMIO_MAGIC) || negb (version =? VIRTIO_MMIO_VERSION_MODERN) || (id =? VIRTIO_DEVICE_ID_INVALID) then ret tt
  else
    vendor <- virtio_mmio_read32 slot0 VIRTIO_MMIO_VENDOR_ID;;
    update_device slot0 (set_identity id vendor);;
    modify (fun s => set_virtio_device_total (u32 (virtio_device_total s + 1)) s);;
    kprintf (nl "[INFO] virtio: slot %u irq %u device %u vendor 0x%x") [AUint slot0; AUint (platform_get_virtio_mmio_irq slot0); AUint id; AUint vendor].

(** The number of slots, no more than the table has. *)
Definition slot_count : Z := if 32 <? platform_get_virtio_mmio_count then 32 else platform_get_virtio_mmio_count.

Definition virtio_init : M (virtio H D W) unit :=
  modify (set_virtio_device_total 0);;
  for_range (Z.to_nat slot_count) 0 virtio_mmio_probe_slot;;
  total <- gets virtio_device_total;;
  kprintf (nl "[INFO] virtio: detected %u device(s)") [AUint total].

Fixpoint print_loop (fuel : nat) (slot0 found : Z) : M (virtio H D W) Z :=
  match fuel with
  | O => ret found
  | S fuel' =>
      d <- get_device slot0;;
      if present d =? 0 then print_loop fuel' (slot0 + 1) found
      else
        kprintf (nl "slot=%u base=%p irq=%u device=%u vendor=0x%x init=%u")
          [AUint (slot d); APtr (base d); AUint (irq d); AUint (device_id d); AUint (vendor_id d); AUint (u32 (initialized d))];;
        print_loop fuel' (slot0 + 1) (u32 (found + 1))
  end.
Definition virtio_print_devices : M (virtio H D W) unit :=
  found <- print_loop (Z.to_nat slot_count) 0 0;;
  if found =? 0 then kprintf (nl "virtio: no devices") []
  else kprintf (nl "virtio: total=%u") [AUint found].

Definition virtio_enable_irqs : M (virtio H D W) unit :=
  for_range (Z.to_nat platform_get_virtio_mmio_count) 0 (fun slot0 =>
    d <- get_device slot0;;
    if negb (present d =? 0) && negb (initialized d =? 0) then on_bus (gic_enable_irq (irq d)) else ret tt).

(** The search for the device of an interrupt, and its handler. *)
Fixpoint irq_loop (fuel : nat) (slot0 irq_id : Z) : M (virtio H D W) unit :=
  match fuel with
  | O => kprintf (nl "[ERROR] virtio: unexpected IRQ %u") [AUint irq_id]
  | S fuel' =>
      d <- get_device slot0;;
      if negb (present d =? 0) && negb (initialized d =? 0) && (irq d =? irq_id) then
        interrupt_status <- virtio_mmio_read32 slot0 VIRTIO_MMIO_INTERRUPT_STATUS;;
        (if negb (interrupt_status =? 0) then virtio_mmio_write32 slot0 VIRTIO_MMIO_INTERRUPT_ACK interrupt_status else ret tt);;
        match irq_handler d with Some h => call_handler h slot0 interrupt_status | None => ret tt end
      else irq_loop fuel' (slot0 + 1) irq_id
  end.
Definition virtio_handle_irq (irq_id : Z) : M (virtio H D W) unit := irq_loop (Z.to_nat platform_get_virtio_mmio_count) 0 irq_id.

Definition virtio_device_count : M (virtio H D W) Z := gets virtio_device_total.

Fixpoint find_loop (fuel : nat) (slot0 matches id instance_index : Z) : M (virtio H D W) (option Z) :=
  match fuel with
  | O => ret None
  | S fuel' =>
      d <- get_device slot0;;
      if negb (present d =? 0) && (device_id d =? id) then
        if matches =? instance_index then ret (Some slot0) else find_loop fuel' (slot0 + 1) (u32 (matches + 1)) id instance_index
      else find_loop fuel' (slot0 + 1) matches id instance_index
  end.
Definition virtio_find_device (id instance_index : Z) : M (virtio H D W) (option Z) :=
  find_loop (Z.to_nat platform_get_virtio_mmio_count) 0 0 id instance_index.

(** ** The handshake *)

Definition write_status (device : Z) : M (virtio H D W) unit := d <- get_device device;; virtio_mmio_write32 device VIRTIO_MMIO_STATUS (status d).

Definition virtio_mmio_begin_init (device : Z) : M (virtio H D W) Z :=
  virtio_mmio_write32 device VIRTIO_MMIO_STATUS 0;;
  v <- virtio_mmio_read32 device VIRTIO_MMIO_STATUS;;
  if negb (v =? 0) then ret (-1)
  else
    update_device device (set_device_status (Z.lor VIRTIO_STATUS_ACKNOWLEDGE VIRTIO_STATUS_DRIVER));;
    write_status device;;
    ret 0.

Definition version_1_bit : Z := Z.shiftl 1 (VIRTIO_F_VERSION_1 - 32).

Definition virtio_mmio_negotiate_features (device feature_page0 feature_page1 : Z) : M (virtio H D W) Z :=
  device_page0 <- virtio_mmio_read_features device 0;;
  device_page1 <- virtio_mmio_read_features device 1;;
  if Z.land device_page1 version_1_bit =? 0 then ret (-1)
  else
    update_device device (set_driver_features (Z.land feature_page0 device_page0, Z.lor (Z.land feature_page1 device_page1) version_1_bit));;
    d <- get_device device;;
    virtio_mmio_write_features device 0 (driver_features d).1;;
    virtio_mmio_write_features device 1 (driver_features d).2;;
    update_device device (fun d => set_device_status (Z.lor (status d) VIRTIO_STATUS_FEATURES_OK) d);;
    write_status device;;
    v <- virtio_mmio_read32 device VIRTIO_MMIO_STATUS;;
    if Z.land v VIRTIO_STATUS_FEATURES_OK =? 0 then ret (-1) else ret 0.

Definition virtio_mmio_setup_queue (device queue_index : Z) (queue : virtqueue) : M (virtio H D W) Z :=
  virtio_mmio_write32 device VIRTIO_MMIO_QUEUE_SEL queue_index;;
  max_size <- virtio_mmio_read32 device VIRTIO_MMIO_QUEUE_NUM_MAX;;
  if (max_size =? 0) || (max_size <? size queue) then ret (-1)
  else
    virtio_mmio_write32 device VIRTIO_MMIO_QUEUE_NUM (size queue);;
    virtio_mmio_write32 device VIRTIO_MMIO_QUEUE_DESC_LOW (u32 (desc queue));;
    virtio_mmio_write32 device VIRTIO_MMIO_QUEUE_DESC_HIGH (u32 (Z.shiftr (desc queue) 32));;
    virtio_mmio_write32 device VIRTIO_MMIO_QUEUE_AVAIL_LOW (u32 (avail queue));;
    virtio_mmio_write32 device VIRTIO_MMIO_QUEUE_AVAIL_HIGH (u32 (Z.shiftr (avail queue) 32));;
    virtio_mmio_write32 device VIRTIO_MMIO_QUEUE_USED_LOW (u32 (used queue));;
    virtio_mmio_write32 device VIRTIO_MMIO_QUEUE_USED_HIGH (u32 (Z.shiftr (used queue) 32));;
    virtio_mmio_write32 device VIRTIO_MMIO_QUEUE_READY 1;;
    ret 0.

Definition virtio_mmio_notify_queue (device queue_index : Z) : M (virtio H D W) unit := virtio_mmio_write32 device VIRTIO_MMIO_QUEUE_NOTIFY queue_index.

Definition virtio_mmio_finish_init (device : Z) : M (virtio H D W) unit :=
  update_device device (fun d => set_device_status (Z.lor (status d) VIRTIO_STATUS_DRIVER_OK) d);;
  write_status device;;
  update_device device (set_initialized 1).

Definition virtio_mmio_fail (device : Z) : M (virtio H D W) unit :=
  update_device device (fun d => set_device_status (Z.lor (status d) VIRTIO_STATUS_FAILED) d);;
  write_status device.

Definition virtio_mmio_set_irq_handler (device : Z) (h : option H) (data : Z) : M (virtio H D W) unit := update_device device (set_irq_handler h data).
End transport.

(** ** The registers of a device *)

(** What never changes of a device: the version of its registers, what it is,
    the features it offers, the sets of accepted features it can work with, and
    the largest size of each queue (0 for a queue it does not have). *)
Record vkind : Type := Vkind { k_version : Z; k_id : Z; k_vendor : Z; k_offer : Z * Z; k_agrees : Z * Z -> bool; k_num_max : Z -> Z }.

Record vqueue : Type := Vqueue { vq_num : Z; vq_desc : Z * Z; vq_avail : Z * Z; vq_used : Z * Z; vq_ready : Z }.
Definition idle_vqueue : vqueue := Vqueue 0 (0, 0) (0, 0) (0, 0) 0.

(** [v_told] are the values written to the status register so far. *)
Record vdev : Type := Vdev {
  v_kind : vkind; v_told : list Z; v_status : Z; v_accept : Z * Z;
  v_offer_sel : Z; v_accept_sel : Z; v_queue_sel : Z; v_queue : Z -> vqueue
}.

(** The features are seen through a page selector. *)
Definition page_of (sel : Z) (p : Z * Z) : Z := if sel =? 0 then p.1 else if sel =? 1 then p.2 else 0.
Definition put_page (sel v : Z) (p : Z * Z) : Z * Z := if sel =? 0 then (v, p.2) else if sel =? 1 then (p.1, v) else p.
Definition subset (a b : Z) : bool := Z.land a b =? a.
Arguments subset : simpl never.
Definition status_has (bit : Z) (t : vdev) : bool := negb (Z.land (v_status t) bit =? 0).

(** The features accepted are offered, and the device can work with them: else
    it does not keep [FEATURES_OK]. *)
Definition content (k : vkind) (accept : Z * Z) : bool := subset accept.1 (k_offer k).1 && subset accept.2 (k_offer k).2 && k_agrees k accept.
Definition settle (v : Z) (t : vdev) : Z := if content (v_kind t) (v_accept t) then v else Z.land v (not32 VIRTIO_STATUS_FEATURES_OK).

(** The registers of the selected queue: they are fixed once the device runs,
    and those of a ready queue also before. *)
Definition on_queue (f : vqueue -> vqueue) (t : vdev) : vdev :=
  if status_has VIRTIO_STATUS_DRIVER_OK t then t
  else Vdev (v_kind t) (v_told t) (v_status t) (v_accept t) (v_offer_sel t) (v_accept_sel t) (v_queue_sel t)
    (fun i => if i =? v_queue_sel t then f (v_queue t i) else v_queue t i).
Definition unready (f : vqueue -> vqueue) (q : vqueue) : vqueue := if vq_ready q =? 0 then f q else q.

(** What is read of a register, where that follows from what is kept here. *)
Definition vdev_read (off : Z) (t : vdev) : option Z :=
  if off =? VIRTIO_MMIO_MAGIC_VALUE then Some VIRTIO_MMIO_MAGIC
  else if off =? VIRTIO_MMIO_VERSION then Some (k_version (v_kind t))
  else if off =? VIRTIO_MMIO_DEVICE_ID then Some (k_id (v_kind t))
  else if off =? VIRTIO_MMIO_VENDOR_ID then Some (k_vendor (v_kind t))
  else if off =? VIRTIO_MMIO_STATUS then Some (v_status t)
  else if off =? VIRTIO_MMIO_DEVICE_FEATURES then Some (page_of (v_offer_sel t) (k_offer (v_kind t)))
  else if off =? VIRTIO_MMIO_QUEUE_NUM_MAX then Some (k_num_max (v_kind t) (v_queue_sel t))
  else None.

(** A status of 0 is a reset; no feature is accepted behind [FEATURES_OK]. *)
Definition vdev_write (off v : Z) (t : vdev) : vdev :=
  if off =? VIRTIO_MMIO_STATUS then
    if v =? 0 then Vdev (v_kind t) (v_told t ++ [v]) 0 (0, 0) (v_offer_sel t) (v_accept_sel t) (v_queue_sel t) (fun _ => idle_vqueue)
    else Vdev (v_kind t) (v_told t ++ [v]) (settle v t) (v_accept t) (v_offer_sel t) (v_accept_sel t) (v_queue_sel t) (v_queue t)
  else if off =? VIRTIO_MMIO_DEVICE_FEATURES_SEL then Vdev (v_kind t) (v_told t) (v_status t) (v_accept t) v (v_accept_sel t) (v_queue_sel t) (v_queue t)
  else if off =? VIRTIO_MMIO_DRIVER_FEATURES_SEL then Vdev (v_kind t) (v_told t) (v_status t) (v_accept t) (v_offer_sel t) v (v_queue_sel t) (v_queue t)
  else if off =? VIRTIO_MMIO_DRIVER_FEATURES then
    if status_has VIRTIO_STATUS_FEATURES_OK t then t
    else Vdev (v_kind t) (v_told t) (v_status t) (put_page (v_accept_sel t) v (v_accept t)) (v_offer_sel t) (v_accept_sel t) (v_queue_sel t) (v_queue t)
  else if off =? VIRTIO_MMIO_QUEUE_SEL then Vdev (v_kind t) (v_told t) (v_status t) (v_accept t) (v_offer_sel t) (v_accept_sel t) v (v_queue t)
  else if off =? VIRTIO_MMIO_QUEUE_NUM then on_queue (unready (fun q => Vqueue v (vq_desc q) (vq_avail q) (vq_used q) (vq_ready q))) t
  else if off =? VIRTIO_MMIO_QUEUE_DESC_LOW then on_queue (unready (fun q => Vqueue (vq_num q) (v, (vq_desc q).2) (vq_avail q) (vq_used q) (vq_ready q))) t
  else if off =? VIRTIO_MMIO_QUEUE_DESC_HIGH then on_queue (unready (fun q => Vqueue (vq_num q) ((vq_desc q).1, v) (vq_avail q) (vq_used q) (vq_ready q))) t
  else if off =? VIRTIO_MMIO_QUEUE_AVAIL_LOW then on_queue (unready (fun q => Vqueue (vq_num q) (vq_desc q) (v, (vq_avail q).2) (vq_used q) (vq_ready q))) t
  else if off =? VIRTIO_MMIO_QUEUE_AVAIL_HIGH then on_queue (unready (fun q => Vqueue (vq_num q) (vq_desc q) ((vq_avail q).1, v) (vq_used q) (vq_ready q))) t
  else if off =? VIRTIO_MMIO_QUEUE_USED_LOW then on_queue (unready (fun q => Vqueue (vq_num q) (vq_desc q) (vq_avail q) (v, (vq_used q).2) (vq_ready q))) t
  else if off =? VIRTIO_MMIO_QUEUE_USED_HIGH then on_queue (unready (fun q => Vqueue (vq_num q) (vq_desc q) (vq_avail q) ((vq_used q).1, v) (vq_ready q))) t
  else if off =? VIRTIO_MMIO_QUEUE_READY then on_queue (fun q => Vqueue (vq_num q) (vq_desc q) (vq_avail q) (vq_used q) v) t
  else t.

(** ** The devices of the slots *)

Definition slot_base (i : Z) : Z := platform_get_virtio_mmio_base + platform_get_virtio_mmio_stride * i.

(** The hardware has such a device in each of the 32 slots; the one of an empty
    slot has identity 0. *)
Record devices_at {D} `{Hardware D} (view : D -> Z -> vdev) : Prop := {
  da_read : forall i off v h, 0 <= i < 32 -> vdev_read off (view h i) = Some v -> (mmio_read (slot_base i + off) h).1 = v;
  da_read_keeps : forall i off h j, 0 <= i < 32 -> is_Some (vdev_read off (view h i)) -> view (mmio_read (slot_base i + off) h).2 j = view h j;
  da_write : forall i off v h j, 0 <= i < 32 -> 0 <= off < 0x100 ->
    view (mmio_write (slot_base i + off) v h) j = if j =? i then vdev_write off v (view h i) else view h j
}.

Lemma vdev_read_bound off t v : vdev_read off t = Some v -> 0 <= off < 0x100.
Proof.
  unfold vdev_read. repeat match goal with |- context [off =? ?c] => destruct (Z.eqb_spec off c) as [->|]; [intros _; by vm_compute|] end. done.
Qed.

Section handshake.
Context {H D W : Type} `{Hardware D} (view : D -> Z -> vdev) (Hdev : devices_at view).
Implicit Types (s : virtio H D W) (d : virtio_mmio_device H) (t : vdev).

(** What an operation on slot [i] leaves as it is. *)
Record others_kept (i : Z) s s' : Prop := {
  ok_devices : forall j, j <> i -> rd (virtio_devices s') j = rd (virtio_devices s) j;
  ok_views : forall j, j <> i -> view (bus s') j = view (bus s) j;
  ok_total : virtio_device_total s' = virtio_device_total s;
  ok_drivers : drivers s' = drivers s
}.
Lemma others_refl i s : others_kept i s s.
Proof. by split. Qed.
Lemma others_trans i s1 s2 s3 : others_kept i s1 s2 -> others_kept i s2 s3 -> others_kept i s1 s3.
Proof.
  intros [A1 A2 A3 A4] [B1 B2 B3 B4]. split; [intros j Hj; rewrite B1, A1 by done; done|intros j Hj; rewrite B2, A2 by done; done|congruence|congruence].
Qed.

Context (s0 : virtio H D W).
(** State [s], reached from [s0], has record [d] for slot [i], and the device
    there shows [t]. *)
Record facing s (i : Z) d t : Prop := {
  fa_slot : 0 <= i < 32;
  fa_device : rd (virtio_devices s) i = Some d;
  fa_base : base d = slot_base i;
  fa_view : view (bus s) i = t;
  fa_others : others_kept i s0 s
}.

Lemma get_device_run s i d t : facing s i d t -> get_device i s = Ret d s [].
Proof. intros [_ Hr _ _ _]. unfold get_device. krun. by rewrite Hr. Qed.

Lemma update_any s i d f : 0 <= i < 32 -> rd (virtio_devices s) i = Some d -> base (f d) = slot_base i -> others_kept i s0 s ->
  exists s', update_device i f s = Ret tt s' [] /\ facing s' i (f d) (view (bus s) i).
Proof.
  intros Hi Hr Hb Ho. pose proof (rd_inv _ _ _ Hr) as Hl. unfold update_device. rewrite (bind_Ret_nil (get_device i) _ s d s) by (unfold get_device; krun; by rewrite Hr). krun.
  rewrite (bind_deref_Some _ _ _ _ (wr_Some _ _ (f d) Hl)). eexists. split; [reflexivity|]. split; [done| |done|done|].
  - cbn. unfold rd. rewrite (proj2 (Z.leb_le 0 i)) by lia. apply list_lookup_insert_eq. unfold lenZ in Hl. lia.
  - eapply others_trans; [exact Ho|]. split; try done. intros j Hj. cbn. unfold rd. destruct (Z.leb_spec 0 j); [|done]. apply list_lookup_insert_ne. lia.
Qed.
Lemma update_run s i d t f : facing s i d t -> base (f d) = base d -> exists s', update_device i f s = Ret tt s' [] /\ facing s' i (f d) t.
Proof. intros [Hi Hr Hbase <- Ho] Hb. apply update_any; [done|done|congruence|done]. Qed.

Lemma slot_address i off : 0 <= i < 32 -> 0 <= off < 0x100 -> u64 (slot_base i + off) = slot_base i + off.
Proof. intros Hi Ho. apply u64_small. unfold slot_base, platform_get_virtio_mmio_base, platform_get_virtio_mmio_stride. lia. Qed.

Lemma reg_write_run s i d t off v : facing s i d t -> 0 <= off < 0x100 -> exists s', virtio_mmio_write32 i off v s = Ret tt s' [] /\ facing s' i d (vdev_write off v t).
Proof using Hdev.
  intros Hf Ho. pose proof Hf as [Hi Hr Hb Hv Hk]. unfold virtio_mmio_write32. rewrite (bind_Ret_nil _ _ _ _ _ (get_device_run _ _ _ _ Hf)), Hb, slot_address by done.
  eexists. split; [reflexivity|]. split; [done|done|done|cbn; by rewrite (da_write _ Hdev), Z.eqb_refl, Hv|].
  eapply others_trans; [exact Hk|]. split; try done. intros j Hj. cbn. rewrite (da_write _ Hdev) by done. by rewrite (proj2 (Z.eqb_neq j i)).
Qed.

Lemma reg_read_run s i d t off v : facing s i d t -> vdev_read off t = Some v -> exists s', virtio_mmio_read32 i off s = Ret v s' [] /\ facing s' i d t.
Proof using Hdev.
  intros Hf Hread. pose proof Hf as [Hi Hr Hb Hv Hk]. pose proof (vdev_read_bound _ _ _ Hread) as Ho. unfold virtio_mmio_read32.
  rewrite (bind_Ret_nil _ _ _ _ _ (get_device_run _ _ _ _ Hf)), Hb, slot_address by done. rewrite <- Hv in Hread.
  eexists. split; [unfold on_bus, zoom, read32; rewrite (da_read _ Hdev i off v _ Hi Hread); reflexivity|].
  split; [done|done|done|cbn; by rewrite (da_read_keeps _ Hdev)|].
  eapply others_trans; [exact Hk|]. split; try done. intros j Hj. cbn. by rewrite (da_read_keeps _ Hdev).
Qed.
End handshake.

(** One access of the device: the head of the goal runs and the facts about the
    state follow. *)
Ltac vstep Hdev :=
  rewrite ?bind_assoc;
  lazymatch goal with
  | Hf : facing _ _ ?s ?i ?d ?t |- context [bind (virtio_mmio_write32 ?i ?off ?v) _ ?s] =>
      let s1 := fresh "s" in let E := fresh "E" in let F := fresh "F" in
      destruct (reg_write_run _ Hdev _ s i d t off v Hf ltac:(unfold off; lia)) as (s1 & E & F); rewrite (bind_Ret_nil _ _ _ _ _ E); clear E Hf
  | Hf : facing _ _ ?s ?i ?d ?t |- context [bind (virtio_mmio_read32 ?i ?off) _ ?s] =>
      let s1 := fresh "s" in let E := fresh "E" in let F := fresh "F" in
      destruct (reg_read_run _ Hdev _ s i d t off _ Hf eq_refl) as (s1 & E & F); rewrite (bind_Ret_nil _ _ _ _ _ E); clear E Hf
  | Hf : facing _ _ ?s ?i ?d ?t |- context [bind (update_device ?i ?f) _ ?s] =>
      let s1 := fresh "s" in let E := fresh "E" in let F := fresh "F" in
      destruct (update_run _ _ s i d t f Hf eq_refl) as (s1 & E & F); rewrite (bind_Ret_nil _ _ _ _ _ E); clear E Hf
  | Hf : facing _ _ ?s ?i ?d ?t |- context [bind (get_device ?i) _ ?s] => rewrite (bind_Ret_nil _ _ _ _ _ (get_device_run _ _ _ _ _ _ Hf))
  end.

Lemma subset_land f o : subset (Z.land f o) o = true.
Proof. unfold subset. apply Z.eqb_eq. by rewrite <- Z.land_assoc, Z.land_diag. Qed.
Lemma subset_version f o : Z.testbit o 0 = true -> subset (Z.lor (Z.land f o) 1) o = true.
Proof.
  intros Hb. unfold subset. apply Z.eqb_eq. rewrite Z.land_lor_distr_l, <- Z.land_assoc, Z.land_diag. f_equal. rewrite Z.land_comm. change 1 with (Z.ones 1). rewrite Z.land_ones by lia.
  rewrite <- Z.bit0_mod, Hb. done.
Qed.
Lemma land_version o : (Z.land o version_1_bit =? 0) = negb (Z.testbit o 0).
Proof. change version_1_bit with (Z.ones 1). rewrite Z.land_ones, <- Z.bit0_mod by lia. by destruct (Z.testbit o 0). Qed.

Section phases.
Context {H D W : Type} `{Hardware D} (view : D -> Z -> vdev) (Hdev : devices_at view) (s0 : virtio H D W).
Implicit Types (s : virtio H D W) (d : virtio_mmio_device H).
Abbreviation fresh_vdev k l st f a b c := (Vdev k l st f a b c (fun _ => idle_vqueue)).

Lemma begin_init_run s i d t : facing view s0 s i d t ->
  exists s', virtio_mmio_begin_init i s = Ret 0 s' [] /\
    facing view s0 s' i (set_device_status 3 d) (fresh_vdev (v_kind t) (v_told t ++ [0; 3]) 3 (0, 0) (v_offer_sel t) (v_accept_sel t) (v_queue_sel t)).
Proof using Hdev.
  intros Hf. unfold virtio_mmio_begin_init, write_status. vstep Hdev. vstep Hdev. change (negb (v_status (vdev_write VIRTIO_MMIO_STATUS 0 t) =? 0)) with false. cbn iota.
  do 3 vstep Hdev. eexists. split; [reflexivity|].
  match goal with Hf : facing _ _ ?s1 i _ ?t1 |- facing _ _ ?s1 i _ ?t2 => replace t2 with t1; [exact Hf|] end.
  cbn. unfold settle. rewrite <- (assoc_L (++)). cbn. by destruct (content _ _).
Qed.

(** The features a driver accepts that asks for [f0] and [f1]. *)
Definition accepted (f0 f1 : Z) (k : vkind) : Z * Z := (Z.land f0 (k_offer k).1, Z.lor (Z.land f1 (k_offer k).2) 1).
Definition featured (f : Z * Z) d : virtio_mmio_device H := set_device_status 11 (set_driver_features f d).

Lemma negotiate_run s i d k l a b c f0 f1 : facing view s0 s i d (fresh_vdev k l 3 (0, 0) a b c) -> status d = 3 ->
  exists s', if Z.testbit (k_offer k).2 0 then
      if k_agrees k (accepted f0 f1 k) then virtio_mmio_negotiate_features i f0 f1 s = Ret 0 s' [] /\
        facing view s0 s' i (featured (accepted f0 f1 k) d) (fresh_vdev k (l ++ [11]) 11 (accepted f0 f1 k) 1 1 c)
      else virtio_mmio_negotiate_features i f0 f1 s = Ret (-1) s' [] /\
        facing view s0 s' i (featured (accepted f0 f1 k) d) (fresh_vdev k (l ++ [11]) 3 (accepted f0 f1 k) 1 1 c)
    else virtio_mmio_negotiate_features i f0 f1 s = Ret (-1) s' [] /\ facing view s0 s' i d (fresh_vdev k l 3 (0, 0) 1 b c).
Proof using Hdev.
  intros Hf Hst. unfold virtio_mmio_negotiate_features, virtio_mmio_read_features, virtio_mmio_write_features, write_status. do 4 vstep Hdev.
  match goal with |- context [Z.land ?x version_1_bit] => change x with (k_offer k).2 end. rewrite land_version. destruct (Z.testbit (k_offer k).2 0) eqn:Hb; cbn [negb]; cbn iota; [|eexists; by split].
  do 10 vstep Hdev. match goal with Hf : facing _ _ ?s1 i ?d1 ?t1 |- _ => set (t' := t1) in *; set (d' := d1) in * end.
  assert (Hd' : d' = featured (accepted f0 f1 k) d) by (unfold d'; cbn; rewrite Hst; done).
  assert (Hsub : content k (accepted f0 f1 k) = k_agrees k (accepted f0 f1 k)) by (unfold content, accepted; cbn [fst snd]; by rewrite subset_land, subset_version).
  assert (Ht' : t' = fresh_vdev k (l ++ [11]) (if k_agrees k (accepted f0 f1 k) then 11 else 3) (accepted f0 f1 k) 1 1 c).
  { unfold t'. rewrite Hd'. rewrite <- Hsub. reflexivity. }
  rewrite Ht' in *. rewrite Hd' in *. cbn [v_status]. destruct (k_agrees k (accepted f0 f1 k)); eexists; split; try reflexivity; eassumption.
Qed.

(** The queue registers of the selected queue hold a virtqueue. *)
Definition holds_queue (t : vdev) (queue_index : Z) (q : virtqueue) : Prop :=
  v_queue t queue_index = Vqueue (size q) (u32 (desc q), u32 (Z.shiftr (desc q) 32)) (u32 (avail q), u32 (Z.shiftr (avail q) 32)) (u32 (used q), u32 (Z.shiftr (used q) 32)) 1.

(** A register of the selected queue is written. *)
Lemma queue_write_run s i d k l a qi vq off v f : (forall t, vdev_write off v t = on_queue f t) -> 0 <= off < 0x100 -> facing view s0 s i d (Vdev k l 11 a 1 1 qi vq) ->
  exists s' vq', virtio_mmio_write32 i off v s = Ret tt s' [] /\ facing view s0 s' i d (Vdev k l 11 a 1 1 qi vq') /\ vq' qi = f (vq qi).
Proof using Hdev.
  intros Hw Ho Hf. destruct (reg_write_run view Hdev s0 s i d _ off v Hf Ho) as (s' & E & F). rewrite Hw in F. eexists s', _. split; [exact E|]. split; [exact F|]. cbn. by rewrite Z.eqb_refl.
Qed.

(** One such register, with what the queue holds so far. *)
Ltac queue_write Hdev F Hq :=
  let s1 := fresh "s" in let vq := fresh "vq" in let E := fresh "E" in let F1 := fresh "F" in let Hq1 := fresh "Hq" in
  lazymatch goal with |- context [bind (virtio_mmio_write32 ?i ?off ?v) _ ?s] =>
    destruct (queue_write_run s i _ _ _ _ _ _ off v _ (fun t => eq_refl) ltac:(done) F) as (s1 & vq & E & F1 & Hq1);
    rewrite (bind_Ret_nil _ _ _ _ _ E), Hq in *; clear E F Hq; rename F1 into F; rename Hq1 into Hq end.

Lemma setup_queue_run s i d k l a c qi q : facing view s0 s i d (fresh_vdev k l 11 a 1 1 c) -> 0 < size q ->
  exists s' vq, facing view s0 s' i d (Vdev k l 11 a 1 1 qi vq) /\
    if k_num_max k qi <? size q then virtio_mmio_setup_queue i qi q s = Ret (-1) s' []
    else virtio_mmio_setup_queue i qi q s = Ret 0 s' [] /\ holds_queue (Vdev k l 11 a 1 1 qi vq) qi q.
Proof using Hdev.
  intros Hf Hsize. unfold virtio_mmio_setup_queue. vstep Hdev. vstep Hdev.
  match goal with |- context [?x =? 0] => change x with (k_num_max k qi) end.
  match goal with Hf : facing _ _ _ _ _ ?t |- _ => change t with (fresh_vdev k l 11 a 1 1 qi) in Hf; rename Hf into F end.
  destruct (Z.ltb_spec (k_num_max k qi) (size q)) as [Hl|Hl]; [rewrite orb_true_r; eexists _, _; by split|].
  rewrite (proj2 (Z.eqb_neq _ 0)) by lia. cbn [orb]. cbn iota.
  remember (fun _ : Z => idle_vqueue) as vq0 eqn:Hq. assert (Hq0 : vq0 qi = idle_vqueue) by (by rewrite Hq). clear Hq.
  do 8 queue_write Hdev F Hq0. eexists _, _. split; [exact F|]. split; [reflexivity|]. exact Hq0.
Qed.

Lemma finish_run s i d k l f a b c vq : facing view s0 s i d (Vdev k l 11 f a b c vq) -> status d = 11 -> content k f = true ->
  exists s', virtio_mmio_finish_init i s = Ret tt s' [] /\ facing view s0 s' i (set_initialized 1 (set_device_status 15 d)) (Vdev k (l ++ [15]) 15 f a b c vq).
Proof using Hdev.
  intros Hf Hst Hc. unfold virtio_mmio_finish_init, write_status. do 3 vstep Hdev. cbn in *. rewrite Hst in *. change (Z.lor 11 VIRTIO_STATUS_DRIVER_OK) with 15 in *.
  match goal with Hf : facing _ _ ?s1 i ?d1 ?t1 |- _ => destruct (update_run view s0 s1 i d1 t1 (set_initialized 1) Hf eq_refl) as (s3 & E & F) end.
  rewrite E. eexists. split; [reflexivity|]. unfold settle in F. cbn in F. by rewrite Hc in F.
Qed.

(** The device is told that the driver gave up, and shows it. *)
Lemma fail_run s i d t : facing view s0 s i d t -> status d = 3 \/ status d = 11 ->
  exists s' d' t', virtio_mmio_fail i s = Ret tt s' [] /\ facing view s0 s' i d' t' /\ v_kind t' = v_kind t /\
    v_told t' = v_told t ++ [Z.lor (status d) VIRTIO_STATUS_FAILED] /\ status_has VIRTIO_STATUS_FAILED t' = true /\ status_has VIRTIO_STATUS_DRIVER_OK t' = false.
Proof using Hdev.
  intros Hf Hst. unfold virtio_mmio_fail, write_status. do 2 vstep Hdev.
  destruct (reg_write_run view Hdev s0 s1 i _ t VIRTIO_MMIO_STATUS (Z.lor (status d) VIRTIO_STATUS_FAILED) F ltac:(unfold VIRTIO_MMIO_STATUS; lia)) as (s2 & E & F2).
  cbn [status set_device_status]. rewrite E. eexists s2, _, _. split; [reflexivity|]. split; [exact F2|].
  unfold vdev_write, settle. rewrite Z.eqb_refl. destruct Hst as [-> | ->]; (split; [done|split; [done|]]); unfold status_has; cbn; by destruct (content _ _).
Qed.
End phases.

(** ** Probing *)

(** What a probe finds of a device: modern registers, and an identity. *)
Definition shown (k : vkind) : bool := (k_version k =? VIRTIO_MMIO_VERSION_MODERN) && negb (k_id k =? VIRTIO_DEVICE_ID_INVALID).
(** The entry of a slot after the probe. *)
Definition probed_entry {H} (i : Z) (k : vkind) : virtio_mmio_device H :=
  VirtioMmioDevice (slot_base i) i (48 + i) (if shown k then k_id k else VIRTIO_DEVICE_ID_INVALID) (if shown k then k_vendor k else 0) 0 (0, 0)
    (if shown k then 1 else 0) 0 None 0.

(** A message is printed. *)
Ltac say :=
  lazymatch goal with |- context [kprintf ?f ?args ?s] =>
    let cs := eval vm_compute in (default [] (fmt_convs (cstr f))) in let o := fresh "o" in let E := fresh "E" in
    destruct (kprintf_total f cs args s) as [o E]; [reflexivity| |rewrite E; clear E] end.

Section probing.
Context {H D W : Type} `{Hardware D} (view : D -> Z -> vdev) (Hdev : devices_at view).
Implicit Types (s : virtio H D W) (d : virtio_mmio_device H).
Abbreviation kind_at s i := (v_kind (view (bus s) i)).

(** The table tells what is in the slots; a driver may have changed its entry. *)
Definition probed s : Prop :=
  forall i, 0 <= i < 32 -> exists d, rd (virtio_devices s) i = Some d /\ base d = slot_base i /\ slot d = i /\ irq d = 48 + i /\
    device_id d = device_id (probed_entry (H := H) i (kind_at s i)) /\ present d = present (probed_entry (H := H) i (kind_at s i)).

(** Registers have 32 bits. *)
Definition words s : Prop := forall i, 0 <= i < 32 -> 0 <= k_id (kind_at s i) < 2 ^ 32 /\ 0 <= k_vendor (kind_at s i) < 2 ^ 32.

(** One slot: its entry is written, the devices stay as they are. *)
Record slot_probed s (i : Z) s' : Prop := {
  sp_entry : rd (virtio_devices s') i = Some (probed_entry i (kind_at s i));
  sp_others : forall j, j <> i -> rd (virtio_devices s') j = rd (virtio_devices s) j;
  sp_views : forall j, view (bus s') j = view (bus s) j;
  sp_total : virtio_device_total s' = u32 (virtio_device_total s + (if shown (kind_at s i) then 1 else 0));
  sp_drivers : drivers s' = drivers s
}.

Lemma probe_slot_run s i : words s -> 0 <= i < 32 -> is_Some (rd (virtio_devices s) i) -> 0 <= virtio_device_total s < 2 ^ 32 ->
  exists s' o, virtio_mmio_probe_slot i s = Ret tt s' o /\ slot_probed s i s'.
Proof using Hdev.
  intros Hwords Hi [d Hd] Htotal. unfold virtio_mmio_probe_slot. cbv zeta. replace (u64 (platform_get_virtio_mmio_base + u64 (platform_get_virtio_mmio_stride * i))) with (slot_base i).
  2:{ unfold slot_base, platform_get_virtio_mmio_base, platform_get_virtio_mmio_stride. rewrite (u64_small (512 * i)), u64_small by lia. done. }
  replace (platform_get_virtio_mmio_irq i) with (48 + i) by (unfold platform_get_virtio_mmio_irq; rewrite u32_small by lia; done).
  destruct (update_any view s s i d (fun _ => VirtioMmioDevice (slot_base i) i (48 + i) VIRTIO_DEVICE_ID_INVALID 0 0 (0, 0) 0 0 None 0) Hi Hd eq_refl (others_refl _ _ _)) as (s1 & E1 & F1).
  rewrite (bind_Ret_nil _ _ _ _ _ E1). clear E1. do 3 vstep Hdev. rewrite Z.eqb_refl. cbn [negb orb]. unfold probed_entry.
  assert (Hsh : shown (kind_at s i) = negb (negb (k_version (kind_at s i) =? VIRTIO_MMIO_VERSION_MODERN) || (k_id (kind_at s i) =? VIRTIO_DEVICE_ID_INVALID)))
    by (unfold shown; by destruct (_ =? VIRTIO_MMIO_VERSION_MODERN), (_ =? VIRTIO_DEVICE_ID_INVALID)).
  destruct (negb (k_version (kind_at s i) =? VIRTIO_MMIO_VERSION_MODERN) || (k_id (kind_at s i) =? VIRTIO_DEVICE_ID_INVALID)); cbn [negb] in Hsh.
  - match goal with Hf : facing _ _ _ _ _ _ |- _ => destruct Hf as [_ Hr _ Hv [Ho1 Ho2 Ho3 Ho4]] end. eexists _, _. split; [reflexivity|]. split; unfold probed_entry; rewrite ?Hsh; [exact Hr|exact Ho1| |rewrite Ho3, Z.add_0_r, u32_small by lia; done|exact Ho4].
    intros j. destruct (Z.eq_dec j i) as [->|]; [done|by apply Ho2].
  - do 2 vstep Hdev. krun. match goal with Hf : facing _ _ _ _ _ _ |- _ => destruct Hf as [_ Hr _ Hv [Ho1 Ho2 Ho3 Ho4]] end.
    say; [destruct (Hwords i Hi); repeat constructor; cbn; auto; lia|]. eexists _, _. split; [reflexivity|]. split; unfold probed_entry; rewrite ?Hsh; [exact Hr|exact Ho1| |cbn; by rewrite Ho3|exact Ho4].
    intros j. destruct (Z.eq_dec j i) as [->|]; [done|by apply Ho2].
Qed.

(** All slots from [i] on. *)
Record slots_probed s (i : Z) (n : nat) s' : Prop := {
  ps_entries : forall j, i <= j < i + Z.of_nat n -> rd (virtio_devices s') j = Some (probed_entry j (kind_at s j));
  ps_others : forall j, ~ i <= j < i + Z.of_nat n -> rd (virtio_devices s') j = rd (virtio_devices s) j;
  ps_views : forall j, view (bus s') j = view (bus s) j;
  ps_total : virtio_device_total s' = virtio_device_total s + lenZ (List.filter (fun j => shown (kind_at s j)) (seqZ i (Z.of_nat n)));
  ps_drivers : drivers s' = drivers s
}.

Lemma probe_slots_run n : forall i s, words s -> 0 <= i -> i + Z.of_nat n <= 32 -> (forall j, 0 <= j < 32 -> is_Some (rd (virtio_devices s) j)) ->
  0 <= virtio_device_total s -> virtio_device_total s + Z.of_nat n <= 32 ->
  exists s' o, for_range n i virtio_mmio_probe_slot s = Ret tt s' o /\ slots_probed s i n s'.
Proof using Hdev.
  induction n as [|n IH]; intros i s Hwords Hi Hn Hall Ht1 Ht2; cbn [for_range].
  { exists s, []. split; [done|]. split; try done; [intros j Hj; lia|change (seqZ i (Z.of_nat 0)) with (@nil Z); unfold lenZ; cbn; lia]. }
  destruct (probe_slot_run s i Hwords ltac:(lia) (Hall i ltac:(lia)) ltac:(lia)) as (s1 & o1 & E1 & [P1 P2 P3 P4 P5]). rewrite u32_small in P4 by (destruct (shown _); lia).
  destruct (IH (i + 1) s1 ltac:(intros j Hj; rewrite P3; by apply Hwords) ltac:(lia) ltac:(lia)) as (s2 & o2 & E2 & [Q1 Q2 Q3 Q4 Q5]); [|rewrite P4; destruct (shown _); lia|rewrite P4; destruct (shown _); lia|].
  { intros j Hj. destruct (Z.eq_dec j i) as [->|Hne]; [by rewrite P1|rewrite P2 by done; by apply Hall]. }
  rewrite (bind_Ret _ _ _ _ _ _ E1), E2. eexists _, _. split; [reflexivity|]. split.
  - intros j Hj. destruct (Z.eq_dec j i) as [->|Hne]; [rewrite Q2 by lia; exact P1|]. rewrite Q1 by lia. by rewrite P3.
  - intros j Hj. rewrite Q2, P2 by lia. done.
  - intros j. by rewrite Q3, P3.
  - rewrite Q4, P4, (seqZ_cons i) by lia. cbn [List.filter]. rewrite (filter_ext (fun j => shown (kind_at s1 j)) (fun j => shown (kind_at s j))) by (intros j; by rewrite P3).
    replace (Z.of_nat (S n)) with (Z.succ (Z.of_nat n)) by lia. rewrite Z.pred_succ, <- (Z.add_1_r i). destruct (shown (kind_at s i)); unfold lenZ; cbn [length]; lia.
  - congruence.
Qed.

(** The start of the transport: the table tells what is in the slots. *)
Lemma virtio_init_run s : words s -> (forall i, 0 <= i < 32 -> is_Some (rd (virtio_devices s) i)) ->
  exists s' o, virtio_init s = Ret tt s' o /\ probed s' /\ (forall i, view (bus s') i = view (bus s) i) /\
    virtio_device_total s' = lenZ (List.filter (fun i => shown (kind_at s i)) (seqZ 0 32)) /\ drivers s' = drivers s.
Proof using Hdev.
  intros Hwords Hall. unfold virtio_init. rewrite bind_modify. set (s1 := set_virtio_device_total 0 s). change (Z.to_nat slot_count) with 32%nat.
  destruct (probe_slots_run 32 0 s1 Hwords ltac:(lia) ltac:(lia) Hall ltac:(cbn; lia) ltac:(cbn; lia)) as (s2 & o & E & [P1 _ P3 P4 P5]).
  change (virtio_device_total s1) with 0 in P4. rewrite Z.add_0_l in P4. change (Z.of_nat 32) with 32 in *.
  rewrite (bind_Ret _ _ _ _ _ _ E), bind_gets, P4. set (l := List.filter _ _). pose proof (lenZ_nonneg l).
  assert (Hle : lenZ l <= 32) by (unfold lenZ, l; pose proof (filter_length_le (fun j => shown (kind_at s1 j)) (seqZ 0 32)) as Hx; rewrite length_seqZ in Hx; lia).
  say; [repeat constructor; lia|].
  eexists _, _. split; [reflexivity|]. split; [|split; [exact P3|split; [exact P4|exact P5]]].
  intros i Hi. exists (probed_entry i (kind_at s i)). split; [by apply P1|]. do 3 (split; [done|]). by rewrite P3.
Qed.

(** ** Finding a device *)

(** The first slot with a device that is shown with this identity. *)
Definition first_device (id0 : Z) (h : D) : option Z :=
  List.find (fun i => shown (v_kind (view h i)) && (k_id (v_kind (view h i)) =? id0)) (seqZ 0 32).

Lemma slot_find_run s id0 n : forall i, probed s -> 0 <= i -> i + Z.of_nat n <= 32 ->
  find_loop n i 0 id0 0 s = Ret (List.find (fun j => shown (kind_at s j) && (k_id (kind_at s j) =? id0)) (seqZ i (Z.of_nat n))) s [].
Proof.
  induction n as [|n IH]; intros i Hp Hi Hn; [done|]. destruct (Hp i ltac:(lia)) as (d & Hd & _ & _ & _ & Hid & Hpr). cbn [find_loop].
  rewrite (bind_Ret_nil (get_device i) _ s d s) by (unfold get_device; krun; by rewrite Hd). rewrite Hid, Hpr, seqZ_cons by lia.
  replace (Z.pred (Z.of_nat (S n))) with (Z.of_nat n) by lia. rewrite <- Z.add_1_r. cbn [List.find]. unfold probed_entry. cbn [present device_id].
  destruct (shown (kind_at s i)); cbn [negb Z.eqb andb]; [|apply IH; done || lia]. destruct (k_id (kind_at s i) =? id0); [done|apply IH; done || lia].
Qed.
Lemma find_device_run s id0 : probed s -> virtio_find_device id0 0 s = Ret (first_device id0 (bus s)) s [].
Proof. intros Hp. exact (slot_find_run s id0 32 0 Hp ltac:(lia) ltac:(lia)). Qed.
End probing.

(** ** Devices in all slots *)

Definition slot_of (a : Z) : Z := (a - platform_get_virtio_mmio_base) / platform_get_virtio_mmio_stride.
Definition offset_of (a : Z) : Z := (a - platform_get_virtio_mmio_base) mod platform_get_virtio_mmio_stride.
#[export] Instance slots : Hardware (Z -> vdev) := {
  mmio_read a h := (default 0 (vdev_read (offset_of a) (h (slot_of a))), h);
  mmio_write a v h := fun j => if j =? slot_of a then vdev_write (offset_of a) v (h j) else h j;
  sysreg_read _ h := (0, h);
  sysreg_write _ _ h := h
}.
Lemma slot_split i off : 0 <= off < 0x100 -> slot_of (slot_base i + off) = i /\ offset_of (slot_base i + off) = off.
Proof. intros Ho. unfold slot_of, offset_of, slot_base, platform_get_virtio_mmio_base, platform_get_virtio_mmio_stride. Z.div_mod_to_equations. lia. Qed.
Lemma slots_at : devices_at (D := Z -> vdev) id.
Proof.
  split.
  - intros i off v h _ Hr. destruct (slot_split i off (vdev_read_bound _ _ _ Hr)) as [E1 E2]. cbn. unfold id in Hr. by rewrite E1, E2, Hr.
  - done.
  - intros i off v h j _ Ho. destruct (slot_split i off Ho) as [E1 E2]. cbn. rewrite E1, E2. by destruct (Z.eqb_spec j i) as [->|].
Qed.
