(* ===== verification/Syscall.v ===== *)
(** The kernel as an exception finds it: its components side by side, and the
    system calls (src/src/kernel/syscall.c). The components share the hardware;
    the heaps in them are not touched while an exception is handled. *)
From S2P Require Import Prelude LibString Klog Memory Input Task BlockDevice FileTable MMU UserProgram Virtqueue Graphics Console Bus VirtioMmio.

Definition SYS_WRITE_CONSOLE : Z := 1.
Definition SYS_GET_TICKS : Z := 2.
Definition SYS_EXIT : Z := 3.

(** The types are those of the disk, the hardware, the drivers' interrupt
    handlers and state, the display, the output capture and the keyboard. *)
Record kernel (X D H W G C K : Type) : Type := Kernel {
  k_sched : sched;
  k_user : machine X;
  k_timer : timer D;
  k_virtio : virtio H D W;
  k_console : console G C K
}.
Arguments Kernel {X D H W G C K}.
Arguments k_sched {X D H W G C K}.
Arguments k_user {X D H W G C K}.
Arguments k_timer {X D H W G C K}.
Arguments k_virtio {X D H W G C K}.
Arguments k_console {X D H W G C K}.

Section syscalls.
Context {X D H W G C K : Type} `{Hardware D} `{DisplayDriver G} `{OutputCapture C}.
Context (table_address : table -> Z) (arch_user_resume_el1 : Z).
Abbreviation kern := (kernel X D H W G C K).
Implicit Types k : kern.

Definition set_k_sched v k : kern := Kernel v (k_user k) (k_timer k) (k_virtio k) (k_console k).
Definition set_k_user v k : kern := Kernel (k_sched k) v (k_timer k) (k_virtio k) (k_console k).
Definition set_k_timer v k : kern := Kernel (k_sched k) (k_user k) v (k_virtio k) (k_console k).
Definition set_k_virtio v k : kern := Kernel (k_sched k) (k_user k) (k_timer k) v (k_console k).
Definition set_k_console v k : kern := Kernel (k_sched k) (k_user k) (k_timer k) (k_virtio k) v.

Definition on_sched {A} (m : M sched A) : M kern A := zoom k_sched set_k_sched m.
Definition on_user {A} (m : M (machine X) A) : M kern A := zoom k_user set_k_user m.
Definition on_timer {A} (m : M (timer D) A) : M kern A := zoom k_timer set_k_timer m.
Definition on_console {A} (m : M (console G C K) A) : M kern A := zoom k_console set_k_console m.
(** The virtio drivers find the hardware as the timer and the interrupt
    controller left it. *)
Definition on_virtio {A} (m : M (virtio H D W) A) : M kern A :=
  zoom (fun k => set_bus (hardware (k_timer k)) (k_virtio k))
    (fun v k => set_k_virtio v (set_k_timer (set_hardware (bus v) (k_timer k)) k)) m.

(** The trap frame at an address. *)
Definition get_frame (frame : Z) : M kern exception_trap_frame := fs <- gets (fun k => frames (k_sched k));; deref (fs !! frame).
Definition put_frame (frame : Z) (f : exception_trap_frame) : M kern unit := on_sched (modify (fun s => set_frames (<[frame := f]> (frames s)) s)).
Definition reg (f : exception_trap_frame) (i : Z) : M kern Z := deref (rd (x f) i).
Definition set_x0 (frame value : Z) : M kern unit :=
  f <- get_frame frame;;
  x' <- deref (wr (x f) 0 value);;
  put_frame frame (set_x x' f).

(** A load of the kernel from a virtual address; a fault in the kernel is
    outside of the model. *)
Definition load_byte k (va : Z) : option Z :=
  let u := k_user k in
  if mmu_is_enabled (u_mmu u) then l ← walk table_address (u_mmu u) va; Some (ram (u_mm u) (output l)) else Some (ram (u_mm u) va).
Fixpoint load_bytes (n : nat) k (va : Z) : option mem :=
  match n with
  | O => Some []
  | S n' => b ← load_byte k va; bytes ← load_bytes n' k (u64 (va + 1)); Some (b :: bytes)
  end.

Definition syscall_error : Z := not64 0.

Definition syscall_handle (frame : Z) : M kern Z :=
  f <- get_frame frame;;
  number <- reg f 8;;
  if number =? SYS_WRITE_CONSOLE then
    x0 <- reg f 0;;
    if x0 =? 0 then set_x0 frame syscall_error;; ret frame
    else
      x1 <- reg f 1;;
      k <- gets id;;
      buffer <- deref (load_bytes (Z.to_nat x1) k x0);;
      on_console (console_write_len buffer x1);;
      set_x0 frame x1;;
      ret frame
  else if number =? SYS_GET_TICKS then
    ticks <- on_timer timer_irq_count;;
    set_x0 frame ticks;;
    ret frame
  else if number =? SYS_EXIT then
    active <- on_user user_exception_active;;
    x0 <- reg f 0;;
    if negb (active =? 0) then
      f' <- on_user (user_exit_from_exception arch_user_resume_el1 f x0);;
      put_frame frame f';;
      ret frame
    else on_sched (task_exit_from_exception frame x0)
  else set_x0 frame syscall_error;; ret frame.

End syscalls.
