(* ===== verification/Exceptions.v ===== *)
(** The exceptions of the processor (src/src/arch/aarch64/exceptions.c): what the
    vectors print, and the handler that tells an interrupt, a yield, a system
    call and a fault apart. *)
From S2P Require Import Prelude LibString Klog Memory Input Task BlockDevice FileTable MMU UserProgram Virtqueue Graphics Console Bus VirtioMmio Syscall.

(** ** Names *)

Definition names : list string :=
  ["sync current el sp0"; "irq current el sp0"; "fiq current el sp0"; "serror current el sp0";
   "sync current el spx"; "irq current el spx"; "fiq current el spx"; "serror current el spx";
   "sync lower el aarch64"; "irq lower el aarch64"; "fiq lower el aarch64"; "serror lower el aarch64";
   "sync lower el aarch32"; "irq lower el aarch32"; "fiq lower el aarch32"; "serror lower el aarch32"]%string.
Definition exception_vector_name (vector_id0 : Z) : string := default "unknown"%string (rd names vector_id0).

Definition exception_kind_name (vector_id0 : Z) : string :=
  match Z.land vector_id0 3 with 0 => "sync" | 1 => "irq" | 2 => "fiq" | 3 => "serror" | _ => "unknown" end%string.

Definition exception_class_name (ec : Z) : string :=
  match ec with
  | 0x00 => "unknown reason"
  | 0x01 => "trapped wfi or wfe"
  | 0x03 => "trapped mcr or mrc cp15"
  | 0x04 => "trapped mcrr or mrrc cp15"
  | 0x05 => "trapped mcr or mrc cp14"
  | 0x06 => "trapped ldc or stc"
  | 0x07 => "trapped sve or asimd"
  | 0x0e => "illegal execution state"
  | 0x11 => "svc aarch32"
  | 0x15 => "svc aarch64"
  | 0x18 => "trapped msr mrs or system instruction"
  | 0x20 => "instruction abort lower el"
  | 0x21 => "instruction abort current el"
  | 0x22 => "pc alignment fault"
  | 0x24 => "data abort lower el"
  | 0x25 => "data abort current el"
  | 0x26 => "sp alignment fault"
  | 0x2c => "floating point exception aarch64"
  | 0x2f => "serror interrupt"
  | 0x30 => "breakpoint lower el"
  | 0x31 => "breakpoint current el"
  | 0x32 => "software step lower el"
  | 0x33 => "software step current el"
  | 0x34 => "watchpoint lower el"
  | 0x35 => "watchpoint current el"
  | 0x3c => "brk aarch64"
  | _ => "reserved or unhandled class"
  end%string.

Definition exception_abort_fsc_name (fsc : Z) : string :=
  match fsc with
  | 0x00 => "address size fault level 0"
  | 0x01 => "address size fault level 1"
  | 0x02 => "address size fault level 2"
  | 0x03 => "address size fault level 3"
  | 0x04 => "translation fault level 0"
  | 0x05 => "translation fault level 1"
  | 0x06 => "translation fault level 2"
  | 0x07 => "translation fault level 3"
  | 0x09 => "access flag fault level 1"
  | 0x0a => "access flag fault level 2"
  | 0x0b => "access flag fault level 3"
  | 0x0d => "permission fault level 1"
  | 0x0e => "permission fault level 2"
  | 0x0f => "permission fault level 3"
  | 0x10 => "synchronous external abort"
  | 0x11 => "tag check fault"
  | 0x14 => "translation table external abort level 0"
  | 0x15 => "translation table external abort level 1"
  | 0x16 => "translation table external abort level 2"
  | 0x17 => "translation table external abort level 3"
  | 0x18 => "parity or ecc error"
  | 0x21 => "alignment fault"
  | 0x30 => "tlb conflict abort"
  | _ => "unknown fault status"
  end%string.

Definition str_arg (s : string) : karg := AStr (Some (cstr s)).

Section reports.
Context {S : Type}.

Definition exception_print_abort_details (ec iss : Z) : M S unit :=
  let fsc := Z.land iss 0x3f in
  kprintf (nl "[ERROR] abort status: %s") [str_arg (exception_abort_fsc_name fsc)];;
  kprintf (nl "[ERROR] abort fsc: 0x%x") [AUint (u32 fsc)];;
  if (ec =? 0x24) || (ec =? 0x25) then
    kprintf (nl "[ERROR] data abort access: %s") [str_arg (if negb (Z.land iss (Z.shiftl 1 6) =? 0) then "write" else "read")];;
    kprintf (nl "[ERROR] data abort s1ptw: %u") [AUint (u32 (Z.land (Z.shiftr iss 7) 1))];;
    kprintf (nl "[ERROR] data abort fnv: %u") [AUint (u32 (Z.land (Z.shiftr iss 10) 1))]
  else ret tt.

Definition exception_print_esr_details (esr : Z) : M S unit :=
  let ec := Z.land (Z.shiftr esr 26) 0x3f in
  let il := Z.land (Z.shiftr esr 25) 1 in
  let iss := Z.land esr 0x01ffffff in
  kprintf (nl "[ERROR] ESR class: %s") [str_arg (exception_class_name ec)];;
  kprintf (nl "[ERROR] ESR EC: 0x%x") [AUint (u32 ec)];;
  kprintf (nl "[ERROR] ESR IL: %u") [AUint (u32 il)];;
  kprintf (nl "[ERROR] ESR ISS: 0x%x") [AUint (u32 iss)];;
  if (ec =? 0x20) || (ec =? 0x21) || (ec =? 0x24) || (ec =? 0x25) then exception_print_abort_details ec iss
  else if ec =? 0x15 then kprintf (nl "[ERROR] SVC immediate: 0x%x") [AUint (u32 (Z.land iss 0xffff))]
  else if ec =? 0x3c then kprintf (nl "[ERROR] BRK immediate: 0x%x") [AUint (u32 (Z.land iss 0xffff))]
  else ret tt.

(** The general registers that are printed. *)
Definition print_reg (f : exception_trap_frame) (label : string) (i : Z) : M S unit :=
  v <- deref (rd (x f) i);;
  kprintf (nl label) [APtr v].

Definition exception_handle_default (f : exception_trap_frame) : M S unit :=
  kprintf (nl "[ERROR] exception: %s") [str_arg (exception_vector_name (vector_id f))];;
  kprintf (nl "[ERROR] type: %s") [str_arg (exception_kind_name (vector_id f))];;
  kprintf (nl "[ERROR] vector: %u") [AUint (u32 (vector_id f))];;
  kprintf (nl "[ERROR] ESR_EL1: 0x%x") [AUint (u32 (esr_el1 f))];;
  exception_print_esr_details (esr_el1 f);;
  kprintf (nl "[ERROR] ELR_EL1: %p") [APtr (elr_el1 f)];;
  kprintf (nl "[ERROR] SPSR_EL1: 0x%x") [AUint (u32 (spsr_el1 f))];;
  kprintf (nl "[ERROR] FAR_EL1: %p") [APtr (far_el1 f)];;
  kprintf (nl "[ERROR] DAIF: 0x%x") [AUint (u32 (frame_daif f))];;
  kprintf (nl "[ERROR] SP: %p") [APtr (frame_sp f)];;
  print_reg f "[ERROR] X0: %p" 0;;
  print_reg f "[ERROR] X1: %p" 1;;
  print_reg f "[ERROR] X2: %p" 2;;
  print_reg f "[ERROR] X3: %p" 3;;
  print_reg f "[ERROR] X29: %p" 29;;
  print_reg f "[ERROR] X30: %p" 30;;
  panic "Unhandled exception".
End reports.

Definition exception_is_irq_vector (vector_id0 : Z) : bool :=
  (vector_id0 =? 1) || (vector_id0 =? 5) || (vector_id0 =? 9) || (vector_id0 =? 13).

(** ** The handler *)

Section handler.
Context {X D H W G C K : Type} `{Hardware D} `{DisplayDriver G} `{OutputCapture C}.
Context (table_address : table -> Z) (arch_user_resume_el1 exception_vector_table : Z).
Context (call_handler : H -> Z -> Z -> M (virtio H D W) unit).
Abbreviation kern := (kernel X D H W G C K).
Implicit Types k : kern.

Definition on_gic {A} (m : M D A) : M kern A := on_timer (on_hardware m).

Definition exceptions_init : M kern unit :=
  el <- on_gic (read_reg CURRENTEL);;
  let current_el := Z.shiftr el 2 in
  if negb (current_el =? 1) then kprintf (nl "[INFO] exceptions: skip VBAR_EL1 install at EL%u") [AUint (u32 current_el)]
  else
    on_gic (write_reg VBAR_EL1 exception_vector_table);;
    klog_info "exceptions: VBAR_EL1 installed".

Definition exceptions_self_test : M kern bool :=
  el <- on_gic (read_reg CURRENTEL);;
  if negb (Z.shiftr el 2 =? 1) then ret true
  else
    vbar <- on_gic (read_reg VBAR_EL1);;
    ret (vbar =? exception_vector_table).

Definition exception_handle_irq (frame : Z) : M kern Z :=
  iar <- on_gic gic_acknowledge_irq;;
  let irq_id := Z.land iar 0x3ff in
  if 1020 <=? irq_id then ret frame
  else if irq_id =? GIC_IRQ_TIMER_PHYSICAL_PPI then
    on_timer timer_handle_irq;;
    on_gic (gic_end_irq irq_id);;
    count <- on_timer timer_irq_count;;
    if count mod task_time_slice_ticks =? 0 then on_sched (task_schedule_from_exception frame true) else ret frame
  else if (48 <=? irq_id) && (irq_id <? 80) then
    on_virtio (virtio_handle_irq call_handler irq_id);;
    on_gic (gic_end_irq irq_id);;
    ret frame
  else
    kprintf (nl "[ERROR] unexpected IRQ: %u") [AUint irq_id];;
    on_gic (gic_end_irq irq_id);;
    panic "Unhandled IRQ".

Definition exception_handle (frame : Z) : M kern Z :=
  f <- get_frame frame;;
  if exception_is_irq_vector (vector_id f) then exception_handle_irq frame
  else
    let ec := Z.land (Z.shiftr (esr_el1 f) 26) 0x3f in
    let iss := Z.land (esr_el1 f) 0x01ffffff in
    let svc_imm := Z.land iss 0xffff in
    if (ec =? 0x15) && (svc_imm =? 0) then on_sched (task_schedule_from_exception frame true)
    else if (ec =? 0x15) && (svc_imm =? 1) then syscall_handle table_address arch_user_resume_el1 frame
    else exception_handle_default f;; ret frame.

(** *** System calls from the kernel

    [svc #1] with the number and the arguments in their registers: the entry
    code saves [f] at [frame]; the result is what the frame resumed has in x0. *)
Definition svc_registers (f : exception_trap_frame) (number arg0 arg1 arg2 arg3 arg4 arg5 : Z) : exception_trap_frame :=
  Frame ([arg0; arg1; arg2; arg3; arg4; arg5] ++ slice (x f) 6 2 ++ [number] ++ drop 9 (x f))
    (frame_sp f) (elr_el1 f) (spsr_el1 f) (Z.lor (Z.shiftl 0x15 26) (Z.lor (Z.shiftl 1 25) 1)) (far_el1 f) (frame_daif f) 4.
Definition syscall_invoke (f : exception_trap_frame) (frame number arg0 arg1 arg2 arg3 arg4 arg5 : Z) : M kern Z :=
  put_frame frame (svc_registers f number arg0 arg1 arg2 arg3 arg4 arg5);;
  resumed <- exception_handle frame;;
  f' <- get_frame resumed;;
  reg f' 0.
Definition syscall_write_console f frame (buffer length : Z) : M kern Z := syscall_invoke f frame SYS_WRITE_CONSOLE buffer length 0 0 0 0.
Definition syscall_get_ticks f frame : M kern Z := syscall_invoke f frame SYS_GET_TICKS 0 0 0 0 0 0.
Definition syscall_exit f frame (status0 : Z) : M kern Z := syscall_invoke f frame SYS_EXIT status0 0 0 0 0 0.

End handler.
