(* ===== verification/ContextSwitch.v ===== *)
(** Switching between tasks through exceptions: what is suspended comes back.
    The definitions are those of Task.v, Syscall.v and Exceptions.v; here are
    the invariant of the suspended contexts and its preservation. *)
From S2P Require Import Prelude LibString Klog Memory Input Task BlockDevice FileTable MMU UserProgram Virtqueue Graphics Console Bus VirtioMmio Syscall Exceptions.
From S2P Require Import ListDisk ConsoleDisplay UserRun.

(** ** The invariant of the suspended tasks *)

(** Addresses of frames that lie on the stack of a task. The kernel's own
    stack is outside of the heap, which starts at [lo]. *)
Definition on_stack (lo : Z) (s : sched) (r : task_ref) (a : Z) : Prop :=
  match r with
  | KernelTask => a + FRAME_SIZE <= lo \/ heap_limit (heap s) <= a
  | TableTask i => exists t, rd (task_table s) i = Some t /\ state t <> TASK_UNUSED /\ stack_base t <= a /\ a + FRAME_SIZE <= stack_base t + TASK_STACK_SIZE
  end.

(** Stacks in use are apart, inside the allocated part of the heap, and every
    ready task has the frame it goes on with on its own stack. *)
Record contexts_ok (lo : Z) (s : sched) (c : task_ref) : Prop := {
  co_ok : sched_ok s c;
  co_lo : lo <= heap_current (heap s);
  co_stack : forall i t, rd (task_table s) i = Some t -> state t <> TASK_UNUSED ->
    lo <= stack_base t /\ stack_base t + TASK_STACK_SIZE <= heap_current (heap s);
  co_apart : forall i j ti tj, i <> j -> rd (task_table s) i = Some ti -> rd (task_table s) j = Some tj ->
    state ti <> TASK_UNUSED -> state tj <> TASK_UNUSED ->
    stack_base ti + TASK_STACK_SIZE <= stack_base tj \/ stack_base tj + TASK_STACK_SIZE <= stack_base ti;
  co_saved : forall r t, valid_ref r -> task_at s r = Some t -> state t = TASK_READY ->
    on_stack lo s r (task_sp t) /\ is_Some (frames s !! task_sp t)
}.

(** Frames of different tasks do not overlap. *)
Lemma stacks_apart lo s c r1 r2 a b :
  contexts_ok lo s c -> on_stack lo s r1 a -> on_stack lo s r2 b -> r1 <> r2 -> a + FRAME_SIZE <= b \/ b + FRAME_SIZE <= a.
Proof.
  intros [[_ Hheap] Hlo Hst Hap _] H1 H2 Hne. destruct Hheap as [_ _ Hcl _]. unfold FRAME_SIZE, TASK_STACK_SIZE in *.
  destruct r1 as [|i], r2 as [|j]; simpl in *; [done| | |].
  - destruct H2 as (t & Ht & Hs & Hb1 & Hb2). destruct (Hst j t Ht Hs). unfold FRAME_SIZE, TASK_STACK_SIZE in *. lia.
  - destruct H1 as (t & Ht & Hs & Hb1 & Hb2). destruct (Hst i t Ht Hs). unfold FRAME_SIZE, TASK_STACK_SIZE in *. lia.
  - destruct H1 as (t & Ht & Hs & Hb1 & Hb2), H2 as (t' & Ht' & Hs' & Hb1' & Hb2').
    destruct (Hap i j t t') as [Ha|Ha]; [congruence|done..| |]; unfold FRAME_SIZE, TASK_STACK_SIZE in *; lia.
Qed.

(** ** What handling an exception does to the tasks *)

(** From [s], where [c] ran and was interrupted with the frame at [a], to [s'],
    where [c'] goes on with the frame at [a']. *)
Record moved (s : sched) (c : task_ref) (a : Z) (s' : sched) (c' : task_ref) (a' : Z) : Prop := {
  mv_wf : sched_wf s' c';
  mv_others : forall r t, valid_ref r -> r <> c -> task_at s r = Some t ->
    task_at s' r = Some (if decide (r = c') then set_state TASK_RUNNING t else t);
  mv_current : forall t, task_at s c = Some t -> exists t', task_at s' c = Some t' /\ stack_base t' = stack_base t /\
    state t' <> TASK_UNUSED /\ (state t' = TASK_READY -> task_sp t' = a);
  mv_frames : forall b, b <> a -> frames s' !! b = frames s !! b;
  mv_frame : is_Some (frames s' !! a);
  mv_switch : c' <> c -> frames s' !! a = frames s !! a;
  mv_heap : heap s' = heap s;
  mv_resumed : if decide (c' = c) then a' = a else exists t, task_at s c' = Some t /\ state t = TASK_READY /\ a' = task_sp t
}.

Lemma next_ready s c c' t : sched_wf s c -> next_task (task_table s) c c' -> c' <> c -> task_at s c' = Some t -> state t = TASK_READY.
Proof.
  intros Hwf Hn Hne Ht. destruct c' as [|j].
  - injection Ht as <-. rewrite (sw_kernel _ _ Hwf). by rewrite decide_False by congruence.
  - destruct Hn as (_ & (u & Hu & Hr) & _). cbn [task_at] in Ht. congruence.
Qed.

Lemma switched_moved s c c' a st s' t' :
  sched_wf s c -> switched s c c' a st s' -> st = TASK_READY \/ st = TASK_FINISHED -> (c' = c -> st = TASK_READY) ->
  is_Some (frames s !! a) -> task_at s' c' = Some t' -> moved s c a s' c' (task_sp t').
Proof.
  intros Hwf Hsw Hst Hcc Hf Ht'. pose proof Hsw as [Hwf' Hn Hall Hfr Hh]. pose proof (sw_valid _ _ Hwf) as Hv. pose proof (sw_valid _ _ Hwf') as Hv'.
  split; [done| | |by rewrite Hfr|by rewrite Hfr|by rewrite Hfr|done|].
  - intros r t Hr Hne Ht. rewrite (Hall r t Hr Ht). unfold stepped. rewrite !(decide_False (P := r = c)) by done. f_equal.
    destruct (decide (r = c')); [done|by destruct t].
  - intros t Ht. exists (stepped c c' a st c t). split; [by apply Hall|]. unfold stepped. rewrite !(decide_True (P := c = c)) by done.
    split; [by destruct t|]. destruct (decide (c = c')); simpl; (split; [|done]); [done|]. by destruct Hst as [-> | ->].
  - destruct (task_at_Some s c' (sw_len _ _ Hwf) Hv') as [t Ht]. pose proof (Hall c' t Hv' Ht) as Ht2. rewrite Ht2 in Ht'. injection Ht' as <-.
    unfold stepped. destruct (decide (c' = c)) as [He|Hne]; simpl; [done|]. exists t. split; [done|]. split; [by apply (next_ready s c c')|done].
Qed.

(** Storing into the frame at [a] only. *)
Lemma put_frame_moved s c a f : sched_wf s c -> moved s c a (set_frames (<[a := f]> (frames s)) s) c a.
Proof.
  intros Hwf. pose proof Hwf as [Hi Hl Hc Hv Hk Hr]. split.
  - by split.
  - intros r t _ Hne Ht. rewrite decide_False by done. by destruct r.
  - intros t Ht. exists t. pose proof (running_not_ready s c t Hwf Ht) as Hst. repeat split; [by destruct c|congruence|congruence].
  - intros b Hb. cbn. by rewrite lookup_insert_ne.
  - cbn. rewrite lookup_insert_eq. by eexists.
  - done.
  - done.
  - by rewrite decide_True.
Qed.

Lemma same_moved s c a : sched_wf s c -> is_Some (frames s !! a) -> moved s c a s c a.
Proof.
  intros Hwf [f Hf]. replace s with (set_frames (<[a := f]> (frames s)) s) at 2; [by apply put_frame_moved|].
  rewrite insert_id by done. by destruct s.
Qed.

(** The invariant goes along: what [c] leaves on its stack is its own. *)
Lemma moved_contexts lo s c a s' c' a' : contexts_ok lo s c -> on_stack lo s c a -> moved s c a s' c' a' -> contexts_ok lo s' c'.
Proof.
  intros Hco Ha Hmv. pose proof Hco as [[Hwf Hheap] Hlo Hst Hap Hsv]. pose proof Hmv as [Hwf' Hoth Hcur Hfr Hfa _ Hh _].
  assert (Hl : lenZ (task_table s) = 8) by apply Hwf. assert (Hl' : lenZ (task_table s') = 8) by apply Hwf'.
  assert (Hback : forall r t', valid_ref r -> task_at s' r = Some t' -> exists t, task_at s r = Some t /\ stack_base t' = stack_base t /\ (state t' <> TASK_UNUSED <-> state t <> TASK_UNUSED) /\
    (r <> c -> task_sp t' = task_sp t /\ (state t' = TASK_READY -> state t = TASK_READY))).
  { intros r t' Hr Ht'. destruct (task_at_Some s r Hl Hr) as [t Ht]. exists t. split; [done|]. destruct (decide (r = c)) as [->|Hne].
    - destruct (Hcur t Ht) as (u & Hu & Hb & Hs & _). rewrite Hu in Ht'. injection Ht' as <-. pose proof (running_not_ready s c t Hwf Ht). split; [done|]. split; [|done]. split; [congruence|done].
    - pose proof (Hoth r t Hr Hne Ht) as Hu. rewrite Hu in Ht'. injection Ht' as <-. destruct (decide (r = c')) as [->|]; [|done].
      assert (state t = TASK_READY). { pose proof (mv_resumed _ _ _ _ _ _ Hmv) as Hres. rewrite decide_False in Hres by done. destruct Hres as (v & Hv & Hs & _). congruence. }
      split; [done|]. split; [split; [congruence|done]|]. intros _. split; [done|]. done. }
  assert (Hvalid : forall i t, rd (task_table s') i = Some t -> valid_ref (TableTask i)) by (intros i t Ht; pose proof (rd_inv _ _ _ Ht); simpl; lia).
  assert (Hon : forall r b, valid_ref r -> on_stack lo s r b -> on_stack lo s' r b).
  { intros [|i] b Hr; simpl; [by rewrite Hh|]. intros (t & Ht & Hs & Hb). destruct (task_at_Some s' (TableTask i) Hl' Hr) as [t' Ht'].
    destruct (Hback _ t' Hr Ht') as (t0 & Ht0 & Hb0 & Hs0 & _). cbn [task_at] in *. replace t0 with t in * by congruence. exists t'. split; [done|]. split; [by apply Hs0|]. by rewrite Hb0. }
  split; [split; [done|by rewrite Hh]|by rewrite Hh| | |].
  - intros i t' Ht' Hs. destruct (Hback (TableTask i) t' (Hvalid i t' Ht') Ht') as (t & Ht & -> & Hs' & _). rewrite Hh. apply (Hst i t Ht). by apply Hs'.
  - intros i j ti' tj' Hij Hi Hj Hsi Hsj. destruct (Hback _ ti' (Hvalid i _ Hi) Hi) as (ti & Hti & -> & Hsi' & _), (Hback _ tj' (Hvalid j _ Hj) Hj) as (tj & Htj & -> & Hsj' & _).
    apply (Hap i j ti tj Hij Hti Htj); [by apply Hsi'|by apply Hsj'].
  - intros r t' Hr Ht' Hs. destruct (decide (r = c)) as [->|Hne].
    + destruct (task_at_Some s c Hl Hr) as [t Ht]. destruct (Hcur t Ht) as (u & Hu & _ & _ & Hsp). rewrite Hu in Ht'. injection Ht' as <-. rewrite (Hsp Hs). split; [by apply Hon|done].
    + destruct (Hback r t' Hr Ht') as (t & Ht & _ & _ & Hrest). destruct (Hrest Hne) as [-> Hs']. destruct (Hsv r t Hr Ht (Hs' Hs)) as [Hstk Hfs]. split; [by apply Hon|].
      rewrite Hfr; [done|]. intros He. rewrite He in Hstk. pose proof (stacks_apart lo s c r c a a Hco Hstk Ha Hne). unfold FRAME_SIZE in *. lia.
Qed.

Lemma schedule_moved s c a a' s' o :
  sched_wf s c -> is_Some (frames s !! a) -> task_schedule_from_exception a true s = Ret a' s' o -> exists c', moved s c a s' c' a'.
Proof.
  intros Hwf Hf He. destruct (schedule_ok s c a Hwf) as (c' & s1 & t' & Hsw & Ht' & He1). rewrite He1 in He. injection He as <- <- _.
  exists c'. apply (switched_moved s c c' a TASK_READY); [done|done|by left|done|done|done].
Qed.

(** The kernel's own task does not exit: its caller goes on with the status. *)
Lemma kernel_exit_run s a f x' status :
  sched_wf s KernelTask -> frames s !! a = Some f -> wr (x f) 0 status = Some x' ->
  task_exit_from_exception a status s = Ret a (set_frames (<[a := set_x x' f]> (frames s)) (set_kernel_task (set_task_sp a (kernel_task s)) s)) [].
Proof.
  intros Hwf Hf Hx. unfold task_exit_from_exception.
  rewrite (bind_Ret_nil _ _ _ _ _ (task_init_run s _ Hwf)), (bind_Ret_nil _ _ _ _ _ (the_current_task_run s _ (sw_current _ _ Hwf))).
  rewrite (bind_Ret_nil _ _ _ _ _ (update_task_run s KernelTask _ _ eq_refl)). rewrite decide_True by done. krun. cbn [frames put_task set_kernel_task].
  by rewrite (bind_deref_Some _ _ _ _ Hf), (bind_deref_Some _ _ _ _ Hx).
Qed.

Lemma exit_moved s c a status a' s' o :
  sched_wf s c -> is_Some (frames s !! a) -> task_exit_from_exception a status s = Ret a' s' o -> exists c', moved s c a s' c' a'.
Proof.
  intros Hwf [f Hf] He. destruct (decide (c = KernelTask)) as [->|Hk].
  - exists KernelTask. destruct (wr (x f) 0 status) as [x'|] eqn:Hx.
    + rewrite (kernel_exit_run s a f x' status Hwf Hf Hx) in He. injection He as <- <- _. pose proof (running_not_ready s KernelTask _ Hwf eq_refl) as Hst.
      pose proof Hwf as [Hi Hl Hc Hv Hker Hr]. split; [by split| | |by intros b Hb; cbn; rewrite lookup_insert_ne| |done|done|by rewrite decide_True].
      * intros r t _ Hne Ht. rewrite decide_False by done. by destruct r.
      * intros t [= <-]. eexists. split; [reflexivity|]. cbn. repeat split; congruence.
      * cbn. rewrite lookup_insert_eq. by eexists.
    + exfalso. revert He. unfold task_exit_from_exception.
      rewrite (bind_Ret_nil _ _ _ _ _ (task_init_run s _ Hwf)), (bind_Ret_nil _ _ _ _ _ (the_current_task_run s _ (sw_current _ _ Hwf))).
      rewrite (bind_Ret_nil _ _ _ _ _ (update_task_run s KernelTask _ _ eq_refl)). rewrite decide_True by done. krun. cbn [frames put_task set_kernel_task].
      rewrite (bind_deref_Some _ _ _ _ Hf). by rewrite Hx.
  - destruct (exit_ok s c a status Hwf Hk) as (c' & s1 & t' & Hsw & Ht' & Hne & He1). rewrite He1 in He. injection He as <- <- _.
    exists c'. apply (switched_moved s c c' a TASK_FINISHED); [done|done|by right|done|by eexists|done].
Qed.

(** ** The handler *)

Section handler.
Context {X D H W G C K : Type} `{Hardware D} `{DisplayDriver G} `{OutputCapture C}.
Context (table_address : table -> Z) (arch_user_resume_el1 : Z) (call_handler : H -> Z -> Z -> M (virtio H D W) unit).
Abbreviation kern := (kernel X D H W G C K).
Implicit Types k : kern.

(** Operations that leave the tasks and the frames alone. *)
Definition quiet {A} (m : M kern A) : Prop := forall k v k' o, m k = Ret v k' o -> k_sched k' = k_sched k.
(** Operations that end the handling of the exception with the frame at [a]. *)
Definition moves (a : Z) (m : M kern Z) : Prop := forall k c a' k' o,
  sched_wf (k_sched k) c -> is_Some (frames (k_sched k) !! a) -> m k = Ret a' k' o -> exists c', moved (k_sched k) c a (k_sched k') c' a'.

Lemma quiet_ret {A} (v : A) : quiet (ret v).
Proof. by intros k w k' o [= <- <- <-]. Qed.
Lemma quiet_gets {A} (g : kern -> A) : quiet (gets g).
Proof. by intros k w k' o [= <- <- <-]. Qed.
Lemma quiet_emit bytes : quiet (emit bytes).
Proof. by intros k w k' o [= <- <- <-]. Qed.
Lemma quiet_deref {A} (v : option A) : quiet (deref v).
Proof. destruct v; intros k w k' o; [by intros [= <- <- <-]|done]. Qed.
Lemma quiet_panic {A} msg : quiet (panic (A := A) msg).
Proof. done. Qed.
Lemma quiet_bind {A B} (m : M kern A) (j : A -> M kern B) : quiet m -> (forall v, quiet (j v)) -> quiet (bind m j).
Proof. intros Hm Hj k w k' o He. apply bind_inv_Ret in He as (v & k1 & o1 & o2 & Ha & Hb & _). rewrite (Hj v k1 _ _ _ Hb). by apply (Hm _ _ _ _ Ha). Qed.
Lemma quiet_if {A} (b : bool) (m m' : M kern A) : quiet m -> quiet m' -> quiet (if b then m else m').
Proof. by destruct b. Qed.
Lemma quiet_zoom {T A} (get : kern -> T) put (m : M T A) : (forall t k, k_sched (put t k) = k_sched k) -> quiet (zoom get put m).
Proof. intros Hp k w k' o. unfold zoom. destruct (m (get k)); [|done..]. intros [= _ <- _]. apply Hp. Qed.
Lemma quiet_on_timer {A} (m : M (timer D) A) : quiet (on_timer m).
Proof. by apply quiet_zoom. Qed.
Lemma quiet_on_gic {A} (m : M D A) : quiet (on_gic m).
Proof. by apply quiet_on_timer. Qed.
Lemma quiet_on_virtio {A} (m : M (virtio H D W) A) : quiet (on_virtio m).
Proof. by apply quiet_zoom. Qed.
Lemma quiet_on_console {A} (m : M (console G C K) A) : quiet (on_console m).
Proof. by apply quiet_zoom. Qed.
Lemma quiet_on_user {A} (m : M (machine X) A) : quiet (on_user m).
Proof. by apply quiet_zoom. Qed.
Lemma quiet_get_frame a : quiet (get_frame a).
Proof. apply quiet_bind; [apply quiet_gets|]. intros v. apply quiet_deref. Qed.
Lemma quiet_reg f i : quiet (reg f i).
Proof. apply quiet_deref. Qed.
Lemma quiet_kprintf s l : quiet (kprintf s l).
Proof. apply quiet_bind; [apply quiet_deref|]. intros v. apply quiet_emit. Qed.

Lemma moves_bind {A} a (m : M kern A) j : quiet m -> (forall v, moves a (j v)) -> moves a (bind m j).
Proof.
  intros Hm Hj k c a' k' o Hwf Hf He. apply bind_inv_Ret in He as (v & k1 & o1 & o2 & Ha & Hb & _). pose proof (Hm _ _ _ _ Ha) as Hs.
  rewrite <- Hs in Hwf, Hf |- *. by apply (Hj v k1 c a' k' o2).
Qed.
Lemma moves_if a (b : bool) m m' : moves a m -> moves a m' -> moves a (if b then m else m').
Proof. by destruct b. Qed.
Lemma moves_ret a : moves a (ret a).
Proof. intros k c a' k' o Hwf Hf [= <- <- _]. exists c. by apply same_moved. Qed.
Lemma moves_panic a msg : moves a (panic msg).
Proof. done. Qed.
Lemma moves_put_frame a f : moves a (put_frame a f;; ret a).
Proof. intros k c a' k' o Hwf Hf [= <- <- _]. exists c. by apply put_frame_moved. Qed.
Lemma moves_set_x0 a v : moves a (set_x0 a v;; ret a).
Proof.
  intros k c a' k' o. unfold set_x0. rewrite bind_assoc. apply (moves_bind a (get_frame a)); [apply quiet_get_frame|]. clear. intros f k c a' k' o.
  rewrite bind_assoc. apply (moves_bind a (deref _)); [apply quiet_deref|]. intros x'. apply moves_put_frame.
Qed.
Lemma moves_on_sched a (m : M sched Z) :
  (forall s c a' s' o, sched_wf s c -> is_Some (frames s !! a) -> m s = Ret a' s' o -> exists c', moved s c a s' c' a') -> moves a (on_sched m).
Proof. intros Hm k c a' k' o Hwf Hf. unfold on_sched, zoom. destruct (m (k_sched k)) as [v t o'|msg t o'|] eqn:He; [|done..]. intros [= <- <- _]. by apply (Hm (k_sched k) c v t o'). Qed.
Lemma moves_schedule a : moves a (on_sched (task_schedule_from_exception a true)).
Proof. apply moves_on_sched. intros s c a' s' o. apply schedule_moved. Qed.
Lemma moves_exit a status : moves a (on_sched (task_exit_from_exception a status)).
Proof. apply moves_on_sched. intros s c a' s' o. apply exit_moved. Qed.

Ltac quiet := repeat first
  [ simple apply moves_ret | simple apply moves_panic | simple apply moves_put_frame | simple apply moves_set_x0 | simple apply moves_schedule | simple apply moves_exit
  | simple apply quiet_ret | simple apply quiet_gets | simple apply quiet_emit | simple apply quiet_deref | simple apply quiet_panic | simple apply quiet_on_timer | simple apply quiet_on_gic
  | simple apply quiet_on_virtio | simple apply quiet_on_console | simple apply quiet_on_user | simple apply quiet_get_frame | simple apply quiet_reg | simple apply quiet_kprintf
  | simple apply moves_if | simple apply quiet_if | simple apply moves_bind | simple apply quiet_bind | intros ? ].

Lemma syscall_handle_moves a : moves a (syscall_handle table_address arch_user_resume_el1 a).
Proof. unfold syscall_handle. quiet. Qed.
Lemma exception_handle_irq_moves a : moves a (exception_handle_irq call_handler a).
Proof. unfold exception_handle_irq. quiet. Qed.
Lemma exception_handle_default_quiet f : quiet (exception_handle_default f).
Proof. unfold exception_handle_default, exception_print_esr_details, exception_print_abort_details, print_reg. quiet. Qed.
Lemma exception_handle_moves a : moves a (exception_handle table_address arch_user_resume_el1 call_handler a).
Proof.
  unfold exception_handle. apply moves_bind; [apply quiet_get_frame|]. intros f.
  repeat apply moves_if; [apply exception_handle_irq_moves|apply moves_schedule|apply syscall_handle_moves|].
  apply moves_bind; [apply exception_handle_default_quiet|]. intros _. apply moves_ret.
Qed.

End handler.

(** ** Creating a task *)

Section create.
Context (plat : platform) (task_trampoline : Z).

(** Creation leaves the bounds of the heap. *)
Definition heap_bounds (s : sched) : Z * Z := (heap_start (heap s), heap_limit (heap s)).
Definition bounded {A} (m : M sched A) : Prop := forall s v s' o, 0 < heap_start (heap s) -> m s = Ret v s' o -> heap_bounds s' = heap_bounds s.

Lemma bounded_bind {A B} (m : M sched A) (j : A -> M sched B) : bounded m -> (forall v, bounded (j v)) -> bounded (bind m j).
Proof.
  intros Hm Hj s w s' o Hs He. apply bind_inv_Ret in He as (v & s1 & o1 & o2 & Ha & Hb & _). pose proof (Hm _ _ _ _ Hs Ha) as Hb1.
  rewrite <- Hb1. apply (Hj v s1 w s' o2); [|done]. by injection Hb1 as -> _.
Qed.
Lemma bounded_ret {A} (v : A) : bounded (ret v).
Proof. by intros s w s' o _ [= <- <- <-]. Qed.
Lemma bounded_gets {A} (g : sched -> A) : bounded (gets g).
Proof. by intros s w s' o _ [= <- <- <-]. Qed.
Lemma bounded_deref {A} (v : option A) : bounded (deref v).
Proof. destruct v; intros s w s' o _; [by intros [= <- <- <-]|done]. Qed.
Lemma bounded_modify (g : sched -> sched) : (forall s, heap (g s) = heap s) -> bounded (modify g).
Proof. intros Hg s w s' o _ [= <- <- <-]. unfold heap_bounds. by rewrite Hg. Qed.
Lemma bounded_update_task r g : bounded (update_task r g).
Proof.
  destruct r as [|i]; [by apply bounded_modify|]. apply bounded_bind; [apply bounded_gets|]. intros table.
  apply bounded_bind; [apply bounded_deref|]. intros t. apply bounded_bind; [apply bounded_deref|]. intros t'. by apply bounded_modify.
Qed.
Lemma bounded_get_task r : bounded (get_task r).
Proof. destruct r; [apply bounded_gets|]. apply bounded_bind; [apply bounded_gets|]. intros v. apply bounded_deref. Qed.
Lemma bounded_task_init : bounded task_init.
Proof. unfold task_init. apply bounded_bind; [apply bounded_gets|]. intros [|]; [apply bounded_ret|]. repeat (apply bounded_bind; [by apply bounded_modify|intros _]). by apply bounded_modify. Qed.
Lemma bounded_kmalloc size : bounded (zoom heap set_heap (kmalloc plat size)).
Proof.
  intros s v s' o Hs. unfold zoom, kmalloc, kmalloc_init, bind, gets, modify, ret. rewrite (proj2 (Z.eqb_neq (heap_start (heap s)) 0)) by lia. cbn.
  destruct (_ || _); by intros [= _ <- _].
Qed.
Lemma bounded_create daif nm code code_arg : bounded (task_create plat task_trampoline daif nm code code_arg).
Proof.
  unfold task_create, task_prepare_stack. apply bounded_bind; [apply bounded_task_init|]. intros _. apply bounded_bind; [apply bounded_gets|]. intros table.
  apply bounded_bind; [apply bounded_deref|]. intros [i|]; [|apply bounded_ret]. apply bounded_bind; [apply bounded_kmalloc|]. intros base.
  apply bounded_bind; [apply bounded_update_task|]. intros _. destruct (base =? 0); [apply bounded_ret|]. apply bounded_bind; [apply bounded_update_task|]. intros _.
  apply bounded_bind; [|intros _; apply bounded_ret]. apply bounded_bind; [apply bounded_get_task|]. intros t.
  apply bounded_bind; [by apply bounded_modify|]. intros _. apply bounded_update_task.
Qed.

Lemma contexts_create lo s c daif nm code code_arg r s' o :
  contexts_ok lo s c -> task_create plat task_trampoline daif nm code code_arg s = Ret r s' o ->
  contexts_ok lo s' c /\ forall q t, valid_ref q -> task_at s q = Some t -> state t = TASK_READY ->
    exists t', task_at s' q = Some t' /\ state t' = TASK_READY /\ task_sp t' = task_sp t /\ frames s' !! task_sp t = frames s !! task_sp t.
Proof.
  intros Hco He. pose proof Hco as [[Hwf Hheap] Hlo Hst Hap Hsv].
  assert (Hlim : heap_limit (heap s') = heap_limit (heap s)) by (pose proof (bounded_create _ _ _ _ s r s' o (hw_start _ Hheap) He) as Hb; by injection Hb).
  destruct (task_create_ok plat task_trampoline s c daif nm code code_arg Hwf Hheap) as (r1 & s1 & He1 & Hwf1 & Hheap1 & Hres).
  rewrite He1 in He. injection He as -> -> _. assert (Hl : lenZ (task_table s) = 8) by apply Hwf. assert (Hl1 : lenZ (task_table s') = 8) by apply Hwf1.
  assert (Hvalid : forall i t, rd (task_table s') i = Some t -> valid_ref (TableTask i)) by (intros i t Ht; pose proof (rd_inv _ _ _ Ht); simpl; lia).
  destruct r as [t0|].
  - destruct Hres as (i0 & base & -> & Hi0 & (u0 & Hu0 & Hs0) & _ & -> & _ & _ & Hcur & Hall & Hfr). set (base := heap_current (heap s)) in *. unfold TASK_STACK_SIZE, FRAME_SIZE in *.
    assert (Hback : forall i t', rd (task_table s') i = Some t' -> if decide (i = i0) then t' = created_task nm code code_arg base else rd (task_table s) i = Some t').
    { intros i t' Ht'. pose proof (Hall (TableTask i) (Hvalid i t' Ht')) as Hi. cbn [task_at] in Hi. rewrite Ht' in Hi. destruct (decide (i = i0)) as [->|Hne].
      - rewrite decide_True in Hi by done. by injection Hi.
      - by rewrite decide_False in Hi by congruence. }
    assert (Hon : forall q b, valid_ref q -> on_stack lo s q b -> on_stack lo s' q b).
    { intros [|i] b Hq; simpl; [by rewrite Hlim|]. intros (t & Ht & Hs & Hb). exists t. pose proof (Hall (TableTask i) Hq) as Hi. cbn [task_at] in Hi.
      rewrite decide_False in Hi; [|intros [= ->]; congruence]. by rewrite Hi. }
    assert (Hkeep : forall q t, valid_ref q -> task_at s q = Some t -> state t = TASK_READY -> task_at s' q = Some t /\ frames s' !! task_sp t = frames s !! task_sp t).
    { intros q t Hq Ht Hr. rewrite (Hall q Hq). rewrite decide_False by (intros ->; cbn [task_at] in Ht; congruence). split; [done|]. rewrite Hfr, lookup_insert_ne; [done|]. intros He.
      destruct (Hsv q t Hq Ht Hr) as [Hstk _]. destruct q as [|i]; simpl in Hstk; unfold FRAME_SIZE, TASK_STACK_SIZE in *; [destruct Hheap; lia|].
      destruct Hstk as (t2 & Ht2 & Hs2 & Hb2 & Hb3). destruct (Hst i t2 Ht2 Hs2). lia. }
    split; [split; [by split|fold base in Hlo; lia| | |]|].
    + intros i t' Ht' Hs. pose proof (Hback i t' Ht') as Hi. destruct (decide (i = i0)); [subst t'; cbn; unfold TASK_STACK_SIZE; fold base in Hlo; lia|].
      destruct (Hst i t' Hi Hs). fold base in Hlo. unfold TASK_STACK_SIZE in *. lia.
    + intros i j ti tj Hij Hi Hj Hsi Hsj. pose proof (Hback i ti Hi) as Hbi. pose proof (Hback j tj Hj) as Hbj. unfold TASK_STACK_SIZE in *.
      destruct (decide (i = i0)) as [->|], (decide (j = i0)) as [->|]; [done| | |by apply (Hap i j)].
      * subst ti. destruct (Hst j tj Hbj Hsj). cbn. fold base. lia.
      * subst tj. destruct (Hst i ti Hbi Hsi). cbn. fold base. lia.
    + intros q t' Hq Ht' Hs. rewrite (Hall q Hq) in Ht'. destruct (decide (q = TableTask i0)) as [->|Hne].
      * injection Ht' as <-. cbn [created_task task_sp]. unfold TASK_STACK_SIZE, FRAME_SIZE. split; [|rewrite Hfr, lookup_insert_eq; by eexists].
        exists (created_task nm code code_arg base). pose proof (Hall (TableTask i0) Hi0) as Hi. rewrite decide_True in Hi by done. split; [exact Hi|]. cbn. unfold FRAME_SIZE, TASK_STACK_SIZE. split; [done|lia].
      * destruct (Hkeep q t' Hq Ht' Hs) as [_ Hf]. destruct (Hsv q t' Hq Ht' Hs) as [Hstk Hsome]. split; [by apply Hon|]. by rewrite Hf.
    + intros q t Hq Ht Hr. destruct (Hkeep q t Hq Ht Hr). by exists t.
  - destruct Hres as (Hfr & Hh & Hall & _).
    assert (Hback : forall q t', valid_ref q -> task_at s' q = Some t' -> state t' <> TASK_UNUSED -> task_at s q = Some t').
    { intros q t' Hq Ht' Hs. destruct (task_at_Some s q Hl Hq) as [t Ht]. destruct (Hall q t Hq Ht) as (t2 & Ht2 & Hs2 & _ & Heq). rewrite Heq in Ht2 by congruence. congruence. }
    assert (Hkeep : forall q t, valid_ref q -> task_at s q = Some t -> state t <> TASK_UNUSED -> task_at s' q = Some t).
    { intros q t Hq Ht Hs. destruct (Hall q t Hq Ht) as (t2 & Ht2 & _ & _ & Heq). by rewrite Heq in Ht2. }
    split; [split; [by split|by rewrite Hh| | |]|].
    + intros i t' Ht' Hs. rewrite Hh. apply (Hst i t'); [|done]. by apply (Hback (TableTask i) t' (Hvalid i t' Ht') Ht').
    + intros i j ti tj Hij Hi Hj Hsi Hsj. apply (Hap i j); [done| | |done..]; [by apply (Hback (TableTask i) ti (Hvalid i ti Hi))|by apply (Hback (TableTask j) tj (Hvalid j tj Hj))].
    + intros q t' Hq Ht' Hs. assert (Ht : task_at s q = Some t') by (apply Hback; [done..|congruence]). destruct (Hsv q t' Hq Ht Hs) as [Hstk Hsome]. rewrite Hfr. split; [|done].
      destruct q as [|i]; simpl in *; [by rewrite Hh|]. destruct Hstk as (u & Hu & Hsu & Hb). exists u. split; [by apply (Hkeep (TableTask i) u Hq)|done].
    + intros q t Hq Ht Hr. exists t. rewrite Hfr. split; [apply Hkeep; [done..|congruence]|done].
Qed.
End create.

(** ** Runs of the kernel *)

Section runs.
Context {X D H W G C K : Type} `{Hardware D} `{DisplayDriver G} `{OutputCapture C}.
Context (plat : platform) (task_trampoline : Z) (table_address : table -> Z) (arch_user_resume_el1 : Z) (call_handler : H -> Z -> Z -> M (virtio H D W) unit).
Abbreviation kern := (kernel X D H W G C K).
Implicit Types k : kern.

(** The entry code saved the registers [f] at [a], on the stack of the current
    task [c]; the handler, or a task's return, ends with the frame at [a']. *)
Inductive interrupted (lo : Z) (c : task_ref) (a : Z) (f : exception_trap_frame) k (a' : Z) k' : Prop :=
| by_exception o :
    current_task (k_sched k) = Some c -> on_stack lo (k_sched k) c a ->
    (put_frame a f;; exception_handle table_address arch_user_resume_el1 call_handler a) k = Ret a' k' o -> interrupted lo c a f k a' k'
| by_return o :
    current_task (k_sched k) = Some c -> c <> KernelTask -> on_stack lo (k_sched k) c a ->
    (put_frame a f;; on_sched (task_trampoline_end a)) k = Ret a' k' o -> interrupted lo c a f k a' k'.

(** What the kernel does between two exceptions: it creates tasks, allocates,
    and works on everything but the tasks. *)
Inductive works k k' : Prop :=
| works_create daif nm code code_arg r o : on_sched (task_create plat task_trampoline daif nm code code_arg) k = Ret r k' o -> works k k'
| works_alloc size r o : small_size size -> on_sched (zoom heap set_heap (kmalloc plat size)) k = Ret r k' o -> works k k'
| works_elsewhere : k_sched k' = k_sched k -> works k k'.

Definition kernel_step (lo : Z) k k' : Prop := works k k' \/ exists c a f a', interrupted lo c a f k a' k'.

Lemma on_sched_inv {A} (m : M sched A) k v k' o : on_sched m k = Ret v k' o -> m (k_sched k) = Ret v (k_sched k') o.
Proof. unfold on_sched, zoom. destruct (m (k_sched k)); [|done..]. by intros [= <- <- <-]. Qed.

Lemma put_frame_inv {A} a f (m : M kern A) k v k' o : (put_frame a f;; m) k = Ret v k' o ->
  m (set_k_sched (set_frames (<[a := f]> (frames (k_sched k))) (k_sched k)) k) = Ret v k' o.
Proof. unfold put_frame, on_sched, zoom, bind, modify. destruct (m _); [|done..]. by intros [= <- <- <-]. Qed.

Lemma interrupted_moved lo c a f k a' k' :
  contexts_ok lo (k_sched k) c -> interrupted lo c a f k a' k' ->
  exists c', moved (set_frames (<[a := f]> (frames (k_sched k))) (k_sched k)) c a (k_sched k') c' a'.
Proof.
  intros Hco Hi. pose proof Hco as [[Hwf _] _ _ _ _]. pose proof (put_frame_moved (k_sched k) c a f Hwf) as Hput. set (s1 := set_frames _ _) in *.
  pose proof (mv_wf _ _ _ _ _ _ Hput) as Hwf1. pose proof (mv_frame _ _ _ _ _ _ Hput) as Hf1. destruct Hi as [o Hc Ha He|o Hc Hk Ha He]; apply put_frame_inv in He; fold s1 in He.
  - apply (exception_handle_moves table_address arch_user_resume_el1 call_handler a (set_k_sched s1 k) c a' k' o Hwf1 Hf1 He).
  - apply on_sched_inv in He. destruct (trampoline_end_ok s1 c a Hwf1 Hk) as (c' & s2 & t' & Hsw & Ht' & Hne & He1). cbn [k_sched set_k_sched] in He. rewrite He1 in He. injection He as <- <- _.
    exists c'. apply (switched_moved s1 c c' a TASK_FINISHED); [done|done|by right|done|done|done].
Qed.

Lemma interrupted_on_stack lo c a f k a' k' : interrupted lo c a f k a' k' -> on_stack lo (k_sched k) c a.
Proof. by intros [o _ Ha _|o _ _ Ha _]. Qed.

Lemma interrupted_contexts lo c a f k a' k' : contexts_ok lo (k_sched k) c -> interrupted lo c a f k a' k' -> exists c', contexts_ok lo (k_sched k') c'.
Proof.
  intros Hco Hi. destruct (interrupted_moved lo c a f k a' k' Hco Hi) as [c' Hmv]. exists c'. pose proof (interrupted_on_stack _ _ _ _ _ _ _ Hi) as Ha.
  pose proof Hco as [[Hwf _] _ _ _ _]. pose proof (moved_contexts lo _ c a _ c a Hco Ha (put_frame_moved (k_sched k) c a f Hwf)) as Hco1.
  by apply (moved_contexts lo _ c a _ c' a' Hco1).
Qed.

Lemma alloc_contexts lo s c size r h' o : contexts_ok lo s c -> small_size size -> kmalloc plat size (heap s) = Ret r h' o -> contexts_ok lo (set_heap h' s) c.
Proof.
  intros Hco Hsize He. pose proof Hco as [[Hwf Hheap] Hlo Hst Hap Hsv]. destruct (kmalloc_cases plat (heap s) size Hheap Hsize) as (r1 & h1 & He1 & Hh1 & Hcase).
  rewrite He1 in He. injection He as <- <- _.
  assert (Hlim : heap_limit h1 = heap_limit (heap s)).
  { assert (Hz : zoom heap set_heap (kmalloc plat size) s = Ret r1 (set_heap h1 s) []) by (unfold zoom; by rewrite He1).
    pose proof (bounded_kmalloc plat size s _ _ _ (hw_start _ Hheap) Hz) as Hb. by injection Hb. }
  assert (Hcur : heap_current (heap s) <= heap_current h1).
  { unfold small_size in Hsize. destruct (_ <? _); [by destruct Hcase as [_ ->]|]. lia. }
  split; [split; [by destruct Hwf; split|done]|cbn; lia| |done|].
  - intros i t Ht Hs. destruct (Hst i t Ht Hs). cbn. lia.
  - intros q t Hq Ht Hs. replace (task_at (set_heap h1 s) q) with (task_at s q) in Ht by (by destruct q). destruct (Hsv q t Hq Ht Hs) as [Hstk Hf].
    split; [|done]. destruct q as [|i]; simpl in *; [by rewrite Hlim|done].
Qed.

(** Working leaves what is suspended. *)
Lemma works_keep lo c k k' : contexts_ok lo (k_sched k) c -> works k k' ->
  contexts_ok lo (k_sched k') c /\ forall q t, valid_ref q -> task_at (k_sched k) q = Some t -> state t = TASK_READY ->
    exists t', task_at (k_sched k') q = Some t' /\ state t' = TASK_READY /\ task_sp t' = task_sp t /\ frames (k_sched k') !! task_sp t = frames (k_sched k) !! task_sp t.
Proof.
  intros Hco [daif nm code code_arg r o He|size r o Hsize He|He].
  - apply on_sched_inv in He. by apply (contexts_create plat task_trampoline lo _ c daif nm code code_arg r _ o).
  - apply on_sched_inv in He. unfold zoom in He. destruct (kmalloc plat size (heap (k_sched k))) as [r1 h1 o1|msg h1 o1|] eqn:Hk; [|done..]. injection He as _ <- _.
    split; [by apply (alloc_contexts lo _ c size r1 h1 o1)|]. intros q t Hq Ht Hs. exists t. split; [by destruct q|done].
  - rewrite He. split; [done|]. intros q t Hq Ht Hs. by exists t.
Qed.

(** An exception that another task took leaves what is suspended, until the
    task goes on. *)
Lemma interrupted_keep lo c a f k a' k' q t : contexts_ok lo (k_sched k) c -> interrupted lo c a f k a' k' -> valid_ref q -> q <> c ->
  task_at (k_sched k) q = Some t -> state t = TASK_READY ->
  frames (k_sched k') !! task_sp t = frames (k_sched k) !! task_sp t /\
  if decide (current_task (k_sched k') = Some q) then a' = task_sp t else task_at (k_sched k') q = Some t.
Proof.
  intros Hco Hi Hq Hne Ht Hs. destruct (interrupted_moved lo c a f k a' k' Hco Hi) as [c' Hmv]. set (s1 := set_frames _ _) in *.
  pose proof (interrupted_on_stack _ _ _ _ _ _ _ Hi) as Ha. destruct (co_saved _ _ _ Hco q t Hq Ht Hs) as [Hstk _].
  assert (Hta : task_sp t <> a). { intros He. rewrite He in Hstk. pose proof (stacks_apart lo _ c q c a a Hco Hstk Ha Hne). unfold FRAME_SIZE in *. lia. }
  assert (Ht1 : task_at s1 q = Some t) by (by destruct q). split.
  - rewrite (mv_frames _ _ _ _ _ _ Hmv) by done. unfold s1. cbn. by rewrite lookup_insert_ne.
  - rewrite (sw_current _ _ (mv_wf _ _ _ _ _ _ Hmv)). destruct (decide (Some c' = Some q)) as [[= ->]|Hn].
    + pose proof (mv_resumed _ _ _ _ _ _ Hmv) as Hres. rewrite decide_False in Hres by done. destruct Hres as (t2 & Ht2 & _ & ->). congruence.
    + rewrite (mv_others _ _ _ _ _ _ Hmv q t Hq Hne Ht1). rewrite decide_False by congruence. done.
Qed.

(** The state after [task_init] at boot. *)
Definition kernel_boot (lo : Z) k : Prop := exists s0, sched_boot s0 /\ lo = heap_current (heap s0) /\ task_init s0 = Ret tt (k_sched k) [].

Lemma boot_contexts lo k : kernel_boot lo k -> contexts_ok lo (k_sched k) KernelTask.
Proof.
  intros (s0 & Hb & -> & Hinit). destruct (boot_sched_ok s0 Hb) as (s1 & Hinit1 & Hok). rewrite Hinit1 in Hinit. injection Hinit as <-.
  assert (Hs1 : heap s1 = heap s0 /\ forall i t, rd (task_table s1) i = Some t -> state t = TASK_UNUSED).
  { destruct Hb as [Hi _]. unfold task_init, bind, gets, modify in Hinit1. rewrite Hi in Hinit1. injection Hinit1 as <-. split; [done|]. cbn. intros i t Ht. unfold rd in Ht.
    destruct (0 <=? i); [|done]. apply (lookup_replicate_1 8) in Ht as [-> _]. done. }
  destruct Hs1 as [Hh Hun]. split; [done|rewrite Hh; lia| | |].
  - intros i t Ht Hs. by destruct Hs, (Hun i t Ht).
  - intros i j ti tj _ Hi _ Hs. by destruct Hs, (Hun i ti Hi).
  - intros [|i] t _ Ht Hs.
    + pose proof (running_not_ready s1 KernelTask t (proj1 Hok) Ht). congruence.
    + cbn [task_at] in Ht. pose proof (Hun i t Ht). congruence.
Qed.

Lemma steps_contexts lo k k' : rtc (kernel_step lo) k k' -> (exists c, contexts_ok lo (k_sched k) c) -> exists c, contexts_ok lo (k_sched k') c.
Proof.
  induction 1 as [k|k k1 k2 Hstep _ IH]; [done|]. intros [c Hco]. apply IH. destruct Hstep as [Hw|(c1 & a & f & a' & Hi)].
  - exists c. by apply (works_keep lo c k k1).
  - assert (c1 = c) as ->. { pose proof (sw_current _ _ (proj1 (co_ok _ _ _ Hco))) as Hc. destruct Hi; congruence. }
    by apply (interrupted_contexts lo c a f k a' k1).
Qed.

(** ** Property *)

(** C4. Context preservation: from boot on, whatever interrupts, system calls,
    creations, returns and exits happen, a task that an exception interrupted
    with the registers [f] and left ready is resumed, when its turn comes,
    with exactly [f]. *)
Theorem context_preserved lo k0 k k1 k2 k3 c a f a1 a3 c2 b f2 :
  kernel_boot lo k0 -> rtc (kernel_step lo) k0 k ->
  interrupted lo c a f k a1 k1 -> (exists t, task_at (k_sched k1) c = Some t /\ state t = TASK_READY) ->
  rtc (fun k k' => kernel_step lo k k' /\ current_task (k_sched k') <> Some c) k1 k2 ->
  interrupted lo c2 b f2 k2 a3 k3 -> current_task (k_sched k3) = Some c ->
  a3 = a /\ frames (k_sched k3) !! a3 = Some f.
Proof.
  intros Hboot Hsteps Hi (t & Ht & Hs) Hrun Hres Hc3. destruct (steps_contexts lo k0 k Hsteps) as [c0 Hco]; [exists KernelTask; by apply boot_contexts|].
  assert (Hcur : forall c k a f a' k' c0, contexts_ok lo (k_sched k) c0 -> interrupted lo c a f k a' k' -> c = c0).
  { intros c' k' a' f' a'' k'' c0' Hco' Hi'. pose proof (sw_current _ _ (proj1 (co_ok _ _ _ Hco'))). destruct Hi'; congruence. }
  rewrite <- (Hcur c k a f a1 k1 c0 Hco Hi) in Hco. destruct (interrupted_moved lo c a f k a1 k1 Hco Hi) as [c1 Hmv].
  pose proof (sw_valid _ _ (proj1 (co_ok _ _ _ Hco))) as Hvc. destruct (interrupted_contexts lo c a f k a1 k1 Hco Hi) as [c1' Hco1].
  assert (c1' = c1) as ->. { pose proof (sw_current _ _ (mv_wf _ _ _ _ _ _ Hmv)). pose proof (sw_current _ _ (proj1 (co_ok _ _ _ Hco1))). congruence. }
  assert (Hne : c1 <> c). { intros ->. pose proof (running_not_ready _ c t (mv_wf _ _ _ _ _ _ Hmv) Ht). congruence. }
  assert (Hsp : task_sp t = a).
  { destruct (task_at_Some (k_sched k) c (sw_len _ _ (proj1 (co_ok _ _ _ Hco))) Hvc) as [u Hu]. destruct (mv_current _ _ _ _ _ _ Hmv u) as (t' & Ht' & _ & _ & Hsp); [by destruct c|].
    rewrite Ht in Ht'. injection Ht' as <-. by apply Hsp. }
  assert (Hf : frames (k_sched k1) !! a = Some f) by (rewrite (mv_switch _ _ _ _ _ _ Hmv Hne); cbn; by rewrite lookup_insert_eq).
  clear Hi Hmv Hsteps Hboot Hco. assert (Hinv : exists t c2', contexts_ok lo (k_sched k2) c2' /\ c <> c2' /\ task_at (k_sched k2) c = Some t /\ state t = TASK_READY /\ task_sp t = a /\ frames (k_sched k2) !! a = Some f).
  { clear Hres. assert (Hne' : c <> c1) by congruence. clear Hne. revert t c1 Hco1 Hne' Ht Hs Hsp Hf. induction Hrun as [m|m k' k'' [Hstep Hnc] _ IH]; intros t c1 Hco1 Hne Ht Hs Hsp Hf; [by exists t, c1|].
    destruct Hstep as [Hw|(cc & b' & f' & b2 & Hi)].
    - destruct (works_keep lo c1 m k' Hco1 Hw) as [Hco2 Hall]. destruct (Hall c t Hvc Ht Hs) as (t' & Ht' & Hs' & Hsp' & Hfr). apply (IH t' c1); try done; [congruence|]. rewrite <- Hsp, Hfr. by rewrite Hsp.
    - rewrite (Hcur cc m b' f' b2 k' c1 Hco1 Hi) in Hi. destruct (interrupted_keep lo c1 b' f' m b2 k' c t Hco1 Hi Hvc Hne Ht Hs) as [Hfr Hcase]. rewrite decide_False in Hcase by done.
      destruct (interrupted_contexts lo c1 b' f' m b2 k' Hco1 Hi) as [c2' Hco2]. apply (IH t c2'); try done.
      + intros ->. destruct Hnc. apply (sw_current _ _ (proj1 (co_ok _ _ _ Hco2))).
      + rewrite <- Hsp, Hfr. by rewrite Hsp. }
  destruct Hinv as (t2 & c2' & Hco2 & Hne2 & Ht2 & Hs2 & Hsp2 & Hf2). rewrite (Hcur c2 k2 b f2 a3 k3 c2' Hco2 Hres) in Hres.
  destruct (interrupted_keep lo c2' b f2 k2 a3 k3 c t2 Hco2 Hres Hvc Hne2 Ht2 Hs2) as [Hfr Hcase]. rewrite decide_True in Hcase by done. split; [congruence|].
  rewrite Hcase, Hfr. by rewrite Hsp2.
Qed.
End runs.

(** ** A machine with one task besides the kernel *)

Definition sample_kernel (s : sched) : kernel list_disk Z unit unit panel (list Z) unit :=
  Kernel s (sample_machine task_heap cold_mmu) (Timer 62500 0 0 0 7) (Virtio [] 0 7 tt) cold_console.
Definition no_handler (h : unit) (slot status : Z) : M (virtio unit Z unit) unit := ret tt.

(** The state behind an operation that returns. *)
Definition after {S A} (m : M S A) (s : S) : S := match m s with Ret _ s1 _ => s1 | _ => s end.
Definition trap_at (a : Z) (f : exception_trap_frame) : M (kernel list_disk Z unit unit panel (list Z) unit) Z :=
  put_frame a f;; exception_handle sample_tables 0 no_handler a.

(** A yield of the kernel, and one of the task. *)
Definition yield_frame (r : Z) : exception_trap_frame := Frame (replicate 31 r) 4000 128 5 0x56000000 0 0 4.
Definition kernel_start := sample_kernel warm_sched.
Definition kernel_created := after (on_sched (task_create tiny_plat 64 0 (Some (cstr "a")) 128 0)) kernel_start.
Definition kernel_yielded := after (trap_at 3000 (yield_frame 5)) kernel_created.
Definition kernel_resumed := after (trap_at 20000 (yield_frame 9)) kernel_yielded.

Lemma context_preserved_witness : exists o,
  trap_at 20000 (yield_frame 9) kernel_yielded = Ret 3000 kernel_resumed o /\ frames (k_sched kernel_resumed) !! 3000 = Some (yield_frame 5).
Proof.
  exists []. split; [vm_compute; reflexivity|].
  assert (Hboot : kernel_boot 4096 kernel_start) by (exists cold_sched; split; [exact cold_sched_boot|split; reflexivity]).
  assert (Hcreated : kernel_step tiny_plat 64 sample_tables 0 no_handler 4096 kernel_start kernel_created)
    by (left; apply (works_create tiny_plat 64 _ _ 0 (Some (cstr "a")) 128 0 (Some (TableTask 0)) []); vm_compute; reflexivity).
  assert (Hyield : interrupted sample_tables 0 no_handler 4096 KernelTask 3000 (yield_frame 5) kernel_created 20176 kernel_yielded)
    by (apply (by_exception _ _ _ _ _ _ _ _ _ _ []); [reflexivity|left; unfold FRAME_SIZE; lia|vm_compute; reflexivity]).
  assert (Hback : interrupted sample_tables 0 no_handler 4096 (TableTask 0) 20000 (yield_frame 9) kernel_yielded 3000 kernel_resumed).
  { apply (by_exception _ _ _ _ _ _ _ _ _ _ []); [reflexivity| |vm_compute; reflexivity]. eexists. split; [vm_compute; reflexivity|]. cbn. unfold FRAME_SIZE, TASK_STACK_SIZE. split; [done|lia]. }
  refine (proj2 (context_preserved tiny_plat 64 sample_tables 0 no_handler 4096 kernel_start kernel_created kernel_yielded kernel_yielded kernel_resumed KernelTask 3000 (yield_frame 5) 20176 3000
    (TableTask 0) 20000 (yield_frame 9) Hboot _ Hyield _ _ Hback _)).
  - apply rtc_once. exact Hcreated.
  - eexists. split; reflexivity.
  - apply rtc_refl.
  - reflexivity.
Defined.
