(* ===== verification/Traps.v ===== *)
(** What exceptions and system calls do, on every way through the handler: the
    calling convention of the system calls, the memory one of them reads, the
    task one of them ends, the timer's tick, and the report of a fault. *)
From S2P Require Import Prelude LibString Klog Memory Input Task BlockDevice FileTable MMU UserProgram Virtqueue Graphics Console Bus VirtioMmio Syscall Exceptions.
From S2P Require Import ListDisk ConsoleDisplay UserRun ContextSwitch.

Section traps.
Context {X D H W G C K : Type} `{Hardware D} `{DisplayDriver G} `{OutputCapture C}.
Context (table_address : table -> Z) (arch_user_resume_el1 : Z) (call_handler : H -> Z -> Z -> M (virtio H D W) unit).
Abbreviation kern := (kernel X D H W G C K).
Abbreviation handle := (exception_handle table_address arch_user_resume_el1 call_handler).
Implicit Types k : kern.

(** ** Frames *)

Definition with_frame (a : Z) (f : exception_trap_frame) k : kern := set_k_sched (set_frames (<[a := f]> (frames (k_sched k))) (k_sched k)) k.
Definition answer (v : Z) (f : exception_trap_frame) : exception_trap_frame := set_x (<[0%nat := v]> (x f)) f.

Lemma put_frame_run a f k : put_frame a f k = Ret tt (with_frame a f k) [].
Proof. done. Qed.
Lemma get_frame_run a f k : frames (k_sched k) !! a = Some f -> get_frame a k = Ret f k [].
Proof. intros Hf. unfold get_frame. krun. by rewrite Hf. Qed.
Lemma reg_run f i v k : rd (x f) i = Some v -> reg f i k = Ret v k [].
Proof. intros Hv. unfold reg. by rewrite Hv. Qed.
Lemma with_frame_at a f k : frames (k_sched (with_frame a f k)) !! a = Some f.
Proof. cbn. by rewrite lookup_insert_eq. Qed.
Lemma with_frame_twice a f g k : with_frame a g (with_frame a f k) = with_frame a g k.
Proof. unfold with_frame, set_k_sched, set_frames. cbn. by rewrite insert_insert_eq. Qed.

Lemma set_x0_run a v f k : frames (k_sched k) !! a = Some f -> x f <> [] -> set_x0 a v k = Ret tt (with_frame a (answer v f) k) [].
Proof.
  intros Hf Hx. unfold set_x0. rewrite (bind_Ret_nil _ _ _ _ _ (get_frame_run a f k Hf)).
  rewrite (bind_deref_Some _ (<[0%nat := v]> (x f))); [done|]. apply (wr_Some _ 0). destruct (x f); [done|]. unfold lenZ. simpl. lia.
Qed.

(** ** The way to the system calls *)

Lemma handle_syscall k a f : frames (k_sched k) !! a = Some f -> exception_is_irq_vector (vector_id f) = false ->
  Z.land (Z.shiftr (esr_el1 f) 26) 0x3f = 0x15 -> Z.land (Z.land (esr_el1 f) 0x01ffffff) 0xffff = 1 ->
  handle a k = syscall_handle table_address arch_user_resume_el1 a k.
Proof.
  intros Hf Hv Hec Himm. unfold exception_handle. rewrite (bind_Ret_nil _ _ _ _ _ (get_frame_run a f k Hf)). by rewrite Hv, Hec, Himm.
Qed.

Lemma syscall_run k a f n : frames (k_sched k) !! a = Some f -> rd (x f) 8 = Some n ->
  syscall_handle table_address arch_user_resume_el1 a k =
    (if n =? SYS_WRITE_CONSOLE then
       x0 <- reg f 0;;
       if x0 =? 0 then set_x0 a syscall_error;; ret a
       else
         x1 <- reg f 1;;
         k <- gets id;;
         buffer <- deref (load_bytes table_address (Z.to_nat x1) k x0);;
         on_console (console_write_len buffer x1);;
         set_x0 a x1;;
         ret a
     else if n =? SYS_GET_TICKS then ticks <- on_timer timer_irq_count;; set_x0 a ticks;; ret a
     else if n =? SYS_EXIT then
       active <- on_user user_exception_active;;
       x0 <- reg f 0;;
       if negb (active =? 0) then f' <- on_user (user_exit_from_exception arch_user_resume_el1 f x0);; put_frame a f';; ret a
       else on_sched (task_exit_from_exception a x0)
     else set_x0 a syscall_error;; ret a) k.
Proof. intros Hf Hn. unfold syscall_handle. by rewrite (bind_Ret_nil _ _ _ _ _ (get_frame_run a f k Hf)), (bind_Ret_nil _ _ _ _ _ (reg_run f 8 n k Hn)). Qed.

Lemma rd_head {A} (l : list A) v : rd l 0 = Some v -> l <> [].
Proof. by destruct l. Qed.

(** A write that prints [o] and leaves the console as [kc]. *)
Lemma syscall_write_run k a f buffer len bytes kc o :
  frames (k_sched k) !! a = Some f -> rd (x f) 8 = Some SYS_WRITE_CONSOLE -> rd (x f) 0 = Some buffer -> rd (x f) 1 = Some len -> buffer <> 0 ->
  load_bytes table_address (Z.to_nat len) k buffer = Some bytes -> console_write_len bytes len (k_console k) = Ret tt kc o ->
  syscall_handle table_address arch_user_resume_el1 a k = Ret a (with_frame a (answer len f) (set_k_console kc k)) o.
Proof.
  intros Hf Hn Hr0 Hr1 Hb Hl Hc. rewrite (syscall_run k a f _ Hf Hn). change (SYS_WRITE_CONSOLE =? SYS_WRITE_CONSOLE) with true. cbn iota.
  rewrite (bind_Ret_nil _ _ _ _ _ (reg_run f 0 _ k Hr0)), (proj2 (Z.eqb_neq buffer 0)) by done.
  rewrite (bind_Ret_nil _ _ _ _ _ (reg_run f 1 _ k Hr1)). krun. unfold id. rewrite (bind_deref_Some _ _ _ _ Hl).
  rewrite (bind_Ret _ _ _ _ _ _ (zoom_Ret k_console set_k_console _ k _ _ _ Hc)).
  rewrite (bind_Ret_nil _ _ _ _ _ (set_x0_run a len f (set_k_console kc k) Hf (rd_head _ _ Hr0))). unfold ret. by rewrite app_nil_r.
Qed.

Lemma load_bytes_user n k k' va : k_user k' = k_user k -> load_bytes table_address n k' va = load_bytes table_address n k va.
Proof. intros Hu. revert va. induction n as [|n IH]; intros va; [done|]. cbn [load_bytes]. unfold load_byte. rewrite Hu. destruct (if mmu_is_enabled _ then _ else _); [|done]. cbn. by rewrite IH. Qed.

(** ** Calls of the kernel *)

Lemma svc_registers_length f n a0 a1 a2 a3 a4 a5 : length (x f) = 31%nat -> length (x (svc_registers f n a0 a1 a2 a3 a4 a5)) = 31%nat.
Proof. intros Hx. unfold svc_registers. cbn [x]. rewrite !length_app, length_slice by lia. cbn [length]. rewrite length_drop. lia. Qed.

Lemma svc_reg f n a0 a1 a2 a3 a4 a5 : length (x f) = 31%nat ->
  rd (x (svc_registers f n a0 a1 a2 a3 a4 a5)) 8 = Some n /\ rd (x (svc_registers f n a0 a1 a2 a3 a4 a5)) 0 = Some a0 /\
  rd (x (svc_registers f n a0 a1 a2 a3 a4 a5)) 1 = Some a1.
Proof.
  intros Hx. split; [|done]. cbn [svc_registers x]. change 8 with (Z.of_nat 8). rewrite rd_nat.
  rewrite lookup_app_r by (cbn; lia). cbn [length Nat.sub].
  rewrite lookup_app_r by (rewrite length_slice; lia). rewrite length_slice by lia. done.
Qed.

(** The call comes back with what its handler left in x0 of its own frame. *)
Lemma invoke_run k a f n a0 a1 a2 a3 a4 a5 v k' o : length (x f) = 31%nat ->
  let saved := svc_registers f n a0 a1 a2 a3 a4 a5 in
  syscall_handle table_address arch_user_resume_el1 a (with_frame a saved k) = Ret a (with_frame a (answer v saved) k') o ->
  syscall_invoke table_address arch_user_resume_el1 call_handler f a n a0 a1 a2 a3 a4 a5 k = Ret v (with_frame a (answer v saved) k') o.
Proof.
  intros Hx saved He. unfold syscall_invoke. rewrite (bind_Ret_nil _ _ _ _ _ (put_frame_run a saved k)).
  assert (Hh : handle a (with_frame a saved k) = Ret a (with_frame a (answer v saved) k') o) by (rewrite (handle_syscall _ a saved); [exact He|apply with_frame_at|reflexivity..]).
  rewrite (bind_Ret _ _ _ _ _ _ Hh), (bind_Ret_nil _ _ _ _ _ (get_frame_run a _ _ (with_frame_at a (answer v saved) k'))).
  rewrite (reg_run _ 0 v); [by rewrite app_nil_r|]. unfold answer. cbn [x set_x]. apply (svc_registers_length f n a0 a1 a2 a3 a4 a5) in Hx. fold saved in Hx. by destruct (x saved).
Qed.

Definition call f a n a0 a1 := syscall_invoke table_address arch_user_resume_el1 call_handler (X := X) (K := K) f a n a0 a1 0 0 0 0.

(** What a call that comes back leaves: the caller's frame with the result. *)
Definition returned (v : Z) (a : Z) (saved : exception_trap_frame) k : kern := with_frame a (answer v saved) k.

Lemma syscall_invoke_ok k f a n a0 a1 : length (x f) = 31%nat ->
  let saved := svc_registers f n a0 a1 0 0 0 0 in
  (n = SYS_WRITE_CONSOLE -> a0 = 0 -> call f a n a0 a1 k = Ret (2 ^ 64 - 1) (returned (2 ^ 64 - 1) a saved k) []) /\
  (n = SYS_WRITE_CONSOLE -> a0 <> 0 -> forall bytes kc o, load_bytes table_address (Z.to_nat a1) k a0 = Some bytes ->
     console_write_len bytes a1 (k_console k) = Ret tt kc o -> call f a n a0 a1 k = Ret a1 (returned a1 a saved (set_k_console kc k)) o) /\
  (n = SYS_GET_TICKS -> call f a n a0 a1 k = Ret (timer_irq_ticks (k_timer k)) (returned (timer_irq_ticks (k_timer k)) a saved k) []) /\
  (n <> SYS_WRITE_CONSOLE -> n <> SYS_GET_TICKS -> n <> SYS_EXIT -> call f a n a0 a1 k = Ret (2 ^ 64 - 1) (returned (2 ^ 64 - 1) a saved k) []).
Proof.
  intros Hx saved. destruct (svc_reg f n a0 a1 0 0 0 0 Hx) as (Hr8 & Hr0 & Hr1). fold saved in Hr8, Hr0, Hr1. pose proof (with_frame_at a saved k) as Hf. unfold call, returned.
  assert (Hset : forall v, set_x0 a v (with_frame a saved k) = Ret tt (with_frame a (answer v saved) k) []).
  { intros v. rewrite (set_x0_run a v saved _ Hf (rd_head _ _ Hr0)). by rewrite with_frame_twice. }
  split_and!.
  - intros -> ->. apply (invoke_run _ a f _ _ _ _ _ _ _ _ _ _ Hx). fold saved. rewrite (syscall_run _ a saved _ Hf Hr8). change (SYS_WRITE_CONSOLE =? SYS_WRITE_CONSOLE) with true. cbn iota.
    rewrite (bind_Ret_nil _ _ _ _ _ (reg_run saved 0 _ _ Hr0)). change (0 =? 0) with true. cbn iota. by rewrite (bind_Ret_nil _ _ _ _ _ (Hset syscall_error)).
  - intros -> Hb bytes kc o Hl Hc. apply (invoke_run _ a f _ _ _ _ _ _ _ _ _ _ Hx). fold saved.
    rewrite (syscall_write_run _ a saved a0 a1 bytes kc o Hf Hr8 Hr0 Hr1 Hb); [|rewrite <- Hl; by apply load_bytes_user|done].
    f_equal. change (set_k_console kc (with_frame a saved k)) with (with_frame a saved (set_k_console kc k)). by rewrite with_frame_twice.
  - intros ->. apply (invoke_run _ a f _ _ _ _ _ _ _ _ _ _ Hx). fold saved. rewrite (syscall_run _ a saved _ Hf Hr8). change (SYS_GET_TICKS =? SYS_WRITE_CONSOLE) with false. change (SYS_GET_TICKS =? SYS_GET_TICKS) with true. cbn iota.
    unfold on_timer, timer_irq_count. rewrite (bind_Ret_nil _ _ _ _ _ (zoom_Ret k_timer set_k_timer _ _ _ _ _ eq_refl)). cbn [k_timer].
    replace (set_k_timer _ _) with (with_frame a saved k) by (by destruct k). by rewrite (bind_Ret_nil _ _ _ _ _ (Hset _)).
  - intros Hn1 Hn2 Hn3. apply (invoke_run _ a f _ _ _ _ _ _ _ _ _ _ Hx). fold saved. rewrite (syscall_run _ a saved _ Hf Hr8).
    rewrite (proj2 (Z.eqb_neq n _) Hn1), (proj2 (Z.eqb_neq n _) Hn2), (proj2 (Z.eqb_neq n _) Hn3). by rewrite (bind_Ret_nil _ _ _ _ _ (Hset syscall_error)).
Qed.

(** ** Loads from the kernel's memory *)

Section memory.
Context (plat : platform) (Hboard : board_ok plat table_address).

(** The bytes of physical memory from an address on. *)
Definition ram_bytes (m : mm) (va : Z) (n : nat) : list Z := (fun i => ram m (va + Z.of_nat i)) <$> seq 0 n.

Lemma ram_leaf u va : mmu_ok plat table_address u -> platform_get_ram_base plat <= va < platform_get_ram_base plat + platform_get_ram_size plat ->
  exists l, walk table_address u va = Some l /\ output l = va /\ el0_reads l = false.
Proof using Hboard.
  intros Hu Hva. pose proof (bo_base_bound _ _ Hboard) as Hbase. pose proof (bo_size _ _ Hboard) as Hsize.
  assert (Hl : is_Some (walk table_address u va)).
  { destruct Hu as [(c & Hc & Hk & _) Hroot]. rewrite (walk_kernel plat table_address Hboard u c va Hc Hk Hroot) by lia. rewrite decide_False by lia.
    unfold identity_leaf, region. cbn zeta. case_decide; [by eexists|]. rewrite decide_True by done. by eexists. }
  destruct Hl as [l Hl]. exists l. split; [done|]. destruct (mmu_ok_allowed plat table_address Hboard u va l Hu Hl) as (_ & _ & Hout & _). apply Hout. lia.
Qed.

Lemma load_ram n k va : mmu_ok plat table_address (u_mmu (k_user k)) -> platform_get_ram_base plat <= va -> va + Z.of_nat n <= platform_get_ram_base plat + platform_get_ram_size plat ->
  load_bytes table_address n k va = Some (ram_bytes (u_mm (k_user k)) va n).
Proof using Hboard.
  intros Hu. pose proof (bo_base_bound _ _ Hboard) as Hbase. pose proof (bo_size _ _ Hboard) as Hsize. revert va. induction n as [|n IH]; intros va Hlo Hhi; [done|]. cbn [load_bytes].
  assert (Hb : load_byte table_address k va = Some (ram (u_mm (k_user k)) va)).
  { unfold load_byte. destruct (mmu_is_enabled _); [|done]. destruct (ram_leaf _ va Hu) as (l & Hl & Ho & _); [lia|]. rewrite Hl. cbn. by rewrite Ho. }
  rewrite Hb. cbn [mbind option_bind]. rewrite u64_small by lia. rewrite IH by lia. cbn [mbind option_bind]. f_equal. unfold ram_bytes. cbn [seq fmap list_fmap]. f_equal; [by rewrite Z.add_0_r|].
  rewrite <- fmap_S_seq, <- list_fmap_compose. apply list_fmap_ext. intros i j _. cbn. f_equal. lia.
Qed.
End memory.

(** The serial port's text of a string of bytes. *)
Definition serial_text (bytes : list Z) : list Z := flat_map (fun c => if c =? 10 then [13; 10] else [c]) bytes.

Lemma serial_write_len (kc : console G C K) bytes : console_mode kc = CONSOLE_SINK_SERIAL -> console_capture kc = None ->
  console_write_len bytes (lenZ bytes) kc = Ret tt kc (serial_text bytes).
Proof.
  intros Hm Hc. assert (Hput : forall c, console_putc_unlocked c kc = Ret tt kc (if c =? 10 then [13; 10] else [c])).
  { intros c. unfold console_putc_unlocked. krun. unfold id. rewrite Hc, Hm. cbn. by destruct (Z.eqb_spec c 10) as [->|]. }
  assert (Hloop : forall n i, 0 <= i -> i + Z.of_nat n = lenZ bytes ->
    for_range n i (fun i => c <- deref (rd bytes i);; console_putc_unlocked c) kc = Ret tt kc (serial_text (drop (Z.to_nat i) bytes))).
  { induction n as [|n IH]; intros i Hi Hn; cbn [for_range].
    - rewrite drop_ge by (unfold lenZ in Hn; lia). done.
    - destruct (rd_Some bytes i) as [c Hr]; [lia|]. assert (Hb : (c0 <- deref (rd bytes i);; console_putc_unlocked c0) kc = Ret tt kc (if c =? 10 then [13; 10] else [c])) by (by rewrite (bind_deref_Some _ _ _ _ Hr)).
      rewrite (bind_Ret _ _ _ _ _ _ Hb), IH by lia. unfold rd in Hr. rewrite (proj2 (Z.leb_le 0 i)) in Hr by done. rewrite (drop_S _ _ _ Hr).
      unfold serial_text. cbn [flat_map]. by rewrite (Z2Nat.inj_add i 1), Nat.add_1_r by lia. }
  assert (Hflush : console_flush_unlocked kc = Ret tt kc []) by (unfold console_flush_unlocked; krun; unfold id; by rewrite Hm).
  unfold console_write_len. rewrite (bind_Ret _ _ _ _ _ _ (Hloop (Z.to_nat (lenZ bytes)) 0 ltac:(lia) ltac:(unfold lenZ; lia))). cbn [Z.to_nat drop].
  by rewrite Hflush, app_nil_r.
Qed.

(** ** Faults *)

Definition word (v : Z) : Prop := 0 <= v < 2 ^ 64.
Record frame_words (f : exception_trap_frame) : Prop := {
  fw_length : length (x f) = 31%nat;
  fw_x : Forall word (x f);
  fw_rest : word (elr_el1 f) /\ word (far_el1 f) /\ word (frame_sp f)
}.

(** An operation that only prints. *)
Definition prints {S} (m : M S unit) : Prop := forall s, exists o, m s = Ret tt s o.
Lemma prints_bind {S} (m m' : M S unit) : prints m -> prints m' -> prints (m;; m').
Proof. intros Hm Hm' s. destruct (Hm s) as [o Ho], (Hm' s) as [o' Ho']. exists (o ++ o'). rewrite (bind_Ret _ _ _ _ _ _ Ho). by rewrite Ho'. Qed.
Lemma prints_if {S} (b : bool) (m m' : M S unit) : prints m -> prints m' -> prints (if b then m else m').
Proof. by destruct b. Qed.
Lemma prints_ret {S} : prints (ret tt : M S unit).
Proof. intros s. by exists []. Qed.
Lemma prints_unsigned {S} fmt v : fmt_convs (cstr fmt) = Some [ch "u"] \/ fmt_convs (cstr fmt) = Some [ch "x"] -> prints (kprintf fmt [AUint (u32 v)] : M S unit).
Proof. intros Hf s. pose proof (u32_bound v). destruct Hf as [Hf|Hf]; (eapply kprintf_total; [exact Hf|]; constructor; [|constructor]; split; [by eauto|lia]). Qed.
Lemma prints_pointer {S} fmt v : fmt_convs (cstr fmt) = Some [ch "p"] -> word v -> prints (kprintf fmt [APtr v] : M S unit).
Proof. intros Hf Hv s. eapply kprintf_total; [exact Hf|]. by constructor; [|constructor]. Qed.
Lemma prints_string {S} fmt str : fmt_convs (cstr fmt) = Some [ch "s"] -> prints (kprintf fmt [str_arg str] : M S unit).
Proof.
  intros Hf s. eapply kprintf_total; [exact Hf|]. constructor; [|constructor]. split; [done|]. apply (cval_terminated _ (length (lit str))).
  unfold cstr. by rewrite lookup_app_r, Nat.sub_diag by lia.
Qed.
Lemma prints_reg {S} f label i : frame_words f -> 0 <= i < 31 -> fmt_convs (cstr (nl label)) = Some [ch "p"] -> prints (print_reg f label i : M S unit).
Proof.
  intros [Hl Hx _] Hi Hf s. destruct (rd_Some (x f) i) as [v Hv]; [unfold lenZ; lia|]. unfold print_reg. rewrite (bind_deref_Some _ _ _ _ Hv).
  apply prints_pointer; [done|]. unfold rd in Hv. destruct (0 <=? i); [|done]. by apply (Forall_lookup_1 _ _ _ _ Hx Hv).
Qed.

Ltac prints := repeat first
  [ simple apply prints_bind | simple apply prints_if | simple apply prints_ret | simple apply prints_string; reflexivity
  | simple apply prints_unsigned; by (left + right) | simple apply prints_pointer; [reflexivity|assumption]
  | simple apply prints_reg; [assumption|lia|reflexivity] ].

Lemma prints_esr {S} esr : prints (exception_print_esr_details esr : M S unit).
Proof. unfold exception_print_esr_details, exception_print_abort_details. cbn zeta. prints. Qed.

(** The report, up to the panic that ends it. *)
Lemma default_run {S} f (s : S) line : frame_words f -> kprintf_loop (cstr (nl "[ERROR] exception: %s")) [str_arg (exception_vector_name (vector_id f))] = Some line ->
  exists rest, exception_handle_default f s = Panic "Unhandled exception" s (line ++ rest).
Proof.
  intros Hf Hline. destruct (fw_rest f Hf) as (Helr & Hfar & Hsp). unfold exception_handle_default.
  assert (Hfirst : kprintf (nl "[ERROR] exception: %s") [str_arg (exception_vector_name (vector_id f))] s = Ret tt s line) by (unfold kprintf; by rewrite (bind_deref_Some _ _ _ _ Hline)).
  assert (Hseq : forall (m : M S unit) j, prints m -> (exists r, j s = Panic "Unhandled exception" s r) -> exists r, (m;; j) s = Panic (A := unit) "Unhandled exception" s r).
  { intros m j Hm [r Hr]. destruct (Hm s) as [o Ho]. exists (o ++ r). unfold bind. by rewrite Ho, Hr. }
  match goal with |- context [bind _ ?j] => assert (Hrest : exists r, j tt s = Panic "Unhandled exception" s r) end.
  { repeat (apply Hseq; [first [apply prints_esr|prints]|]). by exists []. }
  destruct Hrest as [r Hr]. exists r. unfold bind at 1. by rewrite Hfirst, Hr.
Qed.

(** ** Properties *)


(** The write call checks no permission: a program at EL0 that passes an
    address of the kernel's memory, which it may not read, has the kernel print
    the bytes there on the serial port. *)
Theorem syscall_write_unchecked plat k a f buffer len :
  board_ok plat table_address -> mmu_ok plat table_address (u_mmu (k_user k)) ->
  console_mode (k_console k) = CONSOLE_SINK_SERIAL -> console_capture (k_console k) = None ->
  frames (k_sched k) !! a = Some f -> vector_id f = 8 -> esr_el1 f = 0x56000001 ->
  rd (x f) 8 = Some SYS_WRITE_CONSOLE -> rd (x f) 0 = Some buffer -> rd (x f) 1 = Some len -> 0 <= len ->
  platform_get_ram_base plat <= buffer -> buffer + len <= platform_get_ram_base plat + platform_get_ram_size plat ->
  (forall i, 0 <= i < len -> exists l, walk table_address (u_mmu (k_user k)) (buffer + i) = Some l /\ el0_reads l = false) /\
  exception_handle table_address arch_user_resume_el1 call_handler a k = Ret a (with_frame a (answer len f) k) (serial_text (ram_bytes (u_mm (k_user k)) buffer (Z.to_nat len))).
Proof.
  intros Hboard Hu Hm Hc Hf Hv Hesr Hr8 Hr0 Hr1 Hlen Hlo Hhi. split.
  - intros i Hi. destruct (ram_leaf plat Hboard (u_mmu (k_user k)) (buffer + i) Hu) as (l & Hl & _ & He); [lia|]. by exists l.
  - rewrite (handle_syscall k a f Hf); [|by rewrite Hv|by rewrite Hesr..].
    pose proof (load_ram plat Hboard (Z.to_nat len) k buffer Hu Hlo ltac:(lia)) as Hl. set (bytes := ram_bytes _ _ _) in *.
    assert (Hlb : lenZ bytes = len) by (unfold bytes, ram_bytes, lenZ; rewrite length_fmap, length_seq; lia).
    pose proof (bo_base_bound _ _ Hboard). pose proof (serial_write_len (k_console k) bytes Hm Hc) as Hw. rewrite Hlb in Hw.
    rewrite (syscall_write_run k a f buffer len bytes _ _ Hf Hr8 Hr0 Hr1 ltac:(lia) Hl Hw). by destruct k.
Qed.

(** SYS_EXIT looks at a flag of the whole kernel: while a user program is
    active, the exit of any task does not end that task, which goes on running
    at the point where the user program's caller waits, on its own stack. *)
Theorem syscall_exit_wrong_task k c a f status0 :
  sched_wf (k_sched k) c -> user_active (k_user k) <> 0 -> frames (k_sched k) !! a = Some f -> vector_id f = 4 -> esr_el1 f = 0x56000001 ->
  rd (x f) 8 = Some SYS_EXIT -> rd (x f) 0 = Some status0 ->
  exists k' f', exception_handle table_address arch_user_resume_el1 call_handler a k = Ret a k' [] /\ current_task (k_sched k') = Some c /\ task_table (k_sched k') = task_table (k_sched k) /\
    frames (k_sched k') = <[a := f']> (frames (k_sched k)) /\ elr_el1 f' = arch_user_resume_el1 /\ frame_sp f' = frame_sp f /\ user_active (k_user k') = 0.
Proof.
  intros Hwf Hu Hf Hv Hesr Hr8 Hr0. rewrite (handle_syscall k a f Hf); [|by rewrite Hv|by rewrite Hesr..]. rewrite (syscall_run k a f _ Hf Hr8).
  change (SYS_EXIT =? SYS_WRITE_CONSOLE) with false. change (SYS_EXIT =? SYS_GET_TICKS) with false. change (SYS_EXIT =? SYS_EXIT) with true. cbn iota.
  unfold on_user at 1, user_exception_active. rewrite (bind_Ret_nil _ _ _ _ _ (zoom_Ret k_user set_k_user _ k _ _ _ eq_refl)). replace (set_k_user _ k) with k by (by destruct k).
  rewrite (bind_Ret_nil _ _ _ _ _ (reg_run f 0 _ k Hr0)). rewrite (proj2 (Z.eqb_neq (user_active (k_user k)) 0) Hu). cbn [negb].
  assert (Hw : wr (x f) 0 status0 = Some (<[0%nat := status0]> (x f))) by (apply (wr_Some _ 0); pose proof (rd_inv _ _ _ Hr0); lia).
  assert (He : user_exit_from_exception arch_user_resume_el1 f status0 (k_user k) = Ret (Frame (<[0%nat := status0]> (x f)) (frame_sp f) arch_user_resume_el1 (user_resume_spsr (k_user k)) (esr_el1 f) (far_el1 f) (frame_daif f) (vector_id f)) (set_user_active 0 (k_user k)) []).
  { unfold user_exit_from_exception. krun. rewrite (proj2 (Z.eqb_neq (user_active (k_user k)) 0) Hu). krun. by rewrite (bind_deref_Some _ _ _ _ Hw). }
  unfold on_user. rewrite (bind_Ret_nil _ _ _ _ _ (zoom_Ret k_user set_k_user _ k _ _ _ He)). rewrite (bind_Ret_nil _ _ _ _ _ (put_frame_run a _ _)).
  eexists _, _. split; [reflexivity|]. split; [by apply Hwf|]. repeat split.
Qed.

(** C24. A tick of the timer is counted, acknowledged and ends the time slice:
    the handler suspends the current task and resumes the next ready one. *)
Theorem timer_tick_switches k c a f :
  sched_wf (k_sched k) c -> frames (k_sched k) !! a = Some f -> exception_is_irq_vector (vector_id f) = true ->
  Z.land (mmio_read GICC_IAR (hardware (k_timer k))).1 0x3ff = GIC_IRQ_TIMER_PHYSICAL_PPI ->
  exists c' t' k', exception_handle table_address arch_user_resume_el1 call_handler a k = Ret (task_sp t') k' [] /\ switched (k_sched k) c c' a TASK_READY (k_sched k') /\ task_at (k_sched k') c' = Some t' /\
    timer_irq_ticks (k_timer k') = u64 (timer_irq_ticks (k_timer k) + 1) /\
    exists d, hardware (k_timer k') = mmio_write GICC_EOIR 30 d.
Proof.
  intros Hwf Hf Hv Hirq. unfold exception_handle. rewrite (bind_Ret_nil _ _ _ _ _ (get_frame_run a f k Hf)), Hv. unfold exception_handle_irq.
  assert (Hack : on_gic gic_acknowledge_irq k = Ret (mmio_read GICC_IAR (hardware (k_timer k))).1 (set_k_timer (set_hardware (mmio_read GICC_IAR (hardware (k_timer k))).2 (k_timer k)) k) []) by done.
  rewrite (bind_Ret_nil _ _ _ _ _ Hack). cbn zeta. rewrite Hirq. change (1020 <=? GIC_IRQ_TIMER_PHYSICAL_PPI) with false. rewrite (Z.eqb_refl GIC_IRQ_TIMER_PHYSICAL_PPI). cbn iota.
  set (k1 := set_k_timer _ k). assert (Htick : exists d, on_timer timer_handle_irq k1 = Ret tt (set_k_timer (set_hardware d (set_timer_irq_ticks (u64 (timer_irq_ticks (k_timer k) + 1)) (k_timer k1))) k1) []).
  { unfold on_timer, zoom, timer_handle_irq. krun. destruct (negb _).
    - by eexists.
    - exists (hardware (k_timer k1)). done. }
  destruct Htick as [d Htick]. rewrite (bind_Ret_nil _ _ _ _ _ Htick). set (k2 := set_k_timer _ k1).
  assert (Hend : on_gic (gic_end_irq GIC_IRQ_TIMER_PHYSICAL_PPI) k2 = Ret tt (set_k_timer (set_hardware (mmio_write GICC_EOIR 30 d) (k_timer k2)) k2) []) by done.
  rewrite (bind_Ret_nil _ _ _ _ _ Hend). set (k3 := set_k_timer _ k2). assert (Hcount : on_timer timer_irq_count k3 = Ret (u64 (timer_irq_ticks (k_timer k) + 1)) k3 []) by done.
  rewrite (bind_Ret_nil _ _ _ _ _ Hcount). change task_time_slice_ticks with 1. rewrite Z.mod_1_r. change (0 =? 0) with true. cbn iota.
  destruct (schedule_ok (k_sched k3) c a Hwf) as (c' & s' & t' & Hsw & Ht' & He). exists c', t', (set_k_sched s' k3).
  split; [unfold on_sched; by rewrite (zoom_Ret k_sched set_k_sched _ k3 _ _ _ He)|]. split; [exact Hsw|]. split; [exact Ht'|]. split; [done|]. by exists d.
Qed.

(** An exception that is neither an interrupt nor one of the two SVC calls
    ends in a panic, after a report that opens with the vector's name; no
    value of the syndrome makes the report itself undefined. *)
Theorem unhandled_exception_reported k a f :
  frames (k_sched k) !! a = Some f -> frame_words f -> exception_is_irq_vector (vector_id f) = false ->
  ~ (Z.land (Z.shiftr (esr_el1 f) 26) 0x3f = 0x15 /\ Z.land (Z.land (esr_el1 f) 0x01ffffff) 0xffff <= 1) ->
  exists line rest, kprintf_loop (cstr (nl "[ERROR] exception: %s")) [str_arg (exception_vector_name (vector_id f))] = Some line /\
    exception_handle table_address arch_user_resume_el1 call_handler a k = Panic "Unhandled exception" k (line ++ rest).
Proof.
  intros Hf Hw Hv Hno. destruct (prints_string (nl "[ERROR] exception: %s") (exception_vector_name (vector_id f)) eq_refl k) as [line Hl].
  unfold kprintf in Hl. destruct (kprintf_loop _ _) as [l|] eqn:Hloop; [|done]. clear Hl. destruct (default_run f k l Hw Hloop) as [rest Hr]. exists l, rest. split; [done|].
  unfold exception_handle. rewrite (bind_Ret_nil _ _ _ _ _ (get_frame_run a f k Hf)), Hv. cbn zeta.
  destruct (Z.eqb_spec (Z.land (Z.shiftr (esr_el1 f) 26) 0x3f) 0x15) as [Hec|_]; cbn [andb].
  - set (imm := Z.land (Z.land (esr_el1 f) 0x01ffffff) 0xffff) in *. destruct (Z.eqb_spec imm 0) as [Hi|_]; [destruct Hno; lia|]. destruct (Z.eqb_spec imm 1) as [Hi|_]; [destruct Hno; lia|].
    unfold bind. by rewrite Hr.
  - unfold bind. by rewrite Hr.
Qed.
End traps.

(** ** Witnesses *)

(** A board whose interrupt controller has the timer's interrupt pending until
    it is acknowledged. *)
#[export] Instance tick_board : Hardware bool := {
  mmio_read addr d := if addr =? GICC_IAR then ((if d : bool then 30 else 1023), d) else (0, d);
  mmio_write addr v d := if addr =? GICC_EOIR then false else d;
  sysreg_read _ d := (0, d);
  sysreg_write _ _ d := d
}.
Definition serial_console : console panel (list Z) unit := set_console_mode CONSOLE_SINK_SERIAL cold_console.
Definition trap_kernel (s : sched) (u : machine list_disk) (ticks : Z) : kernel list_disk bool unit unit panel (list Z) unit :=
  Kernel s u (Timer 62500 625 ticks 0 true) (Virtio [] 0 true tt) serial_console.
Definition idle_handler (h : unit) (slot status : Z) : M (virtio unit bool unit) unit := ret tt.
Definition alphabet : mm := set_ram (fun a => 65 + a mod 26) task_heap.


(** A program that asks to print three bytes at the start of RAM. *)
Definition user_frame (n buffer len vector : Z) : exception_trap_frame :=
  Frame ([buffer; len] ++ replicate 6 0 ++ [n] ++ replicate 22 0) 4000 128 0 0x56000001 0 0 vector.
Definition user_sched (f : exception_trap_frame) : sched := set_frames (<[20000 := f]> empty) (k_sched kernel_yielded).

Lemma syscall_write_unchecked_witness : exists u k',
  (exists l, walk sample_tables u 0x40000000 = Some l /\ el0_reads l = false) /\
  exception_handle sample_tables 0 idle_handler 20000 (trap_kernel (user_sched (user_frame 1 0x40000000 3 8)) (sample_machine alphabet u) 0) = Ret 20000 k' (serial_text [77; 78; 79]).
Proof.
  destruct (mmu_init_ok demo_plat sample_tables sample_board cold_mmu) as (u & ou & _ & Hok & _); [apply cold_sized|reflexivity|reflexivity|]. exists u.
  destruct (syscall_write_unchecked sample_tables 0 idle_handler demo_plat (trap_kernel (user_sched (user_frame 1 0x40000000 3 8)) (sample_machine alphabet u) 0) 20000 (user_frame 1 0x40000000 3 8) 0x40000000 3
    sample_board Hok) as [Hleaf Hrun]; [reflexivity..|lia|vm_compute; congruence|vm_compute; congruence|].
  eexists. split; [exact (Hleaf 0 ltac:(lia))|]. exact Hrun.
Defined.

Lemma syscall_exit_wrong_task_witness : exists k',
  exception_handle sample_tables 512 idle_handler 20000 (trap_kernel (user_sched (user_frame 3 7 0 4)) (set_user_active 1 (sample_machine alphabet cold_mmu)) 0) = Ret 20000 k' [] /\
  current_task (k_sched k') = Some (TableTask 0).
Proof.
  assert (Hwf : sched_wf (user_sched (user_frame 3 7 0 4)) (TableTask 0)).
  { split; try reflexivity; [cbn; lia|]. intros i t Ht. pose proof (rd_inv _ _ _ Ht) as Hi. change (lenZ (task_table _)) with 8 in Hi.
    assert (Hc : i = 0 \/ i = 1 \/ i = 2 \/ i = 3 \/ i = 4 \/ i = 5 \/ i = 6 \/ i = 7) by lia.
    destruct Hc as [->|[->|[->|[->|[->|[->|[->| ->]]]]]]]; vm_compute in Ht; injection Ht as <-; split; intros Hr; (discriminate Hr || reflexivity). }
  destruct (syscall_exit_wrong_task sample_tables 512 idle_handler (trap_kernel (user_sched (user_frame 3 7 0 4)) (set_user_active 1 (sample_machine alphabet cold_mmu)) 0) (TableTask 0) 20000 (user_frame 3 7 0 4) 7 Hwf)
    as (k' & f' & He & Hc & _); [discriminate|reflexivity..|]. exists k'. split; [exact He|exact Hc].
Defined.

Lemma timer_tick_switches_witness : exists k',
  exception_handle sample_tables 0 idle_handler 3000 (trap_kernel (set_frames (<[3000 := user_frame 0 0 0 5]> empty) busy_sched) (sample_machine alphabet cold_mmu) 41) = Ret 5000 k' [] /\
  timer_irq_ticks (k_timer k') = 42.
Proof.
  assert (Hwf : sched_wf (set_frames (<[3000 := user_frame 0 0 0 5]> empty) busy_sched) KernelTask) by (destruct (proj1 busy_sched_ok); by split).
  destruct (timer_tick_switches sample_tables 0 idle_handler (trap_kernel (set_frames (<[3000 := user_frame 0 0 0 5]> empty) busy_sched) (sample_machine alphabet cold_mmu) 41) KernelTask 3000 (user_frame 0 0 0 5) Hwf)
    as (c' & t' & k' & He & _ & _ & Ht & _); [reflexivity..|].
  exists k'. assert (Hsp : task_sp t' = 5000) by (vm_compute in He; by injection He). rewrite <- Hsp. split; [exact He|exact Ht].
Defined.

(** A BRK instruction of the kernel. *)
Lemma unhandled_exception_reported_witness : exists o,
  exception_handle sample_tables 0 idle_handler 20000 (trap_kernel (user_sched (set_x (replicate 31 7) (Frame [] 4000 128 5 0xf2000042 0 0 4))) (sample_machine alphabet cold_mmu) 0) =
  Panic "Unhandled exception" (trap_kernel (user_sched (set_x (replicate 31 7) (Frame [] 4000 128 5 0xf2000042 0 0 4))) (sample_machine alphabet cold_mmu) 0) o.
Proof.
  destruct (unhandled_exception_reported sample_tables 0 idle_handler (trap_kernel (user_sched (set_x (replicate 31 7) (Frame [] 4000 128 5 0xf2000042 0 0 4))) (sample_machine alphabet cold_mmu) 0) 20000
    (set_x (replicate 31 7) (Frame [] 4000 128 5 0xf2000042 0 0 4))) as (line & rest & _ & He); [reflexivity| |reflexivity|by intros [Hec _]|by exists (line ++ rest)].
  split; [reflexivity|apply Forall_replicate; unfold word; lia|]. repeat split; cbn; lia.
Defined.
