(* ===== verification/AppRegistry.v ===== *)
(** The registry of desktop applications (src/src/desktop/app_registry.c): the
    applications and their running instances. A pointer to an application or
    an instance is its index; functions of an application are named by
    numbers. What starts and stops an instance calls such functions and is in
    Desktop.v. *)
From S2P Require Import Prelude LibString.

Definition DESKTOP_REGISTRY_MAX_APPS : Z := 8.
Definition DESKTOP_REGISTRY_MAX_INSTANCES : Z := 8.
Definition DESKTOP_APP_NAME_MAX : Z := 24.
Definition DESKTOP_APP_DISPLAY_NAME_MAX : Z := 32.
Definition DESKTOP_APP_ARGUMENT_MAX : Z := 64.
Definition DESKTOP_APP_INSTANCE_FLAG_RUNNING : Z := 1.

Record desktop_app : Type := App {
  app_name : mem;
  display_name : mem;
  on_start : option Z;
  on_event : option Z;
  on_render : option Z;
  on_close : option Z
}.
Record desktop_app_instance : Type := Instance {
  inst_id : Z;
  inst_flags : Z;
  inst_windows : Z;
  inst_app : option Z;
  inst_data : option Z;
  inst_argument : mem
}.
Definition zeroes (n : Z) : mem := replicate (Z.to_nat n) 0.
Definition zero_instance : desktop_app_instance := Instance 0 0 0 None None (zeroes DESKTOP_APP_ARGUMENT_MAX).
Definition set_inst_windows (v : Z) (i : desktop_app_instance) : desktop_app_instance :=
  Instance (inst_id i) (inst_flags i) v (inst_app i) (inst_data i) (inst_argument i).
Definition set_inst_data (v : option Z) (i : desktop_app_instance) : desktop_app_instance :=
  Instance (inst_id i) (inst_flags i) (inst_windows i) (inst_app i) v (inst_argument i).
Definition running (i : desktop_app_instance) : bool := negb (Z.land (inst_flags i) DESKTOP_APP_INSTANCE_FLAG_RUNNING =? 0).

Record registry : Type := Registry {
  apps : list desktop_app;
  app_count : Z;
  instances : list desktop_app_instance;
  next_instance_id : Z;
  reg_initialized : Z
}.
Definition set_apps (v : list desktop_app) (r : registry) : registry := Registry v (app_count r) (instances r) (next_instance_id r) (reg_initialized r).
Definition set_app_count (v : Z) (r : registry) : registry := Registry (apps r) v (instances r) (next_instance_id r) (reg_initialized r).
Definition set_instances (v : list desktop_app_instance) (r : registry) : registry := Registry (apps r) (app_count r) v (next_instance_id r) (reg_initialized r).
Definition set_next_instance_id (v : Z) (r : registry) : registry := Registry (apps r) (app_count r) (instances r) v (reg_initialized r).
Definition set_reg_initialized (v : Z) (r : registry) : registry := Registry (apps r) (app_count r) (instances r) (next_instance_id r) v.

(** The numbers of the functions of the applications that are built in. *)
Definition terminal_app : Z := 1.
Definition editor_app_fn : Z := 2.
Definition files_app : Z := 3.

Definition get_instance (i : Z) : M registry desktop_app_instance := l <- gets instances;; deref (rd l i).
Definition put_instance (i : Z) (v : desktop_app_instance) : M registry unit :=
  l <- gets instances;;
  l1 <- deref (wr l i v);;
  modify (set_instances l1).

(** A string whose first character is read. *)
Definition empty_string (s : mem) : option bool := c ← rd s 0; Some (c =? 0).

Fixpoint find_app_loop (fuel : nat) (index : Z) (name : mem) : M registry (option Z) :=
  match fuel with
  | O => ret None
  | S fuel' =>
      l <- gets apps;;
      a <- deref (rd l index);;
      order <- deref (strcmp (app_name a) name);;
      if order =? 0 then ret (Some index) else find_app_loop fuel' (index + 1) name
  end.

(** [desktop_register_app] behind the call of [desktop_registry_ensure_defaults]. *)
Definition register_app (app : option desktop_app) : M registry Z :=
  match app with
  | None => ret (-1)
  | Some a =>
      no_name <- deref (empty_string (app_name a));;
      no_display <- deref (empty_string (display_name a));;
      if (no_name || no_display) || (match on_start a with Some _ => false | None => true end) then ret (-1)
      else
        n <- gets app_count;;
        found <- find_app_loop (Z.to_nat n) 0 (app_name a);;
        l <- gets apps;;
        match found with
        | Some index => l' <- deref (wr l index a);; modify (set_apps l');; ret 0
        | None =>
            if DESKTOP_REGISTRY_MAX_APPS <=? n then ret (-1)
            else l' <- deref (wr l n a);; modify (set_apps l');; modify (set_app_count (u32 (n + 1)));; ret 0
        end
  end.

(** The structure on the stack, filled for one of the built-in applications. *)
Definition default_app (name display : string) (f : Z) : M registry desktop_app :=
  n <- deref (strlcpy (zeroes DESKTOP_APP_NAME_MAX) 0 (cstr name) DESKTOP_APP_NAME_MAX);;
  d <- deref (strlcpy (zeroes DESKTOP_APP_DISPLAY_NAME_MAX) 0 (cstr display) DESKTOP_APP_DISPLAY_NAME_MAX);;
  ret (App n.1 d.1 (Some f) (Some f) (Some f) (Some f)).

(** While it runs, the registration finds the flag set. *)
Definition desktop_registry_ensure_defaults : M registry unit :=
  done <- gets reg_initialized;;
  if negb (done =? 0) then ret tt
  else
    modify (set_reg_initialized 1);;
    t <- default_app "terminal" "Terminal" terminal_app;; register_app (Some t);;
    e <- default_app "editor" "Editor" editor_app_fn;; register_app (Some e);;
    f <- default_app "files" "Files" files_app;; register_app (Some f);;
    ret tt.

Definition desktop_register_app (app : option desktop_app) : M registry Z := desktop_registry_ensure_defaults;; register_app app.

Fixpoint alloc_instance_loop (fuel : nat) (index : Z) (app : Z) (argument : option mem) : M registry (option Z) :=
  match fuel with
  | O => ret None
  | S fuel' =>
      i <- get_instance index;;
      if negb (running i) then
        next <- gets next_instance_id;;
        modify (set_next_instance_id (u32 (next + 1)));;
        arg <- match argument with
               | None => ret (zeroes DESKTOP_APP_ARGUMENT_MAX)
               | Some a => copied <- deref (strlcpy (zeroes DESKTOP_APP_ARGUMENT_MAX) 0 a DESKTOP_APP_ARGUMENT_MAX);; ret copied.1
               end;;
        put_instance index (Instance next DESKTOP_APP_INSTANCE_FLAG_RUNNING 0 (Some app) None arg);;
        ret (Some index)
      else alloc_instance_loop fuel' (index + 1) app argument
  end.
Definition desktop_alloc_app_instance (app : option Z) (argument : option mem) : M registry (option Z) :=
  match app with
  | None => ret None
  | Some a => alloc_instance_loop (Z.to_nat DESKTOP_REGISTRY_MAX_INSTANCES) 0 a argument
  end.

Definition desktop_find_app (name : option mem) : M registry (option Z) :=
  desktop_registry_ensure_defaults;;
  match name with
  | None => ret None
  | Some s =>
      e <- deref (empty_string s);;
      if (e : bool) then ret None else n <- gets app_count;; find_app_loop (Z.to_nat n) 0 s
  end.

(** The result points to the array, the number of its entries is stored. *)
Definition desktop_list_apps : M registry Z := desktop_registry_ensure_defaults;; gets app_count.
Definition desktop_list_app_instances : M registry Z := desktop_registry_ensure_defaults;; ret DESKTOP_REGISTRY_MAX_INSTANCES.

Fixpoint running_count_loop (fuel : nat) (index count : Z) (name : mem) : M registry Z :=
  match fuel with
  | O => ret count
  | S fuel' =>
      i <- get_instance index;;
      match running i, inst_app i with
      | true, Some a =>
          l <- gets apps;;
          app <- deref (rd l a);;
          order <- deref (strcmp (app_name app) name);;
          running_count_loop fuel' (index + 1) (if order =? 0 then u32 (count + 1) else count) name
      | _, _ => running_count_loop fuel' (index + 1) count name
      end
  end.
Definition desktop_app_running_count (name : option mem) : M registry Z :=
  desktop_registry_ensure_defaults;;
  match name with
  | None => ret 0
  | Some s =>
      e <- deref (empty_string s);;
      if (e : bool) then ret 0 else running_count_loop (Z.to_nat DESKTOP_REGISTRY_MAX_INSTANCES) 0 0 s
  end.

Definition desktop_app_instance_window_opened (instance : option Z) : M registry unit :=
  match instance with
  | None => ret tt
  | Some i =>
      v <- get_instance i;;
      if negb (running v) then ret tt else put_instance i (set_inst_windows (u32 (inst_windows v + 1)) v)
  end.
