(* ===== verification/Taskbar.v ===== *)
(** The bar at the bottom of the desktop (src/src/desktop/taskbar.c): where its
    buttons and the launcher's entries are, what a click hits, and the drawing. *)
From S2P Require Import Prelude LibString BlockDevice Graphics Theme DesktopWindow AppRegistry.

Definition DESKTOP_TASKBAR_HEIGHT : Z := 24.
Definition DESKTOP_TASKBAR_PADDING : Z := 8.
Definition DESKTOP_TASKBAR_LAUNCHER_WIDTH : Z := 68.
Definition DESKTOP_TASKBAR_WINDOW_BUTTON_WIDTH : Z := 88.
Definition DESKTOP_TASKBAR_WINDOW_BUTTON_GAP : Z := 6.
Definition DESKTOP_TASKBAR_MENU_WIDTH : Z := 144.
Definition DESKTOP_TASKBAR_MENU_HEADER_HEIGHT : Z := 20.
Definition DESKTOP_TASKBAR_MENU_ITEM_HEIGHT : Z := 18.

Definition desktop_taskbar_menu_height (app_count : Z) : Z :=
  u32 (DESKTOP_TASKBAR_MENU_HEADER_HEIGHT + u32 (app_count * DESKTOP_TASKBAR_MENU_ITEM_HEIGHT) + 8).
Definition desktop_taskbar_y (screen_height : Z) : Z :=
  if screen_height <=? DESKTOP_TASKBAR_HEIGHT then 0 else i32 (screen_height - DESKTOP_TASKBAR_HEIGHT).
Definition desktop_taskbar_height : Z := DESKTOP_TASKBAR_HEIGHT.

(** A window that has a button. *)
Definition has_button (w : desktop_window) : bool := negb (id w =? 0) && (Z.land (win_flags w) DESKTOP_WINDOW_FLAG_NO_CONTROLS =? 0).

Section geometry.
Context {S : Type}.

Definition desktop_taskbar_window_button_x (button_index : Z) : M S Z :=
  offset <- signed (i32 button_index * (DESKTOP_TASKBAR_WINDOW_BUTTON_WIDTH + DESKTOP_TASKBAR_WINDOW_BUTTON_GAP));;
  signed (DESKTOP_TASKBAR_PADDING + DESKTOP_TASKBAR_LAUNCHER_WIDTH + DESKTOP_TASKBAR_WINDOW_BUTTON_GAP + offset).

Fixpoint count_loop (fuel : nat) (windows : list desktop_window) (index count : Z) : M S Z :=
  match fuel with
  | O => ret count
  | Datatypes.S fuel' => w <- deref (rd windows index);; count_loop fuel' windows (index + 1) (if has_button w then u32 (count + 1) else count)
  end.
Definition desktop_taskbar_visible_window_count (windows : list desktop_window) (window_count : Z) : M S Z :=
  count_loop (Z.to_nat window_count) windows 0 0.

(** Decimal digits of the minutes and seconds. *)
Definition desktop_taskbar_format_uptime (uptime_ms : Z) (buffer : option mem) (buffer_size : Z) : M S (option mem) :=
  match buffer with
  | None => ret None
  | Some b =>
      if buffer_size <? 9 then ret buffer
      else
        let seconds := uptime_ms / 1000 in
        let minutes := seconds / 60 in
        let seconds := seconds mod 60 in
        let minutes := minutes mod 100 in
        let digit v := ch "0" + v mod 10 in
        let text := [ch "u"; ch "p"; ch " "; digit (minutes / 10); digit minutes; ch ":"; digit (seconds / 10); digit seconds; 0] in
        b' <- deref (if lenZ b <? 9 then None else Some (splice b 0 text));;
        ret (Some b')
  end.

Definition desktop_taskbar_contains_point (screen_height x y : Z) : bool := u32 (desktop_taskbar_y screen_height) <=? y.

(** The rows of the buttons. *)
Definition in_button_rows (bar_y y : Z) : M S bool :=
  top <- signed (bar_y + 4);;
  if y <? u32 top then ret false
  else
    edge <- signed (bar_y + DESKTOP_TASKBAR_HEIGHT);;
    bottom <- signed (edge - 4);;
    ret (y <? u32 bottom).

Definition desktop_taskbar_launcher_hit_test (screen_height x y : Z) : M S bool :=
  let bar_y := desktop_taskbar_y screen_height in
  if (x <? DESKTOP_TASKBAR_PADDING) || (DESKTOP_TASKBAR_PADDING + DESKTOP_TASKBAR_LAUNCHER_WIDTH <=? x) then ret false else in_button_rows bar_y y.

Definition menu_top (bar_y menu_height : Z) : M S Z :=
  menu_y <- signed (bar_y - i32 menu_height);;
  ret (if menu_y <? 0 then 0 else menu_y).

(** [apps] is never null where the function is called. *)
Definition desktop_taskbar_launcher_item_hit_test (screen_height app_count x y : Z) : M S Z :=
  if app_count =? 0 then ret app_count
  else
    let bar_y := desktop_taskbar_y screen_height in
    let menu_height := desktop_taskbar_menu_height app_count in
    menu_y <- menu_top bar_y menu_height;;
    first <- signed (menu_y + DESKTOP_TASKBAR_MENU_HEADER_HEIGHT);;
    last <- signed (menu_y + i32 menu_height);;
    if (x <? DESKTOP_TASKBAR_PADDING) || (DESKTOP_TASKBAR_PADDING + DESKTOP_TASKBAR_MENU_WIDTH <=? x) || (y <? u32 first) || (u32 last <=? y) then ret app_count
    else
      let index := u32 (y - u32 first) / DESKTOP_TASKBAR_MENU_ITEM_HEIGHT in
      ret (if app_count <=? index then app_count else index).

Fixpoint button_loop (fuel : nat) (windows : list desktop_window) (bar_y index button_index x y : Z) : M S Z :=
  match fuel with
  | O => ret 0
  | Datatypes.S fuel' =>
      w <- deref (rd windows index);;
      if negb (has_button w) then button_loop fuel' windows bar_y (index + 1) button_index x y
      else
        button_x <- desktop_taskbar_window_button_x button_index;;
        right <- signed (button_x + DESKTOP_TASKBAR_WINDOW_BUTTON_WIDTH);;
        rows <- (if (x <? u32 button_x) || (u32 right <=? x) then ret false else in_button_rows bar_y y);;
        if (rows : bool) then ret (id w) else button_loop fuel' windows bar_y (index + 1) (u32 (button_index + 1)) x y
  end.
Definition desktop_taskbar_window_button_hit_test (windows : list desktop_window) (window_count screen_height x y : Z) : M S Z :=
  button_loop (Z.to_nat window_count) windows (desktop_taskbar_y screen_height) 0 0 x y.
End geometry.

(** ** Drawing

    It works on the canvas of a larger state, whose registry it asks for the
    running instances of an application. *)

Section drawing.
Context {X : Type} `{DiskDriver X} (local64 : mem).
Context {S : Type} (get_cv : S -> canvas X) (put_cv : canvas X -> S -> S) (running_count : option mem -> M S Z).

Definition on_cv {A} (m : M (canvas X) A) : M S A := zoom get_cv put_cv m.
Definition fill x y w h c : M S unit := on_cv (on_canvas (draw_fill_rect x y w h c)).
Definition frame x y w h c : M S unit := on_cv (on_canvas (draw_rect x y w h c)).
Definition write_at x y str fg bg : M S unit := on_cv (on_canvas (gfx_draw_string x y (Some str) fg bg)).

(** The buttons of the windows. *)
Fixpoint draw_buttons (fuel : nat) (theme : desktop_theme) (windows : list desktop_window) (focused_window_id bar_y index button_index : Z) : M S unit :=
  match fuel with
  | O => ret tt
  | Datatypes.S fuel' =>
      let text_color := desktop_theme_lighten (text theme) 208 in
      let accent_color := desktop_theme_lighten (accent theme) 48 in
      let button_bg := desktop_theme_lighten (taskbar theme) 16 in
      w <- deref (rd windows index);;
      if negb (has_button w) then draw_buttons fuel' theme windows focused_window_id bar_y (index + 1) button_index
      else
        button_x <- desktop_taskbar_window_button_x button_index;;
        button_y <- signed (bar_y + 4);;
        let bg := if id w =? focused_window_id then titlebar_active theme else button_bg in
        let bg := if negb (Z.land (win_flags w) DESKTOP_WINDOW_FLAG_MINIMIZED =? 0) then desktop_theme_darken button_bg 20 else bg in
        fill button_x button_y DESKTOP_TASKBAR_WINDOW_BUTTON_WIDTH (DESKTOP_TASKBAR_HEIGHT - 8) bg;;
        frame button_x button_y DESKTOP_TASKBAR_WINDOW_BUTTON_WIDTH (DESKTOP_TASKBAR_HEIGHT - 8) accent_color;;
        tx <- signed (button_x + 6);; ty <- signed (bar_y + 8);;
        write_at tx ty (title w) text_color bg;;
        draw_buttons fuel' theme windows focused_window_id bar_y (index + 1) (u32 (button_index + 1))
  end.

(** The entries of the launcher. *)
Fixpoint draw_items (fuel : nat) (theme : desktop_theme) (apps : list desktop_app) (selected menu_y index : Z) : M S unit :=
  match fuel with
  | O => ret tt
  | Datatypes.S fuel' =>
      first <- signed (menu_y + DESKTOP_TASKBAR_MENU_HEADER_HEIGHT);;
      item_y <- signed (first + i32 (u32 (index * DESKTOP_TASKBAR_MENU_ITEM_HEIGHT)));;
      let item_bg := if index =? selected then desktop_theme_lighten (accent theme) 20 else window_body theme in
      (if index =? selected then row <- signed (item_y + 1);; fill (DESKTOP_TASKBAR_PADDING + 4) row (DESKTOP_TASKBAR_MENU_WIDTH - 8) (DESKTOP_TASKBAR_MENU_ITEM_HEIGHT - 2) item_bg else ret tt);;
      app <- deref (rd apps index);;
      n <- running_count (Some (app_name app));;
      let size := DESKTOP_APP_DISPLAY_NAME_MAX + 4 in
      item_text <- (if 0 <? n then t <- deref (strlcpy (zeroes size) 0 (cstr "* ") size);; ret t.1 else ret (zeroes size));;
      used <- deref (strlen item_text);;
      item_text <- deref (strlcpy item_text used (display_name app) (u64 (size - used)));;
      ty <- signed (item_y + 4);;
      write_at (DESKTOP_TASKBAR_PADDING + 8) ty item_text.1 (text theme) item_bg;;
      draw_items fuel' theme apps selected menu_y (index + 1)
  end.

Definition draw_launcher (theme : desktop_theme) (apps : list desktop_app) (app_count launcher_selected_index bar_y : Z) : M S unit :=
  let menu_height := desktop_taskbar_menu_height app_count in
  menu_y <- menu_top bar_y menu_height;;
  fill DESKTOP_TASKBAR_PADDING menu_y DESKTOP_TASKBAR_MENU_WIDTH (i32 menu_height) (window_body theme);;
  frame DESKTOP_TASKBAR_PADDING menu_y DESKTOP_TASKBAR_MENU_WIDTH (i32 menu_height) (desktop_theme_darken (taskbar theme) 8);;
  ty <- signed (menu_y + 10);;
  write_at (DESKTOP_TASKBAR_PADDING + 8) ty (cstr "Launcher") (text theme) (window_body theme);;
  draw_items (Z.to_nat app_count) theme apps launcher_selected_index menu_y 0.

(** [uptime_text] is the array of 16 bytes on the stack. *)
Definition desktop_taskbar_draw (uptime_text : mem) (windows : list desktop_window) (window_count focused_window_id : Z)
    (apps : list desktop_app) (app_count launcher_selected_index uptime_ms : Z) (launcher_open : bool) : M S unit :=
  fb <- gets (fun s => cv_screen (get_cv s));;
  match fb with
  | None => ret tt
  | Some f =>
      if negb (bool_decide (is_Some (fb_buffer f))) then ret tt
      else
        theme <- on_cv (the_theme local64);;
        let text_color := desktop_theme_lighten (text theme) 208 in
        let accent_color := desktop_theme_lighten (accent theme) 48 in
        let launcher_bg := desktop_theme_lighten (taskbar theme) 24 in
        let bar_y := desktop_taskbar_y (fb_height f) in
        button_y <- signed (bar_y + 4);;
        fill 0 bar_y (i32 (fb_width f)) DESKTOP_TASKBAR_HEIGHT (taskbar theme);;
        fill DESKTOP_TASKBAR_PADDING button_y DESKTOP_TASKBAR_LAUNCHER_WIDTH (DESKTOP_TASKBAR_HEIGHT - 8) launcher_bg;;
        frame DESKTOP_TASKBAR_PADDING button_y DESKTOP_TASKBAR_LAUNCHER_WIDTH (DESKTOP_TASKBAR_HEIGHT - 8) accent_color;;
        ty <- signed (bar_y + 8);;
        write_at (DESKTOP_TASKBAR_PADDING + 16) ty (cstr "Start") text_color launcher_bg;;
        draw_buttons (Z.to_nat window_count) theme windows focused_window_id bar_y 0 0;;
        uptime <- desktop_taskbar_format_uptime uptime_ms (Some uptime_text) 16;;
        shown <- deref uptime;;
        tx <- signed (i32 (fb_width f) - 72);;
        write_at tx ty shown text_color (taskbar theme);;
        if launcher_open then draw_launcher theme apps app_count launcher_selected_index bar_y else ret tt
  end.
End drawing.
