(* ===== verification/Desktop.v ===== *)
(** The desktop's state and its window table (src/src/desktop/desktop.c, and the
    part of app_registry.c that starts and stops instances): focus, stacking
    order, opening and closing of windows, modal alerts, the session that other
    parts can ask for. A pointer into the table is an index. The functions of
    the applications are numbers, which the classes below interpret. *)
From S2P Require Import Prelude LibString Klog Input BlockDevice BlockIO TinyFS Vfs FileTable Graphics Cursor Theme DesktopWindow DesktopInput Console Bus AppRegistry Taskbar.

Definition DESKTOP_MAX_WINDOWS : Z := 8.
Definition DESKTOP_ALERT_WIDTH : Z := 320.
Definition DESKTOP_ALERT_HEIGHT : Z := 108.
Definition DESKTOP_DIALOG_MESSAGE_MAX : Z := 128.
Definition DESKTOP_SESSION_WINDOW_MAX : Z := 8.

Record desktop_session_window_state : Type := SessionWindow {
  sw_id : Z;
  sw_x : Z;
  sw_y : Z;
  sw_width : Z;
  sw_height : Z;
  sw_flags : Z;
  sw_owner_instance_id : Z;
  sw_z_index : Z;
  sw_title : mem;
  sw_app_name : mem
}.

Record desktop_session_state : Type := Session {
  ss_window_count : Z;
  ss_focused_window_id : Z;
  ss_focused_app_instance_id : Z;
  ss_modal_window_id : Z;
  ss_launcher_open : Z;
  ss_focused_app_name : mem;
  ss_windows : list desktop_session_window_state
}.

Record desktop_dialog_state : Type := Dialog { dlg_title : mem; dlg_message : mem }.

Record desktop_state : Type := DesktopState {
  ds_fb : bool;
  ds_windows : list desktop_window;
  ds_session : desktop_session_state;
  ds_window_count : Z;
  ds_frame_counter : Z;
  ds_cursor_x : Z;
  ds_cursor_y : Z;
  ds_focused_window_index : Z;
  ds_primary_button_down : Z;
  ds_drag_window_id : Z;
  ds_drag_offset_x : Z;
  ds_drag_offset_y : Z;
  ds_saved_console_mode : Z;
  ds_saved_input_mode : Z;
  ds_launcher_selected_index : Z;
  ds_launcher_open : Z;
  ds_initialized : Z;
  ds_active : Z;
  ds_dirty : Z;
  ds_modal_window_id : Z
}.
Definition set_ds_fb (v : bool) (s : desktop_state) : desktop_state :=
  DesktopState v (ds_windows s) (ds_session s) (ds_window_count s) (ds_frame_counter s) (ds_cursor_x s) (ds_cursor_y s) (ds_focused_window_index s) (ds_primary_button_down s) (ds_drag_window_id s) (ds_drag_offset_x s) (ds_drag_offset_y s) (ds_saved_console_mode s) (ds_saved_input_mode s) (ds_launcher_selected_index s) (ds_launcher_open s) (ds_initialized s) (ds_active s) (ds_dirty s) (ds_modal_window_id s).
Definition set_ds_windows (v : list desktop_window) (s : desktop_state) : desktop_state :=
  DesktopState (ds_fb s) v (ds_session s) (ds_window_count s) (ds_frame_counter s) (ds_cursor_x s) (ds_cursor_y s) (ds_focused_window_index s) (ds_primary_button_down s) (ds_drag_window_id s) (ds_drag_offset_x s) (ds_drag_offset_y s) (ds_saved_console_mode s) (ds_saved_input_mode s) (ds_launcher_selected_index s) (ds_launcher_open s) (ds_initialized s) (ds_active s) (ds_dirty s) (ds_modal_window_id s).
Definition set_ds_session (v : desktop_session_state) (s : desktop_state) : desktop_state :=
  DesktopState (ds_fb s) (ds_windows s) v (ds_window_count s) (ds_frame_counter s) (ds_cursor_x s) (ds_cursor_y s) (ds_focused_window_index s) (ds_primary_button_down s) (ds_drag_window_id s) (ds_drag_offset_x s) (ds_drag_offset_y s) (ds_saved_console_mode s) (ds_saved_input_mode s) (ds_launcher_selected_index s) (ds_launcher_open s) (ds_initialized s) (ds_active s) (ds_dirty s) (ds_modal_window_id s).
Definition set_ds_window_count (v : Z) (s : desktop_state) : desktop_state :=
  DesktopState (ds_fb s) (ds_windows s) (ds_session s) v (ds_frame_counter s) (ds_cursor_x s) (ds_cursor_y s) (ds_focused_window_index s) (ds_primary_button_down s) (ds_drag_window_id s) (ds_drag_offset_x s) (ds_drag_offset_y s) (ds_saved_console_mode s) (ds_saved_input_mode s) (ds_launcher_selected_index s) (ds_launcher_open s) (ds_initialized s) (ds_active s) (ds_dirty s) (ds_modal_window_id s).
Definition set_ds_frame_counter (v : Z) (s : desktop_state) : desktop_state :=
  DesktopState (ds_fb s) (ds_windows s) (ds_session s) (ds_window_count s) v (ds_cursor_x s) (ds_cursor_y s) (ds_focused_window_index s) (ds_primary_button_down s) (ds_drag_window_id s) (ds_drag_offset_x s) (ds_drag_offset_y s) (ds_saved_console_mode s) (ds_saved_input_mode s) (ds_launcher_selected_index s) (ds_launcher_open s) (ds_initialized s) (ds_active s) (ds_dirty s) (ds_modal_window_id s).
Definition set_ds_cursor_x (v : Z) (s : desktop_state) : desktop_state :=
  DesktopState (ds_fb s) (ds_windows s) (ds_session s) (ds_window_count s) (ds_frame_counter s) v (ds_cursor_y s) (ds_focused_window_index s) (ds_primary_button_down s) (ds_drag_window_id s) (ds_drag_offset_x s) (ds_drag_offset_y s) (ds_saved_console_mode s) (ds_saved_input_mode s) (ds_launcher_selected_index s) (ds_launcher_open s) (ds_initialized s) (ds_active s) (ds_dirty s) (ds_modal_window_id s).
Definition set_ds_cursor_y (v : Z) (s : desktop_state) : desktop_state :=
  DesktopState (ds_fb s) (ds_windows s) (ds_session s) (ds_window_count s) (ds_frame_counter s) (ds_cursor_x s) v (ds_focused_window_index s) (ds_primary_button_down s) (ds_drag_window_id s) (ds_drag_offset_x s) (ds_drag_offset_y s) (ds_saved_console_mode s) (ds_saved_input_mode s) (ds_launcher_selected_index s) (ds_launcher_open s) (ds_initialized s) (ds_active s) (ds_dirty s) (ds_modal_window_id s).
Definition set_ds_focused_window_index (v : Z) (s : desktop_state) : desktop_state :=
  DesktopState (ds_fb s) (ds_windows s) (ds_session s) (ds_window_count s) (ds_frame_counter s) (ds_cursor_x s) (ds_cursor_y s) v (ds_primary_button_down s) (ds_drag_window_id s) (ds_drag_offset_x s) (ds_drag_offset_y s) (ds_saved_console_mode s) (ds_saved_input_mode s) (ds_launcher_selected_index s) (ds_launcher_open s) (ds_initialized s) (ds_active s) (ds_dirty s) (ds_modal_window_id s).
Definition set_ds_primary_button_down (v : Z) (s : desktop_state) : desktop_state :=
  DesktopState (ds_fb s) (ds_windows s) (ds_session s) (ds_window_count s) (ds_frame_counter s) (ds_cursor_x s) (ds_cursor_y s) (ds_focused_window_index s) v (ds_drag_window_id s) (ds_drag_offset_x s) (ds_drag_offset_y s) (ds_saved_console_mode s) (ds_saved_input_mode s) (ds_launcher_selected_index s) (ds_launcher_open s) (ds_initialized s) (ds_active s) (ds_dirty s) (ds_modal_window_id s).
Definition set_ds_drag_window_id (v : Z) (s : desktop_state) : desktop_state :=
  DesktopState (ds_fb s) (ds_windows s) (ds_session s) (ds_window_count s) (ds_frame_counter s) (ds_cursor_x s) (ds_cursor_y s) (ds_focused_window_index s) (ds_primary_button_down s) v (ds_drag_offset_x s) (ds_drag_offset_y s) (ds_saved_console_mode s) (ds_saved_input_mode s) (ds_launcher_selected_index s) (ds_launcher_open s) (ds_initialized s) (ds_active s) (ds_dirty s) (ds_modal_window_id s).
Definition set_ds_drag_offset_x (v : Z) (s : desktop_state) : desktop_state :=
  DesktopState (ds_fb s) (ds_windows s) (ds_session s) (ds_window_count s) (ds_frame_counter s) (ds_cursor_x s) (ds_cursor_y s) (ds_focused_window_index s) (ds_primary_button_down s) (ds_drag_window_id s) v (ds_drag_offset_y s) (ds_saved_console_mode s) (ds_saved_input_mode s) (ds_launcher_selected_index s) (ds_launcher_open s) (ds_initialized s) (ds_active s) (ds_dirty s) (ds_modal_window_id s).
Definition set_ds_drag_offset_y (v : Z) (s : desktop_state) : desktop_state :=
  DesktopState (ds_fb s) (ds_windows s) (ds_session s) (ds_window_count s) (ds_frame_counter s) (ds_cursor_x s) (ds_cursor_y s) (ds_focused_window_index s) (ds_primary_button_down s) (ds_drag_window_id s) (ds_drag_offset_x s) v (ds_saved_console_mode s) (ds_saved_input_mode s) (ds_launcher_selected_index s) (ds_launcher_open s) (ds_initialized s) (ds_active s) (ds_dirty s) (ds_modal_window_id s).
Definition set_ds_saved_console_mode (v : Z) (s : desktop_state) : desktop_state :=
  DesktopState (ds_fb s) (ds_windows s) (ds_session s) (ds_window_count s) (ds_frame_counter s) (ds_cursor_x s) (ds_cursor_y s) (ds_focused_window_index s) (ds_primary_button_down s) (ds_drag_window_id s) (ds_drag_offset_x s) (ds_drag_offset_y s) v (ds_saved_input_mode s) (ds_launcher_selected_index s) (ds_launcher_open s) (ds_initialized s) (ds_active s) (ds_dirty s) (ds_modal_window_id s).
Definition set_ds_saved_input_mode (v : Z) (s : desktop_state) : desktop_state :=
  DesktopState (ds_fb s) (ds_windows s) (ds_session s) (ds_window_count s) (ds_frame_counter s) (ds_cursor_x s) (ds_cursor_y s) (ds_focused_window_index s) (ds_primary_button_down s) (ds_drag_window_id s) (ds_drag_offset_x s) (ds_drag_offset_y s) (ds_saved_console_mode s) v (ds_launcher_selected_index s) (ds_launcher_open s) (ds_initialized s) (ds_active s) (ds_dirty s) (ds_modal_window_id s).
Definition set_ds_launcher_selected_index (v : Z) (s : desktop_state) : desktop_state :=
  DesktopState (ds_fb s) (ds_windows s) (ds_session s) (ds_window_count s) (ds_frame_counter s) (ds_cursor_x s) (ds_cursor_y s) (ds_focused_window_index s) (ds_primary_button_down s) (ds_drag_window_id s) (ds_drag_offset_x s) (ds_drag_offset_y s) (ds_saved_console_mode s) (ds_saved_input_mode s) v (ds_launcher_open s) (ds_initialized s) (ds_active s) (ds_dirty s) (ds_modal_window_id s).
Definition set_ds_launcher_open (v : Z) (s : desktop_state) : desktop_state :=
  DesktopState (ds_fb s) (ds_windows s) (ds_session s) (ds_window_count s) (ds_frame_counter s) (ds_cursor_x s) (ds_cursor_y s) (ds_focused_window_index s) (ds_primary_button_down s) (ds_drag_window_id s) (ds_drag_offset_x s) (ds_drag_offset_y s) (ds_saved_console_mode s) (ds_saved_input_mode s) (ds_launcher_selected_index s) v (ds_initialized s) (ds_active s) (ds_dirty s) (ds_modal_window_id s).
Definition set_ds_initialized (v : Z) (s : desktop_state) : desktop_state :=
  DesktopState (ds_fb s) (ds_windows s) (ds_session s) (ds_window_count s) (ds_frame_counter s) (ds_cursor_x s) (ds_cursor_y s) (ds_focused_window_index s) (ds_primary_button_down s) (ds_drag_window_id s) (ds_drag_offset_x s) (ds_drag_offset_y s) (ds_saved_console_mode s) (ds_saved_input_mode s) (ds_launcher_selected_index s) (ds_launcher_open s) v (ds_active s) (ds_dirty s) (ds_modal_window_id s).
Definition set_ds_active (v : Z) (s : desktop_state) : desktop_state :=
  DesktopState (ds_fb s) (ds_windows s) (ds_session s) (ds_window_count s) (ds_frame_counter s) (ds_cursor_x s) (ds_cursor_y s) (ds_focused_window_index s) (ds_primary_button_down s) (ds_drag_window_id s) (ds_drag_offset_x s) (ds_drag_offset_y s) (ds_saved_console_mode s) (ds_saved_input_mode s) (ds_launcher_selected_index s) (ds_launcher_open s) (ds_initialized s) v (ds_dirty s) (ds_modal_window_id s).
Definition set_ds_dirty (v : Z) (s : desktop_state) : desktop_state :=
  DesktopState (ds_fb s) (ds_windows s) (ds_session s) (ds_window_count s) (ds_frame_counter s) (ds_cursor_x s) (ds_cursor_y s) (ds_focused_window_index s) (ds_primary_button_down s) (ds_drag_window_id s) (ds_drag_offset_x s) (ds_drag_offset_y s) (ds_saved_console_mode s) (ds_saved_input_mode s) (ds_launcher_selected_index s) (ds_launcher_open s) (ds_initialized s) (ds_active s) v (ds_modal_window_id s).
Definition set_ds_modal_window_id (v : Z) (s : desktop_state) : desktop_state :=
  DesktopState (ds_fb s) (ds_windows s) (ds_session s) (ds_window_count s) (ds_frame_counter s) (ds_cursor_x s) (ds_cursor_y s) (ds_focused_window_index s) (ds_primary_button_down s) (ds_drag_window_id s) (ds_drag_offset_x s) (ds_drag_offset_y s) (ds_saved_console_mode s) (ds_saved_input_mode s) (ds_launcher_selected_index s) (ds_launcher_open s) (ds_initialized s) (ds_active s) (ds_dirty s) v.


Definition zero_window : desktop_window := Window 0 0 0 0 0 0 0 0 0 0 (zeroes DESKTOP_WINDOW_TITLE_MAX) None None None None.
Definition zero_session_window : desktop_session_window_state :=
  SessionWindow 0 0 0 0 0 0 0 0 (zeroes DESKTOP_WINDOW_TITLE_MAX) (zeroes DESKTOP_APP_NAME_MAX).
Definition zero_session : desktop_session_state :=
  Session 0 0 0 0 0 (zeroes DESKTOP_APP_NAME_MAX) (replicate (Z.to_nat DESKTOP_SESSION_WINDOW_MAX) zero_session_window).
Definition zero_desktop : desktop_state :=
  DesktopState false (replicate (Z.to_nat DESKTOP_MAX_WINDOWS) zero_window) zero_session 0 0 0 0 0 0 0 0 0 0 0 0 0 0 0 0 0.

Definition set_win_flags (v : Z) (w : desktop_window) : desktop_window :=
  Window (id w) (win_x w) (win_y w) (win_width w) (win_height w) v (restore_x w) (restore_y w) (restore_width w) (restore_height w)
    (title w) (owner w) (draw w) (handle_event w) (user_data w).
Definition set_win_title (v : mem) (w : desktop_window) : desktop_window :=
  Window (id w) (win_x w) (win_y w) (win_width w) (win_height w) (win_flags w) (restore_x w) (restore_y w) (restore_width w) (restore_height w)
    v (owner w) (draw w) (handle_event w) (user_data w).
Definition set_win_owner (v : option Z) (w : desktop_window) : desktop_window :=
  Window (id w) (win_x w) (win_y w) (win_width w) (win_height w) (win_flags w) (restore_x w) (restore_y w) (restore_width w) (restore_height w)
    (title w) v (draw w) (handle_event w) (user_data w).
Definition set_win_user_data (v : option Z) (w : desktop_window) : desktop_window :=
  Window (id w) (win_x w) (win_y w) (win_width w) (win_height w) (win_flags w) (restore_x w) (restore_y w) (restore_width w) (restore_height w)
    (title w) (owner w) (draw w) (handle_event w) v.

(** The window takes the screen, and goes back where it was. *)
Definition maximized (width height : Z) (w : desktop_window) : desktop_window :=
  Window (id w) 0 0 width height (Z.lor (win_flags w) DESKTOP_WINDOW_FLAG_MAXIMIZED) (win_x w) (win_y w) (win_width w) (win_height w)
    (title w) (owner w) (draw w) (handle_event w) (user_data w).
Definition restored (w : desktop_window) : desktop_window :=
  Window (id w) (restore_x w) (restore_y w) (restore_width w) (restore_height w) (Z.land (win_flags w) (not32 DESKTOP_WINDOW_FLAG_MAXIMIZED))
    (restore_x w) (restore_y w) (restore_width w) (restore_height w) (title w) (owner w) (draw w) (handle_event w) (user_data w).

(** The bits of the flags that make a window shown or minimised. *)
Definition shown (w : desktop_window) : desktop_window :=
  set_win_flags (Z.lor (Z.land (win_flags w) (not32 DESKTOP_WINDOW_FLAG_MINIMIZED)) DESKTOP_WINDOW_FLAG_VISIBLE) w.
Definition minimized (w : desktop_window) : desktop_window :=
  set_win_flags (Z.lor (Z.land (win_flags w) (not32 DESKTOP_WINDOW_FLAG_VISIBLE)) DESKTOP_WINDOW_FLAG_MINIMIZED) w.

(** ** The desktop among the components it uses

    There is one framebuffer: the display's. The desktop, the console and the
    pointer each keep a pointer to it or none. [A] is what the applications keep
    in their own variables. *)

Record desk (X D G C K A : Type) : Type := Desk {
  d_desktop : desktop_state;
  d_alert_dialog : desktop_dialog_state;
  d_registry : registry;
  d_theme : theme_state X;
  d_display : framebuffer;
  d_cursor : gfx_cursor_state;
  d_console : console G C K;
  d_timer : timer D;
  d_apps : A
}.
Arguments Desk {X D G C K A}.
Arguments d_desktop {X D G C K A}.
Arguments d_alert_dialog {X D G C K A}.
Arguments d_registry {X D G C K A}.
Arguments d_theme {X D G C K A}.
Arguments d_display {X D G C K A}.
Arguments d_cursor {X D G C K A}.
Arguments d_console {X D G C K A}.
Arguments d_timer {X D G C K A}.
Arguments d_apps {X D G C K A}.

(** The functions of the applications: a function's number, the index of the
    instance, the index of the window. *)
Class AppRender (S : Type) := { call_on_render : Z -> Z -> Z -> M S unit; call_draw : Z -> Z -> option Z -> M S unit }.
Class AppStart (S : Type) := { call_on_start : Z -> Z -> M S Z }.
Class AppEvent (S : Type) := { call_on_event : Z -> Z -> Z -> desktop_event -> M S unit; call_handle_event : Z -> Z -> desktop_event -> option Z -> M S unit }.
Class AppClose (S : Type) := { call_on_close : Z -> Z -> M S unit }.

(** A pointer to the framebuffer, and what is behind it. *)
Definition attached (p : screen) (f : framebuffer) : screen := match p with Some _ => Some f | None => None end.
Definition written_back (p : screen) (f : framebuffer) : framebuffer := match p with Some f' => f' | None => f end.

Section desktop.
Context {X D G C K A : Type} `{DiskDriver X} `{Hardware D} `{DisplayDriver G} `{OutputCapture C} `{KeyboardDriver K}.
Context (local64 : mem) (uptime_text : mem).
Abbreviation state := (desk X D G C K A).
Implicit Types d : state.

Definition set_d_desktop v d : state := Desk v (d_alert_dialog d) (d_registry d) (d_theme d) (d_display d) (d_cursor d) (d_console d) (d_timer d) (d_apps d).
Definition set_d_alert_dialog v d : state := Desk (d_desktop d) v (d_registry d) (d_theme d) (d_display d) (d_cursor d) (d_console d) (d_timer d) (d_apps d).
Definition set_d_registry v d : state := Desk (d_desktop d) (d_alert_dialog d) v (d_theme d) (d_display d) (d_cursor d) (d_console d) (d_timer d) (d_apps d).
Definition set_d_theme v d : state := Desk (d_desktop d) (d_alert_dialog d) (d_registry d) v (d_display d) (d_cursor d) (d_console d) (d_timer d) (d_apps d).
Definition set_d_display v d : state := Desk (d_desktop d) (d_alert_dialog d) (d_registry d) (d_theme d) v (d_cursor d) (d_console d) (d_timer d) (d_apps d).
Definition set_d_cursor v d : state := Desk (d_desktop d) (d_alert_dialog d) (d_registry d) (d_theme d) (d_display d) v (d_console d) (d_timer d) (d_apps d).
Definition set_d_console v d : state := Desk (d_desktop d) (d_alert_dialog d) (d_registry d) (d_theme d) (d_display d) (d_cursor d) v (d_timer d) (d_apps d).
Definition set_d_timer v d : state := Desk (d_desktop d) (d_alert_dialog d) (d_registry d) (d_theme d) (d_display d) (d_cursor d) (d_console d) v (d_apps d).
Definition set_d_apps v d : state := Desk (d_desktop d) (d_alert_dialog d) (d_registry d) (d_theme d) (d_display d) (d_cursor d) (d_console d) (d_timer d) v.

Definition on_registry {B} (m : M registry B) : M state B := zoom d_registry set_d_registry m.
Definition on_timer {B} (m : M (timer D) B) : M state B := zoom d_timer set_d_timer m.
Definition on_files {B} (m : M (files X) B) : M state B := zoom (fun d => th_files (d_theme d)) (fun v d => set_d_theme (set_th_files v (d_theme d)) d) m.
Definition on_theme {B} (m : M (theme_state X) B) : M state B := zoom d_theme set_d_theme m.

(** The components that draw find the framebuffer as the others left it. *)
Definition get_canvas d : canvas X := Canvas (if ds_fb (d_desktop d) then Some (d_display d) else None) (d_theme d).
Definition put_canvas (v : canvas X) d : state := set_d_theme (cv_theme v) (set_d_display (written_back (cv_screen v) (d_display d)) d).
Definition get_cursor d : gfx_cursor_state := set_cur_fb (attached (cur_fb (d_cursor d)) (d_display d)) (d_cursor d).
Definition put_cursor (v : gfx_cursor_state) d : state := set_d_cursor v (set_d_display (written_back (cur_fb v) (d_display d)) d).
Definition get_console d : console G C K :=
  set_gfx_console (set_con_fb (attached (con_fb (gfx_console (d_console d))) (d_display d)) (gfx_console (d_console d))) (d_console d).
Definition put_console (v : console G C K) d : state := set_d_console v (set_d_display (written_back (con_fb (gfx_console v)) (d_display d)) d).
Definition on_canvas {B} (m : M (canvas X) B) : M state B := zoom get_canvas put_canvas m.
Definition on_cursor {B} (m : M gfx_cursor_state B) : M state B := zoom get_cursor put_cursor m.
Definition on_console {B} (m : M (console G C K) B) : M state B := zoom get_console put_console m.

Definition var {B} (f : desktop_state -> B) : M state B := gets (fun d => f (d_desktop d)).
Definition assign (f : desktop_state -> desktop_state) : M state unit := modify (fun d => set_d_desktop (f (d_desktop d)) d).
Definition get_window (i : Z) : M state desktop_window := l <- var ds_windows;; deref (rd l i).
Definition put_window (i : Z) (w : desktop_window) : M state unit := l <- var ds_windows;; l1 <- deref (wr l i w);; assign (set_ds_windows l1).
Definition mark_dirty : M state unit := assign (set_ds_dirty 1).
(** [desktop_state.fb->...] *)
Definition the_fb : M state framebuffer := f <- gets (fun d => cv_screen (get_canvas d));; deref f.

(** ** Looking up windows *)

Fixpoint index_loop (fuel : nat) (index wid : Z) : M state Z :=
  match fuel with
  | O => var ds_window_count
  | S fuel' => w <- get_window index;; if id w =? wid then ret index else index_loop fuel' (index + 1) wid
  end.
Definition desktop_find_window_index_by_id (wid : Z) : M state Z :=
  n <- var ds_window_count;;
  if wid =? 0 then ret n else index_loop (Z.to_nat n) 0 wid.
Definition desktop_find_window_by_id (wid : Z) : M state (option Z) :=
  index <- desktop_find_window_index_by_id wid;;
  n <- var ds_window_count;;
  ret (if n <=? index then None else Some index).

Fixpoint highest_loop (fuel : nat) (index highest_id : Z) : M state Z :=
  match fuel with
  | O => ret highest_id
  | S fuel' => w <- get_window index;; highest_loop fuel' (index + 1) (if highest_id <? id w then id w else highest_id)
  end.
Definition desktop_next_window_id : M state Z :=
  n <- var ds_window_count;;
  highest_id <- highest_loop (Z.to_nat n) 0 0;;
  ret (u32 (highest_id + 1)).

(** ** The session *)

(** The entry of a window, and what the session says of the focused one. *)
Definition owner_instance (w : desktop_window) : M state (option desktop_app_instance) :=
  match owner w with None => ret None | Some i => v <- on_registry (get_instance i);; ret (Some v) end.
Definition copy_app_name (dest : mem) (i : desktop_app_instance) : M state mem :=
  match inst_app i with
  | None => ret dest
  | Some a => l <- gets (fun d => apps (d_registry d));; app <- deref (rd l a);; copied <- deref (strlcpy dest 0 (app_name app) DESKTOP_APP_NAME_MAX);; ret copied.1
  end.
Definition session_entry (index : Z) (w : desktop_window) : M state desktop_session_window_state :=
  t <- deref (strlcpy (zeroes DESKTOP_WINDOW_TITLE_MAX) 0 (title w) DESKTOP_WINDOW_TITLE_MAX);;
  o <- owner_instance w;;
  match o with
  | None => ret (SessionWindow (id w) (win_x w) (win_y w) (win_width w) (win_height w) (win_flags w) 0 index t.1 (zeroes DESKTOP_APP_NAME_MAX))
  | Some i =>
      name <- copy_app_name (zeroes DESKTOP_APP_NAME_MAX) i;;
      ret (SessionWindow (id w) (win_x w) (win_y w) (win_width w) (win_height w) (win_flags w) (inst_id i) index t.1 name)
  end.
Fixpoint session_loop (fuel : nat) (index focused_window_id : Z) (session : desktop_session_state) : M state desktop_session_state :=
  match fuel with
  | O => ret session
  | S fuel' =>
      w <- get_window index;;
      entry <- session_entry index w;;
      entries <- deref (wr (ss_windows session) index entry);;
      o <- owner_instance w;;
      focus <- match o with
               | Some i =>
                   if id w =? focused_window_id then name <- copy_app_name (ss_focused_app_name session) i;; ret (inst_id i, name)
                   else ret (ss_focused_app_instance_id session, ss_focused_app_name session)
               | None => ret (ss_focused_app_instance_id session, ss_focused_app_name session)
               end;;
      session_loop fuel' (index + 1) focused_window_id
        (Session (ss_window_count session) (ss_focused_window_id session) focus.1 (ss_modal_window_id session) (ss_launcher_open session) focus.2 entries)
  end.
Definition focused_id : M state Z :=
  i <- var ds_focused_window_index;;
  n <- var ds_window_count;;
  if i <? n then w <- get_window i;; ret (id w) else ret 0.
Definition desktop_refresh_session_state : M state unit :=
  n <- var ds_window_count;;
  modal <- var ds_modal_window_id;;
  launcher <- var ds_launcher_open;;
  focused_window_id <- focused_id;;
  session <- session_loop (Z.to_nat (Z.min n DESKTOP_SESSION_WINDOW_MAX)) 0 focused_window_id
    (Session n focused_window_id 0 modal launcher (ss_focused_app_name zero_session) (ss_windows zero_session));;
  assign (set_ds_session session).
Definition desktop_get_session_state : M state desktop_session_state := desktop_refresh_session_state;; var ds_session.

(** [name[0] != '\0' ? name : "(system)"]. *)
Definition app_or_system (name : mem) : M state mem := e <- deref (empty_string name);; ret (if (e : bool) then cstr "(system)" else name).
Definition print_session_window (window : desktop_session_window_state) : M state unit :=
  name <- app_or_system (sw_app_name window);;
  kprintf "  [%u] id=%u title=%s app=%s" [AUint (sw_z_index window); AUint (sw_id window); AStr (Some (sw_title window)); AStr (Some name)];;
  (if negb (sw_owner_instance_id window =? 0) then kprintf " #%u" [AUint (sw_owner_instance_id window)] else ret tt);;
  kprintf (nl " pos=(%d,%d) size=%ux%u flags=%x")
    [AInt (sw_x window); AInt (sw_y window); AUint (sw_width window); AUint (sw_height window); AUint (sw_flags window)].
Definition desktop_debug_print_session_state : M state unit :=
  desktop_refresh_session_state;;
  session <- var ds_session;;
  kprintf (nl "desktop session") [];;
  kprintf (nl "  windows: %u") [AUint (ss_window_count session)];;
  kprintf (nl "  focused window: %u") [AUint (ss_focused_window_id session)];;
  name <- app_or_system (ss_focused_app_name session);;
  kprintf "  focused app: %s" [AStr (Some name)];;
  (if negb (ss_focused_app_instance_id session =? 0) then kprintf " #%u" [AUint (ss_focused_app_instance_id session)] else ret tt);;
  kprintf (nl "") [];;
  kprintf (nl "  modal window: %u") [AUint (ss_modal_window_id session)];;
  kprintf (nl "  launcher: %s") [AStr (Some (cstr (if ss_launcher_open session =? 0 then "closed" else "open")))];;
  for_range (Z.to_nat (Z.min (ss_window_count session) DESKTOP_SESSION_WINDOW_MAX)) 0
    (fun index => window <- deref (rd (ss_windows session) index);; print_session_window window).

(** ** Focus and stacking order *)

Definition restore_minimized (index : Z) : M state unit :=
  w <- get_window index;;
  if negb (Z.land (win_flags w) DESKTOP_WINDOW_FLAG_MINIMIZED =? 0) then put_window index (shown w) else ret tt.

Definition desktop_focus_window (window : option Z) : M state unit :=
  match window with
  | None => ret tt
  | Some p =>
      w <- get_window p;;
      window_index <- desktop_find_window_index_by_id (id w);;
      n <- var ds_window_count;;
      if n <=? window_index then ret tt
      else
        restore_minimized window_index;;
        assign (set_ds_focused_window_index window_index);;
        desktop_refresh_session_state;;
        mark_dirty
  end.

(** [windows[index] = windows[index + 1]] up to the last window. *)
Definition shift_windows (from count : Z) : M state unit :=
  for_range (Z.to_nat (count - 1 - from)) from (fun index => w <- get_window (index + 1);; put_window index w).

Definition desktop_bring_to_front (window : option Z) : M state unit :=
  match window with
  | None => ret tt
  | Some p =>
      w <- get_window p;;
      window_index <- desktop_find_window_index_by_id (id w);;
      n <- var ds_window_count;;
      if n <=? window_index then ret tt
      else
        restore_minimized window_index;;
        if u32 (window_index + 1) =? n then desktop_focus_window window
        else
          moved_window <- get_window window_index;;
          shift_windows window_index n;;
          put_window (u32 (n - 1)) moved_window;;
          assign (set_ds_focused_window_index (u32 (n - 1)));;
          desktop_refresh_session_state;;
          mark_dirty
  end.

Fixpoint recompute_loop (fuel : nat) (index : Z) : M state bool :=
  match fuel with
  | O => ret false
  | S fuel' =>
      w <- get_window (index - 1);;
      if desktop_window_is_visible (Some w) then assign (set_ds_focused_window_index (index - 1));; ret true
      else recompute_loop fuel' (index - 1)
  end.
Definition desktop_recompute_focus : M state unit :=
  n <- var ds_window_count;;
  if n =? 0 then assign (set_ds_focused_window_index 0)
  else
    found <- recompute_loop (Z.to_nat n) n;;
    if (found : bool) then ret tt else assign (set_ds_focused_window_index (u32 (n - 1))).

Definition desktop_cycle_focus_by_id (window_id : Z) : M state unit :=
  window <- desktop_find_window_by_id window_id;;
  match window with
  | None => ret tt
  | Some _ => desktop_focus_window window;; desktop_bring_to_front window
  end.

(** ** Geometry *)

Definition desktop_work_area_height : M state Z :=
  fb <- gets (fun d => cv_screen (get_canvas d));;
  ret (match fb with
       | None => 0
       | Some f => if fb_height f <=? desktop_taskbar_height then 0 else u32 (fb_height f - desktop_taskbar_height)
       end).
Definition clamp_window (p : Z) : M state unit :=
  f <- the_fb;;
  height <- desktop_work_area_height;;
  w <- get_window p;;
  clamped <- desktop_window_clamp_to_screen (Some w) (fb_width f) height;;
  w1 <- deref clamped;;
  put_window p w1.

Definition desktop_center_window (window : option Z) : M state unit :=
  has_fb <- var ds_fb;;
  match window, has_fb with
  | Some p, true =>
      screen_height <- desktop_work_area_height;;
      f <- the_fb;;
      w <- get_window p;;
      dx <- signed (i32 (fb_width f) - i32 (win_width w));;
      dy <- signed (i32 screen_height - i32 (win_height w));;
      let y := Z.quot dy 2 in
      put_window p (set_win_y (if y <? 0 then 0 else y) (set_win_x (Z.quot dx 2) w));;
      clamp_window p
  | _, _ => ret tt
  end.

Definition desktop_minimize_window (window : option Z) : M state unit :=
  match window with
  | None => ret tt
  | Some p =>
      w <- get_window p;;
      window_index <- desktop_find_window_index_by_id (id w);;
      n <- var ds_window_count;;
      if n <=? window_index then ret tt
      else
        target <- get_window window_index;;
        put_window window_index (minimized target);;
        assign (set_ds_drag_window_id 0);;
        desktop_recompute_focus;;
        desktop_refresh_session_state;;
        mark_dirty
  end.

Definition desktop_toggle_maximize_window (window : option Z) : M state unit :=
  has_fb <- var ds_fb;;
  match window, has_fb with
  | Some p, true =>
      w <- get_window p;;
      window_index <- desktop_find_window_index_by_id (id w);;
      n <- var ds_window_count;;
      if n <=? window_index then ret tt
      else
        target <- get_window window_index;;
        (if Z.land (win_flags target) DESKTOP_WINDOW_FLAG_MAXIMIZED =? 0 then
           f <- the_fb;;
           height <- desktop_work_area_height;;
           put_window window_index (maximized (fb_width f) height target)
         else
           put_window window_index (restored target);;
           clamp_window window_index);;
        target <- get_window window_index;;
        put_window window_index (shown target);;
        assign (set_ds_drag_window_id 0);;
        desktop_refresh_session_state;;
        mark_dirty
  | _, _ => ret tt
  end.
End desktop.
