(* ===== verification/DesktopRender.v ===== *)
(** What the desktop draws (src/src/desktop/desktop.c): the background, the
    contents of windows, the alert, the taskbar and the pointer, and the flush
    to the display. *)
From S2P Require Import Prelude LibString Input BlockDevice BlockIO TinyFS Vfs FileTable Graphics Cursor Theme DesktopWindow DesktopInput Console Bus AppRegistry Taskbar Desktop.

Section render.
Context {X D G C K A : Type} `{DiskDriver X} `{Hardware D} `{DisplayDriver G} `{OutputCapture C} `{KeyboardDriver K}.
Context (local64 : mem) (uptime_text : mem).
Abbreviation state := (desk X D G C K A).
Implicit Types d : state.

Definition fill x y w h c : M state unit := Taskbar.fill get_canvas put_canvas x y w h c.
Definition frame x y w h c : M state unit := Taskbar.frame get_canvas put_canvas x y w h c.
Definition write_at x y str fg bg : M state unit := Taskbar.write_at get_canvas put_canvas x y str fg bg.
(** Text at a distance from a corner. *)
Definition write_in x y dx dy str fg bg : M state unit :=
  tx <- signed (x + dx);; ty <- signed (y + dy);; write_at tx ty str fg bg.

Definition desktop_draw_background : M state unit :=
  theme <- on_theme (desktop_theme_get local64);;
  let header_color := desktop_theme_lighten (accent theme) 12 in
  let panel_color := desktop_theme_darken (accent theme) 16 in
  let text_color := desktop_theme_lighten (text theme) 208 in
  f <- the_fb;;
  on_canvas (DesktopWindow.on_canvas (fb_clear (background theme)));;
  fill 0 0 (i32 (fb_width f)) 52 header_color;;
  let right_panel_width := fb_width f / 4 in
  (if 0 <? right_panel_width then
     area <- desktop_work_area_height;;
     panel_height <- signed (i32 area - 52);;
     fill (i32 (u32 (fb_width f - right_panel_width))) 52 (i32 right_panel_width) panel_height panel_color
   else ret tt);;
  write_at 24 18 (cstr "duck-os desktop") text_color header_color;;
  x <- signed (i32 (fb_width f) - 176);;
  write_at x 18 (cstr "F1 launcher  Enter click") text_color header_color.

(** The alert; its state is never null. *)
Definition desktop_dialog_draw (w : desktop_window) : M state unit :=
  theme <- on_theme (desktop_theme_get local64);;
  let body_color := desktop_theme_lighten (window_body theme) 10 in
  let border_color := desktop_theme_darken (accent theme) 24 in
  let text_color := text theme in
  let muted_color := desktop_theme_darken (text theme) 16 in
  let button_color := desktop_theme_lighten (accent theme) 16 in
  x <- desktop_window_content_x (Some w);;
  y <- desktop_window_content_y (Some w);;
  let width := desktop_window_content_width (Some w) in
  let height := desktop_window_content_height (Some w) in
  fill x y (i32 width) (i32 height) body_color;;
  frame x y (i32 width) (i32 height) border_color;;
  message <- gets (fun d => dlg_message (d_alert_dialog d));;
  write_in x y 8 10 message text_color body_color;;
  write_in x y 8 28 (cstr "Enter Esc dismiss") muted_color body_color;;
  margin <- signed (i32 width - 52);;
  button_x <- signed (x + Z.quot margin 2);;
  below <- signed (y + i32 height);;
  button_y <- signed (below - 26);;
  fill button_x button_y 52 16 button_color;;
  frame button_x button_y 52 16 border_color;;
  write_in button_x button_y 18 4 (cstr "OK") text_color button_color.

(** The number of [desktop_dialog_draw] as a draw function of windows. *)
Definition dialog_draw : Z := 1.

Context `{AppRender state}.

(** What a window without drawing functions shows. *)
Definition draw_builtin_contents (w : desktop_window) (x y text_color body_color : Z) : M state unit :=
  let line dy str := write_in x y 8 dy str text_color body_color in
  if id w =? 1 then
    line 10 (cstr "Desktop runtime online");; line 26 (cstr "Title bars can be dragged");; line 42 (cstr "Taskbar launcher below")
  else if id w =? 2 then
    line 10 (cstr "Renderer: framebuffer");; line 26 (cstr "Input: focus + drag routing");; line 42 (cstr "Loop: cooperative");;
    down <- var ds_primary_button_down;;
    line 58 (cstr (if negb (down =? 0) then "Pointer: button down" else "Pointer: button up"))
  else
    line 10 (cstr "App placeholder window");; line 26 (title w);; line 42 (cstr "Kernel-mode built-in app");; line 58 (cstr "Registry launch path works").

(** A function of the application that owns a window, by the field it is in. *)
Definition owner_function (w : desktop_window) (field : desktop_app -> option Z) : M state (option (Z * Z)) :=
  o <- owner_instance w;;
  match owner w, o with
  | Some i, Some v =>
      match inst_app v with
      | None => ret None
      | Some a => l <- gets (fun d => apps (d_registry d));; app <- deref (rd l a);; ret (match field app with None => None | Some f => Some (f, i) end)
      end
  | _, _ => ret None
  end.

Definition desktop_draw_window_contents (window : Z) : M state unit :=
  theme <- on_theme (desktop_theme_get local64);;
  let body_color := desktop_theme_lighten (window_body theme) 18 in
  let border_color := desktop_theme_darken (accent theme) 18 in
  let text_color := text theme in
  w <- get_window window;;
  x <- desktop_window_content_x (Some w);;
  y <- desktop_window_content_y (Some w);;
  let width := desktop_window_content_width (Some w) in
  let height := desktop_window_content_height (Some w) in
  if (width =? 0) || (height =? 0) then ret tt
  else
    fill x y (i32 width) (i32 height) body_color;;
    frame x y (i32 width) (i32 height) border_color;;
    render <- owner_function w on_render;;
    match render with
    | Some (f, i) => call_on_render f i window
    | None =>
        match draw w with
        | Some f => if f =? dialog_draw then desktop_dialog_draw w else call_draw f window (user_data w)
        | None => draw_builtin_contents w x y text_color body_color
        end
    end.

Definition draw_window (active : bool) (window : Z) : M state unit :=
  w <- get_window window;;
  on_canvas (desktop_window_draw local64 (Some w) active);;
  w1 <- get_window window;;
  if desktop_window_is_visible (Some w1) then desktop_draw_window_contents window else ret tt.

(** The loop over the windows reads the table in each round; the table has
    [DESKTOP_MAX_WINDOWS] entries. *)
Fixpoint draw_windows (fuel : nat) (index : Z) : M state unit :=
  n <- var ds_window_count;;
  if n <=? index then ret tt
  else
    match fuel with
    | O => undef
    | S fuel' =>
        modal <- var ds_modal_window_id;;
        w <- get_window index;;
        focused <- var ds_focused_window_index;;
        (if negb (modal =? 0) && (id w =? modal) then ret tt else draw_window (index =? focused) index);;
        draw_windows fuel' (index + 1)
    end.

Definition draw_modal : M state unit :=
  modal <- var ds_modal_window_id;;
  if modal =? 0 then ret tt
  else
    modal_window <- desktop_find_window_by_id modal;;
    match modal_window with None => ret tt | Some p => draw_window true p end.

Definition desktop_list_apps_count : M state Z := on_registry desktop_list_apps.

Definition draw_taskbar (app_count : Z) : M state unit :=
  windows <- var ds_windows;;
  n <- var ds_window_count;;
  focused_window_id <- focused_id;;
  l <- gets (fun d => apps (d_registry d));;
  selected <- var ds_launcher_selected_index;;
  uptime <- on_timer timer_uptime_ms;;
  launcher <- var ds_launcher_open;;
  desktop_taskbar_draw local64 get_canvas put_canvas (fun name => on_registry (desktop_app_running_count name)) uptime_text
    windows n focused_window_id l app_count selected uptime (negb (launcher =? 0)).

Definition desktop_render : M state unit :=
  initialized <- var ds_initialized;;
  fb <- gets (fun d => cv_screen (get_canvas d));;
  match fb with
  | Some f =>
      if (initialized =? 0) || negb (bool_decide (is_Some (fb_buffer f))) then ret tt
      else
        app_count <- desktop_list_apps_count;;
        desktop_draw_background;;
        draw_windows (Z.to_nat DESKTOP_MAX_WINDOWS) 0;;
        draw_modal;;
        draw_taskbar app_count;;
        available <- on_cursor gfx_cursor_available;;
        (if (available : bool) then on_cursor gfx_cursor_refresh else ret tt);;
        assign (fun s => set_ds_frame_counter (u32 (ds_frame_counter s + 1)) s);;
        assign (set_ds_dirty 0)
  | None => ret tt
  end.

Definition desktop_display_available : M state bool :=
  fb <- gets (fun d => cv_screen (get_canvas d));;
  g <- gets (fun d => gpu (d_console d));;
  ret (match fb with Some f => bool_decide (is_Some (fb_buffer f)) && virtio_gpu_available g | None => false end).
(** The whole framebuffer, which has the size of the display. *)
Definition virtio_gpu_flush : M state Z :=
  g <- gets (fun d => gpu (d_console d));;
  f <- gets d_display;;
  if negb (virtio_gpu_available g) then ret (-1)
  else
    let flushed := virtio_gpu_flush_rect 0 0 (fb_width f) (fb_height f) f g in
    modify (fun d => set_d_console (set_gpu flushed.1 (d_console d)) d);;
    ret flushed.2.
Definition flush_display : M state unit :=
  available <- desktop_display_available;;
  if (available : bool) then virtio_gpu_flush;; ret tt else ret tt.
(** The tail of the functions that open a window. *)
Definition show_now : M state unit :=
  active <- var ds_active;;
  if active =? 0 then ret tt else desktop_render;; flush_display.
End render.
