(* ===== verification/DesktopTable.v ===== *)
(** The desktop's window table: its invariant, what the session says of it, and
    the operations on it as functions of the list of windows from the bottom to
    the top. *)
From S2P Require Import Prelude LibString Klog Input BlockDevice BlockIO TinyFS Vfs FileTable Graphics Cursor Theme DesktopWindow DesktopInput Console Bus AppRegistry Taskbar Desktop.

(** ** Invariant *)

(** A string of bytes. *)
Definition terminated (m : mem) : Prop := exists t, cval m = Some t /\ Forall (fun c => 0 <= c < 256) t /\ lenZ t < 2 ^ 20.

Record registry_ok (r : registry) : Prop := {
  ro_apps : lenZ (apps r) = DESKTOP_REGISTRY_MAX_APPS;
  ro_count : 0 <= app_count r <= DESKTOP_REGISTRY_MAX_APPS;
  ro_names : Forall (fun a => terminated (app_name a) /\ terminated (display_name a)) (apps r);
  ro_instances : lenZ (instances r) = DESKTOP_REGISTRY_MAX_INSTANCES;
  ro_app : Forall (fun i => match inst_app i with Some a => 0 <= a < app_count r | None => True end) (instances r)
}.

Definition stack_of (s : desktop_state) : list desktop_window := take (Z.to_nat (ds_window_count s)) (ds_windows s).
(** Coordinates with room for the sums of the code. *)
Definition within (x y width height : Z) : Prop := - 2 ^ 20 <= x <= 2 ^ 20 /\ - 2 ^ 20 <= y <= 2 ^ 20 /\ 0 <= width <= 2 ^ 20 /\ 0 <= height <= 2 ^ 20.
Record window_ok (w : desktop_window) : Prop := {
  wo_title : lenZ (title w) = DESKTOP_WINDOW_TITLE_MAX /\ terminated (title w);
  wo_id : 0 < id w < 2 ^ 32;
  wo_owner : match owner w with Some i => 0 <= i < DESKTOP_REGISTRY_MAX_INSTANCES | None => True end;
  wo_place : within (win_x w) (win_y w) (win_width w) (win_height w);
  wo_restore : within (restore_x w) (restore_y w) (restore_width w) (restore_height w)
}.
Record shaped (s : desktop_state) : Prop := {
  to_length : lenZ (ds_windows s) = DESKTOP_MAX_WINDOWS;
  to_count : 0 <= ds_window_count s <= DESKTOP_MAX_WINDOWS;
  to_blank : drop (Z.to_nat (ds_window_count s)) (ds_windows s) = replicate (Z.to_nat (DESKTOP_MAX_WINDOWS - ds_window_count s)) zero_window
}.
Record table_ok (s : desktop_state) : Prop := {
  to_shape :> shaped s;
  to_windows : Forall window_ok (stack_of s);
  to_ids : NoDup (id <$> stack_of s);
  to_focus : 0 <= ds_focused_window_index s
}.

(** A fixed-size array filled from a string, and the name of a window's
    application in the same form. *)
Definition copied (size : Z) (s : mem) : mem := default (zeroes size) (fst <$> strlcpy (zeroes size) 0 s size).
Definition instance_of (r : registry) (w : desktop_window) : option desktop_app_instance := i ← owner w; rd (instances r) i.
Definition app_of (r : registry) (i : desktop_app_instance) : option desktop_app := a ← inst_app i; rd (apps r) a.
Definition name_of (r : registry) (i : desktop_app_instance) : mem :=
  match app_of r i with Some a => copied DESKTOP_APP_NAME_MAX (app_name a) | None => zeroes DESKTOP_APP_NAME_MAX end.
Definition entry_of (r : registry) (index : nat) (w : desktop_window) : desktop_session_window_state :=
  let o := instance_of r w in
  SessionWindow (id w) (win_x w) (win_y w) (win_width w) (win_height w) (win_flags w) (match o with Some i => inst_id i | None => 0 end)
    (Z.of_nat index) (copied DESKTOP_WINDOW_TITLE_MAX (title w)) (match o with Some i => name_of r i | None => zeroes DESKTOP_APP_NAME_MAX end).
Definition focused_window (s : desktop_state) : option desktop_window := stack_of s !! Z.to_nat (ds_focused_window_index s).
(** What the session says: a function of the windows, the focus and the registry. *)
Definition session_of (r : registry) (s : desktop_state) : desktop_session_state :=
  let o := w ← focused_window s; instance_of r w in
  Session (ds_window_count s) (match focused_window s with Some w => id w | None => 0 end) (match o with Some i => inst_id i | None => 0 end)
    (ds_modal_window_id s) (ds_launcher_open s) (match o with Some i => name_of r i | None => zeroes DESKTOP_APP_NAME_MAX end)
    (imap (entry_of r) (stack_of s) ++ replicate (Z.to_nat (DESKTOP_SESSION_WINDOW_MAX - ds_window_count s)) zero_session_window).

Lemma copied_eq size s t : 0 < size -> cval s = Some t -> strlcpy (zeroes size) 0 s size = Some (copied size s, lenZ t).
Proof.
  intros Hs Hc. destruct (cval_inv _ _ Hc) as (Hn & r & ->). unfold copied, zeroes.
  rewrite strlcpy_spec; [done|done|lia|done|]. unfold lenZ. rewrite length_replicate. lia.
Qed.

(** Appending to a string in an array. *)
Lemma append_run dest p src t size : cval dest = Some p -> cval src = Some t -> 0 <= lenZ p < size -> lenZ dest = size ->
  exists r, strlcpy dest (lenZ p) src (size - lenZ p) = Some (r, lenZ t) /\ cval r = Some (p ++ take (Z.to_nat (size - lenZ p - 1)) t) /\ lenZ r = size.
Proof.
  intros Hd Hs Hp Hl. destruct (cval_inv _ _ Hs) as (Hn & r0 & ->). destruct (cval_inv _ _ Hd) as (Hpn & r1 & E).
  eexists. split; [apply strlcpy_spec; [done|lia..]|]. set (k := take _ t). assert (Hk : (length k <= Z.to_nat (size - lenZ p - 1))%nat) by (unfold k; rewrite length_take; lia).
  unfold lenZ in *. rewrite Nat2Z.id. split; [|rewrite length_splice; [done|]; rewrite length_app; cbn; lia].
  unfold splice. rewrite E, take_app_length, <- app_assoc, app_assoc. cbn [app]. apply cval_app. apply no_nul_app. split; [done|]. by apply no_nul_take.
Qed.
Lemma zeroes_cval n : 0 < n -> cval (zeroes n) = Some [].
Proof. intros Hn. unfold zeroes. destruct (Z.to_nat n) eqn:E; [lia|done]. Qed.
Lemma lenZ_zeroes n : 0 <= n -> lenZ (zeroes n) = n.
Proof. intros Hn. unfold lenZ, zeroes. rewrite length_replicate. lia. Qed.
Lemma terminated_app m p t n : cval m = Some (p ++ take n t) -> Forall (fun c => 0 <= c < 256) p -> Forall (fun c => 0 <= c < 256) t -> lenZ m < 2 ^ 20 -> terminated m.
Proof.
  intros Hm Hp Ht Hl. exists (p ++ take n t). split; [done|]. split; [apply Forall_app_2; [done|by apply Forall_take]|].
  destruct (cval_inv _ _ Hm) as (_ & r & E). rewrite E in Hl. unfold lenZ in *. rewrite length_app in Hl. lia.
Qed.

Lemma copied_ok size s : 0 < size < 2 ^ 20 -> terminated s -> lenZ (copied size s) = size /\ terminated (copied size s).
Proof.
  intros Hs (t & Ht & Hb & _). destruct (append_run (zeroes size) [] s t size) as (r & E & Hc & Hl); [apply zeroes_cval; lia|done|unfold lenZ; cbn; lia|apply lenZ_zeroes; lia|].
  unfold copied. change (lenZ (@nil Z)) with 0 in *. rewrite Z.sub_0_r in E. rewrite E. cbn. split; [done|]. apply (terminated_app _ [] t _ Hc); [by apply Forall_nil|done|lia].
Qed.

Section table.
Context {X D G C K A : Type} `{DiskDriver X} `{Hardware D} `{DisplayDriver G} `{OutputCapture C} `{KeyboardDriver K}.
Abbreviation state := (desk X D G C K A).
Implicit Types d : state.

Definition upd (f : desktop_state -> desktop_state) d : state := set_d_desktop (f (d_desktop d)) d.
Definition stack d : list desktop_window := stack_of (d_desktop d).
Record tables_ok d : Prop := { tb_table : table_ok (d_desktop d); tb_registry : registry_ok (d_registry d) }.

Lemma assign_run f d : assign f d = Ret tt (upd f d) [].
Proof. done. Qed.

Lemma get_window_run d i w : rd (ds_windows (d_desktop d)) i = Some w -> get_window i d = Ret w d [].
Proof. intros Hr. unfold get_window, var. rewrite bind_gets. cbn beta. by rewrite Hr. Qed.
Lemma put_window_run d i w : 0 <= i < lenZ (ds_windows (d_desktop d)) ->
  put_window i w d = Ret tt (upd (set_ds_windows (<[Z.to_nat i := w]> (ds_windows (d_desktop d)))) d) [].
Proof. intros Hi. unfold put_window, var. rewrite bind_gets. cbn beta. by rewrite (bind_deref_Some _ _ _ _ (wr_Some _ _ _ Hi)). Qed.

Lemma rd_stack d i w : 0 <= i -> stack d !! Z.to_nat i = Some w -> rd (ds_windows (d_desktop d)) i = Some w.
Proof.
  intros Hi Hl. unfold rd. rewrite (proj2 (Z.leb_le 0 i)) by done. unfold stack, stack_of in Hl. by apply lookup_take_Some in Hl as [? _].
Qed.
Lemma length_stack d : shaped (d_desktop d) -> Z.of_nat (length (stack d)) = ds_window_count (d_desktop d).
Proof.
  intros [Hl Hc _]. unfold stack, stack_of. rewrite length_take. unfold lenZ, DESKTOP_MAX_WINDOWS in *. lia.
Qed.
Lemma stack_lookup d i : shaped (d_desktop d) -> 0 <= i < ds_window_count (d_desktop d) -> exists w, stack d !! Z.to_nat i = Some w.
Proof. intros Ht Hi. apply lookup_lt_is_Some_2. pose proof (length_stack _ Ht). lia. Qed.
Lemma stack_bound d i w : shaped (d_desktop d) -> stack d !! i = Some w -> (Z.of_nat i < ds_window_count (d_desktop d))%Z.
Proof. intros Ht Hl%lookup_lt_Some. pose proof (length_stack _ Ht). lia. Qed.

(** ** Looking up *)

Definition index_of (wid : Z) d : Z :=
  match list_find (fun w => id w = wid) (stack d) with
  | Some (i, _) => if wid =? 0 then ds_window_count (d_desktop d) else Z.of_nat i
  | None => ds_window_count (d_desktop d)
  end.

Lemma index_loop_run d wid n i : table_ok (d_desktop d) -> Z.of_nat (i + n) = ds_window_count (d_desktop d) ->
  index_loop n (Z.of_nat i) wid d =
    Ret (match list_find (fun w => id w = wid) (drop i (stack d)) with Some (j, _) => Z.of_nat (i + j) | None => ds_window_count (d_desktop d) end) d [].
Proof.
  intros Ht. revert i. induction n as [|n IH]; intros i Hn; cbn [index_loop].
  - rewrite drop_ge by (pose proof (length_stack _ Ht); lia). done.
  - destruct (stack_lookup d (Z.of_nat i) Ht ltac:(lia)) as [w Hw]. rewrite (bind_Ret_nil _ _ _ _ _ (get_window_run _ _ _ (rd_stack d (Z.of_nat i) w ltac:(lia) Hw))).
    rewrite Nat2Z.id in Hw. rewrite (drop_S _ _ _ Hw). cbn [list_find]. destruct (Z.eqb_spec (id w) wid) as [He|He].
    + rewrite decide_True by done. by rewrite Nat.add_0_r.
    + rewrite decide_False by done. replace (Z.of_nat i + 1) with (Z.of_nat (S i)) by lia. rewrite IH by lia.
      destruct (list_find _ (drop (S i) (stack d))) as [[j v]|]; cbn; [|done]. do 2 f_equal. lia.
Qed.

Lemma find_index_run d wid : table_ok (d_desktop d) -> desktop_find_window_index_by_id wid d = Ret (index_of wid d) d [].
Proof.
  intros Ht. unfold desktop_find_window_index_by_id, var, index_of. rewrite bind_gets. cbn beta. destruct (Z.eqb_spec wid 0) as [->|Hw].
  - unfold ret. destruct (list_find _ _) as [[? ?]|]; done.
  - pose proof (to_count _ Ht). change 0 with (Z.of_nat 0). rewrite index_loop_run by (try done; lia). rewrite drop_0.
    by destruct (list_find _ (stack d)) as [[j v]|].
Qed.

Lemma find_run d wid : table_ok (d_desktop d) ->
  desktop_find_window_by_id wid d = Ret (if ds_window_count (d_desktop d) <=? index_of wid d then None else Some (index_of wid d)) d [].
Proof. intros Ht. unfold desktop_find_window_by_id. rewrite (bind_Ret_nil _ _ _ _ _ (find_index_run _ _ Ht)). done. Qed.

(** A window is found by its id. *)
Lemma index_of_window d i w : table_ok (d_desktop d) -> stack d !! i = Some w -> index_of (id w) d = Z.of_nat i.
Proof.
  intros Ht Hw. unfold index_of. assert (Hok : window_ok w) by exact (Forall_lookup_1 _ _ _ _ (to_windows _ Ht) Hw).
  assert (Hf : list_find (fun v => id v = id w) (stack d) = Some (i, w)).
  { apply list_find_Some. split; [done|]. split; [done|]. intros j v Hj Hlt He.
    assert (Hij : j = i); [|lia]. apply (NoDup_lookup (id <$> stack d) j i (id w) (to_ids _ Ht)); rewrite list_lookup_fmap; [by rewrite Hj; cbn; rewrite He|by rewrite Hw]. }
  rewrite Hf. pose proof (wo_id _ Hok). by rewrite (proj2 (Z.eqb_neq (id w) 0)) by lia.
Qed.
Lemma index_of_inv d wid : table_ok (d_desktop d) -> index_of wid d < ds_window_count (d_desktop d) ->
  exists w, stack d !! Z.to_nat (index_of wid d) = Some w /\ id w = wid /\ 0 <= index_of wid d.
Proof.
  intros Ht Hlt. unfold index_of in *. destruct (list_find _ (stack d)) as [[i w]|] eqn:Hf; [|lia].
  destruct (wid =? 0); [lia|]. apply list_find_Some in Hf as (Hw & Hid & _). exists w. rewrite Nat2Z.id. split; [done|]. split; [done|]. lia.
Qed.
Lemma index_of_absent d wid : table_ok (d_desktop d) -> wid = 0 \/ Forall (fun w => id w <> wid) (stack d) -> index_of wid d = ds_window_count (d_desktop d).
Proof.
  intros Ht Ha. unfold index_of. destruct (list_find _ (stack d)) as [[i w]|] eqn:Hf; [|done]. destruct Ha as [->|Ha]; [done|].
  apply list_find_Some in Hf as (Hw & Hid & _). by destruct (Forall_lookup_1 _ _ _ _ Ha Hw Hid).
Qed.

(** *** The next id *)

Definition highest (l : list desktop_window) (h : Z) : Z := foldl (fun h w => Z.max h (id w)) h l.
Lemma highest_loop_run d n i h : shaped (d_desktop d) -> Z.of_nat (i + n) = ds_window_count (d_desktop d) ->
  highest_loop n (Z.of_nat i) h d = Ret (highest (drop i (stack d)) h) d [].
Proof.
  intros Ht. revert i h. induction n as [|n IH]; intros i h Hn; cbn [highest_loop].
  - rewrite drop_ge by (pose proof (length_stack _ Ht); lia). done.
  - destruct (stack_lookup d (Z.of_nat i) Ht ltac:(lia)) as [w Hw]. rewrite (bind_Ret_nil _ _ _ _ _ (get_window_run _ _ _ (rd_stack d (Z.of_nat i) w ltac:(lia) Hw))).
    rewrite Nat2Z.id in Hw. rewrite (drop_S _ _ _ Hw). unfold highest. cbn [foldl]. replace (Z.of_nat i + 1) with (Z.of_nat (S i)) by lia.
    rewrite IH by lia. f_equal. unfold highest. f_equal. destruct (Z.ltb_spec h (id w)); lia.
Qed.
Lemma next_id_run d : shaped (d_desktop d) -> desktop_next_window_id d = Ret (u32 (highest (stack d) 0 + 1)) d [].
Proof.
  intros Ht. pose proof (to_count _ Ht). unfold desktop_next_window_id, var. rewrite bind_gets. cbn beta. change 0 with (Z.of_nat 0) at 1.
  rewrite (bind_Ret_nil _ _ _ _ _ (highest_loop_run d (Z.to_nat (ds_window_count (d_desktop d))) 0 0 Ht ltac:(lia))). done.
Qed.
Lemma highest_ge l h : h <= highest l h /\ Forall (fun w => id w <= highest l h) l.
Proof.
  revert h. induction l as [|w l IH]; intros h; [by split|]. unfold highest. cbn [foldl]. destruct (IH (Z.max h (id w))) as [Hh Hl].
  unfold highest in *. split; [lia|]. constructor; [lia|done].
Qed.
Lemma highest_bound l h b : h < b -> Forall (fun w => id w < b) l -> highest l h < b.
Proof. intros Hh Hl. revert h Hh. induction Hl as [|w l Hw Hl IH]; intros h Hh; [done|]. unfold highest. cbn [foldl]. apply IH. lia. Qed.

(** ** The session *)

Lemma stack_window_ok d i w : table_ok (d_desktop d) -> stack d !! i = Some w -> window_ok w.
Proof. intros Ht Hw. exact (Forall_lookup_1 _ _ _ _ (to_windows _ Ht) Hw). Qed.

Lemma rd_range {B} (l : list B) i n : lenZ l = n -> 0 <= i < n -> exists x, rd l i = Some x.
Proof. intros <-. apply rd_Some. Qed.
Lemma rd_Forall {B} (P : B -> Prop) (l : list B) i x : Forall P l -> rd l i = Some x -> P x.
Proof. intros Hl Hr. unfold rd in Hr. destruct (0 <=? i); [|done]. exact (Forall_lookup_1 _ _ _ _ Hl Hr). Qed.

Lemma owner_instance_run d w : registry_ok (d_registry d) -> window_ok w -> owner_instance w d = Ret (instance_of (d_registry d) w) d [].
Proof.
  intros Hr [_ _ Ho _ _]. unfold owner_instance, instance_of. destruct (owner w) as [i|]; [|done]. cbn [mbind option_bind].
  destruct (rd_range _ _ _ (ro_instances _ Hr) Ho) as [v Hv].
  unfold on_registry, get_instance. erewrite bind_Ret_nil; [|apply zoom_Ret; rewrite bind_gets; cbn beta; by rewrite Hv].
  rewrite Hv. by destruct d.
Qed.

Lemma instance_app d w i : registry_ok (d_registry d) -> instance_of (d_registry d) w = Some i ->
  match inst_app i with Some a => exists app, rd (apps (d_registry d)) a = Some app /\ terminated (app_name app) | None => True end.
Proof.
  intros Hr Hi. unfold instance_of in Hi. destruct (owner w) as [o|]; [|done]. cbn in Hi. pose proof (rd_Forall _ _ _ _ (ro_app _ Hr) Hi) as Ha.
  cbn beta in Ha. destruct (inst_app i) as [a|]; [|done]. pose proof (ro_count _ Hr). destruct (rd_range _ a _ (ro_apps _ Hr)) as [app Happ]; [lia|].
  exists app. split; [done|]. exact (proj1 (rd_Forall _ _ _ _ (ro_names _ Hr) Happ)).
Qed.

Lemma copy_app_name_run d w i : registry_ok (d_registry d) -> instance_of (d_registry d) w = Some i ->
  copy_app_name (zeroes DESKTOP_APP_NAME_MAX) i d = Ret (name_of (d_registry d) i) d [].
Proof.
  intros Hr Hi. pose proof (instance_app _ _ _ Hr Hi) as Ha. unfold copy_app_name, name_of, app_of. destruct (inst_app i) as [a|]; [|done].
  destruct Ha as (app & Happ & t & Ht & _). rewrite bind_gets. cbn beta. cbn [mbind option_bind]. rewrite Happ.
  rewrite (bind_deref_Some _ _ _ _ eq_refl). by rewrite (bind_deref_Some _ _ _ _ (copied_eq DESKTOP_APP_NAME_MAX _ _ eq_refl Ht)).
Qed.

Lemma session_entry_run d index w : registry_ok (d_registry d) -> window_ok w ->
  session_entry (Z.of_nat index) w d = Ret (entry_of (d_registry d) index w) d [].
Proof.
  intros Hr Hw. destruct (proj2 (wo_title _ Hw)) as (t & Ht & _). unfold session_entry, entry_of.
  rewrite (bind_deref_Some _ _ _ _ (copied_eq DESKTOP_WINDOW_TITLE_MAX _ _ eq_refl Ht)). cbn [fst].
  rewrite (bind_Ret_nil _ _ _ _ _ (owner_instance_run d w Hr Hw)). destruct (instance_of (d_registry d) w) as [i|] eqn:Hi; [|done].
  by rewrite (bind_Ret_nil _ _ _ _ _ (copy_app_name_run d w i Hr Hi)).
Qed.

(** The loop, from entry [i] on: the focus is filled in when its window is met. *)
Definition session_from d (i : nat) (s : desktop_session_state) : desktop_session_state :=
  let r := d_registry d in
  let o := if decide (i <= Z.to_nat (ds_focused_window_index (d_desktop d)))%nat then w ← focused_window (d_desktop d); instance_of r w else None in
  Session (ss_window_count s) (ss_focused_window_id s) (match o with Some v => inst_id v | None => ss_focused_app_instance_id s end)
    (ss_modal_window_id s) (ss_launcher_open s) (match o with Some v => name_of r v | None => ss_focused_app_name s end)
    (take i (ss_windows s) ++ imap (fun k => entry_of r (i + k)) (drop i (stack d)) ++ drop (length (stack d)) (ss_windows s)).

Definition id_of_focus d : Z := match focused_window (d_desktop d) with Some w => id w | None => 0 end.

Lemma session_loop_run d n i s : tables_ok d -> Z.of_nat (i + n) = ds_window_count (d_desktop d) -> lenZ (ss_windows s) = DESKTOP_SESSION_WINDOW_MAX ->
  (if decide (i <= Z.to_nat (ds_focused_window_index (d_desktop d)))%nat then ss_focused_app_name s = zeroes DESKTOP_APP_NAME_MAX else True) ->
  session_loop n (Z.of_nat i) (id_of_focus d) s d = Ret (session_from d i s) d [].
Proof.
  intros [Ht Hr]. revert i s. induction n as [|n IH]; intros i s Hn Hlen Hname; cbn [session_loop].
  - unfold session_from, ret. pose proof (length_stack _ Ht). replace i with (length (stack d)) by lia. rewrite drop_ge by lia. cbn [imap app].
    rewrite take_drop. assert (Hf : focused_window (d_desktop d) = None \/ ~ (length (stack d) <= Z.to_nat (ds_focused_window_index (d_desktop d)))%nat).
    { destruct (decide (length (stack d) <= Z.to_nat (ds_focused_window_index (d_desktop d)))%nat); [left|by right]. by apply lookup_ge_None_2. }
    assert (Ho : (if decide (length (stack d) <= Z.to_nat (ds_focused_window_index (d_desktop d)))%nat then w ← focused_window (d_desktop d); instance_of (d_registry d) w else None) = None) by (clear Hname; destruct Hf as [->|Hf]; [by case_decide|case_decide; [by destruct Hf|done]]).
    rewrite Ho. by destruct s.
  - destruct (stack_lookup d (Z.of_nat i) Ht ltac:(lia)) as [w Hw]. rewrite (bind_Ret_nil _ _ _ _ _ (get_window_run _ _ _ (rd_stack d (Z.of_nat i) w ltac:(lia) Hw))).
    rewrite Nat2Z.id in Hw. pose proof (stack_window_ok _ _ _ Ht Hw) as Hok. pose proof (to_count _ Ht) as Hc.
    rewrite (bind_Ret_nil _ _ _ _ _ (session_entry_run d i w Hr Hok)).
    assert (Hi : 0 <= Z.of_nat i < lenZ (ss_windows s)) by (rewrite Hlen; unfold DESKTOP_MAX_WINDOWS, DESKTOP_SESSION_WINDOW_MAX in *; lia).
    rewrite (bind_deref_Some _ _ _ _ (wr_Some _ _ _ Hi)), Nat2Z.id. rewrite (bind_Ret_nil _ _ _ _ _ (owner_instance_run d w Hr Hok)).
    set (foc := Z.to_nat (ds_focused_window_index (d_desktop d))) in *.
    set (nxt := fun fi fn => Session (ss_window_count s) (ss_focused_window_id s) fi (ss_modal_window_id s) (ss_launcher_open s) fn
                    (<[i := entry_of (d_registry d) i w]> (ss_windows s))).
    assert (Hentries : forall fi fn, take (S i) (ss_windows (nxt fi fn)) ++ imap (fun k => entry_of (d_registry d) (S i + k)) (drop (S i) (stack d)) ++ drop (length (stack d)) (ss_windows (nxt fi fn))
       = take i (ss_windows s) ++ imap (fun k => entry_of (d_registry d) (i + k)) (drop i (stack d)) ++ drop (length (stack d)) (ss_windows s)).
    { intros fi fn. unfold nxt. cbn [ss_windows]. unfold lenZ in Hi. pose proof (length_stack _ Ht). rewrite (drop_S _ _ _ Hw), imap_cons. cbn [app].
      rewrite drop_insert_lt by lia. rewrite (take_S_r _ _ (entry_of (d_registry d) i w)) by (apply list_lookup_insert_eq; lia).
      rewrite take_insert_ge by lia. rewrite <- app_assoc. cbn [app]. rewrite Nat.add_0_r. do 2 f_equal. f_equal. apply imap_ext. intros k v _. cbn.
      by rewrite <- Nat.add_succ_comm. }
    assert (Hlen' : forall fi fn, lenZ (ss_windows (nxt fi fn)) = DESKTOP_SESSION_WINDOW_MAX) by (intros; unfold nxt, lenZ in *; cbn [ss_windows]; by rewrite length_insert).
    assert (Hfoc : id_of_focus d = id w <-> foc = i).
    { unfold id_of_focus, focused_window. fold (stack d). fold foc. split; [|intros ->; by rewrite Hw].
      destruct (stack d !! foc) as [v|] eqn:Hv; [|intros E; pose proof (wo_id _ Hok); lia].
      intros E. apply (NoDup_lookup (id <$> stack d) foc i (id w) (to_ids _ Ht)); rewrite list_lookup_fmap; [by rewrite Hv; cbn; rewrite E|by rewrite Hw]. }
    assert (Hstep : forall fi fn, (fi, fn) = match (if decide (foc = i) then instance_of (d_registry d) w else None) with
        Some v => (inst_id v, name_of (d_registry d) v) | None => (ss_focused_app_instance_id s, ss_focused_app_name s) end ->
        session_loop n (Z.of_nat i + 1) (id_of_focus d) (nxt fi fn) d = Ret (session_from d i s) d []).
    { intros fi fn Hv. replace (Z.of_nat i + 1) with (Z.of_nat (S i)) by lia. rewrite IH.
      - unfold session_from. rewrite Hentries. f_equal. unfold nxt. cbn [ss_window_count ss_focused_window_id ss_modal_window_id ss_launcher_open ss_focused_app_instance_id ss_focused_app_name].
        fold foc. unfold focused_window. fold (stack d). fold foc. destruct (decide (foc = i)) as [->|Hne].
        + rewrite decide_False by lia. rewrite decide_True by lia. rewrite Hw. cbn [mbind option_bind].
          destruct (instance_of (d_registry d) w); by injection Hv as -> ->.
        + destruct (decide (i <= foc)%nat); [rewrite decide_True by lia|rewrite decide_False by lia]; by injection Hv as -> ->.
      - lia.
      - done.
      - fold foc. destruct (decide (S i <= foc)%nat); [|done]. unfold nxt. cbn [ss_focused_app_name]. rewrite decide_False in Hv by lia.
        injection Hv as -> ->. fold foc in Hname. by rewrite decide_True in Hname by lia. }
    destruct (instance_of (d_registry d) w) as [v|] eqn:Hv.
    + destruct (Z.eqb_spec (id w) (id_of_focus d)) as [E|E].
      * assert (Hfi : foc = i) by (by apply Hfoc). assert (Hz : ss_focused_app_name s = zeroes DESKTOP_APP_NAME_MAX) by (fold foc in Hname; by rewrite decide_True in Hname by lia).
        rewrite Hz. rewrite bind_assoc. rewrite (bind_Ret_nil _ _ _ _ _ (copy_app_name_run d w v Hr Hv)). rewrite bind_ret. cbn [fst snd]. apply Hstep. by rewrite decide_True.
      * rewrite bind_ret. cbn [fst snd]. apply Hstep. by rewrite decide_False by (intros Hfi; apply E; symmetry; by apply Hfoc).
    + rewrite bind_ret. cbn [fst snd]. apply Hstep. rewrite ?Hv. by case (decide (foc = i)).
Qed.

Lemma focused_id_run d : table_ok (d_desktop d) -> focused_id d = Ret (id_of_focus d) d [].
Proof.
  intros Ht. pose proof (to_focus _ Ht) as Hf0. unfold focused_id, var, id_of_focus, focused_window. rewrite !bind_gets. cbn beta.
  destruct (Z.ltb_spec (ds_focused_window_index (d_desktop d)) (ds_window_count (d_desktop d))) as [Hlt|Hge].
  - destruct (stack_lookup d _ Ht (conj Hf0 Hlt)) as [w Hw]. rewrite (bind_Ret_nil _ _ _ _ _ (get_window_run _ _ _ (rd_stack d _ w Hf0 Hw))).
    unfold stack in Hw. by rewrite Hw.
  - fold (stack d). rewrite lookup_ge_None_2; [done|]. pose proof (length_stack _ Ht). lia.
Qed.

Definition refreshed d : state := upd (set_ds_session (session_of (d_registry d) (d_desktop d))) d.
Lemma refresh_run d : tables_ok d -> desktop_refresh_session_state d = Ret tt (refreshed d) [].
Proof.
  intros Hok. pose proof Hok as [Ht Hr]. pose proof (to_count _ Ht) as Hc. pose proof (length_stack _ Ht) as Hl.
  unfold desktop_refresh_session_state, var. rewrite !bind_gets. cbn beta.
  rewrite (bind_Ret_nil _ _ _ _ _ (focused_id_run d Ht)). change DESKTOP_SESSION_WINDOW_MAX with DESKTOP_MAX_WINDOWS.
  rewrite Z.min_l by lia. change 0 with (Z.of_nat 0) at 1.
  erewrite bind_Ret_nil; [|apply (session_loop_run d (Z.to_nat (ds_window_count (d_desktop d))) 0 _ Hok); [lia|done|by destruct (decide _)]].
  rewrite assign_run. unfold refreshed, session_of, session_from. rewrite decide_True by lia.
  cbn [ss_window_count ss_focused_window_id ss_modal_window_id ss_launcher_open ss_focused_app_instance_id ss_focused_app_name ss_windows zero_session take app].
  fold (stack d). rewrite drop_0, drop_replicate. unfold DESKTOP_SESSION_WINDOW_MAX, DESKTOP_MAX_WINDOWS in *.
  replace (Z.to_nat 8 - length (stack d))%nat with (Z.to_nat (8 - ds_window_count (d_desktop d))) by lia. reflexivity.
Qed.

(** ** The table as a list and a focus

    The entries behind the windows are blank, so the list of windows and the
    index of the focused one determine the table. *)

Definition table (l : list desktop_window) (f : Z) (s : desktop_state) : desktop_state :=
  set_ds_windows (l ++ replicate (Z.to_nat DESKTOP_MAX_WINDOWS - length l) zero_window) (set_ds_window_count (lenZ l) (set_ds_focused_window_index f s)).
Definition with_table (l : list desktop_window) (f : Z) d : state := upd (table l f) d.
(** The session is brought up to date and a redraw is due. *)
Definition settled d : state := upd (set_ds_dirty 1) (refreshed d).

(** A table of [n] windows, with its focus. *)
Record windows_ok (l : list desktop_window) (f : Z) : Prop := {
  wk_length : (length l <= Z.to_nat DESKTOP_MAX_WINDOWS)%nat;
  wk_windows : Forall window_ok l;
  wk_ids : NoDup (id <$> l);
  wk_focus : 0 <= f
}.

Lemma stack_table l f s : stack_of (table l f s) = l.
Proof. unfold stack_of, table. cbn [ds_windows ds_window_count set_ds_windows set_ds_window_count]. by rewrite take_lenZ_app. Qed.
Lemma table_shaped l f s : (length l <= Z.to_nat DESKTOP_MAX_WINDOWS)%nat -> shaped (table l f s).
Proof.
  intros Hl. assert (Hc : 0 <= lenZ l <= DESKTOP_MAX_WINDOWS) by (unfold lenZ, DESKTOP_MAX_WINDOWS in *; lia).
  split; [|done|]; unfold table; cbn [ds_windows ds_window_count ds_focused_window_index set_ds_windows set_ds_window_count set_ds_focused_window_index].
  - unfold lenZ. rewrite length_app, length_replicate. unfold DESKTOP_MAX_WINDOWS in *. lia.
  - rewrite drop_lenZ_app. f_equal. unfold lenZ, DESKTOP_MAX_WINDOWS in *. lia.
Qed.
Lemma table_ok_intro l f s : windows_ok l f -> table_ok (table l f s).
Proof.
  intros [Hl Hw Hi Hf]. by split; rewrite ?stack_table; [apply table_shaped|..].
Qed.
Lemma table_stack s : shaped s -> table (stack_of s) (ds_focused_window_index s) s = s.
Proof.
  intros Ht. pose proof (to_blank _ Ht) as Hb. unfold table. assert (Hn : length (stack_of s) = Z.to_nat (ds_window_count s)).
  { pose proof (to_count _ Ht). pose proof (to_length _ Ht) as Hl. unfold stack_of, lenZ in *. rewrite length_take. lia. }
  assert (Hw : stack_of s ++ replicate (Z.to_nat DESKTOP_MAX_WINDOWS - length (stack_of s)) zero_window = ds_windows s).
  { pose proof (to_count _ Ht). rewrite Hn. unfold DESKTOP_MAX_WINDOWS in *. replace (Z.to_nat 8 - Z.to_nat (ds_window_count s))%nat with (Z.to_nat (8 - ds_window_count s)) by lia.
    rewrite <- Hb. apply take_drop. }
  rewrite Hw. assert (Hc : lenZ (stack_of s) = ds_window_count s) by (unfold lenZ; pose proof (to_count _ Ht); lia). rewrite Hc. by destruct s.
Qed.
Lemma windows_ok_stack s : table_ok s -> windows_ok (stack_of s) (ds_focused_window_index s).
Proof.
  intros Ht. pose proof (to_count _ Ht) as Hc. pose proof (to_length _ Ht) as Hl. assert (Hn : length (stack_of s) = Z.to_nat (ds_window_count s)) by (unfold stack_of, lenZ in *; rewrite length_take; lia).
  split; [unfold DESKTOP_MAX_WINDOWS in *; lia|apply (to_windows _ Ht)|apply (to_ids _ Ht)|apply (to_focus _ Ht)].
Qed.
Lemma with_table_id d : shaped (d_desktop d) -> with_table (stack d) (ds_focused_window_index (d_desktop d)) d = d.
Proof. intros Ht. unfold with_table, upd. unfold stack. rewrite table_stack by done. by destruct d. Qed.
Lemma with_table_twice l f l' f' d : with_table l f (with_table l' f' d) = with_table l f d.
Proof. done. Qed.
Lemma stack_with_table l f d : stack (with_table l f d) = l.
Proof. apply stack_table. Qed.
Lemma stack_settled d : stack (settled d) = stack d.
Proof. done. Qed.
Lemma focus_with_table l f d : ds_focused_window_index (d_desktop (with_table l f d)) = f.
Proof. done. Qed.
Lemma with_table_ok l f d : windows_ok l f -> registry_ok (d_registry d) -> tables_ok (with_table l f d).
Proof. intros Hl Hr. split; [by apply table_ok_intro|done]. Qed.
Lemma settled_ok d : tables_ok d -> tables_ok (settled d).
Proof. intros [[[? ? ?] ? ? ?] Hr]. split; [|done]. split; [by split|done..]. Qed.
Lemma settle_run {B} (k : unit -> M state B) d : tables_ok d ->
  (desktop_refresh_session_state;; (mark_dirty;; k tt)) d = k tt (settled d).
Proof. intros Hok. rewrite (bind_Ret_nil _ _ _ _ _ (refresh_run d Hok)). by rewrite (bind_Ret_nil mark_dirty _ _ tt (settled d) eq_refl). Qed.
Lemma settle_end d : tables_ok d -> (desktop_refresh_session_state;; mark_dirty) d = Ret tt (settled d) [].
Proof. intros Hok. by rewrite (bind_Ret_nil _ _ _ _ _ (refresh_run d Hok)). Qed.

(** Replacing a window. *)
Lemma put_stack_run d i v : shaped (d_desktop d) -> (i < length (stack d))%nat ->
  put_window (Z.of_nat i) v d = Ret tt (with_table (<[i := v]> (stack d)) (ds_focused_window_index (d_desktop d)) d) [].
Proof.
  intros Ht Hi. pose proof (length_stack _ Ht). pose proof (to_count _ Ht). rewrite put_window_run by (rewrite (to_length _ Ht); lia).
  rewrite Nat2Z.id. f_equal. rewrite <- (with_table_id d Ht) at 1 2. set (l := stack d) in *. unfold with_table, upd, table.
  cbn [d_desktop set_d_desktop ds_windows ds_window_count set_ds_windows set_ds_window_count set_ds_focused_window_index ds_focused_window_index].
  rewrite insert_app_l by done. rewrite length_insert. unfold lenZ. by rewrite length_insert.
Qed.
Lemma windows_ok_insert l f i w v : windows_ok l f -> l !! i = Some w -> window_ok v -> id v = id w -> windows_ok (<[i := v]> l) f.
Proof.
  intros [Hl Hw Hi Hf] Hlk Hv Hid. split; [by rewrite length_insert|by apply Forall_insert| |done].
  rewrite list_fmap_insert, list_insert_id; [done|]. rewrite list_lookup_fmap, Hlk. cbn. by rewrite Hid.
Qed.

(** ** Focus *)

Definition unminimized (w : desktop_window) : desktop_window :=
  if Z.land (win_flags w) DESKTOP_WINDOW_FLAG_MINIMIZED =? 0 then w else shown w.
Lemma unminimized_id w : id (unminimized w) = id w.
Proof. unfold unminimized. by destruct (_ =? 0). Qed.
Lemma unminimized_ok w : window_ok w -> window_ok (unminimized w).
Proof. intros [Ht Hi Ho Hp Hr]. unfold unminimized. by destruct (_ =? 0). Qed.
Lemma land_shown_minimized z : Z.land (Z.lor (Z.land z (not32 DESKTOP_WINDOW_FLAG_MINIMIZED)) DESKTOP_WINDOW_FLAG_VISIBLE) DESKTOP_WINDOW_FLAG_MINIMIZED = 0.
Proof.
  rewrite Z.land_lor_distr_l, <- Z.land_assoc. change (Z.land (not32 DESKTOP_WINDOW_FLAG_MINIMIZED) DESKTOP_WINDOW_FLAG_MINIMIZED) with 0.
  change (Z.land DESKTOP_WINDOW_FLAG_VISIBLE DESKTOP_WINDOW_FLAG_MINIMIZED) with 0. by rewrite Z.land_0_r.
Qed.
Lemma unminimized_twice w : unminimized (unminimized w) = unminimized w.
Proof.
  unfold unminimized. destruct (Z.land (win_flags w) DESKTOP_WINDOW_FLAG_MINIMIZED =? 0) eqn:E; [by rewrite E|].
  unfold shown at 1. cbn [win_flags set_win_flags]. by rewrite land_shown_minimized.
Qed.

Lemma stack_get_run d i w : shaped (d_desktop d) -> stack d !! i = Some w -> get_window (Z.of_nat i) d = Ret w d [].
Proof. intros Ht Hw. apply get_window_run, rd_stack; [lia|]. by rewrite Nat2Z.id. Qed.

Lemma restore_run d i w : table_ok (d_desktop d) -> stack d !! i = Some w ->
  restore_minimized (Z.of_nat i) d = Ret tt (with_table (<[i := unminimized w]> (stack d)) (ds_focused_window_index (d_desktop d)) d) [].
Proof.
  intros Ht Hw. unfold restore_minimized. rewrite (bind_Ret_nil _ _ _ _ _ (stack_get_run _ _ _ Ht Hw)). unfold unminimized. destruct (_ =? 0); cbn [negb].
  - rewrite list_insert_id by done. by rewrite (with_table_id d Ht).
  - apply put_stack_run; [exact Ht|]. by apply lookup_lt_Some in Hw.
Qed.

Lemma unminimized_windows l f i w : windows_ok l f -> l !! i = Some w -> windows_ok (<[i := unminimized w]> l) f.
Proof.
  intros Hl Hw. apply (windows_ok_insert _ _ _ w); [done|done| |apply unminimized_id]. apply unminimized_ok. exact (Forall_lookup_1 _ _ _ _ (wk_windows _ _ Hl) Hw).
Qed.
Lemma windows_ok_focus l f f' : windows_ok l f -> 0 <= f' -> windows_ok l f'.
Proof. intros [Hl Hw Hi Hf] Hlt. by split. Qed.

Lemma focus_run d i w : tables_ok d -> stack d !! i = Some w ->
  desktop_focus_window (Some (Z.of_nat i)) d = Ret tt (settled (with_table (<[i := unminimized w]> (stack d)) (Z.of_nat i) d)) [].
Proof.
  intros [Ht Hr] Hw. unfold desktop_focus_window, var. rewrite (bind_Ret_nil _ _ _ _ _ (stack_get_run _ _ _ Ht Hw)).
  rewrite (bind_Ret_nil _ _ _ _ _ (find_index_run d (id w) Ht)), (index_of_window d i w Ht Hw), bind_gets. cbn beta. pose proof (stack_bound _ _ _ Ht Hw).
  rewrite (proj2 (Z.leb_gt _ _)) by lia. rewrite (bind_Ret_nil _ _ _ _ _ (restore_run d i w Ht Hw)).
  set (d1 := with_table _ _ d). rewrite (bind_Ret_nil _ _ _ _ _ (assign_run _ d1)). unfold d1.
  apply (settle_end (with_table (<[i := unminimized w]> (stack d)) (Z.of_nat i) d)). apply with_table_ok; [|done].
  pose proof (unminimized_windows _ _ _ _ (windows_ok_stack _ Ht) Hw) as Hok. apply (windows_ok_focus _ _ _ Hok). lia.
Qed.

(** A pointer behind the windows leads to a blank entry, and nothing happens. *)
Lemma focus_absent_run d p v : tables_ok d -> rd (ds_windows (d_desktop d)) p = Some v -> ds_window_count (d_desktop d) <= index_of (id v) d ->
  desktop_focus_window (Some p) d = Ret tt d [].
Proof.
  intros [Ht Hr] Hv Hi. unfold desktop_focus_window, var. rewrite (bind_Ret_nil _ _ _ _ _ (get_window_run _ _ _ Hv)).
  rewrite (bind_Ret_nil _ _ _ _ _ (find_index_run d (id v) Ht)), bind_gets. cbn beta. by rewrite (proj2 (Z.leb_le _ _) Hi).
Qed.

(** ** The stacking order *)

Definition raise (i : nat) (w : desktop_window) (l : list desktop_window) : list desktop_window := delete i l ++ [w].

Lemma length_raise i w v l : l !! i = Some v -> length (raise i w l) = length l.
Proof. intros Hi. unfold raise. rewrite length_app, length_delete by by eexists. apply lookup_lt_Some in Hi. cbn. lia. Qed.
Lemma raise_windows l f i w v : windows_ok l f -> l !! i = Some w -> window_ok v -> id v = id w -> windows_ok (raise i v l) (lenZ l - 1).
Proof.
  intros Hl Hw Hv Hid. pose proof (windows_ok_insert _ _ _ _ _ Hl Hw Hv Hid) as [Hl1 Hw1 Hi1 Hf1]. rewrite length_insert in Hl1.
  assert (Hperm : raise i v l ≡ₚ <[i := v]> l).
  { unfold raise. rewrite (delete_Permutation (<[i := v]> l) i v) by (apply list_lookup_insert_eq; by apply lookup_lt_Some in Hw).
    rewrite Permutation_app_comm. cbn. do 2 f_equal. rewrite !delete_take_drop. rewrite take_insert_ge by lia. by rewrite drop_insert_lt by lia. }
  split.
  - by rewrite (length_raise _ _ w).
  - by rewrite Hperm.
  - by rewrite Hperm.
  - unfold lenZ. apply lookup_lt_Some in Hw. lia.
Qed.

Lemma shift_run n (i : nat) d : shaped (d_desktop d) -> (i + n + 1 = length (stack d))%nat ->
  for_range n (Z.of_nat i) (fun index => w <- get_window (index + 1);; put_window index w) d =
    Ret tt (with_table (take i (stack d) ++ drop (S i) (stack d) ++ [default zero_window (last (stack d))]) (ds_focused_window_index (d_desktop d)) d) [].
Proof.
  revert i d. induction n as [|n IH]; intros i d Ht Hn; cbn [for_range].
  - rewrite drop_ge by lia. cbn [app]. unfold ret. f_equal. rewrite <- (with_table_id d Ht) at 1. f_equal. rewrite last_lookup.
    replace (Init.Nat.pred (length (stack d))) with i by lia. destruct (lookup_lt_is_Some_2 (stack d) i) as [w Hw]; [lia|]. rewrite Hw. cbn.
    rewrite <- (take_S_r _ _ _ Hw). by rewrite take_ge by lia.
  - destruct (lookup_lt_is_Some_2 (stack d) (S i)) as [w Hw]; [lia|]. rewrite bind_assoc. replace (Z.of_nat i + 1) with (Z.of_nat (S i)) by lia.
    rewrite (bind_Ret_nil _ _ _ _ _ (stack_get_run _ _ _ Ht Hw)). rewrite (bind_Ret_nil _ _ _ _ _ (put_stack_run d i w Ht ltac:(lia))).
    set (d1 := with_table (<[i := w]> (stack d)) (ds_focused_window_index (d_desktop d)) d).
    assert (Hs : stack d1 = <[i := w]> (stack d)) by apply stack_with_table.
    rewrite (IH (S i) d1).
    + rewrite Hs. unfold d1. rewrite with_table_twice, focus_with_table. do 2 f_equal. rewrite last_lookup, length_insert.
      rewrite list_lookup_insert_ne by lia. rewrite <- last_lookup. rewrite (take_S_r _ _ w) by (apply list_lookup_insert_eq; lia).
      rewrite take_insert_ge by lia. rewrite drop_insert_lt by lia. rewrite <- app_assoc. cbn [app]. by rewrite (drop_S _ _ _ Hw).
    + apply table_shaped. rewrite length_insert. pose proof (length_stack _ Ht). pose proof (to_count _ Ht). lia.
    + rewrite Hs, length_insert. lia.
Qed.

Lemma raise_last i w l : (i + 1 = length l)%nat -> raise i w l = <[i := w]> l.
Proof.
  intros Hi. unfold raise. rewrite delete_take_drop, (drop_ge l) by lia. rewrite app_nil_r.
  rewrite <- (take_ge (<[i := w]> l) (S i)) by (rewrite length_insert; lia). rewrite (take_S_r _ _ w) by (apply list_lookup_insert_eq; lia). by rewrite take_insert_ge.
Qed.

Lemma front_run d i w : tables_ok d -> stack d !! i = Some w ->
  desktop_bring_to_front (Some (Z.of_nat i)) d = Ret tt (settled (with_table (raise i (unminimized w) (stack d)) (lenZ (stack d) - 1) d)) [].
Proof.
  intros [Ht Hr] Hw. pose proof (length_stack _ Ht) as Hn. pose proof (to_count _ Ht) as Hc. pose proof (lookup_lt_Some _ _ _ Hw) as Hlt.
  set (w1 := unminimized w). set (l1 := <[i := w1]> (stack d)). assert (Hl1 : length l1 = length (stack d)) by apply length_insert.
  assert (Hk : windows_ok l1 (ds_focused_window_index (d_desktop d))) by (apply unminimized_windows; [by apply windows_ok_stack|done]).
  assert (Hw1 : l1 !! i = Some w1) by (by apply list_lookup_insert_eq).
  unfold desktop_bring_to_front, var. rewrite (bind_Ret_nil _ _ _ _ _ (stack_get_run _ _ _ Ht Hw)).
  rewrite (bind_Ret_nil _ _ _ _ _ (find_index_run d (id w) Ht)), (index_of_window d i w Ht Hw), bind_gets. cbn beta.
  rewrite (proj2 (Z.leb_gt _ _)) by lia. rewrite (bind_Ret_nil _ _ _ _ _ (restore_run d i w Ht Hw)). fold w1. fold l1.
  set (d1 := with_table l1 _ d). assert (Hs1 : stack d1 = l1) by apply stack_with_table. assert (Hok1 : tables_ok d1) by (by apply with_table_ok).
  unfold DESKTOP_MAX_WINDOWS in *. rewrite u32_small by lia. destruct (Z.eqb_spec (Z.of_nat i + 1) (ds_window_count (d_desktop d))) as [He|He].
  - rewrite (focus_run d1 i w1) by (by rewrite ?Hs1). rewrite Hs1. unfold d1. rewrite with_table_twice. unfold w1 at 1. rewrite unminimized_twice. fold w1.
    unfold l1. rewrite list_insert_insert_eq, raise_last by lia. unfold lenZ. do 3 f_equal. lia.
  - rewrite (bind_Ret_nil _ _ _ _ _ (stack_get_run d1 i w1 (tb_table _ Hok1) ltac:(by rewrite Hs1))). unfold shift_windows.
    rewrite (bind_Ret_nil _ _ _ _ _ (shift_run (Z.to_nat (ds_window_count (d_desktop d) - 1 - Z.of_nat i)) i d1 (tb_table _ Hok1) ltac:(rewrite Hs1; lia))). rewrite Hs1.
    unfold d1. rewrite with_table_twice, focus_with_table. set (v := default zero_window (last l1)). set (l2 := take i l1 ++ drop (S i) l1 ++ [v]).
    assert (Hl2 : length l2 = length (stack d)) by (unfold l2; rewrite !length_app, length_take, length_drop; cbn; lia).
    rewrite u32_small by lia. replace (ds_window_count (d_desktop d) - 1) with (Z.of_nat (length (stack d) - 1)) by lia.
    erewrite bind_Ret_nil; [|apply put_stack_run; [apply table_shaped|]; rewrite ?stack_with_table; unfold DESKTOP_MAX_WINDOWS; lia]. rewrite stack_with_table, with_table_twice.
    assert (Hl3 : <[(length (stack d) - 1)%nat := w1]> l2 = raise i w1 (stack d)).
    { unfold l2, raise. rewrite app_assoc, <- delete_take_drop. assert (Hd : length (delete i l1) = (length (stack d) - 1)%nat) by (rewrite length_delete by (by eexists); lia).
      rewrite insert_app_r_alt by lia. rewrite Hd, Nat.sub_diag. cbn. f_equal. rewrite !delete_take_drop. unfold l1. by rewrite take_insert_ge, drop_insert_lt by lia. }
    rewrite Hl3. rewrite (bind_Ret_nil _ _ _ _ _ (assign_run _ _)).
    replace (Z.of_nat (length (stack d) - 1)) with (lenZ (stack d) - 1) by (unfold lenZ; lia).
    apply (settle_end (with_table (raise i w1 (stack d)) (lenZ (stack d) - 1) d)). apply with_table_ok; [|done].
    apply (raise_windows _ (ds_focused_window_index (d_desktop d)) i w); [by apply windows_ok_stack|done| |apply unminimized_id]. apply unminimized_ok. by apply (stack_window_ok d i).
Qed.

(** ** The focus moves to the topmost visible window *)

Definition is_shown (w : desktop_window) : Prop := desktop_window_is_visible (Some w) = true.
#[export] Instance is_shown_dec w : Decision (is_shown w).
Proof. unfold is_shown. apply _. Defined.
Definition top_shown (l : list desktop_window) : Z :=
  match list_find is_shown (reverse l) with Some (j, _) => lenZ l - 1 - Z.of_nat j | None => if decide (l = []) then 0 else lenZ l - 1 end.

Lemma recompute_loop_run d n : table_ok (d_desktop d) -> (n <= length (stack d))%nat ->
  recompute_loop n (Z.of_nat n) d =
    match list_find is_shown (reverse (take n (stack d))) with
    | Some (j, _) => Ret true (upd (set_ds_focused_window_index (Z.of_nat n - 1 - Z.of_nat j)) d) []
    | None => Ret false d []
    end.
Proof.
  intros Ht. induction n as [|n IH]; intros Hn; cbn [recompute_loop]; [done|]. destruct (lookup_lt_is_Some_2 (stack d) n) as [w Hw]; [lia|].
  replace (Z.of_nat (S n) - 1) with (Z.of_nat n) by lia. rewrite (bind_Ret_nil _ _ _ _ _ (stack_get_run _ _ _ Ht Hw)).
  rewrite (take_S_r _ _ _ Hw), reverse_app. change (reverse [w]) with [w]. cbn [app list_find]. destruct (decide (is_shown w)) as [Hs|Hs].
  - unfold is_shown in Hs. rewrite Hs. rewrite (bind_Ret_nil _ _ _ _ _ (assign_run _ d)). unfold ret. do 3 f_equal. lia.
  - unfold is_shown in Hs. apply not_true_is_false in Hs. rewrite Hs. rewrite IH by lia. destruct (list_find _ (reverse _)) as [[j v]|]; cbn; [|done]. do 3 f_equal. lia.
Qed.

Lemma recompute_run d : table_ok (d_desktop d) -> desktop_recompute_focus d = Ret tt (upd (set_ds_focused_window_index (top_shown (stack d))) d) [].
Proof.
  intros Ht. pose proof (length_stack _ Ht) as Hn. pose proof (to_count _ Ht) as Hc. unfold desktop_recompute_focus, var. rewrite bind_gets. cbn beta. unfold top_shown.
  destruct (Z.eqb_spec (ds_window_count (d_desktop d)) 0) as [Hz|Hz].
  - rewrite assign_run. assert (Hnil : stack d = []) by (apply nil_length_inv; lia). by rewrite Hnil.
  - rewrite <- Hn, Nat2Z.id. pose proof (recompute_loop_run d (length (stack d)) Ht ltac:(lia)) as E. rewrite take_ge in E by lia. unfold DESKTOP_MAX_WINDOWS in *.
    destruct (list_find _ (reverse (stack d))) as [[j v]|].
    + rewrite (bind_Ret_nil _ _ _ _ _ E). done.
    + rewrite (bind_Ret_nil _ _ _ _ _ E). rewrite assign_run, u32_small by lia. rewrite decide_False; [done|]. intros Hnil. rewrite Hnil in Hn. cbn in Hn. lia.
Qed.

Lemma top_shown_spec l : l <> [] -> (0 <= top_shown l < lenZ l /\
  ((exists w, l !! Z.to_nat (top_shown l) = Some w /\ is_shown w /\ forall j v, (Z.to_nat (top_shown l) < j)%nat -> l !! j = Some v -> ~ is_shown v) \/
   (Forall (fun w => ~ is_shown w) l /\ top_shown l = lenZ l - 1))).
Proof.
  intros Hnil. unfold top_shown. assert (Hlen : 0 < lenZ l) by (destruct l; [done|unfold lenZ; cbn; lia]).
  destruct (list_find is_shown (reverse l)) as [[j v]|] eqn:Hf.
  - apply list_find_Some in Hf as (Hv & Hs & Hbefore). pose proof (lookup_lt_Some _ _ _ Hv) as Hj. rewrite length_reverse in Hj. unfold lenZ in *.
    split; [lia|]. left. exists v. replace (Z.to_nat (Z.of_nat (length l) - 1 - Z.of_nat j)) with (length l - S j)%nat by lia.
    rewrite reverse_lookup in Hv by done. split; [by rewrite <- Hv; f_equal; lia|]. split; [done|]. intros k u Hk Hu Hsu. pose proof (lookup_lt_Some _ _ _ Hu).
    apply (Hbefore (length l - S k)%nat u); [|lia|done]. rewrite reverse_lookup by lia. rewrite <- Hu. f_equal. lia.
  - rewrite decide_False by done. split; [lia|]. right. split; [|done]. apply list_find_None in Hf. by rewrite <- (reverse_involutive l), Forall_reverse.
Qed.
Lemma top_shown_nonneg l : 0 <= top_shown l.
Proof. destruct (decide (l = [])) as [->|Hn]; [done|]. by destruct (top_shown_spec l Hn) as [[? _] _]. Qed.
Lemma top_shown_ok l f : windows_ok l f -> windows_ok l (top_shown l).
Proof. intros Hl. apply (windows_ok_focus _ _ _ Hl), top_shown_nonneg. Qed.

(** ** Minimising and maximising *)

Lemma minimized_ok w : window_ok w -> window_ok (minimized w).
Proof. by intros [? ? ? ? ?]. Qed.

Lemma minimize_run d i w : tables_ok d -> stack d !! i = Some w ->
  desktop_minimize_window (Some (Z.of_nat i)) d =
    Ret tt (settled (upd (set_ds_drag_window_id 0) (with_table (<[i := minimized w]> (stack d)) (top_shown (<[i := minimized w]> (stack d))) d))) [].
Proof.
  intros [Ht Hr] Hw. pose proof (length_stack _ Ht) as Hn. pose proof (lookup_lt_Some _ _ _ Hw) as Hlt. set (l1 := <[i := minimized w]> (stack d)).
  assert (Hk : windows_ok l1 (ds_focused_window_index (d_desktop d))).
  { apply (windows_ok_insert _ _ _ w); [by apply windows_ok_stack|done| |done]. apply minimized_ok. by apply (stack_window_ok d i). }
  unfold desktop_minimize_window, var. rewrite (bind_Ret_nil _ _ _ _ _ (stack_get_run _ _ _ Ht Hw)).
  rewrite (bind_Ret_nil _ _ _ _ _ (find_index_run d (id w) Ht)), (index_of_window d i w Ht Hw), bind_gets. cbn beta. rewrite (proj2 (Z.leb_gt _ _)) by lia.
  rewrite (bind_Ret_nil _ _ _ _ _ (stack_get_run _ _ _ Ht Hw)). rewrite (bind_Ret_nil _ _ _ _ _ (put_stack_run d i (minimized w) Ht ltac:(lia))). fold l1.
  rewrite (bind_Ret_nil _ _ _ _ _ (assign_run _ _)). set (d2 := upd (set_ds_drag_window_id 0) _).
  assert (Ht2 : table_ok (d_desktop d2)) by (destruct (table_ok_intro l1 _ (d_desktop d) Hk) as [[? ? ?] ? ? ?]; split; [by split|done..]).
  assert (Hs2 : stack d2 = l1) by exact (stack_with_table l1 (ds_focused_window_index (d_desktop d)) d).
  rewrite (bind_Ret_nil _ _ _ _ _ (recompute_run d2 Ht2)), Hs2. apply settle_end.
  destruct (table_ok_intro l1 _ (d_desktop d) (top_shown_ok _ _ Hk)) as [[? ? ?] ? ? ?]. split; [|done]. split; [by split|done..].
Qed.

(** *** The screen *)

Record screen_ok d : Prop := {
  sk_fb : ds_fb (d_desktop d) = true;
  sk_width : 64 <= fb_width (d_display d) < 2 ^ 16;
  sk_height : 64 <= fb_height (d_display d) < 2 ^ 16
}.
Definition area_width d : Z := fb_width (d_display d).
Definition area_height d : Z := fb_height (d_display d) - DESKTOP_TASKBAR_HEIGHT.

Lemma the_fb_run d : screen_ok d -> the_fb d = Ret (d_display d) d [].
Proof. intros [Hf _ _]. unfold the_fb, get_canvas. rewrite bind_gets. cbn beta. by rewrite Hf. Qed.
Lemma work_area_run d : screen_ok d -> desktop_work_area_height d = Ret (area_height d) d [].
Proof.
  intros [Hf Hw Hh]. unfold desktop_work_area_height, get_canvas. rewrite bind_gets. cbn beta. rewrite Hf. cbn [cv_screen].
  unfold desktop_taskbar_height, DESKTOP_TASKBAR_HEIGHT. rewrite (proj2 (Z.leb_gt _ _)) by lia. by rewrite u32_small by lia.
Qed.

Definition clamped_to d (w : desktop_window) : desktop_window := clamped w (area_width d) (area_height d).
Lemma within_wf w : within (win_x w) (win_y w) (win_width w) (win_height w) -> win_wf w.
Proof. intros (Hx & Hy & Hw & Hh). split; lia. Qed.
Lemma clamped_within d w : screen_ok d -> 0 <= win_width w <= 2 ^ 20 -> 0 <= win_height w <= 2 ^ 20 ->
  within (win_x (clamped_to d w)) (win_y (clamped_to d w)) (win_width (clamped_to d w)) (win_height (clamped_to d w)).
Proof.
  intros [_ Hsw Hsh] Hw Hh. unfold clamped_to, clamped, within, clamp, area_width, area_height, DESKTOP_TASKBAR_HEIGHT.
  cbn [win_x win_y win_width win_height set_win_x set_win_y]. lia.
Qed.
Lemma clamp_window_run d i w : shaped (d_desktop d) -> screen_ok d -> stack d !! i = Some w -> win_wf w ->
  clamp_window (Z.of_nat i) d = Ret tt (with_table (<[i := clamped_to d w]> (stack d)) (ds_focused_window_index (d_desktop d)) d) [].
Proof.
  intros Ht Hs Hw Hwf. unfold clamp_window. rewrite (bind_Ret_nil _ _ _ _ _ (the_fb_run d Hs)), (bind_Ret_nil _ _ _ _ _ (work_area_run d Hs)).
  rewrite (bind_Ret_nil _ _ _ _ _ (stack_get_run d i w Ht Hw)).
  rewrite (bind_Ret_nil _ _ _ _ _ (clamp_run w (fb_width (d_display d)) (area_height d) d Hwf ltac:(destruct Hs; lia) ltac:(unfold area_height, DESKTOP_TASKBAR_HEIGHT; destruct Hs; lia))).
  rewrite (bind_deref_Some _ _ _ _ eq_refl). apply put_stack_run; [done|]. by apply lookup_lt_Some in Hw.
Qed.

(** *** Maximising *)

Definition is_maximized (w : desktop_window) : bool := negb (Z.land (win_flags w) DESKTOP_WINDOW_FLAG_MAXIMIZED =? 0).
Definition toggled d (w : desktop_window) : desktop_window :=
  shown (if is_maximized w then clamped_to d (restored w) else maximized (area_width d) (area_height d) w).
Lemma toggled_ok d w : screen_ok d -> window_ok w -> window_ok (toggled d w).
Proof.
  intros Hs [Ht Hi Ho Hp Hr]. unfold toggled. destruct (is_maximized w); split; try done.
  - apply (clamped_within d (restored w) Hs); cbn [restored win_width win_height]; destruct Hr as (? & ? & ? & ?); lia.
  - destruct Hs as [_ Hsw Hsh]. unfold shown, maximized, within, area_width, area_height, DESKTOP_TASKBAR_HEIGHT. cbn [win_x win_y win_width win_height set_win_flags]. lia.
Qed.

Lemma maximize_run d i w : tables_ok d -> screen_ok d -> stack d !! i = Some w ->
  desktop_toggle_maximize_window (Some (Z.of_nat i)) d =
    Ret tt (settled (upd (set_ds_drag_window_id 0) (with_table (<[i := toggled d w]> (stack d)) (ds_focused_window_index (d_desktop d)) d))) [].
Proof.
  intros [Ht Hr] Hs Hw. pose proof (length_stack _ Ht) as Hn. pose proof (lookup_lt_Some _ _ _ Hw) as Hlt. pose proof (stack_window_ok _ _ _ Ht Hw) as Hok.
  unfold desktop_toggle_maximize_window, var. rewrite bind_gets. cbn beta. rewrite (sk_fb _ Hs). rewrite (bind_Ret_nil _ _ _ _ _ (stack_get_run _ _ _ Ht Hw)).
  rewrite (bind_Ret_nil _ _ _ _ _ (find_index_run d (id w) Ht)), (index_of_window d i w Ht Hw), bind_gets. cbn beta. rewrite (proj2 (Z.leb_gt _ _)) by lia.
  rewrite (bind_Ret_nil _ _ _ _ _ (stack_get_run _ _ _ Ht Hw)). set (f := ds_focused_window_index (d_desktop d)).
  set (v := if is_maximized w then clamped_to d (restored w) else maximized (area_width d) (area_height d) w).
  match goal with |- bind ?m _ _ = _ => assert (E : m d = Ret tt (with_table (<[i := v]> (stack d)) f d) []) end.
  { unfold v, is_maximized. destruct (_ =? 0); cbn [negb].
    - rewrite (bind_Ret_nil _ _ _ _ _ (the_fb_run d Hs)), (bind_Ret_nil _ _ _ _ _ (work_area_run d Hs)). by apply put_stack_run; [exact Ht|].
    - rewrite (bind_Ret_nil _ _ _ _ _ (put_stack_run d i (restored w) Ht Hlt)). set (d1 := with_table _ _ d).
      assert (Hs1 : stack d1 = <[i := restored w]> (stack d)) by exact (stack_with_table _ f d).
      rewrite (clamp_window_run d1 i (restored w)).
      + rewrite Hs1. unfold d1. rewrite with_table_twice, list_insert_insert_eq. done.
      + apply table_shaped. rewrite length_insert. apply (wk_length _ _ (windows_ok_stack _ Ht)).
      + by destruct Hs.
      + rewrite Hs1. by apply list_lookup_insert_eq.
      + destruct Hok as [_ _ _ _ Hres]. by apply within_wf. }
  rewrite (bind_Ret_nil _ _ _ _ _ E). set (d1 := with_table _ f d). assert (Hs1 : stack d1 = <[i := v]> (stack d)) by exact (stack_with_table _ f d).
  assert (Hsh : shaped (d_desktop d1)) by (apply table_shaped; rewrite length_insert; apply (wk_length _ _ (windows_ok_stack _ Ht))).
  assert (Hw1 : stack d1 !! i = Some v) by (rewrite Hs1; by apply list_lookup_insert_eq).
  rewrite (bind_Ret_nil _ _ _ _ _ (stack_get_run d1 i v Hsh Hw1)).
  rewrite (bind_Ret_nil _ _ _ _ _ (put_stack_run d1 i (shown v) Hsh ltac:(rewrite Hs1, length_insert; done))). rewrite Hs1. unfold d1.
  rewrite with_table_twice, focus_with_table, list_insert_insert_eq. change (shown v) with (toggled d w). rewrite (bind_Ret_nil _ _ _ _ _ (assign_run _ _)).
  apply settle_end. assert (Hk : windows_ok (<[i := toggled d w]> (stack d)) f).
  { apply (windows_ok_insert _ _ _ w); [by apply windows_ok_stack|done|by apply toggled_ok|]. unfold toggled. by destruct (is_maximized w). }
  destruct (table_ok_intro _ _ (d_desktop d) Hk) as [[? ? ?] ? ? ?]. split; [|done]. split; [by split|done..].
Qed.
End table.
