(* ===== verification/DesktopView.v ===== *)
(** Drawing the desktop ends, whatever the windows, as long as the drawing
    functions of the applications do: every coordinate is representable, every
    string is terminated, and nothing but the picture, the pointer and the frame
    counter changes. *)
From S2P Require Import Prelude LibString Klog Input BlockDevice BlockIO TinyFS Vfs FileTable Graphics Cursor Theme DesktopWindow DesktopInput EditorView Console Bus AppRegistry Taskbar Desktop DesktopRender DesktopTable.

Section view.
Context {X D G C K A : Type} `{DiskDriver X} `{Hardware D} `{DisplayDriver G} `{OutputCapture C} `{KeyboardDriver K}.
Context (local64 : mem).
Abbreviation state := (desk X D G C K A).
Implicit Types d : state.

(** The state around a framebuffer. *)
Definition on_display d : screen -> state := fun fb => set_d_display (default (d_display d) fb) d.

Lemma on_display_id d : on_display d (Some (d_display d)) = d.
Proof. by destruct d. Qed.
(** Operation [m] is a drawing on framebuffers of the display's size. *)
Definition sized d (f : framebuffer) : Prop := fb_wf f /\ fb_width f = fb_width (d_display d) /\ fb_height f = fb_height (d_display d).
Definition shows d (m : M state unit) : Prop :=
  forall f, sized d f -> exists f', m (on_display d (Some f)) = Ret tt (on_display d (Some f')) [] /\ sized d f'.

Section combinators.
Context (d : state).

Lemma shows_ret : shows d (ret tt).
Proof. intros f Hf. by exists f. Qed.
Lemma shows_bind m1 m2 : shows d m1 -> shows d m2 -> shows d (m1;; m2).
Proof. intros Ha Hb f Hf. destruct (Ha f Hf) as (f1 & E1 & Hf1). rewrite (bind_Ret_nil _ _ _ _ _ E1). by apply Hb. Qed.
Lemma shows_run {B} (m : M state B) b (k : B -> M state unit) :
  (forall f, sized d f -> m (on_display d (Some f)) = Ret b (on_display d (Some f)) []) -> shows d (k b) -> shows d (bind m k).
Proof. intros Hm Hk f Hf. rewrite (bind_Ret_nil _ _ _ _ _ (Hm f Hf)). by apply Hk. Qed.
Lemma shows_signed z (k : Z -> M state unit) : - 2 ^ 31 <= z < 2 ^ 31 -> shows d (k z) -> shows d (bind (signed z) k).
Proof. intros Hz Hk. apply (shows_run _ z); [|done]. intros. by apply signed_run. Qed.
Lemma shows_deref {B} (o : option B) b (k : B -> M state unit) : o = Some b -> shows d (k b) -> shows d (bind (deref o) k).
Proof. intros -> Hk. by apply (shows_run _ b). Qed.
Lemma shows_here m : fb_wf (d_display d) -> shows d m -> exists f, m d = Ret tt (set_d_display f d) [] /\ sized d f.
Proof. intros Hf Hm. destruct (Hm (d_display d)) as (f & E & Hs); [done|]. rewrite on_display_id in E. by exists f. Qed.

Context (Hfb : ds_fb (d_desktop d) = true).

Lemma get_canvas_display f : get_canvas (on_display d (Some f)) = Canvas (Some f) (d_theme d).
Proof using Hfb. unfold get_canvas, on_display. cbn [d_desktop set_d_display]. by rewrite Hfb. Qed.
Lemma shows_draws m g : draws m g -> shows d (on_cv get_canvas put_canvas (DesktopWindow.on_canvas m)).
Proof using Hfb.
  intros Hd f (Hwf & Hw & Hh). destruct (Hd f Hwf) as (f' & Hr & [Hwf' Hw' Hh' _]). exists f'. split; [|by split; [done|split; congruence]].
  cbn beta in Hr. unfold on_cv, DesktopWindow.on_canvas, zoom. rewrite get_canvas_display. cbn [cv_screen]. by rewrite Hr.
Qed.

Lemma shows_fill x y w h c : near x -> near y -> near w -> near h -> shows d (fill x y w h c).
Proof using Hfb. intros. eapply shows_draws. by apply draw_fill_rect_draws. Qed.
Lemma shows_frame x y w h c : near x -> near y -> near w -> near h -> shows d (frame x y w h c).
Proof using Hfb. intros. eapply shows_draws. by apply draw_rect_draws. Qed.
Lemma shows_text x y t fg bg : terminated t -> near x -> near y -> shows d (write_at x y t fg bg).
Proof using Hfb. intros (s & Hs & Hb & Hl) ? ?. eapply shows_draws. eapply gfx_draw_string_draws; try done. lia. Qed.
Lemma shows_text_in x y dx dy t fg bg : terminated t -> - 2 ^ 28 <= x < 2 ^ 28 -> - 2 ^ 28 <= y < 2 ^ 28 -> 0 <= dx < 2 ^ 28 -> 0 <= dy < 2 ^ 28 ->
  shows d (write_in x y dx dy t fg bg).
Proof using Hfb. intros. apply shows_signed; [lia|]. apply shows_signed; [lia|]. apply shows_text; unfold near; [done|lia..]. Qed.
End combinators.

Lemma literal_terminated s : no_nul (lit s) -> lenZ (lit s) < 2 ^ 20 -> terminated (cstr s).
Proof. intros Hn Hl. exists (lit s). split; [by apply label_cval|]. split; [apply label_bytes|done]. Qed.

Record drawable d : Prop := {
  dr_tables : tables_ok d;
  dr_screen : screen_ok d;
  dr_fb : fb_wf (d_display d);
  dr_theme : desktop_theme_loaded (d_theme d) <> 0;
  dr_message : terminated (dlg_message (d_alert_dialog d))
}.

Lemma theme_run d f : drawable d ->
  on_theme (desktop_theme_get local64) (on_display d (Some f)) = Ret (desktop_theme_current (d_theme d)) (on_display d (Some f)) [].
Proof.
  intros Hd. unfold on_theme. erewrite zoom_Ret; [|unfold desktop_theme_get; cbn [d_theme on_display set_d_display]; krun;
    rewrite (proj2 (Z.eqb_neq (desktop_theme_loaded (d_theme d)) 0)) by apply (dr_theme d Hd); krun; reflexivity]. done.
Qed.
Lemma sized_screen d f : screen_ok d -> sized d f -> screen_ok (on_display d (Some f)).
Proof. intros [Hs Hw Hh] (_ & Hfw & Hfh). split; [done| |]; change (d_display (on_display d (Some f))) with f; lia. Qed.

Ltac lit_ok := apply literal_terminated; [apply (bool_decide_unpack _); vm_compute; exact I|done].

Lemma shows_the_fb d k : screen_ok d -> (forall f, fb_width f = fb_width (d_display d) -> fb_height f = fb_height (d_display d) -> shows d (k f)) ->
  shows d (f <- the_fb;; k f).
Proof.
  intros Hs Hk f Hf. rewrite (bind_Ret_nil _ _ _ _ _ (the_fb_run _ (sized_screen d f Hs Hf))). by apply Hk; [apply Hf..|].
Qed.

Lemma background_shows d : drawable d -> shows d (desktop_draw_background local64).
Proof.
  intros Hd. pose proof (dr_screen _ Hd) as Hsk. pose proof (sk_fb _ Hsk) as Hfb. pose proof (sk_width _ Hsk) as Hw. pose proof (sk_height _ Hsk) as Hh.
  unfold desktop_draw_background. apply (shows_run _ _ _ _ (fun f _ => theme_run d f Hd)). cbn zeta.
  apply shows_the_fb; [done|]. intros f Hfw Hfh. rewrite !Hfw. assert (Hq : 0 <= fb_width (d_display d) / 4 <= fb_width (d_display d)) by (Z.div_mod_to_equations; lia).
  rewrite (u32_small (fb_width (d_display d) - _)), !i32_small by lia.
  apply shows_bind; [eapply shows_draws; [done|apply fb_clear_draws]|].
  apply shows_bind; [apply shows_fill; unfold near; try done; lia|].
  apply shows_bind.
  { destruct (0 <? _); [|apply shows_ret]. apply (shows_run _ _ (area_height d)).
    { intros g Hg. rewrite (work_area_run _ (sized_screen d g Hsk Hg)). f_equal. unfold area_height. cbn. by destruct Hg as (_ & _ & ->). }
    unfold area_height, DESKTOP_TASKBAR_HEIGHT. rewrite i32_small by lia. apply shows_signed; [lia|]. apply shows_fill; unfold near; try done; lia. }
  apply shows_bind; [apply shows_text; [done|lit_ok|done|done]|]. apply shows_signed; [lia|]. apply shows_text; [done|lit_ok|unfold near; lia|done].
Qed.

Lemma content_bounds w : window_ok w -> 0 <= desktop_window_content_width (Some w) <= 2 ^ 20 /\ 0 <= desktop_window_content_height (Some w) <= 2 ^ 20.
Proof.
  intros [_ _ _ (_ & _ & Hw & Hh) _]. unfold desktop_window_content_width, desktop_window_content_height.
  change (u32 (DESKTOP_WINDOW_TITLE_HEIGHT + DESKTOP_WINDOW_PADDING * 2)) with 32. change (DESKTOP_WINDOW_PADDING * 2) with 16.
  destruct (Z.leb_spec (win_width w) 16), (Z.leb_spec (win_height w) 32); rewrite ?u32_small by lia; lia.
Qed.

Lemma dialog_shows d w : drawable d -> window_ok w -> shows d (desktop_dialog_draw local64 w).
Proof.
  intros Hd Hw. pose proof (sk_fb _ (dr_screen _ Hd)) as Hfb. pose proof (content_bounds w Hw) as [Hcw Hch]. destruct Hw as [_ _ _ Hp _]. pose proof (within_wf w Hp) as Hwf.
  destruct Hp as (Hx & Hy & _ & _). unfold desktop_dialog_draw. apply (shows_run _ _ _ _ (fun f _ => theme_run d f Hd)). cbn zeta.
  apply (shows_run _ _ _ _ (fun f _ => content_x_run w _ Hwf)), (shows_run _ _ _ _ (fun f _ => content_y_run w _ Hwf)).
  rewrite !i32_small by lia.
  apply shows_bind; [apply shows_fill; unfold near; try done; lia|]. apply shows_bind; [apply shows_frame; unfold near; try done; lia|].
  apply (shows_run _ _ (dlg_message (d_alert_dialog d))); [done|].
  apply shows_bind; [apply shows_text_in; [done|apply (dr_message _ Hd)|lia..]|].
  apply shows_bind; [apply shows_text_in; [done|lit_ok|lia..]|]. apply shows_signed; [lia|].
  assert (Hq : - 2 ^ 20 <= Z.quot (desktop_window_content_width (Some w) - 52) 2 <= 2 ^ 20) by (Z.to_euclidean_division_equations; lia).
  apply shows_signed; [lia|]. apply shows_signed; [lia|]. apply shows_signed; [lia|].
  apply shows_bind; [apply shows_fill; unfold near; try done; lia|]. apply shows_bind; [apply shows_frame; unfold near; try done; lia|].
  apply shows_text_in; [done|lit_ok|lia..].
Qed.

Lemma builtin_shows d w x y tc bc : drawable d -> window_ok w -> - 2 ^ 24 <= x <= 2 ^ 24 -> - 2 ^ 24 <= y <= 2 ^ 24 -> shows d (draw_builtin_contents w x y tc bc).
Proof.
  intros Hd Hw Hx Hy. pose proof (sk_fb _ (dr_screen _ Hd)) as Hfb. unfold draw_builtin_contents. cbn zeta.
  destruct (id w =? 1); [|destruct (id w =? 2)].
  1, 3: repeat (apply shows_bind; [apply shows_text_in; [done|first [apply (wo_title _ Hw)|lit_ok]|lia..]|]); apply shows_text_in; [done|lit_ok|lia..].
  do 3 (apply shows_bind; [apply shows_text_in; [done|lit_ok|lia..]|]). apply (shows_run _ _ (ds_primary_button_down (d_desktop d))); [done|].
  apply shows_text_in; [done|destruct (negb _); lit_ok|lia..].
Qed.

(** ** Windows *)

(** An invariant of what the applications keep. *)
Section drawing.
Context (Inv : A -> Prop).

Record able d : Prop := { ab_drawable :> drawable d; ab_apps : Inv (d_apps d) }.
(** The display and the applications' own state may change, nothing else. *)
Definition drawn d d' : Prop := exists f a, d' = set_d_apps a (set_d_display f d) /\ sized d f /\ Inv a.
Definition redraws (m : M state unit) d : Prop := exists d', m d = Ret tt d' [] /\ drawn d d'.

Lemma drawn_refl d : able d -> drawn d d.
Proof using Type. intros Hd. exists (d_display d), (d_apps d). split; [by destruct d|]. split; [|apply Hd]. split; [apply (dr_fb _ Hd)|done]. Qed.
Lemma drawn_trans d1 d2 d3 : drawn d1 d2 -> drawn d2 d3 -> drawn d1 d3.
Proof using Type. intros (f & a & -> & (_ & Hw & Hh) & _) (f' & a' & -> & (Hf' & Hw' & Hh') & Ha). exists f', a'. split; [done|]. split; [|done]. split; [done|]. cbn in *. split; congruence. Qed.
Lemma drawn_able d d' : able d -> drawn d d' -> able d'.
Proof using Type.
  intros [[[Ht Hr] [Hs Hw Hh] Hf Hth Hm] _] (f & a & -> & (Hwf & Hfw & Hfh) & Ha). split; [|done]. split; try done. split; [done| |]; cbn; lia.
Qed.
Lemma redraws_bind m1 m2 d : able d -> redraws m1 d -> (forall d', drawn d d' -> able d' -> redraws m2 d') -> redraws (m1;; m2) d.
Proof using Type.
  intros Hd (d1 & E1 & H1d) Hk. destruct (Hk d1 H1d (drawn_able _ _ Hd H1d)) as (d2 & E2 & H2d). exists d2.
  rewrite (bind_Ret_nil _ _ _ _ _ E1). split; [done|]. by apply (drawn_trans _ d1).
Qed.
Lemma redraws_ret d : able d -> redraws (ret tt) d.
Proof using Type. intros Hd. exists d. split; [done|by apply drawn_refl]. Qed.
Lemma redraws_run {B} (m : M state B) b k d : m d = Ret b d [] -> redraws (k b) d -> redraws (bind m k) d.
Proof using Type. intros E (d' & Hk & Hd'). exists d'. by rewrite (bind_Ret_nil _ _ _ _ _ E). Qed.
Lemma shows_redraws d m : able d -> shows d m -> redraws m d.
Proof using Type. intros Hd Hm. destruct (shows_here d m (dr_fb _ Hd) Hm) as (f & E & Hf). exists (set_d_display f d). split; [done|]. exists f, (d_apps d). split; [done|]. split; [done|apply Hd]. Qed.

Lemma owner_function_run d w field : drawable d -> window_ok w -> exists r, owner_function w field d = Ret r d [].
Proof using Type.
  intros Hd Hw. pose proof (tb_registry _ (dr_tables _ Hd)) as Hr. unfold owner_function. rewrite (bind_Ret_nil _ _ _ _ _ (owner_instance_run d w Hr Hw)).
  destruct (instance_of (d_registry d) w) as [v|] eqn:Hv; [|destruct (owner w); by eexists]. pose proof (instance_app d w v Hr Hv) as Ha.
  destruct (owner w) as [i|]; [|by eexists]. destruct (inst_app v) as [a|]; [|by eexists]. destruct Ha as (app & Happ & _).
  rewrite bind_gets. cbn beta. rewrite Happ, (bind_deref_Some _ _ _ _ eq_refl). by eexists.
Qed.

Lemma frame_shows d w active : drawable d -> window_ok w -> shows d (on_canvas (desktop_window_draw local64 (Some w) active)).
Proof using Type.
  intros Hd Hw f Hf. pose proof Hf as (Hwf & Hfw & Hfh). pose proof (dr_screen _ Hd) as [Hfb Hsw Hsh]. unfold on_canvas, zoom. rewrite get_canvas_display by done.
  destruct Hw as [[Hl (t & Ht & Hb & _)] _ _ Hp _]. destruct (desktop_window_is_visible (Some w)) eqn:Hv.
  - assert (Htl : lenZ t < 32).
    { destruct (cval_inv _ _ Ht) as (_ & r & Heq). unfold DESKTOP_WINDOW_TITLE_MAX in Hl. rewrite Heq in Hl. unfold lenZ in *. rewrite length_app in Hl. cbn in Hl. lia. }
    destruct (desktop_window_draw_draws local64 (d_theme d) w active t f (within_wf w Hp) Hv (dr_theme _ Hd) Hwf ltac:(lia) ltac:(lia) Ht Hb Htl) as (f' & Hr & [Hwf' Hw' Hh' _]).
    exists f'. unfold DesktopWindow.on_fb in Hr. rewrite Hr. split; [done|]. split; [done|]. split; congruence.
  - exists f. unfold desktop_window_draw. rewrite bind_gets. cbn [cv_screen]. rewrite Hv. done.
Qed.

Section windows.
Context `{AppRender state}.

(** The drawing functions that the window in place [p] leads to draw, on any
    picture: the one its application registered and the one it has itself. *)
Definition callbacks_draw d0 (p : Z) (w : desktop_window) : Prop := forall d, drawn d0 d -> able d ->
  (forall f i, owner_function w on_render d = Ret (Some (f, i)) d [] -> redraws (call_on_render f i p) d) /\
  (forall f, draw w = Some f -> f <> dialog_draw -> redraws (call_draw f p (user_data w)) d).
(** So for all windows that are to be seen. *)
Definition has_contents (w : desktop_window) : Prop :=
  desktop_window_is_visible (Some w) = true /\ desktop_window_content_width (Some w) <> 0 /\ desktop_window_content_height (Some w) <> 0.
Definition windows_draw d : Prop := forall p w, stack d !! p = Some w -> has_contents w -> callbacks_draw d (Z.of_nat p) w.

Lemma windows_draw_drawn d d' : drawn d d' -> windows_draw d -> windows_draw d'.
Proof using Type.
  intros Hd Hw p w Hp Hc d1 Hd1 Hok. assert (Hs : stack d' = stack d) by (by destruct Hd as (f & a & -> & _)). rewrite Hs in Hp.
  apply (Hw p w Hp Hc); [|done]. by apply (drawn_trans _ d').
Qed.

Lemma contents_redraws d p w : able d -> stack d !! p = Some w -> (has_contents w -> callbacks_draw d (Z.of_nat p) w) ->
  desktop_window_is_visible (Some w) = true -> redraws (desktop_draw_window_contents local64 (Z.of_nat p)) d.
Proof using Type.
  intros Hd Hw Hcall Hvis. pose proof (tb_table _ (dr_tables _ Hd)) as Ht. pose proof (stack_window_ok _ _ _ Ht Hw) as Hok. pose proof (sk_fb _ (dr_screen _ Hd)) as Hfb.
  pose proof (content_bounds w Hok) as [Hcw Hch]. pose proof (wo_place _ Hok) as Hp. pose proof (within_wf w Hp) as Hwf. destruct Hp as (Hx & Hy & _ & _).
  unfold desktop_draw_window_contents. pose proof (theme_run d (d_display d) Hd) as Eth. rewrite on_display_id in Eth. apply (redraws_run _ _ _ _ Eth). cbn zeta.
  apply (redraws_run _ _ _ _ (stack_get_run d p w Ht Hw)), (redraws_run _ _ _ _ (content_x_run w _ Hwf)), (redraws_run _ _ _ _ (content_y_run w _ Hwf)).
  destruct (Z.eqb_spec (desktop_window_content_width (Some w)) 0) as [|Hcw0]; [by apply redraws_ret|].
  destruct (Z.eqb_spec (desktop_window_content_height (Some w)) 0) as [|Hch0]; [by apply redraws_ret|]. cbn [orb]. rewrite !i32_small by lia.
  apply redraws_bind; [done|apply shows_redraws; [done|apply shows_fill; unfold near; try done; lia]|]. intros d1 Hd1 Hok1.
  apply redraws_bind; [done|apply shows_redraws; [done|apply shows_frame; [apply (sk_fb _ (dr_screen _ Hok1))|unfold near; lia..]]|]. intros d2 Hd2 Hok2.
  destruct (Hcall ltac:(done) d2 (drawn_trans _ _ _ Hd1 Hd2) Hok2) as [Hrender Hdraw].
  destruct (owner_function_run d2 w on_render Hok2 Hok) as (r & Er). apply (redraws_run _ _ _ _ Er). destruct r as [[f i]|]; [by apply Hrender|].
  destruct (draw w) as [f|]; [destruct (Z.eqb_spec f dialog_draw); [apply shows_redraws; [done|apply dialog_shows; [apply Hok2|done]]|by apply Hdraw]|].
  apply shows_redraws; [done|]. apply builtin_shows; [apply Hok2|done|lia..].
Qed.

Lemma drawn_stack d d' : drawn d d' -> stack d' = stack d /\ d_desktop d' = d_desktop d /\ d_registry d' = d_registry d.
Proof using Type. by intros (f & a & -> & _). Qed.

Lemma draw_window_redraws d p w active : able d -> stack d !! p = Some w -> windows_draw d -> redraws (draw_window local64 active (Z.of_nat p)) d.
Proof using Type.
  intros Hd Hw Hall. pose proof (tb_table _ (dr_tables _ Hd)) as Ht. pose proof (stack_window_ok _ _ _ Ht Hw) as Hok.
  unfold draw_window. apply (redraws_run _ _ _ _ (stack_get_run d p w Ht Hw)).
  apply redraws_bind; [done|apply shows_redraws; [done|apply frame_shows; [apply Hd|done]]|]. intros d1 Hd1 Hok1. destruct (drawn_stack _ _ Hd1) as (Hs1 & _).
  rewrite <- Hs1 in Hw. apply (redraws_run _ _ _ _ (stack_get_run d1 p w (tb_table _ (dr_tables _ Hok1)) Hw)).
  destruct (desktop_window_is_visible (Some w)) eqn:Hvis; [|by apply redraws_ret]. apply (contents_redraws _ _ w); [done..| |done].
  intros Hc. by apply (windows_draw_drawn _ _ Hd1 Hall).
Qed.

Lemma draw_windows_redraws n p d : able d -> windows_draw d -> (length (stack d) <= n + p)%nat -> redraws (draw_windows local64 n (Z.of_nat p)) d.
Proof using Type.
  revert p d. induction n as [|n IH]; intros p d Hd Hall Hn; pose proof (tb_table _ (dr_tables _ Hd)) as Ht; pose proof (length_stack _ Ht) as Hl; cbn [draw_windows];
    apply (redraws_run _ (ds_window_count (d_desktop d)) _ d eq_refl).
  - rewrite (proj2 (Z.leb_le _ _)) by lia. by apply redraws_ret.
  - destruct (Z.leb_spec (ds_window_count (d_desktop d)) (Z.of_nat p)) as [|Hlt]; [by apply redraws_ret|].
    apply (redraws_run _ (ds_modal_window_id (d_desktop d)) _ d eq_refl). destruct (stack_lookup d (Z.of_nat p) Ht ltac:(lia)) as [w Hw]. rewrite Nat2Z.id in Hw.
    apply (redraws_run _ _ _ _ (stack_get_run d p w Ht Hw)), (redraws_run _ (ds_focused_window_index (d_desktop d)) _ d eq_refl).
    apply redraws_bind; [done| |].
    + destruct (_ && _); [by apply redraws_ret|]. by apply (draw_window_redraws _ _ w).
    + intros d1 Hd1 Hok1. destruct (drawn_stack _ _ Hd1) as (Hs1 & _). replace (Z.of_nat p + 1) with (Z.of_nat (S p)) by lia.
      apply IH; [done|by apply (windows_draw_drawn d)|]. rewrite Hs1. lia.
Qed.

Lemma draw_modal_redraws d : able d -> windows_draw d -> redraws (draw_modal local64) d.
Proof using Type.
  intros Hd Hall. pose proof (tb_table _ (dr_tables _ Hd)) as Ht. unfold draw_modal. apply (redraws_run _ (ds_modal_window_id (d_desktop d)) _ d eq_refl).
  destruct (_ =? 0); [by apply redraws_ret|]. apply (redraws_run _ _ _ _ (find_run d _ Ht)).
  destruct (Z.leb_spec (ds_window_count (d_desktop d)) (index_of (ds_modal_window_id (d_desktop d)) d)) as [|Hlt]; [by apply redraws_ret|].
  destruct (index_of_inv d _ Ht Hlt) as (w & Hw & _ & Hpos). rewrite <- (Z2Nat.id _ Hpos). by apply (draw_window_redraws _ _ w).
Qed.
End windows.
End drawing.

(** What opening a window and showing an alert rely on: the windows of every
    desktop draw, whatever size they have. Drawing itself relies on it for the
    windows that are there. *)
Class RenderLaws `{AppRender state} : Prop := always_draw : forall d, drawable d -> windows_draw (fun _ => True) d.



(** ** The taskbar *)

Lemma get_instance_run r i : registry_ok r -> 0 <= i < DESKTOP_REGISTRY_MAX_INSTANCES -> exists v, rd (instances r) i = Some v /\ get_instance i r = Ret v r [].
Proof.
  intros Hr Hi. destruct (rd_range _ _ _ (ro_instances _ Hr) Hi) as [v Hv]. exists v. split; [done|]. unfold get_instance. rewrite bind_gets. cbn beta. by rewrite Hv.
Qed.
Lemma running_loop_run r n i c name : registry_ok r -> terminated name -> 0 <= i -> i + Z.of_nat n <= DESKTOP_REGISTRY_MAX_INSTANCES ->
  exists c', running_count_loop n i c name r = Ret c' r [].
Proof.
  intros Hr (t & Ht & _). revert i c. induction n as [|n IH]; intros i c Hi Hn; cbn [running_count_loop]; [by eexists|].
  destruct (get_instance_run r i Hr ltac:(lia)) as (v & Hv & E). rewrite (bind_Ret_nil _ _ _ _ _ E). destruct (running v); [|apply IH; lia].
  pose proof (rd_Forall _ _ _ _ (ro_app _ Hr) Hv) as Ha. cbn beta in Ha. destruct (inst_app v) as [a|]; [|apply IH; lia].
  pose proof (ro_count _ Hr). destruct (rd_range _ a _ (ro_apps _ Hr)) as [app Happ]; [lia|].
  destruct (rd_Forall _ _ _ _ (ro_names _ Hr) Happ) as [(s & Hs & _) _]. destruct (strcmp_spec _ _ _ _ Hs Ht) as (z & Hz & _).
  rewrite bind_gets. cbn beta. rewrite Happ, (bind_deref_Some _ _ _ _ eq_refl), (bind_deref_Some _ _ _ _ Hz). apply IH; lia.
Qed.
Lemma empty_string_run s : terminated s -> exists b, empty_string s = Some b.
Proof. intros (t & Ht & _). destruct (cval_inv _ _ Ht) as (_ & r & ->). unfold empty_string. destruct t; by eexists. Qed.
Lemma running_count_run r name : registry_ok r -> reg_initialized r <> 0 -> terminated name -> exists c, desktop_app_running_count (Some name) r = Ret c r [].
Proof.
  intros Hr Hi Hn. unfold desktop_app_running_count. assert (E : desktop_registry_ensure_defaults r = Ret tt r []).
  { unfold desktop_registry_ensure_defaults. rewrite bind_gets. by rewrite (proj2 (Z.eqb_neq _ 0)). }
  rewrite (bind_Ret_nil _ _ _ _ _ E). destruct (empty_string_run _ Hn) as [b Hb]. rewrite (bind_deref_Some _ _ _ _ Hb). destruct b; [by eexists|].
  by apply running_loop_run.
Qed.

Lemma button_x_shows d b k : 0 <= b <= 8 -> (forall x, 0 <= x <= 1000 -> shows d (k x)) -> shows d (x <- desktop_taskbar_window_button_x b;; k x).
Proof.
  intros Hb Hk. unfold desktop_taskbar_window_button_x. rewrite i32_small by lia. unfold DESKTOP_TASKBAR_WINDOW_BUTTON_WIDTH, DESKTOP_TASKBAR_WINDOW_BUTTON_GAP, DESKTOP_TASKBAR_PADDING, DESKTOP_TASKBAR_LAUNCHER_WIDTH.
  assert (E : forall s : state, (offset <- signed (b * (88 + 6));; signed (8 + 68 + 6 + offset)) s = Ret (82 + b * 94) s []) by (intros s; rewrite bind_signed, signed_run by lia; f_equal; lia).
  apply (shows_run _ _ _ _ (fun f _ => E _)). apply Hk. lia.
Qed.

Lemma buttons_shows d theme l focus bar n i b : ds_fb (d_desktop d) = true -> Forall window_ok (take (i + n) l) -> (i + n <= length l)%nat -> 0 <= b -> b + Z.of_nat n <= 8 -> 0 <= bar < 2 ^ 20 ->
  shows d (draw_buttons get_canvas put_canvas n theme l focus bar (Z.of_nat i) b).
Proof.
  intros Hfb. revert i b. induction n as [|n IH]; intros i b Hw Hl Hb Hn Hbar; cbn [draw_buttons]; [apply shows_ret|]. cbn zeta.
  destruct (lookup_lt_is_Some_2 l i) as [w Hlk]; [lia|]. assert (Hok : window_ok w) by (apply (Forall_lookup_1 _ _ i _ Hw); by rewrite lookup_take_lt by lia).
  apply (shows_deref _ _ w); [by rewrite rd_nat|]. replace (Z.of_nat i + 1) with (Z.of_nat (S i)) by lia.
  assert (Hrest : forall b', 0 <= b' -> b' + Z.of_nat n <= 8 -> shows d (draw_buttons get_canvas put_canvas n theme l focus bar (Z.of_nat (S i)) b')).
  { intros b' Hb' Hn'. apply IH; [by replace (S i + n)%nat with (i + S n)%nat by lia|lia..]. }
  destruct (has_button w); cbn [negb]; [|apply Hrest; lia]. apply button_x_shows; [lia|]. intros x Hx. apply shows_signed; [lia|].
  apply shows_bind; [apply shows_fill; unfold near; try done; lia|]. apply shows_bind; [apply shows_frame; unfold near; try done; lia|].
  apply shows_signed; [lia|]. apply shows_signed; [lia|]. apply shows_bind; [apply shows_text; [done|apply (wo_title _ Hok)|unfold near; lia..]|].
  rewrite u32_small by lia. apply Hrest; lia.
Qed.

Lemma items_shows d theme selected menu n i : drawable d -> reg_initialized (d_registry d) <> 0 -> (i + n <= length (apps (d_registry d)))%nat -> 0 <= menu < 2 ^ 20 ->
  shows d (draw_items get_canvas put_canvas (fun name => on_registry (desktop_app_running_count name)) n theme (apps (d_registry d)) selected menu (Z.of_nat i)).
Proof.
  intros Hd Hreg. pose proof (sk_fb _ (dr_screen _ Hd)) as Hfb. pose proof (tb_registry _ (dr_tables _ Hd)) as Hr. pose proof (ro_apps _ Hr) as Hla. unfold lenZ, DESKTOP_REGISTRY_MAX_APPS in Hla.
  revert i. induction n as [|n IH]; intros i Hn Hm; cbn [draw_items]; [apply shows_ret|]. unfold DESKTOP_TASKBAR_MENU_HEADER_HEIGHT, DESKTOP_TASKBAR_MENU_ITEM_HEIGHT, DESKTOP_TASKBAR_MENU_WIDTH, DESKTOP_TASKBAR_PADDING.
  apply shows_signed; [lia|]. rewrite u32_small, i32_small by lia. apply shows_signed; [lia|]. cbn zeta.
  apply shows_bind; [destruct (_ =? selected); [apply shows_signed; [lia|]; apply shows_fill; unfold near; try done; lia|apply shows_ret]|].
  destruct (lookup_lt_is_Some_2 (apps (d_registry d)) i) as [app Happ]; [lia|]. apply (shows_deref _ _ app); [by rewrite rd_nat|].
  destruct (Forall_lookup_1 _ _ _ _ (ro_names _ Hr) Happ) as [Hname (t & Ht & Htb & Htl)]. destruct (running_count_run _ (app_name app) Hr Hreg Hname) as (c & Hc).
  apply (shows_run _ _ c). { intros f Hf. unfold on_registry. erewrite zoom_Ret; [|exact Hc]. done. }
  change (DESKTOP_APP_DISPLAY_NAME_MAX + 4) with 36.
  assert (Htext : exists it p, (forall s : state, (if 0 <? c then t0 <- deref (strlcpy (zeroes 36) 0 (cstr "* ") 36);; ret t0.1 else ret (zeroes 36)) s = Ret it s []) /\
     cval it = Some p /\ lenZ it = 36 /\ lenZ p <= 2 /\ Forall (fun c => 0 <= c < 256) p).
  { destruct (0 <? c).
    - destruct (append_run (zeroes 36) [] (cstr "* ") (lit "* ") 36) as (r & E & Hcv & Hlen); [done|done|done|done|]. change (lenZ []) with 0 in E. change (36 - 0) with 36 in E.
      exists r, (lit "* "). split; [intros s; by rewrite (bind_deref_Some _ _ _ _ E)|]. split; [exact Hcv|]. split; [done|]. split; [done|]. apply label_bytes.
    - exists (zeroes 36), []. done. }
  destruct Htext as (it & p & E & Hcv & Hlen & Hpl & Hpb). apply (shows_run _ _ it _ (fun f _ => E _)). pose proof (lenZ_nonneg p).
  apply (shows_deref _ _ (lenZ p)); [by rewrite strlen_cval, Hcv|]. rewrite u64_small by lia.
  destruct (append_run it p (display_name app) t 36 Hcv Ht ltac:(lia) Hlen) as (r & Er & Hrc & Hrl). apply (shows_deref _ _ _ _ Er). cbn [fst].
  apply shows_signed; [lia|]. apply shows_bind; [apply shows_text; [done| |done|unfold near; lia]|].
  - apply (terminated_app _ _ _ _ Hrc Hpb Htb). lia.
  - replace (Z.of_nat i + 1) with (Z.of_nat (S i)) by lia. apply IH; lia.
Qed.

Lemma uptime_run buffer ms : lenZ buffer = 16 -> 0 <= ms -> exists b, (forall s : state, desktop_taskbar_format_uptime ms (Some buffer) 16 s = Ret (Some b) s []) /\ terminated b.
Proof.
  intros Hl Hms. unfold desktop_taskbar_format_uptime. cbn [Z.ltb Z.compare Pos.compare Pos.compare_cont]. cbn zeta. rewrite (proj2 (Z.ltb_ge _ 9)) by lia.
  assert (Hdig : forall v, 0 <= v -> 48 <= ch "0" + v mod 10 < 58) by (intros v Hv; change (ch "0") with 48; Z.div_mod_to_equations; lia).
  set (m := (ms / 1000 / 60) mod 100). set (sec := (ms / 1000) mod 60). assert (Hm : 0 <= m) by (unfold m; Z.div_mod_to_equations; lia).
  assert (Hs : 0 <= sec) by (unfold sec; Z.div_mod_to_equations; lia). pose proof (Hdig (m / 10) ltac:(Z.div_mod_to_equations; lia)) as D1. pose proof (Hdig m Hm) as D2.
  pose proof (Hdig (sec / 10) ltac:(Z.div_mod_to_equations; lia)) as D3. pose proof (Hdig sec Hs) as D4. revert D1 D2 D3 D4.
  generalize (ch "0" + (m / 10) mod 10), (ch "0" + m mod 10), (ch "0" + (sec / 10) mod 10), (ch "0" + sec mod 10). intros a b c e D1 D2 D3 D4.
  set (txt := [ch "u"; ch "p"; ch " "; a; b; ch ":"; c; e]). eexists. split; [intros s; rewrite (bind_deref_Some _ _ _ _ eq_refl); reflexivity|].
  exists txt. unfold splice. rewrite take_0. cbn [app]. change (cval (txt ++ 0 :: drop 9 buffer) = Some txt /\ Forall (fun c => 0 <= c < 256) txt /\ lenZ txt < 2 ^ 20).
  split; [apply cval_app; unfold txt; repeat (apply Forall_cons; split; [try (vm_compute; discriminate); lia|]); by apply Forall_nil|].
  split; [|done]. unfold txt. repeat (apply Forall_cons; split; [try lia; vm_compute; split; congruence|]). by apply Forall_nil.
Qed.

Lemma menu_height_run c : 0 <= c <= 8 -> desktop_taskbar_menu_height c = 28 + c * 18.
Proof.
  intros Hc. unfold desktop_taskbar_menu_height, DESKTOP_TASKBAR_MENU_HEADER_HEIGHT, DESKTOP_TASKBAR_MENU_ITEM_HEIGHT. rewrite (u32_small (c * 18)) by lia. rewrite u32_small by lia. lia.
Qed.
Lemma taskbar_y_run h : 24 < h < 2 ^ 31 -> desktop_taskbar_y h = h - 24.
Proof. intros Hh. unfold desktop_taskbar_y, DESKTOP_TASKBAR_HEIGHT. rewrite (proj2 (Z.leb_gt _ _)) by lia. by rewrite i32_small by lia. Qed.

Lemma launcher_shows d theme selected bar count : drawable d -> reg_initialized (d_registry d) <> 0 -> 0 <= count <= 8 -> 0 <= bar < 2 ^ 20 ->
  shows d (draw_launcher get_canvas put_canvas (fun name => on_registry (desktop_app_running_count name)) theme (apps (d_registry d)) count selected bar).
Proof.
  intros Hd Hreg Hc Hb. pose proof (sk_fb _ (dr_screen _ Hd)) as Hfb. pose proof (ro_apps _ (tb_registry _ (dr_tables _ Hd))) as Hla. unfold lenZ, DESKTOP_REGISTRY_MAX_APPS in Hla.
  unfold draw_launcher. cbn zeta. rewrite menu_height_run, !i32_small by lia. unfold menu_top. set (my := bar - (28 + count * 18)).
  apply (shows_run _ _ (if my <? 0 then 0 else my)). { intros f Hf. rewrite i32_small by lia. by rewrite bind_signed by (unfold my; lia). }
  assert (Hmy : 0 <= (if my <? 0 then 0 else my) < 2 ^ 20) by (unfold my; destruct (Z.ltb_spec (bar - (28 + count * 18)) 0); lia).
  apply shows_bind; [apply shows_fill; unfold near; try done; unfold DESKTOP_TASKBAR_PADDING, DESKTOP_TASKBAR_MENU_WIDTH; lia|].
  apply shows_bind; [apply shows_frame; unfold near; try done; unfold DESKTOP_TASKBAR_PADDING, DESKTOP_TASKBAR_MENU_WIDTH; lia|].
  apply shows_signed; [lia|]. apply shows_bind; [apply shows_text; [done|lit_ok|done|unfold near; lia]|]. apply (items_shows d theme selected _ (Z.to_nat count) 0); [done|done|lia|done].
Qed.

Context (uptime_text : mem) (uptime_len : lenZ uptime_text = 16).

Lemma taskbar_shows d focus count selected uptime launcher : drawable d -> reg_initialized (d_registry d) <> 0 -> 0 <= count <= 8 -> 0 <= uptime ->
  shows d (desktop_taskbar_draw local64 get_canvas put_canvas (fun name => on_registry (desktop_app_running_count name)) uptime_text
    (ds_windows (d_desktop d)) (ds_window_count (d_desktop d)) focus (apps (d_registry d)) count selected uptime launcher).
Proof using uptime_len.
  intros Hd Hreg Hc Hu. pose proof (dr_screen _ Hd) as Hsk. pose proof Hsk as [Hfb Hw Hh]. pose proof (tb_table _ (dr_tables _ Hd)) as Ht. pose proof (to_count _ Ht) as Hcount.
  pose proof (to_length _ Ht) as Hlen. unfold lenZ, DESKTOP_MAX_WINDOWS in *.
  unfold desktop_taskbar_draw. intros f Hf. rewrite bind_gets. rewrite get_canvas_display by done. cbn [cv_screen]. pose proof Hf as (Hwf & Hfw & Hfh).
  destruct (fw_buffer f Hwf) as (b & Hb & _). rewrite Hb, bool_decide_eq_true_2 by by eexists. cbn [negb]. rewrite Hfw, Hfh, taskbar_y_run by lia. clear b Hb Hwf Hfw Hfh. revert f Hf.
  match goal with |- forall f, sized d f -> exists f', ?m _ = _ /\ _ => change (shows d m) end.
  apply (shows_run _ _ (desktop_theme_current (d_theme d))).
  { intros f Hf. unfold on_cv, zoom. rewrite get_canvas_display by done. change (Canvas (Some f) (d_theme d)) with (DesktopWindow.on_fb (d_theme d) (Some f)).
    rewrite the_theme_run by apply (dr_theme _ Hd). done. }
  cbn zeta. rewrite i32_small by lia. apply shows_signed; [lia|]. unfold DESKTOP_TASKBAR_HEIGHT, DESKTOP_TASKBAR_PADDING, DESKTOP_TASKBAR_LAUNCHER_WIDTH.
  do 2 (apply shows_bind; [apply shows_fill; unfold near; try done; lia|]). apply shows_bind; [apply shows_frame; unfold near; try done; lia|].
  apply shows_signed; [lia|]. apply shows_bind; [apply shows_text; [done|lit_ok|done|unfold near; lia]|].
  apply shows_bind.
  { change 0 with (Z.of_nat 0) at 1. apply buttons_shows; [done| |lia|lia|lia|lia]. apply (to_windows _ Ht). }
  destruct (uptime_run uptime_text uptime uptime_len Hu) as (ub & Eu & Hub). apply (shows_run _ _ _ _ (fun f _ => Eu _)). apply (shows_deref _ _ ub); [done|].
  apply shows_signed; [lia|]. apply shows_bind; [apply shows_text; [done|done|unfold near; lia..]|]. destruct launcher; [|apply shows_ret]. apply launcher_shows; [done|done|done|lia].
Qed.

(** ** The whole picture *)

(** The pointer lies on the screen, when it is attached. *)
Definition pointer_ok d : Prop :=
  lenZ (saved_pixels (d_cursor d)) = 192 /\ 0 <= cur_x (d_cursor d) < fb_width (d_display d) /\ 0 <= cur_y (d_cursor d) < fb_height (d_display d).
Record ready d : Prop := {
  rd_drawable : drawable d;
  rd_registry : reg_initialized (d_registry d) <> 0;
  rd_timer : 0 < timer_freq (d_timer d);
  rd_pointer : is_Some (cur_fb (d_cursor d)) -> pointer_ok d;
  rd_initialized : ds_initialized (d_desktop d) <> 0
}.

(** What showing the desktop leaves as it is. *)
Record rendered d d' : Prop := {
  re_desktop : exists n b, d_desktop d' = set_ds_dirty b (set_ds_frame_counter n (d_desktop d));
  re_registry : d_registry d' = d_registry d;
  re_theme : d_theme d' = d_theme d;
  re_alert : d_alert_dialog d' = d_alert_dialog d;
  re_console : exists g, d_console d' = set_gpu g (d_console d) /\ virtio_gpu_available g = virtio_gpu_available (gpu (d_console d));
  re_size : fb_width (d_display d') = fb_width (d_display d) /\ fb_height (d_display d') = fb_height (d_display d);
  re_ready : ready d'
}.

Lemma refresh_pointer_ok s f : cur_fb s = Some f -> fb_wf f -> lenZ (saved_pixels s) = 192 -> 0 <= cur_x s < fb_width f -> 0 <= cur_y s < fb_height f ->
  exists s' f', gfx_cursor_refresh s = Ret tt s' [] /\ cur_fb s' = Some f' /\ fb_wf f' /\ fb_width f' = fb_width f /\ fb_height f' = fb_height f /\
    lenZ (saved_pixels s') = 192 /\ cur_x s' = cur_x s /\ cur_y s' = cur_y s.
Proof.
  clear uptime_len. intros Hfb Hf Hl Hx Hy. pose proof (fw_width f Hf). pose proof (fw_height f Hf). unfold gfx_cursor_refresh, gfx_cursor_available. rewrite bind_assoc, bind_gets, Hfb.
  destruct (fw_buffer f Hf) as (b & Hb & _). rewrite Hb, bind_ret. cbn [negb]. rewrite !bind_gets, bind_modify. set (s1 := set_visible 0 s).
  destruct (save_ok s1 f (cur_x s) (cur_y s)) as (saved & Es & Hls & _); [done|done|done|by split|]. rewrite (bind_Ret_nil _ _ _ _ _ Es).
  set (s2 := set_saved_pixels saved (clipped s1 f (cur_x s) (cur_y s))).
  destruct (draw_at_ok s2 f) as (f' & Ed & [Hf' Hw' Hh' _]); [done|done|exact Hx|exact Hy|cbn; lia|cbn; lia|]. change (gfx_cursor_draw_at (cur_x s) (cur_y s) s2) with (gfx_cursor_draw_at (cur_x s2) (cur_y s2) s2).
  rewrite Ed. by exists (set_visible 1 (set_cur_fb (Some f') s2)), f'.
Qed.

Lemma pointer_run d : ready d -> exists d', (available <- on_cursor gfx_cursor_available;; (if (available : bool) then on_cursor gfx_cursor_refresh else ret tt)) d = Ret tt d' [] /\
  exists f c, d' = set_d_cursor c (set_d_display f d) /\ sized d f /\ (is_Some (cur_fb c) -> pointer_ok d').
Proof.
  clear uptime_len. intros [Hd Hreg Htm Hp Hini]. pose proof (dr_fb _ Hd) as Hwf. destruct (fw_buffer _ Hwf) as (b & Hb & _). destruct (cur_fb (d_cursor d)) as [f0|] eqn:Hfb.
  - destruct (Hp ltac:(by eexists)) as (Hl & Hx & Hy).
    assert (Ea : on_cursor gfx_cursor_available d = Ret true (put_cursor (get_cursor d) d) []).
    { unfold on_cursor. apply zoom_Ret. unfold gfx_cursor_available. rewrite bind_gets. unfold get_cursor, attached. rewrite Hfb. cbn [cur_fb set_cur_fb]. by rewrite Hb. }
    rewrite (bind_Ret_nil _ _ _ _ _ Ea). set (d1 := put_cursor _ d).
    assert (Hg1 : get_cursor d1 = set_cur_fb (Some (d_display d)) (d_cursor d)). { unfold d1, get_cursor, put_cursor, attached, written_back. rewrite Hfb. done. }
    destruct (refresh_pointer_ok (set_cur_fb (Some (d_display d)) (d_cursor d)) (d_display d)) as (s' & f' & Er & Hfb' & Hwf' & Hw' & Hh' & Hl' & Hx' & Hy'); try done.
    unfold on_cursor. erewrite zoom_Ret; [|rewrite Hg1; exact Er]. eexists. split; [reflexivity|]. exists f', s'. split.
    { unfold d1, put_cursor, written_back. rewrite Hfb'. done. }
    split; [done|]. intros _. unfold pointer_ok, put_cursor, written_back. rewrite Hfb'. cbn [d_cursor d_display set_d_cursor set_d_display].
    rewrite Hl', Hx', Hy', Hw', Hh'. done.
  - assert (Ea : on_cursor gfx_cursor_available d = Ret false (put_cursor (get_cursor d) d) []).
    { unfold on_cursor. apply zoom_Ret. unfold gfx_cursor_available. rewrite bind_gets. unfold get_cursor, attached. by rewrite Hfb. }
    rewrite (bind_Ret_nil _ _ _ _ _ Ea). eexists. split; [reflexivity|]. exists (d_display d), (get_cursor d). unfold put_cursor, get_cursor, attached, written_back. rewrite Hfb.
    split; [done|]. split; [done|]. cbn. by intros [? ?].
Qed.

Section rendering.
Context `{AppRender state}.

Lemma uptime_ms_run t : 0 < timer_freq t -> exists ms h, timer_uptime_ms t = Ret ms (set_hardware h t) [] /\ 0 <= ms.
Proof.
  clear. intros Hf. unfold timer_uptime_ms, timer_init at 1. rewrite bind_assoc, bind_gets. rewrite (proj2 (Z.eqb_neq _ 0)) by lia. cbn [negb]. rewrite bind_ret.
  rewrite (bind_Ret_nil _ _ _ _ _ (now_run t ltac:(lia))). rewrite !bind_gets. cbn [timer_freq set_hardware]. rewrite (proj2 (Z.eqb_neq _ 0)) by lia.
  eexists _, _. split; [reflexivity|]. apply Z.div_pos; [|lia]. apply u64_bound.
Qed.

(** What drawing the desktop changes: the picture, the pointer, the counter
    register of the timer, what the applications keep, the count of frames and
    what is still to be drawn. *)
Definition pictured (f : framebuffer) (c : gfx_cursor_state) (h : D) (a : A) d : state :=
  upd (fun v => set_ds_dirty 0 (set_ds_frame_counter (u32 (ds_frame_counter v + 1)) v))
    (set_d_cursor c (set_d_display f (set_d_timer (set_hardware h (d_timer d)) (set_d_apps a d)))).

Lemma render_run Inv d : ready d -> Inv (d_apps d) -> windows_draw Inv d ->
  exists f c h a, desktop_render local64 uptime_text d = Ret tt (pictured f c h a d) [] /\ rendered d (pictured f c h a d) /\ Inv a.
Proof using uptime_len.
  intros Hrd Hinv Hwins. pose proof Hrd as [Hd Hreg Htm Hp Hini]. pose proof (Build_able Inv d Hd Hinv) as Hab. pose proof (dr_screen _ Hd) as Hsk. pose proof (sk_fb _ Hsk) as Hfb. pose proof (dr_tables _ Hd) as [Ht Hr].
  unfold desktop_render, var. rewrite bind_gets. cbn beta. rewrite bind_gets. cbn beta. unfold get_canvas. rewrite Hfb. cbn [cv_screen]. destruct (fw_buffer _ (dr_fb _ Hd)) as (b & Hb & _).
  rewrite Hb, bool_decide_eq_true_2 by by eexists. rewrite (proj2 (Z.eqb_neq _ 0)) by done. cbn [orb negb].
  assert (Ea : desktop_list_apps_count d = Ret (app_count (d_registry d)) d []).
  { unfold desktop_list_apps_count, on_registry. erewrite zoom_Ret; [|unfold desktop_list_apps, desktop_registry_ensure_defaults; rewrite bind_assoc, bind_gets; rewrite (proj2 (Z.eqb_neq _ 0)) by done; reflexivity].
    by destruct d. }
  rewrite (bind_Ret_nil _ _ _ _ _ Ea).
  destruct (shows_redraws Inv d _ Hab (background_shows d Hd)) as (d1 & E1 & D1). rewrite (bind_Ret_nil _ _ _ _ _ E1). pose proof (drawn_able Inv _ _ Hab D1) as Hd1.
  destruct (draw_windows_redraws Inv (Z.to_nat DESKTOP_MAX_WINDOWS) 0 d1 Hd1 (windows_draw_drawn _ _ _ D1 Hwins)) as (d2 & E2 & D2).
  { pose proof (length_stack _ (tb_table _ (dr_tables _ Hd1))). pose proof (to_count _ (tb_table _ (dr_tables _ Hd1))). lia. }
  change (Z.of_nat 0) with 0 in E2. rewrite (bind_Ret_nil _ _ _ _ _ E2). pose proof (drawn_able Inv _ _ Hd1 D2) as Hd2.
  destruct (draw_modal_redraws Inv d2 Hd2 (windows_draw_drawn _ _ _ (drawn_trans _ _ _ _ D1 D2) Hwins)) as (d3 & E3 & D3). rewrite (bind_Ret_nil _ _ _ _ _ E3). pose proof (drawn_able Inv _ _ Hd2 D3) as Hd3.
  pose proof (drawn_trans _ _ _ _ D1 (drawn_trans _ _ _ _ D2 D3)) as D03. clear D1 D2 D3 E1 E2 E3 d1 d2 Hd1 Hd2. destruct Hd3 as [Hd3 _]. destruct D03 as (f & a & -> & Hsz & Ha).
  set (d3 := set_d_apps a (set_d_display f d)) in *. unfold draw_taskbar, var. rewrite !bind_assoc, bind_gets. cbn beta. rewrite bind_assoc, bind_gets. cbn beta.
  rewrite bind_assoc, (bind_Ret_nil _ _ _ _ _ (focused_id_run d3 Ht)). rewrite bind_assoc, bind_gets. cbn beta. rewrite bind_assoc, bind_gets. cbn beta.
  destruct (uptime_ms_run (d_timer d3) Htm) as (ms & h & Eu & Hms). rewrite bind_assoc. unfold on_timer.
  rewrite (bind_Ret_nil _ _ _ _ _ (zoom_Ret d_timer set_d_timer timer_uptime_ms d3 _ _ _ Eu)). rewrite bind_assoc, bind_gets. cbn beta.
  set (d4 := set_d_timer (set_hardware h (d_timer d3)) d3).
  assert (Hd4 : drawable d4). { destruct Hd3 as [[Ht3 Hr3] [Hs3 Hw3 Hh3] Hf3 Hth3 Hm3]. split; try done. }
  destruct (shows_redraws Inv d4 _ (Build_able Inv d4 Hd4 Ha) (taskbar_shows d4 (id_of_focus d3) (app_count (d_registry d)) (ds_launcher_selected_index (d_desktop d)) ms
     (negb (ds_launcher_open (d_desktop d) =? 0)) Hd4 Hreg (ro_count _ Hr) Hms)) as (d5 & E5 & f5 & a5 & -> & Hsz5 & Ha5).
  rewrite (bind_Ret_nil _ _ _ _ _ E5). set (d5 := set_d_apps a5 (set_d_display f5 d4)) in *.
  destruct Hsz as (_ & Hw & Hh). destruct Hsz5 as (Hwf5 & Hw5 & Hh5). change (fb_width f5 = fb_width f) in Hw5. change (fb_height f5 = fb_height f) in Hh5.
  assert (Hr5 : ready d5).
  { split; [|done|done| |done]; [apply (drawn_able Inv d4 _ (Build_able Inv d4 Hd4 Ha)); by exists f5, a5|]. intros Hsome. destruct (Hp Hsome) as (Hl & Hx & Hy).
    unfold pointer_ok. cbn [d_cursor d_display d5 set_d_apps set_d_display d4 set_d_timer d3]. rewrite Hw5, Hh5, Hw, Hh. done. }
  destruct (pointer_run d5 Hr5) as (d6 & E6 & f6 & c6 & -> & (Hwf6 & Hw6 & Hh6) & Hp6). change (fb_width f6 = fb_width f5) in Hw6. change (fb_height f6 = fb_height f5) in Hh6.
  rewrite <- bind_assoc. rewrite (bind_Ret_nil _ _ _ _ _ E6). set (d6 := set_d_cursor c6 (set_d_display f6 d5)) in *. rewrite (bind_Ret_nil _ _ _ _ _ (assign_run _ d6)). rewrite assign_run.
  exists f6, c6, h, a5. split; [done|]. split; [|done]. destruct Hr5 as [[[Ht5 Hrr5] [Hs5 Hsw5 Hsh5] _ Hth5 Hm5] _ _ _ _]. split; try done.
  - by eexists _, _.
  - exists (gpu (d_console d)). split; [|done]. cbn. by destruct (d_console d).
  - cbn. split; congruence.
  - split; try done. split; try done.
    + split; [|done]. by destruct Ht5 as [[? ? ?] ? ? ?]; split; [split; done|done..].
    + split; [done| |]; cbn in *; lia.
Qed.

Lemma show_now_run `{!RenderLaws} d : ready d -> exists d', show_now local64 uptime_text d = Ret tt d' [] /\ rendered d d'.
Proof using All.
  intros Hrd. pose proof (rd_drawable _ Hrd) as Hd. unfold show_now, var. rewrite bind_gets. cbn beta. destruct (_ =? 0).
  - exists d. split; [done|]. split; try done; [exists (ds_frame_counter (d_desktop d)), (ds_dirty (d_desktop d)); by destruct (d_desktop d)|].
    exists (gpu (d_console d)). split; [by destruct (d_console d)|done].
  - destruct (render_run (fun _ => True) d Hrd I (always_draw d Hd)) as (f1 & c1 & h1 & a1 & E1 & R1 & _). set (d1 := pictured f1 c1 h1 a1 d) in *. rewrite (bind_Ret_nil _ _ _ _ _ E1). unfold flush_display, desktop_display_available. rewrite bind_assoc, bind_gets. cbn beta. rewrite bind_assoc, bind_gets. cbn beta.
    rewrite bind_ret. match goal with |- context [if ?b then _ else _] => destruct b end; [|by exists d1].
    unfold virtio_gpu_flush. rewrite bind_assoc, bind_gets. cbn beta. rewrite bind_assoc, bind_gets. cbn beta. destruct (virtio_gpu_available (gpu (d_console d1))) eqn:Ha; cbn [negb]; [|by exists d1].
    rewrite bind_assoc, bind_modify, bind_ret. eexists. split; [reflexivity|]. destruct R1 as [Hdd Hre Hth Hal (g & Hcon & Hav) Hsz [[[Ht Hr] [? ? ?] ? ? ?] ? ? ? ?]].
    split; try done.
    + eexists. split; [by rewrite Hcon|]. rewrite flush_available. exact Hav.
Qed.
End rendering.
End view.
