(* ===== verification/DesktopShell.v ===== *)
(** The rest of the desktop (src/src/desktop/desktop.c, and app_registry.c for
    the life of an instance): opening and closing windows, launching
    applications, alerts, opening files, the reaction to events and the main
    loop, with the pointer that the input driver moves (virtio_input.c). *)
From S2P Require Import Prelude LibString Klog Input BlockDevice BlockIO TinyFS Vfs FileTable Graphics Cursor Theme DesktopWindow DesktopInput Console Bus AppRegistry Taskbar Desktop DesktopRender.

Definition INPUT_KEY_F1 : Z := 59.
Definition VIRTIO_INPUT_ABS_X : Z := 0.
Definition VIRTIO_INPUT_ABS_Y : Z := 1.
Definition VIRTIO_INPUT_ABS_MAX : Z := 0x7fff.

(** What a poll of the input driver finds besides keys. *)
Inductive motion : Type := Relative (dx dy : Z) | Absolute (code value : Z).
Class PointerDriver (K : Type) := { pointer_motions : K -> list motion }.

Definition virtio_input_scale_abs (value size : Z) : Z :=
  if (size =? 0) || (size =? 1) then 0
  else if VIRTIO_INPUT_ABS_MAX <=? value then size - 1
  else u32 (u64 (value * (size - 1)) / VIRTIO_INPUT_ABS_MAX).

Section shell.
Context {X D G C K A : Type} `{DiskDriver X} `{Hardware D} `{DisplayDriver G} `{OutputCapture C} `{KeyboardDriver K}.
Context (local64 : mem) (uptime_text : mem).
Abbreviation state := (desk X D G C K A).
Implicit Types d : state.

(** ** Start *)

(** [&desktop_state.windows[desktop_state.window_count++]]. *)
Definition next_slot : M state Z := n <- var ds_window_count;; assign (set_ds_window_count (u32 (n + 1)));; ret n.
Definition init_window (slot wid x y width height : Z) (ttl : mem) : M state unit :=
  old <- get_window slot;;
  new <- desktop_window_init (Some old) wid x y width height (Some ttl);;
  w <- deref new;;
  put_window slot w.

Definition desktop_create_layout : M state unit :=
  assign (set_ds_window_count 0);;
  p <- next_slot;; init_window p 1 40 32 268 132 (cstr "Welcome");;
  p <- next_slot;; init_window p 2 336 72 232 116 (cstr "System");;
  desktop_refresh_session_state.

Definition reset_input : M state unit :=
  f <- the_fb;;
  assign (fun s =>
    let p := desktop_input_reset (fb_width f) (fb_height f) (Pointers (Some (ds_cursor_x s)) (Some (ds_cursor_y s)) (Some (ds_focused_window_index s)) (Some (ds_primary_button_down s))) in
    set_ds_cursor_x (default 0 (cursor_x p)) (set_ds_cursor_y (default 0 (cursor_y p))
      (set_ds_focused_window_index (default 0 (focused_window_index p)) (set_ds_primary_button_down (default 0 (primary_button_down p)) s)))).

(** Whether the display's framebuffer is found through the console or the driver. *)
Definition desktop_init : M state Z :=
  attached_fb <- on_console console_graphics_framebuffer;;
  g <- gets (fun d => gpu (d_console d));;
  display <- gets d_display;;
  if (is_null attached_fb && negb (virtio_gpu_available g)) || negb (bool_decide (is_Some (fb_buffer display))) then ret (-1)
  else
    assign (fun _ => set_ds_fb true zero_desktop);;
    on_theme (desktop_theme_init local64);;
    assign (set_ds_initialized 1);;
    assign (set_ds_active 0);;
    assign (set_ds_dirty 1);;
    desktop_list_apps_count;;
    desktop_create_layout;;
    desktop_refresh_session_state;;
    reset_input;;
    ret 0.
(** [!desktop_state.initialized && desktop_init() != 0]. *)
Definition not_initialized : M state bool :=
  initialized <- var ds_initialized;;
  if initialized =? 0 then status <- desktop_init;; ret (negb (status =? 0)) else ret false.

Definition desktop_enter : M state Z :=
  failed <- not_initialized;;
  if (failed : bool) then ret (-1)
  else
    mode <- on_console console_output_mode;; assign (set_ds_saved_console_mode mode);;
    mode <- on_console console_input_mode;; assign (set_ds_saved_input_mode mode);;
    assign (set_ds_active 1);;
    assign (set_ds_dirty 1);;
    assign (set_ds_drag_window_id 0);;
    reset_input;;
    on_console (console_set_output_mode CONSOLE_SINK_SERIAL);;
    has_keyboard <- on_console (on_input input_keyboard_available);;
    on_console (console_set_input_mode (if (has_keyboard : bool) then Z.lor INPUT_SOURCE_SERIAL INPUT_SOURCE_KEYBOARD else INPUT_SOURCE_SERIAL));;
    available <- on_cursor gfx_cursor_available;;
    f <- the_fb;;
    (if (available : bool) then ret tt else on_cursor (gfx_cursor_attach (Some f));; ret tt);;
    x <- var ds_cursor_x;; y <- var ds_cursor_y;;
    on_cursor (gfx_cursor_move x y);;
    ret 0.

Definition desktop_exit : M state unit :=
  initialized <- var ds_initialized;;
  if initialized =? 0 then ret tt
  else
    assign (set_ds_active 0);;
    mode <- var ds_saved_console_mode;; on_console (console_set_output_mode mode);;
    mode <- var ds_saved_input_mode;; on_console (console_set_input_mode mode).
Definition desktop_is_active : M state Z := var ds_active.

(** ** Closing windows *)

Section events.
Context `{AppEvent state}.

Definition desktop_dispatch_window_event (window : option Z) (event : desktop_event) : M state unit :=
  match window with
  | None => ret tt
  | Some p =>
      w <- get_window p;;
      handler <- owner_function w on_event;;
      match handler with
      | Some (f, i) => call_on_event f i p event
      | None => match handle_event w with Some f => call_handle_event f p event (user_data w) | None => ret tt end
      end
  end.
Definition desktop_notify_window_close (window : option Z) : M state unit :=
  match window with
  | None => ret tt
  | Some p =>
      w <- get_window p;;
      desktop_dispatch_window_event window (DesktopEvent DESKTOP_EVENT_WINDOW_CLOSE (ev_input zero_event) (character zero_event) (id w) 0 0)
  end.

Context `{AppClose state}.

Definition desktop_app_instance_stop (instance : option Z) : M state unit :=
  match instance with
  | None => ret tt
  | Some i =>
      v <- on_registry (get_instance i);;
      if negb (running v) then ret tt
      else
        (match inst_app v with
         | None => ret tt
         | Some a =>
             l <- gets (fun d => apps (d_registry d));;
             app <- deref (rd l a);;
             match on_close app with Some f => call_on_close f i | None => ret tt end
         end);;
        on_registry (put_instance i zero_instance)
  end.

Definition desktop_app_instance_window_closed (instance : option Z) : M state unit :=
  match instance with
  | None => ret tt
  | Some i =>
      v <- on_registry (get_instance i);;
      if negb (running v) then ret tt
      else
        let count := if 0 <? inst_windows v then inst_windows v - 1 else inst_windows v in
        on_registry (put_instance i (set_inst_windows count v));;
        if count =? 0 then desktop_app_instance_stop instance else ret tt
  end.

(** The windows behind it move down, and the last entry is cleared. *)
Definition remove_window (window_index : Z) : M state unit :=
  n <- var ds_window_count;;
  shift_windows window_index n;;
  (if 0 <? n then assign (set_ds_window_count (n - 1)) else ret tt);;
  n <- var ds_window_count;;
  if n <? DESKTOP_MAX_WINDOWS then put_window n zero_window else ret tt.

Definition desktop_destroy_window (window : option Z) : M state unit :=
  match window with
  | None => ret tt
  | Some p =>
      w <- get_window p;;
      window_index <- desktop_find_window_index_by_id (id w);;
      n <- var ds_window_count;;
      if n <=? window_index then ret tt
      else
        target <- get_window window_index;;
        desktop_notify_window_close (Some window_index);;
        remove_window window_index;;
        assign (set_ds_drag_window_id 0);;
        desktop_app_instance_window_closed (owner target);;
        desktop_recompute_focus;;
        desktop_refresh_session_state;;
        mark_dirty
  end.

Definition desktop_close_modal_window : M state unit :=
  modal <- var ds_modal_window_id;;
  if modal =? 0 then ret tt
  else
    window <- desktop_find_window_by_id modal;;
    assign (set_ds_modal_window_id 0);;
    match window with None => ret tt | Some _ => desktop_destroy_window window end.

Definition desktop_alert_ok_hit_test (window : option Z) (x y : Z) : M state bool :=
  match window with
  | None => ret false
  | Some p =>
      w <- get_window p;;
      content_x <- desktop_window_content_x (Some w);;
      content_y <- desktop_window_content_y (Some w);;
      let content_width := desktop_window_content_width (Some w) in
      let content_height := desktop_window_content_height (Some w) in
      margin <- signed (i32 content_width - 52);;
      button_x <- signed (content_x + Z.quot margin 2);;
      below <- signed (content_y + i32 content_height);;
      button_y <- signed (below - 26);;
      if x <? u32 button_x then ret false
      else
        right <- signed (button_x + 52);;
        if negb (x <? u32 right) || negb (u32 button_y <=? y) then ret false
        else bottom <- signed (button_y + 16);; ret (y <? u32 bottom)
  end.

(** [event->input.pressed] and [event->input.data.keycode]. *)
Definition key_down (event : desktop_event) : bool :=
  (pressed (ev_input event) =? INPUT_KEY_PRESS) || (pressed (ev_input event) =? INPUT_KEY_REPEAT).
Definition keycode_of (event : desktop_event) : M state Z := deref (event_keycode (data (ev_input event))).

Definition desktop_handle_modal_event (event : desktop_event) : M state bool :=
  modal <- var ds_modal_window_id;;
  window <- desktop_find_window_by_id modal;;
  match window with
  | None => assign (set_ds_modal_window_id 0);; ret false
  | Some _ =>
      if ev_type event =? DESKTOP_EVENT_REDRAW then mark_dirty;; ret true
      else
        dismissed <- (if (ev_type event =? DESKTOP_EVENT_KEY) && key_down event then
                        k <- keycode_of event;; ret ((k =? INPUT_KEY_ENTER) || (k =? INPUT_KEY_ESC))
                      else ret false);;
        if (dismissed : bool) then desktop_close_modal_window;; ret true
        else if (ev_type event =? DESKTOP_EVENT_CHAR) && ((character event =? 10) || (character event =? 13) || (character event =? 27)) then
          desktop_close_modal_window;; ret true
        else if ev_type event =? DESKTOP_EVENT_BUTTON_DOWN then
          desktop_focus_window window;;
          desktop_bring_to_front window;;
          ok <- desktop_alert_ok_hit_test window (ev_cursor_x event) (ev_cursor_y event);;
          (if (ok : bool) then desktop_close_modal_window else mark_dirty);;
          ret true
        else if (ev_type event =? DESKTOP_EVENT_BUTTON_UP) || (ev_type event =? DESKTOP_EVENT_CURSOR_MOVE) then mark_dirty;; ret true
        else ret true
  end.
End events.

(** ** Alerts *)

(** A string argument that is null or empty. *)
Definition missing (s : option mem) : M state bool :=
  match s with None => ret true | Some s => e <- deref (empty_string s);; ret e end.

(** The number of the alert's state as the data of a window. *)
Definition alert_dialog : Z := 1.

Definition show_modal (window : Z) : M state unit :=
  desktop_focus_window (Some window);;
  desktop_bring_to_front (Some window);;
  assign (set_ds_drag_window_id 0);;
  assign (set_ds_launcher_open 0).

(** A message that is the alert's own is not copied: both are the same array. *)
Definition desktop_show_alert (ttl message : option mem) : M state Z :=
  failed <- not_initialized;;
  if (failed : bool) then ret (-1)
  else
    no_title <- missing ttl;;
    no_message <- (if (no_title : bool) then ret true else missing message);;
    match ttl, message, no_message with
    | Some t, Some m, false =>
        dlg <- gets d_alert_dialog;;
        new_title <- deref (strlcpy (dlg_title dlg) 0 t DESKTOP_WINDOW_TITLE_MAX);;
        new_message <- deref (strlcpy (dlg_message dlg) 0 m DESKTOP_DIALOG_MESSAGE_MAX);;
        modify (set_d_alert_dialog (Dialog new_title.1 new_message.1));;
        modal <- var ds_modal_window_id;;
        window <- (if modal =? 0 then ret None else desktop_find_window_by_id modal);;
        match window with
        | Some p =>
            w <- get_window p;;
            t1 <- deref (strlcpy (title w) 0 new_title.1 DESKTOP_WINDOW_TITLE_MAX);;
            put_window p (set_win_user_data (Some alert_dialog) (set_win_title t1.1 w));;
            desktop_center_window window;;
            show_modal p;;
            mark_dirty;;
            ret 0
        | None =>
            assign (set_ds_modal_window_id 0);;
            n <- var ds_window_count;;
            if DESKTOP_MAX_WINDOWS <=? n then ret (-1)
            else
              p <- next_slot;;
              wid <- desktop_next_window_id;;
              init_window p wid 0 0 DESKTOP_ALERT_WIDTH DESKTOP_ALERT_HEIGHT new_title.1;;
              w <- get_window p;;
              bound <- desktop_window_bind (Some w) (Some dialog_draw) None (Some alert_dialog);;
              w <- deref bound;;
              put_window p (set_win_flags (Z.lor (win_flags w) DESKTOP_WINDOW_FLAG_NO_CONTROLS) w);;
              desktop_center_window (Some p);;
              w <- get_window p;;
              assign (set_ds_modal_window_id (id w));;
              show_modal p;;
              desktop_refresh_session_state;;
              mark_dirty;;
              ret 0
        end
    | _, _, _ => ret (-1)
    end.

Definition desktop_set_dialog_message (state : desktop_dialog_state) (prefix path : option mem) : option desktop_dialog_state :=
  let message := zeroes DESKTOP_DIALOG_MESSAGE_MAX in
  message1 ← match prefix with None => Some message | Some p => r ← strlcpy message 0 p DESKTOP_DIALOG_MESSAGE_MAX; Some r.1 end;
  used ← strlen message1;
  no_path ← match path with None => Some true | Some p => empty_string p end;
  match path, no_path with
  | Some p, false =>
      if u64 (used + 2) <? DESKTOP_DIALOG_MESSAGE_MAX then
        m1 ← wr message1 used (ch ":");
        m2 ← wr m1 (used + 1) (ch " ");
        m3 ← wr m2 (used + 2) 0;
        r ← strlcpy m3 (used + 2) p (DESKTOP_DIALOG_MESSAGE_MAX - (used + 2));
        Some (Dialog (dlg_title state) r.1)
      else Some (Dialog (dlg_title state) message1)
  | _, _ => Some (Dialog (dlg_title state) message1)
  end.
Definition desktop_show_open_error (prefix path : option mem) : M state Z :=
  dlg <- gets d_alert_dialog;;
  dlg1 <- deref (desktop_set_dialog_message dlg prefix path);;
  modify (set_d_alert_dialog dlg1);;
  desktop_show_alert (Some (cstr "File Open Error")) (Some (dlg_message dlg1)).

(** ** Opening windows *)

Section opening.
Context `{AppRender state}.

(** The window that both functions open, at a place that depends on how many
    there are. *)
Definition place (n d : Z) (step : Z) : M state Z := signed (d + i32 (u32 (n * step))).
Definition place_window (n width height : Z) (ttl : mem) : M state Z :=
  x <- place n 72 28;;
  y <- place n 88 24;;
  p <- next_slot;;
  wid <- desktop_next_window_id;;
  init_window p wid x y width height ttl;;
  ret p.
Definition present_window (p : Z) : M state unit :=
  clamp_window p;;
  desktop_focus_window (Some p);;
  desktop_bring_to_front (Some p);;
  desktop_refresh_session_state;;
  mark_dirty;;
  show_now local64 uptime_text.

Definition desktop_open_app_instance_window (instance : option Z) (ttl : option mem) (width height : Z) (data : option Z) : M state Z :=
  match instance with
  | None => ret (-1)
  | Some i =>
      v <- on_registry (get_instance i);;
      no_title <- (if running v then missing ttl else ret true);;
      match ttl, no_title with
      | Some t, false =>
          failed <- not_initialized;;
          if (failed : bool) then ret (-1)
          else
            n <- var ds_window_count;;
            if DESKTOP_MAX_WINDOWS <=? n then ret (-1)
            else
              p <- place_window n width height t;;
              w <- get_window p;;
              put_window p (set_win_user_data data (set_win_owner instance w));;
              on_registry (desktop_app_instance_window_opened instance);;
              present_window p;;
              ret 0
      | _, _ => ret (-1)
      end
  end.

(** The window without an owner that has this title. *)
Fixpoint titled_loop (fuel : nat) (index : Z) (ttl : mem) : M state (option Z) :=
  match fuel with
  | O => ret None
  | S fuel' =>
      w <- get_window index;;
      same <- match owner w with Some _ => ret false | None => order <- deref (strcmp (title w) ttl);; ret (order =? 0) end;;
      if (same : bool) then ret (Some index) else titled_loop fuel' (index + 1) ttl
  end.
Definition bind_window (p : Z) (drw handle data : option Z) : M state unit :=
  w <- get_window p;;
  bound <- desktop_window_bind (Some w) drw handle data;;
  w <- deref bound;;
  put_window p w.

Definition desktop_open_custom_window (ttl : option mem) (width height : Z) (drw handle data : option Z) : M state Z :=
  no_title <- missing ttl;;
  match ttl, no_title with
  | Some t, false =>
      failed <- not_initialized;;
      if (failed : bool) then ret (-1)
      else
        n <- var ds_window_count;;
        found <- titled_loop (Z.to_nat n) 0 t;;
        match found with
        | Some p =>
            bind_window p drw handle data;;
            desktop_focus_window (Some p);;
            desktop_bring_to_front (Some p);;
            desktop_refresh_session_state;;
            ret 0
        | None =>
            if DESKTOP_MAX_WINDOWS <=? n then ret (-1)
            else
              p <- place_window n width height t;;
              bind_window p drw handle data;;
              present_window p;;
              ret 0
        end
  | _, _ => ret (-1)
  end.
Definition desktop_open_app_window (ttl : option mem) : M state Z := desktop_open_custom_window ttl 260 124 None None None.
End opening.

(** ** Applications *)

Section launching.
Context `{AppStart state} `{AppClose state}.

Definition unknown_app_message (name : option mem) : option mem :=
  let size := DESKTOP_APP_NAME_MAX + 24 in
  m ← strlcpy (zeroes size) 0 (cstr "No app named ") size;
  match name with
  | None => Some m.1
  | Some s => used ← strlen m.1; r ← strlcpy m.1 used s (u64 (size - used)); Some r.1
  end.

Definition desktop_launch_app_with_argument (name argument : option mem) : M state Z :=
  app <- on_registry (desktop_find_app name);;
  match app with
  | None =>
      message <- deref (unknown_app_message name);;
      desktop_show_alert (Some (cstr "Unknown App")) (Some message);;
      ret (-1)
  | Some a =>
      instance <- on_registry (desktop_alloc_app_instance app argument);;
      match instance with
      | None => ret (-1)
      | Some i =>
          l <- gets (fun d => apps (d_registry d));;
          ap <- deref (rd l a);;
          f <- deref (on_start ap);;
          status <- call_on_start f i;;
          v <- on_registry (get_instance i);;
          if negb (status =? 0) || (inst_windows v =? 0) then desktop_app_instance_stop instance;; ret (-1)
          else ret 0
      end
  end.
Definition desktop_launch_app (name : option mem) : M state Z := desktop_launch_app_with_argument name None.

(** The part of the path from the last dot of its last segment. *)
Fixpoint extension_loop (path : mem) (last_dot : option mem) : option (option mem) :=
  match path with
  | [] => None
  | c :: path' =>
      if c =? 0 then Some last_dot
      else extension_loop path' (if c =? ch "/" then None else if c =? ch "." then Some path else last_dot)
  end.
Definition desktop_path_extension (path : option mem) : option (option mem) :=
  match path with None => Some None | Some p => extension_loop p None end.
Definition desktop_extension_matches (extension expected : option mem) : option bool :=
  match extension, expected with Some e, Some x => order ← strcmp e x; Some (order =? 0) | _, _ => Some false end.

Definition open_error (prefix : string) (path : option mem) : M state Z := desktop_show_open_error (Some (cstr prefix)) path;; ret (-1).
Definition desktop_open_file (path : option mem) : M state Z :=
  no_path <- missing path;;
  if (no_path : bool) then open_error "open failed" (Some (cstr "(empty path)"))
  else
    info <- on_files (FileTable.on_vfs (vfs_stat local64 path));;
    if negb info then open_error "not found" path
    else
      flags <- gets (fun d => info_flags (vfs_stat_info (files_vfs (th_files (d_theme d)))));;
      if negb (Z.land flags VFS_FILE_FLAG_DIRECTORY =? 0) then open_error "directory not supported" path
      else
        extension <- deref (desktop_path_extension path);;
        txt <- deref (desktop_extension_matches extension (Some (cstr ".txt")));;
        md <- (if (txt : bool) then ret true else deref (desktop_extension_matches extension (Some (cstr ".md"))));;
        is_text <- (if (md : bool) then ret true else deref (desktop_extension_matches extension (Some (cstr ".log"))));;
        if (is_text : bool) then
          status <- desktop_launch_app_with_argument (Some (cstr "editor")) path;;
          if status =? 0 then ret 0 else open_error "editor launch failed" path
        else open_error "unknown file type" path.

(** ** The launcher *)

Definition desktop_toggle_launcher : M state unit :=
  app_count <- desktop_list_apps_count;;
  assign (fun s => set_ds_launcher_open (if ds_launcher_open s =? 0 then 1 else 0) s);;
  selected <- var ds_launcher_selected_index;;
  (if app_count =? 0 then assign (set_ds_launcher_selected_index 0)
   else if app_count <=? selected then assign (set_ds_launcher_selected_index 0) else ret tt);;
  desktop_refresh_session_state;;
  mark_dirty.

Definition desktop_launcher_move_selection (delta : Z) : M state unit :=
  app_count <- desktop_list_apps_count;;
  if app_count =? 0 then ret tt
  else
    selected <- var ds_launcher_selected_index;;
    (if delta <? 0 then
       assign (set_ds_launcher_selected_index (if selected =? 0 then app_count - 1 else selected - 1))
     else if 0 <? delta then assign (set_ds_launcher_selected_index (u32 (selected + 1) mod app_count))
     else ret tt);;
    mark_dirty.

Definition launch_index (index : Z) : M state unit :=
  l <- gets (fun d => apps (d_registry d));;
  app <- deref (rd l index);;
  desktop_launch_app (Some (app_name app));;
  assign (set_ds_launcher_open 0).
Definition desktop_launcher_launch_selected : M state unit :=
  app_count <- desktop_list_apps_count;;
  selected <- var ds_launcher_selected_index;;
  if (app_count =? 0) || (app_count <=? selected) then ret tt
  else launch_index selected;; mark_dirty.
End launching.

(** ** Events *)

Section handling.
Context `{AppStart state} `{AppEvent state} `{AppClose state}.

Definition dispatch_to_target (event : desktop_event) : M state unit :=
  window <- desktop_find_window_by_id (target_window_id event);;
  desktop_dispatch_window_event window event.

Definition handle_key (event : desktop_event) : M state unit :=
  k <- keycode_of event;;
  launcher <- var ds_launcher_open;;
  if (k =? INPUT_KEY_F1) && key_down event then desktop_toggle_launcher
  else if negb (launcher =? 0) && key_down event && (k =? INPUT_KEY_UP) then desktop_launcher_move_selection (-1)
  else if negb (launcher =? 0) && key_down event && (k =? INPUT_KEY_DOWN) then desktop_launcher_move_selection 1
  else if negb (launcher =? 0) && key_down event && (k =? INPUT_KEY_ENTER) then desktop_launcher_launch_selected
  else if negb (launcher =? 0) && key_down event && (k =? INPUT_KEY_ESC) then assign (set_ds_launcher_open 0);; mark_dirty
  else
    (if (k =? INPUT_KEY_TAB) && key_down event then desktop_cycle_focus_by_id (target_window_id event) else ret tt);;
    dispatch_to_target event;;
    mark_dirty.

Definition handle_char (event : desktop_event) : M state unit :=
  (if character event =? 9 then desktop_cycle_focus_by_id (target_window_id event) else ret tt);;
  dispatch_to_target event;;
  mark_dirty.

(** A click on the button of a window. *)
Definition press_button (button_window_id : Z) : M state unit :=
  window <- desktop_find_window_by_id button_window_id;;
  (match window with
   | None => ret tt
   | Some p => restore_minimized p;; desktop_focus_window window;; desktop_bring_to_front window
   end);;
  assign (set_ds_launcher_open 0);;
  assign (set_ds_drag_window_id 0);;
  mark_dirty.

(** A click on a window, which is then the focused one. *)
Definition press_window (window_index : Z) (event : desktop_event) : M state unit :=
  desktop_focus_window (Some window_index);;
  desktop_bring_to_front (Some window_index);;
  window <- var ds_focused_window_index;;
  assign (set_ds_launcher_open 0);;
  w <- get_window window;;
  control <- desktop_window_control_hit_test (Some w) (ev_cursor_x event) (ev_cursor_y event);;
  if control =? DESKTOP_WINDOW_CONTROL_CLOSE then desktop_destroy_window (Some window)
  else if control =? DESKTOP_WINDOW_CONTROL_MINIMIZE then desktop_minimize_window (Some window)
  else if control =? DESKTOP_WINDOW_CONTROL_MAXIMIZE then desktop_toggle_maximize_window (Some window)
  else
    in_title <- desktop_window_title_hit_test (Some w) (ev_cursor_x event) (ev_cursor_y event);;
    if (in_title : bool) then
      assign (set_ds_drag_window_id (id w));;
      assign (set_ds_drag_offset_x (u32 (ev_cursor_x event - u32 (win_x w))));;
      assign (set_ds_drag_offset_y (u32 (ev_cursor_y event - u32 (win_y w))))
    else ret tt.

Definition handle_button_down (event : desktop_event) : M state unit :=
  app_count <- desktop_list_apps_count;;
  f <- the_fb;;
  let x := ev_cursor_x event in
  let y := ev_cursor_y event in
  on_launcher <- desktop_taskbar_launcher_hit_test (fb_height f) x y;;
  if (on_launcher : bool) then desktop_toggle_launcher;; assign (set_ds_drag_window_id 0)
  else
    launcher_index <- desktop_taskbar_launcher_item_hit_test (fb_height f) app_count x y;;
    launcher <- var ds_launcher_open;;
    if negb (launcher =? 0) && (launcher_index <? app_count) then
      launch_index launcher_index;;
      assign (set_ds_launcher_selected_index launcher_index);;
      assign (set_ds_drag_window_id 0);;
      mark_dirty
    else
      windows <- var ds_windows;;
      n <- var ds_window_count;;
      button_window_id <- desktop_taskbar_window_button_hit_test windows n (fb_height f) x y;;
      if negb (button_window_id =? 0) then press_button button_window_id
      else
        window_index <- desktop_find_window_index_by_id (target_window_id event);;
        (if window_index <? n then press_window window_index event
         else if desktop_taskbar_contains_point (fb_height f) x y then assign (set_ds_launcher_open 0)
         else assign (set_ds_launcher_open 0);; assign (set_ds_drag_window_id 0));;
        mark_dirty;;
        dispatch_to_target event.

Definition handle_button_up (event : desktop_event) : M state unit :=
  assign (set_ds_primary_button_down 0);;
  assign (set_ds_drag_window_id 0);;
  mark_dirty;;
  dispatch_to_target event.

(** The dragged window follows the pointer. *)
Definition handle_cursor_move (event : desktop_event) : M state unit :=
  drag <- var ds_drag_window_id;;
  window <- desktop_find_window_by_id drag;;
  (match window with
   | None => ret tt
   | Some p =>
       w <- get_window p;;
       offset_x <- var ds_drag_offset_x;; offset_y <- var ds_drag_offset_y;;
       x <- signed (i32 (ev_cursor_x event) - i32 offset_x);;
       y <- signed (i32 (ev_cursor_y event) - i32 offset_y);;
       put_window p (set_win_y y (set_win_x x w));;
       clamp_window p;;
       desktop_refresh_session_state
   end);;
  mark_dirty.

Definition handle_unblocked (event : desktop_event) : M state unit :=
  if ev_type event =? DESKTOP_EVENT_REDRAW then mark_dirty
  else if ev_type event =? DESKTOP_EVENT_KEY then handle_key event
  else if ev_type event =? DESKTOP_EVENT_CHAR then handle_char event
  else if ev_type event =? DESKTOP_EVENT_BUTTON_DOWN then handle_button_down event
  else if ev_type event =? DESKTOP_EVENT_BUTTON_UP then handle_button_up event
  else if ev_type event =? DESKTOP_EVENT_CURSOR_MOVE then handle_cursor_move event
  else ret tt.

Definition desktop_handle_event (event : desktop_event) : M state unit :=
  modal <- var ds_modal_window_id;;
  handled <- (if modal =? 0 then ret false else desktop_handle_modal_event event);;
  if (handled : bool) then ret tt else handle_unblocked event.

(** ** The main loop *)

Context `{AppRender state}.

Definition desktop_run_once : M state unit :=
  initialized <- var ds_initialized;;
  active <- var ds_active;;
  if (initialized =? 0) || (active =? 0) then ret tt
  else
    desktop_handle_event (DesktopEvent DESKTOP_EVENT_REDRAW (ev_input zero_event) (character zero_event) 0 0 0);;
    dirty <- var ds_dirty;;
    if dirty =? 0 then ret tt else desktop_render local64 uptime_text.

(** The interrupts that end the wait change nothing here. *)
Definition cpu_wait_for_interrupt : M state unit := ret tt.

(** *** The pointer *)

Context `{PointerDriver K}.

(** [gfx_cursor_attach] of the display, the pointer in its middle. *)
Definition attach_pointer (f : framebuffer) : M state unit :=
  available <- on_cursor gfx_cursor_available;;
  if (available : bool) then ret tt
  else on_cursor (gfx_cursor_attach (Some f));; on_cursor (gfx_cursor_move (fb_width f / 2) (fb_height f / 2)).
Definition virtio_gpu_framebuffer : M state screen :=
  g <- gets (fun d => gpu (d_console d));;
  f <- gets d_display;;
  ret (if virtio_gpu_available g then Some f else None).
Definition virtio_input_move_cursor_relative (dx dy : Z) : M state unit :=
  available <- on_cursor gfx_cursor_available;;
  fb <- virtio_gpu_framebuffer;;
  match fb, available with
  | None, false => ret tt
  | _, _ =>
      (match fb with Some f => attach_pointer f | None => ret tt end);;
      x <- on_cursor gfx_cursor_x;; y <- on_cursor gfx_cursor_y;;
      let x1 := if x + dx <? 0 then 0 else x + dx in
      let y1 := if y + dy <? 0 then 0 else y + dy in
      on_cursor (gfx_cursor_move (u32 x1) (u32 y1));;
      virtio_gpu_flush;; ret tt
  end.
Definition virtio_input_move_cursor_absolute (code value : Z) : M state unit :=
  fb <- virtio_gpu_framebuffer;;
  match fb with
  | None => ret tt
  | Some f =>
      attach_pointer f;;
      x <- on_cursor gfx_cursor_x;; y <- on_cursor gfx_cursor_y;;
      if code =? VIRTIO_INPUT_ABS_X then on_cursor (gfx_cursor_move (virtio_input_scale_abs value (fb_width f)) y);; virtio_gpu_flush;; ret tt
      else if code =? VIRTIO_INPUT_ABS_Y then on_cursor (gfx_cursor_move x (virtio_input_scale_abs value (fb_height f)));; virtio_gpu_flush;; ret tt
      else ret tt
  end.
Fixpoint move_pointer (motions : list motion) : M state unit :=
  match motions with
  | [] => ret tt
  | Relative dx dy :: motions' => virtio_input_move_cursor_relative dx dy;; move_pointer motions'
  | Absolute code value :: motions' => virtio_input_move_cursor_absolute code value;; move_pointer motions'
  end.
(** [input_poll], the driver's keys and motions. *)
Definition poll_input : M state unit :=
  i <- gets (fun d => console_input (d_console d));;
  on_console (on_input input_poll);;
  if negb (Z.land (input_mode_flags i) INPUT_SOURCE_KEYBOARD =? 0) && virtio_input_available (keyboard i) then move_pointer (pointer_motions (keyboard i)) else ret tt.

(** *** Rounds *)

(** The structures on the stack. *)
Context (input_event0 : input_event) (event0 : desktop_event).

(** [while (input_pop_event(&input_event))]; [fuel] bounds the events of a round. *)
Fixpoint event_loop (fuel : nat) (handled_event : bool) : M state bool :=
  let! (popped, e) := on_console (on_input (input_pop_event (Some input_event0))) in
  if popped =? 0 then ret handled_event
  else
    match fuel with
    | O => undef
    | S fuel' =>
        windows <- var ds_windows;;
        n <- var ds_window_count;;
        f <- the_fb;;
        s <- var (fun s => s);;
        r <- on_console (on_input (desktop_input_route e (Some windows) n (fb_width f) (fb_height f) (ds_modal_window_id s =? 0)
               (Pointers (Some (ds_cursor_x s)) (Some (ds_cursor_y s)) (Some (ds_focused_window_index s)) (Some (ds_primary_button_down s))) (Some event0)));;
        x <- deref (cursor_x (ptrs r));; y <- deref (cursor_y (ptrs r));;
        focus <- deref (focused_window_index (ptrs r));; button <- deref (primary_button_down (ptrs r));;
        assign (fun s => set_ds_cursor_x x (set_ds_cursor_y y (set_ds_focused_window_index focus (set_ds_primary_button_down button s))));;
        if negb (Z.land (result r) DESKTOP_INPUT_RESULT_EXIT =? 0) then desktop_exit;; ret handled_event
        else if negb (result r =? DESKTOP_INPUT_RESULT_NONE) then
          event <- deref (event_out r);;
          desktop_handle_event event;;
          event_loop fuel' true
        else event_loop fuel' handled_event
    end.

Definition follow_pointer (previous_x previous_y : Z) : M state bool :=
  available <- on_cursor gfx_cursor_available;;
  if negb available then ret false
  else
    x <- on_cursor gfx_cursor_x;; y <- on_cursor gfx_cursor_y;;
    assign (fun s => set_ds_cursor_x x (set_ds_cursor_y y s));;
    if negb (x =? previous_x) || negb (y =? previous_y) then
      target <- focused_id;;
      desktop_handle_event (DesktopEvent DESKTOP_EVENT_CURSOR_MOVE (ev_input zero_event) (character zero_event) target x y);;
      ret true
    else ret false.

Definition desktop_round (fuel : nat) : M state unit :=
  previous_x <- var ds_cursor_x;; previous_y <- var ds_cursor_y;;
  poll_input;;
  followed <- follow_pointer previous_x previous_y;;
  handled_event <- event_loop fuel followed;;
  active <- var ds_active;;
  if active =? 0 then ret tt
  else
    dirty <- var ds_dirty;;
    (if dirty =? 0 then ret tt else desktop_render local64 uptime_text;; flush_display);;
    dirty <- var ds_dirty;;
    (if negb handled_event && (dirty =? 0) then cpu_wait_for_interrupt else ret tt);;
    available <- on_cursor gfx_cursor_available;;
    x <- on_cursor gfx_cursor_x;; y <- on_cursor gfx_cursor_y;;
    cx <- var ds_cursor_x;; cy <- var ds_cursor_y;;
    if (available : bool) && (negb (x =? cx) || negb (y =? cy)) then on_cursor (gfx_cursor_move cx cy) else ret tt.

(** [fuel] bounds the rounds, too: the loop ends when the desktop is left. *)
Fixpoint run_loop (fuel : nat) (events : nat) : M state unit :=
  active <- var ds_active;;
  if active =? 0 then ret tt
  else
    match fuel with
    | O => undef
    | S fuel' => desktop_round events;; run_loop fuel' events
    end.
Definition desktop_run (fuel events : nat) : M state unit :=
  initialized <- var ds_initialized;;
  if initialized =? 0 then ret tt else run_loop fuel events.
End handling.
End shell.
