(* ===== verification/DesktopWindows.v ===== *)
(** Opening and closing windows: what it does to the table and to the instance
    that owns the window, and the invariant that ties the two together: an
    instance counts its windows and stops with the last of them. *)
From S2P Require Import Prelude LibString Klog Input BlockDevice BlockIO TinyFS Vfs FileTable Graphics Cursor Theme DesktopWindow DesktopInput Console Bus AppRegistry Taskbar Desktop DesktopRender DesktopTable DesktopView DesktopShell.

Section windows.
Context {X D G C K A : Type} `{DiskDriver X} `{Hardware D} `{DisplayDriver G} `{OutputCapture C} `{KeyboardDriver K}.
Context (local64 : mem) (uptime_text : mem) (uptime_len : lenZ uptime_text = 16).
Abbreviation state := (desk X D G C K A).
Implicit Types d : state.

(** ** What the desktop relies on from the applications *)

Definition apps_only d d' : Prop := exists a, d' = set_d_apps a d.

(** An application that is told that its window closes, or that it is closed,
    changes only its own state. *)
Class EventLaws `{AppEvent state} : Prop := {
  close_event_private : forall f i p ev d, ready d -> ev_type ev = DESKTOP_EVENT_WINDOW_CLOSE -> exists d', call_on_event f i p ev d = Ret tt d' [] /\ apps_only d d';
  close_handle_private : forall f p ev data d, ready d -> ev_type ev = DESKTOP_EVENT_WINDOW_CLOSE -> exists d', call_handle_event f p ev data d = Ret tt d' [] /\ apps_only d d'
}.
Class CloseLaws `{AppClose state} : Prop := {
  close_private : forall f i d, ready d -> exists d', call_on_close f i d = Ret tt d' [] /\ apps_only d d'
}.

Lemma apps_only_refl d : apps_only d d.
Proof. exists (d_apps d). by destruct d. Qed.
Lemma apps_only_ready d d' : apps_only d d' -> ready d -> ready d'.
Proof. intros [a ->] [[[Ht Hr] [? ? ?] ? ? ?] ? ? ? ?]. split; [split; [by split|by split|done..]|done..]. Qed.

(** ** Closing *)

(** The registry when a window of instance [o] has closed: the instance stops
    with its last window. *)
Definition window_closed (o : option Z) (r : registry) : registry :=
  match o with
  | None => r
  | Some i =>
      match rd (instances r) i with
      | None => r
      | Some v =>
          if running v then
            let n := if 0 <? inst_windows v then inst_windows v - 1 else inst_windows v in
            set_instances (<[Z.to_nat i := if n =? 0 then zero_instance else set_inst_windows n v]> (instances r)) r
          else r
      end
  end.

Lemma put_instance_run r i v : 0 <= i < lenZ (instances r) -> put_instance i v r = Ret tt (set_instances (<[Z.to_nat i := v]> (instances r)) r) [].
Proof. intros Hi. unfold put_instance. rewrite bind_gets. cbn beta. by rewrite (bind_deref_Some _ _ _ _ (wr_Some _ _ _ Hi)). Qed.
Lemma on_registry_run {B} (m : M registry B) d b r o : m (d_registry d) = Ret b r o -> on_registry m d = Ret b (set_d_registry r d) o.
Proof. intros E. unfold on_registry. by rewrite (zoom_Ret d_registry set_d_registry m d _ _ _ E). Qed.
Lemma on_registry_pure {B} (m : M registry B) d b : m (d_registry d) = Ret b (d_registry d) [] -> on_registry m d = Ret b d [].
Proof. intros E. rewrite (on_registry_run m d b _ _ E). by destruct d. Qed.

Lemma registry_instances_ok r i v : registry_ok r -> match inst_app v with Some a => 0 <= a < app_count r | None => True end ->
  registry_ok (set_instances (<[i := v]> (instances r)) r).
Proof.
  intros [Ha Hc Hn Hi Hp] Hv. split; try done; cbn [instances set_instances]; [unfold lenZ; by rewrite length_insert|].
  apply Forall_insert; [done|exact Hv].
Qed.
Lemma window_closed_ok o r : registry_ok r -> registry_ok (window_closed o r).
Proof.
  intros Hr. unfold window_closed. destruct o as [i|]; [|done]. destruct (rd (instances r) i) as [v|] eqn:Hv; [|done]. destruct (running v); [|done].
  apply registry_instances_ok; [done|]. destruct (_ =? 0); [done|]. exact (rd_Forall _ _ _ _ (ro_app _ Hr) Hv).
Qed.

Section closing.
Context `{AppEvent state} `{AppClose state} {Hevents : EventLaws} {Hcloses : CloseLaws}.

Lemma owner_function_ready d w field : ready d -> window_ok w -> exists r, owner_function w field d = Ret r d [].
Proof. intros Hd. apply owner_function_run, (rd_drawable _ Hd). Qed.

Lemma notify_run d i w : ready d -> stack d !! i = Some w -> exists d', desktop_notify_window_close (Some (Z.of_nat i)) d = Ret tt d' [] /\ apps_only d d'.
Proof using Hevents Hcloses.
  intros Hd Hw. pose proof (dr_tables _ (rd_drawable _ Hd)) as [Ht Hr]. unfold desktop_notify_window_close, desktop_dispatch_window_event.
  rewrite !(bind_Ret_nil _ _ _ _ _ (stack_get_run d i w Ht Hw)). destruct (owner_function_ready d w on_event Hd (stack_window_ok _ _ _ Ht Hw)) as (r & Er).
  rewrite (bind_Ret_nil _ _ _ _ _ Er). destruct r as [[f k]|]; [by apply close_event_private|]. destruct (handle_event w) as [f|]; [by apply close_handle_private|].
  exists d. split; [done|apply apps_only_refl].
Qed.

Lemma set_instances_twice i v v' r : set_instances (<[i := v']> (instances (set_instances (<[i := v]> (instances r)) r))) (set_instances (<[i := v]> (instances r)) r) = set_instances (<[i := v']> (instances r)) r.
Proof. unfold set_instances. cbn [instances apps app_count next_instance_id reg_initialized]. by rewrite list_insert_insert_eq. Qed.

(** Stopping an instance that runs. *)
Lemma stop_run d i v : ready d -> 0 <= i < DESKTOP_REGISTRY_MAX_INSTANCES -> rd (instances (d_registry d)) i = Some v -> running v = true ->
  exists a, desktop_app_instance_stop (Some i) d = Ret tt (set_d_registry (set_instances (<[Z.to_nat i := zero_instance]> (instances (d_registry d))) (d_registry d)) (set_d_apps a d)) [].
Proof using Hcloses.
  intros Hd Hi Hv Hrun. pose proof (tb_registry _ (dr_tables _ (rd_drawable _ Hd))) as Hr. unfold desktop_app_instance_stop.
  assert (Eg : on_registry (get_instance i) d = Ret v d []) by (apply on_registry_pure; unfold get_instance; rewrite bind_gets; cbn beta; by rewrite Hv).
  rewrite (bind_Ret_nil _ _ _ _ _ Eg), Hrun. cbn [negb].
  match goal with |- context [bind ?m _ d] => assert (Em : exists a, m d = Ret tt (set_d_apps a d) []) end.
  { assert (Hid : d = set_d_apps (d_apps d) d) by by destruct d.
    destruct (inst_app v) as [a|] eqn:Ha; [|exists (d_apps d); by rewrite <- Hid]. pose proof (rd_Forall _ _ _ _ (ro_app _ Hr) Hv) as Hb. cbn beta in Hb. rewrite Ha in Hb.
    pose proof (ro_count _ Hr). destruct (rd_range _ a _ (ro_apps _ Hr)) as [app Happ]; [lia|]. rewrite bind_gets. cbn beta. rewrite Happ, (bind_deref_Some _ _ _ _ eq_refl).
    destruct (on_close app) as [f|]; [|exists (d_apps d); by rewrite <- Hid]. destruct (close_private f i d Hd) as (d' & E & a' & ->). by exists a'. }
  destruct Em as (a & Ea). rewrite (bind_Ret_nil _ _ _ _ _ Ea). exists a. apply on_registry_run, put_instance_run. by rewrite (ro_instances _ Hr).
Qed.

Lemma closed_run d o : ready d -> match o with Some i => 0 <= i < DESKTOP_REGISTRY_MAX_INSTANCES | None => True end ->
  exists a, desktop_app_instance_window_closed o d = Ret tt (set_d_registry (window_closed o (d_registry d)) (set_d_apps a d)) [].
Proof using Hcloses.
  intros Hd Ho. pose proof (tb_registry _ (dr_tables _ (rd_drawable _ Hd))) as Hr. assert (Hid : d = set_d_registry (d_registry d) (set_d_apps (d_apps d) d)) by by destruct d.
  unfold desktop_app_instance_window_closed, window_closed. destruct o as [i|]; [|exists (d_apps d); by rewrite <- Hid].
  destruct (get_instance_run _ i Hr Ho) as (v & Hv & Eg). rewrite (bind_Ret_nil _ _ _ _ _ (on_registry_pure _ d v Eg)), Hv. destruct (running v) eqn:Hrun; cbn [negb]; [|exists (d_apps d); by rewrite <- Hid].
  set (n := if 0 <? inst_windows v then _ else _).
  assert (Ep : on_registry (put_instance i (set_inst_windows n v)) d = Ret tt (set_d_registry (set_instances (<[Z.to_nat i := set_inst_windows n v]> (instances (d_registry d))) (d_registry d)) d) []).
  { apply on_registry_run, put_instance_run. by rewrite (ro_instances _ Hr). }
  rewrite (bind_Ret_nil _ _ _ _ _ Ep). destruct (n =? 0) eqn:Hn; [|by exists (d_apps d)].
  set (r1 := set_instances _ (d_registry d)). set (d1 := set_d_registry r1 d).
  assert (Hr1 : registry_ok r1) by (apply registry_instances_ok; [done|exact (rd_Forall _ _ _ _ (ro_app _ Hr) Hv)]).
  assert (Hd1 : ready d1). { destruct Hd as [[[Ht _] [? ? ?] ? ? ?] ? ? ? ?]. split; [split; [by split|by split|done..]|done..]. }
  assert (Hv1 : rd (instances (d_registry d1)) i = Some (set_inst_windows n v)).
  { unfold rd. cbn. rewrite (proj2 (Z.leb_le 0 i)) by lia. apply list_lookup_insert_eq. pose proof (ro_instances _ Hr) as Hl. unfold lenZ in Hl. lia. }
  destruct (stop_run d1 i _ Hd1 Ho Hv1 Hrun) as (a & E). exists a. rewrite E. unfold d1. cbn [d_registry set_d_registry]. unfold r1. by rewrite set_instances_twice.
Qed.

(** The entries behind the closed window move down and the last one is cleared. *)
Lemma remove_run d (i : nat) : shaped (d_desktop d) -> (i < length (stack d))%nat ->
  remove_window (Z.of_nat i) d =
  Ret tt (with_table (delete i (stack d)) (ds_focused_window_index (d_desktop d)) d) [].
Proof.
  intros Ht Hi. pose proof (length_stack _ Ht) as Hn. pose proof (to_count _ Ht) as Hc. unfold remove_window. unfold var at 1. rewrite bind_gets. cbn beta. unfold shift_windows.
  destruct (lookup_lt_is_Some_2 _ _ Hi) as [w0 Hw0]. pose proof (length_delete (stack d) i ltac:(by eexists)) as Hld.
  rewrite (bind_Ret_nil _ _ _ _ _ (shift_run (Z.to_nat (ds_window_count (d_desktop d) - 1 - Z.of_nat i)) i d Ht ltac:(lia))).
  rewrite app_assoc, <- delete_take_drop. set (v := default zero_window (last (stack d))). set (f := ds_focused_window_index (d_desktop d)).
  set (d1 := with_table (delete i (stack d) ++ [v]) f d). rewrite (proj2 (Z.ltb_lt 0 _)) by lia. rewrite (bind_Ret_nil _ _ _ _ _ (assign_run _ d1)).
  unfold var. rewrite bind_gets. cbn beta. unfold DESKTOP_MAX_WINDOWS in *. cbn [d_desktop upd set_d_desktop ds_window_count set_ds_window_count]. rewrite (proj2 (Z.ltb_lt _ 8)) by lia.
  set (blanks := replicate (Z.to_nat 8 - length (delete i (stack d) ++ [v])) zero_window).
  assert (Hws : ds_windows (d_desktop d1) = (delete i (stack d) ++ [v]) ++ blanks) by done.
  rewrite put_window_run; cbn [d_desktop upd set_d_desktop ds_windows set_ds_window_count]; rewrite Hws.
  - f_equal. unfold d1, with_table, upd, table. cbn [d_desktop set_d_desktop ds_windows ds_window_count set_ds_windows set_ds_window_count set_ds_focused_window_index].
    replace (Z.to_nat (ds_window_count (d_desktop d) - 1)) with (length (delete i (stack d)) + 0)%nat by lia. rewrite <- app_assoc, insert_app_r. cbn [app insert list_insert].
    assert (Hb : zero_window :: blanks = replicate (Z.to_nat DESKTOP_MAX_WINDOWS - length (delete i (stack d))) zero_window).
    { unfold blanks, DESKTOP_MAX_WINDOWS. rewrite length_app. cbn [length]. replace (Z.to_nat 8 - length (delete i (stack d)))%nat with (S (Z.to_nat 8 - (length (delete i (stack d)) + 1)))%nat by lia. done. }
    rewrite Hb. assert (Hl : lenZ (delete i (stack d)) = ds_window_count (d_desktop d) - 1) by (unfold lenZ; lia). rewrite Hl. done.
  - unfold blanks, lenZ. rewrite !length_app, length_replicate. cbn [length]. lia.
Qed.

Lemma delete_windows l f i w : windows_ok l f -> l !! i = Some w -> windows_ok (delete i l) (top_shown (delete i l)).
Proof.
  intros [Hl Hw Hi Hf] Hlk. apply (top_shown_ok _ 0). split.
  - rewrite length_delete by by eexists. lia.
  - by apply Forall_delete.
  - rewrite (delete_Permutation _ _ _ Hlk) in Hi. by apply NoDup_cons in Hi as [_ ?].
  - done.
Qed.

(** Closing a window takes it out of the table, tells its application, and
    counts it off its instance. *)
Definition closed d (i : nat) (w : desktop_window) (a : A) : state :=
  settled (upd (set_ds_drag_window_id 0) (with_table (delete i (stack d)) (top_shown (delete i (stack d)))
    (set_d_registry (window_closed (owner w) (d_registry d)) (set_d_apps a d)))).

Lemma destroy_run d i w : ready d -> stack d !! i = Some w ->
  exists a, desktop_destroy_window (Some (Z.of_nat i)) d = Ret tt (closed d i w a) [].
Proof using Hevents Hcloses.
  intros Hd Hw. pose proof (dr_tables _ (rd_drawable _ Hd)) as [Ht Hr]. pose proof (length_stack _ Ht) as Hn. pose proof (lookup_lt_Some _ _ _ Hw) as Hlt.
  unfold desktop_destroy_window, var. rewrite (bind_Ret_nil _ _ _ _ _ (stack_get_run _ _ _ Ht Hw)).
  rewrite (bind_Ret_nil _ _ _ _ _ (find_index_run d (id w) Ht)), (index_of_window d i w Ht Hw), bind_gets. cbn beta. rewrite (proj2 (Z.leb_gt _ _)) by lia.
  rewrite (bind_Ret_nil _ _ _ _ _ (stack_get_run _ _ _ Ht Hw)). destruct (notify_run d i w Hd Hw) as (d0 & E0 & a0 & ->). rewrite (bind_Ret_nil _ _ _ _ _ E0).
  set (d0 := set_d_apps a0 d). assert (Hd0 : ready d0) by (apply (apps_only_ready d); [by exists a0|done]).
  pose proof (remove_run d0 i Ht Hlt) as Erem. change (stack d0) with (stack d) in Erem. set (l := delete i (stack d)) in *. set (f := ds_focused_window_index (d_desktop d0)) in *.
  set (d1 := with_table l f d0) in *. rewrite (bind_Ret_nil _ _ _ _ _ Erem), (bind_Ret_nil _ _ _ _ _ (assign_run _ d1)). set (d2 := upd (set_ds_drag_window_id 0) d1).
  pose proof (delete_windows _ _ _ _ (windows_ok_stack _ Ht) Hw) as Hk. fold (stack d) in Hk. fold l in Hk.
  assert (Hk2 : windows_ok l f) by (apply (windows_ok_focus _ _ _ Hk), (to_focus _ Ht)).
  assert (Hd2 : ready d2).
  { destruct Hd0 as [[[_ Hr0] [? ? ?] ? ? ?] ? ? ? ?]. split; [split; [split; [|done]|by split|done..]|done..].
    destruct (table_ok_intro l f (d_desktop d0) Hk2) as [[? ? ?] ? ? ?]. split; [by split|done..]. }
  destruct (closed_run d2 (owner w) Hd2 (wo_owner _ (stack_window_ok _ _ _ Ht Hw))) as (a & Ea). rewrite (bind_Ret_nil _ _ _ _ _ Ea).
  set (d3 := set_d_registry _ _). pose proof (dr_tables _ (rd_drawable _ Hd2)) as [Ht2 Hr2].
  assert (Hs3 : stack d3 = l) by exact (stack_with_table l f d0). rewrite (bind_Ret_nil _ _ _ _ _ (recompute_run d3 Ht2)), Hs3.
  exists a. apply settle_end. split; [|exact (window_closed_ok _ _ Hr)].
  destruct (table_ok_intro l (top_shown l) (d_desktop d0) Hk) as [[? ? ?] ? ? ?]. split; [by split|done..].
Qed.
End closing.

(** ** Opening *)

Section opening.
Context `{AppRender state} {Hrenders : RenderLaws}.

Definition new_window (wid x y width height : Z) (ttl : mem) : desktop_window :=
  Window wid x y width height DESKTOP_WINDOW_FLAG_VISIBLE x y width height (copied DESKTOP_WINDOW_TITLE_MAX ttl) None None None None.
(** The window that opens next: its id is the highest one plus one, its place
    depends on the number of windows. *)
Definition next_id d : Z := highest (stack d) 0 + 1.
Definition placed d (width height : Z) (ttl : mem) : desktop_window :=
  let n := lenZ (stack d) in new_window (next_id d) (72 + n * 28) (88 + n * 24) width height ttl.

Lemma window_init_run {S} w wid x y width height ttl (s : S) : terminated ttl ->
  desktop_window_init (Some w) wid x y width height (Some ttl) s = Ret (Some (new_window wid x y width height ttl)) s [].
Proof using Type.
  intros (t & Ht & _). unfold desktop_window_init. rewrite bind_assoc. erewrite bind_deref_Some; [|exact (copied_eq DESKTOP_WINDOW_TITLE_MAX ttl t eq_refl Ht)].
  by rewrite bind_ret.
Qed.

Lemma slot_run d ttl wid x y width height : table_ok (d_desktop d) -> ds_window_count (d_desktop d) < DESKTOP_MAX_WINDOWS -> terminated ttl ->
  let d1 := with_table (stack d ++ [zero_window]) (ds_focused_window_index (d_desktop d)) d in
  next_slot d = Ret (lenZ (stack d)) d1 [] /\
  (next_id d < 2 ^ 32 -> desktop_next_window_id d1 = Ret (next_id d) d1 []) /\
  init_window (lenZ (stack d)) wid x y width height ttl d1 =
    Ret tt (with_table (stack d ++ [new_window wid x y width height ttl]) (ds_focused_window_index (d_desktop d)) d) [].
Proof using Type.
  intros Ht Hc Httl d1. pose proof (length_stack _ Ht) as Hn. pose proof (to_count _ Ht) as Hcount. unfold DESKTOP_MAX_WINDOWS in *.
  assert (Hsh : shaped (d_desktop d1)) by (apply table_shaped; rewrite length_app; cbn; unfold DESKTOP_MAX_WINDOWS; lia).
  assert (Hs1 : stack d1 = stack d ++ [zero_window]) by exact (stack_with_table _ (ds_focused_window_index (d_desktop d)) d). split; [|split].
  - unfold next_slot, var. rewrite bind_gets. cbn beta. rewrite (bind_Ret_nil _ _ _ _ _ (assign_run _ d)). unfold ret. rewrite <- Hn. f_equal. rewrite u32_small by lia.
    assert (Hws : ds_windows (d_desktop d) = (stack d ++ [zero_window]) ++ replicate (Z.to_nat DESKTOP_MAX_WINDOWS - length (stack d ++ [zero_window])) zero_window).
    { rewrite <- (table_stack (d_desktop d) Ht) at 1. unfold table, DESKTOP_MAX_WINDOWS. cbn [ds_windows set_ds_windows]. fold (stack d).
      rewrite length_app, <- app_assoc. cbn [length]. by replace (Z.to_nat 8 - length (stack d))%nat with (S (Z.to_nat 8 - (length (stack d) + 1)))%nat by lia. }
    unfold d1, with_table, upd, table. rewrite <- Hws. rewrite lenZ_app. change (lenZ [zero_window]) with 1. unfold lenZ. by destruct (d_desktop d).
  - intros Hid. rewrite (next_id_run d1 Hsh), Hs1. unfold highest, next_id. rewrite foldl_app. cbn [foldl]. fold (highest (stack d) 0). change (id zero_window) with 0.
    pose proof (proj1 (highest_ge (stack d) 0)). unfold next_id in Hid. rewrite Z.max_l, u32_small by lia. done.
  - unfold init_window. assert (Hz : stack d1 !! length (stack d) = Some zero_window) by (rewrite Hs1; apply list_lookup_middle; done).
    change (lenZ (stack d)) with (Z.of_nat (length (stack d))). rewrite (bind_Ret_nil _ _ _ _ _ (stack_get_run d1 _ _ Hsh Hz)).
    rewrite (bind_Ret_nil _ _ _ _ _ (window_init_run zero_window wid x y width height ttl d1 Httl)), (bind_deref_Some _ _ _ _ eq_refl).
    rewrite put_stack_run by (try done; rewrite Hs1, length_app; cbn; lia). rewrite Hs1. unfold d1. rewrite with_table_twice. do 2 f_equal.
    by rewrite insert_app_r_alt, Nat.sub_diag by lia.
Qed.

Lemma place_window_run d width height ttl : table_ok (d_desktop d) -> ds_window_count (d_desktop d) < DESKTOP_MAX_WINDOWS -> next_id d < 2 ^ 32 -> terminated ttl ->
  place_window (ds_window_count (d_desktop d)) width height ttl d =
    Ret (lenZ (stack d)) (with_table (stack d ++ [placed d width height ttl]) (ds_focused_window_index (d_desktop d)) d) [].
Proof using Type.
  intros Ht Hc Hid Httl. pose proof (length_stack _ Ht) as Hn. pose proof (to_count _ Ht) as Hcount. unfold DESKTOP_MAX_WINDOWS in *.
  unfold place_window, place. set (n := ds_window_count (d_desktop d)) in *. rewrite (u32_small (n * 28)), (u32_small (n * 24)), !i32_small by lia. rewrite !bind_signed by lia.
  destruct (slot_run d ttl (next_id d) (72 + n * 28) (88 + n * 24) width height Ht Hc Httl) as (E1 & E2 & E3).
  rewrite (bind_Ret_nil _ _ _ _ _ E1), (bind_Ret_nil _ _ _ _ _ (E2 Hid)), (bind_Ret_nil _ _ _ _ _ E3). unfold ret, placed, lenZ. by rewrite Hn.
Qed.

Lemma placed_ok d width height ttl : table_ok (d_desktop d) -> next_id d < 2 ^ 32 -> terminated ttl -> 0 <= width <= 2 ^ 20 -> 0 <= height <= 2 ^ 20 ->
  window_ok (placed d width height ttl) /\ Forall (fun w => id w <> id (placed d width height ttl)) (stack d).
Proof using Type.
  intros Ht Hid Httl Hw Hh. pose proof (length_stack _ Ht) as Hn. pose proof (to_count _ Ht) as Hc. unfold DESKTOP_MAX_WINDOWS in *. destruct (highest_ge (stack d) 0) as [Hp Hall].
  pose proof (copied_ok DESKTOP_WINDOW_TITLE_MAX ttl ltac:(done) Httl) as [Hl Htt]. split.
  - unfold placed, next_id in *. assert (Hb : within (72 + lenZ (stack d) * 28) (88 + lenZ (stack d) * 24) width height) by (unfold within, lenZ; lia).
    split; [split; [exact Hl|exact Htt]|cbn; lia|done|exact Hb|exact Hb].
  - eapply Forall_impl; [exact Hall|]. intros w Hle. cbn in *. unfold next_id. lia.
Qed.
Lemma append_windows l f w : windows_ok l f -> (length l < Z.to_nat DESKTOP_MAX_WINDOWS)%nat -> window_ok w -> Forall (fun v => id v <> id w) l -> windows_ok (l ++ [w]) f.
Proof using Type.
  intros [Hl Hw Hi Hf] Hlt Hok Hne. split; [rewrite length_app; cbn; lia|by apply Forall_app_2, Forall_singleton| |done].
  rewrite fmap_app. apply NoDup_app. split; [done|]. split; [|by apply NoDup_singleton]. intros x Hx Hx2. apply list_elem_of_singleton in Hx2 as ->.
  apply list_elem_of_fmap in Hx as (v & Hv & Hin). apply (proj1 (Forall_forall _ _) Hne v Hin). done.
Qed.

Lemma settled_twice l f d : settled (with_table l f (settled d)) = settled (with_table l f d).
Proof using Type. done. Qed.
Lemma settled_settled d : settled (settled d) = settled d.
Proof using Type. done. Qed.

(** A window that is visible and not minimised. *)
Definition is_plain (w : desktop_window) : Prop := Z.land (win_flags w) DESKTOP_WINDOW_FLAG_MINIMIZED = 0.
Lemma plain_unminimized w : is_plain w -> unminimized w = w.
Proof using Type. unfold is_plain, unminimized. by intros ->. Qed.
Lemma clamped_plain d w : is_plain w -> is_plain (clamped_to d w).
Proof using Type. done. Qed.

(** The window at the top, on the screen and with the focus. *)
Definition topped l w d : state := settled (with_table (l ++ [w]) (lenZ l) d).

Lemma focus_front_run d l w : tables_ok d -> stack d = l ++ [w] -> is_plain w ->
  (desktop_focus_window (Some (Z.of_nat (length l)));; desktop_bring_to_front (Some (Z.of_nat (length l)))) d = Ret tt (topped l w d) [].
Proof using Type.
  intros Hok Hs Hp. assert (Hw : stack d !! length l = Some w) by (rewrite Hs; by apply list_lookup_middle).
  rewrite (bind_Ret_nil _ _ _ _ _ (focus_run d _ w Hok Hw)). rewrite Hs, (plain_unminimized w Hp), (list_insert_id (l ++ [w])) by (by rewrite <- Hs).
  set (d1 := settled _). assert (Hs1 : stack d1 = l ++ [w]) by exact (stack_with_table _ (Z.of_nat (length l)) d).
  assert (Hok1 : tables_ok d1).
  { apply settled_ok, with_table_ok; [|apply (tb_registry _ Hok)]. rewrite <- Hs. apply (windows_ok_focus _ (ds_focused_window_index (d_desktop d))); [apply windows_ok_stack, Hok|lia]. }
  rewrite (front_run d1 (length l) w Hok1) by (by rewrite Hs1, <- Hs). rewrite Hs1, (plain_unminimized w Hp), raise_last by (rewrite length_app; cbn; lia).
  rewrite (list_insert_id (l ++ [w])) by (by rewrite <- Hs). unfold d1, topped. rewrite settled_twice, with_table_twice. do 3 f_equal. rewrite lenZ_app. change (lenZ [w]) with 1. lia.
Qed.

Lemma with_table_ready l f d : ready d -> windows_ok l f -> ready (with_table l f d).
Proof using Type.
  intros [[[Ht Hr] [? ? ?] ? ? ?] ? ? ? ?] Hk. split; [split; [split; [by apply table_ok_intro|done]|by split|done..]|done..].
Qed.
Lemma settled_ready d : ready d -> ready (settled d).
Proof using Type.
  intros [[Hok [? ? ?] ? ? ?] ? ? ? ?]. split; [split; [by apply settled_ok|by split|done..]|done..].
Qed.

Lemma present_run d l w : ready d -> stack d = l ++ [w] -> is_plain w ->
  exists d', present_window local64 uptime_text (Z.of_nat (length l)) d = Ret tt d' [] /\ rendered (topped l (clamped_to d w) d) d'.
Proof using All.
  intros Hd Hs Hp. pose proof (dr_tables _ (rd_drawable _ Hd)) as [Ht Hr]. pose proof (dr_screen _ (rd_drawable _ Hd)) as Hsk.
  assert (Hw : stack d !! length l = Some w) by (rewrite Hs; by apply list_lookup_middle). pose proof (stack_window_ok _ _ _ Ht Hw) as Hok.
  unfold present_window. rewrite (bind_Ret_nil _ _ _ _ _ (clamp_window_run d (length l) w Ht Hsk Hw (within_wf w (wo_place _ Hok)))).
  rewrite Hs, insert_app_r_alt, Nat.sub_diag by lia. cbn [insert list_insert]. set (c := clamped_to d w). set (f := ds_focused_window_index (d_desktop d)). set (d1 := with_table (l ++ [c]) f d).
  assert (Hc : window_ok c).
  { destruct Hok as [? ? ? Hpl ?]. split; try done. apply (clamped_within d w Hsk); destruct Hpl as (_ & _ & ? & ?); lia. }
  assert (Hk : windows_ok (l ++ [c]) f).
  { pose proof (windows_ok_insert _ _ _ _ c (windows_ok_stack _ Ht) Hw Hc eq_refl) as Hi. fold (stack d) in Hi. rewrite Hs, insert_app_r_alt, Nat.sub_diag in Hi by lia. exact Hi. }
  pose proof (with_table_ready _ _ d Hd Hk) as Hd1. fold d1 in Hd1. pose proof (dr_tables _ (rd_drawable _ Hd1)) as Hok1.
  pose proof (focus_front_run d1 l c Hok1 (stack_with_table _ f d) (clamped_plain d w Hp)) as E.
  rewrite <- bind_assoc, (bind_Ret_nil _ _ _ _ _ E). change (topped l c d1) with (topped l c d). set (d2 := topped l c d).
  assert (Hd2 : ready d2) by (apply settled_ready, with_table_ready; [done|]; apply (windows_ok_focus _ _ _ Hk), lenZ_nonneg).
  rewrite (settle_run (fun _ => show_now local64 uptime_text) d2 (dr_tables _ (rd_drawable _ Hd2))). destruct (show_now_run local64 uptime_text uptime_len (settled d2) (settled_ready _ Hd2)) as (d' & E' & R'). exists d'. split; [exact E'|].
  unfold d2, topped in R'. by rewrite settled_settled in R'.
Qed.

(** A string that is not empty. *)
Definition some_text (s : mem) : Prop := terminated s /\ rd s 0 <> Some 0.
Lemma missing_run d s : some_text s -> missing (Some s) d = Ret false d [].
Proof using Type.
  intros [(t & Ht & _) Hne]. destruct (cval_inv _ _ Ht) as (Hn & r & ->). unfold missing, empty_string. destruct t as [|c t]; [by destruct Hne|].
  change (rd ((c :: t) ++ 0 :: r) 0) with (Some c) in *. cbn [mbind option_bind]. rewrite (bind_deref_Some _ _ _ _ eq_refl). by rewrite (proj2 (Z.eqb_neq c 0)) by congruence.
Qed.
Lemma initialized_run d : ready d -> not_initialized local64 d = Ret false d [].
Proof using Type. intros Hd. unfold not_initialized, var. rewrite bind_gets. by rewrite (proj2 (Z.eqb_neq _ 0)) by apply (rd_initialized _ Hd). Qed.

(** The registry when a window of instance [i] has opened. *)
Definition window_opened (i : Z) (v : desktop_app_instance) (r : registry) : registry :=
  set_instances (<[Z.to_nat i := set_inst_windows (u32 (inst_windows v + 1)) v]> (instances r)) r.
Definition owned_window (i : Z) (data : option Z) (w : desktop_window) : desktop_window := set_win_user_data data (set_win_owner (Some i) w).

Lemma set_registry_ready r d : ready d -> registry_ok r -> reg_initialized r = reg_initialized (d_registry d) -> ready (set_d_registry r d).
Proof using Type.
  intros [[[Ht _] [? ? ?] ? ? ?] Hi ? ? ?] Hr E. split; [split; [by split|by split|done..]| |done..]. cbn. by rewrite E.
Qed.

Lemma open_instance_run d i v ttl width height data :
  ready d -> rd (instances (d_registry d)) i = Some v -> running v = true -> some_text ttl -> 0 <= width <= 2 ^ 20 -> 0 <= height <= 2 ^ 20 ->
  ds_window_count (d_desktop d) < DESKTOP_MAX_WINDOWS -> next_id d < 2 ^ 32 ->
  exists d', desktop_open_app_instance_window local64 uptime_text (Some i) (Some ttl) width height data d = Ret 0 d' [] /\
    rendered (topped (stack d) (clamped_to d (owned_window i data (placed d width height ttl))) (set_d_registry (window_opened i v (d_registry d)) d)) d'.
Proof using All.
  intros Hd Hv Hrun Httl Hwd Hht Hc Hid. pose proof (dr_tables _ (rd_drawable _ Hd)) as [Ht Hr]. pose proof (rd_inv _ _ _ Hv) as Hib.
  pose proof Hib as Hi. rewrite (ro_instances _ Hr) in Hi. unfold desktop_open_app_instance_window.
  destruct (get_instance_run _ i Hr Hi) as (v' & Hv' & Eg). rewrite Hv in Hv'. injection Hv' as <-. pose proof (on_registry_pure _ d v Eg) as Eg1. rewrite (bind_Ret_nil _ _ _ _ _ Eg1), Hrun.
  rewrite (bind_Ret_nil _ _ _ _ _ (missing_run d ttl Httl)), (bind_Ret_nil _ _ _ _ _ (initialized_run d Hd)). unfold var. rewrite bind_gets. cbn beta.
  rewrite (proj2 (Z.leb_gt _ _)) by lia. rewrite (bind_Ret_nil _ _ _ _ _ (place_window_run d width height ttl Ht Hc Hid (proj1 Httl))).
  destruct (placed_ok d width height ttl Ht Hid (proj1 Httl) Hwd Hht) as [Hnew Hne]. set (new := placed d width height ttl) in *. set (f := ds_focused_window_index (d_desktop d)).
  pose proof (length_stack _ Ht) as Hn. unfold DESKTOP_MAX_WINDOWS in *.
  set (d1 := with_table (stack d ++ [new]) f d). assert (Hk1 : windows_ok (stack d ++ [new]) f) by (apply append_windows; [by apply windows_ok_stack|unfold DESKTOP_MAX_WINDOWS; lia|done|done]).
  pose proof (with_table_ready _ _ d Hd Hk1) as Hd1. fold d1 in Hd1. assert (Hs1 : stack d1 = stack d ++ [new]) by exact (stack_with_table _ f d).
  assert (Hw1 : stack d1 !! length (stack d) = Some new) by (rewrite Hs1; by apply list_lookup_middle). change (lenZ (stack d)) with (Z.of_nat (length (stack d))).
  rewrite (bind_Ret_nil _ _ _ _ _ (stack_get_run d1 _ new (tb_table _ (dr_tables _ (rd_drawable _ Hd1))) Hw1)). fold (owned_window i data new). set (w := owned_window i data new).
  rewrite (bind_Ret_nil _ _ _ _ _ (put_stack_run d1 (length (stack d)) w (tb_table _ (dr_tables _ (rd_drawable _ Hd1))) ltac:(rewrite Hs1, length_app; cbn; lia))).
  rewrite Hs1. unfold d1. rewrite with_table_twice, focus_with_table, insert_app_r_alt, Nat.sub_diag by lia. cbn [insert list_insert].
  assert (Hw : window_ok w) by (destruct Hnew; by split).
  assert (Hk2 : windows_ok (stack d ++ [w]) f).
  { apply append_windows; [by apply windows_ok_stack|unfold DESKTOP_MAX_WINDOWS; lia|done|exact Hne]. }
  set (d2 := with_table (stack d ++ [w]) f d). pose proof (with_table_ready _ _ d Hd Hk2) as Hd2. fold d2 in Hd2.
  assert (Eo : on_registry (desktop_app_instance_window_opened (Some i)) d2 = Ret tt (set_d_registry (window_opened i v (d_registry d)) d2) []).
  { apply on_registry_run. unfold desktop_app_instance_window_opened. change (d_registry d2) with (d_registry d). rewrite (bind_Ret_nil _ _ _ _ _ Eg), Hrun. cbn [negb]. by apply put_instance_run. }
  rewrite (bind_Ret_nil _ _ _ _ _ Eo). set (d3 := set_d_registry _ d2).
  assert (Hd3 : ready d3).
  { apply set_registry_ready; [done| |done]. apply registry_instances_ok; [done|]. exact (rd_Forall _ _ _ _ (ro_app _ Hr) Hv). }
  destruct (present_run d3 (stack d) w Hd3 (stack_with_table _ f d) eq_refl) as (d' & E & R). rewrite (bind_Ret_nil _ _ _ _ _ E). exists d'. by split.
Qed.
End opening.
End windows.
