(* ===== verification/DesktopOps.v ===== *)
(** Runs of operations on windows. Any sequence of them, with any pointers into
    the table, keeps the desktop consistent: the table well-formed, the focus on
    a window, and every instance running exactly as long as it has windows. *)
From S2P Require Import Prelude LibString Klog Input BlockDevice BlockIO TinyFS Vfs FileTable Graphics Cursor Theme DesktopWindow DesktopInput Console Bus AppRegistry Taskbar Desktop DesktopRender DesktopTable DesktopView DesktopShell DesktopWindows.

Section ops.
Context {X D G C K A : Type} `{DiskDriver X} `{Hardware D} `{DisplayDriver G} `{OutputCapture C} `{KeyboardDriver K}.
Context (local64 : mem) (uptime_text : mem).
Abbreviation state := (desk X D G C K A).
Implicit Types d : state.

(** How many windows an instance has. *)
Definition owned (i : Z) (l : list desktop_window) : Z := lenZ (filter (fun w => owner w = Some i) l).
Definition accounted d : Prop := forall i v, rd (instances (d_registry d)) i = Some v ->
  if running v then inst_windows v = owned i (stack d) else owned i (stack d) = 0.
Definition focus_in d : Prop := ds_focused_window_index (d_desktop d) < ds_window_count (d_desktop d) \/ ds_window_count (d_desktop d) = 0.

Record consistent d : Prop := {
  cs_ready : ready d;
  cs_accounted : accounted d;
  cs_focus : focus_in d
}.

(** *** Counting windows *)

Lemma owned_app i l k : owned i (l ++ k) = owned i l + owned i k.
Proof. unfold owned. by rewrite filter_app, lenZ_app. Qed.
Lemma owned_cons i w l : owned i (w :: l) = (if decide (owner w = Some i) then 1 else 0) + owned i l.
Proof. unfold owned. rewrite filter_cons. destruct (decide _); [rewrite lenZ_cons|]; lia. Qed.
Lemma owned_nonneg i l : 0 <= owned i l.
Proof. apply lenZ_nonneg. Qed.
Lemma owned_perm i l l' : l ≡ₚ l' -> owned i l = owned i l'.
Proof. intros Hp. unfold owned, lenZ. by rewrite Hp. Qed.
Lemma owned_delete i j l w : l !! j = Some w -> owned i (delete j l) = owned i l - (if decide (owner w = Some i) then 1 else 0).
Proof. intros Hw. rewrite (owned_perm i l (w :: delete j l)) by (by apply delete_Permutation). rewrite owned_cons. lia. Qed.
Lemma owned_insert i j l w v : l !! j = Some w -> owner v = owner w -> owned i (<[j := v]> l) = owned i l.
Proof.
  intros Hw Ho. rewrite <- (take_drop_middle l j w Hw) at 1. rewrite insert_app_r_alt by (rewrite length_take; lia). apply lookup_lt_Some in Hw as Hlt.
  rewrite length_take, Nat.min_l, Nat.sub_diag by lia. cbn [insert list_insert]. rewrite owned_app, owned_cons, Ho, <- owned_cons, <- owned_app. by rewrite take_drop_middle.
Qed.
Lemma owned_raise i j l w v : l !! j = Some w -> owner v = owner w -> owned i (raise j v l) = owned i l.
Proof. intros Hw Ho. unfold raise. rewrite owned_app, (owned_delete i j l w Hw), owned_cons, Ho. change (owned i []) with 0. lia. Qed.

(** *** Steps that leave the registry alone *)

Lemma unminimized_owner w : owner (unminimized w) = owner w.
Proof. unfold unminimized. by destruct (_ =? 0). Qed.

Lemma settled_consistent d l f : ready d -> windows_ok l f -> f < lenZ l \/ l = [] -> (forall i, owned i l = owned i (stack d)) -> accounted d ->
  consistent (settled (with_table l f d)).
Proof.
  intros Hd Hk Hf Ho Ha. split.
  - by apply settled_ready, with_table_ready.
  - intros i v Hv. rewrite stack_settled, stack_with_table, Ho. by apply Ha.
  - unfold focus_in. cbn. destruct Hf as [Hf | ->]; [by left|by right].
Qed.

Lemma rendered_consistent d d' : consistent d -> rendered d d' -> consistent d'.
Proof.
  intros [Hd Ha Hf] [(n & b & Hdd) Hre _ _ _ _ Hrd]. split; [done| |].
  - intros i v Hv. rewrite Hre in Hv. assert (Hs : stack d' = stack d) by (unfold stack; by rewrite Hdd). rewrite Hs. by apply Ha.
  - unfold focus_in in *. by rewrite Hdd.
Qed.

(** A pointer into the table leads to a window or to a blank entry. *)
Lemma pointer_cases d p : table_ok (d_desktop d) -> 0 <= p < DESKTOP_MAX_WINDOWS ->
  (exists i w, p = Z.of_nat i /\ stack d !! i = Some w) \/ (rd (ds_windows (d_desktop d)) p = Some zero_window /\ ds_window_count (d_desktop d) <= index_of (id zero_window) d).
Proof.
  intros Ht Hp. pose proof (to_count _ Ht) as Hc. destruct (Z.lt_ge_cases p (ds_window_count (d_desktop d))) as [Hlt|Hge].
  - left. destruct (stack_lookup d p Ht ltac:(lia)) as [w Hw]. exists (Z.to_nat p), w. split; [lia|done].
  - right. change (id zero_window) with 0. split; [|rewrite (index_of_absent d 0 Ht); [lia|by left]]. unfold rd. rewrite (proj2 (Z.leb_le 0 p)) by lia. pose proof (to_blank _ Ht) as Hb.
    replace (Z.to_nat p) with (Z.to_nat (ds_window_count (d_desktop d)) + Z.to_nat (p - ds_window_count (d_desktop d)))%nat by lia. rewrite <- lookup_drop, Hb.
    apply lookup_replicate_2. lia.
Qed.

(** Every operation on such an entry does nothing. *)
Ltac absent := intros Hok Hv Hi; first [rewrite (bind_Ret_nil _ _ _ _ _ (get_window_run _ _ _ Hv))|idtac];
  rewrite (bind_Ret_nil _ _ _ _ _ (find_index_run _ _ (tb_table _ Hok))); unfold var; rewrite bind_gets; cbn beta; by rewrite (proj2 (Z.leb_le _ _) Hi).
Lemma front_absent_run d p v : tables_ok d -> rd (ds_windows (d_desktop d)) p = Some v -> ds_window_count (d_desktop d) <= index_of (id v) d -> desktop_bring_to_front (Some p) d = Ret tt d [].
Proof. unfold desktop_bring_to_front. absent. Qed.
Lemma minimize_absent_run d p v : tables_ok d -> rd (ds_windows (d_desktop d)) p = Some v -> ds_window_count (d_desktop d) <= index_of (id v) d -> desktop_minimize_window (Some p) d = Ret tt d [].
Proof. unfold desktop_minimize_window. absent. Qed.
Lemma maximize_absent_run d p v : screen_ok d -> tables_ok d -> rd (ds_windows (d_desktop d)) p = Some v -> ds_window_count (d_desktop d) <= index_of (id v) d -> desktop_toggle_maximize_window (Some p) d = Ret tt d [].
Proof. intros Hs. unfold desktop_toggle_maximize_window, var at 1. rewrite bind_gets. cbn beta. rewrite (sk_fb _ Hs). absent. Qed.
Lemma destroy_absent_run `{AppEvent state} `{AppClose state} d p v : tables_ok d -> rd (ds_windows (d_desktop d)) p = Some v -> ds_window_count (d_desktop d) <= index_of (id v) d -> desktop_destroy_window (Some p) d = Ret tt d [].
Proof. unfold desktop_destroy_window. absent. Qed.

(** *** Closing *)

Lemma registry_window_closed o r i v : registry_ok r -> rd (instances r) i = Some v ->
  rd (instances (window_closed o r)) i = Some (
    if decide (o = Some i) then
      if running v then let n := if 0 <? inst_windows v then inst_windows v - 1 else inst_windows v in if n =? 0 then zero_instance else set_inst_windows n v else v
    else v).
Proof.
  intros Hr Hv. unfold window_closed. destruct o as [j|]; [|by rewrite decide_False]. destruct (decide (Some j = Some i)) as [[= ->]|Hne].
  - rewrite Hv. destruct (running v); [|done]. pose proof (rd_inv _ _ _ Hv) as Hb. unfold rd. rewrite (proj2 (Z.leb_le 0 i)) by lia. apply list_lookup_insert_eq.
    unfold lenZ in Hb. cbn. lia.
  - destruct (rd (instances r) j) as [u|] eqn:Hu; [|done]. destruct (running u); [|done]. pose proof (rd_inv _ _ _ Hv). pose proof (rd_inv _ _ _ Hu).
    unfold rd in *. rewrite (proj2 (Z.leb_le 0 i)) in * by lia. cbn [instances set_instances]. rewrite list_lookup_insert_ne; [done|]. intros E. apply Hne. f_equal. lia.
Qed.

Lemma closed_consistent d i w a : consistent d -> stack d !! i = Some w -> consistent (closed d i w a).
Proof.
  intros [Hd Ha Hf] Hw. pose proof (dr_tables _ (rd_drawable _ Hd)) as [Ht Hr].
  pose proof (delete_windows _ _ _ _ (windows_ok_stack _ Ht) Hw) as Hk. fold (stack d) in Hk.
  assert (Hs : stack (closed d i w a) = delete i (stack d)) by exact (stack_with_table _ (top_shown (delete i (stack d))) d). split.
  - unfold closed. set (d1 := set_d_registry _ (set_d_apps a d)). apply settled_ready.
    assert (Hd1 : ready d1).
    { unfold d1. apply set_registry_ready; [by apply (apps_only_ready d); [exists a|]|by apply window_closed_ok|]. cbn. unfold window_closed. destruct (owner w) as [j|]; [|done].
      destruct (rd _ j) as [u|]; [|done]. by destruct (running u). }
    pose proof (with_table_ready _ _ d1 Hd1 Hk) as Hd2. destruct Hd2 as [[[Ht2 Hr2] [? ? ?] ? ? ?] ? ? ? ?]. split; [split; [split; [|done]|by split|done..]|done..].
    destruct Ht2 as [[? ? ?] ? ? ?]. split; [by split|done..].
  - intros j v' Hv'. rewrite Hs. change (d_registry (closed d i w a)) with (window_closed (owner w) (d_registry d)) in Hv'.
    destruct (rd (instances (d_registry d)) j) as [v|] eqn:Hv.
    + rewrite (registry_window_closed (owner w) _ j v Hr Hv) in Hv'. injection Hv' as <-. rewrite (owned_delete j i _ w Hw). specialize (Ha j v Hv). pose proof (owned_nonneg j (stack d)).
      pose proof (owned_delete j i _ w Hw) as Hod. pose proof (owned_nonneg j (delete i (stack d))).
      destruct (decide (owner w = Some j)) as [Ho|Ho]; [|by rewrite Z.sub_0_r]. destruct (running v) eqn:Hrun; [|rewrite Hrun; lia].
      cbn zeta. rewrite (proj2 (Z.ltb_lt 0 _)) by lia. destruct (Z.eqb_spec (inst_windows v - 1) 0) as [Hz|Hz]; [change (owned j (stack d) - 1 = 0); lia|].
      change (running (set_inst_windows (inst_windows v - 1) v)) with (running v). rewrite Hrun. change (inst_windows v - 1 = owned j (stack d) - 1). lia.
    + exfalso. pose proof (rd_inv _ _ _ Hv') as Hb. assert (Hl : lenZ (instances (window_closed (owner w) (d_registry d))) = lenZ (instances (d_registry d))).
      { unfold window_closed. destruct (owner w) as [k|]; [|done]. destruct (rd _ k) as [u|]; [|done]. destruct (running u); [|done]. unfold lenZ. cbn. by rewrite length_insert. }
      rewrite Hl in Hb. destruct (rd_Some _ _ Hb) as [x Hx]. congruence.
  - assert (Hcnt : ds_window_count (d_desktop (closed d i w a)) = lenZ (delete i (stack d))) by done. unfold focus_in. rewrite Hcnt.
    change (ds_focused_window_index (d_desktop (closed d i w a))) with (top_shown (delete i (stack d))). destruct (decide (delete i (stack d) = [])) as [->|Hne]; [by right|].
    left. apply top_shown_spec, Hne.
Qed.

(** *** Opening *)

Lemma accounted_opened d i v w : accounted d -> registry_ok (d_registry d) -> (length (stack d) < Z.to_nat DESKTOP_MAX_WINDOWS)%nat ->
  rd (instances (d_registry d)) i = Some v -> running v = true -> owner w = Some i ->
  forall j u, rd (instances (window_opened i v (d_registry d))) j = Some u ->
    if running u then inst_windows u = owned j (stack d ++ [w]) else owned j (stack d ++ [w]) = 0.
Proof.
  intros Ha Hr Hlen Hv Hrun Ho j u Hu. rewrite owned_app, owned_cons, Ho. change (owned j []) with 0. pose proof (rd_inv _ _ _ Hv) as Hb. unfold window_opened in Hu.
  destruct (decide (i = j)) as [<-|Hne].
  - rewrite decide_True by done. unfold rd in Hu. rewrite (proj2 (Z.leb_le 0 i)) in Hu by lia. cbn [instances set_instances] in Hu.
    rewrite list_lookup_insert_eq in Hu by (unfold lenZ in Hb; lia). injection Hu as <-. change (running (set_inst_windows (u32 (inst_windows v + 1)) v)) with (running v). rewrite Hrun.
    specialize (Ha i v Hv). rewrite Hrun in Ha. cbn [inst_windows set_inst_windows]. rewrite Ha. assert (Hm : owned i (stack d) <= lenZ (stack d)).
    { unfold owned, lenZ. pose proof (length_filter (fun w => owner w = Some i) (stack d)). lia. }
    pose proof (owned_nonneg i (stack d)). unfold lenZ, DESKTOP_MAX_WINDOWS in *. rewrite u32_small by lia. lia.
  - rewrite decide_False by congruence. rewrite Z.add_0_l, Z.add_0_r. apply Ha. unfold rd in *. destruct (0 <=? j) eqn:Hj; [|done]. cbn [instances set_instances] in Hu.
    rewrite list_lookup_insert_ne in Hu; [done|]. intros E. apply Hne. lia.
Qed.

Lemma topped_consistent d i v w : consistent d -> (length (stack d) < Z.to_nat DESKTOP_MAX_WINDOWS)%nat ->
  rd (instances (d_registry d)) i = Some v -> running v = true -> owner w = Some i -> window_ok w -> Forall (fun u => id u <> id w) (stack d) ->
  consistent (topped (stack d) w (set_d_registry (window_opened i v (d_registry d)) d)).
Proof.
  intros [Hd Ha Hf] Hlen Hv Hrun Ho Hw Hne. pose proof (dr_tables _ (rd_drawable _ Hd)) as [Ht Hr].
  pose proof (append_windows _ _ _ (windows_ok_stack _ Ht) Hlen Hw Hne) as Hk. fold (stack d) in Hk. set (d1 := set_d_registry _ d).
  assert (Hd1 : ready d1). { apply set_registry_ready; [done| |done]. apply registry_instances_ok; [done|]. exact (rd_Forall _ _ _ _ (ro_app _ Hr) Hv). }
  split.
  - apply settled_ready, with_table_ready; [done|]. apply (windows_ok_focus _ _ _ Hk), lenZ_nonneg.
  - intros j u Hu. assert (Hs : stack (topped (stack d) w d1) = stack d ++ [w]) by exact (stack_with_table _ (lenZ (stack d)) d1). rewrite Hs.
    exact (accounted_opened d i v w Ha Hr Hlen Hv Hrun Ho j u Hu).
  - left. change (lenZ (stack d) < lenZ (stack d ++ [w])). rewrite lenZ_app. change (lenZ [w]) with 1. lia.
Qed.

(** ** Runs *)

Inductive desk_op : Type :=
| Focus (p : Z) | Raise (p : Z) | Minimize (p : Z) | Maximize (p : Z) | Close (p : Z)
| Open (i : Z) (ttl : mem) (width height : Z) (data : option Z).
(** Pointers into the table and to instances, sizes that a screen can have. *)
Definition op_ok (op : desk_op) : Prop :=
  match op with
  | Focus p | Raise p | Minimize p | Maximize p | Close p => 0 <= p < DESKTOP_MAX_WINDOWS
  | Open i ttl width height _ => 0 <= i < DESKTOP_REGISTRY_MAX_INSTANCES /\ terminated ttl /\ 0 <= width <= 2 ^ 20 /\ 0 <= height <= 2 ^ 20
  end.

Section runs.
Context `{AppRender state} `{AppEvent state} `{AppClose state} {Hrenders : RenderLaws} {Hevents : EventLaws} {Hcloses : CloseLaws}.

Definition run_op (op : desk_op) : M state unit :=
  match op with
  | Focus p => desktop_focus_window (Some p)
  | Raise p => desktop_bring_to_front (Some p)
  | Minimize p => desktop_minimize_window (Some p)
  | Maximize p => desktop_toggle_maximize_window (Some p)
  | Close p => desktop_destroy_window (Some p)
  | Open i ttl width height data => desktop_open_app_instance_window local64 uptime_text (Some i) (Some ttl) width height data;; ret tt
  end.
Fixpoint run_ops (ops : list desk_op) : M state unit := match ops with [] => ret tt | op :: ops' => run_op op;; run_ops ops' end.

Context (uptime_len : lenZ uptime_text = 16).
Definition ids_upto (m : Z) d : Prop := Forall (fun w => id w <= m) (stack d).

(** An operation on a window, if the pointer leads to one. *)
Lemma pointer_step (f : option Z -> M state unit) d p m :
  consistent d -> ids_upto m d -> 0 <= p < DESKTOP_MAX_WINDOWS ->
  (forall v, rd (ds_windows (d_desktop d)) p = Some v -> ds_window_count (d_desktop d) <= index_of (id v) d -> f (Some p) d = Ret tt d []) ->
  (forall i w, stack d !! i = Some w -> exists d', f (Some (Z.of_nat i)) d = Ret tt d' [] /\ consistent d' /\ ids_upto m d') ->
  exists d', f (Some p) d = Ret tt d' [] /\ consistent d' /\ ids_upto m d'.
Proof using Type.
  intros Hc Hm Hp Habs Hwin. destruct (pointer_cases d p (tb_table _ (dr_tables _ (rd_drawable _ (cs_ready _ Hc)))) Hp) as [(i & w & -> & Hw)|[Hv Hi]]; [by apply (Hwin i w)|].
  exists d. split; [by apply (Habs zero_window)|done].
Qed.
Lemma ids_upto_Forall m l : Forall (fun w => id w <= m) l <-> Forall (fun x => x <= m) (id <$> l).
Proof using Type. by rewrite Forall_fmap. Qed.

Lemma ids_dropped m l f d : Forall (fun w => id w <= m) l -> ids_upto m (settled (upd (set_ds_drag_window_id 0) (with_table l f d))).
Proof using Type. intros Hl. unfold ids_upto. change (stack (settled (upd (set_ds_drag_window_id 0) (with_table l f d)))) with (stack (with_table l f d)). by rewrite stack_with_table. Qed.

Lemma highest_upto d m : 0 <= m -> ids_upto m d -> next_id d <= m + 1.
Proof using Type. intros Hm Hids. unfold next_id. pose proof (highest_bound (stack d) 0 (m + 1) ltac:(lia)). assert (highest (stack d) 0 < m + 1); [|lia]. apply highest_bound; [lia|]. eapply Forall_impl; [exact Hids|]. cbn. lia. Qed.

Lemma step_run op d m : consistent d -> ids_upto m d -> 0 <= m -> m + 1 < 2 ^ 32 -> op_ok op ->
  exists d', run_op op d = Ret tt d' [] /\ consistent d' /\ ids_upto (m + 1) d'.
Proof using All.
  intros Hc Hm Hm0 Hm1 Hop. pose proof Hc as [Hd Ha Hf]. pose proof (dr_tables _ (rd_drawable _ Hd)) as Htb. pose proof Htb as [Ht Hr].
  assert (Hm' : ids_upto (m + 1) d) by (eapply Forall_impl; [exact Hm|cbn; lia]). pose proof (windows_ok_stack _ Ht) as Hk0. fold (stack d) in Hk0.
  assert (Hins : forall i w v, stack d !! i = Some w -> window_ok v -> id v = id w -> owner v = owner w ->
    windows_ok (<[i := v]> (stack d)) 0 /\ (forall j, owned j (<[i := v]> (stack d)) = owned j (stack d)) /\ Forall (fun w => id w <= m + 1) (<[i := v]> (stack d))).
  { intros i w v Hw Hv Hid Ho. split; [|split].
    - apply (windows_ok_focus _ (ds_focused_window_index (d_desktop d))); [|done]. by apply (windows_ok_insert _ _ _ w).
    - intros j. by apply (owned_insert _ _ _ w).
    - apply Forall_insert; [exact Hm'|]. rewrite Hid. exact (Forall_lookup_1 _ _ _ _ Hm' Hw). }
  destruct op as [p|p|p|p|p|i ttl width height data]; cbn [run_op op_ok] in *.
  - apply pointer_step; [done|done|done|intros v Hv Hi; exact (focus_absent_run d p v Htb Hv Hi)|]. intros i w Hw. rewrite (focus_run d i w Htb Hw). eexists. split; [done|].
    destruct (Hins i w (unminimized w) Hw) as (Hk & Ho & Hi); [apply unminimized_ok, (stack_window_ok _ _ _ Ht Hw)|apply unminimized_id|apply unminimized_owner|].
    split; [|unfold ids_upto; by rewrite stack_settled, stack_with_table]. apply settled_consistent; [done|by apply (windows_ok_focus _ 0); [|lia]| |done|done].
    left. unfold lenZ. rewrite length_insert. apply lookup_lt_Some in Hw. lia.
  - apply pointer_step; [done|done|done|intros v Hv Hi; exact (front_absent_run d p v Htb Hv Hi)|]. intros i w Hw. rewrite (front_run d i w Htb Hw). eexists. split; [done|].
    pose proof (unminimized_ok _ (stack_window_ok _ _ _ Ht Hw)) as Hu.
    split.
    + apply settled_consistent; [done|by apply (raise_windows _ (ds_focused_window_index (d_desktop d)) i w); [|done|done|apply unminimized_id]| | |done].
      * left. unfold lenZ. rewrite (length_raise _ _ w _ Hw). lia.
      * intros j. apply (owned_raise _ _ _ w); [done|apply unminimized_owner].
    + unfold ids_upto. rewrite stack_settled, stack_with_table. unfold raise. apply Forall_app_2; [by apply Forall_delete|]. apply Forall_singleton. rewrite unminimized_id. exact (Forall_lookup_1 _ _ _ _ Hm' Hw).
  - apply pointer_step; [done|done|done|intros v Hv Hi; exact (minimize_absent_run d p v Htb Hv Hi)|]. intros i w Hw. rewrite (minimize_run d i w Htb Hw). eexists. split; [done|].
    destruct (Hins i w (minimized w) Hw) as (Hk & Ho & Hi); [apply minimized_ok, (stack_window_ok _ _ _ Ht Hw)|done|done|]. split; [|by apply ids_dropped].
    set (l := <[i := minimized w]> (stack d)) in *. set (d1 := upd (set_ds_drag_window_id 0) d).
    change (settled (upd (set_ds_drag_window_id 0) (with_table l (top_shown l) d))) with (settled (with_table l (top_shown l) d1)).
    assert (Hd1 : ready d1).
    { destruct Hd as [[[[[? ? ?] ? ? ?] ?] [? ? ?] ? ? ?] ? ? ? ?]. split; [split; [split; [split; [by split|done..]|done]|by split|done..]|done..]. }
    apply settled_consistent; [done|by apply (top_shown_ok _ 0)| |done|exact Ha].
    left. apply top_shown_spec. intros Hn. apply (f_equal length) in Hn. unfold l in Hn. rewrite length_insert in Hn. apply lookup_lt_Some in Hw. cbn in Hn. lia.
  - apply pointer_step; [done|done|done|intros v Hv Hi; exact (maximize_absent_run d p v (dr_screen _ (rd_drawable _ Hd)) Htb Hv Hi)|]. intros i w Hw.
    pose proof (dr_screen _ (rd_drawable _ Hd)) as Hsk. rewrite (maximize_run d i w Htb Hsk Hw). eexists. split; [done|].
    destruct (Hins i w (toggled d w) Hw) as (Hk & Ho & Hi); [by apply toggled_ok, (stack_window_ok _ _ _ Ht Hw)|unfold toggled; by destruct (is_maximized w)..|]. split; [|by apply ids_dropped].
    set (l := <[i := toggled d w]> (stack d)) in *. set (f := ds_focused_window_index (d_desktop d)). set (d1 := upd (set_ds_drag_window_id 0) d).
    change (settled (upd (set_ds_drag_window_id 0) (with_table l f d))) with (settled (with_table l f d1)).
    assert (Hd1 : ready d1).
    { destruct Hd as [[[[[? ? ?] ? ? ?] ?] [? ? ?] ? ? ?] ? ? ? ?]. split; [split; [split; [split; [by split|done..]|done]|by split|done..]|done..]. }
    apply settled_consistent; [done|by apply (windows_ok_focus _ 0); [|apply (to_focus _ Ht)]| |done|exact Ha].
    pose proof (length_stack _ Ht) as Hn. unfold focus_in in Hf. apply lookup_lt_Some in Hw as Hlt. left. unfold l, lenZ. rewrite length_insert. fold f in Hf. lia.
  - apply pointer_step; [done|done|done|intros v Hv Hi; exact (destroy_absent_run d p v Htb Hv Hi)|]. intros i w Hw. destruct (destroy_run d i w Hd Hw) as (a & E). eexists. split; [exact E|].
    split; [by apply closed_consistent|]. unfold ids_upto. change (stack (closed d i w a)) with (stack (with_table (delete i (stack d)) (top_shown (delete i (stack d))) d)). rewrite stack_with_table. by apply Forall_delete.
  - destruct Hop as (Hi & Httl & Hwd & Hht). pose proof (highest_upto d m Hm0 Hm) as Hid.
    destruct (get_instance_run _ i Hr Hi) as (v & Hv & Eg). pose proof (on_registry_pure _ d v Eg) as Eg1.
    assert (Hrefused : desktop_open_app_instance_window local64 uptime_text (Some i) (Some ttl) width height data d = Ret (-1) d [] ->
      exists d', (desktop_open_app_instance_window local64 uptime_text (Some i) (Some ttl) width height data;; ret tt) d = Ret tt d' [] /\ consistent d' /\ ids_upto (m + 1) d').
    { intros E. exists d. rewrite (bind_Ret_nil _ _ _ _ _ E). done. }
    destruct (running v) eqn:Hrun.
    2: { apply Hrefused. unfold desktop_open_app_instance_window. by rewrite (bind_Ret_nil _ _ _ _ _ Eg1), Hrun, bind_ret. }
    destruct (decide (rd ttl 0 = Some 0)) as [Hempty|Hne].
    { apply Hrefused. unfold desktop_open_app_instance_window. rewrite (bind_Ret_nil _ _ _ _ _ Eg1), Hrun. unfold missing, empty_string. rewrite Hempty.
      cbn [mbind option_bind]. by rewrite (bind_Ret_nil _ _ _ true d) by done. }
    assert (Htext : some_text ttl) by done. destruct (Z.lt_ge_cases (ds_window_count (d_desktop d)) DESKTOP_MAX_WINDOWS) as [Hlt|Hge].
    2: { apply Hrefused. unfold desktop_open_app_instance_window. rewrite (bind_Ret_nil _ _ _ _ _ Eg1), Hrun.
      rewrite (bind_Ret_nil _ _ _ _ _ (missing_run d ttl Htext)), (bind_Ret_nil _ _ _ _ _ (initialized_run local64 d Hd)). unfold var. rewrite bind_gets. cbn beta.
      by rewrite (proj2 (Z.leb_le _ _)). }
    destruct (open_instance_run local64 uptime_text uptime_len d i v ttl width height data Hd Hv Hrun Htext Hwd Hht Hlt ltac:(lia)) as (d' & E & R). exists d'.
    rewrite (bind_Ret_nil _ _ _ _ _ E). split; [done|]. destruct (placed_ok d width height ttl Ht ltac:(lia) Httl Hwd Hht) as [Hnew Hfresh].
    set (w := clamped_to d (owned_window i data (placed d width height ttl))) in *. pose proof (length_stack _ Ht) as Hn. unfold DESKTOP_MAX_WINDOWS in *.
    assert (Hw : window_ok w).
    { destruct Hnew as [? ? ? Hpl ?]. split; try done. apply (clamped_within d (owned_window i data (placed d width height ttl)) (dr_screen _ (rd_drawable _ Hd))); destruct Hpl as (_ & _ & ? & ?); done. }
    split.
    + refine (rendered_consistent _ _ _ R). apply topped_consistent; try done. unfold DESKTOP_MAX_WINDOWS. lia.
    + unfold ids_upto. destruct (re_desktop _ _ R) as (k & b & Hdd). assert (Hs : stack d' = stack d ++ [w]).
      { unfold stack at 1. rewrite Hdd. exact (stack_table (stack d ++ [w]) (lenZ (stack d)) (d_desktop d)). }
      rewrite Hs. apply Forall_app_2; [exact Hm'|]. apply Forall_singleton. exact Hid.
Qed.

Lemma runs_run ops : forall d m, consistent d -> ids_upto m d -> 0 <= m -> m + lenZ ops < 2 ^ 32 -> Forall op_ok ops ->
  exists d', run_ops ops d = Ret tt d' [] /\ consistent d' /\ ids_upto (m + lenZ ops) d'.
Proof using All.
  induction ops as [|op ops IH]; intros d m Hc Hm Hm0 Hlt Hops; cbn [run_ops].
  - exists d. split; [done|]. change (lenZ (@nil desk_op)) with 0. by rewrite Z.add_0_r.
  - apply Forall_cons in Hops as [Hop Hops]. rewrite lenZ_cons in *. pose proof (lenZ_nonneg ops). destruct (step_run op d m Hc Hm Hm0 ltac:(lia) Hop) as (d1 & E1 & Hc1 & Hm1).
    destruct (IH d1 (m + 1) Hc1 Hm1 ltac:(lia) ltac:(lia) Hops) as (d' & E' & Hc' & Hm'). exists d'. rewrite (bind_Ret_nil _ _ _ _ _ E1). split; [done|]. split; [done|].
    by replace (m + (lenZ ops + 1)) with (m + 1 + lenZ ops) by lia.
Qed.
End runs.
End ops.
