(* ===== verification/DesktopModal.v ===== *)
(** Alerts (src/src/desktop/desktop.c): what opens one, what it blocks while it
    is there, what closes it, and which window a click on its button is
    compared with. *)
From S2P Require Import Prelude LibString Klog Input BlockDevice BlockIO TinyFS Vfs FileTable Graphics Cursor Theme DesktopWindow DesktopInput Console Bus AppRegistry Taskbar Desktop DesktopRender DesktopTable DesktopView DesktopShell DesktopWindows DesktopOps.

Section modal.
Context {X D G C K A : Type} `{DiskDriver X} `{Hardware D} `{DisplayDriver G} `{OutputCapture C} `{KeyboardDriver K}.
Context (local64 : mem).
Abbreviation state := (desk X D G C K A).
Implicit Types d : state.

(** ** The button *)

(** The rectangle of the button in an alert. *)
Definition ok_left (w : desktop_window) : Z := win_x w + 8 + Z.quot (desktop_window_content_width (Some w) - 52) 2.
Definition ok_top (w : desktop_window) : Z := win_y w + 24 + desktop_window_content_height (Some w) - 26.
Definition on_ok (w : desktop_window) (x y : Z) : Prop := 0 <= ok_left w <= x /\ x < ok_left w + 52 /\ 0 <= ok_top w <= y /\ y < ok_top w + 16.
#[export] Instance on_ok_dec w x y : Decision (on_ok w x y).
Proof. unfold on_ok. apply _. Defined.

Lemma ok_hit_run d i w x y : tables_ok d -> stack d !! i = Some w -> 0 <= x < 2 ^ 31 -> 0 <= y < 2 ^ 31 ->
  desktop_alert_ok_hit_test (Some (Z.of_nat i)) x y d = Ret (bool_decide (on_ok w x y)) d [].
Proof.
  intros [Ht Hr] Hw Hx Hy. pose proof (stack_window_ok _ _ _ Ht Hw) as Hok. pose proof (content_bounds w Hok) as [Hcw Hch]. pose proof (wo_place _ Hok) as Hp.
  pose proof (within_wf w Hp) as Hwf. destruct Hp as (Hpx & Hpy & _ & _). unfold desktop_alert_ok_hit_test. rewrite (bind_Ret_nil _ _ _ _ _ (stack_get_run _ _ _ Ht Hw)).
  rewrite (bind_Ret_nil _ _ _ _ _ (content_x_run w d Hwf)), (bind_Ret_nil _ _ _ _ _ (content_y_run w d Hwf)). cbn zeta. rewrite !i32_small by lia.
  assert (Hq : - 2 ^ 20 <= Z.quot (desktop_window_content_width (Some w) - 52) 2 <= 2 ^ 20) by (Z.to_euclidean_division_equations; lia).
  rewrite !bind_signed by lia. fold (ok_left w). fold (ok_top w). assert (Hl : - 2 ^ 30 <= ok_left w <= 2 ^ 30) by (unfold ok_left; lia). assert (Htp : - 2 ^ 30 <= ok_top w <= 2 ^ 30) by (unfold ok_top; lia).
  clear Hok Hcw Hch Hpx Hpy Hwf Hq.
  assert (Hub : forall z, - 2 ^ 30 <= z <= 2 ^ 30 -> z < 0 /\ 2 ^ 31 <= u32 z \/ 0 <= z /\ u32 z = z).
  { intros z Hz. destruct (Z.lt_ge_cases z 0); [left; rewrite u32_neg by lia; lia|right; rewrite u32_small by lia; lia]. }
  destruct (Hub (ok_left w) Hl) as [[Hn Hu]|[Hn Hu]].
  { rewrite (proj2 (Z.ltb_lt x _)) by lia. rewrite bool_decide_eq_false_2 by (unfold on_ok; lia). done. }
  rewrite Hu. destruct (Z.ltb_spec x (ok_left w)); [by rewrite bool_decide_eq_false_2 by (unfold on_ok; lia)|]. rewrite bind_signed by lia. rewrite (u32_small (ok_left w + 52)) by lia.
  destruct (Z.ltb_spec x (ok_left w + 52)); cbn [negb orb]; [|by rewrite bool_decide_eq_false_2 by (unfold on_ok; lia)].
  destruct (Hub (ok_top w) Htp) as [[Hn' Hu']|[Hn' Hu']].
  { rewrite (proj2 (Z.leb_gt _ y)) by lia. cbn [negb]. by rewrite bool_decide_eq_false_2 by (unfold on_ok; lia). }
  rewrite Hu'. destruct (Z.leb_spec (ok_top w) y); cbn [negb]; [|by rewrite bool_decide_eq_false_2 by (unfold on_ok; lia)]. rewrite bind_signed by lia. rewrite u32_small by lia.
  unfold ret. f_equal. destruct (Z.ltb_spec y (ok_top w + 16)); [by rewrite bool_decide_eq_true_2 by (unfold on_ok; lia)|by rewrite bool_decide_eq_false_2 by (unfold on_ok; lia)].
Qed.

(** ** What an alert lets through *)

Definition modal_window d (i : nat) (w : desktop_window) : Prop := stack d !! i = Some w /\ id w = ds_modal_window_id (d_desktop d).

Lemma modal_lookup d i w : table_ok (d_desktop d) -> modal_window d i w ->
  desktop_find_window_by_id (ds_modal_window_id (d_desktop d)) d = Ret (Some (Z.of_nat i)) d [].
Proof.
  intros Ht [Hw Hid]. rewrite (find_run d _ Ht), <- Hid, (index_of_window d i w Ht Hw). pose proof (stack_bound _ _ _ Ht Hw). by rewrite (proj2 (Z.leb_gt _ _)) by lia.
Qed.
Lemma modal_nonzero d i w : table_ok (d_desktop d) -> modal_window d i w -> ds_modal_window_id (d_desktop d) <> 0.
Proof. intros Ht [Hw Hid]. pose proof (wo_id _ (stack_window_ok _ _ _ Ht Hw)). lia. Qed.

(** The keys and characters that close an alert. *)
Definition dismissing (ev : desktop_event) : bool :=
  ((ev_type ev =? DESKTOP_EVENT_KEY) && key_down ev && match event_keycode (data (ev_input ev)) with Some k => (k =? INPUT_KEY_ENTER) || (k =? INPUT_KEY_ESC) | None => false end)
  || ((ev_type ev =? DESKTOP_EVENT_CHAR) && ((character ev =? 10) || (character ev =? 13) || (character ev =? 27))).
(** Key events carry a key. *)
Definition event_ok (ev : desktop_event) : Prop := ev_type ev = DESKTOP_EVENT_KEY -> is_Some (event_keycode (data (ev_input ev))).

Definition dirtied d : state := upd (set_ds_dirty 1) d.
(** The alert comes to the front. *)
Definition raised d (i : nat) (w : desktop_window) : state := settled (with_table (raise i (unminimized w) (stack d)) (lenZ (stack d) - 1) d).

Lemma focus_raise_run d i w : tables_ok d -> stack d !! i = Some w ->
  (desktop_focus_window (Some (Z.of_nat i));; desktop_bring_to_front (Some (Z.of_nat i))) d = Ret tt (raised d i w) [].
Proof.
  intros Hok Hw. pose proof Hok as [Ht Hr]. rewrite (bind_Ret_nil _ _ _ _ _ (focus_run d i w Hok Hw)). pose proof (lookup_lt_Some _ _ _ Hw) as Hlt.
  set (l := <[i := unminimized w]> (stack d)). set (d1 := settled _).
  assert (Hk : windows_ok l (Z.of_nat i)) by (apply (windows_ok_focus _ (ds_focused_window_index (d_desktop d))); [apply unminimized_windows; [by apply windows_ok_stack|done]|lia]).
  assert (Hok1 : tables_ok d1) by (by apply settled_ok, with_table_ok). assert (Hs1 : stack d1 = l) by exact (stack_with_table l (Z.of_nat i) d).
  rewrite (front_run d1 i (unminimized w) Hok1) by (rewrite Hs1; by apply list_lookup_insert_eq). rewrite Hs1, unminimized_twice. unfold d1. rewrite settled_twice, with_table_twice.
  unfold raised. do 2 f_equal. assert (Hl : lenZ l = lenZ (stack d)) by (unfold lenZ, l; by rewrite length_insert). rewrite Hl. f_equal. unfold raise, l. f_equal.
  rewrite !delete_take_drop. by rewrite take_insert_ge, drop_insert_lt by lia.
Qed.
Lemma raised_ok d i w : tables_ok d -> stack d !! i = Some w -> tables_ok (raised d i w) /\ stack (raised d i w) = raise i (unminimized w) (stack d).
Proof.
  intros [Ht Hr] Hw. split; [|exact (stack_with_table _ (lenZ (stack d) - 1) d)]. apply settled_ok, with_table_ok; [|done].
  apply (raise_windows _ (ds_focused_window_index (d_desktop d)) i w); [by apply windows_ok_stack|done| |apply unminimized_id]. by apply unminimized_ok, (stack_window_ok d i).
Qed.

Lemma raised_focus d i w : tables_ok d -> stack d !! i = Some w -> focused_window (d_desktop (raised d i w)) = Some (unminimized w).
Proof.
  intros Hok Hw. unfold focused_window. fold (stack (raised d i w)). rewrite (proj2 (raised_ok d i w Hok Hw)). change (ds_focused_window_index (d_desktop (raised d i w))) with (lenZ (stack d) - 1).
  unfold raise. rewrite lookup_app_r; apply lookup_lt_Some in Hw as Hlt; unfold lenZ; rewrite (length_delete _ _ (mk_is_Some _ _ Hw)); [|lia].
  by replace (Z.to_nat (Z.of_nat (length (stack d)) - 1) - (length (stack d) - 1))%nat with 0%nat by lia.
Qed.

(** The entry that the pointer to the alert leads to when it has come to the
    front: the window that was above it. *)
Definition tested d (i : nat) (w : desktop_window) : desktop_window := default (unminimized w) (stack d !! S i).
Lemma tested_lookup d i w : tables_ok d -> stack d !! i = Some w -> stack (raised d i w) !! i = Some (tested d i w).
Proof.
  intros Hok Hw. rewrite (proj2 (raised_ok d i w Hok Hw)). unfold raise, tested. pose proof (lookup_lt_Some _ _ _ Hw) as Hlt. rewrite delete_take_drop, <- app_assoc.
  rewrite lookup_app_r by (rewrite length_take; lia). rewrite length_take, Nat.min_l, Nat.sub_diag by lia. destruct (stack d !! S i) as [u|] eqn:Hu.
  - by rewrite (drop_S _ _ _ Hu).
  - rewrite drop_ge by (by apply lookup_ge_None_1 in Hu). done.
Qed.

Lemma raised_modal d i w : ds_modal_window_id (d_desktop (raised d i w)) = ds_modal_window_id (d_desktop d).
Proof. done. Qed.
Lemma stack_modal v d : stack (upd (set_ds_modal_window_id v) d) = stack d.
Proof. done. Qed.
Lemma raised_ready d i w : ready d -> stack d !! i = Some w -> ready (raised d i w).
Proof.
  intros Hd Hw. pose proof (dr_tables _ (rd_drawable _ Hd)) as [Ht _]. apply settled_ready, with_table_ready; [done|].
  apply (raise_windows _ (ds_focused_window_index (d_desktop d)) i w); [by apply windows_ok_stack|done| |apply unminimized_id]. by apply unminimized_ok, (stack_window_ok d i).
Qed.

Section handling.
Context `{AppEvent state} `{AppClose state}.

Lemma modal_run ev d i w : tables_ok d -> modal_window d i w -> event_ok ev -> 0 <= ev_cursor_x ev < 2 ^ 31 -> 0 <= ev_cursor_y ev < 2 ^ 31 ->
  desktop_handle_modal_event ev d =
    if dismissing ev then (desktop_close_modal_window;; ret true) d
    else if ev_type ev =? DESKTOP_EVENT_BUTTON_DOWN then
      if bool_decide (on_ok (tested d i w) (ev_cursor_x ev) (ev_cursor_y ev)) then (desktop_close_modal_window;; ret true) (raised d i w)
      else Ret true (raised d i w) []
    else Ret true (if (ev_type ev =? DESKTOP_EVENT_REDRAW) || (ev_type ev =? DESKTOP_EVENT_BUTTON_UP) || (ev_type ev =? DESKTOP_EVENT_CURSOR_MOVE) then dirtied d else d) [].
Proof.
  intros Hok Hm Hev Hx Hy. pose proof Hok as [Ht Hr]. pose proof Hm as [Hw Hid]. unfold desktop_handle_modal_event, var. rewrite bind_gets. cbn beta. rewrite (bind_Ret_nil _ _ _ _ _ (modal_lookup d i w Ht Hm)).
  unfold dismissing. destruct (Z.eqb_spec (ev_type ev) DESKTOP_EVENT_REDRAW) as [->|Hredraw]; [done|].
  match goal with |- context [bind ?m _ d] => assert (Em : m d = Ret ((ev_type ev =? DESKTOP_EVENT_KEY) && key_down ev && match event_keycode (data (ev_input ev)) with Some k => (k =? INPUT_KEY_ENTER) || (k =? INPUT_KEY_ESC) | None => false end) d []) end.
  { destruct (Z.eqb_spec (ev_type ev) DESKTOP_EVENT_KEY) as [He|He]; cbn [andb]; [|done]. destruct (key_down ev); cbn [andb]; [|done]. destruct (Hev He) as [k Hk]. unfold keycode_of. rewrite Hk. done. }
  rewrite (bind_Ret_nil _ _ _ _ _ Em). destruct (_ && key_down ev && _); cbn [orb]; [done|]. destruct (_ && (_ || _ || _)); [done|].
  destruct (ev_type ev =? DESKTOP_EVENT_BUTTON_DOWN).
  - rewrite <- bind_assoc, (bind_Ret_nil _ _ _ _ _ (focus_raise_run d i w Hok Hw)).
    rewrite (bind_Ret_nil _ _ _ _ _ (ok_hit_run (raised d i w) i (tested d i w) _ _ (proj1 (raised_ok d i w Hok Hw)) (tested_lookup d i w Hok Hw) Hx Hy)).
    destruct (bool_decide _); done.
  - destruct (ev_type ev =? DESKTOP_EVENT_BUTTON_UP), (ev_type ev =? DESKTOP_EVENT_CURSOR_MOVE); done.
Qed.

Lemma event_run ev d i w : tables_ok d -> modal_window d i w -> event_ok ev -> 0 <= ev_cursor_x ev < 2 ^ 31 -> 0 <= ev_cursor_y ev < 2 ^ 31 ->
  forall `{AppStart state}, desktop_handle_event local64 ev d =
    if dismissing ev then desktop_close_modal_window d
    else if ev_type ev =? DESKTOP_EVENT_BUTTON_DOWN then
      if bool_decide (on_ok (tested d i w) (ev_cursor_x ev) (ev_cursor_y ev)) then desktop_close_modal_window (raised d i w) else Ret tt (raised d i w) []
    else Ret tt (if (ev_type ev =? DESKTOP_EVENT_REDRAW) || (ev_type ev =? DESKTOP_EVENT_BUTTON_UP) || (ev_type ev =? DESKTOP_EVENT_CURSOR_MOVE) then dirtied d else d) [].
Proof.
  intros Hok Hm Hev Hx Hy Hs. unfold desktop_handle_event, var. rewrite bind_gets. cbn beta. rewrite (proj2 (Z.eqb_neq _ 0)) by apply (modal_nonzero d i w (tb_table _ Hok) Hm).
  assert (Hclose : forall d0 (k : bool -> M state unit), (forall d1, k true d1 = Ret tt d1 []) -> bind (desktop_close_modal_window;; ret true) k d0 = desktop_close_modal_window d0).
  { intros d0 k Hk. rewrite bind_assoc. unfold bind, ret. destruct (desktop_close_modal_window d0) as [[] d1 o| |]; [|done|done]. rewrite Hk. by rewrite app_nil_r. }
  match goal with |- bind ?m ?k0 d = _ => set (k := k0); assert (Hk : forall d1, k true d1 = Ret tt d1 []) by (intros d1; reflexivity) end. clearbody k.
  unfold bind at 1. rewrite (modal_run ev d i w Hok Hm Hev Hx Hy). generalize (raised d i w). intros r. destruct (dismissing ev); [exact (Hclose d k Hk)|].
  destruct (_ =? DESKTOP_EVENT_BUTTON_DOWN); [|by rewrite Hk]. destruct (bool_decide _); [|by rewrite Hk]. exact (Hclose r k Hk).
Qed.

Context {Hevents : EventLaws} {Hcloses : CloseLaws}.
Lemma close_modal_run d i w : ready d -> modal_window d i w ->
  exists a, desktop_close_modal_window d = Ret tt (closed (upd (set_ds_modal_window_id 0) d) i w a) [].
Proof using All.
  intros Hd Hm. pose proof (dr_tables _ (rd_drawable _ Hd)) as [Ht Hr]. pose proof Hm as [Hw Hid]. unfold desktop_close_modal_window, var. rewrite bind_gets. cbn beta.
  rewrite (proj2 (Z.eqb_neq _ 0)) by apply (modal_nonzero d i w Ht Hm). rewrite (bind_Ret_nil _ _ _ _ _ (modal_lookup d i w Ht Hm)), (bind_Ret_nil _ _ _ _ _ (assign_run _ d)).
  assert (Hd1 : ready (upd (set_ds_modal_window_id 0) d)).
  { destruct Hd as [[[[[? ? ?] ? ? ?] ?] [? ? ?] ? ? ?] ? ? ? ?]. split; [split; [split; [split; [by split|done..]|done]|by split|done..]|done..]. }
  exact (destroy_run (upd (set_ds_modal_window_id 0) d) i w Hd1 Hw).
Qed.
End handling.

Lemma closed_stack d i w a : stack (closed d i w a) = delete i (stack d).
Proof. exact (stack_with_table _ (top_shown (delete i (stack d))) d). Qed.

(** ** Showing an alert *)

Lemma filled_run dest src t size : 0 < size < 2 ^ 20 -> lenZ dest = size -> cval src = Some t -> Forall (fun c => 0 <= c < 256) t ->
  exists r, strlcpy dest 0 src size = Some (r, lenZ t) /\ cval r = Some (take (Z.to_nat (size - 1)) t) /\ lenZ r = size /\ terminated r.
Proof.
  intros Hs Hl Ht Hb. destruct (cval_inv _ _ Ht) as (Hn & r0 & ->). set (k := take (Z.to_nat (size - 1)) t).
  assert (Hk : (length k <= Z.to_nat (size - 1))%nat) by (unfold k; rewrite length_take; lia). unfold lenZ in Hl.
  exists (splice dest 0 (k ++ [0])). split; [apply strlcpy_spec; unfold lenZ; [done|lia..]|].
  assert (Hc : cval (splice dest 0 (k ++ [0])) = Some k).
  { unfold splice. rewrite take_0. cbn [app]. rewrite <- app_assoc. apply cval_app. by apply no_nul_take. }
  assert (Hlen : lenZ (splice dest 0 (k ++ [0])) = size) by (unfold lenZ; rewrite length_splice; [lia|rewrite length_app; cbn; lia]).
  split; [done|]. split; [done|]. apply (terminated_app _ [] t _ Hc); [by apply Forall_nil|done|lia].
Qed.

(** The arrays of the alert. *)
Definition dialog_ok d : Prop := lenZ (dlg_title (d_alert_dialog d)) = DESKTOP_WINDOW_TITLE_MAX /\ lenZ (dlg_message (d_alert_dialog d)) = DESKTOP_DIALOG_MESSAGE_MAX.
Definition filled (dest src : mem) (size : Z) : mem := default dest (fst <$> strlcpy dest 0 src size).
(** The alert's state after a call. *)
Definition told d (ttl message : mem) : desktop_dialog_state :=
  Dialog (filled (dlg_title (d_alert_dialog d)) ttl DESKTOP_WINDOW_TITLE_MAX) (filled (dlg_message (d_alert_dialog d)) message DESKTOP_DIALOG_MESSAGE_MAX).
Definition centered d (w : desktop_window) : desktop_window :=
  clamped_to d (set_win_y (Z.max 0 (Z.quot (area_height d - win_height w) 2)) (set_win_x (Z.quot (area_width d - win_width w) 2) w)).
Definition alert_window d (ttl : mem) : desktop_window :=
  let n := new_window (next_id d) 0 0 DESKTOP_ALERT_WIDTH DESKTOP_ALERT_HEIGHT ttl in
  centered d (Window (id n) (win_x n) (win_y n) (win_width n) (win_height n) (Z.lor DESKTOP_WINDOW_FLAG_VISIBLE DESKTOP_WINDOW_FLAG_NO_CONTROLS)
    (restore_x n) (restore_y n) (restore_width n) (restore_height n) (title n) None (Some dialog_draw) None (Some alert_dialog)).

Lemma center_run d i w : shaped (d_desktop d) -> screen_ok d -> stack d !! i = Some w -> 0 <= win_width w <= 2 ^ 20 -> 0 <= win_height w <= 2 ^ 20 ->
  desktop_center_window (Some (Z.of_nat i)) d = Ret tt (with_table (<[i := centered d w]> (stack d)) (ds_focused_window_index (d_desktop d)) d) [].
Proof.
  intros Ht Hs Hw Hwd Hht. pose proof Hs as [Hfb Hsw Hsh]. unfold desktop_center_window, var. rewrite bind_gets. cbn beta. rewrite Hfb.
  rewrite (bind_Ret_nil _ _ _ _ _ (work_area_run d Hs)), (bind_Ret_nil _ _ _ _ _ (the_fb_run d Hs)), (bind_Ret_nil _ _ _ _ _ (stack_get_run d i w Ht Hw)).
  assert (Ha : 0 <= area_height d < 2 ^ 16) by (unfold area_height, DESKTOP_TASKBAR_HEIGHT; lia). rewrite !i32_small by lia. rewrite !bind_signed by lia. cbn zeta.
  set (y := Z.quot (area_height d - win_height w) 2). assert (Hy : - 2 ^ 20 <= y <= 2 ^ 16) by (unfold y; Z.to_euclidean_division_equations; lia).
  replace (if y <? 0 then 0 else y) with (Z.max 0 y) by (destruct (Z.ltb_spec y 0); lia).
  set (x := Z.quot (fb_width (d_display d) - win_width w) 2). assert (Hx : - 2 ^ 20 <= x <= 2 ^ 16) by (unfold x; Z.to_euclidean_division_equations; lia).
  set (v := set_win_y (Z.max 0 y) (set_win_x x w)). pose proof (lookup_lt_Some _ _ _ Hw) as Hlt.
  rewrite (bind_Ret_nil _ _ _ _ _ (put_stack_run d i v Ht Hlt)). set (f := ds_focused_window_index (d_desktop d)). set (d1 := with_table _ f d).
  assert (Hs1 : stack d1 = <[i := v]> (stack d)) by exact (stack_with_table _ f d).
  rewrite (clamp_window_run d1 i v).
  - rewrite Hs1, list_insert_insert_eq. done.
  - apply table_shaped. rewrite length_insert. pose proof (length_stack _ Ht). pose proof (to_count _ Ht). lia.
  - by split.
  - rewrite Hs1. by apply list_lookup_insert_eq.
  - split; cbn; lia.
Qed.

Lemma dialog_ready dlg d : ready d -> terminated (dlg_message dlg) -> ready (set_d_alert_dialog dlg d).
Proof. intros [[[Ht Hr] [? ? ?] ? ? ?] ? ? ? ?] Hm. split; [split; [by split|by split|done..]|done..]. Qed.

Lemma modal_id_set s : ds_modal_window_id s = 0 -> set_ds_modal_window_id 0 s = s.
Proof. intros <-. by destruct s. Qed.

(** What bringing up an alert changes besides the table. *)
Definition modal_shown d : state := upd (set_ds_launcher_open 0) (upd (set_ds_drag_window_id 0) d).
Lemma show_modal_run d l w : tables_ok d -> stack d = l ++ [w] -> is_plain w -> show_modal (Z.of_nat (length l)) d = Ret tt (modal_shown (topped l w d)) [].
Proof.
  intros Hok Hs Hw. unfold show_modal. rewrite <- bind_assoc, (bind_Ret_nil _ _ _ _ _ (focus_front_run d l w Hok Hs Hw)). done.
Qed.
Lemma stack_modal_shown d : stack (modal_shown d) = stack d.
Proof. done. Qed.
Lemma stack_topped l w d : stack (topped l w d) = l ++ [w].
Proof. exact (stack_with_table (l ++ [w]) (lenZ l) d). Qed.
Lemma modal_shown_ready d : ready d -> ready (modal_shown d).
Proof.
  intros [[[[[? ? ?] ? ? ?] ?] [? ? ?] ? ? ?] ? ? ? ?]. split; [split; [split; [split; [by split|done..]|done]|by split|done..]|done..].
Qed.

(** An alert opens at the top, in the middle, with the focus; from then on it
    is the modal window. *)
Lemma show_alert_run d ttl message : ready d -> dialog_ok d -> some_text ttl -> some_text message -> ds_modal_window_id (d_desktop d) = 0 ->
  ds_window_count (d_desktop d) < DESKTOP_MAX_WINDOWS -> next_id d < 2 ^ 32 ->
  exists d', desktop_show_alert local64 (Some ttl) (Some message) d = Ret 0 d' [] /\ ready d' /\
    stack d' = stack d ++ [alert_window d (dlg_title (told d ttl message))] /\ ds_focused_window_index (d_desktop d') = lenZ (stack d) /\
    ds_modal_window_id (d_desktop d') = next_id d /\ d_alert_dialog d' = told d ttl message /\ ds_launcher_open (d_desktop d') = 0 /\ ds_drag_window_id (d_desktop d') = 0 /\
    d_registry d' = d_registry d /\ ds_session (d_desktop d') = session_of (d_registry d') (d_desktop d') /\ d_console d' = d_console d /\ d_display d' = d_display d.
Proof.
  intros Hd [Hdt Hdm] Httl Hmsg Hmodal Hc Hid. pose proof (dr_tables _ (rd_drawable _ Hd)) as [Ht Hr]. pose proof (dr_screen _ (rd_drawable _ Hd)) as Hsk.
  unfold desktop_show_alert. rewrite (bind_Ret_nil _ _ _ _ _ (initialized_run local64 d Hd)), (bind_Ret_nil _ _ _ _ _ (missing_run d ttl Httl)), (bind_Ret_nil _ _ _ _ _ (missing_run d message Hmsg)).
  rewrite bind_gets. destruct (proj1 Httl) as (t & Htt & Htb & _), (proj1 Hmsg) as (m & Hmm & Hmb & _).
  destruct (filled_run _ ttl t DESKTOP_WINDOW_TITLE_MAX ltac:(done) Hdt Htt Htb) as (rt & Et & Hct & Hlt & Hokt). destruct (filled_run _ message m DESKTOP_DIALOG_MESSAGE_MAX ltac:(done) Hdm Hmm Hmb) as (rm & Em & Hcm & Hlm & Hokm).
  assert (Htold : told d ttl message = Dialog rt rm) by (unfold told, filled; by rewrite Et, Em). rewrite Htold. cbn [dlg_title].
  rewrite (bind_deref_Some _ _ _ _ Et), (bind_deref_Some _ _ _ _ Em), bind_modify. cbn [fst]. set (d0 := set_d_alert_dialog (Dialog rt rm) d).
  assert (Hd0 : ready d0) by by apply dialog_ready. unfold var. rewrite bind_gets. cbn beta. change (d_desktop d0) with (d_desktop d). rewrite Hmodal. cbn [Z.eqb]. rewrite bind_ret.
  rewrite (bind_Ret_nil _ _ _ _ _ (assign_run _ d0)). set (d1 := upd (set_ds_modal_window_id 0) d0).
  assert (Hd1e : d1 = d0) by (unfold d1, upd; rewrite (modal_id_set (d_desktop d0)) by exact Hmodal; done). rewrite Hd1e. clear d1 Hd1e.
  rewrite bind_gets. cbn beta. change (d_desktop d0) with (d_desktop d). rewrite (proj2 (Z.leb_gt _ _)) by lia.
  destruct (slot_run d0 rt (next_id d) 0 0 DESKTOP_ALERT_WIDTH DESKTOP_ALERT_HEIGHT Ht Hc Hokt) as (E1 & E2 & E3). change (next_id d0) with (next_id d) in E2. change (stack d0) with (stack d) in *.
  rewrite (bind_Ret_nil _ _ _ _ _ E1), (bind_Ret_nil _ _ _ _ _ (E2 Hid)), (bind_Ret_nil _ _ _ _ _ E3). set (f := ds_focused_window_index (d_desktop d0)).
  set (n := new_window (next_id d) 0 0 DESKTOP_ALERT_WIDTH DESKTOP_ALERT_HEIGHT rt). set (d2 := with_table (stack d ++ [n]) f d0).
  pose proof (length_stack _ Ht) as Hn. pose proof (to_count _ Ht) as Hcount. unfold DESKTOP_MAX_WINDOWS in *. set (k := length (stack d)) in *. change (lenZ (stack d)) with (Z.of_nat k).
  assert (Hsh : forall w, shaped (d_desktop (with_table (stack d ++ [w]) f d0))) by (intros; apply table_shaped; rewrite length_app; cbn; unfold DESKTOP_MAX_WINDOWS; lia).
  assert (Hlk : forall w, stack (with_table (stack d ++ [w]) f d0) !! k = Some w) by (intros; rewrite (stack_with_table _ f d0); by apply list_lookup_middle).
  assert (Hins : forall w v, <[k := v]> (stack d ++ [w]) = stack d ++ [v]) by (intros; rewrite insert_app_r_alt by (unfold k; lia); unfold k; by rewrite Nat.sub_diag).
  rewrite (bind_Ret_nil _ _ _ _ _ (stack_get_run d2 k n (Hsh n) (Hlk n))). unfold desktop_window_bind at 1. rewrite bind_ret, (bind_deref_Some _ _ _ _ eq_refl).
  match goal with |- context [put_window _ ?w] => set (b := w) end.
  rewrite (bind_Ret_nil _ _ _ _ _ (put_stack_run d2 k b (Hsh n) ltac:(unfold d2; rewrite (stack_with_table _ f d0), length_app; cbn; lia))). unfold d2. rewrite (stack_with_table _ f d0), Hins. rewrite with_table_twice, focus_with_table.
  rewrite (bind_Ret_nil _ _ _ _ _ (center_run (with_table (stack d ++ [b]) f d0) k b (Hsh b) ltac:(by destruct Hsk as [? ? ?]; split) (Hlk b) ltac:(done) ltac:(done))). rewrite (stack_with_table _ f d0), Hins, with_table_twice, focus_with_table.
  change (centered (with_table (stack d ++ [b]) f d0) b) with (alert_window d rt). set (w := alert_window d rt).
  rewrite (bind_Ret_nil _ _ _ _ _ (stack_get_run _ k w (Hsh w) (Hlk w))). rewrite (bind_Ret_nil _ _ _ _ _ (assign_run _ _)). set (d3 := upd (set_ds_modal_window_id (id w)) d0).
  change (upd (set_ds_modal_window_id (id w)) (with_table (stack d ++ [w]) f d0)) with (with_table (stack d ++ [w]) f d3).
  assert (Hd3 : ready d3). { destruct Hd0 as [[[[[? ? ?] ? ? ?] ?] [? ? ?] ? ? ?] ? ? ? ?]. split; [split; [split; [split; [by split|done..]|done]|by split|done..]|done..]. }
  pose proof (copied_ok DESKTOP_WINDOW_TITLE_MAX rt ltac:(done) Hokt) as [Hcl Hcok]. destruct (highest_ge (stack d) 0) as [Hpos Hall].
  assert (Hw : window_ok w).
  { split; [split; [exact Hcl|exact Hcok]|unfold w, alert_window, next_id in *; cbn; lia|done|refine (clamped_within d _ Hsk _ _); done|change (within 0 0 DESKTOP_ALERT_WIDTH DESKTOP_ALERT_HEIGHT); unfold within, DESKTOP_ALERT_WIDTH, DESKTOP_ALERT_HEIGHT; lia]. }
  assert (Hk : windows_ok (stack d ++ [w]) f).
  { apply append_windows; [by apply windows_ok_stack|unfold DESKTOP_MAX_WINDOWS; lia|done|]. eapply Forall_impl; [exact Hall|]. intros v Hv. cbn in *. unfold next_id. lia. }
  pose proof (with_table_ready _ _ d3 Hd3 Hk) as Hd4.
  set (d4 := with_table (stack d ++ [w]) f d3) in *. assert (Hs4 : stack d4 = stack d ++ [w]) by exact (stack_with_table _ f d3).
  pose proof (dr_tables _ (rd_drawable _ Hd4)) as Hok4. rewrite (bind_Ret_nil _ _ _ _ _ (show_modal_run d4 (stack d) w Hok4 Hs4 eq_refl)).
  assert (Hd5 : ready (topped (stack d) w d4)) by (apply settled_ready, with_table_ready; [done|]; apply (windows_ok_focus _ _ _ Hk), lenZ_nonneg).
  pose proof (modal_shown_ready _ Hd5) as Hd6. set (d6 := modal_shown _) in *. rewrite (bind_Ret_nil _ _ _ _ _ (refresh_run d6 (dr_tables _ (rd_drawable _ Hd6)))).
  exists (settled d6). split; [done|]. split; [by apply settled_ready|]. split; [by unfold d6; rewrite stack_settled, stack_modal_shown, stack_topped|]. done.
Qed.
End modal.
