(* ===== verification/DesktopSample.v ===== *)
(** A small desktop that the theorems on the desktop are applied to: a screen
    of 64 by 64 pixels, one application with a running instance and its window,
    one more window, applications that do nothing. *)
From S2P Require Import Prelude LibString Klog Input BlockDevice Ramdisk BlockIO ListDisk TinyFS Vfs FileTable Graphics Cursor Theme DesktopWindow DesktopInput Console ConsoleDisplay Bus AppRegistry Taskbar Desktop DesktopRender DesktopTable DesktopView DesktopShell DesktopWindows DesktopOps DesktopModal.

Abbreviation sample_desk := (desk list_disk Z panel (list Z) unit unit).

#[export] Instance idle_render : AppRender sample_desk := {| call_on_render _ _ _ := ret tt; call_draw _ _ _ := ret tt |}.
#[export] Instance idle_event : AppEvent sample_desk := {| call_on_event _ _ _ _ := ret tt; call_handle_event _ _ _ _ := ret tt |}.
#[export] Instance idle_close : AppClose sample_desk := {| call_on_close _ _ := ret tt |}.
#[export] Instance idle_start : AppStart sample_desk := {| call_on_start _ _ := ret 0 |}.
#[export] Instance idle_render_laws : RenderLaws (A := unit).
Proof. intros d _ p w _ _ d1 _ Hd1. split; intros; (eexists; split; [done|by apply drawn_refl]). Qed.
#[export] Instance idle_event_laws : EventLaws (A := unit).
Proof. split; intros; (eexists; split; [done|apply apps_only_refl]). Qed.
#[export] Instance idle_close_laws : CloseLaws (A := unit).
Proof. split; intros; (eexists; split; [done|apply apps_only_refl]). Qed.

Definition sample_local : mem := zeroes 64.
Definition sample_uptime : mem := zeroes 16.
Definition text_array (n : nat) (l : list Z) : mem := l ++ replicate (n - length l) 0.
Definition note_app : desktop_app := App (cstr "note") (cstr "Notes") None (Some 1) (Some 1) None.
Definition blank_app : desktop_app := App (cstr "") (cstr "") None None None None.
Definition sample_registry : registry :=
  Registry (note_app :: replicate 7 blank_app) 1 (Instance 1 1 1 (Some 0) None (zeroes 64) :: replicate 7 zero_instance) 2 1.
Definition sample_window (wid x y width height : Z) (o : option Z) : desktop_window :=
  Window wid x y width height DESKTOP_WINDOW_FLAG_VISIBLE x y width height (text_array 32 [87]) o None None None.
Definition window_1 : desktop_window := sample_window 1 2 2 40 30 (Some 0).
Definition window_2 : desktop_window := sample_window 2 8 8 40 30 None.
Definition desk_of (dialog : desktop_dialog_state) (f : framebuffer) (l : list desktop_window) (focus modal : Z) : sample_desk :=
  Desk (set_ds_modal_window_id modal (set_ds_initialized 1 (set_ds_fb true (table l focus zero_desktop)))) dialog sample_registry sample_theme f
    (CursorState None 0 0 0 0 (replicate 192 0) 0) cold_console (Timer 62500000 625000 0 0 0) tt.
Definition quiet_dialog : desktop_dialog_state := Dialog (zeroes DESKTOP_WINDOW_TITLE_MAX) (zeroes DESKTOP_DIALOG_MESSAGE_MAX).
Definition sample_screen : framebuffer := Framebuffer 64 64 256 4 FB_PIXEL_FORMAT_X8R8G8B8 (Some (replicate 4096 0)).
Definition sample_desktop : sample_desk := desk_of quiet_dialog sample_screen [window_1; window_2] 1 0.

Lemma cstr_terminated m t : cval m = Some t -> forallb (fun c => (0 <=? c) && (c <? 256)) t = true -> (lenZ t <? 2 ^ 20) = true -> terminated m.
Proof.
  intros Hm Hb Hl. exists t. split; [done|]. split; [|lia]. apply Forall_forall. intros c Hc. rewrite forallb_forall in Hb. specialize (Hb c (proj1 (list_elem_of_In _ _) Hc)). lia.
Qed.
Lemma sample_registry_ok : registry_ok sample_registry.
Proof.
  split; [done|done| |done|by repeat constructor].
  assert (Hb : terminated (app_name blank_app) /\ terminated (display_name blank_app)) by (split; by apply (cstr_terminated _ [])).
  constructor; [split; [by apply (cstr_terminated _ [110; 111; 116; 101])|by apply (cstr_terminated _ [78; 111; 116; 101; 115])]|repeat (constructor; [exact Hb|]); constructor].
Qed.
Lemma sample_window_ok wid x y width height o : 0 < wid < 2 ^ 32 -> within x y width height -> match o with Some i => 0 <= i < 8 | None => True end ->
  window_ok (sample_window wid x y width height o).
Proof. intros Hi Hw Ho. split; [split; [done|by apply (cstr_terminated _ [87])]|exact Hi|exact Ho|exact Hw|exact Hw]. Qed.

Lemma sample_windows_ok : windows_ok [window_1; window_2] 1.
Proof.
  split; [by apply leb_complete| |by apply (bool_decide_unpack _)|done].
  constructor; [|constructor; [|constructor]]; apply sample_window_ok; (done || (unfold within; lia)).
Qed.
Lemma desk_of_tables dialog f l focus modal : windows_ok l focus -> tables_ok (desk_of dialog f l focus modal).
Proof.
  intros Hk. pose proof (table_ok_intro l focus zero_desktop Hk) as Ht. split; [|exact sample_registry_ok]. destruct Ht as [[? ? ?] ? ? ?]. split; [by split|done..].
Qed.
Lemma sample_ready : ready sample_desktop.
Proof.
  split; [|done|done|by intros [? ?]|done]. split; [exact (desk_of_tables _ _ _ _ _ sample_windows_ok)|by split| |done|by apply (cstr_terminated _ [])].
  split; [done|done|done|done|]. eexists. split; [reflexivity|by vm_compute].
Qed.
Lemma sample_consistent : consistent sample_desktop.
Proof.
  split; [exact sample_ready| |by left]. intros i v Hi. pose proof (rd_inv _ _ _ Hi) as Hb. change (lenZ (instances (d_registry sample_desktop))) with 8 in Hb.
  assert (i = 0 \/ i = 1 \/ i = 2 \/ i = 3 \/ i = 4 \/ i = 5 \/ i = 6 \/ i = 7) as Hc by lia. repeat (destruct Hc as [-> | Hc]; [by injection Hi as <-|]). by subst; injection Hi as <-.
Qed.
Lemma sample_ids : ids_upto 2 sample_desktop.
Proof. repeat (constructor; [cbn; lia|]). constructor. Qed.

(** An alert in the middle of a screen of 640 by 480 pixels, shown before the
    editor's window was opened. *)
Definition blank_screen (w h : Z) : framebuffer := Framebuffer w h (4 * w) 4 FB_PIXEL_FORMAT_X8R8G8B8 (Some (replicate (Z.to_nat (w * h)) 0)).
Definition alert_below : desktop_window := sample_window 1 160 170 320 108 None.
Definition editor_above : desktop_window := sample_window 2 100 112 500 300 (Some 0).
Definition alerted_desktop : sample_desk := desk_of quiet_dialog (blank_screen 640 480) [alert_below; editor_above] 1 1.
Lemma blank_screen_wf w h : 0 <= w < 2 ^ 30 -> 0 <= h < 2 ^ 31 -> fb_wf (blank_screen w h).
Proof. intros Hw Hh. split; [done|exact Hw|exact Hh|done|]. eexists. split; [reflexivity|]. unfold lenZ. rewrite length_replicate. cbn. nia. Qed.
Lemma alerted_windows_ok : windows_ok [alert_below; editor_above] 1.
Proof.
  split; [by apply leb_complete| |by apply (bool_decide_unpack _)|done].
  constructor; [|constructor; [|constructor]]; apply sample_window_ok; (done || (unfold within; lia)).
Qed.
Lemma alerted_ready : ready alerted_desktop.
Proof.
  split; [|done|done|by intros [? ?]|done]. split; [exact (desk_of_tables _ _ _ _ _ alerted_windows_ok)|by split| |done|by apply (cstr_terminated _ [])].
  apply blank_screen_wf; lia.
Qed.

(** Events. *)
Definition key_event (k : Z) : desktop_event := DesktopEvent DESKTOP_EVENT_KEY (Event INPUT_EVENT_KEY 0 (Keycode k) 1 0) 0 0 0 0.
Definition press_event (x y : Z) : desktop_event := DesktopEvent DESKTOP_EVENT_BUTTON_DOWN (Event INPUT_EVENT_KEY 0 (Keycode 0) 1 0) 0 0 x y.
