(* ===== verification/DesktopLaws.v ===== *)
(** What the desktop promises: its windows and instances through any run of
    operations, closing, raising and opening a window, drawing, and alerts. *)
From S2P Require Import Prelude LibString Klog Input BlockDevice Ramdisk BlockIO ListDisk TinyFS Vfs FileTable Graphics Cursor Theme DesktopWindow DesktopInput Console ConsoleDisplay Bus AppRegistry Taskbar Desktop DesktopRender DesktopTable DesktopView DesktopShell DesktopWindows DesktopOps DesktopModal DesktopSample.

Section laws.
Context {X D G C K A : Type} `{DiskDriver X} `{Hardware D} `{DisplayDriver G} `{OutputCapture C} `{KeyboardDriver K}.
Context (local64 : mem) (uptime_text : mem).
Abbreviation state := (desk X D G C K A).
Implicit Types d : state.

(** The session as another part of the system is told it. *)
Definition session_current d : Prop := ds_session (d_desktop d) = session_of (d_registry d) (d_desktop d).

(** The focus is on the topmost window that can be seen, if there is one. *)
Definition focus_topmost d : Prop := stack d = [] \/ exists w, focused_window (d_desktop d) = Some w /\
  (is_shown w /\ (forall j v, (Z.to_nat (ds_focused_window_index (d_desktop d)) < j)%nat -> stack d !! j = Some v -> ~ is_shown v) \/ Forall (fun v => ~ is_shown v) (stack d)).
Lemma top_focus_topmost d l : stack d = l -> ds_focused_window_index (d_desktop d) = top_shown l -> focus_topmost d.
Proof.
  intros Hs Hf. destruct (decide (l = [])) as [->|Hne]; [by left|right]. unfold focused_window. fold (stack d). rewrite Hs, Hf. destruct (top_shown_spec l Hne) as [Hb [(w & Hw & Hsh & Habove)|[Hall Hlast]]].
  - exists w. split; [done|]. by left.
  - destruct (lookup_lt_is_Some_2 l (Z.to_nat (top_shown l)) ltac:(unfold lenZ in Hb; lia)) as [w Hw]. exists w. split; [done|]. by right.
Qed.

Section render.
Context `{AppRender state} (uptime_len : lenZ uptime_text = 16).

(** C30. Drawing the desktop always comes to an end when the drawing functions of
    the windows that are there do, keeping an invariant of what the
    applications keep, and draws: it changes the picture, the pointer, the
    timer's counter, what the applications keep, the count of frames and what
    is still to be drawn, and nothing else: the windows, the focus, the
    launcher, the alert, the session, the registry, the theme and the console
    are as they were. *)
Theorem desktop_render_total (Inv : A -> Prop) d : ready d -> Inv (d_apps d) -> windows_draw Inv d ->
  exists f c h a d', desktop_render local64 uptime_text d = Ret tt d' [] /\
    d' = set_d_desktop (set_ds_dirty 0 (set_ds_frame_counter (u32 (ds_frame_counter (d_desktop d) + 1)) (d_desktop d)))
           (set_d_cursor c (set_d_display f (set_d_timer (set_hardware h (d_timer d)) (set_d_apps a d)))) /\
    fb_width f = fb_width (d_display d) /\ fb_height f = fb_height (d_display d) /\ Inv a /\ ready d'.
Proof using All.
  intros Hd Hi Hw. destruct (render_run local64 uptime_text uptime_len Inv d Hd Hi Hw) as (f & c & h & a & E & [_ _ _ _ _ [Hfw Hfh] Hrd] & Ha).
  exists f, c, h, a, (pictured f c h a d). by split_and!.
Qed.
End render.

Section opening.
Context `{AppRender state} {Hrenders : RenderLaws} (uptime_len : lenZ uptime_text = 16).

(** An instance opens a window above all others, focused, with an id that no
    other window has, with its title bar within reach on the screen, and counted
    among the instance's windows.
    When the table is full nothing happens and the caller is told so. *)
Theorem desktop_open_window_spec d i v ttl width height data :
  ready d -> rd (instances (d_registry d)) i = Some v -> running v = true -> some_text ttl -> 0 <= width <= 2 ^ 20 -> 0 <= height <= 2 ^ 20 -> next_id d < 2 ^ 32 ->
  if decide (ds_window_count (d_desktop d) < DESKTOP_MAX_WINDOWS) then
    exists d' w, desktop_open_app_instance_window local64 uptime_text (Some i) (Some ttl) width height data d = Ret 0 d' [] /\
      stack d' = stack d ++ [w] /\ ds_focused_window_index (d_desktop d') = lenZ (stack d) /\
      Forall (fun u => id u <> id w) (stack d) /\ owner w = Some i /\ user_data w = data /\ win_width w = width /\ win_height w = height /\
      24 <= win_x w + width /\ win_x w + 24 <= area_width d /\ 0 <= win_y w /\ win_y w + 16 <= area_height d /\
      rd (instances (d_registry d')) i = Some (set_inst_windows (u32 (inst_windows v + 1)) v) /\ ready d'
  else desktop_open_app_instance_window local64 uptime_text (Some i) (Some ttl) width height data d = Ret (-1) d [].
Proof using All.
  intros Hd Hv Hrun Httl Hwd Hht Hid. pose proof (dr_tables _ (rd_drawable _ Hd)) as [Ht Hr]. destruct (decide _) as [Hlt|Hge].
  - destruct (open_instance_run local64 uptime_text uptime_len d i v ttl width height data Hd Hv Hrun Httl Hwd Hht Hlt Hid) as (d' & E & [(n & b & Hdd) Hreg _ _ _ _ Hrd]).
    set (w := clamped_to d (owned_window i data (placed d width height ttl))) in *. exists d', w. split; [exact E|].
    split; [unfold stack at 1; rewrite Hdd; exact (stack_table (stack d ++ [w]) (lenZ (stack d)) (d_desktop d))|]. split; [by rewrite Hdd|].
    split; [exact (proj2 (placed_ok d width height ttl Ht Hid (proj1 Httl) Hwd Hht))|]. do 4 (split; [done|]).
    pose proof (dr_screen _ (rd_drawable _ Hd)) as [_ Hsw Hsh]. unfold w, clamped_to, clamped, owned_window, placed, new_window, clamp, area_width, area_height, DESKTOP_TASKBAR_HEIGHT.
    cbn [win_x win_y win_width win_height set_win_x set_win_y set_win_owner set_win_user_data]. do 4 (split; [lia|]). split; [|done].
    rewrite Hreg. pose proof (rd_inv _ _ _ Hv) as Hb. unfold rd. rewrite (proj2 (Z.leb_le 0 i)) by lia. apply list_lookup_insert_eq. unfold lenZ in Hb. cbn. lia.
  - pose proof (rd_inv _ _ _ Hv) as Hb. rewrite (ro_instances _ Hr) in Hb. destruct (get_instance_run _ i Hr Hb) as (v' & Hv' & Eg). rewrite Hv in Hv'. injection Hv' as <-.
    unfold desktop_open_app_instance_window. rewrite (bind_Ret_nil _ _ _ _ _ (on_registry_pure _ d v Eg)), Hrun.
    rewrite (bind_Ret_nil _ _ _ _ _ (missing_run d ttl Httl)), (bind_Ret_nil _ _ _ _ _ (initialized_run local64 d Hd)). unfold var. rewrite bind_gets. cbn beta.
    by rewrite (proj2 (Z.leb_le _ _)) by lia.
Qed.
End opening.

(** The window that is brought to the front becomes the topmost, the others
    keep their order; it is shown if it was minimised, it has the focus, and
    the session says so. *)
Theorem desktop_bring_to_front_spec d i w : tables_ok d -> stack d !! i = Some w ->
  exists d', desktop_bring_to_front (Some (Z.of_nat i)) d = Ret tt d' [] /\ stack d' = delete i (stack d) ++ [unminimized w] /\
    focused_window (d_desktop d') = Some (unminimized w) /\ session_current d' /\ ds_dirty (d_desktop d') = 1 /\ d_registry d' = d_registry d /\ tables_ok d'.
Proof.
  intros Hok Hw. pose proof (proj1 (raised_ok d i w Hok Hw)) as Hok'. rewrite (front_run d i w Hok Hw). fold (raised d i w). exists (raised d i w). split; [done|].
  assert (Hs : stack (raised d i w) = raise i (unminimized w) (stack d)) by exact (proj2 (raised_ok d i w Hok Hw)). split; [exact Hs|]. split; [by apply raised_focus|done].
Qed.

Section handlers.
Context `{AppEvent state} `{AppClose state} {Hevents : EventLaws} {Hcloses : CloseLaws}.

(** C29. Closing a window takes it out of the stack and leaves the others as they
    are; the focus goes to the topmost window that can be seen; the instance
    that owned the window has one window less, and is stopped with its last. *)
Theorem desktop_destroy_window_spec d i w : ready d -> stack d !! i = Some w ->
  exists d', desktop_destroy_window (Some (Z.of_nat i)) d = Ret tt d' [] /\ stack d' = delete i (stack d) /\ focus_topmost d' /\
    (forall j v, rd (instances (d_registry d)) j = Some v -> running v = true -> 0 < inst_windows v ->
      rd (instances (d_registry d')) j =
        Some (if decide (owner w = Some j) then if inst_windows v =? 1 then zero_instance else set_inst_windows (inst_windows v - 1) v else v)) /\
    session_current d' /\ d_console d' = d_console d /\ d_display d' = d_display d.
Proof using Hevents Hcloses.
  intros Hd Hw. pose proof (dr_tables _ (rd_drawable _ Hd)) as [_ Hr]. destruct (destroy_run d i w Hd Hw) as (a & E). exists (closed d i w a). split; [exact E|].
  assert (Hs : stack (closed d i w a) = delete i (stack d)) by exact (stack_with_table _ (top_shown (delete i (stack d))) d). split; [exact Hs|].
  split; [exact (top_focus_topmost _ _ Hs eq_refl)|]. split; [|done]. intros j v Hv Hrun Hpos. change (d_registry (closed d i w a)) with (window_closed (owner w) (d_registry d)).
  rewrite (registry_window_closed (owner w) _ j v Hr Hv), Hrun, (proj2 (Z.ltb_lt 0 _)) by done. cbn zeta. destruct (decide _); [|done].
  destruct (Z.eqb_spec (inst_windows v) 1) as [E1|E1]; [by rewrite (proj2 (Z.eqb_eq _ 0)) by lia|by rewrite (proj2 (Z.eqb_neq _ 0)) by lia].
Qed.

Section runs.
Context `{AppRender state} {Hrenders : RenderLaws} (uptime_len : lenZ uptime_text = 16).

(** C19. No sequence of focusing, raising, minimising, maximising, closing and
    opening windows, with any pointers into the table, ever goes wrong: no
    access beyond an array, no arithmetic beyond its width, no string without
    an end. And whatever it was, every window of the table has its title in its
    array, a valid owner, coordinates in range and an id of its own, and what
    is behind the windows is blank. *)
Theorem desktop_well_typed ops d m : consistent d -> ids_upto m d -> 0 <= m -> m + lenZ ops < 2 ^ 32 -> Forall op_ok ops ->
  exists d', run_ops local64 uptime_text ops d = Ret tt d' [] /\ table_ok (d_desktop d') /\ registry_ok (d_registry d') /\ fb_wf (d_display d').
Proof using All.
  intros Hc Hm Hm0 Hlt Hops. destruct (runs_run local64 uptime_text uptime_len ops d m Hc Hm Hm0 Hlt Hops) as (d' & E & Hc' & _). exists d'. split; [exact E|].
  pose proof (rd_drawable _ (cs_ready _ Hc')) as Hd. destruct (dr_tables _ Hd) as [Ht Hr]. split; [exact Ht|]. split; [exact Hr|exact (dr_fb _ Hd)].
Qed.

(** C20. Through any such sequence, every running instance has counted exactly the
    windows it owns, an instance that does not run owns none, and the focus is
    on a window as long as there is one. *)
Theorem desktop_instances_accounted ops d m : consistent d -> ids_upto m d -> 0 <= m -> m + lenZ ops < 2 ^ 32 -> Forall op_ok ops ->
  exists d', run_ops local64 uptime_text ops d = Ret tt d' [] /\
    (forall i v, rd (instances (d_registry d')) i = Some v -> if running v then inst_windows v = owned i (stack d') else owned i (stack d') = 0) /\
    (ds_focused_window_index (d_desktop d') < ds_window_count (d_desktop d') \/ ds_window_count (d_desktop d') = 0).
Proof using All.
  intros Hc Hm Hm0 Hlt Hops. destruct (runs_run local64 uptime_text uptime_len ops d m Hc Hm Hm0 Hlt Hops) as (d' & E & [_ Ha Hf] & _). exists d'.
  split; [exact E|]. split; [exact Ha|exact Hf].
Qed.
End runs.
End handlers.
End laws.
