(* ===== verification/DesktopAlerts.v ===== *)
(** What holds of alerts, and the theorems of DesktopLaws and of this file at
    a small desktop. *)
From S2P Require Import Prelude LibString Klog Input BlockDevice Ramdisk BlockIO ListDisk TinyFS Vfs FileTable Graphics Cursor Theme DesktopWindow DesktopInput Editor EditorView Console ConsoleDisplay Bus AppRegistry Taskbar Desktop DesktopRender DesktopTable DesktopView DesktopShell DesktopWindows DesktopOps DesktopModal DesktopSample DesktopLaws.

Section alerts.
Context {X D G C K A : Type} `{DiskDriver X} `{Hardware D} `{DisplayDriver G} `{OutputCapture C} `{KeyboardDriver K}.
Context (local64 : mem).
Abbreviation state := (desk X D G C K A).
Implicit Types d : state.
Context `{AppStart state} `{AppEvent state} `{AppClose state}.

(** An event with coordinates on a screen. *)
Definition pointed (ev : desktop_event) : Prop := event_ok ev /\ 0 <= ev_cursor_x ev < 2 ^ 31 /\ 0 <= ev_cursor_y ev < 2 ^ 31.

(** C21. While an alert is there no event reaches an application, whatever the
    applications are: one that does not close the alert leaves the
    applications, the registry, the files, the console and the picture alone,
    and at most brings the alert to the front. *)
Theorem desktop_modal_blocks ev d i w : tables_ok d -> modal_window d i w -> pointed ev -> dismissing ev = false ->
  (ev_type ev = DESKTOP_EVENT_BUTTON_DOWN -> ~ on_ok (tested d i w) (ev_cursor_x ev) (ev_cursor_y ev)) ->
  exists d', desktop_handle_event local64 ev d = Ret tt d' [] /\
    d_apps d' = d_apps d /\ d_registry d' = d_registry d /\ d_theme d' = d_theme d /\ d_console d' = d_console d /\ d_display d' = d_display d /\
    ds_modal_window_id (d_desktop d') = ds_modal_window_id (d_desktop d) /\ tables_ok d' /\
    (if decide (ev_type ev = DESKTOP_EVENT_BUTTON_DOWN) then stack d' = delete i (stack d) ++ [unminimized w] /\ focused_window (d_desktop d') = Some (unminimized w)
     else stack d' = stack d /\ ds_focused_window_index (d_desktop d') = ds_focused_window_index (d_desktop d)).
Proof.
  intros Hok Hm (Hev & Hx & Hy) Hdis Hbut. rewrite (event_run local64 ev d i w Hok Hm Hev Hx Hy), Hdis. destruct (Z.eqb_spec (ev_type ev) DESKTOP_EVENT_BUTTON_DOWN) as [E|E].
  - rewrite bool_decide_eq_false_2 by auto. destruct (raised_ok d i w Hok (proj1 Hm)) as [Hok' Hs]. exists (raised d i w).
    do 7 (split; [done|]). split; [exact Hok'|]. rewrite decide_True by exact E. split; [exact Hs|]. exact (raised_focus d i w Hok (proj1 Hm)).
  - eexists. split; [done|]. rewrite decide_False by exact E. destruct (_ || _); [|done]. do 6 (split; [done|]). split; [|done].
    destruct Hok as [[[? ? ?] ? ? ?] ?]. split; [split; [by split|done..]|done].
Qed.

Context {Hevents : EventLaws} {Hcloses : CloseLaws}.

(** A click on the button of an alert is compared with the place of another
    window when there is one above the alert: the alert stays, and comes to the
    front. The same click once more closes it. *)
Theorem desktop_alert_click_missed ev d i w u : ready d -> modal_window d i w -> stack d !! S i = Some u -> pointed ev -> ev_type ev = DESKTOP_EVENT_BUTTON_DOWN ->
  on_ok (unminimized w) (ev_cursor_x ev) (ev_cursor_y ev) -> ~ on_ok u (ev_cursor_x ev) (ev_cursor_y ev) ->
  exists d1 d2, desktop_handle_event local64 ev d = Ret tt d1 [] /\ stack d1 = delete i (stack d) ++ [unminimized w] /\
      ds_modal_window_id (d_desktop d1) = ds_modal_window_id (d_desktop d) /\
    desktop_handle_event local64 ev d1 = Ret tt d2 [] /\ stack d2 = delete i (stack d) /\ ds_modal_window_id (d_desktop d2) = 0.
Proof using All.
  intros Hd Hm Hu (Hev & Hx & Hy) He Hon Hoff. pose proof (dr_tables _ (rd_drawable _ Hd)) as Hok. pose proof Hm as [Hw Hid].
  assert (Hdis : dismissing ev = false) by (unfold dismissing; rewrite He; done). assert (Ht : tested d i w = u) by (unfold tested; by rewrite Hu).
  destruct (raised_ok d i w Hok Hw) as [Hok1 Hs1]. set (d1 := raised d i w) in *. set (k := length (delete i (stack d))).
  assert (Hm1 : modal_window d1 k (unminimized w)) by (split; [rewrite Hs1; by apply list_lookup_middle|rewrite unminimized_id; exact Hid]).
  assert (Ht1 : tested d1 k (unminimized w) = unminimized w).
  { unfold tested. rewrite Hs1. unfold raise. rewrite lookup_ge_None_2; [apply unminimized_twice|]. rewrite length_app. cbn. unfold k. lia. }
  pose proof (raised_ready d i w Hd Hw : ready d1) as Hd1.
  pose proof (raised_ready d1 k (unminimized w) Hd1 (proj1 Hm1)) as Hd2. set (d2 := raised d1 k (unminimized w)) in *.
  assert (Hs2 : stack d2 = delete i (stack d) ++ [unminimized w]).
  { unfold d2. rewrite (proj2 (raised_ok d1 k _ Hok1 (proj1 Hm1))), Hs1. unfold raise. rewrite unminimized_twice. f_equal. unfold k. by rewrite delete_middle, app_nil_r. }
  assert (Hm2 : modal_window d2 k (unminimized w)) by (split; [rewrite Hs2; by apply list_lookup_middle|unfold d2; rewrite raised_modal; exact (proj2 Hm1)]).
  destruct (close_modal_run local64 d2 k (unminimized w) Hd2 Hm2) as (a & E). exists d1, (closed (upd (set_ds_modal_window_id 0) d2) k (unminimized w) a).
  rewrite (event_run local64 ev d i w Hok Hm Hev Hx Hy), Hdis, He, Z.eqb_refl, Ht, bool_decide_eq_false_2 by done. split; [done|]. split; [exact Hs1|]. split; [done|].
  rewrite (event_run local64 ev d1 k (unminimized w) Hok1 Hm1 Hev Hx Hy), Hdis, He, Z.eqb_refl, Ht1, bool_decide_eq_true_2 by done. split; [exact E|]. split; [|done].
  rewrite closed_stack, stack_modal, Hs2. unfold k. by rewrite delete_middle, app_nil_r.
Qed.
(** C22. An alert that is shown and then dismissed, by Enter or Escape, leaves the
    windows, the registry, the console and the picture as they were. In
    between it is the topmost window, with the focus, and carries its message,
    cut to its array. *)
Theorem desktop_alert_round_trip ev d ttl message t : ready d -> dialog_ok d -> some_text ttl -> some_text message -> cval message = Some t ->
  ds_modal_window_id (d_desktop d) = 0 -> ds_window_count (d_desktop d) < DESKTOP_MAX_WINDOWS -> next_id d < 2 ^ 32 -> pointed ev -> dismissing ev = true ->
  exists d1 d2 w, desktop_show_alert local64 (Some ttl) (Some message) d = Ret 0 d1 [] /\ stack d1 = stack d ++ [w] /\ focused_window (d_desktop d1) = Some w /\
      id w = ds_modal_window_id (d_desktop d1) /\ cval (dlg_message (d_alert_dialog d1)) = Some (take (Z.to_nat (DESKTOP_DIALOG_MESSAGE_MAX - 1)) t) /\
    desktop_handle_event local64 ev d1 = Ret tt d2 [] /\ stack d2 = stack d /\ ds_modal_window_id (d_desktop d2) = 0 /\
    d_registry d2 = d_registry d /\ d_console d2 = d_console d /\ d_display d2 = d_display d.
Proof using All.
  intros Hd Hdlg Httl Hmsg Hcv Hmodal Hc Hid (Hev & Hx & Hy) Hdis.
  destruct (show_alert_run local64 d ttl message Hd Hdlg Httl Hmsg Hmodal Hc Hid) as (d1 & E1 & Hd1 & Hs1 & Hf1 & Hmod1 & Hal1 & Hla1 & Hdr1 & Hreg1 & Hse1 & Hco1 & Hdi1).
  set (w := alert_window d (dlg_title (told d ttl message))) in *. pose proof (dr_tables _ (rd_drawable _ Hd1)) as Hok1.
  assert (Hm1 : modal_window d1 (length (stack d)) w) by (split; [rewrite Hs1; by apply list_lookup_middle|by rewrite Hmod1]).
  destruct (close_modal_run local64 d1 _ w Hd1 Hm1) as (a & E2). exists d1, (closed (upd (set_ds_modal_window_id 0) d1) (length (stack d)) w a), w.
  split; [exact E1|]. split; [exact Hs1|]. split; [unfold focused_window; fold (stack d1); rewrite Hf1, Hs1; unfold lenZ; rewrite Nat2Z.id; by apply list_lookup_middle|].
  split; [exact (proj2 Hm1)|]. split.
  { rewrite Hal1. unfold told, filled. cbn [dlg_message]. destruct (proj1 Hmsg) as (t' & Ht' & Hb & _). rewrite Hcv in Ht'. injection Ht' as <-.
    destruct (filled_run _ message t DESKTOP_DIALOG_MESSAGE_MAX ltac:(done) (proj2 Hdlg) Hcv Hb) as (r & E & Hr & _). by rewrite E. }
  rewrite (event_run local64 ev d1 _ w Hok1 Hm1 Hev Hx Hy), Hdis. split; [exact E2|]. split.
  { rewrite closed_stack, stack_modal, Hs1. by rewrite delete_middle, app_nil_r. }
  split; [done|]. split; [exact Hreg1|]. by split.
Qed.
End alerts.

(** ** At a small desktop *)

Lemma key_pointed k : pointed (key_event k).
Proof. split; [intros _; by eexists|split; cbn; lia]. Qed.
Lemma press_pointed x y : 0 <= x < 2 ^ 31 -> 0 <= y < 2 ^ 31 -> pointed (press_event x y).
Proof. intros Hx Hy. split; [intros E; discriminate E|split; [exact Hx|exact Hy]]. Qed.

Lemma desktop_modal_blocks_witness :
  exists d', desktop_handle_event sample_local (key_event 30) alerted_desktop = Ret tt d' [] /\ stack d' = [alert_below; editor_above].
Proof.
  destruct (desktop_modal_blocks sample_local (key_event 30) alerted_desktop 0 alert_below (dr_tables _ (rd_drawable _ alerted_ready)) (conj eq_refl eq_refl)
    (key_pointed _) eq_refl (fun E => ltac:(discriminate E))) as (d' & E & _ & _ & _ & _ & _ & _ & _ & Hs).
  exists d'. split; [exact E|exact (proj1 Hs)].
Defined.

Lemma desktop_alert_click_missed_witness :
  exists d1 d2, desktop_handle_event sample_local (press_event 300 250) alerted_desktop = Ret tt d1 [] /\ stack d1 = [editor_above; alert_below] /\
    desktop_handle_event sample_local (press_event 300 250) d1 = Ret tt d2 [] /\ stack d2 = [editor_above].
Proof.
  assert (Hon : on_ok (unminimized alert_below) 300 250) by (vm_compute; intuition discriminate).
  assert (Hoff : ~ on_ok editor_above 300 250) by (vm_compute; intuition discriminate).
  destruct (desktop_alert_click_missed sample_local (press_event 300 250) alerted_desktop 0 alert_below editor_above alerted_ready (conj eq_refl eq_refl) eq_refl
    (press_pointed 300 250 ltac:(lia) ltac:(lia)) eq_refl Hon Hoff) as (d1 & d2 & E1 & Hs1 & _ & E2 & Hs2 & _).
  exists d1, d2. split; [exact E1|]. split; [exact Hs1|]. split; [exact E2|exact Hs2].
Defined.

Lemma note_text : some_text (cstr "No room").
Proof. split; [by apply (cstr_terminated _ [78; 111; 32; 114; 111; 111; 109])|done]. Qed.
Lemma desktop_alert_round_trip_witness :
  exists d1 d2, desktop_show_alert sample_local (Some (cstr "No room")) (Some (cstr "No room")) sample_desktop = Ret 0 d1 [] /\
    desktop_handle_event sample_local (key_event INPUT_KEY_ENTER) d1 = Ret tt d2 [] /\ stack d2 = [window_1; window_2].
Proof.
  destruct (desktop_alert_round_trip sample_local (key_event INPUT_KEY_ENTER) sample_desktop (cstr "No room") (cstr "No room") [78; 111; 32; 114; 111; 111; 109]
    sample_ready (conj eq_refl eq_refl) note_text note_text eq_refl eq_refl eq_refl eq_refl (key_pointed _) eq_refl)
    as (d1 & d2 & w & E1 & _ & _ & _ & _ & E2 & Hs & _).
  exists d1, d2. split; [exact E1|]. split; [exact E2|exact Hs].
Defined.

(** A desktop with the window of an editor: what the applications keep is the
    states of the editors, and drawing a window is rendering its editor. *)
Abbreviation editor_desk := (desk list_disk Z panel (list Z) unit (list text_editor_state)).
#[export] Instance editor_render : AppRender editor_desk := {|
  call_on_render _ _ p := w <- get_window p;; l <- gets d_apps;; on_cv get_canvas put_canvas (DesktopWindow.on_canvas (text_editor_app_render None (Some w) l));
  call_draw _ _ _ := ret tt |}.
Definition editor_state_1 : text_editor_state := sample_editor [97; 98] [10; 99].
Definition editor_window_1 : desktop_window := set_win_user_data (Some 0) (sample_window 1 2 2 100 90 (Some 0)).
Definition editor_desktop : editor_desk :=
  Desk (set_ds_initialized 1 (set_ds_fb true (table [editor_window_1] 0 zero_desktop))) quiet_dialog sample_registry sample_theme sample_screen
    (CursorState None 0 0 0 0 (replicate 192 0) 0) cold_console (Timer 62500000 625000 0 0 0) [editor_state_1].

Lemma editor_ready : ready editor_desktop.
Proof.
  assert (Hk : windows_ok [editor_window_1] 0).
  { split; [by apply leb_complete| |by apply (bool_decide_unpack _)|done]. constructor; [|constructor].
    destruct (sample_window_ok 1 2 2 100 90 (Some 0)) as [? ? ? ? ?]; [done|unfold within; lia|done|]. by split. }
  pose proof (table_ok_intro [editor_window_1] 0 zero_desktop Hk) as Ht.
  split; [|done|done|by intros [? ?]|done]. split; [split; [|exact sample_registry_ok]|by split| |done|by apply (cstr_terminated _ [])].
  - destruct Ht as [[? ? ?] ? ? ?]. split; [by split|done..].
  - exact (dr_fb _ (rd_drawable _ sample_ready)).
Qed.

(** The editor draws its window, which is high enough for it, as long as the
    applications keep its state. *)
Lemma editor_draws : windows_draw (fun l => l = [editor_state_1]) editor_desktop.
Proof.
  intros p w Hw _ d (f & a & -> & Hsz & ->) [Hd _].
  assert (Hp : p = 0%nat /\ w = editor_window_1) by (destruct p as [|p]; [by injection Hw as <-|by destruct p]). destruct Hp as [-> ->].
  set (d1 := set_d_apps _ _) in *. assert (Hab : able (fun l => l = [editor_state_1]) d1) by done.
  split; [|intros g _ _; exists d1; split; [done|by apply drawn_refl]]. intros g i _. cbn [call_on_render editor_render].
  apply (redraws_run _ _ _ _ _ (stack_get_run d1 0 editor_window_1 (tb_table _ (dr_tables _ Hd)) eq_refl)), (redraws_run _ _ [editor_state_1] _ d1 eq_refl).
  assert (Hpaint : paints (fun s => s) (text_editor_app_render None (Some editor_window_1) [editor_state_1])).
  { apply (text_editor_render_total editor_window_1 [editor_state_1] 0 editor_state_1 [97; 98] [10; 99] None);
      [split; vm_compute; done|done|done|by apply sample_editor_holds| |split; vm_compute; congruence].
    split; [apply (bool_decide_unpack _); vm_compute; exact I| |]; exists []; done. }
  destruct Hpaint as [pic Hpic]. apply shows_redraws; [done|]. apply (shows_draws d1 (sk_fb _ (dr_screen _ Hd)) _ pic Hpic).
Qed.

Lemma desktop_render_total_witness :
  ready editor_desktop /\ exists d', desktop_render sample_local sample_uptime editor_desktop = Ret tt d' [] /\
    stack d' = [editor_window_1] /\ d_apps d' = [editor_state_1].
Proof.
  split; [exact editor_ready|].
  destruct (desktop_render_total sample_local sample_uptime eq_refl (fun l => l = [editor_state_1]) editor_desktop editor_ready eq_refl editor_draws)
    as (f & c & h & a & d' & E & Hd' & _ & _ & Ha & _).
  exists d'. split; [exact E|]. rewrite Hd'. split; [reflexivity|exact Ha].
Defined.

Lemma desktop_open_window_spec_witness : exists d' w,
  desktop_open_app_instance_window sample_local sample_uptime (Some 0) (Some (cstr "No room")) 30 20 None sample_desktop = Ret 0 d' [] /\ stack d' = [window_1; window_2; w] /\ owner w = Some 0.
Proof.
  pose proof (desktop_open_window_spec sample_local sample_uptime eq_refl sample_desktop 0 (Instance 1 1 1 (Some 0) None (zeroes 64)) (cstr "No room") 30 20 None
    sample_ready eq_refl eq_refl note_text ltac:(lia) ltac:(lia) eq_refl) as Hopen.
  rewrite decide_True in Hopen by done. destruct Hopen as (d' & w & E & Hs & _ & _ & Ho & _). exists d', w. split; [exact E|]. split; [exact Hs|exact Ho].
Defined.

Lemma desktop_bring_to_front_spec_witness : exists d', desktop_bring_to_front (Some 0) sample_desktop = Ret tt d' [] /\ stack d' = [window_2; window_1].
Proof.
  destruct (desktop_bring_to_front_spec sample_desktop 0 window_1 (dr_tables _ (rd_drawable _ sample_ready)) eq_refl) as (d' & E & Hs & _). exists d'. split; [exact E|exact Hs].
Defined.

Lemma desktop_destroy_window_spec_witness : exists d', desktop_destroy_window (Some 0) sample_desktop = Ret tt d' [] /\ stack d' = [window_2] /\
  rd (instances (d_registry d')) 0 = Some zero_instance.
Proof.
  destruct (desktop_destroy_window_spec sample_desktop 0 window_1 sample_ready eq_refl) as (d' & E & Hs & _ & Hi & _). exists d'. split; [exact E|]. split; [exact Hs|].
  rewrite (Hi 0 (Instance 1 1 1 (Some 0) None (zeroes 64)) eq_refl eq_refl eq_refl). by rewrite decide_True.
Defined.

Definition some_operations : list desk_op := [Focus 0; Maximize 1; Open 0 (cstr "No room") 30 20 None; Minimize 0; Close 0; Raise 7].
Lemma some_operations_ok : Forall op_ok some_operations.
Proof. repeat (constructor; [cbn; unfold DESKTOP_MAX_WINDOWS, DESKTOP_REGISTRY_MAX_INSTANCES; (lia || (split; [lia|]; split; [exact (proj1 note_text)|lia]))|]). constructor. Qed.
Lemma desktop_well_typed_witness : consistent sample_desktop /\
  exists d', run_ops sample_local sample_uptime some_operations sample_desktop = Ret tt d' [] /\ table_ok (d_desktop d').
Proof.
  split; [exact sample_consistent|]. destruct (desktop_well_typed sample_local sample_uptime eq_refl some_operations sample_desktop 2 sample_consistent sample_ids ltac:(lia) eq_refl some_operations_ok) as (d' & E & Ht & _).
  exists d'. split; [exact E|exact Ht].
Defined.
Lemma desktop_instances_accounted_witness : ids_upto 2 sample_desktop /\
  exists d', run_ops sample_local sample_uptime some_operations sample_desktop = Ret tt d' [] /\ focus_in d'.
Proof.
  split; [exact sample_ids|]. destruct (desktop_instances_accounted sample_local sample_uptime eq_refl some_operations sample_desktop 2 sample_consistent sample_ids ltac:(lia) eq_refl some_operations_ok) as (d' & E & _ & Hf).
  exists d'. split; [exact E|exact Hf].
Defined.
