(* ===== verification/Spinlock.v ===== *)
(** Spinlocks and the interrupt mask (src/src/kernel/spinlock.c): the functions
    as one processor runs them, and the instructions of [spin_lock] and
    [spin_unlock] as several processors take them in turn. *)
From S2P Require Import Prelude.

(** ** On one processor *)

(** The word of a lock, and the interrupt mask of the processor. *)
Record masked_lock : Type := MaskedLock { lock_value : Z; lock_daif : Z }.
Definition set_lock_value (v : Z) (s : masked_lock) : masked_lock := MaskedLock v (lock_daif s).
Definition set_lock_daif (v : Z) (s : masked_lock) : masked_lock := MaskedLock (lock_value s) v.

Definition sysreg_read_daif : M masked_lock Z := gets lock_daif.
Definition sysreg_write_daif (value : Z) : M masked_lock unit := modify (set_lock_daif value).
(** [msr DAIFSet, #2]: bit 7 masks interrupts. *)
Definition sysreg_set_daif_irq : M masked_lock unit := modify (fun s => set_lock_daif (Z.lor (lock_daif s) 0x80) s).

Definition irq_save : M masked_lock Z := flags <- sysreg_read_daif;; sysreg_set_daif_irq;; ret flags.
Definition irq_restore (flags : Z) : M masked_lock unit := sysreg_write_daif flags.

(** A lock that is held is never given back while its processor waits for it. *)
Definition spin_lock : M masked_lock unit := v <- gets lock_value;; if v =? 0 then modify (set_lock_value 1) else undef.
Definition spin_unlock : M masked_lock unit := modify (set_lock_value 0).
Definition spin_lock_irqsave : M masked_lock Z := flags <- irq_save;; spin_lock;; ret flags.
Definition spin_unlock_irqrestore (flags : Z) : M masked_lock unit := spin_unlock;; irq_restore flags.

(** ** On several processors *)

(** Where a processor is: outside; before [ldaxr]; between an [ldaxr] that read
    zero and its [stxr]; after the [stxr] that succeeded, until its [stlr]. *)
Inductive lock_place : Type := Outside | Loading | Storing | Holding.
#[export] Instance lock_place_eq_dec : EqDecision lock_place.
Proof. solve_decision. Defined.

(** The word of the lock, and of each processor its place and whether it has the
    exclusive monitor. *)
Record contention : Type := Contention { word : Z; lock_place_of : nat -> lock_place; monitor : nat -> bool }.

Definition at_place (i : nat) (p : lock_place) (f : nat -> lock_place) : nat -> lock_place := fun j => if decide (j = i) then p else f j.
Definition watching (i : nat) (b : bool) (f : nat -> bool) : nat -> bool := fun j => if decide (j = i) then b else f j.

(** A store to the word takes the monitor from everyone; [stxr] stores only with
    the monitor, and may fail even then. *)
Inductive lock_step : contention -> contention -> Prop :=
| StepEnter c i : lock_place_of c i = Outside -> lock_step c (Contention (word c) (at_place i Loading (lock_place_of c)) (monitor c))
| StepLdaxr c i : lock_place_of c i = Loading ->
    lock_step c (Contention (word c) (at_place i (if word c =? 0 then Storing else Loading) (lock_place_of c)) (watching i true (monitor c)))
| StepStxr c i : lock_place_of c i = Storing -> monitor c i = true ->
    lock_step c (Contention 1 (at_place i Holding (lock_place_of c)) (fun _ => false))
| StepStxrFails c i : lock_place_of c i = Storing ->
    lock_step c (Contention (word c) (at_place i Loading (lock_place_of c)) (watching i false (monitor c)))
| StepStlr c i : lock_place_of c i = Holding ->
    lock_step c (Contention 0 (at_place i Outside (lock_place_of c)) (fun _ => false)).

Definition nobody : contention := Contention 0 (fun _ => Outside) (fun _ => false).

(** The word says whether some processor holds the lock, which is one at most; a
    processor about to store with the monitor has read the word as it is. *)
Record lock_ok (c : contention) : Prop := {
  lo_free : word c = 0 -> forall i, lock_place_of c i <> Holding;
  lo_held : word c <> 0 -> exists i, lock_place_of c i = Holding /\ forall j, lock_place_of c j = Holding -> j = i;
  lo_monitor : forall i, lock_place_of c i = Storing -> monitor c i = true -> word c = 0
}.

Lemma at_place_eq i p f : at_place i p f i = p.
Proof. unfold at_place. by rewrite decide_True. Qed.
Lemma at_place_ne i j p f : j <> i -> at_place i p f j = f j.
Proof. intros Hne. unfold at_place. by rewrite decide_False. Qed.

(** A processor that neither holds the lock nor gets it leaves the holder. *)
Lemma lock_ok_moves c i p m : lock_ok c -> lock_place_of c i <> Holding -> p <> Holding ->
  (forall j, at_place i p (lock_place_of c) j = Storing -> m j = true -> word c = 0) ->
  lock_ok (Contention (word c) (at_place i p (lock_place_of c)) m).
Proof.
  intros [Hf Hh _] Hi Hp Hm. split; cbn [word lock_place_of monitor].
  - intros H0 j. destruct (decide (j = i)) as [->|Hne]; [by rewrite at_place_eq|]. rewrite at_place_ne by done. by apply Hf.
  - intros H1. destruct (Hh H1) as (k & Hk & Hu). assert (k <> i) by (intros ->; done). exists k. split; [by rewrite at_place_ne|].
    intros j. destruct (decide (j = i)) as [->|Hne]; [by rewrite at_place_eq|]. rewrite at_place_ne by done. apply Hu.
  - exact Hm.
Qed.

Lemma lock_step_ok c c' : lock_ok c -> lock_step c c' -> lock_ok c'.
Proof.
  intros Hok Hs. pose proof Hok as [Hf Hh Hmon]. destruct Hs as [c i Hi|c i Hi|c i Hi Hm|c i Hi|c i Hi].
  - apply lock_ok_moves; [done|by rewrite Hi|done|]. intros j. destruct (decide (j = i)) as [->|Hne]; [by rewrite at_place_eq|]. rewrite at_place_ne by done. apply Hmon.
  - apply lock_ok_moves; [done|by rewrite Hi|by destruct (_ =? 0)|]. intros j. unfold watching. destruct (decide (j = i)) as [->|Hne].
    + rewrite at_place_eq. destruct (Z.eqb_spec (word c) 0); done.
    + rewrite at_place_ne by done. apply Hmon.
  - pose proof (Hmon i Hi Hm) as H0. split; cbn [word lock_place_of monitor]; [done| |done]. intros _. exists i. split; [by rewrite at_place_eq|].
    intros j. destruct (decide (j = i)) as [->|Hne]; [done|]. rewrite at_place_ne by done. intros Hj. by destruct (Hf H0 j).
  - apply lock_ok_moves; [done|by rewrite Hi|done|]. intros j. unfold watching. destruct (decide (j = i)) as [->|Hne]; [done|].
    rewrite at_place_ne by done. apply Hmon.
  - split; cbn [word lock_place_of monitor]; [|done|done]. intros _ j. destruct (decide (j = i)) as [->|Hne]; [by rewrite at_place_eq|].
    rewrite at_place_ne by done. intros Hj. destruct (decide (word c = 0)) as [H0|H1]; [by apply (Hf H0 i)|].
    destruct (Hh H1) as (k & _ & Hu). apply Hne. by rewrite (Hu j Hj), (Hu i Hi).
Qed.

Lemma lock_reach_ok c : rtc lock_step nobody c -> lock_ok c.
Proof.
  intros Hr. remember nobody as c0 eqn:E. assert (Hok : lock_ok c0) by (subst; by split). clear E.
  induction Hr as [|c0 c1 c2 Hs _ IH]; [done|]. apply IH. by eapply lock_step_ok.
Qed.

(** C35. However the instructions of the processors interleave, at most one of them is
    between [spin_lock] and [spin_unlock], and while one is, the word is not zero,
    so that no other can pass. *)
Theorem spin_lock_excludes (c : contention) (i j : nat) (Hr : rtc lock_step nobody c)
  (Hi : lock_place_of c i = Holding) (Hj : lock_place_of c j = Holding) : i = j /\ word c <> 0.
Proof.
  destruct (lock_reach_ok c Hr) as [Hf Hh _]. assert (H1 : word c <> 0) by (intros H0; by apply (Hf H0 i)).
  destruct (Hh H1) as (k & _ & Hu). split; [|done]. by rewrite (Hu i Hi), (Hu j Hj).
Qed.

(** Processor 1 takes the lock while processor 0 has already read it. *)
Definition taken : contention :=
  Contention 1 (at_place 1 Holding (at_place 1 Storing (at_place 1 Loading (at_place 0 Storing (at_place 0 Loading (fun _ => Outside)))))) (fun _ => false).
Lemma taken_reachable : rtc lock_step nobody taken.
Proof.
  eapply rtc_l; [by apply (StepEnter nobody 0)|]. eapply rtc_l; [by apply (StepLdaxr _ 0)|]. eapply rtc_l; [by apply (StepEnter _ 1)|].
  eapply rtc_l; [by apply (StepLdaxr _ 1)|]. eapply rtc_l; [by apply (StepStxr _ 1)|]. apply rtc_refl.
Qed.
Lemma spin_lock_excludes_witness : rtc lock_step nobody taken /\ (1 = 1)%nat /\ word taken <> 0.
Proof. split; [exact taken_reachable|]. apply (spin_lock_excludes taken 1 1 taken_reachable); reflexivity. Defined.
