(* ===== verification/Initramfs.v ===== *)
(** The initial file image (src/src/kernel/initramfs.c): the table of the files
    of the image the kernel is linked with, the search of a name, and the format
    of docs/initramfs.md as its specification. *)
From S2P Require Import Prelude LibString Klog.

Definition INITRAMFS_MAGIC : mem := cstr "IRFS".
Definition INITRAMFS_MAX_FILES : Z := 16.
Definition HEADER_SIZE : Z := 12.
Definition ENTRY_SIZE : Z := 16.

(** A file designates its name and its data by their offsets in the image. *)
Record initramfs_file : Type := InitramfsFile { if_name : Z; if_data : Z; if_size : Z }.
Definition no_initramfs_file : initramfs_file := InitramfsFile 0 0 0.

Record initramfs : Type := Initramfs {
  initramfs_files : list initramfs_file;
  initramfs_count : Z;
  initramfs_ready : Z;
  initramfs_image : mem
}.

Definition set_initramfs_files v s : initramfs := Initramfs v (initramfs_count s) (initramfs_ready s) (initramfs_image s).
Definition set_initramfs_count v s : initramfs := Initramfs (initramfs_files s) v (initramfs_ready s) (initramfs_image s).
Definition set_initramfs_ready v s : initramfs := Initramfs (initramfs_files s) (initramfs_count s) v (initramfs_image s).

(** An [unsigned long] of the image; [None] is a read outside of it. *)
Definition le64 (m : mem) (off : Z) : option Z :=
  if (0 <=? off) && (off + 8 <=? lenZ m) then Some (u64 (foldr (fun b acc => b + 256 * acc) 0 (slice m (Z.to_nat off) 8))) else None.

Definition initramfs_align_up (value : Z) : Z := Z.land (u64 (value + 7)) (not64 7).

(** [(unsigned long)(image_end - cursor)]. *)
Definition bytes_left (image : mem) (cursor : Z) : Z := u64 (lenZ image - cursor).

Definition initramfs_entry (i cursor : Z) : M initramfs Z :=
  image <- gets initramfs_image;;
  if bytes_left image cursor <? ENTRY_SIZE then panic "initramfs truncated entry"
  else
    name_length <- deref (le64 image cursor);;
    data_length <- deref (le64 image (cursor + 8));;
    let name := u64 (cursor + ENTRY_SIZE) in
    if bytes_left image name <? name_length then panic "initramfs truncated name"
    else
      let data := u64 (name + initramfs_align_up name_length) in
      if bytes_left image data <? data_length then panic "initramfs truncated data"
      else
        files <- gets initramfs_files;;
        files1 <- deref (wr files i (InitramfsFile name data data_length));;
        modify (set_initramfs_files files1);;
        ret (u64 (data + initramfs_align_up data_length)).
Fixpoint initramfs_entries (n : nat) (i cursor : Z) : M initramfs unit :=
  match n with
  | O => ret tt
  | S n' => cursor1 <- initramfs_entry i cursor;; initramfs_entries n' (i + 1) cursor1
  end.

Definition initramfs_init : M initramfs unit :=
  ready <- gets initramfs_ready;;
  if negb (ready =? 0) then ret tt
  else
    image <- gets initramfs_image;;
    if bytes_left image 0 <? HEADER_SIZE then panic "initramfs image too small"
    else
      order <- deref (memcmp image INITRAMFS_MAGIC 4);;
      if negb (order =? 0) then panic "initramfs bad magic"
      else
        file_count <- deref (le64 image 4);;
        if INITRAMFS_MAX_FILES <? file_count then panic "initramfs too many files"
        else
          modify (set_initramfs_count file_count);;
          initramfs_entries (Z.to_nat file_count) 0 HEADER_SIZE;;
          modify (set_initramfs_ready 1);;
          count <- gets initramfs_count;;
          kprintf (nl "[INFO] initramfs: files=%u") [AUint (u32 count)].

Definition initramfs_file_count : M initramfs Z := gets initramfs_count.

Definition initramfs_list : M initramfs unit :=
  initramfs_init;;
  count <- gets initramfs_count;;
  for_range (Z.to_nat count) 0 (fun i =>
    files <- gets initramfs_files;;
    file <- deref (rd files i);;
    image <- gets initramfs_image;;
    kprintf (nl "%s (%u bytes)") [AStr (Some (drop (Z.to_nat (if_name file)) image)); AUint (u32 (if_size file))]).

Fixpoint initramfs_find_loop (n : nat) (i : Z) (name : mem) : M initramfs (option Z) :=
  match n with
  | O => ret None
  | S n' =>
      files <- gets initramfs_files;;
      file <- deref (rd files i);;
      image <- gets initramfs_image;;
      order <- deref (strcmp (drop (Z.to_nat (if_name file)) image) name);;
      if order =? 0 then ret (Some i) else initramfs_find_loop n' (i + 1) name
  end.
Definition initramfs_find (name : mem) : M initramfs (option Z) :=
  initramfs_init;;
  count <- gets initramfs_count;;
  initramfs_find_loop (Z.to_nat count) 0 name.

Definition initramfs_read (file : option initramfs_file) : option Z := if_data <$> file.

(** ** The format *)

Definition padded (bytes : mem) : mem := bytes ++ replicate (Z.to_nat ((- lenZ bytes) mod 8)) 0.
Definition pack_entry (file : mem * mem) : mem :=
  bytes64 (lenZ file.1 + 1) ++ bytes64 (lenZ file.2) ++ padded (file.1 ++ [0]) ++ padded file.2.
Definition pack (files : list (mem * mem)) : mem := lit "IRFS" ++ bytes64 (lenZ files) ++ concat (map pack_entry files).

(** [f] designates the file named [file.1] that holds [file.2]. *)
Definition designates (image : mem) (f : initramfs_file) (file : mem * mem) : Prop :=
  (exists rest, drop (Z.to_nat (if_name f)) image = file.1 ++ 0 :: rest) /\
  if_size f = lenZ file.2 /\ 0 <= if_data f /\ if_data f + if_size f <= lenZ image /\
  slice image (Z.to_nat (if_data f)) (Z.to_nat (if_size f)) = file.2.

(** ** Lemmas *)

Lemma bytes64_length v : length (bytes64 v) = 8%nat.
Proof. reflexivity. Qed.

Lemma foldr_bytes32 v acc : foldr (fun b acc => b + 256 * acc) acc (bytes32 v) = u32 v + 2 ^ 32 * acc.
Proof.
  pose proof (le32_bytes32 v) as E. unfold bytes32 in *. cbn [foldr] in *.
  assert (H : forall x, 0 <= u8 x < 256) by (intros x; apply (Z.mod_pos_bound x 256); lia).
  pose proof (H v). pose proof (H (Z.shiftr v 8)). pose proof (H (Z.shiftr v 16)). pose proof (H (Z.shiftr v 24)).
  rewrite u32_small in E by lia. lia.
Qed.

Lemma le64_at pre v post : 0 <= v < 2 ^ 64 -> le64 (pre ++ bytes64 v ++ post) (lenZ pre) = Some v.
Proof.
  intros Hv. unfold le64. pose proof (lenZ_nonneg pre). rewrite (proj2 (Z.leb_le 0 _)) by lia.
  rewrite (proj2 (Z.leb_le _ _)); [|rewrite !lenZ_app; pose proof (lenZ_nonneg post); change (lenZ (bytes64 v)) with 8; lia]. cbn [andb].
  unfold slice. rewrite drop_lenZ_app. rewrite (take_app_length' (bytes64 v) post 8) by done.
  unfold bytes64. rewrite foldr_app, !foldr_bytes32. f_equal. cbn [foldr]. rewrite Z.shiftr_div_pow2 by lia.
  unfold u64, u32. rewrite !Z.mod_mod by lia.
  assert (0 <= v / 2 ^ 32 < 2 ^ 32) by (split; [apply Z.div_pos; lia|apply Z.div_lt_upper_bound; lia]).
  rewrite (Z.mod_small (v / _)) by done. pose proof (Z.div_mod v (2 ^ 32) ltac:(lia)). rewrite Z.mod_small by lia. lia.
Qed.

Lemma align_up_eq n : 0 <= n < 2 ^ 63 -> initramfs_align_up n = n + (- n) mod 8.
Proof.
  intros Hn. unfold initramfs_align_up. rewrite u64_small by lia. change 7 with (2 ^ 3 - 1) at 2. rewrite land_not64 by lia.
  change (2 ^ 3) with 8. Z.div_mod_to_equations. lia.
Qed.

Lemma padded_length b : lenZ (padded b) = lenZ b + (- lenZ b) mod 8.
Proof.
  unfold padded. rewrite lenZ_app. f_equal. unfold lenZ at 1. rewrite length_replicate, Z2Nat.id; [done|].
  apply (Z.mod_pos_bound _ 8). lia.
Qed.

Lemma bytes_left_eq (image : mem) cursor : 0 <= cursor <= lenZ image -> lenZ image < 2 ^ 63 -> bytes_left image cursor = lenZ image - cursor.
Proof. intros Hc Hi. unfold bytes_left. apply u64_small. lia. Qed.

Lemma pack_entry_length n d : lenZ (pack_entry (n, d)) = 16 + lenZ (padded (n ++ [0])) + lenZ (padded d).
Proof. unfold pack_entry. cbn [fst snd]. rewrite !lenZ_app. change (lenZ (bytes64 _)) with 8. lia. Qed.

(** An entry of the format fills the next place of the table. *)
Lemma initramfs_entry_run s pre n d post tbl old rest :
  initramfs_image s = pre ++ pack_entry (n, d) ++ post -> lenZ (initramfs_image s) < 2 ^ 63 ->
  initramfs_files s = tbl ++ old :: rest ->
  exists f, initramfs_entry (lenZ tbl) (lenZ pre) s =
      Ret (lenZ (pre ++ pack_entry (n, d))) (set_initramfs_files (tbl ++ f :: rest) s) [] /\
    designates (initramfs_image s) f (n, d).
Proof.
  intros Himg Hsize Hfiles. set (image := initramfs_image s) in *.
  assert (Htotal : lenZ image = lenZ pre + (16 + lenZ (padded (n ++ [0])) + lenZ (padded d)) + lenZ post)
    by (rewrite Himg, !lenZ_app, pack_entry_length; lia).
  pose proof (padded_length (n ++ [0])) as Hpn. pose proof (padded_length d) as Hpd. rewrite lenZ_app in Hpn. change (lenZ [0]) with 1 in Hpn.
  pose proof (lenZ_nonneg pre). pose proof (lenZ_nonneg n). pose proof (lenZ_nonneg d). pose proof (lenZ_nonneg post).
  pose proof (Z.mod_pos_bound (- (lenZ n + 1)) 8 ltac:(lia)). pose proof (Z.mod_pos_bound (- lenZ d) 8 ltac:(lia)).
  set (name := lenZ pre + 16). set (data := name + lenZ (padded (n ++ [0]))).
  exists (InitramfsFile name data (lenZ d)). split.
  - unfold initramfs_entry. rewrite bind_gets. fold image. rewrite bytes_left_eq by lia. unfold ENTRY_SIZE.
    rewrite (proj2 (Z.ltb_ge _ _)) by lia.
    rewrite (bind_deref_Some _ (lenZ n + 1)); [|rewrite Himg; unfold pack_entry; cbn [fst snd]; rewrite <- !(assoc_L (++)); apply le64_at; lia].
    rewrite (bind_deref_Some _ (lenZ d)).
    2:{ rewrite Himg. unfold pack_entry. cbn [fst snd]. rewrite <- !(assoc_L (++)), (assoc_L (++) pre).
        replace (lenZ pre + 8) with (lenZ (pre ++ bytes64 (lenZ n + 1))) by (rewrite lenZ_app; done). apply le64_at. lia. }
    cbv zeta. rewrite (u64_small (lenZ pre + 16)) by lia. fold name. rewrite bytes_left_eq by lia. rewrite (proj2 (Z.ltb_ge _ _)) by lia.
    rewrite align_up_eq by lia. rewrite <- Hpn. rewrite u64_small by lia. fold data. rewrite bytes_left_eq by lia. rewrite (proj2 (Z.ltb_ge _ _)) by lia.
    rewrite bind_gets, Hfiles. rewrite (bind_deref_Some _ _ _ _ (wr_app tbl rest old _)). rewrite bind_modify. unfold ret.
    rewrite align_up_eq, <- Hpd, u64_small by lia. f_equal. rewrite lenZ_app, pack_entry_length. lia.
  - assert (Hd1 : drop (Z.to_nat name) image = (n ++ [0]) ++ replicate (Z.to_nat ((- lenZ (n ++ [0])) mod 8)) 0 ++ padded d ++ post).
    { replace image with ((pre ++ bytes64 (lenZ n + 1) ++ bytes64 (lenZ d)) ++ padded (n ++ [0]) ++ padded d ++ post)
        by (rewrite Himg; unfold pack_entry; cbn [fst snd]; by rewrite <- !(assoc_L (++))).
      replace name with (lenZ (pre ++ bytes64 (lenZ n + 1) ++ bytes64 (lenZ d))) by (rewrite !lenZ_app; unfold name; change (lenZ (bytes64 _)) with 8; lia).
      rewrite drop_lenZ_app. unfold padded at 1. by rewrite <- (assoc_L (++)). }
    split; cbn [if_name if_size if_data fst snd]; [|split; [done|split; [lia|split; [lia|]]]].
    + rewrite Hd1. rewrite <- !(assoc_L (++)). by eexists.
    + unfold slice. replace (drop (Z.to_nat data) image) with (padded d ++ post).
      * unfold padded. rewrite <- (assoc_L (++)). apply take_lenZ_app.
      * unfold data. rewrite Z2Nat.inj_add, <- drop_drop, Hd1 by lia. fold (padded (n ++ [0])). rewrite (assoc_L (++) (n ++ [0])).
        fold (padded (n ++ [0])). by rewrite drop_lenZ_app.
Qed.

Lemma initramfs_entries_run files s pre tbl rest :
  initramfs_image s = pre ++ concat (map pack_entry files) -> lenZ (initramfs_image s) < 2 ^ 63 ->
  initramfs_files s = tbl ++ rest -> (length files <= length rest)%nat ->
  exists new rest', initramfs_entries (length files) (lenZ tbl) (lenZ pre) s = Ret tt (set_initramfs_files (tbl ++ new ++ rest') s) [] /\
    Forall2 (designates (initramfs_image s)) new files.
Proof.
  revert s pre tbl rest. induction files as [|[n d] files IH]; intros s pre tbl rest Himg Hsize Hfiles Hroom.
  { exists [], rest. split; [|constructor]. cbn [initramfs_entries length app]. rewrite <- Hfiles. by destruct s. }
  cbn [map concat length] in *. destruct rest as [|old rest]; [cbn in Hroom; lia|]. cbn [initramfs_entries].
  destruct (initramfs_entry_run s pre n d _ tbl old rest Himg Hsize Hfiles) as (f & Hf & Hdes).
  rewrite (bind_Ret_nil _ _ _ _ _ Hf).
  replace (lenZ tbl + 1) with (lenZ (tbl ++ [f])) by (by rewrite lenZ_app).
  destruct (IH (set_initramfs_files (tbl ++ f :: rest) s) (pre ++ pack_entry (n, d)) (tbl ++ [f]) rest) as (new & rest' & Hr & Hnew).
  - cbn [initramfs_image set_initramfs_files]. by rewrite Himg, (assoc_L (++)).
  - done.
  - cbn [initramfs_files set_initramfs_files]. by rewrite <- (assoc_L (++)).
  - cbn in Hroom. lia.
  - exists (f :: new), rest'. rewrite Hr. split; [|by constructor]. by rewrite <- (assoc_L (++)).
Qed.

(** The table designates the files [files] of the image. *)
Definition holds_files (s : initramfs) (files : list (mem * mem)) : Prop :=
  initramfs_ready s = 1 /\ initramfs_count s = lenZ files /\
  exists new rest, initramfs_files s = new ++ rest /\ Forall2 (designates (initramfs_image s)) new files.

Definition at_boot (image : mem) : initramfs := Initramfs (replicate 16 no_initramfs_file) 0 0 image.

Lemma initramfs_init_run files :
  (length files <= 16)%nat -> lenZ (pack files) < 2 ^ 63 ->
  exists s o, initramfs_init (at_boot (pack files)) = Ret tt s o /\ holds_files s files /\ initramfs_image s = pack files.
Proof.
  intros Hn Hsize. unfold initramfs_init. rewrite bind_gets. cbn [initramfs_ready at_boot]. change (negb (0 =? 0)) with false. cbn iota.
  rewrite bind_gets. cbn [initramfs_image at_boot]. pose proof (lenZ_nonneg (pack files)).
  assert (Hlen : 12 <= lenZ (pack files)) by (unfold pack; rewrite !lenZ_app; pose proof (lenZ_nonneg (concat (map pack_entry files))); change (lenZ (lit "IRFS")) with 4; change (lenZ (bytes64 _)) with 8; lia).
  rewrite bytes_left_eq, (proj2 (Z.ltb_ge _ _)) by (unfold HEADER_SIZE; lia).
  rewrite (bind_deref_Some _ 0); [|reflexivity].
  change (negb (0 =? 0)) with false. cbn iota.
  rewrite (bind_deref_Some _ (lenZ files)); [|apply (le64_at (lit "IRFS") (lenZ files)); unfold lenZ; lia].
  unfold INITRAMFS_MAX_FILES. rewrite (proj2 (Z.ltb_ge _ _)) by (unfold lenZ; lia). rewrite bind_modify.
  set (s1 := set_initramfs_count (lenZ files) (at_boot (pack files))).
  destruct (initramfs_entries_run files s1 (lit "IRFS" ++ bytes64 (lenZ files)) [] (replicate 16 no_initramfs_file)) as (new & rest & Hr & Hnew);
    [unfold s1, pack; cbn [initramfs_image set_initramfs_count at_boot]; by rewrite (assoc_L (++))|done|done|by rewrite length_replicate|].
  change (lenZ (lit "IRFS" ++ bytes64 (lenZ files))) with HEADER_SIZE in Hr. change (lenZ []) with 0 in Hr.
  replace (Z.to_nat (lenZ files)) with (length files) by (unfold lenZ; lia).
  rewrite (bind_Ret_nil _ _ _ _ _ Hr), bind_modify, bind_gets.
  match goal with |- context [kprintf ?f ?a ?st] => destruct (kprintf_total f [ch "u"] a st) as [o Ho]; [done|kargs; apply u32_bound|] end.
  rewrite Ho. eexists _, o. split; [done|]. split; [|done]. split; [done|]. split; [done|]. by exists new, rest.
Qed.

Lemma find_loop_run files s name nm n i tbl rest :
  cval name = Some nm -> initramfs_files s = tbl ++ rest -> lenZ tbl = i ->
  forall new rest', rest = new ++ rest' -> Forall2 (designates (initramfs_image s)) new files -> Forall (fun f => no_nul f.1) files -> n = length files ->
  initramfs_find_loop n i name s = Ret ((fun p => i + Z.of_nat p.1) <$> list_find (fun f => f.1 = nm) files) s [].
Proof.
  intros Hname. revert s n i tbl rest. induction files as [|[fn fd] files IH]; intros s n i tbl rest Hfiles Hi new rest' -> Hnew Hnul ->.
  { apply Forall2_nil_inv_r in Hnew as ->. done. }
  apply Forall2_cons_inv_r in Hnew as (f & new' & Hf & Hnew & ->). apply Forall_cons in Hnul as [Hn Hnul].
  cbn [length initramfs_find_loop]. rewrite bind_gets, Hfiles. cbn [app]. rewrite (bind_deref_Some _ f) by (subst i; apply rd_at).
  rewrite bind_gets. destruct Hf as [[r Hr] _]. cbn [fst] in Hr, Hn. rewrite Hr.
  destruct (strcmp_eqb (fn ++ 0 :: r) name fn nm (cval_app fn r Hn) Hname) as (z & Hz & Heq).
  rewrite (bind_deref_Some _ _ _ _ Hz), Heq. cbn [list_find fst]. case_bool_decide as Hc; destruct (decide (fn = nm)) as [E|E]; try done.
  - unfold ret. cbn [fmap option_fmap option_map fst]. do 2 f_equal. lia.
  - rewrite (IH s _ (i + 1) (tbl ++ [f]) (new' ++ rest')) with (new := new') (rest' := rest'); try done.
    + f_equal. destruct (list_find _ files) as [[k x]|]; [|done]. cbn [fmap option_fmap option_map fst prod_map]. f_equal. lia.
    + by rewrite Hfiles, <- (assoc_L (++)).
    + rewrite lenZ_app. change (lenZ [f]) with 1. lia.
Qed.

(** C23. The image of the format with the files [files] is read back: [initramfs_init]
    returns, and [initramfs_find] returns, for the name of a file, the place of
    the first file of that name, whose data in the image is what was packed, and
    null for any other name. *)
Theorem initramfs_round_trip (files : list (mem * mem)) (name : mem) (nm : list Z)
  (Hn : (length files <= 16)%nat) (Hsize : lenZ (pack files) < 2 ^ 63)
  (Hnames : Forall (fun f => no_nul f.1) files) (Hname : cval name = Some nm) :
  exists s o, initramfs_init (at_boot (pack files)) = Ret tt s o /\ initramfs_count s = lenZ files /\
    initramfs_find name s = Ret ((fun p => Z.of_nat p.1) <$> list_find (fun f => f.1 = nm) files) s [] /\
    (forall i file, files !! i = Some file -> exists f, initramfs_files s !! i = Some f /\
       initramfs_read (Some f) = Some (if_data f) /\ slice (pack files) (Z.to_nat (if_data f)) (Z.to_nat (if_size f)) = file.2).
Proof.
  destruct (initramfs_init_run files Hn Hsize) as (s & o & Hr & (Hready & Hcount & new & rest & Hfiles & Hnew) & Himg).
  exists s, o. split; [exact Hr|]. split; [done|]. split.
  - unfold initramfs_find, initramfs_init. rewrite bind_assoc, bind_gets, Hready. change (negb (1 =? 0)) with true. cbn iota.
    rewrite bind_ret, bind_gets, Hcount. apply (find_loop_run files s name nm _ 0 [] (new ++ rest) Hname Hfiles eq_refl new rest eq_refl Hnew Hnames).
    unfold lenZ. lia.
  - intros i file Hi. apply Forall2_flip in Hnew. destruct (Forall2_lookup_l _ _ _ _ _ Hnew Hi) as (f & Hf & Hdes).
    exists f. split; [rewrite Hfiles; by apply lookup_app_l_Some|]. split; [done|]. destruct Hdes as (_ & _ & _ & _ & Hd). by rewrite <- Himg.
Qed.

(** An image of one file that ends right after its name, without the padding,
    and that declares [n] bytes of data. *)
Definition cut_image (n : Z) : mem := lit "IRFS" ++ bytes64 1 ++ bytes64 1 ++ bytes64 n ++ [0].

(** The check of the length of the data underflows when the padding of the name
    is missing: [initramfs_init] accepts [cut_image n] for any [n], and the file
    it records lies outside of the image. *)
Theorem initramfs_data_unchecked (n : Z) (Hn : 0 < n < 2 ^ 64 - 7) :
  exists s o f, initramfs_init (at_boot (cut_image n)) = Ret tt s o /\ initramfs_files s !! 0%nat = Some f /\
    if_size f = n /\ lenZ (cut_image n) < if_data f.
Proof.
  unfold initramfs_init. rewrite bind_gets. cbn [initramfs_ready at_boot]. change (negb (0 =? 0)) with false. cbn iota.
  rewrite bind_gets. cbn [initramfs_image at_boot].
  change (bytes_left (cut_image n) 0 <? HEADER_SIZE) with false. cbn iota.
  rewrite (bind_deref_Some _ 0) by reflexivity. change (negb (0 =? 0)) with false. cbn iota.
  rewrite (bind_deref_Some _ 1) by reflexivity. change (INITRAMFS_MAX_FILES <? 1) with false. cbn iota.
  rewrite bind_modify. change (Z.to_nat 1) with 1%nat. cbn [initramfs_entries].
  set (f := InitramfsFile 28 36 n).
  assert (He : initramfs_entry 0 HEADER_SIZE (set_initramfs_count 1 (at_boot (cut_image n))) =
    Ret (u64 (36 + initramfs_align_up n)) (set_initramfs_files (f :: replicate 15 no_initramfs_file) (set_initramfs_count 1 (at_boot (cut_image n)))) []).
  { unfold initramfs_entry. rewrite bind_gets. cbn [initramfs_image set_initramfs_count at_boot].
    change (bytes_left (cut_image n) HEADER_SIZE <? ENTRY_SIZE) with false. cbn iota.
    rewrite (bind_deref_Some _ 1) by reflexivity.
    rewrite (bind_deref_Some _ n) by (apply (le64_at (lit "IRFS" ++ bytes64 1 ++ bytes64 1)); lia). cbv zeta.
    change (u64 (HEADER_SIZE + ENTRY_SIZE)) with 28. change (bytes_left (cut_image n) 28 <? 1) with false. cbn iota.
    change (u64 (28 + initramfs_align_up 1)) with 36. change (bytes_left (cut_image n) 36) with (2 ^ 64 - 7).
    rewrite (proj2 (Z.ltb_ge _ _)) by lia. done. }
  rewrite bind_assoc, (bind_Ret_nil _ _ _ _ _ He), bind_ret, bind_modify, bind_gets.
  match goal with |- context [kprintf ?f ?a ?st] => destruct (kprintf_total f [ch "u"] a st) as [o Ho]; [done|kargs; apply u32_bound|] end.
  rewrite Ho. eexists _, o, f. split; [done|]. split; [done|]. by split.
Qed.

(** The files the kernel is built with (src/initramfs). *)
Definition boot_files : list (mem * mem) :=
  [(lit "hello.txt", lit (nl "hello from initramfs")); (lit "motd.txt", lit (nl "duck-os initramfs ready"))].

Lemma initramfs_round_trip_witness :
  exists s o, initramfs_init (at_boot (pack boot_files)) = Ret tt s o /\ initramfs_count s = lenZ boot_files /\
    initramfs_find (cstr "motd.txt") s = Ret ((fun p => Z.of_nat p.1) <$> list_find (fun f => f.1 = lit "motd.txt") boot_files) s [] /\
    (forall i file, boot_files !! i = Some file -> exists f, initramfs_files s !! i = Some f /\
       initramfs_read (Some f) = Some (if_data f) /\ slice (pack boot_files) (Z.to_nat (if_data f)) (Z.to_nat (if_size f)) = file.2).
Proof.
  apply (initramfs_round_trip boot_files (cstr "motd.txt") (lit "motd.txt")).
  - vm_compute. lia.
  - vm_compute. reflexivity.
  - repeat constructor; discriminate.
  - reflexivity.
Defined.

Lemma initramfs_data_unchecked_witness :
  exists s o f, initramfs_init (at_boot (cut_image 4096)) = Ret tt s o /\ initramfs_files s !! 0%nat = Some f /\
    if_size f = 4096 /\ lenZ (cut_image 4096) < if_data f.
Proof. apply (initramfs_data_unchecked 4096). lia. Defined.
