(* ===== verification/Pci.v ===== *)
(** The enumeration of PCI devices (src/src/drivers/pci.c) through the window of
    the configuration space. Against a configuration space that answers the same
    at every read, the table holds the first functions that are present, in the
    order of their numbers. *)
From S2P Require Import Prelude LibString Klog BlockDevice MMU Bus.

Definition PCI_MAX_DEVICES : Z := 64.
Definition PCI_MAX_FUNCTIONS : Z := 8.
Definition PCI_MAX_BARS : Z := 6.
Definition PCI_INVALID_VENDOR_ID : Z := 0xffff.
Definition PCI_HEADER_TYPE_MASK : Z := 0x7f.
Definition PCI_HEADER_TYPE_BRIDGE : Z := 0x01.
Definition PCI_HEADER_TYPE_MULTIFUNCTION : Z := 0x80.
Definition platform_get_pci_bus_start : Z := 0.
Definition platform_get_pci_bus_end : Z := 255.

Record pci_device_info : Type := PciDevice {
  pd_bus : Z;
  pd_device : Z;
  pd_function : Z;
  pd_vendor_id : Z;
  pd_device_id : Z;
  pd_class_code : Z;
  pd_subclass : Z;
  pd_prog_if : Z;
  pd_header_type : Z;
  pd_bar_count : Z;
  pd_bars : list Z
}.

Record pci (D : Type) : Type := Pci {
  pci_devices : list pci_device_info;
  pci_devices_found : Z;
  pci_initialized : Z;
  pci_bus : D
}.
Arguments Pci {D}.
Arguments pci_devices {D}.
Arguments pci_devices_found {D}.
Arguments pci_initialized {D}.
Arguments pci_bus {D}.

Definition pci_config_address (bus device function offset : Z) : Z :=
  u64 (u64 (u64 (u64 (platform_get_pci_ecam_base + u64 (Z.shiftl bus 20)) + u64 (Z.shiftl device 15)) + u64 (Z.shiftl function 12)) + offset).

Definition pci_class_name (class_code subclass : Z) : string :=
  if (class_code =? 0x01) && (subclass =? 0x06) then "SATA controller"
  else if class_code =? 0x02 then "Network controller"
  else if class_code =? 0x03 then "Display controller"
  else if (class_code =? 0x06) && (subclass =? 0x00) then "Host bridge"
  else if (class_code =? 0x06) && (subclass =? 0x04) then "PCI bridge"
  else if (class_code =? 0x0c) && (subclass =? 0x03) then "USB controller"
  else "Unknown".

Definition pci_available : bool :=
  negb (platform_get_pci_ecam_base =? 0) && negb (platform_get_pci_ecam_size =? 0) && (platform_get_pci_bus_start <=? platform_get_pci_bus_end).

Section pci.
Context {D : Type} `{Hardware D}.
Abbreviation state := (pci D).
Implicit Types s : state.

Definition set_pci_devices v s : state := Pci v (pci_devices_found s) (pci_initialized s) (pci_bus s).
Definition set_pci_devices_found v s : state := Pci (pci_devices s) v (pci_initialized s) (pci_bus s).
Definition set_pci_initialized v s : state := Pci (pci_devices s) (pci_devices_found s) v (pci_bus s).
Definition set_pci_bus v s : state := Pci (pci_devices s) (pci_devices_found s) (pci_initialized s) v.

Definition pci_read_config32 (bus device function offset : Z) : M state Z :=
  zoom pci_bus set_pci_bus (read32 (pci_config_address bus device function offset)).
Definition pci_read_vendor_id (bus device function : Z) : M state Z :=
  v <- pci_read_config32 bus device function 0;; ret (Z.land v 0xffff).

(** A 64-bit register: its upper half is the next one. *)
Definition wide_bar (value bar_index bar_limit : Z) : bool :=
  (Z.land value 0x01 =? 0) && (Z.land value 0x06 =? 0x04) && (u32 (bar_index + 1) <? bar_limit).
Fixpoint bar_loop (fuel : nat) (bus device function bar_index bar_limit : Z) (bars : list Z) : M state (list Z) :=
  if negb (bar_index <? bar_limit) then ret bars
  else
    match fuel with
    | O => undef
    | S fuel' =>
        let config_offset := u32 (0x10 + u32 (bar_index * 4)) in
        value <- pci_read_config32 bus device function config_offset;;
        bars1 <- deref (wr bars bar_index value);;
        if wide_bar value bar_index bar_limit then
          upper <- pci_read_config32 bus device function (u32 (config_offset + 4));;
          bars2 <- deref (wr bars1 bar_index (Z.lor value (u64 (Z.shiftl upper 32))));;
          bars3 <- deref (wr bars2 (u32 (bar_index + 1)) 0);;
          bar_loop fuel' bus device function (u32 (bar_index + 2)) bar_limit bars3
        else bar_loop fuel' bus device function (u32 (bar_index + 1)) bar_limit bars1
    end.

Definition pci_store_device (bus device function : Z) : M state unit :=
  found <- gets pci_devices_found;;
  if PCI_MAX_DEVICES <=? found then ret tt
  else
    table <- gets pci_devices;;
    old <- deref (rd table found);;
    id <- pci_read_config32 bus device function 0x00;;
    class_reg <- pci_read_config32 bus device function 0x08;;
    header_reg <- pci_read_config32 bus device function 0x0c;;
    let header_type := Z.land (Z.shiftr header_reg 16) 0xff in
    let bar_limit := if Z.land header_type PCI_HEADER_TYPE_MASK =? PCI_HEADER_TYPE_BRIDGE then 2 else PCI_MAX_BARS in
    bars <- bar_loop (Z.to_nat PCI_MAX_BARS) bus device function 0 bar_limit (pd_bars old);;
    let info := PciDevice bus device function (Z.land id 0xffff) (Z.land (Z.shiftr id 16) 0xffff)
      (Z.land (Z.shiftr class_reg 24) 0xff) (Z.land (Z.shiftr class_reg 16) 0xff) (Z.land (Z.shiftr class_reg 8) 0xff) header_type bar_limit bars in
    table1 <- deref (wr table found info);;
    modify (set_pci_devices table1);;
    modify (set_pci_devices_found (u32 (found + 1))).

Definition probe_function (bus device function : Z) : M state unit :=
  vendor <- pci_read_vendor_id bus device function;;
  if vendor =? PCI_INVALID_VENDOR_ID then ret tt else pci_store_device bus device function.
Definition probe_device (bus device : Z) : M state unit :=
  vendor <- pci_read_vendor_id bus device 0;;
  if vendor =? PCI_INVALID_VENDOR_ID then ret tt
  else
    header <- pci_read_config32 bus device 0 0x0c;;
    let header_type := Z.land (Z.shiftr header 16) 0xff in
    let function_limit := if negb (Z.land header_type PCI_HEADER_TYPE_MULTIFUNCTION =? 0) then PCI_MAX_FUNCTIONS else 1 in
    for_range (Z.to_nat function_limit) 0 (probe_function bus device).

Definition pci_init : M state unit :=
  initialized <- gets pci_initialized;;
  if negb (initialized =? 0) then ret tt
  else
    modify (set_pci_initialized 1);;
    modify (set_pci_devices_found 0);;
    if negb pci_available then kprintf (nl "[INFO] pci: unavailable") []
    else
      for_range (Z.to_nat (platform_get_pci_bus_end - platform_get_pci_bus_start + 1)) platform_get_pci_bus_start (fun bus =>
        for_range 32 0 (probe_device bus));;
      found <- gets pci_devices_found;;
      kprintf (nl "[INFO] pci: enumerated %u device(s)") [AUint found].

Definition pci_device_count : M state Z := gets pci_devices_found.
Definition pci_get_device (index : Z) : M state (option Z) :=
  found <- gets pci_devices_found;; ret (if found <=? index then None else Some index).

Definition print_bar (info : pci_device_info) (bar : Z) : M state unit :=
  value <- deref (rd (pd_bars info) bar);;
  if value =? 0 then ret tt else kprintf (nl "  BAR%u: %p") [AUint bar; APtr value].
Definition pci_print_devices : M state unit :=
  found <- gets pci_devices_found;;
  if negb pci_available then kprintf (nl "pci unavailable") []
  else if found =? 0 then kprintf (nl "pci: no devices") []
  else
    for_range (Z.to_nat found) 0 (fun index =>
      table <- gets pci_devices;;
      info <- deref (rd table index);;
      kprintf (nl "%u:%u.%u vendor=%x device=%x class=%x:%x:%x %s")
        [AUint (pd_bus info); AUint (pd_device info); AUint (pd_function info); AUint (pd_vendor_id info); AUint (pd_device_id info);
         AUint (pd_class_code info); AUint (pd_subclass info); AUint (pd_prog_if info);
         AStr (Some (cstr (pci_class_name (pd_class_code info) (pd_subclass info))))];;
      for_range (Z.to_nat (pd_bar_count info)) 0 (print_bar info)).
End pci.

(** ** What the enumeration finds *)

Definition zero_pci_device : pci_device_info := PciDevice 0 0 0 0 0 0 0 0 0 0 (replicate 6 0).

Section enumeration.
(** The configuration space: a register of a function, four bytes at an offset. *)
Context (config : Z -> Z -> Z -> Z -> Z).

Definition vendor_of (b d f : Z) : Z := Z.land (config b d f 0) 0xffff.
Definition present_at (b d f : Z) : bool := negb (vendor_of b d f =? PCI_INVALID_VENDOR_ID).
Definition header_of_function (b d f : Z) : Z := Z.land (Z.shiftr (config b d f 0x0c) 16) 0xff.
Definition functions_of (b d : Z) : Z := if negb (Z.land (header_of_function b d 0) PCI_HEADER_TYPE_MULTIFUNCTION =? 0) then 8 else 1.
Definition bars_limit (b d f : Z) : Z := if Z.land (header_of_function b d f) PCI_HEADER_TYPE_MASK =? PCI_HEADER_TYPE_BRIDGE then 2 else 6.

(** The registers as the table keeps them: a pair that forms a wide one is joined
    in the first. *)
Fixpoint bars_from (n : nat) (b d f i limit : Z) : list Z :=
  match n with
  | O => []
  | S n' =>
      if negb (i <? limit) then []
      else
        let v := config b d f (0x10 + i * 4) in
        if wide_bar v i limit then Z.lor v (u64 (Z.shiftl (config b d f (0x10 + i * 4 + 4)) 32)) :: 0 :: bars_from n' b d f (i + 2) limit
        else v :: bars_from n' b d f (i + 1) limit
  end.

Definition function_info (b d f : Z) : pci_device_info :=
  let id := config b d f 0 in
  let class_reg := config b d f 8 in
  let bars := bars_from 6 b d f 0 (bars_limit b d f) in
  PciDevice b d f (Z.land id 0xffff) (Z.land (Z.shiftr id 16) 0xffff) (Z.land (Z.shiftr class_reg 24) 0xff) (Z.land (Z.shiftr class_reg 16) 0xff)
    (Z.land (Z.shiftr class_reg 8) 0xff) (header_of_function b d f) (bars_limit b d f) (bars ++ replicate (6 - length bars) 0).

Definition found_in_device (b d : Z) : list pci_device_info :=
  if present_at b d 0 then map (function_info b d) (filter (fun f => present_at b d f = true) (seqZ 0 (functions_of b d))) else [].
Definition found_on_bus (b : Z) : list pci_device_info := concat (map (found_in_device b) (seqZ 0 32)).
Definition enumerated : list pci_device_info := concat (map found_on_bus (seqZ 0 256)).
End enumeration.

(** ** The proof *)

Definition config_address (b d f off : Z) : Z := platform_get_pci_ecam_base + b * 1048576 + d * 32768 + f * 4096 + off.

Lemma pci_config_address_eq b d f off :
  0 <= b < 256 -> 0 <= d < 32 -> 0 <= f < 8 -> 0 <= off < 0x100 ->
  pci_config_address b d f off = config_address b d f off /\
  platform_get_pci_ecam_base <= config_address b d f off < platform_get_pci_ecam_base + platform_get_pci_ecam_size.
Proof.
  intros Hb Hd Hf Ho. unfold pci_config_address, config_address, platform_get_pci_ecam_base, platform_get_pci_ecam_size.
  rewrite !Z.shiftl_mul_pow2 by lia. change (2 ^ 20) with 1048576. change (2 ^ 15) with 32768. change (2 ^ 12) with 4096.
  rewrite (u64_small (b * _)), (u64_small (d * _)), (u64_small (f * _)) by lia.
  rewrite (u64_small (_ + b * _)) by lia. rewrite (u64_small (_ + b * _ + d * _)) by lia. rewrite (u64_small (_ + b * _ + d * _ + f * _)) by lia.
  rewrite u64_small by lia. lia.
Qed.

Lemma config_address_aligned b d f off : off mod 4 = 0 -> config_address b d f off mod 4 = 0.
Proof.
  intros Ho. unfold config_address, platform_get_pci_ecam_base. Z.div_mod_to_equations. lia.
Qed.

Lemma wide_bar_inner v i limit : 0 <= i < 6 -> wide_bar v i limit = true -> i + 1 < limit.
Proof. unfold wide_bar. intros Hi [_ Hl%Z.ltb_lt]%andb_prop. by rewrite u32_small in Hl by lia. Qed.

Lemma bars_from_length config n b d f i limit :
  0 <= i <= limit -> limit <= 6 -> (length (bars_from config n b d f i limit) <= Z.to_nat (limit - i))%nat.
Proof.
  revert i. induction n as [|n IH]; intros i Hi Hl; cbn [bars_from]; [simpl; lia|].
  destruct (Z.ltb_spec i limit); cbn [negb]; [|simpl; lia].
  destruct (wide_bar _ i limit) eqn:E; cbn [length].
  - apply wide_bar_inner in E; [|lia]. specialize (IH (i + 2) ltac:(lia) Hl). lia.
  - specialize (IH (i + 1) ltac:(lia) Hl). lia.
Qed.

Lemma filter_map_concat {A B} (P : A -> bool) (g : A -> B) l :
  concat (map (fun x => if P x then [g x] else []) l) = map g (filter (fun x => P x = true) l).
Proof.
  induction l as [|x l IH]; [done|]. cbn [map concat]. rewrite filter_cons, IH. destruct (P x); by (destruct (decide _)).
Qed.

Section proofs.
Context {D : Type} `{Hardware D} (cfg : Z -> Z).
(** The window answers the same at every aligned read, and a read changes
    nothing. *)
Context (answers : forall a (h : D), platform_get_pci_ecam_base <= a < platform_get_pci_ecam_base + platform_get_pci_ecam_size ->
  a mod 4 = 0 -> mmio_read a h = (cfg a, h)).
Definition config (b d f off : Z) : Z := cfg (config_address b d f off).

(** The state when [l] are the functions that were found. *)
Definition with_found (l : list pci_device_info) (h : D) : pci D :=
  Pci (take 64 l ++ replicate (64 - length l) zero_pci_device) (Z.min 64 (lenZ l)) 1 h.

Lemma read_config_run b d f off l h :
  0 <= b < 256 -> 0 <= d < 32 -> 0 <= f < 8 -> 0 <= off < 0x100 -> off mod 4 = 0 ->
  pci_read_config32 b d f off (with_found l h) = Ret (config b d f off) (with_found l h) [].
Proof using answers.
  intros Hb Hd Hf Ho Hal. destruct (pci_config_address_eq b d f off Hb Hd Hf Ho) as [E Hw].
  unfold pci_read_config32, zoom, read32. rewrite E. cbn [pci_bus with_found]. by rewrite answers by (done || by apply config_address_aligned).
Qed.

Lemma read_vendor_run b d f l h :
  0 <= b < 256 -> 0 <= d < 32 -> 0 <= f < 8 ->
  pci_read_vendor_id b d f (with_found l h) = Ret (vendor_of config b d f) (with_found l h) [].
Proof using answers.
  intros Hb Hd Hf. unfold pci_read_vendor_id. by rewrite (bind_Ret_nil _ _ _ _ _ (read_config_run b d f 0 l h Hb Hd Hf ltac:(lia) eq_refl)).
Qed.

Lemma wr_zeros (pre : list Z) i n v : lenZ pre = i -> wr (pre ++ replicate (S n) 0) i v = Some ((pre ++ [v]) ++ replicate n 0).
Proof. intros <-. cbn [replicate]. rewrite wr_app. by rewrite <- (assoc_L (++)). Qed.

Lemma bar_loop_run n b d f i limit pre l h :
  0 <= b < 256 -> 0 <= d < 32 -> 0 <= f < 8 -> 0 <= i <= limit -> limit <= 6 -> lenZ pre = i -> limit - i <= Z.of_nat n ->
  bar_loop n b d f i limit (pre ++ replicate (6 - length pre) 0) (with_found l h) =
  Ret (pre ++ bars_from config n b d f i limit ++ replicate (6 - length pre - length (bars_from config n b d f i limit)) 0) (with_found l h) [].
Proof using answers.
  intros Hb Hd Hf. revert i pre. induction n as [|n IH]; intros i pre Hi Hl Hp Hn; cbn [bar_loop bars_from].
  { rewrite (proj2 (Z.ltb_ge i limit)) by lia. cbn [negb length]. by rewrite Nat.sub_0_r. }
  destruct (Z.ltb_spec i limit) as [Hlt|Hge]; cbn [negb]; [|cbn [length]; by rewrite Nat.sub_0_r].
  assert (Hlen : length pre = Z.to_nat i) by (unfold lenZ in Hp; lia).
  rewrite (u32_small (i * 4)), (u32_small (0x10 + i * 4)), (u32_small (0x10 + i * 4 + 4)) by lia.
  rewrite (bind_Ret_nil _ _ _ _ _ (read_config_run b d f (0x10 + i * 4) l h Hb Hd Hf ltac:(lia) ltac:(Z.div_mod_to_equations; lia))).
  set (v := config b d f (0x10 + i * 4)).
  replace (6 - length pre)%nat with (S (5 - length pre)) by lia.
  rewrite (bind_deref_Some _ _ _ _ (wr_zeros pre i _ v Hp)).
  destruct (wide_bar v i limit) eqn:E.
  - apply wide_bar_inner in E; [|lia].
    rewrite (bind_Ret_nil _ _ _ _ _ (read_config_run b d f (0x10 + i * 4 + 4) l h Hb Hd Hf ltac:(lia) ltac:(Z.div_mod_to_equations; lia))).
    set (w := Z.lor v _). replace (5 - length pre)%nat with (S (4 - length pre)) by lia.
    rewrite <- (assoc_L (++) pre [v]). cbn [app]. rewrite <- Hp at 1.
    rewrite (bind_deref_Some _ _ _ _ (wr_app pre _ v w)). cbn [app].
    replace (pre ++ w :: replicate (S (4 - length pre)) 0) with ((pre ++ [w]) ++ replicate (S (4 - length pre)) 0) by (by rewrite <- (assoc_L (++))).
    rewrite (u32_small (i + 1)), (u32_small (i + 2)) by lia.
    rewrite (bind_deref_Some _ _ _ _ (wr_zeros (pre ++ [w]) (i + 1) _ 0 ltac:(unfold lenZ in *; rewrite length_app; simpl; lia))).
    replace (4 - length pre)%nat with (6 - length ((pre ++ [w]) ++ [0%Z]))%nat by (rewrite !length_app; simpl; lia).
    rewrite (IH (i + 2) ((pre ++ [w]) ++ [0])); try lia; [|unfold lenZ in *; rewrite !length_app; simpl; lia].
    cbn [length]. rewrite <- !(assoc_L (++)). cbn [app]. rewrite !length_app. cbn [length]. do 6 f_equal; lia.
  - rewrite (u32_small (i + 1)) by lia.
    replace (5 - length pre)%nat with (6 - length (pre ++ [v]))%nat by (rewrite !length_app; simpl; lia).
    rewrite (IH (i + 1) (pre ++ [v])); try lia; [|unfold lenZ in *; rewrite !length_app; simpl; lia].
    cbn [length]. rewrite <- !(assoc_L (++)). cbn [app]. rewrite !length_app. cbn [length]. do 5 f_equal; lia.
Qed.

Lemma with_found_full l x h : 64 <= lenZ l -> with_found (l ++ [x]) h = with_found l h.
Proof.
  unfold with_found, lenZ. intros Hl. rewrite !length_app, take_app_le by lia. cbn [length].
  replace (64 - (length l + 1))%nat with (64 - length l)%nat by lia. f_equal. lia.
Qed.

Lemma store_device_run b d f l h :
  0 <= b < 256 -> 0 <= d < 32 -> 0 <= f < 8 ->
  pci_store_device b d f (with_found l h) = Ret tt (with_found (l ++ [function_info config b d f]) h) [].
Proof using answers.
  intros Hb Hd Hf. unfold pci_store_device. rewrite bind_gets. change (pci_devices_found (with_found l h)) with (Z.min 64 (lenZ l)).
  unfold PCI_MAX_DEVICES. destruct (Z.leb_spec 64 (Z.min 64 (lenZ l))) as [Hle|Hgt]; [by rewrite with_found_full by lia|].
  rewrite bind_gets. change (pci_devices (with_found l h)) with (take 64 l ++ replicate (64 - length l) zero_pci_device).
  assert (Hlen : (length l < 64)%nat) by (unfold lenZ in Hgt; lia).
  rewrite (Z.min_r 64) by lia. rewrite (take_ge l) by lia.
  replace (64 - length l)%nat with (S (63 - length l)) by lia. cbn [replicate].
  rewrite (bind_deref_Some _ _ _ _ (rd_at l _ _)).
  rewrite (bind_Ret_nil _ _ _ _ _ (read_config_run b d f 0 l h Hb Hd Hf ltac:(lia) eq_refl)).
  rewrite (bind_Ret_nil _ _ _ _ _ (read_config_run b d f 8 l h Hb Hd Hf ltac:(lia) eq_refl)).
  rewrite (bind_Ret_nil _ _ _ _ _ (read_config_run b d f 0x0c l h Hb Hd Hf ltac:(lia) eq_refl)).
  change (Z.land (Z.shiftr (config b d f 0x0c) 16) 0xff) with (header_of_function config b d f).
  change (if Z.land (header_of_function config b d f) PCI_HEADER_TYPE_MASK =? PCI_HEADER_TYPE_BRIDGE then 2 else PCI_MAX_BARS) with (bars_limit config b d f).
  assert (Hlim : 0 <= bars_limit config b d f <= 6) by (unfold bars_limit; destruct (_ =? _); lia).
  pose proof (bar_loop_run 6 b d f 0 (bars_limit config b d f) [] l h Hb Hd Hf ltac:(lia) ltac:(lia) eq_refl ltac:(lia)) as Hbars.
  cbn [app length Nat.sub] in Hbars. change (pd_bars zero_pci_device) with (replicate 6 0). change (Z.to_nat PCI_MAX_BARS) with 6%nat.
  rewrite (bind_Ret_nil _ _ _ _ _ Hbars). change (6 - length ?x)%nat with (6 - length x)%nat.
  rewrite (bind_deref_Some _ _ _ _ (wr_app l _ _ _)). rewrite !bind_modify. unfold modify.
  rewrite (u32_small (lenZ l + 1)) by (unfold lenZ; lia).
  unfold with_found, set_pci_devices, set_pci_devices_found. cbn [pci_devices pci_initialized pci_bus].
  rewrite !length_app. cbn [length]. rewrite (take_ge (l ++ _)) by (rewrite length_app; simpl; lia).
  do 2 f_equal; [|unfold lenZ in *; rewrite length_app; simpl; lia].
  rewrite <- (assoc_L (++)). cbn [app]. do 3 f_equal. lia.
Qed.

Lemma for_range_found n i (body : Z -> M (pci D) unit) g l h :
  (forall j l', i <= j < i + Z.of_nat n -> body j (with_found l' h) = Ret tt (with_found (l' ++ g j) h) []) ->
  for_range n i body (with_found l h) = Ret tt (with_found (l ++ concat (map g (seqZ i (Z.of_nat n)))) h) [].
Proof.
  revert i l. induction n as [|n IH]; intros i l Hb; [cbn; by rewrite app_nil_r|].
  cbn [for_range]. rewrite (bind_Ret_nil _ _ _ _ _ (Hb i l ltac:(lia))), (IH (i + 1)) by (intros j l' Hj; apply Hb; lia).
  rewrite (seqZ_cons i) by lia. cbn [map concat]. rewrite (assoc_L (++)). unfold Z.succ. replace (Z.pred (Z.of_nat (S n))) with (Z.of_nat n) by lia. done.
Qed.

Lemma probe_device_run b d l h :
  0 <= b < 256 -> 0 <= d < 32 -> probe_device b d (with_found l h) = Ret tt (with_found (l ++ found_in_device config b d) h) [].
Proof using answers.
  intros Hb Hd. unfold probe_device, found_in_device, present_at.
  rewrite (bind_Ret_nil _ _ _ _ _ (read_vendor_run b d 0 l h Hb Hd ltac:(lia))).
  destruct (vendor_of config b d 0 =? PCI_INVALID_VENDOR_ID); cbn [negb]; [by rewrite app_nil_r|].
  rewrite (bind_Ret_nil _ _ _ _ _ (read_config_run b d 0 0x0c l h Hb Hd ltac:(lia) ltac:(lia) eq_refl)).
  change (Z.land (Z.shiftr (config b d 0 0x0c) 16) 0xff) with (header_of_function config b d 0).
  change (if negb (Z.land (header_of_function config b d 0) PCI_HEADER_TYPE_MULTIFUNCTION =? 0) then PCI_MAX_FUNCTIONS else 1) with (functions_of config b d).
  assert (Hlim : 0 <= functions_of config b d <= 8) by (unfold functions_of; destruct (negb _); lia).
  rewrite (for_range_found _ 0 _ (fun f => if present_at config b d f then [function_info config b d f] else [])).
  - by rewrite filter_map_concat, Z2Nat.id by lia.
  - intros f l' Hf. rewrite Z2Nat.id in Hf by lia. unfold probe_function.
    rewrite (bind_Ret_nil _ _ _ _ _ (read_vendor_run b d f l' h Hb Hd ltac:(lia))). unfold present_at.
    destruct (vendor_of config b d f =? PCI_INVALID_VENDOR_ID); cbn [negb]; [by rewrite app_nil_r|].
    apply store_device_run; lia.
Qed.

Lemma pci_init_run h :
  exists o, pci_init (Pci (replicate 64 zero_pci_device) 0 0 h) = Ret tt (with_found (enumerated config) h) o.
Proof using answers.
  unfold pci_init. rewrite bind_gets. cbn [pci_initialized]. change (negb (0 =? 0)) with false. cbn iota. rewrite !bind_modify.
  change (negb pci_available) with false. cbn iota.
  change (set_pci_devices_found 0 _) with (with_found [] h).
  change (Z.to_nat (platform_get_pci_bus_end - platform_get_pci_bus_start + 1)) with 256%nat. change platform_get_pci_bus_start with 0.
  assert (Hall : for_range 256 0 (fun bus => for_range 32 0 (probe_device bus)) (with_found [] h) = Ret tt (with_found (enumerated config) h) []).
  { apply (for_range_found 256 0 _ (found_on_bus config) [] h). intros b l Hb.
    apply (for_range_found 32 0 (probe_device b) (found_in_device config b)). intros d l' Hd. apply probe_device_run; lia. }
  rewrite (bind_Ret_nil _ _ _ _ _ Hall), bind_gets.
  destruct (kprintf_total (nl "[INFO] pci: enumerated %u device(s)") [ch "u"]
    [AUint (pci_devices_found (with_found (enumerated config) h))] (with_found (enumerated config) h)) as [o Ho]; [done|kargs; unfold with_found, lenZ; cbn [pci_devices_found]; lia|by exists o].
Qed.
End proofs.

(** C27. Against a configuration space that answers the same at every read,
    [pci_init] leaves in the table the first 64 functions that are present, in
    the order of their bus, device and function numbers, each with its
    identification and its base registers (the two halves of a wide one joined);
    it changes nothing of the hardware, and does nothing when it is called again. *)
Theorem pci_init_spec {D} `{Hardware D} (cfg : Z -> Z) (h : D)
  (answers : forall a (h' : D), platform_get_pci_ecam_base <= a < platform_get_pci_ecam_base + platform_get_pci_ecam_size ->
    a mod 4 = 0 -> mmio_read a h' = (cfg a, h')) :
  exists s' o, pci_init (Pci (replicate 64 zero_pci_device) 0 0 h) = Ret tt s' o /\
    pci_devices_found s' = Z.min 64 (lenZ (enumerated (config cfg))) /\
    (forall i, (i < 64)%nat -> (i < length (enumerated (config cfg)))%nat -> pci_devices s' !! i = enumerated (config cfg) !! i) /\
    pci_bus s' = h /\ pci_init s' = Ret tt s' [].
Proof.
  destruct (pci_init_run cfg answers h) as [o Ho]. eexists _, o. split; [exact Ho|]. split; [done|].
  split; [|done]. intros i Hi Hl. cbn [pci_devices with_found].
  rewrite lookup_app_l by (rewrite length_take; lia). by rewrite lookup_take, decide_True by done.
Qed.

(** A configuration space with two functions: a bridge at 0:0.0 and, on bus 1, a
    controller with a wide base register. *)
Definition sample_config (a : Z) : Z :=
  if a =? config_address 0 0 0 0 then 0x00081b36
  else if a =? config_address 0 0 0 8 then 0x06000000
  else if a =? config_address 1 2 0 0 then 0x10501af4
  else if a =? config_address 1 2 0 0x10 then 0x4
  else if a =? config_address 1 2 0 0x14 then 0x80
  else if (a - platform_get_pci_ecam_base) mod 4096 =? 0 then 0xffffffff else 0.
#[local] Instance sample_pci : Hardware unit :=
  {| mmio_read a h := (sample_config a, h); mmio_write _ _ h := h; sysreg_read _ h := (0, h); sysreg_write _ _ h := h |}.

Example enumerated_sample :
  map (fun info => (pd_bus info, pd_device info, pd_vendor_id info, pd_bars info)) (enumerated (config sample_config)) =
  [(0, 0, 0x1b36, [0; 0; 0; 0; 0; 0]); (1, 2, 0x1af4, [0x8000000004; 0; 0; 0; 0; 0])].
Proof. vm_compute. reflexivity. Qed.

Lemma pci_init_spec_witness :
  exists s' o, pci_init (Pci (replicate 64 zero_pci_device) 0 0 tt) = Ret tt s' o /\
    pci_devices_found s' = Z.min 64 (lenZ (enumerated (config sample_config))) /\
    (forall i, (i < 64)%nat -> (i < length (enumerated (config sample_config)))%nat -> pci_devices s' !! i = enumerated (config sample_config) !! i) /\
    pci_bus s' = tt /\ pci_init s' = Ret tt s' [].
Proof. apply (pci_init_spec sample_config tt). intros a h' _ _. reflexivity. Defined.
