(* ===== verification/VirtioDriver.v ===== *)
(** What the drivers of virtio devices share: a driver works on the memory, the
    cache and the hardware of the rest of the kernel; what a device does to the
    memory and to its registers while the driver waits is a parameter. *)
From S2P Require Import Prelude LibString Klog Memory BlockDevice MMU Bus Virtqueue VirtioMmio Spinlock.

(** [Q] are the driver's own variables. *)
Record driver (Q H D W : Type) : Type := Driver {
  dr_vars : Q;
  dr_mm : mm;
  dr_mmu : mmu;
  dr_virtio : virtio H D W;
  dr_daif : Z
}.
Arguments Driver {Q H D W}.
Arguments dr_vars {Q H D W}.
Arguments dr_mm {Q H D W}.
Arguments dr_mmu {Q H D W}.
Arguments dr_virtio {Q H D W}.
Arguments dr_daif {Q H D W}.

(** What a device does between two looks of the driver: to the memory and to
    the hardware, and the interrupt status if it raises an interrupt. *)
Definition device_turn (D : Type) : Type := mm -> D -> mm * D * option Z.

Section driver.
Context {Q H D W : Type} `{Hardware D}.
Abbreviation state := (driver Q H D W).
Implicit Types s : state.

Definition set_dr_vars v s : state := Driver v (dr_mm s) (dr_mmu s) (dr_virtio s) (dr_daif s).
Definition set_dr_mm v s : state := Driver (dr_vars s) v (dr_mmu s) (dr_virtio s) (dr_daif s).
Definition set_dr_mmu v s : state := Driver (dr_vars s) (dr_mm s) v (dr_virtio s) (dr_daif s).
Definition set_dr_virtio v s : state := Driver (dr_vars s) (dr_mm s) (dr_mmu s) v (dr_daif s).
Definition set_dr_daif v s : state := Driver (dr_vars s) (dr_mm s) (dr_mmu s) (dr_virtio s) v.

Definition dr_var {A} (f : Q -> A) : M state A := gets (fun s => f (dr_vars s)).
Definition dr_assign (f : Q -> Q) : M state unit := modify (fun s => set_dr_vars (f (dr_vars s)) s).
Definition on_transport {A} (m : M (virtio H D W) A) : M state A := zoom dr_virtio set_dr_virtio m.
Definition on_cache {A} (m : M mmu A) : M state A := zoom dr_mmu set_dr_mmu m.
(** An operation on a queue of the driver. *)
Definition with_queue {A} (get : Q -> virtqueue) (put : virtqueue -> Q -> Q) (m : M vio A) : M state A :=
  zoom (fun s => Vio (get (dr_vars s)) (dr_mm s) (dr_mmu s))
    (fun v s => Driver (put (queue v) (dr_vars s)) (v_mm v) (v_mmu v) (dr_virtio s) (dr_daif s)) m.
Definition with_lock {A} (get : Q -> Z) (put : Z -> Q -> Q) (m : M masked_lock A) : M state A :=
  zoom (fun s => MaskedLock (get (dr_vars s)) (dr_daif s)) (fun l s => set_dr_daif (lock_daif l) (set_dr_vars (put (lock_value l) (dr_vars s)) s)) m.

(** The assignments to the fields of [queue.desc[i]]. *)
Definition fill_desc (i addr len : Z) : M vio unit :=
  q <- gets queue;; store 8 (desc_addr (desc q) i) addr;; store 4 (desc_len (desc q) i) len.
Definition mark_desc (i flags : Z) : M vio unit := q <- gets queue;; store 2 (desc_flags (desc q) i) flags.
Definition chain_desc (i next : Z) : M vio unit := q <- gets queue;; store 2 (desc_next (desc q) i) next.
Definition write_desc (i addr len flags next : Z) : M vio unit := fill_desc i addr len;; mark_desc i flags;; chain_desc i next.

(** [device->initialized]; and its slot and interrupt number. *)
Definition is_initialized (device : option Z) : M state bool :=
  match device with
  | None => ret false
  | Some i => d <- on_transport (get_device i);; ret (negb (initialized d =? 0))
  end.

(** The device gets a turn; the interrupt status when it interrupts. *)
Definition give_turn (turn : device_turn D) : M state (option Z) := fun s =>
  let '(m, h, status) := turn (dr_mm s) (bus (dr_virtio s)) in
  Ret status (set_dr_mm m (set_dr_virtio (set_bus h (dr_virtio s)) s)) [].
End driver.
