(* ===== verification/VirtioRng.v ===== *)
(** The driver of the entropy source (src/src/drivers/virtio_rng.c): one request
    at a time, whose end an interrupt tells. Its start runs against the devices of
    VirtioMmio, from the search for the device to the queue the device is given,
    with what the device is told when a step fails. *)
From S2P Require Import Prelude LibString Klog Memory BlockDevice MMU Bus Virtqueue VirtioMmio Spinlock VirtioDriver.

Definition VIRTIO_RNG_QUEUE_INDEX : Z := 0.
Definition VIRTIO_RNG_QUEUE_SIZE : Z := 8.

Record rng_state : Type := RngState {
  rng_device : option Z;
  rng_queue : virtqueue;
  rng_lock : Z;
  rng_request_done : Z;
  rng_request_busy : Z;
  rng_request_len : Z;
  rng_pending_head : Z
}.
Definition set_rng_device v s : rng_state := RngState v (rng_queue s) (rng_lock s) (rng_request_done s) (rng_request_busy s) (rng_request_len s) (rng_pending_head s).
Definition set_rng_queue v s : rng_state := RngState (rng_device s) v (rng_lock s) (rng_request_done s) (rng_request_busy s) (rng_request_len s) (rng_pending_head s).
Definition set_rng_lock v s : rng_state := RngState (rng_device s) (rng_queue s) v (rng_request_done s) (rng_request_busy s) (rng_request_len s) (rng_pending_head s).
(** The request: done, busy, the length used. *)
Definition set_rng_request done busy len s : rng_state := RngState (rng_device s) (rng_queue s) (rng_lock s) done busy len (rng_pending_head s).
Definition set_rng_pending_head v s : rng_state := RngState (rng_device s) (rng_queue s) (rng_lock s) (rng_request_done s) (rng_request_busy s) (rng_request_len s) v.

Section rng.
Context {H D W : Type} `{Hardware D} (plat : platform).
(** [rng_handler] is the address of [virtio_rng_irq], as the transport keeps it;
    [rng_data] that of the driver's state. *)
Context (rng_handler : H) (rng_data : Z).
Abbreviation state := (driver rng_state H D W).
Implicit Types s : state.

Definition on_rng_queue {A} (m : M vio A) : M state A := with_queue rng_queue set_rng_queue m.
Definition on_rng_lock {A} (m : M masked_lock A) : M state A := with_lock rng_lock set_rng_lock m.

(** The loop takes what the used ring holds: less than 65536 elements, as the
    index of the ring stays while the handler runs. *)
Fixpoint rng_irq_loop (fuel : nat) : M state unit :=
  e <- on_rng_queue virtqueue_pop_used;;
  match e with
  | None => ret tt
  | Some (head_index, used_len) =>
      match fuel with
      | O => undef
      | S fuel' =>
          on_rng_queue (virtqueue_free_desc (u16 head_index));;
          dr_assign (set_rng_request 1 0 used_len);;
          rng_irq_loop fuel'
      end
  end.
Definition virtio_rng_irq (interrupt_status : Z) : M state unit :=
  (if negb (Z.land interrupt_status VIRTIO_INTERRUPT_CONFIG_CHANGE =? 0) then kprintf (nl "[INFO] virtio-rng: config change IRQ") [] else ret tt);;
  if Z.land interrupt_status VIRTIO_INTERRUPT_USED_RING =? 0 then ret tt
  else rng_irq_loop (Z.to_nat (2 ^ 16)).

Definition rng_fail (device : Z) (message : string) : M state unit :=
  kprintf (nl message) [];; on_transport (virtio_mmio_fail device).

Definition virtio_rng_init : M state unit :=
  device <- on_transport (virtio_find_device VIRTIO_DEVICE_ID_RNG 0);;
  dr_assign (set_rng_device None);;
  dr_assign (set_rng_lock 0);;
  dr_assign (set_rng_request 0 0 0);;
  dr_assign (set_rng_pending_head 0);;
  match device with
  | None => kprintf (nl "[INFO] virtio-rng: no device found") []
  | Some d =>
      r <- on_transport (virtio_mmio_begin_init d);;
      if negb (r =? 0) then kprintf (nl "[ERROR] virtio-rng: reset/init failed") []
      else
        r <- on_transport (virtio_mmio_negotiate_features d 0 0);;
        if negb (r =? 0) then rng_fail d "[ERROR] virtio-rng: feature negotiation failed"
        else
          r <- on_rng_queue (virtqueue_init plat (Some tt) VIRTIO_RNG_QUEUE_SIZE);;
          if negb (r =? 0) then rng_fail d "[ERROR] virtio-rng: queue allocation failed"
          else
            q <- dr_var rng_queue;;
            r <- on_transport (virtio_mmio_setup_queue d VIRTIO_RNG_QUEUE_INDEX q);;
            if negb (r =? 0) then rng_fail d "[ERROR] virtio-rng: queue setup failed"
            else
              on_transport (virtio_mmio_set_irq_handler d (Some rng_handler) rng_data);;
              on_transport (virtio_mmio_finish_init d);;
              dr_assign (set_rng_device (Some d));;
              v <- on_transport (get_device d);;
              kprintf (nl "[INFO] virtio-rng: ready on slot %u irq %u") [AUint (slot v); AUint (irq v)]
  end.

Definition virtio_rng_available : M state bool := d <- dr_var rng_device;; is_initialized d.

(** [while (!request_done) cpu_wait_for_interrupt();]: the handler runs when the
    device interrupts. *)
Fixpoint rng_wait_loop (fuel : nat) (turn : device_turn D) : M state unit :=
  done <- dr_var rng_request_done;;
  if negb (done =? 0) then ret tt
  else
    match fuel with
    | O => undef
    | S fuel' =>
        status <- give_turn turn;;
        (match status with Some v => virtio_rng_irq v | None => ret tt end);;
        rng_wait_loop fuel' turn
    end.

(** The status and [*bytes_written]; the buffer is an address, the pointer to
    the count is never null. *)
Definition virtio_rng_fill (fuel : nat) (turn : device_turn D) (buffer size0 : Z) : M state (Z * Z) :=
  available <- virtio_rng_available;;
  if negb (available : bool) || (buffer =? 0) || (size0 =? 0) then ret (-1, 0)
  else
    flags <- on_rng_lock spin_lock_irqsave;;
    busy <- dr_var rng_request_busy;;
    if negb (busy =? 0) then on_rng_lock (spin_unlock_irqrestore flags);; ret (-1, 0)
    else
      desc_index <- on_rng_queue (virtqueue_alloc_desc (Some tt));;
      if desc_index <? 0 then on_rng_lock (spin_unlock_irqrestore flags);; ret (-1, 0)
      else
        on_rng_queue (fill_desc desc_index buffer size0);;
        on_rng_queue (mark_desc desc_index VIRTQ_DESC_F_WRITE);;
        dr_assign (set_rng_pending_head (u16 desc_index));;
        dr_assign (set_rng_request 0 1 0);;
        on_cache (mmu_sync_for_device buffer size0);;
        on_rng_queue (virtqueue_submit (u16 desc_index));;
        device <- dr_var rng_device;;
        d <- deref device;;
        on_transport (virtio_mmio_notify_queue d VIRTIO_RNG_QUEUE_INDEX);;
        on_rng_lock (spin_unlock_irqrestore flags);;
        rng_wait_loop fuel turn;;
        len <- dr_var rng_request_len;;
        on_cache (mmu_sync_for_cpu buffer len);;
        ret (0, len).
End rng.

(** ** The start of the driver *)

(** No page of memory is free. *)
Definition no_page (m : mm) : bool := forallb (page_used m) (seqZ 0 (pmm_page_count m)).

Section start.
Context {H D W : Type} `{Hardware D} (plat : platform) (Hplat : plat_wf plat) (view : D -> Z -> vdev) (Hdev : devices_at view).
Context (rng_handler : H) (rng_data : Z).
Abbreviation state := (driver rng_state H D W).
Implicit Types s : state.

Definition rng_vio s : vio := Vio (rng_queue (dr_vars s)) (dr_mm s) (dr_mmu s).
Definition device_of s (i : Z) : vdev := view (bus (dr_virtio s)) i.
(** The driver's variables at its start. *)
Definition cold_vars (q : rng_state) : rng_state := RngState None (rng_queue q) 0 0 0 0 0.
Definition shows (o : list Z) (format : string) (args : list karg) : Prop := kprintf_loop (cstr (nl format)) args = Some o.

(** The driver gave up: the device was told this, ends with [FAILED], and never
    heard that the driver is ready; other slots are as before. *)
Record rng_refused (told : list Z) s (i : Z) s' : Prop := {
  rr_vars : rng_device (dr_vars s') = None /\ virtio_rng_available s' = Ret false s' [];
  rr_told : v_told (device_of s' i) = v_told (device_of s i) ++ told;
  rr_failed : status_has VIRTIO_STATUS_FAILED (device_of s' i) = true /\ status_has VIRTIO_STATUS_DRIVER_OK (device_of s' i) = false;
  rr_others : others_kept view i (dr_virtio s) (dr_virtio s') /\ dr_daif s' = dr_daif s
}.

(** The driver runs: the device was told to in the order of the specification,
    it works with [VERSION_1] only, its queue is the driver's, a fresh one, and
    its interrupts come to the driver. *)
Record rng_runs s (i : Z) s' : Prop := {
  ru_vars : dr_vars s' = RngState (Some i) (rng_queue (dr_vars s')) 0 0 0 0 0 /\ virtio_rng_available s' = Ret true s' [];
  ru_told : v_told (device_of s' i) = v_told (device_of s i) ++ [0; 3; 11; 15] /\ v_status (device_of s' i) = 15;
  ru_features : v_accept (device_of s' i) = (0, 1);
  ru_queue : fresh_queue plat (rng_vio s) (rng_vio s') 8 /\ holds_queue (device_of s' i) 0 (rng_queue (dr_vars s'));
  ru_handler : exists d, rd (virtio_devices (dr_virtio s')) i = Some d /\ irq_handler d = Some rng_handler /\ driver_data d = rng_data /\ initialized d = 1;
  ru_others : others_kept view i (dr_virtio s) (dr_virtio s') /\ dr_daif s' = dr_daif s
}.

Lemma shows_total format args cs : fmt_convs (cstr (nl format)) = Some cs -> Forall2 arg_ok cs args -> exists o, shows o format args.
Proof. intros Hc Ha. exact (kprintf_loop_total _ _ _ _ (le_n _) Hc Ha). Qed.
Lemma kprintf_shows {S} o format args (s : S) : shows o format args -> kprintf (nl format) args s = Ret tt s o.
Proof. unfold shows, kprintf. by intros ->. Qed.

Lemma transport_run {A} (m : M (virtio H D W) A) q mem u v f a v' o : m v = Ret a v' o -> on_transport m (Driver q mem u v f : state) = Ret a (Driver q mem u v' f) o.
Proof. intros E. unfold on_transport. by erewrite zoom_Ret; [|exact E]. Qed.
Lemma rng_queue_run {A} (m : M vio A) q mem u v f a w o : m (Vio (rng_queue q) mem u) = Ret a w o ->
  on_rng_queue m (Driver q mem u v f : state) = Ret a (Driver (set_rng_queue (queue w) q) (v_mm w) (v_mmu w) v f) o.
Proof. intros E. unfold on_rng_queue, with_queue. by erewrite zoom_Ret; [|exact E]. Qed.

Lemma not_available s : rng_device (dr_vars s) = None -> virtio_rng_available s = Ret false s [].
Proof. intros Hn. unfold virtio_rng_available, dr_var. by rewrite bind_gets, Hn. Qed.

(** The end of every way that gives up. *)
Lemma rng_fail_run s0 i v d t q mem u f told message :
  facing view (dr_virtio s0) v i d t -> status d = 3 \/ status d = 11 -> v_told t ++ [Z.lor (status d) VIRTIO_STATUS_FAILED] = v_told (device_of s0 i) ++ told ->
  rng_device q = None -> f = dr_daif s0 -> fmt_convs (cstr (nl message)) = Some [] ->
  exists s' o, rng_fail i message (Driver q mem u v f : state) = Ret tt s' o /\ rng_refused told s0 i s' /\ shows o message [] /\ dr_mm s' = mem /\ dr_mmu s' = u /\ dr_vars s' = q.
Proof using Hdev.
  intros Hf Hst Ht Hq -> Hm. destruct (shows_total message [] _ Hm ltac:(constructor)) as [o Ho].
  destruct (fail_run view Hdev (dr_virtio s0) v i d t Hf Hst) as (v' & d' & t' & E & [_ _ _ Hv Hothers] & _ & Htold & Hfailed & Hok).
  unfold rng_fail. rewrite (bind_Ret _ _ _ _ _ _ (kprintf_shows _ _ _ _ Ho)), (transport_run _ _ _ _ _ _ _ _ _ E). cbn. rewrite app_nil_r. exists (Driver q mem u v' (dr_daif s0)), o. split; [done|]. split; [|done].
  split; unfold device_of in *; cbn [dr_vars dr_virtio dr_daif]; rewrite ?Hv.
  - split; [done|]. by apply not_available.
  - by rewrite Htold.
  - done.
  - done.
Qed.

Lemma no_page_spec m : reflect (forall p, 0 <= p < pmm_page_count m -> page_used m p = true) (no_page m).
Proof.
  unfold no_page. apply iff_reflect. rewrite forallb_forall. split; intros Hx p Hp.
  - apply Hx. apply list_elem_of_In, elem_of_seqZ in Hp. lia.
  - apply Hx, list_elem_of_In, elem_of_seqZ. lia.
Qed.

(** The queue is there: the device takes it and is told to run, or not. *)
Definition rng_connect (i : Z) : M state unit :=
  q <- dr_var rng_queue;;
  r <- on_transport (virtio_mmio_setup_queue i VIRTIO_RNG_QUEUE_INDEX q);;
  if negb (r =? 0) then rng_fail i "[ERROR] virtio-rng: queue setup failed"
  else
    on_transport (virtio_mmio_set_irq_handler i (Some rng_handler) rng_data);;
    on_transport (virtio_mmio_finish_init i);;
    dr_assign (set_rng_device (Some i));;
    v <- on_transport (get_device i);;
    kprintf (nl "[INFO] virtio-rng: ready on slot %u irq %u") [AUint (slot v); AUint (irq v)].

Lemma rng_connect_run s0 v i d k l c w : let f := (0, 1) in
  facing view (dr_virtio s0) v i d (Vdev k (l ++ [0; 3; 11]) 11 f 1 1 c (fun _ => idle_vqueue)) ->
  status d = 11 -> slot d = i -> irq d = 48 + i -> content k f = true -> l = v_told (device_of s0 i) -> fresh_queue plat (rng_vio s0) w 8 ->
  exists s' o, rng_connect i (Driver (set_rng_queue (queue w) (cold_vars (dr_vars s0))) (v_mm w) (v_mmu w) v (dr_daif s0)) = Ret tt s' o /\
    if k_num_max k 0 <? VIRTIO_RNG_QUEUE_SIZE then
      rng_refused [0; 3; 11; 0x8b] s0 i s' /\ shows o "[ERROR] virtio-rng: queue setup failed" [] /\ fresh_queue plat (rng_vio s0) (rng_vio s') 8
    else rng_runs s0 i s' /\ shows o "[INFO] virtio-rng: ready on slot %u irq %u" [AUint i; AUint (48 + i)].
Proof using Hdev.
  intros f Hf Hst Hsl Hirq Hc Hl Hw. unfold rng_connect. unfold dr_var at 1. rewrite bind_gets. change (rng_queue _) with (queue w).
  destruct (setup_queue_run view Hdev (dr_virtio s0) v i d k _ f c VIRTIO_RNG_QUEUE_INDEX (queue w) Hf) as (v1 & vq & F1 & E1); [rewrite (fq_size _ _ _ _ Hw); lia|].
  rewrite (fq_size _ _ _ _ Hw) in E1. unfold VIRTIO_RNG_QUEUE_INDEX, VIRTIO_RNG_QUEUE_SIZE in *. destruct (k_num_max k 0 <? 8).
  - rewrite (bind_Ret_nil _ _ _ _ _ (transport_run _ _ _ _ _ _ _ _ _ E1)). cbn [Z.eqb negb].
    destruct (rng_fail_run s0 i v1 d _ (set_rng_queue (queue w) (cold_vars (dr_vars s0))) (v_mm w) (v_mmu w) (dr_daif s0) [0; 3; 11; 0x8b] "[ERROR] virtio-rng: queue setup failed" F1 (or_intror Hst))
      as (s' & o & E & Hr & Ho & Hm & Hu & Hq); [cbn [v_told]; rewrite Hst, Hl, <- (assoc_L (++)); reflexivity|done|done|done|].
    exists s', o. split; [exact E|]. split; [exact Hr|]. split; [exact Ho|]. unfold rng_vio at 2. rewrite Hq, Hm, Hu. by destruct w.
  - destruct E1 as [E1 Hq]. rewrite (bind_Ret_nil _ _ _ _ _ (transport_run _ _ _ _ _ _ _ _ _ E1)). cbn [Z.eqb negb].
    destruct (update_run view (dr_virtio s0) v1 i d _ (set_irq_handler (Some rng_handler) rng_data) F1 eq_refl) as (v2 & E2 & F2).
    rewrite (bind_Ret_nil _ _ _ _ _ (transport_run _ _ _ _ _ _ _ _ _ E2)).
    destruct (finish_run view Hdev (dr_virtio s0) v2 i _ _ _ _ _ _ _ _ F2 Hst Hc) as (v3 & E3 & F3). rewrite (bind_Ret_nil _ _ _ _ _ (transport_run _ _ _ _ _ _ _ _ _ E3)).
    unfold dr_assign. rewrite bind_modify. change (set_dr_vars _ _) with (Driver (RngState (Some i) (queue w) 0 0 0 0 0) (v_mm w) (v_mmu w) v3 (dr_daif s0) : state).
    pose proof (get_device_run _ _ _ _ _ _ F3) as E4. rewrite (bind_Ret_nil _ _ _ _ _ (transport_run _ _ _ _ _ _ _ _ _ E4)).
    cbn [slot irq set_initialized set_device_status set_irq_handler]. rewrite Hsl, Hirq.
    destruct F3 as [Hi Hd _ Hv Ho]. destruct (shows_total "[INFO] virtio-rng: ready on slot %u irq %u" [AUint i; AUint (48 + i)] _ eq_refl) as [o Hsays]; [repeat constructor; lia|].
    rewrite (kprintf_shows _ _ _ _ Hsays). eexists _, _. split; [reflexivity|]. split.
    + split; unfold device_of; cbn [dr_vars dr_virtio dr_daif rng_queue]; rewrite ?Hv.
      * split; [done|]. unfold virtio_rng_available, dr_var. rewrite bind_gets. unfold id. cbn [dr_vars rng_device is_initialized].
        by rewrite (bind_Ret_nil _ _ _ _ _ (transport_run _ _ _ _ _ _ _ _ _ E4)).
      * cbn [v_told v_status]. by rewrite <- (assoc_L (++)), Hl.
      * done.
      * split; [by destruct w|exact Hq].
      * eexists. split; [exact Hd|done].
      * done.
    + exact Hsays.
Qed.

Lemma cold_run {A} q mem u v f (k : M state A) :
  (dr_assign (set_rng_device None);; dr_assign (set_rng_lock 0);; dr_assign (set_rng_request 0 0 0);; dr_assign (set_rng_pending_head 0);; k) (Driver q mem u v f) =
  k (Driver (cold_vars q) mem u v f).
Proof. unfold dr_assign. by rewrite !bind_modify. Qed.

(** A device of that identity is in the table. *)
Lemma first_device_at s i id0 : probed view (dr_virtio s) -> first_device view id0 (bus (dr_virtio s)) = Some i ->
  exists d, facing view (dr_virtio s) (dr_virtio s) i d (device_of s i) /\ slot d = i /\ irq d = 48 + i.
Proof.
  intros Hp Hf. apply find_some in Hf as [Hi _]. apply list_elem_of_In, elem_of_seqZ in Hi.
  destruct (Hp i ltac:(lia)) as (d & Hd & Hb & Hs & Hr & _). exists d. split; [|done]. split; [lia|done|done|done|apply others_refl].
Qed.
End start.

(** C15. The driver of the entropy source takes the first slot that the probe has
    shown to hold one. The device ends up running exactly if it offers
    [VERSION_1], can work with that feature alone and has a queue with room for
    eight descriptors, and there is a page for the queue: it is told to reset, of
    a driver, of the features and of [DRIVER_OK], in this order, its queue
    registers hold the driver's fresh queue, and its interrupts go to the
    driver. Else what it is told ends with [FAILED] and never has [DRIVER_OK],
    the driver is not available and the reason is printed. The other slots are as
    before in every case. *)
Theorem virtio_rng_init_spec {H D W} `{Hardware D} plat view rng_handler rng_data (s : driver rng_state H D W) :
  plat_wf plat -> devices_at view -> pmm_on plat (dr_mm s) -> probed view (dr_virtio s) ->
  match first_device view VIRTIO_DEVICE_ID_RNG (bus (dr_virtio s)) with
  | None => exists o, virtio_rng_init plat rng_handler rng_data s = Ret tt (set_dr_vars (cold_vars (dr_vars s)) s) o /\ shows o "[INFO] virtio-rng: no device found" []
  | Some i =>
      let k := v_kind (view (bus (dr_virtio s)) i) in
      exists s' o, virtio_rng_init plat rng_handler rng_data s = Ret tt s' o /\
        if negb (Z.testbit (k_offer k).2 0) then
          rng_refused view [0; 3; 0x83] s i s' /\ shows o "[ERROR] virtio-rng: feature negotiation failed" [] /\ dr_mm s' = dr_mm s
        else if negb (k_agrees k (0, 1)) then
          rng_refused view [0; 3; 11; 0x8b] s i s' /\ shows o "[ERROR] virtio-rng: feature negotiation failed" [] /\ dr_mm s' = dr_mm s
        else if no_page (dr_mm s) then
          rng_refused view [0; 3; 11; 0x8b] s i s' /\ shows o "[ERROR] virtio-rng: queue allocation failed" [] /\ dr_mm s' = dr_mm s
        else if k_num_max k 0 <? VIRTIO_RNG_QUEUE_SIZE then
          rng_refused view [0; 3; 11; 0x8b] s i s' /\ shows o "[ERROR] virtio-rng: queue setup failed" [] /\ fresh_queue plat (rng_vio s) (rng_vio s') 8
        else rng_runs plat view rng_handler rng_data s i s' /\ shows o "[INFO] virtio-rng: ready on slot %u irq %u" [AUint i; AUint (48 + i)]
  end.
Proof.
  intros Hplat Hdev Hon Hp. destruct (first_device view VIRTIO_DEVICE_ID_RNG (bus (dr_virtio s))) as [i|] eqn:Hfirst.
  - destruct (first_device_at view s i _ Hp Hfirst) as (d & Hf & Hsl & Hirq). pose proof (find_device_run view _ VIRTIO_DEVICE_ID_RNG Hp) as Efind. rewrite Hfirst in Efind.
    destruct s as [q mem u v0 f] eqn:Es. cbn [dr_virtio dr_mm dr_vars] in *.
    unfold virtio_rng_init. rewrite (bind_Ret_nil _ _ _ _ _ (transport_run _ _ _ _ _ _ _ _ _ Efind)), cold_run.
    destruct (begin_init_run view Hdev _ _ _ _ _ Hf) as (v1 & E1 & F1). rewrite (bind_Ret_nil _ _ _ _ _ (transport_run _ _ _ _ _ _ _ _ _ E1)). cbn [Z.eqb negb].
    pose proof (negotiate_run view Hdev _ _ _ _ _ _ _ _ _ 0 0 F1 eq_refl) as (v2 & E2). unfold device_of in *. cbn [dr_virtio] in *.
    set (k := v_kind (view (bus v0) i)) in *. set (l := v_told (view (bus v0) i)) in *. change (accepted 0 0 k) with (0, 1) in *.
    assert (Htold : v_told (device_of view s i) = l) by (by rewrite Es).
    destruct (Z.testbit (k_offer k).2 0) eqn:Hv1; cbn [negb].
    2:{ destruct E2 as [E2 F2]. rewrite (bind_Ret_nil _ _ _ _ _ (transport_run _ _ _ _ _ _ _ _ _ E2)). cbn [Z.eqb negb].
      destruct (rng_fail_run view Hdev s i v2 _ _ (cold_vars q) mem u f [0; 3; 0x83] "[ERROR] virtio-rng: feature negotiation failed" ltac:(rewrite Es; exact F2) (or_introl eq_refl))
        as (s' & o & E & Hr & Ho & Hm & _); [cbn [v_told]; rewrite Htold, <- (assoc_L (++)); reflexivity|done|by rewrite Es|done|].
      exists s', o. by rewrite Es in *. }
    destruct (k_agrees k (0, 1)) eqn:Hag; destruct E2 as [E2 F2]; rewrite (bind_Ret_nil _ _ _ _ _ (transport_run _ _ _ _ _ _ _ _ _ E2)); cbn [Z.eqb negb].
    2:{ destruct (rng_fail_run view Hdev s i v2 _ _ (cold_vars q) mem u f [0; 3; 11; 0x8b] "[ERROR] virtio-rng: feature negotiation failed" ltac:(rewrite Es; exact F2) (or_intror eq_refl))
        as (s' & o & E & Hr & Ho & Hm & _); [cbn [v_told]; rewrite Htold, <- !(assoc_L (++)); reflexivity|done|by rewrite Es|done|].
      exists s', o. by rewrite Es in *. }
    destruct (virtqueue_init_run plat Hplat (Vio (rng_queue q) mem u) VIRTIO_RNG_QUEUE_SIZE Hon ltac:(done)) as [(_ & w & E3 & Hw)|[Hno E3]].
    + rewrite (bind_Ret_nil _ _ _ _ _ (rng_queue_run _ (cold_vars q) _ _ _ _ _ _ _ E3)). cbn [Z.eqb negb].
      destruct (no_page_spec mem) as [Hnp|_].
      { destruct (fq_page _ _ _ _ Hw) as (p & Hp1 & _ & Hp2 & _). cbn [v_mm] in Hp1, Hp2. by rewrite (Hnp p Hp1) in Hp2. }
      destruct (rng_connect_run plat view Hdev rng_handler rng_data s v2 i _ k l _ w ltac:(rewrite Es; rewrite <- (assoc_L (++)) in F2; exact F2) eq_refl Hsl Hirq) as (s' & o & E & Hr).
      { unfold content. cbn [fst snd]. by rewrite Hag, (subset_version 0 _ Hv1 : subset 1 _ = true). }
      { by rewrite Htold. }
      { by rewrite Es. }
      exists s', o. rewrite Es in E. rewrite <- Es. split; [exact E|exact Hr].
    + destruct (no_page_spec mem) as [_|Hnp]; [|by destruct Hno as [|[|]]].
      rewrite (bind_Ret_nil _ _ _ _ _ (rng_queue_run _ (cold_vars q) _ _ _ _ _ _ _ E3)). cbn [Z.eqb negb].
      destruct (rng_fail_run view Hdev s i v2 _ _ (cold_vars q) mem u f [0; 3; 11; 0x8b] "[ERROR] virtio-rng: queue allocation failed" ltac:(rewrite Es; exact F2) (or_intror eq_refl))
        as (s' & o & E & Hr & Ho & Hm & _); [cbn [v_told]; rewrite Htold, <- !(assoc_L (++)); reflexivity|done|by rewrite Es|done|].
      exists s', o. by rewrite Es in *.
  - pose proof (find_device_run view _ VIRTIO_DEVICE_ID_RNG Hp) as Efind. rewrite Hfirst in Efind. destruct s as [q mem u v0 f].
    unfold virtio_rng_init. rewrite (bind_Ret_nil _ _ _ _ _ (transport_run _ _ _ _ _ _ _ _ _ Efind)), cold_run.
    destruct (shows_total "[INFO] virtio-rng: no device found" [] _ eq_refl ltac:(constructor)) as [o Ho]. exists o. split; [exact (kprintf_shows _ _ _ _ Ho)|exact Ho].
Qed.

(** ** A machine with one device *)

(** Slot 5 has an entropy source that offers more than the driver uses. *)
Definition entropy_source : vkind := Vkind 2 VIRTIO_DEVICE_ID_RNG 0x554d4551 (0x30000000, 5) (fun _ => true) (fun i => if i =? 0 then 8 else 0).
Definition cold_slots (i : Z) : vdev := Vdev (if i =? 5 then entropy_source else Vkind 2 0 0 (0, 0) (fun _ => true) (fun _ => 0)) [] 0 (0, 0) 0 0 0 (fun _ => idle_vqueue).
Definition blank_entry : virtio_mmio_device unit := VirtioMmioDevice 0 0 0 0 0 0 (0, 0) 0 0 None 0.
Definition cold_transport : virtio unit (Z -> vdev) unit := Virtio (replicate 32 blank_entry) 0 cold_slots tt.
Definition cold_rng (v : virtio unit (Z -> vdev) unit) : driver rng_state unit (Z -> vdev) unit :=
  Driver (RngState None (queue blank_queue) 0 0 0 0 0) (v_mm blank_queue) (v_mmu blank_queue) v 0.

(** The slots are probed, then the driver starts. *)
Lemma virtio_rng_init_spec_witness : exists v o1 s' o2, virtio_init cold_transport = Ret tt v o1 /\ virtio_device_total v = 1 /\
  virtio_rng_init tiny_plat tt 0 (cold_rng v) = Ret tt s' o2 /\ v_told (bus (dr_virtio s') 5) = [0; 3; 11; 15] /\ holds_queue (bus (dr_virtio s') 5) 0 (rng_queue (dr_vars s')).
Proof.
  destruct (virtio_init_run id slots_at cold_transport) as (v & o1 & E1 & Hp & Hv & Ht & _).
  - intros i Hi. unfold id, cold_transport, cold_slots. cbn [bus v_kind]. destruct (i =? 5); split; by vm_compute.
  - intros i Hi. unfold rd. rewrite (proj2 (Z.leb_le 0 i)) by lia. cbn [virtio_devices cold_transport]. apply lookup_lt_is_Some. rewrite length_replicate. lia.
  - assert (Hs : forall i, bus v i = cold_slots i) by exact Hv.
    assert (Hfirst : first_device id VIRTIO_DEVICE_ID_RNG (bus v) = Some 5).
    { unfold first_device, id. change (seqZ 0 32) with [0;1;2;3;4;5;6;7;8;9;10;11;12;13;14;15;16;17;18;19;20;21;22;23;24;25;26;27;28;29;30;31]. cbn [List.find]. rewrite !Hs. reflexivity. }
    pose proof (virtio_rng_init_spec tiny_plat id tt 0 (cold_rng v) tiny_plat_wf slots_at tiny_pmm_on Hp) as Hrun. cbn [cold_rng dr_virtio] in Hrun. rewrite Hfirst in Hrun.
    destruct Hrun as (s' & o2 & E2 & Hr). unfold id in Hr. rewrite Hs in Hr. 
    change (v_kind (cold_slots 5)) with entropy_source in Hr. change (negb (Z.testbit (k_offer entropy_source).2 0)) with false in Hr. change (negb (k_agrees entropy_source (0, 1))) with false in Hr.
    assert (Hnp : no_page (dr_mm (cold_rng v)) = false) by (change (dr_mm (cold_rng v)) with tiny_mm; by vm_compute). rewrite Hnp in Hr.
    change (k_num_max entropy_source 0 <? VIRTIO_RNG_QUEUE_SIZE) with false in Hr. destruct Hr as [[_ [Htold _] _ [_ Hq] _ _] _].
    unfold device_of in Htold, Hq. cbn [cold_rng dr_virtio] in Htold. rewrite Hs in Htold.
    exists v, o1, s', o2. split; [exact E1|]. split; [rewrite Ht; reflexivity|]. split; [exact E2|].
    split; [exact Htold|exact Hq].
Defined.
