(* ===== verification/VirtioBlk.v ===== *)
(** The driver of the block device (src/src/drivers/virtio_blk.c): a request is
    a chain of three descriptors, for a header, the data and a status byte; the
    driver polls for its end. The buffers are addresses in memory. *)
From S2P Require Import Prelude LibString Klog Memory BlockDevice MMU Bus Virtqueue VirtioMmio Spinlock VirtioDriver.

Definition VIRTIO_BLK_QUEUE_INDEX : Z := 0.
Definition VIRTIO_BLK_QUEUE_SIZE : Z := 8.
Definition VIRTIO_BLK_BLOCK_SIZE : Z := 512.
Definition VIRTIO_BLK_T_IN : Z := 0.
Definition VIRTIO_BLK_T_OUT : Z := 1.
Definition VIRTIO_BLK_S_OK : Z := 0.
Definition VIRTIO_BLK_CONFIG_CAPACITY_LOW : Z := 0x100.
Definition VIRTIO_BLK_CONFIG_CAPACITY_HIGH : Z := 0x104.

(** [struct virtio_blk_request_header]: its fields and its size. *)
Definition header_type (header : Z) : Z := header.
Definition header_reserved (header : Z) : Z := header + 4.
Definition header_sector (header : Z) : Z := header + 8.
Definition sizeof_request_header : Z := 16.

(** The state; of its [block_device] the geometry. The request header and status
    are in memory, where the device finds them. *)
Record blk_state : Type := BlkState {
  vb_device : option Z;
  vb_block_size : Z;
  vb_block_count : Z;
  vb_writable : bool;
  vb_queue : virtqueue;
  vb_lock : Z;
  request_done : Z;
  request_busy : Z;
  request_used_len : Z;
  request_buffer : Z;
  request_block_count : Z;
  header_desc : Z;
  data_desc : Z;
  status_desc : Z
}.
Definition set_vb_device v s : blk_state := BlkState v (vb_block_size s) (vb_block_count s) (vb_writable s) (vb_queue s) (vb_lock s) (request_done s) (request_busy s) (request_used_len s) (request_buffer s) (request_block_count s) (header_desc s) (data_desc s) (status_desc s).
Definition set_vb_queue v s : blk_state := BlkState (vb_device s) (vb_block_size s) (vb_block_count s) (vb_writable s) v (vb_lock s) (request_done s) (request_busy s) (request_used_len s) (request_buffer s) (request_block_count s) (header_desc s) (data_desc s) (status_desc s).
Definition set_vb_lock v s : blk_state := BlkState (vb_device s) (vb_block_size s) (vb_block_count s) (vb_writable s) (vb_queue s) v (request_done s) (request_busy s) (request_used_len s) (request_buffer s) (request_block_count s) (header_desc s) (data_desc s) (status_desc s).
(** The request: done, busy, the length the device used. *)
Definition set_request done busy used_len s : blk_state := BlkState (vb_device s) (vb_block_size s) (vb_block_count s) (vb_writable s) (vb_queue s) (vb_lock s) done busy used_len (request_buffer s) (request_block_count s) (header_desc s) (data_desc s) (status_desc s).
Definition set_request_data buffer count s : blk_state := BlkState (vb_device s) (vb_block_size s) (vb_block_count s) (vb_writable s) (vb_queue s) (vb_lock s) (request_done s) (request_busy s) (request_used_len s) buffer count (header_desc s) (data_desc s) (status_desc s).
Definition set_request_descs h d t s : blk_state := BlkState (vb_device s) (vb_block_size s) (vb_block_count s) (vb_writable s) (vb_queue s) (vb_lock s) (request_done s) (request_busy s) (request_used_len s) (request_buffer s) (request_block_count s) h d t.
Definition set_geometry size count s : blk_state := BlkState (vb_device s) size count true (vb_queue s) (vb_lock s) (request_done s) (request_busy s) (request_used_len s) (request_buffer s) (request_block_count s) (header_desc s) (data_desc s) (status_desc s).
Definition zero_blk_state : blk_state := BlkState None 0 0 false (Virtqueue 0 0 0 0 0 0 0 0 0 0) 0 0 0 0 0 0 0 0 0.

Section blk.
Context {H D W : Type} `{Hardware D} (plat : platform).
(** The addresses of [request_header] and [request_status]. *)
Context (header_at status_at : Z).
(** The address of [virtio_blk_irq] as the transport keeps it, that of the state;
    and [block_register_device] of the structure with this geometry: the registry
    holds the state of every driver, this one's too. *)
Context (blk_handler : H) (blk_data : Z) (register_device : Z -> Z -> M (driver blk_state H D W) Z).
Abbreviation state := (driver blk_state H D W).
Implicit Types s : state.

Definition on_blk_queue {A} (m : M vio A) : M state A := with_queue vb_queue set_vb_queue m.
Definition on_blk_lock {A} (m : M masked_lock A) : M state A := with_lock vb_lock set_vb_lock m.

Definition virtio_blk_read_capacity (device : Z) : M state Z :=
  low <- on_transport (virtio_mmio_read32 device VIRTIO_BLK_CONFIG_CAPACITY_LOW);;
  high <- on_transport (virtio_mmio_read32 device VIRTIO_BLK_CONFIG_CAPACITY_HIGH);;
  ret (Z.lor low (u64 (Z.shiftl high 32))).

Definition virtio_blk_free_pending_chain : M state unit :=
  v <- dr_var id;;
  on_blk_queue (virtqueue_free_desc (header_desc v));;
  on_blk_queue (virtqueue_free_desc (data_desc v));;
  on_blk_queue (virtqueue_free_desc (status_desc v)).

(** The loop over the used ring: less than 65536 elements, as the index of the
    ring stays while it runs. *)
Fixpoint complete_loop (fuel : nat) : M state unit :=
  e <- on_blk_queue virtqueue_pop_used;;
  match e with
  | None => ret tt
  | Some (head_index, used_len) =>
      match fuel with
      | O => undef
      | S fuel' =>
          v <- dr_var id;;
          if (request_busy v =? 0) || negb (head_index =? header_desc v) then complete_loop fuel'
          else
            virtio_blk_free_pending_chain;;
            dr_assign (set_request 1 0 used_len);;
            complete_loop fuel'
      end
  end.
Definition virtio_blk_complete_used : M state unit := complete_loop (Z.to_nat (2 ^ 16)).

Definition virtio_blk_irq (interrupt_status : Z) : M state unit :=
  (if negb (Z.land interrupt_status VIRTIO_INTERRUPT_CONFIG_CHANGE =? 0) then kprintf (nl "[INFO] virtio-blk: config change IRQ") [] else ret tt);;
  if Z.land interrupt_status VIRTIO_INTERRUPT_USED_RING =? 0 then ret tt else virtio_blk_complete_used.

Definition virtio_blk_available : M state bool := d <- dr_var vb_device;; is_initialized d.
Definition virtio_blk_writable : M state bool := available <- virtio_blk_available;; v <- dr_var id;; ret (available && vb_writable v).

(** [while (!request_done) virtio_blk_complete_used();]: the device may act and
    interrupt in every round. *)
Fixpoint poll_loop (fuel : nat) (turn : device_turn D) : M state unit :=
  done <- dr_var request_done;;
  if negb (done =? 0) then ret tt
  else
    match fuel with
    | O => undef
    | S fuel' =>
        status <- give_turn turn;;
        (match status with Some v => virtio_blk_irq v | None => ret tt end);;
        virtio_blk_complete_used;;
        poll_loop fuel' turn
    end.

(** The three descriptors of a request; if one is missing, none is kept. *)
Definition alloc_chain : M state (option (Z * Z * Z)) :=
  h <- on_blk_queue (virtqueue_alloc_desc (Some tt));;
  d <- on_blk_queue (virtqueue_alloc_desc (Some tt));;
  t <- on_blk_queue (virtqueue_alloc_desc (Some tt));;
  if (h <? 0) || (d <? 0) || (t <? 0) then
    (if 0 <=? t then on_blk_queue (virtqueue_free_desc (u16 t)) else ret tt);;
    (if 0 <=? d then on_blk_queue (virtqueue_free_desc (u16 d)) else ret tt);;
    (if 0 <=? h then on_blk_queue (virtqueue_free_desc (u16 h)) else ret tt);;
    ret None
  else ret (Some (h, d, t)).

(** The header and the status byte, and the chain that leads the device to them. *)
Definition write_request (request_type start_block : Z) : M vio unit :=
  store 4 (header_type header_at) request_type;;
  store 4 (header_reserved header_at) 0;;
  store 8 (header_sector header_at) start_block;;
  store 1 status_at 0xff.
Definition write_chain (request_type buffer byte_count h d t : Z) : M vio unit :=
  write_desc h header_at sizeof_request_header VIRTQ_DESC_F_NEXT (u16 d);;
  write_desc d buffer (u32 byte_count) (if request_type =? VIRTIO_BLK_T_IN then Z.lor VIRTQ_DESC_F_NEXT VIRTQ_DESC_F_WRITE else VIRTQ_DESC_F_NEXT) (u16 t);;
  write_desc t status_at 1 VIRTQ_DESC_F_WRITE 0.

(** From the request's header to the notification of the device. *)
Definition start_request (request_type start_block block_count buffer byte_count h d t flags : Z) : M state unit :=
  on_blk_queue (write_request request_type start_block);;
  dr_assign (set_request 0 1 0);;
  dr_assign (set_request_data buffer block_count);;
  dr_assign (set_request_descs (u16 h) (u16 d) (u16 t));;
  on_blk_queue (write_chain request_type buffer byte_count h d t);;
  on_cache (mmu_sync_for_device header_at sizeof_request_header);;
  on_cache (mmu_sync_for_device buffer byte_count);;
  on_cache (mmu_sync_for_device status_at 1);;
  on_blk_queue (virtqueue_submit (u16 h));;
  slot0 <- dr_var vb_device;;
  slot0 <- deref slot0;;
  on_transport (virtio_mmio_notify_queue slot0 VIRTIO_BLK_QUEUE_INDEX);;
  on_blk_lock (spin_unlock_irqrestore flags).
(** Behind the polling loop. *)
Definition finish_request (request_type buffer byte_count : Z) : M state Z :=
  (if request_type =? VIRTIO_BLK_T_IN then on_cache (mmu_sync_for_cpu buffer byte_count) else ret tt);;
  on_cache (mmu_sync_for_cpu status_at 1);;
  status <- on_blk_queue (load 1 status_at);;
  used_len <- dr_var request_used_len;;
  ret (if negb (status =? VIRTIO_BLK_S_OK) || (used_len <? 1) then -1 else 0).

(** [device] is the state's own [block_device]; a null one is [None]. *)
Definition virtio_blk_transfer (fuel : nat) (turn : device_turn D) (device : option unit) (request_type start_block block_count buffer : Z) : M state Z :=
  if is_null device || (buffer =? 0) || (block_count =? 0) then ret (-1)
  else
    available <- virtio_blk_available;;
    if negb (available : bool) then ret (-1)
    else
      v <- dr_var id;;
      if (vb_block_count v <=? start_block) || (vb_block_count v - start_block <? block_count) then ret (-1)
      else
        let byte_count := u64 (block_count * vb_block_size v) in
        blocks <- deref (if vb_block_size v =? 0 then None else Some (byte_count / vb_block_size v));;
        if negb (blocks =? block_count) then ret (-1)
        else
          flags <- on_blk_lock spin_lock_irqsave;;
          busy <- dr_var request_busy;;
          if negb (busy =? 0) then on_blk_lock (spin_unlock_irqrestore flags);; ret (-1)
          else
            chain <- alloc_chain;;
            match chain with
            | None => on_blk_lock (spin_unlock_irqrestore flags);; ret (-1)
            | Some (h, d, t) =>
                start_request request_type start_block block_count buffer byte_count h d t flags;;
                poll_loop fuel turn;;
                finish_request request_type buffer byte_count
            end.

Definition virtio_blk_read_blocks_fn (fuel : nat) (turn : device_turn D) (device : option unit) (start_block block_count buffer : Z) : M state Z :=
  virtio_blk_transfer fuel turn device VIRTIO_BLK_T_IN start_block block_count buffer.
Definition virtio_blk_write_blocks_fn (fuel : nat) (turn : device_turn D) (device : option unit) (start_block block_count buffer : Z) : M state Z :=
  virtio_blk_transfer fuel turn device VIRTIO_BLK_T_OUT start_block block_count buffer.

Definition blk_fail (device : Z) (message : string) : M state unit :=
  kprintf (nl message) [];; on_transport (virtio_mmio_fail device).

Definition virtio_blk_init : M state unit :=
  dr_assign (fun _ => zero_blk_state);;
  on_blk_queue (clear header_at sizeof_request_header);;
  on_blk_queue (clear status_at 1);;
  device <- on_transport (virtio_find_device VIRTIO_DEVICE_ID_BLOCK 0);;
  match device with
  | None => kprintf (nl "[INFO] virtio-blk: no device found") []
  | Some d =>
      r <- on_transport (virtio_mmio_begin_init d);;
      if negb (r =? 0) then kprintf (nl "[ERROR] virtio-blk: reset/init failed") []
      else
        r <- on_transport (virtio_mmio_negotiate_features d 0 0);;
        if negb (r =? 0) then blk_fail d "[ERROR] virtio-blk: feature negotiation failed"
        else
          r <- on_blk_queue (virtqueue_init plat (Some tt) VIRTIO_BLK_QUEUE_SIZE);;
          if negb (r =? 0) then blk_fail d "[ERROR] virtio-blk: queue allocation failed"
          else
            q <- dr_var vb_queue;;
            r <- on_transport (virtio_mmio_setup_queue d VIRTIO_BLK_QUEUE_INDEX q);;
            if negb (r =? 0) then blk_fail d "[ERROR] virtio-blk: queue setup failed"
            else
              capacity <- virtio_blk_read_capacity d;;
              if capacity =? 0 then blk_fail d "[ERROR] virtio-blk: zero capacity"
              else
                dr_assign (set_geometry VIRTIO_BLK_BLOCK_SIZE capacity);;
                r <- register_device VIRTIO_BLK_BLOCK_SIZE capacity;;
                if negb (r =? 0) then blk_fail d "[ERROR] virtio-blk: block register failed"
                else
                  on_transport (virtio_mmio_set_irq_handler d (Some blk_handler) blk_data);;
                  on_transport (virtio_mmio_finish_init d);;
                  dr_assign (set_vb_device (Some d));;
                  v <- dr_var id;;
                  kprintf (nl "[INFO] virtio-blk: ready as %s blocks=%u") [AStr (Some (cstr "vda")); AUint (u32 (vb_block_count v))]
  end.
End blk.
