(* ===== verification/VirtioBlkLaws.v ===== *)
(** A transfer of the block driver against a device that reads the chains in
    memory, flags included, and serves them as the virtio specification has it:
    the data moves between the buffer and the sectors asked for, nothing else of
    memory changes, and the descriptors come back. *)
From S2P Require Import Prelude LibString Klog Memory BlockDevice MMU Bus Virtqueue VirtioMmio Spinlock VirtioDriver VirtioBlk.

(** ** The device *)

Definition dma_read (r : Z -> Z) (a n : Z) : list Z := map (fun k => u8 (r (a + k))) (seqZ 0 n).
Definition dma_write (a : Z) (l : list Z) (r : Z -> Z) : Z -> Z :=
  fun x => if (a <=? x) && (x <? a + lenZ l) then nth (Z.to_nat (x - a)) l 0 else r x.

(** The element that tells the driver that request [e.1] is done. *)
Definition used_write (q : virtqueue) (e : Z * Z) (r : Z -> Z) : Z -> Z :=
  let slot := ld 2 r (used_idx (used q)) mod Virtqueue.size q in
  st 2 (st 4 (st 4 r (elem_id (used_ring q) slot) e.1) (elem_len (used_ring q) slot) e.2) (used_idx (used q)) (u16 (ld 2 r (used_idx (used q)) + 1)).

(** A part of a request: where it lies, and whether the device writes it. *)
Record part : Type := Part { pt_addr : Z; pt_len : Z; pt_writes : bool }.

(** The chain that starts at descriptor [i]: a part is the device's to write
    when the descriptor has [VIRTQ_DESC_F_WRITE], and the chain goes on while it
    has [VIRTQ_DESC_F_NEXT], for at most [fuel] parts. *)
Fixpoint parts (fuel : nat) (table i : Z) (r : Z -> Z) : list part :=
  match fuel with
  | O => []
  | S fuel' =>
      let flags := ld 2 r (desc_flags table i) in
      Part (ld 8 r (desc_addr table i)) (ld 4 r (desc_len table i)) (negb (Z.land flags VIRTQ_DESC_F_WRITE =? 0)) ::
      (if Z.land flags VIRTQ_DESC_F_NEXT =? 0 then [] else parts fuel' table (ld 2 r (desc_next table i)) r)
  end.

(** A block request: a header that the device reads, data that it writes when it
    is to read the disk and reads when it is to write it, and a status byte that
    it writes. A request outside of the disk fails (1), an unknown one is not
    supported (2). For a chain of another form nothing is promised. *)
Definition answer (q : virtqueue) (h : Z) (l : list part) (disk : list Z) (r : Z -> Z) : option ((Z -> Z) * list Z) :=
  match l with
  | [Part header 16 false; Part data len writes; Part status 1 true] =>
      let pos := 512 * ld 8 r (header_sector header) in
      let kind := ld 4 r (header_type header) in
      if (kind =? 0) || (kind =? 1) then
        if negb (Bool.eqb writes (kind =? 0)) then None
        else if lenZ disk <? pos + len then Some (used_write q (h, 1) (st 1 r status 1), disk)
        else if kind =? 0 then Some (used_write q (h, len + 1) (st 1 (dma_write data (slice disk (Z.to_nat pos) (Z.to_nat len)) r) status 0), disk)
        else Some (used_write q (h, 1) (st 1 r status 0), splice disk (Z.to_nat pos) (dma_read r data len))
      else Some (used_write q (h, 1) (st 1 r status 2), disk)
  | _ => None
  end.
(** Request number [served]. *)
Definition serve (q : virtqueue) (served : Z) (disk : list Z) (r : Z -> Z) : option ((Z -> Z) * list Z) :=
  let h := ld 2 r (avail_ring q + 2 * (served mod Virtqueue.size q)) in
  answer q h (parts (Z.to_nat (Virtqueue.size q)) (desc q) h r) disk r.

(** The hardware has such a device: [served] requests are done, [disk] are its
    bytes, and it takes [delay] turns for the next request. It may interrupt
    when a request is done. *)
Record disk_behind {D} `{Hardware D} (q : virtqueue) (turn : device_turn D) (served : D -> Z) (disk : D -> list Z) (delay : D -> nat) : Prop := {
  db_serves : forall m h r bytes, delay h = 0%nat -> ld 2 (ram m) (avail_idx (avail q)) = u16 (served h + 1) ->
    serve q (served h) (disk h) (ram m) = Some (r, bytes) ->
    exists h' status, turn m h = (set_ram r m, h', status) /\ served h' = served h + 1 /\ disk h' = bytes /\
      (status = None \/ status = Some VIRTIO_INTERRUPT_USED_RING);
  db_waits : forall m h k, delay h = S k ->
    exists h', turn m h = (m, h', None) /\ served h' = served h /\ disk h' = disk h /\ delay h' = k;
  db_write : forall a v h, served (mmio_write a v h) = served h /\ disk (mmio_write a v h) = disk h /\ delay (mmio_write a v h) = delay h
}.

(** ** Descriptors in memory *)

Record desc_is (r : Z -> Z) (table i addr len flags next : Z) : Prop := {
  di_addr : ld 8 r (desc_addr table i) = addr;
  di_len : ld 4 r (desc_len table i) = len;
  di_flags : ld 2 r (desc_flags table i) = flags;
  di_next : ld 2 r (desc_next table i) = next
}.

Lemma desc_is_ext r r' table i addr len flags next :
  (forall x, table + 16 * i <= x < table + 16 * i + 16 -> r' x = r x) -> desc_is r table i addr len flags next -> desc_is r' table i addr len flags next.
Proof.
  unfold desc_addr, desc_len, desc_flags, desc_next. intros He [H1 H2 H3 H4].
  split; (etransitivity; [apply ld_ext; intros x Hx; apply He; unfold desc_addr, desc_len, desc_flags, desc_next in Hx; lia|assumption]).
Qed.

(** The memory with a descriptor written. *)
Definition desc_written (table i addr len flags next : Z) (r : Z -> Z) : Z -> Z :=
  st 2 (st 2 (st 4 (st 8 r (desc_addr table i) addr) (desc_len table i) len) (desc_flags table i) flags) (desc_next table i) next.

Lemma desc_written_is table i addr len flags next r :
  0 <= addr < 2 ^ 64 -> 0 <= len < 2 ^ 32 -> 0 <= flags < 2 ^ 16 -> 0 <= next < 2 ^ 16 ->
  desc_is (desc_written table i addr len flags next r) table i addr len flags next.
Proof.
  intros Ha Hl Hf Hn. unfold desc_written. split; unfold desc_addr, desc_len, desc_flags, desc_next in *.
  - rewrite !(ld_st_other 8) by lia. by apply ld_st_same.
  - rewrite !(ld_st_other 4 2) by lia. by apply ld_st_same.
  - rewrite (ld_st_other 2 2) by lia. by apply ld_st_same.
  - by apply ld_st_same.
Qed.

Lemma st_skip n r a v x : ~ a <= x < a + Z.of_nat n -> st n r a v x = r x.
Proof. intros Hx. unfold st. destruct (Z.leb_spec a x), (Z.ltb_spec x (a + Z.of_nat n)); cbn [andb]; done || lia. Qed.

Lemma desc_written_outside table i addr len flags next r x :
  ~ table + 16 * i <= x < table + 16 * i + 16 -> desc_written table i addr len flags next r x = r x.
Proof. intros Hx. unfold desc_written, desc_addr, desc_len, desc_flags, desc_next. by rewrite !st_skip by lia. Qed.

(** Assigning the fields of a descriptor. *)
Lemma write_desc_run i addr len flags next v :
  write_desc i addr len flags next v = Ret tt (set_v_mm (set_ram (desc_written (desc (queue v)) i addr len flags next (mem_of v)) (v_mm v)) v) [].
Proof.
  unfold write_desc, fill_desc, mark_desc, chain_desc. repeat (first [rewrite bind_assoc | rewrite bind_gets | rewrite bind_store]). by destruct v as [? [] ?].
Qed.

(** *** The bytes of a buffer *)

Lemma dma_read_length r a n : 0 <= n -> lenZ (dma_read r a n) = n.
Proof. intros Hn. unfold dma_read, lenZ. rewrite length_map, length_seqZ. lia. Qed.

Lemma dma_read_ext r r' a n : (forall x, a <= x < a + n -> r' x = r x) -> dma_read r' a n = dma_read r a n.
Proof.
  intros He. unfold dma_read. apply map_ext_in. intros k Hk. apply list_elem_of_In, elem_of_seqZ in Hk. by rewrite He by lia.
Qed.

Lemma dma_read_write r a l : Forall (fun b => 0 <= b < 256) l -> dma_read (dma_write a l r) a (lenZ l) = l.
Proof.
  intros Hl. apply list_eq. intros i. unfold dma_read. change (map ?f ?k) with (f <$> k). rewrite list_lookup_fmap. destruct (decide (i < length l)%nat) as [Hi|Hi].
  - rewrite lookup_seqZ_lt by (unfold lenZ; lia). cbn [fmap option_fmap option_map]. unfold dma_write.
    rewrite (proj2 (Z.leb_le _ _)), (proj2 (Z.ltb_lt _ _)) by (unfold lenZ; lia). cbn [andb].
    replace (Z.to_nat (a + (0 + Z.of_nat i) - a)) with i by lia. destruct (lookup_lt_is_Some_2 l i Hi) as [b Hb]. rewrite Hb.
    rewrite (nth_lookup_Some _ _ _ _ Hb). f_equal. apply u8_small. exact (proj1 (Forall_lookup _ _) Hl i b Hb).
  - rewrite (lookup_ge_None_2 l) by lia. rewrite lookup_ge_None_2; [done|]. rewrite length_seqZ. unfold lenZ. lia.
Qed.

Lemma dma_write_outside r a l x : ~ a <= x < a + lenZ l -> dma_write a l r x = r x.
Proof. intros Hx. unfold dma_write. destruct (Z.leb_spec a x), (Z.ltb_spec x (a + lenZ l)); cbn [andb]; done || lia. Qed.

(** ** The driver's steps *)

Section steps.
Context {H D W : Type} `{Hardware D} (header_at status_at : Z).
Abbreviation state := (driver blk_state H D W).
Implicit Types (b s : state) (v : vio).

Definition vio_of s : vio := Vio (vb_queue (dr_vars s)) (dr_mm s) (dr_mmu s).
(** The driver with another queue, memory and cache. *)
Definition put_vio v s : state := Driver (set_vb_queue (queue v) (dr_vars s)) (v_mm v) (v_mmu v) (dr_virtio s) (dr_daif s).
Definition with_vars (f : blk_state -> blk_state) s : state := set_dr_vars (f (dr_vars s)) s.

Lemma put_vio_of s : put_vio (vio_of s) s = s.
Proof. by destruct s as [[]]. Qed.

Lemma on_queue_run {A} (m : M vio A) v a v' o b : m v = Ret a v' o -> on_blk_queue m (put_vio v b) = Ret a (put_vio v' b) o.
Proof. intros E. unfold on_blk_queue, with_queue. destruct v as [q m1 u]. erewrite zoom_Ret; [|exact E]. reflexivity. Qed.

Lemma lock_run v b : vb_lock (dr_vars b) = 0 ->
  on_blk_lock spin_lock_irqsave (put_vio v b) = Ret (dr_daif b) (put_vio v (set_dr_daif (Z.lor (dr_daif b) 0x80) (with_vars (set_vb_lock 1) b))) [].
Proof.
  intros Hl. unfold on_blk_lock, with_lock, zoom. cbn [dr_vars dr_daif put_vio]. change (vb_lock (set_vb_queue (queue v) (dr_vars b))) with (vb_lock (dr_vars b)).
  rewrite Hl. reflexivity.
Qed.
Lemma unlock_run flags v b :
  on_blk_lock (spin_unlock_irqrestore flags) (put_vio v b) = Ret tt (put_vio v (set_dr_daif flags (with_vars (set_vb_lock 0) b))) [].
Proof. reflexivity. Qed.

Lemma cache_run (m : M mmu unit) v u b : m (v_mmu v) = Ret tt u [] -> on_cache m (put_vio v b) = Ret tt (put_vio (set_v_mmu u v) b) [].
Proof. intros E. unfold on_cache. erewrite zoom_Ret; [|exact E]. reflexivity. Qed.

(** A queue whose users own [o], with what was submitted and completed. *)
Abbreviation queue_ok v o sub del pen := (shared_ok (Shared v o sub del pen)).

Lemma alloc_run v o sub del pen : queue_ok v o sub del pen -> lenZ o < size (queue v) ->
  exists i v', virtqueue_alloc_desc (Some tt) v = Ret i v' [] /\ (i ∉ o) /\ 0 <= i < size (queue v) /\ same_queue v v' /\ queue_ok v' (i :: o) sub del pen.
Proof.
  intros Hok Hl. pose proof Hok as [Hly Hd _]. pose proof (alloc_desc_run v o Hly Hd) as Ha. rewrite decide_False in Ha by (cbn in *; lia).
  destruct Ha as (i & v' & E & Hi & Hr & Hs & _). exists i, v'. split; [done|]. split; [done|]. split; [done|]. split; [done|].
  eapply vq_step_ok; [exact Hok|]. apply StepAlloc; [done|lia].
Qed.

Lemma free_run v i o o' sub del pen : queue_ok v o sub del pen -> o ≡ₚ i :: o' ->
  exists v', virtqueue_free_desc i v = Ret tt v' [] /\ same_queue v v' /\ queue_ok v' o' sub del pen.
Proof.
  intros Hok Ho. pose proof Hok as [Hly Hd _]. destruct (free_desc_run v o' i Hly) as (v' & E & Hs & _); [by eapply descs_perm|].
  exists v'. split; [done|]. split; [done|]. eapply vq_step_ok; [exact Hok|]. by eapply StepFree.
Qed.

Lemma alloc_chain_run v b sub del : queue_ok v [] sub del [] -> 3 <= size (queue v) ->
  exists h d t v', alloc_chain (put_vio v b) = Ret (Some (h, d, t)) (put_vio v' b) [] /\
    NoDup [t; d; h] /\ 0 <= h < size (queue v) /\ 0 <= d < size (queue v) /\ 0 <= t < size (queue v) /\
    same_queue v v' /\ queue_ok v' [t; d; h] sub del [].
Proof.
  intros Hok Hsize. unfold alloc_chain.
  destruct (alloc_run v [] sub del [] Hok ltac:(unfold lenZ; cbn; lia)) as (h & v1 & E1 & _ & Hh & Hs1 & Hok1). pose proof (sq_size _ _ Hs1) as Hz1.
  destruct (alloc_run v1 [h] sub del [] Hok1 ltac:(unfold lenZ; cbn; lia)) as (d & v2 & E2 & Hd & Hdr & Hs2 & Hok2). pose proof (sq_size _ _ Hs2) as Hz2.
  destruct (alloc_run v2 [d; h] sub del [] Hok2 ltac:(unfold lenZ; cbn; lia)) as (t & v3 & E3 & Ht & Htr & Hs3 & Hok3).
  rewrite (bind_Ret_nil _ _ _ _ _ (on_queue_run _ _ _ _ _ _ E1)), (bind_Ret_nil _ _ _ _ _ (on_queue_run _ _ _ _ _ _ E2)), (bind_Ret_nil _ _ _ _ _ (on_queue_run _ _ _ _ _ _ E3)).
  rewrite (proj2 (Z.ltb_ge h 0)), (proj2 (Z.ltb_ge d 0)), (proj2 (Z.ltb_ge t 0)) by lia. cbn [orb].
  exists h, d, t, v3. split; [done|]. split; [|split; [done|split; [lia|split; [lia|split; [|done]]]]].
  - constructor; [done|]. constructor; [done|]. constructor; [|constructor]. by apply not_elem_of_nil.
  - eapply same_queue_trans; [exact Hs1|]. by eapply same_queue_trans.
Qed.

(** Writing a descriptor that is owned. *)
Lemma fill_ok v o sub del pen i addr len flags next : queue_ok v o sub del pen -> i ∈ o ->
  let v' := set_v_mm (set_ram (desc_written (desc (queue v)) i addr len flags next (mem_of v)) (v_mm v)) v in
  queue_ok v' o sub del pen /\ same_queue v v'.
Proof.
  intros Hok Hi v'. pose proof Hok as [Hly Hd _]. cbn in Hly, Hd. assert (Hir : 0 <= i < size (queue v)) by (apply (do_range _ _ Hd), elem_of_app; by right).
  set (a := desc (queue v)). set (v1 := poke 8 (desc_addr a i) addr v). set (v2 := poke 4 (desc_len a i) len v1). set (v3 := poke 2 (desc_flags a i) flags v2).
  assert (E : v' = poke 2 (desc_next a i) next v3) by (destruct v as [? [] ?]; reflexivity). 
  assert (Hmem : mem_of v' = desc_written a i addr len flags next (mem_of v)) by reflexivity. clearbody v'. subst v'. split.
  - pose proof (vq_step_ok _ _ Hok (StepFill v o sub del pen i 8 (desc_addr a i) addr Hi ltac:(unfold desc_addr; fold a; lia) ltac:(unfold desc_addr; fold a; lia))) as H1. fold v1 in H1.
    pose proof (vq_step_ok _ _ H1 (StepFill v1 o sub del pen i 4 (desc_len a i) len Hi ltac:(unfold desc_len; cbn; fold a; lia) ltac:(unfold desc_len; cbn; fold a; lia))) as H2'. fold v2 in H2'.
    pose proof (vq_step_ok _ _ H2' (StepFill v2 o sub del pen i 2 (desc_flags a i) flags Hi ltac:(unfold desc_flags; cbn; fold a; lia) ltac:(unfold desc_flags; cbn; fold a; lia))) as H3. fold v3 in H3.
    exact (vq_step_ok _ _ H3 (StepFill v3 o sub del pen i 2 (desc_next a i) next Hi ltac:(unfold desc_next; cbn; fold a; lia) ltac:(unfold desc_next; cbn; fold a; lia))).
  - destruct Hly. cbn in *. fold a in ly_desc. split; try done. intros x Hx. transitivity (desc_written a i addr len flags next (mem_of v) x); [by rewrite <- Hmem|]. apply desc_written_outside. lia.
Qed.

(** The memory outside of the page may change. *)
Lemma outside_ok v o sub del pen r : queue_ok v o sub del pen -> (forall a, page (queue v) <= a < page (queue v) + 4096 -> r a = mem_of v a) ->
  queue_ok (set_v_mm (set_ram r (v_mm v)) v) o sub del pen.
Proof.
  intros Hok Hr. pose proof (vq_step_ok _ _ Hok (StepOther v o sub del pen r (v_mmu v) Hr)) as H1. by destruct v as [? [] ?].
Qed.

Definition header_written (kind start : Z) (r : Z -> Z) : Z -> Z :=
  st 1 (st 8 (st 4 (st 4 r (header_type header_at) kind) (header_reserved header_at) 0) (header_sector header_at) start) status_at 0xff.
Lemma write_request_run kind start v :
  write_request header_at status_at kind start v = Ret tt (set_v_mm (set_ram (header_written kind start (mem_of v)) (v_mm v)) v) [].
Proof. unfold write_request. repeat (first [rewrite bind_assoc | rewrite bind_store]). by destruct v as [? [] ?]. Qed.

Definition data_flags (kind : Z) : Z := if kind =? VIRTIO_BLK_T_IN then Z.lor VIRTQ_DESC_F_NEXT VIRTQ_DESC_F_WRITE else VIRTQ_DESC_F_NEXT.
Definition chain_written (kind buffer bytes h d t table : Z) (r : Z -> Z) : Z -> Z :=
  desc_written table t status_at 1 VIRTQ_DESC_F_WRITE 0
    (desc_written table d buffer bytes (data_flags kind) t (desc_written table h header_at sizeof_request_header VIRTQ_DESC_F_NEXT d r)).
Lemma write_chain_run kind buffer bytes h d t v : 0 <= bytes < 2 ^ 32 -> 0 <= d < 2 ^ 16 -> 0 <= t < 2 ^ 16 ->
  write_chain header_at status_at kind buffer bytes h d t v =
  Ret tt (set_v_mm (set_ram (chain_written kind buffer bytes h d t (desc (queue v)) (mem_of v)) (v_mm v)) v) [].
Proof.
  intros Hb Hd Ht. unfold write_chain. rewrite u32_small, !u16_small by lia. fold (data_flags kind).
  rewrite (bind_Ret_nil _ _ _ _ _ (write_desc_run _ _ _ _ _ _)), (bind_Ret_nil _ _ _ _ _ (write_desc_run _ _ _ _ _ _)), write_desc_run.
  by destruct v as [? [] ?].
Qed.

Lemma chain_ok v o sub del pen kind buffer bytes h d t : queue_ok v o sub del pen -> h ∈ o -> d ∈ o -> t ∈ o ->
  let v' := set_v_mm (set_ram (chain_written kind buffer bytes h d t (desc (queue v)) (mem_of v)) (v_mm v)) v in
  queue_ok v' o sub del pen /\ same_queue v v'.
Proof.
  intros Hok Hh Hd Ht v'. pose proof (fill_ok v o sub del pen h header_at sizeof_request_header VIRTQ_DESC_F_NEXT d Hok Hh) as [Hok1 Hs1]. cbv zeta in Hok1, Hs1.
  pose proof (fill_ok _ o sub del pen d buffer bytes (data_flags kind) t Hok1 Hd) as [Hok2 Hs2]. cbv zeta in Hok2, Hs2.
  pose proof (fill_ok _ o sub del pen t status_at 1 VIRTQ_DESC_F_WRITE 0 Hok2 Ht) as [Hok3 Hs3]. cbv zeta in Hok3, Hs3.
  destruct v as [q [] u]. split; [exact Hok3|]. eapply same_queue_trans; [exact Hs1|]. eapply same_queue_trans; [exact Hs2|]. exact Hs3.
Qed.

Lemma submit_step v o sub del head : queue_ok v o sub del [] -> 0 <= head < 2 ^ 16 ->
  exists v', virtqueue_submit head v = Ret tt v' [] /\ same_queue v v' /\ table_kept v v' /\ queue_ok v' o (sub ++ [head]) del [].
Proof.
  intros Hok Hh. pose proof Hok as [Hly _ Hr]. destruct (submit_run v head sub _ _ Hly Hr Hh) as (v' & E & Hs & _ & Ht & _).
  exists v'. split; [done|]. split; [done|]. split; [done|]. eapply vq_step_ok; [exact Hok|]. by apply StepSubmit.
Qed.

Lemma pop_some v o sub del e : queue_ok v o sub del [e] ->
  exists v', virtqueue_pop_used v = Ret (Some e) v' [] /\ same_queue v v' /\ mem_of v' = mem_of v /\ queue_ok v' o sub (del ++ [e]) [].
Proof.
  intros Hok. pose proof Hok as [Hly _ Hr]. destruct (pop_run v _ _ _ Hly Hr) as (v' & E & Hs & _ & Hm & _). cbn [delivered pending] in E. rewrite rd_at in E.
  exists v'. split; [done|]. split; [done|]. split; [done|]. exact (vq_step_ok _ _ Hok (StepPop v o sub del [e] e v' E)).
Qed.
Lemma pop_none v o sub del : queue_ok v o sub del [] ->
  exists v', virtqueue_pop_used v = Ret None v' [] /\ same_queue v v' /\ mem_of v' = mem_of v /\ queue_ok v' o sub del [].
Proof.
  intros Hok. pose proof Hok as [Hly _ Hr]. destruct (pop_run v _ _ _ Hly Hr) as (v' & E & Hs & _ & Hm & _). cbn [delivered pending] in E. rewrite app_nil_r, rd_out in E by lia.
  exists v'. split; [done|]. split; [done|]. split; [done|]. exact (vq_step_ok _ _ Hok (StepPopNone v o sub del [] v' E)).
Qed.

(** The driver finds its request done: the descriptors come back. *)
Definition finished (len : Z) (b : state) : state := with_vars (set_request 1 0 len) b.
Lemma complete_pending v b sub del len h d t : queue_ok v [t; d; h] sub del [(h, len)] ->
  request_busy (dr_vars b) = 1 -> header_desc (dr_vars b) = h -> data_desc (dr_vars b) = d -> status_desc (dr_vars b) = t ->
  exists v', virtio_blk_complete_used (put_vio v b) = Ret tt (put_vio v' (finished len b)) [] /\
    same_queue v v' /\ queue_ok v' [] sub (del ++ [(h, len)]) [] /\ (forall x, ~ page (queue v) <= x < page (queue v) + 4096 -> mem_of v' x = mem_of v x).
Proof.
  intros Hok Hbusy Hh Hd Ht. unfold virtio_blk_complete_used. change (Z.to_nat (2 ^ 16)) with (S (S (Z.to_nat (2 ^ 16 - 2)))). cbn [complete_loop].
  destruct (pop_some v _ sub del (h, len) Hok) as (v1 & E1 & Hs1 & Hm1 & Hok1). rewrite (bind_Ret_nil _ _ _ _ _ (on_queue_run _ _ _ _ _ _ E1)).
  unfold dr_var at 1. rewrite bind_gets. change (request_busy (id (dr_vars (put_vio v1 b)))) with (request_busy (dr_vars b)).
  change (header_desc (id (dr_vars (put_vio v1 b)))) with (header_desc (dr_vars b)). rewrite Hbusy, Hh. change (1 =? 0) with false. rewrite Z.eqb_refl. cbn [orb negb].
  unfold virtio_blk_free_pending_chain, dr_var at 1. rewrite bind_assoc, bind_gets.
  change (header_desc (id (dr_vars (put_vio v1 b)))) with (header_desc (dr_vars b)). change (data_desc (id (dr_vars (put_vio v1 b)))) with (data_desc (dr_vars b)).
  change (status_desc (id (dr_vars (put_vio v1 b)))) with (status_desc (dr_vars b)). rewrite Hh, Hd, Ht.
  destruct (free_run v1 h _ [t; d] sub (del ++ [(h, len)]) [] Hok1) as (v2 & E2 & Hs2 & Hok2); [by rewrite (Permutation_app_comm [t; d] [h] : [t; d; h] ≡ₚ [h; t; d])|].
  destruct (free_run v2 d _ [t] sub _ [] Hok2) as (v3 & E3 & Hs3 & Hok3); [apply Permutation_swap|].
  destruct (free_run v3 t _ [] sub _ [] Hok3) as (v4 & E4 & Hs4 & Hok4); [done|].
  rewrite bind_assoc, (bind_Ret_nil _ _ _ _ _ (on_queue_run _ _ _ _ _ _ E2)), bind_assoc, (bind_Ret_nil _ _ _ _ _ (on_queue_run _ _ _ _ _ _ E3)), (bind_Ret_nil _ _ _ _ _ (on_queue_run _ _ _ _ _ _ E4)).
  unfold dr_assign. rewrite bind_modify. change (set_dr_vars _ (put_vio v4 b)) with (put_vio v4 (finished len b)).
  destruct (pop_none v4 _ sub _ Hok4) as (v5 & E5 & Hs5 & Hm5 & Hok5). rewrite (bind_Ret_nil _ _ _ _ _ (on_queue_run _ _ _ _ _ _ E5)).
  assert (Hs : same_queue v v5) by (repeat (eapply same_queue_trans; [eassumption|]); apply same_queue_refl).
  exists v5. split; [done|]. split; [exact Hs|]. split; [done|]. intros x Hx. by rewrite (sq_outside _ _ Hs).
Qed.
Lemma complete_idle v b o sub del : queue_ok v o sub del [] ->
  exists v', virtio_blk_complete_used (put_vio v b) = Ret tt (put_vio v' b) [] /\ same_queue v v' /\ mem_of v' = mem_of v /\ queue_ok v' o sub del [].
Proof.
  intros Hok. unfold virtio_blk_complete_used. change (Z.to_nat (2 ^ 16)) with (S (Z.to_nat (2 ^ 16 - 1))). cbn [complete_loop].
  destruct (pop_none v o sub del Hok) as (v1 & E1 & Hs1 & Hm1 & Hok1). rewrite (bind_Ret_nil _ _ _ _ _ (on_queue_run _ _ _ _ _ _ E1)). by exists v1.
Qed.
End steps.

(** ** The device's turn *)

(** Where a queue lies. *)
Definition geometry (q : virtqueue) := (Virtqueue.size q, page q, desc q, avail q, avail_ring q, used q, used_ring q).
Lemma same_geometry s s' : same_queue s s' -> geometry (queue s') = geometry (queue s).
Proof. intros []. unfold geometry. congruence. Qed.
Lemma serve_geometry q q' : geometry q = geometry q' -> serve q = serve q'.
Proof.
  unfold geometry. intros [= E1 E2 E3 E4 E5 E6 E7]. unfold serve, answer, used_write. rewrite E1, E3, E5, E6, E7. reflexivity.
Qed.

Section turns.
Context {H D W : Type} `{Hardware D} (header_at status_at : Z).
Context (q0 : virtqueue) (turn : device_turn D) (served : D -> Z) (disk : D -> list Z) (delay : D -> nat).
Context (Hdev : disk_behind q0 turn served disk delay).
Abbreviation state := (driver blk_state H D W).
Abbreviation queue_ok v o sub del pen := (shared_ok (Shared v o sub del pen)).
Implicit Types (b s : state) (v : vio).

(** The request as the device finds it. *)
Record request_in (r : Z -> Z) (table kind start buffer bytes h d t : Z) : Prop := {
  ri_header : desc_is r table h header_at sizeof_request_header VIRTQ_DESC_F_NEXT d;
  ri_data : desc_is r table d buffer bytes (data_flags kind) t;
  ri_status : desc_is r table t status_at 1 VIRTQ_DESC_F_WRITE 0;
  ri_kind : ld 4 r (header_type header_at) = kind;
  ri_start : ld 8 r (header_sector header_at) = start
}.

(** What the device changes in memory besides the ring. *)
Definition answered (kind start buffer bytes : Z) (bytes_of : list Z) (r : Z -> Z) : Z -> Z :=
  st 1 (if kind =? 0 then dma_write buffer (slice bytes_of (Z.to_nat (512 * start)) (Z.to_nat bytes)) r else r) status_at 0.
Definition used_length (kind bytes : Z) : Z := if kind =? 0 then bytes + 1 else 1.
Definition disk_after (kind start buffer bytes : Z) (bytes_of : list Z) (r : Z -> Z) : list Z :=
  if kind =? 0 then bytes_of else splice bytes_of (Z.to_nat (512 * start)) (dma_read r buffer bytes).

(** The chain of a request has the parts of a block request. *)
Lemma request_parts r table kind start buffer bytes h d t n : request_in r table kind start buffer bytes h d t -> kind = 0 \/ kind = 1 ->
  parts (S (S (S n))) table h r = [Part header_at 16 false; Part buffer bytes (kind =? 0); Part status_at 1 true].
Proof.
  intros [[H1 H2' H3 H4] [G1 G2 G3 G4] [J1 J2 J3 _] _ _] Hk. cbn [parts].
  rewrite H1, H2', H3, H4, G1, G2, G3, G4, J1, J2, J3. by destruct Hk as [-> | ->].
Qed.

Lemma serve_run q n bytes_of r kind start buffer bytes h d t : request_in r (desc q) kind start buffer bytes h d t -> 3 <= Virtqueue.size q ->
  ld 2 r (avail_ring q + 2 * (n mod Virtqueue.size q)) = h -> kind = 0 \/ kind = 1 -> 512 * start + bytes <= lenZ bytes_of ->
  serve q n bytes_of r = Some (used_write q (h, used_length kind bytes) (answered kind start buffer bytes bytes_of r), disk_after kind start buffer bytes bytes_of r).
Proof.
  intros Hr Hsz Hh Hk Hpos. unfold serve. rewrite Hh. replace (Z.to_nat (Virtqueue.size q)) with (S (S (S (Z.to_nat (Virtqueue.size q - 3))))) by lia.
  rewrite (request_parts _ _ _ _ _ _ _ _ _ _ Hr Hk). destruct Hr as [_ _ _ H7 H8]. unfold answer. rewrite H7, H8, eqb_reflx.
  rewrite (proj2 (Z.ltb_ge _ _)) by done. unfold answered, used_length, disk_after. by destruct Hk as [-> | ->].
Qed.

Definition with_bus (h : D) b : state := set_dr_virtio (set_bus h (dr_virtio b)) b.
Lemma turn_run v b m h st0 : turn (v_mm v) (bus (dr_virtio b)) = (m, h, st0) -> give_turn turn (put_vio v b) = Ret st0 (put_vio (set_v_mm m v) (with_bus h b)) [].
Proof. intros E. unfold give_turn. cbn [dr_mm put_vio dr_virtio]. rewrite E. reflexivity. Qed.

(** The device completes the request. *)
Lemma answer_ok v o sub del e r : queue_ok v o sub del [] -> (forall a, page (queue v) <= a < page (queue v) + 4096 -> r a = mem_of v a) ->
  0 <= e.1 < 2 ^ 32 -> 0 <= e.2 < 2 ^ 32 ->
  let v' := set_v_mm (set_ram (used_write (queue v) e r) (v_mm v)) v in
  queue_ok v' o sub del [e] /\ (forall x, ~ page (queue v) <= x < page (queue v) + 4096 -> used_write (queue v) e r x = r x).
Proof.
  intros Hok Hr He1 He2 v'. pose proof (outside_ok v o sub del [] r Hok Hr) as Hok1. set (v1 := set_v_mm (set_ram r (v_mm v)) v) in *.
  assert (E : v' = device_complete e v1) by (destruct v as [? [] ?]; reflexivity). pose proof Hok1 as [Hly _ Hrg]. cbn [at_queue submitted delivered pending] in Hly, Hrg.
  assert (Hroom : lenZ ([] : list (Z * Z)) < Virtqueue.size (queue v1)) by (destruct Hly; unfold lenZ; cbn; cbn in ly_size; lia).
  split.
  - rewrite E. exact (vq_step_ok _ _ Hok1 (StepComplete v1 o sub del [] e He1 He2 Hroom)).
  - intros x Hx. destruct (complete_run v1 e sub (del ++ []) (lenZ del) Hly Hrg He1 He2) as (Hs & _); [rewrite app_nil_r; destruct Hly; lia|].
    exact (sq_outside _ _ Hs x Hx).
Qed.

(** The state in which the driver waits. *)
Record waiting v b sub del (kind start buffer bytes h d t : Z) : Prop := {
  wt_queue : queue_ok v [t; d; h] (sub ++ [h]) del [];
  wt_geometry : geometry (queue v) = geometry q0;
  wt_request : request_in (mem_of v) (desc (queue v)) kind start buffer bytes h d t;
  wt_served : served (bus (dr_virtio b)) = lenZ sub;
  wt_done : request_done (dr_vars b) = 0;
  wt_busy : request_busy (dr_vars b) = 1;
  wt_descs : header_desc (dr_vars b) = h /\ data_desc (dr_vars b) = d /\ status_desc (dr_vars b) = t;
  wt_size : 3 <= Virtqueue.size q0;
  wt_kind : kind = 0 \/ kind = 1;
  wt_start : 0 <= start;
  wt_bytes : 0 <= bytes < 2 ^ 32 - 1;
  wt_fits : 512 * start + bytes <= lenZ (disk (bus (dr_virtio b)));
  wt_buffer : buffer + bytes <= page q0 \/ page q0 + 4096 <= buffer;
  wt_status : status_at < page q0 \/ page q0 + 4096 <= status_at
}.

Lemma waiting_same v v' b sub del kind start buffer bytes h d t hw : waiting v b sub del kind start buffer bytes h d t ->
  queue_ok v' [t; d; h] (sub ++ [h]) del [] -> same_queue v v' -> mem_of v' = mem_of v -> served hw = lenZ sub -> disk hw = disk (bus (dr_virtio b)) ->
  waiting v' (with_bus hw b) sub del kind start buffer bytes h d t.
Proof.
  intros [] Hok Hs Hm Hsv Hdk. split; try done; [by rewrite (same_geometry _ _ Hs)|by rewrite Hm, (sq_desc _ _ Hs)|cbn; by rewrite Hdk].
Qed.

Lemma answer_in_page v b sub del kind start buffer bytes h d t a : waiting v b sub del kind start buffer bytes h d t ->
  page (queue v) <= a < page (queue v) + 4096 ->
  answered kind start buffer bytes (disk (bus (dr_virtio b))) (mem_of v) a = mem_of v a.
Proof.
  intros [] Ha. assert (Hp : page (queue v) = page q0) by (unfold geometry in wt_geometry0; congruence). unfold answered. rewrite st_skip by lia.
  destruct (kind =? 0); [|done]. apply dma_write_outside. unfold lenZ. rewrite length_slice; [lia|]. unfold lenZ in wt_fits0. lia.
Qed.

Lemma irq_run s : virtio_blk_irq VIRTIO_INTERRUPT_USED_RING s = virtio_blk_complete_used (W := W) s.
Proof. unfold virtio_blk_irq. change (negb (Z.land VIRTIO_INTERRUPT_USED_RING VIRTIO_INTERRUPT_CONFIG_CHANGE =? 0)) with false. cbn iota. by rewrite bind_ret. Qed.

(** Its request is done, the descriptors are back. *)
Record answered_request v b v' hw sub del (kind start buffer bytes h : Z) : Prop := {
  aw_queue : queue_ok v' [] (sub ++ [h]) (del ++ [(h, used_length kind bytes)]) [];
  aw_geometry : geometry (queue v') = geometry q0;
  aw_memory : forall x, ~ page q0 <= x < page q0 + 4096 -> mem_of v' x = answered kind start buffer bytes (disk (bus (dr_virtio b))) (mem_of v) x;
  aw_served : served hw = lenZ sub + 1;
  aw_disk : disk hw = disk_after kind start buffer bytes (disk (bus (dr_virtio b))) (mem_of v)
}.

Lemma poll_run k : forall fuel v b sub del kind start buffer bytes h d t, waiting v b sub del kind start buffer bytes h d t -> lenZ sub = lenZ del -> 0 <= h < 2 ^ 16 ->
  delay (bus (dr_virtio b)) = k -> (k < fuel)%nat ->
  exists v' hw, poll_loop fuel turn (put_vio v b) = Ret tt (put_vio v' (with_bus hw (finished (used_length kind bytes) b))) [] /\
    answered_request v b v' hw sub del kind start buffer bytes h.
Proof using Hdev.
  induction k as [|k IH]; intros fuel v b sub del kind start buffer bytes h d t Hw Hlen Hh Hk Hf; (destruct fuel as [|fuel]; [lia|]); cbn [poll_loop].
  - pose proof Hw as [Hok Hgeo Hreq Hsv Hdone Hbusy (Hhd & Hdd & Htd) Hsize Hkind Hst Hby Hfits Hbuf Hstat].
    unfold dr_var at 1. rewrite bind_gets. change (request_done (dr_vars (put_vio v b))) with (request_done (dr_vars b)). rewrite Hdone. change (negb (0 =? 0)) with false. cbn iota.
    pose proof Hok as [Hly _ Hrg]. cbn [at_queue submitted delivered pending] in Hly, Hrg. rewrite app_nil_r in Hrg.
    assert (Hp : page (queue v) = page q0) by (unfold geometry in Hgeo; congruence). assert (Hav : avail (queue v) = avail q0) by (unfold geometry in Hgeo; congruence).
    assert (Havail : ld 2 (mem_of v) (avail_ring (queue v) + 2 * (lenZ sub mod Virtqueue.size (queue v))) = h).
    { pose proof (ro_avail _ _ _ _ Hrg (lenZ sub)) as Ha. rewrite lenZ_app in Ha. change (lenZ [h]) with 1 in Ha. pose proof (lenZ_nonneg sub). destruct Hly.
      specialize (Ha ltac:(lia) ltac:(lia)). rewrite rd_at in Ha. by injection Ha as ->. }
    assert (Hsz : 3 <= Virtqueue.size (queue v)) by (unfold geometry in Hgeo; injection Hgeo as ->; done).
    pose proof (serve_run _ _ _ _ _ _ _ _ _ _ _ Hreq Hsz Havail Hkind Hfits) as Hserve. rewrite <- Hsv, (serve_geometry _ _ Hgeo) in Hserve.
    assert (Hidx : ld 2 (ram (v_mm v)) (avail_idx (avail q0)) = u16 (served (bus (dr_virtio b)) + 1)) by (rewrite <- Hav, (ro_avail_idx _ _ _ _ Hrg), lenZ_app, Hsv; done).
    destruct (db_serves _ _ _ _ _ Hdev (v_mm v) (bus (dr_virtio b)) _ _ Hk Hidx Hserve) as (hw & st0 & Ht & Hsv' & Hdk' & Hst0).
    rewrite (bind_Ret_nil _ _ _ _ _ (turn_run _ _ _ _ _ Ht)).
    destruct (answer_ok v _ _ del (h, used_length kind bytes) _ Hok (fun a Ha => answer_in_page _ _ _ _ _ _ _ _ _ _ _ a Hw Ha)) as [Hok1 Hout]; [cbn; lia|cbn; unfold used_length; destruct (kind =? 0); lia|].
    set (v1 := set_v_mm (set_ram _ (v_mm v)) v) in *.
    destruct (complete_pending v1 (with_bus hw b) _ _ _ _ _ _ Hok1 Hbusy Hhd Hdd Htd) as (v2 & E2 & Hs2 & Hok2 & Hm2).
    destruct (complete_idle v2 (finished (used_length kind bytes) (with_bus hw b)) _ _ _ Hok2) as (v3 & E3 & Hs3 & Hm3 & Hok3).
    assert (Hend : forall v4, poll_loop fuel turn (put_vio v4 (finished (used_length kind bytes) (with_bus hw b))) = Ret tt (put_vio v4 (with_bus hw (finished (used_length kind bytes) b))) []).
    { intros v4. destruct fuel; cbn [poll_loop]; unfold dr_var at 1; rewrite bind_gets; reflexivity. }
    assert (Hres : forall v4, same_queue v1 v4 -> (forall x, ~ page (queue v1) <= x < page (queue v1) + 4096 -> mem_of v4 x = mem_of v1 x) ->
      queue_ok v4 [] (sub ++ [h]) (del ++ [(h, used_length kind bytes)]) [] -> answered_request v b v4 hw sub del kind start buffer bytes h).
    { intros v4 Hs4 Hm4 Hok4. split; [done| | | |done].
      - rewrite (same_geometry _ _ Hs4). exact Hgeo.
      - intros x Hx. rewrite Hm4 by (cbn; by rewrite Hp). cbn. apply Hout. by rewrite Hp.
      - by rewrite Hsv', Hsv. }
    destruct Hst0 as [-> | ->].
    + rewrite bind_ret, (bind_Ret_nil _ _ _ _ _ E2), Hend. exists v2, hw. split; [done|]. by apply Hres.
    + cbn iota. rewrite (bind_Ret_nil _ _ _ _ _ (eq_trans (irq_run _) E2)), (bind_Ret_nil _ _ _ _ _ E3), Hend. exists v3, hw. split; [done|]. apply Hres; [by eapply same_queue_trans| |done].
      intros x Hx. rewrite Hm3. by apply Hm2.
  - unfold dr_var at 1. rewrite bind_gets. change (request_done (dr_vars (put_vio v b))) with (request_done (dr_vars b)). rewrite (wt_done _ _ _ _ _ _ _ _ _ _ _ Hw). change (negb (0 =? 0)) with false. cbn iota.
    destruct (db_waits _ _ _ _ _ Hdev (v_mm v) (bus (dr_virtio b)) k Hk) as (hw & Ht & Hsv & Hdk & Hk').
    rewrite (bind_Ret_nil _ _ _ _ _ (turn_run _ _ _ _ _ Ht)), bind_ret.
    assert (Ev : set_v_mm (v_mm v) v = v) by (by destruct v). rewrite Ev.
    destruct (complete_idle v (with_bus hw b) _ _ _ (wt_queue _ _ _ _ _ _ _ _ _ _ _ Hw)) as (v1 & E1 & Hs1 & Hm1 & Hok1).
    rewrite (bind_Ret_nil _ _ _ _ _ E1).
    destruct (IH fuel v1 (with_bus hw b) sub del kind start buffer bytes h d t) as (v' & hw' & E & Ha); [|done|done|done|lia|].
    { apply (waiting_same v); try done. by rewrite Hsv, (wt_served _ _ _ _ _ _ _ _ _ _ _ Hw). }
    exists v', hw'. rewrite E. split; [done|]. destruct Ha as [H1 H2 H3 H4 H5]. cbn in H3, H5. rewrite Hm1, Hdk in H3, H5. by split.
Qed.
End turns.

(** ** Transfers *)

Definition apart (a n b m : Z) : Prop := a + n <= b \/ b + m <= a.

Section transfer.
Context {H D W : Type} `{Hardware D} (header_at status_at : Z).
Context (q0 : virtqueue) (turn : device_turn D) (served : D -> Z) (disk : D -> list Z) (delay : D -> nat).
Context (Hdev : disk_behind q0 turn served disk delay).
Abbreviation state := (driver blk_state H D W).
Implicit Types (b s : state) (v : vio).

(** Where the variables that the device sees and a buffer lie. *)
Record places (buffer bytes : Z) : Prop := {
  pl_header : 0 <= header_at /\ header_at + 16 < 2 ^ 63 /\ apart header_at 16 (page q0) 4096;
  pl_status : 0 <= status_at /\ status_at + 1 < 2 ^ 63 /\ apart status_at 1 (page q0) 4096;
  pl_buffer : 0 < buffer /\ buffer + bytes < 2 ^ 63 /\ apart buffer bytes (page q0) 4096;
  pl_apart : apart header_at 16 status_at 1 /\ apart header_at 16 buffer bytes /\ apart status_at 1 buffer bytes
}.

(** The driver is up, without a request under way; the device has done what was
    submitted. *)
Record blk_ready s (sub : list Z) (del : list (Z * Z)) : Prop := {
  br_device : exists i d, vb_device (dr_vars s) = Some i /\ rd (virtio_devices (dr_virtio s)) i = Some d /\ initialized d <> 0;
  br_geometry : geometry (vb_queue (dr_vars s)) = geometry q0 /\ 3 <= Virtqueue.size q0;
  br_size : vb_block_size (dr_vars s) = 512;
  br_count : 512 * vb_block_count (dr_vars s) = lenZ (disk (bus (dr_virtio s))) /\ vb_block_count (dr_vars s) < 2 ^ 32;
  br_idle : vb_lock (dr_vars s) = 0 /\ request_busy (dr_vars s) = 0;
  br_queue : shared_ok (Shared (vio_of s) [] sub del []);
  br_served : served (bus (dr_virtio s)) = lenZ sub /\ lenZ sub = lenZ del;
  br_bytes : Forall (fun x => 0 <= x < 256) (disk (bus (dr_virtio s)))
}.

Lemma blk_available_run s sub del : blk_ready s sub del -> virtio_blk_available s = Ret true s [].
Proof.
  intros [(i & d & Hi & Hd & Hinit) _ _ _ _ _ _ _]. unfold virtio_blk_available, dr_var, is_initialized. rewrite bind_gets, Hi.
  assert (Hg : on_transport (get_device i) s = Ret d s []).
  { unfold on_transport. erewrite zoom_Ret; [|unfold get_device; rewrite bind_gets, Hd; reflexivity]. by destruct s. }
  rewrite (bind_Ret_nil _ _ _ _ _ Hg). by rewrite (proj2 (Z.eqb_neq _ _)).
Qed.

Lemma request_run r table kind start buffer bytes h d t : places buffer bytes -> apart table (16 * 157) header_at 16 -> 0 <= bytes < 2 ^ 32 ->
  kind = 0 \/ kind = 1 -> 0 <= start < 2 ^ 64 -> NoDup [t; d; h] -> 0 <= h < 157 -> 0 <= d < 157 -> 0 <= t < 157 ->
  request_in header_at status_at (chain_written header_at status_at kind buffer bytes h d t table (header_written header_at status_at kind start r)) table kind start buffer bytes h d t.
Proof.
  intros [(Hh1 & Hh2 & _) (Hs1 & Hs2 & _) (Hb1 & Hb2 & _) (Hap & _)] Htab Hby Hk Hst Hnd Hhr Hdr Htr. unfold apart in *.
  apply NoDup_cons in Hnd as [Ht Hnd]. apply NoDup_cons in Hnd as [Hd _]. rewrite !elem_of_cons in Ht. rewrite !elem_of_cons in Hd.
  assert (t <> d /\ t <> h /\ d <> h) as (N1 & N2 & N3) by (split; [|split]; intros ->; tauto). unfold chain_written.
  assert (Hfl : 0 <= data_flags kind < 2 ^ 16) by (destruct Hk as [-> | ->]; vm_compute; split; congruence).
  assert (Hout : forall x, header_at <= x < header_at + 16 -> forall r', desc_written table t status_at 1 VIRTQ_DESC_F_WRITE 0
     (desc_written table d buffer bytes (data_flags kind) t (desc_written table h header_at sizeof_request_header VIRTQ_DESC_F_NEXT d r')) x = r' x).
  { intros x Hx r'. rewrite !desc_written_outside by lia. done. }
  split.
  - eapply desc_is_ext; [intros x Hx; rewrite (desc_written_outside table t), (desc_written_outside table d) by lia; reflexivity|]. apply desc_written_is; unfold sizeof_request_header, VIRTQ_DESC_F_NEXT; lia.
  - eapply desc_is_ext; [intros x Hx; rewrite (desc_written_outside table t) by lia; reflexivity|]. apply desc_written_is; lia.
  - apply desc_written_is; unfold VIRTQ_DESC_F_WRITE; lia.
  - rewrite (ld_ext 4 _ (header_written header_at status_at kind start r)) by (intros x Hx; apply Hout; unfold header_type in Hx; lia).
    unfold header_written, header_type, header_reserved, header_sector. rewrite !(ld_st_other 4) by lia. apply ld_st_same. destruct Hk as [-> | ->]; cbn; lia.
  - rewrite (ld_ext 8 _ (header_written header_at status_at kind start r)) by (intros x Hx; apply Hout; unfold header_sector in Hx; lia).
    unfold header_written, header_type, header_reserved, header_sector. rewrite (ld_st_other 8 1) by lia. by apply ld_st_same.
Qed.

Lemma blk_assign_run f v b : (forall q vars, f (set_vb_queue q vars) = set_vb_queue q (f vars)) -> dr_assign f (put_vio v b) = Ret tt (put_vio v (with_vars f b)) [].
Proof. intros Hf. unfold dr_assign, modify. cbn. unfold set_dr_vars. cbn. rewrite Hf. reflexivity. Qed.

Lemma blk_notify_run v b i d : rd (virtio_devices (dr_virtio b)) i = Some d ->
  exists a, on_transport (virtio_mmio_notify_queue i VIRTIO_BLK_QUEUE_INDEX) (put_vio v b) = Ret tt (put_vio v (with_bus (mmio_write a VIRTIO_BLK_QUEUE_INDEX (bus (dr_virtio b))) b)) [].
Proof.
  intros Hd. exists (u64 (base d + VIRTIO_MMIO_QUEUE_NOTIFY)). unfold on_transport, zoom, virtio_mmio_notify_queue, virtio_mmio_write32, get_device.
  cbn [dr_virtio put_vio]. rewrite bind_assoc, bind_gets, Hd, (bind_deref_Some _ _ _ _ eq_refl). reflexivity.
Qed.

(** What a transfer leaves of the driver's variables. *)
Record same_driver b b' : Prop := {
  sd_device : vb_device (dr_vars b') = vb_device (dr_vars b);
  sd_size : vb_block_size (dr_vars b') = vb_block_size (dr_vars b);
  sd_count : vb_block_count (dr_vars b') = vb_block_count (dr_vars b);
  sd_devices : virtio_devices (dr_virtio b') = virtio_devices (dr_virtio b)
}.

Lemma three_apart (n h d t : Z) : NoDup [t; d; h] -> 0 <= h < n -> 0 <= d < n -> 0 <= t < n -> 3 <= n.
Proof.
  intros [Ht [Hd _]%NoDup_cons]%NoDup_cons Hhr Hdr Htr. rewrite !elem_of_cons in Ht. rewrite !elem_of_cons in Hd.
  assert (t <> d /\ t <> h /\ d <> h) by (split; [|split]; intros ->; tauto). lia.
Qed.

Lemma start_run v b sub del kind start count buffer bytes h d t flags :
  shared_ok (Shared v [t; d; h] sub del []) -> geometry (queue v) = geometry q0 ->
  (exists i dv, vb_device (dr_vars b) = Some i /\ rd (virtio_devices (dr_virtio b)) i = Some dv) ->
  served (bus (dr_virtio b)) = lenZ sub -> places buffer bytes -> NoDup [t; d; h] ->
  0 <= h < Virtqueue.size q0 -> 0 <= d < Virtqueue.size q0 -> 0 <= t < Virtqueue.size q0 ->
  kind = 0 \/ kind = 1 -> 0 <= start < 2 ^ 64 -> 0 <= bytes < 2 ^ 32 - 1 -> 512 * start + bytes <= lenZ (disk (bus (dr_virtio b))) ->
  exists v' b', start_request header_at status_at kind start count buffer bytes h d t flags (put_vio v b) = Ret tt (put_vio v' b') [] /\
    waiting header_at status_at q0 served disk v' b' sub del kind start buffer bytes h d t /\ same_driver b b' /\ vb_lock (dr_vars b') = 0 /\
    disk (bus (dr_virtio b')) = disk (bus (dr_virtio b)) /\ delay (bus (dr_virtio b')) = delay (bus (dr_virtio b)) /\
    (forall x, ~ page q0 <= x < page q0 + 4096 -> mem_of v' x = header_written header_at status_at kind start (mem_of v) x).
Proof using Hdev.
  intros Hok Hgeo (i & dv & Hi & Hdv) Hsv Hpl Hnd Hh Hd Ht Hk Hst Hby Hfits. pose proof Hpl as [(Hh1 & Hh2 & Hh3) (Hs1 & Hs2 & Hs3) (Hb1 & Hb2 & Hb3) _]. unfold apart in Hh3, Hs3, Hb3.
  assert (Hp : page (queue v) = page q0 /\ desc (queue v) = desc q0 /\ Virtqueue.size (queue v) = Virtqueue.size q0) by (unfold geometry in Hgeo; repeat split; congruence). destruct Hp as (Hp & Hde & Hsz).
  pose proof Hok as [Hly _ _]. cbn in Hly. assert (Hly' : 0 < Virtqueue.size q0 <= 157 /\ desc q0 = page q0) by (destruct Hly; rewrite <- Hsz, <- Hde, <- Hp; done).
  unfold start_request. rewrite (bind_Ret_nil _ _ _ _ _ (on_queue_run _ _ _ _ _ _ (write_request_run header_at status_at kind start v))).
  set (v1 := set_v_mm (set_ram _ (v_mm v)) v).
  assert (Hok1 : shared_ok (Shared v1 [t; d; h] sub del [])).
  { apply outside_ok; [done|]. intros a Ha. unfold header_written, header_type, header_reserved, header_sector. rewrite !st_skip by lia. done. }
  rewrite !u16_small by lia.
  rewrite (bind_Ret_nil _ _ _ _ _ (blk_assign_run (set_request 0 1 0) _ _ (fun _ _ => eq_refl))), (bind_Ret_nil _ _ _ _ _ (blk_assign_run (set_request_data buffer count) _ _ (fun _ _ => eq_refl))),
    (bind_Ret_nil _ _ _ _ _ (blk_assign_run (set_request_descs h d t) _ _ (fun _ _ => eq_refl))).
  set (b1 := with_vars (set_request_descs h d t) _).
  rewrite (bind_Ret_nil _ _ _ _ _ (on_queue_run _ _ _ _ _ _ (write_chain_run header_at status_at kind buffer bytes h d t v1 ltac:(lia) ltac:(lia) ltac:(lia)))).
  destruct (chain_ok header_at status_at v1 _ sub del [] kind buffer bytes h d t Hok1) as [Hok2 Hsame2]; [do 2 right; constructor|right; constructor|constructor|].
  set (v2 := set_v_mm (set_ram (chain_written _ _ _ _ _ _ _ _ _ _) (v_mm v1)) v1) in *.
  destruct (sync_device_run header_at 16 (v_mmu v2)) as [u1 Hu1]; [lia..|]. rewrite (bind_Ret_nil _ _ _ _ _ (cache_run _ _ _ _ Hu1)).
  destruct (sync_device_run buffer bytes (set_issued u1 (v_mmu v2))) as [u2 Hu2]; [lia..|]. rewrite (bind_Ret_nil _ _ _ _ _ (cache_run _ (set_v_mmu (set_issued u1 (v_mmu v2)) v2) _ _ Hu2)).
  destruct (sync_device_run status_at 1 (set_issued u2 (set_issued u1 (v_mmu v2)))) as [u3 Hu3]; [lia..|].
  rewrite (bind_Ret_nil _ _ _ _ _ (cache_run _ (set_v_mmu (set_issued u2 (set_issued u1 (v_mmu v2))) (set_v_mmu (set_issued u1 (v_mmu v2)) v2)) _ _ Hu3)).
  set (v3 := set_v_mmu (set_issued u3 _) _).
  assert (Hok3 : shared_ok (Shared v3 [t; d; h] sub del [])).
  { pose proof (vq_step_ok _ _ Hok2 (StepOther v2 _ sub del [] (mem_of v2) (set_issued u3 (set_issued u2 (set_issued u1 (v_mmu v2)))) (fun _ _ => eq_refl))) as Hx.
    replace v3 with (set_v_mmu (set_issued u3 (set_issued u2 (set_issued u1 (v_mmu v2)))) (set_v_mm (set_ram (mem_of v2) (v_mm v2)) v2)) by (by destruct v as [? [] ?]). exact Hx. }
  destruct (submit_step v3 _ sub del h Hok3 ltac:(lia)) as (v4 & E4 & Hs4 & Ht4 & Hok4).
  rewrite (bind_Ret_nil _ _ _ _ _ (on_queue_run _ _ _ _ _ _ E4)).
  unfold dr_var at 1. rewrite bind_gets. change (vb_device (dr_vars (put_vio v4 b1))) with (vb_device (dr_vars b)). rewrite Hi. rewrite (bind_deref_Some _ _ _ _ eq_refl).
  destruct (blk_notify_run v4 b1 i dv Hdv) as [a Ha]. rewrite (bind_Ret_nil _ _ _ _ _ Ha), unlock_run.
  destruct (db_write _ _ _ _ _ Hdev a VIRTIO_BLK_QUEUE_INDEX (bus (dr_virtio b))) as (Hw1 & Hw2 & Hw3).
  assert (Hmem4 : forall x, page q0 <= x < page q0 + 16 * Virtqueue.size q0 -> mem_of v4 x = mem_of v2 x).
  { intros x Hx. rewrite Ht4; [done|]. change (queue v3) with (queue v). rewrite Hde, Hsz. destruct Hly' as [_ ->]. exact Hx. }
  assert (Hout4 : forall x, ~ page q0 <= x < page q0 + 4096 -> mem_of v4 x = mem_of v1 x).
  { intros x Hx. rewrite (sq_outside _ _ Hs4) by (change (queue v3) with (queue v); by rewrite Hp). change (mem_of v3 x) with (mem_of v2 x).
    rewrite (sq_outside _ _ Hsame2); [done|]. change (queue v1) with (queue v). by rewrite Hp. }
  eexists v4, _. split; [reflexivity|]. split; [|split; [by split|split; [done|split; [exact Hw2|split; [exact Hw3|exact Hout4]]]]].
  pose proof (request_run (mem_of v) (desc q0) kind start buffer bytes h d t Hpl) as Hreq.
  assert (Hr2 : request_in header_at status_at (mem_of v2) (desc q0) kind start buffer bytes h d t).
  { change (mem_of v2) with (chain_written header_at status_at kind buffer bytes h d t (desc (queue v)) (header_written header_at status_at kind start (mem_of v))).
    rewrite Hde. destruct Hly' as [Hly1 Hly2]. destruct Hly. apply Hreq; try done; try lia. unfold apart. lia. }
  split; try done; try lia.
  - rewrite (same_geometry _ _ Hs4). exact Hgeo.
  - rewrite (sq_desc _ _ Hs4). change (queue v3) with (queue v). rewrite Hde. destruct Hly' as [Hly1 Hly2]. destruct Hr2 as [R1 R2 R3 R4 R5].
    split; [| | | |].
    + eapply desc_is_ext; [|exact R1]. intros x Hx. apply Hmem4. lia.
    + eapply desc_is_ext; [|exact R2]. intros x Hx. apply Hmem4. lia.
    + eapply desc_is_ext; [|exact R3]. intros x Hx. apply Hmem4. lia.
    + rewrite <- R4. apply ld_ext. intros x Hx. unfold header_type in Hx. rewrite Hout4 by lia. symmetry. rewrite (sq_outside _ _ Hsame2); [done|]. change (queue v1) with (queue v). lia.
    + rewrite <- R5. apply ld_ext. intros x Hx. unfold header_sector in Hx. rewrite Hout4 by lia. symmetry. rewrite (sq_outside _ _ Hsame2); [done|]. change (queue v1) with (queue v). lia.
  - cbn. by rewrite Hw1.
  - clear - Hnd Hh Hd Ht. by apply three_apart with h d t.
  - cbn. by rewrite Hw2.
Qed.

Lemma blk_finish_run v b kind buffer bytes len : 0 <= status_at -> status_at + 1 < 2 ^ 63 -> 0 < buffer -> 0 <= bytes -> buffer + bytes < 2 ^ 63 ->
  ld 1 (mem_of v) status_at = 0 -> request_used_len (dr_vars b) = len -> 1 <= len ->
  exists u, finish_request status_at kind buffer bytes (put_vio v b) = Ret 0 (put_vio (set_v_mmu u v) b) [].
Proof.
  intros Hs1 Hs2 Hb1 Hn Hb2 Hst Hlen Hpos. unfold finish_request.
  assert (H1 : exists u, (if kind =? VIRTIO_BLK_T_IN then on_cache (mmu_sync_for_cpu buffer bytes) else ret tt) (put_vio v b) = Ret tt (put_vio (set_v_mmu u v) b) []).
  { destruct (kind =? VIRTIO_BLK_T_IN).
    - destruct (sync_cpu_run buffer bytes (v_mmu v)) as [u Hu]; [lia..|]. eexists. by apply cache_run.
    - exists (v_mmu v). by destruct v. }
  destruct H1 as [u1 H1]. rewrite (bind_Ret_nil _ _ _ _ _ H1). destruct (sync_cpu_run status_at 1 u1) as [u2 Hu2]; [lia..|].
  rewrite (bind_Ret_nil _ _ _ _ _ (cache_run _ (set_v_mmu u1 v) _ _ Hu2)).
  assert (Hload : load 1 status_at (set_v_mmu (set_issued u2 u1) v) = Ret 0 (set_v_mmu (set_issued u2 u1) v) []) by (unfold load, gets; f_equal; exact Hst).
  rewrite (bind_Ret_nil _ _ _ _ _ (on_queue_run _ _ _ _ _ _ Hload)). unfold dr_var. rewrite bind_gets.
  change (request_used_len (dr_vars (put_vio _ b))) with (request_used_len (dr_vars b)). rewrite Hlen, (proj2 (Z.ltb_ge len 1)) by lia. by eexists.
Qed.

Lemma disk_after_bytes kind start buffer bytes l r : 0 <= bytes -> 0 <= start -> 512 * start + bytes <= lenZ l ->
  Forall (fun x => 0 <= x < 256) l -> Forall (fun x => 0 <= x < 256) (disk_after kind start buffer bytes l r) /\ lenZ (disk_after kind start buffer bytes l r) = lenZ l.
Proof.
  intros Hb Hs Hf Hl. unfold disk_after. destruct (kind =? 0); [done|]. pose proof (dma_read_length r buffer bytes Hb) as Hn. split.
  - unfold splice. apply Forall_app. split; [by apply Forall_take|]. apply Forall_app. split; [|by apply Forall_drop].
    unfold dma_read. apply List.Forall_map, Forall_forall. intros k _. apply (Z.mod_pos_bound _ 256). lia.
  - unfold lenZ in *. rewrite length_splice; lia.
Qed.

(** The memory that a transfer may change: the queue's page, the header, the
    status byte and, for a read, the buffer. *)
Definition touched (kind buffer bytes x : Z) : Prop :=
  page q0 <= x < page q0 + 4096 \/ header_at <= x < header_at + 16 \/ x = status_at \/ (kind = 0 /\ buffer <= x < buffer + bytes).

Lemma touched_frame (r0 r2 r3 : Z -> Z) kind start buffer n (l : list Z) x : kind = 0 \/ kind = 1 -> lenZ (slice l (Z.to_nat (512 * start)) (Z.to_nat n)) = n ->
  (forall y, ~ page q0 <= y < page q0 + 4096 -> r3 y = answered status_at kind start buffer n l r2 y) ->
  (forall y, ~ page q0 <= y < page q0 + 4096 -> ~ header_at <= y < header_at + 16 -> y <> status_at -> r2 y = r0 y) ->
  ~ touched kind buffer n x -> r3 x = r0 x.
Proof.
  intros Hk Hsl H3 H2' Hx. unfold touched in Hx. assert (Hs : x <> status_at) by tauto. rewrite H3 by tauto. unfold answered. rewrite st_skip by lia.
  rewrite <- (H2' x) by tauto. destruct Hk as [-> | ->]; [|done]. change (0 =? 0) with true. cbn iota. apply dma_write_outside. rewrite Hsl. tauto.
Qed.

Lemma transfer_run v b sub del kind start count buffer fuel : blk_ready (put_vio v b) sub del -> kind = 0 \/ kind = 1 ->
  0 <= start -> 0 < count -> 512 * count < 2 ^ 32 - 1 -> places buffer (512 * count) -> start + count <= vb_block_count (dr_vars b) ->
  (delay (bus (dr_virtio b)) < fuel)%nat ->
  exists s' h len, virtio_blk_transfer header_at status_at fuel turn (Some tt) kind start count buffer (put_vio v b) = Ret 0 s' [] /\
    blk_ready s' (sub ++ [h]) (del ++ [(h, len)]) /\
    disk (bus (dr_virtio s')) = disk_after kind start buffer (512 * count) (disk (bus (dr_virtio b))) (mem_of v) /\
    (kind = 0 -> dma_read (ram (dr_mm s')) buffer (512 * count) = slice (disk (bus (dr_virtio b))) (Z.to_nat (512 * start)) (Z.to_nat (512 * count))) /\
    (forall x, ~ touched kind buffer (512 * count) x -> ram (dr_mm s') x = mem_of v x).
Proof using Hdev.
  intros Hready Hk Hst Hc Hsmall Hpl Hrange Hfuel. pose proof Hready as [(i & dv & Hi & Hdv & Hinit) (Hgeo & Hthree) Hbs (Hcount & Hcb) (Hlock & Hbusy) Hqueue (Hsv & Hlen) Hbytes].
  pose proof Hpl as [(Hh1 & Hh2 & Hh3) (Hs1 & Hs2 & Hs3) (Hb1 & Hb2 & Hb3) (Hp1 & Hp2 & Hp3)]. unfold apart in *.
  cbn [dr_vars put_vio dr_virtio] in Hi, Hdv, Hgeo, Hbs, Hcount, Hcb, Hlock, Hbusy, Hsv, Hbytes.
  change (vb_device (dr_vars b) = Some i) in Hi. change (vb_block_size (dr_vars b) = 512) in Hbs. change (512 * vb_block_count (dr_vars b) = lenZ (disk (bus (dr_virtio b)))) in Hcount.
  change (vb_lock (dr_vars b) = 0) in Hlock. change (request_busy (dr_vars b) = 0) in Hbusy. change (geometry (queue v) = geometry q0) in Hgeo.
  change (vb_block_count (dr_vars b) < 2 ^ 32) in Hcb.
  assert (Hvio : vio_of (put_vio v b) = v) by (by destruct v). rewrite Hvio in Hqueue.
  set (n := 512 * count) in *.
  unfold virtio_blk_transfer. cbn [is_null orb]. rewrite (proj2 (Z.eqb_neq buffer 0)), (proj2 (Z.eqb_neq count 0)) by lia. cbn [orb].
  rewrite (bind_Ret_nil _ _ _ _ _ (blk_available_run _ _ _ Hready)). cbn [negb]. unfold dr_var at 1. rewrite bind_gets.
  change (vb_block_count (id (dr_vars (put_vio v b)))) with (vb_block_count (dr_vars b)). change (vb_block_size (id (dr_vars (put_vio v b)))) with (vb_block_size (dr_vars b)). rewrite Hbs.
  rewrite (proj2 (Z.leb_gt _ start)), (proj2 (Z.ltb_ge _ count)) by lia. cbn [orb]. change (512 =? 0) with false. cbn iota zeta.
  rewrite (Z.mul_comm count 512). fold n. rewrite (u64_small n) by lia. rewrite (bind_deref_Some _ _ _ _ eq_refl).
  replace (n / 512) with count by (unfold n; Z.div_mod_to_equations; lia). rewrite Z.eqb_refl. cbn [negb].
  rewrite (bind_Ret_nil _ _ _ _ _ (lock_run v b Hlock)). set (b1 := set_dr_daif _ _). unfold dr_var at 1. rewrite bind_gets.
  change (request_busy (dr_vars (put_vio v b1))) with (request_busy (dr_vars b)). rewrite Hbusy. change (negb (0 =? 0)) with false. cbn iota.
  assert (Hsz : Virtqueue.size (queue v) = Virtqueue.size q0) by (unfold geometry in Hgeo; congruence).
  destruct (alloc_chain_run v b1 sub del Hqueue ltac:(lia)) as (h & d & t & v1 & E1 & Hnd & Hh & Hd & Ht & Hs1' & Hok1). rewrite (bind_Ret_nil _ _ _ _ _ E1).
  assert (Hgeo1 : geometry (queue v1) = geometry q0) by (by rewrite (same_geometry _ _ Hs1')).
  assert (Hpg : page (queue v) = page q0) by (unfold geometry in Hgeo; congruence).
  destruct (start_run v1 b1 sub del kind start count buffer n h d t (dr_daif b)) as (v2 & b2 & E2 & Hw & Hsame & Hlock2 & Hdisk2 & Hdelay2 & Hm2); try done; try lia; [by exists i, dv|change (disk (bus (dr_virtio b1))) with (disk (bus (dr_virtio b))); lia|].
  rewrite (bind_Ret_nil _ _ _ _ _ E2).
  assert (Hsz1 : 0 < Virtqueue.size q0 <= 157) by (destruct Hqueue as [[Hly1 _ _ _ _ _ _ _] _ _]; cbn in Hly1; by rewrite <- Hsz).
  destruct (poll_run header_at status_at q0 turn served disk delay Hdev _ fuel v2 b2 sub del kind start buffer n h d t Hw Hlen ltac:(lia) eq_refl) as (v3 & hw & E3 & Ha); [rewrite Hdelay2; exact Hfuel|].
  rewrite (bind_Ret_nil _ _ _ _ _ E3). destruct Ha as [Hok3 Hgeo3 Hm3 Hsv3 Hdisk3]. change (disk (bus (dr_virtio b1))) with (disk (bus (dr_virtio b))) in Hdisk2. rewrite Hdisk2 in Hm3, Hdisk3.
  assert (Hlen1 : 1 <= used_length kind n) by (unfold used_length; destruct (kind =? 0); lia).
  destruct (blk_finish_run v3 (with_bus hw (finished (used_length kind n) b2)) kind buffer n (used_length kind n)) as [u E4]; [exact Hs1|exact Hs2|exact Hb1|lia|exact Hb2| |reflexivity|exact Hlen1|].
  { rewrite (ld_ext 1 _ (answered status_at kind start buffer n (disk (bus (dr_virtio b))) (mem_of v2))) by (intros x Hx; apply Hm3; lia). unfold answered. apply ld_st_same. lia. }
  exists (put_vio (set_v_mmu u v3) (with_bus hw (finished (used_length kind n) b2))), h, (used_length kind n). split; [exact E4|].
  assert (Hmem2 : forall x, ~ page q0 <= x < page q0 + 4096 -> ~ header_at <= x < header_at + 16 -> x <> status_at -> mem_of v2 x = mem_of v x).
  { intros x H1 H2' H3. rewrite Hm2 by done. unfold header_written, header_type, header_reserved, header_sector. rewrite !st_skip by lia. apply (sq_outside _ _ Hs1'). by rewrite Hpg. }
  assert (Hread : dma_read (mem_of v2) buffer n = dma_read (mem_of v) buffer n) by (apply dma_read_ext; intros x Hx; apply Hmem2; lia).
  assert (Hda : disk_after kind start buffer n (disk (bus (dr_virtio b))) (mem_of v2) = disk_after kind start buffer n (disk (bus (dr_virtio b))) (mem_of v)) by (unfold disk_after; by rewrite Hread).
  destruct (disk_after_bytes kind start buffer n (disk (bus (dr_virtio b))) (mem_of v)) as [Hby' Hlen']; [lia|lia|lia|done|].
  assert (Hsl : lenZ (slice (disk (bus (dr_virtio b))) (Z.to_nat (512 * start)) (Z.to_nat n)) = n) by (unfold lenZ; rewrite length_slice; unfold lenZ in Hcount; lia).
  destruct Hsame as [Hsd1 Hsd2 Hsd3 Hsd4]. cbn [dr_vars b1 set_dr_daif with_vars set_dr_vars] in Hsd1, Hsd2, Hsd3.
  split; [|split; [|split]].
  - split; cbn.
    + clear - Hsd1 Hsd4 Hi Hdv Hinit. exists i, dv. change (vb_device (dr_vars b1)) with (vb_device (dr_vars b)) in Hsd1. split; [by rewrite Hsd1|]. split; [|done]. change (virtio_devices (dr_virtio b1)) with (virtio_devices (dr_virtio b)) in Hsd4. by rewrite Hsd4.
    + done.
    + by rewrite Hsd2.
    + rewrite Hdisk3, Hda, Hlen'. rewrite Hsd3. change (vb_block_count (dr_vars b1)) with (vb_block_count (dr_vars b)). done.
    + done.
    + replace (vio_of _) with (set_v_mmu u v3) by (by destruct v3). pose proof (vq_step_ok _ _ Hok3 (StepOther v3 _ _ _ [] (mem_of v3) u (fun _ _ => eq_refl))) as Hx. by destruct v3 as [? [] ?].
    + rewrite Hsv3, !lenZ_app. change (lenZ [h]) with 1. change (lenZ [(h, used_length kind n)]) with 1. lia.
    + by rewrite Hdisk3, Hda.
  - cbn. by rewrite Hdisk3.
  - intros ->. cbn [dr_mm put_vio v_mm set_v_mmu]. rewrite (dma_read_ext (answered status_at 0 start buffer n (disk (bus (dr_virtio b))) (mem_of v2))) by (intros x Hx; apply Hm3; lia).
    rewrite (dma_read_ext (dma_write buffer (slice (disk (bus (dr_virtio b))) (Z.to_nat (512 * start)) (Z.to_nat n)) (mem_of v2))) by (intros x Hx; unfold answered; cbn; by rewrite st_skip by lia).
    pose proof (dma_read_write (mem_of v2) buffer (slice (disk (bus (dr_virtio b))) (Z.to_nat (512 * start)) (Z.to_nat n))) as Hrw. rewrite Hsl in Hrw. apply Hrw. unfold slice. by apply Forall_take, Forall_drop.
  - intros x Hx. exact (touched_frame _ _ _ _ _ _ _ _ x Hk Hsl Hm3 Hmem2 Hx).
Qed.
End transfer.

(** C6. Against a device that walks the chain of a request by the flags of its
    descriptors and serves it as the virtio specification has it, however long
    it takes, a transfer within the disk ends with status 0: a read
    leaves in the buffer the bytes of the sectors asked for, a write puts the
    bytes of the buffer there, nothing else of the disk or of the memory that is
    not the driver's changes, the descriptors are free again and the driver is
    ready for the next request. A transfer that is not within the disk is refused
    and changes nothing. *)
Theorem virtio_blk_transfer_spec {H D W} `{Hardware D} (header_at status_at : Z) (q0 : virtqueue) (turn : device_turn D) served disk delay
  (s : driver blk_state H D W) sub del kind start count buffer fuel
  (Hdev : disk_behind q0 turn served disk delay) (Hready : blk_ready q0 served disk s sub del) (Hk : kind = VIRTIO_BLK_T_IN \/ kind = VIRTIO_BLK_T_OUT)
  (Hst : 0 <= start) (Hc : 0 < count) (Hsmall : 512 * count < 2 ^ 32 - 1) (Hpl : places header_at status_at q0 buffer (512 * count))
  (Hfuel : (delay (bus (dr_virtio s)) < fuel)%nat) :
  if vb_block_count (dr_vars s) <? start + count then virtio_blk_transfer header_at status_at fuel turn (Some tt) kind start count buffer s = Ret (-1) s []
  else exists s' sub' del', virtio_blk_transfer header_at status_at fuel turn (Some tt) kind start count buffer s = Ret 0 s' [] /\
    blk_ready q0 served disk s' sub' del' /\
    disk (bus (dr_virtio s')) = (if kind =? VIRTIO_BLK_T_IN then disk (bus (dr_virtio s))
      else splice (disk (bus (dr_virtio s))) (Z.to_nat (512 * start)) (dma_read (ram (dr_mm s)) buffer (512 * count))) /\
    (kind = VIRTIO_BLK_T_IN -> dma_read (ram (dr_mm s')) buffer (512 * count) = slice (disk (bus (dr_virtio s))) (Z.to_nat (512 * start)) (Z.to_nat (512 * count))) /\
    (forall x, ~ touched header_at status_at q0 kind buffer (512 * count) x -> ram (dr_mm s') x = ram (dr_mm s) x).
Proof.
  unfold VIRTIO_BLK_T_IN, VIRTIO_BLK_T_OUT in *. destruct (Z.ltb_spec (vb_block_count (dr_vars s)) (start + count)) as [Hout|Hin].
  - pose proof Hpl as [_ _ (Hb & _) _]. unfold virtio_blk_transfer. cbn [is_null orb]. rewrite (proj2 (Z.eqb_neq buffer 0)), (proj2 (Z.eqb_neq count 0)) by lia. cbn [orb].
    rewrite (bind_Ret_nil _ _ _ _ _ (blk_available_run _ _ _ _ _ _ Hready)). cbn [negb]. unfold dr_var at 1. rewrite bind_gets. unfold id.
    destruct (Z.leb_spec (vb_block_count (dr_vars s)) start); [done|]. by rewrite (proj2 (Z.ltb_lt _ count)) by lia.
  - rewrite <- (put_vio_of s) in Hready, Hin, Hfuel |- *.
    destruct (transfer_run header_at status_at q0 turn served disk delay Hdev (vio_of s) s sub del kind start count buffer fuel Hready Hk Hst Hc Hsmall Hpl Hin Hfuel)
      as (s' & h & len & E & Hr & Hd & Hread & Hframe).
    exists s', (sub ++ [h]), (del ++ [(h, len)]). split; [exact E|]. split; [exact Hr|]. split; [exact Hd|]. by split.
Qed.

(** ** A disk of two blocks *)

Record vdisk : Type := Vdisk { vd_served : Z; vd_bytes : list Z; vd_delay : nat }.
#[local] Instance disk_board : Hardware vdisk :=
  {| mmio_read _ h := (0, h); mmio_write _ _ h := h; sysreg_read _ h := (0, h); sysreg_write _ _ h := h |}.
Definition disk_turn (q : virtqueue) : device_turn vdisk := fun m h =>
  match vd_delay h with
  | S k => (m, Vdisk (vd_served h) (vd_bytes h) k, None)
  | O =>
      if ld 2 (ram m) (avail_idx (avail q)) =? u16 (vd_served h + 1) then
        match serve q (vd_served h) (vd_bytes h) (ram m) with
        | Some (r, bytes) => (set_ram r m, Vdisk (vd_served h + 1) bytes 3, Some VIRTIO_INTERRUPT_USED_RING)
        | None => (m, h, None)
        end
      else (m, h, None)
  end.
Lemma disk_turn_behind q : disk_behind q (disk_turn q) vd_served vd_bytes vd_delay.
Proof.
  split; [| |done].
  - intros m h r bytes Hd Hi Hs. unfold disk_turn. rewrite Hd, Hi, Z.eqb_refl, Hs.
    eexists _, _. split; [reflexivity|]. split; [done|]. split; [done|]. by right.
  - intros m h k Hd. unfold disk_turn. rewrite Hd. by eexists.
Qed.

Definition two_blocks : list Z := replicate 512 7 ++ replicate 512 9.
Definition sample_blk (v : vio) : driver blk_state unit vdisk unit :=
  Driver (BlkState (Some 0) 512 2 true (queue v) 0 0 0 0 0 0 0 0 0) (v_mm v) (v_mmu v)
    (Virtio [VirtioMmioDevice 0x0a000000 0 48 2 0 0 (0, 0) 1 1 None 0] 1 (Vdisk 0 two_blocks 2) tt) 0.

Lemma sample_blk_ready : exists v, blk_ready (queue v) vd_served vd_bytes (sample_blk v) [] [] /\ places 0x50000000 0x50000010 (queue v) 0x50001000 512.
Proof.
  destruct (virtqueue_init_run tiny_plat tiny_plat_wf blank_queue 8 tiny_pmm_on) as [(_ & v & _ & [Hly Hsz Hd Hr (p & Hp & Hpg & _) _ _])|[[H|[H|H]] _]];
    [lia| |lia|lia|exfalso; specialize (H 1 ltac:(by vm_compute)); by vm_compute in H].
  exists v. split.
  - split; try done.
    + by exists 0, (VirtioMmioDevice 0x0a000000 0 48 2 0 0 (0, 0) 1 1 None 0).
    + split; [done|]. rewrite Hsz. lia.
    + destruct v as [q m u]. split; [done|done|]. apply Hr. by exists 8192.
    + apply Forall_app. split; apply Forall_replicate; lia.
  - assert (Hb : 0x40000000 <= page (queue v) < 0x40003000).
    { rewrite Hpg. pose proof (page_addr_range tiny_plat (v_mm blank_queue) p tiny_plat_wf tiny_pmm_on Hp) as Hx. cbn in Hx. unfold PMM_PAGE_SIZE in Hx. lia. }
    split; unfold apart; lia.
Qed.

(** The second block is read. *)
Lemma virtio_blk_transfer_spec_witness : exists v s', 
  virtio_blk_transfer 0x50000000 0x50000010 3 (disk_turn (queue v)) (Some tt) VIRTIO_BLK_T_IN 1 1 0x50001000 (sample_blk v) = Ret 0 s' [] /\
  dma_read (ram (dr_mm s')) 0x50001000 512 = replicate 512 9.
Proof.
  destruct sample_blk_ready as (v & Hready & Hpl). exists v.
  pose proof (virtio_blk_transfer_spec 0x50000000 0x50000010 (queue v) (disk_turn (queue v)) vd_served vd_bytes vd_delay (sample_blk v) [] [] VIRTIO_BLK_T_IN 1 1 0x50001000 3
    (disk_turn_behind (queue v)) Hready (or_introl eq_refl) ltac:(lia) ltac:(lia) ltac:(lia) Hpl ltac:(cbn; lia)) as Hs.
  change (vb_block_count (dr_vars (sample_blk v)) <? 1 + 1) with false in Hs. cbn iota in Hs.
  destruct Hs as (s' & sub' & del' & E & _ & _ & Hr & _). exists s'. split; [exact E|]. exact (Hr eq_refl).
Defined.
