(* ===== verification/ShellText.v ===== *)
(** The text of the shell (src/src/kernel/shell_core.c): how a command line is
    taken apart into words and numbers, and how bytes are dumped. A [const char *]
    is the text from the pointer on, so that the functions that return a pointer
    into their argument return its rest. *)
From S2P Require Import Prelude LibString Klog.

(** ** Words *)

Fixpoint shell_skip_spaces (text : mem) : option mem :=
  match text with
  | [] => None
  | c :: text' => if c =? ch " " then shell_skip_spaces text' else Some text
  end.

Fixpoint token_loop (text buffer : mem) (length buffer_size : Z) : option (mem * mem * Z) :=
  match text with
  | [] => None
  | c :: text' =>
      if negb (c =? 0) && negb (c =? ch " ") then
        buffer1 ← (if u64 (length + 1) <? buffer_size then wr buffer length c else Some buffer);
        token_loop text' buffer1 (u64 (length + 1)) buffer_size
      else Some (text, buffer, length)
  end.

(** The rest of the text and the buffer. *)
Definition shell_read_token (text buffer : mem) (buffer_size : Z) : option (mem * mem) :=
  text1 ← shell_skip_spaces text;
  c ← rd text1 0;
  if c =? 0 then
    buffer1 ← (if 0 <? buffer_size then wr buffer 0 0 else Some buffer);
    Some (text1, buffer1)
  else
    '(text2, buffer1, length) ← token_loop text1 buffer 0 buffer_size;
    if 0 <? buffer_size then
      buffer2 ← wr buffer1 (if buffer_size <=? length then buffer_size - 1 else length) 0;
      Some (text2, buffer2)
    else Some (text2, buffer1).

Fixpoint shell_starts_with (text prefix : mem) : option bool :=
  match prefix with
  | [] => None
  | p :: prefix' =>
      if p =? 0 then Some true
      else
        c ← rd text 0;
        if negb (c =? p) then Some false else shell_starts_with (drop 1 text) prefix'
  end.

Definition shell_command_matches (line command : mem) : option bool :=
  length ← strlen command;
  starts ← shell_starts_with line command;
  if negb (starts : bool) then Some false
  else c ← rd line length; Some ((c =? 0) || (c =? ch " ")).

(** ** Numbers *)

(** The digits from [text] on; the inner [None] is a character that is none. *)
Fixpoint parse_loop (text : mem) (value : Z) : option (option Z) :=
  match text with
  | [] => None
  | c :: text' =>
      if c =? 0 then Some (Some value)
      else if (c <? ch "0") || (ch "9" <? c) then Some None
      else parse_loop text' (u64 (u64 (value * 10) + (c - ch "0")))
  end.

(** The status and [*value_out]; null is [None]. *)
Definition shell_parse_unsigned_long (text : option mem) (value_out : option Z) : option (Z * option Z) :=
  match text, value_out with
  | Some t, Some _ =>
      c ← rd t 0;
      if c =? 0 then Some (-1, value_out)
      else r ← parse_loop t 0; Some (match r with Some value => (0, Some value) | None => (-1, value_out) end)
  | _, _ => Some (-1, value_out)
  end.

(** ** Dumps *)

Definition SHELL_FILE_BUFFER_MAX : Z := 128.
Definition SHELL_BLOCK_DUMP_BYTES : Z := 512.
Definition SHELL_HEXDUMP_BYTES_PER_LINE : Z := 16.

(** [console_putc]. *)
Definition put_char {S} (c : Z) : M S unit := emit [c].

Definition hex_digits : mem := cstr "0123456789abcdef".
Definition shell_print_hex_byte {S} (value : Z) : M S unit :=
  high <- deref (rd hex_digits (Z.land (Z.shiftr value 4) 0xf));; put_char high;;
  low <- deref (rd hex_digits (Z.land value 0xf));; put_char low.

Definition shell_dump_hex_line {S} (offset : Z) (buffer : mem) (count : Z) : M S unit :=
  kprintf "%x:" [AUint (u32 offset)];;
  for_range (Z.to_nat count) 0 (fun index => put_char (ch " ");; b <- deref (rd buffer index);; shell_print_hex_byte b);;
  for_range (Z.to_nat (SHELL_HEXDUMP_BYTES_PER_LINE - count)) count (fun _ => kprintf "   " []);;
  kprintf "  |" [];;
  for_range (Z.to_nat count) 0 (fun index =>
    c <- deref (rd buffer index);;
    if (32 <=? c) && (c <=? 126) then put_char c else put_char (ch "."));;
  kprintf (nl "|") [].

(** The lines of a buffer that starts at [offset] of what is dumped. *)
Fixpoint dump_lines {S} (fuel : nat) (offset : Z) (buffer : mem) (line_offset total : Z) : M S unit :=
  if negb (line_offset <? total) then ret tt
  else
    match fuel with
    | O => undef
    | S fuel' =>
        let count := u32 (total - line_offset) in
        shell_dump_hex_line (offset + line_offset) (drop (Z.to_nat line_offset) buffer)
          (if SHELL_HEXDUMP_BYTES_PER_LINE <? count then SHELL_HEXDUMP_BYTES_PER_LINE else count);;
        dump_lines fuel' offset buffer (u32 (line_offset + SHELL_HEXDUMP_BYTES_PER_LINE)) total
    end.

(** ** What they mean *)

(** A string without its leading spaces, its first word, and what follows. *)
Fixpoint trimmed (s : list Z) : list Z :=
  match s with [] => [] | c :: s' => if c =? ch " " then trimmed s' else s end.
Fixpoint word_of (s : list Z) : list Z * list Z :=
  match s with
  | [] => ([], [])
  | c :: s' => if c =? ch " " then ([], s) else let w := word_of s' in (c :: w.1, w.2)
  end.
Definition first_word (s : list Z) : list Z * list Z := word_of (trimmed s).

Lemma trimmed_no_nul s : no_nul s -> no_nul (trimmed s).
Proof. induction 1; simpl; [constructor|]. destruct (_ =? _); [done|by constructor]. Qed.

Lemma word_of_app s : (word_of s).1 ++ (word_of s).2 = s.
Proof. induction s as [|c s IH]; simpl; [done|]. destruct (_ =? _); simpl; [done|by rewrite IH]. Qed.

Lemma word_no_nul s : no_nul s -> no_nul (word_of s).1 /\ no_nul (word_of s).2.
Proof. intros H. apply no_nul_app. by rewrite word_of_app. Qed.

Lemma skip_spaces_app s r : no_nul s -> shell_skip_spaces (s ++ 0 :: r) = Some (trimmed s ++ 0 :: r).
Proof. induction 1 as [|c s Hc Hs IH]; simpl; [done|]. by destruct (_ =? _). Qed.

(** The loop copies what fits and counts everything. *)
Lemma token_loop_spec s r buffer n size :
  no_nul s -> 0 < size <= lenZ buffer -> Z.of_nat n + lenZ s < 2 ^ 64 ->
  token_loop (s ++ 0 :: r) buffer (Z.of_nat n) size =
    Some ((word_of s).2 ++ 0 :: r, splice buffer n (take (Z.to_nat (size - 1) - n) (word_of s).1),
      Z.of_nat (n + length (word_of s).1)).
Proof.
  intros Hs Hsize. revert buffer n Hsize. induction Hs as [|c s Hc Hs IH]; intros buffer n Hsize Hn.
  { simpl. by rewrite take_nil, splice_nil, Nat.add_0_r. }
  rewrite lenZ_cons in Hn. pose proof (lenZ_nonneg s). cbn [app token_loop word_of].
  rewrite (proj2 (Z.eqb_neq c 0) Hc). cbn [negb andb].
  destruct (Z.eqb_spec c (ch " ")) as [Hsp|Hsp]; cbn [negb andb fst snd length].
  { by rewrite take_nil, splice_nil, Nat.add_0_r. }
  rewrite u64_small by lia. replace (Z.of_nat n + 1) with (Z.of_nat (S n)) by lia.
  replace (n + S (length (word_of s).1))%nat with (S n + length (word_of s).1)%nat by lia.
  destruct (Z.ltb_spec (Z.of_nat (S n)) size) as [Hfit|Hfull].
  - rewrite wr_Some by lia. cbn [mbind option_bind]. rewrite Nat2Z.id.
    rewrite IH by (try lia; unfold lenZ in *; rewrite length_insert; lia).
    replace (Z.to_nat (size - 1) - n)%nat with (S (Z.to_nat (size - 1) - S n)) by lia. cbn [take].
    do 3 f_equal. rewrite <- splice_insert by (unfold lenZ in *; lia).
    replace (S n) with (n + length [c])%nat at 1 by (simpl; lia).
    rewrite splice_app; [done|]. cbn [length]. rewrite length_take. unfold lenZ in *. lia.
  - cbn [mbind option_bind]. rewrite IH by lia.
    replace (Z.to_nat (size - 1) - n)%nat with 0%nat by (unfold lenZ in *; lia).
    replace (Z.to_nat (size - 1) - S n)%nat with 0%nat by lia. by rewrite !take_0, !splice_nil.
Qed.

(** The first word of a string, as much of it as the buffer has room for, and
    the text behind the word. *)
Lemma shell_read_token_run text s buffer size :
  cval text = Some s -> lenZ s < 2 ^ 64 -> 0 < size <= lenZ buffer ->
  exists text' buffer', shell_read_token text buffer size = Some (text', buffer') /\
    cval text' = Some (first_word s).2 /\ cval buffer' = Some (take (Z.to_nat (size - 1)) (first_word s).1) /\
    lenZ buffer' = lenZ buffer.
Proof.
  intros (Hs & r & ->)%cval_inv Hlen Hsize. unfold shell_read_token, first_word. rewrite skip_spaces_app by done.
  cbn [mbind option_bind]. pose proof (trimmed_no_nul s Hs) as Ht.
  assert (Htl : lenZ (trimmed s) <= lenZ s).
  { clear. induction s as [|c s IH]; simpl; [done|]. rewrite lenZ_cons. destruct (_ =? _); rewrite ?lenZ_cons; lia. }
  rewrite (proj2 (Z.ltb_lt 0 size)) by lia. destruct (trimmed s) as [|c t] eqn:Et.
  { change (rd ([] ++ 0 :: r) 0) with (Some 0). cbn [mbind option_bind]. change (0 =? 0) with true. cbn iota.
    rewrite wr_Some by lia. cbn [mbind option_bind]. eexists _, _. split; [reflexivity|].
    split; [done|]. unfold lenZ in *. rewrite length_insert. split; [|done].
    destruct buffer as [|b buffer]; [simpl in Hsize; lia|]. cbn. by rewrite take_nil. }
  change (rd ((c :: t) ++ 0 :: r) 0) with (Some c). cbn [mbind option_bind].
  assert (Hc : c <> 0) by (by inversion Ht). rewrite (proj2 (Z.eqb_neq c 0) Hc).
  pose proof (token_loop_spec (c :: t) r buffer 0 size Ht Hsize ltac:(simpl; lia)) as E.
  change (Z.of_nat 0) with 0 in E. rewrite E. cbn [mbind option_bind]. clear E.
  set (w := word_of (c :: t)). rewrite Nat.sub_0_r, Nat.add_0_l.
  destruct (word_no_nul (c :: t) Ht) as [Hw1 Hw2]. fold w in Hw1, Hw2.
  set (k := take (Z.to_nat (size - 1)) w.1).
  assert (Hk : (if size <=? Z.of_nat (length w.1) then size - 1 else Z.of_nat (length w.1)) = Z.of_nat (length k)).
  { unfold k. rewrite length_take. destruct (Z.leb_spec size (Z.of_nat (length w.1))); lia. }
  rewrite Hk. assert (Hkl : Z.of_nat (length k) < size) by (unfold k; rewrite length_take; lia).
  assert (Hsp : length (splice buffer 0 k) = length buffer) by (apply length_splice; unfold lenZ in *; lia).
  rewrite wr_Some by (unfold lenZ in *; lia). cbn [mbind option_bind]. eexists _, _. split; [reflexivity|].
  rewrite Nat2Z.id. split; [by apply cval_app|]. split; [|unfold lenZ in *; rewrite length_insert; by rewrite Hsp].
  rewrite <- splice_insert by (unfold lenZ in *; lia).
  assert (Hfit : (0 + length k + length [0] <= length buffer)%nat) by (unfold lenZ in *; simpl; lia).
  pose proof (splice_app buffer 0 k [0] Hfit) as E. rewrite Nat.add_0_l in E. rewrite E. unfold splice. rewrite take_0, <- !app_assoc. apply cval_app.
  apply no_nul_take, Hw1.
Qed.

Lemma starts_with_spec text s prefix p :
  cval text = Some s -> cval prefix = Some p ->
  shell_starts_with text prefix = Some (bool_decide (p `prefix_of` s)).
Proof.
  intros (Hs & r & ->)%cval_inv (Hp & q & ->)%cval_inv. revert s Hs.
  induction Hp as [|c p Hc Hp IH]; intros s Hs; cbn [app shell_starts_with].
  { change (0 =? 0) with true. cbn iota. by rewrite bool_decide_true by apply prefix_nil. }
  rewrite (proj2 (Z.eqb_neq c 0) Hc). destruct Hs as [|d s Hd Hs].
  - change (rd ([] ++ 0 :: r) 0) with (Some 0). cbn [mbind option_bind].
    rewrite (proj2 (Z.eqb_neq 0 c)) by done. cbn [negb]. rewrite bool_decide_false; [done|].
    by intros ?%prefix_nil_inv.
  - change (rd ((d :: s) ++ 0 :: r) 0) with (Some d). cbn [mbind option_bind].
    destruct (Z.eqb_spec d c) as [->|Hne]; cbn [negb].
    + change (drop 1 ((c :: s) ++ 0 :: r)) with (s ++ 0 :: r). rewrite IH by done. f_equal.
      apply bool_decide_ext. split; [apply prefix_cons|apply prefix_cons_inv_2].
    + rewrite bool_decide_false; [done|]. by intros ?%prefix_cons_inv_1.
Qed.

(** A line is a command when it starts with it, and ends there or goes on with a
    space. *)
Definition matches (s command : list Z) : bool :=
  bool_decide (command `prefix_of` s) && match drop (length command) s with [] => true | c :: _ => c =? ch " " end.

Lemma command_matches_spec line s command p :
  cval line = Some s -> cval command = Some p -> shell_command_matches line command = Some (matches s p).
Proof.
  intros Hl Hp. unfold shell_command_matches, matches. rewrite strlen_cval, Hp. cbn [fmap option_fmap option_map mbind option_bind].
  rewrite (starts_with_spec _ s _ p Hl Hp). cbn [mbind option_bind].
  case_bool_decide as Hpre; cbn [negb andb]; [|done].
  apply cval_inv in Hl as (Hs & r & ->). destruct Hpre as [t ->]. rewrite drop_app_length.
  apply no_nul_app in Hs as [_ Ht]. rewrite <- app_assoc. destruct t as [|c t]; simpl app; rewrite rd_at; [done|].
  cbn [mbind option_bind]. by rewrite (proj2 (Z.eqb_neq c 0)) by (by inversion Ht).
Qed.

(** *** Numbers *)

Definition is_digit (c : Z) : bool := (ch "0" <=? c) && (c <=? ch "9").
(** The number a decimal string denotes. *)
Definition decimal (s : list Z) : option Z :=
  if bool_decide (s <> []) && forallb is_digit s then Some (digits_value 10 s) else None.

Lemma parse_loop_spec s r v :
  no_nul s -> parse_loop (s ++ 0 :: r) (u64 v) =
    Some (if forallb is_digit s then Some (u64 (fold_left (fun acc c => acc * 10 + digit_value c) s v)) else None).
Proof.
  intros Hs. revert v. induction Hs as [|c s Hc Hs IH]; intros v; cbn [app parse_loop forallb fold_left]; [done|].
  rewrite (proj2 (Z.eqb_neq c 0) Hc), (Z.ltb_antisym _ c), (Z.ltb_antisym c). change (is_digit c) with ((ch "0" <=? c) && (c <=? ch "9")).
  destruct (Z.leb_spec (ch "0") c) as [Hlo|Hlo]; cbn [orb negb andb]; [|done].
  destruct (Z.leb_spec c (ch "9")) as [Hhi|Hhi]; cbn [orb negb andb]; [|done].
  change (ch "0") with 48 in *. change (ch "9") with 57 in *. rewrite <- IH. f_equal.
  unfold digit_value. change (ch "a") with 97. change (ch "0") with 48. rewrite (proj2 (Z.ltb_lt c 97)) by lia.
  unfold u64. rewrite Z.mul_mod_idemp_l by lia. by rewrite Z.add_mod_idemp_l by lia.
Qed.

(** A decimal string is accepted, and its number is taken modulo [2^64]. *)
Lemma shell_parse_unsigned_long_run text s v0 :
  cval text = Some s ->
  shell_parse_unsigned_long (Some text) (Some v0) =
    Some (match decimal s with Some v => (0, Some (u64 v)) | None => (-1, Some v0) end).
Proof.
  intros (Hs & r & ->)%cval_inv. unfold shell_parse_unsigned_long, decimal. destruct s as [|c s].
  { done. }
  change (rd ((c :: s) ++ 0 :: r) 0) with (Some c). cbn [mbind option_bind].
  rewrite (proj2 (Z.eqb_neq c 0)) by (by inversion Hs). pose proof (parse_loop_spec (c :: s) r 0 Hs) as E.
  change (u64 0) with 0 in E. rewrite E. clear E.
  cbn [mbind option_bind]. by destruct (forallb is_digit (c :: s)).
Qed.

(** *** Dumps *)

Definition hex_char (d : Z) : Z := nth (Z.to_nat d) (lit "0123456789abcdef") 0.
Definition hex_byte (b : Z) : list Z := [hex_char (b / 16); hex_char (b mod 16)].
Definition shown_char (c : Z) : Z := if (32 <=? c) && (c <=? 126) then c else ch ".".

(** One line of a dump: the offset, the bytes in hexadecimal, padded, and as
    characters. *)
Definition dump_line (offset : Z) (bytes : list Z) : list Z :=
  default [] (kput_unsigned (u32 offset) 16) ++ lit ":" ++ concat (map (fun b => lit " " ++ hex_byte b) bytes) ++
  concat (replicate (Z.to_nat (SHELL_HEXDUMP_BYTES_PER_LINE - lenZ bytes)) (lit "   ")) ++
  lit "  |" ++ map shown_char bytes ++ lit (nl "|").

(** The lines of a dump of [bytes] that are at [offset]. *)
Fixpoint dump_of (fuel : nat) (offset : Z) (bytes : list Z) : list Z :=
  match fuel, bytes with
  | S fuel', _ :: _ => dump_line offset (take 16 bytes) ++ dump_of fuel' (offset + 16) (drop 16 bytes)
  | _, _ => []
  end.
Definition dump (offset : Z) (bytes : list Z) : list Z := dump_of (length bytes) offset bytes.

Definition is_byte (b : Z) : Prop := 0 <= b < 256.

Lemma for_range_emit {T} n i (body : Z -> M T unit) (f : nat -> list Z) s :
  (forall j, (j < n)%nat -> body (i + Z.of_nat j) s = Ret tt s (f j)) ->
  for_range n i body s = Ret tt s (concat (map f (seq 0 n))).
Proof.
  revert i f. induction n as [|n IH]; intros i f Hb; [done|]. cbn [for_range].
  pose proof (Hb 0%nat ltac:(lia)) as H0. rewrite Z.add_0_r in H0. rewrite (bind_Ret _ _ _ _ _ _ H0).
  rewrite (IH (i + 1) (fun j => f (S j))); [|by intros j Hj; rewrite <- (Hb (S j)) by lia; f_equal; lia].
  cbn [seq map concat]. by rewrite <- seq_shift, map_map.
Qed.

Lemma for_range_bytes {T} (body : Z -> M T unit) (g : Z -> list Z) (bytes : list Z) s :
  (forall j b, bytes !! j = Some b -> body (Z.of_nat j) s = Ret tt s (g b)) ->
  for_range (length bytes) 0 body s = Ret tt s (concat (map g bytes)).
Proof.
  intros Hb. rewrite (for_range_emit _ _ _ (fun j => g (nth j bytes 0))).
  - do 2 f_equal. clear Hb. induction bytes as [|b bytes IH]; [done|]. cbn [length seq map]. f_equal.
    by rewrite <- seq_shift, map_map.
  - intros j Hj. rewrite Z.add_0_l. destruct (lookup_lt_is_Some_2 bytes j Hj) as [b E].
    by rewrite (Hb j b E), (nth_lookup_Some _ _ _ _ E).
Qed.

Lemma hex_digit_read d : 0 <= d < 16 -> rd hex_digits d = Some (hex_char d).
Proof.
  intros Hd. assert (Hall : Forall (fun d => rd hex_digits d = Some (hex_char d)) (map Z.of_nat (seq 0 16))).
  { repeat constructor. }
  rewrite Forall_forall in Hall. apply Hall. apply list_elem_of_fmap. exists (Z.to_nat d). split; [lia|].
  apply elem_of_seq. lia.
Qed.

Lemma shell_print_hex_byte_run {T} b (s : T) : is_byte b -> shell_print_hex_byte b s = Ret tt s (hex_byte b).
Proof.
  intros Hb. unfold is_byte in Hb. unfold shell_print_hex_byte, hex_byte. change 0xf with (Z.ones 4).
  rewrite !Z.land_ones, Z.shiftr_div_pow2 by lia. change (2 ^ 4) with 16.
  assert (b / 16 < 16) by (apply Z.div_lt_upper_bound; lia). assert (0 <= b / 16) by (apply Z.div_pos; lia).
  rewrite (Z.mod_small (b / 16)) by lia. pose proof (Z.mod_pos_bound b 16 ltac:(lia)).
  by rewrite !hex_digit_read by lia.
Qed.

Lemma concat_singletons {A B} (f : A -> B) l : concat (map (fun x => [f x]) l) = map f l.
Proof. induction l as [|x l IH]; simpl; [done|by rewrite IH]. Qed.

Lemma shell_dump_hex_line_run {T} offset buffer count (s : T) :
  0 <= count <= SHELL_HEXDUMP_BYTES_PER_LINE -> count <= lenZ buffer -> Forall is_byte buffer ->
  shell_dump_hex_line offset buffer count s = Ret tt s (dump_line offset (take (Z.to_nat count) buffer)).
Proof.
  unfold SHELL_HEXDUMP_BYTES_PER_LINE. intros Hc Hlen Hb. unfold shell_dump_hex_line, dump_line.
  pose proof (u32_bound offset). destruct (kput_unsigned_total (u32 offset) 16) as [o Ho]; [lia|lia|].
  rewrite Ho. cbn [default].
  set (bytes := take (Z.to_nat count) buffer).
  assert (Hbl : length bytes = Z.to_nat count) by (unfold bytes, lenZ in *; rewrite length_take; lia).
  assert (Hrd : forall j b, bytes !! j = Some b -> rd buffer (Z.of_nat j) = Some b /\ is_byte b).
  { intros j b Hj. apply lookup_take_Some in Hj as [Hj _]. rewrite rd_nat. split; [done|]. by eapply Forall_lookup_1. }
  assert (E1 : kprintf "%x:" [AUint (u32 offset)] s = Ret tt s (o ++ lit ":")).
  { unfold kprintf. rewrite (bind_deref_Some _ (o ++ lit ":")); [done|].
    assert (Hconv : kprintf_conv 120 [AUint (u32 offset)] = Some (o, [])).
    { unfold kprintf_conv. change (120 =? _) with false at 1 2 3 4. change (120 =? ch "x") with true. cbn iota. by rewrite Ho. }
    change (cstr "%x:") with [37; 120; 58; 0]. cbn [kprintf_loop].
    change (37 =? 0) with false. change (negb (37 =? ch "%")) with false. cbn iota.
    change (120 =? 0) with false. cbn iota. by rewrite Hconv. }
  rewrite (bind_Ret _ _ _ _ _ _ E1). rewrite <- Hbl.
  assert (E2 : for_range (length bytes) 0 (fun index => put_char (ch " ");; b <- deref (rd buffer index);; shell_print_hex_byte b) s =
    Ret tt s (concat (map (fun b => lit " " ++ hex_byte b) bytes))).
  { apply for_range_bytes. intros j b [Hj Hbj]%Hrd. unfold put_char.
    by rewrite (bind_Ret (emit [ch " "]) _ s tt s [ch " "] eq_refl), (bind_deref_Some _ _ _ _ Hj), shell_print_hex_byte_run. }
  rewrite (bind_Ret _ _ _ _ _ _ E2). unfold SHELL_HEXDUMP_BYTES_PER_LINE. replace (lenZ bytes) with count by (unfold lenZ; lia).
  rewrite (bind_Ret _ _ _ _ _ _ (for_range_emit _ count _ (fun _ => lit "   ") s (fun _ _ => eq_refl))).
  rewrite (bind_Ret _ _ _ _ _ _ (eq_refl : kprintf "  |" [] s = Ret tt s (lit "  |"))).
  assert (E3 : for_range (length bytes) 0 (fun index => c <- deref (rd buffer index);;
      if (32 <=? c) && (c <=? 126) then put_char c else put_char (ch ".")) s = Ret tt s (map shown_char bytes)).
  { rewrite <- concat_singletons. apply for_range_bytes. intros j b [Hj Hbj]%Hrd.
    rewrite (bind_deref_Some _ _ _ _ Hj). unfold shown_char. by destruct ((32 <=? b) && (b <=? 126)). }
  rewrite (bind_Ret _ _ _ _ _ _ E3). rewrite (eq_refl : kprintf (nl "|") [] s = Ret tt s (lit (nl "|"))).
  rewrite <- !app_assoc. do 6 f_equal. f_equal.
  generalize (Z.to_nat (16 - count)). clear. intros n. f_equal. induction n as [|n IH]; [done|]. cbn [seq map replicate]. by rewrite <- seq_shift, map_map, IH.
Qed.

Lemma dump_of_fuel n offset bytes : (length bytes <= n)%nat -> dump_of n offset bytes = dump offset bytes.
Proof.
  unfold dump. intros Hn. remember (length bytes) as m eqn:Hm. assert (Hmb : (length bytes <= m)%nat) by lia. clear Hm.
  revert m offset bytes Hn Hmb. induction n as [|n IH]; intros m offset bytes Hn Hm.
  { destruct bytes, m; simpl in *; try lia; done. }
  destruct bytes as [|b bytes]; [by destruct m|]. destruct m as [|m]; [simpl in Hm; lia|]. cbn [dump_of]. f_equal.
  apply IH; [lia|]. rewrite length_drop. simpl in *. lia.
Qed.

Lemma dump_cons offset bytes :
  bytes <> [] -> dump offset bytes = dump_line offset (take 16 bytes) ++ dump (offset + 16) (drop 16 bytes).
Proof.
  intros Hb. unfold dump at 1. destruct bytes as [|b bytes]; [done|]. cbn [length dump_of]. f_equal. apply dump_of_fuel.
  rewrite length_drop. simpl. lia.
Qed.

(** Dumping a buffer after another continues the dump, at a line's border. *)
Lemma dump_app n offset a b :
  length a = (16 * n)%nat -> dump offset (a ++ b) = dump offset a ++ dump (offset + 16 * Z.of_nat n) b.
Proof.
  revert offset a. induction n as [|n IH]; intros offset a Ha.
  { destruct a; [|done]. rewrite Z.mul_0_r, Z.add_0_r. done. }
  rewrite (dump_cons offset (a ++ b)), (dump_cons offset a) by (by destruct a).
  rewrite take_app_le, drop_app_le by lia. rewrite IH by (rewrite length_drop; lia).
  rewrite app_assoc. do 2 f_equal. lia.
Qed.

Lemma dump_lines_run {T} fuel offset buffer line_offset total (s : T) :
  0 <= line_offset -> line_offset + 16 * Z.of_nat fuel >= total -> total <= lenZ buffer -> total < 2 ^ 31 -> Forall is_byte buffer ->
  dump_lines fuel offset buffer line_offset total s =
    Ret tt s (dump (offset + line_offset) (slice buffer (Z.to_nat line_offset) (Z.to_nat (total - line_offset)))).
Proof.
  intros Hl Hf Ht H31 Hb. revert line_offset Hl Hf. induction fuel as [|fuel IH]; intros line_offset Hl Hf; cbn [dump_lines].
  all: destruct (Z.ltb_spec line_offset total) as [Hlt|Hge]; cbn [negb]; try lia.
  1, 3: replace (Z.to_nat (total - line_offset)) with 0%nat by lia; rewrite slice_nil; done.
  unfold SHELL_HEXDUMP_BYTES_PER_LINE. cbn zeta. rewrite (u32_small (total - line_offset)), (u32_small (line_offset + 16)) by lia.
  set (bytes := slice _ _ _).
  assert (Hlen : length bytes = Z.to_nat (total - line_offset)) by (apply length_slice; unfold lenZ in *; lia).
  assert (Hcount : (if 16 <? total - line_offset then 16 else total - line_offset) = Z.min 16 (total - line_offset)).
  { destruct (Z.ltb_spec 16 (total - line_offset)); lia. }
  rewrite Hcount.
  assert (Hline : take (Z.to_nat (Z.min 16 (total - line_offset))) (drop (Z.to_nat line_offset) buffer) = take 16 bytes).
  { unfold bytes, slice. rewrite take_take. f_equal. lia. }
  assert (Hrest : Z.min 16 (total - line_offset) <= lenZ (drop (Z.to_nat line_offset) buffer)) by (unfold lenZ in *; rewrite length_drop; lia).
  assert (Hmin : 0 <= Z.min 16 (total - line_offset) <= SHELL_HEXDUMP_BYTES_PER_LINE) by (unfold SHELL_HEXDUMP_BYTES_PER_LINE; lia).
  rewrite (bind_Ret _ _ _ _ _ _ (shell_dump_hex_line_run (offset + line_offset) _ _ s Hmin Hrest ltac:(by apply Forall_drop))).
  rewrite Hline, (dump_cons _ bytes) by (by destruct bytes; simpl in Hlen; [lia|]).
  destruct (Z.leb_spec total (line_offset + 16)) as [Hlast|Hmore].
  - assert (E : dump_lines fuel offset buffer (line_offset + 16) total s = Ret tt s []).
    { destruct fuel; cbn [dump_lines]; by rewrite (proj2 (Z.ltb_ge _ _) Hlast). }
    rewrite E, (drop_ge bytes) by lia. done.
  - rewrite IH by lia. do 2 f_equal. rewrite Z.add_assoc. f_equal. unfold bytes, slice. rewrite skipn_firstn_comm, drop_drop.
    f_equal; [lia|]. f_equal. lia.
Qed.

(** **** Reading a dump back *)

Definition hex_value (c : Z) : option Z :=
  if is_digit c then Some (c - ch "0") else if (ch "a" <=? c) && (c <=? ch "f") then Some (c - ch "a" + 10) else None.
Fixpoint undump_bytes (s : list Z) : list Z :=
  match s with
  | c :: h :: l :: s' =>
      match hex_value h, hex_value l with
      | Some a, Some b => if c =? ch " " then a * 16 + b :: undump_bytes s' else []
      | _, _ => []
      end
  | _ => []
  end.
(** What follows the first [c]. *)
Fixpoint after (c : Z) (s : list Z) : option (list Z) :=
  match s with [] => None | d :: s' => if d =? c then Some s' else after c s' end.
Fixpoint undump_of (fuel : nat) (s : list Z) : list Z :=
  match fuel, after (ch ":") s with
  | S fuel', Some t => undump_bytes t ++ match after 10 t with Some s' => undump_of fuel' s' | None => [] end
  | _, _ => []
  end.
Definition undump (s : list Z) : list Z := undump_of (length s) s.

Lemma after_app c s t : c ∉ s -> after c (s ++ c :: t) = Some t.
Proof.
  induction s as [|d s IH]; intros Hc; cbn [app after]; [by rewrite Z.eqb_refl|].
  apply not_elem_of_cons in Hc as [Hd Hs]. rewrite (proj2 (Z.eqb_neq d c)) by done. by apply IH.
Qed.

Lemma hex_char_ok d : 0 <= d < 16 -> hex_value (hex_char d) = Some d /\ hex_char d <> 10 /\ digit_char d <> ch ":".
Proof.
  intros Hd. assert (Hall : Forall (fun d => hex_value (hex_char d) = Some d /\ hex_char d <> 10 /\ digit_char d <> ch ":") (map Z.of_nat (seq 0 16))).
  { repeat constructor; vm_compute; congruence. }
  rewrite Forall_forall in Hall. apply Hall. apply list_elem_of_fmap. exists (Z.to_nat d). split; [lia|]. apply elem_of_seq. lia.
Qed.

Lemma hex_byte_ok b : is_byte b ->
  hex_value (hex_char (b / 16)) = Some (b / 16) /\ hex_value (hex_char (b mod 16)) = Some (b mod 16) /\ 10 ∉ hex_byte b.
Proof.
  unfold is_byte. intros Hb. assert (b / 16 < 16) by (apply Z.div_lt_upper_bound; lia). assert (0 <= b / 16) by (apply Z.div_pos; lia).
  pose proof (Z.mod_pos_bound b 16 ltac:(lia)).
  destruct (hex_char_ok (b / 16)) as (V1 & N1 & _); [lia|]. destruct (hex_char_ok (b mod 16)) as (V2 & N2 & _); [lia|].
  split_and!; [done|done|]. unfold hex_byte. rewrite !not_elem_of_cons. split_and!; try congruence. apply not_elem_of_nil.
Qed.

Lemma undump_bytes_spec bytes t :
  Forall is_byte bytes -> undump_bytes t = [] ->
  undump_bytes (concat (map (fun b => lit " " ++ hex_byte b) bytes) ++ t) = bytes.
Proof.
  intros Hb Ht. induction Hb as [|b bytes Hb Hbs IH]; [done|]. destruct (hex_byte_ok b Hb) as (V1 & V2 & _).
  set (f := fun b => lit " " ++ hex_byte b) in *.
  change (concat (map f (b :: bytes)) ++ t) with (ch " " :: hex_char (b / 16) :: hex_char (b mod 16) :: (concat (map f bytes) ++ t)).
  cbn [undump_bytes]. rewrite V1, V2, Z.eqb_refl, IH. f_equal.
  pose proof (Z.div_mod b 16). lia.
Qed.

Lemma offset_no_colon v o : 0 <= v < 2 ^ 32 -> kput_unsigned v 16 = Some o -> ch ":" ∉ o.
Proof.
  intros Hv. unfold kput_unsigned. destruct (Z.eqb_spec v 0) as [->|Hv0].
  { intros [= <-]. rewrite not_elem_of_cons. split; [done|apply not_elem_of_nil]. }
  rewrite kput_print by lia. intros E%(inj Some). rewrite <- E, elem_of_reverse. clear E. generalize 65%nat. intros n.
  assert (Hv' : 0 <= v) by lia. clear Hv Hv0. revert v Hv'. induction n as [|n IH]; intros v Hv; cbn [digits_le]; [apply not_elem_of_nil|].
  destruct (v =? 0); [apply not_elem_of_nil|]. rewrite not_elem_of_cons. split.
  - apply not_eq_sym, hex_char_ok, Z.mod_pos_bound. lia.
  - apply IH, Z.div_pos; lia.
Qed.

(** The part of a line behind the colon. *)
Definition line_body (bytes : list Z) : list Z :=
  concat (map (fun b => lit " " ++ hex_byte b) bytes) ++
  concat (replicate (Z.to_nat (SHELL_HEXDUMP_BYTES_PER_LINE - lenZ bytes)) (lit "   ")) ++ lit "  |" ++ map shown_char bytes ++ lit "|".

(** A character that a literal does not contain. *)
Ltac absent := match goal with |- ?c ∉ ?l => refine (bool_decide_eq_false_1 (c ∈ l) _); vm_compute; reflexivity end.

Lemma line_body_no_newline bytes : Forall is_byte bytes -> 10 ∉ line_body bytes.
Proof.
  intros Hb. unfold line_body. rewrite !not_elem_of_app. split_and!.
  - induction Hb as [|b bytes Hb Hbs IH]; [apply not_elem_of_nil|]. cbn [map concat]. rewrite !not_elem_of_app. split_and!; [absent|by apply hex_byte_ok|done].
  - induction (Z.to_nat _) as [|n IH]; [apply not_elem_of_nil|]. cbn [replicate concat]. rewrite not_elem_of_app. split; [absent|done].
  - absent.
  - rewrite list_elem_of_fmap. intros (b & E & _). unfold shown_char in E. change (ch ".") with 46 in E. destruct (Z.leb_spec 32 b), (Z.leb_spec b 126); cbn in E; lia.
  - absent.
Qed.

Lemma undump_line offset bytes t n :
  Forall is_byte bytes -> undump_of (S n) (dump_line offset bytes ++ t) = bytes ++ undump_of n t.
Proof.
  intros Hb. unfold dump_line. pose proof (u32_bound offset). destruct (kput_unsigned_total (u32 offset) 16) as [o Ho]; [lia|lia|].
  rewrite Ho. cbn [default]. pose proof (offset_no_colon (u32 offset) o ltac:(lia) Ho) as Hcolon.
  set (rest := line_body bytes ++ 10 :: t).
  replace ((o ++ _) ++ t) with (o ++ ch ":" :: rest).
  2:{ unfold rest, line_body. change (lit (nl "|")) with (lit "|" ++ [10]). rewrite <- !app_assoc. done. }
  cbn [undump_of]. rewrite (after_app _ _ _ Hcolon). unfold rest. rewrite after_app by (by apply line_body_no_newline). f_equal.
  unfold line_body. rewrite <- !app_assoc. apply undump_bytes_spec; [done|]. by destruct (Z.to_nat _).
Qed.

Lemma dump_line_length offset bytes : (0 < length (dump_line offset bytes))%nat.
Proof. unfold dump_line. rewrite !length_app. simpl. lia. Qed.

(** A dump determines the bytes that were dumped. *)
Lemma undump_dump_run offset bytes : Forall is_byte bytes -> undump (dump offset bytes) = bytes.
Proof.
  intros Hb. unfold undump. assert (Hfuel : forall n, (length (dump offset bytes) <= n)%nat -> undump_of n (dump offset bytes) = bytes); [|by apply Hfuel].
  remember (length bytes) as k eqn:Hk. revert offset bytes Hb Hk. induction (lt_wf k) as [k _ IH]. intros offset bytes Hb Hk n Hn.
  destruct bytes as [|b bytes]; [by destruct n|]. rewrite dump_cons in * by done. rewrite length_app in Hn.
  pose proof (dump_line_length offset (take 16 (b :: bytes))). destruct n as [|n]; [lia|]. rewrite undump_line by (by apply Forall_take).
  rewrite (IH (length (drop 16 (b :: bytes)))); [apply take_drop|rewrite Hk, length_drop; simpl; lia|by apply Forall_drop|done|lia].
Qed.

(** *** Messages *)

Lemma kloop_lit l f args :
  forallb (fun c => negb (c =? 0) && negb (c =? ch "%")) l = true -> kprintf_loop (l ++ f) args = app l <$> kprintf_loop f args.
Proof.
  induction l as [|c l IH]; cbn [app forallb]; intros Hl; [by destruct (kprintf_loop f args)|].
  apply andb_true_iff in Hl as [[Hc Hp]%andb_true_iff Hl]. cbn [kprintf_loop].
  rewrite (proj1 (negb_true_iff _) Hc), Hp, IH by done. by destruct (kprintf_loop f args).
Qed.

Lemma kloop_conv d f a args x :
  (d =? 0) = false -> kprintf_conv d (a :: args) = Some (x, args) ->
  kprintf_loop (ch "%" :: d :: f) (a :: args) = app x <$> kprintf_loop f args.
Proof. intros Hd Hx. cbn [kprintf_loop]. change (ch "%" =? 0) with false. rewrite Z.eqb_refl, Hd, Hx. cbn [negb mbind option_bind]. by destruct (kprintf_loop f args). Qed.

Lemma conv_str row x args : cval row = Some x -> kprintf_conv (ch "s") (AStr (Some row) :: args) = Some (x, args).
Proof. intros Hx. unfold kprintf_conv. rewrite Z.eqb_refl. change (default _ (Some row)) with row. by rewrite Hx. Qed.

Lemma kprintf_out {T} format args o (s : T) : kprintf_loop (cstr format) args = Some o -> kprintf format args s = Ret tt s o.
Proof. intros Ho. unfold kprintf. by rewrite (bind_deref_Some _ _ _ _ Ho). Qed.

Lemma cval_cstr str : no_nul (lit str) -> cval (cstr str) = Some (lit str).
Proof. apply cval_app. Qed.

(** A message with one string in it. *)
Lemma kprintf_string {T} format pre post row x (s : T) :
  cstr format = pre ++ ch "%" :: ch "s" :: post ++ [0] -> cval row = Some x ->
  forallb (fun c => negb (c =? 0) && negb (c =? ch "%")) pre = true -> forallb (fun c => negb (c =? 0) && negb (c =? ch "%")) post = true ->
  kprintf format [AStr (Some row)] s = Ret tt s (pre ++ x ++ post).
Proof.
  intros Hf Hx Hpre Hpost. apply kprintf_out. rewrite Hf, kloop_lit by done.
  rewrite (kloop_conv (ch "s") _ _ [] x eq_refl (conv_str _ _ _ Hx)), kloop_lit by done. cbn. by rewrite app_nil_r.
Qed.

(** What [shell_print_path_error] prints. *)
Definition path_error (action : string) (t : list Z) : list Z :=
  lit action ++ lit " failed" ++ (if bool_decide (t = []) then [] else lit ": " ++ t) ++ [10].
