(* ===== verification/ShellFiles.v ===== *)
(** The commands of the shell on files (src/src/kernel/shell_core.c): listing a
    directory, printing and dumping a file, on the root file system; the commands
    of the log file system; dumping a block. The buffers on the stack are
    arguments. *)
From S2P Require Import Prelude LibString Klog BlockDevice BlockIO LogFS ListDisk TinyFS Vfs FileTable ShellText.

Definition shell_print_path_error {T} (action : string) (path : option mem) : M T unit :=
  no_path <- match path with None => ret true | Some p => c <- deref (rd p 0);; ret (c =? 0) end;;
  if (no_path : bool) then kprintf (nl "%s failed") [AStr (Some (cstr action))]
  else kprintf (nl "%s failed: %s") [AStr (Some (cstr action)); AStr path].

(** A command without its argument. *)
Definition no_argument {T} (args : mem) : M T bool := c <- deref (rd args 0);; ret (c =? 0).

(** The bytes of a buffer, one after the other. *)
Definition put_bytes {T} (buffer : mem) (count : Z) : M T unit :=
  for_range (Z.to_nat count) 0 (fun index => c <- deref (rd buffer index);; put_char c).

(** ** The root file system *)

Section files.
Context {X : Type} (local64 : mem) (local_seen : list mem).
(** [unsigned char buffer[SHELL_FILE_BUFFER_MAX]]. *)
Context (buffer0 : mem).

Definition shell_list_entry (name : mem) (size flags : Z) : M unit Z :=
  (if negb (Z.land flags VFS_FILE_FLAG_DIRECTORY =? 0) then kprintf (nl "%s/") [AStr (Some name)]
   else kprintf (nl "%s") [AStr (Some name)]);;
  ret 0.

(** The result of [vfs_stat]: its size, its flags and its name. *)
Definition stat_path (path : mem) : M (files X) (option vfs_file_info) :=
  found <- on_vfs (vfs_stat local64 (Some path));;
  info <- gets (fun s => vfs_stat_info (files_vfs s));;
  ret (if (found : bool) then Some info else None).
Definition is_directory_info (info : vfs_file_info) : bool := negb (Z.land (info_flags info) VFS_FILE_FLAG_DIRECTORY =? 0).
Definition info_string (info : vfs_file_info) : M (files X) mem := on_vfs (name_string (info_name_of info)).

Definition shell_list_files (path : option mem) : M (files X) unit :=
  no_path <- match path with None => ret true | Some p => no_argument p end;;
  list_path <- (if (no_path : bool) then ret (cstr "/") else deref path);;
  found <- stat_path list_path;;
  match found with
  | None => shell_print_path_error "ls" (Some list_path)
  | Some info =>
      if negb (is_directory_info info) then name <- info_string info;; kprintf (nl "%s") [AStr (Some name)]
      else
        status <- on_vfs (zoom (fun v => (v, tt)) (fun p _ => p.1) (vfs_list_entries local64 local_seen (Some list_path) (Some shell_list_entry)));;
        if negb (status =? 0) then shell_print_path_error "ls" (Some list_path) else ret tt
  end.

(** The bytes that a handle has. *)
Definition handle_bytes (h : Z) : M (files X) nat :=
  table <- gets file_table;; f <- deref (rd table h);; ret (Z.to_nat (size f)).

(** [while (1)]: the outcome is false when a read failed, or else what was read
    last. *)
Fixpoint cat_loop (fuel : nat) (h : Z) (name buffer : mem) (any_read : bool) (last_char : Z) : M (files X) (option (bool * Z)) :=
  let! (read_size, buffer1) := file_read local64 (Some h) (Some buffer) SHELL_FILE_BUFFER_MAX in
  buffer1 <- deref buffer1;;
  if read_size <? 0 then shell_print_path_error "cat" (Some name);; file_close (Some h);; ret None
  else if read_size =? 0 then ret (Some (any_read, last_char))
  else
    match fuel with
    | O => undef
    | S fuel' =>
        put_bytes buffer1 read_size;;
        last <- deref (rd buffer1 (read_size - 1));;
        cat_loop fuel' h name buffer1 true last
    end.
Definition shell_cat_file (name : mem) : M (files X) unit :=
  empty <- no_argument name;;
  if (empty : bool) then kprintf (nl "usage: cat <path>") []
  else
    file <- file_open local64 (Some name);;
    match file with
    | None => shell_print_path_error "cat" (Some name)
    | Some h =>
        n <- handle_bytes h;;
        r <- cat_loop n h name buffer0 false 0;;
        match r with
        | None => ret tt
        | Some (any_read, last_char) =>
            (if negb any_read then put_char 10 else if negb (last_char =? 10) then put_char 10 else ret tt);;
            file_close (Some h)
        end
    end.

Definition shell_print_pwd : M (files X) unit := kprintf (nl "/") [].

Definition shell_print_stat (path : mem) : M (files X) unit :=
  empty <- no_argument path;;
  if (empty : bool) then kprintf (nl "usage: stat <path>") []
  else
    found <- stat_path path;;
    match found with
    | None => shell_print_path_error "stat" (Some path)
    | Some info =>
        name <- info_string info;;
        kprintf (nl "path: %s") [AStr (Some name)];;
        kprintf (nl "type: %s") [AStr (Some (cstr (if is_directory_info info then "directory" else "file")))];;
        kprintf (nl "size: %u bytes") [AUint (info_size info)];;
        kprintf (nl "flags: 0x%x") [AUint (info_flags info)]
    end.

(** [info->size] is read again in every round. *)
Fixpoint hexdump_loop (fuel : nat) (h : Z) (path buffer : mem) (offset : Z) : M (files X) unit :=
  info <- gets (fun s => vfs_stat_info (files_vfs s));;
  if negb (offset <? info_size info) then file_close (Some h)
  else
    let! (read_size, buffer1) := file_read local64 (Some h) (Some buffer) SHELL_FILE_BUFFER_MAX in
    buffer1 <- deref buffer1;;
    if read_size <? 0 then shell_print_path_error "hexdump" (Some path);; file_close (Some h)
    else if read_size =? 0 then file_close (Some h)
    else
      match fuel with
      | O => undef
      | S fuel' =>
          dump_lines (Z.to_nat read_size) offset buffer1 0 read_size;;
          hexdump_loop fuel' h path buffer1 (u64 (offset + read_size))
      end.
Definition shell_hexdump_file (path : mem) : M (files X) unit :=
  empty <- no_argument path;;
  if (empty : bool) then kprintf (nl "usage: hexdump <path>") []
  else
    found <- stat_path path;;
    match found with
    | None => shell_print_path_error "hexdump" (Some path)
    | Some info =>
        if is_directory_info info then shell_print_path_error "hexdump" (Some path)
        else
          file <- file_open local64 (Some path);;
          match file with
          | None => shell_print_path_error "hexdump" (Some path)
          | Some h => n <- handle_bytes h;; hexdump_loop n h path buffer0 0
          end
    end.

Definition shell_print_fsinfo : M (files X) unit :=
  mounted <- on_vfs vfs_is_mounted;;
  if mounted =? 0 then kprintf (nl "vfs not mounted") []
  else
    device <- on_vfs vfs_root_device;;
    root <- stat_path (cstr "/");;
    name <- on_vfs vfs_root_fs_name;;
    kprintf (nl "fs: %s") [AStr name];;
    d <- on_vfs (tiny (zoom tinyfs_devs set_tinyfs_devs (dev_at device)));;
    kprintf (nl "backing device: %s") [AStr (BlockDevice.name d)];;
    kprintf (nl "access: ro") [];;
    count <- on_vfs vfs_root_file_count;;
    kprintf (nl "files: %u") [AUint count];;
    kprintf (nl "mount: /") [];;
    match root with Some _ => kprintf (nl "root type: directory") [] | None => ret tt end.
End files.

(** ** The log *)

Section logs.
Context {X : Type} (buffer0 : mem).

(** [file->name] and [file->size] of a slot. *)
Definition log_file (slot : Z) : M (logfs X) logfs_file_state := t <- gets logfs_tables;; deref (rd (logfs_files t) slot).
Definition log_file_name (slot : Z) : M (logfs X) mem := f <- log_file slot;; t <- gets logfs_tables;; deref (file_name t f).

Definition shell_print_logfsinfo : M (logfs X) unit :=
  mounted <- logfs_is_mounted;;
  if mounted =? 0 then kprintf (nl "logfs not mounted") []
  else
    device <- logfs_device;;
    kprintf (nl "fs: logfs") [];;
    d <- zoom logfs_devs set_logfs_devs (dev_at device);;
    kprintf (nl "backing device: %s") [AStr (BlockDevice.name d)];;
    kprintf (nl "access: append-only") [];;
    count <- logfs_file_count;;
    kprintf (nl "files: %u") [AUint count].

(** The count is read again in every round. *)
Fixpoint log_list_loop (fuel : nat) (index : Z) : M (logfs X) unit :=
  count <- logfs_file_count;;
  if negb (index <? count) then ret tt
  else
    match fuel with
    | O => undef
    | S fuel' =>
        file <- logfs_get_file index;;
        (match file with None => ret tt | Some slot => name <- log_file_name slot;; kprintf (nl "%s") [AStr (Some name)] end);;
        log_list_loop fuel' (u32 (index + 1))
    end.
Definition shell_log_list : M (logfs X) unit :=
  mounted <- logfs_is_mounted;;
  if mounted =? 0 then kprintf (nl "logfs not mounted") [] else log_list_loop (Z.to_nat LOGFS_MAX_FILES) 0.

Fixpoint log_cat_loop (fuel : nat) (slot : Z) (name buffer : mem) (offset last_char : Z) : M (logfs X) (option Z) :=
  f <- log_file slot;;
  if negb (offset <? LogFS.info_size f) then ret (Some last_char)
  else
    match fuel with
    | O => undef
    | S fuel' =>
        let! (read_size, buffer1) := logfs_read_file_part name offset (Some buffer) SHELL_FILE_BUFFER_MAX in
        buffer1 <- deref buffer1;;
        if read_size <=? 0 then kprintf (nl "logcat failed: %s") [AStr (Some name)];; ret None
        else
          put_bytes buffer1 read_size;;
          last <- deref (rd buffer1 (read_size - 1));;
          log_cat_loop fuel' slot name buffer1 (u32 (offset + read_size)) last
    end.
Definition shell_log_cat (name : mem) : M (logfs X) unit :=
  empty <- no_argument name;;
  if (empty : bool) then kprintf (nl "usage: logcat <file>") []
  else
    file <- logfs_stat (Some name);;
    match file with
    | None => kprintf (nl "file not found: %s") [AStr (Some name)]
    | Some slot =>
        f <- log_file slot;;
        r <- log_cat_loop (Z.to_nat (LogFS.info_size f)) slot name buffer0 0 0;;
        match r with
        | None => ret tt
        | Some last_char =>
            f1 <- log_file slot;;
            if (LogFS.info_size f1 =? 0) || negb (last_char =? 10) then put_char 10 else ret tt
        end
    end.

Definition shell_log_create (name : mem) : M (logfs X) unit :=
  empty <- no_argument name;;
  if (empty : bool) then kprintf (nl "usage: logcreate <file>") []
  else
    status <- logfs_create (Some name);;
    if negb (status =? 0) then kprintf (nl "logcreate failed: %s") [AStr (Some name)] else ret tt.

(** [file_name0] is the local array of [LOGFS_NAME_MAX] bytes. *)
Definition shell_log_append (args file_name0 : mem) : M (logfs X) unit :=
  let! (text, file_name) := deref (shell_read_token args file_name0 LOGFS_NAME_MAX) in
  text <- deref (shell_skip_spaces text);;
  no_name <- no_argument file_name;;
  no_text <- (if (no_name : bool) then ret true else no_argument text);;
  if (no_text : bool) then kprintf (nl "usage: logappend <file> <text>") []
  else
    length <- deref (strlen text);;
    status <- logfs_append file_name (Some text) (u32 length);;
    if negb (status =? 0) then kprintf (nl "logappend failed: %s") [AStr (Some file_name)] else ret tt.
End logs.

(** ** Blocks *)

Section blocks.
Context {X : Type} (buffer0 : mem).

Definition shell_print_block_devices : M (@blk X) unit := block_list_devices.

(** The two local arrays of 16 bytes, and [block_number]. *)
Definition shell_block_read (args device_name0 block_text0 : mem) (block_number0 : Z) : M (@blk X) unit :=
  let! (args1, device_name) := deref (shell_read_token args device_name0 16) in
  let! (_, block_text) := deref (shell_read_token args1 block_text0 16) in
  no_device <- no_argument device_name;;
  missing <- (if (no_device : bool) then ret true else no_argument block_text);;
  if (missing : bool) then kprintf (nl "usage: blkread <device> <block>") []
  else
    device <- block_find_device (Some device_name);;
    match device with
    | None => kprintf (nl "device not found: %s") [AStr (Some device_name)]
    | Some p =>
        let! (status, value) := deref (shell_parse_unsigned_long (Some block_text) (Some block_number0)) in
        block_number <- deref value;;
        if negb (status =? 0) then kprintf (nl "invalid block: %s") [AStr (Some block_text)]
        else
          d <- zoom devs set_devs (dev_at (Some p));;
          if SHELL_BLOCK_DUMP_BYTES <? block_size d then kprintf (nl "block too large: %u") [AUint (block_size d)]
          else
            let! (status, buffer) := zoom devs set_devs (call_read_blocks (Some p) block_number 1 buffer0) in
            d1 <- zoom devs set_devs (dev_at (Some p));;
            if negb (status =? 0) then kprintf (nl "blkread failed: %s block %u") [AStr (BlockDevice.name d1); AUint (u32 block_number)]
            else dump_lines (Z.to_nat (block_size d1)) 0 buffer 0 (block_size d1)
    end.
End blocks.
