(* ===== verification/ShellFileLaws.v ===== *)
(** What the shell's commands on the root file system print: [cat] a file's
    bytes, [hexdump] a dump that determines them, [ls] the children of a
    directory; each handle they open is closed again. *)
From S2P Require Import Prelude LibString Klog BlockDevice BlockIO ListDisk TinyFS Vfs FileTable ShellText ShellFiles.

Lemma no_nul_lit str : forallb (fun c => negb (c =? 0)) (lit str) = true -> no_nul (lit str).
Proof. intros Hs. apply Forall_forall. intros c Hc%list_elem_of_In. apply (proj1 (forallb_forall _ _) Hs) in Hc. by apply negb_true_iff, Z.eqb_neq in Hc. Qed.

Lemma path_error_run {T} action path t (s : T) :
  forallb (fun c => negb (c =? 0)) (lit action) = true -> cval path = Some t -> shell_print_path_error action (Some path) s = Ret tt s (path_error action t).
Proof.
  intros Ha%no_nul_lit (Ht & r & ->)%cval_inv. unfold shell_print_path_error, path_error. destruct t as [|c t].
  - change (rd ([] ++ 0 :: r) 0) with (Some 0). rewrite bind_assoc, (bind_deref_Some _ _ _ _ eq_refl), bind_ret.
    change (0 =? 0) with true. cbn iota. rewrite bool_decide_true by done.
    by rewrite (kprintf_string (nl "%s failed") [] (lit (nl " failed")) _ _ s eq_refl (cval_cstr action Ha)).
  - change (rd ((c :: t) ++ 0 :: r) 0) with (Some c). rewrite bind_assoc, (bind_deref_Some _ _ _ _ eq_refl), bind_ret.
    rewrite (proj2 (Z.eqb_neq c 0)) by (by inversion Ht). rewrite bool_decide_false by done. apply kprintf_out.
    change (cstr (nl "%s failed: %s")) with (ch "%" :: ch "s" :: lit " failed: " ++ (ch "%" :: ch "s" :: [10] ++ [0])).
    rewrite (kloop_conv (ch "s") _ _ _ _ eq_refl (conv_str _ _ _ (cval_cstr action Ha))).
    rewrite kloop_lit by done. rewrite (kloop_conv (ch "s") _ _ _ _ eq_refl (conv_str _ _ _ (cval_app _ r Ht))).
    rewrite kloop_lit by done. cbn [kprintf_loop fmap option_fmap option_map].  cbn -[lit app]. by rewrite app_nil_r.
Qed.

Lemma no_argument_run {T} path t (s : T) : cval path = Some t -> no_argument path s = Ret (bool_decide (t = [])) s [].
Proof.
  intros (Ht & r & ->)%cval_inv. unfold no_argument. destruct t as [|c t].
  - by rewrite (bind_deref_Some (rd ([] ++ 0 :: r) 0) 0 _ _ eq_refl).
  - rewrite (bind_deref_Some (rd ((c :: t) ++ 0 :: r) 0) c _ _ eq_refl). unfold ret. by rewrite (proj2 (Z.eqb_neq c 0)) by (by inversion Ht).
Qed.

Lemma put_bytes_run {T} buffer bytes (s : T) : (exists r, buffer = bytes ++ r) -> put_bytes buffer (lenZ bytes) s = Ret tt s bytes.
Proof.
  intros [r ->]. unfold put_bytes, lenZ. rewrite Nat2Z.id, (for_range_bytes _ (fun b => [b])).
  - by rewrite concat_singletons, map_id.
  - intros j b Hj. rewrite rd_nat, (lookup_app_l_Some _ _ _ _ Hj). by rewrite (bind_deref_Some _ _ _ _ eq_refl).
Qed.

(** The last byte that was read. *)
Lemma last_read (got buffer : mem) : got <> [] -> (exists r, buffer = got ++ r) -> exists c, rd buffer (lenZ got - 1) = Some c /\ last got = Some c.
Proof.
  intros Hne [r ->]. destruct (last got) as [c|] eqn:El; [|by apply last_None in El].
  exists c. split; [|done]. apply last_Some in El as [l' ->]. rewrite lenZ_app, <- app_assoc. change (lenZ [c]) with 1.
  replace (lenZ l' + 1 - 1) with (lenZ l') by lia. apply rd_at.
Qed.

Lemma slice_rest {A} (l : list A) n k : drop n l = slice l n k ++ drop (n + length (slice l n k)) l.
Proof.
  rewrite <- (take_drop (length (slice l n k)) (drop n l)) at 1. f_equal; [|by rewrite drop_drop].
  unfold slice. by rewrite length_take, <- take_take, firstn_all.
Qed.

(** A text as [cat] shows it: it ends with a newline. *)
Definition cat_text (bytes : list Z) : list Z := bytes ++ (if decide (last bytes = Some 10) then [] else [10]).

Section laws.
Context {X : Type} `{DiskDriver X} (local64 : mem) (local64_len : lenZ local64 = VFS_PATH_MAX).
Context (local_seen : list mem) (local_seen_rows : Vfs.rows local_seen []).
Implicit Types (s : files X) (d : block_device X) (f : file).

(** The loop prints what is left of the file. *)
Lemma cat_loop_run fuel s d h i e n pos name buffer any last0 :
  open_at s d h i e n pos -> on_disk d e -> 0 <= h < FILE_TABLE_MAX -> 0 <= pos <= file_size e ->
  lenZ buffer = SHELL_FILE_BUFFER_MAX -> file_size e - pos <= Z.of_nat fuel ->
  let rest := drop (Z.to_nat pos) (file_bytes d e) in
  exists s', cat_loop local64 fuel h name buffer any last0 s =
      Ret (Some (any || negb (pos =? file_size e), default last0 (last rest))) s' rest /\
    open_at s' d h i e n (file_size e) /\ forall h', h' <> h -> rd (file_table s') h' = rd (file_table s) h'.
Proof using local64_len.
  intros Hop Hdisk Hh Hpos Hbuf. revert s pos buffer any last0 Hop Hpos Hbuf.
  induction fuel as [|fuel IH]; intros s pos buffer any last0 Hop Hpos Hbuf Hfuel rest.
  all: pose proof Hop as [_ [p [Hm _ _]] _ _ _ _]; destruct (mt_disk _ _ _ Hm) as (_ & Hdev & _).
  all: pose proof (file_bytes_length d e Hdev Hdisk) as Hfb.
  all: destruct (file_read_step local64 local64_len s d h i e n pos buffer SHELL_FILE_BUFFER_MAX Hop Hdisk Hh) as (s1 & He & Hop1 & Hoth1);
    [rewrite Hbuf; done|rewrite Hbuf; done|].
  all: set (got := slice _ _ _) in *; cbn [cat_loop]; rewrite (bind_Ret_nil _ _ _ _ _ He), (bind_deref_Some _ _ _ _ eq_refl).
  all: assert (Hgl : lenZ got = Z.min 128 (file_size e - pos)) by (unfold got, lenZ, SHELL_FILE_BUFFER_MAX in *; rewrite length_slice; lia).
  all: rewrite (proj2 (Z.ltb_ge (lenZ got) 0)) by lia.
  all: destruct (Z.eqb_spec (lenZ got) 0) as [Hz|Hnz]; try lia.
  1, 2: assert (Hend : pos = file_size e) by lia; exists s1; unfold rest; rewrite Hend, Z.eqb_refl, orb_false_r, drop_ge by (unfold lenZ in *; lia);
    split; [done|]; rewrite Hend, Hz, Z.add_0_r in Hop1; done.
  assert (Hsp : exists r, splice buffer 0 got = got ++ r) by (eexists; unfold splice; by rewrite take_0).
  rewrite (bind_Ret _ _ _ _ _ _ (put_bytes_run _ got s1 Hsp)).
  destruct (last_read got (splice buffer 0 got) ltac:(by destruct got) Hsp) as (c & Hrd & Hlc). rewrite (bind_deref_Some _ _ _ _ Hrd).
  destruct (IH s1 (pos + lenZ got) (splice buffer 0 got) true c Hop1) as (s2 & He2 & Hop2 & Hoth2);
    [lia|unfold lenZ in *; rewrite length_splice; unfold SHELL_FILE_BUFFER_MAX in *; lia|lia|].
  rewrite He2. exists s2. split; [|split; [done|intros h' Hne; by rewrite Hoth2, Hoth1]].
  assert (Hrest : rest = got ++ drop (Z.to_nat (pos + lenZ got)) (file_bytes d e)).
  { unfold rest, got. rewrite slice_rest at 1. do 2 f_equal. fold got. unfold lenZ. lia. }
  rewrite Hrest, (proj2 (Z.eqb_neq pos _)) by lia. cbn [negb]. rewrite orb_true_r. f_equal. f_equal. f_equal.
  rewrite last_app, Hlc. by destruct (last (drop _ _)).
Qed.

(** What [cat] prints of a path, and what becomes of the table: nothing that the
    handle did remains. *)
Definition cat_output (v : vfs X) d (slot : option Z) (t : list Z) : list Z :=
  match open_target v t, slot with
  | Some (_, _, e), Some _ => cat_text (file_bytes d e)
  | _, _ => path_error "cat" t
  end.

Lemma file_close_run s h : table_wf s -> 0 <= h < FILE_TABLE_MAX ->
  exists s', file_close (Some h) s = Ret tt s' [] /\ table_wf s' /\ files_vfs s' = files_vfs s /\
    rd (file_table s') h = Some (File None 0 0 0 0) /\ forall h', h' <> h -> rd (file_table s') h' = rd (file_table s) h'.
Proof.
  intros Hwf Hh. destruct (table_wr s h (File None 0 0 0 0) Hwf Hh) as (tb & Htb & Hwf' & Hrd & Hoth); [split; simpl; lia|].
  unfold file_close. krun. rewrite (bind_deref_Some _ _ _ _ Htb). by exists (set_file_table tb s).
Qed.

Lemma free_slot_bound s h : table_wf s -> free_slot s = Some h -> 0 <= h < FILE_TABLE_MAX.
Proof.
  intros [Hlen _] Hf. unfold free_slot in Hf. destruct (list_find _ _) as [[j f]|] eqn:Hj; [|done]. injection Hf as <-.
  apply list_find_Some in Hj as (Hj%lookup_lt_Some & _). unfold lenZ in Hlen. lia.
Qed.

(** Opening a file that is on the disk, at its start. *)
Lemma open_run s p d pth t n i e h :
  root_mounted (files_vfs s) p d -> table_wf s -> cval pth = Some t -> lenZ t < 2 ^ 31 ->
  open_target (files_vfs s) t = Some (n, i, e) -> free_slot s = Some h ->
  exists s1, file_open local64 (Some pth) s = Ret (Some h) s1 [] /\ open_at s1 d h i e n 0 /\
    vfs_stat_info (files_vfs s1) = VfsFileInfo (NameFile (Z.of_nat i)) (file_size e) (file_flags e) /\
    forall h', h' <> h -> rd (file_table s1) h' = rd (file_table s) h'.
Proof using local64_len.
  intros Hrm Hwf Ht Hl Hto Hfree. pose proof (free_slot_bound s h Hwf Hfree) as Hh.
  destruct (file_open_stat local64 local64_len _ p d pth t Hrm Ht Hl) as (found & v' & He & Hrm' & Htn & Hres).
  rewrite Hto in Hres. destruct Hres as (-> & Hfl & Hinfo). unfold file_open.
  rewrite (bind_Ret_nil _ _ _ _ _ (zoom_Ret _ set_files_vfs _ s _ _ _ He)). krun. cbn [set_files_vfs files_vfs]. rewrite Hinfo.
  cbn [info_flags negb orb]. rewrite Hfl. change (negb (0 =? 0)) with false. cbn iota. set (s1 := set_files_vfs v' s).
  assert (Hwf1 : table_wf s1) by (by destruct Hwf).
  pose proof (file_open_loop_spec (Z.to_nat FILE_TABLE_MAX) 0 s1 (VfsFileInfo (NameFile (Z.of_nat i)) (file_size e) (file_flags e))
    (tb_len _ Hwf1) eq_refl (Forall_nil_2 _)) as Hloop. change (Z.of_nat 0) with 0 in Hloop. rewrite Hloop.
  change (free_slot s1) with (free_slot s). rewrite Hfree. cbn [info_name_of info_size info_flags].
  pose proof (le32_bound e 68).
  destruct (table_wr s1 h (File (Some (NameFile (Z.of_nat i))) (file_size e) 0 (file_flags e) 1) Hwf1 Hh)
    as (tb & Htb & Hwf' & Hrd & Hoth); [unfold file_size; split; simpl; lia|].
  rewrite wr_Some in Htb by (destruct Hwf1 as [-> _]; done). injection Htb as <-.
  destruct (open_target_inv _ _ _ _ _ Hto) as (Hnp & Hlk & _).
  eexists. split; [reflexivity|]. split; [|split; [exact Hinfo|exact Hoth]]. split; simpl; try done.
  - by exists p.
  - by rewrite Htn.
  - unfold normal_path in *. apply (normal_path_idem false t n Hnp).
Qed.

Lemma cat_file_run s p d pth t buffer :
  root_mounted (files_vfs s) p d -> table_wf s -> cval pth = Some t -> t <> [] -> lenZ t < 2 ^ 31 -> lenZ buffer = SHELL_FILE_BUFFER_MAX ->
  (forall n i e, open_target (files_vfs s) t = Some (n, i, e) -> on_disk d e) ->
  exists s', shell_cat_file local64 buffer pth s = Ret tt s' (cat_output (files_vfs s) d (free_slot s) t) /\
    (exists p', root_mounted (files_vfs s') p' d) /\ table_wf s' /\
    forall h, rd (file_table s') h = rd (file_table s) h \/ free_slot s = Some h /\ rd (file_table s') h = Some (File None 0 0 0 0).
Proof using local64_len.
  intros Hrm Hwf Ht Hne Hl Hbuf Hdisk. unfold shell_cat_file, cat_output.
  rewrite (bind_Ret_nil _ _ _ _ _ (no_argument_run pth t s Ht)), bool_decide_false by done.
  destruct (open_target (files_vfs s) t) as [[[n i] e]|] eqn:Hto; [destruct (free_slot s) as [h|] eqn:Hfree|].
  2, 3: destruct (file_open_ok local64 local64_len s p d pth t Hrm Hwf Ht Hl) as (s1 & Hrm1 & Hwf1 & _ & Hres); rewrite Hto in Hres;
    try rewrite Hfree in Hres; destruct Hres as [He Htb]; exists s1; rewrite (bind_Ret_nil _ _ _ _ _ He), (path_error_run "cat" pth t s1 eq_refl Ht);
    split; [done|]; split; [by exists p|]; split; [done|]; intros h'; left; by rewrite Htb.
  pose proof (free_slot_bound s h Hwf Hfree) as Hh. specialize (Hdisk n i e eq_refl).
  destruct (open_run s p d pth t n i e h Hrm Hwf Ht Hl Hto Hfree) as (s1 & He & Hop & _ & Hoth).
  rewrite (bind_Ret_nil _ _ _ _ _ He). pose proof Hop as [_ _ Hslot _ _ _].
  assert (Hn : handle_bytes h s1 = Ret (Z.to_nat (file_size e)) s1 []) by (unfold handle_bytes; krun; by rewrite (bind_deref_Some _ _ _ _ Hslot)).
  rewrite (bind_Ret_nil _ _ _ _ _ Hn). pose proof (le32_bound e 68). unfold file_size in *.
  destruct (cat_loop_run (Z.to_nat (file_size e)) s1 d h i e n 0 pth buffer false 0 Hop Hdisk Hh) as (s2 & He2 & Hop2 & Hoth2);
    [unfold file_size; lia|done|unfold file_size; lia|]. change (Z.to_nat 0) with 0%nat in He2. rewrite drop_0 in He2. unfold file_size in He2.
  rewrite (bind_Ret _ _ _ _ _ _ He2). pose proof Hop2 as [Hwf2 [p2 Hrm2] _ _ _ _].
  destruct (file_close_run s2 h Hwf2 Hh) as (s3 & He3 & Hwf3 & Hv3 & Hrd3 & Hoth3).
  assert (Hdev : disk_device d) by (destruct Hrm as [Hm _ _]; by destruct (mt_disk _ _ _ Hm) as (_ & ? & _)).
  pose proof (file_bytes_length d e Hdev Hdisk) as Hfb. unfold file_size in Hfb.
  exists s3. split; [|split; [|split; [done|]]].
  - unfold cat_text. cbn [orb]. destruct (Z.eqb_spec 0 (le32 e 68)) as [Hz|Hz]; cbn [negb].
    + destruct (file_bytes d e) as [|c l]; [|unfold lenZ in Hfb; simpl in Hfb; lia]. unfold put_char.
      rewrite (bind_Ret (emit [10]) _ s2 tt s2 [10] eq_refl), He3. by rewrite decide_False by done.
    + destruct (last (file_bytes d e)) as [c|] eqn:El; [|apply last_None in El; rewrite El in Hfb; done]. cbn [default from_option id].
      destruct (Z.eqb_spec c 10) as [->|Hc]; cbn [negb].
      * rewrite bind_ret, He3. by rewrite decide_True by done.
      * unfold put_char. rewrite (bind_Ret (emit [10]) _ s2 tt s2 [10] eq_refl), He3. by rewrite decide_False by congruence.
  - exists p2. by rewrite Hv3.
  - intros h'. destruct (decide (h' = h)) as [->|Hh']; [by right|]. left. by rewrite Hoth3, Hoth2, Hoth.
Qed.

(** *** [hexdump] *)

(** A read of an open file leaves the static result of [vfs_stat] on that file. *)
Lemma file_at_name (v : vfs X) n i e :
  lookup_file (vfs_tinyfs v) n = Some (i, e) -> normal_path false n = Some n -> Z.land (file_flags e) VFS_FILE_FLAG_DIRECTORY = 0 ->
  file_at v n = Some (n, e).
Proof. intros Hl Hn Hf. unfold file_at. rewrite Hn. cbn [mbind option_bind]. rewrite Hl. cbn [mbind option_bind]. by rewrite Hf. Qed.

Lemma file_read_info s d h i e n pos buf k r s' o :
  open_at s d h i e n pos -> file_read local64 (Some h) (Some buf) k s = Ret r s' o ->
  vfs_stat_info (files_vfs s) = VfsFileInfo (NameFile (Z.of_nat i)) (file_size e) (file_flags e) ->
  vfs_stat_info (files_vfs s') = vfs_stat_info (files_vfs s).
Proof using local64_len.
  intros Hop He Hinfo. pose proof Hop as [_ [p Hrm] Hslot Hent Hnm Hfl]. revert He. unfold file_read. krun.
  rewrite (bind_deref_Some _ _ _ _ Hslot). cbn [in_use is_null path size offset]. change (1 =? 0) with false. cbn [orb].
  destruct (file_size e <=? pos); [by intros [= _ <- _]|]. cbn zeta.
  destruct (lookup_file_rd _ p d i e n Hrm Hent) as [Hrd Hcv].
  assert (Hname : on_vfs (name_string (NameFile (Z.of_nat i))) s = Ret e s []).
  { unfold on_vfs, name_string, tiny, zoom, tinyfs_entry. krun. rewrite Hrd. by destruct s as [[] ?]. }
  rewrite bind_assoc, (bind_Ret_nil _ _ _ _ _ Hname), bind_ret. intros He.
  apply bind_inv_Ret in He as ((r1 & b1) & s1 & o1 & o2 & Hread & Hrest & _).
  assert (Hs1 : vfs_stat_info (files_vfs s1) = vfs_stat_info (files_vfs s)).
  { revert Hread. unfold on_vfs, zoom. destruct (vfs_read_file_part _ _ _ _ _ _) as [a v' o'| |] eqn:Hpart; [|done|done].
    intros [= _ <- _]. cbn [set_files_vfs files_vfs]. revert Hpart. unfold vfs_read_file_part.
    pose proof (normal_path_short n Hnm). unfold VFS_PATH_MAX, TINYFS_NAME_MAX in *.
    destruct (vfs_open_file_spec local64 local64_len (files_vfs s) p d e n Hrm Hcv ltac:(lia)) as (v1 & opened & Ho & _ & _ & Hop').
    rewrite (file_at_name _ n i e Hent Hnm Hfl) in Hop'. destruct Hop' as (r0 & j & -> & _ & Hj & Hi). rewrite Hent in Hj. injection Hj as <-.
    rewrite (bind_Ret_nil _ _ _ _ _ Ho), Hinfo, <- Hi. unfold tiny, zoom. by destruct (tinyfs_read_file_part _ _ _ _ _); [intros [= _ <- _]|..]. }
  rewrite <- Hs1. clear Hs1. destruct (r1 <? 0); [by injection Hrest as _ <- _|].
  revert Hrest. rewrite bind_gets. intros (f1 & s2 & oa & ob & Hf1 & Hrest & _)%bind_inv_Ret.
  unfold deref in Hf1. destruct (rd (file_table s1) h) as [f1'|]; [injection Hf1 as _ <- _|done].
  apply bind_inv_Ret in Hrest as (t2 & s3 & oc & od & Ht2 & Hrest & _).
  unfold deref in Ht2. destruct (wr _ _ _) as [t2'|]; [injection Ht2 as _ <- _|done]. revert Hrest. krun. by intros [= _ <- _].
Qed.

(** The loop dumps what is left of the file, and closes it. *)
Lemma hexdump_loop_run fuel s d h i e n k name buffer :
  open_at s d h i e n (SHELL_FILE_BUFFER_MAX * Z.of_nat k) -> on_disk d e -> 0 <= h < FILE_TABLE_MAX ->
  vfs_stat_info (files_vfs s) = VfsFileInfo (NameFile (Z.of_nat i)) (file_size e) (file_flags e) ->
  Forall is_byte (file_bytes d e) -> Forall is_byte buffer -> lenZ buffer = SHELL_FILE_BUFFER_MAX ->
  file_size e - SHELL_FILE_BUFFER_MAX * Z.of_nat k <= Z.of_nat fuel ->
  let pos := SHELL_FILE_BUFFER_MAX * Z.of_nat k in
  exists s', hexdump_loop local64 fuel h name buffer pos s =
      Ret tt s' (dump pos (drop (Z.to_nat pos) (file_bytes d e))) /\
    table_wf s' /\ (exists p, root_mounted (files_vfs s') p d) /\ rd (file_table s') h = Some (File None 0 0 0 0) /\
    forall h', h' <> h -> rd (file_table s') h' = rd (file_table s) h'.
Proof using local64_len.
  intros Hop Hdisk Hh Hinfo Hbytes Hbb Hbuf.
  revert s k buffer Hop Hinfo Hbb Hbuf. unfold SHELL_FILE_BUFFER_MAX in *.
  induction fuel as [|fuel IH]; intros s k buffer Hop Hinfo Hbb Hbuf Hfuel; set (pos := 128 * Z.of_nat k) in *.
  all: pose proof Hop as [Hwf [p Hrm] Hslot _ _ _]; pose proof Hrm as [Hm _ _]; destruct (mt_disk _ _ _ Hm) as (_ & Hdev & _).
  all: pose proof (file_bytes_length d e Hdev Hdisk) as Hfb; pose proof Hdisk as (_ & _ & H31).
  all: cbn [hexdump_loop]; rewrite bind_gets, Hinfo; cbn [info_size].
  all: destruct (Z.ltb_spec pos (file_size e)) as [Hlt|Hge]; cbn [negb]; [|].
  2, 4: destruct (file_close_run s h Hwf Hh) as (s1 & He & Hwf1 & Hv1 & Hrd1 & Hoth1); exists s1; rewrite He, drop_ge by (unfold lenZ in *; lia);
    split; [done|]; split; [done|]; split; [exists p; by rewrite Hv1|]; done.
  1: lia.
  destruct (file_read_step local64 local64_len s d h i e n pos buffer 128 Hop Hdisk Hh) as (s1 & He & Hop1 & Hoth1); [lia|lia|].
  set (got := slice _ _ _) in *. pose proof (file_read_info _ _ _ _ _ _ _ _ _ _ _ _ Hop He Hinfo) as Hinfo1. rewrite Hinfo in Hinfo1.
  unfold SHELL_FILE_BUFFER_MAX. rewrite (bind_Ret_nil _ _ _ _ _ He), (bind_deref_Some _ _ _ _ eq_refl).
  assert (Hgl : lenZ got = Z.min 128 (file_size e - pos)) by (unfold got, lenZ in *; rewrite length_slice; lia).
  rewrite (proj2 (Z.ltb_ge (lenZ got) 0)), (proj2 (Z.eqb_neq (lenZ got) 0)) by lia.
  assert (Hgb : Forall is_byte got) by (apply Forall_take, Forall_drop, Hbytes).
  set (buffer1 := splice buffer 0 got).
  assert (Hb1 : lenZ buffer1 = 128) by (unfold buffer1, lenZ in *; rewrite length_splice; lia).
  assert (Hbb1 : Forall is_byte buffer1) by (unfold buffer1, splice; rewrite take_0, app_nil_l; apply Forall_app; split; [done|by apply Forall_drop]).
  rewrite (bind_Ret _ _ _ _ _ _ (dump_lines_run (Z.to_nat (lenZ got)) pos buffer1 0 (lenZ got) s1 ltac:(lia) ltac:(lia) ltac:(lia) ltac:(lia) Hbb1)).
  rewrite Z.add_0_r, Z.sub_0_r. change (Z.to_nat 0) with 0%nat.
  assert (Hsl : slice buffer1 0 (Z.to_nat (lenZ got)) = got).
  { unfold buffer1, slice, splice. rewrite take_0, app_nil_l, drop_0. apply take_lenZ_app. }
  rewrite Hsl, u64_small by lia.
  assert (Hrest : drop (Z.to_nat pos) (file_bytes d e) = got ++ drop (Z.to_nat (pos + lenZ got)) (file_bytes d e)).
  { unfold got. rewrite slice_rest at 1. do 2 f_equal. fold got. unfold lenZ. lia. }
  rewrite Hrest. destruct (Z.le_gt_cases (file_size e - pos) 128) as [Hlast|Hmore].
  - replace (pos + lenZ got) with (file_size e) in * by lia.
    pose proof Hop1 as [Hwf1 [p1 Hrm1] _ _ _ _].
    destruct (file_close_run s1 h Hwf1 Hh) as (s2 & He2 & Hwf2 & Hv2 & Hrd2 & Hoth2). exists s2. split.
    + assert (E : hexdump_loop local64 fuel h name buffer1 (file_size e) s1 = Ret tt s2 []).
      { destruct fuel; cbn [hexdump_loop]; rewrite bind_gets, Hinfo1; cbn [info_size]; rewrite Z.ltb_irrefl; exact He2. }
      rewrite E, drop_ge, !app_nil_r by (unfold lenZ in *; lia). done.
    + split; [done|]. split; [exists p1; by rewrite Hv2|]. split; [done|]. intros h' Hne. by rewrite Hoth2, Hoth1.
  - assert (Hg : lenZ got = 128) by lia. replace (pos + lenZ got) with (128 * Z.of_nat (S k)) in * by lia.
    destruct (IH s1 (S k) buffer1 Hop1 Hinfo1 Hbb1 Hb1) as (s2 & He2 & Hwf2 & Hrm2 & Hrd2 & Hoth2); [lia|].
    exists s2. rewrite He2. split; [|split_and!; try done; intros h' Hne; by rewrite Hoth2, Hoth1].
    rewrite (dump_app 8 pos got) by (unfold lenZ in Hg; lia). do 3 f_equal. lia.
Qed.

Definition hexdump_output (v : vfs X) d (slot : option Z) (t : list Z) : list Z :=
  match open_target v t, slot with
  | Some (_, _, e), Some _ => dump 0 (file_bytes d e)
  | _, _ => path_error "hexdump" t
  end.

Lemma hexdump_file_run s p d pth t buffer :
  root_mounted (files_vfs s) p d -> table_wf s -> cval pth = Some t -> t <> [] -> lenZ t < 2 ^ 31 ->
  lenZ buffer = SHELL_FILE_BUFFER_MAX -> Forall is_byte buffer ->
  (forall n i e, open_target (files_vfs s) t = Some (n, i, e) -> on_disk d e /\ Forall is_byte (file_bytes d e)) ->
  exists s', shell_hexdump_file local64 buffer pth s = Ret tt s' (hexdump_output (files_vfs s) d (free_slot s) t) /\
    (exists p', root_mounted (files_vfs s') p' d) /\ table_wf s' /\
    forall h, rd (file_table s') h = rd (file_table s) h \/ free_slot s = Some h /\ rd (file_table s') h = Some (File None 0 0 0 0).
Proof using local64_len.
  intros Hrm Hwf Ht Hne Hl Hbuf Hbb Hdisk. unfold shell_hexdump_file, hexdump_output, stat_path.
  rewrite (bind_Ret_nil _ _ _ _ _ (no_argument_run pth t s Ht)), bool_decide_false by done.
  destruct (file_open_stat local64 local64_len _ p d pth t Hrm Ht Hl) as (found & v' & He & Hrm' & Htn & Hres).
  rewrite bind_assoc, (bind_Ret_nil _ _ _ _ _ (zoom_Ret _ set_files_vfs _ s _ _ _ He)), bind_assoc, bind_gets, bind_ret.
  cbn [set_files_vfs files_vfs]. set (s1 := set_files_vfs v' s). assert (Hwf1 : table_wf s1) by (by destruct Hwf).
  assert (Hto1 : open_target (files_vfs s1) t = open_target (files_vfs s) t) by (unfold s1, open_target; cbn [set_files_vfs files_vfs]; by rewrite Htn).
  change (free_slot s) with (free_slot s1).
  destruct (open_target (files_vfs s) t) as [[[n i] e]|] eqn:Hto.
  2:{ exists s1. split; [|split; [by exists p|split; [done|by left]]].
      destruct Hres as [->|Hf]; [by apply path_error_run|]. destruct found; [|by apply path_error_run].
      unfold is_directory_info. rewrite (proj2 (Z.eqb_neq _ 0) Hf). by apply path_error_run. }
  destruct Hres as (-> & Hfl & Hinfo). unfold is_directory_info. rewrite Hinfo. cbn [info_flags]. rewrite Hfl. change (negb (0 =? 0)) with false. cbn iota.
  destruct (free_slot s1) as [h|] eqn:Hfree.
  2:{ destruct (file_open_ok local64 local64_len s1 p d pth t Hrm' Hwf1 Ht Hl) as (s2 & Hrm2 & Hwf2 & _ & Hopen).
      rewrite Hto1, Hfree in Hopen. destruct Hopen as [Ho Htb]. exists s2. rewrite (bind_Ret_nil _ _ _ _ _ Ho), (path_error_run "hexdump" pth t s2 eq_refl Ht).
      split; [done|]. split; [by exists p|]. split; [done|]. intros h'. left. by rewrite Htb. }
  pose proof (free_slot_bound s1 h Hwf1 Hfree) as Hh. destruct (Hdisk n i e eq_refl) as [Hod Hbytes].
  destruct (open_run s1 p d pth t n i e h Hrm' Hwf1 Ht Hl Hto1 Hfree) as (s2 & Ho & Hop & Hinfo2 & Hoth).
  rewrite (bind_Ret_nil _ _ _ _ _ Ho). pose proof Hop as [_ _ Hslot _ _ _].
  assert (Hn : handle_bytes h s2 = Ret (Z.to_nat (file_size e)) s2 []) by (unfold handle_bytes; krun; by rewrite (bind_deref_Some _ _ _ _ Hslot)).
  rewrite (bind_Ret_nil _ _ _ _ _ Hn).
  destruct (hexdump_loop_run (Z.to_nat (file_size e)) s2 d h i e n 0 pth buffer Hop Hod Hh Hinfo2 Hbytes Hbb Hbuf) as (s3 & He3 & Hwf3 & Hrm3 & Hrd3 & Hoth3); [lia|].
  change (SHELL_FILE_BUFFER_MAX * Z.of_nat 0) with 0 in He3. change (Z.to_nat 0) with 0%nat in He3. rewrite drop_0 in He3.
  exists s3. split; [done|]. split; [done|]. split; [done|]. intros h'. destruct (decide (h' = h)) as [->|Hne']; [by right|]. left. by rewrite Hoth3, Hoth.
Qed.

(** *** [ls] *)

(** A line of a listing: a directory is marked. *)
Definition entry_line (entry : list Z * Z * Z) : list Z :=
  listed_name entry ++ (if negb (Z.land entry.2 VFS_FILE_FLAG_DIRECTORY =? 0) then lit "/" else []) ++ [10].

Lemma shell_list_entry_run row x size flags :
  cval row = Some x -> shell_list_entry row size flags tt = Ret 0 tt (entry_line (x, size, flags)).
Proof.
  intros Hx. unfold shell_list_entry, entry_line, listed_name. cbn [fst snd]. destruct (negb _).
  - rewrite (bind_Ret _ _ _ _ _ _ (kprintf_string (nl "%s/") [] (lit (nl "/")) row x tt eq_refl Hx eq_refl eq_refl)). unfold ret. by rewrite app_nil_r.
  - rewrite (bind_Ret _ _ _ _ _ _ (kprintf_string (nl "%s") [] (lit (nl "")) row x tt eq_refl Hx eq_refl eq_refl)). unfold ret. by rewrite app_nil_r.
Qed.

Lemma list_entries_run v p d path t :
  root_mounted v p d -> cval path = Some t -> lenZ t < 2 ^ 31 ->
  vfs_list_entries local64 local_seen (Some path) (Some shell_list_entry) (v, tt) =
    match directory_at v t with
    | Some dir => Ret 0 (v, tt) (concat (map entry_line (listing dir (mounted_files (vfs_tinyfs v)) [])))
    | None => Ret (-1) (v, tt) []
    end.
Proof using local64_len local_seen_rows.
  intros Hrm Ht Hl.
  assert (Hcall : forall xs (c : unit) o row x size flags, c = tt /\ o = concat (map entry_line xs) ->
    lenZ xs < TINYFS_MAX_FILES -> cval row = Some x -> lenZ x < VFS_PATH_MAX ->
    exists c' o', shell_list_entry row size flags c = Ret 0 c' o' /\ (c' = tt /\ o ++ o' = concat (map entry_line (xs ++ [(x, size, flags)])))).
  { intros xs [] o row x size flags [_ ->] _ Hx _. eexists tt, _. split; [by apply shell_list_entry_run|]. split; [done|].
    rewrite map_app, concat_app. cbn [map concat]. by rewrite app_nil_r. }
  pose proof (vfs_list_entries_rule local64 local_seen local64_len local_seen_rows v p d path t shell_list_entry _ tt Hrm Ht Hl
    (conj eq_refl eq_refl) Hcall) as Hrule.
  destruct (directory_at v t) as [dir|]; [|exact Hrule]. by destruct Hrule as ([] & o & -> & _ & ->).
Qed.

(** What [ls] prints: the children of a directory, the name of a file. *)
Definition ls_output (v : vfs X) (t0 : list Z) : list Z :=
  let t := if bool_decide (t0 = []) then lit "/" else t0 in
  match normal_path true t ≫= (fun n => info ← stat_of v n; Some (n, info)) with
  | Some (n, info) =>
      if negb (is_directory_info info) then n ++ [10]
      else match directory_at v t with
           | Some dir => concat (map entry_line (listing dir (mounted_files (vfs_tinyfs v)) []))
           | None => path_error "ls" t
           end
  | None => path_error "ls" t
  end.
Definition same_files (s s' : files X) : Prop := vfs_tinyfs (files_vfs s') = vfs_tinyfs (files_vfs s) /\ file_table s' = file_table s.

Lemma list_files_run s p d pth t0 :
  root_mounted (files_vfs s) p d -> cval pth = Some t0 -> lenZ t0 < 2 ^ 31 ->
  exists s', shell_list_files local64 local_seen (Some pth) s = Ret tt s' (ls_output (files_vfs s) t0) /\ same_files s s' /\
    root_mounted (files_vfs s') p d.
Proof using local64_len local_seen_rows.
  intros Hrm Ht0 Hl0. unfold shell_list_files, ls_output.
  rewrite (bind_Ret_nil _ _ _ _ _ (no_argument_run pth t0 s Ht0)). set (t := if bool_decide (t0 = []) then lit "/" else t0). cbn zeta.
  set (list_path := if bool_decide (t0 = []) then cstr "/" else pth).
  assert (Hlp : (if bool_decide (t0 = []) then ret (cstr "/") else deref (Some pth)) s = Ret list_path s []).
  { unfold list_path. by destruct (bool_decide (t0 = [])). }
  rewrite (bind_Ret_nil _ _ _ _ _ Hlp). clear Hlp.
  assert (Ht : cval list_path = Some t) by (unfold list_path, t; by destruct (bool_decide (t0 = []))).
  assert (Hl : lenZ t < 2 ^ 31) by (unfold t; by destruct (bool_decide (t0 = []))).
  destruct (vfs_stat_spec local64 local64_len (files_vfs s) p d list_path t Hrm Ht Hl) as (found & v' & He & Hres).
  unfold stat_path. rewrite bind_assoc, (bind_Ret_nil _ _ _ _ _ (zoom_Ret _ set_files_vfs _ s _ _ _ He)), bind_assoc, bind_gets, bind_ret.
  cbn [set_files_vfs files_vfs]. set (s1 := set_files_vfs v' s).
  destruct (normal_path true t) as [n|] eqn:Hnp; cbn [mbind option_bind].
  2:{ destruct Hres as [-> ->]. exists s1. rewrite (path_error_run "ls" list_path t s1 eq_refl Ht). unfold s1. by destruct s. }
  destruct Hres as (Htn & Hrd & Hln & Hinfo). pose proof Hrm as [Hm Hr Hnm].
  assert (Hrm1 : root_mounted v' p d) by (split; [by rewrite Htn|congruence|congruence]).
  assert (Hsame : same_files s s1) by (by split).
  destruct (stat_of (files_vfs s) n) as [info|] eqn:Hst; cbn [mbind option_bind].
  2:{ subst found. exists s1. by rewrite (path_error_run "ls" list_path t s1 eq_refl Ht). }
  destruct Hinfo as (-> & Hi & _). rewrite Hi. destruct (is_directory_info info) eqn:Hdir; cbn [negb].
  - assert (Hdat : directory_at v' t = directory_at (files_vfs s) t) by (unfold directory_at, is_directory, names; by rewrite Htn).
    pose proof (list_entries_run v' p d list_path t Hrm1 Ht Hl) as Hls. rewrite Hdat, Htn in Hls.
    destruct (directory_at (files_vfs s) t) as [dir|].
    all: assert (Hon := zoom_Ret files_vfs set_files_vfs _ s1 _ _ _ (zoom_Ret (fun v => (v, tt)) (fun p _ => p.1) _ v' _ _ _ Hls));
      cbn [fst] in Hon; change (set_files_vfs v' s1) with s1 in Hon; exists s1; unfold on_vfs; rewrite (bind_Ret _ _ _ _ _ _ Hon).
    + change (negb (0 =? 0)) with false. cbn iota. unfold ret. by rewrite app_nil_r.
    + change (negb (-1 =? 0)) with true. cbn iota. by rewrite (path_error_run "ls" list_path t s1 eq_refl Ht).
  - unfold stat_of in Hst. destruct (decide (n = [])); [by injection Hst as <-|].
    destruct (lookup_file (vfs_tinyfs (files_vfs s)) n) as [[i e]|] eqn:Hlk.
    2:{ destruct (is_directory (files_vfs s) n); [by injection Hst as <-|done]. }
    injection Hst as <-. exists s1. unfold info_string. cbn [info_name_of].
    rewrite <- Htn in Hlk. destruct (lookup_file_rd v' p d i e n Hrm1 Hlk) as [Hrde Hcv].
    assert (Hname : on_vfs (name_string (NameFile (Z.of_nat i))) s1 = Ret e s1 []).
    { unfold on_vfs, name_string, tiny, zoom, tinyfs_entry. krun. cbn [files_vfs s1 set_files_vfs]. rewrite Hrde. unfold s1. by destruct s, v'. }
    rewrite (bind_Ret_nil _ _ _ _ _ Hname). by rewrite (kprintf_string (nl "%s") [] (lit (nl "")) e n s1 eq_refl Hcv eq_refl eq_refl).
Qed.

End laws.

(** C32. The hex dump of a file loses nothing: reading the two digits of each byte back
    from what [hexdump] prints gives the bytes of the file, in order, whatever
    their number and values; the file system is as before and the handle is free
    again. *)
Theorem shell_hexdump_round_trip {X} `{DiskDriver X} (local64 : mem) (s : files X) p d pth t buffer n i e h :
  lenZ local64 = VFS_PATH_MAX -> root_mounted (files_vfs s) p d -> table_wf s -> cval pth = Some t -> t <> [] -> lenZ t < 2 ^ 31 ->
  lenZ buffer = SHELL_FILE_BUFFER_MAX -> Forall is_byte buffer ->
  open_target (files_vfs s) t = Some (n, i, e) -> free_slot s = Some h -> on_disk d e -> Forall is_byte (file_bytes d e) ->
  exists s' out, shell_hexdump_file local64 buffer pth s = Ret tt s' out /\ undump out = file_bytes d e /\
    (exists p', root_mounted (files_vfs s') p' d) /\ table_wf s' /\
    forall h', rd (file_table s') h' = rd (file_table s) h' \/ h' = h /\ rd (file_table s') h' = Some (File None 0 0 0 0).
Proof.
  intros Hl64 Hrm Hwf Ht Hne Hl Hbuf Hbb Hto Hfree Hdisk Hbytes.
  destruct (hexdump_file_run local64 Hl64 s p d pth t buffer Hrm Hwf Ht Hne Hl Hbuf Hbb) as (s' & E & Hrm' & Hwf' & Htb).
  { intros n1 i1 e1 Ho. rewrite Hto in Ho. injection Ho as <- <- <-. by split. }
  unfold hexdump_output in E. rewrite Hto, Hfree in E. exists s', (dump 0 (file_bytes d e)). split; [exact E|].
  split; [by apply undump_dump_run|]. split; [exact Hrm'|]. split; [exact Hwf'|].
  intros h'. destruct (Htb h') as [Hs|[Hs Hr]]; [by left|]. right. rewrite Hfree in Hs. injection Hs as <-. by split.
Qed.

Lemma shell_hexdump_round_trip_witness : exists s' out,
  shell_hexdump_file (replicate 64 7) (replicate 128 7) (cstr "/a") sample_files = Ret tt s' out /\ undump out = lit "abc".
Proof.
  destruct (shell_hexdump_round_trip (replicate 64 7) sample_files 0 sample_device (cstr "/a") (lit "/a") (replicate 128 7) (lit "a") 0 (slice sample_image 20 76) 0)
    as (s' & out & E & Eu & _).
  - reflexivity.
  - exact sample_root_mounted.
  - exact sample_files_wf.
  - reflexivity.
  - discriminate.
  - reflexivity.
  - reflexivity.
  - apply Forall_replicate. unfold is_byte. lia.
  - vm_compute. reflexivity.
  - vm_compute. reflexivity.
  - vm_compute. done.
  - assert (Ef : file_bytes sample_device (slice sample_image 20 76) = lit "abc") by (vm_compute; reflexivity). rewrite Ef.
    repeat constructor; unfold ch; cbn; lia.
  - exists s', out. split; [exact E|]. rewrite Eu. vm_compute. reflexivity.
Defined.
