(* ===== verification/ShellLogLaws.v ===== *)
(** What the shell's commands on the log do: [logappend] adds the text to the file
    that the first word names, cut to the size of its buffer, and [logcat] prints
    what is there. *)
From S2P Require Import Prelude LibString Klog BlockDevice BlockIO LogFS LogTables LogDisk LogWrite ListDisk LogMount LogRemount LogSample ShellText ShellFiles ShellFileLaws.

Section laws.
Context {X : Type} `{DiskDriver X}.
Implicit Types (s : logfs X) (d : block_device X).

Lemma log_file_run s p d n i f :
  log_mounted s p d -> slot_of (logfs_tables s) n = Some (i, f) -> log_file (Z.of_nat i) s = Ret f s [].
Proof.
  intros [[_ _ _ _ _ _ Hok] _] [Hl _]%slot_of_Some. destruct (live_lookup _ _ _ _ Hok Hl) as [Hrd _].
  unfold log_file. krun. by rewrite Hrd.
Qed.

(** The loop prints the file from the offset on. *)
Lemma log_cat_loop_run fuel s p d nm n i f C buffer offset last0 :
  log_mounted s p d -> cval nm = Some n -> slot_of (logfs_tables s) n = Some (i, f) -> log_bytes s d n = Some C -> info_size f = lenZ C ->
  lenZ C < 2 ^ 32 -> 0 <= offset <= lenZ C -> lenZ buffer = SHELL_FILE_BUFFER_MAX -> lenZ C - offset <= Z.of_nat fuel ->
  let rest := drop (Z.to_nat offset) C in
  exists bb, log_cat_loop fuel (Z.of_nat i) nm buffer offset last0 s = Ret (Some (default last0 (last rest))) (rebuf bb s) rest /\
    lenZ bb = lenZ (logfs_block_buffer s).
Proof.
  intros Hm Hn Hslot HC Hsz H32. revert s buffer offset last0 Hm Hslot HC. induction fuel as [|fuel IH];
    intros s buffer offset last0 Hm Hslot HC Hoff Hbuf Hfuel rest; cbn [log_cat_loop];
    rewrite (bind_Ret_nil _ _ _ _ _ (log_file_run s p d n i f Hm Hslot)), Hsz.
  all: assert (Hid : rebuf (logfs_block_buffer s) s = s) by (by destruct s).
  all: destruct (Z.ltb_spec offset (lenZ C)) as [Hlt|Hge]; cbn [negb]; try lia.
  1, 3: exists (logfs_block_buffer s); unfold rest; rewrite Hid, drop_ge by (unfold lenZ in *; lia); done.
  destruct (logfs_read_file_part_ok s p d nm n offset buffer SHELL_FILE_BUFFER_MAX Hm Hn) as (r & b & bb & Hbb & He & Hd);
    [lia|done|rewrite Hbuf; done|].
  unfold log_window in Hd. rewrite HC in Hd. cbn [mbind option_bind] in Hd. rewrite (proj2 (Z.leb_le _ _)) in Hd by lia.
  set (got := slice _ _ _) in Hd. destruct Hd as [-> ->].
  assert (Hgl : lenZ got = Z.min 128 (lenZ C - offset)) by (unfold got, lenZ, SHELL_FILE_BUFFER_MAX in *; rewrite length_slice; lia).
  rewrite i32_small in He by lia. rewrite (bind_Ret_nil _ _ _ _ _ He), (bind_deref_Some _ _ _ _ eq_refl).
  rewrite (proj2 (Z.leb_gt (lenZ got) 0)) by lia.
  assert (Hsp : exists q, splice buffer 0 got = got ++ q) by (eexists; unfold splice; by rewrite take_0).
  rewrite (bind_Ret _ _ _ _ _ _ (put_bytes_run _ got (rebuf bb s) Hsp)).
  destruct (last_read got (splice buffer 0 got) ltac:(intros E; apply (f_equal lenZ) in E; change (lenZ []) with 0 in E; lia) Hsp) as (c & Hrd & Hlc). rewrite (bind_deref_Some _ _ _ _ Hrd).
  rewrite u32_small by lia.
  destruct (IH (rebuf bb s) (splice buffer 0 got) (offset + lenZ got) c) as (bb2 & He2 & Hbb2);
    [by apply log_mounted_rebuf|done|done|lia|unfold lenZ in *; rewrite length_splice; unfold SHELL_FILE_BUFFER_MAX in *; lia|lia|].
  exists bb2. rewrite He2. split; [|by rewrite Hbb2].
  assert (Hrest : rest = got ++ drop (Z.to_nat (offset + lenZ got)) C).
  { unfold rest, got. rewrite slice_rest at 1. do 2 f_equal. fold got. unfold lenZ in *. lia. }
  rewrite Hrest, last_app, Hlc. f_equal. f_equal. by destruct (last (drop _ _)).
Qed.

Definition log_cat_output (bytes : option (list Z)) (n : list Z) : list Z :=
  match bytes with Some C => cat_text C | None => lit "file not found: " ++ n ++ [10] end.

(** [logcat] leaves the tables and the disk alone. *)
Lemma log_cat_run s p d nm n buffer :
  log_mounted s p d -> cval nm = Some n -> n <> [] -> lenZ buffer = SHELL_FILE_BUFFER_MAX ->
  exists bb, shell_log_cat buffer nm s = Ret tt (rebuf bb s) (log_cat_output (log_bytes s d n) n) /\ lenZ bb = lenZ (logfs_block_buffer s).
Proof.
  intros Hm Hn Hne Hbuf. pose proof Hm as [Hls Hrdy]. pose proof Hls as [_ _ _ _ _ _ Hok].
  assert (Hid : rebuf (logfs_block_buffer s) s = s) by (by destruct s).
  unfold shell_log_cat, log_cat_output, logfs_stat. rewrite (bind_Ret_nil _ _ _ _ _ (no_argument_run nm n s Hn)), bool_decide_false by done.
  rewrite !bind_assoc, bind_gets, Hrdy. change (1 =? 0) with false. cbn iota. rewrite bind_assoc, bind_gets.
  rewrite (bind_deref_Some _ _ _ _ (logfs_find_file_state_spec _ _ _ _ Hok Hn)).
  destruct (log_bytes s d n) as [C|] eqn:HC; unfold log_bytes, bytes_of in HC; destruct (slot_of (logfs_tables s) n) as [[i f]|] eqn:Hslot;
    cbn [mbind option_bind] in HC; try done; cbn [fmap option_fmap option_map].
  2:{ exists (logfs_block_buffer s). rewrite Hid.
      by rewrite (kprintf_string (nl "file not found: %s") (lit "file not found: ") (lit (nl "")) nm n s eq_refl Hn eq_refl eq_refl). }
  injection HC as HC. pose proof Hslot as [Hl _]%slot_of_Some. pose proof (contents_length s p d i f Hls Hl) as Hsz. rewrite HC in Hsz.
  destruct (to_live _ _ Hok i f Hl) as (_ & _ & Hs32 & _).
  rewrite (bind_Ret_nil _ _ _ _ _ (log_file_run s p d n i f Hm Hslot)).
  assert (HCb : log_bytes s d n = Some C) by (unfold log_bytes, bytes_of; rewrite Hslot; cbn [mbind option_bind]; by rewrite HC).
  destruct (log_cat_loop_run (Z.to_nat (info_size f)) s p d nm n i f C buffer 0 0 Hm Hn Hslot HCb (eq_sym Hsz)) as (bb & He & Hbb); [lia|lia|done|lia|].
  change (Z.to_nat 0) with 0%nat in He. rewrite drop_0 in He. rewrite (bind_Ret _ _ _ _ _ _ He).
  rewrite (bind_Ret_nil _ _ _ _ _ (log_file_run (rebuf bb s) p d n i f (log_mounted_rebuf _ _ _ _ Hm Hbb) Hslot)).
  exists bb. split; [|done]. unfold cat_text. rewrite <- Hsz. destruct (last C) as [c|] eqn:El.
  - rewrite (proj2 (Z.eqb_neq (lenZ C) 0)) by (destruct C; [done|unfold lenZ; simpl; lia]). cbn [orb default from_option id].
    destruct (Z.eqb_spec c 10) as [->|Hc]; cbn [negb].
    + by rewrite decide_True by done.
    + by rewrite decide_False by congruence.
  - apply last_None in El as ->. by rewrite decide_False by done.
Qed.

(** What [logappend] takes from its arguments: the name and the text. *)
Definition append_name (a : list Z) : list Z := take (Z.to_nat (LOGFS_NAME_MAX - 1)) (first_word a).1.
Definition append_text (a : list Z) : list Z := trimmed (first_word a).2.
Definition append_done s d (a : list Z) : bool :=
  negb (bool_decide (append_name a = [])) && negb (bool_decide (append_text a = [])) && bool_decide (is_Some (log_bytes s d (append_name a))) &&
  record_fits s (lenZ (append_text a)) && (logfs_segment_count (logfs_tables s) <? LOGFS_MAX_SEGMENTS).
Definition append_message s d (a : list Z) : list Z :=
  if bool_decide (append_name a = []) || bool_decide (append_text a = []) then lit (nl "usage: logappend <file> <text>")
  else if append_done s d a then [] else lit "logappend failed: " ++ append_name a ++ [10].

Lemma trimmed_length t : lenZ (trimmed t) <= lenZ t.
Proof. induction t as [|c t IH]; simpl; [done|]. rewrite lenZ_cons. destruct (_ =? _); rewrite ?lenZ_cons; lia. Qed.

Lemma append_text_length a : lenZ (append_text a) <= lenZ a.
Proof.
  unfold append_text, first_word. pose proof (trimmed_length a). pose proof (trimmed_length (word_of (trimmed a)).2).
  pose proof (f_equal lenZ (word_of_app (trimmed a))) as E. rewrite lenZ_app in E. pose proof (lenZ_nonneg (word_of (trimmed a)).1). lia.
Qed.

Lemma log_append_run s p d args a name0 :
  log_mounted s p d -> cval args = Some a -> lenZ a < 2 ^ 31 -> lenZ name0 = LOGFS_NAME_MAX ->
  exists s' d', shell_log_append args name0 s = Ret tt s' (append_message s d a) /\ log_mounted s' p d' /\ same_disk d d' /\
    forall m, log_bytes s' d' m =
      if decide (m = append_name a /\ append_done s d a = true)
      then (fun old => old ++ append_text a) <$> log_bytes s d m else log_bytes s d m.
Proof.
  intros Hm Ha Hl Hname. pose proof Hm as [Hls Hrdy]. pose proof Hls as [_ (_ & Hdev & _) _ _ _ _ Hok].
  destruct (shell_read_token_run args a name0 LOGFS_NAME_MAX Ha ltac:(lia)) as (text & name & Htok & Htext & Hn & _); [rewrite Hname; done|].
  fold (append_name a) in Hn. unfold shell_log_append. rewrite (bind_deref_Some _ _ _ _ Htok). cbn iota.
  pose proof Htext as (Htn & r & ->)%cval_inv. rewrite (bind_deref_Some _ _ _ _ (skip_spaces_app _ r Htn)). fold (append_text a).
  assert (Hxn : no_nul (append_text a)) by (by apply trimmed_no_nul). pose proof (cval_app (append_text a) r Hxn) as Hx.
  assert (Hxl : lenZ (append_text a) < 2 ^ 31) by (pose proof (append_text_length a); lia).
  rewrite (bind_Ret_nil _ _ _ _ _ (no_argument_run name _ s Hn)). unfold append_message, append_done.
  assert (Husage : exists s' d', kprintf (nl "usage: logappend <file> <text>") [] s = Ret tt s' (lit (nl "usage: logappend <file> <text>")) /\
    log_mounted s' p d' /\ same_disk d d' /\ forall m, log_bytes s' d' m = log_bytes s d m) by (exists s, d; split; [reflexivity|]; split; [exact Hm|]; split; [done|reflexivity]).
  destruct (bool_decide (append_name a = [])) eqn:Hn0; cbn [negb andb orb].
  { rewrite bind_ret. destruct Husage as (s' & d' & He & Hm' & Hs' & Hb). exists s', d'. rewrite He. split; [done|]. split; [done|]. split; [done|].
    intros m. by rewrite decide_False by (by intros [_ ?]). }
  rewrite (bind_Ret_nil _ _ _ _ _ (no_argument_run _ _ s Hx)). destruct (bool_decide (append_text a = [])) eqn:Hx0; cbn [negb andb orb].
  { destruct Husage as (s' & d' & He & Hm' & Hs' & Hb). exists s', d'. rewrite He. split; [done|]. split; [done|]. split; [done|].
    intros m. by rewrite decide_False by (by intros [_ ?]). }
  rewrite (bind_deref_Some _ _ _ _ (strlen_app _ r Hxn)). apply bool_decide_eq_false in Hx0.
  assert (Hpos : 0 < lenZ (append_text a)) by (destruct (append_text a); [done|unfold lenZ; simpl; lia]). rewrite u32_small by lia.
  assert (Hfail : forall s1, kprintf (nl "logappend failed: %s") [AStr (Some name)] s1 = Ret tt s1 (lit "logappend failed: " ++ append_name a ++ [10])).
  { intros s1. by rewrite (kprintf_string (nl "logappend failed: %s") (lit "logappend failed: ") (lit (nl "")) name _ s1 eq_refl Hn eq_refl eq_refl). }
  destruct (log_bytes s d (append_name a)) as [old|] eqn:Hold.
  - rewrite bool_decide_true by (by eexists). cbn [andb].
    destruct (logfs_append_effect s p d name (append_name a) old (append_text a ++ 0 :: r) (lenZ (append_text a)) Hm Hn Hold) as (s' & d' & He & Hm' & Hs' & _ & Hb);
      [lia|rewrite lenZ_app; pose proof (lenZ_nonneg (0 :: r)); lia|].
    rewrite take_lenZ_app in Hb. rewrite (bind_Ret_nil _ _ _ _ _ He). exists s', d'.
    set (ok := record_fits s (lenZ (append_text a)) && _) in *. split; [|split; [done|split; [done|]]].
    + destruct ok; [done|]. change (negb (-1 =? 0)) with true. cbn iota. apply Hfail.
    + intros m. rewrite Hb. destruct (decide (m = append_name a)) as [->|Hne]; [|by rewrite !decide_False by (by intros [? _])].
      rewrite Hold. destruct ok; [by rewrite !decide_True by done|by rewrite !decide_False by (by intros [_ ?])].
  - rewrite bool_decide_false by (by intros [? ?]). cbn [andb].
    assert (He : logfs_append name (Some (append_text a ++ 0 :: r)) (lenZ (append_text a)) s = Ret (-1) s []).
    { unfold logfs_append. krun. rewrite Hrdy, (proj2 (Z.eqb_neq (lenZ _) 0)) by lia. change (1 =? 0) with false. cbn [orb]. krun.
      rewrite (bind_deref_Some _ _ _ _ (logfs_find_file_state_spec _ _ _ _ Hok Hn)).
      unfold log_bytes, bytes_of in Hold. by destruct (slot_of (logfs_tables s) (append_name a)) as [[i f]|]. }
    rewrite (bind_Ret_nil _ _ _ _ _ He). change (negb (-1 =? 0)) with true. cbn iota. rewrite Hfail. exists s, d. split; [done|]. split; [done|]. split; [done|].
    intros m. by rewrite decide_False by (by intros [_ ?]).
Qed.

End laws.
