(* ===== verification/Gui.v ===== *)
(** The window demo that the shell starts (src/src/gui): its windows and widgets
    (gui.c), the file browser (app_file_browser.c) and the text viewer
    (app_text_viewer.c), and the picture of the display's self test
    (src/src/drivers/virtio_gpu.c). A window's drawing function is one of the
    four that the program passes to [gui_create_window]. *)
From S2P Require Import Prelude LibString Klog BlockDevice BlockIO TinyFS Vfs FileTable Graphics AppRegistry.

(** ** Windows *)

Definition GUI_TITLE_MAX : Z := 32.
Definition GUI_MAX_WINDOWS : Z := 8.
Definition GUI_BORDER_COLOR : Z := 0xff101010.
Definition GUI_TITLE_BG_COLOR : Z := 0xff355c7d.
Definition GUI_TITLE_FG_COLOR : Z := 0xffffffff.
Definition GUI_WINDOW_BG_COLOR : Z := 0xffd9e2ec.
Definition GUI_DESKTOP_BG_COLOR : Z := 0xff6c8ead.
Definition GUI_TITLE_HEIGHT : Z := GFX_FONT_HEIGHT + 6.
Definition GUI_PADDING : Z := 4.
Definition GUI_BUTTON_BG_COLOR : Z := 0xffe5edf5.
Definition GUI_BUTTON_PRESSED_BG_COLOR : Z := 0xffc6d4e1.
Definition GUI_BUTTON_TEXT_COLOR : Z := 0xff102030.

Inductive window_draw_fn : Type := DrawStatus | DrawLog | DrawFileBrowser | DrawTextViewer.

Record gui_window : Type := GuiWindow {
  gw_id : Z;
  gw_x : Z;
  gw_y : Z;
  gw_width : Z;
  gw_height : Z;
  gw_title : mem;
  gw_visible : Z;
  gw_draw : option window_draw_fn
}.
Definition no_window : gui_window := GuiWindow 0 0 0 0 0 (zeroes GUI_TITLE_MAX) 0 None.

Record gui : Type := Gui { gui_fb : screen; gui_windows : list gui_window; gui_next_id : Z }.
Definition set_gui_fb (v : screen) (s : gui) : gui := Gui v (gui_windows s) (gui_next_id s).
Definition set_gui_windows (v : list gui_window) (s : gui) : gui := Gui (gui_fb s) v (gui_next_id s).
Definition set_gui_next_id (v : Z) (s : gui) : gui := Gui (gui_fb s) (gui_windows s) v.

Definition gui_window_is_usable (w : gui_window) : bool := negb (gw_id w =? 0) && negb (gw_visible w =? 0).
Definition gui_window_right {S} (w : gui_window) : M S Z := signed (gw_x w + i32 (gw_width w)).
Definition gui_window_bottom {S} (w : gui_window) : M S Z := signed (gw_y w + i32 (gw_height w)).

Definition gui_clip_dimension {S} (start size limit : Z) : M S Z :=
  if (size =? 0) || (i32 limit <=? start) then ret 0
  else
    let end_ := start + size in
    if end_ <=? 0 then ret 0
    else
      let end_ := if limit <? end_ then limit else end_ in
      signed (i32 end_ - (if start <? 0 then 0 else start)).

(** [x + dx] in an argument. *)
Definition plus {S} (x dx : Z) : M S Z := signed (x + dx).
Definition text_at (x y dx dy : Z) (str : mem) (fg bg : Z) : M screen unit :=
  tx <- plus x dx;; ty <- plus y dy;; gfx_draw_string tx ty (Some str) fg bg.

Definition gui_draw_window_chrome (w : gui_window) : M screen unit :=
  fb <- gets id;;
  f <- deref fb;;
  let x := gw_x w in
  let y := gw_y w in
  width <- gui_clip_dimension x (gw_width w) (fb_width f);;
  height <- gui_clip_dimension y (gw_height w) (fb_height f);;
  if (width <=? 0) || (height <=? 0) then ret tt
  else
    let title_height := if height <? GUI_TITLE_HEIGHT then height else GUI_TITLE_HEIGHT in
    draw_fill_rect x y width height GUI_WINDOW_BG_COLOR;;
    draw_fill_rect x y width title_height GUI_TITLE_BG_COLOR;;
    draw_rect x y width height GUI_BORDER_COLOR;;
    text_at x y GUI_PADDING 3 (gw_title w) GUI_TITLE_FG_COLOR GUI_TITLE_BG_COLOR;;
    client_y <- plus y title_height;;
    let client_height := height - title_height in
    if 0 <? client_height then
      client_x <- plus x 1;;
      draw_fill_rect client_x client_y (width - 2) (client_height - 1) GUI_WINDOW_BG_COLOR
    else ret tt.

(** The windows that these four get are never null. *)
Definition gui_window_content_x {S} (w : gui_window) : M S Z := plus (gw_x w) 8.
Definition gui_window_content_y {S} (w : gui_window) : M S Z := y <- plus (gw_y w) GUI_TITLE_HEIGHT;; plus y 8.
Definition gui_window_content_width (w : gui_window) : Z := if gw_width w <=? 16 then 0 else gw_width w - 16.
Definition gui_window_content_height (w : gui_window) : Z :=
  let content_top := u32 (GUI_TITLE_HEIGHT + 8) in
  if gw_height w <=? u32 (content_top + 8) then 0 else u32 (u32 (gw_height w - content_top) - 8).

(** ** Widgets *)

Definition gui_draw_panel (x y width height bg_color border_color : Z) : M screen unit :=
  fb <- gets id;;
  if is_null fb || (width =? 0) || (height =? 0) then ret tt
  else draw_fill_rect x y (i32 width) (i32 height) bg_color;; draw_rect x y (i32 width) (i32 height) border_color.

Definition gui_draw_label (x y : Z) (text : option mem) (fg_color bg_color : Z) : M screen unit :=
  fb <- gets id;;
  if is_null fb || is_null text then ret tt else gfx_draw_string x y text fg_color bg_color.

Definition label_at (x y dx dy : Z) (str : mem) (fg bg : Z) : M screen unit :=
  tx <- plus x dx;; ty <- plus y dy;; gui_draw_label tx ty (Some str) fg bg.

Definition gui_draw_button (x y width height : Z) (text : option mem) (pressed : bool) : M screen unit :=
  fb <- gets id;;
  match fb, text with
  | Some _, Some str =>
      if (width <? 8) || (height <? 8) then ret tt
      else
        let bg_color := if pressed then GUI_BUTTON_PRESSED_BG_COLOR else GUI_BUTTON_BG_COLOR in
        gui_draw_panel x y width height bg_color GUI_BORDER_COLOR;;
        (if negb pressed then
           x1 <- plus x 1;; y1 <- plus y 1;;
           w <- signed (i32 width - 2);; draw_hline x1 y1 w 0xffffffff;;
           h <- signed (i32 height - 2);; draw_vline x1 y1 h 0xffffffff
         else ret tt);;
        len <- deref (strlen str);;
        let text_width := u32 (u32 len * GFX_FONT_WIDTH) in
        text_x <- (if width <=? text_width then plus x 4 else plus x (i32 ((width - text_width) / 2)));;
        text_y <- plus y (i32 ((height - GFX_FONT_HEIGHT) / 2));;
        text_x <- (if pressed then plus text_x 1 else ret text_x);;
        text_y <- (if pressed then plus text_y 1 else ret text_y);;
        gui_draw_label text_x text_y text GUI_BUTTON_TEXT_COLOR bg_color
  | _, _ => ret tt
  end.

(** A button at a distance from a corner. *)
Definition button_at (x y dx dy width height : Z) (str : mem) (pressed : bool) : M screen unit :=
  bx <- plus x dx;; by_ <- plus y dy;; gui_draw_button bx by_ width height (Some str) pressed.

(** ** The table of windows *)

Definition gui_attach_framebuffer (fb : screen) : M gui unit := modify (set_gui_fb fb).
Definition gui_framebuffer : M gui screen := gets gui_fb.

(** The first window with this identifier, if any. *)
Fixpoint slot_loop (fuel : nat) (index wid : Z) : M gui (option Z) :=
  match fuel with
  | O => ret None
  | S fuel' =>
      l <- gets gui_windows;;
      w <- deref (rd l index);;
      if gw_id w =? wid then ret (Some index) else slot_loop fuel' (index + 1) wid
  end.
Definition put_gui_window (index : Z) (w : gui_window) : M gui unit :=
  l <- gets gui_windows;; l1 <- deref (wr l index w);; modify (set_gui_windows l1).

Definition gui_create_window (x y width height : Z) (title : option mem) (draw : option window_draw_fn) : M gui (option Z) :=
  if (width <? 16) || (height <? u32 (GUI_TITLE_HEIGHT + 4)) then ret None
  else
    slot <- slot_loop (Z.to_nat GUI_MAX_WINDOWS) 0 0;;
    match slot with
    | None => ret None
    | Some index =>
        next <- gets gui_next_id;;
        let next1 := u32 (next + 1) in
        let next1 := if next1 =? 0 then u32 (next1 + 1) else next1 in
        modify (set_gui_next_id next1);;
        text <- match title with
                | None => ret (zeroes GUI_TITLE_MAX)
                | Some str => copied <- deref (strlcpy (zeroes GUI_TITLE_MAX) 0 str GUI_TITLE_MAX);; ret copied.1
                end;;
        put_gui_window index (GuiWindow next1 x y width height text 1 draw);;
        ret (Some index)
    end.

(** [window->id] *)
Definition gui_window_id (index : Z) : M gui Z := l <- gets gui_windows;; w <- deref (rd l index);; ret (gw_id w).

Definition gui_destroy_window (wid : Z) : M gui unit :=
  if wid =? 0 then ret tt
  else
    slot <- slot_loop (Z.to_nat GUI_MAX_WINDOWS) 0 wid;;
    match slot with None => ret tt | Some index => put_gui_window index no_window end.

Definition on_gui_fb {A} (m : M screen A) : M gui A := zoom gui_fb set_gui_fb m.

(** The framebuffer's part of [gui_draw_all]; false when there is none. *)
Definition gui_draw_one (run : window_draw_fn -> gui_window -> M screen unit) (w : gui_window) : M screen unit :=
  if negb (gui_window_is_usable w) then ret tt
  else
    right <- gui_window_right w;;
    outside <- (if right <=? 0 then ret true else bottom <- gui_window_bottom w;; ret (bottom <=? 0));;
    if (outside : bool) then ret tt
    else
      gui_draw_window_chrome w;;
      match gw_draw w with None => ret tt | Some draw => run draw w end.
Definition gui_draw_windows (run : window_draw_fn -> gui_window -> M screen unit) : M gui bool :=
  fb <- gets gui_fb;;
  if negb (match fb with Some f => bool_decide (is_Some (fb_buffer f)) | None => false end) then ret false
  else
    on_gui_fb (fb_clear GUI_DESKTOP_BG_COLOR);;
    for_range (Z.to_nat GUI_MAX_WINDOWS) 0 (fun index =>
      l <- gets gui_windows;; w <- deref (rd l index);; on_gui_fb (gui_draw_one run w));;
    ret true.

(** ** The file browser *)

Definition APP_FILE_BROWSER_MAX_ENTRIES : Z := 16.
Definition APP_FILE_BROWSER_NAME_MAX : Z := 32.
Definition APP_FILE_BROWSER_PATH_MAX : Z := 64.
Definition APP_FILE_BROWSER_PREVIEW_MAX : Z := 384.

Record file_browser_entry : Type := BrowserEntry { be_name : mem; be_path : mem; be_size : Z; be_flags : Z }.
Definition zero_browser_entry : file_browser_entry := BrowserEntry (zeroes APP_FILE_BROWSER_NAME_MAX) (zeroes APP_FILE_BROWSER_PATH_MAX) 0 0.

Record file_browser_state : Type := Browser {
  fbs_window_id : Z;
  fbs_selected_index : Z;
  fbs_entry_count : Z;
  fbs_selected_path : mem;
  fbs_preview : mem;
  fbs_entries : list file_browser_entry
}.
Definition zero_browser : file_browser_state :=
  Browser 0 0 0 (zeroes APP_FILE_BROWSER_PATH_MAX) (zeroes APP_FILE_BROWSER_PREVIEW_MAX) (replicate (Z.to_nat APP_FILE_BROWSER_MAX_ENTRIES) zero_browser_entry).
Definition set_browser_window (v : Z) (s : file_browser_state) : file_browser_state :=
  Browser v (fbs_selected_index s) (fbs_entry_count s) (fbs_selected_path s) (fbs_preview s) (fbs_entries s).
Definition set_browser_selected (v : Z) (s : file_browser_state) : file_browser_state :=
  Browser (fbs_window_id s) v (fbs_entry_count s) (fbs_selected_path s) (fbs_preview s) (fbs_entries s).
Definition set_browser_entries (n : Z) (v : list file_browser_entry) (s : file_browser_state) : file_browser_state :=
  Browser (fbs_window_id s) (fbs_selected_index s) n (fbs_selected_path s) (fbs_preview s) v.
Definition set_browser_path (v : mem) (s : file_browser_state) : file_browser_state :=
  Browser (fbs_window_id s) (fbs_selected_index s) (fbs_entry_count s) v (fbs_preview s) (fbs_entries s).
Definition set_browser_preview (v : mem) (s : file_browser_state) : file_browser_state :=
  Browser (fbs_window_id s) (fbs_selected_index s) (fbs_entry_count s) (fbs_selected_path s) v (fbs_entries s).

(** The callback; its context is the browser's state, never null. *)
Definition app_file_browser_collect_entry (name : mem) (size flags : Z) : M file_browser_state Z :=
  s <- gets id;;
  if APP_FILE_BROWSER_MAX_ENTRIES <=? fbs_entry_count s then ret 1
  else
    copied <- deref (strlcpy (zeroes APP_FILE_BROWSER_NAME_MAX) 0 name APP_FILE_BROWSER_NAME_MAX);;
    path <- deref (strlcpy (ch "/" :: zeroes (APP_FILE_BROWSER_PATH_MAX - 1)) 1 name (APP_FILE_BROWSER_PATH_MAX - 1));;
    entries <- deref (wr (fbs_entries s) (fbs_entry_count s) (BrowserEntry copied.1 path.1 size flags));;
    modify (set_browser_entries (u32 (fbs_entry_count s + 1)) entries);;
    ret 0.

(** A character that is shown as it is. *)
Definition plain_char (c : Z) : bool := negb ((c <? 32) || (126 <? c)) || (c =? 10) || (c =? 13) || (c =? 9).
(** The first [n] characters of a text, the others shown as dots. *)
Definition sanitized (n : nat) (text : mem) : mem := map (fun c => if plain_char c then c else ch ".") (take n text) ++ drop n text.

Section apps.
Context {X : Type} (local64 : mem) (local_seen : list mem).
Abbreviation fs := (files X).

Definition preview_text (s : file_browser_state) (str : string) : M fs file_browser_state :=
  copied <- deref (strlcpy (zeroes APP_FILE_BROWSER_PREVIEW_MAX) 0 (cstr str) APP_FILE_BROWSER_PREVIEW_MAX);;
  ret (set_browser_preview copied.1 s).

(** The state is that after clearing the preview; [strlcpy] then writes on what a
    failed read left. *)
Definition app_file_browser_load_preview (s0 : file_browser_state) : M fs file_browser_state :=
  let s := set_browser_preview (zeroes APP_FILE_BROWSER_PREVIEW_MAX) s0 in
  if (fbs_entry_count s =? 0) || (fbs_entry_count s <=? fbs_selected_index s) then
    s1 <- preview_text s "(no files)";;
    path <- deref (wr (fbs_selected_path s1) 0 0);;
    ret (set_browser_path path s1)
  else
    entry <- deref (rd (fbs_entries s) (fbs_selected_index s));;
    copied <- deref (strlcpy (fbs_selected_path s) 0 (be_path entry) APP_FILE_BROWSER_PATH_MAX);;
    let s := set_browser_path copied.1 s in
    found <- on_vfs (vfs_stat local64 (Some (fbs_selected_path s)));;
    if negb (found : bool) then preview_text s "(stat failed)"
    else
      info <- gets (fun t => vfs_stat_info (files_vfs t));;
      if negb (Z.land (info_flags info) VFS_FILE_FLAG_DIRECTORY =? 0) then preview_text s "(directory)"
      else
        let! (read_size, buffer) := on_vfs (vfs_read_file local64 (Some (fbs_selected_path s)) (Some (fbs_preview s)) (APP_FILE_BROWSER_PREVIEW_MAX - 1)) in
        preview <- deref buffer;;
        if read_size <? 0 then
          copied <- deref (strlcpy preview 0 (cstr "(read failed)") APP_FILE_BROWSER_PREVIEW_MAX);;
          ret (set_browser_preview copied.1 s)
        else
          preview <- deref (wr preview read_size 0);;
          ret (set_browser_preview (sanitized (Z.to_nat read_size) preview) s).

(** The entries of the root, and the entry that is selected; [None] when the
    listing failed, with what was collected. *)
Definition app_file_browser_fill (s : file_browser_state) (selected_index : Z) : M fs (Z * file_browser_state) :=
  let! (status, s1) := on_vfs (fun v => match vfs_list_entries local64 local_seen (Some (cstr "/")) (Some app_file_browser_collect_entry) (v, s) with
                                        | Ret status (v1, s1) o => Ret (status, s1) v1 o
                                        | Panic msg (v1, _) o => Panic msg v1 o
                                        | Undef => Undef
                                        end) in
  if negb (status =? 0) then ret (-1, s1)
  else
    let selected := if (fbs_entry_count s1 =? 0) || (fbs_entry_count s1 <=? selected_index) then 0 else selected_index in
    s2 <- app_file_browser_load_preview (set_browser_selected selected s1);;
    ret (0, s2).
End apps.

(** A slash behind the name of a directory. *)
Definition entry_label (entry : file_browser_entry) : option mem :=
  copied ← strlcpy (zeroes 48) 0 (be_name entry) 48;
  if negb (Z.land (be_flags entry) VFS_FILE_FLAG_DIRECTORY =? 0) then
    len ← strlen copied.1;
    if u64 (len + 1) <? 48 then line ← wr copied.1 len (ch "/"); wr line (len + 1) 0 else Some copied.1
  else Some copied.1.

(** [line_y + GFX_FONT_HEIGHT] and [content_y + (int)content_height]. *)
Definition above_bottom (line_y content_y content_height : Z) : M screen (Z * Z) :=
  low <- plus line_y GFX_FONT_HEIGHT;; bottom <- plus content_y (i32 content_height);; ret (low, bottom).

Fixpoint browser_entries_loop (fuel : nat) (s : file_browser_state) (content_x content_y content_height left_width i line_y : Z) : M screen unit :=
  if negb (i <? fbs_entry_count s) then ret tt
  else
    let! (low, bottom) := above_bottom line_y content_y content_height in
    if negb (low <? bottom) then ret tt
    else
      match fuel with
      | O => undef
      | S fuel' =>
          let bg_color := if i =? fbs_selected_index s then 0xffcfe2f3 else 0xffeef4f8 in
          px <- plus content_x 6;; py <- plus line_y (-2);;
          gui_draw_panel px py (u32 (left_width - 12)) 12 bg_color bg_color;;
          entry <- deref (rd (fbs_entries s) i);;
          line <- deref (entry_label entry);;
          tx <- plus content_x 10;;
          gui_draw_label tx line_y (Some line) 0xff102030 bg_color;;
          next_y <- plus line_y 12;;
          browser_entries_loop fuel' s content_x content_y content_height left_width (u32 (i + 1)) next_y
      end.

(** The characters of one line of the preview, at most 39, and what follows
    them and their newline. *)
Fixpoint preview_line (room : nat) (text : mem) : option (mem * mem) :=
  match text with
  | [] => None
  | c :: text' =>
      match room with
      | O => Some ([], text)
      | S room' => if (c =? 0) || (c =? 10) then Some ([], text) else '(line, rest) ← preview_line room' text'; Some (c :: line, rest)
      end
  end.
Fixpoint preview_loop (fuel : nat) (text : mem) (line_x content_y content_height line_y : Z) : M screen unit :=
  c <- deref (rd text 0);;
  if c =? 0 then ret tt
  else
    let! (low, bottom) := above_bottom line_y content_y content_height in
    if negb (low <? bottom) then ret tt
    else
      match fuel with
      | O => undef
      | S fuel' =>
          let! (line, rest) := deref (preview_line 39 text) in
          d <- deref (rd rest 0);;
          gui_draw_label line_x line_y (Some (line ++ [0])) 0xff3b2f2f 0xfff9f3ea;;
          next_y <- plus line_y 10;;
          preview_loop fuel' (if d =? 10 then drop 1 rest else rest) line_x content_y content_height next_y
      end.

Definition app_file_browser_draw (s : file_browser_state) (w : gui_window) : M screen unit :=
  content_x <- gui_window_content_x w;;
  content_y <- gui_window_content_y w;;
  let content_width := gui_window_content_width w in
  let content_height := gui_window_content_height w in
  if (content_width <? 48) || (content_height <? 48) then ret tt
  else
    let left_width := content_width / 3 in
    let left_width := if left_width <? 120 then 120 else left_width in
    let left_width := if content_width <=? u32 (left_width + 16) then content_width / 2 else left_width in
    let right_width := u32 (u32 (content_width - left_width) - 8) in
    gui_draw_panel content_x content_y left_width content_height 0xffeef4f8 0xff7b8fa1;;
    right_x <- plus content_x (i32 left_width);;
    panel_x <- plus right_x 8;;
    gui_draw_panel panel_x content_y right_width content_height 0xfff9f3ea 0xff9d7f67;;
    label_at content_x content_y 8 8 (cstr "Files in /") 0xff102030 0xffeef4f8;;
    line_y <- plus content_y 24;;
    browser_entries_loop (Z.to_nat (fbs_entry_count s)) s content_x content_y content_height left_width 0 line_y;;
    label_at right_x content_y 16 8 (cstr "Preview") 0xff3b2f2f 0xfff9f3ea;;
    c <- deref (rd (fbs_selected_path s) 0);;
    (if negb (c =? 0) then label_at right_x content_y 16 20 (fbs_selected_path s) 0xff7a5c44 0xfff9f3ea else ret tt);;
    line_y <- plus content_y 36;;
    line_x <- plus right_x 16;;
    preview_loop (length (fbs_preview s)) (fbs_preview s) line_x content_y content_height line_y.

(** ** The text viewer *)

Definition APP_TEXT_VIEWER_PATH_MAX : Z := 64.
Definition APP_TEXT_VIEWER_BUFFER_MAX : Z := 1024.
Definition APP_TEXT_VIEWER_TITLE_MAX : Z := 32.

Record text_viewer_state : Type := Viewer { tv_window_id : Z; tv_path : mem; tv_title : mem; tv_text : mem }.
Definition zero_viewer : text_viewer_state := Viewer 0 (zeroes APP_TEXT_VIEWER_PATH_MAX) (zeroes APP_TEXT_VIEWER_TITLE_MAX) (zeroes APP_TEXT_VIEWER_BUFFER_MAX).
Definition set_viewer_window (v : Z) (s : text_viewer_state) : text_viewer_state := Viewer v (tv_path s) (tv_title s) (tv_text s).
Definition set_viewer_text (v : mem) (s : text_viewer_state) : text_viewer_state := Viewer (tv_window_id s) (tv_path s) (tv_title s) v.

Definition app_text_viewer_set_message (message : string) (text : mem) : option mem :=
  copied ← strlcpy text 0 (cstr message) APP_TEXT_VIEWER_BUFFER_MAX; Some copied.1.
Definition app_text_viewer_sanitize_text (length : Z) (text : mem) : mem := sanitized (Z.to_nat length) text.

Section viewer.
Context {X : Type} (local64 : mem).
Abbreviation fs := (files X).

(** The reads into the text: how much was read, and the text. *)
Fixpoint viewer_read_loop (fuel : nat) (h total_read : Z) (text : mem) : M fs (Z * mem) :=
  if negb (u32 (total_read + 1) <? APP_TEXT_VIEWER_BUFFER_MAX) then ret (total_read, text)
  else
    match fuel with
    | O => undef
    | S fuel' =>
        let! (read_size, buffer) := file_read local64 (Some h) (Some (drop (Z.to_nat total_read) text))
          (u32 (u64 (u64 (APP_TEXT_VIEWER_BUFFER_MAX - total_read) - 1))) in
        tail <- deref buffer;;
        let text1 := take (Z.to_nat total_read) text ++ tail in
        if read_size <? 0 then
          text2 <- deref (app_text_viewer_set_message "(read failed)" text1);;
          ret (0, text2)
        else if read_size =? 0 then ret (total_read, text1)
        else viewer_read_loop fuel' h (u32 (total_read + read_size)) text1
    end.

Definition app_text_viewer_load (path text : mem) : M fs mem :=
  file <- file_open local64 (Some path);;
  match file with
  | None => deref (app_text_viewer_set_message "(open failed)" text)
  | Some h =>
      let! (total_read, text1) := viewer_read_loop (Z.to_nat APP_TEXT_VIEWER_BUFFER_MAX) h 0 text in
      text2 <- deref (wr text1 total_read 0);;
      file_close (Some h);;
      c <- deref (rd text2 0);;
      if (total_read =? 0) && (c =? 0) then deref (app_text_viewer_set_message "(empty file)" text2)
      else ret (app_text_viewer_sanitize_text total_read text2)
  end.
End viewer.

(** The characters of one line that have room, the rest of the text behind it. *)
Fixpoint viewer_line (text : mem) (line_len max_cols : Z) : option (mem * mem) :=
  match text with
  | [] => None
  | c :: text' =>
      if (c =? 0) || (c =? 10) || (c =? 13) then Some ([], text)
      else
        let fits := (u32 (line_len + 1) <? 80) && (line_len <? max_cols) in
        '(line, rest) ← viewer_line text' (if fits then u32 (line_len + 1) else line_len) max_cols;
        Some (if fits then (if c =? 9 then ch " " else c) :: line else line, rest)
  end.
(** Past one end of a line: a newline, a carriage return, or both. *)
Definition past_line_end (text : mem) : option mem :=
  c ← rd text 0;
  if c =? 10 then Some (drop 1 text)
  else if c =? 13 then d ← rd text 1; Some (if d =? 10 then drop 2 text else drop 1 text)
  else Some text.
Fixpoint viewer_loop (fuel : nat) (text : mem) (line_x content_y content_height max_cols line_y : Z) : M screen unit :=
  c <- deref (rd text 0);;
  if c =? 0 then ret tt
  else
    let! (low, bottom) := above_bottom line_y content_y content_height in
    if negb (low <=? bottom) then ret tt
    else
      match fuel with
      | O => undef
      | S fuel' =>
          let! (line, rest) := deref (viewer_line text 0 max_cols) in
          next <- deref (past_line_end rest);;
          gui_draw_label line_x line_y (Some (line ++ [0])) 0xff3b2f2f 0xfff4efe6;;
          next_y <- plus line_y (GFX_FONT_HEIGHT + 2);;
          viewer_loop fuel' next line_x content_y content_height max_cols next_y
      end.

Definition app_text_viewer_draw (s : text_viewer_state) (w : gui_window) : M screen unit :=
  content_x <- gui_window_content_x w;;
  content_y <- gui_window_content_y w;;
  let content_width := gui_window_content_width w in
  let content_height := gui_window_content_height w in
  if (content_width <? 16) || (content_height <? 16) then ret tt
  else
    gui_draw_panel content_x content_y content_width content_height 0xfff4efe6 0xff9d7f67;;
    label_at content_x content_y 8 8 (tv_path s) 0xff7a5c44 0xfff4efe6;;
    let max_cols := (content_width - 16) / GFX_FONT_WIDTH in
    line_y <- plus content_y 24;;
    line_x <- plus content_x 8;;
    viewer_loop (length (tv_text s)) (tv_text s) line_x content_y content_height max_cols line_y.

(** ** The picture of the display's self test *)

Definition VIRTIO_GPU_TEST_WIDTH : Z := 640.
Definition VIRTIO_GPU_TEST_HEIGHT : Z := 480.
Definition virtio_gpu_draw_demo : M screen unit :=
  fb <- gets id;;
  match fb with
  | None => ret tt
  | Some f =>
      if (fb_width f =? 0) || (fb_height f =? 0) then ret tt
      else
        let viewport_width := if VIRTIO_GPU_TEST_WIDTH <? fb_width f then VIRTIO_GPU_TEST_WIDTH else fb_width f in
        let viewport_height := if VIRTIO_GPU_TEST_HEIGHT <? fb_height f then VIRTIO_GPU_TEST_HEIGHT else fb_height f in
        let at_x dx := i32 (u32 ((fb_width f - viewport_width) / 2 + dx)) in
        let at_y dy := i32 (u32 ((fb_height f - viewport_height) / 2 + dy)) in
        draw_rect (at_x 0) (at_y 0) (i32 viewport_width) (i32 viewport_height) 0xff7fd1ff;;
        draw_fill_rect (at_x 64) (at_y 64) 192 96 0xfff2b134;;
        draw_fill_rect (at_x 320) (at_y 96) 192 128 0xff2dce89;;
        draw_fill_rect (at_x 176) (at_y 248) 288 128 0xffd94f70;;
        draw_rect (at_x 64) (at_y 64) 192 96 0xffffffff;;
        draw_rect (at_x 320) (at_y 96) 192 128 0xffffffff;;
        draw_rect (at_x 176) (at_y 248) 288 128 0xffffffff;;
        gfx_draw_string (at_x 96) (at_y 96) (Some (cstr "duck-os")) 0xffffffff 0xfff2b134;;
        gfx_draw_string (at_x 352) (at_y 144) (Some (cstr "virtio-gpu")) 0xffffffff 0xff2dce89;;
        gfx_draw_string (at_x 208) (at_y 296) (Some (cstr "640x480")) 0xffffffff 0xffd94f70
  end.
