(* ===== verification/VirtioGpu.v ===== *)
(** The driver of the display (src/src/drivers/virtio_gpu.c): its commands, sent
    one at a time over a queue, and the flush of a rectangle. Requests and
    responses are local variables, whose addresses are parameters; the pixels are
    those of the framebuffer record. *)
From S2P Require Import Prelude LibString Klog Memory BlockDevice MMU Bus Virtqueue VirtioMmio Graphics AppRegistry Gui VirtioDriver.

Definition VIRTIO_GPU_QUEUE_CONTROL : Z := 0.
Definition VIRTIO_GPU_QUEUE_SIZE : Z := 8.
Definition VIRTIO_GPU_CMD_GET_DISPLAY_INFO : Z := 0x0100.
Definition VIRTIO_GPU_CMD_RESOURCE_CREATE_2D : Z := 0x0101.
Definition VIRTIO_GPU_CMD_SET_SCANOUT : Z := 0x0103.
Definition VIRTIO_GPU_CMD_RESOURCE_FLUSH : Z := 0x0104.
Definition VIRTIO_GPU_CMD_TRANSFER_TO_HOST_2D : Z := 0x0105.
Definition VIRTIO_GPU_CMD_RESOURCE_ATTACH_BACKING : Z := 0x0106.
Definition VIRTIO_GPU_RESP_OK_NODATA : Z := 0x1100.
Definition VIRTIO_GPU_RESP_OK_DISPLAY_INFO : Z := 0x1101.
Definition VIRTIO_GPU_FORMAT_B8G8R8A8_UNORM : Z := 1.
Definition VIRTIO_GPU_RESOURCE_ID : Z := 1.
Definition VIRTIO_GPU_SCANOUT_ID : Z := 0.

(** [sizeof] of [struct virtio_gpu_ctrl_hdr] and [virtio_gpu_resp_display_info];
    the first mode's width and height in the latter. *)
Definition sizeof_ctrl_hdr : Z := 24.
Definition sizeof_resp_display_info : Z := 24 + 16 * 24.
Definition mode_width (info : Z) : Z := info + 24 + 8.
Definition mode_height (info : Z) : Z := info + 24 + 12.

Record gpu_state : Type := GpuState {
  vg_device : option Z;
  vg_controlq : virtqueue;
  vg_framebuffer : framebuffer;
  vg_buffer_at : Z;
  vg_framebuffer_size : Z;
  vg_width : Z;
  vg_height : Z
}.
Definition set_vg_device v s : gpu_state := GpuState v (vg_controlq s) (vg_framebuffer s) (vg_buffer_at s) (vg_framebuffer_size s) (vg_width s) (vg_height s).
Definition set_vg_controlq v s : gpu_state := GpuState (vg_device s) v (vg_framebuffer s) (vg_buffer_at s) (vg_framebuffer_size s) (vg_width s) (vg_height s).
Definition set_vg_framebuffer f a size s : gpu_state := GpuState (vg_device s) (vg_controlq s) f a size (vg_width s) (vg_height s).
Definition set_vg_pixels f s : gpu_state := GpuState (vg_device s) (vg_controlq s) f (vg_buffer_at s) (vg_framebuffer_size s) (vg_width s) (vg_height s).
Definition set_vg_size w h s : gpu_state := GpuState (vg_device s) (vg_controlq s) (vg_framebuffer s) (vg_buffer_at s) (vg_framebuffer_size s) w h.
Definition no_framebuffer : framebuffer := Framebuffer 0 0 0 0 FB_PIXEL_FORMAT_X8R8G8B8 None.
Definition zero_gpu_state : gpu_state := GpuState None (Virtqueue 0 0 0 0 0 0 0 0 0 0) no_framebuffer 0 0 0 0.

(** The rectangle within the display; none if nothing is left. The pointers are
    never null. *)
Definition virtio_gpu_clip_rect (s : gpu_state) (x y width height : Z) : option (Z * Z * Z * Z) :=
  if (width =? 0) || (height =? 0) then None
  else if (vg_width s <=? x) || (vg_height s <=? y) then None
  else
    let max_width := vg_width s - x in
    let max_height := vg_height s - y in
    let width' := if max_width <? width then max_width else width in
    let height' := if max_height <? height then max_height else height in
    if negb (width' =? 0) && negb (height' =? 0) then Some (x, y, width', height') else None.

(** ** The commands, as bytes *)

Definition ctrl_hdr (type : Z) : mem := bytes32 type ++ zeroes 20.
Definition gpu_rect (x y width height : Z) : mem := bytes32 x ++ bytes32 y ++ bytes32 width ++ bytes32 height.
Definition request_create_2d (s : gpu_state) : mem :=
  ctrl_hdr VIRTIO_GPU_CMD_RESOURCE_CREATE_2D ++ bytes32 VIRTIO_GPU_RESOURCE_ID ++ bytes32 VIRTIO_GPU_FORMAT_B8G8R8A8_UNORM ++ bytes32 (vg_width s) ++ bytes32 (vg_height s).
Definition request_attach_backing (s : gpu_state) : mem :=
  ctrl_hdr VIRTIO_GPU_CMD_RESOURCE_ATTACH_BACKING ++ bytes32 VIRTIO_GPU_RESOURCE_ID ++ bytes32 1 ++
  bytes64 (vg_buffer_at s) ++ bytes32 (vg_framebuffer_size s) ++ bytes32 0.
Definition request_set_scanout (s : gpu_state) : mem :=
  ctrl_hdr VIRTIO_GPU_CMD_SET_SCANOUT ++ gpu_rect 0 0 (vg_width s) (vg_height s) ++ bytes32 VIRTIO_GPU_SCANOUT_ID ++ bytes32 VIRTIO_GPU_RESOURCE_ID.
Definition request_transfer (x y width height offset : Z) : mem :=
  ctrl_hdr VIRTIO_GPU_CMD_TRANSFER_TO_HOST_2D ++ gpu_rect x y width height ++ bytes64 offset ++ bytes32 VIRTIO_GPU_RESOURCE_ID ++ bytes32 0.
Definition request_flush (x y width height : Z) : mem :=
  ctrl_hdr VIRTIO_GPU_CMD_RESOURCE_FLUSH ++ gpu_rect x y width height ++ bytes32 VIRTIO_GPU_RESOURCE_ID ++ bytes32 0.

Section gpu.
Context {H D W : Type} `{Hardware D} (plat : platform).
(** The addresses of the requests, of the responses and of [display_info]; how a
    device acts while the driver polls, and for how many rounds. *)
Context (request_at response_at display_info_at : Z) (turn : device_turn D) (fuel : nat).
Abbreviation state := (driver gpu_state H D W).
Implicit Types s : state.

Definition on_gpu_queue {A} (m : M vio A) : M state A := with_queue vg_controlq set_vg_controlq m.

(** The bytes of a local variable. *)
Fixpoint store_bytes (a : Z) (bytes : mem) : M vio unit :=
  match bytes with [] => ret tt | b :: r => store 1 a b;; store_bytes (a + 1) r end.

Fixpoint pop_loop (n : nat) : M state unit :=
  e <- on_gpu_queue virtqueue_pop_used;;
  match e with
  | Some _ => ret tt
  | None => match n with O => undef | S n' => _ <- give_turn turn;; pop_loop n' end
  end.

(** [request] and [response] are addresses of local variables. *)
Definition virtio_gpu_send_request (request request_size response response_size : Z) : M state Z :=
  device <- dr_var vg_device;;
  if is_null device || (request =? 0) || (response =? 0) then ret (-1)
  else
    request_desc <- on_gpu_queue (virtqueue_alloc_desc (Some tt));;
    response_desc <- on_gpu_queue (virtqueue_alloc_desc (Some tt));;
    if (request_desc <? 0) || (response_desc <? 0) then
      (if 0 <=? response_desc then on_gpu_queue (virtqueue_free_desc (u16 response_desc)) else ret tt);;
      (if 0 <=? request_desc then on_gpu_queue (virtqueue_free_desc (u16 request_desc)) else ret tt);;
      ret (-1)
    else
      on_gpu_queue (write_desc request_desc request request_size VIRTQ_DESC_F_NEXT (u16 response_desc));;
      on_gpu_queue (write_desc response_desc response response_size VIRTQ_DESC_F_WRITE 0);;
      on_cache (mmu_sync_for_device request request_size);;
      on_cache (mmu_sync_for_device response response_size);;
      on_gpu_queue (virtqueue_submit (u16 request_desc));;
      d <- deref device;;
      on_transport (virtio_mmio_notify_queue d VIRTIO_GPU_QUEUE_CONTROL);;
      pop_loop fuel;;
      on_cache (mmu_sync_for_cpu response response_size);;
      on_gpu_queue (virtqueue_free_desc (u16 response_desc));;
      on_gpu_queue (virtqueue_free_desc (u16 request_desc));;
      ret 0.

(** A request and the type of its response. *)
Definition virtio_gpu_simple_request (request : mem) (expected_response_type : Z) : M state Z :=
  on_gpu_queue (store_bytes request_at request);;
  on_gpu_queue (clear response_at sizeof_ctrl_hdr);;
  r <- virtio_gpu_send_request request_at (lenZ request) response_at sizeof_ctrl_hdr;;
  if negb (r =? 0) then ret (-1)
  else type <- on_gpu_queue (load 4 response_at);; ret (if type =? expected_response_type then 0 else -1).

Definition virtio_gpu_get_display_info : M state Z :=
  on_gpu_queue (store_bytes request_at (ctrl_hdr VIRTIO_GPU_CMD_GET_DISPLAY_INFO));;
  on_gpu_queue (clear display_info_at sizeof_resp_display_info);;
  r <- virtio_gpu_send_request request_at sizeof_ctrl_hdr display_info_at sizeof_resp_display_info;;
  if negb (r =? 0) then ret (-1)
  else type <- on_gpu_queue (load 4 display_info_at);; ret (if type =? VIRTIO_GPU_RESP_OK_DISPLAY_INFO then 0 else -1).

Definition virtio_gpu_create_resource : M state Z := v <- dr_var id;; virtio_gpu_simple_request (request_create_2d v) VIRTIO_GPU_RESP_OK_NODATA.
Definition virtio_gpu_attach_backing : M state Z := v <- dr_var id;; virtio_gpu_simple_request (request_attach_backing v) VIRTIO_GPU_RESP_OK_NODATA.
Definition virtio_gpu_set_scanout : M state Z := v <- dr_var id;; virtio_gpu_simple_request (request_set_scanout v) VIRTIO_GPU_RESP_OK_NODATA.

Definition gpu_available : M state bool := d <- dr_var vg_device;; is_initialized d.

(** [virtio_gpu_flush_rect]. *)
Definition gpu_flush_rect (x0 y0 width0 height0 : Z) : M state Z :=
  available <- gpu_available;;
  if negb (available : bool) then ret (-1)
  else
    v <- dr_var id;;
    match virtio_gpu_clip_rect v x0 y0 width0 height0 with
    | None => ret 0
    | Some (x, y, width, height) =>
        let f := vg_framebuffer v in
        let sync_offset := u64 (u64 (y * fb_pitch f) + u64 (x * bytes_per_pixel f)) in
        let sync_length := u64 (u64 (u32 (height - 1) * fb_pitch f) + u64 (width * bytes_per_pixel f)) in
        on_cache (mmu_sync_for_device (u64 (vg_buffer_at v + sync_offset)) sync_length);;
        r <- virtio_gpu_simple_request (request_transfer x y width height sync_offset) VIRTIO_GPU_RESP_OK_NODATA;;
        if negb (r =? 0) then ret (-1) else virtio_gpu_simple_request (request_flush x y width height) VIRTIO_GPU_RESP_OK_NODATA
    end.
Definition gpu_flush : M state Z := v <- dr_var id;; gpu_flush_rect 0 0 (vg_width v) (vg_height v).

(** [virtio_gpu_draw_demo] of the driver's framebuffer. *)
Definition draw_demo : M state unit :=
  zoom (fun s => Some (vg_framebuffer (dr_vars s))) (fun f s => set_dr_vars (set_vg_pixels (default (vg_framebuffer (dr_vars s)) f) (dr_vars s)) s) virtio_gpu_draw_demo.

Definition virtio_gpu_redraw_demo : M state Z :=
  available <- gpu_available;;
  if negb (available : bool) then ret (-1) else draw_demo;; gpu_flush.

Definition gpu_fail (device : Z) (message : string) : M state unit :=
  kprintf (nl message) [];; on_transport (virtio_mmio_fail device).
(** A failure of the display after the handshake. *)
Definition gpu_off (message : string) : M state unit := kprintf (nl message) [];; dr_assign (set_vg_device None).

(** The part of the start behind the handshake. *)
Definition gpu_setup (device : Z) : M state unit :=
  r <- virtio_gpu_get_display_info;;
  if negb (r =? 0) then gpu_off "[ERROR] virtio-gpu: display info failed"
  else
    width <- on_gpu_queue (load 4 (mode_width display_info_at));;
    height <- on_gpu_queue (load 4 (mode_height display_info_at));;
    dr_assign (set_vg_size width height);;
    if (width =? 0) || (height =? 0) then gpu_off "[ERROR] virtio-gpu: invalid scanout size"
    else
      let pitch := u32 (width * 4) in
      let size0 := u32 (pitch * height) in
      buffer <- zoom dr_mm set_dr_mm (kzalloc plat size0);;
      let pixels := if buffer =? 0 then None else Some (replicate (Z.to_nat (size0 / 4)) 0) in
      dr_assign (set_vg_framebuffer (Framebuffer width height pitch 4 FB_PIXEL_FORMAT_B8G8R8A8 pixels) buffer size0);;
      if buffer =? 0 then gpu_off "[ERROR] virtio-gpu: framebuffer allocation failed"
      else
        r <- virtio_gpu_create_resource;;
        if negb (r =? 0) then gpu_off "[ERROR] virtio-gpu: create resource failed"
        else
          r <- virtio_gpu_attach_backing;;
          if negb (r =? 0) then gpu_off "[ERROR] virtio-gpu: attach backing failed"
          else
            r <- virtio_gpu_set_scanout;;
            if negb (r =? 0) then gpu_off "[ERROR] virtio-gpu: set scanout failed"
            else
              draw_demo;;
              r <- gpu_flush;;
              if negb (r =? 0) then gpu_off "[ERROR] virtio-gpu: flush failed"
              else
                d <- on_transport (get_device device);;
                kprintf (nl "[INFO] virtio-gpu: ready %ux%u scanout=%ux%u on slot %u irq %u")
                  [AUint width; AUint height; AUint width; AUint height; AUint (slot d); AUint (irq d)].

Definition virtio_gpu_init : M state unit :=
  dr_assign (fun _ => zero_gpu_state);;
  device <- on_transport (virtio_find_device VIRTIO_DEVICE_ID_GPU 0);;
  match device with
  | None => kprintf (nl "[INFO] virtio-gpu: no device found") []
  | Some d =>
      r <- on_transport (virtio_mmio_begin_init d);;
      if negb (r =? 0) then kprintf (nl "[ERROR] virtio-gpu: reset/init failed") []
      else
        r <- on_transport (virtio_mmio_negotiate_features d 0 0);;
        if negb (r =? 0) then gpu_fail d "[ERROR] virtio-gpu: feature negotiation failed"
        else
          r <- on_gpu_queue (virtqueue_init plat (Some tt) VIRTIO_GPU_QUEUE_SIZE);;
          if negb (r =? 0) then gpu_fail d "[ERROR] virtio-gpu: control queue allocation failed"
          else
            q <- dr_var vg_controlq;;
            r <- on_transport (virtio_mmio_setup_queue d VIRTIO_GPU_QUEUE_CONTROL q);;
            if negb (r =? 0) then gpu_fail d "[ERROR] virtio-gpu: control queue setup failed"
            else
              on_transport (virtio_mmio_finish_init d);;
              dr_assign (set_vg_device (Some d));;
              gpu_setup d
  end.

Definition virtio_gpu_width : M state Z := dr_var vg_width.
Definition virtio_gpu_height : M state Z := dr_var vg_height.
Definition virtio_gpu_framebuffer : M state screen := available <- gpu_available;; v <- dr_var id;; ret (if available : bool then Some (vg_framebuffer v) else None).
End gpu.
