(* ===== verification/VirtioInput.v ===== *)
(** The driver of the keyboards and pointers (src/src/drivers/virtio_input.c):
    every event buffer is a descriptor of its device's queue, given back when its
    event was handled. What an event becomes, a key of the input layer or a motion
    of the pointer, is its result; DesktopShell.v has what a motion does. *)
From S2P Require Import Prelude LibString Klog Memory Input BlockDevice MMU Bus Virtqueue VirtioMmio VirtioDriver Graphics Desktop DesktopShell.

Definition VIRTIO_INPUT_QUEUE_EVENT : Z := 0.
Definition VIRTIO_INPUT_QUEUE_SIZE : Z := 32.
Definition VIRTIO_INPUT_MAX_DEVICES : Z := 4.
Definition VIRTIO_INPUT_EV_SYN : Z := 0.
Definition VIRTIO_INPUT_EV_KEY : Z := 1.
Definition VIRTIO_INPUT_EV_REL : Z := 2.
Definition VIRTIO_INPUT_EV_ABS : Z := 3.
Definition VIRTIO_INPUT_REL_X : Z := 0.
Definition VIRTIO_INPUT_REL_Y : Z := 1.

(** [struct virtio_input_event]: the fields of the one at an address. *)
Definition sizeof_virtio_input_event : Z := 8.
Definition event_type (e : Z) : Z := e.
Definition event_code (e : Z) : Z := e + 2.
Definition event_value (e : Z) : Z := e + 4.

(** A device: [vi_events] is the address of its event buffers. *)
Record input_device : Type := InputDevice {
  vi_device : option Z;
  vi_eventq : virtqueue;
  vi_events : Z;
  vi_desc_index : list Z
}.
Definition set_vi_device v d : input_device := InputDevice v (vi_eventq d) (vi_events d) (vi_desc_index d).
Definition set_vi_eventq v d : input_device := InputDevice (vi_device d) v (vi_events d) (vi_desc_index d).
Definition set_vi_desc_index v d : input_device := InputDevice (vi_device d) (vi_eventq d) (vi_events d) v.
(** The structure cleared. *)
Definition zero_input_device (events : Z) : input_device :=
  InputDevice None (Virtqueue 0 0 0 0 0 0 0 0 0 0) events (replicate (Z.to_nat VIRTIO_INPUT_QUEUE_SIZE) 0).

Record input_devices : Type := InputDevices { vi_devices : list input_device; vi_device_count : Z }.
Definition set_vi_devices v s : input_devices := InputDevices v (vi_device_count s).
Definition set_vi_device_count v s : input_devices := InputDevices (vi_devices s) v.

(** What the driver hands on. *)
Inductive report : Type := KeyReport (code value : Z) | MotionReport (m : motion).

(** What becomes of an event. *)
Definition virtio_input_handle_event (type code value : Z) : list report :=
  if type =? VIRTIO_INPUT_EV_KEY then [KeyReport code value]
  else if type =? VIRTIO_INPUT_EV_REL then
    let delta := i32 value in
    if code =? VIRTIO_INPUT_REL_X then [MotionReport (Relative delta 0)]
    else if code =? VIRTIO_INPUT_REL_Y then [MotionReport (Relative 0 delta)]
    else []
  else if type =? VIRTIO_INPUT_EV_ABS then [MotionReport (Absolute code value)]
  else [].

Section input.
Context {H D W : Type} `{Hardware D} (plat : platform).
(** The addresses of the event buffers of the devices. *)
Context (events_at : Z -> Z).
Abbreviation state := (driver input_devices H D W).
Implicit Types s : state.

Definition get_input (index : Z) : M state input_device := v <- dr_var id;; deref (rd (vi_devices v) index).
Definition put_input (index : Z) (d : input_device) : M state unit :=
  v <- dr_var id;; l <- deref (wr (vi_devices v) index d);; dr_assign (set_vi_devices l).
(** An operation on the queue of a device. *)
Definition on_event_queue {A} (index : Z) (m : M vio A) : M state A :=
  d <- get_input index;;
  let! (r, q) := (fun s => match m (Vio (vi_eventq d) (dr_mm s) (dr_mmu s)) with
    | Ret a v o => Ret (a, queue v) (set_dr_mm (v_mm v) (set_dr_mmu (v_mmu v) s)) o
    | Panic msg v o => Panic msg (set_dr_mm (v_mm v) (set_dr_mmu (v_mmu v) s)) o
    | Undef => Undef
    end) in
  put_input index (set_vi_eventq q d);;
  ret r.
Definition event_at (d : input_device) (slot0 : Z) : Z := vi_events d + sizeof_virtio_input_event * slot0.

Definition virtio_input_submit_buffer (index slot0 : Z) : M state unit :=
  d <- get_input index;;
  on_cache (mmu_sync_for_device (event_at d slot0) sizeof_virtio_input_event);;
  desc0 <- deref (rd (vi_desc_index d) slot0);;
  on_event_queue index (virtqueue_submit desc0).

(** The buffer whose descriptor came back, if any. *)
Fixpoint buffer_loop (fuel : nat) (index slot0 head_index : Z) : M state (list report) :=
  match fuel with
  | O => ret []
  | S fuel' =>
      d <- get_input index;;
      desc0 <- deref (rd (vi_desc_index d) slot0);;
      if desc0 =? u16 head_index then
        on_cache (mmu_sync_for_cpu (event_at d slot0) sizeof_virtio_input_event);;
        type <- on_event_queue index (load 2 (event_type (event_at d slot0)));;
        code <- on_event_queue index (load 2 (event_code (event_at d slot0)));;
        value <- on_event_queue index (load 4 (event_value (event_at d slot0)));;
        virtio_input_submit_buffer index slot0;;
        ret (virtio_input_handle_event type code value)
      else buffer_loop fuel' index (slot0 + 1) head_index
  end.

(** The reports of the events in the used ring; [fuel] bounds them, as the device
    may add events meanwhile. *)
Fixpoint virtio_input_poll_device (fuel : nat) (index : Z) : M state (list report) :=
  e <- on_event_queue index virtqueue_pop_used;;
  match e with
  | None => ret []
  | Some (head_index, _) =>
      match fuel with
      | O => undef
      | S fuel' =>
          r <- buffer_loop (Z.to_nat VIRTIO_INPUT_QUEUE_SIZE) index 0 head_index;;
          rest <- virtio_input_poll_device fuel' index;;
          ret (r ++ rest)
      end
  end.
Fixpoint poll_devices (n fuel : nat) (index : Z) : M state (list report) :=
  match n with
  | O => ret []
  | S n' => r <- virtio_input_poll_device fuel index;; rest <- poll_devices n' fuel (index + 1);; ret (r ++ rest)
  end.
Definition virtio_input_poll (fuel : nat) : M state (list report) := n <- dr_var vi_device_count;; poll_devices (Z.to_nat n) fuel 0.

(** ** Start *)

Definition input_error (device : Z) (message : string) : M state Z :=
  d <- on_transport (get_device device);; kprintf (nl message) [AUint (slot d)];; ret (-1).
Definition input_fail (device : Z) (message : string) : M state Z :=
  d <- on_transport (get_device device);; kprintf (nl message) [AUint (slot d)];; on_transport (virtio_mmio_fail device);; ret (-1).

(** [memset] of the event buffers of a device. *)
Definition clear_events (index : Z) : M state unit :=
  zoom dr_mm set_dr_mm (modify (fun m =>
    set_ram (fun a => if (events_at index <=? a) && (a <? events_at index + sizeof_virtio_input_event * VIRTIO_INPUT_QUEUE_SIZE) then 0 else ram m a) m)).

(** The buffers from [slot0] on. *)
Fixpoint submit_loop (n : nat) (index device slot0 : Z) : M state Z :=
  match n with
  | O => ret 0
  | S n' =>
      desc_index <- on_event_queue index (virtqueue_alloc_desc (Some tt));;
      if desc_index <? 0 then input_fail device "[ERROR] virtio-input: descriptor allocation failed for slot %u"
      else
        d <- get_input index;;
        l <- deref (wr (vi_desc_index d) slot0 (u16 desc_index));;
        put_input index (set_vi_desc_index l d);;
        on_event_queue index (write_desc desc_index (event_at d slot0) sizeof_virtio_input_event VIRTQ_DESC_F_WRITE 0);;
        virtio_input_submit_buffer index slot0;;
        submit_loop n' index device (slot0 + 1)
  end.

Definition virtio_input_init_device (index device : Z) : M state Z :=
  put_input index (zero_input_device (events_at index));;
  clear_events index;;
  r <- on_transport (virtio_mmio_begin_init device);;
  if negb (r =? 0) then input_error device "[ERROR] virtio-input: reset/init failed for slot %u"
  else
    r <- on_transport (virtio_mmio_negotiate_features device 0 0);;
    if negb (r =? 0) then input_fail device "[ERROR] virtio-input: feature negotiation failed for slot %u"
    else
      r <- on_event_queue index (virtqueue_init plat (Some tt) VIRTIO_INPUT_QUEUE_SIZE);;
      if negb (r =? 0) then input_fail device "[ERROR] virtio-input: queue allocation failed for slot %u"
      else
        d <- get_input index;;
        r <- on_transport (virtio_mmio_setup_queue device VIRTIO_INPUT_QUEUE_EVENT (vi_eventq d));;
        if negb (r =? 0) then input_fail device "[ERROR] virtio-input: queue setup failed for slot %u"
        else
          r <- submit_loop (Z.to_nat VIRTIO_INPUT_QUEUE_SIZE) index device 0;;
          if negb (r =? 0) then ret (-1)
          else
            on_transport (virtio_mmio_finish_init device);;
            d <- get_input index;;
            put_input index (set_vi_device (Some device) d);;
            v <- on_transport (get_device device);;
            kprintf (nl "[INFO] virtio-input: ready on slot %u irq %u") [AUint (slot v); AUint (irq v)];;
            ret 0.

Fixpoint init_loop (n : nat) (instance : Z) : M state unit :=
  match n with
  | O => ret tt
  | S n' =>
      device <- on_transport (virtio_find_device VIRTIO_DEVICE_ID_INPUT instance);;
      match device with
      | None => ret tt
      | Some d =>
          count <- dr_var vi_device_count;;
          r <- virtio_input_init_device count d;;
          (if r =? 0 then dr_assign (set_vi_device_count (u32 (count + 1))) else ret tt);;
          init_loop n' (instance + 1)
      end
  end.
Definition virtio_input_init : M state unit :=
  dr_assign (fun _ => InputDevices (map (fun i => zero_input_device (events_at i)) (seqZ 0 VIRTIO_INPUT_MAX_DEVICES)) 0);;
  for_range (Z.to_nat VIRTIO_INPUT_MAX_DEVICES) 0 clear_events;;
  init_loop (Z.to_nat VIRTIO_INPUT_MAX_DEVICES) 0;;
  count <- dr_var vi_device_count;;
  if count =? 0 then kprintf (nl "[INFO] virtio-input: no device found") [] else ret tt.

Definition virtio_input_available : M state Z := count <- dr_var vi_device_count;; ret (if count =? 0 then 0 else 1).
End input.
