(* ===== verification/Terminal.v ===== *)
(** The terminal (src/src/desktop/terminal_app.c): its scrollback, its input line,
    and the shell behind it. A [terminal_app_state_t *] is an index into
    [terminal_states]. What it asks of the desktop and of the shell are two
    interfaces. *)
From S2P Require Import Prelude LibString Input Graphics DesktopWindow DesktopInput AppRegistry Editor.

Definition TERMINAL_WINDOW_WIDTH : Z := 560.
Definition TERMINAL_WINDOW_HEIGHT : Z := 220.
Definition TERMINAL_SCROLLBACK_LINES : Z := 128.
Definition TERMINAL_LINE_MAX : Z := 64.
Definition TERMINAL_INPUT_MAX : Z := 64.
Definition TERMINAL_PROMPT : string := "duck-os@dev > ".
Definition TERMINAL_BG_COLOR : Z := 0xff0f151a.
Definition TERMINAL_FG_COLOR : Z := 0xffd7e3ea.
Definition TERMINAL_ACCENT_COLOR : Z := 0xff69b7d4.
Definition TERMINAL_LINE_SPACING : Z := 2.
Definition TERMINAL_MAX_INSTANCES : Z := 8.

Record terminal_app_state : Type := Terminal {
  lines : list mem;
  line_count : Z;
  line_head : Z;
  current_output_length : Z;
  term_input : mem;
  input_length : Z;
  term_active : Z
}.
Definition set_lines (v : list mem) (t : terminal_app_state) : terminal_app_state :=
  Terminal v (line_count t) (line_head t) (current_output_length t) (term_input t) (input_length t) (term_active t).
Definition set_line_count (v : Z) (t : terminal_app_state) : terminal_app_state :=
  Terminal (lines t) v (line_head t) (current_output_length t) (term_input t) (input_length t) (term_active t).
Definition set_line_head (v : Z) (t : terminal_app_state) : terminal_app_state :=
  Terminal (lines t) (line_count t) v (current_output_length t) (term_input t) (input_length t) (term_active t).
Definition set_current_output_length (v : Z) (t : terminal_app_state) : terminal_app_state :=
  Terminal (lines t) (line_count t) (line_head t) v (term_input t) (input_length t) (term_active t).
Definition set_input (v : mem) (n : Z) (t : terminal_app_state) : terminal_app_state :=
  Terminal (lines t) (line_count t) (line_head t) (current_output_length t) v n (term_active t).
Definition set_term_active (v : Z) (t : terminal_app_state) : terminal_app_state :=
  Terminal (lines t) (line_count t) (line_head t) (current_output_length t) (term_input t) (input_length t) v.

Definition blank_line : mem := zeroes (TERMINAL_LINE_MAX + 1).
(** A state filled with zeros. *)
Definition zero_terminal : terminal_app_state :=
  Terminal (replicate (Z.to_nat TERMINAL_SCROLLBACK_LINES) blank_line) 0 0 0 (zeroes TERMINAL_INPUT_MAX) 0 0.

(** ** The scrollback *)

#[local] Abbreviation T := (M terminal_app_state).

Definition terminal_app_begin_new_line : T unit :=
  t <- gets (fun t => t);;
  index <- (if line_count t <? TERMINAL_SCROLLBACK_LINES then
              modify (set_line_count (u32 (line_count t + 1)));;
              ret (u32 (line_head t + line_count t) mod TERMINAL_SCROLLBACK_LINES)
            else
              modify (set_line_head (u32 (line_head t + 1) mod TERMINAL_SCROLLBACK_LINES));;
              ret (line_head t));;
  l <- deref (wr (lines t) index blank_line);;
  modify (set_lines l);;
  modify (set_current_output_length 0).

(** The index of the current line. *)
Definition terminal_app_current_line : T Z :=
  count <- gets line_count;;
  (if count =? 0 then terminal_app_begin_new_line else ret tt);;
  t <- gets (fun t => t);;
  ret (u32 (line_head t + line_count t - 1) mod TERMINAL_SCROLLBACK_LINES).

Definition terminal_app_line_at (t : terminal_app_state) (index : Z) : option mem :=
  rd (lines t) (u32 (line_head t + index) mod TERMINAL_SCROLLBACK_LINES).

(** What follows the test for a tab. *)
Definition append_glyph (c : Z) : T unit :=
  let c := if (c <? 32) || (126 <? c) then ch "?" else c in
  length <- gets current_output_length;;
  (if TERMINAL_LINE_MAX <=? length then terminal_app_begin_new_line else ret tt);;
  index <- terminal_app_current_line;;
  t <- gets (fun t => t);;
  line <- deref (rd (lines t) index);;
  line1 <- deref (wr line (current_output_length t) c);;
  modify (set_current_output_length (u32 (current_output_length t + 1)));;
  line2 <- deref (wr line1 (u32 (current_output_length t + 1)) 0);;
  l <- deref (wr (lines t) index line2);;
  modify (set_lines l).

(** A tab calls the function again with four spaces, which pass its tests. *)
Definition terminal_app_append_char (c : Z) : T unit :=
  if c =? 13 then ret tt
  else if c =? 10 then terminal_app_begin_new_line
  else if c =? 9 then append_glyph (ch " ");; append_glyph (ch " ");; append_glyph (ch " ");; append_glyph (ch " ")
  else append_glyph c.

Definition terminal_app_append_text (text : mem) (length : Z) : T unit :=
  for_range (Z.to_nat length) 0 (fun index => c <- deref (rd text index);; terminal_app_append_char c).

(** The state and the text are those of a call: never null. *)
Definition terminal_app_shell_output (text : mem) (length : Z) : T unit := terminal_app_append_text text length.

(** [char prompt_line[sizeof(TERMINAL_PROMPT) + TERMINAL_INPUT_MAX]] with the
    prompt and the input. *)
Definition prompt_line_size : Z := Z.of_nat (length (cstr TERMINAL_PROMPT)) + TERMINAL_INPUT_MAX.
Definition prompt_line (input : mem) : option mem :=
  '(line, _) ← strlcpy (zeroes prompt_line_size) 0 (cstr TERMINAL_PROMPT) prompt_line_size;
  length ← strlen line;
  '(line1, _) ← strlcpy line length input (u64 (prompt_line_size - length));
  Some line1.

(** ** The input line *)

(** A backspace, of the keyboard or of the serial line. *)
Definition delete_last : T unit :=
  t <- gets (fun t => t);;
  if 0 <? input_length t then
    let length := u32 (input_length t - 1) in
    input <- deref (wr (term_input t) length 0);;
    modify (set_input input length)
  else ret tt.

Definition type_glyph (c : Z) : T unit :=
  if (c <? 32) || (126 <? c) then ret tt
  else
    t <- gets (fun t => t);;
    if TERMINAL_INPUT_MAX <=? u32 (input_length t + 1) then ret tt
    else
      input <- deref (wr (term_input t) (input_length t) c);;
      let length := u32 (input_length t + 1) in
      input1 <- deref (wr input length 0);;
      modify (set_input input1 length).

(** ** The application *)

(** What the terminal asks of the shell: to execute a command line. The result is
    what the command prints, which the callback is given. *)
Class CommandShell (W : Type) := { shell_execute_line : mem -> M W (list Z) }.

Record terminal_app (D W : Type) : Type := TerminalApp {
  terminal_states : list terminal_app_state;
  ta_desktop : D;
  ta_shell : W
}.
Arguments TerminalApp {D W}.
Arguments terminal_states {D W}.
Arguments ta_desktop {D W}.
Arguments ta_shell {D W}.

Section application.
Context {D W : Type} `{DesktopServices D} `{CommandShell W}.
Implicit Types s : terminal_app D W.

Definition set_terminal_states (v : list terminal_app_state) s : terminal_app D W := TerminalApp v (ta_desktop s) (ta_shell s).
Definition set_ta_desktop (v : D) s : terminal_app D W := TerminalApp (terminal_states s) v (ta_shell s).
Definition set_ta_shell (v : W) s : terminal_app D W := TerminalApp (terminal_states s) (ta_desktop s) v.

Abbreviation A := (M (terminal_app D W)).

(** An operation on the state that a pointer leads to. *)
Definition on_terminal {B} (st : Z) (m : T B) : A B := fun s =>
  match rd (terminal_states s) st with
  | None => Undef
  | Some t =>
      match m t with
      | Ret b t1 o => match wr (terminal_states s) st t1 with Some l => Ret b (set_terminal_states l s) o | None => Undef end
      | Panic msg t1 o => match wr (terminal_states s) st t1 with Some l => Panic msg (set_terminal_states l s) o | None => Undef end
      | Undef => Undef
      end
  end.

Fixpoint alloc_state_loop (fuel : nat) (index : Z) : A (option Z) :=
  match fuel with
  | O => ret None
  | S fuel' =>
      t <- on_terminal index (gets (fun t => t));;
      if term_active t =? 0 then
        on_terminal index (modify (fun _ => zero_terminal);; modify (set_term_active 1);; terminal_app_begin_new_line);;
        ret (Some index)
      else alloc_state_loop fuel' (index + 1)
  end.
Definition terminal_app_alloc_state : A (option Z) := alloc_state_loop (Z.to_nat TERMINAL_MAX_INSTANCES) 0.

(** The callback gets each character as it is printed; a command does not read
    the scrollback, so that they may come when it has ended. *)
Fixpoint deliver (st : Z) (o : list Z) : A unit :=
  match o with [] => ret tt | c :: o' => on_terminal st (terminal_app_shell_output [c] 1);; deliver st o' end.
Definition execute_into (st : Z) (line : mem) : A unit :=
  o <- zoom ta_shell set_ta_shell (shell_execute_line line);; deliver st o.

(** The Enter key: the line joins the scrollback and goes to the shell. *)
Definition enter_line (st : Z) : A unit :=
  t <- on_terminal st (gets (fun t => t));;
  line <- deref (prompt_line (term_input t));;
  length <- deref (strlen line);;
  on_terminal st (terminal_app_append_text line length;; terminal_app_begin_new_line);;
  execute_into st (term_input t);;
  on_terminal st (t1 <- gets (fun t => t);; input <- deref (wr (term_input t1) 0 0);; modify (set_input input 0)).

Definition terminal_app_event (window : option desktop_window) (event : option desktop_event) : A unit :=
  match window, event with
  | Some w, Some ev =>
      match user_data w with
      | None => ret tt
      | Some st =>
          if ev_type ev =? DESKTOP_EVENT_WINDOW_CLOSE then ret tt
          else
            erase <- (if (ev_type ev =? DESKTOP_EVENT_KEY) && (pressed (ev_input ev) =? INPUT_KEY_PRESS)
                      then keycode <- deref (event_keycode (data (ev_input ev)));; ret (keycode =? INPUT_KEY_BACKSPACE)
                      else ret false);;
            if (erase : bool) then on_terminal st delete_last
            else if negb (ev_type ev =? DESKTOP_EVENT_CHAR) then ret tt
            else
              let c := character ev in
              if (c =? 8) || (c =? 0x7f) then on_terminal st delete_last
              else if (c =? 10) || (c =? 13) then enter_line st
              else on_terminal st (type_glyph c)
      end
  | _, _ => ret tt
  end.

Definition terminal_app_start (instance : option app_instance) : A (Z * option app_instance) :=
  match instance with
  | None => ret (-1, None)
  | Some i =>
      state <- terminal_app_alloc_state;;
      match state with
      | None => ret (-1, instance)
      | Some _ =>
          s <- gets (fun t => t);;
          let (d, status) := desktop_open_app_instance_window (instance_id i) (cstr "Terminal") TERMINAL_WINDOW_WIDTH TERMINAL_WINDOW_HEIGHT state (ta_desktop s) in
          modify (set_ta_desktop d);;
          ret (status, Some (AppInstance (instance_id i) (argument i) state))
      end
  end.

Definition terminal_app_close (instance : option app_instance) : A unit :=
  match instance with
  | None => ret tt
  | Some i => match instance_data i with None => ret tt | Some st => on_terminal st (modify (fun _ => zero_terminal)) end
  end.
End application.

(** ** The picture *)

(** The rows of the scrollback from [start_row] on. *)
Definition draw_row (t : terminal_app_state) (x y start_row row : Z) : M screen unit :=
  let draw_row := u32 (row - start_row) in
  text_x <- signed (x + 6);;
  top <- signed (y + 6);;
  text_y <- signed (top + i32 (draw_row * (GFX_FONT_HEIGHT + TERMINAL_LINE_SPACING)));;
  text <- deref (terminal_app_line_at t row);;
  gfx_draw_string text_x text_y (Some text) TERMINAL_FG_COLOR TERMINAL_BG_COLOR.

Definition terminal_app_render (window : option desktop_window) (states : list terminal_app_state) : M screen unit :=
  match window with
  | None => ret tt
  | Some w =>
      match user_data w with
      | None => ret tt
      | Some st =>
          t <- deref (rd states st);;
          x <- desktop_window_content_x window;;
          y <- desktop_window_content_y window;;
          let width := desktop_window_content_width window in
          let height := desktop_window_content_height window in
          draw_fill_rect x y (i32 width) (i32 height) TERMINAL_BG_COLOR;;
          draw_rect x y (i32 width) (i32 height) TERMINAL_ACCENT_COLOR;;
          let visible_rows := height / (GFX_FONT_HEIGHT + TERMINAL_LINE_SPACING) in
          if visible_rows =? 0 then ret tt
          else
            let total_rows := u32 (line_count t + 1) in
            let start_row := if visible_rows <? total_rows then u32 (total_rows - visible_rows) else 0 in
            for_range (Z.to_nat (line_count t - start_row)) start_row (draw_row t x y start_row);;
            line <- deref (prompt_line (term_input t));;
            text_x <- signed (x + 6);;
            top <- signed (y + 6);;
            text_y <- signed (top + i32 (u32 (u32 (total_rows - start_row) - 1) * (GFX_FONT_HEIGHT + TERMINAL_LINE_SPACING)));;
            gfx_draw_string text_x text_y (Some line) TERMINAL_FG_COLOR TERMINAL_BG_COLOR
      end
  end.
