(* ===== verification/TerminalLaws.v ===== *)
(** The terminal's scrollback shows the last lines of everything it was given:
    a ring of 128 lines against the list of all of them, broken at 64 columns.
    Entering a line shows the prompt, the line and what the shell prints. *)
From S2P Require Import Prelude LibString Input Graphics DesktopWindow DesktopInput AppRegistry Editor Terminal.

(** ** Every line of a text *)

(** The lines that are complete and the one that grows. *)
Definition page : Type := (list (list Z) * list Z)%type.
Definition visible_char (c : Z) : Z := if (c <? 32) || (126 <? c) then ch "?" else c.
Definition next_line (p : page) : page := (p.1 ++ [p.2], []).
Definition put_glyph (c : Z) (p : page) : page :=
  let g := visible_char c in if 64 <=? lenZ p.2 then (p.1 ++ [p.2], [g]) else (p.1, p.2 ++ [g]).
(** A carriage return is dropped and a tab is four spaces. *)
Definition type_on (p : page) (c : Z) : page :=
  if c =? 13 then p
  else if c =? 10 then next_line p
  else if c =? 9 then Nat.iter 4 (put_glyph (ch " ")) p
  else put_glyph c p.
Definition typeset (p : page) (s : list Z) : page := foldl type_on p s.

(** What the scrollback has room for. *)
Definition keep {A} (n : nat) (l : list A) : list A := drop (length l - n) l.
Arguments keep : simpl never.
Definition last_lines (p : page) : list (list Z) := keep 127 p.1 ++ [p.2].

Lemma length_keep {A} n (l : list A) : length (keep n l) = (n `min` length l)%nat.
Proof. unfold keep. rewrite length_drop. lia. Qed.

Lemma keep_short {A} n (l : list A) : (length l <= n)%nat -> keep n l = l.
Proof. intros H. unfold keep. by replace (length l - n)%nat with 0%nat by lia. Qed.

Lemma keep_snoc {A} n (l : list A) x :
  keep n (l ++ [x]) = drop (length (keep n l) + 1 - n) (keep n l ++ [x]).
Proof.
  rewrite length_keep. unfold keep. rewrite length_app. cbn [length].
  destruct (le_lt_dec n (length l)).
  - replace (n `min` length l)%nat with n by lia. replace (n + 1 - n)%nat with 1%nat by lia.
    replace (length l + 1 - n)%nat with (length l - n + 1)%nat by lia. rewrite <- drop_drop.
    by rewrite (drop_app_le l) by lia.
  - replace (length l - n)%nat with 0%nat by lia. rewrite drop_0. replace (length l + 1 - n)%nat with 0%nat by lia.
    by replace (n `min` length l + 1 - n)%nat with 0%nat by lia.
Qed.

(** ** The ring *)

Record shows (t : terminal_app_state) (p : page) : Prop := {
  so_lines : lenZ (lines t) = 128;
  so_head : 0 <= line_head t < 128;
  so_count : line_count t = lenZ (keep 127 p.1) + 1;
  so_start : line_count t < 128 -> line_head t = 0;
  so_rows : forall i l, last_lines p !! i = Some l ->
    exists junk, rd (lines t) ((line_head t + Z.of_nat i) mod 128) = Some (l ++ 0 :: junk) /\ lenZ (l ++ 0 :: junk) = 65;
  so_column : current_output_length t = lenZ p.2
}.

Definition same_line (t t' : terminal_app_state) : Prop :=
  term_input t' = term_input t /\ input_length t' = input_length t /\ term_active t' = term_active t.

Lemma shows_count t p : shows t p -> 1 <= line_count t <= 128.
Proof. intros Hs. rewrite (so_count _ _ Hs). unfold lenZ. rewrite length_keep. lia. Qed.

Lemma shows_column t p : shows t p -> 0 <= lenZ p.2 <= 64.
Proof.
  intros Hs. destruct (so_rows _ _ Hs (length (keep 127 p.1)) p.2) as (junk & _ & Hl).
  { unfold last_lines. by rewrite lookup_app_r, Nat.sub_diag by lia. }
  rewrite lenZ_app, lenZ_cons in Hl. pose proof (lenZ_nonneg junk). pose proof (lenZ_nonneg p.2). lia.
Qed.

Lemma rd_insert_ne {A} (l : list A) i j x : 0 <= i -> 0 <= j -> i <> j -> rd (<[Z.to_nat i := x]> l) j = rd l j.
Proof. intros Hi Hj Hn. unfold rd. destruct (0 <=? j); [|done]. apply list_lookup_insert_ne. lia. Qed.

Lemma rd_insert_eq {A} (l : list A) i x : 0 <= i < lenZ l -> rd (<[Z.to_nat i := x]> l) i = Some x.
Proof. intros Hi. unfold rd, lenZ in *. rewrite (proj2 (Z.leb_le 0 i)) by lia. apply list_lookup_insert_eq. lia. Qed.

Lemma modify_ret {S A} (f : S -> S) (a : A) s : (modify f;; ret a) s = Ret a (f s) [].
Proof. reflexivity. Qed.

Lemma begin_new_line_run t p :
  shows t p -> exists t', terminal_app_begin_new_line t = Ret tt t' [] /\ shows t' (next_line p) /\ same_line t t'.
Proof.
  intros Hs. pose proof (shows_count t p Hs) as Hc. pose proof Hs as [Hl Hh Hn H0 Hr Hcol].
  assert (Hlen : Z.of_nat (length (last_lines p)) = line_count t).
  { unfold last_lines. rewrite length_app. cbn [length]. unfold lenZ in Hn. lia. }
  assert (Hkeep : lenZ (keep 127 p.1) = line_count t - 1) by lia.
  unfold terminal_app_begin_new_line. krun. unfold TERMINAL_SCROLLBACK_LINES.
  destruct (Z.ltb_spec (line_count t) 128) as [Hroom|Hfull].
  - rewrite !u32_small by lia. rewrite (Z.mod_small (line_head t + line_count t)) by (rewrite H0 by lia; lia). rewrite H0 by lia. cbn [Z.add].
    rewrite (bind_Ret_nil _ _ _ _ _ (modify_ret _ _ _)). cbn [Z.add lines set_line_count].
    rewrite (bind_deref_Some _ _ _ _ (wr_Some (lines t) (line_count t) blank_line ltac:(lia))). krun. eexists. split; [reflexivity|]. split; [|done].
    assert (Hk : keep 127 (p.1 ++ [p.2]) = last_lines p).
    { rewrite keep_snoc. unfold lenZ in *. by replace (length (keep 127 p.1) + 1 - 127)%nat with 0%nat by lia. }
    split; cbn.
    + unfold lenZ in *. by rewrite length_insert.
    + rewrite H0 by lia. lia.
    + rewrite Hk. unfold lenZ. lia.
    + by intros _; apply H0.
    + intros i l Hi. unfold last_lines, next_line in Hi. cbn [fst snd] in Hi. rewrite Hk in Hi. rewrite H0 by lia. cbn [Z.add].
      apply lookup_app_Some in Hi as [Hi|[Hge Hi]].
      * pose proof (lookup_lt_Some _ _ _ Hi). rewrite rd_insert_ne by (try apply Z.mod_pos_bound; rewrite ?Z.mod_small; lia).
        destruct (Hr i l Hi) as (junk & E & El). exists junk. split; [|done]. rewrite <- E. by rewrite H0 by lia.
      * apply list_lookup_singleton_Some in Hi as [Hi <-]. replace (Z.of_nat i) with (line_count t) by lia.
        rewrite Z.mod_small, rd_insert_eq by lia. by exists (zeroes 64).
    + done.
  - assert (line_count t = 128) as E128 by lia. rewrite !u32_small by lia.
    rewrite (bind_Ret_nil _ _ _ _ _ (modify_ret _ _ _)). cbn [lines set_line_head].
    rewrite (bind_deref_Some _ _ _ _ (wr_Some (lines t) (line_head t) blank_line ltac:(lia))). krun. eexists. split; [reflexivity|]. split; [|done].
    assert (Hk : keep 127 (p.1 ++ [p.2]) = drop 1 (last_lines p)).
    { rewrite keep_snoc. unfold lenZ in *. by replace (length (keep 127 p.1) + 1 - 127)%nat with 1%nat by lia. }
    split; cbn.
    + unfold lenZ in *. by rewrite length_insert.
    + apply Z.mod_pos_bound. lia.
    + rewrite Hk. unfold lenZ. rewrite length_drop. lia.
    + lia.
    + intros i l Hi. unfold last_lines, next_line in Hi. cbn [fst snd] in Hi. rewrite Hk in Hi.
      rewrite Z.add_mod_idemp_l by lia.
      apply lookup_app_Some in Hi as [Hi|[Hge Hi]].
      * rewrite lookup_drop in Hi. pose proof (lookup_lt_Some _ _ _ Hi).
        rewrite rd_insert_ne by (try apply Z.mod_pos_bound; try lia; Z.div_mod_to_equations; lia).
        destruct (Hr _ l Hi) as (junk & E & El). exists junk. split; [|done]. rewrite <- E. do 2 f_equal. lia.
      * apply list_lookup_singleton_Some in Hi as [Hi <-]. rewrite length_drop in Hi, Hge.
        replace ((line_head t + 1 + Z.of_nat i) mod 128) with (line_head t) by (Z.div_mod_to_equations; lia).
        rewrite rd_insert_eq by lia. by exists (zeroes 64).
    + done.
Qed.

Lemma current_line_run t p :
  shows t p -> terminal_app_current_line t = Ret ((line_head t + (line_count t - 1)) mod 128) t [].
Proof.
  intros Hs. pose proof (shows_count t p Hs). pose proof (so_head _ _ Hs). unfold terminal_app_current_line. krun.
  rewrite (proj2 (Z.eqb_neq (line_count t) 0)) by lia. krun. rewrite u32_small by lia.
  unfold ret, TERMINAL_SCROLLBACK_LINES. do 2 f_equal. lia.
Qed.

(** Writing at the end of the current line. *)
Lemma grow_line t p c :
  shows t p -> lenZ p.2 < 64 -> c <> 0 ->
  let index := (line_head t + (line_count t - 1)) mod 128 in
  exists line line1 line2, rd (lines t) index = Some line /\ wr line (lenZ p.2) c = Some line1 /\ wr line1 (lenZ p.2 + 1) 0 = Some line2 /\
    shows (set_lines (<[Z.to_nat index := line2]> (lines t)) (set_current_output_length (lenZ p.2 + 1) t)) (p.1, p.2 ++ [c]).
Proof.
  intros Hs Hroom Hc index. pose proof (shows_count t p Hs) as Hcount. pose proof Hs as [Hl Hh Hn H0 Hr Hcol].
  assert (Hlast : last_lines p !! length (keep 127 p.1) = Some p.2) by (unfold last_lines; by rewrite lookup_app_r, Nat.sub_diag by lia).
  assert (Hidx : 0 <= index < 128) by (apply Z.mod_pos_bound; lia).
  destruct (Hr _ _ Hlast) as (junk & E & El). replace (Z.of_nat (length (keep 127 p.1))) with (line_count t - 1) in E by (unfold lenZ in Hn; lia). fold index in E.
  rewrite lenZ_app, lenZ_cons in El. destruct junk as [|j junk]; [change (lenZ (@nil Z)) with 0 in El; lia|]. rewrite lenZ_cons in El.
  exists (p.2 ++ 0 :: j :: junk), (p.2 ++ c :: j :: junk), ((p.2 ++ [c]) ++ 0 :: junk). split; [done|]. split; [apply wr_app|]. split.
  { change (p.2 ++ c :: j :: junk) with (p.2 ++ [c] ++ j :: junk). rewrite app_assoc.
    replace (lenZ p.2 + 1) with (lenZ (p.2 ++ [c])) by (by rewrite lenZ_app). apply wr_app. }
  split; cbn; [unfold lenZ in *; by rewrite length_insert|done|done|done| |by rewrite lenZ_app].
  intros i l Hi. unfold last_lines in Hi. cbn [fst snd] in Hi. apply lookup_app_Some in Hi as [Hi|[Hge Hi]].
  - pose proof (lookup_lt_Some _ _ _ Hi). rewrite rd_insert_ne.
    + apply Hr. unfold last_lines. by apply lookup_app_l_Some.
    + lia.
    + apply Z.mod_pos_bound. lia.
    + unfold index, lenZ in *. Z.div_mod_to_equations; lia.
  - apply list_lookup_singleton_Some in Hi as [Hi <-]. replace (Z.of_nat i) with (line_count t - 1) by (unfold lenZ in Hn; lia). fold index.
    rewrite rd_insert_eq by lia. exists junk. split; [done|]. rewrite !lenZ_app, !lenZ_cons. change (lenZ (@nil Z)) with 0. lia.
Qed.

Lemma visible_not_nul c : visible_char c <> 0.
Proof. unfold visible_char. destruct (Z.ltb_spec c 32); [done|]. cbn [orb]. destruct (126 <? c); [done|lia]. Qed.

Lemma append_glyph_run t p c :
  shows t p -> exists t', append_glyph c t = Ret tt t' [] /\ shows t' (put_glyph c p) /\ same_line t t'.
Proof.
  intros Hs. unfold append_glyph, put_glyph. fold (visible_char c). cbn zeta. krun. unfold TERMINAL_LINE_MAX.
  pose proof (shows_column t p Hs) as Hcol. rewrite (so_column _ _ Hs).
  assert (Hput : forall t1 p1, shows t1 p1 -> lenZ p1.2 < 64 -> exists t', (index <- terminal_app_current_line;; t <- gets (fun t => t);;
      line <- deref (rd (lines t) index);; line1 <- deref (wr line (current_output_length t) (visible_char c));;
      modify (set_current_output_length (u32 (current_output_length t + 1)));; line2 <- deref (wr line1 (u32 (current_output_length t + 1)) 0);;
      l <- deref (wr (lines t) index line2);; modify (set_lines l)) t1 = Ret tt t' [] /\ shows t' (p1.1, p1.2 ++ [visible_char c]) /\ same_line t1 t').
  { intros t1 p1 Hs1 Hroom. rewrite (bind_Ret_nil _ _ _ _ _ (current_line_run t1 p1 Hs1)). pose proof (shows_column t1 p1 Hs1).
    destruct (grow_line t1 p1 (visible_char c) Hs1 Hroom (visible_not_nul c)) as (line & line1 & line2 & E & E1 & E2 & Hs2).
    rewrite bind_gets, (so_column _ _ Hs1), u32_small by lia. rewrite (bind_deref_Some _ _ _ _ E), (bind_deref_Some _ _ _ _ E1), bind_modify, (bind_deref_Some _ _ _ _ E2).
    rewrite (bind_deref_Some _ _ _ _ (wr_Some _ _ line2 (rd_inv _ _ _ E))). eexists. split; [reflexivity|]. split; [exact Hs2|done]. }
  destruct (Z.leb_spec 64 (lenZ p.2)).
  - destruct (begin_new_line_run t p Hs) as (t1 & E & Hs1 & Hi1). rewrite (bind_Ret_nil _ _ _ _ _ E).
    destruct (Hput t1 (next_line p) Hs1) as (t' & E' & Hs' & Hi'); [by change (lenZ (next_line p).2) with 0|].
    exists t'. split; [exact E'|]. split; [exact Hs'|]. unfold same_line in *. by intuition congruence.
  - destruct (Hput t p Hs) as (t' & E' & Hs' & Hi'); [lia|]. exists t'. rewrite bind_ret. done.
Qed.

Lemma same_line_trans t t1 t2 : same_line t t1 -> same_line t1 t2 -> same_line t t2.
Proof. unfold same_line. by intuition congruence. Qed.

Lemma append_char_run t p c :
  shows t p -> exists t', terminal_app_append_char c t = Ret tt t' [] /\ shows t' (type_on p c) /\ same_line t t'.
Proof.
  intros Hs. unfold terminal_app_append_char, type_on. destruct (c =? 13); [by exists t|]. destruct (c =? 10); [by apply begin_new_line_run|].
  destruct (c =? 9); [|by apply append_glyph_run].
  destruct (append_glyph_run t p (ch " ") Hs) as (t1 & E1 & S1 & I1). destruct (append_glyph_run t1 _ (ch " ") S1) as (t2 & E2 & S2 & I2).
  destruct (append_glyph_run t2 _ (ch " ") S2) as (t3 & E3 & S3 & I3). destruct (append_glyph_run t3 _ (ch " ") S3) as (t4 & E4 & S4 & I4).
  exists t4. rewrite (bind_Ret_nil _ _ _ _ _ E1), (bind_Ret_nil _ _ _ _ _ E2), (bind_Ret_nil _ _ _ _ _ E3). split; [exact E4|]. split; [exact S4|].
  by repeat (eapply same_line_trans; [eassumption|]).
Qed.

Lemma append_loop_run text s : forall pre r t p i, text = pre ++ s ++ r -> lenZ pre = i -> shows t p ->
  exists t', for_range (length s) i (fun index => c <- deref (rd text index);; terminal_app_append_char c) t = Ret tt t' [] /\
    shows t' (typeset p s) /\ same_line t t'.
Proof.
  induction s as [|c s IH]; intros pre r t p i Ht Hi Hs; [by exists t|]. cbn [length for_range].
  assert (Hrd : rd text i = Some c) by (rewrite Ht, <- Hi; apply rd_at).
  destruct (append_char_run t p c Hs) as (t1 & E1 & S1 & I1).
  assert (Hstep : (c <- deref (rd text i);; terminal_app_append_char c) t = Ret tt t1 []) by (by rewrite (bind_deref_Some _ _ _ _ Hrd)).
  rewrite (bind_Ret_nil _ _ _ _ _ Hstep).
  destruct (IH (pre ++ [c]) r t1 (type_on p c) (i + 1)) as (t' & E' & S' & I').
  - by rewrite Ht, <- app_assoc.
  - rewrite lenZ_app. change (lenZ [c]) with 1. lia.
  - done.
  - exists t'. split; [exact E'|]. split; [exact S'|]. by eapply same_line_trans.
Qed.

Lemma append_text_run t p s r :
  shows t p -> exists t', terminal_app_append_text (s ++ r) (lenZ s) t = Ret tt t' [] /\ shows t' (typeset p s) /\ same_line t t'.
Proof.
  intros Hs. unfold terminal_app_append_text, lenZ. rewrite Nat2Z.id. by apply (append_loop_run (s ++ r) s [] r).
Qed.

(** A state that was just taken. *)
Lemma fresh_terminal_run t :
  exists t', (modify (fun _ => zero_terminal);; modify (set_term_active 1);; terminal_app_begin_new_line) t = Ret tt t' [] /\
    shows t' ([], []) /\ term_input t' = zeroes TERMINAL_INPUT_MAX /\ input_length t' = 0 /\ term_active t' = 1.
Proof.
  eexists. split; [reflexivity|]. repeat split; try done.
  - intros [|i] l Hi; [|by destruct i]. injection Hi as <-. by exists (zeroes 64).
Qed.

(** ** The input line *)

(** A terminal with a page and an input line. *)
Record terminal_is (t : terminal_app_state) (p : page) (l : list Z) : Prop := {
  ti_page : shows t p;
  ti_line : exists junk, term_input t = l ++ 0 :: junk;
  ti_size : lenZ (term_input t) = TERMINAL_INPUT_MAX;
  ti_length : input_length t = lenZ l;
  ti_nul : no_nul l
}.

Lemma input_bound t p l : terminal_is t p l -> 0 <= lenZ l <= 63.
Proof.
  intros [_ (junk & E) Hz _ _]. rewrite E, lenZ_app, lenZ_cons in Hz. unfold TERMINAL_INPUT_MAX in Hz.
  pose proof (lenZ_nonneg l). pose proof (lenZ_nonneg junk). lia.
Qed.

(** A terminal whose page alone has changed. *)
Lemma terminal_page t t' p p' l : terminal_is t p l -> shows t' p' -> same_line t t' -> terminal_is t' p' l.
Proof. intros [_ Hl Hz Hn Hnul] Hs (E1 & E2 & _). split; [done|by rewrite E1|by rewrite E1|by rewrite E2|done]. Qed.

Lemma shows_input t p v n : shows t p -> shows (set_input v n t) p.
Proof. by intros [? ? ? ? ? ?]. Qed.

Definition erase (l : list Z) : list Z := removelast l.
Definition insert (c : Z) (l : list Z) : list Z :=
  if (c <? 32) || (126 <? c) then l else if lenZ l <? 63 then l ++ [c] else l.

Lemma delete_last_run t p l :
  terminal_is t p l -> exists t', delete_last t = Ret tt t' [] /\ terminal_is t' p (erase l) /\ term_active t' = term_active t.
Proof.
  intros Ht. pose proof (input_bound _ _ _ Ht) as Hb. pose proof Ht as [Hs (junk & E) Hz Hn Hnul]. unfold delete_last, erase. krun. rewrite Hn.
  destruct l as [|c l _] using rev_ind; [by exists t|]. rewrite removelast_last. rewrite lenZ_app in *. change (lenZ [c]) with 1 in *. pose proof (lenZ_nonneg l).
  rewrite (proj2 (Z.ltb_lt 0 _)) by lia. rewrite u32_small by lia. replace (lenZ l + 1 - 1) with (lenZ l) by lia.
  assert (Ew : wr (term_input t) (lenZ l) 0 = Some (l ++ 0 :: 0 :: junk)) by (rewrite E, <- app_assoc; apply wr_app).
  rewrite (bind_deref_Some _ _ _ _ Ew). eexists. split; [reflexivity|]. split; [|done].
  apply no_nul_app in Hnul as [Hnul _].
  split; [by apply shows_input|by exists (0 :: junk)| |done|done].
  cbn. rewrite E in Hz. rewrite !lenZ_app, !lenZ_cons in *. change (lenZ (@nil Z)) with 0 in Hz. lia.
Qed.

Lemma type_glyph_run t p l c :
  terminal_is t p l -> exists t', type_glyph c t = Ret tt t' [] /\ terminal_is t' p (insert c l) /\ term_active t' = term_active t.
Proof.
  intros Ht. pose proof (input_bound _ _ _ Ht) as Hb. pose proof Ht as [Hs (junk & E) Hz Hn Hnul]. unfold type_glyph, insert.
  destruct ((c <? 32) || (126 <? c)) eqn:Hc; [by exists t|]. apply orb_false_elim in Hc as [Hc%Z.ltb_ge _].
  krun. rewrite Hn, u32_small by lia. unfold TERMINAL_INPUT_MAX.
  destruct (Z.leb_spec 64 (lenZ l + 1)); [rewrite (proj2 (Z.ltb_ge _ 63)) by lia; by exists t|]. rewrite (proj2 (Z.ltb_lt _ 63)) by lia.
  rewrite E in Hz. rewrite lenZ_app, lenZ_cons in Hz. unfold TERMINAL_INPUT_MAX in Hz. destruct junk as [|j junk]; [change (lenZ (@nil Z)) with 0 in Hz; lia|].
  assert (Ew : wr (term_input t) (lenZ l) c = Some (l ++ c :: j :: junk)) by (rewrite E; apply wr_app).
  assert (Ew1 : wr (l ++ c :: j :: junk) (lenZ l + 1) 0 = Some ((l ++ [c]) ++ 0 :: junk)).
  { change (l ++ c :: j :: junk) with (l ++ [c] ++ j :: junk). rewrite app_assoc.
    replace (lenZ l + 1) with (lenZ (l ++ [c])) by (by rewrite lenZ_app). apply wr_app. }
  rewrite (bind_deref_Some _ _ _ _ Ew), (bind_deref_Some _ _ _ _ Ew1). eexists. split; [reflexivity|]. split; [|done].
  rewrite lenZ_cons in Hz.
  split; [by apply shows_input|by exists junk|cbn; rewrite !lenZ_app, !lenZ_cons; change (lenZ (@nil Z)) with 0; unfold TERMINAL_INPUT_MAX; lia|cbn; by rewrite lenZ_app|].
  apply no_nul_app. split; [done|]. apply Forall_singleton. lia.
Qed.

(** *** Entering it *)

Definition prompt : list Z := lit TERMINAL_PROMPT.

Lemma prompt_line_run l junk :
  no_nul l -> lenZ l <= 63 -> exists r, prompt_line (l ++ 0 :: junk) = Some ((prompt ++ l) ++ 0 :: r).
Proof.
  intros Hnul Hl. unfold prompt_line. change prompt_line_size with 79.
  assert (E1 : strlcpy (zeroes 79) 0 (cstr TERMINAL_PROMPT) 79 = Some (prompt ++ zeroes 65, 14)) by reflexivity.
  rewrite E1. cbn [mbind option_bind].
  assert (E2 : strlen (prompt ++ zeroes 65) = Some 14) by reflexivity. rewrite E2. cbn [mbind option_bind]. change (u64 (79 - 14)) with 65.
  rewrite strlcpy_spec by (done || lia). cbn [mbind option_bind]. change (Z.to_nat (65 - 1)) with 64%nat. change (Z.to_nat 14) with (length prompt).
  rewrite splice_at, take_ge by (unfold lenZ in Hl; lia). exists (drop (length (l ++ [0])) (zeroes 65)). by rewrite <- !app_assoc.
Qed.

Section events.
Context {D W : Type} `{DesktopServices D} `{CommandShell W}.
Implicit Types s : terminal_app D W.

Definition with_terminal (st : Z) (t : terminal_app_state) s : terminal_app D W := set_terminal_states (<[Z.to_nat st := t]> (terminal_states s)) s.

Lemma on_terminal_run {B} s st t (m : M terminal_app_state B) r t' :
  rd (terminal_states s) st = Some t -> m t = Ret r t' [] -> on_terminal st m s = Ret r (with_terminal st t' s) [].
Proof. intros Hr Hm. unfold on_terminal. rewrite Hr, Hm. by rewrite wr_Some by (by eapply rd_inv). Qed.

Lemma with_terminal_rd s st t t' : rd (terminal_states s) st = Some t -> rd (terminal_states (with_terminal st t' s)) st = Some t'.
Proof. intros Hr. apply rd_insert_eq. by eapply rd_inv. Qed.

Lemma with_terminal_twice s st t t' : with_terminal st t' (with_terminal st t s) = with_terminal st t' s.
Proof. unfold with_terminal, set_terminal_states. cbn. by rewrite list_insert_insert_eq. Qed.

Lemma with_terminal_same s st t : rd (terminal_states s) st = Some t -> with_terminal st t s = s.
Proof.
  intros Hr. destruct s as [l d k]. unfold with_terminal, set_terminal_states. cbn in *. f_equal. apply list_insert_id.
  unfold rd in Hr. by destruct (0 <=? st).
Qed.

Lemma deliver_run st o : forall s t p l,
  rd (terminal_states s) st = Some t -> terminal_is t p l ->
  exists t', deliver st o s = Ret tt (with_terminal st t' s) [] /\ terminal_is t' (typeset p o) l /\ term_active t' = term_active t.
Proof.
  induction o as [|c o IH]; intros s t p l Hr Ht.
  { exists t. rewrite (with_terminal_same s st t Hr). done. }
  cbn [deliver]. destruct (append_text_run t p [c] [] (ti_page _ _ _ Ht)) as (t1 & E1 & S1 & I1).
  rewrite (bind_Ret_nil _ _ _ _ _ (on_terminal_run s st t _ tt t1 Hr E1)).
  pose proof (terminal_page _ _ _ _ _ Ht S1 I1) as Ht1.
  destruct (IH _ t1 _ l (with_terminal_rd s st t t1 Hr) Ht1) as (t' & E' & Ht' & Ha). exists t'. rewrite E', with_terminal_twice.
  split; [done|]. split; [exact Ht'|]. destruct I1 as (_ & _ & I1). congruence.
Qed.

(** What an event does to the input line; [None] is the Enter key. *)
Definition line_edit (ev : desktop_event) : option (list Z -> list Z) :=
  if ev_type ev =? DESKTOP_EVENT_WINDOW_CLOSE then Some (fun l => l)
  else if (ev_type ev =? DESKTOP_EVENT_KEY) && (pressed (ev_input ev) =? INPUT_KEY_PRESS)
          && match data (ev_input ev) with Keycode k => k =? INPUT_KEY_BACKSPACE | _ => false end then Some erase
  else if negb (ev_type ev =? DESKTOP_EVENT_CHAR) then Some (fun l => l)
  else let c := character ev in
    if (c =? 8) || (c =? 0x7f) then Some erase
    else if (c =? 10) || (c =? 13) then None
    else Some (insert c).

Lemma enter_line_run s st t p l k o out :
  rd (terminal_states s) st = Some t -> terminal_is t p l -> shell_execute_line (term_input t) (ta_shell s) = Ret o k out ->
  exists t', enter_line st s = Ret tt (with_terminal st t' (set_ta_shell k s)) out /\
    terminal_is t' (typeset (next_line (typeset p (prompt ++ l))) o) [] /\ term_active t' = term_active t.
Proof.
  intros Hr Ht Hx. pose proof (input_bound _ _ _ Ht) as Hb. pose proof Ht as [Hs (junk & E) Hz Hn Hnul].
  destruct (prompt_line_run l junk Hnul ltac:(lia)) as (r & Ep). unfold enter_line.
  rewrite (bind_Ret_nil _ _ _ _ _ (on_terminal_run s st t (gets (fun t => t)) t t Hr eq_refl)), (with_terminal_same s st t Hr).
  rewrite <- E in Ep. rewrite (bind_deref_Some _ _ _ _ Ep).
  assert (Hp : no_nul (prompt ++ l)) by (apply no_nul_app; split; [by repeat constructor|done]).
  rewrite (bind_deref_Some _ _ _ _ (strlen_app (prompt ++ l) r Hp)).
  destruct (append_text_run t p (prompt ++ l) (0 :: r) Hs) as (t1 & E1 & S1 & I1). destruct (begin_new_line_run t1 _ S1) as (t2 & E2 & S2 & I2).
  assert (E12 : (terminal_app_append_text ((prompt ++ l) ++ 0 :: r) (lenZ (prompt ++ l));; terminal_app_begin_new_line) t = Ret tt t2 [])
    by (by rewrite (bind_Ret_nil _ _ _ _ _ E1)).
  rewrite (bind_Ret_nil _ _ _ _ _ (on_terminal_run s st t _ tt t2 Hr E12)). set (s2 := with_terminal st t2 s).
  pose proof (terminal_page _ _ _ _ _ Ht S2 (same_line_trans _ _ _ I1 I2)) as Ht2.
  assert (Hr2 : rd (terminal_states (set_ta_shell k s2)) st = Some t2) by (exact (with_terminal_rd s st t t2 Hr)).
  destruct (deliver_run st o (set_ta_shell k s2) t2 _ l Hr2 Ht2) as (t3 & E3 & Ht3 & A3).
  assert (Hexec : execute_into st (term_input t) s2 = Ret tt (with_terminal st t3 (set_ta_shell k s2)) out).
  { unfold execute_into, bind, zoom. change (ta_shell s2) with (ta_shell s). rewrite Hx, E3. by rewrite app_nil_r. }
  assert (Hclear : exists t4, (t1 <- gets (fun t => t);; input <- deref (wr (term_input t1) 0 0);; modify (set_input input 0)) t3 = Ret tt t4 [] /\
    terminal_is t4 (typeset (next_line (typeset p (prompt ++ l))) o) [] /\ term_active t4 = term_active t3).
  { destruct Ht3 as [S3 (junk3 & E4) Hz3 Hn3 _]. rewrite bind_gets.
    rewrite (bind_deref_Some _ _ _ _ (wr_Some (term_input t3) 0 0 ltac:(unfold TERMINAL_INPUT_MAX in Hz3; lia))). eexists. split; [reflexivity|]. split; [|done].
    split; [by apply shows_input| |cbn; unfold lenZ in *; by rewrite length_insert|done|by constructor].
    exists (drop 1 (term_input t3)). cbn. rewrite E4. by destruct l. }
  destruct Hclear as (t4 & E4 & Ht4 & A4). exists t4.
  pose proof (on_terminal_run (with_terminal st t3 (set_ta_shell k s2)) st t3 _ tt t4 (with_terminal_rd _ st t2 t3 Hr2) E4) as Elast.
  unfold bind. rewrite Hexec. unfold bind in Elast. rewrite Elast. rewrite app_nil_r, with_terminal_twice.
  assert (Es : with_terminal st t4 (set_ta_shell k s2) = with_terminal st t4 (set_ta_shell k s)).
  { unfold s2, with_terminal, set_terminal_states. cbn. by rewrite list_insert_insert_eq. }
  rewrite Es. split; [done|]. split; [exact Ht4|]. destruct I1 as (_ & _ & I1), I2 as (_ & _ & I2). congruence.
Qed.

Lemma edit_run s st t p l (m : M terminal_app_state unit) (f : list Z -> list Z) :
  rd (terminal_states s) st = Some t ->
  (exists t', m t = Ret tt t' [] /\ terminal_is t' p (f l) /\ term_active t' = term_active t) ->
  exists t', on_terminal st m s = Ret tt (with_terminal st t' s) [] /\ terminal_is t' p (f l) /\ term_active t' = term_active t.
Proof. intros Hr (t' & E & Ht & Ha). exists t'. by rewrite (on_terminal_run s st t m tt t' Hr E). Qed.

Lemma line_event_run s w ev st t p l :
  user_data w = Some st -> rd (terminal_states s) st = Some t -> terminal_is t p l -> desktop_event_ok ev ->
  match line_edit ev with
  | Some f => exists t', terminal_app_event (Some w) (Some ev) s = Ret tt (with_terminal st t' s) [] /\ terminal_is t' p (f l) /\ term_active t' = term_active t
  | None => terminal_app_event (Some w) (Some ev) s = enter_line st s
  end.
Proof.
  intros Hu Hr Ht Hok. unfold terminal_app_event, line_edit. rewrite Hu.
  assert (Hstay : exists t', Ret tt s [] = Ret tt (with_terminal st t' s) [] /\ terminal_is t' p l /\ term_active t' = term_active t)
    by (exists t; by rewrite (with_terminal_same s st t Hr)).
  destruct (ev_type ev =? DESKTOP_EVENT_WINDOW_CLOSE); [exact Hstay|].
  match goal with |- context [bind (if ?b then _ else _) _ s] => assert (Hkey : forall k : bool -> M (terminal_app D W) unit,
    bind (if b then keycode <- deref (event_keycode (data (ev_input ev)));; ret (keycode =? INPUT_KEY_BACKSPACE) else ret false) k s =
    k (b && match data (ev_input ev) with Keycode k => k =? INPUT_KEY_BACKSPACE | _ => false end) s); [|set (key := b) in *] end.
  { intros k. destruct (ev_type ev =? DESKTOP_EVENT_KEY) eqn:Ek; cbn [andb]; [|by rewrite bind_ret]. destruct (_ =? INPUT_KEY_PRESS); [|by rewrite bind_ret].
    apply Z.eqb_eq in Ek. destruct (Hok Ek) as (c & Ec). rewrite Ec. cbn [event_keycode andb]. rewrite bind_assoc, (bind_deref_Some _ c) by done. by rewrite bind_ret. }
  rewrite Hkey. destruct (key && _); [apply (edit_run s st t p l _ erase Hr); by apply delete_last_run|].
  destruct (negb _); [exact Hstay|]. cbn zeta.
  destruct (_ || _); [apply (edit_run s st t p l _ erase Hr); by apply delete_last_run|].
  destruct (_ || _); [done|]. apply (edit_run s st t p l _ (insert (character ev)) Hr). by apply type_glyph_run.
Qed.
End events.

(** ** What the terminal shows *)

(** C10. An event for the window of a terminal: a character is inserted at the end of
    its input line while there is room, a backspace takes the last one, and the
    Enter key adds to the scrollback the prompt with the line, and then what the
    shell prints for it, and empties the line. The scrollback shows the last 128
    of all the lines that it was ever given ([terminal_is] through
    [last_lines]), whatever they are. *)
Theorem terminal_event_spec {D W} `{DesktopServices D} `{CommandShell W} (s : terminal_app D W) w ev st t p l :
  user_data w = Some st -> rd (terminal_states s) st = Some t -> terminal_is t p l -> desktop_event_ok ev ->
  match line_edit ev with
  | Some f => exists t', terminal_app_event (Some w) (Some ev) s = Ret tt (with_terminal st t' s) [] /\ terminal_is t' p (f l) /\ term_active t' = term_active t
  | None => forall k o out, shell_execute_line (term_input t) (ta_shell s) = Ret o k out ->
      exists t', terminal_app_event (Some w) (Some ev) s = Ret tt (with_terminal st t' (set_ta_shell k s)) out /\
        terminal_is t' (typeset (next_line (typeset p (prompt ++ l))) o) [] /\ term_active t' = term_active t
  end.
Proof.
  intros Hu Hr Ht Hok. pose proof (line_event_run s w ev st t p l Hu Hr Ht Hok) as He. destruct (line_edit ev); [exact He|].
  intros k o out Hx. rewrite He. by apply enter_line_run.
Qed.

(** A desktop that opens every window, and a shell that answers each line with
    the word "ok" and counts the lines. *)
#[local] Instance any_desktop : DesktopServices unit := {|
  desktop_show_alert _ _ d := (d, 0); desktop_open_app_instance_window _ _ _ _ _ d := (d, 0); desktop_launch_app_with_argument _ _ d := (d, 0) |}.
#[local] Instance polite_shell : CommandShell nat := {| shell_execute_line _ := modify S;; ret (lit "ok" ++ [10]) |}.
Definition sample_window : desktop_window := Window 1 10 10 560 220 DESKTOP_WINDOW_FLAG_VISIBLE 0 0 0 0 (cstr "Terminal") None None None (Some 0).
Definition enter_event : desktop_event := DesktopEvent DESKTOP_EVENT_CHAR (Event INPUT_EVENT_CHAR INPUT_SOURCE_SERIAL (Character 13) INPUT_KEY_PRESS 0) 13 1 0 0.
(** A terminal that was just opened and into which "hi" was typed. *)
Definition sample_terminal : terminal_app_state :=
  Terminal (replicate 128 blank_line) 1 0 0 (lit "hi" ++ zeroes 62) 2 1.
Definition sample_terminals : terminal_app unit nat := TerminalApp [sample_terminal] tt 0%nat.

Lemma sample_terminal_is : terminal_is sample_terminal ([], []) (lit "hi").
Proof.
  split; [|by exists (zeroes 61)|done|done|by repeat constructor].
  split; try done. intros [|i] l Hi; [|by destruct i]. injection Hi as <-. by exists (zeroes 64).
Qed.

Example typed_two : (on_terminal 0 (type_glyph (ch "h"));; on_terminal 0 (type_glyph (ch "i"))) (TerminalApp [Terminal (replicate 128 blank_line) 1 0 0 (zeroes 64) 0 1] tt 0%nat)
  = Ret tt sample_terminals [].
Proof. reflexivity. Qed.

Lemma terminal_event_spec_witness : exists t',
  terminal_app_event (Some sample_window) (Some enter_event) sample_terminals = Ret tt (with_terminal 0 t' (set_ta_shell 1%nat sample_terminals)) [] /\
  last_lines ([lit "duck-os@dev > hi"; lit "ok"], []) = [lit "duck-os@dev > hi"; lit "ok"; []] /\
  terminal_is t' ([lit "duck-os@dev > hi"; lit "ok"], []) [].
Proof.
  destruct (terminal_event_spec sample_terminals sample_window enter_event 0 sample_terminal ([], []) (lit "hi") eq_refl eq_refl sample_terminal_is
    (fun Ht => ltac:(discriminate Ht)) 1%nat (lit "ok" ++ [10]) [] eq_refl) as (t' & E & Ht & _).
  exists t'. split; [exact E|]. split; [reflexivity|]. exact Ht.
Defined.
