(* ===== verification/Files.v ===== *)
(** The file manager (src/src/desktop/files_app.c): its table of states, the
    listing of a directory, the moves between directories, and its picture. A
    [files_app_state_t *] is an index into [files_states]. What it asks of the
    rest of the system, the root file system and the desktop, is an interface. *)
From S2P Require Import Prelude LibString BlockDevice BlockIO TinyFS Vfs Input Graphics DesktopWindow DesktopInput AppRegistry.

Definition FILES_WINDOW_WIDTH : Z := 560.
Definition FILES_WINDOW_HEIGHT : Z := 260.
Definition FILES_MAX_INSTANCES : Z := 8.
Definition FILES_PATH_MAX : Z := 64.
Definition FILES_ENTRY_NAME_MAX : Z := 32.
Definition FILES_MAX_ENTRIES : Z := 32.
Definition FILES_MARGIN : Z := 6.
Definition FILES_HEADER_HEIGHT : Z := 16.
Definition FILES_ROW_HEIGHT : Z := 12.
Definition FILES_BG_COLOR : Z := 0xffedf4f8.
Definition FILES_HEADER_BG : Z := 0xffd7e5ee.
Definition FILES_TEXT_COLOR : Z := 0xff102030.
Definition FILES_MUTED_COLOR : Z := 0xff5f7280.
Definition FILES_BORDER_COLOR : Z := 0xff7890a1.
Definition FILES_SELECTION_BG : Z := 0xffbfd9e7.

Record files_entry : Type := FilesEntry { fe_name : mem; fe_size : Z; fe_flags : Z }.
Record files_app_state : Type := FilesAppState {
  fa_path : mem;
  fa_status : mem;
  fa_entries : list files_entry;
  entry_count : Z;
  selected_index : Z;
  scroll_offset : Z;
  fa_active : Z
}.
Definition set_fa_path (v : mem) (f : files_app_state) : files_app_state :=
  FilesAppState v (fa_status f) (fa_entries f) (entry_count f) (selected_index f) (scroll_offset f) (fa_active f).
Definition set_fa_status (v : mem) (f : files_app_state) : files_app_state :=
  FilesAppState (fa_path f) v (fa_entries f) (entry_count f) (selected_index f) (scroll_offset f) (fa_active f).
Definition set_fa_entries (v : list files_entry) (f : files_app_state) : files_app_state :=
  FilesAppState (fa_path f) (fa_status f) v (entry_count f) (selected_index f) (scroll_offset f) (fa_active f).
Definition set_entry_count (v : Z) (f : files_app_state) : files_app_state :=
  FilesAppState (fa_path f) (fa_status f) (fa_entries f) v (selected_index f) (scroll_offset f) (fa_active f).
Definition set_selected_index (v : Z) (f : files_app_state) : files_app_state :=
  FilesAppState (fa_path f) (fa_status f) (fa_entries f) (entry_count f) v (scroll_offset f) (fa_active f).
Definition set_scroll_offset (v : Z) (f : files_app_state) : files_app_state :=
  FilesAppState (fa_path f) (fa_status f) (fa_entries f) (entry_count f) (selected_index f) v (fa_active f).
Definition set_fa_active (v : Z) (f : files_app_state) : files_app_state :=
  FilesAppState (fa_path f) (fa_status f) (fa_entries f) (entry_count f) (selected_index f) (scroll_offset f) v.

(** Filled with zeros. *)
Definition zero_entry : files_entry := FilesEntry (zeroes FILES_ENTRY_NAME_MAX) 0 0.
Definition zero_entries : list files_entry := replicate (Z.to_nat FILES_MAX_ENTRIES) zero_entry.
Definition zero_files : files_app_state := FilesAppState (zeroes FILES_PATH_MAX) (zeroes FILES_PATH_MAX) zero_entries 0 0 0 0.

(** ** One state *)

(** The functions of this part get a state that is not null. *)
#[local] Abbreviation F := (M files_app_state).

Definition files_app_set_status (status : option mem) : F unit :=
  old <- gets fa_status;;
  match status with
  | None => s <- deref (wr old 0 0);; modify (set_fa_status s)
  | Some t => copied <- deref (strlcpy old 0 t FILES_PATH_MAX);; modify (set_fa_status copied.1)
  end.

(** The callback of [vfs_list_entries]. *)
Definition files_app_collect_entry (name : mem) (size flags : Z) : F Z :=
  count <- gets entry_count;;
  if FILES_MAX_ENTRIES <=? count then ret 1
  else
    modify (set_entry_count (u32 (count + 1)));;
    copied <- deref (strlcpy (fe_name zero_entry) 0 name FILES_ENTRY_NAME_MAX);;
    l <- gets fa_entries;;
    l1 <- deref (wr l count (FilesEntry copied.1 size flags));;
    modify (set_fa_entries l1);;
    ret 0.

(** The status and the contents of [path_out]. *)
Definition files_app_build_child_path (state : files_app_state) (entry : files_entry) (path_out : mem) (path_out_size : Z) :
    option (Z * mem) :=
  if path_out_size =? 0 then Some (-1, path_out)
  else
    out ← memset path_out 0 0 path_out_size;
    order ← strcmp (fa_path state) (cstr "/");
    if order =? 0 then
      '(out1, _) ← strlcpy out 0 (cstr "/") path_out_size;
      used ← strlen out1;
      '(out2, _) ← strlcpy out1 used (fe_name entry) (u64 (path_out_size - used));
      Some (0, out2)
    else
      '(out1, _) ← strlcpy out 0 (fa_path state) path_out_size;
      used ← strlen out1;
      if path_out_size <=? u64 (used + 1) then Some (-1, out1)
      else
        out2 ← wr out1 used (ch "/");
        out3 ← wr out2 (used + 1) 0;
        '(out4, _) ← strlcpy out3 (used + 1) (fe_name entry) (u64 (path_out_size - (used + 1)));
        Some (0, out4).

(** The walk back from the end of the path to behind its last slash: [scan] is
    the distance from the start of the path. *)
Fixpoint parent_scan (fuel : nat) (path : mem) (scan : Z) : option Z :=
  match fuel with
  | O => None
  | S fuel' =>
      if 0 <? scan then
        c ← rd path (scan - 1);
        if c =? ch "/" then Some scan else parent_scan fuel' path (scan - 1)
      else Some scan
  end.

(** The path of the parent directory; [None] when there is none to go to. *)
Definition parent_path (path : mem) : option (option mem) :=
  order ← strcmp path (cstr "/");
  if order =? 0 then Some None
  else
    length ← strlen path;
    scan ← parent_scan (S (Z.to_nat length)) path length;
    if scan <=? 1 then copied ← strlcpy path 0 (cstr "/") FILES_PATH_MAX; Some (Some copied.1)
    else path1 ← wr path (scan - 1) 0; Some (Some path1).

Definition files_app_ensure_selection_visible (visible_rows : Z) : F unit :=
  if visible_rows =? 0 then ret tt
  else
    f <- gets (fun t => t);;
    if selected_index f <? scroll_offset f then modify (set_scroll_offset (selected_index f))
    else if u32 (scroll_offset f + visible_rows) <=? selected_index f then
      modify (set_scroll_offset (u32 (u32 (selected_index f - visible_rows) + 1)))
    else ret tt.

(** The rows that fit into a window's content. *)
Definition rows_visible (content_height : Z) : Z :=
  if FILES_HEADER_HEIGHT + 24 <? content_height then u32 (u32 (content_height - FILES_HEADER_HEIGHT) - 24) / FILES_ROW_HEIGHT else 0.

(** The entry at a position of the screen, if the function returns 1. *)
Definition files_app_row_hit_test {S} (window : option desktop_window) (f : files_app_state) (x y : Z) : M S (option Z) :=
  match window with
  | None => ret None
  | Some _ =>
      content_x <- desktop_window_content_x window;;
      content_y <- desktop_window_content_y window;;
      let content_width := desktop_window_content_width window in
      let content_height := desktop_window_content_height window in
      top0 <- signed (content_y + FILES_HEADER_HEIGHT);;
      top <- signed (top0 + 8);;
      let row_area_top := u32 top in
      let visible_rows := rows_visible content_height in
      left <- signed (content_x + FILES_MARGIN);;
      if x <? u32 left then ret None
      else
        right0 <- signed (content_x + i32 content_width);;
        right <- signed (right0 - FILES_MARGIN);;
        if (u32 right <=? x) || (y <? row_area_top) then ret None
        else
          let row := u32 (y - row_area_top) / FILES_ROW_HEIGHT in
          if visible_rows <=? row then ret None
          else
            let index := u32 (scroll_offset f + row) in
            if entry_count f <=? index then ret None else ret (Some index)
  end.

(** ** The application *)

(** What the file manager asks of the rest of the system [D]: the root file
    system, the fields of its instance, opening a file and a window. *)
Class FilesHost (X D : Type) := {
  host_vfs : D -> vfs X;
  set_host_vfs : vfs X -> D -> D;
  instance_argument : Z -> M D mem;
  instance_user_data : Z -> M D (option Z);
  set_instance_user_data : Z -> option Z -> M D unit;
  desktop_open_file : option mem -> M D Z;
  desktop_open_app_instance_window : option Z -> option mem -> Z -> Z -> option Z -> M D Z
}.

Record files_apps (D : Type) : Type := FilesApps { files_states : list files_app_state; fa_host : D }.
Arguments FilesApps {D}.
Arguments files_states {D}.
Arguments fa_host {D}.

Section application.
Context {X D : Type} `{DiskDriver X} `{FilesHost X D} (local64 : mem) (local_seen : list mem).
Implicit Types s : files_apps D.

Definition set_files_states (v : list files_app_state) s : files_apps D := FilesApps v (fa_host s).
Definition set_fa_host (v : D) s : files_apps D := FilesApps (files_states s) v.

Abbreviation A := (M (files_apps D)).

Definition on_host {B} (m : M D B) : A B := zoom fa_host set_fa_host m.

(** An operation on the file system and on the state that a pointer leads to. *)
Definition on_listing {B} (st : Z) (m : M (vfs X * files_app_state) B) : A B := fun s =>
  match rd (files_states s) st with
  | None => Undef
  | Some f =>
      let back (p : vfs X * files_app_state) :=
        l ← wr (files_states s) st p.2; Some (FilesApps l (set_host_vfs p.1 (fa_host s))) in
      match m (host_vfs (fa_host s), f) with
      | Ret b p o => match back p with Some s1 => Ret b s1 o | None => Undef end
      | Panic msg p o => match back p with Some s1 => Panic msg s1 o | None => Undef end
      | Undef => Undef
      end
  end.

(** An operation on the state that a pointer leads to. *)
Definition on_state {B} (st : Z) (m : F B) : A B := fun s =>
  match rd (files_states s) st with
  | None => Undef
  | Some f =>
      match m f with
      | Ret b f1 o => match wr (files_states s) st f1 with Some l => Ret b (set_files_states l s) o | None => Undef end
      | Panic msg f1 o => match wr (files_states s) st f1 with Some l => Panic msg (set_files_states l s) o | None => Undef end
      | Undef => Undef
      end
  end.
Definition set_status (st : Z) (status : string) : A unit := on_state st (files_app_set_status (Some (cstr status))).

Fixpoint alloc_state_loop (fuel : nat) (index : Z) : A (option Z) :=
  match fuel with
  | O => ret None
  | S fuel' =>
      active <- on_state index (gets fa_active);;
      if active =? 0 then
        on_state index (
          modify (fun _ => zero_files);;
          modify (set_fa_active 1);;
          path <- gets fa_path;;
          copied <- deref (strlcpy path 0 (cstr "/") FILES_PATH_MAX);;
          modify (set_fa_path copied.1));;
        set_status index "ready";;
        ret (Some index)
      else alloc_state_loop fuel' (index + 1)
  end.
Definition files_app_alloc_state : A (option Z) := alloc_state_loop (Z.to_nat FILES_MAX_INSTANCES) 0.

Definition files_app_refresh (state : option Z) : A unit :=
  match state with
  | None => ret tt
  | Some st =>
      on_state st (modify (set_fa_entries zero_entries);; modify (set_entry_count 0);; modify (set_selected_index 0);; modify (set_scroll_offset 0));;
      path <- on_state st (gets fa_path);;
      status <- on_listing st (vfs_list_entries local64 local_seen (Some path) (Some files_app_collect_entry));;
      if negb (status =? 0) then set_status st "list failed"
      else
        count <- on_state st (gets entry_count);;
        if count =? 0 then set_status st "empty directory" else set_status st "read only"
  end.

Definition files_app_set_path (state : option Z) (path : option mem) : A unit :=
  match state, path with
  | Some st, Some p =>
      empty <- deref (empty_string p);;
      if (empty : bool) then ret tt
      else
        on_state st (old <- gets fa_path;; copied <- deref (strlcpy old 0 p FILES_PATH_MAX);; modify (set_fa_path copied.1));;
        files_app_refresh state
  | _, _ => ret tt
  end.

Definition files_app_go_parent (state : option Z) : A unit :=
  match state with
  | None => ret tt
  | Some st =>
      path <- on_state st (gets fa_path);;
      parent <- deref (parent_path path);;
      match parent with
      | None => ret tt
      | Some p => on_state st (modify (set_fa_path p));; files_app_refresh state
      end
  end.

(** [child_path] is the array on the stack. *)
Definition files_app_open_selected (child_path : mem) (state : option Z) : A unit :=
  match state with
  | None => ret tt
  | Some st =>
      f <- on_state st (gets (fun t => t));;
      if (entry_count f =? 0) || (entry_count f <=? selected_index f) then ret tt
      else
        entry <- deref (rd (fa_entries f) (selected_index f));;
        let! (status, child_path1) := deref (files_app_build_child_path f entry child_path FILES_PATH_MAX) in
        if negb (status =? 0) then set_status st "path too long"
        else if negb (Z.land (fe_flags entry) VFS_FILE_FLAG_DIRECTORY =? 0) then files_app_set_path state (Some child_path1)
        else
          opened <- on_host (desktop_open_file (Some child_path1));;
          if negb (opened =? 0) then set_status st "open failed" else set_status st "opened file"
  end.

(** A key that was pressed or repeats. *)
Definition files_key (child_path : mem) (st : Z) (keycode visible_rows : Z) : A unit :=
  f <- on_state st (gets (fun t => t));;
  if keycode =? INPUT_KEY_UP then
    if 0 <? selected_index f then
      on_state st (modify (set_selected_index (u32 (selected_index f - 1)));; files_app_ensure_selection_visible visible_rows)
    else ret tt
  else if keycode =? INPUT_KEY_DOWN then
    if u32 (selected_index f + 1) <? entry_count f then
      on_state st (modify (set_selected_index (u32 (selected_index f + 1)));; files_app_ensure_selection_visible visible_rows)
    else ret tt
  else if keycode =? INPUT_KEY_ENTER then files_app_open_selected child_path (Some st)
  else if keycode =? INPUT_KEY_BACKSPACE then files_app_go_parent (Some st)
  else ret tt.

Definition files_app_event (child_path : mem) (window : option desktop_window) (event : option desktop_event) : A unit :=
  match window, event with
  | Some w, Some ev =>
      match user_data w with
      | None => ret tt
      | Some st =>
          let visible_rows := rows_visible (desktop_window_content_height window) in
          if ev_type ev =? DESKTOP_EVENT_WINDOW_CLOSE then ret tt
          else if ev_type ev =? DESKTOP_EVENT_BUTTON_DOWN then
            f <- on_state st (gets (fun t => t));;
            hit <- files_app_row_hit_test window f (ev_cursor_x ev) (ev_cursor_y ev);;
            match hit with
            | None => ret tt
            | Some index => on_state st (modify (set_selected_index index);; files_app_ensure_selection_visible visible_rows)
            end
          else if negb (ev_type ev =? DESKTOP_EVENT_KEY) ||
                  (negb (pressed (ev_input ev) =? INPUT_KEY_PRESS) && negb (pressed (ev_input ev) =? INPUT_KEY_REPEAT)) then ret tt
          else
            keycode <- deref (event_keycode (data (ev_input ev)));;
            files_key child_path st keycode visible_rows
      end
  | _, _ => ret tt
  end.

Definition files_app_start (instance : option Z) : A Z :=
  match instance with
  | None => ret (-1)
  | Some i =>
      state <- files_app_alloc_state;;
      match state with
      | None => ret (-1)
      | Some _ =>
          argument <- on_host (instance_argument i);;
          no_argument <- deref (empty_string argument);;
          (if negb no_argument then files_app_set_path state (Some argument) else files_app_refresh state);;
          on_host (set_instance_user_data i state);;
          on_host (desktop_open_app_instance_window instance (Some (cstr "Files")) FILES_WINDOW_WIDTH FILES_WINDOW_HEIGHT state)
      end
  end.

Definition files_app_close (instance : option Z) : A unit :=
  match instance with
  | None => ret tt
  | Some i =>
      state <- on_host (instance_user_data i);;
      match state with
      | None => ret tt
      | Some st => on_state st (modify (fun _ => zero_files))
      end
  end.
End application.

(** ** The picture *)

(** The screen beside the states, of which one is scrolled. *)
Definition picture : Type := screen * list files_app_state.
Definition on_screen {B} (m : M screen B) : M picture B := zoom fst (fun v (p : picture) => (v, p.2)) m.
Definition on_shown {B} (st : Z) (m : F B) : M picture B := fun p =>
  match rd p.2 st with
  | None => Undef
  | Some f =>
      match m f with
      | Ret b f1 o => match wr p.2 st f1 with Some l => Ret b (p.1, l) o | None => Undef end
      | Panic msg f1 o => match wr p.2 st f1 with Some l => Panic msg (p.1, l) o | None => Undef end
      | Undef => Undef
      end
  end.

Definition LINE_SIZE : Z := FILES_ENTRY_NAME_MAX + 8.
(** [line], behind the calls that fill it. *)
Definition entry_line (entry : files_entry) : option mem :=
  let line := zeroes LINE_SIZE in
  '(line1, _) ← strlcpy line 0 (cstr (if negb (Z.land (fe_flags entry) VFS_FILE_FLAG_DIRECTORY =? 0) then "[D] " else "[F] ")) LINE_SIZE;
  length ← strlen line1;
  '(line2, _) ← strlcpy line1 length (fe_name entry) (u64 (LINE_SIZE - length));
  Some line2.

Fixpoint draw_rows (fuel : nat) (f : files_app_state) (x y width visible_rows row : Z) : M screen unit :=
  match fuel with
  | O => undef
  | S fuel' =>
      if negb (row <? visible_rows) then ret tt
      else
        let index := u32 (scroll_offset f + row) in
        if entry_count f <=? index then ret tt
        else
          let bg_color := if index =? selected_index f then FILES_SELECTION_BG else FILES_BG_COLOR in
          y0 <- signed (y + FILES_HEADER_HEIGHT);;
          y1 <- signed (y0 + 18);;
          row_y <- signed (y1 + i32 (u32 (row * FILES_ROW_HEIGHT)));;
          bar_x <- signed (x + 2);;
          bar_y <- signed (row_y - 1);;
          bar_width <- signed (i32 width - 4);;
          draw_fill_rect bar_x bar_y bar_width (FILES_ROW_HEIGHT - 1) bg_color;;
          entry <- deref (rd (fa_entries f) index);;
          line <- deref (entry_line entry);;
          text_x <- signed (x + FILES_MARGIN);;
          text_y <- signed (row_y + 2);;
          gfx_draw_string text_x text_y (Some line) FILES_TEXT_COLOR bg_color;;
          draw_rows fuel' f x y width visible_rows (u32 (row + 1))
  end.

Definition files_app_render (window : option desktop_window) : M picture unit :=
  match window with
  | None => ret tt
  | Some w =>
      match user_data w with
      | None => ret tt
      | Some st =>
          f <- on_shown st (gets (fun t => t));;
          x <- desktop_window_content_x window;;
          y <- desktop_window_content_y window;;
          let width := desktop_window_content_width window in
          let height := desktop_window_content_height window in
          on_screen (
            draw_fill_rect x y (i32 width) (i32 height) FILES_BG_COLOR;;
            draw_rect x y (i32 width) (i32 height) FILES_BORDER_COLOR;;
            draw_fill_rect x y (i32 width) FILES_HEADER_HEIGHT FILES_HEADER_BG;;
            text_x <- signed (x + FILES_MARGIN);;
            path_y <- signed (y + 4);;
            gfx_draw_string text_x path_y (Some (fa_path f)) FILES_TEXT_COLOR FILES_HEADER_BG;;
            help_y0 <- signed (y + FILES_HEADER_HEIGHT);;
            help_y <- signed (help_y0 + 4);;
            gfx_draw_string text_x help_y (Some (cstr "Enter open  Backspace up")) FILES_MUTED_COLOR FILES_BG_COLOR);;
          let visible_rows := rows_visible height in
          on_shown st (files_app_ensure_selection_visible visible_rows);;
          f1 <- on_shown st (gets (fun t => t));;
          on_screen (
            draw_rows (S (Z.to_nat (entry_count f1))) f1 x y width visible_rows 0;;
            text_x <- signed (x + FILES_MARGIN);;
            bottom <- signed (y + i32 height);;
            status_y <- signed (bottom - 12);;
            gfx_draw_string text_x status_y (Some (fa_status f1)) FILES_MUTED_COLOR FILES_BG_COLOR)
      end
  end.
