(* ===== verification/FilesLaws.v ===== *)
(** The file manager is a cursor in the tree of the root file system: a stack of
    names, the directory it shows, and a position in its listing. Keys move it,
    and open the file under it. *)
From S2P Require Import Prelude LibString Input BlockDevice BlockIO ListDisk TinyFS Vfs Graphics DesktopWindow DesktopInput AppRegistry Files.

(** ** Strings in zeroed buffers *)

Definition padded (n : Z) (t : list Z) : mem := t ++ zeroes (n - lenZ t).

Lemma lenZ_padded n t : lenZ t <= n -> lenZ (padded n t) = n.
Proof. intros. unfold padded, zeroes. rewrite lenZ_app. unfold lenZ in *. rewrite length_replicate. lia. Qed.
Lemma cval_padded n t : no_nul t -> lenZ t < n -> cval (padded n t) = Some t.
Proof.
  intros Ht Hn. unfold padded, zeroes. destruct (Z.to_nat (n - lenZ t)) eqn:E; [lia|]. by apply cval_app.
Qed.

Lemma strlcpy_padded n t src s :
  cval src = Some s -> no_nul t -> lenZ t < n ->
  strlcpy (padded n t) (lenZ t) src (n - lenZ t) = Some (padded n (t ++ take (Z.to_nat (n - lenZ t - 1)) s), lenZ s).
Proof.
  intros [Hs [r ->]]%cval_inv Ht Hn. pose proof (lenZ_nonneg t). rewrite strlcpy_spec; [|done|done|lia|rewrite lenZ_padded by lia; lia].
  do 2 f_equal. set (k := take (Z.to_nat (n - lenZ t - 1)) s).
  assert (Hk : lenZ k <= n - lenZ t - 1) by (unfold k, lenZ in *; rewrite length_take; lia).
  unfold padded, zeroes. rewrite <- app_assoc. replace (Z.to_nat (lenZ t)) with (length t) by (unfold lenZ; lia). rewrite splice_at, drop_replicate, lenZ_app, <- app_assoc.
  f_equal. f_equal. rewrite length_app. cbn [length app]. rewrite <- replicate_S. f_equal. unfold lenZ in *. lia.
Qed.

Lemma strlcpy_zeroes n src s :
  cval src = Some s -> 0 < n -> strlcpy (zeroes n) 0 src n = Some (padded n (take (Z.to_nat (n - 1)) s), lenZ s).
Proof.
  intros Hs Hn. pose proof (strlcpy_padded n [] src s Hs (Forall_nil_2 _) Hn) as E. unfold padded at 1 in E.
  change (lenZ []) with 0 in E. rewrite !Z.sub_0_r in E. exact E.
Qed.

Lemma strlcpy_fits n src s : cval src = Some s -> lenZ s < n -> strlcpy (zeroes n) 0 src n = Some (padded n s, lenZ s).
Proof.
  intros Hs Hn. pose proof (lenZ_nonneg s). rewrite (strlcpy_zeroes n src s Hs) by lia. rewrite take_ge by (unfold lenZ in *; lia). done.
Qed.

(** Copying over a buffer that holds something. *)
Lemma strlcpy_over n dest src s :
  cval src = Some s -> lenZ dest = n -> lenZ s < n ->
  exists b, strlcpy dest 0 src n = Some (b, lenZ s) /\ lenZ b = n /\ cval b = Some s.
Proof.
  intros [Hs [r ->]]%cval_inv Hd Hn. pose proof (lenZ_nonneg s). rewrite strlcpy_spec by (done || lia).
  rewrite take_ge by (unfold lenZ in *; lia). eexists. split; [reflexivity|]. split.
  - unfold lenZ in *. rewrite length_splice; [done|]. rewrite length_app. simpl. lia.
  - change dest with ([] ++ dest). rewrite (splice_at [] dest). cbn [app]. rewrite <- app_assoc. by apply cval_app.
Qed.

(** ** Paths *)

(** The path of a directory, with a slash before each name. *)
Definition path_text (segs : list (list Z)) : list Z :=
  match segs with [] => [slash] | _ => concat (map (cons slash) segs) end.

Lemma path_text_snoc segs x : path_text (segs ++ [x]) = (match segs with [] => [] | _ => path_text segs end) ++ slash :: x.
Proof.
  destruct segs as [|y segs]; [by simpl; rewrite app_nil_r|]. unfold path_text. rewrite map_app, concat_app. simpl. by rewrite app_nil_r.
Qed.

Lemma path_text_nonempty segs : exists r, path_text segs = slash :: r.
Proof. destruct segs as [|x segs]; simpl; by eexists. Qed.

Lemma path_text_root segs : Forall segment_ok segs -> path_text segs = [slash] -> segs = [].
Proof. intros Hs. destruct segs as [|[|c x] segs]; simpl; [done| |done]. inversion_clear Hs as [|?? [_ ?] ?]. done. Qed.

Lemma no_nul_path segs : Forall no_nul segs -> no_nul (path_text segs).
Proof.
  intros Hs. destruct segs as [|x segs]; [by repeat constructor|]. unfold path_text. induction Hs as [|y l Hy Hl IH]; [constructor|].
  cbn [map concat]. apply no_nul_app. split; [by constructor|done].
Qed.

(** The file system reads such a path as the names it is made of. *)
Lemma path_segments_text segs : Forall segment_ok segs -> path_segments (path_text segs) = segs.
Proof.
  intros Hs. induction segs as [|x segs IH] using rev_ind; [done|]. apply Forall_app in Hs as [Hs Hx].
  rewrite path_text_snoc. inversion_clear Hx as [|?? [Hns Hne] ?]. destruct segs as [|y segs].
  - cbn [app]. by rewrite path_segments_slash, path_segments_one.
  - rewrite path_segments_app, (path_segments_one x) by done. by rewrite IH.
Qed.

Definition entry_mem (x : list Z) : mem := padded FILES_ENTRY_NAME_MAX (take 31 x).
Definition file_name_short (x : list Z) : Prop := no_nul x /\ lenZ x < FILES_ENTRY_NAME_MAX.
Lemma cval_entry_mem x : file_name_short x -> cval (entry_mem x) = Some x.
Proof.
  intros [Hx Hl]. unfold entry_mem. unfold FILES_ENTRY_NAME_MAX in *. rewrite take_ge by (unfold lenZ in *; lia). by apply cval_padded.
Qed.

(** The root's path needs no slash more. *)
Lemma build_child_path_run f segs x size flags (buffer : mem) :
  cval (fa_path f) = Some (path_text segs) -> Forall segment_ok segs -> Forall no_nul segs -> file_name_short x -> x <> [] ->
  lenZ buffer = FILES_PATH_MAX -> lenZ (path_text (segs ++ [x])) < FILES_PATH_MAX ->
  files_app_build_child_path f (FilesEntry (entry_mem x) size flags) buffer FILES_PATH_MAX = Some (0, padded FILES_PATH_MAX (path_text (segs ++ [x]))).
Proof.
  intros Hp Hs Hn Hx Hne Hb Hl. unfold files_app_build_child_path. change (FILES_PATH_MAX =? 0) with false. cbn iota.
  rewrite memset_all by done. cbn [mbind option_bind]. replace (replicate (length buffer) (u8 0)) with (zeroes FILES_PATH_MAX)
    by (unfold zeroes, lenZ in *; f_equal; lia).
  destruct (strcmp_eqb _ (cstr "/") _ [slash] Hp eq_refl) as (z & -> & Hz). cbn [mbind option_bind]. rewrite Hz. clear z Hz.
  pose proof (cval_entry_mem x Hx) as Hcx. pose proof (no_nul_path segs Hn) as Hnp. rewrite path_text_snoc in *.
  unfold FILES_PATH_MAX in *. assert (H0x : 1 <= lenZ x) by (destruct x; [done|]; rewrite lenZ_cons; pose proof (lenZ_nonneg x); lia).
  destruct segs as [|y segs].
  - rewrite bool_decide_true by done. rewrite (strlcpy_fits 64 (cstr "/") [slash] eq_refl eq_refl). cbn [mbind option_bind].
    rewrite strlen_cval, (cval_padded 64 [slash]) by (done || by repeat constructor). cbn [mbind option_bind fmap option_fmap option_map fe_name].
    change (u64 (64 - lenZ [slash])) with (64 - lenZ [slash]). rewrite (strlcpy_padded 64 [slash] _ x Hcx) by done.
    cbn [mbind option_bind]. rewrite take_ge; [done|]. cbn [app] in Hl. rewrite lenZ_cons in Hl. unfold lenZ in *. simpl. lia.
  - set (segs' := y :: segs) in *. rewrite bool_decide_false by (intros Hr%path_text_root; done).
    set (dir := path_text segs') in *. rewrite lenZ_app, lenZ_cons in Hl. pose proof (lenZ_nonneg dir) as H0d.
    rewrite (strlcpy_fits 64 _ dir Hp) by lia. cbn [mbind option_bind].
    rewrite strlen_cval, cval_padded by (done || lia). cbn [mbind option_bind fmap option_fmap option_map].
    rewrite u64_small by lia. rewrite (proj2 (Z.leb_gt _ _)) by lia.
    assert (H1 : padded 64 dir = dir ++ 0 :: 0 :: zeroes (62 - lenZ dir)).
    { unfold padded, zeroes. replace (Z.to_nat (64 - lenZ dir)) with (S (S (Z.to_nat (62 - lenZ dir)))) by lia. done. }
    rewrite H1, wr_app. cbn [mbind option_bind].
    replace (dir ++ ch "/" :: 0 :: zeroes (62 - lenZ dir)) with ((dir ++ [slash]) ++ 0 :: zeroes (62 - lenZ dir)) by (by rewrite <- app_assoc).
    replace (lenZ dir + 1) with (lenZ (dir ++ [slash])) by (by rewrite lenZ_app). rewrite wr_app. cbn [mbind option_bind].
    replace ((dir ++ [slash]) ++ 0 :: zeroes (62 - lenZ dir)) with (padded 64 (dir ++ [slash])).
    2:{ unfold padded. f_equal. rewrite lenZ_app. change (lenZ [slash]) with 1. unfold zeroes.
        replace (Z.to_nat (64 - (lenZ dir + 1))) with (S (Z.to_nat (62 - lenZ dir))) by lia. done. }
    assert (Hd1 : lenZ (dir ++ [slash]) = lenZ dir + 1) by (by rewrite lenZ_app). cbn [fe_name].
    rewrite u64_small by lia. rewrite (strlcpy_padded 64 (dir ++ [slash]) _ x Hcx); [|apply no_nul_app; split; [done|]; by repeat constructor|lia].
    cbn [mbind option_bind]. rewrite take_ge by (unfold lenZ in *; lia). by rewrite <- app_assoc.
Qed.

Lemma parent_scan_run (a x r : list Z) k fuel :
  no_slash x -> (k <= length x)%nat -> (k < fuel)%nat ->
  parent_scan fuel (a ++ slash :: x ++ r) (lenZ a + 1 + Z.of_nat k) = Some (lenZ a + 1).
Proof.
  intros Hx. revert fuel. induction k as [|k IH]; intros [|fuel] Hk Hf; try lia; pose proof (lenZ_nonneg a); cbn [parent_scan].
  all: rewrite (proj2 (Z.ltb_lt _ _)) by lia.
  - replace (lenZ a + 1 + Z.of_nat 0 - 1) with (lenZ a) by lia. rewrite rd_at. cbn [mbind option_bind].
    change (slash =? ch "/") with true. cbn iota. f_equal. lia.
  - destruct (lookup_lt_is_Some_2 x k) as [c Hc]; [lia|].
    assert (Hr : rd (a ++ slash :: x ++ r) (lenZ a + 1 + Z.of_nat (S k) - 1) = Some c).
    { replace (lenZ a + 1 + Z.of_nat (S k) - 1) with (Z.of_nat (length (a ++ [slash]) + k)) by (rewrite length_app; unfold lenZ; simpl; lia).
      rewrite rd_nat. replace (a ++ slash :: x ++ r) with ((a ++ [slash]) ++ x ++ r) by (by rewrite <- app_assoc).
      rewrite lookup_app_r by lia. rewrite lookup_app_l by lia. rewrite <- Hc. f_equal. lia. }
    rewrite Hr. cbn [mbind option_bind]. change (ch "/") with slash.
    rewrite (proj2 (Z.eqb_neq c slash)) by exact (proj1 (Forall_lookup _ _) Hx k c Hc).
    replace (lenZ a + 1 + Z.of_nat (S k) - 1) with (lenZ a + 1 + Z.of_nat k) by lia. apply IH; lia.
Qed.

Lemma parent_path_run path segs x :
  lenZ path = FILES_PATH_MAX -> cval path = Some (path_text (segs ++ [x])) -> Forall segment_ok (segs ++ [x]) ->
  exists b, parent_path path = Some (Some b) /\ lenZ b = FILES_PATH_MAX /\ cval b = Some (path_text segs).
Proof.
  intros Hl Hp Hs. unfold parent_path.
  destruct (strcmp_eqb _ (cstr "/") _ [slash] Hp eq_refl) as (z & -> & Hz). cbn [mbind option_bind]. rewrite Hz.
  rewrite bool_decide_false by (intros Hr%path_text_root; [by destruct segs|done]).
  rewrite strlen_cval, Hp. cbn [mbind option_bind fmap option_fmap option_map].
  apply cval_inv in Hp as [Hnn [r Hp]]. rewrite path_text_snoc in *. apply Forall_app in Hs as [Hs Hx].
  apply Forall_inv in Hx as [Hx _]. set (a := match segs with [] => [] | _ => path_text segs end) in *.
  pose proof (lenZ_nonneg a). pose proof (lenZ_nonneg x). rewrite Hp, <- app_assoc. cbn [app].
  rewrite lenZ_app, lenZ_cons. replace (lenZ a + (lenZ x + 1)) with (lenZ a + 1 + Z.of_nat (length x)) by (unfold lenZ; lia).
  rewrite parent_scan_run by (done || lia). cbn [mbind option_bind].
  destruct segs as [|y segs].
  - change a with ([] : list Z). change (lenZ [] + 1 <=? 1) with true. cbn iota.
    replace ([] ++ slash :: x ++ 0 :: r) with path by done.
    destruct (strlcpy_over FILES_PATH_MAX path (cstr "/") [slash] eq_refl Hl eq_refl) as (b & -> & Hb & Hcb).
    by exists b.
  - destruct (path_text_nonempty (y :: segs)) as [q Hq]. assert (1 <= lenZ a) by (unfold a; rewrite Hq, lenZ_cons; pose proof (lenZ_nonneg q); lia).
    rewrite (proj2 (Z.leb_gt _ _)) by lia. replace (lenZ a + 1 - 1) with (lenZ a) by lia. rewrite wr_app. cbn [mbind option_bind].
    eexists. split; [reflexivity|]. split.
    + rewrite <- Hl, Hp, <- app_assoc. cbn [app]. by rewrite !lenZ_app, !lenZ_cons.
    + apply cval_app. by apply no_nul_app in Hnn as [? _].
Qed.

Lemma parent_path_root path : cval path = Some [slash] -> parent_path path = Some None.
Proof.
  intros Hp. unfold parent_path. destruct (strcmp_eqb _ (cstr "/") _ [slash] Hp eq_refl) as (z & -> & Hz).
  cbn [mbind option_bind]. by rewrite Hz, bool_decide_true.
Qed.

(** ** The abstract file manager *)

(** The stack of names and the position in the listing. *)
Record browser : Type := Browser { at_dir : list (list Z); position : nat }.

Section specification.
Context {X : Type} `{DiskDriver X}.
Implicit Types v : vfs X.

(** What a directory shows. *)
Definition entries_at v (segs : list (list Z)) : list (list Z * Z * Z) :=
  match directory_at v (path_text segs) with
  | Some dir => listing dir (mounted_files (vfs_tinyfs v)) []
  | None => []
  end.
Definition is_folder (entry : list Z * Z * Z) : bool := negb (Z.land entry.2 VFS_FILE_FLAG_DIRECTORY =? 0).
Definition chosen v (b : browser) : option (list Z * Z * Z) := entries_at v (at_dir b) !! position b.

(** What a key makes of it, and the path that it opens. *)
Definition press v (key : Z) (b : browser) : browser :=
  if key =? INPUT_KEY_UP then Browser (at_dir b) (pred (position b))
  else if key =? INPUT_KEY_DOWN then
    if decide (S (position b) < length (entries_at v (at_dir b)))%nat then Browser (at_dir b) (S (position b)) else b
  else if key =? INPUT_KEY_ENTER then
    match chosen v b with
    | Some entry => if is_folder entry then Browser (at_dir b ++ [listed_name entry]) 0 else b
    | None => b
    end
  else if key =? INPUT_KEY_BACKSPACE then
    match at_dir b with [] => b | _ => Browser (removelast (at_dir b)) 0 end
  else b.
Definition opens v (key : Z) (b : browser) : option (list Z) :=
  if key =? INPUT_KEY_ENTER then
    match chosen v b with
    | Some entry => if is_folder entry then None else Some (path_text (at_dir b ++ [listed_name entry]))
    | None => None
    end
  else None.
Fixpoint browse v (keys : list Z) (b : browser) : browser * list (list Z) :=
  match keys with
  | [] => (b, [])
  | key :: keys' => let (b', paths) := browse v keys' (press v key b) in (b', option_list (opens v key b) ++ paths)
  end.

(** The names that an image builder gives: pieces that are not empty and fit the
    rows, in paths that fit with a slash before them. *)
Definition browsable v : Prop :=
  Forall (fun f => lenZ f + 1 < FILES_PATH_MAX /\ Forall (fun x => x <> [] /\ file_name_short x) (split_path f)) (names v).

Lemma entries_at_same v v' segs :
  mounted_files (vfs_tinyfs v') = mounted_files (vfs_tinyfs v) -> entries_at v' segs = entries_at v segs.
Proof. intros Hs. unfold entries_at, directory_at, is_directory, names. by rewrite Hs. Qed.
Lemma browsable_same v v' : mounted_files (vfs_tinyfs v') = mounted_files (vfs_tinyfs v) -> browsable v -> browsable v'.
Proof. intros Hs. unfold browsable, names. by rewrite Hs. Qed.
Lemma browse_same v v' keys b :
  mounted_files (vfs_tinyfs v') = mounted_files (vfs_tinyfs v) -> browse v' keys b = browse v keys b.
Proof.
  intros Hs. revert b. induction keys as [|key keys IH]; intros b; [done|]. cbn [browse].
  assert (Hp : press v' key b = press v key b) by (unfold press, chosen; by rewrite (entries_at_same v v')).
  assert (Ho : opens v' key b = opens v key b) by (unfold opens, chosen; by rewrite (entries_at_same v v')).
  by rewrite Hp, Ho, IH.
Qed.

(** An entry of a listing is a piece of the name of a file below the directory. *)
Lemma listing_child dir es seen entry :
  entry ∈ listing dir es seen -> exists e b, e ∈ es /\ child_of dir (entry_name e) = Some (listed_name entry, b).
Proof.
  revert seen. induction es as [|e es IH]; intros seen; cbn [listing]; [by intros ?%elem_of_nil|].
  unfold new_child. destruct (child_of dir (entry_name e)) as [[x b]|] eqn:Hc.
  2:{ intros (e' & b & He & Hb)%IH. exists e', b. split; [by right|done]. }
  destruct (decide (x ∈ seen)).
  - intros (e' & b' & He & Hb)%IH. exists e', b'. split; [by right|done].
  - intros [->|(e' & b' & He & Hb)%IH]%elem_of_cons; [exists e, b; split; [by left|done]|exists e', b'; split; [by right|done]].
Qed.
Lemma length_listing dir es seen : (length (listing dir es seen) <= length es)%nat.
Proof.
  revert seen. induction es as [|e es IH]; intros seen; cbn [listing length]; [lia|].
  destruct (new_child dir (entry_name e) seen) as [[x b]|]; cbn [length].
  - specialize (IH (seen ++ [x])). lia.
  - specialize (IH seen). lia.
Qed.

(** The first piece of what is left of a name is one of its pieces, and shorter
    than it. *)
Lemma piece_in g x b : piece_of g = Some (x, b) -> x ∈ split_path g /\ lenZ x <= lenZ g.
Proof.
  intros Hp. assert (Hx : exists r, split_path g = x :: r).
  { destruct g as [|c g]; [done|]. unfold piece_of in Hp. destruct (split_path (c :: g)) as [|y [|z r]]; [done|by injection Hp as -> _; eexists|by injection Hp as -> _; eexists]. }
  destruct Hx as [r Hx]. rewrite Hx. split; [by left|]. clear Hp. revert x r Hx.
  induction g as [|c g IH]; intros x r; cbn [split_path]; [by intros [= <- _]|].
  destruct (c =? slash); [intros [= <- _]; apply lenZ_nonneg|].
  destruct (split_path g) as [|y q] eqn:Hg; [by apply split_path_nonempty in Hg|]. intros [= <- <-].
  rewrite !lenZ_cons. specialize (IH y q eq_refl). lia.
Qed.
Lemma child_piece dir f x b :
  child_of dir f = Some (x, b) -> x ∈ split_path f /\ lenZ x + (match dir with [] => 0 | _ => lenZ dir + 1 end) <= lenZ f.
Proof.
  unfold child_of, below. destruct dir as [|c dir'].
  { cbn [mbind option_bind]. intros [? ?]%piece_in. split; [done|lia]. }
  set (dir := c :: dir'). destruct (decide _) as [[Ht Hs]|]; cbn [mbind option_bind]; [|done].
  intros [Hx Hl]%piece_in. pose proof (drop_S _ _ _ Hs) as Hd.
  assert (Hf : f = dir ++ slash :: drop (S (length dir)) f) by (rewrite <- (take_drop (length dir) f), Ht, Hd at 1; done).
  split.
  - rewrite Hf, split_path_app. apply elem_of_app. by right.
  - rewrite Hf at 1. rewrite lenZ_app, lenZ_cons. lia.
Qed.
End specification.

Section fits.
Context {X : Type} `{DiskDriver X}.
Implicit Types v : vfs X.

Lemma lenZ_path_text segs : Forall segment_ok segs -> segs <> [] -> lenZ (path_text segs) = lenZ (join_path segs) + 1.
Proof.
  intros Hs. induction segs as [|x segs IH] using rev_ind; [done|]. intros _. apply Forall_app in Hs as [Hs Hx%Forall_inv].
  rewrite path_text_snoc. unfold join_path in *. rewrite foldl_snoc, extend_path_length, lenZ_app, lenZ_cons. destruct segs as [|y segs].
  - change (lenZ []) with 0. change (lenZ (foldl extend_path [] [])) with 0. simpl. lia.
  - rewrite IH by done. destruct (Z.eqb_spec (lenZ (foldl extend_path [] (y :: segs))) 0) as [E|]; [|lia]. exfalso.
    apply Forall_inv in Hs as [_ Hy]. pose proof (join_path_grows segs y) as Hg. simpl in E. destruct y; [done|].
    rewrite lenZ_cons in Hg. pose proof (lenZ_nonneg y). lia.
Qed.

Lemma directory_join v segs dir : Forall segment_ok segs -> directory_at v (path_text segs) = Some dir -> dir = join_path segs.
Proof.
  intros Hs. unfold directory_at, normal_path. rewrite path_segments_text by done. destruct (_ || _); cbn [mbind option_bind]; [done|].
  destruct (is_directory v _); [|done]. by intros [= <-].
Qed.

Lemma entry_fits v segs entry :
  browsable v -> Forall segment_ok segs -> entry ∈ entries_at v segs ->
  segment_ok (listed_name entry) /\ file_name_short (listed_name entry) /\ lenZ (path_text (segs ++ [listed_name entry])) < FILES_PATH_MAX.
Proof.
  intros Hb Hs Hin. unfold entries_at in Hin. destruct (directory_at v (path_text segs)) as [dir|] eqn:Hd; [|by apply elem_of_nil in Hin].
  apply (directory_join v segs dir Hs) in Hd as ->. apply listing_child in Hin as (e & b & He & Hc). set (x := listed_name entry) in *.
  assert (Hf : entry_name e ∈ names v) by (unfold names; apply list_elem_of_fmap; by exists e).
  destruct (proj1 (Forall_forall _ _) Hb _ Hf) as [Hl Hp]. apply child_piece in Hc as [Hx Hlen].
  destruct (proj1 (Forall_forall _ _) Hp _ Hx) as [Hne Hsh]. pose proof (proj1 (Forall_forall _ _) (split_path_no_slash _) _ Hx) as Hns.
  split; [by split|]. split; [done|]. rewrite path_text_snoc, lenZ_app, lenZ_cons. destruct segs as [|y segs].
  - change (lenZ []) with 0. simpl in Hlen. lia.
  - assert (Hj : lenZ (join_path (y :: segs)) = lenZ (path_text (y :: segs)) - 1) by (rewrite (lenZ_path_text (y :: segs)) by done; lia).
    destruct (join_path (y :: segs)) eqn:E; [|lia]. exfalso. pose proof (join_path_grows segs y) as Hg.
    change (foldl extend_path y segs) with (join_path (y :: segs)) in Hg. rewrite E in Hg.
    apply Forall_inv in Hs as [_ Hy]. destruct y; [done|]. rewrite lenZ_cons in Hg. change (lenZ []) with 0 in Hg. pose proof (lenZ_nonneg y). lia.
Qed.

Lemma length_entries_at v p d segs : root_mounted v p d -> (length (entries_at v segs) <= 16)%nat.
Proof.
  intros [Hm _ _]. unfold entries_at. destruct (directory_at v (path_text segs)) as [dir|]; [|simpl; lia].
  etransitivity; [apply length_listing|]. rewrite (length_mounted_files _ _ _ Hm). pose proof (mt_count _ _ _ Hm) as Hc.
  unfold TINYFS_MAX_FILES in Hc. lia.
Qed.
End fits.

(** ** The states *)

(** What the file manager relies on in the rest of the system: the root file
    system is one of its parts and stays mounted, and opening a file leaves its
    files as they are. *)
Class FilesHostLaws (X D : Type) `{FilesHost X D} `{DiskDriver X} := {
  host_ok : D -> Prop;
  host_vfs_set v d : host_vfs (set_host_vfs v d) = v;
  set_host_vfs_get d : set_host_vfs (host_vfs d) d = d;
  host_mounted d : host_ok d -> exists p dev, root_mounted (host_vfs d) p dev;
  open_file_returns d buffer t : host_ok d -> cval buffer = Some t ->
    exists r d' o, desktop_open_file (Some buffer) d = Ret r d' o /\ host_ok d' /\
      mounted_files (vfs_tinyfs (host_vfs d')) = mounted_files (vfs_tinyfs (host_vfs d))
}.

Definition entry_of (entry : list Z * Z * Z) : files_entry := FilesEntry (entry_mem entry.1.1) entry.1.2 entry.2.
Definition with_entries (xs : list (list Z * Z * Z)) (f : files_app_state) : files_app_state :=
  set_entry_count (lenZ xs) (set_fa_entries (map entry_of xs ++ drop (length xs) zero_entries) f).

Lemma collect_entry_run xs f row x size flags :
  (length xs < 32)%nat -> cval row = Some x ->
  files_app_collect_entry row size flags (with_entries xs f) = Ret 0 (with_entries (xs ++ [(x, size, flags)]) f) [].
Proof.
  intros Hl Hx. unfold files_app_collect_entry. rewrite bind_gets. unfold with_entries at 1. cbn [entry_count set_entry_count set_fa_entries].
  unfold FILES_MAX_ENTRIES. rewrite (proj2 (Z.leb_gt _ _)) by (unfold lenZ; lia). rewrite bind_modify.
  erewrite bind_deref_Some by exact (strlcpy_zeroes FILES_ENTRY_NAME_MAX row x Hx eq_refl).
  rewrite bind_gets. cbn [with_entries set_entry_count set_fa_entries fa_entries fst snd].
  assert (Hd : drop (length xs) zero_entries = zero_entry :: drop (S (length xs)) zero_entries).
  { apply drop_S. unfold zero_entries. apply lookup_replicate. split; [done|]. unfold FILES_MAX_ENTRIES. lia. }
  pose proof (wr_app (map entry_of xs) (drop (S (length xs)) zero_entries) zero_entry (entry_of (x, size, flags))) as Hw.
  replace (lenZ (map entry_of xs)) with (lenZ xs) in Hw by (unfold lenZ; by rewrite length_map). rewrite <- Hd in Hw.
  erewrite bind_deref_Some by exact Hw. rewrite bind_modify. unfold ret. f_equal. unfold with_entries.
  unfold set_entry_count, set_fa_entries. cbn [fa_path fa_status fa_entries entry_count selected_index scroll_offset fa_active].
  rewrite (u32_small (lenZ xs + 1)) by (unfold lenZ; lia). rewrite map_app, length_app, lenZ_app. cbn [map length].
  rewrite <- app_assoc. f_equal. cbn [app]. do 3 f_equal. lia.
Qed.

Section states.
Context {X D : Type} `{FilesHostLaws X D} (local64 : mem) (local_seen : list mem).
Context (local64_len : lenZ local64 = VFS_PATH_MAX) (local_seen_rows : Vfs.rows local_seen []).
Implicit Types s : files_apps D.

(** The state of one window replaced. *)
Definition put (st : Z) (f : files_app_state) s : files_apps D := set_files_states (<[Z.to_nat st := f]> (files_states s)) s.

Lemma rd_put st f f0 s : rd (files_states s) st = Some f0 -> rd (files_states (put st f s)) st = Some f.
Proof.
  intros Hr. pose proof (rd_inv _ _ _ Hr) as Hb. unfold put. cbn [files_states set_files_states].
  unfold lenZ in Hb. rewrite <- (Z2Nat.id st) at 2 by lia. rewrite rd_nat. apply list_lookup_insert_eq. lia.
Qed.
Lemma files_put_put st f g s : put st g (put st f s) = put st g s.
Proof. unfold put, set_files_states. cbn [files_states fa_host]. by rewrite list_insert_insert_eq. Qed.
Lemma files_put_same st f s : rd (files_states s) st = Some f -> put st f s = s.
Proof.
  intros Hr. pose proof (rd_inv _ _ _ Hr) as Hb. unfold put, set_files_states. rewrite list_insert_id; [by destruct s|].
  rewrite <- rd_nat, Z2Nat.id by lia. done.
Qed.
Lemma files_on_state_run {B} st f s (m : M files_app_state B) b f1 o :
  rd (files_states s) st = Some f -> m f = Ret b f1 o -> on_state st m s = Ret b (put st f1 s) o.
Proof. intros Hr Hm. unfold on_state. rewrite Hr, Hm, wr_Some by exact (rd_inv _ _ _ Hr). done. Qed.
Lemma read_state_run st f s : rd (files_states s) st = Some f -> forall B (g : files_app_state -> B), on_state st (gets g) s = Ret (g f) s [].
Proof. intros Hr B g. erewrite (files_on_state_run st f s (gets g)) by done. by rewrite (files_put_same st f s Hr). Qed.
Lemma on_listing_run {B} st f s (m : M (vfs X * files_app_state) B) b f1 o :
  rd (files_states s) st = Some f -> m (host_vfs (fa_host s), f) = Ret b (host_vfs (fa_host s), f1) o -> on_listing st m s = Ret b (put st f1 s) o.
Proof using H0 H1.
  intros Hr Hm. unfold on_listing. rewrite Hr, Hm. cbn [fst snd]. rewrite wr_Some by exact (rd_inv _ _ _ Hr).
  cbn [mbind option_bind]. rewrite set_host_vfs_get. unfold put, set_files_states. done.
Qed.

Lemma files_set_status_run st f s (t : string) l :
  rd (files_states s) st = Some f -> lenZ (fa_status f) = FILES_PATH_MAX -> cval (cstr t) = Some l -> lenZ l < FILES_PATH_MAX ->
  exists b, set_status st t s = Ret tt (put st (set_fa_status b f) s) [] /\ lenZ b = FILES_PATH_MAX /\ cval b = Some l.
Proof.
  intros Hr Hs Ht Hl. destruct (strlcpy_over FILES_PATH_MAX (fa_status f) (cstr t) l Ht Hs Hl) as (b & Hc & Hb & Hv).
  exists b. split; [|done]. unfold set_status. apply (files_on_state_run st f s); [done|]. unfold files_app_set_status.
  rewrite bind_gets. by erewrite bind_deref_Some by exact Hc.
Qed.

(** The state after a refresh: the entries of its directory, from the top. *)
Definition refreshed (status : mem) (xs : list (list Z * Z * Z)) (f : files_app_state) : files_app_state :=
  set_fa_status status (with_entries xs (set_selected_index 0 (set_scroll_offset 0 f))).

Lemma files_refresh_run st f s t p dev :
  rd (files_states s) st = Some f -> root_mounted (host_vfs (fa_host s)) p dev -> cval (fa_path f) = Some t -> lenZ t < 2 ^ 31 ->
  lenZ (fa_status f) = FILES_PATH_MAX ->
  let xs := match directory_at (host_vfs (fa_host s)) t with
            | Some dir => listing dir (mounted_files (vfs_tinyfs (host_vfs (fa_host s)))) []
            | None => [] end in
  exists b, files_app_refresh local64 local_seen (Some st) s = Ret tt (put st (refreshed b xs f) s) [] /\ lenZ b = FILES_PATH_MAX /\ is_Some (cval b).
Proof using H0 H1 local64_len local_seen_rows.
  intros Hr Hrm Ht Hl Hstat xs. unfold files_app_refresh.
  set (f0 := with_entries [] (set_selected_index 0 (set_scroll_offset 0 f))).
  assert (E0 : on_state st (modify (set_fa_entries zero_entries);; modify (set_entry_count 0);; modify (set_selected_index 0);; modify (set_scroll_offset 0)) s
    = Ret tt (put st f0 s) []) by (apply (files_on_state_run st f s); done).
  rewrite (bind_Ret_nil _ _ _ _ _ E0). set (s0 := put st f0 s). pose proof (rd_put st f0 f s Hr) as Hr0. fold s0 in Hr0.
  rewrite (bind_Ret_nil _ _ _ _ _ (read_state_run st f0 s0 Hr0 _ fa_path)). change (fa_path f0) with (fa_path f).
  set (v := host_vfs (fa_host s)) in *.
  assert (Hcall : forall ys c o row x size flags, (c = with_entries ys f0 /\ o = []) -> lenZ ys < TINYFS_MAX_FILES -> cval row = Some x -> lenZ x < VFS_PATH_MAX ->
    exists c' o', files_app_collect_entry row size flags c = Ret 0 c' o' /\ (c' = with_entries (ys ++ [(x, size, flags)]) f0 /\ o ++ o' = [])).
  { intros ys c o row x size flags [-> ->] Hn Hx _. eexists _, []. split; [apply collect_entry_run; [|exact Hx]|done].
    unfold TINYFS_MAX_FILES, lenZ in Hn. lia. }
  pose proof (vfs_list_entries_rule local64 local_seen local64_len local_seen_rows v p dev (fa_path f) t files_app_collect_entry _ f0 Hrm Ht Hl
    (conj (eq_refl : f0 = with_entries [] f0) eq_refl) Hcall) as Hrule. clear Hcall.
  unfold xs. clear xs. destruct (directory_at v t) as [dir|].
  - destruct Hrule as (c' & o & E & -> & ->). set (xs := listing dir (mounted_files (vfs_tinyfs v)) []) in *.
    rewrite (bind_Ret_nil _ _ _ _ _ (on_listing_run st f0 s0 _ _ _ _ Hr0 E)). change (negb (0 =? 0)) with false. cbn iota.
    unfold s0. rewrite files_put_put. pose proof (rd_put st (with_entries xs f0) f s Hr) as Hr1.
    rewrite (bind_Ret_nil _ _ _ _ _ (read_state_run st _ _ Hr1 _ entry_count)).
    assert (Hset : forall (t : string) l, cval (cstr t) = Some l -> lenZ l < FILES_PATH_MAX ->
      exists b, set_status st t (put st (with_entries xs f0) s) = Ret tt (put st (refreshed b xs f) s) [] /\ lenZ b = FILES_PATH_MAX /\ is_Some (cval b)).
    { intros w l Hw Hwl. destruct (files_set_status_run st _ _ w l Hr1 Hstat Hw Hwl) as (b & -> & Hb & Hc). exists b. rewrite files_put_put. by split; [|rewrite Hc]. }
    destruct (entry_count (with_entries xs f0) =? 0); [exact (Hset "empty directory" _ eq_refl eq_refl)|exact (Hset "read only" _ eq_refl eq_refl)].
  - rewrite (bind_Ret_nil _ _ _ _ _ (on_listing_run st f0 s0 _ _ _ _ Hr0 Hrule)). change (negb (-1 =? 0)) with true. cbn iota.
    unfold s0. rewrite files_put_put.
    destruct (files_set_status_run st f0 _ "list failed" _ (rd_put st f0 f s Hr) Hstat eq_refl eq_refl) as (b & -> & Hb & Hc).
    exists b. rewrite files_put_put. by split; [|rewrite Hc].
Qed.
End states.

(** ** The refinement *)

Record shows {X} `{DiskDriver X} (v : vfs X) (f : files_app_state) (b : browser) : Prop := {
  sw_names : Forall segment_ok (at_dir b) /\ Forall no_nul (at_dir b);
  sw_path : lenZ (fa_path f) = FILES_PATH_MAX /\ cval (fa_path f) = Some (path_text (at_dir b));
  sw_status : lenZ (fa_status f) = FILES_PATH_MAX;
  sw_entries : fa_entries f = map entry_of (entries_at v (at_dir b)) ++ drop (length (entries_at v (at_dir b))) zero_entries;
  sw_count : entry_count f = lenZ (entries_at v (at_dir b));
  sw_position : selected_index f = Z.of_nat (position b);
  sw_inside : (position b < Nat.max 1 (length (entries_at v (at_dir b))))%nat;
  sw_scroll : 0 <= scroll_offset f <= 16
}.
(** Where rows are drawn, the selected one is among them. *)
Definition in_view (rows : Z) (f : files_app_state) : Prop :=
  0 < rows -> scroll_offset f <= selected_index f < scroll_offset f + rows.

Lemma ensure_visible_run rows f :
  0 <= rows < 2 ^ 31 -> 0 <= selected_index f <= 16 -> 0 <= scroll_offset f <= 16 ->
  exists k, files_app_ensure_selection_visible rows f = Ret tt (set_scroll_offset k f) [] /\ 0 <= k <= 16 /\ in_view rows (set_scroll_offset k f).
Proof.
  intros Hr Hs Hk. unfold files_app_ensure_selection_visible, in_view.
  assert (Hsame : set_scroll_offset (scroll_offset f) f = f) by (by destruct f).
  destruct (Z.eqb_spec rows 0) as [->|Hne].
  { exists (scroll_offset f). rewrite Hsame. split_and!; [done|lia..]. }
  rewrite bind_gets. destruct (Z.ltb_spec (selected_index f) (scroll_offset f)).
  { exists (selected_index f). split_and!; [done|lia..|]. cbn [scroll_offset selected_index set_scroll_offset]. lia. }
  rewrite u32_small by lia. destruct (Z.leb_spec (scroll_offset f + rows) (selected_index f)).
  - exists (selected_index f - rows + 1). rewrite (u32_small (selected_index f - rows)), u32_small by lia. split_and!; [done|lia..|].
    cbn [scroll_offset selected_index set_scroll_offset]. lia.
  - exists (scroll_offset f). rewrite Hsame. split_and!; [done|lia..].
Qed.

Section refinement.
Context {X D : Type} `{FilesHostLaws X D} (local64 : mem) (local_seen : list mem).
Context (local64_len : lenZ local64 = VFS_PATH_MAX) (local_seen_rows : Vfs.rows local_seen []).
Context (v : vfs X) (Hbrowsable : browsable v) (rows : Z) (Hrows : 0 <= rows < 2 ^ 31).
Implicit Types s : files_apps D.

Definition same_names (d : D) : Prop := mounted_files (vfs_tinyfs (host_vfs d)) = mounted_files (vfs_tinyfs v).

(** A window of the file manager that shows [b]. *)
Record showing s (st : Z) (b : browser) : Prop := {
  sg_host : host_ok (fa_host s);
  sg_names : same_names (fa_host s);
  sg_state : exists f, rd (files_states s) st = Some f /\ shows v f b /\ in_view rows f
}.
Definition others_same s s' (st : Z) : Prop := forall st', st' <> st -> rd (files_states s') st' = rd (files_states s) st'.

Lemma others_put st f s : 0 <= st -> others_same s (put st f s) st.
Proof.
  intros Hst st' Hne. unfold put. cbn [files_states set_files_states]. unfold rd. destruct (Z.leb_spec 0 st'); [|done].
  apply list_lookup_insert_ne. lia.
Qed.

(** The rest of the system after a file was opened. *)
Definition host_opened (d : D) (path : list Z) : D :=
  match desktop_open_file (Some (padded FILES_PATH_MAX path)) d with Ret _ d' _ => d' | _ => d end.

(** What a step ends in. *)
Definition stepped s (st : Z) (b : browser) (paths : list (list Z)) (r : res (files_apps D) unit) : Prop :=
  exists s' o, r = Ret tt s' o /\ showing s' st b /\ fa_host s' = foldl host_opened (fa_host s) paths /\ others_same s s' st.

Lemma stepped_put s st b f :
  0 <= st -> host_ok (fa_host s) -> same_names (fa_host s) -> is_Some (rd (files_states s) st) ->
  shows v f b -> in_view rows f -> stepped s st b [] (Ret tt (put st f s) []).
Proof.
  intros Hst Hok Hn [f0 Hr] Hsh Hv. exists (put st f s), []. split; [done|]. split; [|split; [done|by apply others_put]].
  split; [done|done|]. exists f. split; [by eapply rd_put|done].
Qed.

(** Showing another directory. *)
Lemma show_directory s st f segs :
  0 <= st -> host_ok (fa_host s) -> same_names (fa_host s) -> rd (files_states s) st = Some f ->
  Forall segment_ok segs -> Forall no_nul segs -> lenZ (fa_path f) = FILES_PATH_MAX -> cval (fa_path f) = Some (path_text segs) ->
  lenZ (fa_status f) = FILES_PATH_MAX ->
  stepped s st (Browser segs 0) [] (files_app_refresh local64 local_seen (Some st) s).
Proof using H0 H1 Hrows local64_len local_seen_rows.
  intros Hst Hok Hn Hr Hs Hnn Hpl Hp Hstat. destruct (host_mounted _ Hok) as (p & dev & Hrm).
  assert (Hl : lenZ (path_text segs) < 2 ^ 31).
  { apply cval_inv in Hp as [_ [r Hp]]. rewrite Hp, lenZ_app, lenZ_cons in Hpl. unfold FILES_PATH_MAX in Hpl. pose proof (lenZ_nonneg r). lia. }
  destruct (files_refresh_run local64 local_seen local64_len local_seen_rows st f s (path_text segs) p dev Hr Hrm Hp Hl Hstat) as (b & -> & Hb & _).
  fold (entries_at (host_vfs (fa_host s)) segs). rewrite (entries_at_same v (host_vfs (fa_host s)) segs Hn).
  apply stepped_put; [done|done|done|by rewrite Hr| |].
  - split; try done; cbn [position at_dir]; lia.
  - unfold in_view. cbn. lia.
Qed.

(** Up and down. *)
Lemma move_run s st f b n :
  0 <= st -> host_ok (fa_host s) -> same_names (fa_host s) -> rd (files_states s) st = Some f -> shows v f b ->
  (n < Nat.max 1 (length (entries_at v (at_dir b))))%nat ->
  stepped s st (Browser (at_dir b) n) []
    (on_state st (modify (set_selected_index (Z.of_nat n));; files_app_ensure_selection_visible rows) s).
Proof using H0 H1 Hrows.
  intros Hst Hok Hn Hr Hsh Hlt. destruct (host_mounted _ Hok) as (p & dev & Hrm).
  pose proof (length_entries_at _ p dev (at_dir b) Hrm) as Hlen. rewrite (entries_at_same v (host_vfs (fa_host s)) (at_dir b) Hn) in Hlen.
  destruct Hsh as [Hnames Hpath Hstat Hent Hcnt Hpos Hin Hsc]. set (f1 := set_selected_index (Z.of_nat n) f).
  destruct (ensure_visible_run rows f1) as (k & E & Hk & Hv); [lia|cbn; lia|done|].
  assert (Em : (modify (set_selected_index (Z.of_nat n));; files_app_ensure_selection_visible rows) f = Ret tt (set_scroll_offset k f1) []) by (by rewrite bind_modify).
  rewrite (files_on_state_run st f s _ _ _ _ Hr Em). by apply stepped_put.
Qed.

Lemma stepped_same s st f b :
  0 <= st -> host_ok (fa_host s) -> same_names (fa_host s) -> rd (files_states s) st = Some f -> shows v f b -> in_view rows f ->
  stepped s st b [] (ret tt s).
Proof using H0 H1.
  intros. unfold ret. rewrite <- (files_put_same st f s) at 2 by done. by apply stepped_put.
Qed.

Lemma stepped_after s st b f paths r :
  0 <= st -> stepped (put st f s) st b paths r -> stepped s st b paths r.
Proof.
  intros Hst (s' & o & -> & Hsh & Hh & Hoth). exists s', o. split; [done|]. split; [done|]. split; [done|].
  intros st' Hne. rewrite (Hoth st' Hne). by apply others_put.
Qed.

(** Backspace. *)
Lemma parent_run s st f b :
  0 <= st -> host_ok (fa_host s) -> same_names (fa_host s) -> rd (files_states s) st = Some f -> shows v f b -> in_view rows f ->
  stepped s st (match at_dir b with [] => b | _ => Browser (removelast (at_dir b)) 0 end) []
    (files_app_go_parent local64 local_seen (Some st) s).
Proof using H0 H1 Hrows local64_len local_seen_rows.
  intros Hst Hok Hn Hr Hsh Hv. pose proof Hsh as [[Hsg Hnn] [Hpl Hp] Hstat _ _ _ _ _]. unfold files_app_go_parent.
  rewrite (bind_Ret_nil _ _ _ _ _ (read_state_run st f s Hr _ fa_path)).
  destruct (at_dir b) as [|y l] eqn:Hb.
  - rewrite (bind_deref_Some _ _ _ _ (parent_path_root _ Hp)). by apply (stepped_same s st f).
  - destruct (exists_last (l := y :: l)) as (segs & x & E); [done|]. rewrite E in Hsg, Hnn, Hp |- *. rewrite removelast_last.
    destruct (segs ++ [x]) eqn:Hne; [by destruct segs|]. rewrite <- Hne in *. clear Hne.
    destruct (parent_path_run _ segs x Hpl Hp Hsg) as (p & E1 & Hl1 & Hp1). rewrite (bind_deref_Some _ _ _ _ E1).
    assert (Em : on_state st (modify (set_fa_path p)) s = Ret tt (put st (set_fa_path p f) s) []) by (by apply (files_on_state_run st f s)).
    rewrite (bind_Ret_nil _ _ _ _ _ Em). apply Forall_app in Hsg as [Hsg _]. apply Forall_app in Hnn as [Hnn _].
    apply (stepped_after s st _ (set_fa_path p f)); [done|]. apply (show_directory _ st (set_fa_path p f)); try done. by eapply rd_put.
Qed.

Lemma chosen_entry s f b entry :
  host_ok (fa_host s) -> shows v f b -> chosen v b = Some entry -> rd (fa_entries f) (selected_index f) = Some (entry_of entry).
Proof.
  intros _ [_ _ _ He _ Hp _ _] Hc. rewrite He, Hp, rd_nat. apply lookup_app_l_Some. unfold chosen in Hc.
  change (map entry_of) with (fmap (M := list) entry_of). by rewrite list_lookup_fmap, Hc.
Qed.

(** Enter. *)
Lemma files_open_run s st f b (child_path : mem) :
  0 <= st -> host_ok (fa_host s) -> same_names (fa_host s) -> rd (files_states s) st = Some f -> shows v f b -> in_view rows f ->
  lenZ child_path = FILES_PATH_MAX ->
  stepped s st (match chosen v b with Some entry => if is_folder entry then Browser (at_dir b ++ [listed_name entry]) 0 else b | None => b end)
    (match chosen v b with Some entry => if is_folder entry then [] else [path_text (at_dir b ++ [listed_name entry])] | None => [] end)
    (files_app_open_selected local64 local_seen child_path (Some st) s).
Proof using H0 H1 Hbrowsable Hrows local64_len local_seen_rows.
  intros Hst Hok Hn Hr Hsh Hv Hcl. pose proof Hsh as [[Hsg Hnn] [Hpl Hp] Hstat He Hcnt Hpos Hin Hsc]. unfold files_app_open_selected.
  rewrite (bind_Ret_nil _ _ _ _ _ (read_state_run st f s Hr _ (fun t => t))). rewrite Hcnt, Hpos.
  destruct (chosen v b) as [entry|] eqn:Hc.
  2:{ unfold chosen in Hc. apply lookup_ge_None in Hc. assert (E : (lenZ (entries_at v (at_dir b)) <=? Z.of_nat (position b)) = true) by (apply Z.leb_le; unfold lenZ; lia).
      rewrite E, orb_true_r. by apply (stepped_same s st f). }
  pose proof (lookup_lt_Some _ _ _ Hc) as Hlt.
  rewrite (proj2 (Z.eqb_neq (lenZ _) 0)) by (unfold lenZ; lia). rewrite (proj2 (Z.leb_gt (lenZ _) _)) by (unfold lenZ; lia). cbn [orb].
  pose proof (chosen_entry s f b entry Hok Hsh Hc) as Hrd. rewrite Hpos in Hrd. rewrite (bind_deref_Some _ _ _ _ Hrd).
  destruct (entry_fits v (at_dir b) entry Hbrowsable Hsg) as (Hseg & Hshort & Hfit); [by eapply list_elem_of_lookup_2|].
  pose proof (build_child_path_run f (at_dir b) (listed_name entry) entry.1.2 entry.2 child_path Hp Hsg Hnn Hshort (proj2 Hseg) Hcl Hfit) as Hbuild.
  change (FilesEntry (entry_mem (listed_name entry)) entry.1.2 entry.2) with (entry_of entry) in Hbuild.
  rewrite (bind_deref_Some _ _ _ _ Hbuild). change (negb (0 =? 0)) with false. cbn iota. change (fe_flags (entry_of entry)) with entry.2.
  fold (is_folder entry). set (t := path_text (at_dir b ++ [listed_name entry])) in *.
  assert (Hnn1 : Forall no_nul (at_dir b ++ [listed_name entry])) by (apply Forall_app; split; [done|]; constructor; [apply Hshort|constructor]).
  assert (Hct : cval (padded FILES_PATH_MAX t) = Some t) by (apply cval_padded; [by apply no_nul_path|done]).
  destruct (is_folder entry).
  - unfold files_app_set_path. destruct (path_text_nonempty (at_dir b ++ [listed_name entry])) as [q Hq]. fold t in Hq.
    assert (Hem : empty_string (padded FILES_PATH_MAX t) = Some false) by (by rewrite Hq). rewrite (bind_deref_Some _ _ _ _ Hem).
    destruct (strlcpy_over FILES_PATH_MAX (fa_path f) _ t Hct Hpl Hfit) as (pb & Hcp & Hl1 & Hp1).
    assert (Em : on_state st (old <- gets fa_path;; copied <- deref (strlcpy old 0 (padded FILES_PATH_MAX t) FILES_PATH_MAX);; modify (set_fa_path copied.1)) s
      = Ret tt (put st (set_fa_path pb f) s) []).
    { apply (files_on_state_run st f s); [done|]. rewrite bind_gets. by rewrite (bind_deref_Some _ _ _ _ Hcp). }
    rewrite (bind_Ret_nil _ _ _ _ _ Em). apply (stepped_after s st _ (set_fa_path pb f)); [done|].
    apply (show_directory _ st (set_fa_path pb f)); try done; [by eapply rd_put|].
    apply Forall_app; split; [done|]. by constructor.
  - destruct (open_file_returns (fa_host s) (padded FILES_PATH_MAX t) t Hok Hct) as (r & d' & o & Ho & Hok' & Hsame).
    unfold on_host. rewrite (bind_Ret _ _ _ _ _ _ (zoom_Ret fa_host set_fa_host _ s _ _ _ Ho)). set (s1 := set_fa_host d' s).
    assert (Hset : forall w l, cval (cstr w) = Some l -> lenZ l < FILES_PATH_MAX -> stepped s st b [t] (set_status st w s1)).
    { intros w l Hw Hwl. destruct (files_set_status_run st f s1 w l Hr Hstat Hw Hwl) as (sb & E & Hb1 & _). rewrite E.
      exists (put st (set_fa_status sb f) s1), []. split; [done|]. split; [|split].
      - split; [done|unfold same_names in *; cbn; by rewrite Hsame|]. exists (set_fa_status sb f). split; [by eapply rd_put|].
        split; [by split|done].
      - cbn [foldl]. unfold host_opened. by rewrite Ho.
      - intros st' Hne. apply (others_put st _ s1 Hst st' Hne). }
    assert (Hcase : stepped s st b [t] ((if negb (r =? 0) then set_status st "open failed" else set_status st "opened file") s1)).
    { destruct (negb (r =? 0)); [exact (Hset "open failed" _ eq_refl eq_refl)|exact (Hset "opened file" _ eq_refl eq_refl)]. }
    destruct Hcase as (s2 & o2 & E & Hrest). rewrite E. exists s2, (o ++ o2). split; [done|exact Hrest].
Qed.

Lemma press_key s st b key (child_path : mem) :
  0 <= st -> showing s st b -> lenZ child_path = FILES_PATH_MAX ->
  stepped s st (press v key b) (option_list (opens v key b)) (files_key local64 local_seen child_path st key rows s).
Proof using H0 H1 Hbrowsable Hrows local64_len local_seen_rows.
  intros Hst [Hok Hn (f & Hr & Hsh & Hv)] Hcl. pose proof Hsh as [_ _ _ _ Hcnt Hpos Hin _]. unfold files_key, press, opens.
  rewrite (bind_Ret_nil _ _ _ _ _ (read_state_run st f s Hr _ (fun t => t))). rewrite Hcnt, Hpos.
  destruct (host_mounted _ Hok) as (p & dev & Hrm). pose proof (length_entries_at _ p dev (at_dir b) Hrm) as Hlen.
  rewrite (entries_at_same v (host_vfs (fa_host s)) (at_dir b) Hn) in Hlen.
  destruct (Z.eqb_spec key INPUT_KEY_UP) as [->|]; [|destruct (Z.eqb_spec key INPUT_KEY_DOWN) as [->|]; [|destruct (Z.eqb_spec key INPUT_KEY_ENTER) as [->|]]].
  - change (option_list (opens v INPUT_KEY_UP b)) with (@nil (list Z)). destruct (Z.ltb_spec 0 (Z.of_nat (position b))).
    + rewrite u32_small by lia. replace (Z.of_nat (position b) - 1) with (Z.of_nat (pred (position b))) by lia. apply (move_run s st f b); try done. lia.
    + replace (pred (position b)) with (position b) by lia. destruct b as [dir n]. by apply (stepped_same s st f).
  - rewrite u32_small by lia. destruct (decide _) as [Hlt|Hge].
    + rewrite (proj2 (Z.ltb_lt _ _)) by (unfold lenZ; lia). replace (Z.of_nat (position b) + 1) with (Z.of_nat (S (position b))) by lia.
      apply (move_run s st f b); try done. lia.
    + rewrite (proj2 (Z.ltb_ge _ _)) by (unfold lenZ; lia). by apply (stepped_same s st f).
  - pose proof (files_open_run s st f b child_path Hst Hok Hn Hr Hsh Hv Hcl) as Ho. destruct (chosen v b) as [entry|]; [|exact Ho].
    by destruct (is_folder entry).
  - destruct (key =? INPUT_KEY_BACKSPACE).
    + by apply (parent_run s st f b).
    + by apply (stepped_same s st f).
Qed.

End refinement.

(** An event of a key that is pressed or repeats. *)
Definition key_event (event : desktop_event) (key : Z) : Prop :=
  ev_type event = DESKTOP_EVENT_KEY /\ (pressed (ev_input event) = INPUT_KEY_PRESS \/ pressed (ev_input event) = INPUT_KEY_REPEAT) /\
  data (ev_input event) = Keycode key.
(** The events of a window in turn, each with the array [child_path] that its
    handler finds on the stack. *)
Fixpoint handle_events {X D} `{FilesHostLaws X D} (local64 : mem) (local_seen : list mem) (w : desktop_window) (events : list (mem * desktop_event)) :
    M (files_apps D) unit :=
  match events with
  | [] => ret tt
  | (child_path, event) :: rest =>
      files_app_event local64 local_seen child_path (Some w) (Some event);; handle_events local64 local_seen w rest
  end.
Definition window_rows (w : desktop_window) : Z := rows_visible (desktop_window_content_height (Some w)).
Lemma window_rows_bound w : 0 <= window_rows w < 2 ^ 31.
Proof.
  unfold window_rows, rows_visible, FILES_ROW_HEIGHT. destruct (_ <? _); [|lia].
  match goal with |- context [u32 ?a / 12] => pose proof (u32_bound a) end. split; [apply Z.div_pos; lia|apply Z.div_lt_upper_bound; lia].
Qed.

(** C12. The file manager is a cursor in the tree of files. From a window that shows
    the directory of a stack of names, any sequence of keys leaves it showing the
    directory that the keys lead to, with the listing of the file system, the
    selection where the keys put it and in view; the files that were opened on the
    way are those under the cursor when Enter was pressed, by their full paths,
    in that order; other windows of the file manager are untouched. *)
Theorem files_browse_spec {X D} `{FilesHostLaws X D} (local64 : mem) (local_seen : list mem) (v : vfs X) w st b keys events (s : files_apps D) :
  lenZ local64 = VFS_PATH_MAX -> Vfs.rows local_seen [] -> browsable v -> user_data w = Some st -> 0 <= st ->
  showing v (window_rows w) s st b ->
  Forall2 (fun e key => lenZ e.1 = FILES_PATH_MAX /\ key_event e.2 key) events keys ->
  exists s' o, handle_events local64 local_seen w events s = Ret tt s' o /\
    showing v (window_rows w) s' st (browse v keys b).1 /\
    fa_host s' = foldl host_opened (fa_host s) (browse v keys b).2 /\ others_same s s' st.
Proof.
  intros Hl64 Hseen Hb Hw Hst Hsh Hev. revert s b Hsh. induction Hev as [|[child event] key events keys [Hcl (Hty & Hpr & Hd)] Hev IH]; intros s b Hsh.
  { exists s, []. cbn. done. }
  destruct (press_key local64 local_seen Hl64 Hseen v Hb (window_rows w) (window_rows_bound w) s st b key child Hst Hsh Hcl)
    as (s1 & o1 & E1 & Hsh1 & Hh1 & Hoth1).
  destruct (IH s1 (press v key b) Hsh1) as (s2 & o2 & E2 & Hsh2 & Hh2 & Hoth2).
  exists s2, (o1 ++ o2). cbn [handle_events browse]. destruct (browse v keys (press v key b)) as [b' paths]. cbn [fst snd] in *.
  split; [|split; [done|split; [by rewrite Hh2, Hh1, foldl_app|intros st' Hne; by rewrite Hoth2, Hoth1]]].
  assert (E : files_app_event local64 local_seen child (Some w) (Some event) s = Ret tt s1 o1).
  { unfold files_app_event. rewrite Hw, Hty, Hd. change (DESKTOP_EVENT_KEY =? DESKTOP_EVENT_WINDOW_CLOSE) with false.
    change (DESKTOP_EVENT_KEY =? DESKTOP_EVENT_BUTTON_DOWN) with false. cbn iota.
    replace (negb (DESKTOP_EVENT_KEY =? DESKTOP_EVENT_KEY) || _) with false by (destruct Hpr as [-> | ->]; reflexivity).
    cbn iota zeta. cbn [event_keycode]. rewrite (bind_deref_Some (Some key) key _ s eq_refl). exact E1. }
  by rewrite (bind_Ret _ _ _ _ _ _ E), E2.
Qed.

(** ** A tree *)

(** The files docs/a.txt and b. *)
Definition tree_image : mem :=
  bytes32 TINYFS_MAGIC ++ bytes32 1 ++ bytes32 2 ++ bytes32 20 ++ bytes32 172 ++
  (lit "docs/a.txt" ++ replicate 54 0 ++ bytes32 172 ++ bytes32 3 ++ bytes32 0) ++
  (lit "b" ++ replicate 63 0 ++ bytes32 175 ++ bytes32 1 ++ bytes32 0) ++ lit "abcd" ++ replicate 80 0.
Definition tree_device : block_device list_disk := list_device "d" (ListDisk 32 8 tree_image).
Definition tree_root : vfs list_disk :=
  Vfs (TinyFS [tree_device] (Some 0%nat) (slice tree_image 0 20)
    (slice tree_image 20 76 :: slice tree_image 96 76 :: replicate 14 (replicate 76 0)) (replicate 512 0) 1)
    (VfsFileInfo NameRoot 0 0) (replicate 64 0) 1.
Lemma tree_root_mounted : root_mounted tree_root 0 tree_device.
Proof.
  split; [|done|done]. split; try done.
  - split; try done. constructor; [done|]. constructor; [done|]. by apply Forall_replicate.
  - apply (list_device_at "d" (ListDisk 32 8 tree_image)); [|by eexists|done]. split_and!; vm_compute; congruence || done.
  - repeat constructor.
Qed.

(** A system that notes the paths of the files it opens. *)
Record notes : Type := Notes { notes_vfs : vfs list_disk; noted : list mem }.
#[local] Instance notes_host : FilesHost list_disk notes := {
  host_vfs := notes_vfs;
  set_host_vfs v d := Notes v (noted d);
  instance_argument _ := ret (zeroes 64);
  instance_user_data _ := ret None;
  set_instance_user_data _ _ := ret tt;
  desktop_open_file path := modify (fun d => Notes (notes_vfs d) (noted d ++ option_list (path ≫= cval)));; ret 0;
  desktop_open_app_instance_window _ _ _ _ _ := ret 0
}.
#[local] Instance notes_laws : FilesHostLaws list_disk notes.
Proof.
  refine {| host_ok := fun d => root_mounted (notes_vfs d) 0 tree_device |}; try done.
  - by intros [].
  - intros d Hm. by exists 0%nat, tree_device.
  - intros d buffer t Hm Ht. eexists 0, _, []. split; [reflexivity|]. done.
Defined.

(** The first window, as it starts. *)
Definition files_started : files_apps notes :=
  match files_app_start (replicate 64 7) (replicate 16 (replicate 64 7)) (Some 0) (FilesApps (replicate 8 zero_files) (Notes tree_root [])) with
  | Ret _ s _ => s
  | _ => FilesApps [] (Notes tree_root [])
  end.
Definition files_window : desktop_window := Window 1 72 88 560 260 1 72 88 560 260 (zeroes 32) (Some 0) None None (Some 0).
Definition key_down (key : Z) : mem * desktop_event :=
  (replicate 64 7, DesktopEvent DESKTOP_EVENT_KEY (Event 0 0 (Keycode key) INPUT_KEY_PRESS 0) 0 0 0 0).

Lemma tree_browsable : browsable tree_root.
Proof.
  unfold browsable. replace (names tree_root) with [lit "docs/a.txt"; lit "b"] by (vm_compute; reflexivity).
  repeat constructor; try done.
Qed.
Lemma started_shows : showing tree_root (window_rows files_window) files_started 0 (Browser [] 0).
Proof.
  split; [exact tree_root_mounted|vm_compute; reflexivity|].
  eexists. split; [vm_compute; reflexivity|]. split; [|unfold in_view; vm_compute; intros _; split; congruence].
  split; try (vm_compute; reflexivity); try (split; vm_compute; (congruence || reflexivity)). all: vm_compute; try split; try congruence; try lia; try constructor.
Qed.

(** Enter opens the directory docs, Enter opens docs/a.txt, Backspace and Down lead
    to b, which Enter opens. *)
Lemma files_browse_spec_witness : exists s' o,
  handle_events (replicate 64 7) (replicate 16 (replicate 64 7)) files_window (map key_down [28; 28; 14; 108; 28]) files_started = Ret tt s' o /\
  showing tree_root (window_rows files_window) s' 0 (Browser [] 1) /\
  noted (fa_host s') = [lit "/docs/a.txt"; lit "/b"].
Proof.
  destruct (files_browse_spec (replicate 64 7) (replicate 16 (replicate 64 7)) tree_root files_window 0 (Browser [] 0)
    [28; 28; 14; 108; 28] (map key_down [28; 28; 14; 108; 28]) files_started) as (s' & o & E & Hsh & Hh & _).
  - reflexivity.
  - exact empty_rows.
  - exact tree_browsable.
  - reflexivity.
  - lia.
  - exact started_shows.
  - repeat constructor; by left.
  - exists s', o. split; [exact E|].
    replace (browse tree_root [28; 28; 14; 108; 28] (Browser [] 0)) with (Browser [] 1, [lit "/docs/a.txt"; lit "/b"]) in Hsh, Hh by (vm_compute; reflexivity).
    split; [exact Hsh|]. rewrite Hh. vm_compute. reflexivity.
Defined.

(** ** Where a click goes *)

(** What the row of an entry says. *)
Definition row_text (entry : files_entry) (name : list Z) : list Z :=
  lit (if negb (Z.land (fe_flags entry) VFS_FILE_FLAG_DIRECTORY =? 0) then "[D] " else "[F] ") ++ name.
Definition row_colour (f : files_app_state) (index : Z) : Z :=
  if index =? selected_index f then FILES_SELECTION_BG else FILES_BG_COLOR.
(** The row of an entry: its text over its bar, whose top is at [y]. *)
Definition row_picture (x y width colour : Z) (text : list Z) : Graphics.picture :=
  over (text_picture (x + FILES_MARGIN) (x + FILES_MARGIN) (y + 3) text FILES_TEXT_COLOR colour) (box (x + 2) y (width - 4) 11 colour).

Lemma entry_line_text entry name : cval (fe_name entry) = Some name -> file_name_short name ->
  exists line, entry_line entry = Some line /\ cval line = Some (row_text entry name).
Proof.
  intros Hc [Hn Hl]. unfold entry_line, row_text. change FILES_ENTRY_NAME_MAX with 32 in Hl. pose proof (lenZ_nonneg name).
  set (kind := if negb _ then "[D] "%string else "[F] "%string).
  assert (Hk : cval (cstr kind) = Some (lit kind) /\ lenZ (lit kind) = 4 /\ no_nul (lit kind)).
  { unfold kind. destruct (negb _); (split; [reflexivity|split; [reflexivity|repeat constructor; discriminate]]). }
  destruct Hk as (Hk & Hk4 & Hkn). change LINE_SIZE with 40. rewrite (strlcpy_fits 40 _ _ Hk) by lia. cbn [mbind option_bind].
  rewrite strlen_cval, cval_padded by (done || lia). cbn [fmap option_fmap option_map mbind option_bind]. rewrite u64_small by lia.
  rewrite (strlcpy_padded 40 (lit kind) _ name Hc) by (done || lia). cbn [mbind option_bind]. eexists. split; [reflexivity|].
  rewrite take_ge by (unfold lenZ in *; lia). apply cval_padded; [by apply no_nul_app|]. rewrite lenZ_app. lia.
Qed.

Lemma text_below x cx cy s fg bg px py : py < cy -> text_picture x cx cy s fg bg px py = None.
Proof.
  revert cx cy. induction s as [|c s IH]; intros cx cy Hy; cbn [text_picture]; [done|].
  destruct (c =? 10); [apply IH; lia|]. unfold over. rewrite IH by done. unfold glyph_picture. by rewrite decide_False by lia.
Qed.

Lemma row_covers x y width colour text px py :
  y <= py < y + 11 -> x + 2 <= px < x + width - 2 -> exists c, row_picture x y width colour text px py = Some c.
Proof.
  intros Hy Hx. unfold row_picture, over. destruct (text_picture _ _ _ _ _ _ px py) as [c|]; [by exists c|].
  exists colour. unfold box. by rewrite decide_True by lia.
Qed.
Definition row_names (f : files_app_state) : Prop := forall k, 0 <= k < entry_count f -> exists entry name,
  rd (fa_entries f) k = Some entry /\ cval (fe_name entry) = Some name /\ file_name_short name /\ Forall (fun c => 0 <= c < 256) name.

(** The picture of all rows from [row] on has at every place the row drawn
    there: a later one is below. *)
Lemma draw_rows_draws f x y width visible : row_names f -> 0 <= scroll_offset f -> 0 <= entry_count f <= FILES_MAX_ENTRIES -> 0 <= visible < 2 ^ 31 ->
  0 <= x < 2 ^ 22 -> 0 <= y < 2 ^ 22 -> 0 <= width < 2 ^ 22 -> scroll_offset f <= FILES_MAX_ENTRIES ->
  forall fuel row, 0 <= row -> entry_count f - scroll_offset f - row < Z.of_nat fuel -> (0 < fuel)%nat -> row <= FILES_MAX_ENTRIES ->
  exists g, draws (draw_rows fuel f x y width visible row) g /\
    (forall px py, py < y + 33 + FILES_ROW_HEIGHT * row -> g px py = None) /\
    forall r, row <= r < visible -> scroll_offset f + r < entry_count f -> exists entry name,
      rd (fa_entries f) (scroll_offset f + r) = Some entry /\ cval (fe_name entry) = Some name /\
      forall px py, y + 33 + FILES_ROW_HEIGHT * r <= py < y + 33 + FILES_ROW_HEIGHT * r + 11 -> x + 2 <= px < x + width - 2 ->
        g px py = row_picture x (y + 33 + FILES_ROW_HEIGHT * r) width (row_colour f (scroll_offset f + r)) (row_text entry name) px py.
Proof.
  intros Hn Hs0 Hc Hv Hx Hy Hw Hs1. unfold FILES_MAX_ENTRIES, FILES_ROW_HEIGHT in *.
  induction fuel as [|fuel IH]; intros row Hr0 Hf Hpos Hrow; [lia|]. cbn [draw_rows].
  destruct (Z.ltb_spec row visible) as [Hvis|Hvis]; cbn [negb]; cbn iota.
  2:{ exists blank_picture. split; [apply draws_ret|]. split; [done|]. intros r Hr. lia. }
  rewrite (u32_small (scroll_offset f + row)) by lia. cbn zeta.
  destruct (Z.leb_spec (entry_count f) (scroll_offset f + row)) as [Hend|Hend].
  { exists blank_picture. split; [apply draws_ret|]. split; [done|]. intros r Hr Hr'. lia. }
  destruct (Hn (scroll_offset f + row) ltac:(lia)) as (entry & name & He & Hname & Hshort & Hb).
  destruct (entry_line_text entry name Hname Hshort) as (line & Hline & Htext).
  destruct (IH (row + 1)) as (g & Hg & Habove & Hrows); [lia..|].
  set (bar := row_picture x (y + 33 + 12 * row) width (row_colour f (scroll_offset f + row)) (row_text entry name)).
  assert (Hbt : Forall (fun c => 0 <= c < 256) (row_text entry name)).
  { unfold row_text. apply Forall_app. split; [|done]. destruct (negb _); apply (bool_decide_unpack _); vm_compute; exact I. }
  assert (Hlt : lenZ (row_text entry name) < 2 ^ 25).
  { unfold row_text. rewrite lenZ_app. destruct Hshort as [_ Hl]. change FILES_ENTRY_NAME_MAX with 32 in Hl. destruct (negb _); [change (lenZ (lit "[D] ")) with 4|change (lenZ (lit "[F] ")) with 4]; lia. }
  exists (over g bar). split; [|split].
  - apply (draws_ext _ _ (over (over g (text_picture (x + 6) (x + 6) (y + 33 + 12 * row + 3) (row_text entry name) FILES_TEXT_COLOR (row_colour f (scroll_offset f + row))))
      (box (x + 2) (y + 33 + 12 * row) (width - 4) 11 (row_colour f (scroll_offset f + row))))).
    { intros px py _ _. unfold bar, row_picture, over, FILES_MARGIN. by destruct (g px py). }
    unfold FILES_HEADER_HEIGHT, FILES_ROW_HEIGHT, FILES_MARGIN. do 2 (apply draws_signed; [lia|]).
    rewrite (u32_small (row * 12)), (i32_small (row * 12)), (i32_small width) by lia. do 4 (apply draws_signed; [lia|]).
    replace (y + 16 + 18 + row * 12 - 1) with (y + 33 + 12 * row) by lia. apply draws_bind; [apply draw_fill_rect_draws; unfold near; lia|].
    apply (draws_deref He), (draws_deref Hline). do 2 (apply draws_signed; [lia|]).
    replace (y + 16 + 18 + row * 12 + 2) with (y + 33 + 12 * row + 3) by lia. rewrite (u32_small (row + 1)) by lia.
    apply draws_bind; [|exact Hg]. apply gfx_draw_string_draws; try done; unfold near; lia.
  - intros px py Hpy. unfold over. rewrite Habove by lia. unfold bar, row_picture, over, box.
    rewrite text_below by lia. by rewrite decide_False by lia.
  - intros r Hr Hlast. destruct (decide (r = row)) as [->|Hne].
    + exists entry, name. split; [done|]. split; [done|]. intros px py Hpy _. unfold over at 1. by rewrite Habove by lia.
    + destruct (Hrows r ltac:(lia) Hlast) as (entry' & name' & He' & Hname' & Hpic). exists entry', name'. split; [done|]. split; [done|].
      intros px py Hpy Hin. unfold over at 1. rewrite (Hpic px py Hpy Hin).
      destruct (row_covers x (y + 33 + 12 * r) width (row_colour f (scroll_offset f + r)) (row_text entry' name') px py Hpy Hin) as [c ->]. done.
Qed.

(** C38. Where a click goes wrong. The rows are drawn from 33 pixels below the top
    of the content on, but a click is looked up from 24 pixels on. In lines 3 to
    10 of the bar of a row the pixel drawn is the pixel of that row's entry, its
    text or its bar, and the click goes to the entry below. *)
Theorem files_click_next_row {S} w f r fb x y (state : S) :
  0 <= win_x w <= 2 ^ 20 -> 0 <= win_y w <= 2 ^ 20 -> 128 <= win_width w <= 2 ^ 20 -> 0 <= win_height w <= 2 ^ 20 ->
  row_names f -> 0 <= r -> r + 1 < window_rows w -> 0 <= scroll_offset f -> scroll_offset f + r + 1 < entry_count f <= FILES_MAX_ENTRIES ->
  fb_wf fb ->
  let cx := win_x w + DESKTOP_WINDOW_PADDING in
  let cy := win_y w + DESKTOP_WINDOW_TITLE_HEIGHT + DESKTOP_WINDOW_PADDING in
  let cw := desktop_window_content_width (Some w) in
  let bar_y := cy + 33 + FILES_ROW_HEIGHT * r in
  cx + FILES_MARGIN <= x < cx + cw - FILES_MARGIN -> bar_y + 3 <= y < bar_y + 11 -> inside fb x y ->
  exists fb' entry name,
    draw_rows (Datatypes.S (Z.to_nat (entry_count f))) f cx cy cw (window_rows w) 0 (Some fb) = Ret tt (Some fb') [] /\
    rd (fa_entries f) (scroll_offset f + r) = Some entry /\ cval (fe_name entry) = Some name /\
    row_picture cx bar_y cw (row_colour f (scroll_offset f + r)) (row_text entry name) x y = Some (pixel fb' x y) /\
    files_app_row_hit_test (Some w) f x y state = Ret (Some (scroll_offset f + r + 1)) state [].
Proof.
  intros Hx Hy Hw Hh Hn Hr Hrows Hsc Hcnt Hwf cx cy cw bar_y Hxx Hyy Hin.
  unfold FILES_MAX_ENTRIES, FILES_MARGIN, FILES_ROW_HEIGHT, DESKTOP_WINDOW_PADDING in *. change DESKTOP_WINDOW_TITLE_HEIGHT with 16 in *.
  assert (Hcw : cw = win_width w - 16).
  { unfold cw, desktop_window_content_width. change (DESKTOP_WINDOW_PADDING * 2) with 16. rewrite (proj2 (Z.leb_gt _ _)), u32_small by lia. done. }
  pose proof (window_rows_bound w) as Hrb.
  destruct (draw_rows_draws f cx cy cw (window_rows w) Hn Hsc) with (fuel := Datatypes.S (Z.to_nat (entry_count f))) (row := 0) as (g & Hg & _ & Hpic);
    [unfold FILES_MAX_ENTRIES; lia..|].
  destruct (Hpic r ltac:(lia) ltac:(lia)) as (entry & name & He & Hname & Hrow). destruct (Hg fb Hwf) as (fb' & Hdraw & Hp).
  exists fb', entry, name. split; [exact Hdraw|]. split; [done|]. split; [done|]. split.
  - rewrite (pa_pixel _ _ _ Hp x y Hin). unfold FILES_ROW_HEIGHT in Hrow. rewrite (Hrow x y) by (unfold bar_y in Hyy; lia).
    destruct (row_covers cx (cy + 33 + 12 * r) cw (row_colour f (scroll_offset f + r)) (row_text entry name) x y) as [c Hc]; [unfold bar_y in Hyy; lia|lia|].
    unfold bar_y. by rewrite Hc.
  - clear Hpic Hrow Hg Hdraw Hp. subst cx cy.
    unfold files_app_row_hit_test, desktop_window_content_x, desktop_window_content_y.
    change DESKTOP_WINDOW_TITLE_HEIGHT with 16. unfold DESKTOP_WINDOW_PADDING, FILES_HEADER_HEIGHT, FILES_MARGIN, FILES_ROW_HEIGHT.
    rewrite bind_signed by lia. rewrite bind_assoc, !bind_signed by lia. cbn zeta. fold cw. fold (window_rows w).
    set (top := win_y w + 16 + 8 + 16 + 8). rewrite (u32_small (win_x w + 8 + 6)), (u32_small top), (u32_small (y - top)) by lia.
    rewrite (proj2 (Z.ltb_ge x _)) by lia. rewrite (i32_small cw) by lia. rewrite !bind_signed by lia.
    rewrite (u32_small (win_x w + 8 + cw - 6)) by lia. rewrite (proj2 (Z.leb_gt _ x)), (proj2 (Z.ltb_ge y top)) by lia. cbn [orb].
    assert (Hd : (y - top) / 12 = r + 1) by (symmetry; apply (Z.div_unique _ 12 _ (y - top - 12 * (r + 1))); unfold bar_y in *; lia).
    rewrite Hd. rewrite (proj2 (Z.leb_gt _ _)) by lia. rewrite (u32_small (scroll_offset f + _)) by lia.
    rewrite (proj2 (Z.leb_gt _ _)) by lia. unfold ret. do 2 f_equal. lia.
Qed.

Definition files_screen : framebuffer := Framebuffer 640 480 2560 4 FB_PIXEL_FORMAT_X8R8G8B8 (Some (replicate (Z.to_nat (640 * 480)) 0)).

Lemma files_click_next_row_witness :
  match rd (files_states files_started) 0 with
  | Some f => exists fb' entry name,
      draw_rows 3 f 80 112 544 (window_rows files_window) 0 (Some files_screen) = Ret tt (Some fb') [] /\
      rd (fa_entries f) 0 = Some entry /\ cval (fe_name entry) = Some name /\
      row_picture 80 145 544 (row_colour f 0) (row_text entry name) 90 148 = Some (pixel fb' 90 148) /\
      files_app_row_hit_test (Some files_window) f 90 148 tt = Ret (Some 1) tt []
  | None => False
  end.
Proof.
  assert (Hn : match rd (files_states files_started) 0 with
    | Some f => scroll_offset f = 0 /\ entry_count f = 2 /\ exists a b, rd (fa_entries f) 0 = Some a /\ rd (fa_entries f) 1 = Some b /\
        cval (fe_name a) = Some (lit "docs") /\ cval (fe_name b) = Some (lit "b")
    | None => False end) by (vm_compute; split; [reflexivity|split; [reflexivity|]]; do 2 eexists; repeat split; reflexivity).
  destruct (rd (files_states files_started) 0) as [f|]; [|exact Hn]. destruct Hn as (H0 & H1 & a & b & Ha & Hb & Hna & Hnb).
  assert (Hwf : fb_wf files_screen).
  { split; [reflexivity|cbn; lia|cbn; lia|reflexivity|]. eexists. split; [reflexivity|]. unfold lenZ. rewrite length_replicate, Z2Nat.id by lia. reflexivity. }
  assert (Hnames : row_names f).
  { intros k Hk. rewrite H1 in Hk. assert (Hkk : k = 0 \/ k = 1) by lia. destruct Hkk as [->| ->]; [exists a, (lit "docs")|exists b, (lit "b")].
    all: split; [assumption|]; split; [assumption|]; split;
      [split; [repeat constructor; vm_compute; congruence|reflexivity]|apply (bool_decide_unpack _); vm_compute; exact I]. }
  pose proof (files_click_next_row files_window f 0 files_screen 90 148 tt) as T. rewrite H0, H1 in T.
  apply T; clear T; [..|exact Hnames| | | | |exact Hwf| | |unfold inside; cbn [files_screen fb_width fb_height]; lia].
  all: vm_compute; try split; congruence.
Defined.
