(* ===== verification/FilesDesktop.v ===== *)
(** The desktop as the host of the file manager: what files_app.c calls in
    desktop.c, on the state in which the desktop keeps the files and the instances
    of applications. *)
From S2P Require Import Prelude BlockDevice TinyFS Vfs FileTable Input Bus Console Theme AppRegistry Desktop DesktopRender DesktopShell Files.

Section host.
Context {X D G C K A : Type} `{DiskDriver X} `{Hardware D} `{DisplayDriver G} `{OutputCapture C} `{KeyboardDriver K} `{!AppStart (desk X D G C K A)} `{!AppClose (desk X D G C K A)} `{!AppRender (desk X D G C K A)}.
Context (local64 : mem) (uptime_text : mem).
Abbreviation desktop := (desk X D G C K A).

Definition desktop_vfs (d : desktop) : vfs X := files_vfs (th_files (d_theme d)).
Definition set_desktop_vfs (v : vfs X) (d : desktop) : desktop :=
  set_d_theme (set_th_files (set_files_vfs v (th_files (d_theme d))) (d_theme d)) d.

#[export] Instance desktop_host : FilesHost X desktop := {
  host_vfs := desktop_vfs;
  set_host_vfs := set_desktop_vfs;
  instance_argument i := v <- on_registry (get_instance i);; ret (inst_argument v);
  instance_user_data i := v <- on_registry (get_instance i);; ret (inst_data v);
  set_instance_user_data i data := on_registry (v <- get_instance i;; put_instance i (set_inst_data data v));
  desktop_open_file := DesktopShell.desktop_open_file local64;
  desktop_open_app_instance_window := DesktopShell.desktop_open_app_instance_window local64 uptime_text
}.
End host.
