(* ===== verification/Shell.v ===== *)
(** The shell (src/src/kernel/shell.c, shell_core.c): every component it drives
    in one state, its commands, the choice of the command of a line and the loop
    that reads lines. The components share the files, the block devices, the
    memory, the framebuffer and the hardware: each finds them as the others left
    them. The commands on files, on the log and on blocks are in ShellFiles.v. *)
From S2P Require Import Prelude LibString Klog Memory Input BlockDevice BlockIO LogFS ListDisk TinyFS Vfs FileTable MMU UserProgram Bus Virtqueue VirtioMmio Graphics Cursor Theme DesktopInput Console AppRegistry Gui Pci ShellText ShellFiles Desktop DesktopRender DesktopShell VirtioDriver VirtioRng.

Definition KERNEL_VERSION : string := "duck-os".
Definition SHELL_LINE_MAX : Z := 64.

(** ** The state *)

(** The desktop with the display, the console and the files; the user programs
    with the memory; the devices of the buses; the two file systems' registry of
    disks; the window demo with its two applications; the framebuffer of the
    self test and the identifiers of the demo's windows. *)
Record shell (X D H W G C K A : Type) : Type := Shell {
  sh_desk : desk X D G C K A;
  sh_user : machine X;
  sh_virtio : virtio H D W;
  sh_rng : rng_state;
  sh_pci : pci D;
  sh_log : logfs X;
  sh_blk : blk X;
  sh_gui : gui;
  sh_browser : file_browser_state;
  sh_viewer : text_viewer_state;
  sh_test_fb : screen;
  sh_status_window_id : Z;
  sh_log_window_id : Z
}.
Arguments Shell {X D H W G C K A}.
Arguments sh_desk {X D H W G C K A}.
Arguments sh_user {X D H W G C K A}.
Arguments sh_virtio {X D H W G C K A}.
Arguments sh_rng {X D H W G C K A}.
Arguments sh_pci {X D H W G C K A}.
Arguments sh_log {X D H W G C K A}.
Arguments sh_blk {X D H W G C K A}.
Arguments sh_gui {X D H W G C K A}.
Arguments sh_browser {X D H W G C K A}.
Arguments sh_viewer {X D H W G C K A}.
Arguments sh_test_fb {X D H W G C K A}.
Arguments sh_status_window_id {X D H W G C K A}.
Arguments sh_log_window_id {X D H W G C K A}.

Section shell.
Context {X D H W G C K A : Type} `{DiskDriver X} `{Hardware D} `{DisplayDriver G} `{OutputCapture C} `{KeyboardDriver K}.
Abbreviation state := (shell X D H W G C K A).
Abbreviation desktop := (desk X D G C K A).
Context (plat : platform).
Implicit Types s : state.

Definition set_sh_desk v s : state := Shell v (sh_user s) (sh_virtio s) (sh_rng s) (sh_pci s) (sh_log s) (sh_blk s) (sh_gui s) (sh_browser s) (sh_viewer s) (sh_test_fb s) (sh_status_window_id s) (sh_log_window_id s).
Definition set_sh_user v s : state := Shell (sh_desk s) v (sh_virtio s) (sh_rng s) (sh_pci s) (sh_log s) (sh_blk s) (sh_gui s) (sh_browser s) (sh_viewer s) (sh_test_fb s) (sh_status_window_id s) (sh_log_window_id s).
Definition set_sh_virtio v s : state := Shell (sh_desk s) (sh_user s) v (sh_rng s) (sh_pci s) (sh_log s) (sh_blk s) (sh_gui s) (sh_browser s) (sh_viewer s) (sh_test_fb s) (sh_status_window_id s) (sh_log_window_id s).
Definition set_sh_rng v s : state := Shell (sh_desk s) (sh_user s) (sh_virtio s) v (sh_pci s) (sh_log s) (sh_blk s) (sh_gui s) (sh_browser s) (sh_viewer s) (sh_test_fb s) (sh_status_window_id s) (sh_log_window_id s).
Definition set_sh_pci v s : state := Shell (sh_desk s) (sh_user s) (sh_virtio s) (sh_rng s) v (sh_log s) (sh_blk s) (sh_gui s) (sh_browser s) (sh_viewer s) (sh_test_fb s) (sh_status_window_id s) (sh_log_window_id s).
Definition set_sh_log v s : state := Shell (sh_desk s) (sh_user s) (sh_virtio s) (sh_rng s) (sh_pci s) v (sh_blk s) (sh_gui s) (sh_browser s) (sh_viewer s) (sh_test_fb s) (sh_status_window_id s) (sh_log_window_id s).
Definition set_sh_blk v s : state := Shell (sh_desk s) (sh_user s) (sh_virtio s) (sh_rng s) (sh_pci s) (sh_log s) v (sh_gui s) (sh_browser s) (sh_viewer s) (sh_test_fb s) (sh_status_window_id s) (sh_log_window_id s).
Definition set_sh_gui v s : state := Shell (sh_desk s) (sh_user s) (sh_virtio s) (sh_rng s) (sh_pci s) (sh_log s) (sh_blk s) v (sh_browser s) (sh_viewer s) (sh_test_fb s) (sh_status_window_id s) (sh_log_window_id s).
Definition set_sh_browser v s : state := Shell (sh_desk s) (sh_user s) (sh_virtio s) (sh_rng s) (sh_pci s) (sh_log s) (sh_blk s) (sh_gui s) v (sh_viewer s) (sh_test_fb s) (sh_status_window_id s) (sh_log_window_id s).
Definition set_sh_viewer v s : state := Shell (sh_desk s) (sh_user s) (sh_virtio s) (sh_rng s) (sh_pci s) (sh_log s) (sh_blk s) (sh_gui s) (sh_browser s) v (sh_test_fb s) (sh_status_window_id s) (sh_log_window_id s).
Definition set_sh_test_fb v s : state := Shell (sh_desk s) (sh_user s) (sh_virtio s) (sh_rng s) (sh_pci s) (sh_log s) (sh_blk s) (sh_gui s) (sh_browser s) (sh_viewer s) v (sh_status_window_id s) (sh_log_window_id s).
Definition set_sh_status_window_id v s : state := Shell (sh_desk s) (sh_user s) (sh_virtio s) (sh_rng s) (sh_pci s) (sh_log s) (sh_blk s) (sh_gui s) (sh_browser s) (sh_viewer s) (sh_test_fb s) v (sh_log_window_id s).
Definition set_sh_log_window_id v s : state := Shell (sh_desk s) (sh_user s) (sh_virtio s) (sh_rng s) (sh_pci s) (sh_log s) (sh_blk s) (sh_gui s) (sh_browser s) (sh_viewer s) (sh_test_fb s) (sh_status_window_id s) v.

(** *** What the components share *)

Definition desk_files (d : desktop) : files X := th_files (d_theme d).
Definition set_desk_files (v : files X) (d : desktop) : desktop := set_d_theme (set_th_files v (d_theme d)) d.
Definition files_devs (f : files X) : list (block_device X) := tinyfs_devs (vfs_tinyfs (files_vfs f)).
Definition set_files_devs (v : list (block_device X)) (f : files X) : files X :=
  set_files_vfs (set_vfs_tinyfs (set_tinyfs_devs v (vfs_tinyfs (files_vfs f))) (files_vfs f)) f.

Definition get_desk s : desktop := set_desk_files (set_files_devs (devs (sh_blk s)) (desk_files (sh_desk s))) (sh_desk s).
Definition put_desk (d : desktop) s : state := set_sh_blk (set_devs (files_devs (desk_files d)) (sh_blk s)) (set_sh_desk d s).
Definition get_user s : machine X := set_u_files (desk_files (get_desk s)) (sh_user s).
Definition put_user (u : machine X) s : state := put_desk (set_desk_files (u_files u) (sh_desk s)) (set_sh_user u s).
Definition get_log s : logfs X := set_logfs_devs (devs (sh_blk s)) (sh_log s).
Definition put_log (l : logfs X) s : state := set_sh_blk (set_devs (logfs_devs l) (sh_blk s)) (set_sh_log l s).
Definition the_hardware s : D := hardware (d_timer (sh_desk s)).
Definition set_the_hardware (h : D) s : state := set_sh_desk (set_d_timer (set_hardware h (d_timer (sh_desk s))) (sh_desk s)) s.
Definition get_virtio s : virtio H D W := set_bus (the_hardware s) (sh_virtio s).
Definition put_virtio (v : virtio H D W) s : state := set_the_hardware (bus v) (set_sh_virtio v s).
Definition get_pci s : pci D := set_pci_bus (the_hardware s) (sh_pci s).
Definition put_pci (v : pci D) s : state := set_the_hardware (pci_bus v) (set_sh_pci v s).
Definition get_gui s : gui := set_gui_fb (attached (gui_fb (sh_gui s)) (d_display (sh_desk s))) (sh_gui s).
Definition put_gui (g : gui) s : state := set_sh_gui g (set_sh_desk (set_d_display (written_back (gui_fb g) (d_display (sh_desk s))) (sh_desk s)) s).
Definition with_daif (v : Z) (u : machine X) : machine X :=
  Machine (u_files u) (u_mm u) (u_mmu u) (user_active u) (user_resume_spsr u) (user_program_pages u) (user_program_page_writable u) v.
Definition get_rng s : driver rng_state H D W := Driver (sh_rng s) (u_mm (sh_user s)) (u_mmu (sh_user s)) (get_virtio s) (daif (sh_user s)).
Definition put_rng (r : driver rng_state H D W) s : state :=
  put_virtio (dr_virtio r) (set_sh_rng (dr_vars r) (set_sh_user (set_u_mm (dr_mm r) (set_u_mmu (dr_mmu r) (with_daif (dr_daif r) (sh_user s)))) s)).

Definition on_desk {B} (m : M desktop B) : M state B := zoom get_desk put_desk m.
Definition on_files {B} (m : M (files X) B) : M state B := on_desk (Desktop.on_files m).
Definition on_console {B} (m : M (console G C K) B) : M state B := on_desk (Desktop.on_console m).
Definition on_user {B} (m : M (machine X) B) : M state B := zoom get_user put_user m.
Definition on_memory {B} (m : M mm B) : M state B := on_user (zoom u_mm set_u_mm m).
Definition on_log {B} (m : M (logfs X) B) : M state B := zoom get_log put_log m.
Definition on_blk {B} (m : M (blk X) B) : M state B := zoom sh_blk set_sh_blk m.
Definition on_virtio {B} (m : M (virtio H D W) B) : M state B := zoom get_virtio put_virtio m.
Definition on_pci {B} (m : M (pci D) B) : M state B := zoom get_pci put_pci m.
Definition on_gui {B} (m : M gui B) : M state B := zoom get_gui put_gui m.
Definition on_rng {B} (m : M (driver rng_state H D W) B) : M state B := zoom get_rng put_rng m.
Definition on_test {B} (m : M screen B) : M state B := zoom sh_test_fb set_sh_test_fb m.

(** What an operation prints goes to the console character by character, and so
    to the client that captures it, to the serial port or to the display;
    [kprintf] flushes the display at its end. *)
Fixpoint print_all {G1 C1 K1 : Type} `{OutputCapture C1} (o : list Z) : M (console G1 C1 K1) unit :=
  match o with [] => ret tt | c :: o' => console_putc_unlocked c;; print_all o' end.
Definition delivered {B} (m : M state B) : M state B := fun s =>
  match m s with
  | Ret a s1 [] => Ret a s1 []
  | Ret a s1 o => (on_console (print_all o;; console_flush);; ret a) s1
  | Panic msg s1 o => (on_console (print_all o;; console_flush);; panic msg) s1
  | Undef => Undef
  end.
Definition say (format : string) (args : list karg) : M state unit := delivered (kprintf format args).
Definition say_char (c : Z) : M state unit := delivered (put_char c).

(** ** Printing the state of the system *)

Definition help_lines : list string :=
  ["duck-os shell commands"; "";
   "filesystem:";
   "  help                 show this command reference";
   "  pwd                  print the current directory";
   "  ls [path]            list files in / or in a directory";
   "  cat <path>           print a text file to the console";
   "  stat <path>          show file type, size, and canonical path";
   "  hexdump <path>       print file contents in hex + ascii";
   "  open <path>          open file in desktop app by extension";
   "  fsinfo               show mounted root filesystem details";
   "";
   "graphics and gui:";
   "  ginfo                show framebuffer and gpu details";
   "  gclear               clear the graphics framebuffer";
   "  gtest                run an in-memory framebuffer self-test";
   "  gpudemo              redraw the built-in graphics demo";
   "  cursor <x> <y>       move the graphics cursor";
   "  desktop [once|state] run desktop mode, draw one frame, or print state";
   "  apps                 list built-in graphical apps";
   "  gui demo             draw demo GUI windows";
   "  gui files [index]    open the file browser and preselect an entry";
   "  gui view <path>      open a text file in the GUI viewer";
   "  console [mode]       show or set output: serial|graphics|both";
   "  input [mode]         show or set input: serial|keyboard|both";
   "";
   "system:";
   "  version              print kernel version";
   "  mem                  show RAM, heap, and PMM usage";
   "  uptime               show time since boot";
   "  ticks                show timer interrupt count";
   "  blk                  list block devices";
   "  blkread <dev> <n>    dump one block from a device";
   "  pci                  list PCI devices";
   "  virtio               list virtio devices";
   "  rng                  read a few random bytes";
   "";
   "programs and logs:";
   "  run <path>           run a user program image";
   "  runelf <path>        run a user ELF image";
   "  logls                list logfs files";
   "  logcat <file>        print a logfs file";
   "  logcreate <file>     create an empty logfs file";
   "  logappend <f> <txt>  append text to a logfs file";
   "  logfsinfo            show logfs mount details";
   "";
   "debug:";
   "  panic                trigger a kernel panic";
   "";
   "aliases:";
   "  gpuinfo -> ginfo"].
Definition print_line (line : string) : M state unit := say (nl line) [].
Fixpoint print_lines (lines : list string) : M state unit :=
  match lines with [] => ret tt | line :: rest => print_line line;; print_lines rest end.
Definition shell_print_help : M state unit := print_lines help_lines.

Definition shell_print_version : M state unit := say (nl "%s") [AStr (Some (cstr KERNEL_VERSION))].

Definition shell_print_mem : M state unit :=
  let ram_start := memory_layout_ram_start plat in
  let ram_end := memory_layout_ram_end plat in
  let kernel_start := memory_layout_kernel_start plat in
  let kernel_end := memory_layout_kernel_end plat in
  heap_used <- on_memory (kmalloc_used plat);;
  let heap_free := u64 (u64 (ram_end - kernel_end) - heap_used) in
  say (nl "RAM start: %p") [APtr ram_start];;
  say (nl "RAM end: %p") [APtr ram_end];;
  say (nl "kernel start: %p") [APtr kernel_start];;
  say (nl "kernel end: %p") [APtr kernel_end];;
  say (nl "heap used: %u bytes") [AUint (u32 heap_used)];;
  say (nl "heap free: %u bytes") [AUint (u32 heap_free)];;
  total <- on_memory (pmm_total_pages plat);;
  say (nl "pmm total pages: %u") [AUint (u32 total)];;
  used <- on_memory (pmm_used_pages plat);;
  say (nl "pmm used pages: %u") [AUint (u32 used)];;
  free <- on_memory (pmm_free_pages plat);;
  say (nl "pmm free pages: %u") [AUint (u32 free)].

Definition shell_print_uptime : M state unit :=
  uptime_ms <- on_desk (Desktop.on_timer timer_uptime_ms);;
  let seconds := uptime_ms / 1000 in
  let milliseconds := uptime_ms mod 1000 in
  say "uptime: %u." [AUint (u32 seconds)];;
  (if milliseconds <? 100 then say_char (ch "0") else ret tt);;
  (if milliseconds <? 10 then say_char (ch "0") else ret tt);;
  say (nl "%u s") [AUint (u32 milliseconds)].

Definition shell_print_ticks : M state unit :=
  ticks <- on_desk (Desktop.on_timer timer_irq_count);; say (nl "ticks: %u") [AUint (u32 ticks)].

(** The buffer is an address; its bytes are read back from memory. *)
Definition shell_print_rng (fuel : nat) (turn : device_turn D) (bytes_at : Z) : M state unit :=
  available <- on_rng virtio_rng_available;;
  if negb (available : bool) then say (nl "virtio-rng unavailable") []
  else
    let! (status, count) := on_rng (virtio_rng_fill fuel turn bytes_at 16) in
    if negb (status =? 0) then say (nl "virtio-rng request failed") []
    else
      say "rng:" [];;
      for_range (Z.to_nat count) 0 (fun i =>
        (if 16 <=? i then undef else ret tt);;
        b <- on_memory (gets (fun m => u8 (ram m (bytes_at + i))));;
        say " %x" [AUint b]);;
      say (nl "") [].

Definition shell_print_virtio : M state unit := delivered (on_virtio virtio_print_devices).
Definition shell_print_pci : M state unit := delivered (on_pci pci_print_devices).

(** ** The display *)

(** [console_graphics_framebuffer()], the display's availability and its flush;
    [fb == 0 || !virtio_gpu_available()]. *)
Definition graphics_framebuffer : M state screen := on_console console_graphics_framebuffer.
Definition gpu_is_available : M state bool := on_desk (gets (fun d => virtio_gpu_available (gpu (d_console d)))).
Definition flush : M state Z := on_desk DesktopRender.virtio_gpu_flush.
Definition no_graphics : M state bool :=
  fb <- graphics_framebuffer;; available <- gpu_is_available;; ret (is_null fb || negb available).
Definition print_no_graphics : M state unit := say (nl "graphics framebuffer unavailable") [].
(** An operation on the framebuffer that the console is attached to: the display's. *)
Definition on_display {B} (m : M screen B) : M state B :=
  zoom (fun s => Some (d_display (sh_desk s))) (fun f s => set_sh_desk (set_d_display (default (d_display (sh_desk s)) f) (sh_desk s)) s) m.

(** [framebuffer_at] is the address of the pixels. *)
Definition shell_print_gpuinfo (framebuffer_at : Z) : M state unit :=
  available <- gpu_is_available;;
  if negb (available : bool) then say (nl "virtio-gpu unavailable") []
  else
    fb <- on_desk DesktopShell.virtio_gpu_framebuffer;;
    match fb with
    | None => say (nl "virtio-gpu framebuffer unavailable") []
    | Some f =>
        say (nl "gpu: virtio-gpu") [];;
        say (nl "resolution: %u x %u") [AUint (fb_width f); AUint (fb_height f)];;
        say (nl "pitch: %u") [AUint (fb_pitch f)];;
        say (nl "bytes/pixel: %u") [AUint (bytes_per_pixel f)];;
        say (nl "framebuffer: %p") [APtr framebuffer_at];;
        say (nl "format: b8g8r8a8") []
    end.

Definition shell_clear_graphics : M state unit :=
  none <- no_graphics;;
  if (none : bool) then print_no_graphics
  else
    on_display (fb_clear 0xff102030);;
    r <- flush;;
    if negb (r =? 0) then say (nl "gclear failed") [] else say (nl "graphics framebuffer cleared") [].

(** [virtio_gpu_redraw_demo] *)
Definition redraw_demo : M state Z :=
  available <- gpu_is_available;;
  if negb (available : bool) then ret (-1) else on_display virtio_gpu_draw_demo;; flush.
Definition shell_run_gpu_demo : M state unit :=
  r <- redraw_demo;; if negb (r =? 0) then say (nl "gpudemo failed") [] else ret tt.

(** [strcmp(text, word) == 0] *)
Definition is_word (text : mem) (word : string) : M state bool := r <- deref (strcmp text (cstr word));; ret (r =? 0).

Definition shell_set_console_mode (mode : mem) : M state unit :=
  empty <- no_argument mode;;
  if (empty : bool) then
    output_mode <- on_console console_output_mode;;
    if output_mode =? CONSOLE_SINK_SERIAL then say (nl "console: serial") []
    else if output_mode =? CONSOLE_SINK_GRAPHICS then say (nl "console: graphics") []
    else if output_mode =? Z.lor CONSOLE_SINK_SERIAL CONSOLE_SINK_GRAPHICS then say (nl "console: both") []
    else say (nl "console: none") []
  else
    serial <- is_word mode "serial";;
    if (serial : bool) then on_console (console_set_output_mode CONSOLE_SINK_SERIAL)
    else
      graphics <- is_word mode "graphics";;
      if (graphics : bool) then
        fb <- graphics_framebuffer;;
        if is_null fb then say (nl "graphics console unavailable") []
        else on_console (console_set_output_mode CONSOLE_SINK_GRAPHICS)
      else
        both <- is_word mode "both";;
        if (both : bool) then
          fb <- graphics_framebuffer;;
          if is_null fb then
            on_console (console_set_output_mode CONSOLE_SINK_SERIAL);;
            say (nl "graphics console unavailable") []
          else on_console (console_set_output_mode (Z.lor CONSOLE_SINK_SERIAL CONSOLE_SINK_GRAPHICS))
        else say (nl "usage: console [serial|graphics|both]") [].

Definition keyboard_available : M state bool := on_console (on_input input_keyboard_available).
Definition shell_set_input_mode (mode : mem) : M state unit :=
  current_mode <- on_console console_input_mode;;
  empty <- no_argument mode;;
  if (empty : bool) then
    if current_mode =? INPUT_SOURCE_SERIAL then say (nl "input: serial") []
    else if current_mode =? INPUT_SOURCE_KEYBOARD then say (nl "input: keyboard") []
    else if current_mode =? Z.lor INPUT_SOURCE_SERIAL INPUT_SOURCE_KEYBOARD then say (nl "input: both") []
    else say (nl "input: none") []
  else
    serial <- is_word mode "serial";;
    if (serial : bool) then on_console (console_set_input_mode INPUT_SOURCE_SERIAL)
    else
      keyboard0 <- is_word mode "keyboard";;
      if (keyboard0 : bool) then
        available <- keyboard_available;;
        if negb (available : bool) then say (nl "keyboard input unavailable") []
        else on_console (console_set_input_mode INPUT_SOURCE_KEYBOARD)
      else
        both <- is_word mode "both";;
        if (both : bool) then
          available <- keyboard_available;;
          if negb (available : bool) then
            on_console (console_set_input_mode INPUT_SOURCE_SERIAL);;
            say (nl "keyboard input unavailable") []
          else on_console (console_set_input_mode (Z.lor INPUT_SOURCE_SERIAL INPUT_SOURCE_KEYBOARD))
        else say (nl "usage: input [serial|keyboard|both]") [].

(** ** The self test of the framebuffer *)

(** [x == y || x + y == test_fb->width - 1] *)
Definition on_diagonal (f : framebuffer) (x y : Z) : bool := (x =? y) || (u32 (x + y) =? u32 (fb_width f - 1)).
Definition test_pixel (f : framebuffer) (x y expected : Z) : M state bool := p <- on_test (fb_get_pixel x y);; ret (p =? expected).
Definition format_number (p : fb_pixel_format) : Z := match p with FB_PIXEL_FORMAT_X8R8G8B8 => 0 | FB_PIXEL_FORMAT_B8G8R8A8 => 1 end.

Definition shell_run_gfx_test : M state unit :=
  old <- gets sh_test_fb;;
  (if is_null old then fb <- on_memory (fb_create_test plat 64 64);; modify (set_sh_test_fb fb) else ret tt);;
  fb <- gets sh_test_fb;;
  match fb with
  | None => say (nl "gtest failed: framebuffer allocation failed") []
  | Some f =>
      let base_color := 0x00112233 in
      let accent_color := 0x00abcdef in
      on_test (fb_clear base_color);;
      for_range (Z.to_nat (fb_height f)) 0 (fun y =>
        for_range (Z.to_nat (fb_width f)) 0 (fun x =>
          if on_diagonal f x y then on_test (fb_put_pixel x y accent_color) else ret tt));;
      a <- test_pixel f 0 0 accent_color;;
      b <- test_pixel f (fb_width f / 2) (fb_height f / 2) accent_color;;
      c <- test_pixel f 1 0 base_color;;
      d <- test_pixel f (u32 (fb_width f - 1)) 0 accent_color;;
      if negb (a && b && c && d) then say (nl "gtest failed: pixel verification failed") []
      else
        say (nl "gtest ok: %ux%u pitch=%u bpp=%u format=%u")
          [AUint (fb_width f); AUint (fb_height f); AUint (fb_pitch f); AUint (bytes_per_pixel f); AUint (format_number (pixel_format f))]
  end.

(** [x_text0], [y_text0], [x0] and [y0] are the uninitialised local variables. *)
Definition shell_move_cursor (x_text0 y_text0 : mem) (x0 y0 : Z) (args : mem) : M state unit :=
  let! (args1, x_text) := deref (shell_read_token args x_text0 16) in
  let! (_, y_text) := deref (shell_read_token args1 y_text0 16) in
  no_x <- no_argument x_text;;
  missing <- (if (no_x : bool) then ret true else no_argument y_text);;
  if (missing : bool) then say (nl "usage: cursor <x> <y>") []
  else
    let! (status, x1) := deref (shell_parse_unsigned_long (Some x_text) (Some x0)) in
    let! (status1, y1) := deref (if negb (status =? 0) then Some (status, Some y0) else shell_parse_unsigned_long (Some y_text) (Some y0)) in
    x <- deref x1;;
    y <- deref y1;;
    if negb (status =? 0) || negb (status1 =? 0) then say (nl "invalid cursor coordinates") []
    else
      none <- no_graphics;;
      if (none : bool) then print_no_graphics
      else
        say (nl "cursor: %u %u") [AUint (u32 x); AUint (u32 y)];;
        f <- gets (fun s => d_display (sh_desk s));;
        on_desk (on_cursor (gfx_cursor_attach (Some f)));;
        on_desk (on_cursor (gfx_cursor_move (u32 x) (u32 y)));;
        flush;;
        ret tt.

(** ** The window demo *)

Definition shell_gui_demo_status_draw (w : gui_window) : M screen unit :=
  x <- gui_window_content_x w;;
  y <- gui_window_content_y w;;
  gui_draw_panel x y (gui_window_content_width w) 56 0xffeef4f8 0xff7b8fa1;;
  label_at x y 8 8 (cstr "duck-os compositor") 0xff102030 0xffeef4f8;;
  label_at x y 8 22 (cstr "immediate-mode widgets") 0xff355c7d 0xffeef4f8;;
  button_at x y 8 36 72 18 (cstr "Launch") false;;
  button_at x y 88 36 72 18 (cstr "Busy") true.
Definition shell_gui_demo_log_draw (w : gui_window) : M screen unit :=
  x <- gui_window_content_x w;;
  y <- gui_window_content_y w;;
  gui_draw_panel x y (gui_window_content_width w) (gui_window_content_height w) 0xfff4efe6 0xff9d7f67;;
  label_at x y 8 8 (cstr "[ok] framebuffer online") 0xff3b2f2f 0xfff4efe6;;
  label_at x y 8 20 (cstr "[ok] text rendering online") 0xff3b2f2f 0xfff4efe6;;
  label_at x y 8 32 (cstr "[ok] cursor layer online") 0xff3b2f2f 0xfff4efe6;;
  button_at x y 8 52 96 18 (cstr "Refresh") false;;
  button_at x y 112 52 80 18 (cstr "Close") false.

(** A window's drawing function. *)
Definition draw_window s (draw : window_draw_fn) : gui_window -> M screen unit :=
  match draw with
  | DrawStatus => shell_gui_demo_status_draw
  | DrawLog => shell_gui_demo_log_draw
  | DrawFileBrowser => app_file_browser_draw (sh_browser s)
  | DrawTextViewer => app_text_viewer_draw (sh_viewer s)
  end.
Definition gui_draw_all : M state unit :=
  s <- gets id;;
  drawn <- on_gui (gui_draw_windows (draw_window s));;
  if negb (drawn : bool) then ret tt
  else on_desk (on_cursor gfx_cursor_refresh);; flush;; ret tt.

Definition attach_gui : M state unit := f <- gets (fun s => d_display (sh_desk s));; on_gui (gui_attach_framebuffer (Some f)).
Definition to_serial (message : string) : M state unit := on_console (console_set_output_mode CONSOLE_SINK_SERIAL);; print_line message.

Definition shell_run_gui_demo : M state unit :=
  none <- no_graphics;;
  if (none : bool) then print_no_graphics
  else
    attach_gui;;
    status_id <- gets sh_status_window_id;;
    (if negb (status_id =? 0) then on_gui (gui_destroy_window status_id);; modify (set_sh_status_window_id 0) else ret tt);;
    log_id <- gets sh_log_window_id;;
    (if negb (log_id =? 0) then on_gui (gui_destroy_window log_id);; modify (set_sh_log_window_id 0) else ret tt);;
    window <- on_gui (gui_create_window 32 24 224 96 (Some (cstr "Status")) (Some DrawStatus));;
    match window with
    | None => print_line "gui demo failed"
    | Some p =>
        wid <- on_gui (gui_window_id p);;
        modify (set_sh_status_window_id wid);;
        window <- on_gui (gui_create_window 120 144 320 120 (Some (cstr "System")) (Some DrawLog));;
        match window with
        | None =>
            on_gui (gui_destroy_window wid);;
            modify (set_sh_status_window_id 0);;
            print_line "gui demo failed"
        | Some q =>
            wid1 <- on_gui (gui_window_id q);;
            modify (set_sh_log_window_id wid1);;
            gui_draw_all;;
            to_serial "gui demo drawn on graphics display; shell output moved to serial"
        end
    end.

Section applications.
Context (local64 : mem) (local_seen : list mem).

(** [gui_framebuffer() == 0 || !virtio_gpu_available()] *)
Definition no_gui : M state bool := fb <- gets (fun s => gui_fb (sh_gui s));; available <- gpu_is_available;; ret (is_null fb || negb available).

Definition app_file_browser_open (selected_index : Z) : M state Z :=
  none <- no_gui;;
  if (none : bool) then ret (-1)
  else
    b <- gets sh_browser;;
    (if negb (fbs_window_id b =? 0) then on_gui (gui_destroy_window (fbs_window_id b));; modify (set_sh_browser zero_browser) else ret tt);;
    b <- gets sh_browser;;
    let! (status, b1) := on_files (app_file_browser_fill local64 local_seen b selected_index) in
    modify (set_sh_browser b1);;
    if negb (status =? 0) then ret (-1)
    else
      window <- on_gui (gui_create_window 48 56 760 320 (Some (cstr "File Browser")) (Some DrawFileBrowser));;
      match window with
      | None => modify (set_sh_browser zero_browser);; ret (-1)
      | Some p =>
          wid <- on_gui (gui_window_id p);;
          modify (set_sh_browser (set_browser_window wid b1));;
          gui_draw_all;;
          ret 0
      end.

Definition app_text_viewer_open (path : option mem) : M state Z :=
  no_path <- match path with None => ret true | Some p => no_argument p end;;
  if (no_path : bool) then ret (-1)
  else
    path <- deref path;;
    none <- no_gui;;
    if (none : bool) then ret (-1)
    else
      found <- on_files (stat_path local64 path);;
      match found with
      | None => ret (-1)
      | Some info =>
          if is_directory_info info then ret (-1)
          else
            v <- gets sh_viewer;;
            (if negb (tv_window_id v =? 0) then on_gui (gui_destroy_window (tv_window_id v));; modify (set_sh_viewer zero_viewer) else ret tt);;
            v <- gets sh_viewer;;
            copied <- deref (strlcpy (tv_path v) 0 path APP_TEXT_VIEWER_PATH_MAX);;
            name <- on_files (info_string info);;
            ttl <- deref (strlcpy (tv_title v) 0 name APP_TEXT_VIEWER_TITLE_MAX);;
            text <- on_files (app_text_viewer_load local64 path (tv_text v));;
            let v1 := Viewer (tv_window_id v) copied.1 ttl.1 text in
            modify (set_sh_viewer v1);;
            window <- on_gui (gui_create_window 72 64 760 360 (Some (cstr "Text Viewer")) (Some DrawTextViewer));;
            match window with
            | None => modify (set_sh_viewer zero_viewer);; ret (-1)
            | Some p =>
                wid <- on_gui (gui_window_id p);;
                modify (set_sh_viewer (set_viewer_window wid v1));;
                gui_draw_all;;
                ret 0
            end
      end.

Definition shell_run_gui_files (args : mem) : M state unit :=
  empty <- no_argument args;;
  let! (status, value) := deref (if (empty : bool) then Some (0, Some 0) else shell_parse_unsigned_long (Some args) (Some 0)) in
  selected_index <- deref value;;
  if negb (status =? 0) then say (nl "usage: gui files [index]") []
  else
    none <- no_graphics;;
    if (none : bool) then print_no_graphics
    else
      attach_gui;;
      r <- app_file_browser_open (u32 selected_index);;
      if negb (r =? 0) then say (nl "gui files failed") []
      else to_serial "gui files drawn on graphics display; shell output moved to serial".

Definition shell_run_gui_view (args : mem) : M state unit :=
  empty <- no_argument args;;
  if (empty : bool) then say (nl "usage: gui view <path>") []
  else
    none <- no_graphics;;
    if (none : bool) then print_no_graphics
    else
      attach_gui;;
      r <- app_text_viewer_open (Some args);;
      if negb (r =? 0) then say (nl "gui view failed: %s") [AStr (Some args)]
      else to_serial "gui view drawn on graphics display; shell output moved to serial".
End applications.

(** ** The desktop *)

Section desktop_commands.
Context `{AppStart desktop} `{AppEvent desktop} `{AppClose desktop} `{AppRender desktop} `{PointerDriver K}.
Context (local64 uptime_text : mem) (input_event0 : input_event) (event0 : desktop_event) (rounds events : nat).

Definition shell_run_desktop (args : mem) : M state unit :=
  none <- no_graphics;;
  if (none : bool) then print_no_graphics
  else
    r <- on_desk (desktop_init local64);;
    if negb (r =? 0) then say (nl "desktop init failed") []
    else
      once <- is_word args "once";;
      if (once : bool) then
        r <- on_desk (desktop_enter local64);;
        if negb (r =? 0) then say (nl "desktop enter failed") []
        else
          on_desk (desktop_run_once local64 uptime_text);;
          on_desk desktop_exit;;
          say (nl "desktop frame drawn on graphics display") []
      else
        show <- is_word args "state";;
        if (show : bool) then delivered (on_desk desktop_debug_print_session_state)
        else
          empty <- no_argument args;;
          if negb (empty : bool) then say (nl "usage: desktop [once|state]") []
          else
            r <- on_desk (desktop_enter local64);;
            if negb (r =? 0) then say (nl "desktop enter failed") []
            else
              say (nl "desktop mode active; press Escape to exit") [];;
              on_desk (desktop_run local64 uptime_text input_event0 event0 rounds events);;
              say (nl "desktop mode exited") [].

(** The table of the applications is never null. *)
Definition shell_list_apps : M state unit :=
  count <- on_desk (Desktop.on_registry desktop_list_apps);;
  if count =? 0 then say (nl "no desktop apps registered") []
  else
    for_range (Z.to_nat count) 0 (fun index =>
      l <- gets (fun s => apps (d_registry (sh_desk s)));;
      app <- deref (rd l index);;
      say (nl "%s  %s") [AStr (Some (app_name app)); AStr (Some (display_name app))]).

Definition shell_open_desktop_file (path : option mem) : M state unit :=
  no_path <- match path with None => ret true | Some p => no_argument p end;;
  if (no_path : bool) then say (nl "usage: open <path>") []
  else
    r <- on_desk (desktop_open_file local64 path);;
    if negb (r =? 0) then say (nl "open failed: %s") [AStr path] else say (nl "opened: %s") [AStr path].
End desktop_commands.

(** ** User programs *)

Section programs.
Context (local64 local256 local_header : mem) (local16 : list Z) (arch_enter_user : Z -> Z -> M (machine X) Z).
Definition run_program (usage failure : string) (name : mem) : M state unit :=
  empty <- no_argument name;;
  if (empty : bool) then say (nl usage) []
  else
    r <- delivered (on_user (user_run_file plat local64 local256 local_header local16 arch_enter_user (Some name)));;
    if negb (r =? 0) then say (nl failure) [AStr (Some name)] else ret tt.
Definition shell_run_user_file (name : mem) : M state unit := run_program "usage: run <file>" "run failed: %s" name.
Definition shell_run_elf_file (name : mem) : M state unit := run_program "usage: runelf <file>" "runelf failed: %s" name.
End programs.

(** ** Command lines *)

Section commands.
Context `{AppStart desktop} `{AppEvent desktop} `{AppClose desktop} `{AppRender desktop} `{PointerDriver K}.
(** What the commands take: the uninitialised local arrays and variables; the
    buffer of [file_list] and of a user program's image; the rounds of the loops
    of the desktop and of a driver that waits; the turn of the device that does;
    the addresses of the pixels and of the random bytes; the entry into a user
    program. *)
Record shell_locals : Type := ShellLocals {
  local64 : mem; local_seen : list mem; local128 : mem; local512 : mem; token16a : mem; token16b : mem;
  token_name : mem; uptime_text : mem; local256 : mem; local_header : mem; local16 : list Z;
  number0 : Z; number1 : Z; input_event0 : input_event; event0 : desktop_event
}.
Context (v : shell_locals) (rounds events polls : nat) (turn : device_turn D) (framebuffer_at bytes_at : Z) (arch_enter_user : Z -> Z -> M (machine X) Z).

(** [if (strcmp(line, word) == 0) { action; return; }], and the same for a command
    with arguments, which start [length] characters further. *)
Definition if_line (line : mem) (word : string) (action rest : M state unit) : M state unit :=
  same <- is_word line word;; if (same : bool) then action else rest.
Definition if_command (line : mem) (command : string) (length : nat) (action : mem -> M state unit) (rest : M state unit) : M state unit :=
  matched <- deref (shell_command_matches line (cstr command));;
  if (matched : bool) then args <- deref (shell_skip_spaces (drop length line));; action args else rest.

Definition files_command (m : M (files X) unit) : M state unit := delivered (on_files m).
Definition log_command (m : M (logfs X) unit) : M state unit := delivered (on_log m).

Definition shell_run_command (line : mem) : M state unit :=
  if_line line "" (ret tt)
  (if_line line "help" shell_print_help
  (if_line line "version" shell_print_version
  (if_line line "pwd" (files_command shell_print_pwd)
  (if_command line "ls" 2 (fun args => files_command (shell_list_files (local64 v) (local_seen v) (Some args)))
  (if_line line "mem" shell_print_mem
  (if_line line "uptime" shell_print_uptime
  (if_line line "ticks" shell_print_ticks
  (if_line line "blk" (delivered (on_blk shell_print_block_devices))
  (if_command line "blkread" 7 (fun args => delivered (on_blk (shell_block_read (local512 v) args (token16a v) (token16b v) (number0 v))))
  (if_line line "fsinfo" (files_command (shell_print_fsinfo (local64 v)))
  (if_line line "ginfo" (shell_print_gpuinfo framebuffer_at)
  (if_line line "gpuinfo" (shell_print_gpuinfo framebuffer_at)
  (if_line line "gclear" shell_clear_graphics
  (if_line line "gpudemo" shell_run_gpu_demo
  (if_command line "cursor" 6 (shell_move_cursor (token16a v) (token16b v) (number0 v) (number1 v))
  (if_line line "gui demo" shell_run_gui_demo
  (if_line line "apps" shell_list_apps
  (if_command line "desktop" 7 (shell_run_desktop (local64 v) (uptime_text v) (input_event0 v) (event0 v) rounds events)
  (if_command line "gui files" 9 (shell_run_gui_files (local64 v) (local_seen v))
  (if_command line "gui view" 8 (shell_run_gui_view (local64 v))
  (if_command line "console" 7 shell_set_console_mode
  (if_command line "input" 5 shell_set_input_mode
  (if_line line "gtest" shell_run_gfx_test
  (if_line line "logls" (log_command shell_log_list)
  (if_command line "logcat" 6 (fun args => log_command (shell_log_cat (local128 v) args))
  (if_command line "logcreate" 9 (fun args => log_command (shell_log_create args))
  (if_command line "logappend" 9 (fun args => log_command (shell_log_append args (token_name v)))
  (if_line line "logfsinfo" (log_command shell_print_logfsinfo)
  (if_line line "virtio" shell_print_virtio
  (if_line line "pci" shell_print_pci
  (if_line line "rng" (shell_print_rng polls turn bytes_at)
  (if_line line "panic" (panic "panic command")
  (if_command line "stat" 4 (fun args => files_command (shell_print_stat (local64 v) args))
  (if_command line "hexdump" 7 (fun args => files_command (shell_hexdump_file (local64 v) (local128 v) args))
  (if_command line "open" 4 (fun args => shell_open_desktop_file (local64 v) (Some args))
  (if_command line "cat" 3 (fun args => files_command (shell_cat_file (local64 v) (local128 v) args))
  (if_command line "runelf" 6 (shell_run_elf_file (local64 v) (local256 v) (local_header v) (local16 v) arch_enter_user)
  (if_command line "run" 3 (shell_run_user_file (local64 v) (local256 v) (local_header v) (local16 v) arch_enter_user)
  (say (nl "unknown command: %s") [AStr (Some line)]))))))))))))))))))))))))))))))))))))))).

(** The client that captures the output is the result, as the command left it. *)
Definition shell_execute_line (command : option mem) (output_callback : option C) : M state (option C) :=
  match command with
  | None => ret output_callback
  | Some line =>
      (if is_null output_callback then ret tt else on_console (console_set_output_capture output_callback));;
      shell_run_command line;;
      user_data <- on_console (gets console_capture);;
      if is_null output_callback then ret output_callback
      else on_console (console_set_output_capture None);; ret user_data
  end.

(** [while (1)]: a number of rounds, each with the polls that its line takes; the
    line stays in its buffer. *)
Fixpoint shell_rounds (lines : list nat) (event : input_event) (c : Z) (line : mem) : M state mem :=
  match lines with
  | [] => ret line
  | fuel :: rest =>
      on_console (console_write (cstr "duck-os@dev > "));;
      let! (line1, _) := on_console (console_read_line fuel event c line SHELL_LINE_MAX) in
      shell_execute_line (Some line1) None;;
      shell_rounds rest event c line1
  end.
Definition shell_run (lines : list nat) (event : input_event) (c : Z) (line0 : mem) : M state mem :=
  delivered (klog_info "shell ready");; shell_rounds lines event c line0.
End commands.
End shell.
