(* ===== verification/ShellLaws.v ===== *)
(** The shell as one system: which command a line chooses, what a client that
    captures the output gets, and the terminal whose commands it executes. *)
From S2P Require Import Prelude LibString Klog Memory Input BlockDevice BlockIO LogFS ListDisk TinyFS Vfs FileTable MMU UserProgram Bus Virtqueue VirtioMmio Graphics Cursor Theme DesktopWindow DesktopInput Console ConsoleDisplay AppRegistry Gui Pci ShellText ShellFiles ShellFileLaws Desktop DesktopRender DesktopShell VirtioDriver VirtioRng Editor Terminal TerminalLaws Shell.

Section laws.
Context {X D H W G C K A : Type} `{DiskDriver X} `{Hardware D} `{DisplayDriver G} `{OutputCapture C} `{KeyboardDriver K}.
Abbreviation state := (shell X D H W G C K A).
Implicit Types s : state.

(** ** What the components share *)

Lemma files_devs_same (f : files X) : set_files_devs (files_devs f) f = f.
Proof. unfold set_files_devs, files_devs. destruct f as [v tb]. destruct v as [w]. by destruct w. Qed.

(** The console and the files of the shell. *)
Definition shell_console s : console G C K := get_console (get_desk s).
Definition shell_files s : files X := desk_files (get_desk s).
Definition with_console (v : console G C K) s : state := put_desk (put_console v (get_desk s)) s.
Definition with_files (v : files X) s : state := put_desk (set_desk_files v (get_desk s)) s.

Lemma with_console_files v s : shell_files (with_console v s) = shell_files s.
Proof. exact (files_devs_same (shell_files s)). Qed.

Lemma with_files_files v s : shell_files (with_files v s) = v.
Proof. exact (files_devs_same v). Qed.

Lemma with_console_console v s : console_capture (shell_console (with_console v s)) = console_capture v /\ console_mode (shell_console (with_console v s)) = console_mode v.
Proof. done. Qed.

Lemma with_files_console v s : console_capture (shell_console (with_files v s)) = console_capture (shell_console s) /\ console_mode (shell_console (with_files v s)) = console_mode (shell_console s).
Proof. done. Qed.

Lemma on_console_run {B} (m : M (console G C K) B) s r v o : m (shell_console s) = Ret r v o -> on_console m s = Ret r (with_console v s) o.
Proof.
  intros Hm. unfold on_console, on_desk, Desktop.on_console. apply (zoom_Ret get_desk put_desk _ s r _ o). by apply zoom_Ret.
Qed.

Lemma on_files_run {B} (m : M (files X) B) s r v o : m (shell_files s) = Ret r v o -> on_files m s = Ret r (with_files v s) o.
Proof.
  intros Hm. unfold on_files, on_desk, Desktop.on_files. apply (zoom_Ret get_desk put_desk _ s r _ o).
  exact (zoom_Ret desk_files set_desk_files m (get_desk s) r v o Hm).
Qed.

(** ** A client that captures the output *)

(** The console captures, and the display is not a sink. *)
Definition captures (c : C) s : Prop :=
  console_capture (shell_console s) = Some c /\ has_sink (console_mode (shell_console s)) CONSOLE_SINK_GRAPHICS = false.
Definition receive (c : C) (o : list Z) : C := foldl (fun c x => console_capture_char x c) c o.

Lemma print_all_run o : forall (v : console G C K) c, console_capture v = Some c ->
  print_all o v = Ret tt (set_console_capture (Some (receive c o)) v) [].
Proof.
  induction o as [|x o IH]; intros v c Hv; cbn [print_all receive foldl].
  { rewrite <- Hv. by destruct v. }
  assert (E : console_putc_unlocked x v = Ret tt (set_console_capture (Some (console_capture_char x c)) v) []).
  { unfold console_putc_unlocked. rewrite bind_gets. unfold Datatypes.id. by rewrite Hv. }
  rewrite (bind_Ret_nil _ _ _ _ _ E), (IH _ (console_capture_char x c)) by done. done.
Qed.

Lemma no_flush_run (v : console G C K) : has_sink (console_mode v) CONSOLE_SINK_GRAPHICS = false -> console_flush v = Ret tt v [].
Proof. intros Hv. unfold console_flush, console_flush_unlocked. rewrite bind_gets. unfold Datatypes.id. by rewrite Hv. Qed.

Lemma delivered_run {B} (m : M state B) s r s1 o c :
  m s = Ret r s1 o -> captures c s1 -> exists s2, delivered m s = Ret r s2 [] /\ captures (receive c o) s2 /\ shell_files s2 = shell_files s1.
Proof.
  intros Hm [Hc Hg]. unfold delivered. rewrite Hm. destruct o as [|x o]; [by exists s1|].
  assert (E : (print_all (x :: o);; console_flush) (shell_console s1) = Ret tt (set_console_capture (Some (receive c (x :: o))) (shell_console s1)) []).
  { rewrite (bind_Ret_nil _ _ _ _ _ (print_all_run (x :: o) _ c Hc)). by apply no_flush_run. }
  pose proof (on_console_run _ s1 _ _ _ E) as E2. eexists. rewrite (bind_Ret_nil _ _ _ _ _ E2). split; [reflexivity|].
  split; [by split|apply with_console_files].
Qed.

(** A command on the files. *)
Lemma files_command_run (m : M (files X) unit) s f o c :
  m (shell_files s) = Ret tt f o -> captures c s ->
  exists s1, files_command m s = Ret tt s1 [] /\ captures (receive c o) s1 /\ shell_files s1 = f.
Proof.
  intros Hm Hc. pose proof (on_files_run m s tt f o Hm) as E. unfold files_command.
  destruct (delivered_run _ s tt _ o c E) as (s1 & E1 & Hc1 & Hf); [exact Hc|]. exists s1. split; [exact E1|]. split; [exact Hc1|].
  by rewrite Hf, with_files_files.
Qed.

(** ** The command of a line *)

Lemma if_line_ne line word (action rest : M state unit) z s : strcmp line (cstr word) = Some z -> z <> 0 -> if_line line word action rest s = rest s.
Proof. intros E Hz. unfold if_line, is_word. rewrite bind_assoc, (bind_deref_Some _ _ _ _ E), bind_ret. by rewrite (proj2 (Z.eqb_neq z 0)). Qed.

Lemma if_command_ne line command n action (rest : M state unit) s :
  shell_command_matches line (cstr command) = Some false -> if_command line command n action rest s = rest s.
Proof. intros E. unfold if_command. by rewrite (bind_deref_Some _ _ _ _ E). Qed.

Lemma if_command_eq line command n action (rest : M state unit) args s :
  shell_command_matches line (cstr command) = Some true -> shell_skip_spaces (drop n line) = Some args ->
  if_command line command n action rest s = action args s.
Proof. intros E Ea. unfold if_command. by rewrite (bind_deref_Some _ _ _ _ E), (bind_deref_Some _ _ _ _ Ea). Qed.

Section commands.
Context `{AppStart (desk X D G C K A)} `{AppEvent (desk X D G C K A)} `{AppClose (desk X D G C K A)} `{AppRender (desk X D G C K A)} `{PointerDriver K}.
Context (plat : platform) (v : shell_locals) (rounds events polls : nat) (turn : device_turn D) (framebuffer_at bytes_at : Z) (arch_enter_user : Z -> Z -> M (machine X) Z).
Abbreviation run_command := (shell_run_command plat v rounds events polls turn framebuffer_at bytes_at arch_enter_user).
Abbreviation execute_line := (Shell.shell_execute_line plat v rounds events polls turn framebuffer_at bytes_at arch_enter_user).

Lemma cat_command path junk s :
  no_nul path -> path <> [] -> hd 0 path <> 32 ->
  run_command (lit "cat " ++ path ++ 0 :: junk) s = files_command (shell_cat_file (local64 v) (local128 v) (path ++ 0 :: junk)) s.
Proof.
  intros Hn Hne Hsp. unfold shell_run_command. change (lit "cat " ++ path ++ 0 :: junk) with (99 :: 97 :: 116 :: 32 :: path ++ 0 :: junk).
  assert (Hargs : shell_skip_spaces (drop 3 (99 :: 97 :: 116 :: 32 :: path ++ 0 :: junk)) = Some (path ++ 0 :: junk)).
  { cbn [drop]. change (32 :: path ++ 0 :: junk) with ((32 :: path) ++ 0 :: junk). rewrite skip_spaces_app by (by constructor).
    destruct path as [|c path]; [done|]. cbn [hd] in Hsp. unfold trimmed. change (32 =? ch " ") with true. cbn iota. change (ch " ") with 32.
    by rewrite (proj2 (Z.eqb_neq c 32)). }
  repeat first [erewrite if_line_ne; [|reflexivity|discriminate] | rewrite if_command_ne; [|reflexivity]].
  by rewrite (if_command_eq _ _ _ _ _ (path ++ 0 :: junk)).
Qed.

Lemma execute_capturing line (m : M (files X) unit) s f o c :
  (forall s1, run_command line s1 = files_command m s1) -> m (shell_files s) = Ret tt f o ->
  has_sink (console_mode (shell_console s)) CONSOLE_SINK_GRAPHICS = false ->
  exists s', execute_line (Some line) (Some c) s = Ret (Some (receive c o)) s' [] /\ shell_files s' = f /\
    console_capture (shell_console s') = None /\ has_sink (console_mode (shell_console s')) CONSOLE_SINK_GRAPHICS = false.
Proof.
  intros Hrun Hm Hg. unfold Shell.shell_execute_line. change (is_null (Some c)) with false. cbn iota.
  assert (E1 : on_console (console_set_output_capture (Some c)) s = Ret tt (with_console (set_console_capture (Some c) (shell_console s)) s) []) by (by apply on_console_run).
  rewrite (bind_Ret_nil _ _ _ _ _ E1). set (s1 := with_console _ s).
  assert (Hf1 : m (shell_files s1) = Ret tt f o) by (unfold s1; by rewrite with_console_files).
  destruct (files_command_run m s1 f o c Hf1) as (s2 & E2 & Hc2 & Hf2); [by split|].
  rewrite <- Hrun in E2. rewrite (bind_Ret_nil _ _ _ _ _ E2).
  assert (E3 : on_console (gets console_capture) s2 = Ret (console_capture (shell_console s2)) (with_console (shell_console s2) s2) []) by (by apply on_console_run).
  rewrite (bind_Ret_nil _ _ _ _ _ E3). set (s3 := with_console _ s2).
  assert (E4 : on_console (console_set_output_capture None) s3 = Ret tt (with_console (set_console_capture None (shell_console s3)) s3) []) by (by apply on_console_run).
  rewrite (bind_Ret_nil _ _ _ _ _ E4). destruct Hc2 as [Hc2 Hg2]. rewrite Hc2. eexists. split; [reflexivity|]. split; [|by split].
  rewrite with_console_files. unfold s3. by rewrite with_console_files.
Qed.
End commands.
End laws.

(** ** The terminal of the desktop *)

(** The shell as the terminal sees it: the client that captures the output keeps
    the characters. *)
Section terminal.
Context {X D H W G K A : Type} `{DiskDriver X} `{Hardware D} `{DisplayDriver G} `{KeyboardDriver K}.
Context `{AppStart (desk X D G (list Z) K A)} `{AppEvent (desk X D G (list Z) K A)} `{AppClose (desk X D G (list Z) K A)} `{AppRender (desk X D G (list Z) K A)} `{PointerDriver K}.
Context (plat : platform) (v : shell_locals) (rounds events polls : nat) (turn : device_turn D) (framebuffer_at bytes_at : Z) (arch_enter_user : Z -> Z -> M (machine X) Z).

Definition kernel_shell : CommandShell (shell X D H W G (list Z) K A) := {|
  Terminal.shell_execute_line line :=
    r <- Shell.shell_execute_line plat v rounds events polls turn framebuffer_at bytes_at arch_enter_user (Some line) (Some []);;
    ret (default [] r) |}.
#[local] Existing Instance kernel_shell.

Lemma receive_kept o : forall l : list Z, receive l o = l ++ o.
Proof. induction o as [|x o IH]; intros l; [by rewrite app_nil_r|]. unfold receive in *. cbn [foldl]. rewrite IH. change (console_capture_char x l) with (l ++ [x]). by rewrite <- app_assoc. Qed.

Context {E0 : Type} `{DesktopServices E0}.

(** C9. [cat] typed into the terminal: the prompt with the line, then the file as
    [cat_output] says, the file system as before. *)
Theorem terminal_cat_spec (s : terminal_app E0 (shell X D H W G (list Z) K A)) w ev st t p path i d :
  user_data w = Some st -> rd (terminal_states s) st = Some t -> terminal_is t p (lit "cat " ++ path) -> desktop_event_ok ev -> line_edit ev = None ->
  lenZ (local64 v) = VFS_PATH_MAX -> lenZ (local128 v) = SHELL_FILE_BUFFER_MAX ->
  has_sink (console_mode (shell_console (ta_shell s))) CONSOLE_SINK_GRAPHICS = false ->
  no_nul path -> path <> [] -> hd 0 path <> 32 ->
  root_mounted (files_vfs (shell_files (ta_shell s))) i d -> table_wf (shell_files (ta_shell s)) ->
  (forall n j e, open_target (files_vfs (shell_files (ta_shell s))) path = Some (n, j, e) -> on_disk d e) ->
  exists s' t', terminal_app_event (Some w) (Some ev) s = Ret tt s' [] /\ rd (terminal_states s') st = Some t' /\
    terminal_is t' (typeset (next_line (typeset p (prompt ++ lit "cat " ++ path)))
      (cat_output (files_vfs (shell_files (ta_shell s))) d (free_slot (shell_files (ta_shell s))) path)) [] /\
    (exists i', root_mounted (files_vfs (shell_files (ta_shell s'))) i' d) /\ table_wf (shell_files (ta_shell s')) /\ ta_desktop s' = ta_desktop s.
Proof.
  intros Hu Hr Ht Hok Henter Hl64 Hl128 Hg Hn Hne Hsp Hrm Hwf Hdisk. pose proof Ht as [_ (junk & Einput) _ _ _].
  pose proof (input_bound _ _ _ Ht) as Hb. rewrite lenZ_app in Hb. change (lenZ (lit "cat ")) with 4 in Hb.
  destruct (cat_file_run (local64 v) Hl64 (shell_files (ta_shell s)) i d (path ++ 0 :: junk) path (local128 v) Hrm Hwf (cval_app _ _ Hn) Hne ltac:(lia) Hl128 Hdisk)
    as (f & Ecat & Hrm' & Hwf' & _).
  set (o := cat_output _ d _ path) in *.
  destruct (execute_capturing plat v rounds events polls turn framebuffer_at bytes_at arch_enter_user (lit "cat " ++ path ++ 0 :: junk) _ (ta_shell s) f o []
    (fun s1 => cat_command plat v rounds events polls turn framebuffer_at bytes_at arch_enter_user path junk s1 Hn Hne Hsp) Ecat Hg) as (k & Ek & Hf & _).
  rewrite receive_kept in Ek. cbn [app] in Ek.
  assert (Ex : Terminal.shell_execute_line (term_input t) (ta_shell s) = Ret o k []).
  { rewrite Einput, <- app_assoc. cbn [Terminal.shell_execute_line kernel_shell]. by rewrite (bind_Ret_nil _ _ _ _ _ Ek). }
  destruct (enter_line_run s st t p (lit "cat " ++ path) k o [] Hr Ht Ex) as (t' & E' & Ht' & _).
  pose proof (line_event_run s w ev st t p _ Hu Hr Ht Hok) as He. rewrite Henter in He.
  eexists _, t'. split; [by rewrite He, E'|]. split; [by apply (with_terminal_rd (set_ta_shell k s) st t t')|]. split; [exact Ht'|].
  cbn [with_terminal set_terminal_states set_ta_shell ta_shell ta_desktop]. rewrite Hf. done.
Qed.
End terminal.

(** ** A machine with one file *)

#[local] Instance idle_render : AppRender (desk list_disk Z panel (list Z) unit unit) := {| call_on_render _ _ _ := ret tt; call_draw _ _ _ := ret tt |}.
#[local] Instance idle_event : AppEvent (desk list_disk Z panel (list Z) unit unit) := {| call_on_event _ _ _ _ := ret tt; call_handle_event _ _ _ _ := ret tt |}.
#[local] Instance idle_close : AppClose (desk list_disk Z panel (list Z) unit unit) := {| call_on_close _ _ := ret tt |}.
#[local] Instance idle_start : AppStart (desk list_disk Z panel (list Z) unit unit) := {| call_on_start _ _ := ret 0 |}.
#[local] Instance no_pointer : PointerDriver unit := {| pointer_motions _ := [] |}.

Definition empty_registry : registry := Registry (replicate 8 (App (cstr "") (cstr "") None None None None)) 0 (replicate 8 zero_instance) 1 1.
Definition serial_console : console panel (list Z) unit := set_console_mode CONSOLE_SINK_SERIAL cold_console.
Definition sample_screen : framebuffer := Framebuffer 64 64 256 4 FB_PIXEL_FORMAT_X8R8G8B8 (Some (replicate 4096 0)).
Definition sample_system : desk list_disk Z panel (list Z) unit unit :=
  Desk zero_desktop (Dialog (zeroes DESKTOP_WINDOW_TITLE_MAX) (zeroes DESKTOP_DIALOG_MESSAGE_MAX)) empty_registry (ThemeState sample_files desktop_theme_defaults 1)
    sample_screen (CursorState None 0 0 0 0 (replicate 192 0) 0) serial_console (Timer 62500000 625000 0 0 0) tt.
Definition sample_shell : shell list_disk Z unit unit panel (list Z) unit unit :=
  Shell sample_system (Machine sample_files demo_heap (Mmu (fun _ => replicate 512 0) 0 0 0 0 0 []) 0 0 (replicate 495 0) (replicate 495 0) 0x3c0)
    (Virtio [] 0 0 tt) (RngState None (Virtqueue 0 0 0 0 0 0 0 0 0 0) 0 0 0 0 0) (Pci [] 0 0 0)
    (Logfs (files_devs sample_files) None (zeroes 20) empty_tables 0 0 (zeroes 512) (zeroes 512))
    (Blk (files_devs sample_files) (replicate 8 0%nat) 0) (Gui None [] 1) zero_browser zero_viewer None 0 0.
Definition sample_locals : shell_locals :=
  ShellLocals (zeroes 64) (replicate 16 (zeroes 64)) (zeroes 128) (zeroes 512) (zeroes 16) (zeroes 16) (zeroes 32) (zeroes 16) (zeroes 256) (zeroes 64) (replicate 16 0)
    0 0 (Event 0 0 (Character 0) 0 0) zero_event.

(** The terminal in which "cat /a" was typed. *)
Definition typed_terminal : terminal_app_state := Terminal (replicate 128 blank_line) 1 0 0 (lit "cat /a" ++ zeroes 58) 6 1.
Definition typed_terminals : terminal_app unit (shell list_disk Z unit unit panel (list Z) unit unit) := TerminalApp [typed_terminal] tt sample_shell.

Lemma typed_terminal_is : terminal_is typed_terminal ([], []) (lit "cat " ++ lit "/a").
Proof.
  split; [|by exists (zeroes 57)|done|done|by repeat constructor].
  split; try done. intros [|i] l Hi; [|by destruct i]. injection Hi as <-. by exists (zeroes 64).
Qed.

#[local] Instance any_desktop : DesktopServices unit := {|
  desktop_show_alert _ _ d := (d, 0); desktop_open_app_instance_window _ _ _ _ _ d := (d, 0); desktop_launch_app_with_argument _ _ d := (d, 0) |}.
#[local] Instance sample_kernel_shell : CommandShell (shell list_disk Z unit unit panel (list Z) unit unit) :=
  kernel_shell demo_plat sample_locals 0 0 0 (fun m d => (m, d, None)) 0 0 (fun _ _ => ret 0).

Lemma terminal_cat_spec_witness : exists s' t',
  terminal_app_event (Some TerminalLaws.sample_window) (Some enter_event) typed_terminals = Ret tt s' [] /\
  rd (terminal_states s') 0 = Some t' /\ terminal_is t' ([lit "duck-os@dev > cat /a"; lit "abc"], []) [].
Proof.
  destruct (terminal_cat_spec demo_plat sample_locals 0 0 0 (fun m d => (m, d, None)) 0 0 (fun _ _ => ret 0) typed_terminals TerminalLaws.sample_window enter_event 0
    typed_terminal ([], []) (lit "/a") 0 sample_device) as (s' & t' & He & Ht & Hi & _).
  - reflexivity.
  - reflexivity.
  - exact typed_terminal_is.
  - intros Hk. discriminate Hk.
  - reflexivity.
  - reflexivity.
  - reflexivity.
  - reflexivity.
  - by repeat constructor.
  - discriminate.
  - discriminate.
  - exact sample_root_mounted.
  - exact sample_files_wf.
  - intros n j e Ho.
    assert (E : open_target (files_vfs (shell_files sample_shell)) (lit "/a") = Some (lit "a", 0%nat, slice sample_image 20 76)) by (vm_compute; reflexivity).
    change (ta_shell typed_terminals) with sample_shell in Ho. rewrite E in Ho. injection Ho as <- <- <-. vm_compute. done.
  - exists s', t'. split; [exact He|]. split; [exact Ht|]. exact Hi.
Defined.
