(* ===== verification/Boot.v ===== *)
(** Start-up (src/src/kernel/kernel.c): which disk becomes the root file system,
    the texts that are read from it, and the log file system. The block devices
    are shared by the registry and the file systems. The arrays on the stack
    are arguments. *)
From S2P Require Import Prelude LibString Klog BlockDevice BlockIO Ramdisk ListDisk TinyFS Vfs LogFS ShellText.

Definition KERNEL_DEFAULT_HOSTNAME : string := "duck-os".
Definition KERNEL_BOOT_CONFIG_MAX : Z := 128.

(** ** Text *)

(** The turns of the loop, with a shift of 28, 24, ..., 0. *)
Fixpoint hex32_loop {S} (fuel : nat) (shift value : Z) : M S unit :=
  match fuel with
  | O => undef
  | Datatypes.S fuel' =>
      if 0 <=? shift then
        let digit := Z.land (Z.shiftr value shift) 0xf in
        put_char (if digit <? 10 then ch "0" + digit else ch "a" + (digit - 10));;
        hex32_loop fuel' (shift - 4) value
      else ret tt
  end.
Definition print_hex32 {S} (value : Z) : M S unit := emit (lit "0x");; hex32_loop 9 28 value.

Definition is_blank (c : Z) : bool := (c =? 10) || (c =? 13) || (c =? ch " ") || (c =? 9).
Fixpoint trim_loop (fuel : nat) (text : mem) (length : Z) : option (Z * mem) :=
  match fuel with
  | O => None
  | S fuel' =>
      if 0 <? length then
        c ← rd text (length - 1);
        if negb (is_blank c) then Some (length, text)
        else text1 ← wr text (length - 1) 0; trim_loop fuel' text1 (length - 1)
      else Some (length, text)
  end.
(** The length and the text. *)
Definition kernel_trim_text (text : mem) : option (Z * mem) :=
  length ← strlen text; trim_loop (S (Z.to_nat length)) text (u32 length).

(** ** The state *)

Record boot (X : Type) : Type := Boot { bt_blk : blk X; bt_vfs : vfs X; bt_log : logfs X }.
Arguments Boot {X}.
Arguments bt_blk {X}.
Arguments bt_vfs {X}.
Arguments bt_log {X}.

Section boot.
Context {X : Type}.
Context (local64 : mem).
Implicit Types s : boot X.

Definition set_bt_blk (v : blk X) s : boot X := Boot v (bt_vfs s) (bt_log s).
Definition set_bt_vfs (v : vfs X) s : boot X := Boot (bt_blk s) v (bt_log s).
Definition set_bt_log (v : logfs X) s : boot X := Boot (bt_blk s) (bt_vfs s) v.

(** The file systems find the devices of the registry, and leave them there. *)
Definition get_vfs s : vfs X := set_vfs_tinyfs (set_tinyfs_devs (devs (bt_blk s)) (vfs_tinyfs (bt_vfs s))) (bt_vfs s).
Definition put_vfs (v : vfs X) s : boot X := set_bt_blk (set_devs (tinyfs_devs (vfs_tinyfs v)) (bt_blk s)) (set_bt_vfs v s).
Definition get_log s : logfs X := set_logfs_devs (devs (bt_blk s)) (bt_log s).
Definition put_log (l : logfs X) s : boot X := set_bt_blk (set_devs (logfs_devs l) (bt_blk s)) (set_bt_log l s).
Definition on_blk {B} (m : M (blk X) B) : M (boot X) B := zoom bt_blk set_bt_blk m.
Definition on_vfs {B} (m : M (vfs X) B) : M (boot X) B := zoom get_vfs put_vfs m.
Definition on_log {B} (m : M (logfs X) B) : M (boot X) B := zoom get_log put_log m.

(** [*device], for a field of it. *)
Definition device_at (device : option nat) : M (boot X) (block_device X) := on_blk (zoom devs set_devs (dev_at device)).

(** ** Texts of the root file system *)

(** The result and the contents of the buffer. *)
Definition kernel_read_boot_text (path buffer : option mem) (buffer_size : Z) : M (boot X) (Z * option mem) :=
  match path, buffer with
  | Some _, Some _ =>
      if buffer_size <? 2 then ret (-1, buffer)
      else
        let! (read_size, buffer1) := on_vfs (vfs_read_file local64 path buffer (u32 (buffer_size - 1))) in
        if read_size <=? 0 then ret (-1, buffer1)
        else
          b <- deref buffer1;;
          b1 <- deref (wr b read_size 0);;
          let! (length, b2) := deref (kernel_trim_text b1) in
          ret (i32 length, Some b2)
  | _, _ => ret (-1, buffer)
  end.

(** [strlcpy(hostname, KERNEL_DEFAULT_HOSTNAME, sizeof(hostname))] *)
Definition default_hostname (hostname : mem) : option mem :=
  fst <$> strlcpy hostname 0 (cstr KERNEL_DEFAULT_HOSTNAME) KERNEL_BOOT_CONFIG_MAX.

(** A line for a text that is there. *)
Definition print_boot_text (path format : string) (buffer : mem) : M (boot X) unit :=
  let! (length, text) := kernel_read_boot_text (Some (cstr path)) (Some buffer) KERNEL_BOOT_CONFIG_MAX in
  t <- deref text;;
  present <- (if 0 <=? length then c <- deref (rd t 0);; ret (negb (c =? 0)) else ret false);;
  if (present : bool) then kprintf format [AStr (Some t)] else ret tt.

Definition kernel_print_boot_config (hostname motd theme : mem) : M (boot X) unit :=
  h0 <- deref (default_hostname hostname);;
  let! (length, text) := kernel_read_boot_text (Some (cstr "/etc/hostname")) (Some h0) KERNEL_BOOT_CONFIG_MAX in
  h1 <- deref text;;
  none <- (if length <? 0 then ret true else c <- deref (rd h1 0);; ret (c =? 0));;
  h2 <- (if (none : bool) then deref (default_hostname h1) else ret h1);;
  kprintf (nl "hostname: %s") [AStr (Some h2)];;
  print_boot_text "/etc/motd" (nl "motd: %s") motd;;
  print_boot_text "/etc/theme" (nl "[INFO] theme: %s") theme.

(** ** Disks *)

(** The image that the build links with the kernel. *)
Context (image : mem).

Definition kernel_load_tinyfs_image (device : option nat) : M (boot X) Z :=
  match device with
  | None => ret (-1)
  | Some p =>
      d <- device_at device;;
      if is_null (write_blocks d) then ret (-1)
      else
        let image_size := lenZ image in
        unfit <- (if image_size =? 0 then ret true
                  else if block_size d =? 0 then undef
                  else ret (negb (image_size mod block_size d =? 0)));;
        if (unfit : bool) then ret (-1)
        else
          let count := image_size / block_size d in
          if block_count d <? count then ret (-1)
          else
            kprintf (nl "[INFO] embedded tinyfs image size: %u bytes") [AUint (u32 image_size)];;
            on_blk (zoom devs set_devs (call_write_blocks device 0 count image))
  end.

Definition mount_tinyfs (device : option nat) : M (boot X) Z := on_vfs (tiny (tinyfs_mount device)).

(** [&ramdisk->name] in the arguments of [kprintf]. *)
Definition kernel_mount_root_tinyfs (ramdisk : option nat) : M (boot X) Z :=
  virtio_root <- on_blk (block_find_device (Some (cstr "vda")));;
  mounted <- match virtio_root with
    | Some _ =>
        status <- mount_tinyfs virtio_root;;
        v <- device_at virtio_root;;
        if status =? 0 then
          kprintf (nl "[INFO] rootfs: mounted tinyfs from %s") [AStr (name v)];; ret true
        else
          r <- device_at ramdisk;;
          kprintf (nl "[INFO] rootfs: %s does not contain a valid tinyfs image, falling back to %s") [AStr (name v); AStr (name r)];;
          ret false
    | None =>
        r <- device_at ramdisk;;
        kprintf (nl "[INFO] rootfs: vda unavailable, falling back to %s") [AStr (name r)];;
        ret false
    end;;
  if (mounted : bool) then ret 0
  else
    loaded <- kernel_load_tinyfs_image ramdisk;;
    if negb (loaded =? 0) then ret (-1)
    else
      status <- mount_tinyfs ramdisk;;
      if negb (status =? 0) then ret (-1)
      else
        r <- device_at ramdisk;;
        kprintf (nl "[INFO] rootfs: mounted tinyfs from %s") [AStr (name r)];;
        ret 0.

Definition kernel_mount_logfs (header0 : mem) : M (boot X) unit :=
  device <- on_blk (block_find_device (Some (cstr "vda")));;
  match device with
  | None => kprintf (nl "[INFO] logfs: vda unavailable") []
  | Some _ =>
      status <- on_log (logfs_mount header0 device);;
      if negb (status =? 0) then
        d <- device_at device;; kprintf (nl "[INFO] logfs: %s not mounted") [AStr (name d)]
      else ret tt
  end.

(** The part of [kernel_main] that mounts the file systems, with the RAM disk. *)
Definition mount_file_systems (header0 hostname motd theme : mem) (ramdisk : option nat) : M (boot X) unit :=
  match ramdisk with
  | None => panic "ramdisk unavailable"
  | Some _ =>
      status <- kernel_mount_root_tinyfs ramdisk;;
      if negb (status =? 0) then panic "tinyfs root mount failed"
      else
        status <- on_vfs vfs_mount_root;;
        if negb (status =? 0) then panic "vfs root mount failed"
        else
          kernel_print_boot_config hostname motd theme;;
          kernel_mount_logfs header0
  end.
End boot.
