(* ===== verification/BootLaws.v ===== *)
(** What start-up does: the texts it reads lose the blanks at their ends, the
    root comes from the disk "vda" if that holds an image and from the image
    linked with the kernel otherwise, and the log is mounted only where the root
    is not. *)
From S2P Require Import Prelude LibString Klog BlockDevice BlockIO Ramdisk ListDisk TinyFS Vfs LogFS LogTables LogDisk LogMount LogSample ShellText Boot.

(** ** Text *)

(** A text without the blanks at its end. *)
Fixpoint trim (t : list Z) : list Z :=
  match t with
  | [] => []
  | c :: t' => match trim t' with [] => if is_blank c then [] else [c] | r => c :: r end
  end.

Lemma trim_snoc t c : trim (t ++ [c]) = if is_blank c then trim t else t ++ [c].
Proof.
  induction t as [|x t IH]; [done|]. cbn [app trim]. rewrite IH. destruct (is_blank c); [done|]. by destruct t.
Qed.
Lemma trim_prefix t : exists r, t = trim t ++ r.
Proof.
  induction t as [|c t [r IH]]; [by exists []|]. cbn [trim]. destruct (trim t) as [|x q].
  - destruct (is_blank c); [by exists (c :: t)|]. exists t. done.
  - exists r. by rewrite IH at 1.
Qed.

Lemma trim_loop_run t r fuel :
  no_nul t -> lenZ t < 2 ^ 31 -> (length t < fuel)%nat ->
  exists r', trim_loop fuel (t ++ 0 :: r) (lenZ t) = Some (lenZ (trim t), trim t ++ 0 :: r') /\ lenZ (trim t ++ 0 :: r') = lenZ (t ++ 0 :: r).
Proof.
  revert r fuel. induction t as [|c t IH] using rev_ind; intros r [|fuel] Hn Hl Hf; try lia; cbn [trim_loop].
  { change (0 <? lenZ []) with false. cbn iota. by exists r. }
  pose proof (lenZ_nonneg t). rewrite lenZ_app in *. change (lenZ [c]) with 1 in *. rewrite (proj2 (Z.ltb_lt 0 _)) by lia.
  apply no_nul_app in Hn as [Hn _]. replace (lenZ t + 1 - 1) with (lenZ t) by lia. rewrite <- app_assoc. cbn [app]. rewrite rd_at. cbn [mbind option_bind].
  rewrite trim_snoc. destruct (is_blank c); cbn [negb].
  - rewrite wr_app. cbn [mbind option_bind]. destruct (IH (0 :: r) fuel Hn) as (r' & -> & Hr'); [lia|rewrite length_app in Hf; simpl in Hf; lia|].
    exists r'. split; [done|]. rewrite Hr', !lenZ_app, !lenZ_cons. lia.
  - exists r. rewrite lenZ_app. change (lenZ [c]) with 1. rewrite <- app_assoc. by split.
Qed.

(** [kernel_trim_text] computes it. *)
Lemma kernel_trim_text_run text t :
  cval text = Some t -> lenZ t < 2 ^ 31 ->
  exists text', kernel_trim_text text = Some (lenZ (trim t), text') /\ cval text' = Some (trim t) /\ lenZ text' = lenZ text.
Proof.
  intros [Hn [r ->]]%cval_inv Hl. unfold kernel_trim_text. rewrite strlen_app by done. cbn [mbind option_bind].
  pose proof (lenZ_nonneg t). rewrite u32_small by lia. destruct (trim_loop_run t r (S (Z.to_nat (lenZ t))) Hn Hl) as (r' & -> & Hr'); [unfold lenZ; lia|].
  eexists. split; [reflexivity|]. split; [|done]. apply cval_app. destruct (trim_prefix t) as [q Hq]. rewrite Hq in Hn. by apply no_nul_app in Hn as [? _].
Qed.

(** The digits of [print_hex32], most significant first, and the number they
    stand for. *)
Definition hex_digit (d : Z) : Z := if d <? 10 then ch "0" + d else ch "a" + (d - 10).
Lemma print_hex32_run {S} value (s : S) :
  print_hex32 value s = Ret tt s (lit "0x" ++ map (fun k => hex_digit (Z.land (Z.shiftr value k) 0xf)) [28; 24; 20; 16; 12; 8; 4; 0]).
Proof.
  unfold print_hex32, hex32_loop, put_char. cbn [Z.leb Z.compare Z.sub Z.add Z.opp Z.pos_sub Pos.compare Pos.compare_cont].
  reflexivity.
Qed.

(** ** The texts of the root file system *)

Lemma cval_zero l r : exists t, cval (l ++ 0 :: r) = Some t /\ cval (l ++ [0]) = Some t /\ lenZ t <= lenZ l.
Proof.
  induction l as [|c l (t & E1 & E2 & Hl)]; [by exists []|]. cbn [app cval]. destruct (c =? 0).
  - exists []. split_and!; [done|done|apply lenZ_nonneg].
  - rewrite E1, E2. exists (c :: t). split_and!; [done|done|rewrite !lenZ_cons; lia].
Qed.

Section config.
Context {X : Type} `{DiskDriver X} (local64 : mem) (local64_len : lenZ local64 = VFS_PATH_MAX).
Implicit Types s : boot X.

(** The root of the system that starts. *)
Definition boot_root s (p : nat) d : Prop := root_mounted (get_vfs s) p d.

Lemma get_put_vfs v s : get_vfs (put_vfs v s) = v.
Proof. unfold get_vfs, put_vfs. by destruct v as [[] ???]. Qed.
Lemma bt_log_put v s : bt_log (put_vfs v s) = bt_log s.
Proof. done. Qed.

(** The text that start-up takes from a file: its bytes up to a zero byte,
    without the blanks at the end. A file that is missing, empty or too long has
    none. *)
Definition boot_text (v : vfs X) d (path : list Z) : option (list Z) :=
  '(_, e) ← file_at v path;
  if (0 <? file_size e) && (file_size e <=? KERNEL_BOOT_CONFIG_MAX - 1) then
    l ← disk_range d (file_offset e) (file_size e);
    trim <$> cval (l ++ [0])
  else None.
Definition config_line (text : option (list Z)) (pre : string) : list Z :=
  match text with Some (c :: t) => lit pre ++ (c :: t) ++ [10] | _ => [] end.
Definition config_output (v : vfs X) d : list Z :=
  lit "hostname: " ++ match boot_text v d (lit "/etc/hostname") with Some (c :: t) => c :: t | _ => lit KERNEL_DEFAULT_HOSTNAME end ++ [10] ++
  config_line (boot_text v d (lit "/etc/motd")) "motd: " ++
  config_line (boot_text v d (lit "/etc/theme")) "[INFO] theme: ".


Lemma disk_range_length d offset size l : 0 <= size -> disk_device d -> 0 <= offset -> disk_range d offset size = Some l -> lenZ l = size.
Proof.
  clear local64_len. intros Hs Hd Ho. unfold disk_range. destruct (Z.leb_spec size 0); cbn [orb].
  { intros [= <-]. replace size with 0 by lia. by rewrite slice_nil. }
  destruct (Z.leb_spec (offset + size) (capacity d)) as [Hc|]; [|done]. intros [= <-]. rewrite <- capacity_data in Hc by done.
  unfold lenZ in *. rewrite length_slice; lia.
Qed.

Lemma file_at_same (v v' : vfs X) t : mounted_files (vfs_tinyfs v') = mounted_files (vfs_tinyfs v) -> file_at v' t = file_at v t.
Proof. intros Hs. unfold file_at, lookup_file. by rewrite Hs. Qed.

Lemma read_boot_text_run s p d (path : string) buffer :
  boot_root s p d -> no_nul (lit path) -> lenZ (lit path) < 2 ^ 31 -> lenZ buffer = KERNEL_BOOT_CONFIG_MAX ->
  exists r b s', kernel_read_boot_text local64 (Some (cstr path)) (Some buffer) KERNEL_BOOT_CONFIG_MAX s = Ret (r, Some b) s' [] /\
    boot_root s' p d /\ mounted_files (vfs_tinyfs (get_vfs s')) = mounted_files (vfs_tinyfs (get_vfs s)) /\ (bt_log s' = bt_log s /\ bt_blk s' = bt_blk s) /\
    lenZ b = KERNEL_BOOT_CONFIG_MAX /\
    match boot_text (get_vfs s) d (lit path) with
    | Some t => r = lenZ t /\ cval b = Some t
    | None => r = -1
    end.
Proof using H local64_len.
  intros Hrm Hn Hl Hb. unfold kernel_read_boot_text. change (KERNEL_BOOT_CONFIG_MAX <? 2) with false. cbn iota.
  change (u32 (KERNEL_BOOT_CONFIG_MAX - 1)) with 127.
  destruct (vfs_read_file_spec local64 local64_len (get_vfs s) p d (cstr path) (lit path) buffer 127 Hrm (cval_cstr path Hn) Hl) as (r & v' & b & E & Hrm' & [Hmf Hds] & Hdel);
    [rewrite Hb; done|]. unfold on_vfs. rewrite (bind_Ret_nil _ _ _ _ _ (zoom_Ret get_vfs put_vfs _ s _ _ _ E)).
  set (s1 := put_vfs v' s). assert (Hg : get_vfs s1 = v') by apply get_put_vfs.
  assert (Hb1 : bt_blk s1 = bt_blk s) by (cbn; rewrite Hds; by destruct s as [[] ? ?]). unfold boot_root. unfold boot_text.
  change (KERNEL_BOOT_CONFIG_MAX - 1) with 127.
  destruct (file_at (get_vfs s) (lit path)) as [[n e]|]; cbn [mbind option_bind].
  2:{ destruct Hdel as [-> Hbl]. exists (-1), b, s1. rewrite Hg. change (-1 <=? 0) with true. cbn iota. rewrite Hbl. by split_and!. }
  assert (He : 0 <= file_size e) by apply le32_bound. assert (Hoff : 0 <= file_offset e) by apply le32_bound.
  destruct (Z.leb_spec (file_size e) 127) as [Hsz|].
  2:{ rewrite andb_false_r. destruct Hdel as [-> Hbl]. exists (-1), b, s1. rewrite Hg. change (-1 <=? 0) with true. cbn iota. rewrite Hbl. by split_and!. }
  rewrite andb_true_r. assert (Hdev : disk_device d) by (destruct Hrm as [Hm _ _]; destruct (mt_disk _ _ _ Hm) as (_ & Hdd & _); done).
  destruct (disk_range d (file_offset e) (file_size e)) as [l|] eqn:Hr; cbn [mbind option_bind].
  2:{ destruct Hdel as [-> Hbl]. exists (-1), b, s1. rewrite Hg. change (-1 <=? 0) with true. cbn iota. rewrite Hbl.
      destruct (0 <? file_size e); by split_and!. }
  pose proof (disk_range_length d _ _ l He Hdev Hoff Hr) as Hll. destruct Hdel as [-> ->]. rewrite i32_small by lia.
  destruct (Z.leb_spec (lenZ l) 0) as [Hz|Hp].
  { rewrite (proj2 (Z.ltb_ge 0 _)) by lia. exists (-1), (splice buffer 0 l), s1. rewrite Hg. split_and!; try done.
    unfold lenZ in *. rewrite length_splice; [done|lia]. }
  rewrite (proj2 (Z.ltb_lt 0 _)) by lia. rewrite (bind_deref_Some _ _ _ _ eq_refl).
  assert (Hsp : exists c q, splice buffer 0 l = l ++ c :: q /\ lenZ (l ++ c :: q) = lenZ buffer).
  { change buffer with ([] ++ buffer). change 0%nat with (length (@nil Z)). rewrite splice_at. cbn [app].
    destruct (drop (length l) buffer) as [|c q] eqn:Hd; [apply (f_equal length) in Hd; rewrite length_drop in Hd; unfold KERNEL_BOOT_CONFIG_MAX, lenZ in *; simpl in Hd; lia|].
    exists c, q. split; [done|]. rewrite <- Hd. unfold KERNEL_BOOT_CONFIG_MAX, lenZ in *. rewrite length_app, length_drop. lia. }
  destruct Hsp as (c & q & -> & Hbl). rewrite (bind_deref_Some _ _ _ _ (wr_app l q c 0)).
  destruct (cval_zero l q) as (t & Ht & -> & Htl). cbn [fmap option_fmap option_map].
  destruct (kernel_trim_text_run (l ++ 0 :: q) t Ht) as (b & E2 & Hcb & Hb2); [lia|]. rewrite (bind_deref_Some _ _ _ _ E2).
  assert (Htr : lenZ (trim t) <= lenZ t) by (destruct (trim_prefix t) as [w Hw]; rewrite Hw at 2; rewrite lenZ_app; pose proof (lenZ_nonneg w); lia).
  pose proof (lenZ_nonneg (trim t)). rewrite i32_small by lia. exists (lenZ (trim t)), b, s1. rewrite Hg. split_and!; try done.
  rewrite Hb2, <- Hb, <- Hbl, !lenZ_app, !lenZ_cons. lia.
Qed.

Lemma boot_text_same (v v' : vfs X) d path :
  mounted_files (vfs_tinyfs v') = mounted_files (vfs_tinyfs v) -> boot_text v' d path = boot_text v d path.
Proof. intros Hs. unfold boot_text. by rewrite (file_at_same v v' path Hs). Qed.

Lemma cval_first b t : cval b = Some t -> exists c, rd b 0 = Some c /\ (c =? 0) = match t with [] => true | _ => false end.
Proof.
  intros [Hn [r ->]]%cval_inv. destruct t as [|c t]; [by exists 0|]. exists c. split; [done|]. apply Z.eqb_neq. by inversion Hn.
Qed.

Lemma print_boot_text_run s p d (path format : string) (pre : string) buffer :
  boot_root s p d -> no_nul (lit path) -> lenZ (lit path) < 2 ^ 31 -> lenZ buffer = KERNEL_BOOT_CONFIG_MAX ->
  cstr format = lit pre ++ ch "%" :: ch "s" :: [10] ++ [0] ->
  forallb (fun c => negb (c =? 0) && negb (c =? ch "%")) (lit pre) = true ->
  exists s', print_boot_text local64 path format buffer s = Ret tt s' (config_line (boot_text (get_vfs s) d (lit path)) pre) /\
    boot_root s' p d /\ mounted_files (vfs_tinyfs (get_vfs s')) = mounted_files (vfs_tinyfs (get_vfs s)) /\ (bt_log s' = bt_log s /\ bt_blk s' = bt_blk s).
Proof using H local64_len.
  intros Hrm Hn Hl Hb Hf Hpre. unfold print_boot_text.
  destruct (read_boot_text_run s p d path buffer Hrm Hn Hl Hb) as (r & b & s' & E & Hrm' & Hmf & Hlog & Hbl & Ht).
  exists s'. rewrite (bind_Ret_nil _ _ _ _ _ E). cbn iota. rewrite (bind_deref_Some _ _ _ _ eq_refl). split; [|done].
  destruct (boot_text (get_vfs s) d (lit path)) as [t|].
  - destruct Ht as [-> Hc]. pose proof (lenZ_nonneg t). rewrite (proj2 (Z.leb_le 0 _)) by done.
    destruct (cval_first b t Hc) as (c & Hr & Hc0). rewrite bind_assoc, (bind_deref_Some _ _ _ _ Hr), bind_ret, Hc0. destruct t as [|x t]; [done|]. cbn [negb].
    by rewrite (kprintf_string format (lit pre) [10] b (x :: t) s' Hf Hc Hpre eq_refl).
  - by subst r.
Qed.

(** Start-up prints the name of the host, from its file or the default, and the
    other texts that are there. *)
Lemma print_boot_config_run s p d (hostname motd theme : mem) :
  boot_root s p d -> lenZ hostname = KERNEL_BOOT_CONFIG_MAX -> lenZ motd = KERNEL_BOOT_CONFIG_MAX -> lenZ theme = KERNEL_BOOT_CONFIG_MAX ->
  exists s', kernel_print_boot_config local64 hostname motd theme s = Ret tt s' (config_output (get_vfs s) d) /\
    boot_root s' p d /\ mounted_files (vfs_tinyfs (get_vfs s')) = mounted_files (vfs_tinyfs (get_vfs s)) /\ (bt_log s' = bt_log s /\ bt_blk s' = bt_blk s).
Proof using H local64_len.
  intros Hrm Hh Hm Ht. unfold kernel_print_boot_config, config_output.
  assert (Hdef : forall b, lenZ b = KERNEL_BOOT_CONFIG_MAX -> exists b', default_hostname b = Some b' /\ lenZ b' = KERNEL_BOOT_CONFIG_MAX /\ cval b' = Some (lit KERNEL_DEFAULT_HOSTNAME)).
  { intros b Hb. unfold default_hostname. pose proof (strlcpy_spec b 0 (lit KERNEL_DEFAULT_HOSTNAME) [] KERNEL_BOOT_CONFIG_MAX) as E.
    unfold cstr. rewrite E; [|by vm_compute; repeat constructor|lia|done|lia]. eexists. split; [reflexivity|]. cbn [fst]. change (Z.to_nat 0) with 0%nat.
    rewrite take_ge by (vm_compute; lia). split.
    - unfold lenZ in *. rewrite length_splice; [done|]. unfold KERNEL_BOOT_CONFIG_MAX in Hb. simpl. lia.
    - change b with ([] ++ b). change 0%nat with (length (@nil Z)). rewrite splice_at. cbn [app]. rewrite <- app_assoc. by apply cval_app; vm_compute; repeat constructor. }
  destruct (Hdef hostname Hh) as (h0 & -> & Hh0 & _). rewrite (bind_deref_Some _ _ _ _ eq_refl).
  destruct (read_boot_text_run s p d "/etc/hostname" h0 Hrm) as (r & h1 & s1 & E & Hrm1 & Hmf1 & Hlog1 & Hh1 & Htx);
    [by vm_compute; repeat constructor|done|done|]. rewrite (bind_Ret_nil _ _ _ _ _ E). cbn iota. rewrite (bind_deref_Some _ _ _ _ eq_refl).
  set (host := match boot_text (get_vfs s) d (lit "/etc/hostname") with Some (c :: t) => c :: t | _ => lit KERNEL_DEFAULT_HOSTNAME end).
  assert (Hname : exists h2, bind (if r <? 0 then ret true else c <- deref (rd h1 0);; ret (c =? 0))
      (fun none : bool => if none then deref (default_hostname h1) else ret h1) s1 = Ret h2 s1 [] /\ cval h2 = Some host).
  { destruct (Hdef h1 Hh1) as (h2 & Hd2 & _ & Hc2). unfold host. destruct (boot_text (get_vfs s) d (lit "/etc/hostname")) as [t|].
    - destruct Htx as [-> Hc]. pose proof (lenZ_nonneg t). rewrite (proj2 (Z.ltb_ge _ 0)) by done.
      destruct (cval_first h1 t Hc) as (c & Hr & Hc0). rewrite bind_assoc, (bind_deref_Some _ _ _ _ Hr), bind_ret, Hc0.
      destruct t as [|x t]; [exists h2; by rewrite Hd2|by exists h1].
    - subst r. exists h2. by rewrite Hd2. }
  destruct Hname as (h2 & E2 & Hc2). rewrite <- bind_assoc. rewrite (bind_Ret_nil _ _ _ _ _ E2).
  rewrite (bind_Ret _ _ _ _ _ _ (kprintf_string (nl "hostname: %s") (lit "hostname: ") [10] h2 host s1 eq_refl Hc2 eq_refl eq_refl)).
  destruct (print_boot_text_run s1 p d "/etc/motd" (nl "motd: %s") "motd: " motd Hrm1) as (s2 & E3 & Hrm2 & Hmf2 & Hlog2);
    [by vm_compute; repeat constructor|by vm_compute|exact Hm|by vm_compute|by vm_compute|]. rewrite (bind_Ret _ _ _ _ _ _ E3).
  destruct (print_boot_text_run s2 p d "/etc/theme" (nl "[INFO] theme: %s") "[INFO] theme: " theme Hrm2) as (s3 & E4 & Hrm3 & Hmf3 & Hlog3);
    [by vm_compute; repeat constructor|by vm_compute|exact Ht|by vm_compute|by vm_compute|]. rewrite E4.
  exists s3. destruct Hlog1 as [Hl1 Hb1], Hlog2 as [Hl2 Hb2], Hlog3 as [Hl3 Hb3]. split; [|split_and!; [done|congruence|congruence|congruence]].
  rewrite (boot_text_same (get_vfs s) (get_vfs s1) d _ Hmf1), (boot_text_same (get_vfs s) (get_vfs s2) d) by congruence.
  rewrite <- !app_assoc. done.
Qed.
End config.

(** ** The disks *)

(** A driver that writes a range of blocks from the start of the disk. *)
Class RangeWriter (X : Type) `{DiskDriver X} := disk_write_range (x : X) n buf :
  disk_ok x -> 0 < n <= disk_count x -> lenZ buf = n * disk_bs x ->
  exists x', disk_write x 0 n buf = Some (x', 0) /\ disk_ok x' /\ disk_bs x' = disk_bs x /\ disk_count x' = disk_count x /\
    disk_data x' = splice (disk_data x) 0 buf.

#[export] Instance list_disk_range_writer : RangeWriter list_disk.
Proof.
  intros x n buf (Hbs & Hct & Hcap & Hl) Hn Hb. cbn in Hn, Hb. cbn [disk_write list_disk_driver]. unfold list_disk_write.
  rewrite (proj2 (Z.ltb_lt 0 n)), (proj2 (Z.leb_le (0 + n) _)) by lia. cbn [andb]. rewrite take_ge by (unfold lenZ in Hb; lia).
  change (Z.to_nat (0 * ld_bs x)) with 0%nat. eexists. split; [done|]. split; [|by split_and!]. cbn [disk_ok list_disk_driver]. unfold list_disk_ok. cbn [ld_bs ld_count ld_data].
  assert (Hs : lenZ (splice (ld_data x) 0 buf) = lenZ (ld_data x)) by (unfold lenZ in *; rewrite length_splice; [done|]; simpl; nia).
  rewrite Hs. lia.
Qed.

#[export] Instance ramdisk_range_writer : RangeWriter ramdisk.
Proof.
  intros x n buf Hx Hn Hb. cbn in Hx, Hn, Hb. unfold ramdisk_ok in Hx. cbn [disk_write ramdisk_driver]. unfold ramdisk_write, ramdisk_write_blocks.
  assert (Hv : ramdisk_range_valid 0 n = true).
  { unfold ramdisk_range_valid, RAMDISK_BLOCK_COUNT in *. rewrite (proj2 (Z.eqb_neq n 0)) by lia. rewrite u64_small by lia.
    rewrite (proj2 (Z.ltb_ge _ 0)) by lia. apply Z.leb_le. lia. }
  rewrite Hv. cbn [negb]. unfold RAMDISK_BLOCK_SIZE, RAMDISK_BLOCK_COUNT in *. rewrite !u64_small by lia. rewrite memcpy_spec by lia.
  assert (Hs : slice buf 0 (Z.to_nat (n * 512)) = buf) by (rewrite <- Hb; unfold lenZ; rewrite Nat2Z.id; apply slice_all).
  cbn [mbind option_bind]. change (Z.to_nat (0 * 512)) with 0%nat. change (Z.to_nat 0) with 0%nat. rewrite Hs.
  eexists. split; [done|]. split; [|by split_and!]. cbn [disk_ok ramdisk_driver]. unfold ramdisk_ok, RAMDISK_BLOCK_SIZE, RAMDISK_BLOCK_COUNT.
  unfold lenZ in *. rewrite length_splice; [done|]. simpl. lia.
Qed.

Lemma find_ext {A} (f g : A -> bool) l : (forall x, f x = g x) -> List.find f l = List.find g l.
Proof. intros Hfg. induction l as [|x l IH]; simpl; [done|]. by rewrite Hfg, IH. Qed.

Section mount.
Context {X : Type} `{RangeWriter X} (local64 local_header image : mem).
Implicit Types s : boot X.

(** The device called "vda". *)
Definition vda s : option nat := List.find (BlockDevice.named (devs (bt_blk s)) (cstr "vda")) (registered (bt_blk s)).
Definition mountable s (p : nat) (d : block_device X) : Prop :=
  devs (bt_blk s) !! p = Some d /\ disk_device d /\ block_size d <= TINYFS_IO_BUFFER_SIZE.

(** The static tables and buffers at the start, and the disks. *)
Record starting s (ram : nat) (d : block_device X) : Prop := {
  st_blk : blk_wf (bt_blk s);
  st_tiny : tinyfs_wf (vfs_tinyfs (bt_vfs s));
  st_name : lenZ (vfs_stat_name (bt_vfs s)) = VFS_PATH_MAX;
  st_ram : mountable s ram d;
  st_ram_name : BlockDevice.named (devs (bt_blk s)) (cstr "vda") ram = false;
  st_vda p : vda s = Some p -> exists dv, mountable s p dv
}.

Lemma find_vda_run s : blk_wf (bt_blk s) -> on_blk (block_find_device (Some (cstr "vda"))) s = Ret (vda s) s [].
Proof using Type.
  intros Hwf. unfold on_blk. rewrite (zoom_Ret bt_blk set_bt_blk _ s _ _ _ (block_find_device_spec (bt_blk s) (cstr "vda") (lit "vda") Hwf eq_refl)).
  by destruct s.
Qed.
Lemma device_at_run s p d : devs (bt_blk s) !! p = Some d -> device_at (Some p) s = Ret d s [].
Proof using Type. intros Hd. unfold device_at, on_blk. rewrite (zoom_Ret bt_blk set_bt_blk _ s _ _ _ (dev_at_zoom (bt_blk s) p d Hd)). by destruct s. Qed.

Definition rest_same s s' : Prop :=
  bt_blk s' = bt_blk s /\ bt_log s' = bt_log s /\ vfs_stat_name (bt_vfs s') = vfs_stat_name (bt_vfs s).
Lemma mount_tinyfs_run s p d :
  tinyfs_wf (vfs_tinyfs (bt_vfs s)) -> mountable s p d ->
  exists s' o, mount_tinyfs (Some p) s = Ret (if image_ok (dev_data d) then 0 else -1) s' o /\ rest_same s s' /\
    tinyfs_wf (vfs_tinyfs (bt_vfs s')) /\
    (image_ok (dev_data d) = true -> mounted (vfs_tinyfs (get_vfs s')) p d /\ mounted_files (vfs_tinyfs (get_vfs s')) = image_files (dev_data d)).
Proof using Type.
  intros Hwf (Hd & Hdev & Hbs). set (t0 := vfs_tinyfs (get_vfs s)). assert (Hwf0 : tinyfs_wf t0) by (by destruct Hwf).
  assert (Hat : disk_at (tinyfs_bio t0) p d) by (split_and!; [done|done|]; destruct Hwf as [_ _ _ Hb]; cbn; by rewrite Hb).
  destruct (tinyfs_mount_spec t0 p d Hwf0 Hat) as (t1 & o & E & Hres & Hdevs).
  set (s1 := put_vfs (set_vfs_tinyfs t1 (get_vfs s)) s). exists s1, o.
  assert (E1 : mount_tinyfs (Some p) s = Ret (if image_ok (dev_data d) then 0 else -1) s1 o).
  { unfold mount_tinyfs, on_vfs. apply zoom_Ret. exact (zoom_Ret vfs_tinyfs set_vfs_tinyfs _ (get_vfs s) _ _ _ E). }
  split; [exact E1|]. assert (Hg : vfs_tinyfs (get_vfs s1) = t1) by (unfold s1; by rewrite get_put_vfs).
  split; [split_and!; [|done|done]|].
  - cbn. rewrite Hdevs. by destruct s as [[] ? ?].
  - change (vfs_tinyfs (bt_vfs s1)) with t1. unfold mount_result in Hres. destruct (image_ok (dev_data d)).
    + destruct Hres as (Hm & _ & Hf). split; [by destruct Hm|]. intros _. rewrite Hg. done.
    + destruct Hres as (Hw & _ & _). done.
Qed.

Lemma print_name format d (s : boot X) :
  fmt_convs (cstr format) = Some [ch "s"] -> disk_device d -> exists o, kprintf format [AStr (name d)] s = Ret tt s o.
Proof using Type.
  intros Hf Hd. destruct (dd_name d Hd) as (nm & -> & Hn). apply (kprintf_total format [ch "s"]); [done|]. by repeat constructor.
Qed.

Definition image_fits (d : block_device X) : bool :=
  (0 <? lenZ image) && (lenZ image mod block_size d =? 0) && (lenZ image / block_size d <=? block_count d).
(** The disk with the image at its start. *)
Definition with_image (d : block_device X) : list Z := splice (dev_data d) 0 image.

Lemma load_image_run s p d :
  mountable s p d ->
  exists s' o, kernel_load_tinyfs_image image (Some p) s = Ret (if image_fits d then 0 else -1) s' o /\
    bt_vfs s' = bt_vfs s /\ bt_log s' = bt_log s /\
    block_devices (bt_blk s') = block_devices (bt_blk s) /\ block_devices_total (bt_blk s') = block_devices_total (bt_blk s) /\
    exists d', devs (bt_blk s') = <[p := d']> (devs (bt_blk s)) /\ mountable s' p d' /\ name d' = name d /\
      (image_fits d = true -> dev_data d' = with_image d).
Proof using H0.
  intros (Hd & Hdev & Hbs). pose proof (disk_device_geometry d Hdev) as (Hb & Hc & Hcap & Hlen). pose proof Hdev as [Hok Hsz Hct Hrd Hwr Hnm].
  unfold kernel_load_tinyfs_image, image_fits. rewrite (bind_Ret_nil _ _ _ _ _ (device_at_run s p d Hd)), Hwr. cbn [is_null].
  assert (Hsame : devs (bt_blk s) = <[p := d]> (devs (bt_blk s))) by (by rewrite list_insert_id).
  pose proof (lenZ_nonneg image). cbn zeta. destruct (Z.eqb_spec (lenZ image) 0) as [Hz|Hz].
  { rewrite bind_ret, (proj2 (Z.ltb_ge 0 _)) by lia. exists s, []. split_and!; try done. by exists d. }
  rewrite (proj2 (Z.ltb_lt 0 _)) by lia. rewrite (proj2 (Z.eqb_neq (block_size d) 0)) by lia. rewrite bind_ret. cbn [andb].
  destruct (Z.eqb_spec (lenZ image mod block_size d) 0) as [Hm|]; cbn [negb andb]; [|exists s, []; split_and!; try done; by exists d].
  rewrite Z.ltb_antisym. destruct (Z.leb_spec (lenZ image / block_size d) (block_count d)) as [Hle|]; cbn [negb];
    [|exists s, []; split_and!; try done; by exists d].
  destruct (kprintf_total (nl "[INFO] embedded tinyfs image size: %u bytes") [ch "u"] [AUint (u32 (lenZ image))] s) as [o Ho]; [done|kargs; apply u32_bound|].
  rewrite (bind_Ret _ _ _ _ _ _ Ho).
  assert (Hdiv : lenZ image = lenZ image / block_size d * block_size d) by (pose proof (Z.div_mod (lenZ image) (block_size d)); lia).
  assert (Hpos : 0 < lenZ image / block_size d) by nia.
  destruct (disk_write_range (driver_data d) (lenZ image / block_size d) image Hok) as (x' & Hw & Hok' & Hbs' & Hct' & Hdata); [lia|lia|].
  set (d' := set_driver_data x' d). set (ds' := <[p := d']> (devs (bt_blk s))).
  assert (Hcall : call_write_blocks (Some p) 0 (lenZ image / block_size d) image (devs (bt_blk s)) = Ret 0 ds' []).
  { unfold call_write_blocks, dev_at. rewrite bind_assoc, (bind_deref_Some (Some p) p) by done. rewrite bind_assoc, bind_gets.
    rewrite (bind_deref_Some _ d) by exact Hd. rewrite (bind_deref_Some _ disk_write) by exact Hwr. rewrite (bind_deref_Some _ _ _ _ Hw).
    by rewrite (bind_deref_Some (Some p) p). }
  pose proof (zoom_Ret bt_blk set_bt_blk _ s _ _ _ (zoom_Ret devs set_devs _ (bt_blk s) _ _ _ Hcall)) as Hon. unfold on_blk. rewrite Hon.
  eexists _, _. split; [reflexivity|]. split_and!; try done. exists d'. split; [done|]. split; [|split; [done|intros _; exact Hdata]].
  split; [|split; [|exact Hbs]].
  - cbn. apply list_lookup_insert_eq. by apply lookup_lt_Some in Hd.
  - split; try done; cbn; congruence.
Qed.

Lemma named_insert ds (p : nat) d d' nm q :
  ds !! p = Some d -> name d' = name d -> BlockDevice.named (<[p := d']> ds) nm q = BlockDevice.named (X := X) ds nm q.
Proof using Type.
  intros Hd Hn. unfold BlockDevice.named. destruct (decide (p = q)) as [<-|Hne].
  - rewrite list_lookup_insert_eq by (by apply lookup_lt_Some in Hd). by rewrite Hd, Hn.
  - by rewrite list_lookup_insert_ne.
Qed.

(** Where the root comes from: the disk and what it holds. *)
Definition root_of s (ram : nat) (d : block_device X) : option (nat * list Z) :=
  let fallback := if image_fits d && image_ok (with_image d) then Some (ram, with_image d) else None in
  match vda s with
  | Some p =>
      match devs (bt_blk s) !! p with
      | Some dv => if image_ok (dev_data dv) then Some (p, dev_data dv) else fallback
      | None => fallback
      end
  | None => fallback
  end.

(** A mounted root, and the rest as it was. *)
Record rooted s s' (p : nat) (data : list Z) : Prop := {
  ro_mounted : exists d', mounted (vfs_tinyfs (get_vfs s')) p d' /\ mountable s' p d' /\ dev_data d' = data;
  ro_files : mounted_files (vfs_tinyfs (get_vfs s')) = image_files data;
  ro_name : vfs_stat_name (bt_vfs s') = vfs_stat_name (bt_vfs s);
  ro_log : bt_log s' = bt_log s;
  ro_blk : blk_wf (bt_blk s') /\ vda s' = vda s;
  ro_vda pv dv : vda s = Some pv -> mountable s pv dv -> mountable s' pv dv
}.

Lemma blk_wf_insert (b b' : blk X) p d d' :
  blk_wf b -> devs b !! p = Some d -> disk_device d' -> name d' = name d ->
  devs b' = <[p := d']> (devs b) -> block_devices b' = block_devices b -> block_devices_total b' = block_devices_total b -> blk_wf b'.
Proof using H.
  intros [Ht Htot Hnd Hdevs] Hp Hd' Hn Hds Hb Htt. assert (Hreg : registered b' = registered b) by (unfold registered; by rewrite Hb, Htt).
  split; [by rewrite Hb|by rewrite Htt|by rewrite Hreg|]. rewrite Hreg, Hds. intros q Hq. destruct (Hdevs q Hq) as (e & n & He & Hv & Hen & Hc).
  destruct (decide (p = q)) as [<-|Hne].
  - exists d', n. rewrite list_lookup_insert_eq by (by apply lookup_lt_Some in Hp). assert (d = e) as <- by congruence. split_and!; [done| |congruence|done].
    pose proof (disk_device_geometry d' Hd') as (H1 & H2 & _ & _). pose proof Hd' as [_ _ _ Hr _ _]. unfold device_valid. rewrite Hn, Hen, Hr. cbn [is_null].
    rewrite (proj2 (Z.eqb_neq (block_size d') 0)), (proj2 (Z.eqb_neq (block_count d') 0)) by lia. done.
  - exists e, n. by rewrite list_lookup_insert_ne.
Qed.

(** The embedded image goes to the RAM disk. *)
Lemma fallback_run s0 s ram d :
  blk_wf (bt_blk s0) -> bt_blk s = bt_blk s0 -> bt_log s = bt_log s0 -> vfs_stat_name (bt_vfs s) = vfs_stat_name (bt_vfs s0) ->
  tinyfs_wf (vfs_tinyfs (bt_vfs s)) -> mountable s0 ram d -> BlockDevice.named (devs (bt_blk s0)) (cstr "vda") ram = false ->
  exists s' o, (loaded <- kernel_load_tinyfs_image image (Some ram);;
    if negb (loaded =? 0) then ret (-1)
    else
      status <- mount_tinyfs (Some ram);;
      if negb (status =? 0) then ret (-1)
      else
        r <- device_at (Some ram);;
        kprintf (nl "[INFO] rootfs: mounted tinyfs from %s") [AStr (name r)];;
        ret 0) s = Ret (if image_fits d && image_ok (with_image d) then 0 else -1) s' o /\
    (image_fits d && image_ok (with_image d) = true -> rooted s0 s' ram (with_image d)).
Proof using H0.
  intros Hwf Hblk Hlog Hnm Htw Hmt Hnv. assert (Hmt1 : mountable s ram d) by (unfold mountable in *; by rewrite Hblk).
  destruct (load_image_run s ram d Hmt1) as (s1 & o1 & E1 & Hv1 & Hl1 & Hb1 & Ht1 & d' & Hds & Hm1 & Hn1 & Hdata).
  rewrite (bind_Ret _ _ _ _ _ _ E1). destruct (image_fits d); cbn [andb]; [|by eexists _, _].
  change (negb (0 =? 0)) with false. cbn iota. specialize (Hdata eq_refl).
  destruct (mount_tinyfs_run s1 ram d') as (s2 & o2 & E2 & (Hb2 & Hlg2 & Hnm2) & Hw2 & Hok2); [by rewrite Hv1|done|].
  rewrite (bind_Ret _ _ _ _ _ _ E2), Hdata in *. destruct (image_ok (with_image d)); [|by eexists _, _].
  change (negb (0 =? 0)) with false. cbn iota. destruct Hm1 as (Hd1 & Hdev1 & Hbs1).
  rewrite (bind_Ret_nil _ _ _ _ _ (device_at_run s2 ram d' ltac:(by rewrite Hb2))).
  destruct (print_name (nl "[INFO] rootfs: mounted tinyfs from %s") d' s2 eq_refl Hdev1) as [o Ho]. rewrite (bind_Ret _ _ _ _ _ _ Ho). unfold ret.
  eexists _, _. split; [reflexivity|]. intros _. destruct (Hok2 eq_refl) as [Hmo Hfi]. rewrite Hblk in Hds, Hb1, Ht1. destruct Hmt as (Hd & _ & _).
  assert (Hvda : vda s2 = vda s0).
  { unfold vda, registered. rewrite Hb2, Hds, Hb1, Ht1. apply find_ext. intros q. by apply (named_insert _ ram d). }
  split; [|done|congruence|congruence|split; [|done]|].
  - exists d'. split; [done|]. split; [by split_and!; rewrite ?Hb2|done].
  - rewrite Hb2. by apply (blk_wf_insert (bt_blk s0) _ ram d d').
  - intros pv dv Hpv (Hdv & Hrest). split; [|done]. rewrite Hb2, Hds. rewrite list_lookup_insert_ne; [done|]. intros ->.
    apply List.find_some in Hpv as [_ Hpv]. congruence.
Qed.

Lemma mount_root_run s ram d :
  starting s ram d ->
  exists s' o, kernel_mount_root_tinyfs image (Some ram) s = Ret (match root_of s ram d with Some _ => 0 | None => -1 end) s' o /\
    match root_of s ram d with Some (p, data) => rooted s s' p data | None => True end.
Proof using H0.
  intros [Hwf Htw Hnm Hram Hrn Hvda]. pose proof Hram as (Hd & Hdev & _). unfold kernel_mount_root_tinyfs, root_of.
  rewrite (bind_Ret_nil _ _ _ _ _ (find_vda_run s Hwf)).
  assert (Hfall : forall m s1 o1, m s = Ret false s1 o1 -> bt_blk s1 = bt_blk s -> bt_log s1 = bt_log s -> vfs_stat_name (bt_vfs s1) = vfs_stat_name (bt_vfs s) ->
    tinyfs_wf (vfs_tinyfs (bt_vfs s1)) ->
    exists s' o, (mounted <- m;; if (mounted : bool) then ret 0 else
      loaded <- kernel_load_tinyfs_image image (Some ram);;
      if negb (loaded =? 0) then ret (-1)
      else
        status <- mount_tinyfs (Some ram);;
        if negb (status =? 0) then ret (-1)
        else r <- device_at (Some ram);; kprintf (nl "[INFO] rootfs: mounted tinyfs from %s") [AStr (name r)];; ret 0) s
      = Ret (match (if image_fits d && image_ok (with_image d) then Some (ram, with_image d) else None) with Some _ => 0 | None => -1 end) s' o /\
      match (if image_fits d && image_ok (with_image d) then Some (ram, with_image d) else None) with Some (p, data) => rooted s s' p data | None => True end).
  { intros m s1 o1 Hm Hb Hl Hn Hw. destruct (fallback_run s s1 ram d Hwf Hb Hl Hn Hw Hram Hrn) as (s' & o & E & Hro).
    exists s', (o1 ++ o). rewrite (bind_Ret _ _ _ _ _ _ Hm). cbn iota. rewrite E. destruct (image_fits d && image_ok (with_image d)); [|done]. split; [done|by apply Hro]. }
  destruct (vda s) as [p|] eqn:Hv.
  - destruct (Hvda p eq_refl) as (dv & Hmv). pose proof Hmv as (Hdv & Hdevv & Hbsv). rewrite Hdv.
    destruct (mount_tinyfs_run s p dv Htw Hmv) as (s1 & o1 & E1 & (Hb1 & Hl1 & Hn1) & Hw1 & Hok1).
    pose proof (device_at_run s1 p dv ltac:(by rewrite Hb1)) as Ed. destruct (image_ok (dev_data dv)).
    + destruct (print_name (nl "[INFO] rootfs: mounted tinyfs from %s") dv s1 eq_refl Hdevv) as [o Ho].
      rewrite bind_assoc, (bind_Ret _ _ _ _ _ _ E1). rewrite bind_assoc, (bind_Ret_nil _ _ _ _ _ Ed). change (0 =? 0) with true. cbn iota.
      rewrite bind_assoc, (bind_Ret _ _ _ _ _ _ Ho), bind_ret. unfold ret. eexists _, _. split; [reflexivity|].
      destruct (Hok1 eq_refl) as [Hmo Hfi]. split; [|exact Hfi|exact Hn1|exact Hl1| |].
      * exists dv. split; [done|]. split; [by split_and!; rewrite ?Hb1|done].
      * split; [by rewrite Hb1|]. unfold vda. by rewrite Hb1.
      * intros pv dv' _ (Hpv & Hr). split; [by rewrite Hb1|done].
    + destruct (dd_name dv Hdevv) as (nv & Hnv & Hcv). destruct (dd_name d Hdev) as (nr & Hnr & Hcr).
      destruct (kprintf_total (nl "[INFO] rootfs: %s does not contain a valid tinyfs image, falling back to %s") [ch "s"; ch "s"]
        [AStr (name dv); AStr (name d)] s1) as [o Ho]; [done|rewrite Hnv, Hnr; by repeat constructor|].
      apply (Hfall _ s1 (o1 ++ o)); try done. rewrite (bind_Ret _ _ _ _ _ _ E1), (bind_Ret_nil _ _ _ _ _ Ed). change (-1 =? 0) with false. cbn iota.
      rewrite (bind_Ret_nil _ _ _ _ _ (device_at_run s1 ram d ltac:(by rewrite Hb1))). rewrite (bind_Ret _ _ _ _ _ _ Ho). unfold ret. by rewrite app_nil_r.
  - destruct (print_name (nl "[INFO] rootfs: vda unavailable, falling back to %s") d s eq_refl Hdev) as [o Ho].
    apply (Hfall _ s o); try done. rewrite (bind_Ret_nil _ _ _ _ _ (device_at_run s ram d Hd)). rewrite (bind_Ret _ _ _ _ _ _ Ho). unfold ret. by rewrite app_nil_r.
Qed.

Lemma vfs_mount_root_run (v : vfs X) p d :
  mounted (vfs_tinyfs v) p d -> lenZ (vfs_stat_name v) = VFS_PATH_MAX ->
  exists o, vfs_mount_root v = Ret 0 (set_vfs_ready 1 v) o /\ root_mounted (set_vfs_ready 1 v) p d.
Proof using Type.
  intros Hm Hn. pose proof Hm as [Hwf Hr Hp Hat _ _]. pose proof Hat as (_ & Hdev & _). destruct (dd_name d Hdev) as (nm & Hnm & Hc).
  assert (Htiny : forall B (m : M (tinyfs X) B) a w, m (vfs_tinyfs w) = Ret a (vfs_tinyfs w) [] -> tiny m w = Ret a w []) by (intros; by apply tiny_pure).
  unfold vfs_mount_root. erewrite bind_Ret_nil by (apply Htiny; unfold tinyfs_is_mounted; reflexivity). rewrite Hr. change (1 =? 0) with false. cbn iota.
  erewrite bind_Ret_nil by (apply Htiny; unfold tinyfs_device; krun; rewrite Hr; change (1 =? 0) with false; cbn iota; unfold gets; rewrite Hp; reflexivity).
  cbn iota. rewrite bind_modify. set (v1 := set_vfs_ready 1 v).
  assert (Hfs : vfs_root_fs_name v1 = Ret (Some (cstr "tinyfs")) v1 []) by reflexivity. rewrite (bind_Ret_nil _ _ _ _ _ Hfs).
  rewrite (bind_Ret_nil _ _ _ _ _ (Htiny _ _ _ v1 (tinyfs_dev_at (vfs_tinyfs v) p d Hat))).
  destruct (kprintf_total (nl "[INFO] vfs: root mounted fs=%s device=%s") [ch "s"; ch "s"] [AStr (Some (cstr "tinyfs")); AStr (name d)] v1) as [o Ho];
    [done|rewrite Hnm; repeat constructor; [by eexists|done]|].
  rewrite (bind_Ret _ _ _ _ _ _ Ho). unfold ret. rewrite app_nil_r. exists o. split; [done|]. by split.
Qed.

(** A disk does not hold both an image of the root and a log. *)
Lemma image_not_formatted d : image_ok (dev_data d) = true -> formatted d = false.
Proof using Type.
  unfold image_ok, formatted, superblock_ok. intros Hok. apply andb_true_iff in Hok as [[[[_ Hm]%andb_true_iff _]%andb_true_iff _]%andb_true_iff _].
  apply Z.eqb_eq in Hm. unfold magic, sb_magic in *. rewrite Hm. change (TINYFS_MAGIC =? LOGFS_MAGIC) with false. cbn [negb orb]. apply andb_false_r.
Qed.

(** The disk the log is mounted from. *)
Definition log_of s : option (nat * block_device X) :=
  p ← vda s; dv ← devs (bt_blk s) !! p; if formatted dv then Some (p, dv) else None.

Lemma mount_logfs_run s :
  lenZ local_header = LOGFS_HEADER_SIZE -> blk_wf (bt_blk s) -> (forall p, vda s = Some p -> exists dv, mountable s p dv) ->
  lenZ (logfs_block_buffer (bt_log s)) = LOGFS_IO_BUFFER_SIZE -> lenZ (logfs_record_buffer (bt_log s)) = LOGFS_IO_BUFFER_SIZE ->
  logfs_ready (bt_log s) = 0 ->
  exists s' o, kernel_mount_logfs local_header s = Ret tt s' o /\ bt_blk s' = bt_blk s /\ bt_vfs s' = bt_vfs s /\
    match log_of s with
    | Some (p, dv) => log_mounted (get_log s') p dv
    | None => logfs_ready (bt_log s') = 0
    end.
Proof using Type.
  intros Hlh Hwf Hvda Hbb Hrec Hr0. unfold kernel_mount_logfs, log_of. rewrite (bind_Ret_nil _ _ _ _ _ (find_vda_run s Hwf)).
  destruct (vda s) as [p|]; cbn [mbind option_bind].
  2:{ destruct (kprintf_total (nl "[INFO] logfs: vda unavailable") [] [] s) as [o Ho]; [done|constructor|]. by exists s, o. }
  destruct (Hvda p eq_refl) as (dv & Hdv & Hdev & Hbs). rewrite Hdv. cbn [mbind option_bind].
  assert (Hat : disk_at (logfs_bio (get_log s)) p dv) by (split_and!; [done|done|]; cbn; rewrite Hbb; exact Hbs).
  destruct (logfs_mount_run local_header Hlh (get_log s) p dv Hat Hbb Hrec) as (l & o & E & Hds & Hres).
  set (s1 := put_log l s). unfold on_log. rewrite (bind_Ret _ _ _ _ _ _ (zoom_Ret get_log put_log _ s _ _ _ E)). fold s1.
  assert (Hb1 : bt_blk s1 = bt_blk s) by (cbn; rewrite Hds; by destruct s as [[] ? ?]).
  assert (Hg1 : get_log s1 = l) by (unfold s1, get_log, put_log; cbn; by destruct l).
  destruct (formatted dv).
  - change (negb (0 =? 0)) with false. cbn iota. unfold ret. eexists s1, _. split; [reflexivity|]. by rewrite Hg1.
  - change (negb (-1 =? 0)) with true. cbn iota. rewrite (bind_Ret_nil _ _ _ _ _ (device_at_run s1 p dv ltac:(by rewrite Hb1))).
    destruct (print_name (nl "[INFO] logfs: %s not mounted") dv s1 eq_refl Hdev) as [o1 Ho]. rewrite Ho. by eexists s1, _.
Qed.
End mount.

(** C11. Start-up mounts the file systems or stops. The root is what the disk called
    "vda" holds, if that parses, and otherwise the image linked with the kernel,
    copied to the RAM disk; without either, start-up ends in a panic. The files of
    the root are those of the image it came from; what is printed of it is the
    configuration in its files; and the log is mounted exactly when the disk
    holds one, which is then never the disk of the root. *)
Theorem start_up_spec {X} `{RangeWriter X} (local64 local_header image : mem) (s : boot X) ram d (hostname motd theme : mem) :
  lenZ local64 = VFS_PATH_MAX -> lenZ local_header = LOGFS_HEADER_SIZE -> lenZ hostname = KERNEL_BOOT_CONFIG_MAX ->
  lenZ motd = KERNEL_BOOT_CONFIG_MAX -> lenZ theme = KERNEL_BOOT_CONFIG_MAX -> starting s ram d ->
  lenZ (logfs_block_buffer (bt_log s)) = LOGFS_IO_BUFFER_SIZE -> lenZ (logfs_record_buffer (bt_log s)) = LOGFS_IO_BUFFER_SIZE ->
  logfs_ready (bt_log s) = 0 ->
  match root_of image s ram d with
  | None => exists s' o, mount_file_systems local64 image local_header hostname motd theme (Some ram) s = Panic "tinyfs root mount failed" s' o
  | Some (p, data) => exists s' d' o1 o2,
      mount_file_systems local64 image local_header hostname motd theme (Some ram) s = Ret tt s' (o1 ++ config_output (get_vfs s') d' ++ o2) /\
      boot_root s' p d' /\ dev_data d' = data /\ mounted_files (vfs_tinyfs (get_vfs s')) = image_files data /\
      match log_of s with
      | Some (pl, dl) => log_mounted (get_log s') pl dl /\ pl <> p
      | None => logfs_ready (bt_log s') = 0
      end
  end.
Proof.
  intros Hl64 Hlh Hh Hm Ht Hst Hbb Hrec Hr0. pose proof Hst as [Hwf Htw Hnm Hram Hrn Hvda].
  destruct (mount_root_run image s ram d Hst) as (s1 & o1 & E1 & Hro). unfold mount_file_systems. rewrite (bind_Ret _ _ _ _ _ _ E1).
  destruct (root_of image s ram d) as [[p data]|] eqn:Hroot; [|by eexists s1, _]. change (negb (0 =? 0)) with false. cbn iota.
  destruct Hro as [(d' & Hmo & Hmt & Hdat) Hfi Hn1 Hlg1 [Hwf1 Hv1] Hkeep].
  destruct (vfs_mount_root_run (get_vfs s1) p d' Hmo) as (o2 & E2 & Hrm2); [cbn; by rewrite Hn1|].
  set (s2 := put_vfs (set_vfs_ready 1 (get_vfs s1)) s1). assert (Hb2 : bt_blk s2 = bt_blk s1) by (by destruct s1 as [[] [[]] ?]).
  unfold on_vfs. rewrite (bind_Ret _ _ _ _ _ _ (zoom_Ret get_vfs put_vfs _ s1 _ _ _ E2)). fold s2. change (negb (0 =? 0)) with false. cbn iota.
  assert (Hg2 : get_vfs s2 = set_vfs_ready 1 (get_vfs s1)) by apply get_put_vfs.
  destruct (print_boot_config_run local64 Hl64 s2 p d' hostname motd theme) as (s3 & E3 & Hrm3 & Hmf3 & Hlg3 & Hb3); [unfold boot_root; by rewrite Hg2|done|done|done|].
  rewrite (bind_Ret _ _ _ _ _ _ E3). assert (Hblk : bt_blk s3 = bt_blk s1) by congruence.
  assert (Hlog : bt_log s3 = bt_log s) by (rewrite Hlg3; exact Hlg1).
  assert (Hvd3 : vda s3 = vda s) by (unfold vda in *; by rewrite Hblk).
  assert (Hmt3 : forall pv dv, vda s = Some pv -> mountable s pv dv -> mountable s3 pv dv).
  { intros pv dv Hpv Hmv. unfold mountable. rewrite Hblk. by apply Hkeep. }
  destruct (mount_logfs_run local_header s3) as (s4 & o4 & E4 & Hb4 & Hv4 & Hres); try (by rewrite ?Hblk, ?Hlog).
  { intros q Hq. rewrite Hvd3 in Hq. destruct (Hvda q Hq) as (dv & Hdv). exists dv. by apply Hmt3. }
  assert (Hg4 : get_vfs s4 = get_vfs s3) by (unfold get_vfs; by rewrite Hb4, Hv4). rewrite E4.
  assert (Hmf : mounted_files (vfs_tinyfs (get_vfs s3)) = image_files data) by (rewrite Hmf3, Hg2; exact Hfi).
  exists s4, d', (o1 ++ o2), o4. split.
  { f_equal. rewrite <- app_assoc, Hg4. do 3 f_equal. unfold config_output. by rewrite !(boot_text_same (get_vfs s2) (get_vfs s3) d') by exact Hmf3. }
  unfold boot_root. rewrite Hg4. split; [exact Hrm3|]. split; [exact Hdat|]. split; [exact Hmf|].
  assert (Hlo : log_of s3 = log_of s).
  { unfold log_of. rewrite Hvd3. destruct (vda s) as [q|] eqn:Hq; [|done]. cbn [mbind option_bind]. destruct (Hvda q eq_refl) as (dv & Hdv).
    destruct (Hmt3 q dv eq_refl Hdv) as (-> & _). destruct Hdv as (-> & _). done. }
  rewrite Hlo in Hres. unfold log_of in *. destruct (vda s) as [q|] eqn:Hq; cbn [mbind option_bind] in *; [|exact Hres].
  destruct (devs (bt_blk s) !! q) as [dv|] eqn:Hdv; cbn [mbind option_bind] in *; [|exact Hres].
  destruct (formatted dv) eqn:Hf; [|exact Hres]. split; [exact Hres|]. intros ->.
  unfold root_of in Hroot. rewrite Hq, Hdv in Hroot. destruct (image_ok (dev_data dv)) eqn:Hi; [by rewrite (image_not_formatted dv Hi) in Hf|].
  destruct (image_fits image d && image_ok (with_image image d)); [|done]. injection Hroot as -> _.
  apply List.find_some in Hq as [_ Hq]. congruence.
Qed.

(** ** A start *)

(** The file etc/hostname. *)
Definition boot_image : mem :=
  bytes32 TINYFS_MAGIC ++ bytes32 1 ++ bytes32 1 ++ bytes32 20 ++ bytes32 96 ++
  (lit "etc/hostname" ++ replicate 52 0 ++ bytes32 96 ++ bytes32 5 ++ bytes32 0) ++ lit (nl "box ") ++ replicate 27 0.
Definition empty_disk (nm : string) : block_device list_disk := list_device nm (ListDisk 32 8 (replicate 256 0)).
Definition boot_sample : boot list_disk :=
  Boot (Blk [empty_disk "vda"; empty_disk "ram0"] [0; 1; 0; 0; 0; 0; 0; 0]%nat 2)
    (Vfs unmounted_sample (VfsFileInfo NameRoot 0 0) (replicate 64 0) 0) (log_unmounted 16).

Lemma empty_disk_ok nm : is_Some (cval (cstr nm)) -> disk_device (empty_disk nm).
Proof. intros Hn. apply list_device_disk; [|done]. by split_and!. Qed.
Lemma boot_sample_starting : starting boot_sample 1 (empty_disk "ram0").
Proof.
  assert (H0 : disk_device (empty_disk "vda")) by (apply empty_disk_ok; by eexists).
  assert (H1 : disk_device (empty_disk "ram0")) by (apply empty_disk_ok; by eexists).
  split.
  - split; [done|done|by apply (bool_decide_unpack (NoDup _)); vm_compute|]. intros p Hp.
    assert (Hc : p = 0%nat \/ p = 1%nat) by (apply elem_of_cons in Hp as [|Hp%list_elem_of_singleton]; [by left|by right]).
    destruct Hc as [-> | ->]; [exists (empty_disk "vda"), (cstr "vda")|exists (empty_disk "ram0"), (cstr "ram0")]; split_and!; try done; by eexists.
  - split; try done. by apply Forall_replicate.
  - done.
  - by split_and!.
  - reflexivity.
  - intros p Hp. exists (empty_disk "vda"). assert (Hz : p = 0%nat) by (vm_compute in Hp; congruence). subst p. by split_and!.
Qed.

Lemma start_up_spec_witness : exists s' o1 o2,
  mount_file_systems (replicate 64 7) boot_image (replicate 32 7) (replicate 128 7) (replicate 128 7) (replicate 128 7) (Some 1%nat) boot_sample =
    Ret tt s' (o1 ++ lit (nl "hostname: box") ++ o2) /\
  mounted_files (vfs_tinyfs (get_vfs s')) = [slice boot_image 20 76] /\ logfs_ready (bt_log s') = 0.
Proof.
  pose proof (start_up_spec (replicate 64 7) (replicate 32 7) boot_image boot_sample 1 (empty_disk "ram0") (replicate 128 7) (replicate 128 7) (replicate 128 7)
    eq_refl eq_refl eq_refl eq_refl eq_refl boot_sample_starting eq_refl eq_refl eq_refl) as T.
  set (data := splice (replicate 256 0) 0 boot_image). assert (Hr : root_of boot_image boot_sample 1 (empty_disk "ram0") = Some (1%nat, data)) by (vm_compute; reflexivity).
  assert (Hl : log_of boot_sample = None) by (vm_compute; reflexivity).
  rewrite Hr, Hl in T. destruct T as (s' & d' & o1 & o2 & E & Hrm & Hd & Hf & Hlog). exists s', o1, o2.
  split; [|split; [rewrite Hf; vm_compute; reflexivity|exact Hlog]]. rewrite E. do 3 f_equal.
  assert (Hdev : disk_device d') by (destruct Hrm as [Hm _ _]; destruct (mt_disk _ _ _ Hm) as (_ & Hdd & _); exact Hdd).
  set (v := Vfs (TinyFS [] None (slice data 0 20) (image_files data) [] 0) (VfsFileInfo NameRoot 0 0) [] 0 : vfs list_disk).
  assert (Hfa : forall t, file_at (get_vfs s') t = file_at v t) by (intros t; apply file_at_same; rewrite Hf; vm_compute; reflexivity).
  unfold config_output, boot_text. rewrite !Hfa.
  replace (file_at v (lit "/etc/hostname")) with (Some (lit "etc/hostname", slice boot_image 20 76)) by (vm_compute; reflexivity).
  replace (file_at v (lit "/etc/motd")) with (@None (list Z * mem)) by (vm_compute; reflexivity).
  replace (file_at v (lit "/etc/theme")) with (@None (list Z * mem)) by (vm_compute; reflexivity).
  cbn [mbind option_bind]. unfold disk_range. rewrite <- (capacity_data d' Hdev), Hd. vm_compute. reflexivity.
Defined.
